(* ===== verification/_CoqProject ===== *)
-Q . S2P
Prelude.v
PyStr.v
PyFloat.v
PyVal.v
PyFacts.v
StateLogic.v
Json.v
Sha256.v
JsonText.v
Persistence.v
PersistenceChain.v
PersistenceSegments.v
PersistenceAudit.v
ClusterSecrets.v
WitnessAuth.v
WitnessStore.v
WitnessQuorum.v
WitnessLease.v
WitnessServer.v
WitnessSystem.v
Replication.v
PeerReplication.v
PlannedHandoff.v
Handoff.v
HandoffEvidence.v
SessionChannel.v
AuthorityLeases.v
Reconciliation.v
TemporaryOwnership.v
Timing.v
Compatibility.v
Adaptation.v
AdaptationUndo.v
Venue.v
VenueFacts.v
PublicRecord.v
PublicRecordFacts.v
PublicRecordChecks.v
HttpAuthorization.v
DawSession.v
DawStore.v
DawFacts.v
DawRequests.v
DawEdits.v
PunchCapture.v
OverloadPolicy.v
Notation.v
NotationCapture.v
Technology.v
ShowData.v
ShowState.v
ShowPatch.v
ShowRestore.v
ShowCommands.v
ShowRanges.v
ShowRecovery.v
ShowRevisions.v
CivilTime.v
Governance.v
GovernanceProposals.v
GovernanceVotes.v
GovernanceTypes.v
GovernanceAdoption.v
GovernanceBallots.v
Runtime.v
RuntimeFailover.v
RuntimeHandoff.v
RuntimeFacts.v
RuntimeAuthority.v
RuntimeCommands.v
RuntimeCluster.v
UserProfiles.v
Interoperability.v
CommunityAuth.v
RuntimeCommunity.v
DeviceIdentity.v
DeviceHotplug.v
MidiMapping.v
RuntimeVenue.v
AudioActivation.v
