(* ===== verification/Prelude.v ===== *)
(** * StageForge control plane: a verification library

    The control plane of StageForge is the Python program under src/backend/: one
    process per node of a show. A node keeps the authoritative show state,
    answers control points, plans venues, captures notation, keeps DAW sessions,
    counts the votes of its community, publishes a signed record of them and fails
    over to a standby node under leases granted by a quorum of witness
    processes. This library translates its core into Rocq definitions and proves
    what makes it correct. Definitions keep the names of the source and are
    executable, so a witness evaluates them on a concrete input.

    ** How Python is modelled

    - PyStr: strings over the code points 0..255 and their UTF-8 bytes. PyFloat:
      binary64 on the Standard Library's [SpecFloat], conversions correctly
      rounded. PyVal: the values [json.loads] can build, the exceptions the
      program tells apart, the error monad [res] (a raise is a value) and the
      monad [st] of operations on a state, where an exception keeps the
      assignments made before it; dicts are association lists in insertion
      order. PyFacts, StateLogic: their laws, a weakest precondition, and a logic
      of invariants ([keeps]) with its hint database.
    - Integers are [Z]: Python's do not overflow. Where the code checks a machine
      width (Timing, SessionChannel, the 32-bit words of Sha256) the width is
      written out.
    - Json, JsonText: [json.loads] and [json.dumps] as parser and writer on
      characters, with the round trip between them. Sha256: the digest and HMAC,
      executable. Nothing is assumed about them: a theorem about authenticity
      says that the tag of the very content was presented, or exhibits the
      collision it would take among the texts that were hashed.
    - What the environment answers is an argument: clocks (one reading where the
      code reads once), drawn identifiers, what a system call returns or that it
      fails, the bytes of a file, the reply of a peer, the answer of the native
      engine. A lock makes its method one step.

    ** The parts, and the files that model them

    - Durable state (persistence.py): Persistence; PersistenceChain (hash-linked
      files), PersistenceSegments (the segment directory), PersistenceAudit (the
      refinement of one growing log by every operation under any failing call).
    - Keys (cluster_secrets.py): ClusterSecrets.
    - Witnesses (witness.py, witness_server.py): WitnessAuth (signed
      requests and responses), WitnessStore (leases), WitnessQuorum and
      WitnessLease (the client of a node), WitnessServer (the HTTP handler),
      WitnessSystem (nodes and witnesses interleaved).
    - Replication (replication.py, peer_replication.py): Replication,
      PeerReplication.
    - Handoff (planned_handoff.py, handoff.py): PlannedHandoff (offers and
      receipts), Handoff and HandoffEvidence (the decision to take over).
    - Authenticated frames (session_channel.py): SessionChannel. Roles of HTTP
      control requests (http_authorization.py): HttpAuthorization.
    - The public record (public_record.py): PublicRecord; PublicRecordFacts
      (the refinement of an abstract log), PublicRecordChecks (quorums and
      references).
    - Community governance (community_governance.py): CivilTime (the calendar and
      the ISO texts of datetime), Governance, GovernanceProposals,
      GovernanceVotes (the operations, and all requests as one type);
      GovernanceTypes, GovernanceAdoption, GovernanceBallots. Account sessions
      (community_auth.py): CommunityAuth. The community operations of the runtime
      on both (runtime.py): RuntimeCommunity.
    - Other installations: UserProfiles (user_profiles.py) and Interoperability
      (interoperability_sessions.py: the capability registry, profile projections,
      signed offers, and the sessions negotiated on them).
    - Operator leases (authority_leases.py): AuthorityLeases. Ownership of
      temporary resources (temporary_ownership.py): TemporaryOwnership.
    - The show (state.py): ShowData, ShowState, ShowPatch, ShowRestore,
      ShowCommands (the operations of one player; all commands as one type),
      ShowRanges, ShowRecovery, ShowRevisions.
    - Around the show: Compatibility (compatibility.py), Venue and VenueFacts
      (venue.py), Adaptation and AdaptationUndo (adaptation.py), Reconciliation
      (reconciliation.py), Notation and NotationCapture (notation.py), Technology
      (technology.py), Timing (timing.py), OverloadPolicy
      (overload_policy.py), PunchCapture (punch_capture.py).
    - DAW sessions (daw_session.py, clip_fades.py): DawSession and DawStore;
      DawFacts, DawRequests, DawEdits.
    - The runtime that composes a node (runtime.py): Runtime (with the
      physical outputs), RuntimeFailover, RuntimeHandoff, on the interface of StateLogic (a
      component's state inside a larger one); RuntimeFacts, RuntimeAuthority,
      RuntimeCommands; RuntimeVenue (venue layers and their reconciliation, on the
      registries above); RuntimeCluster (all nodes and witnesses together).
    - Devices: DeviceIdentity (midi_identity.py, audio_identity.py: what an endpoint
      is identified by, the stores that pin it), DeviceHotplug (the scans of
      runtime.py and the command lines of native_engine.py they send),
      AudioActivation (how a slot's stream is started, stopped and reported:
      runtime.py, audio_preflight.py, audio_conversion.py), MidiMapping
      (midi_mapping.py: learned controls and the actions they give).

    ** What the theorems show

    - One leader: in every run of a cluster at most one node has authority
      (RuntimeCluster), because each run of the nodes' requests is a run of the
      witness system, in which at most one valid lease exists (WitnessSystem), a
      store never grants one while another holds (WitnessStore, against an
      abstract specification of its memory and its file, writes that fail
      included) and a lease rests on a quorum (WitnessLease). A
      node is promoted only on a lease, releases it only once silenced, and a
      standby's outputs stay silent (RuntimeAuthority, RuntimeFacts).
    - Nothing forged, replayed or reordered: WitnessAuth, WitnessServer,
      SessionChannel, Replication, PlannedHandoff, PersistenceChain,
      PublicRecordChecks (a witnessed record was attested by a quorum of distinct
      witnesses).
    - Nothing done that was not allowed: HttpAuthorization (a control request is granted
      exactly to the roles of its class, and a broken policy refuses all),
      GovernanceAdoption (what is adopted was voted for, and stays),
      GovernanceBallots (every vote was cast by invitation, once, for good),
      RuntimeCommunity (the same through the service: who votes was mailed the
      credential or holds a session signed for the account; a revoked session never
      votes; policies are patched only by an adopted change or while the community
      is empty), Interoperability (a session is active only after an authentic, fresh
      offer, an agreed plan and consent), DeviceHotplug (the exact lines a scan
      sends: what left or is known to be another endpoint now is detached or stopped
      first, only endpoints with the pinned identity are attached or selected,
      nothing is started),
      AudioActivation (a stream is started only on a node with authority, acknowledged,
      on an endpoint with the pinned identity that took the very parameters, and
      runs on only if a new scan still finds that endpoint), RuntimeVenue (no change
      of a venue arms an output; with the layer its operator leases and evidence
      end, unless the request fails at a write of the state file or the receipt).
    - Nothing lost: PersistenceAudit (refinement, and recovery from any failed
      append), PersistenceChain (round trip), AdaptationUndo (a rollback restores
      the replaced layer), RuntimeCommands (a retried command runs once),
      DawEdits (undo and redo), PublicRecordFacts (the files refine a log that only
      grows), PublicRecordChecks (published references resolve), CommunityAuth (issued
      sessions verify until they expire) and UserProfiles (saved profiles reload).
    - State stays well-formed under every request, refused ones included:
      ShowRecovery with ShowRanges, ShowRevisions, NotationCapture, HandoffEvidence,
      AuthorityLeases, DawRequests (the data types of DAW documents),
      GovernanceTypes (those of the governance document, on which every tally can
      be made), DeviceIdentity (what is observed never changes what is pinned),
      MidiMapping (one mapping for a control, bounded queues).
    - Plans do what they say: VenueFacts, Timing, PunchCapture (equal to a
      frame-by-frame reference, and its loop ends), DawEdits (equal to the
      timeline), OverloadPolicy, Technology, Reconciliation, MidiMapping (the
      nearest note of the key; an action runs once).
    Each property has a doc comment that starts with its number, and a closed
    [_witness] that applies it to a concrete input where it has a hypothesis.
    [Example]s show the behaviours the code has and its documentation does not
    suggest.

    ** Fuel and bounds

    Recursion that is not structural carries fuel that is proved or chosen to be
    enough: the JSON parser one more than the length of the text (every call
    consumes a character; JsonText proves that written texts parse), the punch
    capture one more than the passes its bound allows ([cut_fuel], PunchCapture
    proves that it is enough), decimal conversions the number of digits. All
    other functions recurse on their data.

    ** What the theorems assume

    - WitnessStore: the lease file is replaced by a rename, so a write takes effect
      or fails. WitnessSystem, RuntimeCluster: one clock for all nodes and witnesses;
      a witness restarts only if it has a file;
      answers are delivered late or never but unchanged (their signatures are
      WitnessAuth); a signed transfer reaches a witness only while its node is
      suspended by it.
    - Persistence: a file's stamp changes at every write; an append is cut short
      but not reordered; sequence numbers stay below 10^20, the width of a segment
      name. One process uses a directory.
    - AdaptationUndo: drawn identifiers are fresh, and no committed transaction is
      validated again; RuntimeVenue, where it says when a context ends, starts from
      such a stack of layers.
    - Runtime: each clock is read once in a call; the native engine's answers are
      arguments, and whether its process is alive is not part of the state.
      AudioActivation: the show's audio section does not change within one call,
      and the ALSA library's answers at each stage are arguments.
    - PublicRecord: an append writes its whole line or nothing, the policy file
      stays what it was between a verification's readings; records are fewer than
      10^20.
    - Governance: the clock stays within the years 1 to 9999. Everything else the
      environment answers is arbitrary: a disk that fails, a mailer or a public
      record that refuses.
    - UserProfiles: the file is what parsing it gives. CommunityAuth: numbers of a
      session have at most twenty digits, which the clock and the generations do.
    - RuntimeVenue: the devices local discovery finds are an argument (DeviceHotplug
      models how they are found). DeviceIdentity: a path resolves, and a file reads,
      the same throughout a scan. MidiMapping: the power of two floats is an argument.
    - DawStore: the files hold what the store wrote, as JSON reads it back; a
      write replaces a file or does not.

    ** Not modelled

    - HTTP routing, threads, sockets and processes (dev_server.py,
      http_workload.py, http_credentials.py, local_ipc.py, stage_launcher.py,
      windows_named_pipe.py and the other Windows files), mail and the store of
      secrets: input and output around the modelled components.
    - HTTP deployment policy and the check of a witness topology (witness_topology.py),
      which read URLs and addresses with urllib and ipaddress.
    - The rest of the native engine bridge (native_engine.py: its process and the
      commands other than those of scans), audio preflight, and the rest of the DAW
      (playback, capture, media, sampler banks): shared memory, subprocesses, numpy
      arrays and device callbacks.
    - The parts of runtime.py that forward to those.
    - Qualification reports and continuous-integration scripts: evidence the
      modelled program does not read. *)

From stdpp Require Export base tactics list gmap strings option numbers.
From Stdlib Require Export ZArith Lia.
From stdpp Require Export strings list.
From Stdlib Require Export Ascii.

#[global] Open Scope Z_scope.

(** ** Blocker lists *)

(** [not l], and the list with one conditional entry, as the reports build them. *)
Definition null {A} (l : list A) : bool := match l with [] => true | _ => false end.
Definition when {A} (b : bool) (a : A) : list A := if b then [a] else [].

Lemma null_eq {A} (l : list A) : null l = true <-> l = [].
Proof. by destruct l. Qed.

Lemma null_empty {A} (l : list A) : null l = true <-> forall x, x ∉ l.
Proof.
  destruct l as [|y l]; cbn; split; try done.
  - intros _ x H. inversion H.
  - intros H. exfalso. apply (H y). left.
Qed.

Lemma null_app {A} (a b : list A) : null (a ++ b) = null a && null b.
Proof. by destruct a. Qed.

Lemma null_when {A} b (a : A) : null (when b a) = negb b.
Proof. by destruct b. Qed.

Create Rewrite HintDb blockers.
#[export] Hint Rewrite @null_app @null_when : blockers.
