(* ===== verification/PyStr.v ===== *)
(** * Python strings

    The operations of Python's [str] the program uses, over strings whose
    characters are the code points 0..255 (one [ascii] per character), and
    UTF-8 encoding of such a string into bytes (again one [ascii] per byte). *)

From S2P Require Import Prelude.
From stdpp Require Import pretty.


#[local] Open Scope string_scope.
#[local] Open Scope list_scope.
#[local] Open Scope Z_scope.

Definition chars (s : string) : list ascii := String.list_ascii_of_string s.

Definition of_chars (l : list ascii) : string := String.string_of_list_ascii l.

Definition code (c : ascii) : Z := Z.of_nat (nat_of_ascii c).

Definition chr (z : Z) : ascii := ascii_of_nat (Z.to_nat z).

(** [len(s)]. *)
Definition str_len (s : string) : Z := Z.of_nat (String.length s).

Definition in_range (lo hi : Z) (c : ascii) : bool := (lo <=? code c) && (code c <=? hi).

(** [c.isspace()]: the white space among the code points 0..255. *)
Definition is_space (c : ascii) : bool :=
  in_range 9 13 c || in_range 28 32 c || (code c =? 133) || (code c =? 160).

Definition is_digit (c : ascii) : bool := in_range 48 57 c.

(** [c.isalnum()] on the code points 0..255. *)
Definition is_alnum (c : ascii) : bool :=
  is_digit c || in_range 65 90 c || in_range 97 122 c
  || (code c =? 170) || (code c =? 178) || (code c =? 179) || (code c =? 181)
  || (code c =? 185) || (code c =? 186) || in_range 188 190 c
  || in_range 192 214 c || in_range 216 246 c || in_range 248 255 c.

(** [s.isascii()]. *)
Definition is_ascii (s : string) : bool := forallb (fun c => code c <? 128) (chars s).

(** [c.lower()] on the code points 0..255. *)
Definition lower_char (c : ascii) : ascii :=
  if in_range 65 90 c || (in_range 192 222 c && negb (code c =? 215))
  then chr (code c + 32) else c.

Definition lower (s : string) : string := of_chars (map lower_char (chars s)).

Fixpoint drop_while (p : ascii -> bool) (l : list ascii) : list ascii :=
  match l with
  | [] => []
  | c :: l' => if p c then drop_while p l' else l
  end.

Definition rstrip_by (p : ascii -> bool) (s : string) : string :=
  of_chars (rev (drop_while p (rev (chars s)))).

Definition lstrip_by (p : ascii -> bool) (s : string) : string :=
  of_chars (drop_while p (chars s)).

(** [s.strip()]. *)
Definition strip (s : string) : string := rstrip_by is_space (lstrip_by is_space s).

(** [s.rstrip("/")]. *)
Definition rstrip_char (c : ascii) (s : string) : string := rstrip_by (Ascii.eqb c) s.

(** [s[:n]]. *)
Definition slice (n : nat) (s : string) : string := of_chars (firstn n (chars s)).

(** [s.startswith(p)]. *)
Definition starts_with (p s : string) : bool := String.prefix p s.

(** [s.endswith(p)]. *)
Definition ends_with (p s : string) : bool :=
  String.eqb (of_chars (skipn (length (chars s) - length (chars p)) (chars s))) p.

(** [p in s]. *)
Fixpoint contains (p s : string) : bool :=
  starts_with p s || match s with EmptyString => false | String _ s' => contains p s' end.

(** [s.capitalize()] on the first character's lower-case ASCII letter. *)
Definition upper_char (c : ascii) : ascii := if in_range 97 122 c then chr (code c - 32) else c.
Definition capitalize (s : string) : string :=
  match chars (lower s) with [] => "" | c :: l => of_chars (upper_char c :: l) end.

(** [s.split(sep)] for a one-character separator. *)
Fixpoint split_on (sep : ascii) (current l : list ascii) : list (list ascii) :=
  match l with
  | [] => [rev current]
  | c :: l' => if Ascii.eqb c sep then rev current :: split_on sep [] l' else split_on sep (c :: current) l'
  end.
Definition split_char (sep : ascii) (s : string) : list string := map of_chars (split_on sep [] (chars s)).

(** [x or default] on strings. *)
Definition str_or (s default : string) : string := if String.eqb s "" then default else s.

(** [sep.join(parts)]. *)
Fixpoint join (sep : string) (parts : list string) : string :=
  match parts with
  | [] => ""
  | [p] => p
  | p :: rest => p +:+ sep +:+ join sep rest
  end.

(** Code-point order of strings, as [sorted] and [sort_keys] use it. *)
Fixpoint str_ltb (s t : string) : bool :=
  match s, t with
  | _, EmptyString => false
  | EmptyString, String _ _ => true
  | String a s', String b t' =>
      if Ascii.eqb a b then str_ltb s' t' else code a <? code b
  end.

Definition str_leb (s t : string) : bool := negb (str_ltb t s).

(** [str(z)] for an integer: its decimal digits with a minus sign. *)
Definition dec (z : Z) : string := pretty z.

(** UTF-8: one byte below 128, two bytes for 128..255. *)
Definition utf8_char (c : ascii) : list ascii :=
  if code c <? 128 then [c]
  else [chr (192 + code c / 64); chr (128 + code c mod 64)].

Definition utf8 (s : string) : string := of_chars (concat (map utf8_char (chars s))).

Definition hex_digit (z : Z) : ascii := if z <? 10 then chr (48 + z) else chr (87 + z).

(** Lower-case hexadecimal of a byte string. *)
Definition hex (bs : string) : string :=
  of_chars (concat (map (fun c => [hex_digit (code c / 16); hex_digit (code c mod 16)]) (chars bs))).

Definition newline : string := String (chr 10) "".

Definition dquote : ascii := chr 34.

Definition squote : ascii := chr 39.

Definition backslash : ascii := chr 92.

(** The escape Python's [repr] uses for a character inside quote [q]. *)
Definition repr_char (q c : ascii) : list ascii :=
  if Ascii.eqb c q || Ascii.eqb c backslash then [backslash; c]
  else if code c =? 10 then chars "\n"
  else if code c =? 13 then chars "\r"
  else if code c =? 9 then chars "\t"
  else if (code c <? 32) || in_range 127 160 c || (code c =? 173)
  then chars "\x" ++ [hex_digit (code c / 16); hex_digit (code c mod 16)]
  else [c].

(** [repr(s)]: single quotes unless the text has a single and no double quote. *)
Definition repr_str (s : string) : string :=
  let q := if existsb (Ascii.eqb squote) (chars s) && negb (existsb (Ascii.eqb dquote) (chars s))
           then dquote else squote in
  of_chars (q :: concat (map (repr_char q) (chars s)) ++ [q]).

(** The escape [json.dumps(..., ensure_ascii=False)] uses for a character. *)
Definition json_char (c : ascii) : list ascii :=
  if Ascii.eqb c dquote || Ascii.eqb c backslash then [backslash; c]
  else if code c =? 10 then chars "\n"
  else if code c =? 13 then chars "\r"
  else if code c =? 9 then chars "\t"
  else if code c =? 8 then chars "\b"
  else if code c =? 12 then chars "\f"
  else if code c <? 32
  then chars "\u00" ++ [hex_digit (code c / 16); hex_digit (code c mod 16)]
  else [c].

Definition json_str (s : string) : string :=
  of_chars (dquote :: concat (map json_char (chars s)) ++ [dquote]).

(** The same with [ensure_ascii=True]: everything outside space..tilde is escaped. *)
Definition json_ascii_char (c : ascii) : list ascii :=
  if code c <? 127 then json_char c
  else chars "\u00" ++ [hex_digit (code c / 16); hex_digit (code c mod 16)].

Definition json_ascii (s : string) : string :=
  of_chars (dquote :: concat (map json_ascii_char (chars s)) ++ [dquote]).

(** ** Decimal literals *)

(** A run of digits where a single underscore may stand between two digits:
    the digits' values and the text after the run. [None] when no digit starts
    the run or an underscore is not between digits. *)
Fixpoint digits_after (l : list ascii) : option (list Z * list ascii) :=
  match l with
  | [] => Some ([], [])
  | c :: l' =>
      if is_digit c then
        match digits_after l' with
        | Some (ds, rest) => Some ((code c - 48) :: ds, rest)
        | None => None
        end
      else if Ascii.eqb c (chr 95) then
        match l' with
        | d :: _ => if is_digit d then digits_after l' else None
        | [] => None
        end
      else Some ([], l)
  end.

Definition digits (l : list ascii) : option (list Z * list ascii) :=
  match l with
  | c :: _ => if is_digit c then digits_after l else None
  | [] => None
  end.

Definition digits_value (ds : list Z) : Z := fold_left (fun acc d => acc * 10 + d) ds 0.

Definition split_sign (l : list ascii) : bool * list ascii :=
  match l with
  | c :: l' => if Ascii.eqb c (chr 45) then (true, l')
               else if Ascii.eqb c (chr 43) then (false, l') else (false, l)
  | [] => (false, l)
  end.

(** [int(s)] on a string; [None] where Python raises [ValueError]. Python
    refuses more than 4300 digits. *)
Definition parse_int (s : string) : option Z :=
  let '(neg, l) := split_sign (chars (strip s)) in
  match digits l with
  | Some (ds, []) =>
      if (4300 <? Z.of_nat (length ds)) then None
      else Some (if neg then - digits_value ds else digits_value ds)
  | _ => None
  end.

(** [s.lstrip("-").isdigit()] for the code points 0..255. *)
Definition is_digit_str (s : string) : bool :=
  negb (String.eqb s "")
  && forallb (fun c => is_digit c || (code c =? 178) || (code c =? 179) || (code c =? 185)) (chars s).

(** [s.partition-like split(".", 1)[0]], [None] when there is no dot. *)
Fixpoint before_char (c : ascii) (l : list ascii) : option (list ascii) :=
  match l with
  | [] => None
  | d :: l' => if Ascii.eqb c d then Some [] else option_map (cons d) (before_char c l')
  end.
