(* ===== verification/PyFloat.v ===== *)
(** * Python floats

    IEEE 754 binary64 values as the Standard Library's executable
    [SpecFloat.spec_float] at precision 53 and exponent bound 1024: arithmetic
    and comparison, conversion from integers and decimal literals (correctly
    rounded, ties to even), truncation, [round(x, n)] and [repr(x)]. *)

From S2P Require Import Prelude PyStr.
From Stdlib Require Import SpecFloat.

#[local] Open Scope string_scope.
#[local] Open Scope list_scope.
#[local] Open Scope Z_scope.

Abbreviation float := spec_float.

Definition prec : Z := 53.
Definition emax : Z := 1024.

Definition fadd (x y : float) : float := SFadd prec emax x y.
Definition fsub (x y : float) : float := SFsub prec emax x y.
Definition fmul (x y : float) : float := SFmul prec emax x y.
Definition fdiv (x y : float) : float := SFdiv prec emax x y.

Definition flt (x y : float) : bool := SFltb x y.
Definition fle (x y : float) : bool := SFleb x y.
Definition feq (x y : float) : bool := SFeqb x y.

Definition is_nan (x : float) : bool := match x with S754_nan => true | _ => false end.

(** The nearest float to an integer; an infinity when it is out of range. *)
Definition float_of_Z (z : Z) : float := binary_normalize prec emax z 0 false.

(** The nearest float to [n / d] for positive [n] and [d]. *)
Definition float_of_ratio (neg : bool) (n d : positive) : float :=
  let '(m, e, l) := SFdiv_core_binary prec emax (Zpos n) 0 (Zpos d) 0 in
  binary_round_aux prec emax neg m e l.

Definition pow10 (n : Z) : Z := 10 ^ n.

(** The nearest float to [(-1)^neg * m * 10^e]. *)
Definition float_of_dec (neg : bool) (m e : Z) : float :=
  match m with
  | Zpos p =>
      if 0 <=? e then
        (if 400 <? e then S754_infinity neg
         else let f := float_of_Z (m * pow10 e) in if neg then SFopp f else f)
      else if e <? - (400 + 4 * Z.log2 m) then S754_zero neg
      else float_of_ratio neg p (Z.to_pos (pow10 (- e)))
  | _ => S754_zero neg
  end.

(** Python's [max(a, b)] and [min(a, b)] on floats: the second argument only
    replaces the first when the comparison holds. *)
Definition fmax (a b : float) : float := if flt a b then b else a.
Definition fmin (a b : float) : float := if flt b a then b else a.

(** Truncation toward zero, [None] on an infinity or a NaN. *)
Definition ftrunc (x : float) : option Z :=
  match x with
  | S754_zero _ => Some 0
  | S754_finite s m e =>
      let a := if 0 <=? e then Zpos m * 2 ^ e else Zpos m / 2 ^ (- e) in
      Some (if s then - a else a)
  | _ => None
  end.

(** [math.floor(x)], [None] on an infinity or a NaN. *)
Definition ffloor (x : float) : option Z :=
  match x with
  | S754_zero _ => Some 0
  | S754_finite s m e =>
      let sm := if s then Zneg m else Zpos m in
      Some (if 0 <=? e then sm * 2 ^ e else sm / 2 ^ (- e))
  | _ => None
  end.

Definition fabs (x : float) : float := SFabs x.

(** Exact comparison of a finite float with an integer. *)
Definition float_eq_Z (x : float) (z : Z) : bool :=
  match x with
  | S754_zero _ => z =? 0
  | S754_finite s m e =>
      let sm := if s then Zneg m else Zpos m in
      if 0 <=? e then sm * 2 ^ e =? z else sm =? z * 2 ^ (- e)
  | _ => false
  end.

(** The magnitude of a finite nonzero float as a fraction of positives. *)
Definition ratio_of (m : positive) (e : Z) : Z * Z :=
  if 0 <=? e then (Zpos m * 2 ^ e, 1) else (Zpos m, 2 ^ (- e)).

(** [n / d] to the nearest integer, ties to even. *)
Definition div_even (n d : Z) : Z :=
  let q := n / d in
  let r := n mod d in
  if 2 * r <? d then q
  else if d <? 2 * r then q + 1
  else if Z.even q then q else q + 1.

(** [round(x)]: the nearest integer, ties to even; [None] on an infinity or a NaN. *)
Definition fround_int (x : float) : option Z :=
  match x with
  | S754_zero _ => Some 0
  | S754_finite s m e =>
      let '(a, b) := ratio_of m e in
      let z := div_even a b in Some (if s then - z else z)
  | _ => None
  end.

(** [round(x, n)] for [0 <= n]: the exact value rounded to [n] decimals, ties
    to even, then to the nearest float. *)
Definition fround (n : Z) (x : float) : float :=
  match x with
  | S754_finite s m e =>
      let '(a, b) := ratio_of m e in
      float_of_dec s (div_even (a * pow10 n) b) (- n)
  | _ => x
  end.

(** ** Decimal text of a float *)

(** [n / d * 10^k] as a fraction. *)
Definition scale10 (n d k : Z) : Z * Z :=
  if 0 <=? k then (n * pow10 k, d) else (n, d * pow10 (- k)).

(** The decimal point position [k] with [10^(k-1) <= n/d < 10^k], searched
    downwards for [n < d]. *)
Fixpoint down_point (fuel : nat) (n d k : Z) : Z :=
  match fuel with
  | O => k
  | S fuel' => if d <=? n * 10 then k else down_point fuel' (n * 10) d (k - 1)
  end.

Definition dec_point (n d : Z) : Z :=
  if d <=? n then Z.of_nat (String.length (dec (n / d))) else down_point 400 n d 0.

(** [k] significant digits of [n/d] and the decimal point position. *)
Definition sig_digits (n d k : Z) : Z * Z :=
  let p := dec_point n d in
  let '(a, b) := scale10 n d (k - p) in
  let r := div_even a b in
  if r =? pow10 k then (pow10 (k - 1), p + 1) else (r, p).

(** The fewest digits (at most 17) that read back as the same float. *)
Fixpoint shortest (fuel : nat) (m : positive) (e k : Z) : Z * Z * Z :=
  let '(n, d) := ratio_of m e in
  let '(r, p) := sig_digits n d k in
  match fuel with
  | O => (r, p, k)
  | S fuel' =>
      if feq (float_of_dec false r (p - k)) (S754_finite false m e) then (r, p, k)
      else shortest fuel' m e (k + 1)
  end.

Definition zeros (n : Z) : list ascii := repeat (chr 48) (Z.to_nat n).

Definition exponent_text (x : Z) : list ascii :=
  let a := Z.abs x in
  chars (if x <? 0 then "e-" else "e+") ++ (if a <? 10 then [chr 48] else []) ++ chars (dec a).

(** [repr] of the positive float [m * 2^e]: fixed notation for a decimal point
    position in -3..16, scientific otherwise. *)
Definition repr_pos (m : positive) (e : Z) : list ascii :=
  let '(r, p, k) := shortest 16 m e 1 in
  let ds := chars (dec r) in
  let dot := chr 46 in
  if (-4 <? p) && (p <=? 16) then
    if p <=? 0 then chars "0." ++ zeros (- p) ++ ds
    else if k <=? p then ds ++ zeros (p - k) ++ chars ".0"
    else firstn (Z.to_nat p) ds ++ dot :: skipn (Z.to_nat p) ds
  else match ds with
       | d :: ((_ :: _) as t) => d :: dot :: t ++ exponent_text (p - 1)
       | _ => ds ++ exponent_text (p - 1)
       end.

Definition repr_float (x : float) : string :=
  match x with
  | S754_nan => "nan"
  | S754_infinity false => "inf"
  | S754_infinity true => "-inf"
  | S754_zero false => "0.0"
  | S754_zero true => "-0.0"
  | S754_finite s m e => of_chars ((if s then [chr 45] else []) ++ repr_pos m e)
  end.

(** [json.dumps] spells the special values differently from [repr]. *)
Definition json_float (x : float) : string :=
  match x with
  | S754_nan => "NaN"
  | S754_infinity false => "Infinity"
  | S754_infinity true => "-Infinity"
  | _ => repr_float x
  end.

(** [f"{x:g}"]: six significant digits, trailing zeros removed. *)
Definition strip_zeros (l : list ascii) : list ascii :=
  rev (drop_while (Ascii.eqb (chr 48)) (rev l)).

Definition point_tail (l : list ascii) : list ascii :=
  match l with [] => [] | _ => chr 46 :: l end.

Definition format_pos (m : positive) (e : Z) : list ascii :=
  let '(n, d) := ratio_of m e in
  let '(r, p) := sig_digits n d 6 in
  let ds := chars (dec r) in
  if (-4 <? p) && (p <=? 6) then
    if p <=? 0 then chars "0." ++ zeros (- p) ++ strip_zeros ds
    else firstn (Z.to_nat p) ds ++ point_tail (strip_zeros (skipn (Z.to_nat p) ds))
  else match ds with
       | c :: t => c :: point_tail (strip_zeros t) ++ exponent_text (p - 1)
       | [] => []
       end.

Definition format_g (x : float) : string :=
  match x with
  | S754_nan => "nan"
  | S754_infinity false => "inf"
  | S754_infinity true => "-inf"
  | S754_zero false => "0"
  | S754_zero true => "-0"
  | S754_finite s m e => of_chars ((if s then [chr 45] else []) ++ format_pos m e)
  end.

(** ** Reading decimal text *)

Definition opt_digits (l : list ascii) : option (list Z * list ascii) :=
  match l with
  | c :: _ => if is_digit c then digits_after l
              else if Ascii.eqb c (chr 95) then None else Some ([], l)
  | [] => Some ([], [])
  end.

Definition parse_exponent (l : list ascii) : option Z :=
  match l with
  | [] => Some 0
  | c :: l' =>
      if Ascii.eqb c (chr 101) then
        let '(neg, l'') := split_sign l' in
        match digits l'' with
        | Some (ds, []) => Some (if neg then - digits_value ds else digits_value ds)
        | _ => None
        end
      else None
  end.

Definition parse_unsigned (neg : bool) (l : list ascii) : option float :=
  match opt_digits l with
  | None => None
  | Some (ip, rest) =>
      let frac := match rest with
                  | c :: rest' => if Ascii.eqb c (chr 46) then opt_digits rest' else Some ([], rest)
                  | [] => Some ([], [])
                  end in
      match frac with
      | None => None
      | Some (fp, rest') =>
          match ip ++ fp, parse_exponent rest' with
          | ((_ :: _) as ds), Some x =>
              Some (float_of_dec neg (digits_value ds) (x - Z.of_nat (length fp)))
          | _, _ => None
          end
      end
  end.

(** [float(s)] on a string; [None] where Python raises [ValueError]. *)
Definition parse_float (s : string) : option float :=
  let '(neg, l) := split_sign (chars (lower (strip s))) in
  let t := of_chars l in
  if String.eqb t "inf" || String.eqb t "infinity" then Some (S754_infinity neg)
  else if String.eqb t "nan" then Some S754_nan
  else parse_unsigned neg l.
