(* ===== verification/PyVal.v ===== *)
(** * Python values, exceptions and effects

    The dynamic values the program moves around (what [json.loads] can build),
    the exceptions it raises and catches, an error monad [res] and a
    state-and-error monad [st] whose state survives a raise, and the
    conversions and dict operations of the language. *)

From S2P Require Import Prelude PyStr PyFloat.
From Stdlib Require Import SpecFloat.

#[local] Open Scope string_scope.
#[local] Open Scope list_scope.
#[local] Open Scope Z_scope.

(** ** Exceptions and the error monad *)

Inductive exn :=
| KeyError (key : string)
| TypeError
| AttributeError
| IndexError
| ValueError (msg : string)
| OverflowError
| PermissionError (msg : string)
| OSError (msg : string)
| StructError
| ZeroDivisionError
| RuntimeError (msg : string)
| RevisionConflict (expected actual : Z) (scope : string).

Inductive res (A : Type) :=
| Ok (a : A)
| Raise (e : exn).
Arguments Ok {A} a.
Arguments Raise {A} e.

#[export] Instance res_ret : MRet res := fun A a => Ok a.
#[export] Instance res_bind : MBind res := fun A B f m =>
  match m with Ok a => f a | Raise e => Raise e end.

(** [except] clauses, by exception class; [PermissionError] is an [OSError]. *)
Definition is_value_error (e : exn) : bool := match e with ValueError _ => true | _ => false end.
Definition is_type_error (e : exn) : bool := match e with TypeError => true | _ => false end.
Definition is_key_error (e : exn) : bool := match e with KeyError _ => true | _ => false end.
Definition is_attribute_error (e : exn) : bool := match e with AttributeError => true | _ => false end.
Definition is_permission_error (e : exn) : bool := match e with PermissionError _ => true | _ => false end.
Definition is_os_error (e : exn) : bool :=
  match e with OSError _ | PermissionError _ => true | _ => false end.

(** [except (TypeError, ValueError)] and [except (KeyError, TypeError, ValueError)]. *)
Definition type_or_value (e : exn) : bool := is_type_error e || is_value_error e.
Definition key_type_value (e : exn) : bool := is_key_error e || type_or_value e.

(** [try: m except <p>: h]. *)
Definition catch {A} (p : exn -> bool) (m : res A) (h : exn -> res A) : res A :=
  match m with
  | Ok a => Ok a
  | Raise e => if p e then h e else Raise e
  end.

Fixpoint map_res {A B} (f : A -> res B) (l : list A) : res (list B) :=
  match l with
  | [] => Ok []
  | a :: l' => b ← f a; bs ← map_res f l'; Ok (b :: bs)
  end.

(** [[x for x in l if f(x)]] when the condition may raise. *)
Fixpoint filter_res {A} (f : A -> res bool) (l : list A) : res (list A) :=
  match l with
  | [] => Ok []
  | x :: l => b ← f x; rest ← filter_res f l; Ok (if b : bool then x :: rest else rest)
  end.

Fixpoint fold_res {A B} (f : B -> A -> res B) (l : list A) (b : B) : res B :=
  match l with
  | [] => Ok b
  | a :: l' => b' ← f b a; fold_res f l' b'
  end.

Definition guard_res (b : bool) (e : exn) : res unit := if b then Ok tt else Raise e.

(** ** State and errors: a raise keeps the state reached so far *)

Definition st (S A : Type) : Type := S -> S * res A.

Definition st_ret {S A} (a : A) : st S A := fun s => (s, Ok a).
Definition st_bind {S A B} (m : st S A) (f : A -> st S B) : st S B := fun s =>
  match m s with
  | (s', Ok a) => f a s'
  | (s', Raise e) => (s', Raise e)
  end.
Definition st_raise {S A} (e : exn) : st S A := fun s => (s, Raise e).
Definition st_get {S} : st S S := fun s => (s, Ok s).
Definition st_put {S} (s : S) : st S unit := fun _ => (s, Ok tt).
Definition st_modify {S} (f : S -> S) : st S unit := fun s => (f s, Ok tt).
Definition st_lift {S A} (m : res A) : st S A := fun s => (s, m).
Definition st_when {S} (b : bool) (m : st S unit) : st S unit := if b then m else st_ret tt.

Fixpoint st_iter {S A} (f : A -> st S unit) (l : list A) : st S unit :=
  match l with
  | [] => st_ret tt
  | a :: l' => st_bind (f a) (fun _ => st_iter f l')
  end.

Declare Scope st_scope.
Delimit Scope st_scope with st.
Notation "'let*' x := m 'in' k" := (st_bind m (fun x => k))
  (at level 10, x binder, m at level 100, k at level 200) : st_scope.
Notation "m ;;; k" := (st_bind m (fun _ => k))
  (at level 199, right associativity) : st_scope.

(** ** Values *)

#[warnings="-register-all"]
Inductive pyval :=
| VNone
| VBool (b : bool)
| VInt (z : Z)
| VFloat (f : float)
| VStr (s : string)
| VList (l : list pyval)
| VDict (d : list (string * pyval)).

(** A dict with string keys, in insertion order. *)
Abbreviation pydict := (list (string * pyval)).

Section pyval_induction.
Context (P : pyval -> Prop).
Context (HNone : P VNone) (HBool : forall b, P (VBool b)) (HInt : forall z, P (VInt z))
        (HFloat : forall f, P (VFloat f)) (HStr : forall s, P (VStr s))
        (HList : forall l, Forall P l -> P (VList l))
        (HDict : forall d, Forall (fun kv => P (snd kv)) d -> P (VDict d)).

Fixpoint pyval_rect' (v : pyval) : P v :=
  match v with
  | VNone => HNone
  | VBool b => HBool b
  | VInt z => HInt z
  | VFloat f => HFloat f
  | VStr s => HStr s
  | VList l => HList l
      ((fix go (l : list pyval) : Forall P l :=
          match l with
          | [] => List.Forall_nil _
          | x :: l' => List.Forall_cons _ _ _ (pyval_rect' x) (go l')
          end) l)
  | VDict d => HDict d
      ((fix go (d : pydict) : Forall (fun kv => P (snd kv)) d :=
          match d with
          | [] => List.Forall_nil _
          | kv :: d' => List.Forall_cons _ _ _ (pyval_rect' (snd kv)) (go d')
          end) d)
  end.
End pyval_induction.

Definition is_dict (v : pyval) : bool := match v with VDict _ => true | _ => false end.
Definition is_list (v : pyval) : bool := match v with VList _ => true | _ => false end.
Definition is_str (v : pyval) : bool := match v with VStr _ => true | _ => false end.
(** [type(v) is int]. *)
Definition is_int (v : pyval) : bool := match v with VInt _ => true | _ => false end.
(** [type(v) is bool]. *)
Definition is_bool (v : pyval) : bool := match v with VBool _ => true | _ => false end.

Definition opt_str (o : option string) : pyval :=
  match o with Some s => VStr s | None => VNone end.
Definition opt_int (o : option Z) : pyval :=
  match o with Some z => VInt z | None => VNone end.

(** [s or None]. *)
Definition str_or_none (s : string) : pyval := if String.eqb s "" then VNone else VStr s.
(** [n or None]. *)
Definition int_or_none (z : Z) : pyval := if z =? 0 then VNone else VInt z.

(** [bool(v)]. *)
Definition truthy (v : pyval) : bool :=
  match v with
  | VNone => false
  | VBool b => b
  | VInt z => negb (z =? 0)
  | VFloat f => match f with S754_zero _ => false | _ => true end
  | VStr s => negb (String.eqb s "")
  | VList l => match l with [] => false | _ => true end
  | VDict d => match d with [] => false | _ => true end
  end.

(** [a or b]. *)
Definition py_or (a b : pyval) : pyval := if truthy a then a else b.

(** ** Dicts *)

Fixpoint dget (d : pydict) (k : string) : option pyval :=
  match d with
  | [] => None
  | (k', v) :: d' => if String.eqb k k' then Some v else dget d' k
  end.

(** [k in d]. *)
Definition dhas (d : pydict) (k : string) : bool := match dget d k with Some _ => true | None => false end.

(** [d.get(k, default)]. *)
Definition dget_or (d : pydict) (k : string) (default : pyval) : pyval :=
  match dget d k with Some v => v | None => default end.

(** [d.get(k)]. *)
Definition dget_none (d : pydict) (k : string) : pyval := dget_or d k VNone.

(** [d[k]]. *)
Definition dindex (d : pydict) (k : string) : res pyval :=
  match dget d k with Some v => Ok v | None => Raise (KeyError k) end.

(** [d[k] = v]: an existing key keeps its place. *)
Fixpoint dset (d : pydict) (k : string) (v : pyval) : pydict :=
  match d with
  | [] => [(k, v)]
  | (k', v') :: d' => if String.eqb k k' then (k', v) :: d' else (k', v') :: dset d' k v
  end.

(** [{**a, **b}] and [a.update(b)]. *)
Definition dmerge (a b : pydict) : pydict := fold_left (fun d kv => dset d (fst kv) (snd kv)) b a.

(** [{k: v for k, v in d.items() if k != key}]. *)
Definition dremove (d : pydict) (k : string) : pydict :=
  List.filter (fun kv => negb (String.eqb k (fst kv))) d.

Definition dkeys (d : pydict) : list string := map fst d.

(** [v.get(k, default)] on an arbitrary value. *)
Definition vget (v : pyval) (k : string) (default : pyval) : res pyval :=
  match v with VDict d => Ok (dget_or d k default) | _ => Raise AttributeError end.

(** [v["k"]] on an arbitrary value. *)
Definition vindex (v : pyval) (k : string) : res pyval :=
  match v with VDict d => dindex d k | _ => Raise TypeError end.

(** [v if isinstance(v, dict) else {}]. *)
Definition as_dict (v : pyval) : pydict := match v with VDict d => d | _ => [] end.

(** A dict of one type of values, with the same order and lookup. *)
Fixpoint alookup {A} (l : list (string * A)) (k : string) : option A :=
  match l with
  | [] => None
  | (k', a) :: l' => if String.eqb k k' then Some a else alookup l' k
  end.

Fixpoint aput {A} (l : list (string * A)) (k : string) (a : A) : list (string * A) :=
  match l with
  | [] => [(k, a)]
  | (k', a') :: l' => if String.eqb k k' then (k', a) :: l' else (k', a') :: aput l' k a
  end.

(** ** Conversions *)

(** [int(v)]. *)
Definition py_int (v : pyval) : res Z :=
  match v with
  | VInt z => Ok z
  | VBool b => Ok (if b then 1 else 0)
  | VFloat f =>
      match ftrunc f with
      | Some z => Ok z
      | None => if is_nan f then Raise (ValueError "cannot convert float NaN to integer")
                else Raise OverflowError
      end
  | VStr s => match parse_int s with
              | Some z => Ok z
              | None => Raise (ValueError "invalid literal for int()")
              end
  | _ => Raise TypeError
  end.

(** [float(v)]. *)
Definition py_float (v : pyval) : res float :=
  match v with
  | VFloat f => Ok f
  | VInt z => match float_of_Z z with S754_infinity _ => Raise OverflowError | f => Ok f end
  | VBool b => Ok (float_of_Z (if b then 1 else 0))
  | VStr s => match parse_float s with
              | Some f => Ok f
              | None => Raise (ValueError "could not convert string to float")
              end
  | _ => Raise TypeError
  end.

(** [repr(v)]. *)
Fixpoint py_repr (v : pyval) : string :=
  match v with
  | VNone => "None"
  | VBool true => "True"
  | VBool false => "False"
  | VInt z => dec z
  | VFloat f => repr_float f
  | VStr s => repr_str s
  | VList l => "[" +:+ join ", " (map py_repr l) +:+ "]"
  | VDict d => "{" +:+ join ", " (map (fun kv => repr_str (fst kv) +:+ ": " +:+ py_repr (snd kv)) d) +:+ "}"
  end.

(** [str(v)]. *)
Definition py_str (v : pyval) : string := match v with VStr s => s | _ => py_repr v end.

(** [a == b]: numbers compare by value across int, bool and float. *)
Definition num_of (v : pyval) : option (Z + float) :=
  match v with
  | VInt z => Some (inl z)
  | VBool b => Some (inl (if b then 1 else 0))
  | VFloat f => Some (inr f)
  | _ => None
  end.

Definition num_eq (a b : Z + float) : bool :=
  match a, b with
  | inl x, inl y => x =? y
  | inl x, inr f | inr f, inl x => float_eq_Z f x
  | inr f, inr g => feq f g
  end.

Fixpoint py_eq (a b : pyval) : bool :=
  match a, b with
  | VNone, VNone => true
  | VStr s, VStr t => String.eqb s t
  | VList l, VList m =>
      (fix go (l m : list pyval) : bool :=
         match l, m with
         | [], [] => true
         | x :: l', y :: m' => py_eq x y && go l' m'
         | _, _ => false
         end) l m
  | VDict d, VDict e =>
      Nat.eqb (length d) (length e) &&
      (fix go (d : pydict) : bool :=
         match d with
         | [] => true
         | (k, x) :: d' =>
             match dget e k with Some y => py_eq x y && go d' | None => false end
         end) d
  | _, _ => match num_of a, num_of b with Some x, Some y => num_eq x y | _, _ => false end
  end.

(** [for x in v]: lists, the characters of a string, the keys of a dict. *)
Definition py_iter (v : pyval) : res (list pyval) :=
  match v with
  | VList l => Ok l
  | VStr s => Ok (map (fun c => VStr (of_chars [c])) (chars s))
  | VDict d => Ok (map (fun kv => VStr (fst kv)) d)
  | _ => Raise TypeError
  end.

(** [k in v] on an arbitrary value. *)
Definition vhas (v : pyval) (k : string) : res bool :=
  match v with
  | VDict d => Ok (dhas d k)
  | VList l => Ok (existsb (fun x => py_eq x (VStr k)) l)
  | VStr s => Ok (contains k s)
  | _ => Raise TypeError
  end.

(** [math.floor(x)] and [int(round(x))] on floats. *)
Definition int_of_float (f : float -> option Z) (x : float) : res Z :=
  match f x with
  | Some z => Ok z
  | None => if is_nan x then Raise (ValueError "cannot convert float NaN to integer") else Raise OverflowError
  end.
Definition py_floor (x : float) : res Z := int_of_float ffloor x.
Definition py_round_int (x : float) : res Z := int_of_float fround_int x.

(** [a and b] where the second operand is only evaluated when the first is true. *)
Definition and_then (a : bool) (b : res bool) : res bool := if a then b else Ok false.

(** ** Canonical JSON *)

Section sorting.
Context {A : Type} (key : A -> string).

Fixpoint insert_by (x : A) (l : list A) : list A :=
  match l with
  | [] => [x]
  | y :: l' => if str_ltb (key x) (key y) then x :: y :: l' else y :: insert_by x l'
  end.

(** Stable sort by a string key. *)
Definition sort_by (l : list A) : list A := fold_right insert_by [] (rev l).
End sorting.

(** Stable sort by a strict order. *)
Fixpoint insert_lt {A} (lt : A -> A -> bool) (x : A) (l : list A) : list A :=
  match l with
  | [] => [x]
  | y :: l' => if lt x y then x :: y :: l' else y :: insert_lt lt x l'
  end.
Definition sort_lt {A} (lt : A -> A -> bool) (l : list A) : list A := fold_right (insert_lt lt) [] (rev l).

Definition sort_strings (l : list string) : list string := sort_by (fun s => s) l.

(** The JSON text of a value, for the treatment of a string's characters, the
    item and key separators and whether keys are sorted. *)
Section writer.
Context (text : string -> string) (isep ksep : string) (sorted : bool).

Fixpoint write_json (v : pyval) : string :=
  match v with
  | VNone => "null"
  | VBool true => "true"
  | VBool false => "false"
  | VInt z => dec z
  | VFloat f => json_float f
  | VStr s => text s
  | VList l => "[" +:+ join isep (map write_json l) +:+ "]"
  | VDict d =>
      let items := map (fun kv => (fst kv, write_json (snd kv))) d in
      "{" +:+ join isep (map (fun kv => text (fst kv) +:+ ksep +:+ snd kv)
                             (if sorted then sort_by fst items else items)) +:+ "}"
  end.
End writer.

(** [json.dumps(v, sort_keys=True, separators=(",", ":"), ensure_ascii=False)]. *)
Definition json_dumps (v : pyval) : string := write_json json_str "," ":" true v.

(** [json.dumps(v)] with the default separators and ASCII escapes. *)
Definition json_dump_default (v : pyval) : string := write_json json_ascii ", " ": " false v.

(** [_canonical]: the UTF-8 bytes of the sorted, separator-free document. *)
Definition _canonical (v : pyval) : string := utf8 (json_dumps v).

(** [hmac.compare_digest(a, b)] on two strings: only ASCII is accepted. *)
Definition compare_digest (a b : string) : res bool :=
  if is_ascii a && is_ascii b then Ok (String.eqb a b) else Raise TypeError.
