(* ===== verification/PyFacts.v ===== *)
(** * Facts about Python values

    Lemmas the components share: the monads' laws and inversion, dict lookup
    after update, merge and removal, conversions of well-typed values, and the
    tactics and hint databases that apply them. *)

From S2P Require Import Prelude PyStr PyFloat PyVal.
From Stdlib Require Import SpecFloat Sorted.

#[local] Open Scope string_scope.
#[local] Open Scope list_scope.
#[local] Open Scope Z_scope.
#[local] Open Scope st_scope.

Create HintDb py discriminated.
Create Rewrite HintDb pyrw.

(** ** The monads *)

Lemma bind_ok {A B} (m : res A) (f : A -> res B) b :
  m ≫= f = Ok b <-> exists a, m = Ok a /\ f a = Ok b.
Proof.
  split; [destruct m as [a|e]; [eauto | done] | by intros (a & -> & H)].
Qed.

Lemma bind_raise {A B} (m : res A) (f : A -> res B) e :
  m ≫= f = Raise e <-> m = Raise e \/ exists a, m = Ok a /\ f a = Raise e.
Proof.
  destruct m as [a|e']; cbn; split.
  - eauto.
  - intros [H|(? & [= <-] & ?)]; [discriminate H|done].
  - intros [= ->]. by left.
  - intros [[= ->]|(? & H & ?)]; [done|discriminate H].
Qed.

Lemma catch_ok {A} p (m : res A) h a :
  catch p m h = Ok a <-> m = Ok a \/ exists e, m = Raise e /\ p e = true /\ h e = Ok a.
Proof.
  destruct m as [x|e]; cbn; split.
  - by left.
  - intros [H|(? & H & ?)]; [done|discriminate H].
  - destruct (p e) eqn:E; [|done]. intros H. right. eauto.
  - intros [H|(e' & [= <-] & -> & ?)]; [discriminate H|done].
Qed.

Lemma res_eq_dec_ok {A} (a b : A) : Ok a = Ok b <-> a = b.
Proof. split; [by intros [=] | by intros ->]. Qed.

(** Decompose successful binds, guards and boolean conjunctions in the context. *)
Ltac inv_step :=
  match goal with
  | H : _ ≫= _ = Ok _ |- _ => apply bind_ok in H; destruct H as (? & ? & H)
  | H : Ok _ = Ok _ |- _ => injection H as H
  | H : Raise _ = Ok _ |- _ => discriminate H
  | H : Ok _ = Raise _ |- _ => discriminate H
  | H : Some _ = Some _ |- _ => injection H as H
  | H : None = Some _ |- _ => discriminate H
  | H : (_, _) = (_, _) |- _ => injection H; clear H; intros
  | H : andb _ _ = true |- _ => apply andb_prop in H; destruct H
  | H : orb _ _ = false |- _ => apply orb_false_elim in H; destruct H
  | H : negb _ = false |- _ => apply negb_false_iff in H
  | H : negb _ = true |- _ => apply negb_true_iff in H
  | H : String.eqb _ _ = true |- _ => apply String.eqb_eq in H
  | H : String.eqb _ _ = false |- _ => apply String.eqb_neq in H
  | H : (_ =? _)%Z = true |- _ => apply Z.eqb_eq in H
  | H : (_ =? _)%Z = false |- _ => apply Z.eqb_neq in H
  | H : (_ <=? _)%Z = true |- _ => apply Z.leb_le in H
  | H : (_ <=? _)%Z = false |- _ => apply Z.leb_gt in H
  | H : (_ <? _)%Z = true |- _ => apply Z.ltb_lt in H
  | H : (_ <? _)%Z = false |- _ => apply Z.ltb_ge in H
  | H : bool_decide _ = true |- _ => apply bool_decide_eq_true in H
  | H : bool_decide _ = false |- _ => apply bool_decide_eq_false in H
  end.
Ltac pyinv := repeat inv_step.

(** Split the innermost test of a hypothesis, then decompose. *)
Ltac inv_case H :=
  match type of H with
  | context [if ?b then _ else _] => let E := fresh "E" in destruct b eqn:E; try discriminate H
  | context [match ?x with _ => _ end] => let E := fresh "E" in destruct x eqn:E; try discriminate H
  end.

Lemma map_res_ok {A B} (f : A -> res B) l l' :
  map_res f l = Ok l' <-> Forall2 (fun a b => f a = Ok b) l l'.
Proof.
  revert l'. induction l as [|a l IH]; intros l'; cbn.
  - split; [intros [= <-]; constructor | intros H; by inversion H].
  - split.
    + intros H. pyinv. subst. constructor; [done|]. by apply IH.
    + intros H. inversion H as [|? b ? bs Hb Hbs]; subst. rewrite Hb. cbn.
      apply IH in Hbs. by rewrite Hbs.
Qed.

Lemma map_res_length {A B} (f : A -> res B) l l' : map_res f l = Ok l' -> length l' = length l.
Proof. intros H%map_res_ok. symmetry. by eapply Forall2_length. Qed.

(** ** Strings *)

Lemma chars_of_chars l : chars (of_chars l) = l.
Proof. apply String.list_ascii_of_string_of_list_ascii. Qed.

Lemma of_chars_chars s : of_chars (chars s) = s.
Proof. apply String.string_of_list_ascii_of_string. Qed.

(** Nothing to strip. *)
Lemma strip_same s a l l' z : chars s = a :: l -> chars s = l' ++ [z] -> is_space a = false -> is_space z = false -> strip s = s.
Proof.
  intros H1 H2 Ha Hz. unfold strip, rstrip_by, lstrip_by. rewrite H1. cbn [drop_while]. rewrite Ha, <- H1, chars_of_chars, H2.
  rewrite rev_app_distr. cbn [rev app drop_while]. rewrite Hz. cbn [rev]. by rewrite rev_involutive, <- H2, of_chars_chars.
Qed.

Lemma length_chars s : length (chars s) = String.length s.
Proof. induction s as [|c s IH]; [done|]. cbn. f_equal. exact IH. Qed.

Lemma str_eqb_refl s : String.eqb s s = true.
Proof. apply String.eqb_refl. Qed.

Lemma str_eqb_ne s t : s <> t -> String.eqb s t = false.
Proof. apply String.eqb_neq. Qed.

#[export] Hint Rewrite str_eqb_refl : pyrw.

(** ** Dicts *)

Lemma dget_dset d k v k' : dget (dset d k v) k' = if String.eqb k' k then Some v else dget d k'.
Proof.
  induction d as [|[k0 v0] d IH]; cbn; [done|].
  destruct (String.eqb k k0) eqn:E; cbn.
  - apply String.eqb_eq in E as ->. by destruct (String.eqb k' k0).
  - rewrite IH. destruct (String.eqb k' k0) eqn:E0, (String.eqb k' k) eqn:E1; try done.
    pyinv. congruence.
Qed.

Lemma dindex_some d k v : dindex d k = Ok v -> dget d k = Some v.
Proof. unfold dindex. destruct (dget d k); [by intros [= ->]|done]. Qed.

Lemma dget_dset_eq d k v : dget (dset d k v) k = Some v.
Proof. by rewrite dget_dset, str_eqb_refl. Qed.

Lemma dget_dset_ne d k v k' : k' <> k -> dget (dset d k v) k' = dget d k'.
Proof. intros H. by rewrite dget_dset, (str_eqb_ne _ _ H). Qed.

Lemma dset_twice d k v v' : dset (dset d k v) k v' = dset d k v'.
Proof.
  induction d as [|[k' x] d IH]; cbn [dset]; [by rewrite str_eqb_refl|].
  destruct (String.eqb k k') eqn:E; cbn [dset]; rewrite E; [done|by rewrite IH].
Qed.

Lemma dget_dremove d k k' :
  dget (dremove d k) k' = if String.eqb k' k then None else dget d k'.
Proof.
  unfold dremove. induction d as [|[k0 v0] d IH]; cbn.
  - by destruct (String.eqb k' k).
  - destruct (String.eqb k k0) eqn:E; cbn.
    + apply String.eqb_eq in E as ->. rewrite IH. by destruct (String.eqb k' k0).
    + rewrite IH. destruct (String.eqb k' k0) eqn:E0, (String.eqb k' k) eqn:E1; try done.
      pyinv. congruence.
Qed.

Lemma dget_dmerge_nil d : dmerge d [] = d.
Proof. done. Qed.

Lemma dget_dmerge_cons d k v e : dmerge d ((k, v) :: e) = dmerge (dset d k v) e.
Proof. done. Qed.

Lemma dget_Some_In d k v : dget d k = Some v -> In (k, v) d.
Proof.
  induction d as [|[k0 v0] d IH]; cbn; [done|].
  destruct (String.eqb k k0) eqn:E.
  - apply String.eqb_eq in E as ->. intros [= ->]. by left.
  - intros H. right. auto.
Qed.

Lemma dget_None_keys d k : dget d k = None <-> k ∉ dkeys d.
Proof.
  induction d as [|[k0 v0] d IH]; cbn.
  - split; [intros _ H; inversion H | done].
  - destruct (String.eqb k k0) eqn:E.
    + apply String.eqb_eq in E as ->. split; [done|]. intros H. exfalso. apply H. left.
    + apply String.eqb_neq in E. rewrite IH. rewrite not_elem_of_cons. tauto.
Qed.

Lemma dhas_keys d k : dhas d k = true <-> k ∈ dkeys d.
Proof.
  unfold dhas. destruct (dget d k) eqn:E.
  - split; [intros _ | done]. destruct (decide (k ∈ dkeys d)) as [|n]; [done|].
    apply dget_None_keys in n. congruence.
  - apply dget_None_keys in E. split; [done | intros; contradiction].
Qed.

Lemma dget_nodup_In d k v : NoDup (dkeys d) -> In (k, v) d -> dget d k = Some v.
Proof.
  induction d as [|[k0 v0] d IH]; cbn; [done|].
  intros [Hn Hd]%NoDup_cons [[= -> ->]|Hin].
  - by rewrite str_eqb_refl.
  - rewrite str_eqb_ne; [auto|]. intros ->. apply Hn. apply list_elem_of_In.
    apply in_map_iff. by exists (k0, v).
Qed.

Lemma dkeys_dset d k v :
  dkeys (dset d k v) = if dhas d k then dkeys d else dkeys d ++ [k].
Proof.
  unfold dkeys, dhas in *.
  induction d as [|[k0 v0] d IH]; cbn; [done|]. destruct (String.eqb k k0) eqn:E; cbn.
  - apply String.eqb_eq in E as ->. done.
  - rewrite IH. by destruct (dget d k).
Qed.

Lemma dset_nodup d k v : NoDup (dkeys d) -> NoDup (dkeys (dset d k v)).
Proof.
  intros H. rewrite dkeys_dset. destruct (dhas d k) eqn:E; [done|].
  apply NoDup_app. split; [done|]. split; [|apply NoDup_singleton].
  intros x Hx ->%list_elem_of_singleton. apply dhas_keys in Hx. congruence.
Qed.

Lemma dmerge_nodup d e : NoDup (dkeys d) -> NoDup (dkeys (dmerge d e)).
Proof.
  revert d. induction e as [|[k v] e IH]; intros d H; [done|].
  apply IH. by apply dset_nodup.
Qed.

(** Distinctness of concrete keys, by evaluation. *)
Ltac nodup_keys := apply (bool_decide_unpack _); vm_compute; exact I.

Lemma dmerge_get d e k : NoDup (dkeys e) ->
  dget (dmerge d e) k = match dget e k with Some v => Some v | None => dget d k end.
Proof.
  revert d. induction e as [|[k' v'] e IH]; intros d; [done|].
  intros [Hn Hd]%NoDup_cons. rewrite dget_dmerge_cons, IH by done. cbn.
  destruct (String.eqb k k') eqn:E.
  - apply String.eqb_eq in E as ->. assert (dget e k' = None) as -> by (by apply dget_None_keys).
    by rewrite dget_dset_eq.
  - apply String.eqb_neq in E. by rewrite dget_dset_ne.
Qed.

(** ** Conversions *)

Lemma py_int_or_zero z : py_int (py_or (VInt z) (VInt 0)) = Ok z.
Proof. unfold py_or; cbn. by destruct (Z.eqb_spec z 0) as [->|]. Qed.

#[export] Hint Rewrite py_int_or_zero : pyrw.

Lemma compare_digest_true a b : compare_digest a b = Ok true -> a = b.
Proof.
  unfold compare_digest. destruct (is_ascii a && is_ascii b); [|done].
  intros H. pyinv. done.
Qed.

Lemma compare_digest_refl a : is_ascii a = true -> compare_digest a a = Ok true.
Proof. intros H. unfold compare_digest. by rewrite H, str_eqb_refl. Qed.

(** ** Sorting *)

Lemma insert_by_Permutation {A} (key : A -> string) x l : insert_by key x l ≡ₚ x :: l.
Proof.
  induction l as [|y l IH]; cbn; [done|]. destruct (str_ltb (key x) (key y)); [done|].
  rewrite IH. constructor.
Qed.

Lemma sort_by_Permutation {A} (key : A -> string) l : sort_by key l ≡ₚ l.
Proof.
  unfold sort_by. transitivity (rev l); [|symmetry; apply Permutation_rev].
  induction (rev l) as [|x r IH]; cbn; [done|]. by rewrite insert_by_Permutation, IH.
Qed.

Lemma insert_lt_Permutation {A} (lt : A -> A -> bool) x l : insert_lt lt x l ≡ₚ x :: l.
Proof.
  induction l as [|y l IH]; cbn; [done|]. destruct (lt x y); [done|]. rewrite IH. constructor.
Qed.

Lemma insert_lt_last {A} (lt : A -> A -> bool) x l : Forall (fun y => lt x y = false) l -> insert_lt lt x l = l ++ [x].
Proof. induction 1 as [|y l Hy Hl IH]; cbn [insert_lt app]; [done|]. by rewrite Hy, IH. Qed.

Lemma sort_lt_Permutation {A} (lt : A -> A -> bool) l : sort_lt lt l ≡ₚ l.
Proof.
  unfold sort_lt. transitivity (rev l); [|symmetry; apply Permutation_rev].
  induction (rev l) as [|x r IH]; cbn; [done|]. by rewrite insert_lt_Permutation, IH.
Qed.

Lemma elem_of_filter_bool {A} (p : A -> bool) l x : x ∈ List.filter p l <-> x ∈ l /\ p x = true.
Proof. by rewrite !list_elem_of_In, filter_In. Qed.

Section sorted.
Context {A} (lt : A -> A -> bool).
Context (lt_irreflexive : forall x, lt x x = false).
Context (lt_transitive : forall x y z, lt x y = true -> lt y z = true -> lt x z = true).

(** Nothing later in the list comes before an earlier element. *)
Definition ordered_by : list A -> Prop := StronglySorted (fun a b => lt b a = false).

Lemma insert_lt_ordered_by x l : ordered_by l -> ordered_by (insert_lt lt x l).
Proof using lt_irreflexive lt_transitive.
  induction 1 as [|y l Hl IH Hy]; cbn; [repeat constructor|]. destruct (lt x y) eqn:E.
  - assert (Hyx : lt y x = false) by (destruct (lt y x) eqn:F; [|done]; by rewrite <- (lt_irreflexive x), (lt_transitive x y x)).
    constructor; [by constructor|]. constructor; [done|]. eapply Forall_impl; [exact Hy|]. cbn. intros z Hz.
    destruct (lt z x) eqn:F; [|done]. by rewrite (lt_transitive z x y) in Hz.
  - constructor; [exact IH|]. apply Forall_forall. intros z Hz. rewrite insert_lt_Permutation in Hz.
    apply elem_of_cons in Hz as [->|Hz]; [done|]. by eapply Forall_forall in Hy.
Qed.

Lemma sort_lt_ordered_by l : ordered_by (sort_lt lt l).
Proof using lt_irreflexive lt_transitive.
  unfold sort_lt. induction (rev l) as [|x r IH]; cbn; [constructor|]. by apply insert_lt_ordered_by.
Qed.

Lemma sort_lt_head l x l' : sort_lt lt l = x :: l' -> forall y, y ∈ l -> lt y x = false.
Proof using lt_irreflexive lt_transitive.
  intros H y Hy. rewrite <- (sort_lt_Permutation lt l), H in Hy. pose proof (sort_lt_ordered_by l) as Hs. rewrite H in Hs.
  apply StronglySorted_inv in Hs as [_ Hs]. apply elem_of_cons in Hy as [->|Hy]; [done|]. by eapply Forall_forall in Hs.
Qed.
End sorted.

Lemma elem_of_sort_strings l s : s ∈ sort_strings l <-> s ∈ l.
Proof. unfold sort_strings. by rewrite sort_by_Permutation. Qed.

(** ** Decidable equality of values *)

#[export] Instance spec_float_eq_dec : EqDecision spec_float.
Proof. solve_decision. Defined.

#[export] Instance pyval_eq_dec : EqDecision pyval.
Proof.
  refine (fix go (a b : pyval) : Decision (a = b) :=
    match a, b with
    | VNone, VNone => left eq_refl
    | VBool x, VBool y => cast_if (decide (x = y))
    | VInt x, VInt y => cast_if (decide (x = y))
    | VFloat x, VFloat y => cast_if (decide (x = y))
    | VStr x, VStr y => cast_if (decide (x = y))
    | VList l, VList m => cast_if (list_eq_dec (dec := go) l m)
    | VDict d, VDict e =>
        cast_if (list_eq_dec (dec := fun p q => match p, q with (k, x), (k', y) => cast_if_and (decide (k = k')) (go x y) end) d e)
    | _, _ => right _
    end); clear go; congruence.
Defined.

(** ** Stepping the state-and-error monad *)

#[global] Arguments st_bind {S A B} m f : simpl never.

Lemma st_get_bind {S A} (k : S -> st S A) s : st_bind st_get k s = k s s.
Proof. done. Qed.

Lemma st_ret_bind {S A B} (a : A) (k : A -> st S B) s : st_bind (st_ret a) k s = k a s.
Proof. done. Qed.

Lemma st_modify_bind {S A} f (k : unit -> st S A) s : st_bind (st_modify f) k s = k tt (f s).
Proof. done. Qed.

Lemma st_put_bind {S A} s' (k : unit -> st S A) s : st_bind (st_put s') k s = k tt s'.
Proof. done. Qed.

Lemma st_raise_bind {S A B} e (k : A -> st S B) s : st_bind (st_raise e) k s = (s, Raise e).
Proof. done. Qed.

Lemma st_lift_bind {S A B} (m : res A) (k : A -> st S B) s a :
  m = Ok a -> st_bind (st_lift m) k s = k a s.
Proof. by intros ->. Qed.

Lemma st_lift_Ok {S A B} (a : A) (k : A -> st S B) s : st_bind (st_lift (Ok a)) k s = k a s.
Proof. done. Qed.

Lemma st_lift_raise {S A B} (m : res A) (k : A -> st S B) s e :
  m = Raise e -> st_bind (st_lift m) k s = (s, Raise e).
Proof. by intros ->. Qed.

Lemma st_bind_assoc {S A B C} (m : st S A) (f : A -> st S B) (g : B -> st S C) s :
  st_bind (st_bind m f) g s = st_bind m (fun a => st_bind (f a) g) s.
Proof. unfold st_bind. by destruct (m s) as [? [|]]. Qed.

#[export] Hint Rewrite @st_get_bind @st_ret_bind @st_modify_bind @st_put_bind @st_raise_bind @st_lift_Ok
  @st_bind_assoc : pyrw.

(** What every outcome of a call satisfies, computed backwards along its binds. *)
Definition wp {S A} (m : st S A) (Q : res A -> S -> Prop) (s : S) : Prop := Q (snd (m s)) (fst (m s)).

Lemma wp_bind {S A B} (m : st S A) (k : A -> st S B) Q s :
  wp m (fun x s' => match x with Ok a => wp (k a) Q s' | Raise e => Q (Raise e) s' end) s -> wp (st_bind m k) Q s.
Proof. unfold wp, st_bind. by destruct (m s) as [s' [a|e]]. Qed.

Lemma wp_mono {S A} (m : st S A) (P Q : res A -> S -> Prop) s :
  wp m P s -> (forall x s', P x s' -> Q x s') -> wp m Q s.
Proof. unfold wp. auto. Qed.

Lemma wp_get {S A} (k : S -> st S A) Q s : wp (k s) Q s -> wp (st_bind st_get k) Q s.
Proof. done. Qed.

Lemma wp_modify {S A} f (k : unit -> st S A) Q s : wp (k tt) Q (f s) -> wp (st_bind (st_modify f) k) Q s.
Proof. done. Qed.

Lemma wp_lift {S A B} (m : res A) (k : A -> st S B) a Q s : m = Ok a -> wp (k a) Q s -> wp (st_bind (st_lift m) k) Q s.
Proof. by intros ->. Qed.

Lemma wp_raise {S A} (e : exn) (Q : res A -> S -> Prop) m : Q (Raise e) m -> wp (st_raise e) Q m.
Proof. done. Qed.

Lemma wp_ret {S A} (a : A) (Q : res A -> S -> Prop) m : Q (Ok a) m -> wp (st_ret a) Q m.
Proof. done. Qed.

Lemma wp_lift_any {S A B} (r : res A) (k : A -> st S B) Q m :
  (forall a, r = Ok a -> wp (k a) Q m) -> (forall e, Q (Raise e) m) -> wp (st_bind (st_lift r) k) Q m.
Proof. intros Hk He. destruct r as [a|e]; [by apply Hk|apply He]. Qed.

(** An operation that leaves the state alone. *)
Lemma wp_read {S A B} (m : st S A) (r : res A) (k : A -> st S B) Q s :
  m s = (s, r) -> (forall a, r = Ok a -> wp (k a) Q s) -> (forall x, Q (Raise x) s) -> wp (st_bind m k) Q s.
Proof. intros Hm Hk Hx. unfold wp, st_bind. rewrite Hm. destruct r as [a|x]; [by apply Hk|apply Hx]. Qed.

(** Run a call known to satisfy [P], then reason about what follows it. *)
Lemma wp_step {S A B} (m : st S A) (k : A -> st S B) (P : res A -> S -> Prop) Q s : wp m P s ->
  (forall a s', P (Ok a) s' -> wp (k a) Q s') -> (forall e s', P (Raise e) s' -> Q (Raise e) s') -> wp (st_bind m k) Q s.
Proof. intros Hm Hok He. apply wp_bind. eapply wp_mono; [exact Hm|]. intros [a|e] s' H; auto. Qed.

(** ** Ranges *)

(** [lo <= x <= hi] on floats; no NaN is in a range. *)
Definition within (lo hi x : float) : Prop := fle lo x = true /\ fle x hi = true.

#[global] Instance within_dec lo hi x : Decision (within lo hi x).
Proof. unfold within. apply _. Defined.

Lemma flt_fle x y : flt x y = true -> fle x y = true.
Proof. unfold flt, fle, SFltb, SFleb. by destruct (SFcompare x y) as [[]|]. Qed.

(** A clamped float is in its range, whatever it was, NaN and infinities included. *)
Lemma clamp_within lo hi v :
  fle lo lo = true -> fle hi hi = true -> fle lo hi = true -> within lo hi (fmax lo (fmin hi v)).
Proof.
  intros Hl Hh Hlh. unfold within, fmax, fmin. destruct (flt v hi) eqn:E.
  - destruct (flt lo v) eqn:E'; split; auto using flt_fle.
  - destruct (flt lo hi); auto.
Qed.

Lemma clamp_range lo hi z : lo <= hi -> lo <= Z.max lo (Z.min hi z) <= hi.
Proof. lia. Qed.

(** ** Folds and slot tables *)

Lemma fold_res_inv {A B} (P : B -> Prop) (f : B -> A -> res B) l b b' :
  (forall b a b', P b -> f b a = Ok b' -> P b') -> P b -> fold_res f l b = Ok b' -> P b'.
Proof.
  intros Hf. revert b. induction l as [|a l IH]; intros b Hb H; cbn in H; pyinv; [by subst|].
  eapply IH; [|exact H]. by eapply Hf.
Qed.

Lemma filter_res_in {A} (f : A -> res bool) l l' x : filter_res f l = Ok l' -> x ∈ l' -> x ∈ l /\ f x = Ok true.
Proof.
  revert l'. induction l as [|y l IH]; intros l' H Hx; cbn in H; pyinv; subst; [by apply elem_of_nil in Hx|].
  destruct x0; [apply elem_of_cons in Hx as [->|Hx]|]; [split; [left|done]|..]; (destruct (IH _ H1 Hx); split; [by right|done]).
Qed.

Lemma filter_res_total {A} (f : A -> res bool) l : Forall (fun x => exists b, f x = Ok b) l -> exists l', filter_res f l = Ok l'.
Proof.
  induction 1 as [|x l [b Hb] Hl [l' IH]]; cbn; [by eexists|]. rewrite Hb. cbn. rewrite IH. cbn. by eexists.
Qed.

Lemma filter_res_pure {A} (p : A -> res bool) (q : A -> bool) l : Forall (fun x => p x = Ok (q x)) l -> filter_res p l = Ok (List.filter q l).
Proof. induction 1 as [|x l Hx Hl IH]; [done|]. cbn. rewrite Hx, IH. cbn. by destruct (q x). Qed.

Lemma filter_res_length {A} (p : A -> res bool) l l' : filter_res p l = Ok l' -> (length l' <= length l)%nat.
Proof.
  revert l'. induction l as [|x l IH]; intros l'; cbn; [by intros [= <-]|]. intros (b & _ & H)%bind_ok. apply bind_ok in H as (rest & Hr & H). injection H as <-.
  specialize (IH _ Hr). destruct b; cbn; lia.
Qed.

(** The rows of a table of four slots, in order. *)
Definition four_slots {A} (slot : A -> Z) (rows : list A) : Prop := map slot rows = [0; 1; 2; 3].

Lemma four_slots_insert {A} (slot : A -> Z) rows s r :
  four_slots slot rows -> 0 <= s < 4 -> slot r = s -> four_slots slot (<[Z.to_nat s := r]> rows).
Proof.
  unfold four_slots. intros H Hs Hr. rewrite (list_fmap_insert slot), Hr. change (slot <$> rows) with (map slot rows).
  rewrite H. apply list_insert_id. assert (s = 0 \/ s = 1 \/ s = 2 \/ s = 3) as [->|[->|[->| ->]]] by lia; reflexivity.
Qed.

Lemma four_slots_map {A} (slot : A -> Z) f rows :
  (forall r, slot (f r) = slot r) -> four_slots slot rows -> four_slots slot (map f rows).
Proof. unfold four_slots. intros Hf <-. rewrite map_map. apply map_ext, Hf. Qed.

Lemma insert_Forall {A} (P : A -> Prop) rows i r : P r -> Forall P rows -> Forall P (<[i := r]> rows).
Proof. intros Hr H. apply Forall_insert; auto. Qed.

Lemma dset_values (P : pyval -> Prop) d k v :
  P v -> Forall (fun kv => P (snd kv)) d -> Forall (fun kv => P (snd kv)) (dset d k v).
Proof.
  intros Hv. induction 1 as [|[k0 v0] d H0 Hd IH]; cbn; [by repeat constructor|].
  destruct (String.eqb k k0); constructor; auto.
Qed.

Lemma aput_values {A} (P : A -> Prop) d k v :
  P v -> Forall (fun kv => P (snd kv)) d -> Forall (fun kv => P (snd kv)) (aput d k v).
Proof.
  intros Hv. induction 1 as [|[k0 v0] d H0 Hd IH]; cbn; [by repeat constructor|].
  destruct (String.eqb k k0); constructor; auto.
Qed.

Lemma alookup_values {A} (P : A -> Prop) d k v :
  Forall (fun kv => P (snd kv)) d -> alookup d k = Some v -> P v.
Proof.
  induction 1 as [|[k0 v0] d H0 Hd IH]; cbn; [done|]. destruct (String.eqb k k0); [by intros [= <-]|done].
Qed.

Lemma or_else_ok {A} p (m : res A) h (P : A -> Prop) a :
  (forall a, m = Ok a -> P a) -> (forall e a, h e = Ok a -> P a) -> catch p m h = Ok a -> P a.
Proof. intros Hm Hh [H|(e & _ & _ & H)]%catch_ok; eauto. Qed.

(** ** Order of floats *)

Lemma fle_flt_trans a b c : fle a b = true -> flt b c = true -> flt a c = true.
Proof.
  unfold fle, flt, SFleb, SFltb.
  destruct a as [sa|sa| |sa ma ea], b as [sb|sb| |sb mb eb], c as [sc|sc| |sc mc ec]; cbn; try done;
    repeat match goal with s : bool |- _ => destruct s end; try done.
  all: destruct (Z.compare_spec ea eb), (Z.compare_spec eb ec), (Z.compare_spec ea ec); try done; try lia;
    unfold Pos.compare; fold (Pos.compare ma mb) (Pos.compare mb mc) (Pos.compare ma mc);
    destruct (Pos.compare_spec ma mb), (Pos.compare_spec mb mc), (Pos.compare_spec ma mc); cbn; try done; lia.
Qed.

Lemma flt_not_nan a b : flt a b = true -> fle a a = true.
Proof.
  unfold fle, flt, SFleb, SFltb.
  destruct a as [sa|sa| |sa ma ea]; cbn; try done; [by destruct sa|].
  rewrite Z.compare_refl. intros _. destruct sa; by rewrite Pos.compare_refl.
Qed.

(** What an assignment changes: one position. *)
Lemma aput_at {A} (l : list (string * A)) k a :
  exists p, aput l k a !! p = Some (k, a) /\ forall i, i <> p -> aput l k a !! i = l !! i.
Proof.
  induction l as [|[k0 a0] l (p & Hp & Ho)]; cbn.
  - exists 0%nat. split; [done|]. intros [|i] Hi; done.
  - destruct (String.eqb k k0) eqn:E.
    + apply String.eqb_eq in E as ->. exists 0%nat. split; [done|]. by intros [|i].
    + exists (S p). split; [done|]. intros [|i] Hi; [done|]. cbn. apply Ho. congruence.
Qed.

Lemma alookup_aput {A} (l : list (string * A)) k a k' : alookup (aput l k a) k' = if String.eqb k' k then Some a else alookup l k'.
Proof.
  induction l as [|[k0 a0] l IH]; cbn; [done|]. destruct (String.eqb_spec k k0) as [<-|Hk]; cbn.
  - by destruct (String.eqb k' k).
  - destruct (String.eqb_spec k' k0) as [->|]; [by rewrite str_eqb_ne|]. exact IH.
Qed.

Lemma aput_keys {A} (l : list (string * A)) k a :
  map fst (aput l k a) = if bool_decide (k ∈ map fst l) then map fst l else map fst l ++ [k].
Proof.
  induction l as [|[k' b] l IH]; cbn [aput map fst]; [done|]. destruct (String.eqb_spec k k') as [->|Hne]; cbn [map fst].
  - rewrite bool_decide_eq_true_2 by left. done.
  - rewrite IH. destruct (decide (k ∈ map fst l)) as [H|H].
    + rewrite !bool_decide_eq_true_2; [done|by right|done].
    + rewrite !bool_decide_eq_false_2; [done|by intros [->|?]%elem_of_cons|done].
Qed.

Lemma aput_nodup {A} (l : list (string * A)) k a : NoDup (map fst l) -> NoDup (map fst (aput l k a)).
Proof.
  intros H. rewrite aput_keys. destruct (decide (k ∈ map fst l)) as [Hk|Hk].
  - by rewrite bool_decide_eq_true_2.
  - rewrite bool_decide_eq_false_2 by done. apply NoDup_app. split; [done|]. split; [|apply NoDup_singleton].
    by intros x Hx ->%list_elem_of_singleton.
Qed.

Lemma alookup_nodup {A} (l : list (string * A)) k a : NoDup (map fst l) -> (k, a) ∈ l -> alookup l k = Some a.
Proof.
  induction l as [|[k' b] l IH]; cbn; [by intros _ ?%elem_of_nil|]. intros [Hk Hn]%NoDup_cons. destruct (String.eqb_spec k k') as [->|Hne].
  - intros [[= ->]|Hin]%elem_of_cons; [done|]. destruct Hk. apply list_elem_of_fmap. by exists (k', a).
  - intros [[= -> ->]|Hin]%elem_of_cons; [done|by apply IH].
Qed.


(** Writing a field, or several, once more changes nothing. *)
Lemma dset_same d k v : dget d k = Some v -> dset d k v = d.
Proof.
  induction d as [|[k' v'] d IH]; cbn; [done|]. destruct (String.eqb_spec k k') as [<-|]; [by intros [= ->]|]. intros H. by rewrite IH.
Qed.

Lemma dmerge_same d e : Forall (fun kv => dget d (fst kv) = Some (snd kv)) e -> dmerge d e = d.
Proof. induction 1 as [|[k v] e Hk He IH]; [done|]. rewrite dget_dmerge_cons. cbn in Hk. by rewrite dset_same. Qed.

(** *** Stripping *)

Lemma drop_while_head p l a r : drop_while p l = a :: r -> p a = false.
Proof. induction l as [|c l IH]; cbn; [done|]. destruct (p c) eqn:E; [done|]. intros [= <- _]. exact E. Qed.

Lemma drop_while_split p l : exists pre, l = pre ++ drop_while p l /\ forallb p pre = true.
Proof.
  induction l as [|c l (pre & Hl & Hp)]; cbn; [by exists []|]. destruct (p c) eqn:E; [|by exists []]. exists (c :: pre). cbn. by rewrite E, <- Hl.
Qed.

Lemma strip_strip s : strip (strip s) = strip s.
Proof.
  unfold strip at 2 3, rstrip_by, lstrip_by. rewrite chars_of_chars. set (m := drop_while is_space (chars s)).
  destruct (drop_while_split is_space (rev m)) as (pre & Hm & Hp). destruct (drop_while is_space (rev m)) as [|z w] eqn:Ek; [done|].
  apply (f_equal (@rev ascii)) in Hm. rewrite rev_involutive, rev_app_distr in Hm. pose proof (drop_while_head _ _ _ _ Ek) as Hz.
  destruct (rev (z :: w)) as [|a k] eqn:Er; [by apply (f_equal (@length ascii)) in Er; rewrite length_rev in Er|].
  eapply (strip_same _ a k (rev w) z); rewrite ?chars_of_chars; [done|by rewrite <- Er| |done].
  subst m. rewrite Hm in Ek. by apply (drop_while_head is_space (chars s) a (k ++ rev pre)).
Qed.
