(* ===== verification/StateLogic.v ===== *)
(** * Invariants of stateful operations

    A small logic for the state-and-error monad: [keeps I m] says that [m]
    leaves the invariant [I] true whatever it returns, an exception included.
    One rule per construct of the monad, the hint database [keeps] for the
    operations already treated, and the tactic [keeps_tac] that applies them. *)

From S2P Require Import Prelude PyStr PyFloat PyVal PyFacts.

#[local] Open Scope list_scope.
#[local] Open Scope st_scope.

Create HintDb keeps discriminated.

Section keeps.
Context {S : Type} (I : S -> Prop).

Definition keeps {A} (m : st S A) : Prop := forall s, I s -> I (fst (m s)).

(** The same from one state, for the part of an operation that holds a state it read. *)
Definition keeps_at {A} (s : S) (m : st S A) : Prop := I (fst (m s)).

Lemma keeps_ret {A} (a : A) : keeps (st_ret a).
Proof. by intros s. Qed.
Lemma keeps_raise {A} e : keeps (@st_raise S A e).
Proof. by intros s. Qed.
Lemma keeps_lift {A} (m : res A) : keeps (st_lift m).
Proof. by intros s. Qed.
Lemma keeps_get : keeps st_get.
Proof. by intros s. Qed.
Lemma keeps_modify f : (forall s, I s -> I (f s)) -> keeps (st_modify f).
Proof. intros H s. apply H. Qed.

Lemma keeps_bind {A B} (m : st S A) (f : A -> st S B) :
  keeps m -> (forall a, keeps (f a)) -> keeps (st_bind m f).
Proof.
  intros Hm Hf s Hs. unfold st_bind. specialize (Hm s Hs). destruct (m s) as [s' [a|e]]; [by apply Hf|done].
Qed.

Lemma keeps_lift_bind {A B} (m : res A) (f : A -> st S B) :
  (forall a, m = Ok a -> keeps (f a)) -> keeps (st_bind (st_lift m) f).
Proof. intros Hf s Hs. unfold st_bind, st_lift. destruct m as [a|e]; [by apply Hf|done]. Qed.

Lemma keeps_get_bind {A} (k : S -> st S A) :
  (forall s, I s -> keeps_at s (k s)) -> keeps (st_bind st_get k).
Proof. intros H s Hs. by apply H. Qed.

Lemma keeps_when (b : bool) (m : st S unit) : keeps m -> keeps (st_when b m).
Proof. intros H. destruct b; [done|apply keeps_ret]. Qed.

Lemma keeps_iter {A} (f : A -> st S unit) l : (forall a, a ∈ l -> keeps (f a)) -> keeps (st_iter f l).
Proof.
  induction l as [|a l IH]; intros H; cbn; [apply keeps_ret|].
  apply keeps_bind; [apply H; left|]. intros _. apply IH. intros b Hb. apply H. by right.
Qed.

Lemma at_keeps {A} s (m : st S A) : I s -> keeps m -> keeps_at s m.
Proof. intros Hs Hm. by apply Hm. Qed.

Lemma at_bind {A B} s (m : st S A) (f : A -> st S B) :
  keeps_at s m -> (forall a, keeps (f a)) -> keeps_at s (st_bind m f).
Proof.
  intros Hm Hf. unfold keeps_at, st_bind in *. destruct (m s) as [s' [a|e]]; [by apply Hf|done].
Qed.

Lemma at_lift_bind {A B} s (m : res A) (f : A -> st S B) :
  I s -> (forall a, m = Ok a -> keeps_at s (f a)) -> keeps_at s (st_bind (st_lift m) f).
Proof. intros Hs H. unfold keeps_at, st_bind, st_lift. destruct m as [a|e]; [by apply H|done]. Qed.

Lemma at_get_bind {A} s (k : S -> st S A) : keeps_at s (k s) -> keeps_at s (st_bind st_get k).
Proof. done. Qed.

Lemma at_put s s' : I s' -> keeps_at s (st_put s').
Proof. done. Qed.

Lemma at_modify s f : I (f s) -> keeps_at s (st_modify f).
Proof. done. Qed.

(** What an operation yields when it succeeds. *)
Definition yields {A} (m : st S A) (P : A -> Prop) : Prop := forall s s' a, m s = (s', Ok a) -> P a.

Lemma yields_ret {A} (P : A -> Prop) a : P a -> yields (st_ret a) P.
Proof. by intros H s s' b [= _ <-]. Qed.

Lemma yields_bind {A B} (m : st S A) (f : A -> st S B) P : (forall a, yields (f a) P) -> yields (st_bind m f) P.
Proof. intros H s s' b. unfold st_bind. destruct (m s) as [s1 [a|e]]; [apply H|done]. Qed.

Lemma yields_lift_bind {A B} (m : res A) (f : A -> st S B) P :
  (forall a, m = Ok a -> yields (f a) P) -> yields (st_bind (st_lift m) f) P.
Proof. intros H s s' b. unfold st_bind, st_lift. destruct m as [a|e]; [by apply H|done]. Qed.

Lemma keeps_wp {A} (m : st S A) s : keeps m -> I s -> wp m (fun _ => I) s.
Proof. intros Hm Hs. by apply Hm. Qed.

Lemma keeps_yields_bind {A B} (m : st S A) (f : A -> st S B) P :
  keeps m -> yields m P -> (forall a, P a -> keeps (f a)) -> keeps (st_bind m f).
Proof.
  intros Hm Hy Hf s Hs. unfold st_bind. specialize (Hm s Hs). specialize (Hy s).
  destruct (m s) as [s' [a|e]]; [by eapply Hf; [eapply Hy|]|done].
Qed.
End keeps.

#[export] Hint Resolve keeps_ret keeps_raise keeps_lift keeps_get : keeps.

(** An operation of one part of the state, where the invariant ignores that part. *)
Lemma keeps_frame {X S A} (I : S -> Prop) (get : S -> X) (set : X -> S -> S) (m : st X A) :
  (forall x s, I s -> I (set x s)) -> keeps I (fun s => let '(x, r) := m (get s) in (set x s, r)).
Proof. intros H s Hs. cbn. destruct (m (get s)) as [x r]. by apply H. Qed.

(** One step of the logic; what it cannot decide is a change of the state. *)
Ltac keeps_step :=
  match goal with
  | |- keeps _ (st_bind st_get _) => apply keeps_get_bind; intros ? ?
  | |- keeps _ (st_bind (st_lift _) _) => apply keeps_lift_bind; intros ? ?
  | |- keeps _ (st_bind _ _) => apply keeps_bind; [|intros ?]
  | |- keeps _ (st_modify _) => apply keeps_modify; intros ? ?
  | |- keeps _ (st_when _ _) => apply keeps_when
  | |- keeps _ (match ?x with _ => _ end) => let E := fresh "E" in destruct x eqn:E
  | |- keeps _ (let _ := _ in _) => cbv zeta
  | |- keeps_at _ ?s (st_bind st_get _) => apply at_get_bind
  | |- keeps_at _ ?s (st_bind (st_lift _) _) => apply at_lift_bind; [assumption|intros ? ?]
  | |- keeps_at _ ?s (st_bind (st_put _) _) => apply at_bind; [apply at_put|intros ?]
  | |- keeps_at _ ?s (st_bind (st_modify _) _) => apply at_bind; [apply at_modify|intros ?]
  | |- keeps_at _ ?s (st_put _) => apply at_put
  | |- keeps_at _ ?s (st_modify _) => apply at_modify
  | |- keeps_at _ ?s (match ?x with _ => _ end) => let E := fresh "E" in destruct x eqn:E
  | |- keeps_at _ ?s (let _ := _ in _) => cbv zeta
  | |- keeps_at _ ?s _ => apply at_keeps; [assumption|]
  | |- keeps _ _ => solve [eauto 2 with keeps]
  end.
Ltac keeps_tac := repeat keeps_step.

(** * The parts of a larger state

    A component keeps a state of its own and operations on it; the runtime keeps
    one state of each component. [Part S T] is the interface between the two: how
    a state [S] holds a component's state [T]. An operation of the component is
    an operation of the whole through [inside], and what it leaves alone is
    stated once, by [Independent] parts. *)

Class Part (S T : Type) := {
  part : S -> T;
  with_part : T -> S -> S;
  part_with : forall t s, part (with_part t s) = t;
  with_the_part : forall s, with_part (part s) s = s;
  with_with : forall t t' s, with_part t (with_part t' s) = with_part t s;
}.

Class Independent (S T U : Type) `{Part S T} `{Part S U} : Prop :=
  part_independent : forall (t : T) (s : S), part (T:=U) (with_part t s) = part s.

Section inside.
Context {S T : Type} `{Part S T}.

(** An operation of the component, on the state that holds it. *)
Definition inside {A} (m : st T A) : st S A := fun s =>
  let '(t, r) := m (part s) in (with_part t s, r).

Definition read {A} (f : T -> A) : st S A := fun s => (s, Ok (f (part s))).
Definition change (f : T -> T) : st S unit := st_modify (fun s => with_part (f (part s)) s).

Lemma inside_eq {A} (m : st T A) s : inside m s = (with_part (fst (m (part s))) s, snd (m (part s))).
Proof. unfold inside. by destruct (m (part s)). Qed.

Lemma inside_part {A} (m : st T A) s : part (fst (inside m s)) = fst (m (part s)).
Proof. rewrite inside_eq. apply part_with. Qed.

Lemma keeps_within {A} (I : S -> Prop) (m : st T A) :
  (forall t s, I s -> I (with_part t s)) -> keeps I (inside m).
Proof. intros HI s Hs. rewrite inside_eq. by apply HI. Qed.

Lemma keeps_change (I : S -> Prop) (f : T -> T) :
  (forall t s, I s -> I (with_part t s)) -> keeps I (change f).
Proof. intros HI s Hs. by apply HI. Qed.

Lemma keeps_read {A} (I : S -> Prop) (f : T -> A) : keeps I (read f).
Proof. by intros s. Qed.
End inside.

(** What an operation on one part leaves of another. *)
Lemma inside_frame {S T U A} `{Part S T} `{!Part S U} `{!Independent S T U} (m : st T A) s :
  part (T:=U) (fst (inside m s)) = part s.
Proof. rewrite inside_eq. apply part_independent. Qed.

#[export] Hint Resolve keeps_read : keeps.

(** ** Caught exceptions *)

(** [try: m except E: h]; the state reached when it was raised stays. *)
Definition st_catch {S A} (p : exn -> bool) (m : st S A) (h : exn -> st S A) : st S A := fun s =>
  match m s with
  | (s', Raise e) => if p e then h e s' else (s', Raise e)
  | r => r
  end.

Definition is_runtime_error (e : exn) : bool := match e with RuntimeError _ => true | _ => false end.

(** [try: m except RuntimeError: pass]. *)
Definition attempt {S} (m : st S unit) : st S unit := st_catch is_runtime_error m (fun _ => st_ret tt).

Lemma keeps_catch {S A} (I : S -> Prop) p (m : st S A) h : keeps I m -> (forall e, keeps I (h e)) -> keeps I (st_catch p m h).
Proof.
  intros Hm Hh s Hs. unfold st_catch. specialize (Hm s Hs). destruct (m s) as [s' [a|e]]; [done|].
  destruct (p e); [by apply Hh|done].
Qed.

Lemma keeps_attempt {S} (I : S -> Prop) m : keeps I m -> keeps I (@attempt S m).
Proof. intros Hm. apply keeps_catch; [done|]. intros e. apply keeps_ret. Qed.
