(* ===== verification/Json.v ===== *)
(** * Reading JSON

    [bytes.decode("utf-8")] and [json.loads] with its [object_pairs_hook], by
    recursive descent with fuel: every recursive call consumes a character, so
    fuel one above the length of the text is enough. A code point above 255 has
    no character in this library and is refused like malformed text. *)

From S2P Require Import Prelude PyStr PyFloat PyVal.
From Stdlib Require Import SpecFloat.

#[local] Open Scope string_scope.
#[local] Open Scope list_scope.
#[local] Open Scope Z_scope.

Definition decode_error : exn := ValueError "JSONDecodeError".

(** UTF-8 decoding of the code points 0..255. *)
Fixpoint utf8_decode_chars (l : list ascii) : res (list ascii) :=
  match l with
  | [] => Ok []
  | c :: l' =>
      if code c <? 128 then r ← utf8_decode_chars l'; Ok (c :: r)
      else if (code c =? 194) || (code c =? 195) then
        match l' with
        | d :: l'' =>
            if in_range 128 191 d
            then r ← utf8_decode_chars l''; Ok (chr ((code c - 192) * 64 + (code d - 128)) :: r)
            else Raise (ValueError "UnicodeDecodeError")
        | [] => Raise (ValueError "UnicodeDecodeError")
        end
      else Raise (ValueError "UnicodeDecodeError")
  end.

Definition utf8_decode (bytes : string) : res string :=
  r ← utf8_decode_chars (chars bytes); Ok (of_chars r).

Definition json_space (c : ascii) : bool :=
  (code c =? 32) || (code c =? 9) || (code c =? 10) || (code c =? 13).

Definition skip_ws (l : list ascii) : list ascii := drop_while json_space l.

Definition hex_value (c : ascii) : option Z :=
  if is_digit c then Some (code c - 48)
  else if in_range 97 102 c then Some (code c - 87)
  else if in_range 65 70 c then Some (code c - 55)
  else None.

Definition hex4 (a b c d : ascii) : option Z :=
  match hex_value a, hex_value b, hex_value c, hex_value d with
  | Some a, Some b, Some c, Some d => Some (((a * 16 + b) * 16 + c) * 16 + d)
  | _, _, _, _ => None
  end.

Definition escape_of (c : ascii) : option ascii :=
  if Ascii.eqb c dquote || Ascii.eqb c backslash || (code c =? 47) then Some c
  else if code c =? 98 then Some (chr 8)
  else if code c =? 102 then Some (chr 12)
  else if code c =? 110 then Some (chr 10)
  else if code c =? 114 then Some (chr 13)
  else if code c =? 116 then Some (chr 9)
  else None.

Definition push (c : ascii) (r : res (list ascii * list ascii)) : res (list ascii * list ascii) :=
  match r with Ok (s, rest) => Ok (c :: s, rest) | Raise e => Raise e end.

(** The characters of a string literal after its opening quote, and the text
    after its closing quote. *)
Fixpoint string_body (l : list ascii) : res (list ascii * list ascii) :=
  match l with
  | [] => Raise decode_error
  | c :: l1 =>
      if Ascii.eqb c dquote then Ok ([], l1)
      else if code c <? 32 then Raise decode_error
      else if Ascii.eqb c backslash then
        match l1 with
        | [] => Raise decode_error
        | e :: l2 =>
            if code e =? 117 then
              match l2 with
              | h1 :: h2 :: h3 :: h4 :: l3 =>
                  match hex4 h1 h2 h3 h4 with
                  | Some z => if z <? 256 then push (chr z) (string_body l3)
                              else Raise decode_error
                  | None => Raise decode_error
                  end
              | _ => Raise decode_error
              end
            else match escape_of e with
                 | Some c' => push c' (string_body l2)
                 | None => Raise decode_error
                 end
        end
      else push c (string_body l1)
  end.

Fixpoint take_digits (l : list ascii) : list ascii * list ascii :=
  match l with
  | c :: l' => if is_digit c then let '(ds, rest) := take_digits l' in (c :: ds, rest) else ([], l)
  | [] => ([], [])
  end.

Definition digit_values (l : list ascii) : list Z := map (fun c => code c - 48) l.

(** The integer part: a lone zero or digits without a leading zero. *)
Definition integer_part (l : list ascii) : option (list ascii * list ascii) :=
  match l with
  | c :: l' => if code c =? 48 then Some ([c], l')
               else if is_digit c then Some (take_digits l) else None
  | [] => None
  end.

Definition fraction_part (l : list ascii) : list ascii * list ascii :=
  match l with
  | c :: l' => if Ascii.eqb c (chr 46) then
                 match take_digits l' with ([], _) => ([], l) | r => r end
               else ([], l)
  | [] => ([], [])
  end.

Definition exponent_part (l : list ascii) : option Z * list ascii :=
  match l with
  | c :: l' =>
      if (code c =? 101) || (code c =? 69) then
        let '(neg, l1) := split_sign l' in
        match take_digits l1 with
        | ([], _) => (None, l)
        | (ds, rest) => (Some (let v := digits_value (digit_values ds) in if neg then - v else v), rest)
        end
      else (None, l)
  | [] => (None, [])
  end.

Definition number (neg : bool) (l : list ascii) : res (pyval * list ascii) :=
  match integer_part l with
  | None => Raise decode_error
  | Some (ip, l1) =>
      let '(fp, l2) := fraction_part l1 in
      let '(ex, l3) := exponent_part l2 in
      match fp, ex with
      | [], None =>
          if 4300 <? Z.of_nat (length ip) then Raise (ValueError "Exceeds the limit for integer string conversion")
          else let v := digits_value (digit_values ip) in Ok (VInt (if neg then - v else v), l3)
      | _, _ =>
          Ok (VFloat (float_of_dec neg (digits_value (digit_values (ip ++ fp)))
                        (default 0 ex - Z.of_nat (length fp))), l3)
      end
  end.

(** [expect p l]: the text after the literal [p]. *)
Fixpoint expect (p l : list ascii) : option (list ascii) :=
  match p, l with
  | [], _ => Some l
  | a :: p', b :: l' => if Ascii.eqb a b then expect p' l' else None
  | _ :: _, [] => None
  end.

Definition literal (l : list ascii) : option (pyval * list ascii) :=
  match expect (chars "null") l with Some r => Some (VNone, r) | None =>
  match expect (chars "true") l with Some r => Some (VBool true, r) | None =>
  match expect (chars "false") l with Some r => Some (VBool false, r) | None =>
  match expect (chars "NaN") l with Some r => Some (VFloat S754_nan, r) | None =>
  match expect (chars "Infinity") l with Some r => Some (VFloat (S754_infinity false), r) | None =>
  match expect (chars "-Infinity") l with Some r => Some (VFloat (S754_infinity true), r) | None =>
  None end end end end end end.

Section parser.
(** [object_pairs_hook]: what is made of an object's pairs. *)
Context (hook : pydict -> res pydict).

Fixpoint value (fuel : nat) (l : list ascii) : res (pyval * list ascii) :=
  match fuel with
  | O => Raise decode_error
  | S n =>
      match l with
      | [] => Raise decode_error
      | c :: l1 =>
          if Ascii.eqb c dquote then
            '(s, rest) ← string_body l1; Ok (VStr (of_chars s), rest)
          else if Ascii.eqb c (chr 123) then
            match skip_ws l1 with
            | c' :: rest => if Ascii.eqb c' (chr 125) then d ← hook []; Ok (VDict d, rest)
                            else '(ps, rest') ← members n (c' :: rest); d ← hook ps; Ok (VDict d, rest')
            | [] => Raise decode_error
            end
          else if Ascii.eqb c (chr 91) then
            match skip_ws l1 with
            | c' :: rest => if Ascii.eqb c' (chr 93) then Ok (VList [], rest)
                            else '(vs, rest') ← elements n (c' :: rest); Ok (VList vs, rest')
            | [] => Raise decode_error
            end
          else match literal l with
               | Some r => Ok r
               | None => if Ascii.eqb c (chr 45) then number true l1 else number false l
               end
      end
  end
with elements (fuel : nat) (l : list ascii) : res (list pyval * list ascii) :=
  match fuel with
  | O => Raise decode_error
  | S n =>
      '(v, r) ← value n l;
      match skip_ws r with
      | c :: r' => if Ascii.eqb c (chr 93) then Ok ([v], r')
                   else if Ascii.eqb c (chr 44) then '(vs, r'') ← elements n (skip_ws r'); Ok (v :: vs, r'')
                   else Raise decode_error
      | [] => Raise decode_error
      end
  end
with members (fuel : nat) (l : list ascii) : res (pydict * list ascii) :=
  match fuel with
  | O => Raise decode_error
  | S n =>
      match l with
      | q :: l1 =>
          if Ascii.eqb q dquote then
            '(k, r) ← string_body l1;
            match skip_ws r with
            | c :: r1 =>
                if Ascii.eqb c (chr 58) then
                  '(v, r2) ← value n (skip_ws r1);
                  match skip_ws r2 with
                  | c' :: r3 =>
                      if Ascii.eqb c' (chr 125) then Ok ([(of_chars k, v)], r3)
                      else if Ascii.eqb c' (chr 44) then
                        '(ps, r4) ← members n (skip_ws r3); Ok ((of_chars k, v) :: ps, r4)
                      else Raise decode_error
                  | [] => Raise decode_error
                  end
                else Raise decode_error
            | [] => Raise decode_error
            end
          else Raise decode_error
      | [] => Raise decode_error
      end
  end.

Definition loads_with (text : string) : res pyval :=
  let l := chars text in
  '(v, rest) ← value (S (2 * length l)) (skip_ws l);
  match skip_ws rest with [] => Ok v | _ => Raise decode_error end.
End parser.

(** [json.loads(text)]: a repeated key keeps its last value. *)
Definition loads (text : string) : res pyval := loads_with (fun ps => Ok (dmerge [] ps)) text.
