(* ===== verification/Sha256.v ===== *)
(** * SHA-256 and HMAC-SHA-256

    The digest and the message authentication code the standard library's
    [hashlib.sha256] and [hmac.new(key, msg, sha256)] compute, executable on
    byte strings (one [ascii] per byte). 32-bit words are integers kept in
    [0, 2^32) by an explicit wrap-around. *)

From S2P Require Import Prelude PyStr PyFloat PyVal PyFacts.

#[local] Open Scope string_scope.
#[local] Open Scope list_scope.
#[local] Open Scope Z_scope.

(** 32-bit words. *)
Definition w32 (z : Z) : Z := Z.land z 4294967295.
Definition rotr (n x : Z) : Z := w32 (Z.lor (Z.shiftr x n) (Z.shiftl x (32 - n))).
Definition shr (n x : Z) : Z := Z.shiftr x n.
Definition wnot (x : Z) : Z := Z.lxor x 4294967295.

Definition ch (x y z : Z) : Z := Z.lxor (Z.land x y) (Z.land (wnot x) z).
Definition maj (x y z : Z) : Z := Z.lxor (Z.lxor (Z.land x y) (Z.land x z)) (Z.land y z).
Definition bsig0 (x : Z) : Z := Z.lxor (Z.lxor (rotr 2 x) (rotr 13 x)) (rotr 22 x).
Definition bsig1 (x : Z) : Z := Z.lxor (Z.lxor (rotr 6 x) (rotr 11 x)) (rotr 25 x).
Definition ssig0 (x : Z) : Z := Z.lxor (Z.lxor (rotr 7 x) (rotr 18 x)) (shr 3 x).
Definition ssig1 (x : Z) : Z := Z.lxor (Z.lxor (rotr 17 x) (rotr 19 x)) (shr 10 x).

Definition round_constants : list Z :=
  [1116352408; 1899447441; 3049323471; 3921009573; 961987163; 1508970993;
   2453635748; 2870763221; 3624381080; 310598401; 607225278; 1426881987;
   1925078388; 2162078206; 2614888103; 3248222580; 3835390401; 4022224774;
   264347078; 604807628; 770255983; 1249150122; 1555081692; 1996064986;
   2554220882; 2821834349; 2952996808; 3210313671; 3336571891; 3584528711;
   113926993; 338241895; 666307205; 773529912; 1294757372; 1396182291;
   1695183700; 1986661051; 2177026350; 2456956037; 2730485921; 2820302411;
   3259730800; 3345764771; 3516065817; 3600352804; 4094571909; 275423344;
   430227734; 506948616; 659060556; 883997877; 958139571; 1322822218;
   1537002063; 1747873779; 1955562222; 2024104815; 2227730452; 2361852424;
   2428436474; 2756734187; 3204031479; 3329325298].

Definition initial_hash : list Z :=
  [1779033703; 3144134277; 1013904242; 2773480762; 1359893119; 2600822924;
   528734635; 1541459225].

(** The big-endian bytes of [z], [n] of them. *)
Fixpoint be_bytes (n : nat) (z : Z) : list ascii :=
  match n with
  | O => []
  | S n' => be_bytes n' (z / 256) ++ [chr (z mod 256)]
  end.

Definition be_value (l : list ascii) : Z := fold_left (fun acc c => acc * 256 + code c) l 0.

(** Message padding: 0x80, zeros up to 56 modulo 64, the bit length on 8 bytes. *)
Definition padding (len : Z) : list ascii :=
  chr 128 :: repeat (chr 0) (Z.to_nat ((55 - len) mod 64)) ++ be_bytes 8 (8 * len).

Fixpoint words (fuel : nat) (l : list ascii) : list Z :=
  match fuel with
  | O => []
  | S fuel' => match l with
               | [] => []
               | _ => be_value (firstn 4 l) :: words fuel' (skipn 4 l)
               end
  end.

(** The message schedule, newest word first, extended [n] times. *)
Fixpoint schedule (n : nat) (w : list Z) : list Z :=
  match n with
  | O => w
  | S n' =>
      let at_ i := nth i w 0 in
      schedule n' (w32 (ssig1 (at_ 1%nat) + at_ 6%nat + ssig0 (at_ 14%nat) + at_ 15%nat) :: w)
  end.

Record working := { wa : Z; wb : Z; wc : Z; wd : Z; we : Z; wf : Z; wg : Z; wh : Z }.

Definition round (s : working) (kw : Z * Z) : working :=
  let t1 := s.(wh) + bsig1 s.(we) + ch s.(we) s.(wf) s.(wg) + fst kw + snd kw in
  let t2 := bsig0 s.(wa) + maj s.(wa) s.(wb) s.(wc) in
  {| wa := w32 (t1 + t2); wb := s.(wa); wc := s.(wb); wd := s.(wc);
     we := w32 (s.(wd) + t1); wf := s.(we); wg := s.(wf); wh := s.(wg) |}.

Definition load (h : list Z) : working :=
  {| wa := nth 0 h 0; wb := nth 1 h 0; wc := nth 2 h 0; wd := nth 3 h 0;
     we := nth 4 h 0; wf := nth 5 h 0; wg := nth 6 h 0; wh := nth 7 h 0 |}.

Definition store (s : working) : list Z :=
  [s.(wa); s.(wb); s.(wc); s.(wd); s.(we); s.(wf); s.(wg); s.(wh)].

Definition compress (h : list Z) (block : list ascii) : list Z :=
  let w := rev (schedule 48 (rev (words 16 block))) in
  let s := fold_left round (combine round_constants w) (load h) in
  map (fun ab => w32 (fst ab + snd ab)) (combine h (store s)).

Fixpoint blocks (fuel : nat) (h : list Z) (l : list ascii) : list Z :=
  match fuel with
  | O => h
  | S fuel' => match l with
               | [] => h
               | _ => blocks fuel' (compress h (firstn 64 l)) (skipn 64 l)
               end
  end.

(** [hashlib.sha256(msg).digest()]. *)
Definition sha256 (msg : string) : string :=
  let l := chars msg in
  let padded := l ++ padding (Z.of_nat (length l)) in
  of_chars (concat (map (be_bytes 4) (blocks (S (length padded / 64)) initial_hash padded))).

(** [hashlib.sha256(msg).hexdigest()]. *)
Definition sha256_hex (msg : string) : string := hex (sha256 msg).

Definition xor_pad (x : Z) (key : list ascii) : list ascii :=
  map (fun c => chr (Z.lxor (code c) x)) key.

(** The key of HMAC: hashed when longer than a block, then zero-padded. *)
Definition hmac_key (key : string) : list ascii :=
  let k := if 64 <? Z.of_nat (length (chars key)) then chars (sha256 key) else chars key in
  k ++ repeat (chr 0) (64 - length k).

(** [hmac.new(key, msg, hashlib.sha256).digest()]. *)
Definition hmac_sha256 (key msg : string) : string :=
  let k := hmac_key key in
  let inner := sha256 (of_chars (xor_pad 54 k ++ chars msg)) in
  sha256 (of_chars (xor_pad 92 k ++ chars inner)).

(** [hmac.new(key, msg, hashlib.sha256).hexdigest()]. *)
Definition hmac_hex (key msg : string) : string := hex (hmac_sha256 key msg).

(** ** Known answers *)

Example sha256_abc :
  sha256_hex "abc" = "ba7816bf8f01cfea414140de5dae2223b00361a396177a9cb410ff61f20015ad".
Proof. vm_compute. reflexivity. Qed.

Example sha256_two_blocks :
  sha256_hex "abcdbcdecdefdefgefghfghighijhijkijkljklmklmnlmnomnopnopq"
  = "248d6a61d20638b8e5c026930c3e6039a33ce45964ff2167f6ecedd419db06c1".
Proof. vm_compute. reflexivity. Qed.

Example hmac_jefe :
  hmac_hex "Jefe" "what do ya want for nothing?"
  = "5bdcc146bf60754e6a042426089575c75a003f089d2739839dec58b964ec3843".
Proof. vm_compute. reflexivity. Qed.

(** ** Shapes and big-endian round trip *)

Lemma code_chr z : 0 <= z < 256 -> code (chr z) = z.
Proof. intros H. unfold code, chr. rewrite nat_ascii_embedding; lia. Qed.

Lemma code_bound c : 0 <= code c < 256.
Proof. unfold code. pose proof (nat_ascii_bounded c). lia. Qed.

Lemma be_bytes_length n z : length (be_bytes n z) = n.
Proof. revert z. induction n as [|n IH]; intros z; cbn; [done|]. rewrite length_app, IH. cbn. lia. Qed.

Lemma be_value_snoc l c : be_value (l ++ [c]) = be_value l * 256 + code c.
Proof. unfold be_value. by rewrite fold_left_app. Qed.

Lemma be_value_be_bytes n z : 0 <= z < 256 ^ Z.of_nat n -> be_value (be_bytes n z) = z.
Proof.
  revert z. induction n as [|n IH]; intros z Hz.
  - cbn in *. lia.
  - cbn [be_bytes]. rewrite be_value_snoc, IH, code_chr.
    + pose proof (Z.div_mod z 256). lia.
    + apply Z.mod_pos_bound. lia.
    + rewrite Nat2Z.inj_succ, Z.pow_succ_r in Hz by lia.
      split; [apply Z.div_pos; lia|]. apply Z.div_lt_upper_bound; lia.
Qed.

Lemma compress_length h b : length h = 8%nat -> length (compress h b) = 8%nat.
Proof. intros H. unfold compress. rewrite length_map, length_combine, H. done. Qed.

Lemma blocks_length fuel h l : length h = 8%nat -> length (blocks fuel h l) = 8%nat.
Proof.
  revert h l. induction fuel as [|fuel IH]; intros h l H; cbn; [done|].
  destruct l; [done|]. apply IH. by apply compress_length.
Qed.

Lemma concat_words_length (l : list Z) : length (concat (map (be_bytes 4) l)) = (4 * length l)%nat.
Proof. induction l as [|z l IH]; cbn -[be_bytes Nat.mul]; [done|]. rewrite length_app, be_bytes_length, IH. lia. Qed.

Lemma sha256_length m : length (chars (sha256 m)) = 32%nat.
Proof. unfold sha256. rewrite chars_of_chars, concat_words_length, blocks_length; done. Qed.

Lemma hmac_sha256_length k m : length (chars (hmac_sha256 k m)) = 32%nat.
Proof. apply sha256_length. Qed.

Lemma hex_digit_ascii z : 0 <= z < 16 -> (code (hex_digit z) <? 128) = true.
Proof. intros H. unfold hex_digit. apply Z.ltb_lt. case_match; rewrite code_chr; lia. Qed.

Lemma hex_ascii s : is_ascii (hex s) = true.
Proof.
  unfold is_ascii, hex. rewrite chars_of_chars. apply forallb_forall. intros c Hc.
  apply in_concat in Hc as (l & Hl & Hc). apply in_map_iff in Hl as (d & <- & _).
  pose proof (code_bound d).
  destruct Hc as [<-|[<-|[]]]; apply hex_digit_ascii.
  - split; [apply Z.div_pos; lia|]. apply Z.div_lt_upper_bound; lia.
  - apply Z.mod_pos_bound. lia.
Qed.

Lemma hmac_hex_ascii k m : is_ascii (hmac_hex k m) = true.
Proof. apply hex_ascii. Qed.

Lemma sha256_hex_ascii m : is_ascii (sha256_hex m) = true.
Proof. apply hex_ascii. Qed.
