(* ===== verification/JsonText.v ===== *)
(** * JSON texts and the values they are read as

    What [json.dumps] writes, [json.loads] reads back. A relation [jtext] says
    which texts stand for a value, white space included; the parser of Json.v
    reads every such text as its value whatever follows it, and the compact and
    the indented writer produce such texts. The value read back has its objects'
    keys sorted, as both writers sort them. *)

From stdpp Require Import pretty.
From Stdlib Require Import SpecFloat Sorted.
From S2P Require Import Prelude PyStr PyFloat PyVal PyFacts Json Sha256.

#[local] Open Scope string_scope.
#[local] Open Scope list_scope.
#[local] Open Scope Z_scope.

(** ** Characters *)

(** Reduce a statement about one character to its 256 instances. *)
Ltac by_char c := destruct c as [[] [] [] [] [] [] [] []]; try reflexivity; try discriminate.

Lemma chars_app s t : chars (s +:+ t) = chars s ++ chars t.
Proof. induction s as [|c s IH]; [done|]. exact (f_equal (cons c) IH). Qed.

Lemma chars_inj s t : chars s = chars t -> s = t.
Proof. intros H. by rewrite <- (of_chars_chars s), H, of_chars_chars. Qed.

Lemma utf8_char_decode c l : utf8_decode_chars (utf8_char c ++ l) = (r ← utf8_decode_chars l; Ok (c :: r)).
Proof. by_char c. Qed.

(** Decoding undoes encoding. *)
Lemma utf8_decode_utf8 s : utf8_decode (utf8 s) = Ok s.
Proof.
  unfold utf8_decode, utf8. rewrite chars_of_chars.
  assert (forall l, utf8_decode_chars (concat (map utf8_char l)) = Ok l) as ->.
  { intros l. induction l as [|c l IH]; [done|]. cbn [map concat]. rewrite utf8_char_decode, IH. done. }
  cbn. by rewrite of_chars_chars.
Qed.

Lemma json_char_read c l : string_body (json_char c ++ l) = push c (string_body l).
Proof. by_char c. Qed.

Lemma string_body_json l rest : string_body (concat (map json_char l) ++ dquote :: rest) = Ok (l, rest).
Proof.
  induction l as [|c l IH]; [done|]. cbn [map concat]. rewrite <- app_assoc, json_char_read, IH. done.
Qed.

(** ** Decimal numbers *)

Lemma digit_char_spec n : (n < 10)%N ->
  is_digit (pretty_N_char n) = true /\ code (pretty_N_char n) - 48 = Z.of_N n.
Proof.
  intros H. destruct n as [|p]; [done|]. do 4 (destruct p as [p|p|]; [..|done]); exfalso; lia.
Qed.

Lemma digits_value_snoc l d : digits_value (l ++ [d]) = digits_value l * 10 + d.
Proof. unfold digits_value. by rewrite fold_left_app. Qed.

Lemma pretty_N_go_digits x s : exists ds, chars (pretty_N_go x s) = ds ++ chars s
  /\ forallb is_digit ds = true /\ digits_value (digit_values ds) = Z.of_N x
  /\ ((0 < x)%N -> exists c ds', ds = c :: ds' /\ code c <> 48).
Proof.
  revert s. induction (N.lt_wf_0 x) as [x _ IH]. intros s. destruct (decide (x = 0%N)) as [->|Hx].
  - rewrite pretty_N_go_0. by exists [].
  - rewrite pretty_N_go_step by lia.
    destruct (IH (x `div` 10)%N ltac:(apply N.div_lt; lia) (String (pretty_N_char (x `mod` 10)) s))
      as (ds & Hds & Hd & Hv & Hh).
    assert (x `mod` 10 < 10)%N as Hm by (apply N.mod_lt; lia).
    destruct (digit_char_spec _ Hm) as [H1 H2].
    exists (ds ++ [pretty_N_char (x `mod` 10)]). rewrite Hds, <- app_assoc. split; [done|].
    rewrite forallb_app, Hd. cbn [forallb]. rewrite H1. split; [done|]. split.
    + unfold digit_values in *. rewrite map_app. cbn [map]. rewrite digits_value_snoc, Hv, H2.
      pose proof (N.div_mod x 10 ltac:(lia)). lia.
    + intros _. destruct (decide (x `div` 10 = 0)%N) as [E|E].
      * destruct ds as [|c ds'].
        -- eexists _, []. split; [done|]. intros H3. rewrite H3 in H2.
           rewrite N.mod_small in H2; [lia|]. by apply N.div_small_iff in E; [|lia].
        -- exfalso. rewrite E, pretty_N_go_0 in Hds. apply (f_equal length) in Hds. cbn in Hds.
           rewrite length_app in Hds. cbn in Hds. lia.
      * destruct Hh as (c & ds' & -> & Hc); [by apply N.neq_0_lt_0|]. by exists c, (ds' ++ [pretty_N_char (x `mod` 10)]).
Qed.

(** The decimal digits of a natural number, without a leading zero. *)
Lemma dec_digits z : 0 <= z -> exists c ds, chars (dec z) = c :: ds /\ forallb is_digit (c :: ds) = true
  /\ digits_value (digit_values (c :: ds)) = z /\ (code c = 48 -> ds = []).
Proof.
  intros Hz. unfold dec. destruct z as [|p|p]; [|clear Hz|lia].
  - by exists (chr 48), [].
  - change (pretty (Z.pos p)) with (pretty_N_go (N.pos p) "").
    destruct (pretty_N_go_digits (N.pos p) "") as (ds & Hds & Hd & Hv & Hh).
    destruct Hh as (c & ds' & -> & Hc); [lia|]. rewrite app_nil_r in Hds.
    exists c, ds'. split_and!; [done..|]. intros; done.
Qed.

Lemma dec_neg p : dec (Z.neg p) = String (chr 45) (dec (Z.pos p)).
Proof. done. Qed.

(** What cannot continue a number. *)
Definition stops (rest : list ascii) : bool :=
  match rest with
  | [] => true
  | c :: _ => negb (is_digit c) && negb (existsb (fun z => code c =? z) [43; 45; 46; 69; 101])
  end.

Lemma take_digits_app l ds l' rest :
  take_digits l = (ds, l') -> stops rest = true -> take_digits (l ++ rest) = (ds, l' ++ rest).
Proof.
  revert ds l'. induction l as [|c l IH]; intros ds l' H Hs; cbn in *.
  - injection H as <- <-. destruct rest as [|c rest]; [done|]. cbn in *.
    by apply andb_prop in Hs as [->%negb_true_iff _].
  - destruct (is_digit c); [|by injection H as <- <-].
    destruct (take_digits l) as [ds0 l0]. injection H as <- <-. by rewrite (IH ds0 l0).
Qed.

Lemma take_all_digits ds : forallb is_digit ds = true -> take_digits ds = (ds, []).
Proof. induction ds as [|c ds IH]; cbn; [done|]. intros [-> H]%andb_prop. by rewrite IH. Qed.

Lemma integer_part_app l ip l' rest :
  integer_part l = Some (ip, l') -> stops rest = true -> integer_part (l ++ rest) = Some (ip, l' ++ rest).
Proof.
  destruct l as [|c l]; [done|]. unfold integer_part. cbn [app]. intros H Hs.
  destruct (code c =? 48); [by injection H as <- <-|]. destruct (is_digit c); [|done].
  injection H as H. f_equal. by apply (take_digits_app (c :: l)).
Qed.

Lemma stops_not rest z : stops rest = true -> In z [43; 45; 46; 69; 101] ->
  match rest with [] => True | c :: _ => (code c =? z) = false end.
Proof.
  destruct rest as [|c rest]; [done|]. unfold stops. intros [_ H%negb_true_iff]%andb_prop Hz.
  destruct (code c =? z) eqn:E; [|done]. exfalso.
  assert (existsb (fun z => code c =? z) [43; 45; 46; 69; 101] = true) by (apply existsb_exists; eauto). congruence.
Qed.

Lemma eqb_code c z : 0 <= z < 256 -> Ascii.eqb c (chr z) = (code c =? z).
Proof.
  intros Hz. destruct (Z.eqb_spec (code c) z) as [<-|Hne].
  - apply Ascii.eqb_eq. unfold chr, code. by rewrite Nat2Z.id, ascii_nat_embedding.
  - apply Ascii.eqb_neq. intros ->. apply Hne. by apply code_chr.
Qed.

Lemma fraction_part_app l fp l' rest :
  fraction_part l = (fp, l') -> stops rest = true -> fraction_part (l ++ rest) = (fp, l' ++ rest).
Proof.
  intros H Hs. destruct l as [|c l]; cbn [app] in *.
  - injection H as <- <-. destruct rest as [|c rest]; [done|]. unfold fraction_part. rewrite eqb_code by lia.
    by rewrite (stops_not _ 46 Hs) by (cbn; tauto).
  - unfold fraction_part in *. destruct (Ascii.eqb c (chr 46)); [|by injection H as <- <-].
    destruct (take_digits l) as [ds l0] eqn:E. rewrite (take_digits_app _ _ _ _ E Hs).
    destruct ds; by injection H as <- <-.
Qed.

Lemma split_sign_app l neg l' rest :
  split_sign l = (neg, l') -> stops rest = true -> split_sign (l ++ rest) = (neg, l' ++ rest).
Proof.
  intros H Hs. destruct l as [|c l]; cbn [app] in *.
  - injection H as <- <-. destruct rest as [|c rest]; [done|]. unfold split_sign. rewrite !eqb_code by lia.
    by rewrite (stops_not _ 45 Hs), (stops_not _ 43 Hs) by (cbn; tauto).
  - unfold split_sign in *. destruct (Ascii.eqb c (chr 45)); [by injection H as <- <-|].
    destruct (Ascii.eqb c (chr 43)); by injection H as <- <-.
Qed.

Lemma exponent_part_app l ex l' rest :
  exponent_part l = (ex, l') -> stops rest = true -> exponent_part (l ++ rest) = (ex, l' ++ rest).
Proof.
  intros H Hs. destruct l as [|c l]; cbn [app] in *.
  - injection H as <- <-. destruct rest as [|c rest]; [done|]. unfold exponent_part.
    by rewrite (stops_not _ 101 Hs), (stops_not _ 69 Hs) by (cbn; tauto).
  - unfold exponent_part in *. destruct (_ || _); [|by injection H as <- <-].
    destruct (split_sign l) as [neg l1] eqn:E. rewrite (split_sign_app _ _ _ _ E Hs).
    destruct (take_digits l1) as [ds l2] eqn:E2. rewrite (take_digits_app _ _ _ _ E2 Hs).
    destruct ds; by injection H as <- <-.
Qed.

(** A number is read the same whatever follows it, if that cannot continue it. *)
Lemma number_app neg l v l' rest :
  number neg l = Ok (v, l') -> stops rest = true -> number neg (l ++ rest) = Ok (v, l' ++ rest).
Proof.
  unfold number. intros H Hs. destruct (integer_part l) as [[ip l1]|] eqn:E1; [|done].
  rewrite (integer_part_app _ _ _ _ E1 Hs). destruct (fraction_part l1) as [fp l2] eqn:E2.
  rewrite (fraction_part_app _ _ _ _ E2 Hs). destruct (exponent_part l2) as [ex l3] eqn:E3.
  rewrite (exponent_part_app _ _ _ _ E3 Hs). destruct fp, ex; try by injection H as <- <-.
  destruct (_ <? _); [done|]. by injection H as <- <-.
Qed.

(** An integer Python converts from text: at most 4300 digits. *)
Definition int_ok (z : Z) : bool := str_len (dec (Z.abs z)) <=? 4300.

Lemma number_dec neg z : 0 <= z -> int_ok z = true ->
  number neg (chars (dec z)) = Ok (VInt (if neg then - z else z), []).
Proof.
  intros Hz Hk. unfold int_ok in Hk. rewrite Z.abs_eq in Hk by done. apply Z.leb_le in Hk. unfold str_len in Hk.
  destruct (dec_digits z Hz) as (c & ds & Hd & Hall & Hv & Hz0).
  pose proof (length_chars (dec z)) as Hl.
  rewrite Hd in *. unfold number.
  assert (integer_part (c :: ds) = Some (c :: ds, [])) as ->.
  { unfold integer_part. destruct (Z.eqb_spec (code c) 48) as [E|E].
    - by rewrite (Hz0 E).
    - pose proof Hall as Hc. cbn [forallb] in Hc. apply andb_prop in Hc as [-> _]. by rewrite take_all_digits. }
  cbn [fraction_part exponent_part]. destruct (Z.ltb_spec 4300 (Z.of_nat (length (c :: ds)))); [lia|].
  by rewrite Hv.
Qed.

(** Whether a float's text reads back as that float. *)
Definition reads_as (neg : bool) (l : list ascii) (f : float) : bool :=
  match number neg l with Ok (VFloat g, []) => bool_decide (g = f) | _ => false end.

Definition float_ok (f : float) : bool :=
  match f with
  | S754_nan | S754_infinity _ => true
  | _ => match chars (json_float f) with
         | c :: l => if Ascii.eqb c (chr 45) then reads_as true l f else reads_as false (c :: l) f
         | [] => false
         end
  end.

Lemma reads_as_number neg l f : reads_as neg l f = true -> number neg l = Ok (VFloat f, []).
Proof.
  unfold reads_as. destruct (number neg l) as [[v r]|e]; [|done]. destruct v, r; try done.
  by intros ->%bool_decide_eq_true.
Qed.

Lemma number_head neg l r : number neg l = Ok r -> exists c l', l = c :: l' /\ is_digit c = true.
Proof.
  unfold number. destruct l as [|c l]; [done|]. intros H. exists c, l. split; [done|].
  unfold integer_part in H. destruct (Z.eqb_spec (code c) 48) as [E|E].
  - unfold is_digit, in_range. by rewrite E.
  - by destruct (is_digit c).
Qed.

(** ** Texts of values *)

Definition ws (l : list ascii) : Prop := forallb json_space l = true.

Inductive jtext : pyval -> list ascii -> Prop :=
| jt_none : jtext VNone (chars "null")
| jt_bool b : jtext (VBool b) (chars (if b then "true" else "false"))
| jt_int z : int_ok z = true -> jtext (VInt z) (chars (dec z))
| jt_float f : float_ok f = true -> jtext (VFloat f) (chars (json_float f))
| jt_str s : jtext (VStr s) (chars (json_str s))
| jt_nil : jtext (VList []) (chars "[]")
| jt_list w vs t : ws w -> jelems vs t -> jtext (VList vs) (chr 91 :: w ++ t)
| jt_empty : jtext (VDict []) (chars "{}")
| jt_dict w d t : ws w -> NoDup (dkeys d) -> jmembers d t -> jtext (VDict d) (chr 123 :: w ++ t)
with jelems : list pyval -> list ascii -> Prop :=
| je_last v t w : jtext v t -> ws w -> jelems [v] (t ++ w ++ [chr 93])
| je_more v t w vs ts : jtext v t -> ws w -> jelems vs ts -> jelems (v :: vs) (t ++ chr 44 :: w ++ ts)
with jmembers : pydict -> list ascii -> Prop :=
| jm_last k w v t w' : ws w -> jtext v t -> ws w' ->
    jmembers [(k, v)] (chars (json_str k) ++ chr 58 :: w ++ t ++ w' ++ [chr 125])
| jm_more k w v t w' d ts : ws w -> jtext v t -> ws w' -> jmembers d ts ->
    jmembers ((k, v) :: d) (chars (json_str k) ++ chr 58 :: w ++ t ++ chr 44 :: w' ++ ts).

Scheme jtext_mut := Minimality for jtext Sort Prop
  with jelems_mut := Minimality for jelems Sort Prop
  with jmembers_mut := Minimality for jmembers Sort Prop.
Combined Scheme jtext_all from jtext_mut, jelems_mut, jmembers_mut.

Definition starts (l : list ascii) : Prop :=
  match l with [] => False | c :: _ => json_space c = false /\ code c <> 93 /\ code c <> 125 end.

Lemma starts_app l rest : starts l -> starts (l ++ rest).
Proof. by destruct l. Qed.

Lemma digit_starts c : is_digit c = true -> json_space c = false /\ code c <> 93 /\ code c <> 125.
Proof. by_char c; done. Qed.

Lemma jtext_starts v t : jtext v t -> starts t.
Proof.
  destruct 1 as [|b|z Hz|f Hf|s| |w vs t Hw He| |w d t Hw Hd Hm]; cbn; try done.
  - by destruct b.
  - destruct z as [|p|p]; [done| |by rewrite dec_neg].
    destruct (dec_digits (Z.pos p) ltac:(lia)) as (c & ds & -> & [H _]%andb_prop & _). by apply digit_starts.
  - assert (forall t, (match t with c :: l => if Ascii.eqb c (chr 45) then reads_as true l f
                                              else reads_as false (c :: l) f | [] => false end) = true -> starts t) as H.
    { intros [|c l]; [done|]. destruct (Ascii.eqb c (chr 45)) eqn:E; [by apply Ascii.eqb_eq in E as ->|].
      intros (c' & l' & [= <- <-] & Hc)%reads_as_number%number_head. by apply digit_starts. }
    destruct f as [s|s| |s m e]; [apply H, Hf| |done|apply H, Hf]. by destruct s.
Qed.

Lemma skip_ws_starts w l : ws w -> starts l -> skip_ws (w ++ l) = l.
Proof.
  unfold ws, skip_ws. induction w as [|c w IH]; cbn.
  - intros _. destruct l as [|c l]; [done|]. cbn. by intros [-> _].
  - intros [-> H]%andb_prop Hl. by apply IH.
Qed.

Lemma skip_ws_char w c l : ws w -> json_space c = false -> skip_ws (w ++ c :: l) = c :: l.
Proof.
  unfold ws, skip_ws. intros H Hc. induction w as [|d w IH]; cbn in *; [by rewrite Hc|].
  apply andb_prop in H as [-> H]. by apply IH.
Qed.

Section parser_facts.
Context (hook : pydict -> res pydict) (hook_distinct : forall d, NoDup (dkeys d) -> hook d = Ok d).

Lemma value_digit n c l : is_digit c = true -> value hook (S n) (c :: l) = number false (c :: l).
Proof. intros H. by_char c. Qed.

Lemma value_minus n c l : is_digit c = true -> value hook (S n) (chr 45 :: c :: l) = number true (c :: l).
Proof. intros H. by_char c. Qed.

Lemma value_number n (neg : bool) c l : is_digit c = true ->
  value hook (S n) ((if neg then [chr 45] else []) ++ c :: l) = number neg (c :: l).
Proof. intros H. destruct neg; [by apply value_minus|by apply value_digit]. Qed.

Lemma json_str_read s rest : string_body (tl (chars (json_str s)) ++ rest) = Ok (chars s, rest).
Proof.
  unfold json_str. rewrite chars_of_chars. cbn [tl]. rewrite <- app_assoc. cbn [app]. apply string_body_json.
Qed.

Lemma json_str_chars s : chars (json_str s) = dquote :: tl (chars (json_str s)).
Proof. unfold json_str. by rewrite chars_of_chars. Qed.

Lemma value_str n s rest : value hook (S n) (chars (json_str s) ++ rest) = Ok (VStr s, rest).
Proof.
  rewrite json_str_chars. cbn [app]. change (value hook (S n) (dquote :: tl (chars (json_str s)) ++ rest))
    with ('(s0, rest0) ← string_body (tl (chars (json_str s)) ++ rest); Ok (VStr (of_chars s0), rest0)).
  rewrite json_str_read. cbn. by rewrite of_chars_chars.
Qed.

Lemma value_int n z rest : int_ok z = true -> stops rest = true ->
  value hook (S n) (chars (dec z) ++ rest) = Ok (VInt z, rest).
Proof.
  intros Hz Hs. assert (exists neg : bool, z = if neg then - Z.abs z else Z.abs z) as [neg Hneg].
  { destruct (Z.le_ge_cases 0 z); [exists false|exists true]; lia. }
  assert (neg = true -> 0 < Z.abs z \/ Z.abs z = 0) as Hpos by lia.
  assert (int_ok (Z.abs z) = true) as Hk by (unfold int_ok in *; by rewrite Z.abs_eq by lia).
  pose proof (number_app _ _ _ _ rest (number_dec neg (Z.abs z) ltac:(lia) Hk) Hs) as Hn.
  rewrite <- Hneg in Hn. destruct (dec_digits (Z.abs z) ltac:(lia)) as (c & ds & Hd & [Hc _]%andb_prop & _).
  assert (chars (dec z) = (if neg then [chr 45] else []) ++ chars (dec (Z.abs z)) \/ z = 0) as [->| ->].
  { destruct neg; [|left; by rewrite Hneg at 1]. destruct z as [|p|p]; [by right| |left; by rewrite dec_neg]. lia. }
  - rewrite <- app_assoc, Hd. cbn [app]. rewrite value_number by done. by rewrite Hd in Hn.
  - change (chars (dec 0)) with [chr 48]. cbn [app]. rewrite value_digit by done.
    by apply (number_app false [chr 48] (VInt 0) [] rest).
Qed.

Lemma value_float n f rest : float_ok f = true -> stops rest = true ->
  value hook (S n) (chars (json_float f) ++ rest) = Ok (VFloat f, rest).
Proof.
  intros Hf Hs.
  assert (forall t, (match t with c :: l => if Ascii.eqb c (chr 45) then reads_as true l f
                                            else reads_as false (c :: l) f | [] => false end) = true ->
                    value hook (S n) (t ++ rest) = Ok (VFloat f, rest)) as H.
  { intros [|c l]; [done|]. destruct (Ascii.eqb c (chr 45)) eqn:E; intros Hr%reads_as_number.
    - apply Ascii.eqb_eq in E as ->. pose proof (number_app _ _ _ _ rest Hr Hs) as Hn.
      destruct (number_head _ _ _ Hr) as (d & l' & -> & Hd). cbn [app] in *. by rewrite value_minus.
    - pose proof (number_app _ _ _ _ rest Hr Hs) as Hn.
      destruct (number_head _ _ _ Hr) as (d & l' & [= <- <-] & Hd). cbn [app] in *. by rewrite value_digit. }
  destruct f as [s|s| |s m e]; [apply H, Hf| |done|apply H, Hf]. by destruct s.
Qed.
End parser_facts.

Section parser_reads.
Context (hook : pydict -> res pydict) (hook_distinct : forall d, NoDup (dkeys d) -> hook d = Ok d).

Lemma ws_stops w l : ws w -> stops l = true -> stops (w ++ l) = true.
Proof.
  unfold ws. intros H Hl. destruct w as [|c w]; [done|]. cbn in *. apply andb_prop in H as [H _].
  clear -H. by_char c.
Qed.

Lemma value_list n w t rest : ws w -> starts t ->
  value hook (S n) (chr 91 :: w ++ t ++ rest) = ('(vs, r) ← elements hook n (t ++ rest); Ok (VList vs, r)).
Proof.
  intros Hw Ht. change (value hook (S n) (chr 91 :: w ++ t ++ rest)) with
    (match skip_ws (w ++ t ++ rest) with
     | c' :: r => if Ascii.eqb c' (chr 93) then Ok (VList [], r)
                  else '(vs, r') ← elements hook n (c' :: r); Ok (VList vs, r')
     | [] => Raise decode_error end).
  rewrite skip_ws_starts by auto using starts_app. destruct t as [|c t]; [done|]. cbn [app].
  destruct Ht as (_ & Hc & _). rewrite eqb_code by lia. by destruct (Z.eqb_spec (code c) 93).
Qed.

Lemma value_dict n w t rest : ws w -> starts t ->
  value hook (S n) (chr 123 :: w ++ t ++ rest)
  = ('(ps, r) ← members hook n (t ++ rest); d ← hook ps; Ok (VDict d, r)).
Proof.
  intros Hw Ht. change (value hook (S n) (chr 123 :: w ++ t ++ rest)) with
    (match skip_ws (w ++ t ++ rest) with
     | c' :: r => if Ascii.eqb c' (chr 125) then d ← hook []; Ok (VDict d, r)
                  else '(ps, r') ← members hook n (c' :: r); d ← hook ps; Ok (VDict d, r')
     | [] => Raise decode_error end).
  rewrite skip_ws_starts by auto using starts_app. destruct t as [|c t]; [done|]. cbn [app].
  destruct Ht as (_ & _ & Hc). rewrite eqb_code by lia. by destruct (Z.eqb_spec (code c) 125).
Qed.

Lemma elements_step n v t w c rest :
  value hook n (t ++ w ++ c :: rest) = Ok (v, w ++ c :: rest) -> ws w -> json_space c = false ->
  elements hook (S n) (t ++ w ++ c :: rest)
  = if Ascii.eqb c (chr 93) then Ok ([v], rest)
    else if Ascii.eqb c (chr 44) then '(vs, r) ← elements hook n (skip_ws rest); Ok (v :: vs, r)
    else Raise decode_error.
Proof.
  intros Hv Hw Hc. cbn [elements]. rewrite Hv. cbn [mbind res_bind]. by rewrite skip_ws_char.
Qed.

Lemma members_step n k w v t w' c rest :
  value hook n (t ++ w' ++ c :: rest) = Ok (v, w' ++ c :: rest) -> ws w -> starts t -> ws w' -> json_space c = false ->
  members hook (S n) (chars (json_str k) ++ chr 58 :: w ++ t ++ w' ++ c :: rest)
  = if Ascii.eqb c (chr 125) then Ok ([(k, v)], rest)
    else if Ascii.eqb c (chr 44) then '(ps, r) ← members hook n (skip_ws rest); Ok ((k, v) :: ps, r)
    else Raise decode_error.
Proof.
  intros Hv Hw Ht Hw' Hc. rewrite json_str_chars. cbn [app members]. rewrite Ascii.eqb_refl, json_str_read.
  cbn [mbind res_bind]. change (skip_ws (chr 58 :: ?l)) with (chr 58 :: l).
  cbn [skip_ws drop_while]. rewrite (eqb_code (chr 58)) by lia. cbn [Z.eqb].
  rewrite skip_ws_starts, Hv by auto using starts_app. cbn [mbind res_bind].
  rewrite skip_ws_char, of_chars_chars by done. done.
Qed.

Lemma jelems_starts vs t : jelems vs t -> starts t.
Proof. destruct 1; by apply starts_app, (jtext_starts v). Qed.

Lemma jmembers_starts d t : jmembers d t -> starts t.
Proof. destruct 1; rewrite json_str_chars; done. Qed.

(** The parser reads every text as its value, whatever follows. *)
Lemma parser_reads :
  (forall v t, jtext v t -> forall n rest, (length t <= n)%nat -> stops rest = true ->
     value hook n (t ++ rest) = Ok (v, rest))
  /\ (forall vs t, jelems vs t -> forall n rest, (length t <= n)%nat -> elements hook n (t ++ rest) = Ok (vs, rest))
  /\ (forall d t, jmembers d t -> forall n rest, (length t <= n)%nat -> members hook n (t ++ rest) = Ok (d, rest)).
Proof.
  apply jtext_all.
  - intros [|n] rest Hn Hs; [cbn in Hn; lia|done].
  - intros b [|n] rest Hn Hs; [by destruct b; cbn in Hn; lia|by destruct b].
  - intros z Hz [|n] rest Hn Hs; [|by apply value_int].
    assert (length (chars (dec z)) = 0)%nat as H by lia.
    pose proof (jtext_starts _ _ (jt_int z Hz)) as Ht. by destruct (chars (dec z)).
  - intros f Hf [|n] rest Hn Hs; [|by apply value_float].
    pose proof (jtext_starts _ _ (jt_float f Hf)) as Ht. by destruct (chars (json_float f)); [|cbn in Hn; lia].
  - intros s [|n] rest Hn Hs; [rewrite json_str_chars in Hn; cbn in Hn; lia|apply value_str].
  - intros [|n] rest Hn Hs; [cbn in Hn; lia|done].
  - intros w vs t Hw He IH [|n] rest Hn Hs; cbn [app length] in *; [lia|].
    rewrite length_app in Hn. rewrite <- app_assoc, value_list by first [done | by eapply jelems_starts].
    rewrite IH by lia. done.
  - intros [|n] rest Hn Hs; [cbn in Hn; lia|].
    change (value hook (S n) (chars "{}" ++ rest)) with (d ← hook []; Ok (VDict d, rest)).
    rewrite hook_distinct by constructor. done.
  - intros w d t Hw Hd Hm IH [|n] rest Hn Hs; cbn [app length] in *; [lia|].
    rewrite length_app in Hn. rewrite <- app_assoc, value_dict by first [done | by eapply jmembers_starts].
    rewrite IH by lia. cbn [mbind res_bind]. by rewrite hook_distinct.
  - intros v t w Ht IH Hw [|n] rest Hn; [rewrite !length_app in Hn; cbn in Hn; lia|].
    rewrite !length_app in Hn. cbn in Hn. rewrite <- !app_assoc. cbn [app].
    rewrite (elements_step n v) by first [done | apply IH; [lia|by apply ws_stops]]. done.
  - intros v t w vs ts Ht IH Hw He IHe [|n] rest Hn; rewrite length_app in Hn; cbn [length] in Hn; [lia|].
    rewrite length_app in Hn. rewrite <- app_assoc. cbn [app].
    pose proof (elements_step n v t [] (chr 44) ((w ++ ts) ++ rest)) as Hstep. cbn [app] in Hstep.
    rewrite Hstep by first [done | apply IH; [lia|done]].
    rewrite !eqb_code by lia. cbn [Z.eqb]. rewrite <- app_assoc, skip_ws_starts
      by first [done | by eapply starts_app, jelems_starts]. by rewrite IHe by lia.
  - intros k w v t w' Hw Ht IH Hw' [|n] rest Hn; rewrite length_app in Hn; cbn [length] in Hn; [lia|].
    rewrite !length_app in Hn. cbn in Hn. rewrite <- app_assoc. cbn [app]. rewrite <- !app_assoc. cbn [app].
    rewrite (members_step n k w v) by first [by eapply jtext_starts | done | apply IH; [lia|by apply ws_stops]]. done.
  - intros k w v t w' d ts Hw Ht IH Hw' Hd IHd [|n] rest Hn; rewrite length_app in Hn; cbn [length] in Hn; [lia|].
    rewrite !length_app in Hn. cbn [length] in Hn. rewrite length_app in Hn.
    rewrite <- app_assoc. cbn [app]. rewrite <- !app_assoc. cbn [app].
    pose proof (members_step n k w v t [] (chr 44) ((w' ++ ts) ++ rest)) as Hstep. cbn [app] in Hstep.
    rewrite Hstep by first [by eapply jtext_starts | done | apply IH; [lia|done]].
    rewrite !eqb_code by lia. cbn [Z.eqb]. rewrite <- app_assoc, skip_ws_starts
      by first [done | by eapply starts_app, jmembers_starts]. by rewrite IHd by lia.
Qed.

(** A document, alone between white space, is read as its value. *)
Lemma loads_text v t w w' : jtext v t -> ws w -> ws w' -> loads_with hook (of_chars (w ++ t ++ w')) = Ok v.
Proof.
  intros Ht Hw Hw'. unfold loads_with. rewrite chars_of_chars.
  rewrite skip_ws_starts by eauto using starts_app, jtext_starts.
  rewrite (proj1 parser_reads v t Ht); [|rewrite !length_app; lia|rewrite <- (app_nil_r w'); by apply ws_stops].
  cbn [mbind res_bind]. assert (skip_ws w' = []) as ->; [|done].
  clear -Hw'. unfold ws, skip_ws in *. induction w' as [|c w' IH]; [done|]. cbn in *.
  by apply andb_prop in Hw' as [-> ?%IH].
Qed.
End parser_reads.

(** ** The writers *)

(** [json.dumps(v, indent=2, sort_keys=True, ensure_ascii=False)]. *)
Definition new_line (level : nat) : string := String (chr 10) (of_chars (repeat (chr 32) (2 * level))).

Fixpoint write_indented (v : pyval) (level : nat) : string :=
  match v with
  | VNone => "null"
  | VBool true => "true"
  | VBool false => "false"
  | VInt z => dec z
  | VFloat f => json_float f
  | VStr s => json_str s
  | VList [] => "[]"
  | VList l =>
      "[" +:+ new_line (S level) +:+ join ("," +:+ new_line (S level)) (map (fun x => write_indented x (S level)) l)
      +:+ new_line level +:+ "]"
  | VDict [] => "{}"
  | VDict d =>
      let items := map (fun kv => (fst kv, write_indented (snd kv) (S level))) d in
      "{" +:+ new_line (S level)
      +:+ join ("," +:+ new_line (S level)) (map (fun kv => json_str (fst kv) +:+ ": " +:+ snd kv) (sort_by fst items))
      +:+ new_line level +:+ "}"
  end.

Definition json_dump_indented (v : pyval) : string := write_indented v 0.

(** The values that read back: integers of at most 4300 digits, floats whose text
    reads back, objects with distinct keys. *)
Fixpoint json_ok (v : pyval) : bool :=
  match v with
  | VInt z => int_ok z
  | VFloat f => float_ok f
  | VList l => forallb json_ok l
  | VDict d => bool_decide (NoDup (dkeys d)) && forallb (fun kv => json_ok (snd kv)) d
  | _ => true
  end.

(** The value read back: every object with its keys sorted. *)
Fixpoint canon (v : pyval) : pyval :=
  match v with
  | VList l => VList (map canon l)
  | VDict d => VDict (sort_by fst (map (fun kv => (fst kv, canon (snd kv))) d))
  | _ => v
  end.

Lemma insert_by_map {A B} (ka : A -> string) (kb : B -> string) (f : A -> B) x l :
  (forall a, kb (f a) = ka a) -> insert_by kb (f x) (map f l) = map f (insert_by ka x l).
Proof.
  intros Hk. induction l as [|y l IH]; cbn; [done|]. rewrite !Hk. destruct (str_ltb (ka x) (ka y)); [done|].
  cbn. by rewrite IH.
Qed.

Lemma sort_by_map {A B} (ka : A -> string) (kb : B -> string) (f : A -> B) l :
  (forall a, kb (f a) = ka a) -> sort_by kb (map f l) = map f (sort_by ka l).
Proof.
  intros Hk. unfold sort_by. rewrite <- map_rev. induction (rev l) as [|x r IH]; cbn; [done|].
  by rewrite IH, (insert_by_map ka kb).
Qed.

Lemma dkeys_sort_by (d : pydict) : NoDup (dkeys d) -> NoDup (dkeys (sort_by fst d)).
Proof. unfold dkeys. intros H. by rewrite sort_by_Permutation. Qed.

(** A separator: a comma and white space; and a key separator. *)
Record separators (isep ksep : string) : Prop := {
  sep_item : exists w, chars isep = chr 44 :: w /\ ws w;
  sep_key : exists w, chars ksep = chr 58 :: w /\ ws w;
}.

Lemma compact_separators : separators "," ":".
Proof. split; by exists []. Qed.

Lemma new_line_ws level : ws (chars (new_line level)).
Proof.
  unfold ws, new_line. cbn [chars String.list_ascii_of_string]. change (String.list_ascii_of_string ?s) with (chars s).
  cbn [forallb]. rewrite chars_of_chars. apply andb_true_intro. split; [done|]. by induction (2 * level)%nat.
Qed.

Lemma indented_separators level : separators ("," +:+ new_line level) ": ".
Proof.
  split; [|by exists [chr 32]]. exists (chars (new_line level)). split; [done|]. apply new_line_ws.
Qed.

Lemma join_jelems isep ksep close vs ts : separators isep ksep -> ws close ->
  Forall2 (fun v t => jtext v (chars t)) vs ts -> vs <> [] -> jelems vs (chars (join isep ts) ++ close ++ [chr 93]).
Proof.
  intros [(w & Hw & Hws) _] Hc. induction 1 as [|v t vs ts Hv Hts IH]; [done|]. intros _.
  destruct ts as [|t' ts]; inversion Hts as [|v' ? vs' ? Hv' Hts']; subst.
  - by constructor.
  - cbn [join]. rewrite !chars_app, Hw. rewrite <- !app_assoc. cbn [app]. constructor; [done..|]. by apply IH.
Qed.

Lemma join_jmembers isep ksep close (d : pydict) (texts : list (string * string)) :
  separators isep ksep -> ws close ->
  Forall2 (fun kv kt => fst kv = fst kt /\ jtext (snd kv) (chars (snd kt))) d texts -> d <> [] ->
  jmembers d (chars (join isep (map (fun kv => json_str (fst kv) +:+ ksep +:+ snd kv) texts)) ++ close ++ [chr 125]).
Proof.
  intros [(w & Hw & Hws) (w2 & Hw2 & Hws2)] Hc.
  induction 1 as [|[k v] [k' t] d ts [Hk Hv] Hts IH]; [done|]. cbn in Hk, Hv. subst k'. intros _.
  destruct ts as [|[k' t'] ts]; inversion Hts as [|kv ? d' ? Hkv Hts']; subst; cbn [map join fst snd].
  - rewrite !chars_app, Hw2. rewrite <- !app_assoc. cbn [app]. by constructor.
  - rewrite !chars_app, Hw2, Hw. rewrite <- !app_assoc. cbn [app].
    constructor; [done..|]. by apply IH.
Qed.

Lemma sort_by_nil {A} (key : A -> string) l : sort_by key l = [] -> l = [].
Proof. intros H. pose proof (sort_by_Permutation key l) as P. rewrite H in P. by apply Permutation_nil. Qed.

Lemma canon_members (write : pyval -> string) (d : pydict) :
  Forall (fun kv => json_ok (snd kv) = true -> jtext (canon (snd kv)) (chars (write (snd kv)))) d ->
  forallb (fun kv => json_ok (snd kv)) d = true ->
  Forall2 (fun kv kt => fst kv = fst kt /\ jtext (snd kv) (chars (snd kt)))
    (sort_by fst (map (fun kv => (fst kv, canon (snd kv))) d))
    (sort_by fst (map (fun kv => (fst kv, write (snd kv))) d)).
Proof.
  intros H Hok. rewrite !(sort_by_map fst fst) by done.
  assert (Forall (fun kv => jtext (canon (snd kv)) (chars (write (snd kv)))) d) as Hd.
  { rewrite forallb_forall in Hok. apply List.Forall_forall. intros kv Hkv.
    rewrite List.Forall_forall in H. auto. }
  rewrite <- (sort_by_Permutation fst) in Hd. induction Hd as [|kv l Hkv Hl IH]; cbn; by constructor.
Qed.

Lemma canon_elements (write : pyval -> string) l :
  Forall (fun v => json_ok v = true -> jtext (canon v) (chars (write v))) l -> forallb json_ok l = true ->
  Forall2 (fun v t => jtext v (chars t)) (map canon l) (map write l).
Proof.
  induction 1 as [|v l Hv Hl IH]; cbn; [constructor|]. intros [H1 H2]%andb_prop. constructor; auto.
Qed.

Lemma canon_keys d : NoDup (dkeys d) -> NoDup (dkeys (sort_by fst (map (fun kv => (fst kv, canon (snd kv))) d))).
Proof. intros H. apply dkeys_sort_by. unfold dkeys in *. by rewrite map_map. Qed.

Lemma dumps_text v : json_ok v = true -> jtext (canon v) (chars (json_dumps v)).
Proof.
  unfold json_dumps. induction v as [|b|z|f|s|l IH|d IH] using pyval_rect'; cbn [json_ok canon]; intros H.
  - constructor.
  - by destruct b; [apply (jt_bool true)|apply (jt_bool false)].
  - by constructor.
  - by constructor.
  - constructor.
  - cbn [write_json]. destruct l as [|v l]; [constructor|].
    rewrite !chars_app. apply (jt_list []); [done|]. change (chars "]") with ([] ++ [chr 93]).
    eapply join_jelems; [apply compact_separators|done| |done]. by apply canon_elements.
  - apply andb_prop in H as [Hk%bool_decide_eq_true H]. cbn [write_json]. destruct d as [|kv d]; [constructor|].
    rewrite !chars_app. apply (jt_dict []); [done|by apply canon_keys|].
    change (chars "}") with ([] ++ [chr 125]).
    apply join_jmembers; [apply compact_separators|done|by apply canon_members|].
    intros E%sort_by_nil. done.
Qed.

Lemma indented_text v level : json_ok v = true -> jtext (canon v) (chars (write_indented v level)).
Proof.
  revert level. induction v as [|b|z|f|s|l IH|d IH] using pyval_rect'; cbn [json_ok canon]; intros level H.
  - constructor.
  - by destruct b; [apply (jt_bool true)|apply (jt_bool false)].
  - by constructor.
  - by constructor.
  - constructor.
  - destruct l as [|v l]; [constructor|]. cbn [write_indented]. rewrite !chars_app. apply (jt_list (chars (new_line (S level)))); [apply new_line_ws|].
    change (chars "]") with [chr 93]. eapply join_jelems; [apply indented_separators|apply new_line_ws| |done].
    apply (canon_elements (fun x => write_indented x (S level)) (v :: l)); [|done].
    eapply List.Forall_impl; [|exact IH]. auto.
  - apply andb_prop in H as [Hk%bool_decide_eq_true H]. destruct d as [|kv d]; [constructor|].
    cbn [write_indented]. rewrite !chars_app. apply (jt_dict (chars (new_line (S level)))); [apply new_line_ws|by apply canon_keys|].
    change (chars "}") with [chr 125].
    apply join_jmembers; [apply indented_separators|apply new_line_ws| |intros E%sort_by_nil; done].
    apply (canon_members (fun x => write_indented x (S level)) (kv :: d)); [|done].
    eapply List.Forall_impl; [|exact IH]. auto.
Qed.

(** ** Reading what was written *)

Lemma merge_distinct d : NoDup (dkeys d) -> (fun ps => Ok (dmerge [] ps)) d = Ok d.
Proof.
  cbn. intros H. f_equal. assert (forall e, (forall k, k ∈ dkeys d -> k ∉ dkeys e) -> dmerge e d = e ++ d) as Hm.
  { induction d as [|[k v] d IH]; intros e He; [by rewrite app_nil_r|]. cbn in H. apply NoDup_cons in H as [Hk Hd].
    change (dmerge e ((k, v) :: d)) with (dmerge (dset e k v) d). assert (dset e k v = e ++ [(k, v)]) as ->.
    { clear -He. assert (k ∉ dkeys e) as Hk by (apply He; left). clear He. induction e as [|[k' v'] e IH]; [done|].
      cbn in *. apply not_elem_of_cons in Hk as [Hk Hk']. rewrite str_eqb_ne by done. by rewrite IH. }
    rewrite IH; [by rewrite <- app_assoc|done|]. intros k' Hk' Hin. unfold dkeys in Hin. rewrite map_app in Hin.
    apply elem_of_app in Hin as [Hin|Hin]; [by apply (He k'); [right|]|]. cbn in Hin.
    apply list_elem_of_singleton in Hin as ->. done. }
  rewrite Hm; [done|]. intros k _ Hk. by apply elem_of_nil in Hk.
Qed.

(** What [json.dumps] writes, [json.loads] reads back, also before a final newline. *)
Lemma loads_dumps v : json_ok v = true -> loads (json_dumps v) = Ok (canon v).
Proof.
  intros H. unfold loads. rewrite <- (of_chars_chars (json_dumps v)).
  rewrite <- (app_nil_r (chars (json_dumps v))). apply (loads_text _ merge_distinct _ _ [] []); [|done..].
  by apply dumps_text.
Qed.

Lemma loads_dumps_line v : json_ok v = true -> loads (json_dumps v +:+ newline) = Ok (canon v).
Proof.
  intros H. unfold loads. rewrite <- (of_chars_chars (_ +:+ newline)), chars_app.
  apply (loads_text _ merge_distinct _ _ [] (chars newline)); [|done..]. by apply dumps_text.
Qed.

Lemma loads_indented v : json_ok v = true -> loads (json_dump_indented v +:+ newline) = Ok (canon v).
Proof.
  intros H. unfold loads. rewrite <- (of_chars_chars (_ +:+ newline)), chars_app.
  apply (loads_text _ merge_distinct _ _ [] (chars newline)); [|done..]. by apply indented_text.
Qed.

(** ** The order of strings, and sorting twice *)

Lemma code_inj a b : code a = code b -> a = b.
Proof. unfold code. intros H%Nat2Z.inj. rewrite <- (ascii_nat_embedding a), <- (ascii_nat_embedding b). by f_equal. Qed.

Lemma str_ltb_irrefl s : str_ltb s s = false.
Proof. induction s as [|c s IH]; cbn; [done|]. by rewrite Ascii.eqb_refl. Qed.

Lemma str_ltb_trans a b c : str_ltb a b = true -> str_ltb b c = true -> str_ltb a c = true.
Proof.
  revert b c. induction a as [|x a IH]; intros [|y b] [|z c]; cbn; try done.
  intros H1 H2. destruct (Ascii.eqb_spec x y) as [->|Hxy].
  - destruct (Ascii.eqb y z); [by eapply IH|done].
  - destruct (Ascii.eqb_spec y z) as [->|Hyz].
    + destruct (Ascii.eqb_spec x z); [done|done].
    + apply Z.ltb_lt in H1, H2. destruct (Ascii.eqb_spec x z) as [->|]; [lia|]. apply Z.ltb_lt. lia.
Qed.

Lemma str_ltb_total a b : str_ltb a b = false -> str_ltb b a = false -> a = b.
Proof.
  revert b. induction a as [|x a IH]; intros [|y b]; cbn; try done.
  rewrite (Ascii.eqb_sym y x). destruct (Ascii.eqb_spec x y) as [<-|Hxy].
  - intros H1 H2. f_equal. by apply IH.
  - intros H1%Z.ltb_ge H2%Z.ltb_ge. exfalso. apply Hxy, code_inj. lia.
Qed.

(** Not in the wrong order. *)
Definition in_order {A} (key : A -> string) (x y : A) : Prop := str_ltb (key y) (key x) = false.

Lemma in_order_trans {A} (key : A -> string) x y z : in_order key x y -> in_order key y z -> in_order key x z.
Proof.
  unfold in_order. intros H1 H2. destruct (str_ltb (key z) (key x)) eqn:E; [|done].
  destruct (str_ltb (key x) (key y)) eqn:E1.
  - by rewrite (str_ltb_trans _ _ _ E E1) in H2.
  - pose proof (str_ltb_total _ _ E1 H1) as Hxy. rewrite <- Hxy in H2. congruence.
Qed.

Lemma insert_by_sorted {A} (key : A -> string) x l :
  StronglySorted (in_order key) l -> StronglySorted (in_order key) (insert_by key x l).
Proof.
  induction 1 as [|y l Hs IH Hy]; cbn; [by repeat constructor|]. destruct (str_ltb (key x) (key y)) eqn:E.
  - assert (in_order key x y) as Hxy.
    { unfold in_order. destruct (str_ltb (key y) (key x)) eqn:E'; [|done].
      pose proof (str_ltb_trans _ _ _ E E') as H. by rewrite str_ltb_irrefl in H. }
    constructor; [by constructor|]. constructor; [done|]. eapply List.Forall_impl; [|exact Hy].
    intros z. by apply in_order_trans.
  - constructor; [done|]. rewrite insert_by_Permutation. by constructor.
Qed.

Lemma sort_by_sorted {A} (key : A -> string) l : StronglySorted (in_order key) (sort_by key l).
Proof. unfold sort_by. induction (rev l) as [|x r IH]; cbn; [constructor|by apply insert_by_sorted]. Qed.

Lemma insert_by_last {A} (key : A -> string) x l :
  Forall (fun y => in_order key y x) l -> insert_by key x l = l ++ [x].
Proof. induction 1 as [|y l Hy Hl IH]; cbn; [done|]. unfold in_order in Hy. by rewrite Hy, IH. Qed.

Lemma sorted_snoc {A} (R : A -> A -> Prop) l x :
  StronglySorted R (l ++ [x]) -> StronglySorted R l /\ Forall (fun y => R y x) l.
Proof.
  induction l as [|y l IH]; cbn; intros H; [split; constructor|]. apply StronglySorted_inv in H as [H Hy].
  apply IH in H as [H1 H2]. apply Forall_app in Hy as [Hy Hx]. inversion Hx. split; by constructor.
Qed.

(** Sorting a sorted list changes nothing. *)
Lemma sort_by_id {A} (key : A -> string) l : StronglySorted (in_order key) l -> sort_by key l = l.
Proof.
  assert (forall r, StronglySorted (in_order key) (rev r) -> fold_right (insert_by key) [] r = rev r) as H.
  { induction r as [|x r IH]; cbn; [done|]. intros [H1 H2]%sorted_snoc. rewrite IH by done. by apply insert_by_last. }
  intros Hl. unfold sort_by. rewrite H; by rewrite rev_involutive.
Qed.

Lemma sort_by_twice {A} (key : A -> string) l : sort_by key (sort_by key l) = sort_by key l.
Proof. apply sort_by_id, sort_by_sorted. Qed.

(** The value read back is written as the same text, and is itself read back unchanged. *)
Lemma dumps_canon v : json_dumps (canon v) = json_dumps v.
Proof.
  unfold json_dumps. induction v as [| | | | |l IH|d IH] using pyval_rect'; cbn [canon write_json]; try done.
  - f_equal. f_equal. f_equal. rewrite map_map. apply map_ext_Forall. by eapply List.Forall_impl; [|exact IH].
  - f_equal. f_equal. f_equal. f_equal.
    set (w := fun kv : string * pyval => (fst kv, write_json json_str "," ":" true (snd kv))).
    rewrite <- (sort_by_map fst fst w), sort_by_twice by done. f_equal. rewrite map_map.
    apply map_ext_Forall. eapply List.Forall_impl; [|exact IH]. intros [k v] H. unfold w. cbn in *. by rewrite H.
Qed.

Lemma canonical_canon v : _canonical (canon v) = _canonical v.
Proof. unfold _canonical. by rewrite dumps_canon. Qed.

Lemma json_ok_canon v : json_ok v = true -> json_ok (canon v) = true.
Proof.
  induction v as [| | | | |l IH|d IH] using pyval_rect'; cbn [canon json_ok]; try done.
  - rewrite !forallb_forall. intros H x (y & <- & Hy)%in_map_iff. rewrite List.Forall_forall in IH. auto.
  - intros [Hk%bool_decide_eq_true H]%andb_prop. apply andb_true_intro. split.
    + apply bool_decide_eq_true. by apply canon_keys.
    + rewrite forallb_forall in *. intros x Hx%list_elem_of_In. rewrite sort_by_Permutation in Hx.
      apply list_elem_of_In, in_map_iff in Hx as (y & <- & Hy). rewrite List.Forall_forall in IH. cbn. auto.
Qed.

(** Looking up a key of an object read back. *)
Lemma dget_sort_by d k : NoDup (dkeys d) -> dget (sort_by fst d) k = dget d k.
Proof.
  intros Hn. destruct (dget d k) as [v|] eqn:E.
  - apply dget_nodup_In; [by apply dkeys_sort_by|]. apply list_elem_of_In. rewrite sort_by_Permutation.
    apply list_elem_of_In. clear Hn. induction d as [|[k' v'] d IH]; [done|]. cbn in *.
    destruct (String.eqb_spec k k') as [->|]; [injection E as ->; by left|right; auto].
  - apply dget_None_keys in E. apply dget_None_keys. unfold dkeys in *. by rewrite sort_by_Permutation.
Qed.

Lemma dget_canon d k : NoDup (dkeys d) ->
  dget (sort_by fst (map (fun kv => (fst kv, canon (snd kv))) d)) k = option_map canon (dget d k).
Proof.
  intros H. rewrite dget_sort_by by (unfold dkeys in *; by rewrite map_map).
  clear H. induction d as [|[k' v'] d IH]; cbn; [done|]. by destruct (String.eqb k k').
Qed.
