(* ===== verification/Persistence.v ===== *)
(** * The durable state repository (backend/persistence.py)

    Checkpoints, the hash-linked event ledger and the segmented authorization
    audit with its retention anchor. The disk is a record of the files the
    repository uses; a file has its bytes and a stamp, which stands for the
    device, inode and modification time that [stat] reports and is new at every
    write. Each operation takes as argument which of its system calls fail and,
    for a failed append, how many bytes reached the file. A temporary file is
    unlinked or never read again, so it is not part of the disk. A file that is
    not UTF-8 is refused before its first line; the code may count lines of
    earlier read-ahead blocks first. *)

From S2P Require Import Prelude PyStr PyFloat PyVal PyFacts Json Sha256 JsonText.

#[local] Open Scope string_scope.
#[local] Open Scope list_scope.
#[local] Open Scope Z_scope.
#[local] Open Scope st_scope.

Definition _ZERO_HASH : string := of_chars (repeat (chr 48) 64).

(** [raw.isdecimal()] on ASCII text. *)
Definition is_decimal (s : string) : bool := negb (String.eqb s "") && forallb is_digit (chars s).

(** [raw]: the environment variable, empty when it is not set. *)
Definition _bounded_env_int (name raw : string) (default minimum maximum : Z) : res Z :=
  let raw := strip raw in
  if String.eqb raw "" then Ok default
  else if negb (is_ascii raw) || negb (is_decimal raw) then Raise (ValueError ("invalid " +:+ name))
  else
    v ← py_int (VStr raw);
    if (minimum <=? v) && (v <=? maximum) then Ok v else Raise (ValueError ("invalid " +:+ name)).

(** ** The disk *)

Record file := { f_data : string; f_stamp : Z }.

Inductive entry := EFile (f : file) | EOther.

Record disk := {
  snapshot_path : option file;
  ledger_path : option file;
  audit_path : option file;
  retention_path : option file;
  audit_segments : list (string * entry);
  next_stamp : Z;
}.

Definition empty_disk : disk :=
  {| snapshot_path := None; ledger_path := None; audit_path := None; retention_path := None; audit_segments := [];
     next_stamp := 0 |}.

Definition set_snapshot (f : option file) (d : disk) : disk :=
  {| snapshot_path := f; ledger_path := d.(ledger_path); audit_path := d.(audit_path);
     retention_path := d.(retention_path); audit_segments := d.(audit_segments); next_stamp := d.(next_stamp) + 1 |}.
Definition set_ledger (f : option file) (d : disk) : disk :=
  {| snapshot_path := d.(snapshot_path); ledger_path := f; audit_path := d.(audit_path);
     retention_path := d.(retention_path); audit_segments := d.(audit_segments); next_stamp := d.(next_stamp) + 1 |}.
Definition set_audit (f : option file) (d : disk) : disk :=
  {| snapshot_path := d.(snapshot_path); ledger_path := d.(ledger_path); audit_path := f;
     retention_path := d.(retention_path); audit_segments := d.(audit_segments); next_stamp := d.(next_stamp) + 1 |}.
Definition set_retention (f : option file) (d : disk) : disk :=
  {| snapshot_path := d.(snapshot_path); ledger_path := d.(ledger_path); audit_path := d.(audit_path);
     retention_path := f; audit_segments := d.(audit_segments); next_stamp := d.(next_stamp) + 1 |}.
Definition set_segments (l : list (string * entry)) (d : disk) : disk :=
  {| snapshot_path := d.(snapshot_path); ledger_path := d.(ledger_path); audit_path := d.(audit_path);
     retention_path := d.(retention_path); audit_segments := l; next_stamp := d.(next_stamp) |}.

(** How an append ends: done, not opened, or failed after some bytes. *)
Inductive fate := Done | OpenFails | WriteFails (written : nat).

Definition io_error : exn := OSError "I/O error".

Definition append_bytes (f : option file) (bytes : string) (stamp : Z) (w : fate) : option file * res unit :=
  let data := match f with Some f => f.(f_data) | None => "" end in
  match w with
  | Done => (Some {| f_data := data +:+ bytes; f_stamp := stamp |}, Ok tt)
  | OpenFails => (f, Raise io_error)
  | WriteFails n => (Some {| f_data := data +:+ slice n bytes; f_stamp := stamp |}, Raise io_error)
  end.

(** ** Hash-linked records *)

(** The lines of a text file: universal newlines, a last line without one. *)
Fixpoint text_lines (current l : list ascii) : list string :=
  match l with
  | [] => match current with [] => [] | _ => [of_chars (rev current)] end
  | c :: l' =>
      if code c =? 10 then of_chars (rev current) :: text_lines [] l'
      else if code c =? 13 then
        match l' with
        | d :: l'' => if code d =? 10 then of_chars (rev current) :: text_lines [] l''
                      else of_chars (rev current) :: text_lines [] l'
        | [] => [of_chars (rev current)]
        end
      else text_lines (c :: current) l'
  end.

Definition file_lines (f : file) : res (list string) :=
  text ← utf8_decode f.(f_data); Ok (text_lines [] (chars text)).

Definition blank (line : string) : bool := String.eqb (strip line) "".

(** [previous_hash.encode("ascii", "replace")] and [.encode("ascii")]. *)
Definition ascii_replace (s : string) : string :=
  of_chars (map (fun c => if code c <? 128 then c else chr 63) (chars s)).
Definition ascii_encode (s : string) : res string :=
  if is_ascii s then Ok s else Raise (ValueError "UnicodeEncodeError").

Definition link (previous : string) (event : pyval) : string :=
  sha256_hex (previous +:+ newline +:+ _canonical event).

Definition _record (previous_hash : string) (event : pyval) : pydict :=
  [("event", event); ("previousHash", VStr previous_hash); ("hash", VStr (link (ascii_replace previous_hash) event))].

(** [(json.dumps(record, ...) + "\n").encode("utf-8")]. *)
Definition record_line (r : pydict) : string := utf8 (json_dumps (VDict r) +:+ newline).

Definition is_decode_error (e : exn) : bool :=
  match e with ValueError m => String.eqb m "JSONDecodeError" | _ => false end.
Definition is_unicode_error (e : exn) : bool :=
  match e with ValueError m => String.eqb m "UnicodeDecodeError" | _ => false end.

(** [except (json.JSONDecodeError, KeyError, TypeError)]. *)
Definition hash_caught (e : exn) : bool := is_decode_error e || is_key_error e || is_type_error e.

Definition last_line (lines : list string) : option string :=
  last (List.filter (fun l => negb (blank l)) lines).

Definition _last_hash (f : option file) (initial_hash : string) : res string :=
  match f with
  | None => Ok initial_hash
  | Some f =>
      lines ← file_lines f;
      match last_line lines with
      | None => Ok initial_hash
      | Some line =>
          catch hash_caught (r ← loads line; h ← vindex r "hash"; Ok (py_str h)) (fun _ => Ok "INVALID")
      end
  end.

(** What the verification of one file reports. *)
Inductive chain_report :=
| ChainOk (records : Z) (head : string)
| ChainBroken (records : Z) (line : option Z) (error : string).

(** [except (OSError, json.JSONDecodeError, KeyError, TypeError, UnicodeDecodeError)]. *)
Definition chain_caught (e : exn) : bool := is_os_error e || hash_caught e || is_unicode_error e.

Definition error_text (e : exn) : string :=
  match e with
  | ValueError m | PermissionError m | OSError m | RuntimeError m => m
  | KeyError k => repr_str k
  | _ => "TypeError"
  end.

(** One record: the next hash, or the report that ends the verification. *)
Definition verify_record (previous : string) (count number : Z) (line : string) : res (string + chain_report) :=
  r ← loads line;
  event ← vindex r "event";
  stated ← vget r "previousHash" VNone;
  if negb (py_eq stated (VStr previous))
  then Ok (inr (ChainBroken count (Some number) "previous hash mismatch"))
  else
    prefix ← ascii_encode previous;
    let expected := link prefix event in
    h ← vget r "hash" VNone;
    if negb (py_eq h (VStr expected)) then Ok (inr (ChainBroken count (Some number) "record hash mismatch"))
    else Ok (inl expected).

Fixpoint verify_lines (lines : list string) (previous : string) (count number : Z) : res chain_report :=
  match lines with
  | [] => Ok (ChainOk count previous)
  | line :: rest =>
      if blank line then verify_lines rest previous count (number + 1)
      else match verify_record previous count number line with
           | Ok (inl next) => verify_lines rest next (count + 1) (number + 1)
           | Ok (inr report) => Ok report
           | Raise e => if chain_caught e then Ok (ChainBroken count None (error_text e)) else Raise e
           end
  end.

Definition _verify_hash_linked (f : option file) (initial_hash : string) : res chain_report :=
  match f with
  | None => Ok (ChainOk 0 initial_hash)
  | Some f =>
      match file_lines f with
      | Ok lines => verify_lines lines initial_hash 0 1
      | Raise e => if chain_caught e then Ok (ChainBroken 0 None (error_text e)) else Raise e
      end
  end.

Definition chain_dict (r : chain_report) : pydict :=
  match r with
  | ChainOk n h => [("ok", VBool true); ("records", VInt n); ("head", VStr h)]
  | ChainBroken n line e =>
      [("ok", VBool false); ("records", VInt n)] ++ match line with Some l => [("line", VInt l)] | None => [] end
      ++ [("error", VStr e)]
  end.

(** ** The retention anchor and the segments *)

Record anchor := { previousHead : string; nextSequence : Z; prunedSegments : Z; prunedRecords : Z }.

Definition first_anchor : anchor :=
  {| previousHead := _ZERO_HASH; nextSequence := 1; prunedSegments := 0; prunedRecords := 0 |}.

Definition anchor_dict (a : anchor) : pydict :=
  [("version", VInt 1); ("previousHead", VStr a.(previousHead)); ("nextSequence", VInt a.(nextSequence));
   ("prunedSegments", VInt a.(prunedSegments)); ("prunedRecords", VInt a.(prunedRecords))].

Definition anchor_keys : list string :=
  ["version"; "previousHead"; "nextSequence"; "prunedSegments"; "prunedRecords"].

(** [isinstance(v, int)] and the integer a Boolean is. *)
Definition int_or_bool (v : pyval) : option Z :=
  match v with VInt z => Some z | VBool b => Some (if b then 1 else 0) | _ => None end.

Definition lower_hex_char (c : ascii) : bool := is_digit c || in_range 97 102 c.

Definition at_least (low : Z) (v : pyval) : option Z :=
  match int_or_bool v with Some z => if low <=? z then Some z else None | None => None end.

Definition read_anchor (value : pyval) : option anchor :=
  match value with
  | VDict d =>
      if Nat.eqb (length d) 5 && forallb (dhas d) anchor_keys && py_eq (dget_none d "version") (VInt 1) then
        match dget_none d "previousHead", at_least 1 (dget_none d "nextSequence"),
              at_least 0 (dget_none d "prunedSegments"), at_least 0 (dget_none d "prunedRecords") with
        | VStr h, Some n, Some s, Some r =>
            if (str_len h =? 64) && forallb lower_hex_char (chars h)
            then Some {| previousHead := h; nextSequence := n; prunedSegments := s; prunedRecords := r |}
            else None
        | _, _, _, _ => None
        end
      else None
  | _ => None
  end.

Definition bad_anchor : exn := OSError "authorization audit retention anchor unavailable or invalid".

(** [json.loads(path.read_text("utf-8"))]. *)
Definition read_json (f : file) : res pyval := text ← utf8_decode f.(f_data); loads text.

Definition _retention_anchor (f : option file) : res anchor :=
  match f with
  | None => Ok first_anchor
  | Some f =>
      catch (fun e => is_os_error e || type_or_value e)
        (v ← read_json f; match read_anchor v with Some a => Ok a | None => Raise (ValueError "anchor") end)
        (fun _ => Raise bad_anchor)
  end.

(** [_file_signature]: the stamp and the size; [None] for a missing file. *)
Definition size (f : file) : Z := str_len f.(f_data).
Definition _file_signature (f : option file) : option (Z * Z) :=
  match f with Some f => Some (f.(f_stamp), size f) | None => None end.

(** [f"{sequence:020d}.jsonl"] and the names [_SEGMENT_RE] matches. *)
Definition segment_name (sequence : Z) : string :=
  let digits := chars (dec sequence) in
  of_chars (repeat (chr 48) (20 - length digits) ++ digits) +:+ ".jsonl".

Definition segment_sequence (name : string) : option Z :=
  let l := chars name in
  if Nat.eqb (length l) 26 && forallb is_digit (firstn 20 l) && String.eqb (of_chars (skipn 20 l)) ".jsonl"
  then Some (digits_value (digit_values (firstn 20 l))) else None.

Fixpoint read_segments (l : list (string * entry)) : res (list (Z * file)) :=
  match l with
  | [] => Ok []
  | (name, EOther) :: _ => Raise (OSError "authorization audit segment directory contains non-file entry")
  | (name, EFile f) :: rest =>
      match segment_sequence name with
      | None => Raise (OSError "authorization audit segment directory contains unexpected file")
      | Some s => r ← read_segments rest; Ok ((s, f) :: r)
      end
  end.

Definition _segment_paths (l : list (string * entry)) : res (list (Z * file)) :=
  r ← read_segments l; Ok (sort_lt (fun a b => fst a <? fst b) r).

(** ** Scanning the audit *)

Record audit_totals := {
  t_records : Z;
  t_head : string;
  t_retained_segments : Z;
  t_active_records : Z;
  t_active_bytes : Z;
  t_segment_bytes : Z;
  t_anchor : anchor;
  t_stale : Z;
}.

Inductive audit_report :=
| AuditOk (t : audit_totals)
| AuditGap (records : Z) (head : string) (expected actual : Z)
| AuditBroken (r : chain_report) (segment : option Z) (records : Z)
| AuditError (error : string).

Record audit_state := {
  st_head : string;
  st_active_initial : string;
  st_active_records : Z;
  st_active_bytes : Z;
  st_next_sequence : Z;
  st_active_signature : option (Z * Z);
  st_retention_signature : option (Z * Z);
  st_segment_signatures : list (Z * option (Z * Z));
}.

Definition report_ok (r : audit_report) : bool := match r with AuditOk _ => true | _ => false end.

(** The retained segments, in order: the chain so far, or the report that ends the scan. *)
Record scanned := { sc_head : string; sc_sequence : Z; sc_records : Z; sc_retained : Z; sc_stale : Z }.

Fixpoint scan_segments (segments : list (Z * file)) (s : scanned) : res (scanned + audit_report) :=
  match segments with
  | [] => Ok (inl s)
  | (sequence, f) :: rest =>
      if sequence <? s.(sc_sequence) then
        scan_segments rest {| sc_head := s.(sc_head); sc_sequence := s.(sc_sequence); sc_records := s.(sc_records);
                              sc_retained := s.(sc_retained); sc_stale := s.(sc_stale) + 1 |}
      else if negb (sequence =? s.(sc_sequence))
      then Ok (inr (AuditGap s.(sc_records) s.(sc_head) s.(sc_sequence) sequence))
      else
        r ← _verify_hash_linked (Some f) s.(sc_head);
        match r with
        | ChainOk n h =>
            scan_segments rest {| sc_head := h; sc_sequence := s.(sc_sequence) + 1; sc_records := s.(sc_records) + n;
                                  sc_retained := s.(sc_retained) + 1; sc_stale := s.(sc_stale) |}
        | ChainBroken n _ _ => Ok (inr (AuditBroken r (Some sequence) (s.(sc_records) + n)))
        end
  end.

Definition file_size (f : option file) : Z := match f with Some f => size f | None => 0 end.

Definition segment_signatures (l : list (Z * file)) : list (Z * option (Z * Z)) :=
  map (fun x => (fst x, _file_signature (Some (snd x)))) l.

Definition sum_sizes (l : list (Z * file)) : Z := fold_right (fun x n => size (snd x) + n) 0 l.

Definition scan_active (d : disk) (a : anchor) (segments : list (Z * file)) (s : scanned)
    : res (audit_report * option audit_state) :=
  active ← _verify_hash_linked d.(audit_path) s.(sc_head);
  match active with
  | ChainBroken n _ _ => Ok (AuditBroken active None (s.(sc_records) + n), None)
  | ChainOk n h =>
      Ok (AuditOk {| t_records := s.(sc_records) + n; t_head := h; t_retained_segments := s.(sc_retained);
                     t_active_records := n; t_active_bytes := file_size d.(audit_path);
                     t_segment_bytes :=
                       sum_sizes (List.filter (fun x => a.(nextSequence) <=? fst x) segments);
                     t_anchor := a; t_stale := s.(sc_stale) |},
          Some {| st_head := h; st_active_initial := s.(sc_head); st_active_records := n;
                  st_active_bytes := file_size d.(audit_path); st_next_sequence := s.(sc_sequence);
                  st_active_signature := _file_signature d.(audit_path);
                  st_retention_signature := _file_signature d.(retention_path);
                  st_segment_signatures := segment_signatures segments |})
  end.

Definition scan_disk (d : disk) : res (audit_report * option audit_state) :=
  a ← _retention_anchor d.(retention_path);
  segments ← _segment_paths d.(audit_segments);
  s ← scan_segments segments {| sc_head := a.(previousHead); sc_sequence := a.(nextSequence); sc_records := 0;
                                sc_retained := 0; sc_stale := 0 |};
  match s with
  | inr report => Ok (report, None)
  | inl s => scan_active d a segments s
  end.

Definition _scan_authorization_audit (d : disk) : res (audit_report * option audit_state) :=
  catch is_os_error (scan_disk d) (fun e => Ok (AuditError (error_text e), None)).

Definition _authorization_state_matches_disk (d : disk) (state : audit_state) : bool :=
  match _segment_paths d.(audit_segments) with
  | Raise _ => false
  | Ok segments =>
      bool_decide (state.(st_active_signature) = _file_signature d.(audit_path))
      && bool_decide (state.(st_retention_signature) = _file_signature d.(retention_path))
      && bool_decide (state.(st_segment_signatures) = segment_signatures segments)
  end.

(** ** The repository *)

Record config := { rotate_bytes : Z; retain_segments : Z }.

(** The two bounds the environment sets. *)
Definition make_config (rotate retain : string) : res config :=
  r ← _bounded_env_int "STAGEFORGE_AUTH_AUDIT_ROTATE_BYTES" rotate (4 * 1024 * 1024) (64 * 1024) (256 * 1024 * 1024);
  s ← _bounded_env_int "STAGEFORGE_AUTH_AUDIT_RETAIN_SEGMENTS" retain 8 1 256;
  Ok {| rotate_bytes := r; retain_segments := s |}.

Record repository := { disk_of : disk; _authorization_state : option audit_state }.

Abbreviation op := (st repository).

Definition on_disk (f : disk -> disk) (r : repository) : repository :=
  {| disk_of := f r.(disk_of); _authorization_state := r.(_authorization_state) |}.
Definition set_state (s : option audit_state) (r : repository) : repository :=
  {| disk_of := r.(disk_of); _authorization_state := s |}.

Definition load_snapshot (r : repository) : res pyval :=
  match r.(disk_of).(snapshot_path) with
  | None => Ok VNone
  | Some f =>
      v ← catch (fun e => is_os_error e || is_decode_error e) (read_json f) (fun _ => Ok VNone);
      Ok (if is_dict v then v else VNone)
  end.

(** A new file put in place of the old one; it fails before the replacement or not at all. *)
Definition save_snapshot (snapshot : pydict) (fails : bool) : op unit :=
  let* r := st_get in
  if fails then st_raise io_error
  else
    let bytes := utf8 (json_dump_indented (VDict snapshot) +:+ newline) in
    st_modify (on_disk (set_snapshot (Some {| f_data := bytes; f_stamp := r.(disk_of).(next_stamp) |}))).

Definition append_event (event : pyval) (w : fate) : op pydict :=
  let* r := st_get in
  let d := r.(disk_of) in
  let* previous := st_lift (_last_hash d.(ledger_path) _ZERO_HASH) in
  let record := _record previous event in
  let '(f, result) := append_bytes d.(ledger_path) (record_line record) d.(next_stamp) w in
  let* _ := st_modify (on_disk (set_ledger f)) in
  let* _ := st_lift result in
  st_ret record.

Definition verify_ledger (r : repository) : res chain_report :=
  _verify_hash_linked r.(disk_of).(ledger_path) _ZERO_HASH.

(** ** The authorization audit *)

Definition _ensure_authorization_state : op audit_state :=
  let* r := st_get in
  match r.(_authorization_state) with
  | None =>
      let* scan := st_lift (_scan_authorization_audit r.(disk_of)) in
      match scan with
      | (AuditOk _, Some state) => let* _ := st_modify (set_state (Some state)) in st_ret state
      | _ => st_raise (OSError "authorization audit verification failed before append")
      end
  | Some state =>
      if _authorization_state_matches_disk r.(disk_of) state then st_ret state
      else st_raise (OSError "authorization audit changed outside repository")
  end.

(** Which system calls of one append fail. [unlinks]: how many segments are unlinked before that fails. *)
Inductive anchor_fate := AnchorDone | AnchorNotReplaced | AnchorNotSynced.

Record fates := {
  rename_fails : bool;
  rename_sync_fails : bool;
  anchor_write : anchor_fate;
  unlinks : option nat;
  unlink_sync_fails : bool;
  append_write : fate;
}.

Definition remove_segment (l : list (string * entry)) (sequence : Z) : list (string * entry) :=
  List.filter (fun x => negb (bool_decide (segment_sequence (fst x) = Some sequence))) l.

(** [for path in paths: path.unlink()]. *)
Definition unlink_segments (sequences : list Z) (w : fates) : op unit :=
  let removed := match w.(unlinks) with Some n => firstn n sequences | None => sequences end in
  let* _ := st_modify (on_disk (fun d => set_segments (fold_left remove_segment removed d.(audit_segments)) d)) in
  match w.(unlinks) with
  | Some n => if Nat.ltb n (length sequences) then st_raise io_error else st_ret tt
  | None => st_ret tt
  end.

(** [_fsync_directory] after unlinking. *)
Definition sync_segments (w : fates) : op unit := if w.(unlink_sync_fails) then st_raise io_error else st_ret tt.

(** The prefix to prune: its last head, its records and its sequences. *)
Fixpoint verify_prefix (segments : list (Z * file)) (previous : string) (records last : Z)
    : res (string * Z * Z) :=
  match segments with
  | [] => Ok (previous, records, last)
  | (sequence, f) :: rest =>
      if negb (sequence =? last + 1) then Raise (OSError "authorization audit segment gap during retention")
      else
        r ← _verify_hash_linked (Some f) previous;
        match r with
        | ChainOk n h => verify_prefix rest h (records + n) sequence
        | ChainBroken _ _ _ => Raise (OSError "authorization audit segment invalid during retention")
        end
  end.

(** [_atomic_write_json] of the anchor. *)
Definition write_anchor (a : anchor) (w : anchor_fate) : op unit :=
  match w with
  | AnchorNotReplaced => st_raise io_error
  | _ =>
      let* r := st_get in
      let bytes := utf8 (json_dumps (VDict (anchor_dict a)) +:+ newline) in
      let* _ := st_modify (on_disk (set_retention
                  (Some {| f_data := bytes; f_stamp := r.(disk_of).(next_stamp) |}))) in
      match w with AnchorNotSynced => st_raise io_error | _ => st_ret tt end
  end.

Definition _prune_authorization_segments (c : config) (w : fates) : op unit :=
  let* r := st_get in
  let* a := st_lift (_retention_anchor r.(disk_of).(retention_path)) in
  let* all := st_lift (_segment_paths r.(disk_of).(audit_segments)) in
  let segments := List.filter (fun x => a.(nextSequence) <=? fst x) all in
  let stale := map fst (List.filter (fun x => fst x <? a.(nextSequence)) all) in
  if Z.of_nat (length segments) <=? c.(retain_segments) then
    let* _ := unlink_segments stale w in
    match stale with [] => st_ret tt | _ => sync_segments w end
  else
    let prefix := firstn (length segments - Z.to_nat c.(retain_segments)) segments in
    let* x := st_lift (verify_prefix prefix a.(previousHead) 0 (a.(nextSequence) - 1)) in
    let '(head, records, last) := x in
    let* _ := write_anchor {| previousHead := head; nextSequence := last + 1;
                              prunedSegments := a.(prunedSegments) + Z.of_nat (length prefix);
                              prunedRecords := a.(prunedRecords) + records |} w.(anchor_write) in
    let* _ := unlink_segments (stale ++ map fst prefix) w in
    sync_segments w.

Definition _rotate_authorization_audit (c : config) (w : fates) : op unit :=
  let* state := _ensure_authorization_state in
  let* r := st_get in
  let d := r.(disk_of) in
  match d.(audit_path) with
  | None => st_ret tt
  | Some f =>
      if state.(st_active_bytes) =? 0 then st_ret tt
      else
        let target := segment_name state.(st_next_sequence) in
        if bool_decide (target ∈ map fst d.(audit_segments))
        then st_raise (OSError "authorization audit rotation target already exists")
        else if w.(rename_fails) then st_raise io_error
        else
          let* _ := st_modify (on_disk (fun d =>
                      set_audit None (set_segments (d.(audit_segments) ++ [(target, EFile f)]) d))) in
          if w.(rename_sync_fails) then st_raise io_error
          else
            let* _ := st_modify (set_state None) in
            let* _ := _prune_authorization_segments c w in
            let* r := st_get in
            let* scan := st_lift (_scan_authorization_audit r.(disk_of)) in
            match scan with
            | (AuditOk _, Some refreshed) => st_modify (set_state (Some refreshed))
            | _ => st_raise (OSError "authorization audit verification failed after rotation")
            end
  end.

(** The cached state after a record of so many bytes was appended. *)
Definition advance (state : audit_state) (head : string) (bytes : Z) (f : option file) : audit_state :=
  {| st_head := head; st_active_initial := state.(st_active_initial);
     st_active_records := state.(st_active_records) + 1; st_active_bytes := state.(st_active_bytes) + bytes;
     st_next_sequence := state.(st_next_sequence); st_active_signature := _file_signature f;
     st_retention_signature := state.(st_retention_signature);
     st_segment_signatures := state.(st_segment_signatures) |}.

Definition write_audit_record (state : audit_state) (event : pyval) (w : fate) : op pydict :=
  let record := _record state.(st_head) event in
  let encoded := record_line record in
  let* r := st_get in
  let d := r.(disk_of) in
  let '(f, result) := append_bytes d.(audit_path) encoded d.(next_stamp) w in
  let* _ := st_modify (on_disk (set_audit f)) in
  match result with
  | Raise e => let* _ := st_modify (set_state None) in st_raise e
  | Ok _ =>
      let head := link (ascii_replace state.(st_head)) event in
      let* _ := st_modify (set_state (Some (advance state head (str_len encoded) f))) in
      st_ret record
  end.

Definition append_authorization_audit (c : config) (event : pyval) (w : fates) : op pydict :=
  if 8192 <? str_len (_canonical event) then st_raise (OSError "authorization audit event exceeds 8 KiB bound")
  else
    let* state := _ensure_authorization_state in
    let encoded := record_line (_record state.(st_head) event) in
    if negb (state.(st_active_bytes) =? 0) && (c.(rotate_bytes) <? state.(st_active_bytes) + str_len encoded) then
      let* _ := _rotate_authorization_audit c w in
      let* state := _ensure_authorization_state in
      write_audit_record state event w.(append_write)
    else write_audit_record state event w.(append_write).

Definition verify_authorization_audit : op audit_report :=
  let* r := st_get in
  let* scan := st_lift (_scan_authorization_audit r.(disk_of)) in
  match scan with
  | (AuditOk t, Some state) => let* _ := st_modify (set_state (Some state)) in st_ret (AuditOk t)
  | (report, _) => st_ret report
  end.

(** The report the HTTP layer returns. *)
Definition audit_dict (c : config) (r : audit_report) : pydict :=
  match r with
  | AuditOk t =>
      let a := t.(t_anchor) in
      [("ok", VBool true); ("records", VInt t.(t_records)); ("totalRecords", VInt (t.(t_records) + a.(prunedRecords)));
       ("head", VStr t.(t_head)); ("retainedSegments", VInt t.(t_retained_segments));
       ("activeRecords", VInt t.(t_active_records)); ("activeBytes", VInt t.(t_active_bytes));
       ("retainedBytes", VInt (t.(t_active_bytes) + t.(t_segment_bytes))); ("rotateBytes", VInt c.(rotate_bytes));
       ("retainSegments", VInt c.(retain_segments)); ("retentionAnchor", VStr a.(previousHead));
       ("nextSequence", VInt a.(nextSequence)); ("prunedSegments", VInt a.(prunedSegments));
       ("prunedRecords", VInt a.(prunedRecords)); ("stalePrunedFiles", VInt t.(t_stale))]
  | AuditGap n h e x =>
      [("ok", VBool false); ("records", VInt n); ("head", VStr h); ("error", VStr "authorization audit segment gap");
       ("expectedSequence", VInt e); ("actualSequence", VInt x)]
  | AuditBroken r segment n =>
      dmerge (chain_dict r) [("segment", match segment with Some s => VInt s | None => VStr "active" end);
                             ("records", VInt n)]
  | AuditError e => [("ok", VBool false); ("records", VInt 0); ("error", VStr e)]
  end.
