(* ===== verification/PersistenceChain.v ===== *)
(** * Hash-linked files: what verification establishes

    The events a hash-linked file stands for, the file the repository writes for
    them, and the two directions of its verification: what was appended verifies
    with its head and count, and what verifies is such a chain, so two files
    with one report hold the same events unless SHA-256 collides. *)

From S2P Require Import Prelude PyStr PyFloat PyVal PyFacts Json Sha256 JsonText Persistence.
From Stdlib Require Import SpecFloat.

#[local] Open Scope string_scope.
#[local] Open Scope list_scope.
#[local] Open Scope Z_scope.
#[local] Open Scope st_scope.

(** ** A JSON text is one line *)

(** No control characters, so no line breaks. *)
Definition visible (l : list ascii) : Prop := forallb (fun c => 32 <=? code c) l = true.

Lemma visible_app a b : visible (a ++ b) <-> visible a /\ visible b.
Proof. unfold visible. by rewrite forallb_app, andb_true_iff. Qed.

Lemma visible_digits l : forallb is_digit l = true -> visible l.
Proof.
  unfold visible. induction l as [|c l IH]; cbn; [done|]. intros [Hc H]%andb_prop. rewrite IH by done.
  rewrite andb_true_r. by_char c.
Qed.

Lemma visible_dec z : visible (chars (dec z)).
Proof.
  assert (forall p, visible (chars (dec (Z.pos p)))) as H.
  { intros p. destruct (dec_digits (Z.pos p) ltac:(lia)) as (c & ds & -> & Hd & _). by apply visible_digits. }
  destruct z as [|p|p]; [done|done|]. rewrite dec_neg. apply (visible_app [chr 45]). split; [done|apply H].
Qed.

Lemma visible_repeat n : visible (repeat (chr 48) n).
Proof. unfold visible. by induction n. Qed.

Lemma visible_split n l : visible l -> visible (firstn n l) /\ visible (skipn n l).
Proof. intros H. apply visible_app. by rewrite firstn_skipn. Qed.

Lemma visible_exponent x : visible (exponent_text x).
Proof.
  unfold exponent_text. rewrite !visible_app. split_and!; [by destruct (x <? 0)|by destruct (_ <? _)|apply visible_dec].
Qed.

Lemma visible_repr m e : visible (repr_pos m e).
Proof.
  unfold repr_pos. destruct (shortest 16 m e 1) as [[r p] k]. pose proof (visible_dec r) as Hr.
  destruct (_ && _).
  - destruct (p <=? 0); [|destruct (k <=? p)].
    + rewrite !visible_app. by split_and!; [|apply visible_repeat|].
    + rewrite !visible_app. by split_and!; [|apply visible_repeat|].
    + destruct (visible_split (Z.to_nat p) _ Hr) as [H1 H2]. apply visible_app. split; [done|].
      by apply (visible_app [chr 46]).
  - pose proof (visible_exponent (p - 1)) as He. destruct (chars (dec r)) as [|d [|d' t]]; [done| |].
    + by apply visible_app.
    + apply (visible_app [d]) in Hr as [Hd Ht]. apply (visible_app [d]). split; [done|].
      apply (visible_app [chr 46]). split; [done|]. change (d' :: t ++ exponent_text (p - 1)) with ((d' :: t) ++ exponent_text (p - 1)).
      by apply visible_app.
Qed.

Lemma visible_float f : visible (chars (json_float f)).
Proof.
  destruct f as [s|s| |s m e]; [by destruct s|by destruct s|done|]. cbn [json_float repr_float].
  rewrite chars_of_chars. apply visible_app. split; [by destruct s|apply visible_repr].
Qed.

Lemma visible_str s : visible (chars (json_str s)).
Proof.
  unfold json_str. rewrite chars_of_chars. apply (visible_app [dquote]). split; [done|]. apply visible_app.
  split; [|done]. induction (chars s) as [|c l IH]; [done|]. cbn [map concat]. apply visible_app. split; [|done].
  by_char c.
Qed.

Lemma visible_join sep ts :
  visible (chars sep) -> Forall (fun t => visible (chars t)) ts -> visible (chars (join sep ts)).
Proof.
  intros Hsep. induction 1 as [|t ts Ht Hts IH]; [done|]. destruct ts as [|t' ts]; [done|].
  cbn [join]. rewrite !chars_app, !visible_app. done.
Qed.

Lemma visible_dumps v : visible (chars (json_dumps v)).
Proof.
  unfold json_dumps. induction v as [|b|z|f|s|l IH|d IH] using pyval_rect'; cbn [write_json].
  - done.
  - by destruct b.
  - apply visible_dec.
  - apply visible_float.
  - apply visible_str.
  - rewrite !chars_app, !visible_app. split_and!; [done| |done]. apply visible_join; [done|].
    induction IH as [|x l Hx Hl IHl]; cbn [map]; constructor; [exact Hx|exact IHl].
  - rewrite !chars_app, !visible_app. split_and!; [done| |done]. apply visible_join; [done|].
    rewrite (sort_by_map fst fst (fun kv => (fst kv, write_json json_str "," ":" true (snd kv)))) by done.
    rewrite map_map. apply List.Forall_forall. intros t (kv & <- & Hkv)%in_map_iff. cbn [fst snd].
    rewrite !chars_app, !visible_app. split_and!; [apply visible_str|done|].
    apply list_elem_of_In in Hkv. rewrite sort_by_Permutation in Hkv. apply list_elem_of_In in Hkv.
    rewrite List.Forall_forall in IH. by apply IH.
Qed.

(** ** Lines *)

Lemma text_lines_visible current l rest :
  visible l -> text_lines current (l ++ chr 10 :: rest) = of_chars (rev current ++ l) :: text_lines [] rest.
Proof.
  revert current. induction l as [|c l IH]; intros current; cbn [app].
  - intros _. rewrite app_nil_r. done.
  - intros [Hc Hl]%(visible_app [c]). unfold visible in Hc. cbn in Hc. rewrite andb_true_r in Hc. apply Z.leb_le in Hc.
    cbn [text_lines]. destruct (Z.eqb_spec (code c) 10); [lia|]. destruct (Z.eqb_spec (code c) 13); [lia|].
    rewrite IH by done. cbn [rev]. by rewrite <- app_assoc.
Qed.

Lemma utf8_app a b : utf8 (a +:+ b) = utf8 a +:+ utf8 b.
Proof.
  unfold utf8. rewrite chars_app, map_app, concat_app. apply chars_inj.
  by rewrite chars_app, !chars_of_chars.
Qed.

(** ** The file written for a list of events *)

Fixpoint chain_head (h : string) (events : list pyval) : string :=
  match events with [] => h | e :: rest => chain_head (link h e) rest end.

Fixpoint chain_records (h : string) (events : list pyval) : list pydict :=
  match events with [] => [] | e :: rest => _record h e :: chain_records (link h e) rest end.

Definition chain_data (h : string) (events : list pyval) : string :=
  fold_right (fun r data => record_line r +:+ data) "" (chain_records h events).

Definition record_text (r : pydict) : string := json_dumps (VDict r).

#[global] Arguments link : simpl never.
#[global] Arguments _record : simpl never.
#[global] Arguments record_line : simpl never.
#[global] Arguments record_text : simpl never.

Lemma chain_head_app h a b : chain_head h (a ++ b) = chain_head (chain_head h a) b.
Proof. revert h. induction a as [|e a IH]; intros h; cbn; [done|apply IH]. Qed.

Lemma string_app_assoc (a b c : string) : a +:+ (b +:+ c) = (a +:+ b) +:+ c.
Proof. apply chars_inj. by rewrite !chars_app, app_assoc. Qed.

Lemma string_app_nil (a : string) : a +:+ "" = a.
Proof. apply chars_inj. by rewrite chars_app, app_nil_r. Qed.

Lemma chain_data_app h a b : chain_data h (a ++ b) = chain_data h a +:+ chain_data (chain_head h a) b.
Proof.
  revert h. induction a as [|e a IH]; intros h; [done|]. unfold chain_data in *. cbn. rewrite IH.
  apply string_app_assoc.
Qed.

Lemma chain_data_snoc h a e :
  chain_data h (a ++ [e]) = chain_data h a +:+ record_line (_record (chain_head h a) e).
Proof. rewrite chain_data_app. unfold chain_data at 2. cbn. by rewrite string_app_nil. Qed.

Lemma chain_head_ascii h events : is_ascii h = true -> is_ascii (chain_head h events) = true.
Proof. revert h. induction events as [|e l IH]; intros h H; cbn; [done|]. apply IH, sha256_hex_ascii. Qed.

Lemma ascii_replace_id s : is_ascii s = true -> ascii_replace s = s.
Proof.
  unfold is_ascii, ascii_replace. intros H. apply chars_inj. rewrite chars_of_chars.
  induction (chars s) as [|c l IH]; cbn in *; [done|]. apply andb_prop in H as [-> H]. by rewrite IH.
Qed.

(** The lines of that file are the records' texts. *)
Lemma file_lines_chain h events stamp :
  file_lines {| f_data := chain_data h events; f_stamp := stamp |} = Ok (map record_text (chain_records h events)).
Proof.
  unfold file_lines, chain_data. cbn [f_data].
  assert (forall rs, fold_right (fun r data => record_line r +:+ data) "" rs
                     = utf8 (fold_right (fun r data => (record_text r +:+ newline) +:+ data) "" rs)) as ->.
  { induction rs as [|r rs IH]; [done|]. cbn [fold_right]. by rewrite utf8_app, IH. }
  rewrite utf8_decode_utf8. cbn [mbind res_bind]. f_equal.
  induction (chain_records h events) as [|r rs IH]; [done|]. cbn [fold_right map].
  rewrite !chars_app, <- app_assoc. change (chars newline ++ ?l) with (chr 10 :: l).
  rewrite text_lines_visible by apply visible_dumps. cbn [rev app]. by rewrite of_chars_chars, IH.
Qed.

(** ** Appended chains verify *)

Lemma drop_while_nil p l : drop_while p l = [] -> forallb p l = true.
Proof. induction l as [|c l IH]; cbn; [done|]. by destruct (p c). Qed.

Lemma drop_while_suffix p l : exists k, l = k ++ drop_while p l /\ forallb p k = true.
Proof.
  induction l as [|c l (k & Hk & Hp)]; cbn; [by exists []|]. destruct (p c) eqn:E; [|by exists []].
  exists (c :: k). cbn. by rewrite E, <- Hk.
Qed.

Lemma forallb_rev {A} (p : A -> bool) l : forallb p (rev l) = forallb p l.
Proof.
  induction l as [|x l IH]; cbn; [done|]. rewrite forallb_app, IH. cbn. rewrite andb_true_r. apply andb_comm.
Qed.

Lemma strip_empty s : strip s = "" -> forallb is_space (chars s) = true.
Proof.
  unfold strip, rstrip_by, lstrip_by. intros H. apply (f_equal chars) in H. rewrite !chars_of_chars in H.
  change (chars "") with (@nil ascii) in H. apply (f_equal (@rev ascii)) in H. rewrite rev_involutive in H.
  cbn [rev] in H. apply drop_while_nil in H. rewrite forallb_rev in H.
  destruct (drop_while_suffix is_space (chars s)) as (k & Hk & Hs). rewrite Hk, forallb_app, Hs. done.
Qed.

(** A record's line is not blank. *)
Lemma record_not_blank d : blank (json_dumps (VDict d)) = false.
Proof.
  unfold blank. destruct (String.eqb_spec (strip (json_dumps (VDict d))) "") as [E|]; [|done].
  apply strip_empty in E. unfold json_dumps in E. cbn [write_json] in E. rewrite chars_app in E.
  cbn in E. done.
Qed.

Lemma record_json_ok h e : json_ok e = true -> json_ok (VDict (_record h e)) = true.
Proof.
  intros H. unfold _record. cbn [json_ok forallb snd]. rewrite H, !andb_true_r.
  apply bool_decide_eq_true. change (NoDup ["event"; "previousHash"; "hash"]). nodup_keys.
Qed.

Lemma loads_record h e : json_ok e = true ->
  exists d, loads (record_text (_record h e)) = Ok (VDict d) /\ dget d "event" = Some (canon e)
    /\ dget d "previousHash" = Some (VStr h) /\ dget d "hash" = Some (VStr (link (ascii_replace h) e)).
Proof.
  intros H. unfold record_text. rewrite loads_dumps by by apply record_json_ok. cbn [canon].
  eexists. split; [reflexivity|].
  assert (NoDup (dkeys (_record h e))) as Hn by (change (NoDup ["event"; "previousHash"; "hash"]); nodup_keys).
  rewrite !dget_canon by exact Hn. done.
Qed.

Lemma link_canon h e : link h (canon e) = link h e.
Proof. unfold link. by rewrite canonical_canon. Qed.

Lemma verify_record_chain h e n k : is_ascii h = true -> json_ok e = true ->
  verify_record h n k (record_text (_record h e)) = Ok (inl (link h e)).
Proof.
  intros Hh He. destruct (loads_record h e He) as (d & Hd & H1 & H2 & H3). unfold verify_record. rewrite Hd.
  cbn [mbind res_bind vindex]. unfold dindex. rewrite H1. cbn [mbind res_bind vget]. unfold dget_or.
  rewrite H2. cbn [mbind res_bind py_eq]. rewrite str_eqb_refl. cbn [negb]. unfold ascii_encode. rewrite Hh.
  cbn [mbind res_bind]. rewrite H3, link_canon, ascii_replace_id by done. cbn [mbind res_bind py_eq].
  by rewrite str_eqb_refl.
Qed.

Lemma verify_lines_chain h events n k : is_ascii h = true -> Forall (fun e => json_ok e = true) events ->
  verify_lines (map record_text (chain_records h events)) h n k
  = Ok (ChainOk (n + Z.of_nat (length events)) (chain_head h events)).
Proof.
  intros Hh He. revert h n k Hh. induction He as [|e l He Hl IH]; intros h n k Hh; cbn [chain_records map verify_lines].
  - cbn. do 2 f_equal. lia.
  - unfold record_text at 1. rewrite record_not_blank. rewrite verify_record_chain by done.
    rewrite IH by apply sha256_hex_ascii. cbn [chain_head length]. do 2 f_equal. lia.
Qed.

(** A file that holds exactly a list of events; a missing file holds none. *)
Definition holds_chain (h : string) (events : list pyval) (f : option file) : Prop :=
  match f with None => events = [] | Some f => f.(f_data) = chain_data h events end.

Lemma verify_chain h events f : is_ascii h = true -> Forall (fun e => json_ok e = true) events ->
  holds_chain h events f ->
  _verify_hash_linked f h = Ok (ChainOk (Z.of_nat (length events)) (chain_head h events)).
Proof.
  intros Hh He Hf. destruct f as [[data stamp]|]; cbn in Hf; [|by subst]. subst. unfold _verify_hash_linked.
  rewrite file_lines_chain, verify_lines_chain by done. done.
Qed.

Lemma chain_records_snoc h a e :
  chain_records h (a ++ [e]) = chain_records h a ++ [_record (chain_head h a) e].
Proof. revert h. induction a as [|x a IH]; intros h; cbn [chain_records chain_head app]; [done|]. by rewrite IH. Qed.

Lemma nonblank_records h events :
  List.filter (fun l => negb (blank l)) (map record_text (chain_records h events))
  = map record_text (chain_records h events).
Proof.
  induction (chain_records h events) as [|r l IH]; [done|]. cbn [map List.filter].
  unfold record_text at 1. rewrite record_not_blank. cbn [negb]. by rewrite IH.
Qed.

Lemma last_hash_chain h events f : is_ascii h = true -> Forall (fun e => json_ok e = true) events ->
  holds_chain h events f -> _last_hash f h = Ok (chain_head h events).
Proof.
  intros Hh He Hf. destruct f as [[data stamp]|]; cbn in Hf; [|by subst]. subst. unfold _last_hash, last_line.
  rewrite file_lines_chain. cbn [mbind res_bind]. rewrite nonblank_records.
  destruct events as [|e events] using rev_ind; [done|]. clear IHevents.
  rewrite chain_records_snoc, map_app, chain_head_app. cbn [map]. rewrite last_snoc.
  apply Forall_app in He as [_ He]. apply List.Forall_inv in He.
  destruct (loads_record (chain_head h events) e He) as (d & Hd & _ & _ & H3). rewrite Hd.
  cbn [mbind res_bind vindex]. unfold dindex. rewrite H3. cbn [mbind res_bind catch py_str chain_head].
  by rewrite ascii_replace_id by by apply chain_head_ascii.
Qed.

(** Appending to such a file, all of the line or nothing. *)
Definition whole (w : fate) : Prop := w = Done \/ w = OpenFails \/ w = WriteFails 0.

Lemma append_chain h events f e stamp w : holds_chain h events f -> whole w ->
  let '(f', out) := append_bytes f (record_line (_record (chain_head h events) e)) stamp w in
  match w with
  | Done => out = Ok tt /\ holds_chain h (events ++ [e]) f'
  | _ => out = Raise io_error /\ holds_chain h events f'
  end.
Proof.
  intros Hf Hw. assert (match f with Some f => f.(f_data) | None => "" end = chain_data h events) as Hd.
  { destruct f as [f|]; cbn in Hf; [done|by subst]. }
  unfold append_bytes. rewrite Hd. destruct Hw as [->|[->| ->]]; split; try done.
  - cbn. by rewrite chain_data_snoc.
  - cbn. apply string_app_nil.
Qed.

(** ** What verification establishes *)

(** The events the lines of a file state. *)
Definition line_event (line : string) : option pyval :=
  match loads line with Ok (VDict d) => dget d "event" | _ => None end.

Definition line_events (lines : list string) : list pyval :=
  omap line_event (List.filter (fun l => negb (blank l)) lines).

Definition file_events (f : option file) : list pyval :=
  match f with
  | None => []
  | Some f => match file_lines f with Ok lines => line_events lines | Raise _ => [] end
  end.

Lemma line_events_cons l rest :
  line_events (l :: rest)
  = if blank l then line_events rest
    else match line_event l with Some e => e :: line_events rest | None => line_events rest end.
Proof. unfold line_events. cbn [List.filter]. destruct (blank l); [done|]. cbn [negb]. cbn. by destruct (line_event l). Qed.

Lemma verify_record_ok h n k line g : verify_record h n k line = Ok (inl g) ->
  exists e, line_event line = Some e /\ g = link h e.
Proof.
  unfold verify_record, line_event. intros (r & Hr & H)%bind_ok. rewrite Hr.
  apply bind_ok in H as (e & He & H). destruct r as [| | | | | |d]; try done. cbn in He. unfold dindex in He.
  destruct (dget d "event") as [e'|] eqn:E; [|done]. injection He as ->. exists e. split; [done|].
  cbn [vget mbind res_bind] in H. destruct (negb _); [done|]. unfold ascii_encode in H.
  destruct (is_ascii h); [|done]. cbn [mbind res_bind] in H. destruct (negb _); [done|]. by injection H as <-.
Qed.

Lemma verify_record_broken h n k line r : verify_record h n k line = Ok (inr r) ->
  exists m l e, r = ChainBroken m l e.
Proof.
  unfold verify_record. intros (v & _ & H)%bind_ok. apply bind_ok in H as (e & _ & H).
  apply bind_ok in H as (s & _ & H). destruct (negb _); [injection H as <-; eauto|].
  apply bind_ok in H as (p & _ & H). apply bind_ok in H as (q & _ & H).
  destruct (negb _); [injection H as <-; eauto|done].
Qed.

Lemma verify_lines_ok lines h n k m g : verify_lines lines h n k = Ok (ChainOk m g) ->
  m = n + Z.of_nat (length (line_events lines)) /\ g = chain_head h (line_events lines).
Proof.
  revert h n k. induction lines as [|l lines IH]; intros h n k; cbn [verify_lines].
  - intros [= <- <-]. cbn. by rewrite Z.add_0_r.
  - rewrite line_events_cons. destruct (blank l); [apply IH|].
    destruct (verify_record h n k l) as [[x|r]|e] eqn:E; [| |by destruct (chain_caught e)];
      [|by apply verify_record_broken in E as (? & ? & ? & ->)].
    apply verify_record_ok in E as (e & -> & ->). intros [-> ->]%IH. cbn [length chain_head]. split; [lia|done].
Qed.

Lemma verify_ok f h m g : _verify_hash_linked f h = Ok (ChainOk m g) ->
  m = Z.of_nat (length (file_events f)) /\ g = chain_head h (file_events f).
Proof.
  unfold _verify_hash_linked, file_events. destruct f as [f|]; [|by intros [= <- <-]].
  destruct (file_lines f) as [lines|e]; [|by destruct (chain_caught e)]. apply verify_lines_ok.
Qed.

(** The texts whose digests link a list of events, the first after [h]. *)
Fixpoint hashed (h : string) (l : list pyval) : list string :=
  match l with
  | [] => []
  | e :: l => (h +:+ newline +:+ _canonical e) :: hashed (link h e) l
  end.

(** At one place two chains hash two different texts with one digest. *)
Definition collision_in (l l' : list string) : Prop :=
  exists i x y, l !! i = Some x /\ l' !! i = Some y /\ x <> y /\ sha256_hex x = sha256_hex y.

Lemma hashed_app h a b : hashed h (a ++ b) = hashed h a ++ hashed (chain_head h a) b.
Proof. revert h. induction a as [|x a IH]; intros h; [done|]. cbn [app hashed chain_head]. by rewrite IH. Qed.

Lemma hashed_length h a : length (hashed h a) = length a.
Proof. revert h. induction a as [|x a IH]; intros h; [done|]. cbn [hashed length]. by rewrite IH. Qed.

Lemma collision_app l l' x y : collision_in l l' -> collision_in (l ++ x) (l' ++ y).
Proof.
  intros (i & a & b & Ha & Hb & H). exists i, a, b. split_and!; [by apply lookup_app_l_Some..|apply H|apply H].
Qed.

Lemma hex_length s : length (chars (hex s)) = (2 * length (chars s))%nat.
Proof. unfold hex. rewrite chars_of_chars. induction (chars s) as [|c l IH]; [done|]. cbn -[Nat.mul] in *. lia. Qed.

Lemma sha256_hex_length m : length (chars (sha256_hex m)) = 64%nat.
Proof. unfold sha256_hex. by rewrite hex_length, sha256_length. Qed.

Lemma chain_head_length h a b : length a = length b ->
  length (chars (chain_head h a)) = length (chars (chain_head h b)).
Proof.
  destruct a as [|x a _] using rev_ind; destruct b as [|y b _] using rev_ind; rewrite ?length_app; cbn; try lia; try done.
  intros _. rewrite !chain_head_app. cbn [chain_head]. unfold link. by rewrite !sha256_hex_length.
Qed.

Lemma link_injective p q e e' : length (chars p) = length (chars q) -> link p e = link q e' ->
  (p = q /\ _canonical e = _canonical e') \/
  (p +:+ newline +:+ _canonical e <> q +:+ newline +:+ _canonical e' /\
   sha256_hex (p +:+ newline +:+ _canonical e) = sha256_hex (q +:+ newline +:+ _canonical e')).
Proof.
  intros Hl. unfold link. set (a := p +:+ _). set (b := q +:+ _). intros H.
  destruct (decide (a = b)) as [E|E]; [left|by right].
  subst a b. apply (f_equal chars) in E. rewrite !chars_app in E. apply app_inj_1 in E as [E1 E2]; [|done].
  apply chars_inj in E1. apply app_inj_1 in E2 as [_ E2]; [|done]. apply chars_inj in E2. done.
Qed.

Lemma chain_head_injective h a b : length a = length b -> chain_head h a = chain_head h b ->
  map _canonical a = map _canonical b \/ collision_in (hashed h a) (hashed h b).
Proof.
  revert b. induction a as [|x a IH] using rev_ind; intros b Hl Hh.
  { destruct b; [by left|done]. }
  destruct b as [|y b _] using rev_ind; rewrite !length_app in Hl; cbn in Hl; [lia|].
  rewrite !chain_head_app in Hh. cbn [chain_head] in Hh. rewrite !hashed_app. cbn [hashed].
  assert (length a = length b) as Hab by lia.
  apply link_injective in Hh as [[Hh Hc]|[Hne Heq]]; [| |by apply chain_head_length].
  - apply IH in Hh as [Hm|Hm]; [|right; by apply collision_app|done]. left. rewrite !map_app. cbn [map]. by rewrite Hm, Hc.
  - right. exists (length a). do 2 eexists. split_and!; [| |exact Hne|exact Heq].
    + by rewrite <- (hashed_length h a), lookup_app_r, Nat.sub_diag by lia.
    + by rewrite Hab, <- (hashed_length h b), lookup_app_r, Nat.sub_diag by lia.
Qed.

(** C8: tamper evidence of the hash-linked files. Two contents of a ledger or
    audit file that verify from the same initial hash with the same report, the
    same record count and the same head, state the same events in the same
    order, up to the spelling of the same JSON document; otherwise, at one place
    of the two chains, the texts the chains hash there, each the preceding head, a
    newline and the event, are different and have one SHA-256 digest. So an
    edited, dropped, inserted or reordered record changes the report, unless it was
    made from a collision of the chain's own texts. *)
Theorem verified_events_are_tamper_evident initial f f' n head :
  _verify_hash_linked f initial = Ok (ChainOk n head) ->
  _verify_hash_linked f' initial = Ok (ChainOk n head) ->
  map _canonical (file_events f) = map _canonical (file_events f') \/ collision_in (hashed initial (file_events f)) (hashed initial (file_events f')).
Proof.
  intros [H1 H2]%verify_ok [H3 H4]%verify_ok. apply (chain_head_injective initial); [lia|congruence].
Qed.

(** ** The event ledger *)

Lemma chain_events h events f : holds_chain h events f -> Forall (fun e => json_ok e = true) events ->
  file_events f = map canon events.
Proof.
  intros Hf He. destruct f as [[data stamp]|]; cbn in Hf; [|by subst]. subst. unfold file_events.
  rewrite file_lines_chain. revert h. induction He as [|e l He Hl IH]; intros h; [done|]. cbn [chain_records map].
  rewrite line_events_cons. unfold record_text at 1. rewrite record_not_blank, IH.
  destruct (loads_record h e He) as (d & Hd & H & _). unfold line_event. by rewrite Hd, H.
Qed.

Lemma append_event_holds events event w r : Forall (fun e => json_ok e = true) events -> whole w ->
  holds_chain _ZERO_HASH events r.(disk_of).(ledger_path) ->
  let '(r', out) := append_event event w r in
  match w with
  | Done => out = Ok (_record (chain_head _ZERO_HASH events) event)
            /\ holds_chain _ZERO_HASH (events ++ [event]) r'.(disk_of).(ledger_path)
  | _ => out = Raise io_error /\ holds_chain _ZERO_HASH events r'.(disk_of).(ledger_path)
  end.
Proof.
  intros He Hw Hr. unfold append_event. rewrite st_get_bind.
  rewrite (last_hash_chain _ events) by done. rewrite st_lift_Ok.
  pose proof (append_chain _ZERO_HASH events _ event r.(disk_of).(next_stamp) w Hr Hw) as H.
  destruct (append_bytes _ _ _ w) as [f result]. rewrite st_modify_bind.
  destruct Hw as [->|[->| ->]]; destruct H as [-> H]; done.
Qed.

Definition attempt_event (r : repository) (a : pyval * fate) : repository := fst (append_event (fst a) (snd a) r).

Definition recorded (attempts : list (pyval * fate)) : list pyval :=
  map fst (List.filter (fun a => match snd a with Done => true | _ => false end) attempts).

Lemma attempts_hold attempts events r :
  Forall (fun a => json_ok (fst a) = true /\ whole (snd a)) attempts -> Forall (fun e => json_ok e = true) events ->
  holds_chain _ZERO_HASH events r.(disk_of).(ledger_path) ->
  Forall (fun e => json_ok e = true) (events ++ recorded attempts)
  /\ holds_chain _ZERO_HASH (events ++ recorded attempts) (fold_left attempt_event attempts r).(disk_of).(ledger_path).
Proof.
  intros Ha. revert events r. induction Ha as [|[e w] l [He Hw] Hl IH]; intros events r Hev Hr.
  { unfold recorded. cbn [map List.filter fold_left]. by rewrite app_nil_r. }
  cbn [fst snd] in He, Hw. pose proof (append_event_holds events e w r Hev Hw Hr) as H.
  cbn [fold_left]. assert (attempt_event r (e, w) = fst (append_event e w r)) as -> by done.
  destruct (append_event e w r) as [r' out]. cbn [fst]. unfold recorded. cbn [List.filter snd].
  destruct Hw as [->|[->| ->]]; destruct H as [_ H]; [|by apply IH|by apply IH].
  cbn [map fst]. rewrite cons_middle, app_assoc. apply IH; [|done]. apply List.Forall_app. auto.
Qed.

(** The ledger round trip. After any sequence of [append_event] calls on a
    repository without a ledger, in which some calls fail without having written
    (the others write their whole line), verification reports exactly the
    successful appends with the head of their hash chain, and the file's records
    read back as those events in order, with their keys sorted. *)
Theorem appended_events_verify_and_read_back attempts r :
  r.(disk_of).(ledger_path) = None ->
  Forall (fun a => json_ok (fst a) = true /\ whole (snd a)) attempts ->
  let r' := fold_left attempt_event attempts r in
  let events := recorded attempts in
  verify_ledger r' = Ok (ChainOk (Z.of_nat (length events)) (chain_head _ZERO_HASH events))
  /\ file_events r'.(disk_of).(ledger_path) = map canon events.
Proof.
  intros Hr Ha r' events. destruct (attempts_hold attempts [] r Ha) as [He Hf]; [done|by rewrite Hr|].
  split; [by apply verify_chain|]. by apply (chain_events _ZERO_HASH).
Qed.

Definition new_repository : repository := {| disk_of := empty_disk; _authorization_state := None |}.

Definition sample_event (n : Z) : pyval := VDict [("kind", VStr "cue"); ("at", VInt n)].

Lemma appended_events_verify_and_read_back_witness :
  let r' := fold_left attempt_event [(sample_event 1, Done); (sample_event 2, OpenFails); (sample_event 3, Done)]
                      new_repository in
  verify_ledger r' = Ok (ChainOk 2 (chain_head _ZERO_HASH [sample_event 1; sample_event 3]))
  /\ file_events r'.(disk_of).(ledger_path) = map canon [sample_event 1; sample_event 3].
Proof.
  apply (appended_events_verify_and_read_back
           [(sample_event 1, Done); (sample_event 2, OpenFails); (sample_event 3, Done)] new_repository); [done|].
  repeat (apply List.Forall_cons; [split; [vm_compute; reflexivity|unfold whole; cbn; auto]|]). apply List.Forall_nil.
Defined.

Lemma verified_events_are_tamper_evident_witness :
  let f data := Some {| f_data := chain_data _ZERO_HASH [data]; f_stamp := 0 |} in
  let d1 := VDict [("a", VInt 1); ("b", VInt 2)] in
  let d2 := VDict [("b", VInt 2); ("a", VInt 1)] in
  map _canonical (file_events (f d1)) = map _canonical (file_events (f d2)) \/
  collision_in (hashed _ZERO_HASH (file_events (f d1))) (hashed _ZERO_HASH (file_events (f d2))).
Proof.
  intros f d1 d2. apply (verified_events_are_tamper_evident _ZERO_HASH (f d1) (f d2) 1 (chain_head _ZERO_HASH [d1]));
    vm_compute; reflexivity.
Defined.

(** An append can fail after its last visible byte was written. The file then
    verifies with the record the caller was told had failed, and the next append,
    which succeeds, joins that line and makes the whole file unreadable. *)
Example torn_newline_corrupts_the_ledger :
  let line := record_line (_record _ZERO_HASH (sample_event 1)) in
  let '(r1, first) := append_event (sample_event 1) (WriteFails (length (chars line) - 1)) new_repository in
  let '(r2, second) := append_event (sample_event 2) Done r1 in
  first = Raise io_error
  /\ verify_ledger r1 = Ok (ChainOk 1 (chain_head _ZERO_HASH [sample_event 1]))
  /\ match second with Ok _ => True | Raise _ => False end
  /\ verify_ledger r2 = Ok (ChainBroken 0 None "JSONDecodeError").
Proof. vm_compute. done. Qed.

(** ** The checkpoint *)

(** A saved checkpoint reads back as the state that was saved, whatever was
    there before, and a failed save leaves the previous checkpoint in place. *)
Theorem snapshot_round_trip snapshot r : json_ok (VDict snapshot) = true ->
  load_snapshot (fst (save_snapshot snapshot false r)) = Ok (canon (VDict snapshot))
  /\ (forall k, dget (as_dict (canon (VDict snapshot))) k = option_map canon (dget snapshot k))
  /\ save_snapshot snapshot true r = (r, Raise io_error).
Proof.
  intros H. split; [|split; [|done]].
  - unfold save_snapshot, load_snapshot. rewrite st_get_bind. unfold st_modify, read_json.
    cbn [fst on_disk disk_of set_snapshot snapshot_path f_data].
    rewrite utf8_decode_utf8. cbn [mbind res_bind]. by rewrite loads_indented.
  - intros k. cbn [canon as_dict]. apply dget_canon. cbn in H. by apply andb_prop in H as [H%bool_decide_eq_true _].
Qed.

Lemma snapshot_round_trip_witness :
  load_snapshot (fst (save_snapshot [("revision", VInt 7); ("cue", VNone)] false new_repository))
  = Ok (VDict [("cue", VNone); ("revision", VInt 7)]).
Proof. by destruct (snapshot_round_trip [("revision", VInt 7); ("cue", VNone)] new_repository eq_refl) as [-> _]. Defined.
