(* ===== verification/PersistenceSegments.v ===== *)
(** * The segment directory of the authorization audit

    Segment names and the sequence numbers they state, the sorted listing of a
    directory in any order, and how the listing changes when a segment is added
    or removed. *)

From S2P Require Import Prelude PyStr PyFloat PyVal PyFacts Json Sha256 JsonText Persistence PersistenceChain.
From stdpp Require Import sorting.

#[local] Open Scope string_scope.
#[local] Open Scope list_scope.
#[local] Open Scope Z_scope.
#[local] Open Scope st_scope.

(** ** Names *)

(** The largest value digits of a given length can have, and the smallest. *)
Lemma digits_value_fold ds acc : fold_left (fun a d => a * 10 + d) ds acc
  = acc * 10 ^ Z.of_nat (length ds) + digits_value ds.
Proof.
  unfold digits_value. revert acc. induction ds as [|d ds IH]; intros acc; cbn [fold_left length].
  - cbn. lia.
  - rewrite IH, (IH (0 * 10 + d)), Nat2Z.inj_succ, Z.pow_succ_r by lia. lia.
Qed.

Lemma digits_value_cons d ds : digits_value (d :: ds) = d * 10 ^ Z.of_nat (length ds) + digits_value ds.
Proof. unfold digits_value at 1. cbn [fold_left]. rewrite digits_value_fold. lia. Qed.

Lemma digits_value_zeros n ds : digits_value (digit_values (repeat (chr 48) n) ++ ds) = digits_value ds.
Proof. induction n as [|n IH]; [done|]. cbn [repeat digit_values map app]. by rewrite digits_value_cons. Qed.

Lemma digit_values_nonneg l : forallb is_digit l = true -> 0 <= digits_value (digit_values l).
Proof.
  induction l as [|c l IH] using rev_ind; [done|]. rewrite forallb_app. intros [H Hc]%andb_prop.
  unfold digit_values in *. rewrite map_app. cbn [map]. rewrite digits_value_snoc. specialize (IH H). cbn in Hc.
  rewrite andb_true_r in Hc. apply andb_prop in Hc as [Hc%Z.leb_le _]. lia.
Qed.

(** A number below [10^n] has at most [n] digits. *)
Lemma dec_length z n : 0 <= z < 10 ^ Z.of_nat n -> (0 < n)%nat -> (length (chars (dec z)) <= n)%nat.
Proof.
  intros [Hz Hn] Hpos. destruct (dec_digits z Hz) as (c & ds & -> & Hd & Hv & Hc). cbn [length].
  destruct (decide (ds = [])) as [->|Hne]; [cbn; lia|].
  cbn [digit_values map] in Hv. rewrite digits_value_cons in Hv.
  apply andb_prop in Hd as [Hd Hds]. pose proof (digit_values_nonneg ds Hds) as Hnn.
  unfold is_digit in Hd. apply andb_prop in Hd as [Hd%Z.leb_le _].
  assert (code c <> 48) as Hc' by (intros E; by apply Hne, Hc).
  unfold digit_values in Hnn. rewrite length_map in Hv.
  destruct (Nat.le_gt_cases (S (length ds)) n) as [|Hlt]; [done|exfalso].
  assert (10 ^ Z.of_nat n <= 10 ^ Z.of_nat (length ds)) by (apply Z.pow_le_mono_r; lia). nia.
Qed.

Definition sequence_limit : Z := 10 ^ 20.

Lemma segment_name_sequence n : 0 <= n < sequence_limit -> segment_sequence (segment_name n) = Some n.
Proof.
  intros Hn. assert (length (chars (dec n)) <= 20)%nat as Hl by (apply (dec_length n 20); [exact Hn|lia]).
  destruct (dec_digits n ltac:(lia)) as (c & ds & Hd & Hall & Hv & _).
  unfold segment_name, segment_sequence. rewrite chars_app, chars_of_chars. set (p := _ ++ chars (dec n)).
  assert (length p = 20%nat) as Hp by (subst p; rewrite length_app, repeat_length; lia).
  rewrite length_app, Hp, firstn_app, skipn_app, Hp, firstn_all2, skipn_all2 by lia.
  rewrite !Nat.sub_diag. change (firstn 0 (chars ".jsonl")) with (@nil ascii). rewrite app_nil_r.
  assert (forallb is_digit p = true) as ->.
  { subst p. rewrite Hd, forallb_app, Hall, andb_true_r. generalize (20 - length (c :: ds))%nat. intros k.
    induction k; [done|]. cbn [repeat forallb]. by rewrite IHk. }
  cbn [andb]. change (Nat.eqb (20 + length (chars ".jsonl")) 26) with true.
  change (String.eqb (of_chars ([] ++ skipn 0 (chars ".jsonl"))) ".jsonl") with true. cbn [andb]. f_equal.
  subst p. unfold digit_values. rewrite map_app. fold (digit_values (chars (dec n))).
  fold (digit_values (repeat (chr 48) (20 - length (chars (dec n))))). by rewrite digits_value_zeros, Hd.
Qed.

Lemma small_int_ok z : 0 <= z < sequence_limit -> int_ok z = true.
Proof.
  intros Hz. unfold int_ok, str_len. rewrite Z.abs_eq by lia. apply Z.leb_le.
  rewrite <- length_chars. pose proof (dec_length z 20 Hz ltac:(lia)). lia.
Qed.

(** ** The sorted listing *)

Abbreviation by_sequence := (fun a b : Z * file => fst a <? fst b).

Lemma sort_lt_snoc {A} (lt : A -> A -> bool) l x : sort_lt lt (l ++ [x]) = insert_lt lt x (sort_lt lt l).
Proof. unfold sort_lt. by rewrite rev_app_distr. Qed.

Definition ascending (l : list (Z * file)) : Prop := StronglySorted (fun a b => fst a <= fst b) l.

Lemma insert_ascending x l : ascending l -> ascending (insert_lt by_sequence x l).
Proof.
  unfold ascending. induction 1 as [|y l Hl IH Hy]; cbn [insert_lt]; [by repeat constructor|].
  destruct (Z.ltb_spec (fst x) (fst y)) as [H|H].
  - constructor; [by constructor|]. constructor; [lia|]. eapply Forall_impl; [exact Hy|]. cbn. lia.
  - constructor; [done|]. apply Forall_forall. intros z Hz. rewrite insert_lt_Permutation in Hz.
    apply elem_of_cons in Hz as [->|Hz]; [lia|]. rewrite Forall_forall in Hy. by apply Hy.
Qed.

Lemma sort_ascending l : ascending (sort_lt by_sequence l).
Proof.
  induction l as [|x l IH] using rev_ind; [constructor|]. rewrite sort_lt_snoc. by apply insert_ascending.
Qed.

Lemma filter_insert p x l : ascending l ->
  List.filter p (insert_lt by_sequence x l)
  = if p x then insert_lt by_sequence x (List.filter p l) else List.filter p l.
Proof.
  unfold ascending. induction 1 as [|y l Hl IH Hy]; cbn [insert_lt List.filter]; [by destruct (p x)|].
  destruct (Z.ltb_spec (fst x) (fst y)) as [H|H]; cbn [List.filter].
  - destruct (p x); [|done]. destruct (p y).
    + cbn [insert_lt]. destruct (Z.ltb_spec (fst x) (fst y)); [done|lia].
    + clear IH Hl. induction Hy as [|z l Hz Hl IH]; [done|]. cbn [List.filter]. destruct (p z); [|apply IH].
      cbn [insert_lt]. destruct (Z.ltb_spec (fst x) (fst z)); [done|lia].
  - rewrite IH. destruct (p y), (p x); try done. cbn [insert_lt].
    destruct (Z.ltb_spec (fst x) (fst y)); [lia|done].
Qed.

Lemma filter_sort p l :
  List.filter p (sort_lt by_sequence l) = sort_lt by_sequence (List.filter p l).
Proof.
  induction l as [|x l IH] using rev_ind; [done|]. rewrite sort_lt_snoc, filter_insert by apply sort_ascending.
  rewrite IH, List.filter_app. cbn [List.filter]. destruct (p x); [|by rewrite app_nil_r]. by rewrite sort_lt_snoc.
Qed.

(** Two listings of the same files with distinct sequences are equal. *)
Lemma sort_permuted l l' : NoDup (map fst l) -> l ≡ₚ l' -> sort_lt by_sequence l = sort_lt by_sequence l'.
Proof.
  intros Hn Hp. apply (StronglySorted_unique_strong (fun a b => fst a <= fst b)).
  - intros x y Hx Hy Hxy Hyx. rewrite sort_lt_Permutation in Hx. rewrite sort_lt_Permutation, <- Hp in Hy.
    apply list_elem_of_lookup in Hx as [i Hi], Hy as [j Hj].
    assert (i = j) as ->; [|congruence]. eapply (NoDup_lookup (map fst l)); [done| |].
    + rewrite list_lookup_fmap, Hi. reflexivity.
    + rewrite list_lookup_fmap, Hj. cbn. f_equal. lia.
  - apply sort_ascending.
  - apply sort_ascending.
  - by rewrite !sort_lt_Permutation.
Qed.

(** ** Reading the directory *)

Lemma read_segments_app a b :
  read_segments (a ++ b) = (x ← read_segments a; y ← read_segments b; Ok (x ++ y)).
Proof.
  induction a as [|[name [f|]] a IH]; cbn [read_segments app mbind res_bind].
  - by destruct (read_segments b).
  - destruct (segment_sequence name); [|done]. rewrite IH. cbn [mbind res_bind].
    destruct (read_segments a); [|done]. cbn [mbind res_bind]. by destruct (read_segments b).
  - done.
Qed.

Lemma read_segments_remove l r s : read_segments l = Ok r ->
  read_segments (remove_segment l s) = Ok (List.filter (fun x => negb (fst x =? s)) r).
Proof.
  unfold remove_segment. revert r. induction l as [|[name [f|]] l IH]; intros r; cbn [read_segments]; [by intros [= <-]| |done].
  destruct (segment_sequence name) as [n|] eqn:E; [|done]. intros (r' & Hr & [= <-])%bind_ok.
  cbn [List.filter fst]. rewrite E. destruct (Z.eqb_spec n s) as [->|Hne].
  - rewrite bool_decide_eq_true_2 by done. cbn [negb]. by apply IH.
  - rewrite bool_decide_eq_false_2 by congruence. cbn [negb read_segments]. rewrite E, (IH _ Hr). done.
Qed.

Lemma read_segments_permuted l l' r : read_segments l = Ok r -> l ≡ₚ l' ->
  exists r', read_segments l' = Ok r' /\ r ≡ₚ r'.
Proof.
  intros H Hp. revert r H. induction Hp as [|[name [f|]] l l' Hp IH|[na [fa|]] [nb [fb|]] l|l m n Hlm IH1 Hmn IH2]; intros r;
    cbn [read_segments]; try done; eauto.
  - destruct (segment_sequence name) as [s|]; [|done]. intros (q & Hq & [= <-])%bind_ok.
    destruct (IH _ Hq) as (q' & -> & Hp'). eexists. split; [reflexivity|]. by constructor.
  - destruct (segment_sequence nb) as [t|]; [|done]. destruct (segment_sequence na) as [s|]; [|done].
    intros (q & Hq & [= <-])%bind_ok. apply bind_ok in Hq as (q0 & -> & [= <-]).
    eexists. split; [reflexivity|]. by constructor.
  - by destruct (segment_sequence nb).
  - intros H. destruct (IH1 _ H) as (q & Hq & Hp1). destruct (IH2 _ Hq) as (q' & Hq' & Hp2).
    exists q'. split; [done|]. by transitivity q.
Qed.

Lemma read_segments_name l r name : read_segments l = Ok r -> name ∈ map fst l ->
  exists s, segment_sequence name = Some s /\ s ∈ map fst r.
Proof.
  revert r. induction l as [|[n [f|]] l IH]; intros r; cbn [read_segments map fst]; [by intros _ ?%elem_of_nil| |done].
  destruct (segment_sequence n) as [s|] eqn:E; [|done]. intros (r' & Hr & [= <-])%bind_ok. cbn [map fst].
  intros [->|H]%elem_of_cons; [by exists s; split; [|left]|]. destruct (IH _ Hr H) as (t & Ht & Hin).
  exists t. split; [done|]. by right.
Qed.

(** The listing after adding the next segment, removing one, or in another order. *)
Lemma _segment_paths_add l r n f : _segment_paths l = Ok r -> 0 <= n < sequence_limit ->
  Forall (fun x => fst x < n) r -> _segment_paths (l ++ [(segment_name n, EFile f)]) = Ok (r ++ [(n, f)]).
Proof.
  unfold _segment_paths. intros (q & Hq & [= <-])%bind_ok Hn Hr. rewrite read_segments_app, Hq.
  cbn [read_segments mbind res_bind]. rewrite segment_name_sequence by done. cbn [mbind res_bind].
  rewrite sort_lt_snoc, insert_lt_last; [done|]. eapply Forall_impl; [exact Hr|]. cbn. lia.
Qed.

Lemma _segment_paths_remove l r s : _segment_paths l = Ok r ->
  _segment_paths (remove_segment l s) = Ok (List.filter (fun x => negb (fst x =? s)) r).
Proof.
  unfold _segment_paths. intros (q & Hq & [= <-])%bind_ok. rewrite (read_segments_remove _ _ _ Hq).
  cbn [mbind res_bind]. by rewrite filter_sort.
Qed.

Lemma _segment_paths_permuted l l' r : NoDup (map fst r) -> _segment_paths l = Ok r -> l ≡ₚ l' ->
  _segment_paths l' = Ok r.
Proof.
  unfold _segment_paths. intros Hn (q & Hq & [= <-])%bind_ok Hp.
  destruct (read_segments_permuted _ _ _ Hq Hp) as (q' & -> & Hqq). cbn [mbind res_bind]. f_equal. symmetry.
  apply sort_permuted; [|done]. by rewrite <- (sort_lt_Permutation by_sequence q).
Qed.

Lemma _segment_paths_fresh l r n : _segment_paths l = Ok r -> 0 <= n < sequence_limit -> Forall (fun x => fst x < n) r ->
  segment_name n ∉ map fst l.
Proof.
  unfold _segment_paths. intros (q & Hq & [= <-])%bind_ok Hn Hr H.
  destruct (read_segments_name _ _ _ Hq H) as (s & Hs & Hin). rewrite segment_name_sequence in Hs by done.
  injection Hs as <-. apply list_elem_of_fmap in Hin as (x & -> & Hx).
  rewrite <- (sort_lt_Permutation by_sequence q) in Hx. rewrite Forall_forall in Hr. specialize (Hr _ Hx). lia.
Qed.
