(* ===== verification/PersistenceAudit.v ===== *)
(** * The authorization audit implements one growing log

    The abstract state is a list of events split into a pruned prefix, retained
    segments and the active file. A disk represents it when the anchor commits
    to the prefix and the files hold the rest of the one hash chain. Every
    operation, with any of its system calls failing, takes a represented log to
    a represented log whose history grew by exactly the events that were
    accepted; pruning moves the split and never changes the history. *)

From S2P Require Import Prelude PyStr PyFloat PyVal PyFacts Json Sha256 JsonText Persistence PersistenceChain PersistenceSegments.

#[local] Open Scope string_scope.
#[local] Open Scope list_scope.
#[local] Open Scope Z_scope.
#[local] Open Scope st_scope.

(** ** The log and the disks that represent it *)

Record log := { pruned : list pyval; pruned_files : nat; segments : list (list pyval); active : list pyval }.

Definition retained (l : log) : list pyval := concat l.(segments) ++ l.(active).
Definition history (l : log) : list pyval := l.(pruned) ++ retained l.
Definition first_sequence (l : log) : Z := Z.of_nat l.(pruned_files) + 1.
Definition next_sequence (l : log) : Z := first_sequence l + Z.of_nat (length l.(segments)).
Definition active_initial (l : log) : string := chain_head _ZERO_HASH (l.(pruned) ++ concat l.(segments)).
Definition log_head (l : log) : string := chain_head _ZERO_HASH (history l).

Definition anchor_of (l : log) : anchor :=
  {| previousHead := chain_head _ZERO_HASH l.(pruned); nextSequence := first_sequence l;
     prunedSegments := Z.of_nat l.(pruned_files); prunedRecords := Z.of_nat (length l.(pruned)) |}.

(** The files hold consecutive parts of the chain under consecutive sequences. *)
Fixpoint chained (n : Z) (h : string) (files : list (Z * file)) (parts : list (list pyval)) : Prop :=
  match files, parts with
  | [], [] => True
  | (s, f) :: files', events :: parts' =>
      s = n /\ holds_chain h events (Some f) /\ chained (n + 1) (chain_head h events) files' parts'
  | _, _ => False
  end.

Definition well_formed (events : list pyval) : Prop := Forall (fun e => json_ok e = true) events.

Record represents (n : nat) (l : log) (stale files : list (Z * file)) (d : disk) : Prop := {
  rp_ok : well_formed (history l);
  rp_files : (l.(pruned_files) + length l.(segments) <= n)%nat;
  rp_events : (length (history l) <= n)%nat;
  rp_anchor : _retention_anchor d.(retention_path) = Ok (anchor_of l);
  rp_listing : _segment_paths d.(audit_segments) = Ok (stale ++ files);
  rp_distinct : NoDup (map fst (stale ++ files));
  rp_stale : Forall (fun x => fst x < first_sequence l) stale;
  rp_chained : chained (first_sequence l) (chain_head _ZERO_HASH l.(pruned)) files l.(segments);
  rp_active : holds_chain (active_initial l) l.(active) d.(audit_path);
}.

(** What a cached state has to say about the log. *)
Record describes (l : log) (d : disk) (s : audit_state) : Prop := {
  ds_head : s.(st_head) = log_head l;
  ds_bytes : s.(st_active_bytes) = file_size d.(audit_path);
  ds_next : s.(st_next_sequence) = next_sequence l;
}.

(** ** Scanning a represented disk *)

Lemma zero_hash_ascii : is_ascii _ZERO_HASH = true.
Proof. by vm_compute. Qed.

Lemma well_formed_app a b : well_formed (a ++ b) <-> well_formed a /\ well_formed b.
Proof. apply List.Forall_app. Qed.

Lemma chained_length n h files parts : chained n h files parts -> length files = length parts.
Proof.
  revert n h parts. induction files as [|[s f] files IH]; intros n h [|p parts]; cbn; try done.
  intros (_ & _ & H). f_equal. by eapply IH.
Qed.

Lemma chained_bounds n h files parts : chained n h files parts ->
  Forall (fun x => n <= fst x < n + Z.of_nat (length parts)) files.
Proof.
  revert n h parts. induction files as [|[s f] files IH]; intros n h [|p parts]; cbn [chained]; try done.
  intros (-> & _ & H). cbn [length]. constructor; [cbn; lia|]. eapply Forall_impl; [by eapply IH|]. cbn. lia.
Qed.

Lemma chained_app n h files parts f events : chained n h files parts ->
  holds_chain (chain_head h (concat parts)) events (Some f) ->
  chained n h (files ++ [(n + Z.of_nat (length parts), f)]) (parts ++ [events]).
Proof.
  revert n h parts. induction files as [|[s g] files IH]; intros n h [|p parts]; cbn [chained]; try done.
  - intros _ Hf. cbn. split; [lia|done].
  - intros (-> & Hp & H). cbn [concat app]. rewrite chain_head_app. intros Hf. split; [done|]. split; [done|].
    replace (n + Z.of_nat (length (p :: parts))) with (n + 1 + Z.of_nat (length parts)) by (cbn; lia). by apply IH.
Qed.

Lemma scan_chained files : forall n h parts stale s,
  chained n h files parts -> well_formed (concat parts) -> is_ascii h = true ->
  Forall (fun x => fst x < n) stale -> s.(sc_sequence) = n -> s.(sc_head) = h ->
  scan_segments (stale ++ files) s
  = Ok (inl {| sc_head := chain_head h (concat parts); sc_sequence := n + Z.of_nat (length parts);
               sc_records := s.(sc_records) + Z.of_nat (length (concat parts));
               sc_retained := s.(sc_retained) + Z.of_nat (length parts);
               sc_stale := s.(sc_stale) + Z.of_nat (length stale) |}).
Proof.
  intros n h parts stale s Hc Hok Hh Hs. revert s. induction Hs as [|[q f] stale Hq Hs IH]; intros s.
  - revert n h parts Hc Hok Hh s. induction files as [|[q f] files IH]; intros n h [|p parts]; cbn [chained]; try done.
    + intros _ _ _ [] <- <-. cbn. do 3 f_equal; lia.
    + intros (-> & Hp & Hc) Hok Hh s Hn Hd. cbn [app concat] in *. apply well_formed_app in Hok as [Hok1 Hok2].
      cbn [scan_segments]. rewrite Hn, Z.ltb_irrefl, Z.eqb_refl, Hd. cbn [negb].
      rewrite (verify_chain h p) by done. cbn [mbind res_bind].
      rewrite (IH _ _ _ Hc Hok2) by (try done; by apply chain_head_ascii).
      cbn [sc_records sc_retained sc_stale length]. rewrite chain_head_app, length_app. do 3 f_equal; lia.
  - intros Hn Hd. cbn [app scan_segments]. rewrite Hn. cbn in Hq. destruct (Z.ltb_spec q n); [|lia].
    rewrite IH by done. cbn [sc_records sc_retained sc_stale length]. do 3 f_equal; lia.
Qed.

Definition totals_of (l : log) (t : audit_totals) : Prop :=
  t.(t_records) = Z.of_nat (length (retained l)) /\ t.(t_head) = log_head l
  /\ t.(t_retained_segments) = Z.of_nat (length l.(segments))
  /\ t.(t_active_records) = Z.of_nat (length l.(active)) /\ t.(t_anchor) = anchor_of l.

Lemma scan_represented n l stale files d : represents n l stale files d ->
  exists t s, _scan_authorization_audit d = Ok (AuditOk t, Some s) /\ totals_of l t /\ describes l d s
    /\ _authorization_state_matches_disk d s = true.
Proof.
  intros []. unfold history, retained in rp_ok0. rewrite !well_formed_app in rp_ok0. destruct rp_ok0 as (Hp & Hs & Ha).
  unfold _scan_authorization_audit, scan_disk. rewrite rp_anchor0, rp_listing0. cbn [mbind res_bind].
  erewrite scan_chained; [|exact rp_chained0|done|by apply chain_head_ascii|done|done|done]. cbn [mbind res_bind].
  unfold scan_active. cbn [sc_head]. rewrite <- chain_head_app. fold (active_initial l).
  rewrite (verify_chain (active_initial l) (active l)) by (try done; by apply chain_head_ascii).
  cbn [mbind res_bind catch]. do 2 eexists. split; [reflexivity|].
  assert (chain_head (active_initial l) (active l) = log_head l) as Hhead.
  { unfold active_initial, log_head, history, retained. by rewrite <- chain_head_app, <- app_assoc. }
  split; [|split].
  - unfold totals_of, retained. cbn. rewrite length_app, Nat2Z.inj_add. auto.
  - by split.
  - unfold _authorization_state_matches_disk. rewrite rp_listing0. cbn. by rewrite !bool_decide_eq_true_2.
Qed.

(** ** Pruning moves the split of one history *)

Definition drop_segments (k : nat) (l : log) : log :=
  {| pruned := l.(pruned) ++ concat (firstn k l.(segments)); pruned_files := l.(pruned_files) + k;
     segments := skipn k l.(segments); active := l.(active) |}.

Lemma drop_history k l : history (drop_segments k l) = history l.
Proof.
  unfold history, retained, drop_segments. cbn. rewrite <- (firstn_skipn k (segments l)) at 3.
  by rewrite concat_app, <- !app_assoc.
Qed.

Lemma drop_next k l : (k <= length l.(segments))%nat -> next_sequence (drop_segments k l) = next_sequence l.
Proof. intros H. unfold next_sequence, first_sequence, drop_segments. cbn. rewrite length_skipn. lia. Qed.

Lemma drop_initial k l : active_initial (drop_segments k l) = active_initial l.
Proof.
  unfold active_initial, drop_segments. cbn. rewrite <- app_assoc, <- concat_app. by rewrite firstn_skipn.
Qed.

Lemma chained_split k : forall n h files parts, chained n h files parts ->
  chained n h (firstn k files) (firstn k parts)
  /\ chained (n + Z.of_nat (Nat.min k (length parts))) (chain_head h (concat (firstn k parts))) (skipn k files) (skipn k parts).
Proof.
  induction k as [|k IH]; intros n h files parts H.
  - cbn [firstn skipn concat chain_head Nat.min]. by rewrite Z.add_0_r.
  - destruct files as [|[s f] files], parts as [|p parts]; cbn [chained] in H; try done.
    destruct H as (-> & Hp & H). apply IH in H as [H1 H2]. cbn [firstn skipn chained concat length].
    split; [done|]. rewrite chain_head_app. rewrite <- Nat.succ_min_distr, Nat2Z.inj_succ.
    by replace (n + Z.succ (Z.of_nat (Nat.min k (length parts)))) with (n + 1 + Z.of_nat (Nat.min k (length parts))) by lia.
Qed.

Lemma filter_all {A} (p : A -> bool) l : Forall (fun x => p x = true) l -> List.filter p l = l.
Proof. induction 1 as [|x l Hx Hl IH]; [done|]. cbn. by rewrite Hx, IH. Qed.

Lemma filter_none {A} (p : A -> bool) l : Forall (fun x => p x = false) l -> List.filter p l = [].
Proof. induction 1 as [|x l Hx Hl IH]; [done|]. cbn. by rewrite Hx. Qed.

Lemma represents_bounds n l stale files d : represents n l stale files d ->
  Forall (fun x => first_sequence l <= fst x < next_sequence l) files.
Proof. intros []. by eapply chained_bounds. Qed.

Lemma listing_split n l stale files d : represents n l stale files d ->
  List.filter (fun x => first_sequence l <=? fst x) (stale ++ files) = files
  /\ List.filter (fun x => fst x <? first_sequence l) (stale ++ files) = stale.
Proof.
  intros H. pose proof (represents_bounds _ _ _ _ _ H) as Hb. destruct H. rewrite !List.filter_app. split.
  - rewrite filter_none, filter_all; [done| |]; (eapply Forall_impl; [eassumption|]); cbn; lia.
  - rewrite filter_all, filter_none; [by rewrite app_nil_r| |]; (eapply Forall_impl; [eassumption|]); cbn; lia.
Qed.

(** Unlinking files the anchor already covers. *)
Lemma unlink_represented n l removed : forall stale files d, represents n l stale files d ->
  Forall (fun s => s < first_sequence l) removed ->
  exists stale', represents n l stale' files (set_segments (fold_left remove_segment removed d.(audit_segments)) d).
Proof.
  induction removed as [|s removed IH]; intros stale files d H Hr.
  - exists stale. cbn. destruct H. by constructor.
  - apply List.Forall_cons_iff in Hr as [Hs Hr]. cbn [fold_left].
    set (d' := set_segments (remove_segment (audit_segments d) s) d).
    assert (exists stale', represents n l stale' files d') as (stale' & H').
    { exists (List.filter (fun x => negb (fst x =? s)) stale). pose proof (represents_bounds _ _ _ _ _ H) as Hb.
      destruct H. constructor; try done.
      - change (audit_segments d') with (remove_segment (audit_segments d) s).
        rewrite (_segment_paths_remove _ _ _ rp_listing0), List.filter_app.
        rewrite (filter_all _ files); [done|]. eapply Forall_impl; [exact Hb|]. cbn. lia.
      - eapply sublist_NoDup; [exact rp_distinct0|]. apply fmap_sublist, sublist_app; [|done].
        clear. induction stale as [|x l IH]; [done|]. cbn. destruct (negb _); by constructor.
      - apply List.Forall_forall. intros x [Hx _]%List.filter_In. rewrite List.Forall_forall in rp_stale0. by apply rp_stale0. }
    destruct (IH _ _ _ H' Hr) as (stale'' & H''). by exists stale''.
Qed.

(** ** The anchor reads back *)

Definition hash_text (h : string) : Prop := str_len h = 64 /\ forallb lower_hex_char (chars h) = true.

Lemma hex_digit_lower z : 0 <= z < 16 -> lower_hex_char (hex_digit z) = true.
Proof.
  intros H. unfold hex_digit, lower_hex_char, is_digit, in_range. case_match; rewrite code_chr; lia.
Qed.

Lemma sha256_hash_text m : hash_text (sha256_hex m).
Proof.
  split; [unfold str_len; by rewrite <- length_chars, sha256_hex_length|]. unfold sha256_hex, hex. rewrite chars_of_chars.
  apply forallb_forall. intros c Hc. apply in_concat in Hc as (l & Hl & Hc). apply in_map_iff in Hl as (d & <- & _).
  pose proof (code_bound d). destruct Hc as [<-|[<-|[]]]; apply hex_digit_lower.
  - split; [apply Z.div_pos; lia|]. apply Z.div_lt_upper_bound; lia.
  - apply Z.mod_pos_bound. lia.
Qed.

Lemma chain_head_text h events : hash_text h -> hash_text (chain_head h events).
Proof. revert h. induction events as [|e l IH]; intros h H; cbn [chain_head]; [done|]. apply IH, sha256_hash_text. Qed.

Lemma anchor_reads_back a stamp :
  hash_text a.(previousHead) -> 1 <= a.(nextSequence) < sequence_limit -> 0 <= a.(prunedSegments) < sequence_limit ->
  0 <= a.(prunedRecords) < sequence_limit ->
  _retention_anchor (Some {| f_data := utf8 (json_dumps (VDict (anchor_dict a)) +:+ newline); f_stamp := stamp |}) = Ok a.
Proof.
  intros [Hl Hx] Hn Hs Hr. unfold _retention_anchor, read_json. cbn [f_data]. rewrite utf8_decode_utf8.
  cbn [mbind res_bind]. rewrite loads_dumps_line; cycle 1.
  { cbn [json_ok anchor_dict forallb snd]. rewrite !small_int_ok by lia. rewrite !andb_true_r.
    rewrite bool_decide_eq_true_2; [done|]. change (NoDup anchor_keys). unfold anchor_keys. nodup_keys. }
  cbn [mbind res_bind].
  assert (read_anchor (canon (VDict (anchor_dict a))) = Some a) as ->; [|done].
  destruct a as [h n s r]. cbn [previousHead nextSequence prunedSegments prunedRecords] in *.
  change (canon _) with (VDict [("nextSequence", VInt n); ("previousHead", VStr h); ("prunedRecords", VInt r);
                                ("prunedSegments", VInt s); ("version", VInt 1)]).
  unfold read_anchor. change (Nat.eqb _ 5 && _ && _) with true. cbn [dget_none dget_or dget].
  change (dget_none _ "previousHead") with (VStr h). change (dget_none _ "nextSequence") with (VInt n).
  change (dget_none _ "prunedSegments") with (VInt s). change (dget_none _ "prunedRecords") with (VInt r).
  unfold at_least. cbn [int_or_bool]. rewrite Hl, Hx.
  destruct (Z.leb_spec 1 n); [|lia]. destruct (Z.leb_spec 0 s); [|lia]. destruct (Z.leb_spec 0 r); [done|lia].
Qed.

(** ** Pruning and rotation *)

Definition all_succeed : fates :=
  {| rename_fails := false; rename_sync_fails := false; anchor_write := AnchorDone; unlinks := None;
     unlink_sync_fails := false; append_write := Done |}.

Definition in_bounds (n : nat) : Prop := Z.of_nat n + 2 < sequence_limit.

Lemma unlink_outcome n l stale files removed w r :
  represents n l stale files r.(disk_of) -> Forall (fun s => s < first_sequence l) removed ->
  wp (unlink_segments removed w) (fun x r' => r'.(_authorization_state) = r.(_authorization_state)
        /\ (exists stale', represents n l stale' files r'.(disk_of)) /\ (w = all_succeed -> x = Ok tt)) r.
Proof.
  intros H Hr. unfold unlink_segments, wp. rewrite st_modify_bind.
  set (gone := match unlinks w with Some k => firstn k removed | None => removed end).
  assert (exists stale', represents n l stale' files
            (set_segments (fold_left remove_segment gone (audit_segments (disk_of r))) (disk_of r))) as Hs.
  { apply (unlink_represented n l gone stale); [done|]. subst gone. destruct (unlinks w); [by apply Forall_take|done]. }
  destruct (unlinks w) as [k|] eqn:E; [destruct (Nat.ltb _ _)|]; (split; [done|split; [done|]]); try done;
    by intros ->.
Qed.

Lemma verify_prefix_chained files : forall n h parts acc before,
  chained n h files parts -> well_formed (concat parts) -> is_ascii h = true -> before = n - 1 ->
  verify_prefix files h acc before
  = Ok (chain_head h (concat parts), acc + Z.of_nat (length (concat parts)), before + Z.of_nat (length parts)).
Proof.
  induction files as [|[s f] files IH]; intros n h [|p parts] acc before; cbn [chained]; try done.
  - intros _ _ _ _. cbn. do 3 f_equal; lia.
  - intros (-> & Hp & Hc) Hok Hh ->. cbn [concat] in *. apply well_formed_app in Hok as [Hok1 Hok2].
    cbn [verify_prefix]. destruct (Z.eqb_spec n (n - 1 + 1)); [|lia]. cbn [negb].
    rewrite (verify_chain h p) by done. cbn [mbind res_bind].
    rewrite (IH _ _ _ _ n Hc Hok2) by first [lia|by apply chain_head_ascii].
    rewrite chain_head_app, length_app. cbn [length]. f_equal. f_equal; [f_equal; lia|lia].
Qed.

(** Committing the anchor to the first [k] segments makes them stale. *)
Lemma commit_represented n l stale files d k stamp : represents n l stale files d -> in_bounds n ->
  (k <= length l.(segments))%nat ->
  represents n (drop_segments k l) (stale ++ firstn k files) (skipn k files)
    (set_retention (Some {| f_data := utf8 (json_dumps (VDict (anchor_dict (anchor_of (drop_segments k l)))) +:+ newline);
                            f_stamp := stamp |}) d).
Proof.
  intros H Hn Hk. pose proof H as []. unfold in_bounds in Hn.
  pose proof (chained_length _ _ _ _ rp_chained0) as Hlen.
  destruct (chained_split k _ _ _ _ rp_chained0) as [Hc1 Hc2].
  assert (length (pruned (drop_segments k l)) <= n)%nat as Hle.
  { rewrite <- (drop_history k) in rp_events0. unfold history in rp_events0. rewrite length_app in rp_events0. lia. }
  constructor.
  - by rewrite drop_history.
  - cbn. rewrite length_skipn. lia.
  - by rewrite drop_history.
  - apply anchor_reads_back; unfold anchor_of; cbn [previousHead nextSequence prunedSegments prunedRecords].
    + by apply chain_head_text.
    + unfold first_sequence. cbn. lia.
    + cbn. lia.
    + lia.
  - cbn. by rewrite <- app_assoc, firstn_skipn.
  - by rewrite <- app_assoc, firstn_skipn.
  - apply List.Forall_app. split.
    + eapply Forall_impl; [exact rp_stale0|]. unfold first_sequence. cbn. lia.
    + eapply Forall_impl; [by eapply chained_bounds|]. unfold first_sequence. cbn. intros x. rewrite length_firstn. lia.
  - unfold first_sequence in *. cbn [drop_segments pruned pruned_files segments]. rewrite chain_head_app.
    replace (Z.of_nat (pruned_files l + k) + 1)
      with (Z.of_nat (pruned_files l) + 1 + Z.of_nat (k `min` length (segments l))) by lia. exact Hc2.
  - rewrite drop_initial. done.
Qed.

Lemma drop_none l : drop_segments 0 l = l.
Proof. destruct l. unfold drop_segments. cbn. by rewrite app_nil_r, Nat.add_0_r. Qed.

(** A log with the same history and next sequence, some segments fewer. *)
Definition pruned_to (n : nat) (l : log) (d : disk) (l' : log) : Prop :=
  history l' = history l /\ next_sequence l' = next_sequence l /\ l'.(active) = l.(active)
  /\ exists stale files, represents n l' stale files d.

Lemma pruned_to_refl n l stale files d : represents n l stale files d -> pruned_to n l d l.
Proof. intros H. split_and!; [done..|]. by exists stale, files. Qed.

Lemma write_anchor_outcome a w r :
  wp (write_anchor a w) (fun x r' => r'.(_authorization_state) = r.(_authorization_state)
       /\ (x <> Ok tt /\ r' = r \/ exists stamp, r'.(disk_of) = set_retention
            (Some {| f_data := utf8 (json_dumps (VDict (anchor_dict a)) +:+ newline); f_stamp := stamp |}) r.(disk_of))
       /\ (w = AnchorDone -> x = Ok tt)) r.
Proof.
  unfold wp, write_anchor. destruct w; [rewrite st_get_bind, st_modify_bind| |rewrite st_get_bind, st_modify_bind];
    (split; [done|split; [|done]]); [right|left|right]; [by eexists|done|by eexists].
Qed.

Lemma unlink_sync_outcome n l stale files removed w sync r :
  represents n l stale files r.(disk_of) -> Forall (fun s => s < first_sequence l) removed ->
  sync = st_ret tt \/ sync = sync_segments w ->
  wp (st_bind (unlink_segments removed w) (fun _ => sync))
     (fun x r' => r'.(_authorization_state) = r.(_authorization_state) /\ pruned_to n l r'.(disk_of) l
                  /\ (w = all_succeed -> x = Ok tt)) r.
Proof.
  intros H Hr Hs. eapply wp_step; [by eapply (unlink_outcome n l stale files)| |].
  - intros [] r' (Hst & (stale' & H') & _).
    assert (wp sync (fun x r'' => r'' = r' /\ (w = all_succeed -> x = Ok tt)) r') as Hsync.
    { destruct Hs as [->| ->]; [done|]. unfold sync_segments, wp.
      destruct (unlink_sync_fails w) eqn:E; split; try done. by intros ->. }
    eapply wp_mono; [exact Hsync|]. cbn beta. intros x r'' [-> Hx]. eauto using pruned_to_refl.
  - intros e r' (Hst & (stale' & H') & Hw). eauto using pruned_to_refl.
Qed.

Lemma prune_outcome n l stale files c w r :
  represents n l stale files r.(disk_of) -> in_bounds n -> 0 <= c.(retain_segments) ->
  wp (_prune_authorization_segments c w) (fun x r' => r'.(_authorization_state) = r.(_authorization_state)
       /\ (exists l', pruned_to n l r'.(disk_of) l'
             /\ (x = Ok tt -> Z.of_nat (length l'.(segments)) <= c.(retain_segments)))
       /\ (w = all_succeed -> x = Ok tt)) r.
Proof.
  intros H Hn Hc. destruct (listing_split _ _ _ _ _ H) as [Hk Hs]. pose proof H as [].
  pose proof (chained_length _ _ _ _ rp_chained0) as Hlen.
  unfold _prune_authorization_segments. apply wp_get. eapply wp_lift; [exact rp_anchor0|].
  eapply wp_lift; [exact rp_listing0|]. change (nextSequence (anchor_of l)) with (first_sequence l).
  cbv zeta. rewrite Hk, Hs. destruct (Z.leb_spec (Z.of_nat (length files)) (retain_segments c)) as [Hle|Hlt].
  - eapply wp_mono; [eapply (unlink_sync_outcome n l stale files)|]; [done| |by destruct (map fst stale); [left|right]|].
    + apply List.Forall_map. exact rp_stale0.
    + intros x r' (Hst & Hp & Hw). split; [done|]. split; [|done]. exists l. split; [done|]. intros _. lia.
  - set (k := (length files - Z.to_nat (retain_segments c))%nat).
    assert (k <= length (segments l))%nat as Hk' by lia.
    destruct (chained_split k _ _ _ _ rp_chained0) as [Hc1 _].
    unfold history, retained in rp_ok0. rewrite !well_formed_app in rp_ok0. destruct rp_ok0 as (Hp & Hseg & Ha).
    assert (well_formed (concat (firstn k (segments l)))) as Hok.
    { rewrite <- (firstn_skipn k (segments l)), concat_app, well_formed_app in Hseg. apply Hseg. }
    eapply wp_lift; [eapply (verify_prefix_chained _ _ _ _ _ _ Hc1); [done|by apply chain_head_ascii|done]|].
    cbv beta iota zeta.
    match goal with |- wp (st_bind (write_anchor ?a _) _) _ _ => assert (a = anchor_of (drop_segments k l)) as -> end.
    { unfold anchor_of, drop_segments, first_sequence. cbn [previousHead nextSequence prunedSegments prunedRecords pruned pruned_files].
      rewrite chain_head_app, !length_app, !length_firstn. f_equal; lia. }
    assert (forall r', pruned_to n (drop_segments k l) (disk_of r') (drop_segments k l) ->
                       pruned_to n l (disk_of r') (drop_segments k l)) as Hto.
    { intros r' (_ & _ & _ & Hx). split_and!; [apply drop_history|by apply drop_next|done|done]. }
    assert (Z.of_nat (length (segments (drop_segments k l))) <= retain_segments c) as Hfew.
    { cbn. rewrite length_skipn. lia. }
    eapply wp_step; [apply write_anchor_outcome| |].
    + intros [] r1 (Hst & [[Hne _]|(stamp & Hd)] & _); [done|].
      eapply wp_mono; [eapply (unlink_sync_outcome n (drop_segments k l) (stale ++ firstn k files) (skipn k files))|].
      * rewrite Hd. by apply commit_represented.
      * pose proof (commit_represented n l stale files _ k 0 H Hn Hk') as [_ _ _ _ _ _ Hst' _ _].
        rewrite <- map_app. apply List.Forall_map. exact Hst'.
      * by right.
      * intros x r2 (Hst2 & Hp2 & Hw). split; [congruence|]. split; [|done]. exists (drop_segments k l). auto.
    + intros e r1 (Hst & [[_ ->]|(stamp & Hd)] & Hw).
      * split; [done|]. split; [|intros ->; by apply Hw]. exists l. split; [by eapply pruned_to_refl|done].
      * split; [done|]. split; [|intros ->; by apply Hw]. exists (drop_segments k l). split; [|done]. apply Hto.
        rewrite Hd. split_and!; [done..|]. do 2 eexists. by apply (commit_represented n l stale files).
Qed.

(** ** The repository: a represented disk and an honest cache *)

Record current (n : nat) (l : log) (r : repository) : Prop := {
  cu_disk : exists stale files, represents n l stale files r.(disk_of);
  cu_cache : forall s, r.(_authorization_state) = Some s ->
    _authorization_state_matches_disk r.(disk_of) s = true -> describes l r.(disk_of) s;
}.

Lemma matches_true d s : _authorization_state_matches_disk d s = true <->
  exists listing, _segment_paths d.(audit_segments) = Ok listing
    /\ s.(st_active_signature) = _file_signature d.(audit_path)
    /\ s.(st_retention_signature) = _file_signature d.(retention_path)
    /\ s.(st_segment_signatures) = segment_signatures listing.
Proof.
  unfold _authorization_state_matches_disk. destruct (_segment_paths (audit_segments d)) as [x|e].
  - rewrite !andb_true_iff, !bool_decide_eq_true. split; [intros [[? ?] ?]; eauto|by intros (? & [= <-] & ? & ? & ?)].
  - split; [done|]. by intros (? & ? & _).
Qed.

(** The next append is not refused for a stale cache. *)
Definition usable (r : repository) : Prop :=
  match r.(_authorization_state) with
  | None => True
  | Some s => _authorization_state_matches_disk r.(disk_of) s = true
  end.

Lemma represents_weaken n m l stale files d : represents n l stale files d -> (n <= m)%nat ->
  represents m l stale files d.
Proof. intros [] H. constructor; try done; lia. Qed.

Lemma current_weaken n m l r : current n l r -> (n <= m)%nat -> current m l r.
Proof. intros [(stale & files & H) Hc] Hle. split; [|done]. exists stale, files. by eapply represents_weaken. Qed.

Lemma current_no_cache n l d : (exists stale files, represents n l stale files d) ->
  current n l {| disk_of := d; _authorization_state := None |}.
Proof. intros H. by split. Qed.

Lemma ensure_outcome n l r : current n l r ->
  wp _ensure_authorization_state (fun x r' => r'.(disk_of) = r.(disk_of) /\ current n l r'
       /\ match x with
          | Ok s => describes l r.(disk_of) s /\ r'.(_authorization_state) = Some s
                    /\ _authorization_state_matches_disk r.(disk_of) s = true
          | Raise _ => ~ usable r
          end) r.
Proof.
  intros Hc. pose proof Hc as [(stale & files & H) Hcache]. unfold _ensure_authorization_state. apply wp_get.
  unfold usable. destruct (_authorization_state r) as [s|] eqn:E.
  - destruct (_authorization_state_matches_disk (disk_of r) s) eqn:M; unfold wp, st_ret, st_raise; cbn [fst snd].
    + split_and!; auto.
    + by split_and!.
  - destruct (scan_represented _ _ _ _ _ H) as (t & s & Hs & _ & Hd & Hm). eapply wp_lift; [exact Hs|].
    cbv beta iota. apply wp_modify. unfold wp, st_ret. cbn [fst snd set_state disk_of _authorization_state].
    split_and!; try done. split; cbn; [eauto|]. by intros s' [= <-].
Qed.

(** Renaming the active file into the next segment. *)
Definition rotated (l : log) : log :=
  {| pruned := l.(pruned); pruned_files := l.(pruned_files); segments := l.(segments) ++ [l.(active)]; active := [] |}.

Lemma rotated_history l : history (rotated l) = history l.
Proof. unfold history, retained, rotated. cbn. rewrite concat_app. cbn. by rewrite !app_nil_r. Qed.

Lemma rotate_represented n l stale files d f : represents n l stale files d -> in_bounds n -> d.(audit_path) = Some f ->
  represents (S n) (rotated l) stale (files ++ [(next_sequence l, f)])
    (set_audit None (set_segments (d.(audit_segments) ++ [(segment_name (next_sequence l), EFile f)]) d)).
Proof.
  intros H Hn Hf. pose proof (represents_bounds _ _ _ _ _ H) as Hb. destruct H. unfold in_bounds in Hn.
  constructor; try done.
  - by rewrite rotated_history.
  - cbn. rewrite length_app. cbn. lia.
  - rewrite rotated_history. lia.
  - change (audit_segments _) with (audit_segments d ++ [(segment_name (next_sequence l), EFile f)]).
    rewrite app_assoc. apply _segment_paths_add; [done| |].
    + unfold next_sequence, first_sequence. lia.
    + apply List.Forall_app. split; [eapply Forall_impl; [exact rp_stale0|]|eapply Forall_impl; [exact Hb|]];
        cbn; unfold next_sequence; lia.
  - rewrite app_assoc, map_app. apply NoDup_app. split; [done|]. split; [|apply NoDup_singleton].
    intros y Hy ->%list_elem_of_singleton. apply list_elem_of_fmap in Hy as (x & Hx & Hin).
    apply elem_of_app in Hin as [Hin|Hin]; [rewrite List.Forall_forall in rp_stale0|rewrite List.Forall_forall in Hb].
    + specialize (rp_stale0 x). rewrite list_elem_of_In in Hin. specialize (rp_stale0 Hin). cbn in Hx. unfold next_sequence in Hx. lia.
    + rewrite list_elem_of_In in Hin. specialize (Hb _ Hin). cbn in Hx. lia.
  - apply chained_app; [done|]. rewrite Hf in rp_active0. by rewrite <- chain_head_app.
Qed.

Lemma rotate_outcome n l c w r : current n l r -> in_bounds n -> in_bounds (S n) -> 0 <= c.(retain_segments) ->
  wp (_rotate_authorization_audit c w) (fun x r' => exists l', history l' = history l /\ current (S n) l' r'
       /\ (w = all_succeed -> usable r -> x = Ok tt /\ usable r')) r.
Proof.
  intros Hcur Hn Hn' Hc. unfold _rotate_authorization_audit. eapply wp_step; [by apply ensure_outcome| |].
  2:{ intros e r' (_ & Hcur' & Hu). exists l. split; [done|]. split; [by apply (current_weaken n); [|lia]|]. done. }
  intros s r1 (Hd1 & Hcur1 & [Hhead Hbytes Hnext] & Hs1 & Hm1). rewrite <- Hd1 in *.
  assert (usable r1) as Hu1 by (unfold usable; by rewrite Hs1).
  assert (current (S n) l r1) as Hcur1' by (apply (current_weaken n); [done|lia]).
  apply wp_get. cbv zeta. destruct (audit_path (disk_of r1)) as [f|] eqn:Hf; [|by exists l].
  destruct (_ =? 0); [by exists l|]. pose proof Hcur1 as [(stale & files & H) _]. rewrite Hnext.
  pose proof (represents_bounds _ _ _ _ _ H) as Hb. pose proof H as []. unfold in_bounds in Hn.
  rewrite bool_decide_eq_false_2; cycle 1.
  { eapply _segment_paths_fresh; [exact rp_listing0|unfold next_sequence, first_sequence; lia|].
    apply List.Forall_app. split; [eapply Forall_impl; [exact rp_stale0|]|eapply Forall_impl; [exact Hb|]];
      cbn; unfold next_sequence; lia. }
  destruct (rename_fails w) eqn:E1; [exists l; split_and!; [done..|by intros ->]|]. apply wp_modify.
  pose proof (rotate_represented _ _ _ _ _ f H Hn Hf) as Hrot. set (d2 := set_audit None _) in *.
  destruct (rename_sync_fails w) eqn:E2.
  { exists (rotated l). split; [apply rotated_history|]. split; [|by intros ->]. split; [by eauto|].
    unfold st_raise. cbn [fst snd on_disk disk_of _authorization_state]. rewrite Hs1. intros s' [= <-] Hm. exfalso.
    apply matches_true in Hm1 as (_ & _ & Hm1 & _), Hm as (_ & _ & Hm & _).
    rewrite Hf in Hm1. change (audit_path d2) with (@None file) in Hm. by rewrite Hm1 in Hm. }
  apply wp_modify. eapply wp_step; [by eapply (prune_outcome (S n) (rotated l))| |].
  - intros [] r3 (Hs3 & (l3 & (Hh3 & _ & _ & stale3 & files3 & H3) & _) & _). cbn in Hs3.
    apply wp_get. destruct (scan_represented _ _ _ _ _ H3) as (t & s' & Hscan & _ & Hd & Hm).
    eapply wp_lift; [exact Hscan|]. cbv beta iota. exists l3.
    rewrite Hh3, rotated_history. split; [done|]. unfold wp, st_modify. cbn [fst snd set_state]. split.
    + split; cbn [disk_of _authorization_state]; [by eauto|]. by intros ? [= <-].
    + done.
  - intros e r3 (Hs3 & (l3 & (Hh3 & _ & _ & stale3 & files3 & H3) & _) & Hw). cbn in Hs3.
    exists l3. rewrite Hh3, rotated_history. split; [done|]. split; [|intros ->; by specialize (Hw eq_refl)].
    split; [by eauto|]. by rewrite Hs3.
Qed.

(** ** Appending *)

Definition append_log (l : log) (e : pyval) : log :=
  {| pruned := l.(pruned); pruned_files := l.(pruned_files); segments := l.(segments); active := l.(active) ++ [e] |}.

Lemma append_history l e : history (append_log l e) = history l ++ [e].
Proof. unfold history, retained, append_log. cbn. by rewrite <- !app_assoc. Qed.

Lemma log_head_initial l : log_head l = chain_head (active_initial l) l.(active).
Proof. unfold active_initial, log_head, history, retained. by rewrite <- chain_head_app, <- app_assoc. Qed.

Lemma str_len_app a b : str_len (a +:+ b) = str_len a + str_len b.
Proof. unfold str_len. rewrite <- !length_chars, chars_app, length_app. lia. Qed.

Lemma append_represented n l stale files d e f : represents n l stale files d -> json_ok e = true ->
  holds_chain (active_initial l) (active l ++ [e]) f ->
  represents (S n) (append_log l e) stale files (set_audit f d).
Proof.
  intros [] He Hf. constructor; try done.
  - rewrite append_history. apply well_formed_app. split; [done|]. by constructor.
  - cbn. lia.
  - rewrite append_history, length_app. cbn. lia.
Qed.

Lemma write_outcome n l s e w r : (exists stale files, represents n l stale files r.(disk_of)) ->
  describes l r.(disk_of) s -> _authorization_state_matches_disk r.(disk_of) s = true ->
  json_ok e = true -> whole w ->
  wp (write_audit_record s e w) (fun x r' =>
        match x with
        | Ok rec => rec = _record (log_head l) e /\ current (S n) (append_log l e) r' /\ usable r'
        | Raise _ => current (S n) l r' /\ w <> Done
        end) r.
Proof.
  intros (stale & files & H) [Hhead Hbytes Hnext] Hm He Hw. unfold write_audit_record. apply wp_get. cbv zeta.
  rewrite Hhead. pose proof H as []. rewrite log_head_initial.
  pose proof (append_chain (active_initial l) (active l) (audit_path (disk_of r)) e (next_stamp (disk_of r)) w rp_active0 Hw) as Ha.
  set (encoded := record_line _) in *. destruct (append_bytes _ _ _ w) as [f result] eqn:Eapp. apply wp_modify.
  assert (is_ascii (log_head l) = true) as Hascii by by apply chain_head_ascii.
  assert (result = Ok tt /\ w = Done /\ holds_chain (active_initial l) (active l ++ [e]) f
          \/ result = Raise io_error /\ w <> Done /\ holds_chain (active_initial l) (active l) f) as [(-> & -> & Hf)|(-> & Hne & Hf)].
  { destruct Hw as [->|[->| ->]]; destruct Ha as [-> Ha]; auto. }
  - apply wp_modify. unfold wp, st_ret. cbn [fst snd]. split; [done|].
    assert (represents (S n) (append_log l e) stale files (set_audit f (disk_of r))) as Hr by by apply append_represented.
    assert (forall s', s' = advance s (link (ascii_replace (chain_head (active_initial l) (active l))) e) (str_len encoded) f ->
              _authorization_state_matches_disk (set_audit f (disk_of r)) s' = true) as Hmatch.
    { intros s' ->. apply matches_true in Hm as (listing & ? & _ & ? & ?). apply matches_true. by exists listing. }
    unfold usable. cbn [set_state on_disk disk_of _authorization_state]. split; [|by apply Hmatch].
    split; cbn [set_state on_disk disk_of _authorization_state]; [by eauto|]. intros s' [= <-] _. split.
    + cbn [advance st_head]. rewrite <- log_head_initial, ascii_replace_id by done.
      unfold log_head. by rewrite append_history, chain_head_app.
    + cbn [advance st_active_bytes set_audit audit_path]. rewrite Hbytes. unfold append_bytes in Eapp. injection Eapp as <-.
      unfold file_size, size. cbn [f_data]. rewrite str_len_app. by destruct (audit_path (disk_of r)).
    + done.
  - apply wp_modify. unfold wp, st_raise. cbn [fst snd]. split; [|done]. apply current_no_cache.
    exists stale, files. by constructor; try done; lia.
Qed.

(** What one append does to the log, whatever fails. *)
Definition appended (n : nat) (l : log) (e : pyval) (x : res pydict) (r' : repository) : Prop :=
  exists l', current (S n) l' r'
    /\ match x with
       | Ok rec => rec = _record (log_head l) e /\ history l' = history l ++ [e] /\ usable r'
       | Raise _ => history l' = history l
       end.

Lemma log_head_history l l' : history l' = history l -> log_head l' = log_head l.
Proof. unfold log_head. by intros ->. Qed.

Lemma ensure_write_outcome n l0 l e w r : current n l r -> history l = history l0 -> json_ok e = true -> whole w ->
  wp (let* state := _ensure_authorization_state in write_audit_record state e w)
     (fun x r' => appended n l0 e x r' /\ (usable r -> w = Done -> exists rec, x = Ok rec)) r.
Proof.
  intros Hcur Hl He Hw. eapply wp_step; [by apply ensure_outcome| |].
  - intros s r1 (Hd1 & [Hdisk Hcache] & Hs & _ & Hm). rewrite <- Hd1 in Hs, Hm.
    eapply wp_mono; [by apply (write_outcome n l)|]. intros [rec|x] r2.
    + intros (-> & Hc & Hu). split; [|by eexists]. exists (append_log l e). split; [done|].
      rewrite append_history, Hl, (log_head_history l l0) by done. done.
    + intros [Hc Hne]. split; [by exists l|done].
  - intros x r1 (Hd1 & Hc & Hu). split; [|done]. exists l. split; [|done]. by apply (current_weaken n); [|lia].
Qed.

Lemma append_outcome n l c e w r : current n l r -> in_bounds (S n) -> 0 <= c.(retain_segments) ->
  json_ok e = true -> whole w.(append_write) ->
  wp (append_authorization_audit c e w) (fun x r' => appended (S n) l e x r'
       /\ (usable r -> w = all_succeed -> str_len (_canonical e) <= 8192 -> exists rec, x = Ok rec)) r.
Proof.
  intros Hcur Hn Hc He Hw. assert (in_bounds n) as Hn0 by (unfold in_bounds in *; lia).
  unfold append_authorization_audit. destruct (Z.ltb_spec 8192 (str_len (_canonical e))) as [Hbig|Hsmall].
  { split; [|lia]. exists l. split; [|done]. by apply (current_weaken n); [|lia]. }
  eapply wp_step; [by apply ensure_outcome| |].
  2:{ intros x r1 (Hd1 & Hc1 & Hu). split; [|done]. exists l. split; [|done]. by apply (current_weaken n); [|lia]. }
  intros s r1 (Hd1 & [Hdisk Hcache] & Hs & Hs1 & Hm). rewrite <- Hd1 in Hs, Hm. cbv zeta.
  assert (usable r1) as Hu1 by (unfold usable; by rewrite Hs1).
  destruct (_ && _).
  - eapply wp_step; [by apply (rotate_outcome n l)| |].
    + intros [] r2 (l2 & Hh & Hc2 & Hok). eapply wp_mono; [by apply (ensure_write_outcome (S n) l l2)|].
      intros x r3 [Ha Hx]. split; [done|]. intros _ Hall _. destruct (Hok Hall Hu1) as [_ Hu2]. apply Hx; [done|by rewrite Hall].
    + intros x r2 (l2 & Hh & Hc2 & Hok). split; [|intros _ Hall _; by destruct (Hok Hall Hu1)].
      exists l2. split; [|done]. by apply (current_weaken (S n)); [|lia].
  - eapply wp_mono; [by apply (write_outcome n l)|]. intros [rec|x] r2.
    + intros (-> & Hc2 & Hu). split; [|by eexists]. exists (append_log l e). rewrite append_history.
      split; [|done]. by apply (current_weaken (S n)); [|lia].
    + intros [Hc2 Hne]. split; [exists l; split; [|done]; by apply (current_weaken (S n)); [|lia]|by intros _ ->].
Qed.

Lemma verify_outcome n l r : current n l r ->
  wp verify_authorization_audit (fun x r' => r'.(disk_of) = r.(disk_of) /\ current n l r' /\ usable r'
       /\ exists t, x = Ok (AuditOk t) /\ totals_of l t) r.
Proof.
  intros [(stale & files & H) Hcache]. unfold verify_authorization_audit. apply wp_get.
  destruct (scan_represented _ _ _ _ _ H) as (t & s & Hs & Ht & Hd & Hm). eapply wp_lift; [exact Hs|].
  cbv beta iota. apply wp_modify. unfold wp, st_ret. cbn [fst snd set_state disk_of _authorization_state].
  split_and!; [done| |done|eauto]. split; cbn [disk_of _authorization_state]; [eauto|]. by intros s' [= <-].
Qed.

(** ** Runs *)

(** One step of the repository's life: an append with any of its system calls
    failing, a full verification, a restart of the process, or another order in
    which the directory lists its files. *)
Inductive event_step :=
| Append (event : pyval) (w : fates)
| Verify
| Reopen
| Relist (listing : list (string * entry)).

Definition accepted_by (c : config) (a : event_step) (r : repository) : list pyval :=
  match a with
  | Append e w => match snd (append_authorization_audit c e w r) with Ok _ => [e] | Raise _ => [] end
  | _ => []
  end.

Definition relisted (listing : list (string * entry)) (d : disk) : disk := set_segments listing d.

Definition step (c : config) (a : event_step) (r : repository) : repository :=
  match a with
  | Append e w => fst (append_authorization_audit c e w r)
  | Verify => fst (verify_authorization_audit r)
  | Reopen => set_state None r
  | Relist listing => on_disk (relisted listing) r
  end.

Fixpoint run (c : config) (steps : list event_step) (r : repository) : repository * list pyval :=
  match steps with
  | [] => (r, [])
  | a :: rest =>
      let '(r', events) := run c rest (step c a r) in (r', accepted_by c a r ++ events)
  end.

(** Appends write all of their line or nothing; a listing is of the same files. *)
Definition step_ok (a : event_step) (r : repository) : Prop :=
  match a with
  | Append e w => json_ok e = true /\ whole w.(append_write)
  | Relist listing => listing ≡ₚ r.(disk_of).(audit_segments)
  | _ => True
  end.

Fixpoint steps_ok (c : config) (steps : list event_step) (r : repository) : Prop :=
  match steps with
  | [] => True
  | a :: rest => step_ok a r /\ steps_ok c rest (step c a r)
  end.

Lemma current_relisted n l r listing : current n l r -> listing ≡ₚ r.(disk_of).(audit_segments) ->
  current n l (on_disk (relisted listing) r).
Proof.
  intros [(stale & files & H) Hcache] Hp. pose proof H as [].
  assert (_segment_paths listing = Ok (stale ++ files)) as Hl by by eapply _segment_paths_permuted.
  split.
  - exists stale, files. by constructor.
  - cbn [on_disk disk_of _authorization_state]. intros s Hs Hm. apply matches_true in Hm as (x & Hx & Ha & Hr & Hg).
    change (_segment_paths listing = Ok x) in Hx.
    rewrite Hl in Hx. injection Hx as <-.
    destruct (Hcache s Hs) as []; [apply matches_true; eauto|by constructor].
Qed.

Lemma step_current n l c a r : current n l r -> step_ok a r -> 0 <= c.(retain_segments) -> in_bounds (S n) ->
  exists l', current (S (S n)) l' (step c a r) /\ history l' = history l ++ accepted_by c a r.
Proof.
  intros Hcur Ha Hc Hn. destruct a as [e w| | |listing]; cbn [step accepted_by] in *.
  - destruct Ha as [He Hw]. pose proof (append_outcome n l c e w r Hcur Hn Hc He Hw) as [(l' & Hc' & Hx) _].
    exists l'. split; [done|]. destruct (snd _); [by destruct Hx as (_ & -> & _)|by rewrite app_nil_r].
  - pose proof (verify_outcome n l r Hcur) as (_ & Hc' & _). exists l. rewrite app_nil_r. split; [|done].
    by apply (current_weaken n); [|lia].
  - exists l. rewrite app_nil_r. split; [|done]. apply current_no_cache. destruct Hcur as [(stale & files & H) _].
    exists stale, files. by apply (represents_weaken n); [|lia].
  - exists l. rewrite app_nil_r. split; [|done]. apply (current_weaken n); [|lia]. by apply current_relisted.
Qed.

Lemma run_current c steps : forall n l r, current n l r -> steps_ok c steps r -> 0 <= c.(retain_segments) ->
  in_bounds (n + 2 * length steps) ->
  exists l', current (n + 2 * length steps) l' (fst (run c steps r))
             /\ history l' = history l ++ snd (run c steps r).
Proof.
  induction steps as [|a steps IH]; intros n l r Hcur Hok Hc Hn; cbn [run length].
  - exists l. rewrite app_nil_r, Nat.mul_0_r, Nat.add_0_r. done.
  - destruct Hok as [Ha Hok]. cbn [length] in Hn.
    destruct (step_current n l c a r Hcur Ha Hc) as (l1 & Hc1 & Hh1); [unfold in_bounds in *; lia|].
    replace (n + 2 * S (length steps))%nat with (S (S n) + 2 * length steps)%nat in * by lia.
    destruct (IH _ _ _ Hc1 Hok Hc Hn) as (l2 & Hc2 & Hh2). exists l2.
    destruct (run c steps (step c a r)) as [r2 events]. cbn [fst snd] in *. split; [done|].
    by rewrite Hh2, Hh1, <- app_assoc.
Qed.

Definition empty_log : log := {| pruned := []; pruned_files := 0; segments := []; active := [] |}.

Lemma new_repository_current : current 0 empty_log new_repository.
Proof. split; [|done]. exists [], []. by constructor; try done; repeat constructor. Qed.

(** The audit events the retained files state. *)
Definition readable_events (d : disk) : list pyval :=
  match _retention_anchor d.(retention_path), _segment_paths d.(audit_segments) with
  | Ok a, Ok listing =>
      concat (map (fun x => file_events (Some (snd x)))
                  (List.filter (fun x => a.(nextSequence) <=? fst x) listing)) ++ file_events d.(audit_path)
  | _, _ => []
  end.

Lemma chained_events n h files parts : chained n h files parts -> well_formed (concat parts) ->
  concat (map (fun x => file_events (Some (snd x))) files) = map canon (concat parts).
Proof.
  revert n h parts. induction files as [|[s f] files IH]; intros n h [|p parts]; cbn [chained]; try done.
  intros (_ & Hp & Hc) Hok. cbn [concat map] in *. apply well_formed_app in Hok as [Hok1 Hok2].
  rewrite map_app, (IH _ _ _ Hc Hok2). f_equal. by apply (chain_events h).
Qed.

Lemma represents_readable n l stale files d : represents n l stale files d ->
  readable_events d = map canon (retained l).
Proof.
  intros H. destruct (listing_split _ _ _ _ _ H) as [Hk _]. destruct H. unfold readable_events.
  rewrite rp_anchor0, rp_listing0. change (nextSequence (anchor_of l)) with (first_sequence l). rewrite Hk.
  unfold history, retained in rp_ok0. rewrite !well_formed_app in rp_ok0. destruct rp_ok0 as (_ & Hs & Ha).
  rewrite (chained_events _ _ _ _ rp_chained0 Hs), (chain_events _ _ _ rp_active0 Ha). unfold retained.
  by rewrite map_app.
Qed.

(** C5: the authorization audit refines one append-only log. Take any life of a
    repository that starts on an empty disk: appends of JSON events in which any
    system call of the rotation, the pruning or the write itself may fail (a
    failed write leaving nothing), restarts, verifications, and directory
    listings in any order. A verification afterwards succeeds; its total counts
    exactly the events whose append returned, its head is the head of their one
    hash chain, the retention anchor is the head of the pruned prefix, and the
    retained files read back the rest, in order. *)
Theorem audit_refines_append_only_log c steps :
  0 <= c.(retain_segments) -> 2 * Z.of_nat (length steps) + 2 < sequence_limit -> steps_ok c steps new_repository ->
  let '(r, accepted) := run c steps new_repository in
  exists t, snd (verify_authorization_audit r) = Ok (AuditOk t)
    /\ t.(t_records) + t.(t_anchor).(prunedRecords) = Z.of_nat (length accepted)
    /\ t.(t_head) = chain_head _ZERO_HASH accepted
    /\ t.(t_anchor).(previousHead) = chain_head _ZERO_HASH (firstn (Z.to_nat t.(t_anchor).(prunedRecords)) accepted)
    /\ readable_events r.(disk_of) = map canon (skipn (Z.to_nat t.(t_anchor).(prunedRecords)) accepted).
Proof.
  intros Hc Hn Hok. destruct (run_current c steps 0 empty_log new_repository new_repository_current Hok Hc) as (l & Hl & Hh).
  { unfold in_bounds. lia. }
  destruct (run c steps new_repository) as [r accepted]. cbn [fst snd app] in *. change (history empty_log) with (@nil pyval) in Hh.
  cbn [app] in Hh. destruct (verify_outcome _ _ _ Hl) as (_ & _ & _ & t & Ht & Htr & Hhead & _ & _ & Ha).
  destruct Hl as [(stale & files & H) _]. exists t. split; [exact Ht|]. rewrite Htr, Hhead, Ha, <- Hh.
  unfold anchor_of, history. cbn [prunedRecords previousHead]. rewrite Nat2Z.id, take_app_length, drop_app_length.
  rewrite length_app. split_and!; [lia|done..|by apply (represents_readable _ _ _ _ _ H)].
Qed.

(** C36: the audit recovers. After any such life, however its calls failed, a
    restart or a verification is enough for the next append whose own calls
    succeed to be accepted, and its record extends the chain of all events
    accepted before. *)
Theorem audit_recovers c steps (restart : bool) event :
  0 <= c.(retain_segments) -> 2 * Z.of_nat (length steps) + 3 < sequence_limit -> steps_ok c steps new_repository ->
  json_ok event = true -> str_len (_canonical event) <= 8192 ->
  let '(r, accepted) := run c steps new_repository in
  let r' := if restart then set_state None r else fst (verify_authorization_audit r) in
  snd (append_authorization_audit c event all_succeed r')
  = Ok (_record (chain_head _ZERO_HASH accepted) event).
Proof.
  intros Hc Hn Hok He Hsmall. destruct (run_current c steps 0 empty_log new_repository new_repository_current Hok Hc) as (l & Hl & Hh).
  { unfold in_bounds. lia. }
  destruct (run c steps new_repository) as [r accepted]. cbn [fst snd app] in *. change (history empty_log) with (@nil pyval) in Hh.
  cbn [app] in Hh. set (n := (2 * length steps)%nat) in *. match goal with |- context [append_authorization_audit _ _ _ ?x] => set (r' := x) end.
  assert (current n l r' /\ usable r') as [Hcur Hu].
  { subst r'. destruct restart.
    - split; [|done]. apply current_no_cache. apply Hl.
    - by destruct (verify_outcome _ _ _ Hl) as (_ & ? & ? & _). }
  destruct (append_outcome n l c event all_succeed r' Hcur) as [(l' & _ & Hx) Hgood]; [unfold in_bounds; lia|done|done|by left|].
  destruct Hgood as (rec & Hrec); [done..|]. rewrite Hrec in Hx |- *. destruct Hx as (-> & _ & _).
  unfold log_head. by rewrite Hh.
Qed.

Definition sample_config : config := {| rotate_bytes := 200; retain_segments := 1 |}.

Definition sync_failure : fates :=
  {| rename_fails := false; rename_sync_fails := true; anchor_write := AnchorDone; unlinks := None;
     unlink_sync_fails := false; append_write := Done |}.

(** Four appends, the third failing in its rotation, then a restart. *)
Definition sample_life : list event_step :=
  [Append (sample_event 1) all_succeed; Append (sample_event 2) all_succeed; Append (sample_event 3) sync_failure;
   Append (sample_event 4) all_succeed; Reopen; Append (sample_event 5) all_succeed; Append (sample_event 6) all_succeed].

Lemma sample_life_ok : steps_ok sample_config sample_life new_repository.
Proof. unfold sample_life. cbn [steps_ok step_ok]. unfold whole. repeat split; auto. Qed.

Example sample_life_accepts :
  snd (run sample_config sample_life new_repository) = map sample_event [1; 2; 5; 6]
  /\ readable_events (fst (run sample_config sample_life new_repository)).(disk_of) = map canon (map sample_event [5; 6]).
Proof. vm_compute. done. Qed.

Lemma audit_refines_append_only_log_witness :
  let '(r, accepted) := run sample_config sample_life new_repository in
  exists t, snd (verify_authorization_audit r) = Ok (AuditOk t)
    /\ t.(t_records) + t.(t_anchor).(prunedRecords) = Z.of_nat (length accepted)
    /\ t.(t_head) = chain_head _ZERO_HASH accepted
    /\ t.(t_anchor).(previousHead) = chain_head _ZERO_HASH (firstn (Z.to_nat t.(t_anchor).(prunedRecords)) accepted)
    /\ readable_events r.(disk_of) = map canon (skipn (Z.to_nat t.(t_anchor).(prunedRecords)) accepted).
Proof.
  apply (audit_refines_append_only_log sample_config sample_life); [done|done|exact sample_life_ok].
Defined.

Lemma audit_recovers_witness :
  let '(r, accepted) := run sample_config sample_life new_repository in
  snd (append_authorization_audit sample_config (sample_event 7) all_succeed (fst (verify_authorization_audit r)))
  = Ok (_record (chain_head _ZERO_HASH accepted) (sample_event 7)).
Proof.
  apply (audit_recovers sample_config sample_life false (sample_event 7)); [done|done|exact sample_life_ok|done|].
  vm_compute. done.
Defined.

(** A full audit write that only loses its line end: the caller is told it failed,
    yet the next append is accepted onto the same line, and every later
    verification fails. *)
Example torn_newline_corrupts_the_audit :
  let line := record_line (_record _ZERO_HASH (sample_event 1)) in
  let torn := {| rename_fails := false; rename_sync_fails := false; anchor_write := AnchorDone; unlinks := None;
                 unlink_sync_fails := false; append_write := WriteFails (length (chars line) - 1) |} in
  let config := {| rotate_bytes := 65536; retain_segments := 8 |} in
  let '(r1, first) := append_authorization_audit config (sample_event 1) torn new_repository in
  let '(r2, second) := append_authorization_audit config (sample_event 2) all_succeed r1 in
  let '(_, report) := verify_authorization_audit r2 in
  first = Raise io_error
  /\ second = Ok (_record (link _ZERO_HASH (sample_event 1)) (sample_event 2))
  /\ report = Ok (AuditBroken (ChainBroken 0 None "JSONDecodeError") None 0).
Proof. vm_compute. done. Qed.

(** A rotation whose directory sync fails leaves a cache the disk no longer
    matches: every further append is refused until a restart or a verification. *)
Example failed_sync_refuses_later_appends :
  let '(r1, _) := append_authorization_audit sample_config (sample_event 1) all_succeed new_repository in
  let '(r2, second) := append_authorization_audit sample_config (sample_event 2) sync_failure r1 in
  let '(_, third) := append_authorization_audit sample_config (sample_event 3) all_succeed r2 in
  second = Raise io_error /\ third = Raise (OSError "authorization audit changed outside repository").
Proof. vm_compute. done. Qed.
