(* ===== verification/ClusterSecrets.v ===== *)
(** * Cluster keyrings (backend/cluster_secrets.py)

    The bounded HMAC keyring that is re-read for every authenticated operation:
    identifier and secret validation, the immutable key snapshot an operation
    pins, and the construction of a snapshot from a private file. The operating
    system is an argument: what [open], [fstat] and [read] give for the path. *)

From S2P Require Import Prelude PyStr PyFloat PyVal PyFacts Json Sha256.

#[local] Open Scope string_scope.
#[local] Open Scope list_scope.
#[local] Open Scope Z_scope.

Definition _MAX_FILE_BYTES : Z := 32768.
Definition _MAX_KEYS : Z := 16.
Definition _MAX_KEY_ID : Z := 64.
Definition _MIN_SECRET : Z := 32.
Definition _MAX_SECRET : Z := 512.

(** The [object_pairs_hook] that refuses a repeated key. *)
Definition _unique_pairs (pairs : pydict) : res pydict :=
  fold_res (fun result kv =>
    if dhas result (fst kv) then Raise (ValueError "duplicate JSON key")
    else Ok (dset result (fst kv) (snd kv))) pairs [].

Definition key_id_char (c : ascii) : bool :=
  is_alnum c || (code c =? 46) || (code c =? 95) || (code c =? 45).

Definition _valid_key_id (value : pyval) : bool :=
  match value with
  | VStr s => (1 <=? str_len s) && (str_len s <=? _MAX_KEY_ID) && is_ascii s
              && forallb key_id_char (chars s)
  | _ => false
  end.

Definition _secret_bytes (value : pyval) : res string :=
  match value with
  | VStr s =>
      if (_MIN_SECRET <=? str_len s) && (str_len s <=? _MAX_SECRET) && is_ascii s
         && negb (existsb (fun c => (code c <? 33) || (126 <? code c)) (chars s))
      then Ok (utf8 s) else Raise (ValueError "invalid HMAC secret")
  | _ => Raise (ValueError "invalid HMAC secret")
  end.

(** ** One immutable authentication view *)

Record HmacKeySnapshot := {
  active_key_id : option string;
  keys : list (string * string);
  keyring_mode : bool;
}.

Fixpoint key_lookup (ks : list (string * string)) (k : string) : option string :=
  match ks with
  | [] => None
  | (k', s) :: ks' => if String.eqb k k' then Some s else key_lookup ks' k
  end.

Definition snapshot_configured (s : HmacKeySnapshot) : bool :=
  match s.(keys) with [] => false | _ => true end.

Definition active_secret (s : HmacKeySnapshot) : res string :=
  match s.(keys) with
  | [] => Ok ""
  | (_, first) :: _ =>
      if s.(keyring_mode) then
        match s.(active_key_id) with
        | Some k =>
            match key_lookup s.(keys) k with
            | Some secret => if String.eqb k "" then Raise (PermissionError "cluster keyring has no active key")
                             else Ok secret
            | None => Raise (PermissionError "cluster keyring has no active key")
            end
        | None => Raise (PermissionError "cluster keyring has no active key")
        end
      else Ok first
  end.

(** [key_id not in (None, "")]. *)
Definition key_id_given (key_id : pyval) : bool :=
  match key_id with VNone => false | VStr s => negb (String.eqb s "") | _ => true end.

Definition resolve (s : HmacKeySnapshot) (key_id : pyval) : res string :=
  if negb s.(keyring_mode) then
    if key_id_given key_id then Raise (PermissionError "key identifiers require keyring mode")
    else active_secret s
  else if negb (_valid_key_id key_id) then Raise (PermissionError "cluster key identifier required")
  else match key_lookup s.(keys) (py_str key_id) with
       | Some secret => Ok secret
       | None => Raise (PermissionError "unknown cluster key identifier")
       end.

(** ** The private file *)

Record stat_info := {
  st_regular : bool; st_uid : Z; st_mode : Z; st_size : Z;
  st_dev : Z; st_ino : Z; st_mtime_ns : Z; st_ctime_ns : Z;
}.

(** What the operating system answers for a path: whether it is absolute,
    whether it opens, [fstat] before and after, and the bytes it holds. *)
Record file_view := {
  fv_absolute : bool;
  fv_opens : bool;
  fv_before : stat_info;
  fv_data : string;
  fv_after : stat_info;
}.

Definition stat_stamp (i : stat_info) : list Z :=
  [i.(st_dev); i.(st_ino); i.(st_size); i.(st_mtime_ns); i.(st_ctime_ns)].

(** The checks shared by the keyring and the topology reader, for a bound on
    the file's bytes and a process owner. *)
Definition read_private (max euid : Z) (f : file_view) : res string :=
  if negb f.(fv_absolute) then Raise (ValueError "absolute path required")
  else if negb f.(fv_opens) then Raise (OSError "open")
  else
    let b := f.(fv_before) in
    if negb b.(st_regular) || negb (b.(st_uid) =? euid) || negb (Z.land (Z.land b.(st_mode) 4095) 63 =? 0)
       || (max <? b.(st_size))
    then Raise (ValueError "invalid file")
    else
      let data := slice (Z.to_nat (max + 1)) f.(fv_data) in
      if (max <? str_len data) || negb (bool_decide (stat_stamp b = stat_stamp f.(fv_after)))
      then Raise (ValueError "file changed while reading")
      else Ok data.

Definition os_or_value (e : exn) : bool := is_os_error e || is_value_error e.

Definition _read_private_file (euid : Z) (f : file_view) : res string :=
  catch os_or_value (read_private _MAX_FILE_BYTES euid f)
    (fun _ => Raise (PermissionError "cluster keyring unavailable or invalid")).

(** [set(d) == {...}] for a dict with distinct keys. *)
Definition keys_are (d : pydict) (names : list string) : bool :=
  Nat.eqb (length d) (length names) && forallb (dhas d) names.

Definition has_dup (l : list string) : bool := negb (bool_decide (NoDup l)).

(** The validation of a decoded keyring document. *)
Definition keyring_entries (entries : pydict) : res (list (string * string)) :=
  map_res (fun kv =>
    if negb (_valid_key_id (VStr (fst kv))) then Raise (ValueError "invalid key identifier")
    else secret ← _secret_bytes (snd kv); Ok (fst kv, secret)) entries.

Definition keyring_document (document : pyval) : res HmacKeySnapshot :=
  match document with
  | VDict d =>
      if negb (keys_are d ["version"; "activeKeyId"; "keys"]) then Raise (ValueError "invalid keyring document")
      else
        version ← dindex d "version";
        if negb (is_int version && py_eq version (VInt 1)) then Raise (ValueError "unsupported keyring version")
        else
          active ← dindex d "activeKeyId";
          entries ← dindex d "keys";
          match entries with
          | VDict es =>
              let n := Z.of_nat (length es) in
              if negb (_valid_key_id active) || negb ((1 <=? n) && (n <=? _MAX_KEYS))
              then Raise (ValueError "invalid keyring fields")
              else
                ks ← keyring_entries es;
                let a := py_str active in
                match key_lookup ks a with
                | None => Raise (ValueError "ambiguous or missing active key")
                | Some _ =>
                    if has_dup (map snd ks) then Raise (ValueError "ambiguous or missing active key")
                    else Ok {| active_key_id := Some a; keys := ks; keyring_mode := true |}
                end
          | _ => Raise (ValueError "invalid keyring fields")
          end
  | _ => Raise (ValueError "invalid keyring document")
  end.

(** The exceptions [snapshot] turns into one [PermissionError]. *)
Definition snapshot_caught (e : exn) : bool :=
  is_value_error e || is_type_error e || is_attribute_error e.

(** ** The rotating keyring *)

Record RotatingHmacKeyring := {
  _path : option string;
  _legacy_secret : string;
}.

Definition ring_mode (r : RotatingHmacKeyring) : bool :=
  match r.(_path) with Some _ => true | None => false end.

Definition ring_configured (r : RotatingHmacKeyring) : bool :=
  ring_mode r || negb (String.eqb r.(_legacy_secret) "").

Section with_files.
Context (euid : Z) (files : string -> file_view).

Definition snapshot (r : RotatingHmacKeyring) : res HmacKeySnapshot :=
  match r.(_path) with
  | None =>
      let ks := if String.eqb r.(_legacy_secret) "" then [] else [("legacy", r.(_legacy_secret))] in
      Ok {| active_key_id := None; keys := ks; keyring_mode := false |}
  | Some p =>
      raw ← _read_private_file euid (files p);
      catch snapshot_caught
        (text ← utf8_decode raw; document ← loads_with _unique_pairs text; keyring_document document)
        (fun _ => Raise (PermissionError "cluster keyring unavailable or invalid"))
  end.

(** The constructor fails closed: a configured file must load at once. *)
Definition make_keyring (path : string) (legacy : string) : res RotatingHmacKeyring :=
  let text := strip path in
  let r := {| _path := if String.eqb text "" then None else Some text; _legacy_secret := legacy |} in
  match r.(_path) with
  | None => Ok r
  | Some _ => _ ← snapshot r; Ok r
  end.
End with_files.

(** * What a loaded keyring guarantees (backend/cluster_secrets.py)

    A keyring that loads came from a private, stable file; its active key is
    one of its distinct, well-formed secrets; and only its own identifiers
    resolve, so a removed key is refused from the next operation on. *)

(** What the file must be at the moment it is read. *)
Record private_file (euid : Z) (f : file_view) : Prop := {
  pf_regular : f.(fv_before).(st_regular) = true;
  pf_owner : f.(fv_before).(st_uid) = euid;
  pf_mode : Z.land (Z.land f.(fv_before).(st_mode) 4095) 63 = 0;
  pf_size : f.(fv_before).(st_size) <= _MAX_FILE_BYTES /\ str_len f.(fv_data) <= _MAX_FILE_BYTES;
  pf_stable : stat_stamp f.(fv_before) = stat_stamp f.(fv_after);
}.

Lemma str_len_slice n s : str_len (slice n s) = Z.min (Z.of_nat n) (str_len s).
Proof.
  unfold str_len. rewrite <- !length_chars. unfold slice. rewrite chars_of_chars, length_firstn. lia.
Qed.

Lemma slice_all n s : str_len s <= Z.of_nat n -> slice n s = s.
Proof.
  unfold str_len. rewrite <- length_chars. unfold slice. intros H. rewrite firstn_all2 by lia. apply of_chars_chars.
Qed.

Lemma read_private_file_ok euid f data :
  _read_private_file euid f = Ok data -> private_file euid f /\ data = f.(fv_data).
Proof.
  unfold _read_private_file. intros [H|(e & _ & _ & H)]%catch_ok; [|done]. unfold read_private in H.
  destruct (negb _); [done|]. destruct (negb _) in H; [done|]. destruct (_ || _ || _ || _) eqn:E; [done|].
  destruct (_ || _) eqn:Ed in H; [done|]. injection H as <-. pyinv. rewrite str_len_slice in *.
  unfold _MAX_FILE_BYTES in *. assert (str_len f.(fv_data) <= 32768) by lia.
  split; [|rewrite slice_all; [done|lia]]. by split.
Qed.

(** The keys a document declares, each valid on its own. *)
Definition key_ok (kv : string * string) : Prop :=
  _valid_key_id (VStr (fst kv)) = true /\ _MIN_SECRET <= str_len (snd kv) <= _MAX_SECRET.

Lemma utf8_ascii s : is_ascii s = true -> utf8 s = s.
Proof.
  unfold is_ascii, utf8. intros H. transitivity (of_chars (chars s)); [|apply of_chars_chars]. f_equal.
  induction (chars s) as [|c l IH]; cbn in *; [done|]. apply andb_prop in H as [Hc H].
  unfold utf8_char. rewrite Hc. cbn. f_equal. by apply IH.
Qed.

Lemma secret_bytes_ok v s : _secret_bytes v = Ok s -> v = VStr s /\ _MIN_SECRET <= str_len s <= _MAX_SECRET.
Proof.
  unfold _secret_bytes. destruct v as [| | | |t| |]; try done. destruct (_ && _ && _ && _) eqn:E; [|done].
  intros [= <-]. pyinv. rewrite utf8_ascii by done. by split_and!.
Qed.

Lemma keyring_entries_ok es ks : keyring_entries es = Ok ks ->
  map (fun kv => (fst kv, VStr (snd kv))) ks = es /\ Forall key_ok ks.
Proof.
  unfold keyring_entries. revert ks. induction es as [|[k v] es IH]; intros ks H; cbn [map_res fst snd] in H; [by pyinv; subst|].
  apply bind_ok in H as ([k' s] & Hk & H). apply bind_ok in H as (rest & Hr & H). injection H as <-.
  destruct (negb (_valid_key_id (VStr k))) eqn:Ev; [done|]. apply bind_ok in Hk as (s' & Hs & Hk).
  injection Hk as <- <-. apply secret_bytes_ok in Hs as [-> Hl]. destruct (IH _ Hr) as [<- Hf]. cbn.
  split; [done|]. constructor; [|done]. split; [by apply negb_false_iff|done].
Qed.

Lemma key_lookup_In ks k s : key_lookup ks k = Some s -> In (k, s) ks.
Proof.
  induction ks as [|[k' s'] ks IH]; cbn; [done|]. destruct (String.eqb_spec k k') as [->|]; [|auto].
  intros [= <-]. by left.
Qed.

(** A loaded keyring: bounded, of valid and distinct secrets, with its active key present. *)
Record sound_keyring (s : HmacKeySnapshot) : Prop := {
  sk_mode : s.(keyring_mode) = true;
  sk_bound : 1 <= Z.of_nat (length s.(keys)) <= _MAX_KEYS;
  sk_keys : Forall key_ok s.(keys);
  sk_distinct : NoDup (map snd s.(keys));
  sk_active : exists k secret, s.(active_key_id) = Some k /\ In (k, secret) s.(keys) /\ active_secret s = Ok secret
                /\ resolve s (VStr k) = Ok secret;
}.

Lemma keyring_document_ok v s : keyring_document v = Ok s -> sound_keyring s
  /\ exists d, v = VDict d /\ dget d "keys" = Some (VDict (map (fun kv => (fst kv, VStr (snd kv))) s.(keys))).
Proof.
  unfold keyring_document. destruct v as [| | | | | |d]; try done. destruct (negb _); [done|]. intros H.
  apply bind_ok in H as (version & Hv & H). destruct (negb _) in H; [done|].
  apply bind_ok in H as (active & Ha & H). apply bind_ok in H as (entries & He & H).
  destruct entries as [| | | | | |es]; try done. destruct (_ || _) eqn:E in H; [done|].
  apply bind_ok in H as (ks & Hks & H). destruct (key_lookup ks (py_str active)) as [secret|] eqn:Hl; [|done].
  unfold has_dup in H. destruct (negb _) eqn:Ed in H; [done|]. injection H as <-.
  destruct (keyring_entries_ok _ _ Hks) as [Hes Hf]. pyinv.
  assert (Hva : exists t, active = VStr t) by (destruct active; try done; eauto). destruct Hva as [t ->]. cbn [py_str] in Hl.
  split.
  - split; cbn [keyring_mode keys active_key_id]; auto.
    + rewrite <- Hes, length_map in *. lia.
    + exists t, secret. split_and!; [done|by apply key_lookup_In| |].
      * unfold active_secret. cbn [keys keyring_mode active_key_id py_str]. destruct ks as [|[k0 s0] ks]; [done|].
        rewrite Hl. by destruct (String.eqb_spec t "") as [->|].
      * unfold resolve. cbn [keys keyring_mode py_str negb]. 
        match goal with E : _valid_key_id (VStr t) = true |- _ => rewrite E end. by rewrite Hl.
  - exists d. split; [done|]. unfold dindex in He. cbn [keys]. rewrite Hes. by destruct (dget d "keys"); [injection He as ->|].
Qed.

(** A keyring that loads is sound. With a configured path, a snapshot comes from a regular, owner-only file of
    bounded size that did not change while it was read; it holds between 1 and 16 keys with valid identifiers and
    distinct secrets of 32 to 512 characters; the active key is one of them; and an identifier resolves only to a
    secret that file declares for it, anything else being refused with a [PermissionError]. *)
Theorem loaded_keyring_is_sound euid files r path s :
  r.(_path) = Some path -> snapshot euid files r = Ok s ->
  private_file euid (files path) /\ sound_keyring s
  /\ (exists text d, utf8_decode (files path).(fv_data) = Ok text /\ loads_with _unique_pairs text = Ok (VDict d)
        /\ dget d "keys" = Some (VDict (map (fun kv => (fst kv, VStr (snd kv))) s.(keys))))
  /\ forall id, match resolve s id with
                 | Ok secret => exists k, id = VStr k /\ In (k, secret) s.(keys)
                 | Raise e => exists m, e = PermissionError m
                 end.
Proof.
  intros Hp. unfold snapshot. rewrite Hp. intros H. apply bind_ok in H as (raw & Hraw & H).
  apply read_private_file_ok in Hraw as [Hf ->]. apply catch_ok in H as [H|(e & _ & _ & H)]; [|done].
  apply bind_ok in H as (text & Ht & H). apply bind_ok in H as (v & Hv & H).
  apply keyring_document_ok in H as [Hs (d & -> & Hd)]. split_and!; eauto.
  intros id. unfold resolve. rewrite (sk_mode _ Hs). cbn [negb].
  destruct (_valid_key_id id) eqn:Eid; cbn [negb]; [|by eauto].
  destruct id as [| | | |k| |]; try done. cbn [py_str].
  destruct (key_lookup s.(keys) k) as [secret|] eqn:Hl; [|by eauto]. exists k. split; [done|]. by apply key_lookup_In.
Qed.

(** A private file with two keys, the second of them active. *)
Definition example_info : stat_info :=
  {| st_regular := true; st_uid := 1000; st_mode := 33152; st_size := 200; st_dev := 1; st_ino := 2;
     st_mtime_ns := 3; st_ctime_ns := 4 |}.

Definition example_file : file_view :=
  {| fv_absolute := true; fv_opens := true; fv_before := example_info;
     fv_data := _canonical (VDict
       [("version", VInt 1); ("activeKeyId", VStr "k2");
        ("keys", VDict [("k1", VStr "0123456789012345678901234567890a"); ("k2", VStr "0123456789012345678901234567890b")])]);
     fv_after := example_info |}.

Lemma loaded_keyring_is_sound_witness : exists s,
  snapshot 1000 (fun _ => example_file) {| _path := Some "/etc/ring"; _legacy_secret := "" |} = Ok s
  /\ s.(active_key_id) = Some "k2" /\ sound_keyring s.
Proof.
  eexists. split; [vm_compute; reflexivity|]. split; [reflexivity|].
  refine (proj1 (proj2 (loaded_keyring_is_sound 1000 (fun _ => example_file)
                          {| _path := Some "/etc/ring"; _legacy_secret := "" |} "/etc/ring" _ _ _))).
  - reflexivity.
  - vm_compute. reflexivity.
Defined.
