(* ===== verification/WitnessAuth.v ===== *)
(** * Witness requests and responses (backend/witness.py, first half)

    Signing of requests and responses with HMAC-SHA-256 over canonical JSON and
    the verification a witness (for requests) and a client (for responses)
    perform. A verification result is the code's tuple [(ok, reason, payload)];
    an exception the code does not catch is a [Raise]. *)

From S2P Require Import Prelude PyStr PyVal PyFacts Sha256 ClusterSecrets.

#[local] Open Scope string_scope.
#[local] Open Scope list_scope.
#[local] Open Scope Z_scope.

Definition sign_request (payload : pydict) (secret : string) : string :=
  hmac_hex secret (_canonical (VDict payload)).

Definition response_purpose : string := "org.upp.witness-response/1".

Definition response_operation (operation : string) : bool :=
  bool_decide (operation ∈ ["acquire"; "transfer"; "recover"]).

(** The digest that binds a response to its request, signature left out. *)
Definition request_digest (request : pydict) : string :=
  sha256_hex (_canonical (VDict (dremove request "hmacSha256"))).

Definition response_signature (payload : pydict) (secret : string) : string :=
  sign_request [("purpose", VStr response_purpose); ("payload", VDict payload)] secret.

Definition sign_response (result request : pydict) (operation secret : string)
    (key_id : option string) : res pydict :=
  if String.eqb secret "" || negb (response_operation operation)
  then Raise (ValueError "response signing requires a secret and valid operation")
  else
    let payload := dmerge result
      [("responseVersion", VInt 1); ("operation", VStr operation);
       ("requestDigest", VStr (request_digest request))] in
    let payload := match key_id with
                   | Some k => dset payload "keyId" (VStr k)
                   | None => payload
                   end in
    Ok (dset payload "responseHmacSha256" (VStr (response_signature payload secret))).

Definition verify_response (raw : pyval) (request : pydict) (operation secret : string)
    (expected_key_id : option string) : res pydict :=
  match raw with
  | VDict d =>
      if String.eqb secret "" then Raise (ValueError "witness response authentication required")
      else
        let payload := dremove d "responseHmacSha256" in
        let expected := response_signature payload secret in
        match dget_none d "responseHmacSha256" with
        | VStr signature =>
            same ← compare_digest expected signature;
            if negb same then Raise (ValueError "witness response authentication failed")
            else if negb (is_int (dget_none d "responseVersion") && py_eq (dget_none d "responseVersion") (VInt 1))
                    || negb (py_eq (dget_none d "operation") (VStr operation))
                    || negb (py_eq (dget_none d "requestDigest") (VStr (request_digest request)))
                    || negb (py_eq (dget_none d "keyId") (opt_str expected_key_id))
            then Raise (ValueError "witness response request binding mismatch")
            else Ok d
        | _ => Raise (ValueError "witness response authentication failed")
        end
  | _ => Raise (ValueError "witness response authentication required")
  end.

Abbreviation verdict := (bool * string * pydict)%type.

(** [payload["keyId"] = str(request["keyId"])] when the request names a key. *)
Definition with_key_id (request payload : pydict) : pydict :=
  match dget request "keyId" with
  | Some k => dset payload "keyId" (VStr (py_str k))
  | None => payload
  end.

(** The signature check that ends every verification. *)
Definition authenticate (request payload : pydict) (secret : string) : res verdict :=
  let supplied := py_str (dget_or request "hmacSha256" (VStr "")) in
  let expected := sign_request payload secret in
  if String.eqb supplied "" then Ok (false, "witness authentication failed", payload)
  else
    same ← compare_digest expected supplied;
    if negb same then Ok (false, "witness authentication failed", payload)
    else Ok (true, "ok", payload).

Definition ttl_in_bounds (ttl : Z) : bool := (500 <=? ttl) && (ttl <=? 60000).

(** ** Lease acquisition *)

Record lease_request := {
  rq_version : Z; rq_cluster : string; rq_node : string; rq_ttl : Z; rq_nonce : string;
}.

Definition read_lease_request (request : pydict) : res lease_request :=
  v ← dindex request "protocolVersion"; version ← py_int v;
  c ← dindex request "clusterId";
  n ← dindex request "nodeId";
  t ← dindex request "ttlMs"; ttl ← py_int t;
  nonce ← dindex request "nonce";
  Ok {| rq_version := version; rq_cluster := py_str c; rq_node := py_str n;
        rq_ttl := ttl; rq_nonce := py_str nonce |}.

Definition lease_payload (r : lease_request) : pydict :=
  [("protocolVersion", VInt r.(rq_version)); ("clusterId", VStr r.(rq_cluster));
   ("nodeId", VStr r.(rq_node)); ("ttlMs", VInt r.(rq_ttl)); ("nonce", VStr r.(rq_nonce))].

Definition verify_request (request : pydict) (secret : string) : res verdict :=
  match read_lease_request request with
  | Raise e => if key_type_value e then Ok (false, "malformed witness request", []) else Raise e
  | Ok r =>
      let payload := with_key_id request (lease_payload r) in
      if negb (r.(rq_version) =? 1) || String.eqb r.(rq_cluster) "" || String.eqb r.(rq_node) ""
      then Ok (false, "unsupported witness request", payload)
      else if negb (ttl_in_bounds r.(rq_ttl))
      then Ok (false, "witness ttl must be 500..60000 ms", payload)
      else authenticate request payload secret
  end.

(** ** Lease transfer *)

Record transfer_request := {
  tr_version : Z; tr_cluster : string; tr_source : string; tr_target : string;
  tr_source_epoch : Z; tr_target_epoch : Z; tr_transaction : Z; tr_ttl : Z; tr_nonce : string;
}.

(** [isinstance(v, int) and not isinstance(v, bool)] with its value. *)
Definition plain_int (v : pyval) : option Z := match v with VInt z => Some z | _ => None end.

Definition strings_ok (request : pydict) (names : list string) : res bool :=
  fold_res (fun ok k => if negb ok then Ok false
                        else v ← dindex request k; Ok (is_str v)) names true.

Definition ints_ok (request : pydict) (names : list string) : res bool :=
  fold_res (fun ok k => if negb ok then Ok false
                        else v ← dindex request k; Ok (is_int v)) names true.

Definition dstr (request : pydict) (k : string) : string :=
  match dget request k with Some (VStr s) => s | _ => "" end.
Definition dint (request : pydict) (k : string) : Z :=
  match dget request k with Some (VInt z) => z | _ => 0 end.

(** [None]: the type checks refuse the request; a missing key raises. *)
Definition read_transfer_request (request : pydict) : res (option transfer_request) :=
  s ← strings_ok request ["clusterId"; "sourceNodeId"; "targetNodeId"; "nonce"];
  if negb s then Ok None
  else
    i ← ints_ok request ["protocolVersion"; "sourceEpoch"; "targetEpoch"; "transactionId"; "ttlMs"];
    if negb i then Ok None
    else Ok (Some {|
      tr_version := dint request "protocolVersion"; tr_cluster := dstr request "clusterId";
      tr_source := dstr request "sourceNodeId"; tr_target := dstr request "targetNodeId";
      tr_source_epoch := dint request "sourceEpoch"; tr_target_epoch := dint request "targetEpoch";
      tr_transaction := dint request "transactionId"; tr_ttl := dint request "ttlMs";
      tr_nonce := dstr request "nonce" |}).

Definition transfer_payload (r : transfer_request) : pydict :=
  [("protocolVersion", VInt r.(tr_version)); ("clusterId", VStr r.(tr_cluster));
   ("sourceNodeId", VStr r.(tr_source)); ("targetNodeId", VStr r.(tr_target));
   ("sourceEpoch", VInt r.(tr_source_epoch)); ("targetEpoch", VInt r.(tr_target_epoch));
   ("transactionId", VInt r.(tr_transaction)); ("ttlMs", VInt r.(tr_ttl)); ("nonce", VStr r.(tr_nonce))].

Definition verify_transfer_request (request : pydict) (secret : string) : res verdict :=
  match read_transfer_request request with
  | Raise e => if key_type_value e then Ok (false, "malformed witness transfer request", []) else Raise e
  | Ok None => Ok (false, "malformed witness transfer request", [])
  | Ok (Some r) =>
      let payload := with_key_id request (transfer_payload r) in
      if negb (r.(tr_version) =? 1) || String.eqb r.(tr_cluster) "" || String.eqb r.(tr_source) ""
         || String.eqb r.(tr_target) "" || String.eqb r.(tr_source) r.(tr_target)
      then Ok (false, "unsupported witness transfer request", payload)
      else if (64 <? str_len r.(tr_cluster)) || (64 <? str_len r.(tr_source)) || (64 <? str_len r.(tr_target))
              || negb ((1 <=? str_len r.(tr_nonce)) && (str_len r.(tr_nonce) <=? 128))
      then Ok (false, "witness transfer identity is out of bounds", payload)
      else if (r.(tr_transaction) <=? 0) || (r.(tr_source_epoch) <=? 0)
              || negb (r.(tr_target_epoch) =? r.(tr_source_epoch) + 1)
      then Ok (false, "invalid witness transfer fencing facts", payload)
      else if negb (ttl_in_bounds r.(tr_ttl))
      then Ok (false, "witness ttl must be 500..60000 ms", payload)
      else authenticate request payload secret
  end.

(** ** Recovery *)

Record recovery_request := {
  rc_version : Z; rc_source_epoch : Z; rc_target_epoch : Z; rc_transaction : Z;
  rc_cluster : string; rc_node : string; rc_source : string; rc_target : string;
  rc_recovery : string; rc_fence : string; rc_nonce : string;
}.

Definition recovery_strings : list string :=
  ["clusterId"; "nodeId"; "sourceNodeId"; "targetNodeId"; "recoveryId"; "fenceDigest"; "nonce"].
Definition recovery_ints : list string :=
  ["protocolVersion"; "sourceEpoch"; "targetEpoch"; "transactionId"].

Definition read_recovery_request (request : pydict) : option recovery_request :=
  if negb (forallb (fun k => is_str (dget_none request k)) recovery_strings)
     || negb (forallb (fun k => is_int (dget_none request k)) recovery_ints)
  then None
  else Some {|
    rc_version := dint request "protocolVersion"; rc_source_epoch := dint request "sourceEpoch";
    rc_target_epoch := dint request "targetEpoch"; rc_transaction := dint request "transactionId";
    rc_cluster := dstr request "clusterId"; rc_node := dstr request "nodeId";
    rc_source := dstr request "sourceNodeId"; rc_target := dstr request "targetNodeId";
    rc_recovery := dstr request "recoveryId"; rc_fence := dstr request "fenceDigest";
    rc_nonce := dstr request "nonce" |}.

Definition recovery_payload (r : recovery_request) : pydict :=
  [("protocolVersion", VInt r.(rc_version)); ("sourceEpoch", VInt r.(rc_source_epoch));
   ("targetEpoch", VInt r.(rc_target_epoch)); ("transactionId", VInt r.(rc_transaction));
   ("clusterId", VStr r.(rc_cluster)); ("nodeId", VStr r.(rc_node));
   ("sourceNodeId", VStr r.(rc_source)); ("targetNodeId", VStr r.(rc_target));
   ("recoveryId", VStr r.(rc_recovery)); ("fenceDigest", VStr r.(rc_fence)); ("nonce", VStr r.(rc_nonce))].

(** [c in "0123456789abcdef"]. *)
Definition lower_hex (c : ascii) : bool := is_digit c || in_range 97 102 c.

Definition verify_recovery_request (request : pydict) (secret : string) : res verdict :=
  match read_recovery_request request with
  | None => Ok (false, "malformed witness recovery request", [])
  | Some r =>
      let payload := with_key_id request (recovery_payload r) in
      if negb (r.(rc_version) =? 1) || String.eqb r.(rc_cluster) "" || negb (String.eqb r.(rc_node) r.(rc_source))
         || String.eqb r.(rc_source) r.(rc_target) || (r.(rc_source_epoch) <=? 0)
         || negb (r.(rc_target_epoch) =? r.(rc_source_epoch) + 1) || (r.(rc_transaction) <=? 0)
         || negb ((1 <=? str_len r.(rc_recovery)) && (str_len r.(rc_recovery) <=? 128))
         || negb (str_len r.(rc_fence) =? 64) || existsb (fun c => negb (lower_hex c)) (chars r.(rc_fence))
         || negb ((1 <=? str_len r.(rc_nonce)) && (str_len r.(rc_nonce) <=? 128))
      then Ok (false, "invalid witness recovery fencing facts", payload)
      else authenticate request payload secret
  end.

(** * Authentication of witness traffic

    What the verification functions accept: exactly the
    requests and responses whose HMAC was computed over their own content, and
    every one a holder of the secret signs. *)

(** ** Signatures *)

Lemma hex_empty s : hex s = "" -> chars s = [].
Proof. unfold hex. destruct (chars s) as [|c l]; [done|]. cbn. done. Qed.

Lemma hmac_hex_nonempty k m : hmac_hex k m <> "".
Proof.
  intros H. apply hex_empty in H. pose proof (hmac_sha256_length k m) as Hl. by rewrite H in Hl.
Qed.

(** The signature a request carries, as text. *)
Definition supplied_signature (request : pydict) : string := py_str (dget_or request "hmacSha256" (VStr "")).

Lemma authenticate_iff request payload secret reason p :
  authenticate request payload secret = Ok (true, reason, p)
  <-> reason = "ok" /\ p = payload /\ supplied_signature request = sign_request payload secret.
Proof.
  unfold authenticate. fold (supplied_signature request). cbv zeta. split.
  - destruct (String.eqb _ "") eqn:E; [done|]. intros H. apply bind_ok in H as ([|] & Hc & H); [|done].
    apply compare_digest_true in Hc. injection H as <- <-. done.
  - intros (-> & -> & ->). unfold sign_request.
    rewrite (str_eqb_ne _ _ (hmac_hex_nonempty _ _)), compare_digest_refl by apply hmac_hex_ascii. done.
Qed.

(** A check that fails never accepts. *)
Lemma refused_unless (b : bool) (why : string) p (rest : res verdict) reason q :
  (if b then Ok (false, why, p) else rest) = Ok (true, reason, q) <-> b = false /\ rest = Ok (true, reason, q).
Proof. destruct b; split; [done|by intros [? _]|done|by intros [_ ?]]. Qed.

(** ** What each kind of request must say *)

Definition lease_request_ok (r : lease_request) : Prop :=
  r.(rq_version) = 1 /\ r.(rq_cluster) <> "" /\ r.(rq_node) <> "" /\ 500 <= r.(rq_ttl) <= 60000.

Definition transfer_request_ok (r : transfer_request) : Prop :=
  r.(tr_version) = 1 /\ r.(tr_cluster) <> "" /\ r.(tr_source) <> "" /\ r.(tr_target) <> ""
  /\ r.(tr_source) <> r.(tr_target)
  /\ str_len r.(tr_cluster) <= 64 /\ str_len r.(tr_source) <= 64 /\ str_len r.(tr_target) <= 64
  /\ 1 <= str_len r.(tr_nonce) <= 128
  /\ 0 < r.(tr_transaction) /\ 0 < r.(tr_source_epoch) /\ r.(tr_target_epoch) = r.(tr_source_epoch) + 1
  /\ 500 <= r.(tr_ttl) <= 60000.

Definition recovery_request_ok (r : recovery_request) : Prop :=
  r.(rc_version) = 1 /\ r.(rc_cluster) <> "" /\ r.(rc_node) = r.(rc_source) /\ r.(rc_source) <> r.(rc_target)
  /\ 0 < r.(rc_source_epoch) /\ r.(rc_target_epoch) = r.(rc_source_epoch) + 1 /\ 0 < r.(rc_transaction)
  /\ 1 <= str_len r.(rc_recovery) <= 128 /\ str_len r.(rc_fence) = 64
  /\ forallb lower_hex (chars r.(rc_fence)) = true /\ 1 <= str_len r.(rc_nonce) <= 128.

(** Boolean tests as the facts they decide. *)
Ltac tests :=
  rewrite ?orb_false_iff, ?negb_false_iff, ?andb_true_iff, ?String.eqb_eq, ?String.eqb_neq, ?Z.eqb_eq, ?Z.leb_le,
    ?Z.leb_gt, ?Z.ltb_ge, ?Z.ltb_lt.

Lemma ttl_in_bounds_iff t : ttl_in_bounds t = true <-> 500 <= t <= 60000.
Proof. unfold ttl_in_bounds. tests. lia. Qed.

Lemma all_hex l : existsb (fun c => negb (lower_hex c)) l = false <-> forallb lower_hex l = true.
Proof. induction l as [|c l IH]; cbn; [done|]. tests. by rewrite IH. Qed.

(** Signed by a holder of the secret over its own content. *)
Definition signed_as (request payload : pydict) (secret : string) : Prop :=
  supplied_signature request = sign_request payload secret.

Lemma verify_request_iff request secret reason p :
  verify_request request secret = Ok (true, reason, p) <-> exists r,
    read_lease_request request = Ok r /\ lease_request_ok r /\ p = with_key_id request (lease_payload r)
    /\ signed_as request p secret /\ reason = "ok".
Proof.
  unfold verify_request, lease_request_ok, signed_as. destruct (read_lease_request request) as [r|e].
  - cbv zeta. rewrite !refused_unless, authenticate_iff. tests. rewrite ttl_in_bounds_iff. split.
    + intros (((? & ?) & ?) & ? & ? & -> & ?). by exists r.
    + intros (r' & [= <-] & (? & ? & ? & ?) & -> & ? & ?). done.
  - split; [destruct (key_type_value e); done|by intros (r & ? & _)].
Qed.

Lemma verify_transfer_request_iff request secret reason p :
  verify_transfer_request request secret = Ok (true, reason, p) <-> exists r,
    read_transfer_request request = Ok (Some r) /\ transfer_request_ok r
    /\ p = with_key_id request (transfer_payload r) /\ signed_as request p secret /\ reason = "ok".
Proof.
  unfold verify_transfer_request, transfer_request_ok, signed_as.
  destruct (read_transfer_request request) as [[r|]|e].
  - cbv zeta. rewrite !refused_unless, authenticate_iff. tests. rewrite ttl_in_bounds_iff. split.
    + intros H. exists r. intuition (subst; done || lia).
    + intros (r' & [= <-] & H). intuition (subst; done || lia).
  - split; [done|by intros (r & ? & _)].
  - split; [destruct (key_type_value e); done|by intros (r & ? & _)].
Qed.

Lemma verify_recovery_request_iff request secret reason p :
  verify_recovery_request request secret = Ok (true, reason, p) <-> exists r,
    read_recovery_request request = Some r /\ recovery_request_ok r
    /\ p = with_key_id request (recovery_payload r) /\ signed_as request p secret /\ reason = "ok".
Proof.
  unfold verify_recovery_request, recovery_request_ok, signed_as.
  destruct (read_recovery_request request) as [r|].
  - cbv zeta. rewrite !refused_unless, authenticate_iff. tests. rewrite all_hex. split.
    + intros H. exists r. intuition (subst; done || lia).
    + intros (r' & [= <-] & H). intuition (subst; done || lia).
  - split; [done|by intros (r & ? & _)].
Qed.

(** A witness accepts a lease, transfer or recovery request exactly when it reads back, states facts within
    the protocol's bounds, and carries the HMAC of those facts under the shared secret; the payload it then
    acts on is those facts and nothing else of the request. *)
Theorem accepted_requests_are_signed request secret reason p :
  (verify_request request secret = Ok (true, reason, p) <-> exists r,
     read_lease_request request = Ok r /\ lease_request_ok r /\ p = with_key_id request (lease_payload r)
     /\ signed_as request p secret /\ reason = "ok")
  /\ (verify_transfer_request request secret = Ok (true, reason, p) <-> exists r,
     read_transfer_request request = Ok (Some r) /\ transfer_request_ok r
     /\ p = with_key_id request (transfer_payload r) /\ signed_as request p secret /\ reason = "ok")
  /\ (verify_recovery_request request secret = Ok (true, reason, p) <-> exists r,
     read_recovery_request request = Some r /\ recovery_request_ok r
     /\ p = with_key_id request (recovery_payload r) /\ signed_as request p secret /\ reason = "ok").
Proof.
  split; [apply verify_request_iff|]. split; [apply verify_transfer_request_iff|apply verify_recovery_request_iff].
Qed.

(** ** Responses *)

Lemma dremove_fresh d k : dget d k = None -> dremove d k = d.
Proof.
  unfold dremove. induction d as [|[k0 v0] d IH]; cbn; [done|]. destruct (String.eqb k k0) eqn:E; [done|].
  intros H. cbn. by rewrite IH.
Qed.

Lemma dremove_dset_fresh d k v : dget d k = None -> dremove (dset d k v) k = d.
Proof.
  unfold dremove. induction d as [|[k0 v0] d IH]; cbn; [by rewrite str_eqb_refl|].
  destruct (String.eqb k k0) eqn:E; [done|]. intros H. cbn. rewrite E. cbn. by rewrite IH.
Qed.

Lemma py_eq_str v s : py_eq v (VStr s) = true <-> v = VStr s.
Proof.
  split; [|intros ->; apply String.eqb_refl]. destruct v; cbn; try done. intros H. pyinv. by subst.
Qed.

Lemma py_eq_opt_str v o : py_eq v (opt_str o) = true <-> v = opt_str o.
Proof. destruct o as [s|]; [apply py_eq_str|]. split; [by destruct v|by intros ->]. Qed.

Lemma is_int_one v : is_int v && py_eq v (VInt 1) = true <-> v = VInt 1.
Proof. split; [|by intros ->]. destruct v; cbn; try done. intros H. pyinv. by subst. Qed.

(** A response bound to one request, operation and key, and signed as it stands. *)
Definition response_ok (d request : pydict) (operation secret : string) (key : option string) : Prop :=
  secret <> "" /\ dget_none d "responseHmacSha256" = VStr (response_signature (dremove d "responseHmacSha256") secret)
  /\ dget_none d "responseVersion" = VInt 1 /\ dget_none d "operation" = VStr operation
  /\ dget_none d "requestDigest" = VStr (request_digest request) /\ dget_none d "keyId" = opt_str key.

Lemma verify_response_iff raw request operation secret key d :
  verify_response raw request operation secret key = Ok d
  <-> raw = VDict d /\ response_ok d request operation secret key.
Proof.
  unfold response_ok. split.
  - unfold verify_response. destruct raw as [| | | | | |d0]; try done.
    destruct (String.eqb secret "") eqn:Es; [done|]. cbv zeta.
    destruct (dget_none d0 "responseHmacSha256") eqn:Eh; try done. intros H.
    apply bind_ok in H as ([|] & Hc & H); [|done]. apply compare_digest_true in Hc. cbn [negb] in H.
    destruct (_ || _ || _ || _) eqn:E in H; [done|]. injection H as <-.
    rewrite !orb_false_iff, !negb_false_iff, is_int_one, !py_eq_str, py_eq_opt_str in E. pyinv.
    destruct E as [[[? ?] ?] ?]. rewrite Eh, <- Hc. done.
  - intros (-> & Hs & Hh & Hv & Ho & Hd & Hk). unfold verify_response. rewrite (str_eqb_ne _ _ Hs), Hh.
    cbv zeta. rewrite compare_digest_refl by apply hmac_hex_ascii. cbn [mbind res_bind negb].
    rewrite Hv, Ho, Hd, Hk. cbn [is_int andb]. rewrite (proj2 (py_eq_opt_str _ _) eq_refl).
    by rewrite !(proj2 (py_eq_str _ _) eq_refl).
Qed.

(** The fields a signed response adds to the answer. *)
Definition response_fields : list string :=
  ["responseVersion"; "operation"; "requestDigest"; "keyId"; "responseHmacSha256"].

Definition response_payload (result request : pydict) (operation : string) (key : option string) : pydict :=
  let payload := dmerge result [("responseVersion", VInt 1); ("operation", VStr operation);
                                ("requestDigest", VStr (request_digest request))] in
  match key with Some k => dset payload "keyId" (VStr k) | None => payload end.

Lemma response_payload_get result request operation key k :
  dget (response_payload result request operation key) k =
  if String.eqb k "keyId" then match key with Some x => Some (VStr x) | None => dget result k end
  else if String.eqb k "requestDigest" then Some (VStr (request_digest request))
  else if String.eqb k "operation" then Some (VStr operation)
  else if String.eqb k "responseVersion" then Some (VInt 1) else dget result k.
Proof.
  assert (H : forall x, x <> "keyId" \/ key = None ->
    dget (response_payload result request operation key) x =
    if String.eqb x "requestDigest" then Some (VStr (request_digest request))
    else if String.eqb x "operation" then Some (VStr operation)
    else if String.eqb x "responseVersion" then Some (VInt 1) else dget result x).
  { intros x Hx. unfold response_payload. cbv zeta.
    assert (Hd : forall p, dget (match key with Some k => dset p "keyId" (VStr k) | None => p end) x = dget p x).
    { intros p. destruct key; [|done]. destruct Hx as [Hx|]; [by rewrite dget_dset_ne|done]. }
    rewrite Hd. unfold dmerge. cbn [fold_left fst snd]. by rewrite !dget_dset. }
  destruct (String.eqb_spec k "keyId") as [->|Hk]; [|by apply H; left].
  destruct key as [x|]; [|by rewrite H by (by right)].
  unfold response_payload. cbv zeta. by rewrite dget_dset_eq.
Qed.

Lemma sign_response_eq result request operation secret key d :
  sign_response result request operation secret key = Ok d ->
  secret <> "" /\ response_operation operation = true
  /\ d = dset (response_payload result request operation key) "responseHmacSha256"
           (VStr (response_signature (response_payload result request operation key) secret)).
Proof.
  unfold sign_response. destruct (_ || _) eqn:E; [done|]. cbv zeta. intros H. pyinv. subst. done.
Qed.

(** Round trip. A response a witness signs for an operation is accepted by the client that sent the request,
    under the same secret and key, as exactly the object that was signed, and it carries every field of the
    witness's answer outside the protocol's own. *)
Theorem signed_response_is_accepted result request sent operation secret key d :
  sign_response result request operation secret key = Ok d ->
  request_digest sent = request_digest request ->
  dget result "responseHmacSha256" = None -> (key = None -> dget result "keyId" = None) ->
  verify_response (VDict d) sent operation secret key = Ok d
  /\ forall k, k ∉ response_fields -> dget d k = dget result k.
Proof.
  intros (Hs & _ & ->)%sign_response_eq Hd Hfresh Hkey.
  set (p := response_payload result request operation key).
  assert (Hp : dget p "responseHmacSha256" = None) by (unfold p; by rewrite response_payload_get).
  split.
  - apply verify_response_iff. split; [done|]. unfold response_ok, dget_none, dget_or.
    rewrite dremove_dset_fresh by done. rewrite dget_dset_eq.
    repeat rewrite dget_dset_ne by done. unfold p. rewrite !response_payload_get. cbn [String.eqb Ascii.eqb Bool.eqb].
    split_and!; try done.
    + by rewrite <- Hd.
    + destruct key as [x|]; [done|]. by rewrite Hkey.
  - intros k Hk. unfold response_fields in Hk. rewrite !not_elem_of_cons in Hk. destruct Hk as (H1 & H2 & H3 & H4 & H5 & _).
    rewrite dget_dset_ne by done. unfold p. rewrite response_payload_get.
    by rewrite (str_eqb_ne _ _ H4), (str_eqb_ne _ _ H3), (str_eqb_ne _ _ H2), (str_eqb_ne _ _ H1).
Qed.

(** A response a client accepts was signed, with the client's secret, over that very object, for that
    operation and that request: an answer to another request, operation or key is refused. *)
Theorem accepted_response_is_bound raw request operation secret key d request' operation' secret' key' :
  verify_response raw request operation secret key = Ok d ->
  raw = VDict d /\ response_ok d request operation secret key
  /\ (verify_response raw request' operation' secret' key' = Ok d ->
      operation' = operation /\ request_digest request' = request_digest request /\ key' = key
      /\ response_signature (dremove d "responseHmacSha256") secret'
         = response_signature (dremove d "responseHmacSha256") secret).
Proof.
  intros H%verify_response_iff. destruct H as [-> H]. split; [done|]. split; [done|].
  intros [_ H']%verify_response_iff. destruct H as (_ & Hh & _ & Ho & Hd & Hk), H' as (_ & Hh' & _ & Ho' & Hd' & Hk').
  rewrite Hh in Hh'. rewrite Ho in Ho'. rewrite Hd in Hd'. rewrite Hk in Hk'.
  injection Hh' as Hh'. injection Ho' as ->. injection Hd' as ->. split; [done|]. split; [done|].
  split; [|done]. destruct key, key'; cbn in Hk'; congruence.
Qed.

Definition sample_request : pydict := lease_payload
  {| rq_version := 1; rq_cluster := "show"; rq_node := "node-a"; rq_ttl := 3000; rq_nonce := "n1" |}.
Definition sample_answer : pydict := [("granted", VBool true); ("clusterId", VStr "show"); ("epoch", VInt 1)].
Definition sample_response : pydict :=
  match sign_response sample_answer sample_request "acquire" "secret" None with Ok d => d | Raise _ => [] end.

Lemma signed_response_is_accepted_witness :
  verify_response (VDict sample_response) (dset sample_request "hmacSha256" (VStr "x")) "acquire" "secret" None
  = Ok sample_response.
Proof.
  refine (proj1 (signed_response_is_accepted sample_answer sample_request (dset sample_request "hmacSha256" (VStr "x"))
    "acquire" "secret" None sample_response _ _ _ _)).
  - vm_compute. reflexivity.
  - vm_compute. reflexivity.
  - reflexivity.
  - intros _. reflexivity.
Defined.

Lemma accepted_response_is_bound_witness : response_ok sample_response sample_request "acquire" "secret" None.
Proof.
  refine (proj1 (proj2 (accepted_response_is_bound (VDict sample_response) sample_request "acquire" "secret" None
    sample_response sample_request "acquire" "secret" None _))).
  vm_compute. reflexivity.
Defined.
