(* ===== verification/WitnessStore.v ===== *)
(** * The witness lease store (backend/witness.py, class WitnessLeaseStore)

    The persistent single-writer lease authority. A lease is the JSON object
    the code keeps, so what a damaged lease file does to each operation is part
    of the model. [time()] in milliseconds is the argument [now]; [saved] is what
    the lease file reads as, if there is one, and [writes] says whether it can be
    written now. Every operation runs under the lock, so it is one step of the
    store. *)

From S2P Require Import Prelude PyStr PyVal PyFacts.

#[local] Open Scope string_scope.
#[local] Open Scope list_scope.
#[local] Open Scope Z_scope.
#[local] Open Scope st_scope.

Record store := {
  has_path : bool;
  _leases : gmap string pydict;
  saved : option (gmap string pydict);
}.

Abbreviation op := (st store).

(** What reading the lease file gave: the decoded document or the exception. *)
Definition load_caught (e : exn) : bool :=
  is_os_error e || match e with ValueError m => String.eqb m "JSONDecodeError" | _ => false end.

Definition dict_entries (d : pydict) : gmap string pydict :=
  fold_left (fun acc kv => match snd kv with VDict v => <[fst kv := v]> acc | _ => acc end) d ∅.

Definition _load (file : option (res pyval)) : res (gmap string pydict) :=
  match file with
  | None => Ok ∅
  | Some (Ok (VDict d)) => Ok (dict_entries d)
  | Some (Ok _) => Ok ∅
  | Some (Raise e) => if load_caught e then Ok ∅ else Raise e
  end.

Definition init_store (path : bool) (file : option (res pyval)) : res store :=
  ls ← (if path then _load file else Ok ∅);
  Ok {| has_path := path; _leases := ls; saved := if path then (_ ← file; Some ls) else None |}.

(** The file is written beside itself and renamed, so a write that fails ([writes]
    is false) leaves the one before. *)
Definition _save (writes : bool) : op unit :=
  let* s := st_get in
  if negb s.(has_path) then st_ret tt
  else if writes then st_put {| has_path := true; _leases := s.(_leases); saved := Some s.(_leases) |}
  else st_raise (OSError "write failed").

Definition put_lease (cluster_id : string) (lease : pydict) : op unit :=
  st_modify (fun s => {| has_path := s.(has_path);
                         _leases := <[cluster_id := lease]> s.(_leases); saved := s.(saved) |}).

(** [self._leases.get(cluster_id) or {}]. *)
Definition lease_of (s : store) (cluster_id : string) : pydict := default [] (s.(_leases) !! cluster_id).

(** [str(lease.get(k, ""))] and [int(lease.get(k, 0) or 0)]. *)
Definition lease_str (lease : pydict) (k : string) : string := py_str (dget_or lease k (VStr "")).
Definition lease_int (lease : pydict) (k : string) : res Z :=
  py_int (py_or (dget_or lease k (VInt 0)) (VInt 0)).

(** [max(500, min(ttl, 60000))]. *)
Definition clamp_ttl (ttl_ms : Z) : Z := Z.max 500 (Z.min ttl_ms 60000).

Definition acquire (writes : bool) (now : Z) (cluster_id node_id : string) (ttl_ms : Z) : op pydict :=
  let ttl := clamp_ttl ttl_ms in
  let* s := st_get in
  let lease := lease_of s cluster_id in
  let holder := lease_str lease "holderNodeId" in
  let* expires := st_lift (lease_int lease "expiresAtUnixMs") in
  let* epoch0 := st_lift (lease_int lease "epoch") in
  let epoch := Z.max 0 epoch0 in
  if negb (String.eqb holder "") && negb (String.eqb holder node_id) && (now <? expires) then
    st_ret [("granted", VBool false); ("clusterId", VStr cluster_id); ("holderNodeId", VStr holder);
            ("epoch", VInt epoch); ("expiresAtUnixMs", VInt expires); ("serverUnixMs", VInt now);
            ("reason", VStr "lease-held-by-other-node")]
  else
    let epoch := if String.eqb holder node_id then epoch else epoch + 1 in
    let expires := now + ttl in
    let* _ := put_lease cluster_id
      [("holderNodeId", VStr node_id); ("epoch", VInt (Z.max 1 epoch)); ("expiresAtUnixMs", VInt expires)] in
    let* _ := _save writes in
    st_ret [("granted", VBool true); ("clusterId", VStr cluster_id); ("holderNodeId", VStr node_id);
            ("epoch", VInt (Z.max 1 epoch)); ("expiresAtUnixMs", VInt expires); ("serverUnixMs", VInt now);
            ("reason", VStr "granted")].

Definition is_replay (lease : pydict) (source_node_id target_node_id : string)
    (target_epoch transaction_id : Z) : res bool :=
  tx ← lease_int lease "lastTransferTransactionId";
  if (tx =? transaction_id) && String.eqb (lease_str lease "lastTransferSourceNodeId") source_node_id
     && String.eqb (lease_str lease "holderNodeId") target_node_id
  then e ← lease_int lease "epoch"; Ok (e =? target_epoch)
  else Ok false.

Definition transfer (writes : bool) (now : Z) (cluster_id source_node_id target_node_id : string)
    (source_epoch target_epoch transaction_id ttl_ms : Z) : op pydict :=
  let ttl := clamp_ttl ttl_ms in
  let* s := st_get in
  let lease := lease_of s cluster_id in
  let* replay := st_lift (is_replay lease source_node_id target_node_id target_epoch transaction_id) in
  if (replay : bool) then
    let* expires := st_lift (lease_int lease "expiresAtUnixMs") in
    st_ret [("granted", VBool true); ("idempotent", VBool true); ("clusterId", VStr cluster_id);
            ("holderNodeId", VStr target_node_id); ("epoch", VInt target_epoch);
            ("expiresAtUnixMs", VInt expires); ("serverUnixMs", VInt now);
            ("transactionId", VInt transaction_id); ("reason", VStr "already-transferred")]
  else
    let holder := lease_str lease "holderNodeId" in
    let* epoch := st_lift (lease_int lease "epoch") in
    let* expires := st_lift (lease_int lease "expiresAtUnixMs") in
    if negb (String.eqb holder source_node_id) || negb (epoch =? source_epoch) || (expires <=? now) then
      st_ret [("granted", VBool false); ("clusterId", VStr cluster_id); ("holderNodeId", str_or_none holder);
              ("epoch", VInt epoch); ("expiresAtUnixMs", int_or_none expires); ("serverUnixMs", VInt now);
              ("transactionId", VInt transaction_id); ("reason", VStr "source-lease-fencing-mismatch")]
    else if negb (target_epoch =? source_epoch + 1) then
      st_ret [("granted", VBool false); ("clusterId", VStr cluster_id); ("holderNodeId", VStr holder);
              ("epoch", VInt epoch); ("expiresAtUnixMs", VInt expires); ("serverUnixMs", VInt now);
              ("transactionId", VInt transaction_id); ("reason", VStr "target-epoch-not-next")]
    else
      let* _ := put_lease cluster_id
        [("holderNodeId", VStr target_node_id); ("epoch", VInt target_epoch);
         ("expiresAtUnixMs", VInt (now + ttl)); ("lastTransferTransactionId", VInt transaction_id);
         ("lastTransferSourceNodeId", VStr source_node_id)] in
      let* _ := _save writes in
      st_ret [("granted", VBool true); ("idempotent", VBool false); ("clusterId", VStr cluster_id);
              ("holderNodeId", VStr target_node_id); ("epoch", VInt target_epoch);
              ("expiresAtUnixMs", VInt (now + ttl)); ("serverUnixMs", VInt now);
              ("transactionId", VInt transaction_id); ("reason", VStr "transferred")].

Definition status (now : Z) (cluster_id : string) (s : store) : res pydict :=
  let lease := lease_of s cluster_id in
  let holder := lease_str lease "holderNodeId" in
  expires ← lease_int lease "expiresAtUnixMs";
  epoch ← lease_int lease "epoch";
  Ok [("clusterId", VStr cluster_id); ("holderNodeId", str_or_none holder); ("epoch", VInt epoch);
      ("expiresAtUnixMs", int_or_none expires);
      ("expired", VBool (String.eqb holder "" || (expires <=? now))); ("serverUnixMs", VInt now)].

Definition recovery_authorized (lease : pydict) (node_id target_node_id : string)
    (source_epoch target_epoch transaction_id : Z) : res bool :=
  if String.eqb node_id target_node_id || negb (String.eqb (lease_str lease "holderNodeId") target_node_id)
  then Ok false
  else
    e ← lease_int lease "epoch";
    if negb (e =? target_epoch) then Ok false
    else
      t ← lease_int lease "lastTransferTransactionId";
      Ok ((t =? transaction_id) && String.eqb (lease_str lease "lastTransferSourceNodeId") node_id
          && (target_epoch =? source_epoch + 1)).

Definition authorize_recovery (now : Z) (cluster_id node_id target_node_id : string)
    (source_epoch target_epoch transaction_id : Z) (recovery_id fence_digest : string)
    (s : store) : res pydict :=
  authorized ← recovery_authorized (lease_of s cluster_id) node_id target_node_id
                 source_epoch target_epoch transaction_id;
  Ok [("authorized", VBool authorized); ("clusterId", VStr cluster_id); ("nodeId", VStr node_id);
      ("targetNodeId", VStr target_node_id); ("sourceEpoch", VInt source_epoch);
      ("targetEpoch", VInt target_epoch); ("transactionId", VInt transaction_id);
      ("recoveryId", VStr recovery_id); ("fenceDigest", VStr fence_digest); ("serverUnixMs", VInt now);
      ("reason", VStr (if (authorized : bool) then "authorized-standby-rejoin" else "recovery-fence-not-current"))].

(** ** The specification: leases as typed records *)

Record lease := {
  l_holder : string;
  l_epoch : Z;
  l_expires : Z;
  l_transfer : option (Z * string);
}.

(** The object the code stores for a lease. *)
Definition render (l : lease) : pydict :=
  [("holderNodeId", VStr l.(l_holder)); ("epoch", VInt l.(l_epoch)); ("expiresAtUnixMs", VInt l.(l_expires))]
  ++ match l.(l_transfer) with
     | Some (tx, source) => [("lastTransferTransactionId", VInt tx); ("lastTransferSourceNodeId", VStr source)]
     | None => []
     end.

(** The lease a grant installs, [None] when another node still holds it. *)
Definition spec_acquire (now ttl : Z) (node : string) (o : option lease) : option lease :=
  match o with
  | Some l =>
      if String.eqb l.(l_holder) node then
        Some {| l_holder := node; l_epoch := Z.max 1 l.(l_epoch); l_expires := now + ttl; l_transfer := None |}
      else if negb (String.eqb l.(l_holder) "") && (now <? l.(l_expires)) then None
      else Some {| l_holder := node; l_epoch := Z.max 1 (Z.max 0 l.(l_epoch) + 1);
                   l_expires := now + ttl; l_transfer := None |}
  | None => Some {| l_holder := node; l_epoch := 1; l_expires := now + ttl; l_transfer := None |}
  end.

Definition holder_of (o : option lease) : string := from_option l_holder "" o.
Definition epoch_of (o : option lease) : Z := from_option l_epoch 0 o.
Definition expires_of (o : option lease) : Z := from_option l_expires 0 o.
Definition last_transfer (o : option lease) : Z * string := default (0, "") (o ≫= l_transfer).

Inductive transfer_outcome :=
| TReplayed
| TFenced
| TWrongEpoch
| TMoved (l : lease).

Definition spec_transfer (now ttl : Z) (source target : string) (source_epoch target_epoch tx : Z)
    (o : option lease) : transfer_outcome :=
  if (fst (last_transfer o) =? tx) && String.eqb (snd (last_transfer o)) source
     && String.eqb (holder_of o) target && (epoch_of o =? target_epoch) then TReplayed
  else if negb (String.eqb (holder_of o) source) || negb (epoch_of o =? source_epoch) || (expires_of o <=? now)
  then TFenced
  else if negb (target_epoch =? source_epoch + 1) then TWrongEpoch
  else TMoved {| l_holder := target; l_epoch := target_epoch; l_expires := now + ttl;
                 l_transfer := Some (tx, source) |}.

(** A store whose objects are rendered leases, and its typed view. *)
Definition models (s : store) (a : gmap string lease) : Prop := s.(_leases) = render <$> a.

(** The objects in a file of typed leases. *)
Definition rendered_file (f : option (gmap string lease)) : option (gmap string pydict) := option_map (fun m => render <$> m) f.

(** The document [_save] writes, and the store a restart builds from it. *)
Definition document (m : gmap string pydict) : pyval :=
  VDict (map (fun kv => (fst kv, VDict (snd kv))) (map_to_list m)).

Definition restart (s : store) : res store :=
  init_store s.(has_path) (option_map (fun m => Ok (document m)) s.(saved)).

(** ** Calls and runs *)

Inductive call :=
| CAcquire (writes : bool) (now : Z) (cluster node : string) (ttl : Z)
| CTransfer (writes : bool) (now : Z) (cluster source target : string) (source_epoch target_epoch tx ttl : Z).

Definition exec (s : store) (c : call) : store :=
  match c with
  | CAcquire writes now cl n ttl => fst (acquire writes now cl n ttl s)
  | CTransfer writes now cl src tgt se te tx ttl => fst (transfer writes now cl src tgt se te tx ttl s)
  end.

Definition run (s : store) (cs : list call) : store := fold_left exec cs s.

Definition empty_store (path : bool) : store := {| has_path := path; _leases := ∅; saved := None |}.

(** The same calls on typed leases. *)
Definition installs (a : gmap string lease) (c : call) : option (string * lease) :=
  match c with
  | CAcquire _ now cl n ttl => (cl,.) <$> spec_acquire now (clamp_ttl ttl) n (a !! cl)
  | CTransfer _ now cl src tgt se te tx ttl =>
      match spec_transfer now (clamp_ttl ttl) src tgt se te tx (a !! cl) with
      | TMoved l => Some (cl, l)
      | _ => None
      end
  end.

Definition spec_exec (a : gmap string lease) (c : call) : gmap string lease :=
  match installs a c with Some (cl, l) => <[cl := l]> a | None => a end.

Definition call_writes (c : call) : bool := match c with CAcquire writes _ _ _ _ | CTransfer writes _ _ _ _ _ _ _ _ => writes end.

(** The leases in the file of a store: those at the last call that installed one
    while the file could be written, [None] before any. *)
Fixpoint filed (path : bool) (a : gmap string lease) (f : option (gmap string lease)) (cs : list call) : option (gmap string lease) :=
  match cs with
  | [] => f
  | c :: rest => filed path (spec_exec a c) (if path && call_writes c && bool_decide (is_Some (installs a c)) then Some (spec_exec a c) else f) rest
  end.

(** ** Lemmas *)

Section rendered.
Context (s : store) (a : gmap string lease) (Hm : models s a).

Lemma lease_of_models c : lease_of s c = default [] (render <$> a !! c).
Proof. unfold lease_of. by rewrite Hm, lookup_fmap. Qed.

Lemma holder_models c : lease_str (lease_of s c) "holderNodeId" = holder_of (a !! c).
Proof. rewrite lease_of_models. by destruct (a !! c). Qed.

Lemma epoch_models c : lease_int (lease_of s c) "epoch" = Ok (epoch_of (a !! c)).
Proof. rewrite lease_of_models. unfold lease_int. destruct (a !! c); cbn; by rewrite ?py_int_or_zero. Qed.

Lemma expires_models c : lease_int (lease_of s c) "expiresAtUnixMs" = Ok (expires_of (a !! c)).
Proof. rewrite lease_of_models. unfold lease_int. destruct (a !! c); cbn; by rewrite ?py_int_or_zero. Qed.

Lemma transaction_models c :
  lease_int (lease_of s c) "lastTransferTransactionId" = Ok (fst (last_transfer (a !! c))).
Proof.
  rewrite lease_of_models. unfold last_transfer, lease_int.
  destruct (a !! c) as [[h e x [[tx src]|]]|]; cbn; by rewrite ?py_int_or_zero.
Qed.

Lemma source_models c :
  lease_str (lease_of s c) "lastTransferSourceNodeId" = snd (last_transfer (a !! c)).
Proof.
  rewrite lease_of_models. unfold last_transfer. by destruct (a !! c) as [[h e x [[tx src]|]]|].
Qed.
End rendered.

Lemma models_insert s a c l p sv :
  models s a ->
  models {| has_path := p; _leases := <[c := render l]> s.(_leases); saved := sv |} (<[c := l]> a).
Proof. unfold models. intros ->. cbn. by rewrite fmap_insert. Qed.

(** What [put_lease] and [_save] leave: the lease in memory whatever happens, and in
    the file if it can be written. *)
Definition written (writes : bool) (s : store) (c : string) (d : pydict) : store :=
  let ls := <[c := d]> s.(_leases) in
  {| has_path := s.(has_path); _leases := ls; saved := if s.(has_path) && writes then Some ls else s.(saved) |}.

(** The answer that was computed, unless the lease could not be saved. *)
Definition if_saved (writes : bool) (s : store) (d : pydict) : res pydict :=
  if s.(has_path) && negb writes then Raise (OSError "write failed") else Ok d.

Lemma put_save_then writes s c d (answer : pydict) :
  (put_lease c d ;;; _save writes ;;; st_ret answer)%st s = (written writes s c d, if_saved writes s answer).
Proof.
  unfold st_bind, put_lease, _save, st_modify, written, if_saved; cbn. by destruct (has_path s), writes.
Qed.

Lemma if_saved_ok writes s d d' : if_saved writes s d = Ok d' -> d' = d.
Proof. unfold if_saved. destruct (_ && _); [done|]. by intros [= ->]. Qed.

Lemma models_written writes s a c l : models s a -> models (written writes s c (render l)) (<[c := l]> a).
Proof. unfold models, written; cbn. intros ->. by rewrite fmap_insert. Qed.

(** The answers of [acquire] and [transfer]. *)
Definition grant_answer (now : Z) (cl : string) (l : lease) : pydict :=
  [("granted", VBool true); ("clusterId", VStr cl); ("holderNodeId", VStr l.(l_holder));
   ("epoch", VInt l.(l_epoch)); ("expiresAtUnixMs", VInt l.(l_expires)); ("serverUnixMs", VInt now);
   ("reason", VStr "granted")].

Definition held_answer (now : Z) (cl : string) (o : option lease) : pydict :=
  [("granted", VBool false); ("clusterId", VStr cl); ("holderNodeId", VStr (holder_of o));
   ("epoch", VInt (Z.max 0 (epoch_of o))); ("expiresAtUnixMs", VInt (expires_of o));
   ("serverUnixMs", VInt now); ("reason", VStr "lease-held-by-other-node")].

Definition transfer_answer (now : Z) (cl target : string) (target_epoch tx : Z) (o : option lease)
    (out : transfer_outcome) : pydict :=
  let granted again expires reason :=
    [("granted", VBool true); ("idempotent", VBool again); ("clusterId", VStr cl);
     ("holderNodeId", VStr target); ("epoch", VInt target_epoch); ("expiresAtUnixMs", VInt expires);
     ("serverUnixMs", VInt now); ("transactionId", VInt tx); ("reason", VStr reason)] in
  let denied holder expires reason :=
    [("granted", VBool false); ("clusterId", VStr cl); ("holderNodeId", holder);
     ("epoch", VInt (epoch_of o)); ("expiresAtUnixMs", expires); ("serverUnixMs", VInt now);
     ("transactionId", VInt tx); ("reason", VStr reason)] in
  match out with
  | TReplayed => granted true (expires_of o) "already-transferred"
  | TMoved l => granted false l.(l_expires) "transferred"
  | TFenced => denied (str_or_none (holder_of o)) (int_or_none (expires_of o)) "source-lease-fencing-mismatch"
  | TWrongEpoch => denied (VStr (holder_of o)) (VInt (expires_of o)) "target-epoch-not-next"
  end.

(** ** Refinement *)

Ltac rewrite_models Hm :=
  rewrite ?(holder_models _ _ Hm), ?(expires_models _ _ Hm), ?(epoch_models _ _ Hm),
    ?(transaction_models _ _ Hm), ?(source_models _ _ Hm).

Lemma acquire_eq writes now cl n ttl s a :
  models s a ->
  acquire writes now cl n ttl s =
  match spec_acquire now (clamp_ttl ttl) n (a !! cl) with
  | Some l => (written writes s cl (render l), if_saved writes s (grant_answer now cl l))
  | None => (s, Ok (held_answer now cl (a !! cl)))
  end.
Proof.
  intros Hm. unfold acquire. rewrite st_get_bind. cbv zeta.
  rewrite_models Hm. rewrite !st_lift_Ok. unfold spec_acquire. destruct (a !! cl) as [[h e x t]|]; cbn -[put_lease _save].
  - destruct (String.eqb_spec h n) as [->|Hne]; cbn -[put_lease _save].
    + rewrite andb_false_r. cbn [andb]. rewrite put_save_then. cbn.
      by replace (Z.max 1 (Z.max 0 e)) with (Z.max 1 e) by lia.
    + rewrite andb_true_r. destruct (negb (String.eqb h "") && (now <? x)); [done|].
      by rewrite put_save_then.
  - destruct n; cbn -[put_lease _save]; by rewrite put_save_then.
Qed.

Lemma is_replay_models s a cl src tgt te tx :
  models s a ->
  is_replay (lease_of s cl) src tgt te tx
  = Ok ((fst (last_transfer (a !! cl)) =? tx) && String.eqb (snd (last_transfer (a !! cl))) src
        && String.eqb (holder_of (a !! cl)) tgt && (epoch_of (a !! cl) =? te)).
Proof.
  intros Hm. unfold is_replay. rewrite_models Hm. cbn -[last_transfer].
  destruct (_ && _ && _); cbn; [|done]. by rewrite_models Hm.
Qed.

(** What [transfer] leaves and answers for an outcome of the specification. *)
Definition transfer_done (writes : bool) (s : store) (now : Z) (cl target : string) (target_epoch tx : Z) (o : option lease)
    (out : transfer_outcome) : store * res pydict :=
  let answer := transfer_answer now cl target target_epoch tx o out in
  match out with
  | TMoved l => (written writes s cl (render l), if_saved writes s answer)
  | _ => (s, Ok answer)
  end.

Lemma transfer_eq writes now cl src tgt se te tx ttl s a :
  models s a ->
  transfer writes now cl src tgt se te tx ttl s =
  transfer_done writes s now cl tgt te tx (a !! cl) (spec_transfer now (clamp_ttl ttl) src tgt se te tx (a !! cl)).
Proof.
  intros Hm. unfold transfer. rewrite st_get_bind. cbv zeta.
  rewrite (is_replay_models _ _ _ _ _ _ _ Hm), st_lift_Ok. rewrite_models Hm. unfold spec_transfer.
  destruct (_ && _ && _ && _); cbv iota.
  - by rewrite st_lift_Ok.
  - rewrite !st_lift_Ok. destruct (_ || _ || _); cbv iota; [done|]. destruct (negb _); cbv iota; [done|]. by rewrite put_save_then.
Qed.

Lemma exec_eq s a c : models s a ->
  exec s c = match installs a c with Some (cl, l) => written (call_writes c) s cl (render l) | None => s end.
Proof.
  intros Hm. destruct c as [writes now cl n ttl|writes now cl src tgt se te tx ttl]; cbn.
  - rewrite (acquire_eq _ _ _ _ _ _ _ Hm). by destruct (spec_acquire _ _ _ _).
  - rewrite (transfer_eq _ _ _ _ _ _ _ _ _ _ _ Hm). by destruct (spec_transfer _ _ _ _ _ _ _ _).
Qed.

Lemma exec_models s a c : models s a -> models (exec s c) (spec_exec a c).
Proof. intros Hm. rewrite (exec_eq s a c Hm). unfold spec_exec. destruct (installs a c) as [[cl l]|]; [by apply models_written|done]. Qed.

Lemma exec_has_path s a c : models s a -> (exec s c).(has_path) = s.(has_path).
Proof. intros Hm. rewrite (exec_eq s a c Hm). by destruct (installs a c) as [[cl l]|]. Qed.

Lemma run_models s a cs : models s a -> models (run s cs) (fold_left spec_exec cs a).
Proof.
  revert s a. induction cs as [|c cs IH]; intros s a Hm; [done|]. apply IH. by apply exec_models.
Qed.

Lemma run_has_path s a cs : models s a -> (run s cs).(has_path) = s.(has_path).
Proof.
  revert s a. induction cs as [|c cs IH]; intros s a Hm; [done|].
  change (run s (c :: cs)) with (run (exec s c) cs). rewrite (IH (exec s c) (spec_exec a c)) by by apply exec_models. by eapply exec_has_path.
Qed.

Lemma run_saved s a f cs : models s a -> s.(saved) = rendered_file f -> (run s cs).(saved) = rendered_file (filed s.(has_path) a f cs).
Proof.
  revert s a f. induction cs as [|c cs IH]; intros s a f Hm Hf; [done|]. change (run s (c :: cs)) with (run (exec s c) cs). cbn [filed].
  rewrite <- (exec_has_path s a c Hm). apply IH; [by apply exec_models|]. rewrite (exec_has_path s a c Hm). pose proof (exec_models s a c Hm) as He.
  rewrite (exec_eq s a c Hm) in He |- *. destruct (installs a c) as [[cl l]|]; cbn in He |- *.
  - unfold models in He. cbn in He. destruct (has_path s), (call_writes c); cbn; by rewrite ?He.
  - by rewrite !andb_false_r.
Qed.

Lemma models_empty path : models (empty_store path) ∅.
Proof. unfold models; cbn. by rewrite fmap_empty. Qed.

#[export] Hint Resolve exec_models run_models models_empty models_written : py.

(** ** Fencing: how one call changes a cluster's lease *)

(** An epoch never decreases, and a change of holder raises it. *)
Definition fences (o o' : option lease) : Prop :=
  epoch_of o <= epoch_of o' /\ (epoch_of o = epoch_of o' -> o = None \/ holder_of o = holder_of o').

(** The epochs of the stored leases start at 1. *)
Definition epochs_ok (a : gmap string lease) : Prop := forall c l, a !! c = Some l -> 1 <= l.(l_epoch).

Lemma spec_acquire_fences now ttl n o l :
  (forall l0, o = Some l0 -> 1 <= l0.(l_epoch)) ->
  spec_acquire now ttl n o = Some l -> fences o (Some l) /\ 1 <= l.(l_epoch).
Proof.
  unfold spec_acquire, fences. intros Hwf H. destruct o as [l0|]; [|pyinv; subst; cbn; auto with lia].
  specialize (Hwf _ eq_refl).
  destruct (String.eqb_spec (l_holder l0) n) as [<-|Hne].
  - pyinv; subst; cbn. split; [split; [lia|auto]|lia].
  - destruct (_ && _); pyinv; subst; cbn. split; [split; lia|lia].
Qed.

Lemma spec_transfer_fences now ttl src tgt se te tx o l :
  (forall l0, o = Some l0 -> 1 <= l0.(l_epoch)) ->
  spec_transfer now ttl src tgt se te tx o = TMoved l -> fences o (Some l) /\ (o <> None -> 1 <= l.(l_epoch)).
Proof.
  unfold spec_transfer, fences. intros Hwf H.
  destruct (_ && _ && _ && _); [done|]. destruct (_ || _ || _) eqn:E; [done|].
  destruct (negb (te =? se + 1)) eqn:E2; [done|]. injection H as <-. pyinv. cbn.
  destruct o as [l0|]; cbn in *; [specialize (Hwf _ eq_refl)|]; split_and!; try lia; done.
Qed.

Lemma spec_exec_lookup a c cl :
  spec_exec a c !! cl = a !! cl
  \/ exists l, spec_exec a c !! cl = Some l
     /\ ((exists writes now n ttl, c = CAcquire writes now cl n ttl /\ spec_acquire now (clamp_ttl ttl) n (a !! cl) = Some l)
         \/ (exists writes now src tgt se te tx ttl, c = CTransfer writes now cl src tgt se te tx ttl
             /\ spec_transfer now (clamp_ttl ttl) src tgt se te tx (a !! cl) = TMoved l)).
Proof.
  unfold spec_exec. destruct c as [writes now c' n ttl|writes now c' src tgt se te tx ttl]; cbn.
  - destruct (spec_acquire _ _ _ (a !! c')) as [l|] eqn:E; [|by left]. cbn.
    destruct (decide (c' = cl)) as [->|Hne]; [|left; by rewrite lookup_insert_ne].
    right. exists l. rewrite lookup_insert_eq. split; [done|]. left. eauto 10.
  - destruct (spec_transfer _ _ _ _ _ _ _ (a !! c')) as [| | |l] eqn:E; try by left.
    destruct (decide (c' = cl)) as [->|Hne]; [|left; by rewrite lookup_insert_ne].
    right. exists l. rewrite lookup_insert_eq. split; [done|]. right. eauto 12.
Qed.

(** A transfer needs a lease: without one it is fenced or replayed. *)
Lemma spec_transfer_none now ttl src tgt se te tx l :
  spec_transfer now ttl src tgt se te tx None = TMoved l -> src = "" /\ se = 0 /\ te = 1.
Proof.
  unfold spec_transfer. destruct (_ && _ && _ && _); [done|].
  destruct (_ || _ || _) eqn:E; [done|]. destruct (negb (te =? se + 1)) eqn:E2; [done|]. intros _.
  pyinv. change (holder_of None) with "" in *. change (epoch_of None) with 0 in *. split_and!; auto; lia.
Qed.

Lemma spec_exec_fences a c cl :
  epochs_ok a -> fences (a !! cl) (spec_exec a c !! cl).
Proof.
  intros Hok. assert (forall l0, a !! cl = Some l0 -> 1 <= l_epoch l0) as Hl by eauto.
  destruct (spec_exec_lookup a c cl) as [->|(l & -> & [(writes & now & n & ttl & -> & H)|(writes & now & src & tgt & se & te & tx & ttl & -> & H)])].
  - split; [lia|auto].
  - by eapply spec_acquire_fences.
  - by eapply spec_transfer_fences.
Qed.

Lemma spec_exec_epochs a c : epochs_ok a -> epochs_ok (spec_exec a c).
Proof.
  intros Hok cl l Hl.
  destruct (spec_exec_lookup a c cl) as [Heq|(l' & Heq & [(writes & now & n & ttl & -> & H)|(writes & now & src & tgt & se & te & tx & ttl & -> & H)])];
    rewrite Heq in Hl; [eauto|..]; injection Hl as ->.
  - eapply spec_acquire_fences; [|exact H]. eauto.
  - destruct (a !! cl) as [l0|] eqn:E.
    + eapply spec_transfer_fences; [|exact H|done]. intros l1 [= <-]. eauto.
    + pose proof (spec_transfer_none _ _ _ _ _ _ _ _ H) as (_ & _ & ->). revert H. unfold spec_transfer.
      destruct (_ && _ && _ && _); [done|]. destruct (_ || _ || _); [done|]. destruct (negb _); [done|]. by intros [= <-].
Qed.

Lemma fences_trans a b c :
  (b = None -> a = None) -> fences a b -> fences b c -> fences a c.
Proof.
  intros Hn [He1 Hh1] [He2 Hh2]. split; [lia|]. intros Heq.
  destruct (Hh1 ltac:(lia)) as [->|H1]; [by left|].
  destruct (Hh2 ltac:(lia)) as [->|H2]; [left; auto|]. right. congruence.
Qed.

Lemma spec_run_fences cs a cl :
  epochs_ok a -> let a' := fold_left spec_exec cs a in
  epochs_ok a' /\ fences (a !! cl) (a' !! cl) /\ (a' !! cl = None -> a !! cl = None).
Proof.
  revert a. induction cs as [|c cs IH]; intros a Hok; cbn.
  - split_and!; [done|split; [lia|auto]|done].
  - destruct (IH (spec_exec a c) (spec_exec_epochs _ _ Hok)) as (Hok' & Hf & Hn).
    assert (spec_exec a c !! cl = None -> a !! cl = None) as Hs.
    { destruct (spec_exec_lookup a c cl) as [->|(l & -> & _)]; done. }
    split_and!; [done| |auto]. eapply fences_trans; [..|exact Hf]; [done|]. by apply spec_exec_fences.
Qed.

Lemma epochs_ok_empty : epochs_ok ∅.
Proof. intros c l H. by rewrite lookup_empty in H. Qed.

(** The typed leases after a run from the empty store. *)
Definition leases_after (cs : list call) : gmap string lease := fold_left spec_exec cs ∅.

Lemma run_empty path cs : models (run (empty_store path) cs) (leases_after cs).
Proof. apply run_models, models_empty. Qed.

(** The leases in the file after a run from the empty store. *)
Definition filed_after (path : bool) (cs : list call) : option (gmap string lease) := filed path ∅ None cs.

Lemma run_filed path cs : (run (empty_store path) cs).(saved) = rendered_file (filed_after path cs).
Proof. by apply (run_saved (empty_store path) ∅ None cs (models_empty path)). Qed.

Lemma filed_path a f cs : filed false a f cs = f.
Proof. revert a. induction cs as [|c cs IH]; intros a; [done|]. apply IH. Qed.

Lemma dict_entries_document m : dict_entries (match document m with VDict d => d | _ => [] end) = m.
Proof.
  unfold document, dict_entries. rewrite <- (list_to_map_to_list m) at 2.
  assert (forall l acc, NoDup l.*1 ->
    (forall k, k ∈ l.*1 -> (acc : gmap string pydict) !! k = None) ->
    fold_left (fun acc kv => match snd kv with VDict v => <[fst kv:=v]> acc | _ => acc end)
      (map (fun kv => (fst kv, VDict (snd kv))) l) acc = list_to_map l ∪ acc) as H.
  { induction l as [|[k v] l IH]; intros acc Hnd Hacc; cbn.
    - by rewrite map_empty_union.
    - apply NoDup_cons in Hnd as [Hk Hnd]. rewrite IH; [|done|].
      + rewrite <- insert_union_r by (by apply not_elem_of_list_to_map_1).
        by rewrite insert_union_l.
      + intros k' Hk'. rewrite lookup_insert_ne by (intros ->; done). apply Hacc. by right. }
  rewrite H; [by rewrite map_union_empty|apply NoDup_fst_map_to_list|].
  intros k _. apply lookup_empty.
Qed.

(** ** Properties *)

Lemma restart_eq s : restart s =
  Ok {| has_path := s.(has_path); _leases := if s.(has_path) then default ∅ s.(saved) else ∅; saved := if s.(has_path) then s.(saved) else None |}.
Proof.
  unfold restart, init_store. destruct (has_path s), (saved s) as [m|]; try done.
  pose proof (dict_entries_document m) as E. unfold document in *. cbn [option_map _load mbind res_bind option_bind default]. by rewrite E.
Qed.

Lemma restart_models path cs :
  exists s', restart (run (empty_store path) cs) = Ok s' /\ models s' (default ∅ (filed_after path cs)).
Proof.
  rewrite restart_eq. eexists. split; [reflexivity|]. unfold models. cbn [_leases].
  rewrite (run_has_path _ _ _ (models_empty path)), run_filed. cbn [has_path empty_store]. destruct path.
  - destruct (filed_after true cs) as [m|]; cbn; [done|by rewrite fmap_empty].
  - unfold filed_after. rewrite filed_path. cbn. by rewrite fmap_empty.
Qed.

(** C4: refinement. From the empty store, after any sequence of acquisitions and
    transfers, each with the file writable or not, the store's JSON objects are the
    typed leases of the specification, the file has those of the last call that
    installed a lease while it could be written, and a witness that restarts holds
    exactly those. Both operations give exactly the answer and the store of the
    specification; one that installs a lease which cannot be saved raises instead
    of answering, with the lease installed in memory and the file as it was. *)
Theorem store_refines_specification path cs :
  let s := run (empty_store path) cs in
  let a := leases_after cs in
  models s a
  /\ s.(saved) = rendered_file (filed_after path cs)
  /\ (exists s', restart s = Ok s' /\ models s' (default ∅ (filed_after path cs)))
  /\ (forall writes now cl n ttl,
        acquire writes now cl n ttl s =
        match spec_acquire now (clamp_ttl ttl) n (a !! cl) with
        | Some l => (written writes s cl (render l),
                     if path && negb writes then Raise (OSError "write failed") else Ok (grant_answer now cl l))
        | None => (s, Ok (held_answer now cl (a !! cl)))
        end)
  /\ (forall writes now cl src tgt se te tx ttl,
        let out := spec_transfer now (clamp_ttl ttl) src tgt se te tx (a !! cl) in
        let answer := transfer_answer now cl tgt te tx (a !! cl) out in
        transfer writes now cl src tgt se te tx ttl s =
        match out with
        | TMoved l => (written writes s cl (render l), if path && negb writes then Raise (OSError "write failed") else Ok answer)
        | _ => (s, Ok answer)
        end).
Proof.
  cbn zeta. pose proof (run_empty path cs) as Hm. pose proof (run_has_path _ _ cs (models_empty path)) as Hp. cbn [has_path empty_store] in Hp.
  split_and!; [done|apply run_filed|apply restart_models| |]; intros.
  - rewrite (acquire_eq _ _ _ _ _ _ _ Hm). unfold if_saved. by rewrite Hp.
  - rewrite (transfer_eq _ _ _ _ _ _ _ _ _ _ _ Hm). unfold transfer_done, if_saved. rewrite Hp. by destruct (spec_transfer _ _ _ _ _ _ _ _).
Qed.

(** Fencing. Along any run of one witness a cluster's epoch never goes
    down, and two moments with the same epoch have the same holder: an epoch
    number is a fencing token that names one holder. *)
Theorem fencing_epoch_names_one_holder path cs1 cs2 cl :
  let s1 := run (empty_store path) cs1 in
  let s2 := run s1 cs2 in
  exists e1 e2,
    lease_int (lease_of s1 cl) "epoch" = Ok e1 /\ lease_int (lease_of s2 cl) "epoch" = Ok e2
    /\ e1 <= e2
    /\ (e1 = e2 -> s1.(_leases) !! cl = None
                   \/ lease_str (lease_of s1 cl) "holderNodeId" = lease_str (lease_of s2 cl) "holderNodeId").
Proof.
  cbn. pose proof (run_empty path cs1) as H1. pose proof (run_models _ _ cs2 H1) as H2.
  exists (epoch_of (leases_after cs1 !! cl)), (epoch_of (fold_left spec_exec cs2 (leases_after cs1) !! cl)).
  rewrite (epoch_models _ _ H1), (epoch_models _ _ H2), (holder_models _ _ H1), (holder_models _ _ H2).
  destruct (spec_run_fences cs1 ∅ cl epochs_ok_empty) as (Hok & _ & _).
  destruct (spec_run_fences cs2 _ cl Hok) as (_ & [He Hh] & _).
  split_and!; auto. intros [Heq|Hq]%Hh; [left|by right]. rewrite H1, lookup_fmap.
  unfold leases_after. by rewrite Heq.
Qed.

Lemma all_filed a f cs : Forall (fun c => call_writes c = true) cs -> default ∅ f = a -> default ∅ (filed true a f cs) = fold_left spec_exec cs a.
Proof.
  revert a f. induction cs as [|c cs IH]; intros a f Hall Hf; [done|]. inversion_clear Hall as [|? ? Hc Hcs]. cbn [filed fold_left]. apply IH; [done|]. rewrite Hc. cbn.
  case_bool_decide as Hi; [done|]. rewrite Hf. unfold spec_exec. destruct (installs a c) as [[cl l]|]; [destruct Hi; by eexists|done].
Qed.

(** Restart. A witness whose file could always be written holds, after it restarts,
    exactly the leases it held, whatever was granted or moved before. *)
Theorem restart_keeps_leases cs : Forall (fun c => call_writes c = true) cs ->
  let s := run (empty_store true) cs in
  exists s', restart s = Ok s' /\ s'.(_leases) = s.(_leases).
Proof.
  intros Hall s. destruct (restart_models true cs) as (s' & Hr & Hm). exists s'. split; [exact Hr|]. rewrite Hm. unfold s. rewrite (run_empty true cs).
  f_equal. by apply all_filed.
Qed.

(** A call that does not come from [n], made before [deadline] when it is an
    acquisition. *)
Definition foreign (cl n : string) (deadline : Z) (c : call) : Prop :=
  match c with
  | CAcquire _ now cl' m _ => cl' = cl -> m <> n /\ now < deadline
  | CTransfer _ _ cl' src _ _ _ _ _ => cl' = cl -> src <> n
  end.

Lemma spec_acquire_grant now ttl n o l :
  spec_acquire now ttl n o = Some l -> l_holder l = n /\ l_expires l = now + ttl.
Proof. unfold spec_acquire. intros H. repeat case_match; pyinv; by subst. Qed.

Lemma foreign_keeps a c cl l :
  a !! cl = Some l -> l_holder l <> "" -> foreign cl (l_holder l) (l_expires l) c ->
  spec_exec a c !! cl = Some l.
Proof.
  intros Ha Hne Hf.
  destruct (spec_exec_lookup a c cl) as [->|(l' & -> & [(writes & now & n & ttl & -> & H)|(writes & now & src & tgt & se & te & tx & ttl & -> & H)])];
    [done|..]; exfalso; rewrite Ha in H; specialize (Hf eq_refl).
  - destruct Hf as [Hm Ht]. unfold spec_acquire in H.
    rewrite (str_eqb_ne _ _ (not_eq_sym Hm)), (str_eqb_ne _ _ Hne) in H.
    cbn in H. destruct (Z.ltb_spec now (l_expires l)); [done|lia].
  - apply Hf. unfold spec_transfer in H. destruct (_ && _ && _ && _); [done|].
    destruct (_ || _ || _) eqn:E; [done|]. pyinv. by symmetry.
Qed.

(** Exclusion. Once a witness has granted a cluster to a node, then until
    the granted expiry no acquisition by another node and no transfer from
    another source changes that lease, in any number and order. *)
Theorem granted_lease_is_exclusive path cs writes now cl n ttl cs' :
  n <> "" ->
  let s := run (empty_store path) cs in
  let '(s1, answer) := acquire writes now cl n ttl s in
  (exists d, answer = Ok d /\ dget d "granted" = Some (VBool true)) ->
  Forall (foreign cl n (now + clamp_ttl ttl)) cs' ->
  lease_of (run s1 cs') cl = lease_of s1 cl
  /\ lease_str (lease_of s1 cl) "holderNodeId" = n
  /\ lease_int (lease_of s1 cl) "expiresAtUnixMs" = Ok (now + clamp_ttl ttl).
Proof.
  intros Hn. cbn. pose proof (run_empty path cs) as Hm. rewrite (acquire_eq _ _ _ _ _ _ _ Hm).
  destruct (spec_acquire _ _ _ _) as [l|] eqn:E; [|by intros (d & [= <-] & ?)].
  apply spec_acquire_grant in E as [Hh Hx]. intros _ Hcs.
  pose proof (models_written writes _ _ cl l Hm) as H1. set (s1 := written _ _ cl _) in *.
  set (a1 := <[cl:=l]> _) in *. assert (a1 !! cl = Some l) as Ha by apply lookup_insert_eq.
  rewrite (holder_models _ _ H1), (expires_models _ _ H1), Ha. cbn. rewrite Hh, Hx. split_and!; [|done..].
  pose proof (run_models _ _ cs' H1) as H2. rewrite (lease_of_models _ _ H1), (lease_of_models _ _ H2), Ha.
  assert (fold_left spec_exec cs' a1 !! cl = Some l) as ->; [|done].
  clear -Ha Hh Hx Hn Hcs. clearbody a1. revert a1 Ha. induction Hcs as [|c cs' Hc _ IH]; intros a Ha; cbn; [done|].
  apply IH. apply foreign_keeps; [done|congruence|by rewrite Hh, Hx].
Qed.

Lemma granted_lease_is_exclusive_witness :
  lease_of (run (fst (acquire true 1000 "show" "node-a" 3000 (run (empty_store true) [])))
              [CAcquire true 1500 "show" "node-b" 3000; CTransfer true 1600 "show" "node-b" "node-c" 1 2 7 3000;
               CAcquire true 3999 "show" "node-c" 500]) "show"
  = lease_of (fst (acquire true 1000 "show" "node-a" 3000 (run (empty_store true) []))) "show".
Proof.
  refine (proj1 (granted_lease_is_exclusive true [] true 1000 "show" "node-a" 3000
    [CAcquire true 1500 "show" "node-b" 3000; CTransfer true 1600 "show" "node-b" "node-c" 1 2 7 3000;
     CAcquire true 3999 "show" "node-c" 500] _ _ _)).
  - discriminate.
  - eexists; split; reflexivity.
  - repeat apply List.Forall_cons; try apply List.Forall_nil; intros _; try split; try discriminate; vm_compute; reflexivity.
Defined.

Lemma spec_transfer_retry writes now ttl now' ttl' src tgt se te tx a cl s :
  models s a ->
  let out := spec_transfer now ttl src tgt se te tx (a !! cl) in
  (out = TReplayed \/ exists l, out = TMoved l) ->
  exists a1, models (match out with TMoved l => written writes s cl (render l) | _ => s end) a1
    /\ spec_transfer now' ttl' src tgt se te tx (a1 !! cl) = TReplayed.
Proof.
  intros Hm. cbn. intros [H|[l H]]; rewrite H.
  - exists a. split; [done|]. unfold spec_transfer in *.
    destruct (_ && _ && _ && _); [done|]. by repeat case_match.
  - exists (<[cl:=l]> a). split; [by apply models_written|]. rewrite lookup_insert_eq.
    unfold spec_transfer in H. destruct (_ && _ && _ && _); [done|].
    repeat case_match; try done. injection H as <-. unfold spec_transfer; cbn.
    by rewrite !Z.eqb_refl, !str_eqb_refl.
Qed.

(** Idempotence. After a transfer that moved the lease, retrying it with
    the same transaction facts, at any later time and with any time to live,
    is granted as already transferred and leaves the store as it is. *)
Theorem transfer_retry_is_idempotent path cs writes now cl src tgt se te tx ttl writes' now' ttl' :
  let s := run (empty_store path) cs in
  let '(s1, answer) := transfer writes now cl src tgt se te tx ttl s in
  (exists d, answer = Ok d /\ dget d "granted" = Some (VBool true)) ->
  exists d, transfer writes' now' cl src tgt se te tx ttl' s1 = (s1, Ok d)
    /\ dget d "granted" = Some (VBool true) /\ dget d "idempotent" = Some (VBool true)
    /\ dget d "reason" = Some (VStr "already-transferred").
Proof.
  cbn zeta. pose proof (run_empty path cs) as Hm. rewrite (transfer_eq _ _ _ _ _ _ _ _ _ _ _ Hm).
  pose proof (spec_transfer_retry writes now (clamp_ttl ttl) now' (clamp_ttl ttl') src tgt se te tx _ cl _ Hm) as Hretry. cbn zeta in Hretry. unfold transfer_done.
  destruct (spec_transfer now _ _ _ _ _ _ _) as [| | |l] eqn:E; intros (d & Hd & Hg); [|by injection Hd as <-..|].
  all: destruct Hretry as (a1 & H1 & HR); [eauto|]; rewrite (transfer_eq _ _ _ _ _ _ _ _ _ _ _ H1), HR; eexists; split_and!; reflexivity.
Qed.

Lemma transfer_retry_is_idempotent_witness :
  exists d, transfer false 99999 "show" "node-a" "node-b" 1 2 7 500
      (fst (transfer true 1500 "show" "node-a" "node-b" 1 2 7 3000
             (run (empty_store true) [CAcquire true 1000 "show" "node-a" 3000])))
    = (fst (transfer true 1500 "show" "node-a" "node-b" 1 2 7 3000
             (run (empty_store true) [CAcquire true 1000 "show" "node-a" 3000])), Ok d)
    /\ dget d "granted" = Some (VBool true) /\ dget d "idempotent" = Some (VBool true)
    /\ dget d "reason" = Some (VStr "already-transferred").
Proof.
  refine (transfer_retry_is_idempotent true [CAcquire true 1000 "show" "node-a" 3000]
            true 1500 "show" "node-a" "node-b" 1 2 7 3000 false 99999 500 _).
  eexists; split; reflexivity.
Defined.

(** A transfer that could not be saved raises, but its retry is answered as already
    transferred without saving anything: a witness that then restarts holds the lease
    of the source again, which the answer said had moved. *)
Example unsaved_transfer_is_confirmed :
  let move writes s := transfer writes 1500 "show" "node-a" "node-b" 1 2 7 3000 s in
  let holder s := lease_str (lease_of s "show") "holderNodeId" in
  let s0 := run (empty_store true) [CAcquire true 1000 "show" "node-a" 3000] in
  let '(s1, first) := move false s0 in
  let '(s2, second) := move true s1 in
  first = Raise (OSError "write failed")
  /\ match second with Ok d => dget d "granted" = Some (VBool true) /\ dget d "reason" = Some (VStr "already-transferred") | Raise _ => False end
  /\ holder s2 = "node-b"
  /\ match restart s2 with Ok s3 => holder s3 = "node-a" | Raise _ => False end.
Proof. vm_compute. split_and!; reflexivity. Qed.

(** Recovery. A witness authorizes a fenced node to rejoin exactly when
    the lease it holds is the one that node's named transaction moved to the
    named target, at the epoch following the source epoch. *)
Theorem recovery_authorized_iff path cs now cl node tgt se te tx rid fence :
  let s := run (empty_store path) cs in
  exists d b, authorize_recovery now cl node tgt se te tx rid fence s = Ok d
    /\ dget d "authorized" = Some (VBool b)
    /\ (b = true <->
          node <> tgt /\ te = se + 1
          /\ lease_str (lease_of s cl) "holderNodeId" = tgt
          /\ lease_int (lease_of s cl) "epoch" = Ok te
          /\ lease_int (lease_of s cl) "lastTransferTransactionId" = Ok tx
          /\ lease_str (lease_of s cl) "lastTransferSourceNodeId" = node).
Proof.
  cbn. pose proof (run_empty path cs) as Hm. unfold authorize_recovery, recovery_authorized.
  rewrite_models Hm. set (o := leases_after cs !! cl).
  destruct (String.eqb_spec node tgt) as [->|Hnt]; cbn -[last_transfer].
  { eexists _, false; split_and!; [reflexivity|reflexivity|]. by split; [|intros (? & _)]. }
  destruct (String.eqb_spec (holder_of o) tgt) as [Hh|Hh]; cbn -[last_transfer].
  2: { eexists _, false; split_and!; [reflexivity|reflexivity|]. by split; [|intros (_ & _ & ? & _)]. }
  destruct (Z.eqb_spec (epoch_of o) te) as [He|He]; cbn -[last_transfer].
  2: { eexists _, false; split_and!; [reflexivity|reflexivity|]. by split; [|intros (_ & _ & _ & [= ?] & _)]. }
  eexists _, _; split_and!; [reflexivity|reflexivity|].
  rewrite !andb_true_iff, !Z.eqb_eq, String.eqb_eq, !res_eq_dec_ok. intuition.
Qed.
