(* ===== verification/WitnessQuorum.v ===== *)
(** * The witness quorum client (backend/witness.py, class WitnessQuorumClient)

    A node's view of its lease: collecting signed grants from every witness,
    counting a quorum, the irreversible transfer with its persistent fence, and
    the authorized recovery that lifts the fence. The network, the clock, the
    nonces and the file system answer through arguments: one [exchange] per
    witness holds the nonce sent, the reply and the clock read when the reply is
    examined. Locks make each method one step of the client. *)

From S2P Require Import Prelude PyStr PyFloat PyVal Json Sha256 ClusterSecrets WitnessAuth.

#[local] Open Scope string_scope.
#[local] Open Scope list_scope.
#[local] Open Scope Z_scope.
#[local] Open Scope st_scope.

Record WitnessResult := {
  r_url : string;
  r_granted : bool;
  r_epoch : Z;
  r_expires : Z;
  r_holder : option string;
  r_error : option string;
  r_witness_id : option string;
  r_failure_domain : option string;
  r_server_ms : Z;
  r_skew : option Z;
}.

(** [WitnessResult(url, False, error=text)]. *)
Definition failed_result (url error : string) : WitnessResult :=
  {| r_url := url; r_granted := false; r_epoch := 0; r_expires := 0; r_holder := None;
     r_error := Some error; r_witness_id := None; r_failure_domain := None; r_server_ms := 0; r_skew := None |}.

(** [result.__dict__]. *)
Definition result_dict (r : WitnessResult) : pyval :=
  VDict [("url", VStr r.(r_url)); ("granted", VBool r.(r_granted)); ("epoch", VInt r.(r_epoch));
         ("expires_at_unix_ms", VInt r.(r_expires)); ("holder_node_id", opt_str r.(r_holder));
         ("error", opt_str r.(r_error)); ("witness_id", opt_str r.(r_witness_id));
         ("failure_domain", opt_str r.(r_failure_domain)); ("server_unix_ms", VInt r.(r_server_ms));
         ("clock_skew_ms", opt_int r.(r_skew))].

Record endpoint := {
  ep_witness_id : string;
  ep_failure_domain : string;
  ep_keyring : RotatingHmacKeyring;
}.

Record config := {
  urls : list string;
  independent_mode : bool;
  configured_quorum : Z;
  max_clock_skew_ms : Z;
  endpoint_meta : list (string * endpoint);
  cluster_id : string;
  node_id : string;
  secret : string;
  keyring : option RotatingHmacKeyring;
  ttl_ms : Z;
  has_fence_path : bool;
}.

(** ** Construction *)

Definition http_url (url : string) : bool := starts_with "http://" url || starts_with "https://" url.

Definition clean_id (s default : string) : string := str_or (slice 64 (strip s)) default.

(** An entry of a loaded topology: URL, identity, failure domain, keyring. *)
Definition topology_entry : Type := string * string * string * RotatingHmacKeyring.

Definition entry_url (e : topology_entry) : string := let '(u, _, _, _) := e in rstrip_char "/"%char u.

Definition entry_meta (e : topology_entry) : string * endpoint :=
  let '(_, w, d, k) := e in
  (entry_url e, {| ep_witness_id := w; ep_failure_domain := d; ep_keyring := k |}).

Definition make_config (url_list : list string) (cluster node secret : string) (ttl : Z)
    (fence : bool) (ring : option RotatingHmacKeyring)
    (topology : option (Z * Z * list topology_entry)) : res config :=
  let us := match topology with
            | Some (_, _, es) => map entry_url es
            | None => map (rstrip_char "/"%char) (List.filter http_url url_list)
            end in
  if has_dup us then Raise (ValueError "duplicate witness URLs cannot count as independent votes")
  else Ok {|
    urls := us;
    independent_mode := match topology with Some _ => true | None => false end;
    configured_quorum := match topology with Some (q, _, _) => q | None => 0 end;
    max_clock_skew_ms := match topology with Some (_, k, _) => k | None => 0 end;
    endpoint_meta := match topology with Some (_, _, es) => fold_left (fun m kv => aput m (fst kv) (snd kv)) (map entry_meta es) [] | None => [] end;
    cluster_id := clean_id cluster "stageforge-local";
    node_id := clean_id node "node-local";
    secret := secret;
    keyring := ring;
    ttl_ms := Z.max 500 (Z.min ttl 60000);
    has_fence_path := fence |}.

Definition quorum_size (c : config) : Z :=
  if c.(independent_mode) then c.(configured_quorum)
  else match c.(urls) with [] => 0 | us => Z.of_nat (length us) / 2 + 1 end.

Definition configured (c : config) : bool :=
  match c.(urls) with
  | [] => false
  | us =>
      if c.(independent_mode) then
        Nat.eqb (length c.(endpoint_meta)) (length us)
        && forallb (fun kv => ring_configured (snd kv).(ep_keyring)) c.(endpoint_meta)
      else match c.(keyring) with
           | Some k => ring_configured k
           | None => negb (String.eqb c.(secret) "")
           end
  end.

(** ** The client's state *)

(** The fence marker as the file system shows it. *)
Record fence_file := { ff_raw : string; ff_regular : bool; ff_identity : Z * Z }.

Inductive fence_view :=
| FAbsent
| FPresent (f : fence_file)
| FInaccessible.

Record client := {
  acquisition_suspended : bool;
  lease_epoch : Z;
  lease_expires_at : Z;
  last_attempt_at : Z;
  last_results : list WitnessResult;
  fence : fence_view;
  receipt_present : bool;
}.

Abbreviation op := (st client).

(** [_fence_present]: inaccessible evidence counts as a fence. *)
Definition _fence_present (cf : config) (f : fence_view) : bool :=
  cf.(has_fence_path) && match f with FAbsent => false | _ => true end.

Definition init_client (cf : config) (f : fence_view) (receipt : bool) : client :=
  {| acquisition_suspended := _fence_present cf f; lease_epoch := 0; lease_expires_at := 0;
     last_attempt_at := 0; last_results := []; fence := f; receipt_present := receipt |}.

Definition set_results (now : Z) (rs : list WitnessResult) (c : client) : client :=
  {| acquisition_suspended := c.(acquisition_suspended); lease_epoch := c.(lease_epoch);
     lease_expires_at := c.(lease_expires_at); last_attempt_at := now; last_results := rs;
     fence := c.(fence); receipt_present := c.(receipt_present) |}.

Definition set_lease (expires epoch : Z) (c : client) : client :=
  {| acquisition_suspended := c.(acquisition_suspended); lease_epoch := epoch;
     lease_expires_at := expires; last_attempt_at := c.(last_attempt_at); last_results := c.(last_results);
     fence := c.(fence); receipt_present := c.(receipt_present) |}.

Definition set_suspended (b : bool) (c : client) : client :=
  {| acquisition_suspended := b; lease_epoch := c.(lease_epoch);
     lease_expires_at := c.(lease_expires_at); last_attempt_at := c.(last_attempt_at);
     last_results := c.(last_results); fence := c.(fence); receipt_present := c.(receipt_present) |}.

Definition set_fence (f : fence_view) (c : client) : client :=
  {| acquisition_suspended := c.(acquisition_suspended); lease_epoch := c.(lease_epoch);
     lease_expires_at := c.(lease_expires_at); last_attempt_at := c.(last_attempt_at);
     last_results := c.(last_results); fence := f; receipt_present := c.(receipt_present) |}.

Definition set_receipt (c : client) : client :=
  {| acquisition_suspended := c.(acquisition_suspended); lease_epoch := c.(lease_epoch);
     lease_expires_at := c.(lease_expires_at); last_attempt_at := c.(last_attempt_at);
     last_results := c.(last_results); fence := c.(fence); receipt_present := true |}.

(** ** Authentication of one operation *)

(** The snapshots an operation pins before its first request. *)
Inductive pinned :=
| PinShared (s : HmacKeySnapshot)
| PinEach (l : list (string * HmacKeySnapshot)).

Section with_files.
Context (euid : Z) (files : string -> file_view).

Definition _auth_snapshot (cf : config) : res HmacKeySnapshot :=
  match cf.(keyring) with
  | Some k => snapshot euid files k
  | None =>
      Ok {| active_key_id := None;
            keys := if String.eqb cf.(secret) "" then [] else [("legacy", cf.(secret))];
            keyring_mode := false |}
  end.

Definition endpoint_snapshot (cf : config) (url : string) : res HmacKeySnapshot :=
  match alookup cf.(endpoint_meta) url with
  | Some m => snapshot euid files m.(ep_keyring)
  | None => Raise (KeyError url)
  end.

Definition _pin_operation_auth (cf : config) : res pinned :=
  if cf.(independent_mode) then
    l ← map_res (fun url => s ← endpoint_snapshot cf url; Ok (url, s)) cf.(urls);
    Ok (PinEach l)
  else s ← _auth_snapshot cf; Ok (PinShared s).
End with_files.

Definition _auth_for_url (p : pinned) (url : string) : res HmacKeySnapshot :=
  match p with
  | PinShared s => Ok s
  | PinEach l => match alookup l url with Some s => Ok s | None => Raise (KeyError url) end
  end.

(** The signed body, the secret that signed it and the key identifier. *)
Definition _signed_body (payload : pydict) (auth : HmacKeySnapshot) : res (pydict * string * option string) :=
  if negb (snapshot_configured auth) then Raise (PermissionError "witness authentication required")
  else
    let key_id := if auth.(keyring_mode) then auth.(active_key_id) else None in
    let body := match key_id with Some k => dset payload "keyId" (VStr k) | None => payload end in
    sec ← active_secret auth;
    Ok (dset body "hmacSha256" (VStr (sign_request body sec)), sec, key_id).

(** ** One exchange with a witness *)

Inductive reply :=
| RHttpError (code : Z)
| RFailed (e : exn)
| RBody (bytes : string).

Record exchange := { x_nonce : string; x_reply : reply; x_now : Z }.

(** [str(getattr(exc, "reason", exc))]; the texts of built-in errors are abbreviated. *)
Definition exn_text (e : exn) : string :=
  match e with
  | ValueError m | PermissionError m | OSError m | RuntimeError m => m
  | KeyError k => repr_str k
  | TypeError => "TypeError"
  | AttributeError => "AttributeError"
  | IndexError => "IndexError"
  | OverflowError => "OverflowError"
  | ZeroDivisionError => "ZeroDivisionError"
  | StructError => "struct.error"
  | RevisionConflict _ _ s => s
  end.

(** [except (URLError, OSError, TimeoutError, ValueError, TypeError)]. *)
Definition exchange_caught (e : exn) : bool := is_os_error e || type_or_value e.

(** [raw = json.loads(response.read(16384).decode("utf-8"))]. *)
Definition read_reply (r : reply) : res pyval :=
  match r with
  | RBody bytes => text ← utf8_decode (slice (Z.to_nat 16384) bytes); loads text
  | RFailed e => Raise e
  | RHttpError _ => Raise (OSError "HTTPError")
  end.

Definition opt_text (v : pyval) : option string := match v with VNone => None | _ => Some (py_str v) end.

Definition _response_identity (cf : config) (now : Z) (url : string) (raw : pydict)
    : res (option string * option string * Z * option Z) :=
  let server := dget_none raw "serverUnixMs" in
  let witness := dget_none raw "witnessId" in
  let domain := dget_none raw "failureDomain" in
  match cf.(independent_mode), server with
  | true, VInt ms =>
      if ms <=? 0 then Raise (ValueError "witness response missing server clock")
      else
        match alookup cf.(endpoint_meta) url with
        | None => Raise (KeyError url)
        | Some expected =>
            if negb (py_eq witness (VStr expected.(ep_witness_id)))
               || negb (py_eq domain (VStr expected.(ep_failure_domain)))
            then Raise (ValueError "witness identity/failure-domain mismatch")
            else if cf.(max_clock_skew_ms) <? Z.abs (ms - now)
            then Raise (ValueError "witness clock skew exceeds configured bound")
            else Ok (Some (py_str witness), Some (py_str domain), ms, Some (Z.abs (ms - now)))
        end
  | true, _ => Raise (ValueError "witness response missing server clock")
  | false, VInt ms =>
      if 0 <? ms then Ok (opt_text witness, opt_text domain, ms, Some (Z.abs (ms - now)))
      else Ok (opt_text witness, opt_text domain, 0, None)
  | false, _ => Ok (opt_text witness, opt_text domain, 0, None)
  end.

(** [type(v) is int and v > 0]. *)
Definition positive_int (v : pyval) : bool := match v with VInt z => 0 <? z | _ => false end.

Definition _parse_result (cf : config) (now : Z) (url : string) (raw : pydict) (holder : string)
    (transaction_id : option Z) : res WitnessResult :=
  match dget_none raw "granted" with
  | VBool granted =>
      if negb (py_eq (dget_none raw "clusterId") (VStr cf.(cluster_id)))
      then Raise (ValueError "witness cluster mismatch")
      else
        '(witness, domain, server_ms, skew) ← _response_identity cf now url raw;
        if negb granted then
          Ok {| r_url := url; r_granted := false; r_epoch := 0; r_expires := 0; r_holder := None;
                r_error := Some (slice 200 (py_str (dget_or raw "reason" (VStr "denied"))));
                r_witness_id := witness; r_failure_domain := domain; r_server_ms := server_ms; r_skew := skew |}
        else if negb (py_eq (dget_none raw "holderNodeId") (VStr holder))
        then Raise (ValueError "witness holder mismatch")
        else if negb (positive_int (dget_none raw "epoch")) || negb (positive_int (dget_none raw "expiresAtUnixMs"))
        then Raise (ValueError "malformed witness fencing value")
        else if match transaction_id with
                | Some tx => negb (is_int (dget_none raw "transactionId")
                                   && py_eq (dget_none raw "transactionId") (VInt tx))
                | None => false
                end
        then Raise (ValueError "witness transaction mismatch")
        else Ok {| r_url := url; r_granted := true; r_epoch := dint raw "epoch";
                   r_expires := dint raw "expiresAtUnixMs"; r_holder := Some holder; r_error := None;
                   r_witness_id := witness; r_failure_domain := domain; r_server_ms := server_ms; r_skew := skew |}
  | _ => Raise (ValueError "malformed witness grant")
  end.

(** The common shape of [_one], [_transfer_one] and [_recover_one]: sign, post,
    read, verify, interpret; network and protocol failures become a result. *)
Definition ask (p : pinned) (url operation : string) (payload : pydict) (x : exchange)
    (interpret : pydict -> res WitnessResult) : res WitnessResult :=
  auth ← _auth_for_url p url;
  '(body, sec, key_id) ← _signed_body payload auth;
  match x.(x_reply) with
  | RHttpError code => Ok (failed_result url ("HTTP " +:+ dec code))
  | _ =>
      catch exchange_caught
        (raw ← read_reply x.(x_reply);
         d ← verify_response raw body operation sec key_id;
         interpret d)
        (fun e => Ok (failed_result url (slice 200 (exn_text e))))
  end.

Definition acquire_payload (cf : config) (nonce : string) : pydict :=
  [("protocolVersion", VInt 1); ("clusterId", VStr cf.(cluster_id)); ("nodeId", VStr cf.(node_id));
   ("ttlMs", VInt cf.(ttl_ms)); ("nonce", VStr nonce)].

Definition _one (cf : config) (p : pinned) (ux : string * exchange) : res WitnessResult :=
  let '(url, x) := ux in
  ask p url "acquire" (acquire_payload cf x.(x_nonce)) x
    (fun d => _parse_result cf x.(x_now) url d cf.(node_id) None).

Record transfer_facts := {
  tf_target : string; tf_source_epoch : Z; tf_target_epoch : Z; tf_transaction : Z;
}.

Definition transfer_body (cf : config) (t : transfer_facts) : pydict :=
  [("protocolVersion", VInt 1); ("clusterId", VStr cf.(cluster_id)); ("sourceNodeId", VStr cf.(node_id));
   ("targetNodeId", VStr t.(tf_target)); ("sourceEpoch", VInt t.(tf_source_epoch));
   ("targetEpoch", VInt t.(tf_target_epoch)); ("transactionId", VInt t.(tf_transaction));
   ("ttlMs", VInt cf.(ttl_ms))].

Definition _transfer_one (cf : config) (p : pinned) (t : transfer_facts) (ux : string * exchange)
    : res WitnessResult :=
  let '(url, x) := ux in
  ask p url "transfer" (dset (transfer_body cf t) "nonce" (VStr x.(x_nonce))) x
    (fun d => _parse_result cf x.(x_now) url d t.(tf_target) (Some t.(tf_transaction))).

Definition interpret_recovery (cf : config) (now : Z) (url : string) (payload d : pydict) : res WitnessResult :=
  match dget_none d "authorized" with
  | VBool b =>
      if negb (py_eq (dget_none d "clusterId") (VStr cf.(cluster_id)))
         || negb (py_eq (dget_none d "nodeId") (VStr cf.(node_id)))
         || negb (py_eq (dget_none d "recoveryId") (dget_none payload "recoveryId"))
         || negb (py_eq (dget_none d "fenceDigest") (dget_none payload "fenceDigest"))
      then Raise (ValueError "malformed witness recovery authorization")
      else
        '(witness, domain, server_ms, skew) ← _response_identity cf now url d;
        epoch ← py_int (py_or (dget_or d "targetEpoch" (VInt 0)) (VInt 0));
        Ok {| r_url := url; r_granted := b; r_epoch := epoch; r_expires := 0; r_holder := Some cf.(node_id);
              r_error := if b then None else Some (slice 200 (py_str (dget_or d "reason" (VStr "denied"))));
              r_witness_id := witness; r_failure_domain := domain; r_server_ms := server_ms; r_skew := skew |}
  | _ => Raise (ValueError "malformed witness recovery authorization")
  end.

Definition _recover_one (cf : config) (p : pinned) (payload : pydict) (ux : string * exchange)
    : res WitnessResult :=
  let '(url, x) := ux in
  ask p url "recover" (dset payload "nonce" (VStr x.(x_nonce))) x
    (interpret_recovery cf x.(x_now) url payload).

(** [try: results = [...] except PermissionError: every URL reports the error]. *)
Definition collect {A} (cf : config) (m : res A) (each : A -> string * exchange -> res WitnessResult)
    (xs : list exchange) : res (list WitnessResult) :=
  catch is_permission_error
    (p ← m; map_res (each p) (combine cf.(urls) xs))
    (fun e => Ok (map (fun url => failed_result url (exn_text e)) cf.(urls))).

(** ** Reading the client *)

Definition status (cf : config) (now : Z) (c : client) : pydict :=
  let metas := List.map (fun url => alookup cf.(endpoint_meta) url) cf.(urls) in
  let field f := map (fun m => opt_str (option_map f m)) metas in
  [("configured", VBool (configured cf)); ("independentMode", VBool cf.(independent_mode));
   ("independentWitnessIds", VList (if cf.(independent_mode) then field ep_witness_id else []));
   ("declaredFailureDomains", VList (if cf.(independent_mode) then field ep_failure_domain else []));
   ("maxClockSkewMs", if cf.(independent_mode) then VInt cf.(max_clock_skew_ms) else VNone);
   ("physicalIndependenceQualified", VBool false);
   ("clusterId", VStr cf.(cluster_id)); ("nodeId", VStr cf.(node_id));
   ("witnesses", VInt (Z.of_nat (length cf.(urls)))); ("quorum", VInt (quorum_size cf));
   ("leaseValid", VBool (negb c.(acquisition_suspended) && (now <? c.(lease_expires_at))));
   ("acquisitionSuspended", VBool c.(acquisition_suspended));
   ("recoveryReceiptPresent", VBool (cf.(has_fence_path) && c.(receipt_present)));
   ("leaseEpoch", VInt c.(lease_epoch));
   ("leaseExpiresInMs", if c.(lease_expires_at) =? 0 then VNone else VInt (Z.max 0 (c.(lease_expires_at) - now)));
   ("lastAttemptAgeMs", if c.(last_attempt_at) =? 0 then VNone else VInt (Z.max 0 (now - c.(last_attempt_at))));
   ("results", VList (map result_dict c.(last_results)))].

Definition valid (cf : config) (now safety_margin_ms : Z) (c : client) : bool :=
  configured cf && negb c.(acquisition_suspended)
  && (now + Z.max 0 safety_margin_ms <? c.(lease_expires_at)).

(** ** Acquisition *)

Definition grants_for (cf : config) (now : Z) (rs : list WitnessResult) : list WitnessResult :=
  List.filter (fun r => r.(r_granted) && bool_decide (r.(r_holder) = Some cf.(node_id)) && (now <? r.(r_expires))) rs.

(** [sorted(grants, key=expires, reverse=True)], a stable sort. *)
Fixpoint insert_desc (x : WitnessResult) (l : list WitnessResult) : list WitnessResult :=
  match l with
  | [] => [x]
  | y :: l' => if y.(r_expires) <? x.(r_expires) then x :: y :: l' else y :: insert_desc x l'
  end.

Definition sort_desc (l : list WitnessResult) : list WitnessResult :=
  fold_left (fun acc x => insert_desc x acc) l [].

Definition select_quorum (quorum : Z) (grants : list WitnessResult) : list WitnessResult :=
  firstn (Z.to_nat quorum) (sort_desc grants).

(** [min] and [max] of a non-empty list. *)
Definition min_of (l : list Z) : Z := match l with [] => 0 | x :: l' => fold_left Z.min l' x end.
Definition max_of (l : list Z) : Z := match l with [] => 0 | x :: l' => fold_left Z.max l' x end.

(** The state after the results of an acquisition round are in. *)
Definition settle (cf : config) (now : Z) (rs : list WitnessResult) (c : client) : client :=
  let grants := grants_for cf now rs in
  let quorum := quorum_size cf in
  let c1 := set_results now rs c in
  if (quorum <=? Z.of_nat (length grants)) && (0 <? quorum) then
    let selected := select_quorum quorum grants in
    set_lease (min_of (map r_expires selected)) (Z.max c.(lease_epoch) (max_of (map r_epoch selected))) c1
  else c1.

Section with_files.
Context (euid : Z) (files : string -> file_view).

Definition _acquire_locked (cf : config) (xs : list exchange) (now status_now : Z) : op pydict :=
  let* results := st_lift (collect cf (_pin_operation_auth euid files cf) (_one cf) xs) in
  let* _ := st_modify (settle cf now results) in
  let* c := st_get in
  st_ret (status cf status_now c).

Definition acquire (cf : config) (xs : list exchange) (now status_now : Z) : op pydict :=
  let* c := st_get in
  if c.(acquisition_suspended) then st_ret (status cf status_now c)
  else _acquire_locked cf xs now status_now.

(** ** Transfer *)

Definition fence_document (cf : config) (t : transfer_facts) : pydict :=
  dmerge [("documentType", VStr "org.upp.handoff-acquisition-fence")] (transfer_body cf t).

(** Exclusive creation of the marker: an existing one is never overwritten. *)
Definition _persist_transfer_fence (cf : config) (t : transfer_facts) (identity : Z * Z) : op unit :=
  if negb cf.(has_fence_path) then st_ret tt
  else
    let* c := st_get in
    match c.(fence) with
    | FAbsent =>
        st_modify (set_fence (FPresent {| ff_raw := json_dump_default (VDict (fence_document cf t));
                                          ff_regular := true; ff_identity := identity |}))
    | FPresent _ => st_raise (RuntimeError "persistent handoff fence already exists; recovery required")
    | FInaccessible => st_raise (OSError "open")
    end.

Definition transfer_grants (now : Z) (t : transfer_facts) (rs : list WitnessResult) : list WitnessResult :=
  List.filter (fun r => r.(r_granted) && bool_decide (r.(r_holder) = Some t.(tf_target))
                        && (r.(r_epoch) =? t.(tf_target_epoch)) && (now <? r.(r_expires))) rs.

Definition transfer (cf : config) (t : transfer_facts) (identity : Z * Z) (xs : list exchange)
    (now attempt_now : Z) : op pydict :=
  let* _ := st_modify (fun c => set_suspended true (set_lease 0 c.(lease_epoch) c)) in
  let* _ := _persist_transfer_fence cf t identity in
  let* results := st_lift (collect cf (_pin_operation_auth euid files cf)
                             (fun p ux => _transfer_one cf p t ux) xs) in
  let grants := Z.of_nat (length (transfer_grants now t results)) in
  let quorum := quorum_size cf in
  let* _ := st_modify (set_results attempt_now results) in
  st_ret [("transferred", VBool ((quorum <=? grants) && (0 <? quorum))); ("clusterId", VStr cf.(cluster_id));
          ("sourceNodeId", VStr cf.(node_id)); ("targetNodeId", VStr t.(tf_target));
          ("sourceEpoch", VInt t.(tf_source_epoch)); ("targetEpoch", VInt t.(tf_target_epoch));
          ("transactionId", VInt t.(tf_transaction)); ("witnesses", VInt (Z.of_nat (length cf.(urls))));
          ("quorum", VInt quorum); ("grants", VInt grants); ("results", VList (map result_dict results))].

(** ** Recovery *)

Definition bad_fence : exn := RuntimeError "recovery fence is unreadable or malformed".

Definition recovery_keys : list string :=
  ["clusterId"; "sourceNodeId"; "targetNodeId"; "sourceEpoch"; "targetEpoch"; "transactionId"].

(** The marker, its digest and its identity. *)
Definition _recovery_facts (cf : config) (f : fence_view) : res (pydict * string * (Z * Z)) :=
  if negb cf.(has_fence_path) then Raise (RuntimeError "persistent recovery requires a configured fence path")
  else match f with
  | FAbsent | FInaccessible => Raise bad_fence
  | FPresent file =>
      let raw := slice (Z.to_nat 65537) file.(ff_raw) in
      if negb file.(ff_regular) || (65536 <? str_len raw)
      then Raise (RuntimeError "recovery fence must be a bounded regular file")
      else
        marker ← catch (fun e => is_os_error e || is_value_error e)
                   (text ← utf8_decode raw; loads text) (fun _ => Raise bad_fence);
        match marker with
        | VDict m =>
            if negb (py_eq (dget_none m "documentType") (VStr "org.upp.handoff-acquisition-fence"))
               || negb (forallb (dhas m) recovery_keys)
               || negb (py_eq (dget_none m "clusterId") (VStr cf.(cluster_id)))
               || negb (py_eq (dget_none m "sourceNodeId") (VStr cf.(node_id)))
            then Raise (RuntimeError "recovery fence identity does not match this node")
            else Ok (m, sha256_hex raw, file.(ff_identity))
        | _ => Raise AttributeError
        end
  end.

Definition recovery_request_body (cf : config) (recovery_id : string) (marker : pydict) (digest : string)
    : res pydict :=
  source ← dindex marker "sourceNodeId";
  target ← dindex marker "targetNodeId";
  v1 ← dindex marker "sourceEpoch"; source_epoch ← py_int v1;
  v2 ← dindex marker "targetEpoch"; target_epoch ← py_int v2;
  v3 ← dindex marker "transactionId"; tx ← py_int v3;
  Ok [("protocolVersion", VInt 1); ("clusterId", VStr cf.(cluster_id)); ("nodeId", VStr cf.(node_id));
      ("sourceNodeId", source); ("targetNodeId", target); ("sourceEpoch", VInt source_epoch);
      ("targetEpoch", VInt target_epoch); ("transactionId", VInt tx);
      ("recoveryId", VStr recovery_id); ("fenceDigest", VStr digest)].

Definition recovery_grants (payload : pydict) (rs : list WitnessResult) : list WitnessResult :=
  List.filter (fun r => r.(r_granted) && (r.(r_epoch) =? dint payload "targetEpoch")) rs.

(** The second look at the marker, just before it is removed. *)
Definition fence_unchanged (identity : Z * Z) (digest : string) (f : fence_view) : bool :=
  match f with
  | FPresent file => bool_decide (file.(ff_identity) = identity)
                     && String.eqb (sha256_hex (slice (Z.to_nat 65537) file.(ff_raw))) digest
  | _ => false
  end.

(** [temp_exists]: an earlier receipt left its temporary file behind, so its
    exclusive creation fails. [fence_later]: the marker when it is looked at again. *)
Definition recover (cf : config) (recovery_id : string) (xs : list exchange) (temp_exists : bool)
    (fence_later : fence_view) (attempt_now : Z) : op pydict :=
  let rid := strip recovery_id in
  if String.eqb rid "" || (128 <? str_len rid)
  then st_raise (ValueError "recoveryId must contain 1..128 characters")
  else
    let* c := st_get in
    if negb c.(acquisition_suspended) then st_raise (RuntimeError "node has no active acquisition fence")
    else if negb (configured cf) then st_raise (RuntimeError "authorized recovery requires configured witness quorum")
    else
      let* facts := st_lift (_recovery_facts cf c.(fence)) in
      let '(marker, digest, identity) := facts in
      let* payload := st_lift (recovery_request_body cf rid marker digest) in
      let* results := st_lift (collect cf (_pin_operation_auth euid files cf)
                                 (fun p ux => _recover_one cf p payload ux) xs) in
      let grants := Z.of_nat (length (recovery_grants payload results)) in
      let quorum := quorum_size cf in
      if grants <? quorum then
        st_ret [("recovered", VBool false); ("recoveryId", VStr rid); ("grants", VInt grants);
                ("quorum", VInt quorum); ("results", VList (map result_dict results));
                ("acquisitionSuspended", VBool true); ("physicalOutputsArmed", VBool false)]
      else if (temp_exists : bool) then st_raise (OSError "FileExistsError")
      else
        let* _ := st_modify (fun c => set_fence fence_later (set_receipt c)) in
        if negb (fence_unchanged identity digest fence_later) then
          match fence_later with
          | FPresent _ => st_raise (RuntimeError "recovery fence changed before removal")
          | _ => st_raise (OSError "open")
          end
        else
          let* _ := st_modify (fun c => set_results attempt_now results
                                          (set_lease 0 0 (set_suspended false (set_fence FAbsent c)))) in
          st_ret [("recovered", VBool true); ("recoveryId", VStr rid); ("grants", VInt grants);
                  ("quorum", VInt quorum); ("receiptPersisted", VBool true); ("startsAsStandby", VBool true);
                  ("acquisitionSuspended", VBool false); ("physicalOutputsArmed", VBool false)].
End with_files.
