(* ===== verification/WitnessLease.v ===== *)
(** * What a node's lease rests on (backend/witness.py, class WitnessQuorumClient)

    A vote is a response signed for this very request; a lease is held only on
    the votes of a quorum of distinct witnesses and no longer than each of them;
    a transfer suspends the node, and only an authorized recovery ends that. *)

From S2P Require Import Prelude PyStr PyFloat PyVal PyFacts Json Sha256 ClusterSecrets WitnessAuth.
From S2P Require Import StateLogic WitnessQuorum.
From Stdlib Require Import Permutation.

#[local] Open Scope string_scope.
#[local] Open Scope list_scope.
#[local] Open Scope Z_scope.
#[local] Open Scope st_scope.

(** ** Votes *)

Lemma ask_granted p url operation payload x interpret r :
  ask p url operation payload x interpret = Ok r -> r.(r_granted) = true ->
  exists auth body sec key d, _auth_for_url p url = Ok auth /\ _signed_body payload auth = Ok (body, sec, key)
    /\ response_ok d body operation sec key /\ interpret d = Ok r.
Proof.
  unfold ask. intros H Hg. apply bind_ok in H as (auth & Ha & H). apply bind_ok in H as ([[body sec] key] & Hb & H).
  exists auth, body, sec, key.
  assert (Hc : catch exchange_caught (raw ← read_reply x.(x_reply); d ← verify_response raw body operation sec key;
                 interpret d) (fun e => Ok (failed_result url (slice 200 (exn_text e)))) = Ok r).
  { destruct (x_reply x); [by injection H as <-|done|done]. }
  apply catch_ok in Hc as [Hc|(e & _ & _ & Hc)]; [|by injection Hc as <-].
  apply bind_ok in Hc as (raw & _ & Hc). apply bind_ok in Hc as (d & Hv & Hc).
  apply verify_response_iff in Hv as [_ Hv]. by exists d.
Qed.

(** The fields of the signed response a granted result repeats. *)
Definition vote_of (cf : config) (url holder : string) (d : pydict) (r : WitnessResult) : Prop :=
  dget_none d "granted" = VBool true /\ dget_none d "clusterId" = VStr cf.(cluster_id)
  /\ dget_none d "holderNodeId" = VStr holder /\ dget_none d "epoch" = VInt r.(r_epoch)
  /\ dget_none d "expiresAtUnixMs" = VInt r.(r_expires) /\ 0 < r.(r_epoch) /\ 0 < r.(r_expires)
  /\ r.(r_url) = url /\ r.(r_holder) = Some holder.

Lemma positive_int_dint d k : positive_int (dget_none d k) = true ->
  dget_none d k = VInt (dint d k) /\ 0 < dint d k.
Proof.
  unfold positive_int, dint, dget_none, dget_or. destruct (dget d k) as [[]|]; try done. intros H. pyinv. done.
Qed.

Lemma parse_result_granted cf now url d holder tx r :
  _parse_result cf now url d holder tx = Ok r -> r.(r_granted) = true -> vote_of cf url holder d r.
Proof.
  unfold _parse_result. intros H Hg. destruct (dget_none d "granted") as [|b| | | | |] eqn:Eg; try done.
  destruct (negb (py_eq _ _)) eqn:Ec; [done|].
  apply bind_ok in H as ([[[w dom] ms] skew] & _ & H). destruct b; cbn [negb] in H; [|by injection H as <-].
  destruct (negb (py_eq (dget_none d "holderNodeId") _)) eqn:Eh; [done|].
  destruct (negb _ || negb _) eqn:Ep; [done|]. destruct (match tx with Some _ => _ | None => _ end); [done|].
  injection H as <-. pyinv. unfold vote_of; cbn.
  rewrite py_eq_str in Ec, Eh.
  repeat match goal with H : positive_int _ = true |- _ => apply positive_int_dint in H as [? ?] end. done.
Qed.

(** A granted vote in an acquisition round is backed by a response signed, under the secret pinned for that
    witness, for exactly the request this node sent there (its cluster, node and fresh nonce), and it repeats the
    epoch and expiry that response granted to this node. *)
Theorem granted_vote_is_signed cf p url x r :
  _one cf p (url, x) = Ok r -> r.(r_granted) = true ->
  exists auth body sec key d,
    _auth_for_url p url = Ok auth /\ _signed_body (acquire_payload cf x.(x_nonce)) auth = Ok (body, sec, key)
    /\ response_ok d body "acquire" sec key /\ vote_of cf url cf.(node_id) d r.
Proof.
  unfold _one. intros H Hg. destruct (ask_granted _ _ _ _ _ _ _ H Hg) as (auth & body & sec & key & d & ? & ? & ? & Hi).
  exists auth, body, sec, key, d. split_and!; try done. by apply parse_result_granted in Hi.
Qed.

(** ** Quorums *)

Lemma insert_desc_perm x l : insert_desc x l ≡ₚ x :: l.
Proof. induction l as [|y l IH]; cbn; [done|]. destruct (_ <? _); [done|]. rewrite IH. constructor. Qed.

Lemma sort_desc_perm l : sort_desc l ≡ₚ l.
Proof.
  unfold sort_desc. enough (H : forall acc, fold_left (fun acc x => insert_desc x acc) l acc ≡ₚ l ++ acc)
    by (by rewrite H, app_nil_r).
  induction l as [|x l IH]; intros acc; cbn; [done|]. rewrite IH, insert_desc_perm. symmetry. apply Permutation_middle.
Qed.

Lemma fold_min_le l x : fold_left Z.min l x <= x /\ Forall (fun y => fold_left Z.min l x <= y) l.
Proof.
  revert x. induction l as [|y l IH]; intros x; cbn; [split; [lia|constructor]|].
  destruct (IH (Z.min x y)) as [H1 H2]. split; [lia|]. constructor; [lia|done].
Qed.

Lemma fold_max_ge l x : x <= fold_left Z.max l x /\ Forall (fun y => y <= fold_left Z.max l x) l.
Proof.
  revert x. induction l as [|y l IH]; intros x; cbn; [split; [lia|constructor]|].
  destruct (IH (Z.max x y)) as [H1 H2]. split; [lia|]. constructor; [lia|done].
Qed.

Lemma min_of_le l : Forall (fun y => min_of l <= y) l.
Proof. destruct l as [|x l]; [constructor|]. destruct (fold_min_le l x). by constructor. Qed.

Lemma max_of_ge l : Forall (fun y => y <= max_of l) l.
Proof. destruct l as [|x l]; [constructor|]. destruct (fold_max_ge l x). by constructor. Qed.

Lemma min_of_gt b l : l <> [] -> Forall (fun y => b < y) l -> b < min_of l.
Proof.
  destruct l as [|x l]; [done|]. intros _ [Hx Hl]%Forall_cons. cbn. revert x Hx.
  induction Hl as [|y l Hy Hl IH]; intros x Hx; cbn; [done|]. apply IH. lia.
Qed.

(** The votes of distinct witnesses that carry a lease until [expires]. *)
Definition carried_by (cf : config) (now expires epoch : Z) (rs votes : list WitnessResult) : Prop :=
  NoDup (map r_url votes) /\ Z.of_nat (length votes) = quorum_size cf
  /\ Forall (fun v => v ∈ rs /\ v.(r_granted) = true /\ v.(r_holder) = Some cf.(node_id) /\ now < v.(r_expires)
                      /\ expires <= v.(r_expires) /\ v.(r_epoch) <= epoch) votes.

Lemma submseteq_NoDup {A} (l k : list A) : l ⊆+ k -> NoDup k -> NoDup l.
Proof. intros [k' ->]%submseteq_Permutation H. by apply NoDup_app in H as [? _]. Qed.

Lemma filter_sublist {A} (f : A -> bool) l : List.filter f l `sublist_of` l.
Proof. induction l as [|x l IH]; cbn; [constructor|]. by destruct (f x); constructor. Qed.

Lemma select_carries cf now rs epoch :
  NoDup (map r_url rs) -> quorum_size cf <= Z.of_nat (length (grants_for cf now rs)) -> 0 < quorum_size cf ->
  let votes := select_quorum (quorum_size cf) (grants_for cf now rs) in
  carried_by cf now (min_of (map r_expires votes)) (Z.max epoch (max_of (map r_epoch votes))) rs votes
  /\ now < min_of (map r_expires votes).
Proof.
  intros Hnd Hq Hpos votes.
  assert (Hsub : votes ⊆+ grants_for cf now rs).
  { unfold votes, select_quorum. rewrite <- (sort_desc_perm (grants_for cf now rs)) at 2.
    apply sublist_submseteq, sublist_take. }
  assert (Hlen : Z.of_nat (length votes) = quorum_size cf).
  { unfold votes, select_quorum. rewrite length_take, (Permutation_length (sort_desc_perm _)). lia. }
  assert (Hall : Forall (fun v => v ∈ rs /\ v.(r_granted) = true /\ v.(r_holder) = Some cf.(node_id)
                                  /\ now < v.(r_expires)) votes).
  { apply Forall_forall. intros v Hv. apply (elem_of_submseteq _ _ _ Hv) in Hsub. unfold grants_for in Hsub.
    apply list_elem_of_In, filter_In in Hsub as [Hin Hc]. apply list_elem_of_In in Hin. pyinv. done. }
  assert (Hne : map r_expires votes <> []) by (destruct votes; cbn in *; [lia|done]).
  split; [split; [|split; [done|]]|].
  - eapply submseteq_NoDup; [|exact Hnd]. transitivity (map r_url (grants_for cf now rs)); [by apply fmap_submseteq|].
    apply fmap_submseteq, sublist_submseteq, filter_sublist.
  - pose proof (proj1 (Forall_map _ _ _) (min_of_le (map r_expires votes))) as Hmin.
    pose proof (proj1 (Forall_map _ _ _) (max_of_ge (map r_epoch votes))) as Hmax.
    rewrite Forall_forall in Hall, Hmin, Hmax |- *. intros v Hv.
    destruct (Hall v Hv) as (? & ? & ? & ?). specialize (Hmin v Hv). specialize (Hmax v Hv). cbn in *.
    split_and!; try done. lia.
  - apply min_of_gt; [done|]. apply Forall_map. eapply Forall_impl; [exact Hall|]. by intros v (_ & _ & _ & ?).
Qed.

(** What a round leaves: the old lease, or one carried by a quorum of this round's votes. *)
Lemma settle_cases cf now rs c :
  NoDup (map r_url rs) ->
  let c' := settle cf now rs c in
  c'.(acquisition_suspended) = c.(acquisition_suspended) /\ c'.(last_results) = rs
  /\ ((c'.(lease_expires_at) = c.(lease_expires_at) /\ c'.(lease_epoch) = c.(lease_epoch))
      \/ (now < c'.(lease_expires_at) /\ c.(lease_epoch) <= c'.(lease_epoch)
          /\ exists votes, carried_by cf now c'.(lease_expires_at) c'.(lease_epoch) rs votes)).
Proof.
  intros Hnd. unfold settle. cbv zeta. destruct (_ && _) eqn:E; [|by auto].
  split; [done|]. split; [done|]. right. pyinv.
  destruct (select_carries cf now rs c.(lease_epoch) Hnd ltac:(done) ltac:(done)) as [Hc Hl]. cbn.
  split; [done|]. split; [lia|]. eauto.
Qed.

(** ** A round of exchanges *)

Lemma ask_url p url operation payload x interpret r :
  (forall d r, interpret d = Ok r -> r.(r_url) = url) -> ask p url operation payload x interpret = Ok r -> r.(r_url) = url.
Proof.
  unfold ask. intros Hi H. apply bind_ok in H as (auth & _ & H). apply bind_ok in H as ([[body sec] key] & _ & H).
  assert (Hc : catch exchange_caught (raw ← read_reply x.(x_reply); d ← verify_response raw body operation sec key;
                 interpret d) (fun e => Ok (failed_result url (slice 200 (exn_text e)))) = Ok r -> r.(r_url) = url).
  { intros [Hc|(e & _ & _ & Hc)]%catch_ok; [|by injection Hc as <-].
    apply bind_ok in Hc as (raw & _ & Hc). apply bind_ok in Hc as (d & _ & Hc). by eapply Hi. }
  destruct (x_reply x); [by injection H as <-|by apply Hc|by apply Hc].
Qed.

Lemma parse_result_url cf now url d holder tx r : _parse_result cf now url d holder tx = Ok r -> r.(r_url) = url.
Proof.
  unfold _parse_result. intros H. destruct (dget_none d "granted"); try done. destruct (negb _); [done|].
  apply bind_ok in H as ([[[w dom] ms] skew] & _ & H). repeat case_match; pyinv; by subst.
Qed.

Lemma one_url cf p url x r : _one cf p (url, x) = Ok r -> r.(r_url) = url.
Proof. apply ask_url. intros d r'. apply parse_result_url. Qed.

(** The results of a round are one per witness, in order, for the witnesses that were asked. *)
Lemma collect_urls {A} cf (m : res A) each xs rs :
  (forall p url x r, each p (url, x) = Ok r -> r.(r_url) = url) -> collect cf m each xs = Ok rs ->
  map r_url rs `sublist_of` cf.(urls).
Proof.
  intros He H. unfold collect in H. apply catch_ok in H as [H|(e & _ & _ & H)].
  - apply bind_ok in H as (p & _ & H). apply map_res_ok in H.
    assert (Hm : map r_url rs = map fst (combine cf.(urls) xs)).
    { induction H as [|[url x] r l l' Hr _ IH]; cbn; [done|]. f_equal; [by eapply He|done]. }
    rewrite Hm. clear. revert xs. induction cf.(urls) as [|u l IH]; intros [|x xs]; cbn; constructor; try done.
    apply sublist_nil_l.
  - injection H as <-. by rewrite map_map, map_id.
Qed.

(** ** What the operations do to the lease *)

Section with_files.
Context (euid : Z) (files : string -> file_view).

Lemma acquire_state cf xs now status_now c :
  fst (acquire euid files cf xs now status_now c) =
  if c.(acquisition_suspended) then c
  else match collect cf (_pin_operation_auth euid files cf) (_one cf) xs with
       | Ok rs => settle cf now rs c
       | Raise _ => c
       end.
Proof.
  unfold acquire. rewrite st_get_bind. destruct (acquisition_suspended c); [done|].
  unfold _acquire_locked, st_bind, st_lift. by destruct (collect _ _ _ _).
Qed.

(** C6: an acquisition either leaves the lease as it was or makes it a lease carried by exactly a quorum of
    votes of distinct witnesses collected in this very round, each granted to this node and still running, none
    expiring before the lease, no epoch above the lease's; the epoch never goes down, and a suspended node is
    not touched at all. *)
Theorem lease_rests_on_a_quorum cf xs now status_now c :
  NoDup cf.(urls) ->
  let c' := fst (acquire euid files cf xs now status_now c) in
  c'.(acquisition_suspended) = c.(acquisition_suspended) /\ (c.(acquisition_suspended) = true -> c' = c)
  /\ c.(lease_epoch) <= c'.(lease_epoch)
  /\ (c'.(lease_expires_at) = c.(lease_expires_at)
      \/ (now < c'.(lease_expires_at) /\ NoDup (map r_url c'.(last_results))
          /\ map r_url c'.(last_results) `sublist_of` cf.(urls)
          /\ exists votes, carried_by cf now c'.(lease_expires_at) c'.(lease_epoch) c'.(last_results) votes)).
Proof.
  intros Hnd. rewrite acquire_state. cbv zeta. destruct (acquisition_suspended c) eqn:Es.
  - rewrite Es. split_and!; auto. lia.
  - destruct (collect _ _ _ _) as [rs|e] eqn:Ec; [|split_and!; first [done|lia|by left]].
    assert (Hsub : map r_url rs `sublist_of` cf.(urls)).
    { eapply collect_urls; [|exact Ec]. intros p url x r. apply one_url. }
    assert (Hrs : NoDup (map r_url rs)) by (by eapply sublist_NoDup).
    destruct (settle_cases cf now rs c Hrs) as (Hsus & Hlast & Hcase).
    split; [by rewrite Hsus|]. split; [done|]. rewrite Hlast.
    destruct Hcase as [[-> ->]|(Hlt & Hep & Hv)]; [split; [lia|by left]|]. split; [done|]. by right.
Qed.

(** ** The fence *)

Definition fenced (c : client) : Prop := c.(acquisition_suspended) = true /\ c.(lease_expires_at) = 0.

Lemma transfer_fences cf t identity xs now attempt_now c :
  let c' := fst (transfer euid files cf t identity xs now attempt_now c) in
  fenced c' /\ c'.(lease_epoch) = c.(lease_epoch).
Proof.
  cbv zeta. unfold transfer. rewrite st_modify_bind.
  match goal with |- fenced (fst (?k ?c0)) /\ _ =>
    assert (Hm : keeps (fun c' => fenced c' /\ c'.(lease_epoch) = c.(lease_epoch)) k); [|by apply (Hm c0)] end.
  unfold _persist_transfer_fence. keeps_tac; assumption.
Qed.

(** A transfer fences its source before anything can fail: whatever the marker file, the keys, the witnesses
    and the network do, and whether it returns or raises, the node ends suspended, without a lease, and holds no
    valid lease at any later time until it is recovered. *)
Theorem transfer_fences_the_source cf t identity xs now attempt_now c :
  let c' := fst (transfer euid files cf t identity xs now attempt_now c) in
  c'.(acquisition_suspended) = true /\ c'.(lease_expires_at) = 0 /\ c'.(lease_epoch) = c.(lease_epoch)
  /\ forall later margin, valid cf later margin c' = false.
Proof.
  destruct (transfer_fences cf t identity xs now attempt_now c) as [[Hs Hl] He].
  split_and!; try done. intros later margin. unfold valid. rewrite Hs. by rewrite andb_false_r.
Qed.

(** Every operation of the client. *)
Inductive client_step (cf : config) : client -> client -> Prop :=
| step_acquire xs now status_now c : client_step cf c (fst (acquire euid files cf xs now status_now c))
| step_transfer t identity xs now attempt_now c :
    client_step cf c (fst (transfer euid files cf t identity xs now attempt_now c))
| step_recover rid xs temp later attempt_now c :
    client_step cf c (fst (recover euid files cf rid xs temp later attempt_now c)).

(** A quorum of the witnesses asked authorized the recovery of the transfer the marker names. *)
Definition recovery_authorized (cf : config) (c : client) : Prop :=
  exists marker digest identity rid payload xs results,
    _recovery_facts cf c.(fence) = Ok (marker, digest, identity)
    /\ recovery_request_body cf rid marker digest = Ok payload
    /\ collect cf (_pin_operation_auth euid files cf) (fun p ux => _recover_one cf p payload ux) xs = Ok results
    /\ quorum_size cf <= Z.of_nat (length (recovery_grants payload results)).

Lemma recover_cases cf rid xs temp later attempt_now c :
  let c' := fst (recover euid files cf rid xs temp later attempt_now c) in
  c'.(acquisition_suspended) = c.(acquisition_suspended)
  \/ (recovery_authorized cf c /\ configured cf = true /\ c'.(lease_expires_at) = 0 /\ c'.(fence) = FAbsent
      /\ c'.(receipt_present) = true).
Proof.
  cbv zeta. unfold recover. cbv zeta. destruct (_ || _); [by left|]. rewrite st_get_bind.
  destruct (negb (acquisition_suspended c)); [by left|].
  destruct (negb (configured cf)) eqn:Ec; [by left|]. pyinv.
  destruct (_recovery_facts cf (fence c)) as [[[marker digest] identity]|e] eqn:Ef; [|by left]. rewrite st_lift_Ok.
  destruct (recovery_request_body cf (strip rid) marker digest) as [payload|e] eqn:Ep; [|by left]. rewrite st_lift_Ok.
  destruct (collect _ _ _ _) as [results|e] eqn:Er; [|by left]. rewrite st_lift_Ok.
  destruct (_ <? _) eqn:Eq; [by left|]. destruct temp; [by left|]. rewrite st_modify_bind.
  destruct (negb (fence_unchanged _ _ _)); [left; by destruct later|]. rewrite st_modify_bind. right. cbn. pyinv.
  split_and!; try done. by exists marker, digest, identity, (strip rid), payload, xs, results.
Qed.

Lemma recover_active cf rid xs temp later attempt_now c :
  c.(acquisition_suspended) = false -> fst (recover euid files cf rid xs temp later attempt_now c) = c.
Proof.
  intros Hs. unfold recover. cbv zeta. destruct (_ || _); [done|]. rewrite st_get_bind. by rewrite Hs.
Qed.

(** A suspended node stays suspended, with no valid lease, under every operation, except one: a recovery for
    which a quorum of witnesses authorized the rejoin named by its intact fence marker; and that leaves it
    without a lease, as a standby with a receipt. *)
Theorem only_recovery_lifts_suspension cf c c' :
  client_step cf c c' -> c.(acquisition_suspended) = true ->
  (forall now margin, valid cf now margin c = false)
  /\ (c'.(acquisition_suspended) = true
      \/ (recovery_authorized cf c /\ configured cf = true /\ c'.(lease_expires_at) = 0 /\ c'.(fence) = FAbsent
          /\ c'.(receipt_present) = true)).
Proof.
  intros H Hs. split; [intros now margin; unfold valid; rewrite Hs; by rewrite andb_false_r|].
  destruct H as [xs now status_now c|t identity xs now attempt_now c|rid xs temp later attempt_now c].
  - left. rewrite acquire_state. by rewrite Hs.
  - left. apply transfer_fences.
  - rewrite <- Hs at 1. apply recover_cases.
Qed.
End with_files.

(** ** Witnesses: three servers sharing a secret, two of them answering *)

Definition sample_config : config :=
  match make_config ["http://w1"; "http://w2"; "http://w3"] "show" "node-a" "secret" 3000 true None None with
  | Ok cf => cf
  | Raise _ => {| urls := []; independent_mode := false; configured_quorum := 0; max_clock_skew_ms := 0;
                  endpoint_meta := []; cluster_id := ""; node_id := ""; secret := ""; keyring := None; ttl_ms := 0;
                  has_fence_path := false |}
  end.

(** The reply of a witness that grants the request with a given nonce. *)
Definition granting_reply (cf : config) (nonce : string) (epoch expires : Z) : reply :=
  match sign_response [("granted", VBool true); ("clusterId", VStr cf.(cluster_id)); ("holderNodeId", VStr cf.(node_id));
                       ("epoch", VInt epoch); ("expiresAtUnixMs", VInt expires)]
          (acquire_payload cf nonce) "acquire" cf.(secret) None with
  | Ok d => RBody (_canonical (VDict d))
  | Raise e => RFailed e
  end.

Definition sample_exchange (i : string) (answered : bool) (expires : Z) : exchange :=
  {| x_nonce := "n" +:+ i; x_reply := if answered then granting_reply sample_config ("n" +:+ i) 1 expires
                                      else RFailed (OSError "refused"); x_now := 1000 |}.

Definition sample_round : list exchange :=
  [sample_exchange "1" true 4000; sample_exchange "2" true 3900; sample_exchange "3" false 0].

Definition no_stat : stat_info :=
  {| st_regular := false; st_uid := 0; st_mode := 0; st_size := 0; st_dev := 0; st_ino := 0; st_mtime_ns := 0;
     st_ctime_ns := 0 |}.
Definition no_files : string -> file_view := fun _ =>
  {| fv_absolute := true; fv_opens := false; fv_before := no_stat; fv_data := ""; fv_after := no_stat |}.
Definition start : client := init_client sample_config FAbsent false.
Definition leased : client := fst (acquire 0 no_files sample_config sample_round 1000 1000 start).

Definition sample_pin : pinned :=
  PinShared {| active_key_id := None; keys := [("legacy", "secret")]; keyring_mode := false |}.
Definition sample_vote : WitnessResult :=
  {| r_url := "http://w1"; r_granted := true; r_epoch := 1; r_expires := 4000; r_holder := Some "node-a";
     r_error := None; r_witness_id := None; r_failure_domain := None; r_server_ms := 0; r_skew := None |}.

Lemma granted_vote_is_signed_witness :
  exists auth body sec key d,
    _auth_for_url sample_pin "http://w1" = Ok auth
    /\ _signed_body (acquire_payload sample_config (sample_exchange "1" true 4000).(x_nonce)) auth = Ok (body, sec, key)
    /\ response_ok d body "acquire" sec key /\ vote_of sample_config "http://w1" sample_config.(node_id) d sample_vote.
Proof.
  apply (granted_vote_is_signed sample_config sample_pin "http://w1" (sample_exchange "1" true 4000) sample_vote).
  - vm_compute. reflexivity.
  - reflexivity.
Defined.

Lemma lease_rests_on_a_quorum_witness :
  let c' := fst (acquire 0 no_files sample_config sample_round 1000 1000 start) in
  exists votes, carried_by sample_config 1000 c'.(lease_expires_at) c'.(lease_epoch) c'.(last_results) votes.
Proof.
  destruct (lease_rests_on_a_quorum 0 no_files sample_config sample_round 1000 1000 start) as (_ & _ & _ & [H|(_ & _ & _ & H)]).
  - nodup_keys.
  - exfalso. vm_compute in H. discriminate H.
  - exact H.
Defined.

Definition sample_transfer : transfer_facts :=
  {| tf_target := "node-b"; tf_source_epoch := 1; tf_target_epoch := 2; tf_transaction := 7 |}.
Definition suspended : client := set_suspended true start.

Lemma only_recovery_lifts_suspension_witness :
  (forall now margin, valid sample_config now margin suspended = false)
  /\ ((fst (acquire 0 no_files sample_config sample_round 2100 2100 suspended)).(acquisition_suspended) = true
      \/ (recovery_authorized 0 no_files sample_config suspended /\ configured sample_config = true
          /\ (fst (acquire 0 no_files sample_config sample_round 2100 2100 suspended)).(lease_expires_at) = 0
          /\ (fst (acquire 0 no_files sample_config sample_round 2100 2100 suspended)).(fence) = FAbsent
          /\ (fst (acquire 0 no_files sample_config sample_round 2100 2100 suspended)).(receipt_present) = true)).
Proof.
  apply (only_recovery_lifts_suspension 0 no_files sample_config suspended
    (fst (acquire 0 no_files sample_config sample_round 2100 2100 suspended))).
  - apply step_acquire.
  - reflexivity.
Defined.
