(* ===== verification/WitnessServer.v ===== *)
(** * The witness HTTP handler (backend/witness_server.py)

    The request handler that puts a lease store behind authenticated requests:
    configuration check, body limit, JSON, key resolution, verification,
    dispatch to the store and the signed answer. The transport (sockets,
    headers, URL splitting) gives the path, the Content-Length text, the body
    stream and the clock, and [writes] whether the store's file can be written; an exception the handler does not catch is a [Raise]. *)

From S2P Require Import Prelude PyStr PyVal PyFacts Json ClusterSecrets WitnessAuth.
From S2P Require WitnessStore.

#[local] Open Scope string_scope.
#[local] Open Scope list_scope.
#[local] Open Scope Z_scope.
#[local] Open Scope st_scope.

(** The module's configuration, read once from the environment. *)
Record server := {
  SECRET : string;
  EXPLICIT_KEYRING_PATH : string;
  KEYRING : RotatingHmacKeyring;
  WITNESS_ID : string;
  FAILURE_DOMAIN : string;
  INDEPENDENT_MODE : bool;
}.

(** [text.strip().lower() in {"1", "true", "yes", "on"}]. *)
Definition flag_text (text : string) : bool :=
  bool_decide (lower (strip text) ∈ ["1"; "true"; "yes"; "on"]).

Definition independent_configuration_error (sv : server) : option string :=
  if negb sv.(INDEPENDENT_MODE) then None
  else if String.eqb sv.(WITNESS_ID) "" || String.eqb sv.(FAILURE_DOMAIN) ""
  then Some "independent witness requires STAGEFORGE_WITNESS_ID and STAGEFORGE_WITNESS_FAILURE_DOMAIN"
  else if String.eqb sv.(EXPLICIT_KEYRING_PATH) ""
  then Some "independent witness requires its own STAGEFORGE_WITNESS_KEYRING_FILE"
  else if negb (String.eqb sv.(SECRET) "")
  then Some "independent witness forbids environment/shared-secret fallback"
  else None.

(** A status code and the JSON object sent with it. *)
Abbreviation response := (Z * pydict)%type.

Definition error_response (code : Z) (text : string) : response := (code, [("error", VStr text)]).

Definition lease_routes : list string :=
  ["/api/v1/lease/acquire"; "/api/v1/lease/transfer"; "/api/v1/lease/recover"].

(** [do_GET]: [cluster] is the first [clusterId] of the query, or empty. *)
Definition do_GET (sv : server) (now : Z) (path cluster : string) : WitnessStore.op response :=
  if String.eqb path "/health" then
    let error := independent_configuration_error sv in
    st_ret (match error with None => 200 | Some _ => 503 end,
            [("ok", VBool (match error with None => true | Some _ => false end));
             ("service", VStr "stageforge-witness"); ("witnessId", str_or_none sv.(WITNESS_ID));
             ("failureDomain", str_or_none sv.(FAILURE_DOMAIN));
             ("independentMode", VBool sv.(INDEPENDENT_MODE)); ("error", opt_str error)])
  else if String.eqb path "/api/v1/lease/status" then
    let* s := st_get in
    let* d := st_lift (WitnessStore.status now cluster s) in
    st_ret (200, d)
  else st_ret (error_response 404 "route not found").

(** [self.rfile.read(length)]: a negative length reads the whole stream. *)
Definition read_body (content_length stream : string) : res pyval :=
  match parse_int content_length with
  | None => Raise (ValueError "invalid literal for int()")
  | Some n =>
      let length := Z.min n 65536 in
      let bytes := if length <? 0 then stream else slice (Z.to_nat length) stream in
      text ← utf8_decode bytes; loads text
  end.

Inductive lease_operation := OpAcquire | OpTransfer | OpRecover.

Definition operation_of (path : string) : lease_operation :=
  if ends_with "/transfer" path then OpTransfer
  else if ends_with "/recover" path then OpRecover else OpAcquire.

Definition operation_name (o : lease_operation) : string :=
  match o with OpAcquire => "acquire" | OpTransfer => "transfer" | OpRecover => "recover" end.

Definition verify_operation (o : lease_operation) (body : pydict) (secret : string) : res verdict :=
  match o with
  | OpAcquire => verify_request body secret
  | OpTransfer => verify_transfer_request body secret
  | OpRecover => verify_recovery_request body secret
  end.

(** The store operation a verified payload names. *)
Definition perform (writes : bool) (o : lease_operation) (now : Z) (p : pydict) : WitnessStore.op pydict :=
  match o with
  | OpAcquire => WitnessStore.acquire writes now (dstr p "clusterId") (dstr p "nodeId") (dint p "ttlMs")
  | OpTransfer =>
      WitnessStore.transfer writes now (dstr p "clusterId") (dstr p "sourceNodeId") (dstr p "targetNodeId")
        (dint p "sourceEpoch") (dint p "targetEpoch") (dint p "transactionId") (dint p "ttlMs")
  | OpRecover =>
      let* s := st_get in
      st_lift (WitnessStore.authorize_recovery now (dstr p "clusterId") (dstr p "nodeId")
                 (dstr p "targetNodeId") (dint p "sourceEpoch") (dint p "targetEpoch")
                 (dint p "transactionId") (dstr p "recoveryId") (dstr p "fenceDigest") s)
  end.

Section with_files.
Context (euid : Z) (files : string -> file_view).

(** The secret the request's key identifier resolves to. *)
Definition request_secret (sv : server) (body : pyval) : res string :=
  auth ← snapshot euid files (if ring_mode sv.(KEYRING) then sv.(KEYRING)
                              else {| _path := None; _legacy_secret := sv.(SECRET) |});
  key_id ← vget body "keyId" VNone;
  resolve auth key_id.

(** The key identifier a response carries: the request's, in keyring mode. *)
Definition response_key_id (sv : server) (body : pydict) : option string :=
  if ring_mode sv.(KEYRING) then
    match dget_none body "keyId" with VNone => None | v => Some (py_str v) end
  else None.

Definition answer (writes : bool) (sv : server) (o : lease_operation) (now : Z) (body payload : pydict) (secret : string)
    : WitnessStore.op response :=
  let* result := perform writes o now payload in
  let result := dmerge result [("witnessId", str_or_none sv.(WITNESS_ID));
                               ("failureDomain", str_or_none sv.(FAILURE_DOMAIN))] in
  let* signed := st_lift (sign_response result payload (operation_name o) secret (response_key_id sv body)) in
  st_ret (200, signed).

Definition do_POST (writes : bool) (sv : server) (now : Z) (path content_length stream : string)
    : WitnessStore.op response :=
  if negb (bool_decide (path ∈ lease_routes)) then st_ret (error_response 404 "route not found")
  else match independent_configuration_error sv with
  | Some e => st_ret (error_response 503 e)
  | None =>
      if negb (ring_mode sv.(KEYRING) || negb (String.eqb sv.(SECRET) ""))
      then st_ret (error_response 503 "witness authentication not configured")
      else match read_body content_length stream with
      | Raise e => if is_value_error e then st_ret (error_response 400 "invalid JSON") else st_raise e
      | Ok body =>
          match request_secret sv body with
          | Raise (PermissionError m) => st_ret (error_response 403 m)
          | Raise e => st_raise e
          | Ok secret =>
              let o := operation_of path in
              let* v := st_lift (verify_operation o (as_dict body) secret) in
              let '(ok, reason, payload) := v in
              if negb (ok : bool) then st_ret (error_response 403 reason)
              else answer writes sv o now (as_dict body) payload secret
          end
      end
  end.
End with_files.

(** ** Properties *)

Definition refusal_codes : list Z := [400; 403; 404; 503].

Lemma verify_operation_signed o d secret reason p :
  verify_operation o d secret = Ok (true, reason, p) -> reason = "ok" /\ signed_as d p secret.
Proof.
  destruct o; cbn; intros H;
    [apply verify_request_iff in H|apply verify_transfer_request_iff in H|apply verify_recovery_request_iff in H];
    destruct H as (r & _ & _ & _ & ? & ->); done.
Qed.

Section with_files.
Context (euid : Z) (files : string -> file_view).

(** A key identifier can only be read from an object. *)
Lemma request_secret_dict sv body secret : request_secret euid files sv body = Ok secret -> exists d, body = VDict d.
Proof.
  unfold request_secret. intros H. apply bind_ok in H as (auth & _ & H). apply bind_ok in H as (k & Hk & _).
  destruct body; try done. eauto.
Qed.

(** Whatever is posted to a witness, either it is refused (an error status, or an exception the transport
    turns into one) and the leases stay exactly as they were, or the body is an object that carries the HMAC of
    the payload under the secret its key names, and store and answer are those of the lease operation the path
    names, run on that payload. *)
Theorem post_acts_only_on_signed_requests writes sv now path content_length stream s :
  let '(s', r) := do_POST euid files writes sv now path content_length stream s in
  (s' = s /\ match r with Ok (code, _) => code ∈ refusal_codes | Raise _ => True end)
  \/ exists d secret p,
       read_body content_length stream = Ok (VDict d) /\ request_secret euid files sv (VDict d) = Ok secret
       /\ verify_operation (operation_of path) d secret = Ok (true, "ok", p) /\ signed_as d p secret
       /\ (s', r) = answer writes sv (operation_of path) now d p secret s.
Proof.
  unfold do_POST, refusal_codes.
  destruct (negb (bool_decide _)); [left; split; [done|cbn; set_solver]|].
  destruct (independent_configuration_error sv); [left; split; [done|cbn; set_solver]|].
  destruct (negb _); [left; split; [done|cbn; set_solver]|].
  destruct (read_body content_length stream) as [body|e].
  2: { destruct (is_value_error e); left; split; try done; cbn; set_solver. }
  destruct (request_secret euid files sv body) as [secret|e] eqn:Es.
  2: { destruct e; left; split; try done; cbn; set_solver. }
  destruct (request_secret_dict _ _ _ Es) as [d ->]. cbn [as_dict]. cbv zeta.
  destruct (verify_operation (operation_of path) d secret) as [[[ok reason] p]|e] eqn:Ev.
  2: { left. split; done. }
  rewrite st_lift_Ok. destruct ok; cbn [negb]; [|left; split; [done|cbn; set_solver]].
  destruct (verify_operation_signed _ _ _ _ _ Ev) as [-> Hsig].
  destruct (answer _ _ _ _ _ _ _ _) as [s' r] eqn:Ea. right. exists d, secret, p. by rewrite Ea.
Qed.
End with_files.
