(* ===== verification/WitnessSystem.v ===== *)
(** * Nodes and witnesses together

    A cluster as a transition system: the lease stores of the witnesses and the
    quorum clients of the nodes, whose steps are the operations of WitnessStore
    and WitnessQuorum interleaved in any order, with any delay between a
    witness's answer and the round that uses it; an answer may also be lost, a lease
    may not reach the file of its witness, and a witness with a file may restart. At
    most one node holds a valid lease.

    Every clock is the same [clock]. Answers reach a node only as they were given
    (responses are signed for one request: WitnessLease), and a transfer a node
    signed reaches a witness only while that node is still suspended by it. *)

From S2P Require Import Prelude PyStr PyFloat PyVal PyFacts StateLogic ClusterSecrets.
From S2P Require Import WitnessStore WitnessQuorum WitnessLease.
From stdpp Require Import functions.

#[local] Open Scope string_scope.
#[local] Open Scope list_scope.
#[local] Open Scope Z_scope.

(** ** The system *)

(** A grant a witness gave a node: node, witness, expiry. *)
Abbreviation grant := (string * string * Z)%type.

Record system := {
  clock : Z;
  stores : string -> WitnessStore.store;
  nodes : string -> client;
  answers : list grant;
}.

Section deployment.
Context (U : list string) (cl : string) (cfg : string -> config).

(** All nodes are configured with the same witnesses and cluster, and their quorum is a majority. *)
Record deployment : Prop := {
  dep_nodup : NoDup U;
  dep_urls : forall n, (cfg n).(urls) = U;
  dep_node : forall n, n <> "" -> (cfg n).(node_id) = n;
  dep_majority : forall n, Z.of_nat (length U) < 2 * quorum_size (cfg n);
}.

(** A grant is kept when the answer says so. *)
Definition heard (n w : string) (d : pydict) (old : list grant) : list grant :=
  match dget d "granted", dget d "expiresAtUnixMs" with
  | Some (VBool true), Some (VInt e) => (n, w, e) :: old
  | _, _ => old
  end.

(** An acquisition that raised is not answered. *)
Definition hear (n w : string) (r : res pydict) (old : list grant) : list grant :=
  match r with Ok d => heard n w d old | Raise _ => old end.

Definition forget (n : string) (old : list grant) : list grant :=
  List.filter (fun g => negb (String.eqb (fst (fst g)) n)) old.

Definition set_store (w : string) (x : WitnessStore.store) (s : system) : system :=
  {| clock := s.(clock); stores := <[w := x]> s.(stores); nodes := s.(nodes); answers := s.(answers) |}.
Definition set_node (n : string) (c : client) (s : system) : system :=
  {| clock := s.(clock); stores := s.(stores); nodes := <[n := c]> s.(nodes); answers := s.(answers) |}.
Definition set_answers (l : list grant) (s : system) : system :=
  {| clock := s.(clock); stores := s.(stores); nodes := s.(nodes); answers := l |}.

Inductive step : system -> system -> Prop :=
| time_passes t s : s.(clock) <= t ->
    step s {| clock := t; stores := s.(stores); nodes := s.(nodes); answers := s.(answers) |}
| witness_acquires n w writes x r s : n <> "" ->
    WitnessStore.acquire writes s.(clock) cl n (cfg n).(ttl_ms) (s.(stores) w) = (x, r) ->
    step s (set_answers (hear n w r s.(answers)) (set_store w x s))
| node_settles n rs s : n <> "" -> (s.(nodes) n).(acquisition_suspended) = false ->
    map r_url rs `sublist_of` U ->
    (forall r, r ∈ rs -> r.(r_granted) = true -> r.(r_holder) = Some n -> (n, r.(r_url), r.(r_expires)) ∈ s.(answers)) ->
    step s (set_node n (settle (cfg n) s.(clock) rs (s.(nodes) n)) s)
| node_transfers euid files n t identity xs s : n <> "" ->
    step s (set_node n (fst (WitnessQuorum.transfer euid files (cfg n) t identity xs s.(clock) s.(clock) (s.(nodes) n))) s)
| witness_transfers w writes src tgt se te tx ttl s :
    (s.(nodes) src).(acquisition_suspended) = true ->
    step s (set_store w (fst (WitnessStore.transfer writes s.(clock) cl src tgt se te tx ttl (s.(stores) w))) s)
| node_recovers euid files n rid xs temp later s : n <> "" ->
    step s (set_answers (forget n s.(answers))
              (set_node n (fst (recover euid files (cfg n) rid xs temp later s.(clock) (s.(nodes) n))) s))
| node_restarts n marker receipt s : n <> "" ->
    step s (set_answers (forget n s.(answers)) (set_node n (init_client (cfg n) marker receipt) s))
| witness_restarts w x s : (s.(stores) w).(has_path) = true -> WitnessStore.restart (s.(stores) w) = Ok x ->
    step s (set_store w x s)
| answers_lost n s : step s (set_answers (forget n s.(answers)) s).

(** Witnesses without leases, nodes just started. *)
Definition initial (t : Z) (paths : string -> bool) (markers : string -> fence_view) (receipts : string -> bool) : system :=
  {| clock := t; stores := fun w => empty_store (paths w);
     nodes := fun n => init_client (cfg n) (markers n) (receipts n); answers := [] |}.

(** ** What a node may rely on *)

Abbreviation views := (string -> gmap string lease).

(** What a restart of a witness leaves of its leases; one without a file is never restarted. *)
Definition lasting (x : WitnessStore.store) : gmap string pydict := if x.(has_path) then default ∅ x.(saved) else x.(_leases).

(** The leases the witnesses hold, and those they would hold after a restart. *)
Definition modelled (s : system) (a b : views) : Prop :=
  forall w, models (s.(stores) w) (a w) /\ lasting (s.(stores) w) = render <$> b w.

(** Until [e] the witness's lease is the node's and does not end earlier; and [e] is no later than a renewal
    would give now. *)
Definition claim (m : gmap string lease) (t : Z) (n : string) (e : Z) : Prop :=
  (t < e -> exists l, m !! cl = Some l /\ l.(l_holder) = n /\ e <= l.(l_expires))
  /\ e <= t + clamp_ttl (cfg n).(ttl_ms).

Definition rests (a b : views) (t : Z) (n w : string) (e : Z) : Prop := claim (a w) t n e /\ claim (b w) t n e.

Definition relies (a b : views) (s : system) (n : string) : Prop :=
  (forall w e, (n, w, e) ∈ s.(answers) -> rests a b s.(clock) n w e)
  /\ (s.(clock) < (s.(nodes) n).(lease_expires_at) -> exists S, NoDup S /\ S ⊆ U
        /\ Z.of_nat (length S) = quorum_size (cfg n)
        /\ forall w, w ∈ S -> rests a b s.(clock) n w (s.(nodes) n).(lease_expires_at)).

Definition invariant (s : system) : Prop :=
  exists a b, modelled s a b /\ forall n, n <> "" -> (s.(nodes) n).(acquisition_suspended) = false -> relies a b s n.

(** ** Claims survive *)

Lemma claim_later m t t' n e : t <= t' -> claim m t n e -> claim m t' n e.
Proof. intros Ht [Hl Hb]. split; [|lia]. intros H. apply Hl. lia. Qed.

Lemma claim_weaker m t n e e' : e' <= e -> claim m t n e -> claim m t n e'.
Proof. intros He [Hl Hb]. split; [|lia]. intros H. destruct Hl as (l & ? & ? & ?); [lia|]. exists l. split_and!; [done|done|lia]. Qed.

(** An acquisition by anyone, and a transfer whose source is another node, keep a node's claim. *)
Lemma claim_acquire m t n e n' l :
  n <> "" -> claim m t n e -> spec_acquire t (clamp_ttl (cfg n').(ttl_ms)) n' (m !! cl) = Some l -> claim (<[cl := l]> m) t n e.
Proof.
  intros Hn [Hl Hb] Hs. split; [|done]. intros Hlt. destruct (Hl Hlt) as (l0 & Ha & Hh & He).
  rewrite lookup_insert_eq. exists l. split; [done|]. rewrite Ha in Hs. unfold spec_acquire in Hs. destruct (String.eqb_spec (l_holder l0) n') as [Hm|Hm].
  - injection Hs as <-. rewrite Hh in Hm. subst n'. cbn. split; [done|lia].
  - destruct (negb (String.eqb (l_holder l0) "") && (t <? l_expires l0)) eqn:E; [done|]. exfalso.
    rewrite Hh, (str_eqb_ne _ _ Hn) in E. cbn in E. pyinv. lia.
Qed.

Lemma claim_transfer m t n e src tgt se te tx ttl l :
  src <> n -> claim m t n e -> spec_transfer t (clamp_ttl ttl) src tgt se te tx (m !! cl) = TMoved l -> claim (<[cl := l]> m) t n e.
Proof.
  intros Hn [Hl Hb] Hs. split; [|done]. intros Hlt. destruct (Hl Hlt) as (l0 & Ha & Hh & He).
  exfalso. rewrite Ha in Hs. unfold spec_transfer in Hs. destruct (_ && _ && _ && _); [done|].
  destruct (_ || _ || _) eqn:E; [done|]. pyinv. cbn in *. congruence.
Qed.

(** Nothing a node relies on is lost when claims are kept. *)
Lemma relies_mono a b s a' b' s' n :
  (forall w e, rests a b s.(clock) n w e -> rests a' b' s'.(clock) n w e) -> s.(clock) <= s'.(clock) ->
  s'.(nodes) n = s.(nodes) n -> (forall w e, (n, w, e) ∈ s'.(answers) -> (n, w, e) ∈ s.(answers) \/ rests a' b' s'.(clock) n w e) ->
  relies a b s n -> relies a' b' s' n.
Proof.
  intros Hc Ht Hn Ha [H1 H2]. split.
  - intros w e [Hin|Hin]%Ha; [by apply Hc, H1|done].
  - rewrite Hn. intros Hlt. destruct H2 as (V & ? & ? & ? & HV); [lia|]. exists V. split_and!; eauto.
Qed.

Lemma modelled_set s a b w x ma mb : modelled s a b -> models x ma -> lasting x = render <$> mb ->
  modelled (set_store w x s) (<[w := ma]> a) (<[w := mb]> b).
Proof.
  intros H Ha Hb w'. cbn. destruct (decide (w = w')) as [->|Hw]; [by rewrite !fn_lookup_insert|].
  by rewrite !fn_lookup_insert_ne.
Qed.

(** What an installed lease leaves for after a restart. *)
Definition then_lasting (writes : bool) (x : WitnessStore.store) (mb m' : gmap string lease) : gmap string lease :=
  if x.(has_path) && negb writes then mb else m'.

Lemma lasting_written writes x ma mb l : models x ma -> lasting x = render <$> mb ->
  lasting (written writes x cl (render l)) = render <$> then_lasting writes x mb (<[cl := l]> ma).
Proof.
  unfold models, lasting, then_lasting, written. cbn. intros -> Hb. destruct (has_path x), writes; cbn in *; by rewrite ?fmap_insert.
Qed.

Lemma rests_set a b w ma mb t n w' e :
  (w' = w -> rests a b t n w e -> claim ma t n e /\ claim mb t n e) -> rests a b t n w' e -> rests (<[w := ma]> a) (<[w := mb]> b) t n w' e.
Proof.
  unfold rests. intros H Hr. destruct (decide (w = w')) as [->|Hw]; [rewrite !fn_lookup_insert; by apply H|by rewrite !fn_lookup_insert_ne].
Qed.

Lemma claim_lasting writes x mb m' t n e : claim mb t n e -> claim m' t n e -> claim (then_lasting writes x mb m') t n e.
Proof. intros. unfold then_lasting. by destruct (_ && _). Qed.

Lemma elem_forget g n l : g ∈ forget n l <-> g ∈ l /\ fst (fst g) <> n.
Proof.
  unfold forget. rewrite !list_elem_of_In, filter_In, negb_true_iff, String.eqb_neq. done.
Qed.

(** A node that is only replaced, suspended or without a lease, relies on nothing new. *)
Lemma invariant_set_node n c l s :
  invariant s -> (forall g, g ∈ l -> g ∈ s.(answers)) ->
  (c.(acquisition_suspended) = true \/ (c.(lease_expires_at) <= s.(clock) /\ forall w e, (n, w, e) ∉ l)) ->
  invariant (set_answers l (set_node n c s)).
Proof.
  intros (a & b & Hm & Hr) Hl Hc. exists a, b. split; [done|]. intros m Hne. cbn.
  destruct (decide (n = m)) as [<-|Hnm].
  - rewrite fn_lookup_insert. intros Hsus. destruct Hc as [Hc|[Hc Hno]]; [congruence|]. split; cbn.
    + intros w e Hin. by apply Hno in Hin.
    + rewrite fn_lookup_insert. lia.
  - rewrite fn_lookup_insert_ne by done. intros Hsus. apply (relies_mono a b s); [done|done| |by left; apply Hl|by apply Hr].
    cbn. by rewrite fn_lookup_insert_ne.
Qed.

Lemma invariant_forget n s : invariant s -> invariant (set_answers (forget n s.(answers)) s).
Proof.
  intros (a & b & Hm & Hr). exists a, b. split; [done|]. intros m Hne Hsus. apply (relies_mono a b s); [done|done|done| |by apply Hr].
  intros w e [? _]%elem_forget. by left.
Qed.

Lemma set_node_same n s : forall m, (set_node n (s.(nodes) n) s).(nodes) m = s.(nodes) m.
Proof. intros m. cbn. destruct (decide (n = m)) as [->|]; [by rewrite fn_lookup_insert|by rewrite fn_lookup_insert_ne]. Qed.

Lemma invariant_same_nodes s s' :
  invariant s -> s'.(clock) = s.(clock) -> s'.(stores) = s.(stores) -> s'.(answers) = s.(answers) ->
  (forall n, s'.(nodes) n = s.(nodes) n) -> invariant s'.
Proof.
  intros (a & b & Hm & Hr) Hc Hs Ha Hn. exists a, b. split; [intros w; rewrite Hs; apply Hm|]. intros n Hne Hsus.
  rewrite Hn in Hsus. apply (relies_mono a b s); [by rewrite Hc|by rewrite Hc|done|by rewrite Ha; left|by apply Hr].
Qed.

Lemma settle_invariant n rs s :
  deployment -> n <> "" -> (s.(nodes) n).(acquisition_suspended) = false -> map r_url rs `sublist_of` U ->
  (forall r, r ∈ rs -> r.(r_granted) = true -> r.(r_holder) = Some n -> (n, r.(r_url), r.(r_expires)) ∈ s.(answers)) ->
  invariant s -> invariant (set_node n (settle (cfg n) s.(clock) rs (s.(nodes) n)) s).
Proof.
  intros D Hn Hs Hsub Hans (a & b & Hm & Hr). exists a, b. split; [done|]. intros m Hne Hsus. cbn in Hsus.
  destruct (decide (n = m)) as [<-|Hnm].
  2: { rewrite fn_lookup_insert_ne in Hsus by done. apply (relies_mono a b s); [done|done| |by left|by apply Hr].
       cbn. by rewrite fn_lookup_insert_ne. }
  destruct (Hr n Hn Hs) as [H1 H2].
  assert (Hnd : NoDup (map r_url rs)) by (eapply sublist_NoDup; [by apply dep_nodup|exact Hsub]).
  destruct (settle_cases (cfg n) s.(clock) rs (s.(nodes) n) Hnd) as (_ & _ & Hcase).
  split; [exact H1|]. cbn. rewrite fn_lookup_insert.
  destruct Hcase as [[-> _]|(_ & _ & votes & Hv & Hlen & Hall)]; [exact H2|]. intros _.
  exists (map r_url votes). split; [done|]. rewrite length_map. split; [|split; [done|]].
  - intros u [v [-> Hin]]%list_elem_of_fmap. rewrite list.Forall_forall in Hall. destruct (Hall v Hin) as [Hv' _].
    apply (sublist_subseteq _ _ Hsub). by apply list_elem_of_fmap_2.
  - intros w [v [-> Hin]]%list_elem_of_fmap. rewrite list.Forall_forall in Hall.
    destruct (Hall v Hin) as (Hv' & Hg & Hh & _ & He & _). rewrite (dep_node D n Hn) in Hh.
    destruct (H1 (r_url v) (r_expires v)) as [Ha Hb]; [by apply Hans|]. split; (eapply claim_weaker; [exact He|done]).
Qed.

Lemma store_unchanged w s a b : modelled s a b -> modelled (set_store w (s.(stores) w) s) a b.
Proof.
  intros Hm w'. cbn. destruct (decide (w = w')) as [->|Hw]; [by rewrite fn_lookup_insert|by rewrite fn_lookup_insert_ne].
Qed.

Lemma acquire_invariant n w writes x r s :
  n <> "" -> WitnessStore.acquire writes s.(clock) cl n (cfg n).(ttl_ms) (s.(stores) w) = (x, r) -> invariant s ->
  invariant (set_answers (hear n w r s.(answers)) (set_store w x s)).
Proof.
  intros Hn Hx (a & b & Hm & Hr). destruct (Hm w) as [Hma Hmb]. rewrite (acquire_eq _ _ _ _ _ _ _ Hma) in Hx.
  destruct (spec_acquire _ _ _ _) as [l|] eqn:El; injection Hx as <- <-.
  - eexists _, _. split; [apply modelled_set; [exact Hm|by apply models_written|by apply lasting_written]|]. intros m Hne Hsus.
    apply (relies_mono a b s); [|done|done| |by apply Hr].
    + intros w' e Hc. apply rests_set; [|exact Hc]. intros _ [Ha Hb]. pose proof (claim_acquire _ _ _ _ _ _ Hne Ha El). split; [done|by apply claim_lasting].
    + intros w' e Hin. unfold if_saved in Hin. destruct (has_path _ && negb writes) eqn:Ed; [by left|]. revert Hin.
      cbn. intros [[= -> -> ->]|Hin]%elem_of_cons; [right|by left].
      apply spec_acquire_grant in El as [Hh He]. unfold rests, then_lasting. rewrite !fn_lookup_insert, Ed.
      assert (claim (<[cl := l]> (a w)) (clock s) n (l_expires l)); [|done]. split; [|lia]. intros _.
      rewrite lookup_insert_eq. exists l. split_and!; [done|done|lia].
  - exists a, b. split; [exact (store_unchanged w s a b Hm)|]. intros m Hne Hsus. by apply (relies_mono a b s); [..|by apply Hr]; auto.
Qed.

Lemma transfer_invariant w writes src tgt se te tx ttl s :
  (s.(nodes) src).(acquisition_suspended) = true -> invariant s ->
  invariant (set_store w (fst (WitnessStore.transfer writes s.(clock) cl src tgt se te tx ttl (s.(stores) w))) s).
Proof.
  intros Hsrc (a & b & Hm & Hr). destruct (Hm w) as [Hma Hmb]. rewrite (transfer_eq _ _ _ _ _ _ _ _ _ _ _ Hma). unfold transfer_done. cbv zeta.
  destruct (spec_transfer _ _ _ _ _ _ _ _) as [| | |l] eqn:El.
  4: { eexists _, _. split; [apply modelled_set; [exact Hm|by apply models_written|by apply lasting_written]|]. intros m Hne Hsus.
       apply (relies_mono a b s); [|done|done|by left|by apply Hr]. intros w' e Hc. apply rests_set; [|exact Hc]. intros _ [Ha Hb].
       assert (src <> m) as Hsm by (intros ->; cbn in Hsus; congruence). pose proof (claim_transfer _ _ _ _ _ _ _ _ _ _ _ Hsm Ha El). split; [done|by apply claim_lasting]. }
  all: exists a, b; split; [by apply store_unchanged|]; intros m Hne Hsus; by apply (relies_mono a b s); [..|by apply Hr]; auto.
Qed.

(** A witness that restarts holds what its file has, on which every node could rely all along. *)
Lemma restart_invariant w x s : (s.(stores) w).(has_path) = true -> WitnessStore.restart (s.(stores) w) = Ok x -> invariant s -> invariant (set_store w x s).
Proof.
  intros Hp Hx (a & b & Hm & Hr). destruct (Hm w) as [_ Hmb]. rewrite restart_eq, Hp in Hx. injection Hx as <-.
  unfold lasting in Hmb. rewrite Hp in Hmb. exists (<[w := b w]> a), (<[w := b w]> b). split.
  - by apply modelled_set.
  - intros m Hne Hsus. apply (relies_mono a b s); [|done|done|by left|by apply Hr]. intros w' e Hc. apply rests_set; [|exact Hc]. by intros _ [_ Hb].
Qed.

Lemma step_invariant s s' : deployment -> step s s' -> 0 <= s.(clock) -> invariant s -> invariant s' /\ 0 <= s'.(clock).
Proof.
  intros D H H0 Hi.
  destruct H as [t s Ht|n w writes x r s Hn Hx|n rs s Hn Hs Hsub Hans|euid files n t identity xs s Hn|w writes src tgt se te tx ttl s Hsrc
    |euid files n rid xs temp later s Hn|n marker receipt s Hn|w x s Hp Hx|n s]; (split; [|cbn; lia]).
  - destruct Hi as (a & b & Hm & Hr). exists a, b. split; [done|]. intros n Hn Hs.
    apply (relies_mono a b s); [intros w e [? ?]; cbn; split; by apply (claim_later _ s.(clock))|done|done|by left|by apply Hr].
  - by eapply acquire_invariant.
  - by apply settle_invariant.
  - apply (invariant_set_node n _ s.(answers) s Hi); [done|]. left.
    apply (transfer_fences euid files (cfg n) t identity xs s.(clock) s.(clock) (s.(nodes) n)).
  - by apply transfer_invariant.
  - destruct (acquisition_suspended (nodes s n)) eqn:Es.
    + apply invariant_set_node; [done|by intros g [? _]%elem_forget|].
      destruct (recover_cases euid files (cfg n) rid xs temp later s.(clock) (s.(nodes) n)) as [Hc|(_ & _ & -> & _)];
        [left; by rewrite Hc|right]. split; [done|]. intros w e. rewrite elem_forget. by intros [_ ?].
    + rewrite recover_active by done.
      apply (invariant_same_nodes (set_answers (forget n (answers s)) s)); try done; [by apply invariant_forget|].
      intros m. apply (set_node_same n s m).
  - apply invariant_set_node; [done|by intros g [? _]%elem_forget|]. right.
    split; [done|]. intros w e. rewrite elem_forget. by intros [_ ?].
  - by apply restart_invariant.
  - by apply invariant_forget.
Qed.

Lemma initial_invariant t paths markers receipts : 0 <= t -> invariant (initial t paths markers receipts).
Proof.
  intros Ht. exists (fun _ => ∅), (fun _ => ∅). split; [intros w; split; [apply models_empty|]; unfold lasting; cbn; by destruct (paths w)|]. intros n Hn _.
  split; cbn; [by intros w e ?%not_elem_of_nil|lia].
Qed.

Lemma steps_invariant s s' : deployment -> rtc step s s' -> 0 <= s.(clock) -> invariant s -> invariant s'.
Proof.
  intros D H. induction H as [s|s s1 s2 H _ IH]; intros H0 Hi; [done|].
  destruct (step_invariant _ _ D H H0 Hi). by apply IH.
Qed.

(** Two majorities share a witness. *)
Lemma majorities_meet (V W : list string) :
  NoDup V -> NoDup W -> V ⊆ U -> W ⊆ U -> Z.of_nat (length U) < Z.of_nat (length V) + Z.of_nat (length W) ->
  exists w, w ∈ V /\ w ∈ W.
Proof.
  intros HV HW SV SW Hlen. destruct (decide (Exists (fun w => w ∈ W) V)) as [H|H].
  - apply list.Exists_exists in H as (w & ? & ?). eauto.
  - exfalso. assert (Hnd : NoDup (V ++ W)).
    { apply list.NoDup_app. split_and!; [done| |done]. intros w Hv Hw. apply H, list.Exists_exists. eauto. }
    assert (Hsub : V ++ W ⊆+ U) by (apply NoDup_submseteq; [done|]; intros w [?|?]%elem_of_app; auto).
    apply submseteq_length in Hsub. rewrite length_app in Hsub. lia.
Qed.

Lemma leases_exclusive s n1 n2 margin1 margin2 : deployment -> invariant s -> n1 <> "" -> n2 <> "" ->
  valid (cfg n1) s.(clock) margin1 (s.(nodes) n1) = true -> valid (cfg n2) s.(clock) margin2 (s.(nodes) n2) = true ->
  n1 = n2.
Proof.
  intros D (a & b & _ & Hr) Hn1 Hn2 Hv1 Hv2.
  unfold valid in Hv1, Hv2. pyinv.
  destruct (Hr n1 Hn1 ltac:(done)) as [_ R1], (Hr n2 Hn2 ltac:(done)) as [_ R2].
  destruct R1 as (V & HV1 & HV2 & HV3 & HV4); [lia|]. destruct R2 as (W & HW1 & HW2 & HW3 & HW4); [lia|].
  destruct (majorities_meet V W) as (w & Hv & Hw); [done..| |].
  { pose proof (dep_majority D n1). pose proof (dep_majority D n2). lia. }
  destruct (HV4 w Hv) as [[Hl1 _] _], (HW4 w Hw) as [[Hl2 _] _].
  destruct Hl1 as (l1 & Ha1 & Hh1 & _); [lia|]. destruct Hl2 as (l2 & Ha2 & Hh2 & _); [lia|]. congruence.
Qed.

(** C3: at most one node leads. In a deployment whose nodes share the witnesses and need a majority of them, and
    from any start without leases, after any interleaving of acquisitions, delayed answers, transfers,
    recoveries, restarts of nodes and witnesses, lease files that cannot be written and passing time, two nodes that both hold a valid lease are the same node. *)
Theorem at_most_one_valid_lease t paths markers receipts s n1 n2 margin1 margin2 :
  deployment -> 0 <= t -> rtc step (initial t paths markers receipts) s -> n1 <> "" -> n2 <> "" ->
  valid (cfg n1) s.(clock) margin1 (s.(nodes) n1) = true -> valid (cfg n2) s.(clock) margin2 (s.(nodes) n2) = true ->
  n1 = n2.
Proof.
  intros D Ht Hsteps. apply leases_exclusive; [done|]. by eapply steps_invariant, initial_invariant.
Qed.
End deployment.

(** ** A run: two of three witnesses grant node-a, which then leads *)

Definition three : list string := ["http://w1"; "http://w2"; "http://w3"].
Definition member (n : string) : config :=
  {| urls := three; independent_mode := false; configured_quorum := 0; max_clock_skew_ms := 0; endpoint_meta := [];
     cluster_id := "show"; node_id := n; secret := "secret"; keyring := None; ttl_ms := 3000; has_fence_path := true |}.

Lemma three_deployment : deployment three member.
Proof. split; [nodup_keys|done|done|done]. Defined.

Definition day_one : system := initial member 1000 (fun _ => true) (fun _ => FAbsent) (fun _ => false).

Definition grant_result (w : string) : WitnessResult :=
  {| r_url := w; r_granted := true; r_epoch := 1; r_expires := 4000; r_holder := Some "node-a"; r_error := None;
     r_witness_id := None; r_failure_domain := None; r_server_ms := 0; r_skew := None |}.

Definition votes_in : list WitnessResult := [grant_result "http://w1"; grant_result "http://w2"].

(** What a witness answers an acquisition at the clock of a state, and the state after it. *)
Definition asked (n w : string) (s : system) : WitnessStore.store * res pydict :=
  WitnessStore.acquire true s.(clock) "show" n (member n).(ttl_ms) (s.(stores) w).
Definition after_asking (n w : string) (s : system) : system :=
  let '(x, a) := asked n w s in
  set_answers (hear n w a s.(answers)) (set_store w x s).

Definition elected : system :=
  let s := after_asking "node-a" "http://w2" (after_asking "node-a" "http://w1" day_one) in
  set_node "node-a" (settle (member "node-a") s.(clock) votes_in (s.(nodes) "node-a")) s.

Lemma asking_is_a_step n w s :
  n <> "" -> step three "show" member s (after_asking n w s).
Proof.
  intros Hn. unfold after_asking. destruct (asked n w s) as [x a] eqn:E. by apply (witness_acquires _ _ _ _ _ true).
Qed.

Lemma elected_reachable : rtc (step three "show" member) day_one elected.
Proof.
  apply (rtc_l _ _ (after_asking "node-a" "http://w1" day_one)).
  { by apply asking_is_a_step. }
  apply (rtc_l _ _ (after_asking "node-a" "http://w2" (after_asking "node-a" "http://w1" day_one))).
  { by apply asking_is_a_step. }
  apply rtc_once, node_settles; [done|reflexivity|apply sublist_skip, sublist_skip, sublist_nil_l|].
  assert (Ha : (after_asking "node-a" "http://w2" (after_asking "node-a" "http://w1" day_one)).(answers)
    = [("node-a", "http://w2", 4000); ("node-a", "http://w1", 4000)]) by (vm_compute; reflexivity).
  intros r Hr _ _. rewrite Ha. unfold votes_in in Hr. apply elem_of_cons in Hr as [->|[->|[]%not_elem_of_nil]%elem_of_cons];
    [right; left|left].
Qed.

Lemma at_most_one_valid_lease_witness :
  valid (member "node-a") elected.(clock) 500 (elected.(nodes) "node-a") = true
  /\ (forall n2, n2 <> "" -> valid (member n2) elected.(clock) 0 (elected.(nodes) n2) = true -> "node-a" = n2).
Proof.
  split; [vm_compute; reflexivity|]. intros n2 Hn Hv.
  apply (at_most_one_valid_lease three "show" member 1000 (fun _ => true) (fun _ => FAbsent) (fun _ => false)
    elected "node-a" n2 500 0); [apply three_deployment|done|apply elected_reachable|done|done|vm_compute; reflexivity|done].
Defined.
