(* ===== verification/Replication.v ===== *)
(** * Replication envelopes and ordering (backend/replication.py)

    The signed envelope a primary exports, its verification by a standby, and
    the tracker that keeps the node's role, its authority epoch and the
    monotonic order of applied envelopes. [monotonic()] is an argument. *)

From S2P Require Import Prelude PyStr PyFloat PyVal PyFacts Sha256 ClusterSecrets StateLogic.
From Stdlib Require Import SpecFloat.
From Stdlib Require Import SpecFloat Sorting.Sorted.

#[local] Open Scope string_scope.
#[local] Open Scope list_scope.
#[local] Open Scope Z_scope.
#[local] Open Scope st_scope.

(** ** Envelopes *)

Definition payload_digest (payload : pydict) : string := sha256_hex (_canonical (VDict payload)).

(** [hmac.new(secret, digest.encode("ascii"), sha256).hexdigest()]. *)
Definition digest_signature (secret digest : string) : string := hmac_hex secret digest.

Definition envelope_payload (snapshot : pydict) (node_id : string) (epoch sequence : Z)
    (execution_telemetry : option pyval) (key_id : option string) : res pydict :=
  revision ← py_int (dget_or snapshot "revision" (VInt 0));
  let base :=
    [("protocolVersion", VInt (match execution_telemetry with Some _ => 2 | None => 1 end));
     ("sourceNodeId", VStr node_id); ("epoch", VInt epoch); ("sequence", VInt sequence);
     ("revision", VInt revision); ("snapshot", VDict snapshot)] in
  let with_telemetry := match execution_telemetry with
                        | Some t => dset base "executionTelemetry" t
                        | None => base
                        end in
  Ok (match key_id with
      | Some k => dset with_telemetry "keyId" (VStr k)
      | None => with_telemetry
      end).

Definition make_envelope (snapshot : pydict) (node_id : string) (epoch sequence : Z) (secret : string)
    (execution_telemetry : option pyval) (key_id : option string) : res pydict :=
  payload ← envelope_payload snapshot node_id epoch sequence execution_telemetry key_id;
  let digest := payload_digest payload in
  let signature := if String.eqb secret "" then "" else digest_signature secret digest in
  Ok (dmerge payload [("digestSha256", VStr digest); ("hmacSha256", VStr signature)]).

(** The payload a received envelope claims; [None]: telemetry is not an object. *)
Definition received_payload (envelope : pydict) : res (option (Z * Z * pyval * pydict)) :=
  v ← dindex envelope "protocolVersion"; protocol_version ← py_int v;
  source ← dindex envelope "sourceNodeId";
  e ← dindex envelope "epoch"; epoch ← py_int e;
  q ← dindex envelope "sequence"; sequence ← py_int q;
  r ← dindex envelope "revision"; revision ← py_int r;
  snapshot ← dindex envelope "snapshot";
  let base :=
    [("protocolVersion", VInt protocol_version); ("sourceNodeId", VStr (py_str source));
     ("epoch", VInt epoch); ("sequence", VInt sequence); ("revision", VInt revision);
     ("snapshot", snapshot)] in
  let telemetry := dget_or envelope "executionTelemetry" (VDict []) in
  if (2 <=? protocol_version) && negb (is_dict telemetry) then Ok None
  else
    let p := if 2 <=? protocol_version then dset base "executionTelemetry" telemetry else base in
    let p := match dget envelope "keyId" with
             | Some k => dset p "keyId" (VStr (py_str k))
             | None => p
             end in
    Ok (Some (protocol_version, revision, snapshot, p)).

(** The secret that must have signed, empty when none is required. *)
Definition envelope_secret (secret : string) (keyset : option HmacKeySnapshot) (envelope : pydict)
    : res string :=
  match keyset with
  | None => Ok secret
  | Some ks => if negb (snapshot_configured ks) then Ok "" else resolve ks (dget_none envelope "keyId")
  end.

Definition verify_envelope (envelope : pydict) (secret : string) (keyset : option HmacKeySnapshot)
    : res (bool * string) :=
  match received_payload envelope with
  | Raise e => if key_type_value e then Ok (false, "malformed replication envelope") else Raise e
  | Ok None => Ok (false, "malformed execution telemetry")
  | Ok (Some (protocol_version, revision, snapshot, payload)) =>
      if negb ((protocol_version =? 1) || (protocol_version =? 2)) || negb (is_dict snapshot)
      then Ok (false, "unsupported replication envelope")
      else
        let digest := payload_digest payload in
        same ← compare_digest digest (py_str (dget_or envelope "digestSha256" (VStr "")));
        if negb same then Ok (false, "replication digest mismatch")
        else match envelope_secret secret keyset envelope with
        | Raise (PermissionError m) => Ok (false, m)
        | Raise e => Raise e
        | Ok auth_secret =>
            let supplied := py_str (dget_or envelope "hmacSha256" (VStr "")) in
            authentic ← (if String.eqb auth_secret "" then Ok true
                         else if String.eqb supplied "" then Ok false
                         else compare_digest (digest_signature auth_secret digest) supplied);
            if negb authentic then Ok (false, "replication authentication failed")
            else
              actual ← py_int (dget_or (as_dict snapshot) "revision" (VInt (-1)));
              if negb (revision =? actual)
              then Ok (false, "replication revision does not match snapshot")
              else Ok (true, "ok")
        end
  end.

(** ** The tracker *)

Inductive role := Primary | Standby.

#[export] Instance role_eq_dec : EqDecision role.
Proof. solve_decision. Defined.

Definition role_text (r : role) : string := match r with Primary => "primary" | Standby => "standby" end.

(** [role.strip().lower()] when it names a role. *)
Definition parse_role (text : string) : option role :=
  let t := lower (strip text) in
  if String.eqb t "primary" then Some Primary
  else if String.eqb t "standby" then Some Standby else None.

Record tracker := {
  _node_id : string;
  _role : role;
  _epoch : Z;
  _export_sequence : Z;
  _source_node_id : string;
  _applied_epoch : Z;
  _applied_sequence : Z;
  _applied_revision : Z;
  _last_applied_at : float;
}.

Abbreviation op := (st tracker).

Definition fzero : float := S754_zero false.

Definition make_tracker (node_id role : string) : tracker :=
  {| _node_id := str_or (slice 64 (strip node_id)) "node-local";
     _role := default Primary (parse_role role);
     _epoch := 1; _export_sequence := 0; _source_node_id := ""; _applied_epoch := 0;
     _applied_sequence := 0; _applied_revision := 0; _last_applied_at := fzero |}.

(** [int(max(0.0, now - then) * 1000)]. *)
Definition age_ms (now since : float) : res Z :=
  py_int (VFloat (fmul (fmax fzero (fsub now since)) (float_of_Z 1000))).

Definition status (now : float) (t : tracker) : res pydict :=
  age ← (match t.(_last_applied_at) with
         | S754_zero _ => Ok VNone
         | _ => a ← age_ms now t.(_last_applied_at); Ok (VInt a)
         end);
  Ok [("nodeId", VStr t.(_node_id)); ("role", VStr (role_text t.(_role))); ("epoch", VInt t.(_epoch));
      ("sourceNodeId", str_or_none t.(_source_node_id)); ("lastAppliedEpoch", VInt t.(_applied_epoch));
      ("lastAppliedSequence", VInt t.(_applied_sequence)); ("lastAppliedRevision", VInt t.(_applied_revision));
      ("replicaAgeMs", age)].

Definition read_status (now : float) : op pydict :=
  let* t := st_get in st_lift (status now t).

Definition is_primary (t : tracker) : bool := match t.(_role) with Primary => true | Standby => false end.

(** Role, epoch and export sequence; everything else stays. *)
Definition set_authority (r : role) (epoch seq : Z) (t : tracker) : tracker :=
  {| _node_id := t.(_node_id); _role := r; _epoch := epoch; _export_sequence := seq;
     _source_node_id := t.(_source_node_id); _applied_epoch := t.(_applied_epoch);
     _applied_sequence := t.(_applied_sequence); _applied_revision := t.(_applied_revision);
     _last_applied_at := t.(_last_applied_at) |}.

Definition set_role (text : string) (now : float) : op pydict :=
  match parse_role text with
  | None => st_raise (ValueError "node role must be primary or standby")
  | Some r =>
      let* t := st_get in
      let* _ := st_when (negb (bool_decide (r = t.(_role))))
                  (st_put (set_authority r (t.(_epoch) + 1) 0 t)) in
      read_status now
  end.

Definition promote_with_epoch (epoch : Z) (now : float) : op pydict :=
  let epoch := Z.max 1 epoch in
  let* t := st_get in
  let* _ := st_put (set_authority Primary (Z.max (t.(_epoch) + 1) epoch) 0 t) in
  read_status now.

Definition adopt_epoch (epoch : Z) (now : float) : op pydict :=
  let epoch := Z.max 1 epoch in
  let* t := st_get in
  let* _ := st_when (t.(_epoch) <? epoch) (st_put (set_authority t.(_role) epoch 0 t)) in
  read_status now.

Definition export (snapshot : pydict) (secret : string) (telemetry : option pyval) (key_id : option string)
    : op pydict :=
  let* t := st_get in
  if negb (is_primary t)
  then st_raise (RuntimeError "only the primary node can export authoritative replication state")
  else
    let seq := t.(_export_sequence) + 1 in
    let* _ := st_put (set_authority t.(_role) t.(_epoch) seq t) in
    st_lift (make_envelope snapshot t.(_node_id) t.(_epoch) seq secret telemetry key_id).

(** The ordering facts of an envelope: epoch, sequence, revision, source. *)
Record ordering := { o_epoch : Z; o_sequence : Z; o_revision : Z; o_source : string }.

Definition read_ordering (envelope : pydict) : res ordering :=
  e ← dindex envelope "epoch"; epoch ← py_int e;
  q ← dindex envelope "sequence"; sequence ← py_int q;
  r ← dindex envelope "revision"; revision ← py_int r;
  s ← dindex envelope "sourceNodeId";
  Ok {| o_epoch := epoch; o_sequence := sequence; o_revision := revision; o_source := py_str s |}.

Definition can_apply (envelope : pydict) (t : tracker) : res (bool * string) :=
  if is_primary t then Ok (false, "replica apply is only allowed while node role is standby")
  else match read_ordering envelope with
  | Raise e => if key_type_value e then Ok (false, "malformed replication ordering metadata") else Raise e
  | Ok o =>
      if o.(o_epoch) <? t.(_applied_epoch) then Ok (false, "stale replication epoch")
      else if (o.(o_epoch) =? t.(_applied_epoch)) && String.eqb o.(o_source) t.(_source_node_id)
              && (o.(o_sequence) <=? t.(_applied_sequence))
      then Ok (false, "stale or duplicate replication sequence")
      else if (o.(o_epoch) =? t.(_applied_epoch)) && negb (t.(_applied_revision) =? 0)
              && (o.(o_revision) <? t.(_applied_revision))
      then Ok (false, "replication revision moved backwards")
      else Ok (true, "ok")
  end.

(** The assignments happen one by one: a missing field leaves the earlier ones. *)
Definition mark_applied (envelope : pydict) (now : float) : op unit :=
  let upd f := st_modify f in
  let* s := st_lift (dindex envelope "sourceNodeId") in
  let* _ := upd (fun t => {| _node_id := t.(_node_id); _role := t.(_role); _epoch := t.(_epoch);
      _export_sequence := t.(_export_sequence); _source_node_id := py_str s;
      _applied_epoch := t.(_applied_epoch); _applied_sequence := t.(_applied_sequence);
      _applied_revision := t.(_applied_revision); _last_applied_at := t.(_last_applied_at) |}) in
  let* epoch := st_lift (e ← dindex envelope "epoch"; py_int e) in
  let* _ := upd (fun t => {| _node_id := t.(_node_id); _role := t.(_role); _epoch := t.(_epoch);
      _export_sequence := t.(_export_sequence); _source_node_id := t.(_source_node_id);
      _applied_epoch := epoch; _applied_sequence := t.(_applied_sequence);
      _applied_revision := t.(_applied_revision); _last_applied_at := t.(_last_applied_at) |}) in
  let* sequence := st_lift (q ← dindex envelope "sequence"; py_int q) in
  let* _ := upd (fun t => {| _node_id := t.(_node_id); _role := t.(_role); _epoch := t.(_epoch);
      _export_sequence := t.(_export_sequence); _source_node_id := t.(_source_node_id);
      _applied_epoch := t.(_applied_epoch); _applied_sequence := sequence;
      _applied_revision := t.(_applied_revision); _last_applied_at := t.(_last_applied_at) |}) in
  let* revision := st_lift (r ← dindex envelope "revision"; py_int r) in
  upd (fun t => {| _node_id := t.(_node_id); _role := t.(_role); _epoch := Z.max t.(_epoch) t.(_applied_epoch);
      _export_sequence := t.(_export_sequence); _source_node_id := t.(_source_node_id);
      _applied_epoch := t.(_applied_epoch); _applied_sequence := t.(_applied_sequence);
      _applied_revision := revision; _last_applied_at := now |}).

(** * What replication guarantees (backend/replication.py)

    An exported envelope verifies under the same secret and an accepted one was
    signed with it; exported positions only move forward; a replica applies
    envelopes in a consistent order; and authority epochs never go back. *)

(** ** Envelopes *)

Lemma hex_of_nil s : hex s = "" -> chars s = [].
Proof. unfold hex. destruct (chars s) as [|c l]; [done|]. cbn. done. Qed.

Lemma digest_signature_nonempty secret d : digest_signature secret d <> "".
Proof.
  intros H. apply hex_of_nil in H. pose proof (hmac_sha256_length secret d) as Hl. by rewrite H in Hl.
Qed.

(** The checks a received payload passes once it has been read. *)
Definition seal_ok (envelope payload : pydict) (secret : string) : Prop :=
  py_str (dget_or envelope "digestSha256" (VStr "")) = payload_digest payload
  /\ (secret <> "" -> py_str (dget_or envelope "hmacSha256" (VStr ""))
                     = digest_signature secret (payload_digest payload)).

Lemma verify_envelope_iff envelope secret reason :
  verify_envelope envelope secret None = Ok (true, reason) <-> exists version revision snapshot payload actual,
    received_payload envelope = Ok (Some (version, revision, VDict snapshot, payload))
    /\ (version = 1 \/ version = 2) /\ seal_ok envelope payload secret
    /\ py_int (dget_or snapshot "revision" (VInt (-1))) = Ok actual /\ revision = actual /\ reason = "ok".
Proof.
  unfold verify_envelope, seal_ok, envelope_secret. split.
  - destruct (received_payload envelope) as [[[[[version revision] snap] payload]|]|e]; try done.
    2: { by destruct (key_type_value e). }
    destruct (_ || _) eqn:E; [done|]. apply orb_false_elim in E as [Ev Es].
    apply negb_false_iff, orb_prop in Ev. destruct snap as [| | | | | |snapshot]; try done. intros F.
    apply bind_ok in F as ([|] & Hc & F); [|done]. apply compare_digest_true in Hc. cbn [negb] in F.
    destruct (String.eqb_spec secret "") as [->|Hs].
    + cbn [mbind res_bind negb as_dict] in F. apply bind_ok in F as (actual & Hr & F).
      destruct (Z.eqb_spec revision actual); [|done]. injection F as <-.
      exists version, revision, snapshot, payload, actual. rewrite !Z.eqb_eq in Ev. by split_and!.
    + apply bind_ok in F as ([|] & Ha & F); [|done]. cbn [negb as_dict] in F.
      apply bind_ok in F as (actual & Hr & F). destruct (Z.eqb_spec revision actual); [|done]. injection F as <-.
      exists version, revision, snapshot, payload, actual. rewrite !Z.eqb_eq in Ev. split_and!; try done.
      intros _. destruct (String.eqb _ "") in Ha; [done|]. by apply compare_digest_true in Ha.
  - intros (version & revision & snapshot & payload & actual & -> & Hv & [Hd Hh] & Hr & -> & ->).
    replace ((version =? 1) || (version =? 2)) with true by (destruct Hv as [->| ->]; done).
    cbn [negb is_dict orb]. rewrite Hd, compare_digest_refl by apply sha256_hex_ascii. cbn [mbind res_bind negb as_dict].
    destruct (String.eqb_spec secret "") as [->|Hs].
    + cbn [mbind res_bind negb]. rewrite Hr. cbn [mbind res_bind]. by rewrite Z.eqb_refl.
    + rewrite (Hh Hs), (str_eqb_ne _ _ (digest_signature_nonempty _ _)), compare_digest_refl by apply hmac_hex_ascii.
      cbn [mbind res_bind negb]. rewrite Hr. cbn [mbind res_bind]. by rewrite Z.eqb_refl.
Qed.

(** What [make_envelope] puts around a payload. *)
Definition sealed (payload : pydict) (secret : string) : pydict :=
  dmerge payload [("digestSha256", VStr (payload_digest payload));
    ("hmacSha256", VStr (if String.eqb secret "" then "" else digest_signature secret (payload_digest payload)))].

Lemma sealed_get payload secret k : dget (sealed payload secret) k =
  if String.eqb k "hmacSha256" then Some (VStr (if String.eqb secret "" then "" else digest_signature secret (payload_digest payload)))
  else if String.eqb k "digestSha256" then Some (VStr (payload_digest payload)) else dget payload k.
Proof. unfold sealed, dmerge. cbn [fold_left fst snd]. by rewrite !dget_dset. Qed.

Lemma sealed_ok payload secret : seal_ok (sealed payload secret) payload secret.
Proof.
  unfold seal_ok, dget_or. rewrite !sealed_get. cbn [String.eqb Ascii.eqb Bool.eqb py_str]. split; [done|].
  intros H. by rewrite (str_eqb_ne _ _ H).
Qed.

Lemma received_sealed snapshot node epoch sequence telemetry key revision payload secret :
  envelope_payload snapshot node epoch sequence telemetry key = Ok payload ->
  py_int (dget_or snapshot "revision" (VInt 0)) = Ok revision ->
  (forall t, telemetry = Some t -> exists d, t = VDict d) ->
  received_payload (sealed payload secret)
  = Ok (Some (match telemetry with Some _ => 2 | None => 1 end, revision, VDict snapshot, payload)).
Proof.
  intros Hp Hr Ht. unfold envelope_payload in Hp. rewrite Hr in Hp. cbn [mbind res_bind] in Hp. injection Hp as <-.
  unfold received_payload, dindex, dget_or. rewrite !sealed_get.
  destruct telemetry as [t|]; [destruct (Ht t eq_refl) as [d ->]|]; destruct key as [k|]; reflexivity.
Qed.

(** Round trip. Every envelope made from a snapshot that states its revision verifies under the secret that
    made it, with or without telemetry and key identifier; and conversely an envelope of any origin that verifies
    under a non-empty secret carries that secret's HMAC over the digest of the payload read from it, and states
    the revision of the snapshot it carries. *)
Theorem envelope_roundtrip snapshot node epoch sequence secret telemetry key r env :
  make_envelope snapshot node epoch sequence secret telemetry key = Ok env ->
  dget snapshot "revision" = Some (VInt r) -> (forall t, telemetry = Some t -> exists d, t = VDict d) ->
  verify_envelope env secret None = Ok (true, "ok")
  /\ forall received other reason, other <> "" -> verify_envelope received other None = Ok (true, reason) ->
       exists version revision carried payload,
         received_payload received = Ok (Some (version, revision, VDict carried, payload))
         /\ py_str (dget_or received "hmacSha256" (VStr "")) = digest_signature other (payload_digest payload)
         /\ py_int (dget_or carried "revision" (VInt (-1))) = Ok revision.
Proof.
  intros H Hr Ht. split.
  - unfold make_envelope in H. apply bind_ok in H as (payload & Hp & H).
    assert (He : env = sealed payload secret) by (injection H as <-; reflexivity). clear H. subst env.
    assert (Hrev : py_int (dget_or snapshot "revision" (VInt 0)) = Ok r) by (unfold dget_or; by rewrite Hr).
    apply verify_envelope_iff. eexists _, _, _, _, r. split; [by apply (received_sealed _ _ _ _ _ _ _ _ _ Hp Hrev Ht)|].
    split; [destruct telemetry; auto|]. split; [apply sealed_ok|]. split; [unfold dget_or; by rewrite Hr|done].
  - intros received other reason Ho (v & rv & s & p & a & Hrec & _ & [_ Hh] & Ha & -> & _)%verify_envelope_iff.
    exists v, a, s, p. split_and!; auto.
Qed.

Lemma envelope_roundtrip_witness : exists env,
  make_envelope [("revision", VInt 7)] "node-a" 3 1 "s3cret" None (Some "k1") = Ok env
  /\ verify_envelope env "s3cret" None = Ok (true, "ok").
Proof.
  eexists. split; [reflexivity|].
  refine (proj1 (envelope_roundtrip [("revision", VInt 7)] "node-a" 3 1 "s3cret" None (Some "k1") 7 _ _ _ _)).
  - reflexivity.
  - reflexivity.
  - discriminate.
Defined.

(** ** The order of exports and of applied envelopes *)

(** The calls a node makes on its tracker. *)
Inductive call :=
  | CSetRole (text : string)
  | CPromote (epoch : Z)
  | CAdopt (epoch : Z)
  | CExport (snapshot : pydict) (secret : string) (telemetry : option pyval) (key_id : option string)
  | CApply (envelope : pydict).

(** A standby marks an envelope applied when the order admits it. *)
Definition apply_in_order (envelope : pydict) (now : float) : op bool :=
  let* t := st_get in
  let* decision := st_lift (can_apply envelope t) in
  let* _ := st_when (fst decision) (mark_applied envelope now) in
  st_ret (fst decision).

Definition perform (c : call) (now : float) (t : tracker) : tracker :=
  match c with
  | CSetRole text => fst (set_role text now t)
  | CPromote e => fst (promote_with_epoch e now t)
  | CAdopt e => fst (adopt_epoch e now t)
  | CExport snapshot secret telemetry key => fst (export snapshot secret telemetry key t)
  | CApply envelope => fst (apply_in_order envelope now t)
  end.

(** The ordering facts of the envelopes a call exports, and of those it applies. *)
Definition exports (c : call) (t : tracker) : list ordering :=
  match c with
  | CExport snapshot secret telemetry key =>
      match snd (export snapshot secret telemetry key t) with
      | Ok env => match read_ordering env with Ok o => [o] | Raise _ => [] end
      | Raise _ => []
      end
  | _ => []
  end.

Definition applies (c : call) (now : float) (t : tracker) : list ordering :=
  match c with
  | CApply envelope =>
      match snd (apply_in_order envelope now t) with
      | Ok true => match read_ordering envelope with Ok o => [o] | Raise _ => [] end
      | _ => []
      end
  | _ => []
  end.

Fixpoint all_exports (cs : list (call * float)) (t : tracker) : list ordering :=
  match cs with
  | [] => []
  | (c, now) :: cs' => exports c t ++ all_exports cs' (perform c now t)
  end.

Fixpoint all_applied (cs : list (call * float)) (t : tracker) : list ordering :=
  match cs with
  | [] => []
  | (c, now) :: cs' => applies c now t ++ all_applied cs' (perform c now t)
  end.

(** A later export is in a later epoch or later in the same epoch. *)
Definition exported_before (a b : ordering) : Prop :=
  a.(o_epoch) < b.(o_epoch) \/ a.(o_epoch) = b.(o_epoch) /\ a.(o_sequence) < b.(o_sequence).

(** What the next applied envelope owes to the last one. *)
Definition applied_before (a b : ordering) : Prop :=
  a.(o_epoch) <= b.(o_epoch)
  /\ (a.(o_epoch) = b.(o_epoch) -> a.(o_source) = b.(o_source) -> a.(o_sequence) < b.(o_sequence))
  /\ (a.(o_epoch) = b.(o_epoch) -> a.(o_revision) <> 0 -> a.(o_revision) <= b.(o_revision)).

Definition position (t : tracker) : ordering :=
  {| o_epoch := t.(_epoch); o_sequence := t.(_export_sequence); o_revision := 0; o_source := t.(_node_id) |}.

Definition last_applied (t : tracker) : ordering :=
  {| o_epoch := t.(_applied_epoch); o_sequence := t.(_applied_sequence);
     o_revision := t.(_applied_revision); o_source := t.(_source_node_id) |}.

Lemma mark_applied_ok envelope o now t : read_ordering envelope = Ok o ->
  mark_applied envelope now t =
    ({| _node_id := t.(_node_id); _role := t.(_role); _epoch := Z.max t.(_epoch) o.(o_epoch);
        _export_sequence := t.(_export_sequence); _source_node_id := o.(o_source);
        _applied_epoch := o.(o_epoch); _applied_sequence := o.(o_sequence);
        _applied_revision := o.(o_revision); _last_applied_at := now |}, Ok tt).
Proof.
  unfold read_ordering. intros H. pyinv. subst o. unfold mark_applied.
  repeat (match goal with E : ?m = Ok _ |- context [?m] => rewrite E end; cbn [mbind res_bind]). reflexivity.
Qed.

Lemma can_apply_ok envelope t reason : can_apply envelope t = Ok (true, reason) ->
  exists o, read_ordering envelope = Ok o /\ applied_before (last_applied t) o.
Proof.
  unfold can_apply, applied_before, last_applied. destruct (is_primary t); [done|].
  destruct (read_ordering envelope) as [o|e]; [|by destruct (key_type_value e)].
  destruct (Z.ltb_spec o.(o_epoch) t.(_applied_epoch)); [done|].
  destruct (_ && _ && _) eqn:Es; [done|]. destruct (_ && _ && _) eqn:Er in |- *; [done|]. intros _. exists o.
  split; [done|]. cbn [o_epoch o_sequence o_revision o_source]. split_and!; [lia| |].
  - intros He Hs. rewrite He, Hs, Z.eqb_refl, str_eqb_refl in Es. cbn in Es. apply Z.leb_gt in Es. lia.
  - intros He Hn. rewrite He, Z.eqb_refl in Er. apply Z.eqb_neq in Hn. rewrite Hn in Er. cbn in Er.
    apply Z.ltb_ge in Er. lia.
Qed.

(** An application either changes nothing or applies an admitted envelope. *)
Lemma apply_in_order_cases envelope now t :
  (fst (apply_in_order envelope now t) = t /\ applies (CApply envelope) now t = [])
  \/ exists o, read_ordering envelope = Ok o /\ applied_before (last_applied t) o
       /\ applies (CApply envelope) now t = [o]
       /\ fst (apply_in_order envelope now t) = fst (mark_applied envelope now t).
Proof.
  unfold applies, apply_in_order, st_bind, st_get, st_lift.
  destruct (can_apply envelope t) as [[[|] reason]|e] eqn:Hc; cbn [fst st_when]; [|by left|by left].
  destruct (can_apply_ok _ _ _ Hc) as (o & Ho & Hb). right. exists o.
  rewrite (mark_applied_ok _ _ _ _ Ho). cbn [fst snd st_ret]. by rewrite Ho.
Qed.

(** The result of an export states the tracker's next position. *)
Lemma export_ordering snapshot secret telemetry key t t' env :
  export snapshot secret telemetry key t = (t', Ok env) ->
  exists r, read_ordering env = Ok {| o_epoch := t.(_epoch); o_sequence := t.(_export_sequence) + 1;
                                      o_revision := r; o_source := t.(_node_id) |}
  /\ t' = set_authority t.(_role) t.(_epoch) (t.(_export_sequence) + 1) t.
Proof.
  unfold export, st_bind, st_get, st_put, st_lift. destruct (negb (is_primary t)); [done|].
  intros [= <- H]. unfold make_envelope, envelope_payload in H.
  destruct (py_int (dget_or snapshot "revision" (VInt 0))) as [r|e]; [|discriminate H].
  exists r. split; [|done]. cbn [mbind res_bind] in H. injection H as <-. unfold read_ordering, dindex.
  destruct telemetry, key; reflexivity.
Qed.

Definition at_or_after (a b : ordering) : Prop :=
  a.(o_epoch) < b.(o_epoch) \/ a.(o_epoch) = b.(o_epoch) /\ a.(o_sequence) <= b.(o_sequence).

Lemma set_role_state text now t : fst (set_role text now t) =
  match parse_role text with
  | None => t
  | Some r => if bool_decide (r = t.(_role)) then t else set_authority r (t.(_epoch) + 1) 0 t
  end.
Proof.
  unfold set_role, st_bind, st_get, read_status, st_lift. destruct (parse_role text) as [r|]; [|done].
  by destruct (bool_decide (r = t.(_role))).
Qed.

Lemma perform_position c now t :
  0 <= t.(_export_sequence) ->
  at_or_after (position t) (position (perform c now t)) /\ 0 <= (perform c now t).(_export_sequence).
Proof.
  intros Hs. unfold at_or_after, position. cbn [o_epoch o_sequence]. destruct c as [text|e|e|sn se te ke|env]; cbn [perform].
  - rewrite set_role_state. destruct (parse_role text) as [r|]; [|lia].
    destruct (bool_decide (r = t.(_role))); cbn; lia.
  - unfold promote_with_epoch, read_status, st_bind, st_get, st_put, st_lift.
    cbn [fst set_authority _epoch _export_sequence]. lia.
  - unfold adopt_epoch, read_status, st_bind, st_get, st_when, st_lift. destruct (Z.ltb_spec t.(_epoch) (Z.max 1 e));
      cbn [fst set_authority _epoch _export_sequence st_ret st_put]; lia.
  - unfold export, st_bind, st_get. destruct (negb (is_primary t)); cbn; lia.
  - destruct (apply_in_order_cases env now t) as [[-> _]|(o & Ho & _ & _ & ->)]; [lia|].
    rewrite (mark_applied_ok _ _ _ _ Ho). cbn. lia.
Qed.

(** One call exports at most one envelope, strictly after the position it started from. *)
Lemma exports_next c now t : exports c t = []
  \/ exists o, exports c t = [o] /\ exported_before (position t) o /\ at_or_after o (position (perform c now t)).
Proof.
  destruct c as [| | |sn se te ke|]; try by left. cbn [exports perform].
  destruct (export sn se te ke t) as [t' [env|e]] eqn:He; [|by left]. right.
  destruct (export_ordering _ _ _ _ _ _ _ He) as (r & Hr & ->). cbn [snd]. rewrite Hr. eexists. split; [done|].
  unfold exported_before, at_or_after. cbn. lia.
Qed.

Lemma applies_next c now t : applies c now t = [] /\ last_applied (perform c now t) = last_applied t
  \/ exists o, applies c now t = [o] /\ applied_before (last_applied t) o /\ last_applied (perform c now t) = o.
Proof.
  destruct c as [text|e|e|sn se te ke|env].
  5: { destruct (apply_in_order_cases env now t) as [[H ->]|(o & Ho & Hb & Ha & H)]; cbn [perform]; rewrite H; [by left|].
       right. exists o. rewrite (mark_applied_ok _ _ _ _ Ho). cbn [fst]. split; [done|]. split; [done|].
       unfold last_applied. cbn. by destruct o. }
  all: left; split; [done|]; cbn [perform].
  - rewrite set_role_state. destruct (parse_role text) as [r|]; [|done]. by destruct (bool_decide _).
  - done.
  - unfold adopt_epoch, st_bind, st_get, st_when. by destruct (_ <? _).
  - unfold export, st_bind, st_get. by destruct (negb (is_primary t)).
Qed.

Lemma exports_after cs t : 0 <= t.(_export_sequence) ->
  StronglySorted exported_before (all_exports cs t) /\ Forall (exported_before (position t)) (all_exports cs t).
Proof.
  revert t. induction cs as [|[c now] cs IH]; intros t Hs; cbn [all_exports]; [split; constructor|].
  destruct (perform_position c now t Hs) as [Hp Hs']. destruct (IH _ Hs') as [Hss Hf].
  assert (Hlift : forall a, at_or_after a (position (perform c now t)) ->
                    Forall (exported_before a) (all_exports cs (perform c now t))).
  { intros a Ha. eapply Forall_impl; [exact Hf|]. intros b Hb. unfold exported_before, at_or_after in *. lia. }
  destruct (exports_next c now t) as [->|(o & -> & Hb & Ho)]; cbn [app]; [by auto|].
  split; constructor; auto.
Qed.

Lemma applied_after cs t : HdRel applied_before (last_applied t) (all_applied cs t)
  /\ Sorted applied_before (all_applied cs t).
Proof.
  revert t. induction cs as [|[c now] cs IH]; intros t; cbn [all_applied]; [by repeat constructor|].
  destruct (IH (perform c now t)) as [Hh Hs].
  destruct (applies_next c now t) as [[-> Hl]|(o & -> & Hb & Hl)]; cbn [app]; rewrite Hl in Hh; [done|].
  split; [by apply HdRel_cons|by apply Sorted_cons].
Qed.

(** C7: replication order. Whatever calls a tracker receives (role changes, fenced promotions, adopted epochs,
    exports, received envelopes, malformed ones included), the envelopes it exports carry strictly increasing
    (epoch, sequence) positions, so no position is ever exported twice; and each envelope it applies follows the
    last one applied: its epoch is not older, within one epoch an envelope of the same source has a larger sequence,
    and the revision does not go back. *)
Theorem replication_order_is_monotonic node role cs :
  StronglySorted exported_before (all_exports cs (make_tracker node role))
  /\ Sorted applied_before (all_applied cs (make_tracker node role)).
Proof. split; [by apply exports_after|apply applied_after]. Qed.

(** A standby applies a primary's exports once each, and refuses the repeated one. *)
Example standby_applies_each_once :
  let envelope q r := [("sourceNodeId", VStr "node-a"); ("epoch", VInt 2); ("sequence", VInt q); ("revision", VInt r)] in
  map o_sequence (all_applied [(CApply (envelope 1 5), fzero); (CApply (envelope 1 5), fzero);
                               (CApply (envelope 2 6), fzero); (CApply (envelope 3 4), fzero)]
                    (make_tracker "node-b" "standby")) = [1; 2].
Proof. reflexivity. Qed.
