(* ===== verification/PeerReplication.v ===== *)
(** * Peer delivery (backend/peer_replication.py)

    The client that pushes replication envelopes and handoff receipts to a peer
    and keeps the bookkeeping of what was delivered. The HTTP exchange and the
    monotonic clock answer through arguments. *)

From S2P Require Import Prelude PyStr PyFloat PyVal PyFacts.
From Stdlib Require Import SpecFloat.

#[local] Open Scope string_scope.
#[local] Open Scope list_scope.
#[local] Open Scope Z_scope.
#[local] Open Scope st_scope.

Record PeerPushResult := { ok : bool; http_status : Z; error : option string }.

Record client := {
  _peer_url : string;
  _timeout : float;
  _last_attempt_at : float;
  _last_success_at : float;
  _last_revision : Z;
  _pushes : Z;
  _failures : Z;
  _last_error : option string;
  _last_status : Z;
  _handoff_ready_attempts : Z;
  _handoff_ready_deliveries : Z;
  _handoff_ready_failures : Z;
  _handoff_ready_last_error : option string;
}.

Abbreviation op := (st client).

Definition make_client (peer_url : string) (timeout_seconds : float) : client :=
  {| _peer_url := rstrip_char "/"%char peer_url;
     _timeout := fmax (float_of_dec false 5 (-2)) (fmin timeout_seconds (float_of_Z 5));
     _last_attempt_at := S754_zero false; _last_success_at := S754_zero false; _last_revision := 0;
     _pushes := 0; _failures := 0; _last_error := None; _last_status := 0; _handoff_ready_attempts := 0;
     _handoff_ready_deliveries := 0; _handoff_ready_failures := 0; _handoff_ready_last_error := None |}.

Definition configured (c : client) : bool :=
  starts_with "http://" c.(_peer_url) || starts_with "https://" c.(_peer_url).

(** What an HTTP exchange ends in: a status, an [HTTPError] with its code, or
    another network error with the text of its reason. *)
Inductive http_outcome := HStatus (status : Z) | HError (code : Z) | HFailed (reason : string).

Definition success_status (s : Z) : bool := (200 <=? s) && (s <? 300).

Definition set_push (attempt success : float) (revision pushes failures : Z) (err : option string)
    (status : Z) (c : client) : client :=
  {| _peer_url := c.(_peer_url); _timeout := c.(_timeout); _last_attempt_at := attempt;
     _last_success_at := success; _last_revision := revision; _pushes := pushes; _failures := failures;
     _last_error := err; _last_status := status; _handoff_ready_attempts := c.(_handoff_ready_attempts);
     _handoff_ready_deliveries := c.(_handoff_ready_deliveries);
     _handoff_ready_failures := c.(_handoff_ready_failures);
     _handoff_ready_last_error := c.(_handoff_ready_last_error) |}.

Definition set_ready (attempts deliveries failures : Z) (err : option string) (c : client) : client :=
  {| _peer_url := c.(_peer_url); _timeout := c.(_timeout); _last_attempt_at := c.(_last_attempt_at);
     _last_success_at := c.(_last_success_at); _last_revision := c.(_last_revision); _pushes := c.(_pushes);
     _failures := c.(_failures); _last_error := c.(_last_error); _last_status := c.(_last_status);
     _handoff_ready_attempts := attempts; _handoff_ready_deliveries := deliveries;
     _handoff_ready_failures := failures; _handoff_ready_last_error := err |}.

Definition unconfigured : PeerPushResult :=
  {| ok := false; http_status := 0; error := Some "peer URL is not configured" |}.

(** The bookkeeping of a failed push. *)
Definition push_failed (status : Z) (text : string) : op PeerPushResult :=
  let* _ := st_modify (fun c => set_push c.(_last_attempt_at) c.(_last_success_at) c.(_last_revision)
                          c.(_pushes) (c.(_failures) + 1) (Some (slice 240 text)) status c) in
  st_ret {| ok := false; http_status := status; error := Some (slice 240 text) |}.

(** [attempt_now] and [success_now] are read before and after the exchange; the
    success time is recorded before the envelope's revision is read. *)
Definition push (envelope : pydict) (outcome : http_outcome) (attempt_now success_now : float)
    : op PeerPushResult :=
  let* c := st_get in
  if negb (configured c) then st_ret unconfigured
  else
    let* _ := st_modify (fun c => set_push attempt_now c.(_last_success_at) c.(_last_revision) c.(_pushes)
                            c.(_failures) c.(_last_error) c.(_last_status) c) in
    match outcome with
    | HStatus status =>
        if negb (success_status status) then push_failed 0 ("peer returned HTTP " +:+ dec status)
        else
          let* _ := st_modify (fun c => set_push c.(_last_attempt_at) success_now c.(_last_revision)
                                  c.(_pushes) c.(_failures) c.(_last_error) c.(_last_status) c) in
          let* revision := st_lift (py_int (dget_or envelope "revision" (VInt 0))) in
          let* _ := st_modify (fun c => set_push c.(_last_attempt_at) c.(_last_success_at) revision
                                  (c.(_pushes) + 1) c.(_failures) None status c) in
          st_ret {| ok := true; http_status := status; error := None |}
    | HError code => push_failed code ("peer HTTP " +:+ dec code)
    | HFailed reason => push_failed 0 reason
    end.

(** The result an exchange gives a receipt delivery. *)
Definition ready_result (outcome : http_outcome) : PeerPushResult :=
  match outcome with
  | HStatus s => {| ok := success_status s; http_status := s;
                    error := if success_status s then None else Some ("peer returned HTTP " +:+ dec s) |}
  | HError code => {| ok := false; http_status := code; error := Some ("peer HTTP " +:+ dec code) |}
  | HFailed reason => {| ok := false; http_status := 0; error := Some (slice 240 reason) |}
  end.

Definition deliver_planned_handoff_ready (outcome : http_outcome) : op PeerPushResult :=
  let* _ := st_modify (fun c => set_ready (c.(_handoff_ready_attempts) + 1) c.(_handoff_ready_deliveries)
                          c.(_handoff_ready_failures) c.(_handoff_ready_last_error) c) in
  let* c := st_get in
  let result := if configured c then ready_result outcome else unconfigured in
  let* _ := st_modify (fun c =>
      if result.(ok)
      then set_ready c.(_handoff_ready_attempts) (c.(_handoff_ready_deliveries) + 1)
             c.(_handoff_ready_failures) None c
      else set_ready c.(_handoff_ready_attempts) c.(_handoff_ready_deliveries)
             (c.(_handoff_ready_failures) + 1) result.(error) c) in
  st_ret result.

(** [int((now - then) * 1000) if then else None]. *)
Definition optional_age (now since : float) : res pyval :=
  if truthy (VFloat since)
  then a ← py_int (VFloat (fmul (fsub now since) (float_of_Z 1000))); Ok (VInt a)
  else Ok VNone.

Definition status (now : float) (c : client) : res pydict :=
  attempt ← optional_age now c.(_last_attempt_at);
  success ← optional_age now c.(_last_success_at);
  Ok [("configured", VBool (configured c)); ("peerUrl", str_or_none c.(_peer_url));
      ("pushes", VInt c.(_pushes)); ("failures", VInt c.(_failures)); ("lastRevision", VInt c.(_last_revision));
      ("lastHttpStatus", int_or_none c.(_last_status)); ("lastError", opt_str c.(_last_error));
      ("lastAttemptAgeMs", attempt); ("lastSuccessAgeMs", success);
      ("handoffReadyAttempts", VInt c.(_handoff_ready_attempts));
      ("handoffReadyDeliveries", VInt c.(_handoff_ready_deliveries));
      ("handoffReadyFailures", VInt c.(_handoff_ready_failures));
      ("handoffReadyLastError", opt_str c.(_handoff_ready_last_error))].

(** ** Properties *)

(** Deliveries of receipts, one outcome each. *)
Fixpoint deliveries (outcomes : list http_outcome) : op unit :=
  match outcomes with
  | [] => st_ret tt
  | o :: os => let* _ := deliver_planned_handoff_ready o in deliveries os
  end.

(** The outcomes that count as delivered. *)
Definition delivered (o : http_outcome) : bool := (ready_result o).(ok).

Lemma deliver_step o c : configured c = true -> deliver_planned_handoff_ready o c
  = (if delivered o
     then set_ready (c.(_handoff_ready_attempts) + 1) (c.(_handoff_ready_deliveries) + 1)
            c.(_handoff_ready_failures) None c
     else set_ready (c.(_handoff_ready_attempts) + 1) c.(_handoff_ready_deliveries)
            (c.(_handoff_ready_failures) + 1) (ready_result o).(error) c, Ok (ready_result o)).
Proof.
  intros H. unfold deliver_planned_handoff_ready. rewrite st_modify_bind, st_get_bind.
  replace (configured (set_ready _ _ _ _ c)) with true by (by rewrite <- H).
  cbn. unfold delivered, st_bind, st_modify. by destruct (ok (ready_result o)).
Qed.

(** Over any sequence of receipt deliveries by a configured client every attempt is accounted for:
    attempts grow by one each, deliveries by exactly the exchanges whose status was 2xx and failures by
    exactly the others, and the last error is absent exactly when the last exchange was delivered. *)
Theorem receipt_accounting os c : configured c = true ->
  match deliveries os c with
  | (c', r) =>
      r = Ok tt
      /\ c'.(_handoff_ready_attempts) = c.(_handoff_ready_attempts) + Z.of_nat (length os)
      /\ c'.(_handoff_ready_deliveries)
         = c.(_handoff_ready_deliveries) + Z.of_nat (length (List.filter delivered os))
      /\ c'.(_handoff_ready_failures)
         = c.(_handoff_ready_failures) + Z.of_nat (length (List.filter (fun o => negb (delivered o)) os))
      /\ c'.(_handoff_ready_last_error) = match last os with
                                          | Some o => if delivered o then None else (ready_result o).(error)
                                          | None => c.(_handoff_ready_last_error)
                                          end
  end.
Proof.
  revert c. induction os as [|o os IH]; intros c Hc.
  - cbn. split_and!; lia || done.
  - cbn [deliveries]. unfold st_bind. rewrite (deliver_step o c Hc).
    set (c1 := if delivered o then _ else _).
    assert (Hc1 : configured c1 = true) by (unfold c1; by destruct (delivered o)).
    specialize (IH c1 Hc1). destruct (deliveries os c1) as [c' r].
    destruct IH as (-> & -> & -> & -> & ->). split; [done|].
    rewrite last_cons. unfold c1. cbn [List.filter length].
    destruct (delivered o) eqn:E; cbn [negb length set_ready _handoff_ready_attempts _handoff_ready_deliveries
      _handoff_ready_failures _handoff_ready_last_error]; split_and!; try lia;
      destruct (last os); cbn; rewrite ?E; done.
Qed.

Definition sample_client : client := make_client "http://standby:8080/" (float_of_Z 1).

Lemma receipt_accounting_witness :
  let c' := fst (deliveries [HStatus 204; HError 503; HStatus 302] sample_client) in
  c'.(_handoff_ready_deliveries) = 1
  /\ c'.(_handoff_ready_last_error) = Some "peer returned HTTP 302".
Proof.
  pose proof (receipt_accounting [HStatus 204; HError 503; HStatus 302] sample_client eq_refl) as H.
  destruct (deliveries _ sample_client) as [c' r]. destruct H as (_ & _ & Hd & _ & Hl).
  split; [exact Hd | exact Hl].
Defined.
