(* ===== verification/PlannedHandoff.v ===== *)
(** * Planned handoff documents (backend/planned_handoff.py)

    The authenticated offer a source node makes, the readiness receipt the
    target answers with, and the verification of both. The wall clock
    ([time_ns()]) is an argument. *)

From S2P Require Import Prelude PyStr PyFloat PyVal PyFacts Sha256 ClusterSecrets Replication.

#[local] Open Scope string_scope.
#[local] Open Scope list_scope.
#[local] Open Scope Z_scope.

(** [{**payload, "digestSha256": ..., "hmacSha256": ...}]. *)
Definition seal (payload : pydict) (secret : string) : pydict :=
  let digest := payload_digest payload in
  dmerge payload [("digestSha256", VStr digest); ("hmacSha256", VStr (digest_signature secret digest))].

Definition with_key (key_id : option string) (payload : pydict) : pydict :=
  match key_id with Some k => dset payload "keyId" (VStr k) | None => payload end.

Record offer_facts := {
  transaction_id : Z;
  source_node_id : string;
  target_node_id : string;
  source_epoch : Z;
  target_epoch : Z;
  target_show_ns : Z;
}.

Definition offer_payload (f : offer_facts) (allow_degraded_program : bool) (issued_at : Z) : pydict :=
  [("protocolVersion", VInt 1); ("transactionId", VInt f.(transaction_id));
   ("sourceNodeId", VStr f.(source_node_id)); ("targetNodeId", VStr f.(target_node_id));
   ("sourceEpoch", VInt f.(source_epoch)); ("targetEpoch", VInt f.(target_epoch));
   ("targetShowNs", VInt f.(target_show_ns)); ("allowDegradedProgram", VBool allow_degraded_program);
   ("issuedAtUnixNs", VInt issued_at)].

Definition make_offer (f : offer_facts) (allow_degraded_program : bool) (secret : string)
    (key_id : option string) (time_ns : Z) : res pydict :=
  if String.eqb secret "" then Raise (RuntimeError "planned handoff requires authenticated replication")
  else if (f.(transaction_id) <=? 0) || String.eqb f.(source_node_id) "" || String.eqb f.(target_node_id) ""
  then Raise (ValueError "planned handoff identities are required")
  else if (f.(target_epoch) <=? f.(source_epoch)) || (f.(target_show_ns) <=? 0)
  then Raise (ValueError "planned handoff epoch or Show-Time boundary is invalid")
  else Ok (seal (with_key key_id (offer_payload f allow_degraded_program time_ns)) secret).

(** [str(d[key])], [int(d[key])]. *)
Definition index_int (d : pydict) (key : string) : res Z := v ← dindex d key; py_int v.
Definition index_str (d : pydict) (key : string) : res string := v ← dindex d key; Ok (py_str v).

(** [{key: d[key] for key in names}]. *)
Definition select (d : pydict) (names : list string) : res pydict :=
  map_res (fun k => v ← dindex d k; Ok (k, v)) names.

(** [if "keyId" in d: payload["keyId"] = str(d["keyId"])]. *)
Definition received_key (d payload : pydict) : pydict :=
  match dget d "keyId" with Some k => dset payload "keyId" (VStr (py_str k)) | None => payload end.

Definition offer_keys : list string :=
  ["protocolVersion"; "transactionId"; "sourceNodeId"; "targetNodeId"; "sourceEpoch";
   "targetEpoch"; "targetShowNs"; "allowDegradedProgram"; "issuedAtUnixNs"].

Definition received_offer (offer : pydict) : res (Z * offer_facts * pydict) :=
  _ ← select offer offer_keys;
  version ← index_int offer "protocolVersion";
  tx ← index_int offer "transactionId";
  se ← index_int offer "sourceEpoch";
  te ← index_int offer "targetEpoch";
  show ← index_int offer "targetShowNs";
  issued ← index_int offer "issuedAtUnixNs";
  source ← index_str offer "sourceNodeId";
  target ← index_str offer "targetNodeId";
  allow ← dindex offer "allowDegradedProgram";
  let f := {| transaction_id := tx; source_node_id := source; target_node_id := target;
              source_epoch := se; target_epoch := te; target_show_ns := show |} in
  Ok (version, f, received_key offer (dset (offer_payload f (truthy allow) issued)
                                        "protocolVersion" (VInt version))).

(** The digest and signature check both documents end with; [what] names the document. *)
Definition check_seal (what : string) (document payload : pydict) (secret : string)
    (keyset : option HmacKeySnapshot) : res (bool * string) :=
  let digest := payload_digest payload in
  same ← compare_digest digest (py_str (dget_or document "digestSha256" (VStr "")));
  if negb same then Ok (false, what +:+ " digest mismatch")
  else match match keyset with
             | Some ks => resolve ks (dget_none document "keyId")
             | None => Ok secret
             end with
  | Raise (PermissionError m) => Ok (false, m)
  | Raise e => Raise e
  | Ok auth_secret =>
      if String.eqb auth_secret "" then Ok (false, what +:+ " authentication failed")
      else
        authentic ← compare_digest (digest_signature auth_secret digest)
                      (py_str (dget_or document "hmacSha256" (VStr "")));
        Ok (if authentic : bool then (true, "ok") else (false, what +:+ " authentication failed"))
  end.

Definition verify_offer (offer : pydict) (secret : string) (keyset : option HmacKeySnapshot)
    (expected_target_node_id : string) : res (bool * string) :=
  match received_offer offer with
  | Raise e => if key_type_value e then Ok (false, "malformed planned handoff offer") else Raise e
  | Ok (version, f, payload) =>
      if negb (version =? 1) || negb (String.eqb f.(target_node_id) expected_target_node_id)
      then Ok (false, "planned handoff target or protocol mismatch")
      else if (f.(transaction_id) <=? 0) || (f.(target_epoch) <=? f.(source_epoch)) || (f.(target_show_ns) <=? 0)
      then Ok (false, "invalid planned handoff fencing facts")
      else check_seal "planned handoff" offer payload secret keyset
  end.

(** ** The readiness receipt *)

Definition receipt_payload (version : Z) (kind : string) (f : offer_facts) (program_ready : bool)
    (issued_at : Z) : pydict :=
  [("protocolVersion", VInt version); ("receiptType", VStr kind); ("transactionId", VInt f.(transaction_id));
   ("sourceNodeId", VStr f.(source_node_id)); ("targetNodeId", VStr f.(target_node_id));
   ("sourceEpoch", VInt f.(source_epoch)); ("targetEpoch", VInt f.(target_epoch));
   ("targetShowNs", VInt f.(target_show_ns)); ("programReady", VBool program_ready);
   ("issuedAtUnixNs", VInt issued_at)].

Definition indexed_facts (d : pydict) : res offer_facts :=
  tx ← index_int d "transactionId";
  source ← index_str d "sourceNodeId";
  target ← index_str d "targetNodeId";
  se ← index_int d "sourceEpoch";
  te ← index_int d "targetEpoch";
  show ← index_int d "targetShowNs";
  Ok {| transaction_id := tx; source_node_id := source; target_node_id := target;
        source_epoch := se; target_epoch := te; target_show_ns := show |}.

Definition make_ready_receipt (offer : pydict) (program_ready : bool) (secret : string)
    (key_id : option string) (time_ns : Z) : res pydict :=
  if String.eqb secret "" then Raise (RuntimeError "planned handoff requires authenticated replication")
  else
    f ← indexed_facts offer;
    Ok (seal (with_key key_id (receipt_payload 1 "target-ready" f program_ready time_ns)) secret).

Definition receipt_keys : list string :=
  ["protocolVersion"; "receiptType"; "transactionId"; "sourceNodeId"; "targetNodeId";
   "sourceEpoch"; "targetEpoch"; "targetShowNs"; "programReady"; "issuedAtUnixNs"].

(** A received receipt: protocol, type, facts, issue time and the payload it
    claims; [None]: [programReady] is not a boolean. *)
Definition received_receipt (receipt : pydict) : res (option (Z * string * offer_facts * Z * pydict)) :=
  _ ← select receipt receipt_keys;
  ready ← dindex receipt "programReady";
  match ready with
  | VBool program_ready =>
      version ← index_int receipt "protocolVersion";
      kind ← index_str receipt "receiptType";
      f ← indexed_facts receipt;
      issued ← index_int receipt "issuedAtUnixNs";
      Ok (Some (version, kind, f, issued,
                received_key receipt (receipt_payload version kind f program_ready issued)))
  | _ => Ok None
  end.

(** The receipt repeats the offer's fencing facts, compared with [!=]. *)
Definition same_fencing (f : offer_facts) (offer : pydict) : bool :=
  py_eq (VInt f.(transaction_id)) (dget_none offer "transactionId")
  && py_eq (VStr f.(source_node_id)) (dget_none offer "sourceNodeId")
  && py_eq (VStr f.(target_node_id)) (dget_none offer "targetNodeId")
  && py_eq (VInt f.(source_epoch)) (dget_none offer "sourceEpoch")
  && py_eq (VInt f.(target_epoch)) (dget_none offer "targetEpoch")
  && py_eq (VInt f.(target_show_ns)) (dget_none offer "targetShowNs").

Definition verify_ready_receipt (receipt : pydict) (secret : string) (keyset : option HmacKeySnapshot)
    (expected_source_node_id : string) (offer : pydict) : res (bool * string) :=
  match received_receipt receipt with
  | Raise e => if key_type_value e then Ok (false, "malformed planned handoff readiness receipt") else Raise e
  | Ok None => Ok (false, "malformed planned handoff readiness receipt")
  | Ok (Some (version, kind, f, issued, payload)) =>
      if negb (version =? 1) || negb (String.eqb kind "target-ready")
         || negb (String.eqb f.(source_node_id) expected_source_node_id)
      then Ok (false, "planned handoff readiness target or protocol mismatch")
      else if negb (same_fencing f offer) then Ok (false, "planned handoff readiness fencing mismatch")
      else if negb (py_eq (dget_none receipt "keyId") (dget_none offer "keyId"))
      then Ok (false, "planned handoff readiness key mismatch")
      else
        offered ← py_int (dget_or offer "issuedAtUnixNs" (VInt 0));
        if issued <? offered then Ok (false, "planned handoff readiness predates offer")
        else check_seal "planned handoff readiness" receipt payload secret keyset
  end.

(** * What planned handoff documents establish (backend/planned_handoff.py)

    An offer and the readiness receipt that answers it verify under the secret
    that made them; a verified document states the fencing facts it is trusted
    for under the secret's signature. *)

Lemma seal_get payload secret k : dget (seal payload secret) k =
  if String.eqb k "hmacSha256" then Some (VStr (digest_signature secret (payload_digest payload)))
  else if String.eqb k "digestSha256" then Some (VStr (payload_digest payload)) else dget payload k.
Proof. unfold seal, dmerge. cbn [fold_left fst snd]. by rewrite !dget_dset. Qed.

(** What the signature check accepts, without a key set. *)
Lemma check_seal_iff what document payload secret reason :
  check_seal what document payload secret None = Ok (true, reason) <->
  secret <> "" /\ reason = "ok"
  /\ py_str (dget_or document "digestSha256" (VStr "")) = payload_digest payload
  /\ py_str (dget_or document "hmacSha256" (VStr "")) = digest_signature secret (payload_digest payload).
Proof.
  unfold check_seal. split.
  - intros H. apply bind_ok in H as ([|] & Hc & H); [|done]. apply compare_digest_true in Hc. cbn [negb] in H.
    destruct (String.eqb_spec secret "") as [|Hs]; [done|]. apply bind_ok in H as ([|] & Ha & H); [|done].
    apply compare_digest_true in Ha. by injection H as <-.
  - intros (Hs & -> & Hd & Hh). rewrite Hd, compare_digest_refl by apply sha256_hex_ascii.
    cbn [mbind res_bind negb]. rewrite (str_eqb_ne _ _ Hs), Hh, compare_digest_refl by apply hmac_hex_ascii. done.
Qed.

Lemma sealed_check what payload secret : secret <> "" ->
  check_seal what (seal payload secret) payload secret None = Ok (true, "ok").
Proof. intros Hs. apply check_seal_iff. unfold dget_or. rewrite !seal_get. by split_and!. Qed.

(** ** Reading back what was sealed *)

Lemma received_offer_sealed f allow issued key secret :
  received_offer (seal (with_key key (offer_payload f allow issued)) secret)
  = Ok (1, f, with_key key (offer_payload f allow issued)).
Proof.
  unfold received_offer, select, offer_keys, received_key, index_int, index_str, dindex. cbn [map_res].
  rewrite !seal_get. destruct f, key; reflexivity.
Qed.

Lemma indexed_facts_offer f allow issued key secret :
  indexed_facts (seal (with_key key (offer_payload f allow issued)) secret) = Ok f.
Proof.
  unfold indexed_facts, index_int, index_str, dindex. rewrite !seal_get. destruct f, key; reflexivity.
Qed.

Lemma received_receipt_sealed f ready issued key secret :
  received_receipt (seal (with_key key (receipt_payload 1 "target-ready" f ready issued)) secret)
  = Ok (Some (1, "target-ready", f, issued, with_key key (receipt_payload 1 "target-ready" f ready issued))).
Proof.
  unfold received_receipt, select, receipt_keys, received_key, indexed_facts, index_int, index_str, dindex.
  cbn [map_res]. rewrite !seal_get. destruct f, key; reflexivity.
Qed.

Lemma py_eq_refl_int z : py_eq (VInt z) (VInt z) = true.
Proof. cbn. apply Z.eqb_refl. Qed.
Lemma py_eq_refl_str s : py_eq (VStr s) (VStr s) = true.
Proof. cbn. apply String.eqb_refl. Qed.

Lemma same_fencing_sealed f allow issued key secret :
  same_fencing f (seal (with_key key (offer_payload f allow issued)) secret) = true.
Proof.
  unfold same_fencing, dget_none, dget_or. rewrite !seal_get.
  destruct key; cbn [String.eqb Ascii.eqb Bool.eqb with_key dset dget offer_payload];
    by rewrite ?py_eq_refl_int, ?py_eq_refl_str.
Qed.

(** Facts that compare equal to a made offer's are that offer's facts. *)
Lemma same_fencing_facts g f allow issued key secret :
  same_fencing g (seal (with_key key (offer_payload f allow issued)) secret) = true -> g = f.
Proof.
  unfold same_fencing, dget_none, dget_or. rewrite !seal_get.
  destruct key; cbn [String.eqb Ascii.eqb Bool.eqb with_key dset dget offer_payload];
    intros H; repeat (apply andb_prop in H as [H ?]); cbn [py_eq num_of num_eq] in *; pyinv; destruct f, g; cbn in *; by subst.
Qed.

(** What [make_offer] requires. *)
Lemma make_offer_ok f allow secret key now offer : make_offer f allow secret key now = Ok offer ->
  offer = seal (with_key key (offer_payload f allow now)) secret /\ secret <> ""
  /\ 0 < f.(transaction_id) /\ f.(source_epoch) < f.(target_epoch) /\ 0 < f.(target_show_ns).
Proof.
  unfold make_offer. destruct (String.eqb_spec secret "") as [|Hs]; [done|].
  destruct (_ || _ || _) eqn:E1; [done|]. destruct (_ || _) eqn:E2 in |- *; [done|].
  intros H. assert (He : offer = seal (with_key key (offer_payload f allow now)) secret) by (by injection H).
  clear H. pyinv. by split_and!.
Qed.

(** The receipt for an offer that was made under the same secret. *)
Lemma ready_receipt_verifies f allow secret key now offer ready later :
  make_offer f allow secret key now = Ok offer -> now <= later ->
  exists receipt, make_ready_receipt offer ready secret key later = Ok receipt
  /\ verify_ready_receipt receipt secret None f.(source_node_id) offer = Ok (true, "ok").
Proof.
  intros (-> & Hs & _)%make_offer_ok Hl. unfold make_ready_receipt. rewrite (str_eqb_ne _ _ Hs), indexed_facts_offer.
  cbn [mbind res_bind]. eexists. split; [reflexivity|]. unfold verify_ready_receipt.
  rewrite received_receipt_sealed, same_fencing_sealed, !str_eqb_refl. cbn [negb orb Z.eqb Pos.eqb].
  replace (py_eq _ _) with true.
  2: { unfold dget_none, dget_or. rewrite !seal_get. destruct key; [|done].
       cbn [String.eqb Ascii.eqb Bool.eqb with_key dset dget offer_payload receipt_payload]. by rewrite py_eq_refl_str. }
  replace (py_int (dget_or _ "issuedAtUnixNs" (VInt 0))) with (Ok now).
  2: { unfold dget_or. rewrite seal_get. by destruct key. }
  cbn [negb mbind res_bind]. replace (later <? now) with false by (symmetry; apply Z.ltb_ge; lia).
  by apply sealed_check.
Qed.

(** Planned handoff round trip. Whatever offer [make_offer] returns verifies at its target, and the receipt the
    target makes for it no earlier than the offer (whether its program is ready or not) verifies at the source;
    a receipt of any origin that verifies against an offer repeats every fencing fact of that offer, is
    not issued before it, and is signed by the secret. *)
Theorem planned_handoff_roundtrip f allow secret key now offer :
  make_offer f allow secret key now = Ok offer ->
  verify_offer offer secret None f.(target_node_id) = Ok (true, "ok")
  /\ (forall ready later, now <= later -> exists receipt,
        make_ready_receipt offer ready secret key later = Ok receipt
        /\ verify_ready_receipt receipt secret None f.(source_node_id) offer = Ok (true, "ok"))
  /\ forall receipt source any reason, verify_ready_receipt receipt any None source offer = Ok (true, reason) ->
       exists issued payload,
         received_receipt receipt = Ok (Some (1, "target-ready", f, issued, payload))
         /\ source = f.(source_node_id) /\ now <= issued /\ any <> ""
         /\ py_str (dget_or receipt "hmacSha256" (VStr "")) = digest_signature any (payload_digest payload).
Proof.
  intros H. split; [|split; [intros ready later Hl; by eapply ready_receipt_verifies|]];
    destruct (make_offer_ok _ _ _ _ _ _ H) as (-> & Hs & Ht & He & Hn).
  - unfold verify_offer. rewrite received_offer_sealed, str_eqb_refl. cbn [negb orb Z.eqb Pos.eqb].
    rewrite (proj2 (Z.leb_gt _ _) Ht), (proj2 (Z.leb_gt _ _) He), (proj2 (Z.leb_gt _ _) Hn). by apply sealed_check.
  - intros receipt source any reason. unfold verify_ready_receipt.
    destruct (received_receipt receipt) as [[[[[[version kind] g] issued] payload]|]|e]; [|done|by destruct (key_type_value e)].
    destruct (_ || _ || _) eqn:E; [done|]. destruct (negb (same_fencing _ _)) eqn:Ef; [done|].
    destruct (negb (py_eq _ _)); [done|]. replace (py_int (dget_or _ "issuedAtUnixNs" (VInt 0))) with (Ok now).
    2: { unfold dget_or. rewrite seal_get. by destruct key. }
    cbn [mbind res_bind]. destruct (Z.ltb_spec issued now); [done|]. intros (Ha & _ & _ & Hh)%check_seal_iff. pyinv.
    subst. exists issued, payload. apply same_fencing_facts in Ef as ->. by split_and!.
Qed.

Definition example_offer : offer_facts :=
  {| transaction_id := 9; source_node_id := "node-a"; target_node_id := "node-b"; source_epoch := 4;
     target_epoch := 5; target_show_ns := 1000 |}.

Lemma planned_handoff_roundtrip_witness : exists offer,
  make_offer example_offer false "s3cret" (Some "k1") 77 = Ok offer
  /\ verify_offer offer "s3cret" None "node-b" = Ok (true, "ok").
Proof.
  eexists. split; [reflexivity|].
  exact (proj1 (planned_handoff_roundtrip example_offer false "s3cret" (Some "k1") 77 _ eq_refl)).
Defined.
