(* ===== verification/Handoff.v ===== *)
(** * Handoff policy and execution evidence (backend/handoff.py)

    Normalization of the handoff policy and of the declared redundancy, the
    ephemeral registry of shadow-render and live-feed evidence, and the
    decision a standby derives from them. [monotonic()] is an argument. *)

From S2P Require Import Prelude PyStr PyFloat PyVal PyFacts Replication.
From Stdlib Require Import SpecFloat.
From stdpp Require Import sorting.

#[local] Open Scope string_scope.
#[local] Open Scope list_scope.
#[local] Open Scope Z_scope.
#[local] Open Scope st_scope.

(** ** Policy *)

Record policy := {
  maxReplicaAgeMs : Z;
  maxLocalLagMs : float;
  requiredPrebufferMs : float;
  executionStatusFreshMs : Z;
  requireProgramCursor : bool;
  requireDuplicatedLiveInputs : bool;
  requireDeclaredDeterministicSources : bool;
  allowAuthorityTransferWhenProgramNotReady : bool;
}.

Definition DEFAULT_HANDOFF_POLICY : policy :=
  {| maxReplicaAgeMs := 2500; maxLocalLagMs := float_of_Z 20; requiredPrebufferMs := float_of_Z 250;
     executionStatusFreshMs := 2000; requireProgramCursor := true; requireDuplicatedLiveInputs := true;
     requireDeclaredDeterministicSources := true; allowAuthorityTransferWhenProgramNotReady := true |}.

(** [max(lo, min(hi, x))] on integers and on floats. *)
Definition clamp_int (lo hi x : Z) : Z := Z.max lo (Z.min hi x).
Definition clamp_float (lo hi x : float) : float := fmax lo (fmin hi x).

Definition get_int (d : pydict) (k : string) (default : Z) : res Z := py_int (dget_or d k (VInt default)).
Definition get_float (d : pydict) (k : string) (default : float) : res float :=
  py_float (dget_or d k (VFloat default)).
Definition get_bool (d : pydict) (k : string) (default : bool) : bool := truthy (dget_or d k (VBool default)).

Definition normalize_policy (raw : pyval) : res policy :=
  let raw := as_dict raw in
  let d := DEFAULT_HANDOFF_POLICY in
  age ← get_int raw "maxReplicaAgeMs" d.(maxReplicaAgeMs);
  lag ← get_float raw "maxLocalLagMs" d.(maxLocalLagMs);
  prebuffer ← get_float raw "requiredPrebufferMs" d.(requiredPrebufferMs);
  fresh ← get_int raw "executionStatusFreshMs" d.(executionStatusFreshMs);
  Ok {| maxReplicaAgeMs := clamp_int 100 60000 age;
        maxLocalLagMs := clamp_float fzero (float_of_Z 5000) lag;
        requiredPrebufferMs := clamp_float fzero (float_of_Z 10000) prebuffer;
        executionStatusFreshMs := clamp_int 100 60000 fresh;
        requireProgramCursor := get_bool raw "requireProgramCursor" d.(requireProgramCursor);
        requireDuplicatedLiveInputs := get_bool raw "requireDuplicatedLiveInputs" d.(requireDuplicatedLiveInputs);
        requireDeclaredDeterministicSources :=
          get_bool raw "requireDeclaredDeterministicSources" d.(requireDeclaredDeterministicSources);
        allowAuthorityTransferWhenProgramNotReady :=
          get_bool raw "allowAuthorityTransferWhenProgramNotReady" d.(allowAuthorityTransferWhenProgramNotReady) |}.

Definition policy_dict (p : policy) : pydict :=
  [("maxReplicaAgeMs", VInt p.(maxReplicaAgeMs)); ("maxLocalLagMs", VFloat p.(maxLocalLagMs));
   ("requiredPrebufferMs", VFloat p.(requiredPrebufferMs));
   ("executionStatusFreshMs", VInt p.(executionStatusFreshMs));
   ("requireProgramCursor", VBool p.(requireProgramCursor));
   ("requireDuplicatedLiveInputs", VBool p.(requireDuplicatedLiveInputs));
   ("requireDeclaredDeterministicSources", VBool p.(requireDeclaredDeterministicSources));
   ("allowAuthorityTransferWhenProgramNotReady", VBool p.(allowAuthorityTransferWhenProgramNotReady))].

(** ** Declared live inputs and deterministic sources *)

Record live_config := { slot : Z; mode : string; ready : bool; sourceId : string; latencyMs : float }.

Definition LIVE_REDUNDANCY_MODES : list string := ["none"; "split"; "network"].
Definition SOURCE_KINDS : list string := ["track"; "plugin"; "sequence"; "generator"; "other"].

Definition default_live_input (s : Z) : live_config :=
  {| slot := s; mode := "none"; ready := false; sourceId := ""; latencyMs := fzero |}.

Definition default_live_input_redundancy : list live_config := map default_live_input [0; 1; 2; 3].

(** [mode in {"split", "network"}]. *)
Definition redundant_mode (m : string) : bool := bool_decide (m ∈ ["split"; "network"]).

(** [str(d.get(k, default)).strip()[:n]]. *)
Definition get_text (n : nat) (d : pydict) (k : string) : string :=
  slice n (strip (py_str (dget_or d k (VStr "")))).

Definition choose (allowed : list string) (fallback text : string) : string :=
  if bool_decide (text ∈ allowed) then text else fallback.

Definition live_row (item : pydict) (s : Z) : res live_config :=
  let m := choose LIVE_REDUNDANCY_MODES "none"
             (lower (strip (py_str (dget_or item "mode" (VStr "none"))))) in
  let source := get_text 96 item "sourceId" in
  latency ← catch type_or_value
    (x ← get_float item "latencyMs" fzero; Ok (clamp_float fzero (float_of_Z 5000) x))
    (fun _ => Ok fzero);
  Ok {| slot := s; mode := m;
        ready := get_bool item "ready" false && redundant_mode m && negb (String.eqb source "");
        sourceId := source; latencyMs := latency |}.

Definition live_step (result : list live_config) (item : pyval) : res (list live_config) :=
  match item with
  | VDict d =>
      match get_int d "slot" (-1) with
      | Raise e => if type_or_value e then Ok result else Raise e
      | Ok s =>
          if negb ((0 <=? s) && (s <? 4)) then Ok result
          else row ← live_row d s; Ok (<[Z.to_nat s := row]> result)
      end
  | _ => Ok result
  end.

Definition normalize_live_inputs (raw : pyval) : res (list live_config) :=
  match raw with
  | VList items => fold_res live_step items default_live_input_redundancy
  | _ => Ok default_live_input_redundancy
  end.

Record source_config := {
  src_id : string;
  src_kind : string;
  required : bool;
  shadowCapable : bool;
  localAssetReady : bool;
  contentHash : string;
}.

Definition source_row (d : pydict) (source_id : string) : source_config :=
  {| src_id := source_id;
     src_kind := choose SOURCE_KINDS "other" (lower (strip (py_str (dget_or d "kind" (VStr "other")))));
     required := get_bool d "required" true; shadowCapable := get_bool d "shadowCapable" false;
     localAssetReady := get_bool d "localAssetReady" false; contentHash := get_text 128 d "contentHash" |}.

(** The sources in order and the identifiers already seen. *)
Definition source_step (acc : list source_config * list string) (item : pyval)
    : list source_config * list string :=
  let '(result, seen) := acc in
  match item with
  | VDict d =>
      let source_id := get_text 96 d "id" in
      if String.eqb source_id "" || bool_decide (source_id ∈ seen) then acc
      else (result ++ [source_row d source_id], source_id :: seen)
  | _ => acc
  end.

Definition normalize_deterministic_sources (raw : pyval) : list source_config :=
  match raw with
  | VList items => fst (fold_left source_step (firstn 32 items) ([], []))
  | _ => []
  end.

(** ** What normalization guarantees *)

Definition policy_ok (p : policy) : Prop :=
  100 <= p.(maxReplicaAgeMs) <= 60000 /\ within fzero (float_of_Z 5000) p.(maxLocalLagMs)
  /\ within fzero (float_of_Z 10000) p.(requiredPrebufferMs) /\ 100 <= p.(executionStatusFreshMs) <= 60000.

Lemma clamp_float_within lo hi x :
  fle lo lo = true -> fle hi hi = true -> fle lo hi = true -> within lo hi (clamp_float lo hi x).
Proof. apply clamp_within. Qed.

Lemma normalize_policy_ok raw p : normalize_policy raw = Ok p -> policy_ok p.
Proof.
  unfold normalize_policy. intros H. pyinv. subst p. unfold policy_ok. cbn [maxReplicaAgeMs maxLocalLagMs
    requiredPrebufferMs executionStatusFreshMs].
  split_and!; first [apply clamp_range; lia | by apply clamp_float_within].
Qed.

(** A declared input: a known mode, a bounded latency, and ready only when it names a redundant source. *)
Definition live_config_ok (c : live_config) : Prop :=
  c.(mode) ∈ LIVE_REDUNDANCY_MODES /\ within fzero (float_of_Z 5000) c.(latencyMs)
  /\ (c.(ready) = true -> redundant_mode c.(mode) = true /\ c.(sourceId) <> "").

Lemma choose_allowed allowed fallback t : fallback ∈ allowed -> choose allowed fallback t ∈ allowed.
Proof. intros H. unfold choose. by case_bool_decide. Qed.

Lemma live_row_ok d s c : live_row d s = Ok c -> c.(slot) = s /\ live_config_ok c.
Proof.
  unfold live_row. intros H. apply bind_ok in H as (latency & Hl & H). pyinv. subst c.
  unfold live_config_ok. cbn [slot mode latencyMs ready sourceId]. split_and!; [done| | |].
  - apply choose_allowed. set_solver.
  - eapply or_else_ok; [| |exact Hl].
    + intros x Hx. pyinv. subst x. by apply clamp_float_within.
    + intros _ x [= <-]. done.
  - intros Hr. pyinv. done.
Qed.

Definition live_table_ok (l : list live_config) : Prop := four_slots slot l /\ Forall live_config_ok l.

Lemma default_live_ok : live_table_ok default_live_input_redundancy.
Proof.
  split; [done|]. repeat constructor; unfold live_config_ok; cbn; try done; set_solver.
Qed.

Lemma normalize_live_inputs_ok raw l : normalize_live_inputs raw = Ok l -> live_table_ok l.
Proof.
  unfold normalize_live_inputs. intros H. destruct raw; try (injection H as <-; apply default_live_ok).
  revert H. apply fold_res_inv; [|apply default_live_ok].
  intros b a b' [Hs Hf] H. unfold live_step in H. destruct a; try (injection H as <-; done).
  destruct (get_int _ _ _) as [s|e]; [|destruct (type_or_value e); [by injection H as <-|done]].
  destruct ((0 <=? s) && (s <? 4)) eqn:E; cbn [negb] in H; [|by injection H as <-].
  apply bind_ok in H as (c & Hc & H). pyinv. subst b'. apply live_row_ok in Hc as [Hslot Hc].
  split; [by apply four_slots_insert|by apply insert_Forall].
Qed.

(** ** The evidence registry *)

Record shadow_row := {
  sh_contiguous_from : option Z;
  sh_until : Z;
  sh_hash : string;
  sh_healthy : bool;
  sh_frames : Z;
  sh_discontinuities : Z;
  sh_verified : bool;
  sh_reported_at : float;
}.

Record feed_row := {
  fd_source : string;
  fd_healthy : bool;
  fd_latency : float;
  fd_first : option Z;
  fd_last : option Z;
  fd_frames : Z;
  fd_sequence : option Z;
  fd_discontinuities : Z;
  fd_verified : bool;
  fd_reported_at : float;
}.

Record registry := { _shadow : gmap string shadow_row; _live : gmap Z feed_row }.

Abbreviation op := (st registry).

Definition init_registry : registry := {| _shadow := ∅; _live := ∅ |}.

Definition shadow_dict (now : float) (kv : string * shadow_row) : res (string * pydict) :=
  let '(id, r) := kv in
  age ← age_ms now r.(sh_reported_at);
  Ok (id, [("sourceId", VStr id); ("contiguousFromShowNs", opt_int r.(sh_contiguous_from));
      ("bufferedUntilShowNs", VInt r.(sh_until)); ("contentHash", VStr r.(sh_hash));
      ("healthy", VBool r.(sh_healthy)); ("renderedFrames", VInt r.(sh_frames));
      ("discontinuities", VInt r.(sh_discontinuities)); ("executionVerified", VBool r.(sh_verified));
      ("evidenceType", VStr (if r.(sh_verified) then "rendered-block" else "reported-horizon"));
      ("ageMs", VInt age)]).

Definition feed_dict (now : float) (kv : Z * feed_row) : res (Z * pydict) :=
  let '(s, r) := kv in
  age ← age_ms now r.(fd_reported_at);
  Ok (s, [("slot", VInt s); ("sourceId", VStr r.(fd_source)); ("healthy", VBool r.(fd_healthy));
      ("latencyMs", VFloat r.(fd_latency)); ("firstShowNs", opt_int r.(fd_first));
      ("lastShowNs", opt_int r.(fd_last)); ("observedFrames", VInt r.(fd_frames));
      ("sequence", opt_int r.(fd_sequence)); ("discontinuities", VInt r.(fd_discontinuities));
      ("executionVerified", VBool r.(fd_verified));
      ("evidenceType", VStr (if r.(fd_verified) then "duplicated-feed-block" else "feed-health-report"));
      ("ageMs", VInt age)]).

Definition slot_le (a b : Z * pydict) : Prop := fst a <= fst b.

#[local] Instance slot_le_dec : RelDecision slot_le.
Proof. intros a b. unfold slot_le. apply _. Defined.

(** Both tables, sorted by source identifier and by slot. *)
Definition snapshot (now : float) (s : registry) : res pydict :=
  shadow ← map_res (shadow_dict now) (map_to_list s.(_shadow));
  live ← map_res (feed_dict now) (map_to_list s.(_live));
  Ok [("shadowSources", VList (map (fun kv => VDict (snd kv)) (sort_by fst shadow)));
      ("liveInputs", VList (map (fun kv => VDict (snd kv))
                              (merge_sort slot_le live)))].

(** [None if v is None else max(0, int(v))]. *)
Definition opt_nonneg (v : pyval) : res (option Z) :=
  match v with VNone => Ok None | _ => z ← py_int v; Ok (Some (Z.max 0 z)) end.

(** [int(x)] of a stored optional integer. *)
Definition need_int (o : option Z) : res Z := match o with Some z => Ok z | None => Raise TypeError end.

(** What a rendered block makes of the previous evidence: contiguous start,
    horizon, frames, new discontinuities, verified. *)
Definition extend_shadow (prev : option shadow_row) (start until frames : Z)
    : res (Z * Z * Z * Z * bool) :=
  match prev with
  | Some p =>
      if p.(sh_verified) then
        if start =? p.(sh_until) then
          from ← need_int p.(sh_contiguous_from);
          Ok (from, until, frames + p.(sh_frames), 0, true)
        else
          from ← need_int p.(sh_contiguous_from);
          if (from <=? start) && (until <=? p.(sh_until))
          then Ok (from, p.(sh_until), frames + p.(sh_frames), 0, true)
          else Ok (start, until, frames, 1, false)
      else Ok (start, until, frames, 0, true)
  | None => Ok (start, until, frames, 0, true)
  end.

Definition prev_discontinuities (prev : option shadow_row) : Z :=
  match prev with Some p => p.(sh_discontinuities) | None => 0 end.

(** The row a report stores. *)
Definition shadow_report (prev : option shadow_row) (buffered_until content_hash : pyval) (healthy : bool)
    (start_show_ns rendered_frames : pyval) (now : float) : res shadow_row :=
  u ← py_int buffered_until;
  start ← opt_nonneg start_show_ns;
  f ← py_int rendered_frames;
  let until := Z.max 0 u in
  let frames := Z.max 0 f in
  let row from until frames disc verified :=
    {| sh_contiguous_from := from; sh_until := until; sh_hash := slice 128 (strip (py_str content_hash));
       sh_healthy := healthy; sh_frames := frames;
       sh_discontinuities := prev_discontinuities prev + disc; sh_verified := verified;
       sh_reported_at := now |} in
  match start with
  | Some start_ns =>
      if (start_ns <? until) && (0 <? frames) && healthy then
        '(from, until, frames, disc, verified) ← extend_shadow prev start_ns until frames;
        Ok (row (Some from) until frames disc verified)
      else Ok (row None until frames 0 false)
  | None => Ok (row None until frames 0 false)
  end.

Definition report_shadow (source_id buffered_until content_hash healthy start_show_ns rendered_frames : pyval)
    (now snapshot_now : float) : op pydict :=
  let id := slice 96 (strip (py_str source_id)) in
  if String.eqb id "" then st_raise (ValueError "shadow source id required")
  else
    let* s := st_get in
    let* row := st_lift (shadow_report (s.(_shadow) !! id) buffered_until content_hash (truthy healthy)
                           start_show_ns rendered_frames now) in
    let* _ := st_put {| _shadow := <[id := row]> s.(_shadow); _live := s.(_live) |} in
    let* s := st_get in
    st_lift (snapshot snapshot_now s).

(** What a verified feed block makes of the previous evidence: first and last
    show time, frames, new discontinuities, verified. *)
Definition extend_feed (prev : option feed_row) (first last frames seq : Z) : res (Z * Z * Z * Z * bool) :=
  match prev with
  | Some p =>
      if p.(fd_verified) then
        pseq ← need_int p.(fd_sequence);
        plast ← need_int p.(fd_last);
        pfirst ← need_int p.(fd_first);
        if (seq =? pseq) && (pfirst <=? first) && (last <=? plast)
        then Ok (pfirst, plast, frames + p.(fd_frames), 0, true)
        else if (seq =? pseq + 1) && (first =? plast)
        then Ok (pfirst, last, frames + p.(fd_frames), 0, true)
        else Ok (first, last, frames, 1, false)
      else Ok (first, last, frames, 0, true)
  | None => Ok (first, last, frames, 0, true)
  end.

Definition feed_report (prev : option feed_row) (source : string) (healthy : bool)
    (latency_ms first_show_ns last_show_ns frames sequence : pyval) (now : float) : res feed_row :=
  first ← opt_nonneg first_show_ns;
  last ← opt_nonneg last_show_ns;
  f ← py_int frames;
  seq ← opt_nonneg sequence;
  let observed := Z.max 0 f in
  let row first last frames disc verified :=
    latency ← py_float latency_ms;
    Ok {| fd_source := source; fd_healthy := healthy;
          fd_latency := clamp_float fzero (float_of_Z 5000) latency; fd_first := first; fd_last := last;
          fd_frames := frames; fd_sequence := seq;
          fd_discontinuities := match prev with Some p => p.(fd_discontinuities) | None => 0 end + disc;
          fd_verified := verified; fd_reported_at := now |} in
  match first, last, seq with
  | Some first_ns, Some last_ns, Some q =>
      if healthy && (first_ns <? last_ns) && (0 <? observed) then
        '(first_ns, last_ns, frames, disc, verified) ← extend_feed prev first_ns last_ns observed q;
        row (Some first_ns) (Some last_ns) frames disc verified
      else row first last observed 0 false
  | _, _, _ => row first last observed 0 false
  end.

Definition report_live (slot source_id healthy latency_ms first_show_ns last_show_ns frames sequence : pyval)
    (now snapshot_now : float) : op pydict :=
  let* sl := st_lift (py_int slot) in
  if negb ((0 <=? sl) && (sl <? 4)) then st_raise (ValueError "live input slot must be 0..3")
  else
    let id := slice 96 (strip (py_str source_id)) in
    if String.eqb id "" then st_raise (ValueError "live feed source id required")
    else
      let* s := st_get in
      let* row := st_lift (feed_report (s.(_live) !! sl) id (truthy healthy) latency_ms first_show_ns
                             last_show_ns frames sequence now) in
      let* _ := st_put {| _shadow := s.(_shadow); _live := <[sl := row]> s.(_live) |} in
      let* s := st_get in
      st_lift (snapshot snapshot_now s).

Definition clear : op unit := st_put init_registry.

(** ** The decision *)

Record HandoffFacts := {
  f_role : string;
  replica_age_ms : option Z;
  source_program_cursor_ns : Z;
  handoff_target_show_ns : Z;
  local_show_ns : option Z;
  active_live_input_slots : list Z;
  source_outputs_active : bool;
  transport_running : bool;
}.

(** [{key(item): item for item in (execution.get(name) or []) if isinstance(item, dict) ...}]:
    the last item of a key wins. *)
Definition report_items (execution : pydict) (name : string) : res (list pydict) :=
  items ← (py_iter (py_or (dget_none execution name) (VList [])) : res (list pyval));
  Ok (omap (M:=list) (fun v => match v with VDict d => Some d | _ => None end) items).

Definition shadow_reports (execution : pydict) : res (gmap string pydict) :=
  items ← report_items execution "shadowSources";
  Ok (fold_left (fun m d => <[py_str (dget_or d "sourceId" (VStr "")) := d]> m) items ∅).

(** [str(item.get("slot", "")).lstrip("-").isdigit()]. *)
Definition digit_slot (d : pydict) : bool :=
  is_digit_str (lstrip_by (Ascii.eqb (chr 45)) (py_str (dget_or d "slot" (VStr "")))).

Definition live_reports (execution : pydict) : res (gmap Z pydict) :=
  items ← report_items execution "liveInputs";
  fold_res (fun m d => s ← get_int d "slot" (-1); Ok (<[s := d]> m)) (List.filter digit_slot items) ∅.

(** [int(report.get("ageMs", fresh_ms + 1)) <= fresh_ms]. *)
Definition fresh (report : pydict) (fresh_ms : Z) : res bool :=
  age ← get_int report "ageMs" (fresh_ms + 1); Ok (age <=? fresh_ms).

Record live_status := { ls_config : live_config; ls_duplicated : bool; ls_execution : bool; ls_report : pydict }.

Definition duplicated (c : live_config) : bool := c.(ready) && redundant_mode c.(mode).

Definition live_evidence (reports : gmap Z pydict) (fresh_ms : Z) (c : live_config) (s : Z) : res live_status :=
  let report := default [] (reports !! s) in
  execution ← and_then (duplicated c && truthy (dget_none report "healthy")
                        && truthy (dget_none report "executionVerified"))
    (ok ← fresh report fresh_ms;
     Ok (ok && String.eqb (py_str (dget_or report "sourceId" (VStr ""))) c.(sourceId)));
  Ok {| ls_config := c; ls_duplicated := duplicated c; ls_execution := execution; ls_report := report |}.

Definition live_status_dict (l : live_status) : pydict :=
  let c := l.(ls_config) in
  let field k := (k, dget_none l.(ls_report) k) in
  [("slot", VInt c.(slot)); ("mode", VStr c.(mode)); ("ready", VBool c.(ready));
   ("sourceId", VStr c.(sourceId)); ("latencyMs", VFloat c.(latencyMs)); ("active", VBool true);
   ("duplicatedReady", VBool l.(ls_duplicated)); ("executionReady", VBool l.(ls_execution));
   ("executionAgeMs", dget_none l.(ls_report) "ageMs");
   ("executionVerified", VBool (truthy (dget_none l.(ls_report) "executionVerified")));
   field "observedFrames"; field "sequence"; field "discontinuities"].

Record source_status := { ss_config : source_config; ss_ready : bool; ss_execution : bool; ss_report : pydict }.

Definition shadow_ready (c : source_config) : bool := c.(shadowCapable) && c.(localAssetReady).

(** The show time the shadow buffer has to reach. *)
Definition required_until (facts : HandoffFacts) (p : policy) : res Z :=
  margin ← py_int (VFloat (fmul p.(requiredPrebufferMs) (float_of_Z 1000000)));
  Ok (facts.(handoff_target_show_ns) + margin).

Definition source_evidence (facts : HandoffFacts) (p : policy) (reports : gmap string pydict) (c : source_config)
    : res source_status :=
  let report := default [] (reports !! c.(src_id)) in
  let hash_ok := String.eqb c.(contentHash) ""
                 || String.eqb (py_str (dget_or report "contentHash" (VStr ""))) c.(contentHash) in
  execution_fresh ← fresh report p.(executionStatusFreshMs);
  until ← required_until facts p;
  execution ← and_then (shadow_ready c && truthy (dget_none report "healthy")
                        && truthy (dget_none report "executionVerified") && execution_fresh && hash_ok)
    (buffered ← get_int report "bufferedUntilShowNs" 0; Ok (until <=? buffered));
  Ok {| ss_config := c; ss_ready := shadow_ready c; ss_execution := execution; ss_report := report |}.

Definition source_status_dict (l : source_status) : pydict :=
  let c := l.(ss_config) in
  let field k := (k, dget_none l.(ss_report) k) in
  [("id", VStr c.(src_id)); ("kind", VStr c.(src_kind)); ("required", VBool c.(required));
   ("shadowCapable", VBool c.(shadowCapable)); ("localAssetReady", VBool c.(localAssetReady));
   ("contentHash", VStr c.(contentHash)); ("shadowRenderReady", VBool l.(ss_ready));
   ("executionReady", VBool l.(ss_execution)); ("executionAgeMs", dget_none l.(ss_report) "ageMs");
   field "bufferedUntilShowNs";
   ("executionVerified", VBool (truthy (dget_none l.(ss_report) "executionVerified")));
   field "renderedFrames"; field "discontinuities"].

Inductive handoff_mode := LiveInputStateWarm | DeterministicPrebufferEligible | StateWarm.

Definition mode_text (m : handoff_mode) : string :=
  match m with
  | LiveInputStateWarm => "live-input-state-warm"
  | DeterministicPrebufferEligible => "deterministic-prebuffer-eligible"
  | StateWarm => "state-warm"
  end.

Record decision := {
  d_mode : handoff_mode;
  d_policy : policy;
  d_authority_blockers : list string;
  d_program_blockers : list string;
  d_execution_ready : bool;
  d_shadow_render_ready : bool;
  d_live : list live_status;
  d_sources : list source_status;
  d_local_lag : option float;
}.


(** [sorted({slot for slot in slots if 0 <= slot < 4})]. *)
Definition active_slots (facts : HandoffFacts) : list Z :=
  merge_sort Z.le (remove_dups (List.filter (fun s => (0 <=? s) && (s <? 4)) facts.(active_live_input_slots))).

Definition local_lag (facts : HandoffFacts) : res (option float) :=
  match facts.(local_show_ns) with
  | Some local =>
      if 0 <? facts.(handoff_target_show_ns) then
        n ← py_float (VInt (facts.(handoff_target_show_ns) - local));
        Ok (Some (fdiv n (float_of_Z 1000000)))
      else Ok None
  | None => Ok None
  end.

Definition authority_blockers (facts : HandoffFacts) (p : policy) : list string :=
  when (negb (String.eqb facts.(f_role) "standby")) "node is not standby"
  ++ match facts.(replica_age_ms) with
     | None => ["no replica heartbeat received"]
     | Some age => when (p.(maxReplicaAgeMs) <=? age) "replica heartbeat exceeds handoff policy age"
     end.

Definition common_program_blockers (facts : HandoffFacts) (p : policy) (lag : option float) : list string :=
  when (facts.(source_outputs_active) && p.(requireProgramCursor) && (facts.(source_program_cursor_ns) <=? 0))
    "source program cursor is unavailable"
  ++ match lag with
     | Some l => when (flt p.(maxLocalLagMs) l) "standby show clock trails handoff target beyond policy"
     | None => []
     end.

(** Mode, program blockers, shadow-render readiness and execution readiness. *)
Definition classify (facts : HandoffFacts) (p : policy) (lag : option float) (live : list live_status)
    (sources : list source_status) : handoff_mode * list string * bool * bool :=
  let common := common_program_blockers facts p lag in
  if negb (null live) then
    let blockers := common ++ when (p.(requireDuplicatedLiveInputs) && negb (forallb ls_duplicated live))
                                "active live inputs lack duplicated standby feeds" in
    (LiveInputStateWarm, blockers, false, null blockers && forallb ls_execution live)
  else if facts.(source_outputs_active) && facts.(transport_running) then
    let blockers := common
      ++ when (p.(requireDeclaredDeterministicSources) && null sources)
           "deterministic program sources are not declared"
      ++ when (negb (forallb ss_ready sources)) "deterministic sources are not shadow-render ready" in
    (DeterministicPrebufferEligible, blockers, negb (null sources) && forallb ss_ready sources,
     null blockers && negb (null sources) && forallb ss_execution sources)
  else (StateWarm, common, false, null common).

(** [evaluate_handoff] up to the decision record. *)
Definition decide_handoff (facts : HandoffFacts) (policy live_inputs deterministic_sources execution : pyval)
    : res decision :=
  p ← normalize_policy policy;
  live_n ← normalize_live_inputs live_inputs;
  let sources_n := normalize_deterministic_sources deterministic_sources in
  let execution := as_dict execution in
  shadow ← shadow_reports execution;
  live ← live_reports execution;
  live_st ← map_res (fun s => match live_n !! Z.to_nat s with
                              | Some c => live_evidence live p.(executionStatusFreshMs) c s
                              | None => Raise IndexError
                              end) (active_slots facts);
  source_st ← map_res (source_evidence facts p shadow) (List.filter required sources_n);
  lag ← local_lag facts;
  let '(m, blockers, shadow_render, exec) := classify facts p lag live_st source_st in
  Ok {| d_mode := m; d_policy := p; d_authority_blockers := authority_blockers facts p;
        d_program_blockers := blockers; d_execution_ready := exec; d_shadow_render_ready := shadow_render;
        d_live := live_st; d_sources := source_st; d_local_lag := lag |}.

Definition authority_ready (d : decision) : bool := null d.(d_authority_blockers).
Definition program_logic_ready (d : decision) : bool := null d.(d_program_blockers).

Definition ready_for_authority_transfer (d : decision) : bool :=
  if d.(d_policy).(allowAuthorityTransferWhenProgramNotReady) then authority_ready d
  else authority_ready d && program_logic_ready d.

Definition ready_for_program_takeover (d : decision) : bool := authority_ready d && d.(d_execution_ready).

Definition prebuffer_ready (d : decision) : bool :=
  match d.(d_mode) with DeterministicPrebufferEligible => d.(d_execution_ready) | _ => false end.

Definition recommended_action (d : decision) : string :=
  if negb (authority_ready d) then "wait-for-authority-readiness"
  else match d.(d_execution_ready), program_logic_ready d, d.(d_mode) with
  | true, _, LiveInputStateWarm => "program-takeover-ready-live-feeds"
  | true, _, DeterministicPrebufferEligible => "program-takeover-ready"
  | _, true, StateWarm => "authority-transfer-ready"
  | _, true, LiveInputStateWarm => "authority-transfer-ready-live-feeds"
  | _, true, DeterministicPrebufferEligible => "start-shadow-prebuffer"
  | _, false, _ => if ready_for_authority_transfer d then "authority-transfer-only" else "hold"
  end.

Definition text_list (l : list string) : pyval := VList (map VStr l).

Definition decision_dict (d : decision) : pydict :=
  let slots p := VList (map (fun l => VInt l.(ls_config).(slot)) (List.filter p d.(d_live))) in
  let ids p := VList (map (fun l => VStr l.(ss_config).(src_id)) (List.filter p d.(d_sources))) in
  [("mode", VStr (mode_text d.(d_mode))); ("policy", VDict (policy_dict d.(d_policy)));
   ("authorityReady", VBool (authority_ready d)); ("programLogicReady", VBool (program_logic_ready d));
   ("executionReady", VBool d.(d_execution_ready));
   ("readyForAuthorityTransfer", VBool (ready_for_authority_transfer d));
   ("readyForProgramTakeover", VBool (ready_for_program_takeover d));
   ("deterministicPrebufferEligible",
     VBool (match d.(d_mode) with DeterministicPrebufferEligible => true | _ => false end));
   ("shadowRenderReady", VBool d.(d_shadow_render_ready)); ("prebufferReady", VBool (prebuffer_ready d));
   ("recommendedAction", VStr (recommended_action d));
   ("authorityBlockers", text_list d.(d_authority_blockers));
   ("programBlockers", text_list d.(d_program_blockers));
   ("reasons", text_list (d.(d_authority_blockers) ++ d.(d_program_blockers)));
   ("liveInputs", VList (map (fun l => VDict (live_status_dict l)) d.(d_live)));
   ("missingLiveInputSlots", slots (fun l => negb l.(ls_duplicated)));
   ("missingLiveInputExecutionSlots", slots (fun l => negb l.(ls_execution)));
   ("deterministicSources", VList (map (fun l => VDict (source_status_dict l)) d.(d_sources)));
   ("unreadyDeterministicSourceIds", ids (fun l => negb l.(ss_ready)));
   ("unreadyDeterministicExecutionSourceIds", ids (fun l => negb l.(ss_execution)));
   ("localLagMs", match d.(d_local_lag) with Some l => VFloat (fround 3 l) | None => VNone end)].

Definition evaluate_handoff (facts : HandoffFacts) (policy live_inputs deterministic_sources execution : pyval)
    : res pydict :=
  d ← decide_handoff facts policy live_inputs deterministic_sources execution;
  Ok (decision_dict d).
