(* ===== verification/HandoffEvidence.v ===== *)
(** * What handoff evidence proves (backend/handoff.py)

    The registry only calls a horizon verified when reported healthy blocks cover
    it without a gap, and the decision only calls a standby ready to take over the
    program on fresh evidence for every active input or required source. *)

From S2P Require Import Prelude PyStr PyFloat PyVal PyFacts StateLogic Replication Handoff.
From Stdlib Require Import SpecFloat.
From stdpp Require Import sorting.

#[local] Open Scope string_scope.
#[local] Open Scope list_scope.
#[local] Open Scope Z_scope.
#[local] Open Scope st_scope.

(** ** Reported blocks *)

(** A healthy block of rendering or of a live feed: from, until. *)
Abbreviation block := (Z * Z)%type.

(** The instants from [a] to [b] all lie in one of the blocks. *)
Definition covered (h : list block) (a b : Z) : Prop :=
  forall t, a <= t < b -> exists k, k ∈ h /\ fst k <= t < snd k.

Lemma covered_own h a b : (a, b) ∈ h -> covered h a b.
Proof. intros H t Ht. by exists (a, b). Qed.

Lemma covered_join h a b c : covered h a b -> covered h b c -> covered h a c.
Proof. intros H1 H2 t Ht. destruct (decide (t < b)); [apply H1; lia|apply H2; lia]. Qed.

Lemma covered_mono h h' a b : h ⊆ h' -> covered h a b -> covered h' a b.
Proof. intros Hs H t Ht. destruct (H t Ht) as (k & Hk & ?). exists k. split; [by apply Hs|done]. Qed.

(** ** Rows and the reports behind them *)

Definition shadow_row_ok (h : list block) (r : shadow_row) : Prop :=
  r.(sh_verified) = true ->
  r.(sh_healthy) = true /\ 0 < r.(sh_frames)
  /\ exists from, r.(sh_contiguous_from) = Some from /\ from < r.(sh_until) /\ covered h from r.(sh_until).

Definition feed_row_ok (h : list block) (r : feed_row) : Prop :=
  r.(fd_verified) = true ->
  r.(fd_healthy) = true /\ 0 < r.(fd_frames) /\ r.(fd_sequence) <> None
  /\ exists first last, r.(fd_first) = Some first /\ r.(fd_last) = Some last /\ first < last /\ covered h first last.

Definition option_ok {A} (P : A -> Prop) (o : option A) : Prop := forall a, o = Some a -> P a.

Lemma extend_shadow_ok h prev start until frames from' until' frames' disc :
  option_ok (shadow_row_ok h) prev -> start < until -> 0 < frames ->
  extend_shadow prev start until frames = Ok (from', until', frames', disc, true) ->
  from' < until' /\ 0 < frames' /\ covered ((start, until) :: h) from' until'.
Proof.
  intros Hp Hs Hf H. assert (Hown : covered ((start, until) :: h) start until) by (apply covered_own; left).
  assert (Hsub : h ⊆ (start, until) :: h) by (intros k; by right).
  unfold extend_shadow in H. destruct prev as [p|]; [|by injection H as <- <- <- <-].
  destruct (sh_verified p) eqn:Ev; [|by injection H as <- <- <- <-].
  destruct (Hp p eq_refl Ev) as (_ & Hfr & from & Hfrom & Hlt & Hc). rewrite Hfrom in H. cbn [need_int mbind res_bind] in H.
  destruct (Z.eqb_spec start p.(sh_until)) as [->|Hne].
  - injection H as <- <- <- <-. split_and!; [lia|lia|]. eapply covered_join; [by eapply covered_mono|done].
  - destruct ((from <=? start) && (until <=? p.(sh_until))) eqn:E; [|done]. injection H as <- <- <- <-.
    split_and!; [lia|lia|]. by eapply covered_mono.
Qed.

Lemma extend_feed_ok h prev first last frames q first' last' frames' disc :
  option_ok (feed_row_ok h) prev -> first < last -> 0 < frames ->
  extend_feed prev first last frames q = Ok (first', last', frames', disc, true) ->
  first' < last' /\ 0 < frames' /\ covered ((first, last) :: h) first' last'.
Proof.
  intros Hp Hs Hf H. assert (Hown : covered ((first, last) :: h) first last) by (apply covered_own; left).
  assert (Hsub : h ⊆ (first, last) :: h) by (intros k; by right).
  unfold extend_feed in H. destruct prev as [p|]; [|by injection H as <- <- <- <-].
  destruct (fd_verified p) eqn:Ev; [|by injection H as <- <- <- <-].
  destruct (Hp p eq_refl Ev) as (_ & Hfr & Hseq & f0 & l0 & Hf0 & Hl0 & Hlt & Hc).
  destruct (fd_sequence p) as [q0|]; [|done]. rewrite Hf0, Hl0 in H. cbn [need_int mbind res_bind] in H.
  destruct ((q =? q0) && (f0 <=? first) && (last <=? l0)) eqn:E.
  - injection H as <- <- <- <-. split_and!; [lia|lia|]. by eapply covered_mono.
  - destruct ((q =? q0 + 1) && (first =? l0)) eqn:E2; [|done]. injection H as <- <- <- <-. pyinv. subst.
    split_and!; [lia|lia|]. eapply covered_join; [by eapply covered_mono|done].
Qed.

(** The block a report adds to the history of its source: only a healthy one with a start and frames. *)
Definition shadow_block (buffered_until : pyval) (healthy : bool) (start rendered_frames : pyval) : list block :=
  match (u ← py_int buffered_until; s ← opt_nonneg start; f ← py_int rendered_frames; Ok (u, s, f)) with
  | Ok (u, Some s, f) => if (s <? Z.max 0 u) && (0 <? Z.max 0 f) && healthy then [(s, Z.max 0 u)] else []
  | _ => []
  end.

Definition feed_block (healthy : bool) (first last frames sequence : pyval) : list block :=
  match (a ← opt_nonneg first; b ← opt_nonneg last; f ← py_int frames; q ← opt_nonneg sequence; Ok (a, b, f, q)) with
  | Ok (Some a, Some b, f, Some _) => if healthy && (a <? b) && (0 <? Z.max 0 f) then [(a, b)] else []
  | _ => []
  end.

Lemma shadow_report_ok h prev u hash healthy start frames now row :
  option_ok (shadow_row_ok h) prev -> shadow_report prev u hash healthy start frames now = Ok row ->
  shadow_row_ok (shadow_block u healthy start frames ++ h) row.
Proof.
  intros Hp H. unfold shadow_report in H. unfold shadow_block.
  destruct (py_int u) as [uz|] eqn:Eu; [|done]. cbn [mbind res_bind] in H |- *.
  destruct (opt_nonneg start) as [so|] eqn:Es; [|done]. cbn [mbind res_bind] in H |- *.
  destruct (py_int frames) as [fz|] eqn:Ef; [|done]. cbn [mbind res_bind] in H |- *.
  destruct so as [s|]; [|by injection H as <-].
  destruct ((s <? Z.max 0 uz) && (0 <? Z.max 0 fz) && healthy) eqn:E; [|by injection H as <-].
  apply bind_ok in H as ([[[[from until] fr] disc] v] & Hx & H). injection H as <-. intros Hv. cbn in Hv. subst v.
  pyinv. destruct (extend_shadow_ok h prev s (Z.max 0 uz) (Z.max 0 fz) from until fr disc) as (? & ? & ?); [done|lia|lia|done|].
  cbn. split_and!; [done|lia|]. exists from. done.
Qed.

Lemma feed_report_ok h prev source healthy latency first last frames sequence now row :
  option_ok (feed_row_ok h) prev -> feed_report prev source healthy latency first last frames sequence now = Ok row ->
  feed_row_ok (feed_block healthy first last frames sequence ++ h) row.
Proof.
  intros Hp H. unfold feed_report in H. unfold feed_block.
  destruct (opt_nonneg first) as [a|] eqn:Ea; [|done]. cbn [mbind res_bind] in H |- *.
  destruct (opt_nonneg last) as [b|] eqn:Eb; [|done]. cbn [mbind res_bind] in H |- *.
  destruct (py_int frames) as [f|] eqn:Ef; [|done]. cbn [mbind res_bind] in H |- *.
  destruct (opt_nonneg sequence) as [q|] eqn:Eq; [|done]. cbn [mbind res_bind] in H |- *. cbv zeta in H.
  assert (Hrow : forall row, (exists x y z w, (latency ← py_float latency;
    Ok {| fd_source := source; fd_healthy := healthy; fd_latency := clamp_float fzero (float_of_Z 5000) latency;
          fd_first := x; fd_last := y; fd_frames := z; fd_sequence := q; fd_discontinuities := w; fd_verified := false;
          fd_reported_at := now |}) = Ok row) -> forall h, feed_row_ok h row).
  { intros r (x & y & z & w & Hr) h' Hv. apply bind_ok in Hr as (l & _ & Hr). injection Hr as <-. done. }
  destruct a as [a|], b as [b|], q as [q|]; try by (apply Hrow; eauto).
  destruct (healthy && (a <? b) && (0 <? Z.max 0 f)) eqn:E; [|by apply Hrow; eauto].
  apply bind_ok in H as ([[[[a' b'] fr] disc] v] & Hx & H). apply bind_ok in H as (l & _ & H). injection H as <-.
  intros Hv. cbn in Hv. subst v. pyinv.
  destruct (extend_feed_ok h prev a b (Z.max 0 f) q a' b' fr disc) as (? & ? & ?); [done|lia|lia|done|].
  cbn. split_and!; [done|lia|done|]. exists a', b'. done.
Qed.

(** ** Runs of the registry, with the blocks reported so far for each source and slot *)

Record history := { shadow_blocks : string -> list block; live_blocks : Z -> list block }.

Definition no_history : history := {| shadow_blocks := fun _ => []; live_blocks := fun _ => [] |}.

Definition add_shadow (id : string) (l : list block) (h : history) : history :=
  {| shadow_blocks := fun i => if String.eqb i id then l ++ h.(shadow_blocks) i else h.(shadow_blocks) i;
     live_blocks := h.(live_blocks) |}.
Definition add_live (s : Z) (l : list block) (h : history) : history :=
  {| shadow_blocks := h.(shadow_blocks);
     live_blocks := fun i => if i =? s then l ++ h.(live_blocks) i else h.(live_blocks) i |}.

Definition shadow_source (source_id : pyval) : string := slice 96 (strip (py_str source_id)).

Inductive registry_run : history -> registry -> Prop :=
| run_start : registry_run no_history init_registry
| run_shadow id until hash healthy start frames now later h s :
    registry_run h s ->
    registry_run (add_shadow (shadow_source id) (shadow_block until (truthy healthy) start frames) h)
      (fst (report_shadow id until hash healthy start frames now later s))
| run_live sl z id healthy latency first last frames sequence now later h s :
    registry_run h s -> py_int sl = Ok z ->
    registry_run (add_live z (feed_block (truthy healthy) first last frames sequence) h)
      (fst (report_live sl id healthy latency first last frames sequence now later s))
| run_clear h s : registry_run h s -> registry_run no_history (fst (clear s)).

Definition registry_ok (h : history) (s : registry) : Prop :=
  (forall id r, s.(_shadow) !! id = Some r -> shadow_row_ok (h.(shadow_blocks) id) r)
  /\ (forall z r, s.(_live) !! z = Some r -> feed_row_ok (h.(live_blocks) z) r).

Lemma shadow_row_mono h h' r : h ⊆ h' -> shadow_row_ok h r -> shadow_row_ok h' r.
Proof.
  intros Hs H Hv. destruct (H Hv) as (? & ? & f & ? & ? & ?). split_and!; try done. exists f.
  split_and!; try done. by eapply covered_mono.
Qed.

Lemma feed_row_mono h h' r : h ⊆ h' -> feed_row_ok h r -> feed_row_ok h' r.
Proof.
  intros Hs H Hv. destruct (H Hv) as (? & ? & ? & a & b & ? & ? & ? & ?). split_and!; try done. exists a, b.
  split_and!; try done. by eapply covered_mono.
Qed.

Lemma add_shadow_ok id l h s : registry_ok h s -> registry_ok (add_shadow id l h) s.
Proof.
  intros [H1 H2]. split; [|done]. intros i r Hr. cbn. destruct (String.eqb i id); [|by apply H1].
  eapply shadow_row_mono; [|by apply H1]. intros k Hk. apply elem_of_app. by right.
Qed.

Lemma add_live_ok z l h s : registry_ok h s -> registry_ok (add_live z l h) s.
Proof.
  intros [H1 H2]. split; [done|]. intros i r Hr. cbn. destruct (i =? z); [|by apply H2].
  eapply feed_row_mono; [|by apply H2]. intros k Hk. apply elem_of_app. by right.
Qed.

Lemma registry_run_ok h s : registry_run h s -> registry_ok h s.
Proof.
  induction 1 as [|id until hash healthy start frames now later h s _ IH
    |sl z id healthy latency first last frames sequence now later h s _ IH Hz|h s _ IH].
  - split; intros k r Hr; cbn in Hr; by rewrite lookup_empty in Hr.
  - unfold report_shadow. fold (shadow_source id). cbv zeta. destruct (String.eqb _ ""); [by apply add_shadow_ok|].
    rewrite st_get_bind. destruct (shadow_report _ _ _ _ _ _ _) as [row|e] eqn:Er; [|by apply add_shadow_ok].
    rewrite st_lift_Ok, st_put_bind, st_get_bind. cbn [fst st_lift].
    destruct (add_shadow_ok (shadow_source id) (shadow_block until (truthy healthy) start frames) h s IH) as [H1 H2].
    split; [|exact H2]. intros i r. cbn [_shadow]. destruct (decide (shadow_source id = i)) as [<-|Hne].
    + rewrite lookup_insert_eq. intros [= <-]. cbn. rewrite str_eqb_refl. eapply shadow_report_ok; [|exact Er].
      intros p Hp. by apply IH.
    + rewrite lookup_insert_ne by done. apply H1.
  - unfold report_live. rewrite Hz, st_lift_Ok. destruct (negb _); [by apply add_live_ok|]. cbv zeta.
    destruct (String.eqb _ ""); [by apply add_live_ok|].
    rewrite st_get_bind. destruct (feed_report _ _ _ _ _ _ _ _ _) as [row|e] eqn:Er; [|by apply add_live_ok].
    rewrite st_lift_Ok, st_put_bind, st_get_bind. cbn [fst st_lift].
    destruct (add_live_ok z (feed_block (truthy healthy) first last frames sequence) h s IH) as [H1 H2].
    split; [exact H1|]. intros i r. cbn [_live]. destruct (decide (z = i)) as [<-|Hne].
    + rewrite lookup_insert_eq. intros [= <-]. cbn. rewrite Z.eqb_refl. eapply feed_report_ok; [|exact Er].
      intros p Hp. by apply IH.
    + rewrite lookup_insert_ne by done. apply H2.
  - split; intros k r Hr; cbn in Hr; by rewrite lookup_empty in Hr.
Qed.

(** In any run of the registry, a verified shadow horizon or live feed is healthy, has frames, and every
    instant from its start to its end lies in a healthy block that was reported for that very source or slot
    since the registry was cleared: verification never bridges a gap. *)
Theorem verified_evidence_is_covered h s :
  registry_run h s ->
  (forall id r, s.(_shadow) !! id = Some r -> r.(sh_verified) = true ->
     r.(sh_healthy) = true /\ 0 < r.(sh_frames) /\ exists from, r.(sh_contiguous_from) = Some from
       /\ from < r.(sh_until) /\ covered (h.(shadow_blocks) id) from r.(sh_until))
  /\ (forall z r, s.(_live) !! z = Some r -> r.(fd_verified) = true ->
     r.(fd_healthy) = true /\ 0 < r.(fd_frames) /\ r.(fd_sequence) <> None /\ exists first last,
       r.(fd_first) = Some first /\ r.(fd_last) = Some last /\ first < last /\ covered (h.(live_blocks) z) first last).
Proof. intros H%registry_run_ok. exact H. Qed.

Definition render (start until : Z) (s : registry) : registry :=
  fst (report_shadow (VStr "drums") (VInt until) (VStr "h1") (VBool true) (VInt start) (VInt 480) fzero fzero s).
Definition render_history (start until : Z) (h : history) : history :=
  add_shadow (shadow_source (VStr "drums")) (shadow_block (VInt until) (truthy (VBool true)) (VInt start) (VInt 480)) h.

Lemma verified_evidence_is_covered_witness :
  let s := render 10 20 (render 0 10 init_registry) in
  exists r, s.(_shadow) !! "drums" = Some r /\ r.(sh_contiguous_from) = Some 0 /\ r.(sh_until) = 20
  /\ covered ((render_history 10 20 (render_history 0 10 no_history)).(shadow_blocks) "drums") 0 20.
Proof.
  destruct (verified_evidence_is_covered (render_history 10 20 (render_history 0 10 no_history))
    (render 10 20 (render 0 10 init_registry))) as [H _].
  - apply run_shadow, run_shadow, run_start.
  - eexists. split; [vm_compute; reflexivity|]. split; [reflexivity|]. split; [reflexivity|].
    destruct (H "drums" _ ltac:(vm_compute; reflexivity) eq_refl) as (_ & _ & from & Hf & _ & Hc).
    injection Hf as <-. exact Hc.
Defined.

(** ** The decision *)

Lemma and_then_true a b : and_then a b = Ok true <-> a = true /\ b = Ok true.
Proof. destruct a; cbn; [split; [done|by intros [_ ?]]|]. split; [done|by intros [? _]]. Qed.

(** Fresh evidence that a declared redundant input really plays on the standby. *)
Definition live_proven (reports : gmap Z pydict) (fresh_ms : Z) (c : live_config) : Prop :=
  let r := default [] (reports !! c.(slot)) in
  c.(ready) = true /\ redundant_mode c.(mode) = true
  /\ truthy (dget_none r "healthy") = true /\ truthy (dget_none r "executionVerified") = true
  /\ Handoff.fresh r fresh_ms = Ok true /\ py_str (dget_or r "sourceId" (VStr "")) = c.(sourceId).

(** Fresh evidence that a required source is rendered beyond the target by the prebuffer. *)
Definition source_proven (facts : HandoffFacts) (p : policy) (reports : gmap string pydict) (c : source_config) : Prop :=
  let r := default [] (reports !! c.(src_id)) in
  c.(shadowCapable) = true /\ c.(localAssetReady) = true
  /\ truthy (dget_none r "healthy") = true /\ truthy (dget_none r "executionVerified") = true
  /\ Handoff.fresh r p.(executionStatusFreshMs) = Ok true
  /\ (c.(contentHash) = "" \/ py_str (dget_or r "contentHash" (VStr "")) = c.(contentHash))
  /\ exists until buffered, required_until facts p = Ok until /\ get_int r "bufferedUntilShowNs" 0 = Ok buffered
     /\ until <= buffered.

Lemma live_evidence_iff reports f c st :
  live_evidence reports f c c.(slot) = Ok st -> st.(ls_execution) = true -> live_proven reports f c.
Proof.
  unfold live_evidence, live_proven, duplicated. cbv zeta. intros H Hx. apply bind_ok in H as (b & Hb & H).
  injection H as <-. cbn in Hx. subst b. apply and_then_true in Hb as [Hc Hb]. apply bind_ok in Hb as (ok & Ho & Hb).
  injection Hb as Hb. pyinv. subst. done.
Qed.

Lemma source_evidence_iff facts p reports c st :
  source_evidence facts p reports c = Ok st -> st.(ss_execution) = true -> source_proven facts p reports c.
Proof.
  unfold source_evidence, source_proven, shadow_ready. cbv zeta. intros H Hx.
  apply bind_ok in H as (ef & He & H). apply bind_ok in H as (until & Hu & H). apply bind_ok in H as (b & Hb & H).
  injection H as <-. cbn in Hx. subst b. apply and_then_true in Hb as [Hc Hb]. apply bind_ok in Hb as (n & Hn & Hb).
  injection Hb as Hb. pyinv. subst. split_and!; try done.
  - match goal with H : (String.eqb _ _ || String.eqb _ _) = true |- _ => apply orb_prop in H as [H|H] end; pyinv; auto.
  - by exists until, n.
Qed.

Lemma active_slots_iff facts s : s ∈ active_slots facts <-> s ∈ facts.(active_live_input_slots) /\ 0 <= s < 4.
Proof.
  unfold active_slots. rewrite merge_sort_Permutation, elem_of_remove_dups, !list_elem_of_In, filter_In.
  rewrite andb_true_iff, Z.leb_le, Z.ltb_lt. done.
Qed.

Lemma four_slots_lookup {A} (f : A -> Z) l s c : four_slots f l -> 0 <= s < 4 -> l !! Z.to_nat s = Some c -> f c = s.
Proof.
  unfold four_slots. intros H Hs Hl. assert (Hm : (f <$> l) !! Z.to_nat s = Some (f c)) by (by rewrite list_lookup_fmap, Hl).
  change (f <$> l) with (map f l) in Hm. rewrite H in Hm.
  assert (s = 0 \/ s = 1 \/ s = 2 \/ s = 3) as [->|[->|[->| ->]]] by lia; by injection Hm.
Qed.

Lemma forallb_exec {A B} (f : A -> res B) (p : B -> bool) l l' a :
  map_res f l = Ok l' -> forallb p l' = true -> a ∈ l -> exists b, f a = Ok b /\ p b = true.
Proof.
  intros H%map_res_ok Hp Ha. apply list_elem_of_lookup_1 in Ha as [i Ha].
  eapply Forall2_lookup_l in H as (b & Hb & Hf); [|exact Ha]. exists b. split; [done|].
  rewrite forallb_forall in Hp. apply Hp. apply list_elem_of_In. by eapply list_elem_of_lookup_2.
Qed.

Lemma authority_ready_iff facts p :
  null (authority_blockers facts p) = true <->
  facts.(f_role) = "standby" /\ exists age, facts.(replica_age_ms) = Some age /\ age < p.(maxReplicaAgeMs).
Proof.
  unfold authority_blockers, when. destruct (String.eqb_spec (f_role facts) "standby") as [E|E]; cbn.
  - destruct (replica_age_ms facts) as [age|]; [|split; [done|by intros [_ (? & ? & _)]]].
    destruct (Z.leb_spec (maxReplicaAgeMs p) age); cbn; split; try done.
    + intros [_ (a & [= <-] & ?)]. lia.
    + intros _. split; [done|]. by exists age.
  - split; [done|by intros [? _]].
Qed.

Lemma common_clear facts p lag :
  null (common_program_blockers facts p lag) = true ->
  (facts.(source_outputs_active) = true -> p.(requireProgramCursor) = true -> 0 < facts.(source_program_cursor_ns))
  /\ forall l, lag = Some l -> flt p.(maxLocalLagMs) l = false.
Proof.
  unfold common_program_blockers, when. intros H. split.
  - intros Ha Hc. rewrite Ha, Hc in H. cbn in H. destruct (Z.leb_spec (source_program_cursor_ns facts) 0); [done|lia].
  - intros l ->. destruct (flt _ _); [|done]. by destruct (_ && _ && _).
Qed.

(** Nothing blocks the program, and every piece of evidence the mode asks for is there. *)
Lemma classify_ready facts p lag live sources m blockers shadow :
  classify facts p lag live sources = (m, blockers, shadow, true) ->
  null (common_program_blockers facts p lag) = true /\ forallb ls_execution live = true
  /\ (live = [] -> facts.(source_outputs_active) = true -> facts.(transport_running) = true ->
      sources <> [] /\ forallb ss_execution sources = true).
Proof.
  unfold classify. cbv zeta. destruct live as [|l live]; cbn [null negb].
  - destruct (source_outputs_active facts && transport_running facts) eqn:E; intros [= _ _ _ H].
    + apply andb_prop in H as [H Hx]. apply andb_prop in H as [Hb Hn]. rewrite !null_app, !andb_true_iff in Hb.
      split; [apply Hb|]. split; [done|]. intros _ _ _. split; [by destruct sources|done].
    + split; [done|]. split; [done|]. intros _ Ha Hr. by rewrite Ha, Hr in E.
  - intros [= _ _ _ H]. apply andb_prop in H as [Hb Hx]. rewrite null_app, andb_true_iff in Hb. split; [apply Hb|]. done.
Qed.

(** A standby is only called ready to take over the program when it is a standby with a replica no older
    than the policy allows, its clock and the program cursor are within the policy, every active live input
    has a declared redundant feed whose execution is freshly proven by the named source, and otherwise, while
    outputs run, the program has required sources and each is freshly proven rendered past the target. *)
Theorem takeover_needs_evidence facts policy live_inputs sources execution d :
  decide_handoff facts policy live_inputs sources execution = Ok d -> ready_for_program_takeover d = true ->
  let p := d.(d_policy) in
  policy_ok p /\ facts.(f_role) = "standby"
  /\ (exists age, facts.(replica_age_ms) = Some age /\ age < p.(maxReplicaAgeMs))
  /\ (facts.(source_outputs_active) = true -> p.(requireProgramCursor) = true -> 0 < facts.(source_program_cursor_ns))
  /\ (forall lag, d.(d_local_lag) = Some lag -> flt p.(maxLocalLagMs) lag = false)
  /\ (exists table reports, normalize_live_inputs live_inputs = Ok table /\ live_reports (as_dict execution) = Ok reports
      /\ forall s, s ∈ facts.(active_live_input_slots) -> 0 <= s < 4 ->
           exists c, c ∈ table /\ c.(slot) = s /\ live_proven reports p.(executionStatusFreshMs) c)
  /\ (active_slots facts = [] -> facts.(source_outputs_active) = true -> facts.(transport_running) = true ->
      exists reports, shadow_reports (as_dict execution) = Ok reports
      /\ List.filter required (normalize_deterministic_sources sources) <> []
      /\ forall c, c ∈ List.filter required (normalize_deterministic_sources sources) -> source_proven facts p reports c).
Proof.
  intros H Hr p. unfold decide_handoff in H.
  apply bind_ok in H as (p0 & Hp & H). apply bind_ok in H as (table & Ht & H). cbv zeta in H.
  apply bind_ok in H as (shadow & Hsh & H). apply bind_ok in H as (reports & Hrep & H).
  apply bind_ok in H as (live_st & Hlive & H). apply bind_ok in H as (source_st & Hsource & H).
  apply bind_ok in H as (lag & Hlag & H).
  destruct (classify facts p0 lag live_st source_st) as [[[m blockers] shadow_render] exec] eqn:Ec. injection H as <-.
  unfold p in *. cbn [d_policy d_local_lag]. unfold ready_for_program_takeover, authority_ready in Hr. cbn in Hr.
  apply andb_prop in Hr as [Ha He]. subst exec. apply authority_ready_iff in Ha as [Hrole Hage].
  apply classify_ready in Ec as (Hcommon & Hexec & Hsrc). apply common_clear in Hcommon as [Hcur Hl].
  split; [by eapply normalize_policy_ok|]. split; [done|]. split; [done|]. split; [done|]. split; [done|]. split.
  - exists table, reports. split; [done|]. split; [done|]. intros s Hs Hb.
    destruct (forallb_exec _ _ _ _ s Hlive Hexec) as (st & Hst & Hx); [by apply active_slots_iff|].
    destruct (table !! Z.to_nat s) as [c|] eqn:Etab; [|done].
    assert (Hslot : c.(slot) = s) by (eapply four_slots_lookup; [apply (normalize_live_inputs_ok _ _ Ht)|done|done]).
    exists c. split; [by eapply list_elem_of_lookup_2|]. split; [done|]. rewrite <- Hslot in Hst. by eapply live_evidence_iff.
  - intros Hno Ho Hrun. assert (live_st = []) as ->. { rewrite Hno in Hlive. by injection Hlive as <-. }
    destruct (Hsrc eq_refl Ho Hrun) as [Hne Hall]. exists shadow. split; [done|]. split.
    + intros E. rewrite E in Hsource. by injection Hsource as <-.
    + intros c Hc. destruct (forallb_exec _ _ _ _ c Hsource Hall Hc) as (st & Hst & Hx). by eapply source_evidence_iff.
Qed.

Definition sample_facts : HandoffFacts :=
  {| f_role := "standby"; replica_age_ms := Some 100; source_program_cursor_ns := 5; handoff_target_show_ns := 1000000000;
     local_show_ns := Some 1000000000; active_live_input_slots := []; source_outputs_active := true;
     transport_running := true |}.

Definition sample_sources : pyval :=
  VList [VDict [("id", VStr "drums"); ("shadowCapable", VBool true); ("localAssetReady", VBool true)]].

(** The evidence of one source rendered from [start] to two seconds. *)
Definition sample_execution (start : Z) : pyval :=
  VDict [("shadowSources", VList [VDict
    [("sourceId", VStr "drums"); ("contiguousFromShowNs", VInt start); ("bufferedUntilShowNs", VInt 2000000000);
     ("healthy", VBool true); ("executionVerified", VBool true); ("ageMs", VInt 5)]])].

Definition sample_decision (start : Z) : option decision :=
  match decide_handoff sample_facts VNone VNone sample_sources (sample_execution start) with
  | Ok d => Some d
  | Raise _ => None
  end.

Lemma takeover_needs_evidence_witness :
  match decide_handoff sample_facts VNone VNone sample_sources (sample_execution 0) with
  | Ok d => exists reports, shadow_reports (as_dict (sample_execution 0)) = Ok reports
      /\ forall c, c ∈ List.filter required (normalize_deterministic_sources sample_sources) ->
           source_proven sample_facts d.(d_policy) reports c
  | Raise _ => False
  end.
Proof.
  destruct (decide_handoff sample_facts VNone VNone sample_sources (sample_execution 0)) as [d|e] eqn:E.
  - destruct (takeover_needs_evidence sample_facts VNone VNone sample_sources (sample_execution 0) d E)
      as (_ & _ & _ & _ & _ & _ & H).
    + apply (f_equal (fun x => match x with Ok d => ready_for_program_takeover d | Raise _ => true end)) in E.
      rewrite <- E. vm_compute. reflexivity.
    + destruct H as (reports & Hr & _ & H); [reflexivity..|]. exists reports. split; [exact Hr|exact H].
  - apply (f_equal (fun x => match x with Ok _ => true | Raise _ => false end)) in E.
    vm_compute in E. discriminate E.
Defined.

(** The start of the buffered interval plays no part: a buffer that begins after the target is enough. *)
Lemma takeover_ignores_buffer_start :
  option_map ready_for_program_takeover (sample_decision 1999999999) = Some true
  /\ sample_facts.(handoff_target_show_ns) < 1999999999.
Proof. split; [vm_compute; reflexivity|reflexivity]. Qed.

(** A block of another content hash extends a verified horizon under its own hash. *)
Lemma hash_change_keeps_verification :
  let s := fst (report_shadow (VStr "drums") (VInt 20) (VStr "h2") (VBool true) (VInt 10) (VInt 480) fzero fzero
                  (render 0 10 init_registry)) in
  option_map (fun r => (r.(sh_verified), r.(sh_contiguous_from), r.(sh_until), r.(sh_hash))) (s.(_shadow) !! "drums")
  = Some (true, Some 0, 20, "h2").
Proof. vm_compute. reflexivity. Qed.

(** A repeated report of the same live block counts its frames again. *)
Lemma repeated_feed_report_counts_again :
  let report s := fst (report_live (VInt 0) (VStr "mic") (VBool true) (VInt 1) (VInt 0) (VInt 10) (VInt 480) (VInt 1)
                         fzero fzero s) in
  option_map fd_frames ((report (report init_registry)).(_live) !! 0) = Some 960.
Proof. vm_compute. reflexivity. Qed.
