(* ===== verification/SessionChannel.v ===== *)
(** * Authenticated session channel (backend/session_channel.py)

    Bounded frames with an explicit binary header, a per-direction key derived
    from the session transcript and the key epoch, replay protection by a
    strictly increasing sequence, key rotation with a grace window, and signed
    checkpoints. [bytes] are lists of [ascii]. *)

From S2P Require Import Prelude PyStr PyFloat PyVal PyFacts Sha256.
From stdpp Require Import sorting.

#[local] Open Scope string_scope.
#[local] Open Scope list_scope.
#[local] Open Scope Z_scope.
#[local] Open Scope st_scope.

Abbreviation bytes := (list ascii).

Definition MAGIC : bytes := chars "UPPF".
Definition VERSION : Z := 1.
Definition MAX_PAYLOAD : Z := 4096.
(** [struct.Struct(">4sBBH16sQQQI").size]. *)
Definition prefix_size : nat := 52.
Definition HEADER_SIZE : Z := 84.

(** [hmac.new(key, message, sha256).digest()]. *)
Definition hmac_digest (key message : bytes) : bytes := chars (hmac_sha256 (of_chars key) (of_chars message)).

Definition hex_value (c : ascii) : option Z :=
  if is_digit c then Some (code c - 48)
  else if in_range 97 102 c then Some (code c - 87)
  else if in_range 65 70 c then Some (code c - 55)
  else None.

Definition is_ascii_space (c : ascii) : bool := in_range 9 13 c || (code c =? 32).

(** [bytes.fromhex(text)]; [None] where it raises [ValueError]. White space may
    stand between two bytes. *)
Fixpoint fromhex (l : list ascii) : option bytes :=
  match l with
  | [] => Some []
  | c :: l' =>
      if is_ascii_space c then fromhex l'
      else match l' with
           | d :: l'' =>
               match hex_value c, hex_value d, fromhex l'' with
               | Some h, Some v, Some r => Some (chr (16 * h + v) :: r)
               | _, _, _ => None
               end
           | [] => None
           end
  end.

Definition bad_session : exn := ValueError "session id must be 32 hexadecimal characters".

Definition _session_bytes (session_id : string) : res bytes :=
  match fromhex (chars session_id) with
  | Some b => if Nat.eqb (length b) 16 then Ok b else Raise bad_session
  | None => Raise bad_session
  end.

Definition u64_bound : Z := 2 ^ 64.

Definition derive_direction_key (root_key : bytes) (transcript_sha256 : string) (key_epoch : Z)
    (direction : string) : res bytes :=
  match root_key with
  | [] => Raise (ValueError "invalid channel key inputs")
  | _ =>
      if negb (str_len transcript_sha256 =? 64) || (key_epoch <? 1) || String.eqb direction ""
      then Raise (ValueError "invalid channel key inputs")
      else match fromhex (chars transcript_sha256) with
           | None => Raise (ValueError "non-hexadecimal number found in fromhex() arg")
           | Some transcript =>
               if u64_bound <=? key_epoch then Raise OverflowError
               else Ok (hmac_digest root_key
                          (chars "UPP-SESSION-CHANNEL-V1" ++ [chr 0] ++ transcript
                           ++ be_bytes 8 key_epoch ++ chars (utf8 direction)))
           end
  end.

(** What a channel is created with. *)
Record channel := {
  root_key : bytes;
  session_id : string;
  session_bytes : bytes;
  transcript_sha256 : string;
  allowed : gset Z;
  send_direction : string;
  receive_direction : string;
  rotation_grace_frames : Z;
}.

(** What its methods change. *)
Record counters := {
  key_epoch : Z;
  previous_key_epoch : Z;
  previous_accept_until : Z;
  outbound_sequence : Z;
  inbound_sequence : Z;
  accepted : Z;
  rejected : Z;
}.

Abbreviation op := (st counters).

Definition make_channel (root_key : bytes) (session_id transcript : string) (capabilities : list Z)
    (send receive : string) (epoch grace : Z) : res (channel * counters) :=
  session ← _session_bytes session_id;
  _ ← derive_direction_key root_key transcript epoch send;
  Ok ({| root_key := root_key; session_id := session_id; session_bytes := session;
         transcript_sha256 := transcript;
         allowed := list_to_set (List.filter (fun c => 0 <? c) capabilities);
         send_direction := send; receive_direction := receive;
         rotation_grace_frames := Z.max 0 (Z.min grace 1024) |},
      {| key_epoch := epoch; previous_key_epoch := 0; previous_accept_until := 0; outbound_sequence := 0;
         inbound_sequence := 0; accepted := 0; rejected := 0 |}).

(** ** The header *)

Record header := {
  h_magic : bytes; h_version : Z; h_flags : Z; h_size : Z; h_session : bytes;
  h_epoch : Z; h_sequence : Z; h_capability : Z; h_payload : Z;
}.

Definition fits (bound z : Z) : bool := (0 <=? z) && (z <? bound).

(** [_PREFIX.pack(...)]. *)
Definition pack (h : header) : res bytes :=
  if fits 256 h.(h_version) && fits 256 h.(h_flags) && fits (2 ^ 16) h.(h_size)
     && fits u64_bound h.(h_epoch) && fits u64_bound h.(h_sequence) && fits u64_bound h.(h_capability)
     && fits (2 ^ 32) h.(h_payload)
  then Ok (h.(h_magic) ++ be_bytes 1 h.(h_version) ++ be_bytes 1 h.(h_flags) ++ be_bytes 2 h.(h_size)
           ++ h.(h_session) ++ be_bytes 8 h.(h_epoch) ++ be_bytes 8 h.(h_sequence)
           ++ be_bytes 8 h.(h_capability) ++ be_bytes 4 h.(h_payload))
  else Raise StructError.

(** [n] bytes from offset [i]. *)
Definition field (i n : nat) (l : bytes) : bytes := firstn n (skipn i l).

(** [_PREFIX.unpack(l)] on [prefix_size] bytes. *)
Definition unpack (l : bytes) : header :=
  {| h_magic := field 0 4 l; h_version := be_value (field 4 1 l); h_flags := be_value (field 5 1 l);
     h_size := be_value (field 6 2 l); h_session := field 8 16 l; h_epoch := be_value (field 24 8 l);
     h_sequence := be_value (field 32 8 l); h_capability := be_value (field 40 8 l);
     h_payload := be_value (field 48 4 l) |}.

Definition frame_header (c : channel) (epoch sequence capability size : Z) : header :=
  {| h_magic := MAGIC; h_version := VERSION; h_flags := 0; h_size := HEADER_SIZE;
     h_session := c.(session_bytes); h_epoch := epoch; h_sequence := sequence;
     h_capability := capability; h_payload := size |}.

(** ** Frames *)

Definition with_outbound (n : Z) (k : counters) : counters :=
  {| key_epoch := k.(key_epoch); previous_key_epoch := k.(previous_key_epoch);
     previous_accept_until := k.(previous_accept_until); outbound_sequence := n;
     inbound_sequence := k.(inbound_sequence); accepted := k.(accepted); rejected := k.(rejected) |}.

Definition frame_tag (key prefix payload : bytes) : bytes := hmac_digest key (prefix ++ payload).

Definition out_of_scope : exn := PermissionError "capability is outside the negotiated session scope".

(** The frame for an outbound sequence number. *)
Definition build_frame (c : channel) (epoch sequence capability : Z) (payload : bytes) : res bytes :=
  prefix ← pack (frame_header c epoch sequence capability (Z.of_nat (length payload)));
  key ← derive_direction_key c.(root_key) c.(transcript_sha256) epoch c.(send_direction);
  Ok (prefix ++ frame_tag key prefix payload ++ payload).

(** The outbound sequence advances before the frame is built. *)
Definition encode (c : channel) (capability : Z) (payload : bytes) : op bytes :=
  if negb (bool_decide (capability ∈ c.(allowed))) then st_raise out_of_scope
  else if MAX_PAYLOAD <? Z.of_nat (length payload)
  then st_raise (ValueError "session payload exceeds 4096 bytes")
  else
    let* k := st_get in
    let sequence := k.(outbound_sequence) + 1 in
    let* _ := st_put (with_outbound sequence k) in
    st_lift (build_frame c k.(key_epoch) sequence capability payload).

Record received := { r_epoch : Z; r_sequence : Z; r_capability : Z; r_payload : bytes }.

(** The [try] block of [decode]. *)
Definition check_frame (c : channel) (k : counters) (frame : bytes) : res received :=
  let len := Z.of_nat (length frame) in
  if len <? HEADER_SIZE then Raise (ValueError "truncated session frame")
  else
    let prefix := firstn prefix_size frame in
    let h := unpack prefix in
    if negb (bool_decide (h.(h_magic) = MAGIC)) || negb (h.(h_version) =? VERSION)
       || negb (h.(h_flags) =? 0) || negb (h.(h_size) =? HEADER_SIZE)
    then Raise (ValueError "unsupported session frame header")
    else if negb (bool_decide (h.(h_session) = c.(session_bytes)))
    then Raise (ValueError "session frame identity mismatch")
    else if (MAX_PAYLOAD <? h.(h_payload)) || negb (len =? HEADER_SIZE + h.(h_payload))
    then Raise (ValueError "session frame size mismatch")
    else if negb (bool_decide (h.(h_capability) ∈ c.(allowed))) then Raise out_of_scope
    else if h.(h_sequence) <=? k.(inbound_sequence)
    then Raise (ValueError "replayed or reordered session frame")
    else if negb (h.(h_epoch) =? k.(key_epoch))
            && negb ((h.(h_epoch) =? k.(previous_key_epoch)) && (h.(h_sequence) <=? k.(previous_accept_until)))
    then Raise (ValueError "session key epoch is not accepted")
    else
      let payload := skipn (Z.to_nat HEADER_SIZE) frame in
      let supplied := field prefix_size 32 frame in
      key ← derive_direction_key c.(root_key) c.(transcript_sha256) h.(h_epoch) c.(receive_direction);
      if negb (bool_decide (supplied = frame_tag key prefix payload))
      then Raise (ValueError "session frame authentication failed")
      else Ok {| r_epoch := h.(h_epoch); r_sequence := h.(h_sequence); r_capability := h.(h_capability);
                 r_payload := payload |}.

(** [except (ValueError, PermissionError, struct.error)]. *)
Definition frame_error (e : exn) : bool :=
  is_value_error e || is_permission_error e || match e with StructError => true | _ => false end.

Definition count_rejected (k : counters) : counters :=
  {| key_epoch := k.(key_epoch); previous_key_epoch := k.(previous_key_epoch);
     previous_accept_until := k.(previous_accept_until); outbound_sequence := k.(outbound_sequence);
     inbound_sequence := k.(inbound_sequence); accepted := k.(accepted); rejected := k.(rejected) + 1 |}.

Definition count_accepted (sequence : Z) (k : counters) : counters :=
  {| key_epoch := k.(key_epoch); previous_key_epoch := k.(previous_key_epoch);
     previous_accept_until := k.(previous_accept_until); outbound_sequence := k.(outbound_sequence);
     inbound_sequence := sequence; accepted := k.(accepted) + 1; rejected := k.(rejected) |}.

Definition decode (c : channel) (frame : bytes) : op received :=
  let* k := st_get in
  match check_frame c k frame with
  | Raise e => let* _ := st_when (frame_error e) (st_put (count_rejected k)) in st_raise e
  | Ok r => let* _ := st_put (count_accepted r.(r_sequence) k) in st_ret r
  end.

Definition rotate (c : channel) (new_epoch : Z) : op unit :=
  let* k := st_get in
  if new_epoch <=? k.(key_epoch) then st_raise (ValueError "session key epoch must advance")
  else st_put {| key_epoch := new_epoch; previous_key_epoch := k.(key_epoch);
                 previous_accept_until := k.(inbound_sequence) + c.(rotation_grace_frames);
                 outbound_sequence := k.(outbound_sequence); inbound_sequence := k.(inbound_sequence);
                 accepted := k.(accepted); rejected := k.(rejected) |}.

(** ** Checkpoints *)

Definition sorted_capabilities (c : channel) : list Z := merge_sort Z.le (elements c.(allowed)).

Definition checkpoint_payload (c : channel) (k : counters) : pydict :=
  [("documentType", VStr "org.upp.session-channel-checkpoint"); ("schemaVersion", VInt 1);
   ("sessionId", VStr c.(session_id)); ("transcriptSha256", VStr c.(transcript_sha256));
   ("keyEpoch", VInt k.(key_epoch)); ("previousKeyEpoch", VInt k.(previous_key_epoch));
   ("previousAcceptUntil", VInt k.(previous_accept_until));
   ("outboundSequence", VInt k.(outbound_sequence)); ("inboundSequence", VInt k.(inbound_sequence));
   ("allowedCapabilities", VList (map VInt (sorted_capabilities c)))].

Definition checkpoint_tag (c : channel) (payload : pydict) : string :=
  hmac_hex (of_chars c.(root_key)) (_canonical (VDict payload)).

Definition checkpoint (c : channel) (k : counters) : pydict :=
  let payload := checkpoint_payload c k in
  dmerge payload [("hmacSha256", VStr (checkpoint_tag c payload))].

Definition index_int (d : pydict) (k : string) : res Z := v ← dindex d k; py_int v.

Definition set_epochs (e p : Z) (u : option Z) (k : counters) : counters :=
  {| key_epoch := e; previous_key_epoch := p;
     previous_accept_until := default k.(previous_accept_until) u; outbound_sequence := k.(outbound_sequence);
     inbound_sequence := k.(inbound_sequence); accepted := k.(accepted); rejected := k.(rejected) |}.

Definition set_sequences (o i : Z) (k : counters) : counters :=
  {| key_epoch := k.(key_epoch); previous_key_epoch := k.(previous_key_epoch);
     previous_accept_until := k.(previous_accept_until); outbound_sequence := o;
     inbound_sequence := i; accepted := k.(accepted); rejected := k.(rejected) |}.

(** The fields are assigned one by one. *)
Definition restore (c : channel) (cp : pydict) : op unit :=
  let payload := dremove cp "hmacSha256" in
  let* same := st_lift (compare_digest (checkpoint_tag c payload)
                          (py_str (dget_or cp "hmacSha256" (VStr "")))) in
  if negb same then st_raise (ValueError "channel checkpoint authentication failed")
  else if negb (py_eq (dget_none payload "sessionId") (VStr c.(session_id)))
          || negb (py_eq (dget_none payload "transcriptSha256") (VStr c.(transcript_sha256)))
  then st_raise (ValueError "channel checkpoint identity mismatch")
  else
    let* items := st_lift (l ← (py_iter (dget_or payload "allowedCapabilities" (VList [])) : res (list pyval));
                           map_res py_int l) in
    if negb (bool_decide ((list_to_set items : gset Z) = c.(allowed)))
    then st_raise (ValueError "channel checkpoint capability scope mismatch")
    else
      let* e := st_lift (index_int payload "keyEpoch") in
      let* _ := st_modify (fun k => set_epochs e k.(previous_key_epoch) None k) in
      let* p := st_lift (index_int payload "previousKeyEpoch") in
      let* _ := st_modify (set_epochs e p None) in
      let* u := st_lift (index_int payload "previousAcceptUntil") in
      let* _ := st_modify (set_epochs e p (Some u)) in
      let* o := st_lift (index_int payload "outboundSequence") in
      let* _ := st_modify (fun k => set_sequences o k.(inbound_sequence) k) in
      let* i := st_lift (index_int payload "inboundSequence") in
      st_modify (set_sequences o i).

Definition status (c : channel) (k : counters) : pydict :=
  [("sessionId", VStr c.(session_id)); ("keyEpoch", VInt k.(key_epoch));
   ("previousKeyEpoch", VInt k.(previous_key_epoch)); ("outboundSequence", VInt k.(outbound_sequence));
   ("inboundSequence", VInt k.(inbound_sequence)); ("accepted", VInt k.(accepted));
   ("rejected", VInt k.(rejected)); ("capabilityCount", VInt (Z.of_nat (size c.(allowed))));
   ("authenticated", VBool true); ("confidential", VBool false); ("physicalOutputsArmed", VBool false)].

(** ** Frames round-trip *)

Lemma pack_ok h p : pack h = Ok p ->
  p = h.(h_magic) ++ be_bytes 1 h.(h_version) ++ be_bytes 1 h.(h_flags) ++ be_bytes 2 h.(h_size)
      ++ h.(h_session) ++ be_bytes 8 h.(h_epoch) ++ be_bytes 8 h.(h_sequence)
      ++ be_bytes 8 h.(h_capability) ++ be_bytes 4 h.(h_payload)
  /\ 0 <= h.(h_version) < 256 /\ 0 <= h.(h_flags) < 256 /\ 0 <= h.(h_size) < 2 ^ 16
  /\ 0 <= h.(h_epoch) < u64_bound /\ 0 <= h.(h_sequence) < u64_bound
  /\ 0 <= h.(h_capability) < u64_bound /\ 0 <= h.(h_payload) < 2 ^ 32.
Proof. unfold pack, fits. intros H. inv_case H. pyinv. repeat split; done. Qed.

(** A part of a concatenation, cut at the lengths of the parts before it. *)
Lemma field_concat (parts : list bytes) k x : parts !! k = Some x ->
  field (length (concat (take k parts))) (length x) (concat parts) = x.
Proof.
  revert k. induction parts as [|a parts IH]; intros [|k]; try done; cbn.
  - intros [= ->]. unfold field.
    by rewrite drop_0, take_app_length.
  - intros H. unfold field. rewrite length_app, drop_app_add. by apply IH.
Qed.

Ltac part_lengths :=
  first [reflexivity | match goal with ps := _ : list bytes |- _ => unfold ps end; cbn [concat firstn app]; rewrite ?length_app, ?be_bytes_length; cbn [length]; lia].

Lemma unpack_pack h p : length h.(h_magic) = 4%nat -> length h.(h_session) = 16%nat ->
  pack h = Ok p -> unpack p = h /\ length p = prefix_size.
Proof.
  intros Hm Hs (-> & Hv & Hf & Hz & He & Hq & Hc & Hp)%pack_ok.
  split; [|rewrite !length_app, !be_bytes_length; unfold prefix_size; lia].
  destruct h as [m v f z s e q c n]; cbn [h_magic h_version h_flags h_size h_session h_epoch h_sequence h_capability h_payload] in *.
  set (parts := [m; be_bytes 1 v; be_bytes 1 f; be_bytes 2 z; s; be_bytes 8 e; be_bytes 8 q;
                 be_bytes 8 c; be_bytes 4 n]).
  assert (Hcut : forall k i w x, parts !! k = Some x -> length (concat (take k parts)) = i -> length x = w ->
                 field i w (concat parts) = x) by (intros k i w x Hk <- <-; by apply field_concat).
  replace (m ++ _) with (concat parts)
    by (unfold parts; cbn [concat]; rewrite app_nil_r, <- ?app_assoc; reflexivity).
  unfold unpack. f_equal.
  - by apply (Hcut 0%nat).
  - rewrite (Hcut 1%nat _ _ (be_bytes 1 v)) by part_lengths. by apply be_value_be_bytes.
  - rewrite (Hcut 2%nat _ _ (be_bytes 1 f)) by part_lengths. by apply be_value_be_bytes.
  - rewrite (Hcut 3%nat _ _ (be_bytes 2 z)) by part_lengths. by apply be_value_be_bytes.
  - apply (Hcut 4%nat); part_lengths.
  - rewrite (Hcut 5%nat _ _ (be_bytes 8 e)) by part_lengths. by apply be_value_be_bytes.
  - rewrite (Hcut 6%nat _ _ (be_bytes 8 q)) by part_lengths. by apply be_value_be_bytes.
  - rewrite (Hcut 7%nat _ _ (be_bytes 8 c)) by part_lengths. by apply be_value_be_bytes.
  - rewrite (Hcut 8%nat _ _ (be_bytes 4 n)) by part_lengths. by apply be_value_be_bytes.
Qed.

(** What two ends of one session share: the sender's direction is the receiver's. *)
Record peers (a b : channel) : Prop := {
  peer_root : b.(root_key) = a.(root_key);
  peer_session : b.(session_bytes) = a.(session_bytes);
  peer_transcript : b.(transcript_sha256) = a.(transcript_sha256);
  peer_allowed : b.(allowed) = a.(allowed);
  peer_direction : b.(receive_direction) = a.(send_direction);
  peer_length : length a.(session_bytes) = 16%nat;
}.

Lemma make_channel_session root sid tr caps snd rcv e g c k :
  make_channel root sid tr caps snd rcv e g = Ok (c, k) -> length c.(session_bytes) = 16%nat.
Proof.
  unfold make_channel. intros H. pyinv. subst. cbn.
  match goal with Hs : _session_bytes _ = Ok _ |- _ => unfold _session_bytes in Hs; repeat inv_case Hs; pyinv; subst end.
  by apply Nat.eqb_eq.
Qed.

Definition acceptable_epoch (k : counters) (epoch sequence : Z) : bool :=
  (epoch =? k.(key_epoch))
  || ((epoch =? k.(previous_key_epoch)) && (sequence <=? k.(previous_accept_until))).

Lemma tag_length key p x : length (frame_tag key p x) = 32%nat.
Proof. apply hmac_sha256_length. Qed.

Lemma build_frame_ok c e q cap x f : build_frame c e q cap x = Ok f ->
  exists p key, pack (frame_header c e q cap (Z.of_nat (length x))) = Ok p
    /\ derive_direction_key c.(root_key) c.(transcript_sha256) e c.(send_direction) = Ok key
    /\ f = p ++ frame_tag key p x ++ x.
Proof. unfold build_frame. intros H. pyinv. subst. by eauto. Qed.

(** The three cuts of a frame. *)
Lemma frame_cuts (p t x : bytes) : length p = prefix_size -> length t = 32%nat ->
  firstn prefix_size (p ++ t ++ x) = p /\ field prefix_size 32 (p ++ t ++ x) = t
  /\ skipn (Z.to_nat HEADER_SIZE) (p ++ t ++ x) = x
  /\ Z.of_nat (length (p ++ t ++ x)) = HEADER_SIZE + Z.of_nat (length x).
Proof.
  intros Hp Ht. unfold field, HEADER_SIZE. split_and!.
  - by rewrite <- Hp, take_app_length.
  - by rewrite <- Hp, drop_app_length, <- Ht, take_app_length.
  - rewrite app_assoc. replace (Z.to_nat 84) with (length (p ++ t)); [by rewrite drop_app_length|].
    rewrite length_app, Hp, Ht. done.
  - rewrite !length_app, Hp, Ht. unfold prefix_size. lia.
Qed.

(** What one end encodes the other end decodes: a successful [encode] advances the outbound sequence
    by one, and its frame, delivered to a peer that has not yet seen that sequence and accepts the key
    epoch, is accepted and yields exactly the epoch, sequence, capability and payload that were sent. *)
Theorem encode_decode_roundtrip a b cap payload k k' frame r :
  peers a b -> encode a cap payload k = (k', Ok frame) ->
  r.(inbound_sequence) < k'.(outbound_sequence) ->
  acceptable_epoch r k.(key_epoch) k'.(outbound_sequence) = true ->
  k' = with_outbound (k.(outbound_sequence) + 1) k
  /\ decode b frame r
     = (count_accepted k'.(outbound_sequence) r,
        Ok {| r_epoch := k.(key_epoch); r_sequence := k'.(outbound_sequence);
              r_capability := cap; r_payload := payload |}).
Proof.
  intros [Hroot Hsess Htr Hal Hdir Hlen] He Hin Hep. unfold encode in He.
  destruct (bool_decide (cap ∈ allowed a)) eqn:Ec; cbn in He; [|done].
  destruct (MAX_PAYLOAD <? Z.of_nat (length payload)) eqn:El; [done|].
  cbn in He. injection He as <- Hf. split; [done|].
  apply build_frame_ok in Hf as (p & key & Hp & Hk & ->). cbn [with_outbound outbound_sequence] in Hin, Hep |- *.
  assert (unpack p = frame_header a k.(key_epoch) (k.(outbound_sequence) + 1) cap (Z.of_nat (length payload))
          /\ length p = prefix_size) as [Hu Hpl] by (apply unpack_pack; [reflexivity|exact Hlen|exact Hp]).
  destruct (frame_cuts p (frame_tag key p payload) payload Hpl (tag_length _ _ _)) as (C1 & C2 & C3 & C4).
  unfold decode. rewrite st_get_bind. unfold check_frame. rewrite C1, C2, C3, C4, Hu.
  cbn [h_magic h_version h_flags h_size h_session h_epoch h_sequence h_capability h_payload frame_header].
  rewrite Hsess, Hal, Ec, El, !Z.eqb_refl.
  rewrite (bool_decide_true (MAGIC = MAGIC)), (bool_decide_true (session_bytes a = session_bytes a)) by reflexivity.
  cbn [negb orb].
  replace (HEADER_SIZE + _ <? HEADER_SIZE) with false by (symmetry; apply Z.ltb_ge; unfold HEADER_SIZE; lia).
  replace (_ <=? inbound_sequence r) with false by (symmetry; apply Z.leb_gt; lia).
  rewrite <- negb_orb. unfold acceptable_epoch in Hep. rewrite Hep. cbn [negb].
  rewrite Hroot, Htr, Hdir, Hk. cbn [mbind res_bind].
  rewrite (bool_decide_true (frame_tag key p payload = _)) by reflexivity. reflexivity.
Qed.

Definition sample_session : string := "000102030405060708090a0b0c0d0e0f".
Definition sample_transcript : string := "00112233445566778899aabbccddeeff00112233445566778899aabbccddeeff".

Definition sample_counters : counters :=
  {| key_epoch := 3; previous_key_epoch := 2; previous_accept_until := 0; outbound_sequence := 0;
     inbound_sequence := 0; accepted := 0; rejected := 0 |}.

Definition sample_channel (send receive : string) : channel :=
  {| root_key := chars "root"; session_id := sample_session;
     session_bytes := default [] (fromhex (chars sample_session)); transcript_sha256 := sample_transcript;
     allowed := {[7]}; send_direction := send; receive_direction := receive; rotation_grace_frames := 32 |}.

Definition sample_peers : peers (sample_channel "up" "down") (sample_channel "down" "up").
Proof. by constructor. Defined.

Definition sample_frame : bytes :=
  match snd (encode (sample_channel "up" "down") 7 (chars "go") sample_counters) with Ok f => f | Raise _ => [] end.

Lemma encode_decode_roundtrip_witness :
  decode (sample_channel "down" "up") sample_frame sample_counters
  = (count_accepted 1 sample_counters,
     Ok {| r_epoch := 3; r_sequence := 1; r_capability := 7; r_payload := chars "go" |}).
Proof.
  refine (proj2 (encode_decode_roundtrip (sample_channel "up" "down") (sample_channel "down" "up") 7
                   (chars "go") sample_counters (with_outbound 1 sample_counters) sample_frame sample_counters
                   sample_peers _ _ _)).
  - vm_compute. reflexivity.
  - reflexivity.
  - reflexivity.
Defined.

(** ** Acceptance *)

Lemma check_frame_ok c k f r : check_frame c k f = Ok r ->
  exists key, derive_direction_key c.(root_key) c.(transcript_sha256) r.(r_epoch) c.(receive_direction) = Ok key
  /\ f = firstn prefix_size f ++ frame_tag key (firstn prefix_size f) r.(r_payload) ++ r.(r_payload)
  /\ unpack (firstn prefix_size f)
     = frame_header c r.(r_epoch) r.(r_sequence) r.(r_capability) (Z.of_nat (length r.(r_payload)))
  /\ r.(r_capability) ∈ c.(allowed) /\ k.(inbound_sequence) < r.(r_sequence)
  /\ acceptable_epoch k r.(r_epoch) r.(r_sequence) = true
  /\ Z.of_nat (length r.(r_payload)) <= MAX_PAYLOAD.
Proof.
  unfold check_frame. remember (unpack (firstn prefix_size f)) as h eqn:Hh.
  intros H.
  destruct (Z.of_nat (length f) <? HEADER_SIZE) eqn:E1; [discriminate H|].
  destruct (negb (bool_decide (h_magic h = MAGIC)) || _ || _ || _) eqn:E2; [discriminate H|].
  destruct (negb (bool_decide (h_session h = session_bytes c))) eqn:E3; [discriminate H|].
  destruct ((MAX_PAYLOAD <? h_payload h) || _) eqn:E4; [discriminate H|].
  destruct (negb (bool_decide (h_capability h ∈ allowed c))) eqn:E5; [discriminate H|].
  destruct (h_sequence h <=? inbound_sequence k) eqn:E6; [discriminate H|].
  rewrite <- negb_orb in H. fold (acceptable_epoch k (h_epoch h) (h_sequence h)) in H.
  destruct (negb (acceptable_epoch k (h_epoch h) (h_sequence h))) eqn:E7; [discriminate H|].
  apply bind_ok in H as (key & Hk & H).
  match type of H with (if negb ?b then _ else _) = _ => destruct b eqn:E8; [|discriminate H] end.
  cbn [negb] in H. injection H as <-.
  cbn [r_epoch r_sequence r_capability r_payload]. pyinv.
  assert (Hlen : Z.of_nat (length (drop (Z.to_nat HEADER_SIZE) f)) = h_payload h).
  { rewrite length_drop. unfold HEADER_SIZE in *. lia. }
  exists key. split_and!; try assumption; try lia.
  - rewrite <- E8. unfold field.
    transitivity (firstn prefix_size f ++ skipn prefix_size f); [by rewrite take_drop|]. f_equal.
    transitivity (firstn 32 (skipn prefix_size f) ++ skipn 32 (skipn prefix_size f)); [by rewrite take_drop|].
    f_equal. by rewrite drop_drop.
  - rewrite Hlen. destruct h; cbn [h_magic h_version h_flags h_size h_session h_epoch h_sequence h_capability h_payload] in *.
    unfold frame_header. congruence.
Qed.

Lemma decode_cases c f k :
  (exists r, check_frame c k f = Ok r /\ decode c f k = (count_accepted r.(r_sequence) k, Ok r))
  \/ (exists e, check_frame c k f = Raise e
      /\ decode c f k = (if frame_error e then count_rejected k else k, Raise e)).
Proof.
  unfold decode. rewrite st_get_bind. destruct (check_frame c k f) as [r|e].
  - left. by exists r.
  - right. exists e. split; [done|]. by destruct (frame_error e).
Qed.

(** C37: a frame is accepted only when it is, byte for byte, the header for this session with a capability
    in scope, a sequence above every accepted one and an acceptable key epoch, followed by the HMAC of
    header and payload under that epoch's receive key and by the payload; acceptance moves the inbound
    sequence to the frame's, and a refused frame changes nothing but the rejection count. *)
Theorem decode_authentic c f k :
  match decode c f k with
  | (k', Ok r) =>
      k' = count_accepted r.(r_sequence) k
      /\ k.(inbound_sequence) < r.(r_sequence) /\ r.(r_capability) ∈ c.(allowed)
      /\ acceptable_epoch k r.(r_epoch) r.(r_sequence) = true
      /\ Z.of_nat (length r.(r_payload)) <= MAX_PAYLOAD
      /\ exists prefix key,
           f = prefix ++ frame_tag key prefix r.(r_payload) ++ r.(r_payload)
           /\ unpack prefix = frame_header c r.(r_epoch) r.(r_sequence) r.(r_capability)
                                (Z.of_nat (length r.(r_payload)))
           /\ derive_direction_key c.(root_key) c.(transcript_sha256) r.(r_epoch) c.(receive_direction) = Ok key
  | (k', Raise _) => k' = k \/ k' = count_rejected k
  end.
Proof.
  destruct (decode_cases c f k) as [(r & Hc & ->)|(e & _ & ->)].
  - apply check_frame_ok in Hc as (key & Hk & Hf & Hu & Hal & Hseq & Hep & Hlen).
    split_and!; eauto 6.
  - destruct (frame_error e); auto.
Qed.

(** One step of a channel's life, and the sequence a step accepts. *)
Inductive event := Send (capability : Z) (payload : bytes) | Receive (frame : bytes) | Rotate (epoch : Z).

Definition step (c : channel) (e : event) (k : counters) : counters * option Z :=
  match e with
  | Send cap p => (fst (encode c cap p k), None)
  | Receive f => let '(k', r) := decode c f k in
                 (k', match r with Ok x => Some x.(r_sequence) | Raise _ => None end)
  | Rotate n => (fst (rotate c n k), None)
  end.

Fixpoint accepted_sequences (c : channel) (es : list event) (k : counters) : list Z :=
  match es with
  | [] => []
  | e :: es' => let '(k', q) := step c e k in
                match q with Some z => [z] | None => [] end ++ accepted_sequences c es' k'
  end.

Lemma step_inbound c e k :
  match step c e k with
  | (k', Some q) => inbound_sequence k < q /\ inbound_sequence k' = q
  | (k', None) => inbound_sequence k' = inbound_sequence k
  end.
Proof.
  destruct e as [cap p|f|n]; cbn [step].
  - unfold encode. repeat case_match; done.
  - destruct (decode_cases c f k) as [(r & Hc & ->)|(e & _ & ->)].
    + apply check_frame_ok in Hc as (key & _ & _ & _ & _ & Hseq & _). done.
    + by destruct (frame_error e).
  - unfold rotate. rewrite st_get_bind. by case_match.
Qed.

(** Across any run of sending, receiving and rotating, the accepted sequence numbers are strictly
    increasing and above the initial inbound sequence, so no frame is ever accepted twice, key rotation
    and its grace window included. *)
Theorem no_replay_across_rotation c es k :
  Sorted.StronglySorted Z.lt (inbound_sequence k :: accepted_sequences c es k).
Proof.
  revert k. induction es as [|e es IH]; intros k; cbn [accepted_sequences].
  - repeat constructor.
  - pose proof (step_inbound c e k) as Hs. destruct (step c e k) as [k' [q|]].
    + destruct Hs as [Hlt Hq]. specialize (IH k'). rewrite Hq in IH. cbn [app].
      apply Sorted.StronglySorted_inv in IH as [IH1 IH2].
      constructor; [by constructor|]. constructor; [done|].
      eapply Forall_impl; [exact IH2|]. cbn. lia.
    + cbn. specialize (IH k'). by rewrite Hs in IH.
Qed.

(** ** Checkpoints restore *)

Lemma map_res_py_int l : map_res py_int (map VInt l) = Ok l.
Proof. induction l as [|z l IH]; cbn; [done|]. by rewrite IH. Qed.

Lemma sorted_capabilities_set c : (list_to_set (sorted_capabilities c) : gset Z) = c.(allowed).
Proof.
  apply set_eq. intros z. unfold sorted_capabilities.
  by rewrite elem_of_list_to_set, merge_sort_Permutation, elem_of_elements.
Qed.

(** A channel restored from a checkpoint of the same session continues exactly where the checkpointed
    one stood: the epochs, the grace window and both sequences are the checkpointed ones, and only the
    acceptance statistics stay those of the restoring process. *)
Theorem checkpoint_restore_roundtrip c k k0 :
  restore c (checkpoint c k) k0
  = ({| key_epoch := k.(key_epoch); previous_key_epoch := k.(previous_key_epoch);
        previous_accept_until := k.(previous_accept_until); outbound_sequence := k.(outbound_sequence);
        inbound_sequence := k.(inbound_sequence); accepted := k0.(accepted); rejected := k0.(rejected) |},
     Ok tt).
Proof.
  unfold restore, checkpoint. set (p := checkpoint_payload c k).
  assert (Hp : dremove (dmerge p [("hmacSha256", VStr (checkpoint_tag c p))]) "hmacSha256" = p) by reflexivity.
  rewrite Hp.
  replace (dget_or (dmerge p [("hmacSha256", VStr (checkpoint_tag c p))]) "hmacSha256" (VStr ""))
    with (VStr (checkpoint_tag c p)) by reflexivity.
  cbn [py_str].
  erewrite st_lift_bind by (apply compare_digest_refl, hmac_hex_ascii). cbn [negb].
  replace (dget_none p "sessionId") with (VStr c.(session_id)) by reflexivity.
  replace (dget_none p "transcriptSha256") with (VStr c.(transcript_sha256)) by reflexivity.
  cbn [py_eq]. rewrite !str_eqb_refl. cbn [negb orb].
  assert (Hi : (l ← py_iter (dget_or p "allowedCapabilities" (VList [])); map_res py_int l)
               = Ok (sorted_capabilities c)) by exact (map_res_py_int (sorted_capabilities c)).
  rewrite (st_lift_bind _ _ _ _ Hi).
  rewrite sorted_capabilities_set, bool_decide_true by reflexivity. cbn [negb]. reflexivity.
Qed.
