(* ===== verification/AuthorityLeases.v ===== *)
(** * Authority leases (backend/authority_leases.py)

    The registry of ephemeral leases over typed operational scopes. Each
    operation that looks at several leases reads the monotonic clock (and, when
    it revokes, the wall clock) once per lease: [mono i] and [stamp i] are the
    readings made for the [i]-th lease. [lease_id] is the identifier drawn from
    [uuid4]. *)

From S2P Require Import Prelude PyStr PyFloat PyVal PyFacts Handoff.
From Stdlib Require Import SpecFloat.

#[local] Open Scope string_scope.
#[local] Open Scope list_scope.
#[local] Open Scope Z_scope.
#[local] Open Scope st_scope.

Definition _SCOPE_KINDS : list string := ["department"; "patch"; "resource"].
Definition _CONTEXTS : list string := ["runtime"; "venue"].

(** Whether and how a lease ended: [revokedBy] is absent when its text was refused. *)
Inductive revocation :=
| NotRevoked
| Revoked (at_ : string) (by_ : option (option string))
| Replaced (at_ : string) (by_ : string).

Record lease := {
  scopeKind : string;
  scope : string;
  context : string;
  grantee : string;
  grantedBy : option string;
  reason : option string;
  issuedAt : string;
  ttlSeconds : float;
  expiresMono : float;
  revocation_of : revocation;
}.

Definition revoked (l : lease) : bool := match l.(revocation_of) with NotRevoked => false | _ => true end.

Definition set_revocation (r : revocation) (l : lease) : lease :=
  {| scopeKind := l.(scopeKind); scope := l.(scope); context := l.(context); grantee := l.(grantee);
     grantedBy := l.(grantedBy); reason := l.(reason); issuedAt := l.(issuedAt); ttlSeconds := l.(ttlSeconds);
     expiresMono := l.(expiresMono); revocation_of := r |}.

(** The leases by identifier, in the order they were granted. *)
Abbreviation registry := (list (string * lease)).
Abbreviation op := (st registry).

Definition init_registry : registry := [].

Definition clear : op unit := st_put [].

(** [not item.get("revoked") and item["_expiresMono"] > monotonic()]. *)
Definition _is_active (now : float) (l : lease) : bool := negb (revoked l) && flt now l.(expiresMono).

(** Revoke the leases a test selects, each at its own clock readings. *)
Definition revoke_where (test : lease -> bool) (how : string -> revocation) (mono : nat -> float)
    (stamp : nat -> string) (s : registry) : registry :=
  imap (fun i kv => if test (snd kv) && _is_active (mono i) (snd kv)
                    then (fst kv, set_revocation (how (stamp i)) (snd kv)) else kv) s.

Definition count_where (test : lease -> bool) (mono : nat -> float) (s : registry) : Z :=
  Z.of_nat (length (List.filter (fun b => b)
    (imap (fun i kv => test (snd kv) && _is_active (mono i) (snd kv)) s))).

Definition clear_context (text : string) (mono : nat -> float) (stamp : nat -> string) : op Z :=
  let ctx := lower (strip text) in
  if negb (bool_decide (ctx ∈ _CONTEXTS))
  then st_raise (ValueError "authority lease context must be venue or runtime")
  else
    let test l := String.eqb l.(context) ctx in
    let* s := st_get in
    let* _ := st_put (revoke_where test (fun at_ => Revoked at_ (Some (Some "context-change"))) mono stamp s) in
    st_ret (count_where test mono s).

Definition is_control (c : ascii) : bool := (code c <? 32) || (code c =? 127).

Definition _clean (value : pyval) (limit : nat) : res string :=
  let text := slice limit (strip (py_str (py_or value (VStr "")))) in
  if existsb is_control (chars text)
  then Raise (ValueError "authority lease identifiers cannot contain control characters")
  else Ok text.

(** [x or None] on text. *)
Definition some_text (s : string) : option string := if String.eqb s "" then None else Some s.

Record request := {
  q_scope : string; q_grantee : string; q_granted_by : string; q_reason : string;
  q_kind : string; q_context : string; q_ttl : float;
}.

Definition read_request (data : pydict) : res request :=
  scope ← _clean (dget_none data "scope") 160;
  grantee ← _clean (dget_none data "grantee") 160;
  granted_by ← _clean (dget_none data "grantedBy") 160;
  reason ← _clean (dget_none data "reason") 320;
  kind ← _clean (dget_or data "scopeKind" (VStr "department")) 24;
  ctx ← _clean (dget_or data "context" (VStr "venue")) 24;
  let kind := lower kind in
  let ctx := lower ctx in
  if String.eqb scope "" || String.eqb grantee ""
  then Raise (ValueError "authority lease requires scope and grantee")
  else if negb (bool_decide (kind ∈ _SCOPE_KINDS))
  then Raise (ValueError "authority lease scopeKind must be patch, department, or resource")
  else if negb (bool_decide (ctx ∈ _CONTEXTS))
  then Raise (ValueError "authority lease context must be venue or runtime")
  else
    ttl ← catch type_or_value (get_float data "ttlSeconds" (float_of_Z 300))
            (fun _ => Raise (ValueError "ttlSeconds must be numeric"));
    Ok {| q_scope := scope; q_grantee := grantee; q_granted_by := granted_by; q_reason := reason;
          q_kind := kind; q_context := ctx; q_ttl := clamp_float (float_of_Z 1) (float_of_Z 43200) ttl |}.

(** A lease as a reader sees it. *)
Record public := { p_id : string; p_lease : lease; p_active : bool; p_remaining : float }.

Definition _public (now : float) (kv : string * lease) : public :=
  let '(id, l) := kv in
  let remaining := fmax (S754_zero false) (fsub l.(expiresMono) now) in
  {| p_id := id; p_lease := l; p_active := negb (revoked l) && flt (S754_zero false) remaining;
     p_remaining := fround 3 remaining |}.

Definition revocation_fields (r : revocation) : pydict :=
  match r with
  | NotRevoked => []
  | Revoked t None => [("revokedAt", VStr t)]
  | Revoked t (Some b) => [("revokedAt", VStr t); ("revokedBy", opt_str b)]
  | Replaced t b => [("revokedAt", VStr t); ("replacedBy", VStr b)]
  end.

Definition public_dict (p : public) : pydict :=
  let l := p.(p_lease) in
  [("leaseId", VStr p.(p_id)); ("scopeKind", VStr l.(scopeKind)); ("scope", VStr l.(scope));
   ("context", VStr l.(context)); ("grantee", VStr l.(grantee)); ("grantedBy", opt_str l.(grantedBy));
   ("reason", opt_str l.(reason)); ("issuedAt", VStr l.(issuedAt)); ("ttlSeconds", VFloat l.(ttlSeconds));
   ("revoked", VBool (revoked l))]
  ++ revocation_fields l.(revocation_of)
  ++ [("active", VBool p.(p_active)); ("remainingSeconds", VFloat p.(p_remaining))].

(** The same typed scope. *)
Definition same_scope (kind scope_ : string) (l : lease) : bool :=
  String.eqb l.(scopeKind) kind && String.eqb l.(scope) scope_.

Definition new_lease (q : request) (issued : string) (now : float) : lease :=
  {| scopeKind := q.(q_kind); scope := q.(q_scope); context := q.(q_context); grantee := q.(q_grantee);
     grantedBy := some_text q.(q_granted_by); reason := some_text q.(q_reason); issuedAt := issued;
     ttlSeconds := q.(q_ttl); expiresMono := fadd now q.(q_ttl); revocation_of := NotRevoked |}.

(** [issue_now] and [issued] are read when the lease is built, [public_now] when it is shown. *)
Definition grant (data : pydict) (lease_id : string) (mono : nat -> float) (stamp : nat -> string)
    (issue_now : float) (issued : string) (public_now : float) : op public :=
  let* q := st_lift (read_request data) in
  let* s := st_get in
  let item := new_lease q issued issue_now in
  let kept := revoke_where (same_scope q.(q_kind) q.(q_scope)) (fun at_ => Replaced at_ lease_id) mono stamp s in
  let* _ := st_put (aput kept lease_id item) in
  st_ret (_public public_now (lease_id, item)).

(** The revocation is recorded before the requester's text is checked. *)
Definition revoke (lease_id : string) (requested_by : pyval) (stamp : string) (public_now : float) : op public :=
  let* s := st_get in
  match alookup s lease_id with
  | None => st_raise (KeyError lease_id)
  | Some l =>
      if revoked l then st_ret (_public public_now (lease_id, l))
      else
        let* _ := st_put (aput s lease_id (set_revocation (Revoked stamp None) l)) in
        let* by_ := st_lift (_clean requested_by 160) in
        let l' := set_revocation (Revoked stamp (Some (some_text by_))) l in
        let* _ := st_put (aput s lease_id l') in
        st_ret (_public public_now (lease_id, l'))
  end.

(** Insertion that keeps a stable order by descending issue time. *)
Fixpoint insert_desc (p : public) (l : list public) : list public :=
  match l with
  | [] => [p]
  | q :: l' => if str_ltb p.(p_lease).(issuedAt) q.(p_lease).(issuedAt)
               then q :: insert_desc p l' else p :: l
  end.

Definition sort_desc (l : list public) : list public := fold_right insert_desc [] l.

(** All leases, the latest issued first. *)
Definition public_leases (mono : nat -> float) (s : registry) : list public :=
  sort_desc (imap (fun i kv => _public (mono i) kv) s).

Definition active_leases (mono : nat -> float) (s : registry) : list public :=
  List.filter p_active (public_leases mono s).

Definition snapshot (mono : nat -> float) (s : registry) : pydict :=
  let show l := VList (map (fun p => VDict (public_dict p)) l) in
  let active := active_leases mono s in
  [("leases", show (public_leases mono s)); ("active", show active);
   ("activeByKind", VDict (map (fun kind =>
      (kind, show (List.filter (fun p => String.eqb p.(p_lease).(scopeKind) kind) active))) _SCOPE_KINDS))].

(** [reversed(active)], a later assignment wins. *)
Definition authority_map (mono : nat -> float) (s : registry) : list (string * string) :=
  fold_left (fun m p => aput m p.(p_lease).(scope) p.(p_lease).(grantee))
    (List.filter (fun p => bool_decide (p.(p_lease).(scopeKind) ∈ ["patch"; "department"]))
       (rev (active_leases mono s))) [].

Definition find_scope (active : list public) (kind scope_ : string) : option string :=
  if String.eqb scope_ "" then None
  else match List.find (fun p => same_scope kind scope_ p.(p_lease)) active with
       | Some p => Some p.(p_lease).(grantee)
       | None => None
       end.

Definition resolve (resource department : pyval) (default : option string) (mono : nat -> float) (s : registry)
    : res (option string) :=
  resource ← _clean resource 160;
  department ← _clean department 160;
  let active := active_leases mono s in
  Ok (match find_scope active "resource" resource with
      | Some g => Some g
      | None => match find_scope active "department" department with
                | Some g => Some g
                | None => default
                end
      end).

(** ** Exclusion *)

(** Two leases of one typed scope. *)
Definition competing (l k : lease) : Prop := l.(scopeKind) = k.(scopeKind) /\ l.(scope) = k.(scope).

Definition exclusive (now : float) (s : registry) : Prop :=
  forall i j x y, s !! i = Some x -> s !! j = Some y -> competing (snd x) (snd y) ->
    _is_active now (snd x) = true -> _is_active now (snd y) = true -> i = j.

(** What ended stays ended. *)
Lemma inactive_stays t t' l : fle t t' = true -> _is_active t l = false -> _is_active t' l = false.
Proof.
  unfold _is_active. intros Ht H. apply andb_false_iff in H as [->|H]; [done|].
  destruct (flt t' (expiresMono l)) eqn:E; [|by rewrite andb_false_r].
  by rewrite (fle_flt_trans _ _ _ Ht E) in H.
Qed.

Lemma exclusive_later t t' s : fle t t' = true -> exclusive t s -> exclusive t' s.
Proof.
  intros Ht H i j x y Hi Hj Hc Hx Hy. apply (H i j x y Hi Hj Hc).
  - destruct (_is_active t (snd x)) eqn:E; [done|]. by rewrite (inactive_stays t t' _ Ht E) in Hx.
  - destruct (_is_active t (snd y)) eqn:E; [done|]. by rewrite (inactive_stays t t' _ Ht E) in Hy.
Qed.

(** Entries that are either unchanged or no longer active keep exclusion. *)
Lemma exclusive_weaken t s s' :
  (forall i x, s' !! i = Some x -> s !! i = Some x \/ _is_active t (snd x) = false) -> exclusive t s -> exclusive t s'.
Proof.
  intros Hw H i j x y Hi Hj Hc Hx Hy. destruct (Hw i x Hi) as [Hi'|E]; [|by rewrite E in Hx].
  destruct (Hw j y Hj) as [Hj'|E]; [|by rewrite E in Hy]. eauto.
Qed.

Lemma revoked_inactive t r l : r <> NotRevoked -> _is_active t (set_revocation r l) = false.
Proof. intros H. unfold _is_active, revoked. cbn. by destruct r. Qed.

Lemma revoke_where_lookup test how mono stamp s i x :
  revoke_where test how mono stamp s !! i = Some x ->
  exists y, s !! i = Some y
    /\ x = if test (snd y) && _is_active (mono i) (snd y) then (fst y, set_revocation (how (stamp i)) (snd y)) else y.
Proof. unfold revoke_where. rewrite list_lookup_imap. destruct (s !! i) as [y|]; [|done]. intros [= <-]. eauto. Qed.

Lemma revoke_where_exclusive t test how mono stamp s :
  (forall a, how a <> NotRevoked) -> exclusive t s -> exclusive t (revoke_where test how mono stamp s).
Proof.
  intros Hh. apply exclusive_weaken. intros i x (y & Hy & ->)%revoke_where_lookup.
  destruct (_ && _); [right; by apply revoked_inactive|by left].
Qed.

Lemma revoked_put_exclusive t s id r l : r <> NotRevoked -> exclusive t s -> exclusive t (aput s id (set_revocation r l)).
Proof.
  intros Hr. apply exclusive_weaken. intros i x Hx. destruct (aput_at s id (set_revocation r l)) as (p & Hp & Ho).
  destruct (decide (i = p)) as [->|Hne].
  - rewrite Hp in Hx. injection Hx as <-. right. by apply revoked_inactive.
  - left. by rewrite <- Ho.
Qed.

(** A grant ends every active lease of its scope before its own begins. *)
Lemma grant_exclusive t q id item mono stamp s :
  (forall i, fle (mono i) t = true) -> item.(scopeKind) = q.(q_kind) -> item.(scope) = q.(q_scope) -> exclusive t s ->
  exclusive t (aput (revoke_where (same_scope q.(q_kind) q.(q_scope)) (fun at_ => Replaced at_ id) mono stamp s) id item).
Proof.
  intros Hm Hk Hs Hex. set (kept := revoke_where _ _ _ _ _).
  assert (Hkept : exclusive t kept) by (by apply revoke_where_exclusive).
  assert (Hno : forall i x, kept !! i = Some x -> competing item (snd x) -> _is_active t (snd x) = false).
  { intros i x (y & Hy & ->)%revoke_where_lookup [Hck Hcs].
    destruct (_ && _) eqn:E; [by apply revoked_inactive|]. apply andb_false_iff in E as [E|E].
    - unfold same_scope in E. cbn in Hck, Hcs. rewrite <- Hk, <- Hs, Hck, Hcs, !String.eqb_refl in E. done.
    - by eapply inactive_stays. }
  destruct (aput_at kept id item) as (p & Hp & Ho). intros i j x y Hi Hj Hc Hx Hy.
  destruct (decide (i = p)) as [->|Hip], (decide (j = p)) as [->|Hjp]; try done.
  - rewrite Hp in Hi. injection Hi as <-. rewrite Ho in Hj by done. cbn in Hc, Hx.
    by rewrite (Hno j y Hj Hc) in Hy.
  - rewrite Hp in Hj. injection Hj as <-. rewrite Ho in Hi by done. cbn in Hc, Hy.
    rewrite (Hno i x Hi) in Hx; [done|]. destruct Hc as [H1 H2]. split; symmetry; done.
  - rewrite Ho in Hi, Hj by done. by apply (Hkept i j x y).
Qed.

(** Runs of the registry up to a reading of the monotonic clock; every reading an operation makes lies between
    the clock before and after it. *)
Inductive leased : float -> registry -> Prop :=
| leased_start t : leased t init_registry
| leased_later t t' s : leased t s -> fle t t' = true -> leased t' s
| leased_grant t t' data id mono stamp issue_now issued public_now s :
    leased t s -> fle t t' = true -> (forall i, fle (mono i) t' = true) ->
    leased t' (fst (grant data id mono stamp issue_now issued public_now s))
| leased_revoke t id requested_by stamp public_now s :
    leased t s -> leased t (fst (revoke id requested_by stamp public_now s))
| leased_clear_context t text mono stamp s : leased t s -> leased t (fst (clear_context text mono stamp s))
| leased_clear t s : leased t s -> leased t (fst (clear s)).

Lemma read_request_kind data q : read_request data = Ok q -> q.(q_kind) ∈ _SCOPE_KINDS /\ q.(q_context) ∈ _CONTEXTS
  /\ within (float_of_Z 1) (float_of_Z 43200) q.(q_ttl).
Proof.
  unfold read_request. intros H. do 6 (apply bind_ok in H as (? & _ & H)). cbv zeta in H.
  destruct (_ || _); [done|]. destruct (negb (bool_decide _)) eqn:Ek; [done|].
  destruct (negb (bool_decide (lower _ ∈ _CONTEXTS))) eqn:Ec; [done|].
  apply bind_ok in H as (ttl & _ & H). pyinv. subst q. split; [done|]. split; [done|]. by apply clamp_within.
Qed.

(** Authority is exclusive and fails closed. In any run, at any clock reading no earlier than the operations
    so far, no two active leases govern the same typed scope; and a lease that was revoked, replaced or ran out
    is never active again. *)
Theorem one_active_lease_per_scope t s :
  leased t s -> exclusive t s
  /\ forall t' i x, fle t t' = true -> s !! i = Some x -> _is_active t (snd x) = false -> _is_active t' (snd x) = false.
Proof.
  intros H. split; [|intros t' i x Ht _; by apply inactive_stays].
  induction H as [t|t t' s _ IH Ht|t t' data id mono stamp issue_now issued public_now s _ IH Ht Hm
    |t id by_ stamp public_now s _ IH|t text mono stamp s _ IH|t s _ IH].
  - intros i j x y Hi. unfold init_registry in Hi. by rewrite lookup_nil in Hi.
  - by eapply exclusive_later.
  - apply (exclusive_later t t') in IH; [|done]. unfold grant.
    destruct (read_request data) as [q|e]; [|done]. rewrite st_lift_Ok, st_get_bind. cbv zeta. rewrite st_put_bind.
    by apply grant_exclusive.
  - unfold revoke. rewrite st_get_bind. destruct (alookup s id) as [l|]; [|done]. destruct (revoked l); [done|].
    rewrite st_put_bind. unfold st_bind at 1, st_lift. destruct (_clean by_ 160) as [b|e]; cbn [fst].
    + cbv zeta. rewrite st_put_bind. cbn [fst st_ret]. by apply revoked_put_exclusive.
    + by apply revoked_put_exclusive.
  - unfold clear_context. cbv zeta. destruct (negb _); [done|]. rewrite st_get_bind, st_put_bind. cbn [fst st_ret].
    by apply revoke_where_exclusive.
  - intros i j x y Hi. cbn in Hi. by rewrite lookup_nil in Hi.
Qed.

Definition ask (grantee : string) : pydict :=
  [("scope", VStr "audio"); ("grantee", VStr grantee); ("ttlSeconds", VInt 60)].

(** Two departments' leads are granted the same scope one second apart. *)
Definition granted_twice : registry :=
  fst (grant (ask "sam") "lease-2" (fun _ => float_of_Z 2) (fun _ => "t2") (float_of_Z 2) "t2" (float_of_Z 2)
    (fst (grant (ask "alex") "lease-1" (fun _ => float_of_Z 1) (fun _ => "t1") (float_of_Z 1) "t1" (float_of_Z 1) init_registry))).

Lemma one_active_lease_per_scope_witness :
  exclusive (float_of_Z 2) granted_twice
  /\ map (fun kv => (fst kv, _is_active (float_of_Z 2) (snd kv))) granted_twice = [("lease-1", false); ("lease-2", true)].
Proof.
  split; [|vm_compute; reflexivity].
  apply (one_active_lease_per_scope (float_of_Z 2) granted_twice).
  apply (leased_grant (float_of_Z 1)); [|reflexivity|intros _; reflexivity].
  apply (leased_grant (float_of_Z 1)); [apply leased_start|reflexivity|intros _; reflexivity].
Defined.

(** A revocation whose requester is refused is recorded all the same. *)
Lemma refused_revocation_is_recorded :
  let x := revoke "lease-2" (VStr (of_chars [chr 65; chr 7; chr 66])) "t3" (float_of_Z 3) granted_twice in
  (match snd x with Raise (ValueError _) => true | _ => false end,
   option_map (fun l => revoked l) (alookup (fst x) "lease-2")) = (true, Some true).
Proof. vm_compute. reflexivity. Qed.
