(* ===== verification/Reconciliation.v ===== *)
(** * Realization of a venue patch (backend/reconciliation.py)

    The registry of adapter evidence and the deterministic comparison of the
    committed mappings with the current plan and that evidence. The wall clock
    text and the monotonic clock are arguments. *)

From S2P Require Import Prelude PyStr PyFloat PyVal PyFacts AuthorityLeases.
From Stdlib Require Import SpecFloat.

#[local] Open Scope string_scope.
#[local] Open Scope list_scope.
#[local] Open Scope Z_scope.
#[local] Open Scope st_scope.

Definition _domain_from_patch_key (patch_key : string) : string :=
  match before_char "."%char (chars patch_key) with
  | Some l => of_chars l
  | None => "other"
  end.

Definition get_str (d : pydict) (k : string) : string := py_str (dget_or d k (VStr "")).

(** [str(d.get(k) or "")]. *)
Definition get_or_empty (d : pydict) (k : string) : string := py_str (py_or (dget_none d k) (VStr "")).

Definition _provider_key (provider : option pydict) : string * string :=
  match provider with
  | Some p => (get_str p "type", get_str p "id")
  | None => ("", "")
  end.

Definition _target (mapping : option pydict) : string :=
  match mapping with Some m => get_or_empty m "target" | None => "" end.

(** [d.get(k) if isinstance(d.get(k), dict) else None]. *)
Definition get_dict (d : pydict) (k : string) : option pydict :=
  match dget_none d k with VDict x => Some x | _ => None end.

(** ** The evidence registry *)

Record payload := {
  patchKey : string;
  providerId : option string;
  providerType : option string;
  target : option string;
  healthy : bool;
  authorityHolder : option string;
  executionState : string;
  detail : pydict;
  reportedAt : string;
}.

(** Payload and observation time, by patch key. *)
Abbreviation registry := (list (string * (payload * float))).
Abbreviation op := (st registry).

Definition init_registry : registry := [].

(** [str(data.get(k, "")).strip()[:n]]. *)
Definition bounded (n : nat) (data : pydict) (k : string) : string := slice n (strip (get_str data k)).

Definition payload_dict (p : payload) : pydict :=
  [("patchKey", VStr p.(patchKey)); ("providerId", opt_str p.(providerId));
   ("providerType", opt_str p.(providerType)); ("target", opt_str p.(target)); ("healthy", VBool p.(healthy));
   ("authorityHolder", opt_str p.(authorityHolder)); ("executionState", VStr p.(executionState));
   ("detail", VDict p.(detail)); ("reportedAt", VStr p.(reportedAt))].

Definition report (data : pydict) (stamp : string) (now : float) : op pydict :=
  let key := bounded 160 data "patchKey" in
  if String.eqb key "" then st_raise (ValueError "patchKey required")
  else
    let p := {| patchKey := key; providerId := some_text (bounded 160 data "providerId");
                providerType := some_text (bounded 64 data "providerType");
                target := some_text (bounded 320 data "target");
                healthy := truthy (dget_or data "healthy" (VBool true));
                authorityHolder := some_text (bounded 160 data "authorityHolder");
                executionState :=
                  str_or (slice 64 (strip (py_str (dget_or data "executionState" (VStr "active"))))) "active";
                detail := default [] (get_dict data "detail"); reportedAt := stamp |} in
    let* s := st_get in
    let* _ := st_put (aput s key (p, now)) in
    st_ret (payload_dict p).

Definition clear : op unit := st_put [].

Definition snapshot (freshness_ms : Z) (now : float) (s : registry) : pydict :=
  let freshness := Z.max 100 (Z.min 120000 freshness_ms) in
  let row (kv : string * (payload * float)) :=
    let '(_, (p, observed)) := kv in
    let age := fmax (S754_zero false) (fmul (fsub now observed) (float_of_Z 1000)) in
    dmerge (payload_dict p) [("ageMs", VFloat (fround 3 age)); ("fresh", VBool (fle age (float_of_Z freshness)))] in
  [("freshnessMs", VInt freshness);
   ("reports", VList (map VDict (sort_by (fun d => get_str d "patchKey") (map row s))))].

(** ** Evaluation *)

Definition dict_items (l : list pyval) : list pydict :=
  omap (M:=list) (fun v => match v with VDict d => Some d | _ => None end) l.

(** [{str(item.get(k)): item for item in items if isinstance(item, dict)}]. *)
Definition by_key (k : string) (items : list pyval) : list (string * pydict) :=
  fold_left (fun m d => aput m (py_str (dget_none d k)) d) (dict_items items) [].

Definition _current_rows (plan : pydict) (requirements : list pyval) : res (list (string * pydict)) :=
  let by_req := by_key "id" requirements in
  items ← (py_iter (py_or (dget_or plan "devicePlan" (VList [])) (VList [])) : res (list pyval));
  Ok (fold_left (fun rows item =>
        let req_id := get_str item "id" in
        let req := default [] (alookup by_req req_id) in
        aput rows (py_str (py_or (dget_none req "patchKey") (VStr req_id))) item) (dict_items items) []).

Inductive mapping_status := Compatible | Drift | Blocked.

#[export] Instance mapping_status_eq_dec : EqDecision mapping_status.
Proof. solve_decision. Defined.

Definition status_text (s : mapping_status) : string :=
  match s with Compatible => "compatible" | Drift => "drift" | Blocked => "blocked" end.

(** What the plan says about a mapping: its status and the reasons. *)
Definition plan_verdict (current : option pydict) (expected : pydict) : mapping_status * list string :=
  match current with
  | None => (Blocked, ["current venue plan no longer contains this mapping"])
  | Some c =>
      let decision := default [] (get_dict c "decision") in
      let timing := default [] (get_dict c "timing") in
      if py_eq (dget_none decision "status") (VStr "blocked") || py_eq (dget_none timing "status") (VStr "blocked")
         || negb (is_dict (dget_none c "provider"))
      then (Blocked, ["current venue provider or timing is unavailable"])
      else
        let provider_differs := negb (bool_decide (_provider_key (get_dict c "provider")
                                                   = _provider_key (get_dict expected "provider"))) in
        let ct := _target (get_dict c "patch") in
        let et := _target (Some expected) in
        let target_differs := negb (String.eqb ct "") && negb (String.eqb et "") && negb (String.eqb ct et) in
        (if provider_differs || target_differs then Drift else Compatible,
         (if provider_differs then ["resolved provider changed since commit"] else [])
         ++ (if target_differs then ["venue patch target changed since commit"] else []))
  end.

Inductive evidence_status := Unverified | Healthy | Unhealthy.

Definition evidence_text (s : evidence_status) : string :=
  match s with Unverified => "unverified" | Healthy => "healthy" | Unhealthy => "unhealthy" end.

(** [evidence.get(k) and wanted and str(evidence.get(k)) != wanted]. *)
Definition differs (evidence : pydict) (k wanted : string) : bool :=
  truthy (dget_none evidence k) && negb (String.eqb wanted "")
  && negb (String.eqb (py_str (dget_none evidence k)) wanted).

(** Each finding of the evidence overrides the status reached so far. *)
Definition evidence_verdict (evidence : option pydict) (expected : pydict) (expected_authority : option string)
    (s : mapping_status) (reasons : list string)
    : mapping_status * list string * evidence_status * bool :=
  match evidence with
  | Some e =>
      if truthy (dget_none e "fresh") then
        let unhealthy := negb (truthy (dget_none e "healthy")) in
        let provider := match get_dict expected "provider" with Some p => get_or_empty p "id" | None => "" end in
        let wrong_provider := differs e "providerId" provider in
        let wrong_target := differs e "target" (_target (Some expected)) in
        let wrong_holder := match expected_authority with
                            | Some a => differs e "authorityHolder" a
                            | None => false
                            end in
        let s := if unhealthy then Blocked else s in
        let s := if wrong_provider then Drift else s in
        let s := if wrong_target then Drift else s in
        let s := if wrong_holder then Blocked else s in
        (s, reasons
            ++ (if unhealthy then ["execution adapter reports unhealthy realization"] else [])
            ++ (if wrong_provider then ["execution provider differs from committed provider"] else [])
            ++ (if wrong_target then ["execution target differs from committed target"] else [])
            ++ (if wrong_holder then ["authority holder differs from committed ownership"] else []),
         if unhealthy then Unhealthy else Healthy, bool_decide (s = Compatible) && negb unhealthy)
      else (s, reasons ++ ["fresh execution evidence unavailable"], Unverified, false)
  | None => (s, reasons ++ ["fresh execution evidence unavailable"], Unverified, false)
  end.

(** [a or b or ... or None] on text. *)
Definition first_text (l : list string) : option string := List.find (fun s => negb (String.eqb s "")) l.

Definition expected_authority_of (authority : list (string * string)) (key domain : string) (expected : pydict)
    : option string :=
  let patch_doc := default [] (get_dict expected "patch") in
  first_text [default "" (alookup authority key); default "" (alookup authority domain);
              strip (get_str patch_doc "authority"); strip (get_str expected "authority")].

Record mapping := {
  m_key : string;
  m_domain : string;
  m_expected : pydict;
  m_current : option pydict;
  m_status : mapping_status;
  m_realized : bool;
  m_evidence_status : evidence_status;
  m_evidence : option pydict;
  m_authority : option string;
  m_reasons : list string;
}.

Definition evaluate_mapping (rows evidence : list (string * pydict)) (authority : list (string * string))
    (kv : string * pyval) : mapping :=
  let '(key, value) := kv in
  let expected := as_dict value in
  let current := alookup rows key in
  let domain := _domain_from_patch_key key in
  let auth := expected_authority_of authority key domain expected in
  let e := alookup evidence key in
  let '(s0, r0) := plan_verdict current expected in
  let '(s, r, es, realized) := evidence_verdict e expected auth s0 r0 in
  {| m_key := key; m_domain := domain; m_expected := expected; m_current := current; m_status := s;
     m_realized := realized; m_evidence_status := es; m_evidence := e; m_authority := auth; m_reasons := r |}.

Definition opt_dict (o : option pydict) : pyval := match o with Some d => VDict d | None => VNone end.

Definition mapping_dict (m : mapping) : pydict :=
  [("patchKey", VStr m.(m_key)); ("domain", VStr m.(m_domain)); ("expected", VDict m.(m_expected));
   ("currentProvider", match m.(m_current) with Some c => opt_dict (get_dict c "provider") | None => VNone end);
   ("currentTiming", VDict (match m.(m_current) with Some c => default [] (get_dict c "timing") | None => [] end));
   ("status", VStr (status_text m.(m_status))); ("realized", VBool m.(m_realized));
   ("evidenceStatus", VStr (evidence_text m.(m_evidence_status))); ("evidence", opt_dict m.(m_evidence));
   ("expectedAuthority", opt_str m.(m_authority)); ("reasons", VList (map VStr m.(m_reasons)))].

Inductive overall := OBlocked | ODrift | OUnverified | ORealized.

#[export] Instance overall_eq_dec : EqDecision overall.
Proof. solve_decision. Defined.

Definition is_blocked (m : mapping) : bool := bool_decide (m.(m_status) = Blocked).
Definition is_drift (m : mapping) : bool := bool_decide (m.(m_status) = Drift).
Definition is_unverified (m : mapping) : bool :=
  match m.(m_evidence_status) with Unverified => true | _ => false end.

Definition overall_of (ms : list mapping) : overall :=
  if existsb is_blocked ms then OBlocked
  else if existsb is_drift ms then ODrift
  else if existsb is_unverified ms then OUnverified else ORealized.

Definition overall_texts (o : overall) : string * string :=
  match o with
  | OBlocked => ("blocked", "rollback-or-repair")
  | ODrift => ("drift", "propose-repair")
  | OUnverified => ("unverified", "verify-execution")
  | ORealized => ("realized", "none")
  end.

Definition note (m : mapping) : pyval := VStr (m.(m_key) +:+ ": " +:+ join "; " m.(m_reasons)).

Definition evaluated_mappings (active plan : pydict) (requirements : list pyval) (evidence_snapshot : pydict)
    (authority : list (string * string)) : res (list mapping) :=
  rows ← _current_rows plan requirements;
  reports ← (py_iter (dget_or evidence_snapshot "reports" (VList [])) : res (list pyval));
  match py_or (dget_none active "mappings") (VDict []) with
  | VDict d => Ok (map (evaluate_mapping rows (by_key "patchKey" reports) authority) (sort_by fst d))
  | _ => Raise AttributeError
  end.

Definition no_active_patch (stamp : string) : pydict :=
  [("active", VBool false); ("status", VStr "no-active-patch"); ("safeToContinue", VBool true);
   ("realized", VBool false); ("checkedAt", VStr stamp); ("mappings", VList []); ("blockers", VList []);
   ("warnings", VList []); ("suggestedAction", VStr "none")].

Definition safe_to_continue (ms : list mapping) : bool := negb (existsb is_blocked ms).

Definition realization_dict (active plan : pydict) (stamp : string) (ms : list mapping) : pydict :=
  let o := overall_of ms in
  [("active", VBool true); ("transactionId", dget_none active "transactionId");
   ("patchRevision", dget_none active "patchRevision"); ("venueId", dget_none active "venueId");
   ("venueName", dget_none active "venueName"); ("status", VStr (fst (overall_texts o)));
   ("safeToContinue", VBool (safe_to_continue ms));
   ("realized", VBool (bool_decide (o = ORealized))); ("checkedAt", VStr stamp);
   ("planReadiness", dget_none plan "readiness"); ("planGrade", dget_none plan "grade");
   ("mappings", VList (map (fun m => VDict (mapping_dict m)) ms));
   ("blockers", VList (map note (List.filter is_blocked ms)));
   ("warnings", VList (map note (List.filter (fun m => negb (is_blocked m) && (is_drift m || negb m.(m_realized))) ms)));
   ("suggestedAction", VStr (snd (overall_texts o)))].

Definition evaluate_realization (active : pyval) (plan : pydict) (requirements : list pyval)
    (evidence_snapshot : pydict) (authority : list (string * string)) (stamp : string) : res pydict :=
  match active with
  | VDict a =>
      ms ← evaluated_mappings a plan requirements evidence_snapshot authority;
      Ok (realization_dict a plan stamp ms)
  | _ => Ok (no_active_patch stamp)
  end.

(** ** Properties *)

(** A mapping is carried out as committed: the plan still has it with the
    committed provider and target, and fresh healthy evidence agrees with the
    committed provider, target and authority. *)
Record carried_out (m : mapping) : Prop := {
  co_plan : fst (plan_verdict m.(m_current) m.(m_expected)) = Compatible;
  co_evidence : exists e, m.(m_evidence) = Some e /\ truthy (dget_none e "fresh") = true
    /\ truthy (dget_none e "healthy") = true
    /\ differs e "target" (_target (Some m.(m_expected))) = false
    /\ differs e "providerId" (match get_dict m.(m_expected) "provider" with
                               | Some p => get_or_empty p "id" | None => "" end) = false
    /\ (forall a, m.(m_authority) = Some a -> differs e "authorityHolder" a = false);
}.

Lemma evaluate_mapping_realized rows evidence authority kv :
  let m := evaluate_mapping rows evidence authority kv in
  m.(m_realized) = true <-> carried_out m.
Proof.
  destruct kv as [key value]. unfold evaluate_mapping.
  set (expected := as_dict value). set (auth := expected_authority_of _ _ _ _).
  destruct (plan_verdict (alookup rows key) expected) as [s0 r0] eqn:Ep. unfold evidence_verdict.
  destruct (alookup evidence key) as [e|] eqn:Ee.
  2: { cbn. split; [done|]. intros [_ (? & He & _)]. cbn in He. congruence. }
  destruct (truthy (dget_none e "fresh")) eqn:Ef.
  2: { cbn. split; [done|]. intros [_ (e' & He & Hf & _)]. cbn in He, Hf. congruence. }
  cbn [m_realized]. split.
  - intros H. apply andb_prop in H as [Hs Hh]. apply bool_decide_eq_true in Hs.
    constructor; cbn [m_current m_expected m_evidence m_authority].
    + rewrite Ep. cbn. repeat case_match; congruence.
    + exists e. split; [congruence|]. destruct (truthy (dget_none e "healthy")); [|done].
      repeat case_match; try congruence; split_and!; try congruence; intros; congruence.
  - intros [Hp (e' & He & _ & Hh & Ht & Hpr & Ha)]. cbn [m_current m_expected m_evidence m_authority] in *.
    rewrite Ep in Hp. cbn in Hp. subst s0. injection He as <-.
    rewrite Hh, Hpr, Ht. cbn [negb]. destruct auth as [a|]; [rewrite (Ha a eq_refl)|]; by rewrite bool_decide_true.
Qed.

Lemma existsb_forall {A} (p : A -> bool) l : existsb p l = false <-> Forall (fun x => p x = false) l.
Proof.
  split.
  - intros H. apply Forall_forall. intros x Hx. apply list_elem_of_In in Hx.
    destruct (p x) eqn:E; [|done]. assert (existsb p l = true) by (apply existsb_exists; eauto). congruence.
  - intros H. apply not_true_is_false. intros (x & Hx & Hp)%existsb_exists.
    rewrite Forall_forall in H. apply list_elem_of_In in Hx. specialize (H x Hx). cbn in H. congruence.
Qed.

Lemma evaluate_mapping_status rows evidence authority kv :
  let m := evaluate_mapping rows evidence authority kv in
  m.(m_realized) = true <-> m.(m_status) = Compatible /\ is_unverified m = false.
Proof.
  destruct kv as [key value]. unfold evaluate_mapping, is_unverified, evidence_verdict.
  destruct (plan_verdict _ _) as [s0 r0]. cbn zeta.
  destruct (alookup evidence key) as [e|]; [|cbn; split; [done|by intros []]].
  destruct (truthy (dget_none e "fresh")); [|cbn; split; [done|by intros []]].
  cbn [m_realized m_status m_evidence_status].
  rewrite andb_true_iff, bool_decide_eq_true.
  destruct (truthy (dget_none e "healthy")); cbn [negb]; [tauto|].
  split; [by intros []|]. intros [H _]. repeat case_match; done.
Qed.

Lemma overall_realized ms :
  Forall (fun m => m.(m_realized) = true <-> m.(m_status) = Compatible /\ is_unverified m = false) ms ->
  overall_of ms = ORealized <-> Forall (fun m => m.(m_realized) = true) ms.
Proof.
  intros Hms. transitivity (Forall (fun m => m.(m_status) = Compatible /\ is_unverified m = false) ms).
  - unfold overall_of. split.
    + intros H. repeat case_match; try done.
      repeat match goal with E : existsb _ _ = false |- _ => apply existsb_forall in E end.
      rewrite !Forall_forall in *. intros m Hm. split; [|by eauto].
      assert (is_blocked m = false /\ is_drift m = false) as [Hb Hd] by eauto.
      unfold is_blocked, is_drift in *. pyinv. by destruct (m_status m).
    + intros H. repeat (rewrite (proj2 (existsb_forall _ _)); [|
        eapply Forall_impl; [exact H|]; intros m [Hs Hu]; unfold is_blocked, is_drift; by rewrite ?Hs]). done.
  - rewrite !Forall_forall. rewrite Forall_forall in Hms. split; intros H m Hm; apply Hms; auto.
Qed.

Lemma evaluated_mappings_shape a plan reqs ev authority ms :
  evaluated_mappings a plan reqs ev authority = Ok ms ->
  exists rows evidence items, ms = map (evaluate_mapping rows evidence authority) items.
Proof. unfold evaluated_mappings. intros H. pyinv. inv_case H. pyinv. by eauto. Qed.

(** An active patch is reported realized exactly when every committed mapping is carried out: the
    current plan still offers it, unblocked, with the committed provider and target, and fresh healthy
    evidence agrees with the committed provider, target and authority; and it is reported safe to continue
    exactly when no mapping ends up blocked. *)
Theorem realized_iff_all_carried_out a plan reqs ev authority ms stamp :
  evaluated_mappings a plan reqs ev authority = Ok ms ->
  (dget_none (realization_dict a plan stamp ms) "realized" = VBool true <-> Forall carried_out ms)
  /\ (dget_none (realization_dict a plan stamp ms) "safeToContinue" = VBool true
      <-> Forall (fun m => m.(m_status) <> Blocked) ms).
Proof.
  intros (rows & evidence & items & ->)%evaluated_mappings_shape.
  set (ms := map _ items). split.
  - transitivity (overall_of ms = ORealized).
    { change (dget_none _ "realized") with (VBool (bool_decide (overall_of ms = ORealized))).
      case_bool_decide; split; congruence. }
    rewrite overall_realized.
    + unfold ms. rewrite !Forall_map. apply Forall_iff. intros kv. apply evaluate_mapping_realized.
    + unfold ms. rewrite Forall_map. apply Forall_forall. intros kv _. apply evaluate_mapping_status.
  - change (dget_none _ "safeToContinue") with (VBool (safe_to_continue ms)).
    unfold safe_to_continue. transitivity (existsb is_blocked ms = false).
    { destruct (existsb is_blocked ms); cbn; split; congruence. }
    rewrite existsb_forall. apply Forall_iff. intros m. unfold is_blocked. by rewrite bool_decide_eq_false.
Qed.

Definition sample_active : pydict :=
  [("mappings", VDict [("audio.foh", VDict [("provider", VDict [("type", VStr "dsp"); ("id", VStr "p1")])])])].
Definition sample_plan : pydict :=
  [("devicePlan", VList [VDict [("id", VStr "audio.foh");
                                ("provider", VDict [("type", VStr "dsp"); ("id", VStr "p1")])]])].
Definition sample_evidence (provider : string) (healthy : bool) : pydict :=
  [("reports", VList [VDict [("patchKey", VStr "audio.foh"); ("providerId", VStr provider);
                             ("healthy", VBool healthy); ("fresh", VBool true)]])].

Lemma realized_iff_all_carried_out_witness :
  exists ms, evaluated_mappings sample_active sample_plan [] (sample_evidence "p1" true) [] = Ok ms
             /\ Forall carried_out ms.
Proof.
  eexists. split; [vm_compute; reflexivity|].
  apply (realized_iff_all_carried_out sample_active sample_plan [] (sample_evidence "p1" true) [] _ "now");
    vm_compute; reflexivity.
Defined.

(** A report that is both unhealthy and from another provider ends as drift,
    which does not stop the show, although the unhealthy report alone blocks. *)
Lemma drift_hides_unhealthy_adapter :
  (exists ms, evaluated_mappings sample_active sample_plan [] (sample_evidence "p1" false) [] = Ok ms
              /\ safe_to_continue ms = false)
  /\ (exists ms, evaluated_mappings sample_active sample_plan [] (sample_evidence "p2" false) [] = Ok ms
                 /\ safe_to_continue ms = true).
Proof. split; (eexists; split; [vm_compute; reflexivity|reflexivity]). Qed.
