(* ===== verification/TemporaryOwnership.v ===== *)
(** * Ownership of temporary resources (backend/temporary_ownership.py)

    Manifests that bind a process generation to one file-system object, the
    conservative classification of a resource from them, and the atomic
    publication of a manifest. The process table, [lstat], [kill] and the
    directory answer through arguments; an operation that looks twice gets two
    answers. *)

From S2P Require Import Prelude PyStr PyFloat PyVal PyFacts Json.

#[local] Open Scope string_scope.
#[local] Open Scope list_scope.
#[local] Open Scope Z_scope.
#[local] Open Scope st_scope.

Definition MANIFEST_SCHEMA_VERSION : Z := 2.
Definition MANIFEST_DOCUMENT_TYPE : string := "org.stageforge.temporary-resource-owner".

(** What [os.kill(pid, 0)] answers. *)
Inductive kill_answer := KillOk | KillNoProcess | KillDenied.

(** The process evidence of the system: the boot identifier's file and the
    [stat] file of each process ([None]: unreadable). *)
Record system := {
  boot_id_file : option string;
  stat_file : Z -> option string;
  kill_zero : Z -> kill_answer;
}.

(** [text.split()]. *)
Fixpoint split_words (current : list ascii) (l : list ascii) : list (list ascii) :=
  match l with
  | [] => match current with [] => [] | _ => [rev current] end
  | c :: l' =>
      if is_space c then match current with [] => split_words [] l' | _ => rev current :: split_words [] l' end
      else split_words (c :: current) l'
  end.

Definition words (s : string) : list string := map of_chars (split_words [] (chars s)).

(** [int(text.split()[21])], [None] on [IndexError] or [ValueError]. *)
Definition start_ticks (text : string) : option Z :=
  match words text !! 21%nat with Some w => parse_int w | None => None end.

Record identity := { pid : Z; bootId : option string; processStartTicks : option Z }.

Definition process_identity (sys : system) (p : Z) : identity :=
  match sys.(boot_id_file) with
  | None => {| pid := p; bootId := None; processStartTicks := None |}
  | Some boot =>
      {| pid := p; bootId := Some (strip boot);
         processStartTicks := match sys.(stat_file) p with Some t => start_ticks t | None => None end |}
  end.

Definition identity_dict (i : identity) : pydict :=
  ("pid", VInt i.(pid))
  :: match i.(bootId) with Some b => [("bootId", VStr b)] | None => [] end
  ++ match i.(processStartTicks) with Some t => [("processStartTicks", VInt t)] | None => [] end.

(** The evidence a usable owner carries: process, boot, start ticks. *)
Definition owner_evidence (owner : pyval) : option (Z * string * Z) :=
  match owner with
  | VDict d =>
      if negb (py_eq (dget_none d "schemaVersion") (VInt MANIFEST_SCHEMA_VERSION)) then None
      else if negb (py_eq (dget_none d "documentType") (VStr MANIFEST_DOCUMENT_TYPE)) then None
      else match dget_none d "pid", dget_none d "bootId", dget_none d "processStartTicks" with
           | VInt p, VStr b, VInt t => if String.eqb b "" then None else Some (p, b, t)
           | _, _, _ => None
           end
  | _ => None
  end.

Definition owner_live (sys : system) (owner : pyval) : option bool :=
  match owner_evidence owner with
  | None => None
  | Some (p, b, t) =>
      let current := process_identity sys p in
      match current.(bootId), current.(processStartTicks) with
      | Some b', Some t' => Some (String.eqb b' b && (t' =? t))
      | _, _ => match sys.(kill_zero) p with
                | KillNoProcess => Some false
                | KillDenied | KillOk => None
                end
      end
  end.

(** ** Resource identity *)

Inductive file_kind := Symlink | Regular | Directory | Special.

(** What [path.lstat()] answers: device, inode, kind; [None] on [OSError]. *)
Definition lstat_answer : Type := option (Z * Z * file_kind).

Definition resource_dict (device inode : Z) (kind : string) : pydict :=
  [("device", VInt device); ("inode", VInt inode); ("kind", VStr kind)].

Definition _resource_identity (info : lstat_answer) : option pydict :=
  match info with
  | Some (dev, ino, Regular) => Some (resource_dict dev ino "file")
  | Some (dev, ino, Directory) => Some (resource_dict dev ino "directory")
  | _ => None
  end.

Definition resource_matches (owner : pyval) (info : lstat_answer) : bool :=
  match owner with
  | VDict d =>
      py_eq (dget_none d "schemaVersion") (VInt MANIFEST_SCHEMA_VERSION)
      && match dget_none d "resourceIdentity", _resource_identity info with
         | VDict expected, Some actual => py_eq (VDict expected) (VDict actual)
         | _, _ => false
         end
  | _ => false
  end.

Definition build_owner_manifest (sys : system) (self_pid : Z) (info : lstat_answer) (time : float)
    (resource_class purpose : string) (extra : pydict) : res pydict :=
  match _resource_identity info with
  | None => Raise (RuntimeError "temporary resource must be a regular file or directory")
  | Some resource =>
      created ← py_int (VFloat (fmul time (float_of_Z 1000)));
      Ok (dmerge extra
            ([("documentType", VStr MANIFEST_DOCUMENT_TYPE); ("schemaVersion", VInt MANIFEST_SCHEMA_VERSION)]
             ++ identity_dict (process_identity sys self_pid)
             ++ [("createdAtUnixMs", VInt created); ("resourceClass", VStr (slice 32 resource_class));
                 ("purpose", VStr (slice 32 purpose)); ("resourceIdentity", VDict resource)]))
  end.

(** ** Publication *)

(** The regular files of a directory, by path. *)
Abbreviation directory := (gmap string string).

(** The steps of [write_owner_manifest] that can fail with an [OSError]. *)
Inductive write_step := SMkdir | SCreate | SChmod | SWrite | SSync | SReplace | SSyncDir.

#[export] Instance write_step_eq_dec : EqDecision write_step.
Proof. solve_decision. Defined.

(** [json.dumps(owner, separators=(",", ":"), sort_keys=True).encode()]. *)
Definition manifest_bytes (owner : pydict) : string := write_json json_ascii "," ":" true (VDict owner).

(** [fails s]: step [s] raises; a failing write leaves the bytes [partial]. *)
Definition attempt (fails : write_step -> bool) (s : write_step) (m : st directory unit) : st directory unit :=
  if fails s then st_raise (OSError "write_owner_manifest") else m.

(** [try: m except BaseException: cleanup; raise]. *)
Definition on_failure {S A} (m : st S A) (cleanup : S -> S) : st S A := fun s =>
  match m s with
  | (s', Raise e) => (cleanup s', Raise e)
  | r => r
  end.

Definition write_owner_manifest (path tmp : string) (owner : pydict) (fails : write_step -> bool)
    (partial : string) : st directory unit :=
  let payload := manifest_bytes owner in
  let* _ := attempt fails SMkdir (st_ret tt) in
  let* _ := attempt fails SCreate (st_modify <[tmp := ""]>) in
  on_failure
    (let* _ := attempt fails SChmod (st_ret tt) in
     let* _ := (if fails SWrite then st_modify <[tmp := partial]> else st_ret tt) in
     let* _ := attempt fails SWrite (st_modify <[tmp := payload]>) in
     let* _ := attempt fails SSync (st_ret tt) in
     let* _ := attempt fails SReplace (st_modify (fun d => <[path := payload]> (delete tmp d))) in
     attempt fails SSyncDir (st_ret tt))
    (delete tmp).

Definition create_owner_manifest (sys : system) (self_pid : Z) (info : lstat_answer) (time : float)
    (path tmp resource_class purpose : string) (extra : pydict) (fails : write_step -> bool)
    (partial : string) : st directory pydict :=
  let* owner := st_lift (build_owner_manifest sys self_pid info time resource_class purpose extra) in
  let* _ := write_owner_manifest path tmp owner fails partial in
  st_ret owner.

(** ** Verification *)

(** [file]: the manifest's bytes, [None] when it cannot be read. *)
Definition load_verified_owner (file : option string) (info : lstat_answer) (resource_class : option string)
    : option pydict :=
  match file with
  | None => None
  | Some bytes =>
      match text ← utf8_decode bytes; loads text with
      | Ok (VDict d) =>
          if negb (py_eq (dget_none d "documentType") (VStr MANIFEST_DOCUMENT_TYPE))
             || negb (py_eq (dget_none d "schemaVersion") (VInt MANIFEST_SCHEMA_VERSION)) then None
          else if match resource_class with
                  | Some c => negb (py_eq (dget_none d "resourceClass") (VStr c))
                  | None => false
                  end then None
          else if negb (resource_matches (VDict d) info) then None
          else Some d
      | _ => None
      end
  end.

Definition owner_value (o : option pydict) : pyval := match o with Some d => VDict d | None => VNone end.

Definition classify_owner (sys : system) (file : option string) (info : lstat_answer)
    (resource_class : option string) : string * option pydict :=
  let owner := load_verified_owner file info resource_class in
  match owner_live sys (owner_value owner) with
  | Some true => ("live", owner)
  | Some false => ("reclaimable", owner)
  | None => ("unknown-owner", owner)
  end.

(** [info_again]: the resource as it is looked at after the liveness check. *)
Definition recheck_reclaimable (sys : system) (file : option string) (info info_again : lstat_answer)
    (resource_class : option string) : option pydict :=
  let owner := load_verified_owner file info resource_class in
  match owner_live sys (owner_value owner) with
  | Some false => if resource_matches (owner_value owner) info_again then owner else None
  | _ => None
  end.

(** ** Properties *)

Lemma load_verified_owner_some file info c d : load_verified_owner file info c = Some d ->
  resource_matches (VDict d) info = true
  /\ match c with Some k => py_eq (dget_none d "resourceClass") (VStr k) = true | None => True end.
Proof.
  unfold load_verified_owner. intros H. repeat inv_case H. pyinv. subst.
  split; [done|]. by destruct c; pyinv.
Qed.

(** The process generation an owner names no longer exists, as far as the system shows. *)
Definition generation_gone (sys : system) (p : Z) (b : string) (t : Z) : Prop :=
  let current := process_identity sys p in
  match current.(bootId), current.(processStartTicks) with
  | Some b', Some t' => b' <> b \/ t' <> t
  | _, _ => sys.(kill_zero) p = KillNoProcess
  end.

Lemma owner_live_false sys owner : owner_live sys owner = Some false <->
  exists p b t, owner_evidence owner = Some (p, b, t) /\ generation_gone sys p b t.
Proof.
  unfold owner_live, generation_gone. destruct (owner_evidence owner) as [[[p b] t]|].
  - split.
    + intros H. exists p, b, t. split; [done|]. repeat case_match; try discriminate; auto.
      injection H as H. apply andb_false_iff in H as [H|H]; pyinv; tauto.
    + intros (? & ? & ? & [= <- <- <-] & H). repeat case_match; try done; try discriminate.
      f_equal. apply andb_false_iff. destruct H as [H|H].
      * left. by apply String.eqb_neq.
      * right. by apply Z.eqb_neq.
  - split; [done|]. by intros (? & ? & ? & ? & ?).
Qed.

(** The final check before deletion hands out an owner exactly when the manifest loads and matches
    the resource, the process generation it names is gone, and the resource looked at again afterwards
    is still the one the manifest names; in particular a resource without exact evidence of a dead
    owner is never reclaimed. *)
Theorem reclaim_only_when_owner_gone sys file info info_again c d :
  recheck_reclaimable sys file info info_again c = Some d <->
  load_verified_owner file info c = Some d
  /\ resource_matches (VDict d) info_again = true
  /\ exists p b t, owner_evidence (VDict d) = Some (p, b, t) /\ generation_gone sys p b t.
Proof.
  unfold recheck_reclaimable. rewrite <- (owner_live_false sys (VDict d)).
  destruct (load_verified_owner file info c) as [d'|] eqn:E; cbn [owner_value].
  - split.
    + intros H. repeat inv_case H. injection H as ->. done.
    + intros ([= <-] & Hm & Hl). by rewrite Hl, Hm.
  - split; [|by intros (? & _)]. intros H. repeat inv_case H.
Qed.

(** Publishing a manifest is atomic: whichever step fails, and whatever a failed write leaves in the
    temporary file, the directory afterwards is either untouched or has exactly the new manifest under
    its name and no temporary file; success always means the latter, and an error after the replacement
    can only be the final directory sync. *)
Theorem manifest_publication_atomic path tmp owner fails partial (d : directory) :
  tmp <> path -> d !! tmp = None ->
  let published := <[path := manifest_bytes owner]> d in
  match write_owner_manifest path tmp owner fails partial d with
  | (d', Ok _) => d' = published
  | (d', Raise _) => d' = d \/ (fails SSyncDir = true /\ d' = published)
  end.
Proof.
  intros Hne Hfree. cbn zeta. unfold write_owner_manifest, attempt.
  assert (Hclean : forall x, delete tmp (<[tmp := x]> d) = d).
  { intros x. by rewrite delete_insert_id. }
  assert (Hpub : delete tmp (<[path := manifest_bytes owner]> d) = <[path := manifest_bytes owner]> d).
  { apply delete_id. by rewrite lookup_insert_ne. }
  destruct (fails SMkdir); [by left|]. destruct (fails SCreate); [by left|].
  destruct (fails SChmod), (fails SWrite), (fails SSync), (fails SReplace), (fails SSyncDir);
    cbn; unfold on_failure, st_bind; cbn; rewrite ?insert_insert_eq, ?Hclean, ?Hpub; auto.
Qed.

Lemma manifest_publication_atomic_witness :
  let d : directory := {["a" := "old"]} in
  let run fails := write_owner_manifest "a" ".a.tmp" [("pid", VInt 7)] fails "{" d in
  run (fun s => bool_decide (s = SWrite)) = (d, Raise (OSError "write_owner_manifest"))
  /\ match run (fun _ => false) with (d', Ok _) => d' = <["a" := manifest_bytes [("pid", VInt 7)]]> d
     | (d', Raise _) => d' = d \/ (false = true /\ d' = <["a" := manifest_bytes [("pid", VInt 7)]]> d) end.
Proof.
  split; [vm_compute; reflexivity|].
  apply (manifest_publication_atomic "a" ".a.tmp" [("pid", VInt 7)] (fun _ => false) "{" {["a" := "old"]}).
  - discriminate.
  - reflexivity.
Defined.

(** A process table entry with the given command name and start time. *)
Definition stat_text (command ticks : string) : string :=
  "7 (" +:+ command +:+ ") S 1 7 7 0 -1 0 0 0 0 0 0 0 0 0 20 0 1 0 " +:+ ticks +:+ " 0 0".

(** A command name with a space shifts the words of the entry: the field after
    the start time's left neighbour is read instead. *)
Lemma spaced_command_misreads_start_ticks :
  start_ticks (stat_text "python3" "555") = Some 555 /\ start_ticks (stat_text "show host" "555") = Some 0.
Proof. split; vm_compute; reflexivity. Qed.
