(* ===== verification/Timing.v ===== *)
(** * Timing plans (backend/timing.py)

    The dispatch time of an event whose path has a fixed latency and a jitter,
    on unsigned 64-bit nanoseconds. *)

From S2P Require Import Prelude PyStr PyFloat PyVal PyFacts.

#[local] Open Scope string_scope.
#[local] Open Scope list_scope.
#[local] Open Scope Z_scope.

Definition MAX_U64 : Z := Z.shiftl 1 64 - 1.

Definition _u64 (value : pyval) (name : string) : res Z :=
  parsed ← catch type_or_value (py_int value) (fun _ => Raise (ValueError (name +:+ " must be an integer")));
  if (parsed <? 0) || (MAX_U64 <? parsed)
  then Raise (ValueError (name +:+ " must be between 0 and " +:+ dec MAX_U64))
  else Ok parsed.

Record plan := {
  now_ns : Z; target_ns : Z; dispatch : Z; reserve : Z; late : bool; timestamped : bool;
  fixed_ns : Z; jitter_ns : Z; lookahead_ns : Z; margin : Z;
}.

Definition make_plan (now target fixed jitter lookahead margin : Z) (timestamped : bool) : plan :=
  let jitter_margin := Z.min MAX_U64 (jitter * margin) in
  let path_requirement := Z.min MAX_U64 (fixed + jitter_margin) in
  let reserve := Z.max path_requirement lookahead in
  let dispatch := if reserve <? target then target - reserve else 0 in
  {| now_ns := now; target_ns := target; dispatch := dispatch; reserve := reserve;
     late := dispatch <? now; timestamped := timestamped; fixed_ns := fixed; jitter_ns := jitter;
     lookahead_ns := lookahead; margin := margin |}.

Definition plan_dict (p : plan) : pydict :=
  [("nowNs", VInt p.(now_ns)); ("targetNs", VInt p.(target_ns)); ("dispatchNs", VInt p.(dispatch));
   ("reserveNs", VInt p.(reserve)); ("late", VBool p.(late)); ("timestamped", VBool p.(timestamped));
   ("profile", VDict [("fixedLatencyNs", VInt p.(fixed_ns)); ("jitterNs", VInt p.(jitter_ns));
                      ("minimumLookaheadNs", VInt p.(lookahead_ns));
                      ("jitterMarginMultiplier", VInt p.(margin))])].

Definition read_plan (data : pydict) : res plan :=
  now ← _u64 (dget_or data "nowNs" (VInt 0)) "nowNs";
  target ← _u64 (dget_none data "targetNs") "targetNs";
  fixed ← _u64 (dget_or data "fixedLatencyNs" (VInt 0)) "fixedLatencyNs";
  jitter ← _u64 (dget_or data "jitterNs" (VInt 0)) "jitterNs";
  lookahead ← _u64 (dget_or data "minimumLookaheadNs" (VInt 0)) "minimumLookaheadNs";
  margin ← py_int (dget_or data "jitterMarginMultiplier" (VInt 2));
  if (margin <? 0) || (16 <? margin)
  then Raise (ValueError "jitterMarginMultiplier must be between 0 and 16")
  else Ok (make_plan now target fixed jitter lookahead margin
             (truthy (dget_or data "timestamped" (VBool true)))).

Definition timing_plan (data : pydict) : res pydict := p ← read_plan data; Ok (plan_dict p).

(** ** Properties *)

Lemma u64_ok value name z : _u64 value name = Ok z -> py_int value = Ok z /\ 0 <= z <= MAX_U64.
Proof.
  unfold _u64. intros (p & H & H')%bind_ok. inv_case H'. pyinv. subst.
  apply catch_ok in H as [?|(? & ? & ? & ?)]; [|discriminate]. split; [done|lia].
Qed.

Lemma read_plan_ok data p : read_plan data = Ok p ->
  exists now target fixed jitter lookahead margin ts,
    p = make_plan now target fixed jitter lookahead margin ts
    /\ 0 <= now <= MAX_U64 /\ 0 <= target <= MAX_U64 /\ 0 <= fixed <= MAX_U64
    /\ 0 <= jitter <= MAX_U64 /\ 0 <= lookahead <= MAX_U64 /\ 0 <= margin <= 16.
Proof.
  unfold read_plan. intros H. pyinv. inv_case H. pyinv.
  repeat match goal with Hu : _u64 _ _ = Ok _ |- _ => apply u64_ok in Hu as [_ Hu] end.
  do 7 eexists. split; [by symmetry|]. lia.
Qed.

(** C40: an accepted timing plan stays inside unsigned 64 bits, never dispatches after its target, keeps
    at least the requested lookahead in reserve, reserves the whole path time unless that saturates at
    the 64-bit maximum, dispatches exactly the reserve early whenever the target leaves room for it, and
    is late exactly when the clock has passed the dispatch time. *)
Theorem timing_plan_sound data p : read_plan data = Ok p ->
  0 <= p.(dispatch) <= p.(target_ns) /\ p.(target_ns) <= MAX_U64
  /\ 0 <= p.(reserve) <= MAX_U64 /\ p.(lookahead_ns) <= p.(reserve)
  /\ (p.(fixed_ns) + p.(jitter_ns) * p.(margin) <= p.(reserve) \/ p.(reserve) = MAX_U64)
  /\ (p.(reserve) <= p.(target_ns) -> p.(dispatch) + p.(reserve) = p.(target_ns))
  /\ (p.(target_ns) < p.(reserve) -> p.(dispatch) = 0)
  /\ (p.(late) = true <-> p.(dispatch) < p.(now_ns)).
Proof.
  intros (now & target & fixed & jitter & lookahead & margin & ts & -> & ?)%read_plan_ok.
  cbn. assert (0 <= jitter * margin) by nia.
  split_and!; try apply Z.ltb_lt; try (case_match; pyinv; lia); lia.
Qed.

Definition sample_request : pydict :=
  [("nowNs", VInt 9000); ("targetNs", VInt 10000); ("fixedLatencyNs", VInt 500); ("jitterNs", VStr "300")].

Lemma timing_plan_sound_witness :
  exists p, read_plan sample_request = Ok p
            /\ p.(dispatch) = 8900 /\ p.(late) = true
            /\ (p.(reserve) <= p.(target_ns) -> p.(dispatch) + p.(reserve) = p.(target_ns)).
Proof.
  eexists. split; [vm_compute; reflexivity|]. split; [reflexivity|]. split; [reflexivity|].
  apply (timing_plan_sound sample_request). vm_compute. reflexivity.
Defined.
