(* ===== verification/Compatibility.v ===== *)
(** * Show-state compatibility (backend/compatibility.py)

    Reading and migrating show-state documents without losing unknown fields,
    the compatibility report of two participants, and the resolution of show
    requirements against one participant without implicit coercion. *)

From S2P Require Import Prelude PyStr PyFloat PyVal PyFacts.

#[local] Open Scope string_scope.
#[local] Open Scope list_scope.
#[local] Open Scope Z_scope.

Definition SHOW_STATE_DOCUMENT_TYPE : string := "org.upp.show-state".
Definition SHOW_STATE_API_VERSION : Z := 1.
Definition SHOW_STATE_SCHEMA_VERSION : Z := 1.

(** [QUALITY_ORDER.get(quality)]. *)
Definition quality_score (quality : string) : option Z :=
  alookup [("direct", 100); ("equivalent", 95); ("acceptable", 80); ("degraded", 60); ("unavailable", 0)] quality.

(** ** Inspection and migration *)

Definition _as_int (value : pyval) (default : Z) : res Z :=
  catch type_or_value (py_int value) (fun _ => Ok default).

Definition compatibility_metadata (source_api_version : option Z) (migrations : list string) : pydict :=
  [("documentType", VStr SHOW_STATE_DOCUMENT_TYPE); ("schemaVersion", VInt SHOW_STATE_SCHEMA_VERSION);
   ("minimumReaderApiVersion", VInt SHOW_STATE_API_VERSION); ("unknownFieldsPreserved", VBool true)]
  ++ match source_api_version with
     | Some v => if v =? SHOW_STATE_API_VERSION then [] else [("sourceApiVersion", VInt v)]
     | None => []
     end
  ++ match migrations with [] => [] | _ => [("migrations", VList (map VStr migrations))] end.

(** How a document can be read. *)
Inductive reading :=
| NotAnObject
| WrongDocumentType (document_type : string) (incoming minimum : Z)
| ReaderTooOld (incoming minimum : Z)
| LegacyMigration (incoming minimum : Z)
| Exact (incoming minimum : Z)
| ForwardCompatible (incoming minimum : Z).

(** [d.get(k) if isinstance(d.get(k), dict) else {}]. *)
Definition sub_dict (d : pydict) (k : string) : pydict := as_dict (dget_none d k).

Definition classify (snapshot : pyval) : res reading :=
  match snapshot with
  | VDict d =>
      incoming ← _as_int (dget_or d "apiVersion" (VInt 0)) 0;
      let meta := sub_dict d "compatibility" in
      let declared := if 0 <? incoming then incoming else 1 in
      minimum ← _as_int (dget_or meta "minimumReaderApiVersion" (VInt declared)) declared;
      let document_type := py_str (dget_or meta "documentType" (VStr SHOW_STATE_DOCUMENT_TYPE)) in
      Ok (if negb (String.eqb document_type SHOW_STATE_DOCUMENT_TYPE)
          then WrongDocumentType document_type incoming minimum
          else if incoming <=? 0 then LegacyMigration incoming minimum
          else if SHOW_STATE_API_VERSION <? minimum then ReaderTooOld incoming minimum
          else if incoming =? SHOW_STATE_API_VERSION then Exact incoming minimum
          else if SHOW_STATE_API_VERSION <? incoming then ForwardCompatible incoming minimum
          else LegacyMigration incoming minimum)
  | _ => Ok NotAnObject
  end.

Definition readable (r : reading) : bool :=
  match r with NotAnObject | WrongDocumentType _ _ _ | ReaderTooOld _ _ => false | _ => true end.

Definition too_old_reason (minimum : Z) : string :=
  "document requires reader API " +:+ dec minimum +:+ ", this core supports " +:+ dec SHOW_STATE_API_VERSION.

Definition reading_dict (r : reading) : pydict :=
  let versions i m := [("incomingApiVersion", VInt i); ("minimumReaderApiVersion", VInt m);
                       ("readerApiVersion", VInt SHOW_STATE_API_VERSION)] in
  let refused mode reason := [("readable", VBool false); ("mode", VStr mode); ("reason", VStr reason)] in
  let accepted mode i m := [("readable", VBool true); ("mode", VStr mode)] ++ versions i m
                           ++ [("preserveUnknown", VBool true)] in
  match r with
  | NotAnObject => refused "invalid" "show state must be an object"
                   ++ [("readerApiVersion", VInt SHOW_STATE_API_VERSION)]
  | WrongDocumentType t i m =>
      refused "wrong-document-type" ("unsupported document type: " +:+ t) ++ versions i m
  | ReaderTooOld i m => refused "reader-too-old" (too_old_reason m) ++ versions i m
  | LegacyMigration i m => accepted "legacy-migration" i m
  | Exact i m => accepted "exact" i m
  | ForwardCompatible i m => accepted "forward-compatible" i m
  end.

Definition inspect_show_state (snapshot : pyval) : res pydict := r ← classify snapshot; Ok (reading_dict r).

(** [if old in section and new not in section: section[new] = section[old]],
    with the note it leaves. *)
Definition rename_field (section old new : string) (acc : pydict * list string) : pydict * list string :=
  let '(d, notes) := acc in
  if dhas d old && negb (dhas d new)
  then (dset d new (dget_none d old),
        notes ++ [section +:+ "." +:+ old +:+ "->" +:+ section +:+ "." +:+ new])
  else acc.

(** One section of a legacy document: its renamed fields, stored back unless empty. *)
Definition migrate_section (section : string) (renames : list (string * string))
    (acc : pydict * list string) : pydict * list string :=
  let '(source, notes) := acc in
  let '(d, notes) := fold_left (fun a r => rename_field section (fst r) (snd r) a) renames
                       (sub_dict source section, notes) in
  (match d with [] => source | _ => dset source section (VDict d) end, notes).

Definition migrate_legacy (source : pydict) : pydict * list string :=
  migrate_section "audio" [("outputDeviceId", "deviceId")]
    (migrate_section "system" [("resourceCapacity", "capacity")]
       (migrate_section "transport" [("tempo", "bpm"); ("positionSeconds", "seconds")] (source, []))).

(** The compatibility record a migrated document carries. *)
Definition migrated_meta (source : pydict) (incoming : Z) (migrations : list string) : res pydict :=
  let existing := sub_dict source "compatibility" in
  let meta := dmerge existing (compatibility_metadata (Some incoming) migrations) in
  if SHOW_STATE_API_VERSION <? incoming then
    declared ← _as_int (dget_or existing "minimumReaderApiVersion" (VInt SHOW_STATE_API_VERSION))
                 SHOW_STATE_API_VERSION;
    Ok (dset (dset meta "minimumReaderApiVersion" (VInt (Z.min declared SHOW_STATE_API_VERSION)))
          "sourceApiVersion" (VInt incoming))
  else Ok meta.

Definition refusal (r : reading) : string :=
  py_str (dget_or (reading_dict r) "reason" (VStr "show state is not readable by this core")).

(** The normalized document and the report. *)
Definition migrate_show_state (snapshot : pyval) : res (pydict * pydict) :=
  r ← classify snapshot;
  if negb (readable r) then Raise (ValueError (refusal r))
  else
    let source := as_dict snapshot in
    incoming ← _as_int (dget_or source "apiVersion" (VInt 0)) 0;
    let '(source, migrations) := if incoming <=? 0 then migrate_legacy source else (source, []) in
    let source := dset source "apiVersion" (VInt SHOW_STATE_API_VERSION) in
    meta ← migrated_meta source incoming migrations;
    Ok (dset source "compatibility" (VDict meta),
        dset (dset (reading_dict r) "migrations" (VList (map VStr migrations)))
          "normalizedApiVersion" (VInt SHOW_STATE_API_VERSION)).

Fixpoint merge_preserving_unknown (base current : pyval) {struct current} : pyval :=
  match base, current with
  | VDict b, VDict c =>
      VDict ((fix overlay (merged items : pydict) {struct items} : pydict :=
                match items with
                | [] => merged
                | (key, value) :: rest =>
                    overlay (dset merged key
                               (match dget merged key with
                                | Some old => if is_dict old && is_dict value
                                              then merge_preserving_unknown old value else value
                                | None => value
                                end)) rest
                end) b c)
  | _, _ => current
  end.

(** ** Participants *)

(** [sorted(set(l))]. *)
Definition sorted_set (l : list string) : list string := sort_strings (remove_dups l).

Fixpoint insert_Z (z : Z) (l : list Z) : list Z :=
  match l with
  | [] => [z]
  | y :: l' => if z <=? y then z :: l else y :: insert_Z z l'
  end.
Definition sorted_versions (l : list Z) : list Z := fold_right insert_Z [] (remove_dups l).

Definition _capability_set (values : pyval) : res (list string) :=
  items ← (py_iter values : res (list pyval));
  Ok (List.filter (fun s => negb (String.eqb s "")) (map (fun v => strip (py_str v)) items)).

Fixpoint version_ints (values : list pyval) : res (list Z) :=
  match values with
  | [] => Ok []
  | v :: rest =>
      match py_int v with
      | Ok z => zs ← version_ints rest; Ok (if 0 <=? z then z :: zs else zs)
      | Raise e => if type_or_value e then version_ints rest else Raise e
      end
  end.

Definition _normalize_versions (values : pyval) : res (list Z) :=
  match values with
  | VList l => zs ← version_ints l; Ok (sorted_versions zs)
  | _ => Ok []
  end.

Record adapter := { a_raw : pydict; a_from : string; a_to : string; a_quality : string; a_score : Z }.

Definition adapter_dict (a : adapter) : pydict :=
  dmerge a.(a_raw) [("from", VStr a.(a_from)); ("to", VStr a.(a_to)); ("quality", VStr a.(a_quality));
                    ("qualityScore", VInt a.(a_score)); ("explicit", VBool true)].

(** The known quality a text names, or the given default, with its score. *)
Definition known_quality (text default : string) : string * Z :=
  match quality_score text with
  | Some s => (text, s)
  | None => (default, match quality_score default with Some s => s | None => 0 end)
  end.

Definition adapter_of (raw : pydict) : option adapter :=
  let source := strip (py_str (dget_or raw "from" (VStr ""))) in
  let target := strip (py_str (dget_or raw "to" (VStr ""))) in
  if String.eqb source "" || String.eqb target "" then None
  else
    let '(q, s) := known_quality (lower (strip (py_str (dget_or raw "quality" (VStr "acceptable"))))) "acceptable" in
    Some {| a_raw := raw; a_from := source; a_to := target; a_quality := q; a_score := s |}.

Definition _normalize_adapters (values : pyval) : list adapter :=
  match values with
  | VList l => omap (M:=list) (fun v => match v with VDict d => adapter_of d | _ => None end) l
  | _ => []
  end.

Record participant := {
  p_raw : pydict;
  p_id : string;
  apiVersions : list Z;
  schemaVersions : list (string * list Z);
  capabilities : list string;
  requiredCapabilities : list string;
  adapters : list adapter;
  preservesUnknown : bool;
  offlineCapable : bool;
}.

Definition schema_step (schemas : list (string * list Z)) (kv : string * pyval) : res (list (string * list Z)) :=
  vs ← _normalize_versions (snd kv);
  Ok (match vs with [] => schemas | _ => aput schemas (fst kv) vs end).

(** [schemas.setdefault(k, v)]. *)
Definition set_default {A} (l : list (string * A)) (k : string) (a : A) : list (string * A) :=
  match alookup l k with Some _ => l | None => l ++ [(k, a)] end.

Definition normalize_participant (raw : pydict) : res participant :=
  versions ← _normalize_versions (dget_none raw "apiVersions");
  schemas ← fold_res schema_step (sub_dict raw "schemaVersions") [];
  caps ← _capability_set (py_or (dget_none raw "capabilities") (VList []));
  required ← _capability_set (py_or (dget_none raw "requiredCapabilities") (VList []));
  Ok {| p_raw := raw;
        p_id := str_or (slice 128 (strip (py_str (dget_or raw "id" (VStr "participant"))))) "participant";
        apiVersions := match versions with [] => [SHOW_STATE_API_VERSION] | _ => versions end;
        schemaVersions := set_default schemas SHOW_STATE_DOCUMENT_TYPE [SHOW_STATE_SCHEMA_VERSION];
        capabilities := sorted_set caps; requiredCapabilities := sorted_set required;
        adapters := _normalize_adapters (dget_none raw "adapters");
        preservesUnknown := truthy (dget_or raw "preservesUnknown" (VBool true));
        offlineCapable := truthy (dget_or raw "offlineCapable" (VBool true)) |}.

Definition text_list (l : list string) : pyval := VList (map VStr l).
Definition int_list (l : list Z) : pyval := VList (map VInt l).

Definition participant_dict (p : participant) : pydict :=
  dmerge p.(p_raw)
    [("id", VStr p.(p_id)); ("apiVersions", int_list p.(apiVersions));
     ("schemaVersions", VDict (map (fun kv => (fst kv, int_list (snd kv))) p.(schemaVersions)));
     ("capabilities", text_list p.(capabilities)); ("requiredCapabilities", text_list p.(requiredCapabilities));
     ("adapters", VList (map (fun a => VDict (adapter_dict a)) p.(adapters)));
     ("preservesUnknown", VBool p.(preservesUnknown)); ("offlineCapable", VBool p.(offlineCapable))].

(** ** The report of two participants *)

Definition has (l : list string) (s : string) : bool := bool_decide (s ∈ l).

(** [sorted(set(a) & set(b))] and [sorted(set(a) - set(b))]. *)
Definition common_strings (a b : list string) : list string := sorted_set (List.filter (has b) a).
Definition without (a b : list string) : list string := sorted_set (List.filter (fun s => negb (has b s)) a).
Definition common_versions (a b : list Z) : list Z :=
  sorted_versions (List.filter (fun z => bool_decide (z ∈ b)) a).

Record schema_match := { s_name : string; s_common : list Z; s_local : list Z; s_remote : list Z }.

Definition schema_matches (l r : participant) : list schema_match :=
  map (fun name =>
         let vl := default [] (alookup l.(schemaVersions) name) in
         let vr := default [] (alookup r.(schemaVersions) name) in
         {| s_name := name; s_common := common_versions vl vr; s_local := vl; s_remote := vr |})
      (sorted_set (map fst l.(schemaVersions) ++ map fst r.(schemaVersions))).

Inductive direction := LocalToRemote | RemoteToLocal.

(** The direction in which an adapter bridges the two capability sets. *)
Definition bridge (l r : participant) (a : adapter) : option direction :=
  if has l.(capabilities) a.(a_from) && has r.(capabilities) a.(a_to) then Some LocalToRemote
  else if has r.(capabilities) a.(a_from) && has l.(capabilities) a.(a_to) then Some RemoteToLocal
  else None.

Definition translations (l r : participant) : list (adapter * direction) :=
  omap (M:=list) (fun a => match bridge l r a with Some d => Some (a, d) | None => None end)
    (l.(adapters) ++ r.(adapters)).

Definition translated_local (ts : list (adapter * direction)) : list string :=
  map (fun t => match snd t with LocalToRemote => (fst t).(a_from) | RemoteToLocal => (fst t).(a_to) end) ts.
Definition translated_remote (ts : list (adapter * direction)) : list string :=
  map (fun t => match snd t with LocalToRemote => (fst t).(a_to) | RemoteToLocal => (fst t).(a_from) end) ts.

Record comparison := {
  c_local : participant;
  c_remote : participant;
  c_common_api : list Z;
  c_schemas : list schema_match;
  c_direct : list string;
  c_translations : list (adapter * direction);
  c_missing_for_local : list string;
  c_missing_for_remote : list string;
  c_local_only : list string;
  c_remote_only : list string;
}.

Definition compare (l r : participant) : comparison :=
  let ts := translations l r in
  {| c_local := l; c_remote := r; c_common_api := common_versions l.(apiVersions) r.(apiVersions);
     c_schemas := schema_matches l r; c_direct := common_strings l.(capabilities) r.(capabilities);
     c_translations := ts;
     c_missing_for_local := without l.(requiredCapabilities) (r.(capabilities) ++ translated_local ts);
     c_missing_for_remote := without r.(requiredCapabilities) (l.(capabilities) ++ translated_remote ts);
     c_local_only := without l.(capabilities) (r.(capabilities) ++ translated_local ts);
     c_remote_only := without r.(capabilities) (l.(capabilities) ++ translated_remote ts) |}.


(** The common versions of the show-state schema. *)
Definition show_schema (c : comparison) : list Z :=
  match List.find (fun m => String.eqb m.(s_name) SHOW_STATE_DOCUMENT_TYPE) c.(c_schemas) with
  | Some m => m.(s_common)
  | None => []
  end.


Definition preserves_both (c : comparison) : bool :=
  c.(c_local).(preservesUnknown) && c.(c_remote).(preservesUnknown).

Definition blockers (c : comparison) : list string :=
  when (null c.(c_common_api)) "no common API version"
  ++ when (null (show_schema c)) "no common show-state schema version"
  ++ when (negb (null c.(c_missing_for_local)))
       ("remote lacks local required capabilities: " +:+ join ", " c.(c_missing_for_local))
  ++ when (negb (null c.(c_missing_for_remote)))
       ("local lacks remote required capabilities: " +:+ join ", " c.(c_missing_for_remote))
  ++ when ((negb (null c.(c_local_only)) || negb (null c.(c_remote_only))) && negb (preserves_both c))
       "unknown capability preservation is not supported by both participants".

Definition translation_scores (c : comparison) : list Z := map (fun t => (fst t).(a_score)) c.(c_translations).

(** [round(sum(qualities) / len(qualities), 1)], or all or nothing when there is none. *)
Definition capability_quality (c : comparison) : float :=
  let qualities := map (fun _ => 100) c.(c_direct) ++ translation_scores c in
  match qualities with
  | [] => if null c.(c_local).(capabilities) && null c.(c_remote).(capabilities)
          then float_of_Z 100 else float_of_Z 0
  | _ => fround 1 (fdiv (float_of_Z (fold_right Z.add 0 qualities)) (float_of_Z (Z.of_nat (length qualities))))
  end.

(** [min(scores, default=100)]. *)
Definition min_score (l : list Z) : Z :=
  match l with [] => 100 | z :: l' => fold_left Z.min l' z end.

Definition report_grade (c : comparison) : string :=
  if negb (null (blockers c)) then "blocked"
  else if negb (null c.(c_translations)) then
    let m := min_score (translation_scores c) in
    if 95 <=? m then "equivalent" else if 80 <=? m then "acceptable" else "degraded"
  else if negb (null c.(c_local_only)) || negb (null c.(c_remote_only)) then "partial-preserved"
  else "direct".

Definition compatible (c : comparison) : bool := null (blockers c).

Definition selected (l : list Z) : pyval := match last l with Some z => VInt z | None => VNone end.

Definition schema_dict (m : schema_match) : string * pyval :=
  (m.(s_name), VDict [("selected", selected m.(s_common)); ("common", int_list m.(s_common));
                      ("local", int_list m.(s_local)); ("remote", int_list m.(s_remote))]).

Definition translation_dict (t : adapter * direction) : pyval :=
  VDict (dset (adapter_dict (fst t)) "direction"
           (VStr (match snd t with LocalToRemote => "local-to-remote" | RemoteToLocal => "remote-to-local" end))).

Definition comparison_dict (c : comparison) : pydict :=
  [("compatible", VBool (compatible c)); ("grade", VStr (report_grade c));
   ("selectedApiVersion", selected c.(c_common_api)); ("commonApiVersions", int_list c.(c_common_api));
   ("schemas", VDict (map schema_dict c.(c_schemas))); ("directCapabilities", text_list c.(c_direct));
   ("translations", VList (map translation_dict c.(c_translations)));
   ("localOnlyPreserved", text_list c.(c_local_only)); ("remoteOnlyPreserved", text_list c.(c_remote_only));
   ("missingForLocal", text_list c.(c_missing_for_local));
   ("missingForRemote", text_list c.(c_missing_for_remote));
   ("capabilityQuality", VFloat (capability_quality c)); ("unknownPreservation", VBool (preserves_both c));
   ("offlineCompatible", VBool (c.(c_local).(offlineCapable) && c.(c_remote).(offlineCapable)));
   ("blockers", text_list (blockers c)); ("local", VDict (participant_dict c.(c_local)));
   ("remote", VDict (participant_dict c.(c_remote)))].

Definition compatibility_report (local_data remote_data : pydict) : res pydict :=
  l ← normalize_participant local_data;
  r ← normalize_participant remote_data;
  Ok (comparison_dict (compare l r)).

(** ** Resolution of requirements *)

Inductive choice :=
| Direct (capability : string)
| Adapter (capability : string) (by_ : adapter)
| Fallback (capability quality : string) (score : Z).

Definition choice_score (c : choice) : Z :=
  match c with Direct _ => 100 | Adapter _ a => a.(a_score) | Fallback _ _ s => s end.

Record requirement := { q_id : string; q_preferred : string; q_required : bool; q_alternatives : list pyval }.

Definition read_requirement (raw : pydict) : requirement :=
  {| q_id := strip (py_str (py_or (py_or (dget_none raw "id") (dget_none raw "preferred")) (VStr "requirement")));
     q_preferred := strip (py_str (dget_or raw "preferred" (VStr "")));
     q_required := truthy (dget_or raw "required" (VBool true));
     q_alternatives := match dget_none raw "alternatives" with VList l => l | _ => [] end |}.

(** The capability an adapter bridges to the preferred one, in either direction. *)
Definition adapter_choice (caps : list string) (preferred : string) (a : adapter) : option choice :=
  if String.eqb a.(a_to) preferred && has caps a.(a_from) then Some (Adapter a.(a_from) a)
  else if String.eqb a.(a_from) preferred && has caps a.(a_to) then Some (Adapter a.(a_to) a)
  else None.

Definition fallback_choice (caps : list string) (alternative : pyval) : option choice :=
  match alternative with
  | VDict d =>
      let capability := strip (py_str (dget_or d "capability" (VStr ""))) in
      if has caps capability then
        let '(q, s) := known_quality (lower (py_str (dget_or d "quality" (VStr "degraded")))) "degraded" in
        Some (Fallback capability q s)
      else None
  | _ => None
  end.

(** The first [Some] of [f] on the list. *)
Fixpoint first_some {A B} (f : A -> option B) (l : list A) : option B :=
  match l with
  | [] => None
  | a :: l' => match f a with Some b => Some b | None => first_some f l' end
  end.

Definition choose (p : participant) (q : requirement) : option choice :=
  let named := negb (String.eqb q.(q_preferred) "") in
  if named && has p.(capabilities) q.(q_preferred) then Some (Direct q.(q_preferred))
  else match (if named then first_some (adapter_choice p.(capabilities) q.(q_preferred)) p.(adapters) else None) with
       | Some c => Some c
       | None => first_some (fallback_choice p.(capabilities)) q.(q_alternatives)
       end.

Definition choice_dict (c : choice) : pydict :=
  match c with
  | Direct k => [("capability", VStr k); ("mode", VStr "direct"); ("quality", VStr "direct"); ("qualityScore", VInt 100)]
  | Adapter k a => [("capability", VStr k); ("mode", VStr "adapter"); ("adapter", VDict (adapter_dict a));
                    ("quality", VStr a.(a_quality)); ("qualityScore", VInt a.(a_score))]
  | Fallback k q s => [("capability", VStr k); ("mode", VStr "fallback"); ("quality", VStr q); ("qualityScore", VInt s)]
  end.

Definition decision_dict (qc : requirement * option choice) : pydict :=
  let '(q, c) := qc in
  let head status := [("id", VStr q.(q_id)); ("preferred", VStr q.(q_preferred));
                      ("required", VBool q.(q_required)); ("status", status)] in
  match c with
  | Some c => dmerge (head (dget_none (choice_dict c) "mode")) (choice_dict c)
  | None =>
      head (VStr (if q.(q_required) then "blocked" else "optional-unavailable"))
      ++ [("quality", VStr (if q.(q_required) then "unavailable" else "optional"));
          ("qualityScore", VInt (if q.(q_required) then 0 else 100));
          ("reason", VStr "no exact capability, explicit adapter, or declared fallback available")]
  end.

(** Requirements with their choices. *)
Definition resolve (p : participant) (requirements : list pyval) : list (requirement * option choice) :=
  omap (M:=list) (fun v => match v with
                           | VDict d => let q := read_requirement d in Some (q, choose p q)
                           | _ => None
                           end) requirements.

Definition is_blocked (qc : requirement * option choice) : bool :=
  (fst qc).(q_required) && match snd qc with None => true | Some _ => false end.

Definition blocked_count (l : list (requirement * option choice)) : Z :=
  Z.of_nat (length (List.filter is_blocked l)).

Definition minimum_score (l : list (requirement * option choice)) : Z :=
  fold_left (fun m qc => if (fst qc).(q_required)
                         then match snd qc with Some c => Z.min m (choice_score c) | None => 0 end
                         else m) l 100.

Definition resolution_grade (l : list (requirement * option choice)) : string :=
  let m := minimum_score l in
  if negb (blocked_count l =? 0) then "blocked"
  else if 100 <=? m then "direct" else if 95 <=? m then "equivalent"
  else if 80 <=? m then "acceptable" else "degraded".

Definition resolution_dict (p : participant) (l : list (requirement * option choice)) : pydict :=
  [("compatible", VBool (blocked_count l =? 0)); ("grade", VStr (resolution_grade l));
   ("minimumQualityScore", VInt (minimum_score l)); ("blockedRequirements", VInt (blocked_count l));
   ("requirements", VList (map (fun qc => VDict (decision_dict qc)) l));
   ("participant", VDict (participant_dict p))].

Definition resolve_requirements (participant_data : pydict) (requirements : list pyval) : res pydict :=
  p ← normalize_participant participant_data;
  Ok (resolution_dict p (resolve p requirements)).

(** ** Requirements of a show *)

(** [d.get(k) or {}] of a value that must have [get]. *)
Definition section (v : pyval) (k : string) : res pyval := s ← vget v k VNone; Ok (py_or s (VDict [])).

(** [any(str(item.get("deviceId", "")).strip() for item in l if isinstance(item, dict))]. *)
Definition any_device (v : pyval) : bool :=
  match v with
  | VList l => existsb (fun i => match i with
                                 | VDict d => negb (String.eqb (strip (py_str (dget_or d "deviceId" (VStr "")))) "")
                                 | _ => false
                                 end) l
  | _ => false
  end.

Definition timing_of (latency jitter : Z) (timestamped : bool) : string * pyval :=
  ("timing", VDict [("maxLatencyMs", VFloat (float_of_Z latency)); ("maxJitterMs", VFloat (float_of_Z jitter));
                    ("timestamped", VBool timestamped)]).

Definition need (id preferred : string) (required : bool) (domain : string) (rest : pydict) : pyval :=
  VDict ([("id", VStr id); ("preferred", VStr preferred); ("required", VBool required);
          ("domain", VStr domain)] ++ rest).

Definition alternative (capability quality : string) : pyval :=
  VDict [("capability", VStr capability); ("quality", VStr quality)].

Definition lighting_need (lighting : pyval) : res (list pyval) :=
  target ← vget lighting "target" (VStr "");
  if String.eqb (strip (py_str target)) "" then Ok []
  else
    protocol ← vget lighting "protocol" (VStr "artnet");
    let sacn := String.eqb (lower (strip (py_str protocol))) "sacn" in
    let pick (b : bool) := if b then "lighting.sacn.send" else "lighting.artnet.send" in
    Ok [need "lighting-output" (pick sacn) true "lighting"
          [("patchKey", VStr "lighting.primary");
           ("alternatives", VList [alternative (pick (negb sacn)) "equivalent";
                                   alternative "lighting.schedule" "acceptable";
                                   alternative "lighting.state" "degraded"]);
           timing_of 100 25 false]].

Definition show_requirements_from_snapshot (snapshot : pydict) : res (list pyval) :=
  let audio := py_or (dget_none snapshot "audio") (VDict []) in
  lighting ← section (py_or (dget_none snapshot "lighting") (VDict [])) "network";
  let midi := py_or (dget_none snapshot "midi") (VDict []) in
  outputs ← vget audio "outputs" VNone;
  inputs ← vget audio "inputs" VNone;
  bindings ← vget midi "bindings" VNone;
  lights ← lighting_need lighting;
  Ok ([need "transport" "audio.transport" true "audio" [timing_of 20 5 true];
       need "authority-fence" "authority.fence" true "core" []]
      ++ (if any_device outputs
          then [need "audio-output" "audio.output.multi" true "audio"
                  [("patchKey", VStr "audio.foh"); ("alternatives", VList [alternative "audio.mix" "acceptable"]);
                   timing_of 30 5 false]] else [])
      ++ (if any_device inputs
          then [need "live-audio-input" "audio.input.capture" true "audio"
                  [("patchKey", VStr "audio.live-input"); timing_of 15 3 false]] else [])
      ++ (if is_dict bindings && truthy bindings
          then [need "mapped-midi" "midi.read" true "midi"
                  [("patchKey", VStr "midi.performance"); timing_of 20 5 true]] else [])
      ++ lights
      ++ [need "personal-monitoring" "audio.monitor" false "audio" [("patchKey", VStr "audio.monitor")]]).

(** ** Merging *)

(** The entry a merge leaves for a key of the overlay. *)
Definition merged_entry (old : option pyval) (value : pyval) : pyval :=
  match old with
  | Some o => if is_dict o && is_dict value then merge_preserving_unknown o value else value
  | None => value
  end.

Fixpoint overlay (merged items : pydict) : pydict :=
  match items with
  | [] => merged
  | (key, value) :: rest => overlay (dset merged key (merged_entry (dget merged key) value)) rest
  end.

Lemma merge_dicts b c : merge_preserving_unknown (VDict b) (VDict c) = VDict (overlay b c).
Proof.
  reflexivity.
Qed.

Lemma overlay_get items merged k : NoDup (dkeys items) ->
  dget (overlay merged items) k
  = match dget items k with Some v => Some (merged_entry (dget merged k) v) | None => dget merged k end.
Proof.
  revert merged. induction items as [|[k' v'] items IH]; intros merged; cbn; [done|].
  intros [Hn Hd]%NoDup_cons. rewrite IH by done. destruct (String.eqb k k') eqn:E.
  - apply String.eqb_eq in E as ->. apply dget_None_keys in Hn. by rewrite Hn, dget_dset_eq.
  - apply String.eqb_neq in E. by rewrite dget_dset_ne.
Qed.

(** The value at a path of keys. *)
Fixpoint at_path (v : pyval) (path : list string) : option pyval :=
  match path with
  | [] => Some v
  | k :: path' => match v with
                  | VDict d => match dget d k with Some w => at_path w path' | None => None end
                  | _ => None
                  end
  end.

(** Every dict inside the value has distinct keys. *)
Fixpoint distinct_keys (v : pyval) : Prop :=
  match v with
  | VDict d => NoDup (dkeys d) /\ (fix go (d : pydict) : Prop :=
                 match d with [] => True | (_, w) :: d' => distinct_keys w /\ go d' end) d
  | VList l => (fix go (l : list pyval) : Prop :=
                  match l with [] => True | w :: l' => distinct_keys w /\ go l' end) l
  | _ => True
  end.

Lemma distinct_keys_get d k w : distinct_keys (VDict d) -> dget d k = Some w -> distinct_keys w.
Proof.
  cbn. intros [_ H]. revert H. induction d as [|[k' v] d IH]; cbn; [done|].
  intros [Hv Hd]. destruct (String.eqb k k'); [by intros [= <-]|]. by apply IH.
Qed.

(** The overlay says nothing about a path: some object on the way has no entry for it. *)
Fixpoint untouched (c : pyval) (path : list string) : bool :=
  match c, path with
  | VDict d, k :: path' => match dget d k with Some w => untouched w path' | None => true end
  | _, _ => false
  end.

Lemma merge_not_dict b c : is_dict b && is_dict c = false -> merge_preserving_unknown b c = c.
Proof. by destruct b, c. Qed.

Lemma merge_leaf b c path leaf : distinct_keys c -> is_dict leaf = false ->
  at_path c path = Some leaf -> at_path (merge_preserving_unknown b c) path = Some leaf.
Proof.
  revert b c. induction path as [|k path IH]; intros b c Hc Hl; cbn.
  - intros [= ->]. rewrite merge_not_dict; [done|]. by rewrite Hl, andb_false_r.
  - destruct c as [| | | | | |d]; try done. destruct (dget d k) as [w|] eqn:E; [|done].
    intros Hw. destruct (is_dict b) eqn:Eb.
    + destruct b as [| | | | | |db]; try done. rewrite merge_dicts. cbn.
      rewrite overlay_get by apply Hc. rewrite E. unfold merged_entry.
      pose proof (distinct_keys_get _ _ _ Hc E).
      destruct (dget db k) as [o|]; [|done]. destruct (is_dict o && is_dict w); [|done]. by apply IH.
    + rewrite merge_not_dict by (by rewrite Eb). cbn. by rewrite E.
Qed.

Lemma untouched_absent c path : untouched c path = true -> at_path c path = None.
Proof.
  revert c. induction path as [|k path IH]; intros c; [by destruct c|].
  destruct c as [| | | | | |d]; try done. cbn. destruct (dget d k); [apply IH|done].
Qed.

Lemma untouched_dict c path : untouched c path = true -> is_dict c = true.
Proof. by destruct c, path. Qed.

Lemma merge_untouched b c path : distinct_keys c -> is_dict b = true -> untouched c path = true ->
  at_path (merge_preserving_unknown b c) path = at_path b path.
Proof.
  revert b c. induction path as [|k path IH]; intros b c Hc Hb Hu.
  - by destruct c.
  - destruct c as [| | | | | |d]; try done. destruct b as [| | | | | |db]; try done.
    rewrite merge_dicts. cbn in *. rewrite overlay_get by apply Hc.
    destruct (dget d k) as [w|] eqn:E; [|done]. pose proof (distinct_keys_get _ _ _ Hc E) as Hw.
    pose proof (untouched_absent _ _ Hu) as Ha. pose proof (untouched_dict _ _ Hu) as Hd.
    unfold merged_entry. destruct (dget db k) as [o|]; [|done]. rewrite Hd.
    destruct (is_dict o) eqn:Eo; cbn; [by apply IH|].
    rewrite Ha. destruct path as [|k' path]; [by destruct w|]. by destruct o.
Qed.

(** Overlaying a current document on a base document loses nothing and invents nothing: wherever the
    overlay is silent, at any depth, the merged document has exactly what the base has there; every value
    of the overlay that is not itself an object is found unchanged at its path; and merging the same
    overlay again has no further effect on either kind of path. *)
Theorem merge_preserves_unknown b c path :
  distinct_keys (VDict c) ->
  let merged := merge_preserving_unknown (VDict b) (VDict c) in
  (untouched (VDict c) path = true -> at_path merged path = at_path (VDict b) path)
  /\ (forall leaf, at_path (VDict c) path = Some leaf -> is_dict leaf = false ->
        at_path merged path = Some leaf)
  /\ (untouched (VDict c) path = true ->
        at_path (merge_preserving_unknown merged (VDict c)) path = at_path merged path).
Proof.
  intros Hc. cbn zeta. split_and!.
  - by apply merge_untouched.
  - intros leaf Hp Hl. by apply merge_leaf.
  - apply merge_untouched; [done|]. by rewrite merge_dicts.
Qed.

Lemma merge_preserves_unknown_witness :
  let b := [("lighting", VDict [("target", VStr "a"); ("futureField", VInt 9)]); ("x", VInt 1)] in
  let c := [("lighting", VDict [("target", VStr "b")])] in
  at_path (merge_preserving_unknown (VDict b) (VDict c)) ["lighting"; "futureField"] = Some (VInt 9)
  /\ at_path (merge_preserving_unknown (VDict b) (VDict c)) ["lighting"; "target"] = Some (VStr "b").
Proof.
  set (b := [("lighting", _); _]). set (c := [("lighting", _)]).
  assert (Hc : distinct_keys (VDict c)).
  { cbn. split_and!; try exact I; repeat constructor; rewrite ?elem_of_nil; try (intros H; inversion H). }
  split.
  - exact (proj1 (merge_preserves_unknown b c ["lighting"; "futureField"] Hc) eq_refl).
  - apply (proj1 (proj2 (merge_preserves_unknown b c ["lighting"; "target"] Hc)) (VStr "b") eq_refl eq_refl).
Defined.

(** ** Migration *)

Lemma as_int_VInt z d : _as_int (VInt z) d = Ok z.
Proof. done. Qed.

Lemma metadata_type v n : dget (compatibility_metadata v n) "documentType" = Some (VStr SHOW_STATE_DOCUMENT_TYPE).
Proof. done. Qed.

Lemma metadata_nodup v n : NoDup (dkeys (compatibility_metadata v n)).
Proof.
  unfold compatibility_metadata.
  destruct v as [v|]; [destruct (v =? SHOW_STATE_API_VERSION)|]; destruct n; nodup_keys.
Qed.

Lemma migrated_meta_reads source incoming notes meta : migrated_meta source incoming notes = Ok meta ->
  dget_or meta "documentType" (VStr SHOW_STATE_DOCUMENT_TYPE) = VStr SHOW_STATE_DOCUMENT_TYPE
  /\ exists m, dget_or meta "minimumReaderApiVersion" (VInt 1) = VInt m /\ m <= 1.
Proof.
  assert (Hm : forall k v d, dget (compatibility_metadata (Some incoming) notes) k = Some v ->
    dget_or (dmerge (sub_dict source "compatibility") (compatibility_metadata (Some incoming) notes)) k d = v).
  { intros k v d H. unfold dget_or. by rewrite dmerge_get, H by apply metadata_nodup. }
  unfold migrated_meta. destruct (SHOW_STATE_API_VERSION <? incoming).
  - intros (declared & _ & [= <-])%bind_ok. split.
    + unfold dget_or. rewrite !dget_dset_ne by done. by apply (Hm "documentType" _ (VStr SHOW_STATE_DOCUMENT_TYPE)).
    + exists (Z.min declared SHOW_STATE_API_VERSION). unfold dget_or.
      rewrite dget_dset_ne, dget_dset_eq by done. split; [done|]. unfold SHOW_STATE_API_VERSION. lia.
  - intros [= <-]. split; [by apply Hm|]. exists 1. split; [by apply Hm|lia].
Qed.

Lemma rename_field_get section old new d notes k v :
  dget d k = Some v -> dget (fst (rename_field section old new (d, notes))) k = Some v.
Proof.
  intros H. unfold rename_field. destruct (dhas d old && negb (dhas d new)) eqn:E; [|done]. cbn.
  rewrite dget_dset_ne; [done|]. intros ->. unfold dhas in E. rewrite H in E. by rewrite andb_false_r in E.
Qed.

Lemma renames_get section rs d notes k v : dget d k = Some v ->
  dget (fst (fold_left (fun a r => rename_field section (fst r) (snd r) a) rs (d, notes))) k = Some v.
Proof.
  revert d notes. induction rs as [|[o n] rs IH]; intros d notes H; [done|]. cbn [fold_left fst snd].
  pose proof (rename_field_get section o n d notes k v H) as Hr.
  destruct (rename_field section o n (d, notes)) as [d' notes']. by apply IH.
Qed.

(** A migration step keeps other sections and every field a section had. *)
Definition keeps (a b : pydict) : Prop :=
  forall k v, dget a k = Some v -> exists w, dget b k = Some w
    /\ (w = v \/ exists d e, v = VDict d /\ w = VDict e /\ forall j x, dget d j = Some x -> dget e j = Some x).

Lemma keeps_refl a : keeps a a.
Proof. intros k v H. exists v. auto. Qed.

Lemma keeps_trans a b c : keeps a b -> keeps b c -> keeps a c.
Proof.
  intros H1 H2 k v Hv. destruct (H1 k v Hv) as (w & Hw & Hvw). destruct (H2 k w Hw) as (u & Hu & Hwu).
  exists u. split; [done|].
  destruct Hvw as [->|(d & e & -> & -> & Hde)]; [done|].
  destruct Hwu as [->|(e' & f & [= <-] & -> & Hef)]; right; eauto 8.
Qed.

Lemma renames_nil section rs notes :
  fst (fold_left (fun a r => rename_field section (fst r) (snd r) a) rs ([], notes)) = [].
Proof. induction rs as [|[o n] rs IH]; [done|]. apply IH. Qed.

Lemma migrate_section_keeps section rs source notes :
  keeps source (fst (migrate_section section rs (source, notes))).
Proof.
  unfold migrate_section, sub_dict, dget_none, dget_or. intros k v Hv.
  destruct (fold_left _ rs _) as [d n] eqn:Ef. cbn [fst].
  destruct d as [|kv d]; [by exists v; auto|].
  destruct (decide (k = section)) as [->|Hne]; [|exists v; split; [by rewrite dget_dset_ne|by left]].
  rewrite Hv in Ef. exists (VDict (kv :: d)). split; [apply dget_dset_eq|]. right.
  destruct v as [| | | | | |d0]; cbn [as_dict] in Ef;
    try (pose proof (renames_nil section rs notes) as H; by rewrite Ef in H).
  exists d0, (kv :: d). split_and!; [done|done|]. intros j x Hj.
  pose proof (renames_get section rs d0 notes j x Hj) as H. by rewrite Ef in H.
Qed.

Lemma migrate_legacy_keeps source : keeps source (fst (migrate_legacy source)).
Proof.
  unfold migrate_legacy.
  destruct (migrate_section "transport" _ (source, [])) as [s1 n1] eqn:E1.
  destruct (migrate_section "system" _ (s1, n1)) as [s2 n2] eqn:E2.
  eapply keeps_trans; [|eapply keeps_trans].
  - pose proof (migrate_section_keeps "transport" [("tempo", "bpm"); ("positionSeconds", "seconds")] source []) as H.
    rewrite E1 in H. exact H.
  - pose proof (migrate_section_keeps "system" [("resourceCapacity", "capacity")] s1 n1) as H.
    rewrite E2 in H. exact H.
  - apply migrate_section_keeps.
Qed.

Lemma as_int_ok v d d' z : _as_int v d = Ok z -> exists z', _as_int v d' = Ok z'.
Proof.
  unfold _as_int, catch. destruct (py_int v) as [x|e]; [by eauto|]. destruct (type_or_value e); [by eauto|done].
Qed.

Lemma migrated_meta_total source incoming notes r k (d : pydict) :
  _as_int (dget_or (sub_dict source "compatibility") "minimumReaderApiVersion" (VInt k)) k = Ok r ->
  sub_dict d "compatibility" = sub_dict source "compatibility" ->
  exists meta, migrated_meta d incoming notes = Ok meta.
Proof.
  intros Hr Hd. unfold migrated_meta. rewrite Hd. destruct (SHOW_STATE_API_VERSION <? incoming); [|by eauto].
  assert (exists z, _as_int (dget_or (sub_dict source "compatibility") "minimumReaderApiVersion"
                       (VInt SHOW_STATE_API_VERSION)) SHOW_STATE_API_VERSION = Ok z) as [z ->]; [|cbn; by eauto].
  unfold dget_or in *. destruct (dget _ "minimumReaderApiVersion") as [v|]; [by eapply as_int_ok|by eauto].
Qed.

(** The section names a migration step touches leave every other key alone. *)
Lemma migrate_section_other section rs acc k : k <> section ->
  dget (fst (migrate_section section rs acc)) k = dget (fst acc) k.
Proof.
  intros H. destruct acc as [source notes]. unfold migrate_section.
  destruct (fold_left _ rs _) as [d n]. cbn. destruct d; [done|]. by rewrite dget_dset_ne.
Qed.

Lemma migrate_legacy_other source k : k <> "transport" -> k <> "system" -> k <> "audio" ->
  dget (fst (migrate_legacy source)) k = dget source k.
Proof. intros H1 H2 H3. unfold migrate_legacy. by rewrite !migrate_section_other. Qed.

Lemma classify_readings source r : classify (VDict source) = Ok r ->
  exists incoming minimum k, _as_int (dget_or source "apiVersion" (VInt 0)) 0 = Ok incoming
  /\ _as_int (dget_or (sub_dict source "compatibility") "minimumReaderApiVersion" (VInt k)) k = Ok minimum.
Proof.
  unfold classify. intros (incoming & Hi & (minimum & Hm & _)%bind_ok)%bind_ok. eauto 6.
Qed.

(** Migration is total on what inspection can classify, and loses nothing: an unreadable document is
    refused with a [ValueError]; a readable one yields a document of API version 1 that is inspected as an
    exact match and still has every field of the original outside the two it owns, each nested section
    keeping all of its own fields. *)
Theorem migration_normalizes source r : classify (VDict source) = Ok r ->
  match migrate_show_state (VDict source) with
  | Raise e => readable r = false /\ is_value_error e = true
  | Ok (doc, _) =>
      readable r = true
      /\ dget doc "apiVersion" = Some (VInt 1)
      /\ (exists m, classify (VDict doc) = Ok (Exact 1 m) /\ m <= 1)
      /\ forall k v, k <> "apiVersion" -> k <> "compatibility" -> dget source k = Some v ->
           exists w, dget doc k = Some w
             /\ (w = v \/ exists d e, v = VDict d /\ w = VDict e /\ forall j x, dget d j = Some x -> dget e j = Some x)
  end.
Proof.
  intros Hr. unfold migrate_show_state. rewrite Hr. cbn [mbind res_bind].
  destruct (readable r) eqn:Er; cbn [negb as_dict]; [|done].
  destruct (classify_readings _ _ Hr) as (incoming & minimum & k0 & Hi & Hmin). rewrite Hi. cbn [mbind res_bind].
  set (mig := if incoming <=? 0 then migrate_legacy source else (source, [])).
  assert (Hk : keeps source (fst mig)).
  { unfold mig. destruct (incoming <=? 0); [apply migrate_legacy_keeps|apply keeps_refl]. }
  assert (Ho : dget (fst mig) "compatibility" = dget source "compatibility").
  { unfold mig. destruct (incoming <=? 0); [by apply migrate_legacy_other|done]. }
  destruct mig as [src notes]. cbn [fst] in Hk, Ho.
  destruct (migrated_meta_total source incoming notes minimum k0
              (dset src "apiVersion" (VInt SHOW_STATE_API_VERSION)) Hmin) as [meta Hmeta].
  { unfold sub_dict, dget_none, dget_or. by rewrite dget_dset_ne, Ho. }
  rewrite Hmeta. cbn [mbind res_bind].
  apply migrated_meta_reads in Hmeta as (Ht & m & Hm & Hle).
  split_and!; [done| | |].
  - rewrite dget_dset_ne, dget_dset_eq by done. done.
  - exists m. split; [|done].
    set (doc := dset _ "compatibility" _).
    assert (Ha : dget_or doc "apiVersion" (VInt 0) = VInt SHOW_STATE_API_VERSION).
    { unfold doc, dget_or. by rewrite dget_dset_ne, dget_dset_eq. }
    assert (Hs : sub_dict doc "compatibility" = meta).
    { unfold doc, sub_dict, dget_none, dget_or. by rewrite dget_dset_eq. }
    unfold classify. rewrite Ha, Hs, as_int_VInt. cbn [mbind res_bind].
    change (if 0 <? SHOW_STATE_API_VERSION then SHOW_STATE_API_VERSION else 1) with 1.
    rewrite Hm, as_int_VInt, Ht. cbn [mbind res_bind py_str]. rewrite str_eqb_refl. cbn [negb].
    replace (SHOW_STATE_API_VERSION <? m) with false
      by (symmetry; apply Z.ltb_ge; unfold SHOW_STATE_API_VERSION; lia).
    reflexivity.
  - intros k v H1 H2 Hv. rewrite !dget_dset_ne by done. by apply Hk.
Qed.

Definition sample_legacy : pydict := [("transport", VDict [("tempo", VInt 99)]); ("future", VInt 5)].

Lemma migration_normalizes_witness :
  match migrate_show_state (VDict sample_legacy) with
  | Ok (doc, _) => dget doc "apiVersion" = Some (VInt 1) /\ at_path (VDict doc) ["transport"; "bpm"] = Some (VInt 99)
  | Raise _ => False
  end.
Proof.
  pose proof (migration_normalizes sample_legacy (LegacyMigration 0 1) eq_refl) as H.
  destruct (migrate_show_state (VDict sample_legacy)) as [[doc report]|e] eqn:E; [|by destruct H].
  destruct H as (_ & H & _). split; [exact H|]. vm_compute in E. injection E as <- <-. reflexivity.
Defined.

(** ** Negotiation *)

Lemma elem_of_sorted_set l s : s ∈ sorted_set l <-> s ∈ l.
Proof. unfold sorted_set. by rewrite elem_of_sort_strings, elem_of_remove_dups. Qed.


Lemma has_true l s : has l s = true <-> s ∈ l.
Proof. apply bool_decide_eq_true. Qed.

Lemma elem_of_without a b s : s ∈ without a b <-> s ∈ a /\ s ∉ b.
Proof.
  unfold without. rewrite elem_of_sorted_set, elem_of_filter_bool, negb_true_iff.
  unfold has. by rewrite bool_decide_eq_false.
Qed.

Lemma elem_of_common_versions a b z : z ∈ common_versions a b <-> z ∈ a /\ z ∈ b.
Proof.
  unfold common_versions, sorted_versions.
  transitivity (z ∈ remove_dups (List.filter (fun z => bool_decide (z ∈ b)) a)).
  - induction (remove_dups _) as [|y l IH]; cbn; [done|]. rewrite elem_of_cons, <- IH.
    clear IH. induction (fold_right insert_Z [] l) as [|x r IH]; cbn.
    + by rewrite list_elem_of_singleton, elem_of_nil; tauto.
    + destruct (y <=? x); [by rewrite elem_of_cons|]. rewrite !elem_of_cons, IH. tauto.
  - by rewrite elem_of_remove_dups, elem_of_filter_bool, bool_decide_eq_true.
Qed.

(** A capability is reachable from the other side: it has it, or an adapter of
    either side bridges it to one of the other side's capabilities. *)
Definition bridged (from_caps to_caps : list string) (l : list adapter) (s : string) : Prop :=
  exists a, a ∈ l /\ ((a.(a_from) = s /\ s ∈ from_caps /\ a.(a_to) ∈ to_caps)
                      \/ (a.(a_to) = s /\ s ∈ from_caps /\ a.(a_from) ∈ to_caps)).

Lemma translations_spec l r a d : (a, d) ∈ translations l r <->
  a ∈ l.(adapters) ++ r.(adapters) /\ bridge l r a = Some d.
Proof.
  unfold translations. rewrite list_elem_of_omap. split.
  - intros (x & Hx & H). destruct (bridge l r x) eqn:E; [|done]. by injection H as -> ->.
  - intros (Ha & Hb). exists a. by rewrite Hb.
Qed.

Lemma bridge_spec l r a d : bridge l r a = Some d ->
  match d with
  | LocalToRemote => a.(a_from) ∈ l.(capabilities) /\ a.(a_to) ∈ r.(capabilities)
  | RemoteToLocal => a.(a_from) ∈ r.(capabilities) /\ a.(a_to) ∈ l.(capabilities)
  end.
Proof.
  unfold bridge. destruct (has _ _ && has _ _) eqn:E1; [intros [= <-]|];
    [|destruct (has (capabilities r) _ && has _ _) eqn:E2; [intros [= <-]|done]]; pyinv; by rewrite <- !has_true.
Qed.

Lemma translated_local_bridged l r s : s ∈ translated_local (translations l r) ->
  bridged l.(capabilities) r.(capabilities) (l.(adapters) ++ r.(adapters)) s.
Proof.
  unfold translated_local. rewrite list_elem_of_fmap. intros ([a d] & -> & Ht).
  apply translations_spec in Ht as [Ha Hb]. exists a. split; [done|].
  apply bridge_spec in Hb. by destruct d; cbn; intuition.
Qed.

Lemma translated_remote_bridged l r s : s ∈ translated_remote (translations l r) ->
  bridged r.(capabilities) l.(capabilities) (l.(adapters) ++ r.(adapters)) s.
Proof.
  unfold translated_remote. rewrite list_elem_of_fmap. intros ([a d] & -> & Ht).
  apply translations_spec in Ht as [Ha Hb]. exists a. split; [done|].
  apply bridge_spec in Hb. by destruct d; cbn; intuition.
Qed.

Lemma compatible_parts c : compatible c = true <->
  null c.(c_common_api) = false /\ null (show_schema c) = false
  /\ null c.(c_missing_for_local) = true /\ null c.(c_missing_for_remote) = true
  /\ (null c.(c_local_only) && null c.(c_remote_only) || preserves_both c) = true.
Proof.
  unfold compatible, blockers. rewrite !null_app, !null_when, !negb_involutive, negb_andb, negb_orb, !negb_involutive.
  rewrite !andb_true_iff, !negb_true_iff. tauto.
Qed.

Lemma null_without a b : null (without a b) = true <-> forall s, s ∈ a -> s ∈ b.
Proof.
  rewrite null_empty. split.
  - intros H s Hs. destruct (decide (s ∈ b)) as [|Hb]; [done|]. exfalso. apply (H s). by apply elem_of_without.
  - intros H s Hs. apply elem_of_without in Hs as [Ha Hb]. auto.
Qed.

(** Two participants reported compatible share an API version; every capability one of them requires
    is a capability of the other or is bridged to one by a declared adapter, never guessed; and unless
    every capability of each is so reachable from the other, both promise to preserve what they do not
    know. *)
Theorem compatible_never_guesses l r : compatible (compare l r) = true ->
  (exists v, v ∈ l.(apiVersions) /\ v ∈ r.(apiVersions))
  /\ (forall s, s ∈ l.(requiredCapabilities) -> s ∈ r.(capabilities)
        \/ bridged l.(capabilities) r.(capabilities) (l.(adapters) ++ r.(adapters)) s)
  /\ (forall s, s ∈ r.(requiredCapabilities) -> s ∈ l.(capabilities)
        \/ bridged r.(capabilities) l.(capabilities) (l.(adapters) ++ r.(adapters)) s)
  /\ ((l.(preservesUnknown) = true /\ r.(preservesUnknown) = true)
      \/ (forall s, s ∈ l.(capabilities) -> s ∈ r.(capabilities)
            \/ bridged l.(capabilities) r.(capabilities) (l.(adapters) ++ r.(adapters)) s)
         /\ (forall s, s ∈ r.(capabilities) -> s ∈ l.(capabilities)
            \/ bridged r.(capabilities) l.(capabilities) (l.(adapters) ++ r.(adapters)) s)).
Proof.
  intros (Ha & _ & Hl & Hr & Hp)%compatible_parts. cbn in Ha, Hl, Hr, Hp.
  assert (Hreach : forall a, null (without a (r.(capabilities) ++ translated_local (translations l r))) = true ->
    forall s, s ∈ a -> s ∈ r.(capabilities)
      \/ bridged l.(capabilities) r.(capabilities) (l.(adapters) ++ r.(adapters)) s).
  { intros a H s Hs. pose proof (proj1 (null_without _ _) H s Hs) as Hm.
    apply elem_of_app in Hm as [|Hm]; [by left|right; by apply translated_local_bridged]. }
  assert (Hreach' : forall a, null (without a (l.(capabilities) ++ translated_remote (translations l r))) = true ->
    forall s, s ∈ a -> s ∈ l.(capabilities)
      \/ bridged r.(capabilities) l.(capabilities) (l.(adapters) ++ r.(adapters)) s).
  { intros a H s Hs. pose proof (proj1 (null_without _ _) H s Hs) as Hm.
    apply elem_of_app in Hm as [|Hm]; [by left|right; by apply translated_remote_bridged]. }
  split_and!; [|by apply Hreach|by apply Hreach'|].
  - destruct (common_versions l.(apiVersions) r.(apiVersions)) as [|v vs] eqn:E; [done|].
    exists v. apply elem_of_common_versions. rewrite E. left.
  - apply orb_true_iff in Hp as [Hp|Hp]; apply andb_prop in Hp as [H1 H2]; [right|by left].
    split; [by apply Hreach|by apply Hreach'].
Qed.

Definition sample_local : pydict :=
  [("capabilities", VList [VStr "midi.read"]); ("requiredCapabilities", VList [VStr "midi.read"]);
   ("adapters", VList [VDict [("from", VStr "midi.read"); ("to", VStr "midi.ump")]])].
Definition sample_remote : pydict := [("capabilities", VList [VStr "midi.ump"])].

Definition sample_participant (d : pydict) : participant :=
  match normalize_participant d with Ok p => p | Raise _ => {| p_raw := []; p_id := ""; apiVersions := [];
    schemaVersions := []; capabilities := []; requiredCapabilities := []; adapters := [];
    preservesUnknown := false; offlineCapable := false |} end.

Lemma compatible_never_guesses_witness :
  "midi.read" ∈ (sample_participant sample_remote).(capabilities)
  \/ bridged (sample_participant sample_local).(capabilities) (sample_participant sample_remote).(capabilities)
       ((sample_participant sample_local).(adapters) ++ (sample_participant sample_remote).(adapters)) "midi.read".
Proof.
  refine (proj1 (proj2 (compatible_never_guesses (sample_participant sample_local)
                          (sample_participant sample_remote) _)) "midi.read" _).
  - vm_compute. reflexivity.
  - vm_compute. left.
Defined.

(** ** Resolution *)

Lemma first_some_spec {A B} (f : A -> option B) l :
  match first_some f l with
  | Some b => exists a, a ∈ l /\ f a = Some b
  | None => forall a, a ∈ l -> f a = None
  end.
Proof.
  induction l as [|a l IH]; cbn.
  - intros a H. inversion H.
  - destruct (f a) as [b|] eqn:E.
    + exists a. split; [left|done].
    + destruct (first_some f l) as [b|].
      * destruct IH as (x & Hx & Hf). exists x. split; [by right|done].
      * intros x [->|Hx]%elem_of_cons; auto.
Qed.

(** An adapter bridges an available capability and the preferred one. *)
Definition bridges (p : participant) (preferred : string) (a : adapter) (k : string) : Prop :=
  a ∈ p.(adapters) /\ k ∈ p.(capabilities)
  /\ ((a.(a_from) = k /\ a.(a_to) = preferred) \/ (a.(a_to) = k /\ a.(a_from) = preferred)).

(** An alternative the requirement lists names an available capability. *)
Definition listed (p : participant) (q : requirement) (k : string) : Prop :=
  k ∈ p.(capabilities)
  /\ exists d, VDict d ∈ q.(q_alternatives) /\ k = strip (py_str (dget_or d "capability" (VStr ""))).

Lemma adapter_choice_some p preferred a c : a ∈ p.(adapters) ->
  adapter_choice p.(capabilities) preferred a = Some c -> exists k, c = Adapter k a /\ bridges p preferred a k.
Proof.
  intros Ha. unfold adapter_choice, bridges. intros H. repeat case_match; try done; pyinv; subst;
    repeat match goal with H : has _ _ = true |- _ => apply has_true in H end; eauto 9.
Qed.

Lemma fallback_choice_some p q v c : v ∈ q.(q_alternatives) ->
  fallback_choice p.(capabilities) v = Some c -> exists k qu s, c = Fallback k qu s /\ listed p q k.
Proof.
  intros Hv H. destruct v; try done. cbn in H.
  destruct (has _ _) eqn:E; [|done]. destruct (known_quality _ _) as [qu s]. injection H as <-.
  apply has_true in E. unfold listed. by eauto 9.
Qed.

(** A requirement is met only by what the participant declares, in the stated order of preference: the
    preferred capability itself, else one an adapter explicitly bridges to it, else a listed alternative;
    and it is left unmet only when none of the three exists. *)
Theorem requirement_choice_sound p q :
  match choose p q with
  | Some (Direct k) => k = q.(q_preferred) /\ k ∈ p.(capabilities)
  | Some (Adapter k a) => bridges p q.(q_preferred) a k /\ (q.(q_preferred) = "" \/ q.(q_preferred) ∉ p.(capabilities))
  | Some (Fallback k _ _) =>
      listed p q k
      /\ (q.(q_preferred) = "" \/ (q.(q_preferred) ∉ p.(capabilities)) /\ forall a k, ~ bridges p q.(q_preferred) a k)
  | None =>
      (q.(q_preferred) = "" \/ (q.(q_preferred) ∉ p.(capabilities)) /\ forall a k, ~ bridges p q.(q_preferred) a k)
      /\ forall k, ~ listed p q k
  end.
Proof.
  unfold choose. destruct (negb (String.eqb (q_preferred q) "") && has _ _) eqn:Ed.
  { pyinv. split; [done|]. by apply has_true. }
  assert (Hdirect : q.(q_preferred) = "" \/ q.(q_preferred) ∉ p.(capabilities)).
  { apply andb_false_iff in Ed as [E|E]; [left|right]; [by pyinv|]. intros H. apply has_true in H. congruence. }
  set (ac := if negb _ then _ else None).
  assert (Hac : match ac with
                | Some c => exists k a, c = Adapter k a /\ bridges p q.(q_preferred) a k
                | None => q.(q_preferred) = "" \/ forall a k, ~ bridges p q.(q_preferred) a k
                end).
  { unfold ac. destruct (String.eqb (q_preferred q) "") eqn:Ee; cbn [negb]; [left; by pyinv|].
    pose proof (first_some_spec (adapter_choice p.(capabilities) q.(q_preferred)) p.(adapters)) as H.
    destruct (first_some _ _) as [c|].
    - destruct H as (a & Ha & Hc). destruct (adapter_choice_some _ _ _ _ Ha Hc) as (k & -> & Hb). by eauto.
    - right. intros a k (Ha & Hk & Hb). specialize (H a Ha). unfold adapter_choice in H.
      destruct Hb as [[<- Hb]|[<- Hb]]; rewrite Hb, str_eqb_refl, (proj2 (has_true _ _) Hk) in H; cbn in H;
        [done|]. by case_match. }
  destruct ac as [c|].
  - destruct Hac as (k & a & -> & Hb). by split.
  - assert (Hno : q.(q_preferred) = "" \/ (q.(q_preferred) ∉ p.(capabilities))
                  /\ forall a k, ~ bridges p q.(q_preferred) a k) by tauto.
    pose proof (first_some_spec (fallback_choice p.(capabilities)) q.(q_alternatives)) as H.
    destruct (first_some _ _) as [c|].
    + destruct H as (v & Hv & Hc). destruct (fallback_choice_some _ _ _ _ Hv Hc) as (k & qu & s & -> & Hl). by split.
    + split; [done|]. intros k (Hk & d & Hd & ->). specialize (H _ Hd). cbn in H.
      rewrite (proj2 (has_true _ _) Hk) in H. by destruct (known_quality _ _).
Qed.
