(* ===== verification/Adaptation.v ===== *)
(** * Venue adaptation transactions (backend/adaptation.py)

    The transactional venue patch layer: proposals built from a compatibility
    plan, validation, commits that are immediate or wait for a bar or a cue, and
    rollback, with the state file. Every operation takes a [world]: the texts of
    its successive clock readings, the identifiers drawn and which of its
    successive writes of the file fail. Transactions keep the fields of the JSON
    documents they are, since a file may hold documents of a newer reader. *)

From S2P Require Import Prelude PyStr PyFloat PyVal PyFacts Json Sha256 Reconciliation.
From Stdlib Require Import SpecFloat.

#[local] Open Scope string_scope.
#[local] Open Scope list_scope.
#[local] Open Scope Z_scope.
#[local] Open Scope st_scope.

Definition VENUE_ADAPTATION_DOCUMENT_TYPE : string := "org.upp.venue-adaptation-transaction".
Definition VENUE_ADAPTATION_SCHEMA_VERSION : Z := 1.
Definition VENUE_PATCH_LAYER_DOCUMENT_TYPE : string := "org.upp.venue-patch-layer".
Definition VENUE_PATCH_LAYER_SCHEMA_VERSION : Z := 1.

(** [AdaptationRevisionConflict]. *)
Definition AdaptationRevisionConflict (expected actual : Z) : exn :=
  RevisionConflict expected actual "venue adaptation".

Definition fingerprint (value : pyval) : string := "sha256:" +:+ sha256_hex (_canonical value).

(** [max(1, int(document.get("minimumReaderSchemaVersion", 1)))]. *)
Definition minimum_reader (document : pydict) : res Z :=
  v ← py_int (dget_or document "minimumReaderSchemaVersion" (VInt 1)); Ok (Z.max 1 v).

Definition _assert_reader_safe (document : pydict) (supported : Z) : res unit :=
  minimum ← catch type_or_value (minimum_reader document) (fun _ => Ok (supported + 1));
  if supported <? minimum
  then Raise (ValueError ("venue adaptation document requires schema reader " +:+ dec minimum +:+ ", this core supports "
                          +:+ dec supported))
  else Ok tt.

Definition requirements_fingerprint (requirements : list pyval) : string := fingerprint (VList requirements).

Definition plan_keys : list string :=
  ["venue"; "grade"; "readiness"; "devicePlan"; "blockers"; "unmappedRequired"; "discoveryWarnings"].

Definition plan_fingerprint (plan : pydict) : string :=
  fingerprint (VDict (map (fun k => (k, dget_none plan k)) plan_keys)).

(** ** Proposals *)

(** [{str(item.get("id")): item for item in requirements}]. *)
Definition index_requirements (requirements : list pyval) : res pydict :=
  fold_res (fun d item => id ← vget item "id" VNone; Ok (dset d (py_str id) item)) requirements [].

(** [str(d.get(k, default))]. *)
Definition text_or (d : pydict) (k default : string) : string := py_str (dget_or d k (VStr default)).

(** [x if isinstance(x, dict) else {}]. *)
Definition dict_at (d : pydict) (k : string) : pydict := as_dict (dget_none d k).

(** [deepcopy(patch) if patch else None]. *)
Definition dict_or_none (d : option pydict) : pyval :=
  match d with Some d => py_or (VDict d) VNone | None => VNone end.

(** [decision.get("capability") or decision.get("preferred")]. *)
Definition capability_of (decision : pydict) : pyval := py_or (dget_none decision "capability") (dget_none decision "preferred").

Definition proposed_mapping (item decision : pydict) (patch_key : string) : res pydict :=
  let provider := get_dict item "provider" in
  let patch := get_dict item "patch" in
  score ← py_int (py_or (dget_or decision "qualityScore" (VInt 0)) (VInt 0));
  Ok [("patchKey", VStr patch_key);
      ("target", match dict_or_none patch with VDict p => dget_none p "target" | _ => VNone end);
      ("patch", dict_or_none patch);
      ("provider", match provider with Some d => VDict d | None => VNone end);
      ("capability", capability_of decision);
      ("resolution", VStr (text_or decision "status" "blocked"));
      ("quality", dget_none decision "quality");
      ("qualityScore", VInt score);
      ("timing", py_or (dget_none item "timing") (VDict []))].

Definition change_of (requirement decision proposed : pydict) (requirement_id : string) : pydict :=
  [("capability", VStr (py_str (py_or (capability_of decision)
                                  (py_or (dget_none requirement "preferred") (VStr requirement_id)))));
   ("requirementId", VStr requirement_id);
   ("domain", VStr (text_or requirement "domain" "other"));
   ("required", VBool (truthy (dget_or decision "required" (dget_or requirement "required" (VBool true)))));
   ("from", VDict [("logicalRequirement", VStr requirement_id)]);
   ("to", VDict proposed);
   ("reason", VStr "venue compatibility resolution");
   ("reversible", VBool true)].

(** One entry of the device plan: a change, and a mapping when something is provided or patched. *)
Definition add_change (by_req : pydict) (acc : list pydict * pydict) (item : pyval) : res (list pydict * pydict) :=
  match item with
  | VDict item =>
      let '(changes, mappings) := acc in
      let requirement_id := text_or item "id" "" in
      let requirement := as_dict (dget_or by_req requirement_id (VDict [])) in
      let decision := dict_at item "decision" in
      let patch_key := py_str (py_or (dget_none requirement "patchKey") (VStr requirement_id)) in
      proposed ← proposed_mapping item decision patch_key;
      let provided := truthy (dict_or_none (get_dict item "provider")) || truthy (dict_or_none (get_dict item "patch")) in
      Ok (changes ++ [change_of requirement decision proposed requirement_id],
          if provided then dset mappings patch_key (VDict proposed) else mappings)
  | _ => Ok acc
  end.

Definition _transaction_changes (plan : pydict) (requirements : list pyval) : res (list pydict * pydict) :=
  by_req ← index_requirements requirements;
  items ← py_iter (dget_or plan "devicePlan" (VList []));
  fold_res (add_change by_req) items ([], []).

(** [list(plan.get(k) or [])]. *)
Definition list_at (d : pydict) (k : string) : res (list pyval) := py_iter (py_or (dget_none d k) (VList [])).

Definition unresolved (item : pyval) : pyval := VStr ("required venue patch unresolved: " +:+ py_str item).

Definition build_transaction (plan : pydict) (requirements : list pyval) (use_local_discovery : bool)
    (hex created updated : string) : res pydict :=
  let venue := dict_at plan "venue" in
  '(changes, mappings) ← _transaction_changes plan requirements;
  stated ← list_at plan "blockers";
  missing ← list_at plan "unmappedRequired";
  let blockers := VList (stated ++ map unresolved missing) in
  Ok [("documentType", VStr VENUE_ADAPTATION_DOCUMENT_TYPE);
      ("schemaVersion", VInt VENUE_ADAPTATION_SCHEMA_VERSION);
      ("minimumReaderSchemaVersion", VInt 1);
      ("unknownFieldsPreserved", VBool true);
      ("transactionId", VStr ("adapt-" +:+ slice 16 hex));
      ("status", VStr "proposed");
      ("createdAt", VStr created);
      ("updatedAt", VStr updated);
      ("venueId", VStr (text_or venue "id" "venue"));
      ("venueName", VStr (py_str (py_or (dget_none venue "name") (py_or (dget_none venue "id") (VStr "Venue")))));
      ("discoveryMode", VStr (if use_local_discovery then "live" else "profile"));
      ("requirementsHash", VStr (requirements_fingerprint requirements));
      ("planHash", VStr (plan_fingerprint plan));
      ("grade", VStr (text_or plan "grade" "blocked"));
      ("readiness", VStr (text_or plan "readiness" "blocked"));
      ("changes", VList (map VDict changes));
      ("mappings", VDict mappings);
      ("departments", py_or (dget_none plan "departments") (VList []));
      ("actions", py_or (dget_none plan "actions") (VList []));
      ("blockers", blockers);
      ("reversible", VBool true);
      ("validation", VDict [("valid", VBool false); ("checkedAt", VNone); ("blockers", blockers)]);
      ("commit", VNone);
      ("receipt", VNone)].

(** ** The manager *)

Record manager := {
  revision : Z;
  active : pyval;
  transactions : pydict;
  cueSequence : Z;
  lastCue : pyval;
  state_file : option string;
}.

Abbreviation op := (st manager).

Record world := { now : nat -> string; uuid : nat -> string; persist_fails : nat -> bool }.

(** Later readings of the same world. *)
Definition later (times ids writes : nat) (w : world) : world :=
  {| now := fun i => w.(now) (times + i); uuid := fun i => w.(uuid) (ids + i);
     persist_fails := fun i => w.(persist_fails) (writes + i) |}.

Definition set_revision (r : Z) (m : manager) : manager :=
  {| revision := r; active := m.(active); transactions := m.(transactions); cueSequence := m.(cueSequence);
     lastCue := m.(lastCue); state_file := m.(state_file) |}.
Definition set_active (a : pyval) (m : manager) : manager :=
  {| revision := m.(revision); active := a; transactions := m.(transactions); cueSequence := m.(cueSequence);
     lastCue := m.(lastCue); state_file := m.(state_file) |}.
Definition set_transactions (t : pydict) (m : manager) : manager :=
  {| revision := m.(revision); active := m.(active); transactions := t; cueSequence := m.(cueSequence);
     lastCue := m.(lastCue); state_file := m.(state_file) |}.
Definition set_cue (n : Z) (cue : pyval) (m : manager) : manager :=
  {| revision := m.(revision); active := m.(active); transactions := m.(transactions); cueSequence := n;
     lastCue := cue; state_file := m.(state_file) |}.
Definition set_file (f : option string) (m : manager) : manager :=
  {| revision := m.(revision); active := m.(active); transactions := m.(transactions); cueSequence := m.(cueSequence);
     lastCue := m.(lastCue); state_file := f |}.

Definition initial_state (f : option string) : manager :=
  {| revision := 1; active := VNone; transactions := []; cueSequence := 0; lastCue := VNone; state_file := f |}.

(** [self._state] as the document that is written. *)
Definition state_dict (m : manager) : pydict :=
  [("revision", VInt m.(revision)); ("active", m.(active)); ("transactions", VDict m.(transactions));
   ("cueSequence", VInt m.(cueSequence)); ("lastCue", m.(lastCue))].

(** [x if isinstance(x, dict) else None]. *)
Definition dict_or_null (v : pyval) : pyval := if is_dict v then v else VNone.

(** One element of [dict(pairs)]; keys that are not strings are refused. *)
Definition pair_of (v : pyval) : res (string * pyval) :=
  items ← py_iter v;
  match items with
  | [VStr k; x] => Ok (k, x)
  | [_; _] => Raise TypeError
  | _ => Raise (ValueError "dictionary update sequence element has the wrong length")
  end.

(** [dict(v)] on a JSON value. *)
Definition py_dict (v : pyval) : res pydict :=
  match v with
  | VDict d => Ok d
  | _ => items ← py_iter v; pairs ← map_res pair_of items; Ok (dmerge [] pairs)
  end.

Definition read_state (f : option string) (raw : pyval) : res manager :=
  match raw with
  | VDict d =>
      r ← py_int (dget_or d "revision" (VInt 1));
      txs ← py_dict (py_or (dget_none d "transactions") (VDict []));
      n ← py_int (dget_or d "cueSequence" (VInt 0));
      Ok {| revision := Z.max 1 r; active := dict_or_null (dget_none d "active"); transactions := txs;
            cueSequence := Z.max 0 n; lastCue := dict_or_null (dget_none d "lastCue"); state_file := f |}
  | _ => Ok (initial_state f)
  end.

(** [__init__] on the state file that is there, with [_load]. *)
Definition _load (f : option string) : res manager :=
  match f with
  | None => Ok (initial_state f)
  | Some bytes =>
      catch (fun e => is_os_error e || type_or_value e)
        (text ← utf8_decode bytes; raw ← loads text; read_state f raw)
        (fun _ => Ok (initial_state f))
  end.

Definition _persist (fails : bool) : op unit :=
  let* m := st_get in
  if fails then st_raise (OSError "write failed")
  else st_modify (set_file (Some (utf8 (json_dumps (VDict (state_dict m)) +:+ newline)))).

Definition _touch : op unit := st_modify (fun m => set_revision (m.(revision) + 1) m).

Definition touch_persist (fails : bool) : op unit := let* _ := _touch in _persist fails.

Definition _check_revision (expected_revision : pyval) : op unit :=
  match expected_revision with
  | VNone => st_ret tt
  | _ =>
      let* e := st_lift (py_int expected_revision) in
      let* m := st_get in
      if e =? m.(revision) then st_ret tt else st_raise (AdaptationRevisionConflict e m.(revision))
  end.

(** [self._state["transactions"].get(id)], refused unless it is a dict. *)
Definition find_transaction (m : manager) (id : string) : res pydict :=
  match dget m.(transactions) id with Some (VDict tx) => Ok tx | _ => Raise (KeyError id) end.

(** The transaction object under [id] after an assignment to its fields. *)
Definition put_transaction (id : string) (tx : pydict) : op unit :=
  st_modify (fun m => set_transactions (dset m.(transactions) id (VDict tx)) m).

(** ** Reading *)

Definition status_is (tx : pydict) (s : string) : bool := py_eq (dget_none tx "status") (VStr s).

(** [tx.get("commit") or {}]. *)
Definition commit_of (tx : pydict) : pyval := py_or (dget_none tx "commit") (VDict []).

Definition newest_first (a b : pyval * string) : bool := str_ltb (snd b) (snd a).

Definition created_at (tx : pyval) : res (pyval * string) := c ← vget tx "createdAt" (VStr ""); Ok (tx, py_str c).

Definition snapshot (m : manager) : res pydict :=
  dated ← map_res created_at (map snd m.(transactions));
  Ok [("revision", VInt m.(revision)); ("active", m.(active));
      ("transactions", VList (map fst (sort_lt newest_first dated))); ("lastCue", m.(lastCue))].

Definition pending_bar (tx : pyval) : res bool :=
  match tx with
  | VDict d => and_then (status_is d "pending-commit") (mode ← vget (commit_of d) "mode" VNone; Ok (py_eq mode (VStr "next-bar")))
  | _ => Ok false
  end.

(** [any(...)], stopping at the first. *)
Fixpoint any_res {A} (p : A -> res bool) (l : list A) : res bool :=
  match l with
  | [] => Ok false
  | a :: rest => b ← p a; if (b : bool) then Ok true else any_res p rest
  end.

Definition has_pending_bar_commit (m : manager) : res bool := any_res pending_bar (map snd m.(transactions)).

Definition get (transaction_id : string) (m : manager) : res pydict := find_transaction m transaction_id.

(** ** Proposing and validating *)

Definition attach_receipt_evidence (transaction_id : string) (evidence : pyval) (w : world) : op pydict :=
  let* m := st_get in
  let* tx := st_lift (find_transaction m transaction_id) in
  match get_dict tx "receipt" with
  | Some receipt =>
      if negb (status_is tx "committed") then st_raise (ValueError "venue adaptation receipt is not committed")
      else if is_dict (dget_none receipt "publicRecord") then st_ret tx
      else
        let tx := dset tx "receipt" (VDict (dset receipt "publicRecord" evidence)) in
        let* _ := put_transaction transaction_id tx in
        let* _ := touch_persist (w.(persist_fails) 0%nat) in
        st_ret tx
  | None => st_raise (ValueError "venue adaptation receipt is not committed")
  end.

(** [((active or {}).get("mappings") or {}) if isinstance(active, dict) else {}]. *)
Definition active_mappings (m : manager) : pyval :=
  match m.(active) with VDict a => py_or (dget_none a "mappings") (VDict []) | _ => VDict [] end.

Definition compare_change (mappings : pyval) (change : pyval) : res pyval :=
  match change with
  | VDict change =>
      let to := dict_at change "to" in
      let patch_key := py_str (py_or (dget_none to "patchKey") (py_or (dget_none change "requirementId") (VStr ""))) in
      present ← vhas mappings patch_key;
      previous ← (if (present : bool) then vget mappings patch_key VNone else Ok VNone);
      let change_type := match previous with
                         | VNone => "add"
                         | _ => if py_eq previous (VDict to) then "unchanged" else "replace"
                         end in
      Ok (VDict (dset (dset change "from" previous) "changeType" (VStr change_type)))
  | v => Ok v
  end.

(** [str(show_venue).strip()[:160] or None]. *)
Definition previous_venue (show_venue : string) : pyval := str_or_none (slice 160 (strip show_venue)).

Definition propose (plan : pydict) (requirements : list pyval) (use_local_discovery : bool) (show_venue : string)
    (expected_revision : pyval) (w : world) : op pydict :=
  let* tx := st_lift (build_transaction plan requirements use_local_discovery (w.(uuid) 0%nat) (w.(now) 0%nat) (w.(now) 1%nat)) in
  let tx := dset tx "previousShowVenue" (previous_venue show_venue) in
  let* _ := _check_revision expected_revision in
  let* m := st_get in
  let* changes := st_lift (items ← py_iter (dget_or tx "changes" (VList [])); map_res (compare_change (active_mappings m)) items) in
  let tx := dset tx "changes" (VList changes) in
  let tx := dset tx "previousActiveTransactionId" (dget_none (as_dict m.(active)) "transactionId") in
  let* _ := put_transaction (py_str (dget_none tx "transactionId")) tx in
  let* _ := touch_persist (w.(persist_fails) 0%nat) in
  st_ret tx.

(** [v in {"committed", "rolled-back"}]: an unhashable value raises. *)
Definition in_final (v : pyval) : res bool :=
  match v with
  | VList _ | VDict _ => Raise TypeError
  | _ => Ok (py_eq v (VStr "committed") || py_eq v (VStr "rolled-back"))
  end.

Definition validation_blockers (tx current_plan : pydict) (requirements : list pyval) : res (list string) :=
  final ← in_final (dget_none tx "status");
  stated ← list_at current_plan "blockers";
  missing ← list_at current_plan "unmappedRequired";
  Ok ((if (final : bool) then ["transaction already " +:+ py_str (dget_none tx "status")] else [])
      ++ (if negb (py_eq (dget_none tx "requirementsHash") (VStr (requirements_fingerprint requirements)))
          then ["show requirements changed since proposal"] else [])
      ++ (if negb (py_eq (dget_none tx "planHash") (VStr (plan_fingerprint current_plan)))
          then ["venue compatibility plan changed since proposal"] else [])
      ++ map py_str stated ++ map (fun item => py_str (unresolved item)) missing).

(** [not blockers and bool(plan.get("compatible")) and plan.get("readiness") == "ready"]. *)
Definition plan_accepted (blockers : list string) (current_plan : pydict) : bool :=
  match blockers with [] => true | _ => false end
  && truthy (dget_none current_plan "compatible") && py_eq (dget_none current_plan "readiness") (VStr "ready").

Definition validate (transaction_id : string) (current_plan : pydict) (requirements : list pyval) (expected_revision : pyval)
    (w : world) : op pydict :=
  let* _ := _check_revision expected_revision in
  let* m := st_get in
  let* tx := st_lift (find_transaction m transaction_id) in
  let* _ := st_lift (_assert_reader_safe tx VENUE_ADAPTATION_SCHEMA_VERSION) in
  let* blockers := st_lift (validation_blockers tx current_plan requirements) in
  let valid := plan_accepted blockers current_plan in
  let tx := dset tx "validation"
              (VDict [("valid", VBool valid); ("checkedAt", VStr (w.(now) 0%nat));
                      ("blockers", VList (map VStr (sort_strings (remove_dups blockers))))]) in
  let tx := dset tx "status" (VStr (if valid then "validated" else "proposed")) in
  let tx := dset tx "updatedAt" (VStr (w.(now) 1%nat)) in
  let* _ := put_transaction transaction_id tx in
  let* _ := touch_persist (w.(persist_fails) 0%nat) in
  st_ret tx.

(** ** Committing *)

(** [tx.get("commit", {}).get("requestedBy")]. *)
Definition requested_by_of (tx : pydict) : res pyval := vget (dget_or tx "commit" (VDict [])) "requestedBy" VNone.

Definition layer_of (tx : pydict) (patch_revision : Z) (transaction_id : pyval) (activated : string) (show_seconds : float) : pydict :=
  [("documentType", VStr VENUE_PATCH_LAYER_DOCUMENT_TYPE);
   ("schemaVersion", VInt VENUE_PATCH_LAYER_SCHEMA_VERSION);
   ("minimumReaderSchemaVersion", VInt 1);
   ("unknownFieldsPreserved", VBool true);
   ("patchRevision", VInt patch_revision);
   ("transactionId", transaction_id);
   ("venueId", dget_none tx "venueId");
   ("venueName", dget_none tx "venueName");
   ("activatedAt", VStr activated);
   ("activatedShowSeconds", VFloat (fround 6 show_seconds));
   ("grade", dget_none tx "grade");
   ("mappings", py_or (dget_none tx "mappings") (VDict []));
   ("departments", py_or (dget_none tx "departments") (VList []));
   ("discoveryMode", dget_none tx "discoveryMode")].

Definition receipt_of (tx : pydict) (hex : string) (approved : pyval) (transaction_id : pyval) (boundary : pyval)
    (previous_revision : pyval) (patch_revision : Z) (committed : string) : pydict :=
  [("receiptId", VStr ("receipt-" +:+ slice 16 hex));
   ("reason", VStr "venue adaptation");
   ("intentPreserved", VBool true);
   ("changes", py_or (dget_none tx "changes") (VList []));
   ("approvedBy", VList (if truthy approved then [approved] else []));
   ("aiAssisted", VBool false);
   ("reversible", VBool true);
   ("transactionId", transaction_id);
   ("venueId", dget_none tx "venueId");
   ("boundary", boundary);
   ("previousPatchRevision", previous_revision);
   ("newPatchRevision", VInt patch_revision);
   ("committedAt", VStr committed)].

(** The fields a commit assigns before the receipt. *)
Definition mark_committed (tx : pydict) (activated updated : string) (boundary previous : pyval) : pydict :=
  dmerge tx [("status", VStr "committed"); ("updatedAt", VStr updated); ("committedAt", VStr activated);
             ("commitBoundary", boundary); ("previousActive", previous)].

(** [_commit_locked] on the transaction under [key], with the world's first readings. *)
Definition _commit_locked (key : string) (show_seconds : float) (boundary : pyval) (w : world) : op pydict :=
  let* m := st_get in
  let* tx := st_lift (find_transaction m key) in
  let previous := m.(active) in
  let* stated := st_lift (vget (py_or previous (VDict [])) "patchRevision" (VInt 0)) in
  let* number := st_lift (py_int stated) in
  let* transaction_id := st_lift (dindex tx "transactionId") in
  let layer := layer_of tx (number + 1) transaction_id (w.(now) 0%nat) show_seconds in
  let tx := mark_committed tx (w.(now) 0%nat) (w.(now) 1%nat) boundary previous in
  let* _ := st_modify (set_active (VDict layer)) in
  let* _ := put_transaction key tx in
  let* approved := st_lift (requested_by_of tx) in
  let* before := st_lift (vget (py_or previous (VDict [])) "patchRevision" VNone) in
  let tx := dset tx "receipt" (VDict (receipt_of tx (w.(uuid) 0%nat) approved transaction_id boundary before (number + 1) (w.(now) 0%nat))) in
  let* _ := put_transaction key tx in
  let* _ := touch_persist (w.(persist_fails) 0%nat) in
  st_ret tx.

(** [float(bar)]: the first bar line after [show_seconds], in 4/4. *)
Definition next_bar (show_seconds bpm : float) : res float :=
  let beat_seconds := fdiv (float_of_Z 60) (fmax (float_of_Z 1) bpm) in
  let bar_seconds := fmul beat_seconds (float_of_Z 4) in
  let current := fmax (float_of_Z 0) show_seconds in
  _ ← guard_res (negb (feq bar_seconds (float_of_Z 0))) ZeroDivisionError;
  bars ← py_floor (fadd (fdiv current bar_seconds) (float_of_Z 1));
  bars ← py_float (VInt bars);
  let target := fmul bars bar_seconds in
  let target := if fle target (fadd current (float_of_ratio false 1 1000000000)) then fadd target bar_seconds else target in
  Ok (fround 9 target).

(** The other transactions that wait for their boundary. *)
Definition pending_others (txs : pydict) (transaction_id : string) : list pyval :=
  omap (fun kv => match snd kv with
                  | VDict d => if status_is d "pending-commit" && negb (py_eq (dget_none d "transactionId") (VStr transaction_id))
                               then Some (dget_none d "transactionId") else None
                  | _ => None
                  end) txs.

(** [str(mode or "immediate").strip().lower()]. *)
Definition commit_mode (mode : pyval) : string := lower (strip (py_str (py_or mode (VStr "immediate")))).

Definition commit_request (mode : string) (show_seconds bpm : float) (cue_id : pyval) (requested_by : string) (requested_at : string)
    : res pydict :=
  let commit := [("mode", VStr mode); ("requestedAt", VStr requested_at); ("requestedBy", VStr (slice 128 requested_by));
                 ("requestedShowSeconds", VFloat show_seconds); ("targetShowSeconds", VNone); ("cueId", VNone)] in
  if String.eqb mode "next-bar" then
    target ← next_bar show_seconds bpm; Ok (dset commit "targetShowSeconds" (VFloat target))
  else if String.eqb mode "cue" then
    let cue := slice 128 (strip (py_str cue_id)) in
    if String.eqb cue "" then Raise (ValueError "cue commit requires cueId") else Ok (dset commit "cueId" (VStr cue))
  else Ok commit.

Definition schedule_commit (transaction_id : string) (mode : pyval) (show_seconds bpm : float) (cue_id : pyval) (requested_by : string)
    (expected_revision : pyval) (w : world) : op pydict :=
  let mode := commit_mode mode in
  if negb (existsb (String.eqb mode) ["immediate"; "next-bar"; "cue"])
  then st_raise (ValueError "commit mode must be immediate, next-bar, or cue")
  else
    let* _ := _check_revision expected_revision in
    let* m := st_get in
    let* tx := st_lift (find_transaction m transaction_id) in
    let* _ := st_lift (_assert_reader_safe tx VENUE_ADAPTATION_SCHEMA_VERSION) in
    let* valid := st_lift (vget (py_or (dget_none tx "validation") (VDict [])) "valid" VNone) in
    if negb (truthy valid) then st_raise (ValueError "transaction must validate before commit")
    else if status_is tx "committed" then st_ret tx
    else
      match pending_others m.(transactions) transaction_id with
      | other :: _ => st_raise (ValueError ("another venue adaptation commit is already pending: " +:+ py_str other))
      | [] =>
          let* commit := st_lift (commit_request mode show_seconds bpm cue_id requested_by (w.(now) 0%nat)) in
          let immediate := String.eqb mode "immediate" in
          let tx := dset tx "commit" (VDict commit) in
          let tx := dset tx "status" (VStr (if immediate then "validated" else "pending-commit")) in
          let tx := dset tx "updatedAt" (VStr (w.(now) 1%nat)) in
          let* _ := put_transaction transaction_id tx in
          let* _ := touch_persist (w.(persist_fails) 0%nat) in
          if immediate then _commit_locked transaction_id show_seconds (VDict [("type", VStr "immediate")]) (later 2 0 1 w)
          else st_ret tx
      end.

(** ** Boundaries *)

(** [float((tx.get("commit") or {}).get("targetShowSeconds") or default)]. *)
Definition target_seconds (tx : pydict) (default : float) : res float :=
  t ← vget (commit_of tx) "targetShowSeconds" VNone; py_float (py_or t (VFloat default)).

Definition infinity : float := S754_infinity false.

Definition bar_due (show_seconds : float) (kv : string * pyval) : res bool :=
  match snd kv with
  | VDict tx =>
      and_then (status_is tx "pending-commit")
        (mode ← vget (commit_of tx) "mode" VNone;
         and_then (py_eq mode (VStr "next-bar")) (t ← target_seconds tx infinity; Ok (fle t show_seconds)))
  | _ => Ok false
  end.

(** The keys of the transactions that satisfy a test, in order. *)
Fixpoint select (p : string * pyval -> res bool) (txs : pydict) : res (list (string * pydict)) :=
  match txs with
  | [] => Ok []
  | kv :: rest =>
      b ← p kv; l ← select p rest;
      Ok (if (b : bool) then (fst kv, as_dict (snd kv)) :: l else l)
  end.

Definition bar_boundary (show_seconds : float) (tx : pydict) : res pyval :=
  target ← vget (commit_of tx) "targetShowSeconds" VNone;
  Ok (VDict [("type", VStr "bar"); ("targetShowSeconds", target); ("actualShowSeconds", VFloat (fround 6 show_seconds))]).

(** Commit each transaction due, in turn. *)
Fixpoint commit_each (due : list string) (show_seconds : float) (boundary : pydict -> res pyval) (w : world) : op (list pyval) :=
  match due with
  | [] => st_ret []
  | key :: rest =>
      let* m := st_get in
      let* tx := st_lift (find_transaction m key) in
      let* b := st_lift (boundary tx) in
      let* committed := _commit_locked key show_seconds b w in
      let* more := commit_each rest show_seconds boundary (later 2 1 1 w) in
      st_ret (VDict committed :: more)
  end.

Definition due_key (kv : string * pydict) : res (float * string) := t ← target_seconds (snd kv) (float_of_Z 0); Ok (t, fst kv).

Definition tick (show_seconds : float) (w : world) : op (list pyval) :=
  let* m := st_get in
  let* due := st_lift (select (bar_due show_seconds) m.(transactions)) in
  let* keyed := st_lift (map_res due_key due) in
  let ordered := sort_lt (fun a b => flt (fst a) (fst b)) keyed in
  commit_each (map snd ordered) show_seconds (bar_boundary show_seconds) w.

Definition cue_due (cue_id : string) (kv : string * pyval) : res bool :=
  match snd kv with
  | VDict tx =>
      and_then (status_is tx "pending-commit")
        (mode ← vget (commit_of tx) "mode" VNone;
         and_then (py_eq mode (VStr "cue")) (cue ← vget (commit_of tx) "cueId" VNone; Ok (py_eq cue (VStr cue_id))))
  | _ => Ok false
  end.

Definition trigger_cue (cue_id : string) (show_seconds : float) (expected_revision : pyval) (w : world) : op (list pyval) :=
  let cue_id := slice 128 (strip cue_id) in
  if String.eqb cue_id "" then st_raise (ValueError "cueId required")
  else
    let* _ := _check_revision expected_revision in
    let* m := st_get in
    let sequence := m.(cueSequence) + 1 in
    let* _ := st_modify (set_cue sequence (VDict [("cueId", VStr cue_id); ("sequence", VInt sequence);
                                                  ("showSeconds", VFloat (fround 6 show_seconds)); ("triggeredAt", VStr (w.(now) 0%nat))])) in
    let* due := st_lift (select (cue_due cue_id) m.(transactions)) in
    let boundary := VDict [("type", VStr "cue"); ("cueId", VStr cue_id); ("sequence", VInt sequence)] in
    match due with
    | [] => let* _ := touch_persist (w.(persist_fails) 0%nat) in st_ret []
    | _ => commit_each (map fst due) show_seconds (fun _ => Ok boundary) (later 1 0 0 w)
    end.

(** ** Rolling back *)

Definition rollback (transaction_id : string) (show_seconds : float) (requested_by : string) (expected_revision : pyval) (w : world) : op pydict :=
  let* _ := _check_revision expected_revision in
  let* m := st_get in
  let* tx := st_lift (find_transaction m transaction_id) in
  let* _ := st_lift (_assert_reader_safe tx VENUE_ADAPTATION_SCHEMA_VERSION) in
  let marked := dmerge tx [("status", VStr "rolled-back"); ("rolledBackAt", VStr (w.(now) 0%nat))] in
  let by_ := VStr (slice 128 requested_by) in
  let at_ := VFloat (fround 6 show_seconds) in
  if status_is tx "pending-commit" then
    let tx := dset marked "rollback" (VDict [("requestedBy", by_); ("showSeconds", at_); ("cancelledPendingCommit", VBool true)]) in
    let* _ := put_transaction transaction_id tx in
    let* _ := touch_persist (w.(persist_fails) 0%nat) in
    st_ret tx
  else if negb (status_is tx "committed")
  then st_raise (ValueError "only committed or pending transactions can be rolled back")
  else
    match m.(active) with
    | VDict layer =>
        if negb (py_eq (dget_none layer "transactionId") (VStr transaction_id))
        then st_raise (ValueError "transaction is not the currently active venue patch layer")
        else
          let previous := dget_none tx "previousActive" in
          let* _ := st_modify (set_active previous) in
          let* _ := put_transaction transaction_id marked in
          let restored := py_or previous (VDict []) in
          let* name := st_lift (vget restored "venueName" VNone) in
          let* id := st_lift (vget restored "transactionId" VNone) in
          let tx := dset marked "rollback"
                      (VDict [("requestedBy", by_); ("showSeconds", at_); ("restoredTransactionId", id);
                              ("restoredVenueName", py_or name (dget_none tx "previousShowVenue"))]) in
          let* _ := put_transaction transaction_id tx in
          let* _ := touch_persist (w.(persist_fails) 0%nat) in
          st_ret tx
    | _ => st_raise (ValueError "transaction is not the currently active venue patch layer")
    end.
