(* ===== verification/AdaptationUndo.v ===== *)
(** * Venue adaptation: the undo stack

    As long as no committed transaction is validated again, the active patch
    layer is the top of a stack: commits push a layer, a rollback of the active
    transaction pops it and restores exactly the layer it had replaced. At most
    one transaction waits for a boundary, and a layer's patch revision is its
    depth. *)

From S2P Require Import Prelude PyStr PyFloat PyVal PyFacts Json Sha256 JsonText Reconciliation Adaptation.
From Stdlib Require Import SpecFloat.

#[local] Open Scope string_scope.
#[local] Open Scope list_scope.
#[local] Open Scope Z_scope.
#[local] Open Scope st_scope.

(** ** The invariant *)

Abbreviation layers := (list (string * pydict)).

Definition top (s : layers) : pyval := match s with [] => VNone | (_, layer) :: _ => VDict layer end.

(** The stored transactions remember what each layer of the stack replaced. *)
Fixpoint undo_chain (txs : pydict) (s : layers) : Prop :=
  match s with
  | [] => True
  | (k, layer) :: rest =>
      dget layer "transactionId" = Some (VStr k)
      /\ dget layer "patchRevision" = Some (VInt (Z.of_nat (length rest) + 1))
      /\ (exists tx, dget txs k = Some (VDict tx) /\ status_is tx "committed" = true
                     /\ dget_none tx "previousActive" = top rest)
      /\ undo_chain txs rest
  end.

Definition well_keyed (k : string) (v : pyval) : Prop :=
  exists tx status, v = VDict tx /\ dget tx "transactionId" = Some (VStr k) /\ dget tx "status" = Some (VStr status).

Definition holds_status (txs : pydict) (k status : string) : Prop :=
  exists tx, dget txs k = Some (VDict tx) /\ status_is tx status = true.

Record inv (m : manager) (s : layers) : Prop := {
  i_keys : NoDup (dkeys m.(transactions));
  i_txs : forall k v, dget m.(transactions) k = Some v -> well_keyed k v;
  i_active : m.(active) = top s;
  i_chain : undo_chain m.(transactions) s;
  i_distinct : NoDup (map fst s);
  i_committed : forall k, holds_status m.(transactions) k "committed" -> k ∈ map fst s;
  i_pending : forall k k', holds_status m.(transactions) k "pending-commit" ->
                           holds_status m.(transactions) k' "pending-commit" -> k = k';
}.

Lemma inv_same m m' s : inv m s -> m'.(active) = m.(active) -> m'.(transactions) = m.(transactions) -> inv m' s.
Proof. intros [] Ha Ht. split; rewrite ?Ha, ?Ht; done. Qed.

Lemma holds_status_put txs k v k' status : holds_status (dset txs k v) k' status ->
  (k' = k /\ exists tx, v = VDict tx /\ status_is tx status = true) \/ (k' <> k /\ holds_status txs k' status).
Proof.
  intros (tx & H & Hs). rewrite dget_dset in H. destruct (String.eqb_spec k' k) as [->|Hne].
  - left. split; [done|]. injection H as ->. eauto.
  - right. split; [done|]. by exists tx.
Qed.

Lemma undo_chain_put txs s k tx : undo_chain txs s ->
  (k ∈ map fst s -> forall old, dget txs k = Some (VDict old) -> status_is old "committed" = true ->
     status_is tx "committed" = true /\ dget_none tx "previousActive" = dget_none old "previousActive") ->
  undo_chain (dset txs k (VDict tx)) s.
Proof.
  intros H Hk. induction s as [|[k' layer] rest IH]; [done|]. destruct H as (Hid & Hrev & (old & Hold & Hs & Hp) & Hrest).
  cbn [undo_chain]. split; [done|]. split; [done|]. split.
  - rewrite dget_dset. destruct (String.eqb_spec k' k) as [->|Hne]; [|by exists old].
    exists tx. destruct (Hk ltac:(left) _ Hold Hs) as [-> ->]. done.
  - apply IH; [done|]. intros Hin. apply Hk. by right.
Qed.

(** Storing a transaction that is outside the stack and not committed, or keeps its commit. *)
Lemma inv_put m s k tx st : inv m s ->
  dget tx "transactionId" = Some (VStr k) -> dget tx "status" = Some (VStr st) ->
  (forall old, dget m.(transactions) k = Some (VDict old) -> status_is old "committed" = true ->
     st = "committed" /\ dget_none tx "previousActive" = dget_none old "previousActive") ->
  (st = "committed" -> holds_status m.(transactions) k "committed") ->
  (st = "pending-commit" -> forall k', holds_status m.(transactions) k' "pending-commit" -> k' = k) ->
  inv (set_transactions (dset m.(transactions) k (VDict tx)) m) s.
Proof.
  intros [] Hid Hst Hkeep Hc Hp. assert (forall x, status_is tx x = String.eqb st x) as Hs.
  { intros x. unfold status_is, dget_none, dget_or. by rewrite Hst. }
  split; cbn [set_transactions active transactions]; try done; [by apply dset_nodup|..].
  - intros k' v. rewrite dget_dset. destruct (String.eqb_spec k' k) as [->|]; [|by apply i_txs0].
    intros [= <-]. by exists tx, st.
  - apply undo_chain_put; [done|]. intros _ old Ho Hoc. rewrite Hs. destruct (Hkeep old Ho Hoc) as [-> ->]. done.
  - intros k' [[-> (x & [= <-] & Hx)]|[_ Hx]]%holds_status_put; [|by apply i_committed0].
    rewrite Hs in Hx. apply String.eqb_eq in Hx. by apply i_committed0, Hc.
  - intros k1 k2 [[-> (x & [= <-] & Hx)]|[Hne1 Hx]]%holds_status_put [[-> (y & [= <-] & Hy)]|[Hne2 Hy]]%holds_status_put; try done.
    + rewrite Hs in Hx. apply String.eqb_eq in Hx. by rewrite (Hp Hx k2 Hy).
    + rewrite Hs in Hy. apply String.eqb_eq in Hy. by apply (Hp Hy).
    + by apply i_pending0.
Qed.

Lemma find_ok m s k tx : inv m s -> find_transaction m k = Ok tx ->
  dget m.(transactions) k = Some (VDict tx) /\ dget tx "transactionId" = Some (VStr k)
  /\ exists st, dget tx "status" = Some (VStr st) /\ forall x, status_is tx x = String.eqb st x.
Proof.
  intros [] H. unfold find_transaction in H. destruct (dget (transactions m) k) as [v|] eqn:E; [|done].
  destruct (i_txs0 _ _ E) as (tx' & st & -> & Hid & Hst). injection H as ->. split_and!; [done..|]. exists st.
  split; [done|]. intros x. unfold status_is, dget_none, dget_or. by rewrite Hst.
Qed.

(** Only committed transactions are in the stack. *)
Lemma chain_committed txs s k : undo_chain txs s -> k ∈ map fst s -> holds_status txs k "committed".
Proof.
  induction s as [|[k' layer] rest IH]; cbn; [by intros _ ?%elem_of_nil|].
  intros (_ & _ & (tx & Ht & Hs & _) & Hrest) [->|H]%elem_of_cons; [by exists tx|by apply IH].
Qed.

Lemma inv_push m s k layer tx : inv m s ->
  ~ holds_status m.(transactions) k "committed" ->
  dget layer "transactionId" = Some (VStr k) -> dget layer "patchRevision" = Some (VInt (Z.of_nat (length s) + 1)) ->
  dget tx "transactionId" = Some (VStr k) -> dget tx "status" = Some (VStr "committed") ->
  dget_none tx "previousActive" = top s ->
  inv (set_transactions (dset m.(transactions) k (VDict tx)) (set_active (VDict layer) m)) ((k, layer) :: s).
Proof.
  intros [] Hnc Hid Hrev Htid Hst Hp. assert (k ∉ map fst s) as Hk by (intros Hin; by eapply Hnc, chain_committed).
  assert (forall x, status_is tx x = String.eqb "committed" x) as Hs.
  { intros x. unfold status_is, dget_none, dget_or. by rewrite Hst. }
  split; cbn [set_transactions set_active active transactions top].
  - by apply dset_nodup.
  - intros k' v. rewrite dget_dset. destruct (String.eqb_spec k' k) as [->|]; [|by apply i_txs0].
    intros [= <-]. by exists tx, "committed".
  - done.
  - cbn [undo_chain]. split_and!; [done|done| |].
    + exists tx. rewrite dget_dset_eq. done.
    + apply undo_chain_put; [done|]. intros Hin. by destruct Hk.
  - cbn. by constructor.
  - intros k' [[-> _]|[_ Hx]]%holds_status_put; [left|right; by apply i_committed0].
  - intros k1 k2 [[-> (x & [= <-] & Hx)]|[_ Hx]]%holds_status_put [[-> (y & [= <-] & Hy)]|[_ Hy]]%holds_status_put;
      rewrite ?Hs in *; try done. by apply i_pending0.
Qed.

(** ** Reasoning about the final state of an operation *)

(** Touching and writing the file change neither the layer nor the transactions. *)
Lemma wp_touch_persist {A} b (k : unit -> op A) (P : manager -> Prop) m : P m ->
  (forall m1 m2, P m1 -> m2.(active) = m1.(active) -> m2.(transactions) = m1.(transactions) -> P m2) ->
  (forall m', P m' -> wp (k tt) (fun _ m'' => P m'') m') ->
  wp (st_bind (touch_persist b) k) (fun _ m' => P m') m.
Proof.
  intros HP Hext Hk. apply wp_bind. unfold touch_persist, _touch, _persist. apply wp_modify, wp_get.
  assert (P (set_revision (revision m + 1) m)) as HP1 by by eapply Hext.
  destruct b; [exact HP1|]. unfold wp, st_modify. cbn [fst snd]. apply Hk. by eapply Hext.
Qed.

(** ** Committing pushes a layer *)

Lemma py_or_dict d : py_or (VDict d) (VDict []) = VDict d.
Proof. unfold py_or. by destruct d. Qed.

Lemma py_or_top s : py_or (top s) (VDict []) = VDict (as_dict (top s)).
Proof. destruct s as [|[k layer] s]; [done|]. apply py_or_dict. Qed.

Lemma top_revision m s : inv m s -> dget_or (as_dict (top s)) "patchRevision" (VInt 0) = VInt (Z.of_nat (length s)).
Proof.
  intros []. destruct s as [|[k layer] rest]; [done|]. destruct i_chain0 as (_ & Hrev & _).
  cbn [top as_dict length]. unfold dget_or. rewrite Hrev. f_equal. lia.
Qed.

Lemma marked_get tx activated updated boundary previous k :
  dget (mark_committed tx activated updated boundary previous) k
  = match dget [("status", VStr "committed"); ("updatedAt", VStr updated); ("committedAt", VStr activated);
                ("commitBoundary", boundary); ("previousActive", previous)] k with Some v => Some v | None => dget tx k end.
Proof. unfold mark_committed. apply dmerge_get. cbn [dkeys map fst]. nodup_keys. Qed.

Definition pushed (m : manager) (s : layers) (k : string) (m' : manager) : Prop :=
  exists layer, inv m' ((k, layer) :: s) /\ m'.(active) <> m.(active).

Lemma commit_outcome m s key show boundary w : inv m s ->
  ~ holds_status m.(transactions) key "committed" ->
  (exists v, dget m.(transactions) key = Some v) ->
  wp (_commit_locked key show boundary w) (fun _ m' => pushed m s key m') m.
Proof.
  intros H Hnc (v & Hv). pose proof H as []. destruct (i_txs0 _ _ Hv) as (tx & st & -> & Hid & Hst).
  unfold _commit_locked. apply wp_get. apply wp_lift with (a := tx); [unfold find_transaction; by rewrite Hv|].
  cbv zeta. rewrite i_active0, py_or_top. cbn [vget]. rewrite (top_revision m s H).
  apply wp_lift with (a := VInt (Z.of_nat (length s))); [done|]. apply wp_lift with (a := Z.of_nat (length s)); [done|].
  apply wp_lift with (a := VStr key); [unfold dindex; by rewrite Hid|].
  set (layer := layer_of _ _ _ _ _). set (tx1 := mark_committed _ _ _ _ _).
  apply wp_modify. unfold put_transaction at 1. apply wp_modify.
  assert (dget tx1 "transactionId" = Some (VStr key)) as Hid1 by by (unfold tx1; rewrite marked_get).
  assert (dget tx1 "status" = Some (VStr "committed")) as Hst1 by by (unfold tx1; rewrite marked_get).
  assert (dget_none tx1 "previousActive" = top s) as Hp1 by by (unfold tx1, dget_none, dget_or; rewrite marked_get).
  set (m1 := set_transactions _ _).
  assert (inv m1 ((key, layer) :: s)) as H1 by by apply (inv_push m).
  assert (active m1 <> active m) as Hne.
  { change (active m1) with (VDict layer). rewrite i_active0. pose proof (top_revision m s H) as Hr.
    intros E. rewrite <- E in Hr. cbn in Hr. injection Hr. lia. }
  apply wp_lift_any; [|intros e; by exists layer]. intros approved _.
  apply wp_lift_any; [|intros e; by exists layer]. intros before _.
  unfold put_transaction. apply wp_modify. apply wp_touch_persist.
  - exists layer. split; [|done]. apply (inv_put m1 _ key _ "committed"); [done|by rewrite dget_dset_ne|by rewrite dget_dset_ne| | |done].
    + intros old. unfold m1. cbn [transactions set_transactions]. rewrite dget_dset_eq. intros [= <-] _.
      split; [done|]. unfold dget_none, dget_or. by rewrite dget_dset_ne.
    + intros _. exists tx1. unfold m1. cbn [transactions set_transactions]. rewrite dget_dset_eq. split; [done|].
      unfold status_is, dget_none, dget_or. by rewrite Hst1.
  - intros m2 m3 (l & Hl & Hn) Ha Ht. exists l. split; [by eapply inv_same|congruence].
  - intros m2 Hm2. exact Hm2.
Qed.

(** ** Rolling back pops it *)

Lemma inv_pop m k layer s tx st : inv m ((k, layer) :: s) ->
  dget tx "transactionId" = Some (VStr k) -> dget tx "status" = Some (VStr st) ->
  st <> "committed" -> st <> "pending-commit" ->
  inv (set_transactions (dset m.(transactions) k (VDict tx)) (set_active (top s) m)) s.
Proof.
  intros [] Hid Hst Hnc Hnp. cbn [map fst] in *. apply NoDup_cons in i_distinct0 as [Hk Hd].
  assert (forall x, status_is tx x = String.eqb st x) as Hs.
  { intros x. unfold status_is, dget_none, dget_or. by rewrite Hst. }
  split; cbn [set_transactions set_active active transactions]; try done; [by apply dset_nodup|..].
  - intros k' v. rewrite dget_dset. destruct (String.eqb_spec k' k) as [->|]; [|by apply i_txs0].
    intros [= <-]. by exists tx, st.
  - apply undo_chain_put; [apply i_chain0|]. intros Hin. by destruct Hk.
  - intros k' [[-> (x & [= <-] & Hx)]|[Hne Hx]]%holds_status_put.
    + rewrite Hs in Hx. by apply String.eqb_eq in Hx.
    + apply i_committed0, elem_of_cons in Hx as [->|Hx]; done.
  - intros k1 k2 [[-> (x & [= <-] & Hx)]|[_ Hx]]%holds_status_put [[-> (y & [= <-] & Hy)]|[_ Hy]]%holds_status_put;
      try (rewrite Hs in *; by apply String.eqb_eq in Hx); try (rewrite Hs in *; by apply String.eqb_eq in Hy); try done.
    by apply i_pending0.
Qed.

Definition popped (m : manager) (s : layers) (k : string) (m' : manager) : Prop :=
  exists layer rest, s = (k, layer) :: rest /\ inv m' rest /\ m'.(active) <> m.(active).

Definition kept (m : manager) (s : layers) (m' : manager) : Prop := inv m' s /\ m'.(active) = m.(active).

Lemma kept_same m s m1 m2 : kept m s m1 -> m2.(active) = m1.(active) -> m2.(transactions) = m1.(transactions) -> kept m s m2.
Proof. intros [H Hk] Ha Ht. split; [by eapply inv_same|congruence]. Qed.

Lemma popped_same m s k m1 m2 : popped m s k m1 -> m2.(active) = m1.(active) -> m2.(transactions) = m1.(transactions) ->
  popped m s k m2.
Proof. intros (l & r & Hs & H & Hn) Ha Ht. exists l, r. split; [done|]. split; [by eapply inv_same|congruence]. Qed.

Lemma kept_refl m s : inv m s -> kept m s m.
Proof. done. Qed.

Lemma wp_check {A} e (k : unit -> op A) (P : manager -> Prop) m :
  P m -> wp (k tt) (fun _ m' => P m') m -> wp (st_bind (_check_revision e) k) (fun _ m' => P m') m.
Proof.
  intros HP Hk. apply wp_bind. unfold _check_revision.
  assert (forall z, wp (let* m0 := st_get in if z =? revision m0 then st_ret tt else st_raise (AdaptationRevisionConflict z (revision m0)))
            (fun x s' => match x with Ok a => wp (k a) (fun _ m' => P m') s' | Raise _ => P s' end) m) as Hz.
  { intros z. apply wp_get. destruct (_ =? _); [by apply wp_ret|by apply wp_raise]. }
  destruct e; [by apply wp_ret|..]; (apply wp_lift_any; [intros; apply Hz|done]).
Qed.

(** Store the transaction, write the file, return. *)
Lemma wp_store {A} m1 k tx b (a : A) (P : manager -> Prop) :
  P (set_transactions (dset m1.(transactions) k (VDict tx)) m1) ->
  (forall x y, P x -> y.(active) = x.(active) -> y.(transactions) = x.(transactions) -> P y) ->
  wp (let* _ := put_transaction k tx in let* _ := touch_persist b in st_ret a) (fun _ m' => P m') m1.
Proof.
  intros HP Hext. unfold put_transaction. apply wp_modify. apply wp_touch_persist; [done|done|]. intros m' H. by apply wp_ret.
Qed.

Lemma inv_store m s k tx tx' st st' : inv m s -> find_transaction m k = Ok tx ->
  dget tx "status" = Some (VStr st) -> st <> "committed" ->
  dget tx' "transactionId" = dget tx "transactionId" -> dget tx' "status" = Some (VStr st') -> st' <> "committed" ->
  (st' = "pending-commit" -> forall k', holds_status m.(transactions) k' "pending-commit" -> k' = k) ->
  kept m s (set_transactions (dset m.(transactions) k (VDict tx')) m).
Proof.
  intros H Hf Hst Hnc Hid Hst' Hnc' Hp. destruct (find_ok m s k tx H Hf) as (Hg & Hid0 & st0 & Hst0 & Hs).
  split; [|done]. apply (inv_put m s k tx' st'); [done|congruence|done| |done|done].
  intros old. rewrite Hg. intros [= <-] Hc. rewrite Hs in Hc. apply String.eqb_eq in Hc. congruence.
Qed.

Lemma rollback_outcome m s k show by_ e w : inv m s ->
  wp (rollback k show by_ e w) (fun _ m' => kept m s m' \/ popped m s k m') m.
Proof.
  intros H. unfold rollback. assert (kept m s m \/ popped m s k m) as Hself by by left.
  apply wp_check; [done|]. apply wp_get. apply wp_lift_any; [|done]. intros tx Hf.
  apply wp_lift_any; [|done]. intros _ _. cbv zeta. destruct (find_ok m s k tx H Hf) as (Hg & Hid & st & Hst & Hs).
  rewrite !Hs. set (marked := dmerge tx _).
  assert (forall x, dget marked x = match dget [("status", VStr "rolled-back"); ("rolledBackAt", VStr (now w 0))] x with
                                    Some v => Some v | None => dget tx x end) as Hm.
  { intros x. apply dmerge_get. cbn [dkeys map fst]. nodup_keys. }
  destruct (String.eqb_spec st "pending-commit") as [->|Hnp].
  - apply wp_store.
    + left. by eapply (inv_store m s k tx _ "pending-commit" "rolled-back"); try done; rewrite dget_dset_ne, Hm.
    + intros x y [Hx|Hx] Ha Ht; [left; by eapply kept_same|right; by eapply popped_same].
  - destruct (String.eqb_spec st "committed") as [->|]; [cbn [negb]|by apply wp_raise].
    destruct (active m) as [| | | | | |layer] eqn:Ea; try (by apply wp_raise).
    destruct (py_eq (dget_none layer "transactionId") (VStr k)) eqn:Ek; [cbn [negb]|by apply wp_raise].
    pose proof H as []. rewrite Ea in i_active0. destruct s as [|[k0 layer0] rest]; [done|]. cbn [top] in i_active0.
    injection i_active0 as ->. destruct i_chain0 as (Hk0 & Hrev & (tx0 & Ht0 & _ & Hp0) & Hrest).
    unfold dget_none, dget_or in Ek. rewrite Hk0 in Ek. cbn in Ek. apply String.eqb_eq in Ek as ->.
    rewrite Hg in Ht0. injection Ht0 as ->. rewrite Hp0.
    assert (top rest <> VDict layer0) as Hne.
    { destruct rest as [|[k1 layer1] rest]; [done|]. destruct Hrest as (_ & Hrev1 & _). cbn [top]. intros [= ->].
      rewrite Hrev in Hrev1. injection Hrev1. cbn [length]. lia. }
    assert (forall y, dget y "transactionId" = Some (VStr k) -> dget y "status" = Some (VStr "rolled-back") ->
              popped m ((k, layer0) :: rest) k (set_transactions (dset (transactions m) k (VDict y)) (set_active (top rest) m))) as Hpop.
    { intros y Hy1 Hy2. exists layer0, rest. split; [done|]. split; [by eapply inv_pop|]. cbn. by rewrite Ea. }
    apply wp_modify. unfold put_transaction at 1. apply wp_modify.
    apply wp_lift_any; [|intros; right; apply Hpop; by rewrite Hm]. intros name _.
    apply wp_lift_any; [|intros; right; apply Hpop; by rewrite Hm]. intros rid _.
    apply wp_store.
    + right. cbn [set_transactions transactions]. rewrite dset_twice. apply Hpop; by rewrite dget_dset_ne, Hm.
    + intros x y [Hx|Hx] Ha Ht; [left; by eapply kept_same|right; by eapply popped_same].
Qed.

(** ** The other operations *)

Lemma attach_outcome m s k evidence w : inv m s -> wp (attach_receipt_evidence k evidence w) (fun _ m' => kept m s m') m.
Proof.
  intros H. unfold attach_receipt_evidence. apply wp_get. apply wp_lift_any; [|done]. intros tx Hf.
  destruct (find_ok m s k tx H Hf) as (Hg & Hid & st & Hst & Hs).
  destruct (get_dict tx "receipt") as [receipt|]; [|by apply wp_raise].
  destruct (negb _); [by apply wp_raise|]. destruct (is_dict _); [by apply wp_ret|].
  apply wp_store; [|intros x y; apply kept_same]. split; [|done].
  apply (inv_put m s k _ st); [done|by rewrite dget_dset_ne|by rewrite dget_dset_ne| | |].
  - intros old. rewrite Hg. intros [= <-] Hc. rewrite Hs in Hc. apply String.eqb_eq in Hc as ->. split; [done|].
    unfold dget_none, dget_or. by rewrite dget_dset_ne.
  - intros ->. exists tx. by rewrite Hs.
  - intros -> k' Hk'. apply (i_pending m s H); [done|]. exists tx. by rewrite Hs.
Qed.

Lemma build_fields plan reqs live hex created updated tx : build_transaction plan reqs live hex created updated = Ok tx ->
  dget tx "transactionId" = Some (VStr ("adapt-" +:+ slice 16 hex)) /\ dget tx "status" = Some (VStr "proposed").
Proof.
  unfold build_transaction. intros ([changes mappings] & _ & H)%bind_ok. apply bind_ok in H as (stated & _ & H).
  apply bind_ok in H as (missing & _ & H). injection H as <-. done.
Qed.

Lemma propose_outcome m s plan reqs live venue e w : inv m s ->
  dget m.(transactions) ("adapt-" +:+ slice 16 (w.(uuid) 0%nat)) = None ->
  wp (propose plan reqs live venue e w) (fun _ m' => kept m s m') m.
Proof.
  intros H Hfresh. unfold propose. apply wp_lift_any; [|done]. intros tx Htx.
  destruct (build_fields _ _ _ _ _ _ _ Htx) as [Hid Hst]. apply wp_check; [done|]. apply wp_get.
  apply wp_lift_any; [|done]. intros changes _. cbv zeta.
  match goal with |- context [put_transaction (py_str (dget_none ?t "transactionId"))] =>
    assert (dget_none t "transactionId" = VStr ("adapt-" +:+ slice 16 (uuid w 0))) as -> end.
  { unfold dget_none, dget_or. rewrite !dget_dset_ne by done. by rewrite Hid. }
  cbn [py_str]. apply wp_store; [|intros x y; apply kept_same]. split; [|done].
  apply (inv_put m s _ _ "proposed"); [done|by rewrite !dget_dset_ne|by rewrite !dget_dset_ne| |done|done].
  intros old. by rewrite Hfresh.
Qed.

Lemma validate_outcome m s k plan reqs e w : inv m s -> ~ holds_status m.(transactions) k "committed" ->
  wp (validate k plan reqs e w) (fun _ m' => kept m s m') m.
Proof.
  intros H Hnc. unfold validate. apply wp_check; [done|]. apply wp_get. apply wp_lift_any; [|done]. intros tx Hf.
  apply wp_lift_any; [|done]. intros _ _. apply wp_lift_any; [|done]. intros blockers _.
  destruct (find_ok m s k tx H Hf) as (Hg & Hid & st & Hst & Hs).
  apply wp_store; [|intros x y; apply kept_same].
  eapply (inv_store m s k tx _ st (if plan_accepted blockers plan then "validated" else "proposed")); try done.
  - intros ->. apply Hnc. exists tx. by rewrite Hs.
  - by rewrite !dget_dset_ne.
  - by rewrite dget_dset_ne, dget_dset_eq.
  - by destruct (plan_accepted _ _).
  - by destruct (plan_accepted _ _).
Qed.

Lemma omap_nil {A B} (f : A -> option B) l x : omap f l = [] -> In x l -> f x = None.
Proof.
  induction l as [|y l IH]; cbn; [done|]. destruct (f y) eqn:E; [done|]. intros H [->|Hin]; [done|by apply IH].
Qed.

Lemma no_other_pending m s k : inv m s -> pending_others m.(transactions) k = [] ->
  forall k', holds_status m.(transactions) k' "pending-commit" -> k' = k.
Proof.
  intros H Hp k' (tx & Ht & Hs). pose proof (omap_nil _ _ _ Hp (dget_Some_In _ _ _ Ht)) as Hn. cbn [snd] in Hn.
  rewrite Hs in Hn. destruct (i_txs _ _ H _ _ Ht) as (tx' & st & [= <-] & Hid & _).
  unfold dget_none, dget_or in Hn. rewrite Hid in Hn. cbn in Hn. destruct (String.eqb_spec k' k); [done|].
  by cbn in Hn.
Qed.

Lemma schedule_outcome m s k mode show bpm cue by_ e w : inv m s ->
  wp (schedule_commit k mode show bpm cue by_ e w) (fun _ m' => kept m s m' \/ pushed m s k m') m.
Proof.
  intros H. unfold schedule_commit. cbv zeta. assert (kept m s m \/ pushed m s k m) as Hself by by left.
  destruct (negb _); [by apply wp_raise|]. apply wp_check; [done|]. apply wp_get.
  apply wp_lift_any; [|done]. intros tx Hf. apply wp_lift_any; [|done]. intros _ _.
  apply wp_lift_any; [|done]. intros valid _. destruct (find_ok m s k tx H Hf) as (Hg & Hid & st & Hst & Hs).
  destruct (negb _); [by apply wp_raise|]. rewrite Hs. destruct (String.eqb_spec st "committed") as [|Hnc]; [by apply wp_ret|].
  destruct (pending_others _ _) as [|other l] eqn:Hp; [|by apply wp_raise].
  apply wp_lift_any; [|done]. intros commit _. set (status := if String.eqb _ "immediate" then "validated" else "pending-commit").
  set (tx' := dset (dset (dset tx _ _) _ _) _ _).
  assert (dget tx' "transactionId" = Some (VStr k)) as Hid' by (unfold tx'; by rewrite !dget_dset_ne).
  assert (dget tx' "status" = Some (VStr status)) as Hst' by (unfold tx'; by rewrite dget_dset_ne, dget_dset_eq).
  set (m1 := set_transactions (dset (transactions m) k (VDict tx')) m).
  assert (kept m s m1) as H1.
  { eapply (inv_store m s k tx tx' st status); try done; [congruence|subst status; by destruct (String.eqb _ _)|].
    intros _. by eapply no_other_pending. }
  unfold put_transaction. apply wp_modify. fold m1.
  apply wp_bind. unfold touch_persist, _touch, _persist. apply wp_modify, wp_get.
  assert (forall m2, active m2 = active m1 -> transactions m2 = transactions m1 -> kept m s m2) as Hext by (intros; by eapply kept_same).
  destruct (persist_fails w 0%nat); [left; by apply Hext|]. unfold wp at 1, st_modify. cbn [fst snd].
  set (m2 := set_file _ _). assert (kept m s m2) as [Hi2 Ha2] by by apply Hext.
  destruct (String.eqb _ "immediate") eqn:Ei; [|left; by split].
  eapply wp_mono.
  - apply (commit_outcome m2 s k); [done| |].
    + intros (tx2 & Ht2 & Hs2). subst m2 m1. cbn [transactions set_file set_revision set_transactions] in Ht2.
      rewrite dget_dset_eq in Ht2. injection Ht2 as <-. unfold status_is, dget_none, dget_or in Hs2. by rewrite Hst' in Hs2.
    + subst m2 m1. cbn [transactions set_file set_revision set_transactions]. rewrite dget_dset_eq. by eexists.
  - intros x m3 (layer & Hi3 & Hne). right. exists layer. split; [done|congruence].
Qed.

(** ** Boundaries commit at most one transaction *)

Lemma select_ok p txs l : select p txs = Ok l ->
  map fst l `sublist_of` dkeys txs
  /\ forall kd, kd ∈ l -> exists v, (fst kd, v) ∈ txs /\ snd kd = as_dict v /\ p (fst kd, v) = Ok true.
Proof.
  revert l. induction txs as [|[k v] txs IH]; intros l; cbn [select].
  - intros [= <-]. split; [done|]. by intros kd ?%elem_of_nil.
  - intros (b & Hb & H)%bind_ok. apply bind_ok in H as (l' & Hl & [= <-]). destruct (IH _ Hl) as [Hs Hp]. destruct b.
    + split; [cbn; by constructor|]. intros kd [->|Hin]%elem_of_cons; cbn [fst snd].
      * exists v. split; [left|done].
      * destruct (Hp _ Hin) as (v' & ? & ?). exists v'. split; [by right|done].
    + split; [cbn; by constructor|]. intros kd Hin. destruct (Hp _ Hin) as (v' & ? & ?). exists v'. split; [by right|done].
Qed.

(** A test that only pending transactions pass. *)
Definition only_pending (p : string * pyval -> res bool) : Prop :=
  forall k v, p (k, v) = Ok true -> exists tx, v = VDict tx /\ status_is tx "pending-commit" = true.

Lemma select_pending m s p l : inv m s -> only_pending p -> select p m.(transactions) = Ok l ->
  l = [] \/ exists kd, l = [kd] /\ holds_status m.(transactions) (fst kd) "pending-commit".
Proof.
  intros H Hp Hl. destruct (select_ok _ _ _ Hl) as [Hsub Hall].
  assert (forall kd, kd ∈ l -> holds_status (transactions m) (fst kd) "pending-commit") as Hk.
  { intros kd Hin. destruct (Hall _ Hin) as (v & Hv & _ & Hpv). destruct (Hp _ _ Hpv) as (tx & -> & Hs).
    exists tx. split; [|done]. apply dget_nodup_In; [apply H|]. by apply list_elem_of_In. }
  destruct l as [|kd [|kd' l]]; [by left|right; exists kd; split; [done|apply Hk; left]|exfalso].
  pose proof (sublist_NoDup _ _ (i_keys _ _ H) Hsub) as Hn. cbn [map] in Hn. apply NoDup_cons in Hn as [Hne _].
  apply Hne. rewrite (i_pending _ _ H (fst kd) (fst kd')); [left| |]; apply Hk; [left|right; left].
Qed.

Lemma bar_due_pending show : only_pending (bar_due show).
Proof.
  intros k v. unfold bar_due. cbn [snd]. destruct v as [| | | | | |tx]; try done.
  destruct (status_is tx "pending-commit") eqn:E; [|done]. intros _. by exists tx.
Qed.

Lemma cue_due_pending cue : only_pending (cue_due cue).
Proof.
  intros k v. unfold cue_due. cbn [snd]. destruct v as [| | | | | |tx]; try done.
  destruct (status_is tx "pending-commit") eqn:E; [|done]. intros _. by exists tx.
Qed.

Lemma commit_one_outcome m s k show boundary w : inv m s -> holds_status m.(transactions) k "pending-commit" ->
  wp (commit_each [k] show boundary w) (fun _ m' => kept m s m' \/ pushed m s k m') m.
Proof.
  intros H (tx & Htx & Hs). cbn [commit_each]. apply wp_get. apply wp_lift_any; [|by left]. intros tx0 _.
  apply wp_lift_any; [|by left]. intros b _. apply wp_bind. eapply wp_mono.
  - apply (commit_outcome m s k); [done| |by eexists]. intros (tx' & Htx' & Hc). rewrite Htx in Htx'. injection Htx' as <-.
    destruct (i_txs _ _ H _ _ Htx) as (tx' & st & [= <-] & _ & Hst). unfold status_is, dget_none, dget_or in Hs, Hc.
    rewrite Hst in Hs, Hc. cbn in Hs, Hc. apply String.eqb_eq in Hs, Hc. congruence.
  - intros [committed|x] m' Hm'; by right.
Qed.

Lemma tick_outcome m s show w : inv m s ->
  wp (tick show w) (fun _ m' => kept m s m' \/ exists k, pushed m s k m') m.
Proof.
  intros H. unfold tick. apply wp_get. apply wp_lift_any; [|by left]. intros due Hdue.
  apply wp_lift_any; [|by left]. intros keyed Hkeyed. cbv zeta.
  destruct (select_pending m s _ _ H (bar_due_pending show) Hdue) as [->|([k tx] & -> & Hk)].
  - injection Hkeyed as <-. by left.
  - cbn [map_res] in Hkeyed. apply bind_ok in Hkeyed as (y & Hy & [= <-]). unfold due_key in Hy.
    apply bind_ok in Hy as (t & _ & [= <-]). eapply wp_mono; [by apply (commit_one_outcome m s)|].
    intros x m' [?|?]; [by left|right; by exists k].
Qed.

Lemma cue_outcome m s cue show e w : inv m s ->
  wp (trigger_cue cue show e w) (fun _ m' => kept m s m' \/ exists k, pushed m s k m') m.
Proof.
  intros H. unfold trigger_cue. cbv zeta. destruct (String.eqb _ ""); [by left|].
  apply wp_check; [by left|]. apply wp_get. apply wp_modify. set (m1 := set_cue _ _ m).
  assert (inv m1 s) as H1 by by eapply inv_same.
  apply wp_lift_any; [|by left]. intros due Hdue.
  destruct (select_pending m1 s _ _ H1 (cue_due_pending _) Hdue) as [->|([k tx] & -> & Hk)].
  - apply wp_touch_persist; [by left|by intros m2 m3 [Hm|(k & l & Hi & Hn)] Ha Ht;
      [left; by eapply kept_same|right; exists k, l; split; [by eapply inv_same|congruence]]|]. intros m' Hm'. by apply wp_ret.
  - eapply wp_mono; [by apply (commit_one_outcome m1 s)|]. intros x m' [Hm|Hm]; [by left|right; by exists k].
Qed.

(** ** What a commit returns *)

(** The state file could not be written. *)
Definition write_failed (w : world) (err : exn) : Prop := err = OSError "write failed" /\ exists i, w.(persist_fails) i = true.

(** A transaction that was just committed: its layer is active, and it has a receipt
    for that layer, which no evidence is attached to yet. *)
Definition fresh_commit (m : manager) (key : string) (tx : pydict) : Prop :=
  find_transaction m key = Ok tx /\ status_is tx "committed" = true /\ dget tx "transactionId" = Some (VStr key) /\
  exists layer receipt, m.(active) = VDict layer /\ dget layer "transactionId" = Some (VStr key) /\
    dget tx "receipt" = Some (VDict receipt) /\ dget receipt "publicRecord" = None /\
    dget receipt "transactionId" = Some (VStr key) /\ dget receipt "newPatchRevision" = dget layer "patchRevision".

Lemma fresh_commit_same m m' key tx : fresh_commit m key tx -> m'.(active) = m.(active) -> m'.(transactions) = m.(transactions) -> fresh_commit m' key tx.
Proof. unfold fresh_commit, find_transaction. by intros H -> ->. Qed.

(** Writing the file fails as such, or what follows goes on with the same layer and transactions. *)
Lemma wp_write {A} b (k : unit -> op A) Q (m : manager) :
  (forall m', b = true -> m'.(active) = m.(active) -> m'.(transactions) = m.(transactions) -> Q (Raise (OSError "write failed")) m') ->
  (forall m', m'.(active) = m.(active) -> m'.(transactions) = m.(transactions) -> wp (k tt) Q m') ->
  wp (st_bind (touch_persist b) k) Q m.
Proof.
  intros Hf Hk. apply wp_bind. unfold touch_persist, _touch, _persist. apply wp_modify, wp_get. destruct b; [by apply Hf|].
  unfold wp at 1, st_modify. cbn [fst snd]. by apply Hk.
Qed.

(** The revision is refused, or what follows goes on where it was. *)
Lemma wp_checked {A} e (k : unit -> op A) Q (m : manager) : (forall err, Q (Raise err) m) -> wp (k tt) Q m -> wp (st_bind (_check_revision e) k) Q m.
Proof.
  intros Hr Hk. apply wp_bind. assert (forall z, wp (let* m0 := st_get in if z =? revision m0 then st_ret tt else st_raise (AdaptationRevisionConflict z (revision m0)))
    (fun x s' => match x with Ok a => wp (k a) Q s' | Raise err => Q (Raise err) s' end) m) as Hz.
  { intros z. apply wp_get. destruct (_ =? _); [by apply wp_ret|by apply wp_raise]. }
  unfold _check_revision. destruct e; [by apply wp_ret|..]; (apply wp_lift_any; [intros; apply Hz|done]).
Qed.

(** One commit: the transaction with its receipt, unless the file cannot be written. *)
Definition commit_returned (key : string) (w : world) (x : res pydict) (m' : manager) : Prop :=
  match x with Ok tx => fresh_commit m' key tx | Raise err => write_failed w err end.

Lemma requested_by_dict tx d : dget tx "commit" = Some (VDict d) -> exists v, requested_by_of tx = Ok v.
Proof. intros H. unfold requested_by_of, dget_or. rewrite H. cbn. by destruct (dget d "requestedBy"); eexists. Qed.

Lemma commit_result m s key show boundary w tx d : inv m s -> dget m.(transactions) key = Some (VDict tx) -> dget tx "commit" = Some (VDict d) ->
  wp (_commit_locked key show boundary w) (commit_returned key w) m.
Proof.
  intros H Hv Hcommit. pose proof H as []. destruct (i_txs0 _ _ Hv) as (tx' & st & [= <-] & Hid & Hst).
  unfold _commit_locked. apply wp_get. apply wp_lift with (a := tx); [unfold find_transaction; by rewrite Hv|].
  cbv zeta. rewrite i_active0, py_or_top. cbn [vget]. rewrite (top_revision m s H).
  apply wp_lift with (a := VInt (Z.of_nat (length s))); [done|]. apply wp_lift with (a := Z.of_nat (length s)); [done|].
  apply wp_lift with (a := VStr key); [unfold dindex; by rewrite Hid|].
  set (layer := layer_of _ _ _ _ _). set (tx1 := mark_committed _ _ _ _ _).
  apply wp_modify. unfold put_transaction at 1. apply wp_modify.
  assert (dget tx1 "commit" = Some (VDict d)) as Hc1 by by (unfold tx1; rewrite marked_get).
  destruct (requested_by_dict _ _ Hc1) as [approved Ha]. apply wp_lift with (a := approved); [done|].
  apply wp_lift with (a := dget_or (as_dict (top s)) "patchRevision" VNone); [done|]. intros.
  set (receipt := receipt_of _ _ _ _ _ _ _ _). unfold put_transaction. apply wp_modify. apply wp_write.
  { intros m' Hb _ _. split; [done|]. by exists 0%nat. }
  intros m' Ha' Ht'. apply wp_ret. cbn [commit_returned]. unfold fresh_commit, find_transaction. rewrite Ht'. cbn [transactions set_transactions]. rewrite dget_dset_eq.
  split; [done|]. unfold status_is, dget_none, dget_or. rewrite !dget_dset_ne by done. unfold tx1. rewrite !marked_get. cbn [dget String.eqb Ascii.eqb Bool.eqb].
  split; [done|]. split; [done|]. exists layer, receipt. rewrite Ha'. by rewrite dget_dset_eq.
Qed.

Lemma write_failed_later t i n w err : write_failed (later t i n w) err -> write_failed w err.
Proof. intros [-> [k Hk]]. split; [done|]. by exists (n + k)%nat. Qed.

Lemma schedule_result m s k mode show bpm cue by_ e w : inv m s ->
  wp (schedule_commit k mode show bpm cue by_ e w) (fun x m' => m'.(active) = m.(active) \/ commit_returned k w x m') m.
Proof.
  intros H. unfold schedule_commit. cbv zeta. destruct (negb _); [apply wp_raise; by left|].
  apply wp_checked; [by left|]. apply wp_get.
  apply wp_lift_any; [|by left]. intros tx Hf. apply wp_lift_any; [|by left]. intros _ _.
  apply wp_lift_any; [|by left]. intros valid _. destruct (find_ok m s k tx H Hf) as (Hg & Hid & st & Hst & Hs).
  destruct (negb _); [apply wp_raise; by left|]. destruct (status_is tx "committed") eqn:Ec; [apply wp_ret; by left|].
  destruct (pending_others _ _) as [|other l] eqn:Hp; [|apply wp_raise; by left].
  apply wp_lift_any; [|by left]. intros commit _. set (status := if String.eqb _ "immediate" then "validated" else "pending-commit").
  set (tx' := dset (dset (dset tx _ _) _ _) _ _). unfold put_transaction. apply wp_modify. apply wp_write.
  { intros m' _ Ha _. by left. }
  intros m' Ha Ht. cbn [active transactions set_transactions] in Ha, Ht. destruct (String.eqb _ "immediate") eqn:Ei; [|apply wp_ret; by left].
  assert (inv m' s) as Hi.
  { apply (inv_same (set_transactions (dset (transactions m) k (VDict tx')) m)); [|exact Ha|exact Ht]. eapply (inv_store m s k tx tx' st status); try done.
    - intros ->. by rewrite Hs in Ec.
    - unfold tx'. by rewrite !dget_dset_ne.
    - unfold tx'. by rewrite dget_dset_ne, dget_dset_eq. }
  eapply wp_mono; [apply (commit_result m' s k _ _ _ tx' commit); [done|by rewrite Ht, dget_dset_eq|]|].
  - unfold tx'. by rewrite !dget_dset_ne, dget_dset_eq by done.
  - intros [tx2|err] m2 Hm2; right; [exact Hm2|]. by eapply write_failed_later.
Qed.

(** What commits the transactions that are due returns: none, or the one that was. *)
Definition due_returned (m : manager) (w : world) (x : res (list pyval)) (m' : manager) : Prop :=
  (m'.(active) = m.(active) /\ forall l, x = Ok l -> l = []) \/
  match x with Ok l => exists key tx, l = [VDict tx] /\ fresh_commit m' key tx | Raise err => write_failed w err end.

Lemma commit_one_result m s k tx d show boundary w : inv m s -> dget m.(transactions) k = Some (VDict tx) -> dget tx "commit" = Some (VDict d) ->
  wp (commit_each [k] show boundary w) (due_returned m w) m.
Proof.
  intros H Hk Hc. cbn [commit_each]. apply wp_get. apply wp_lift_any; [|by left]. intros tx0 _. apply wp_lift_any; [|by left]. intros b _.
  apply wp_bind. eapply wp_mono; [by eapply (commit_result m s k)|]. intros [committed|err] m' Hm'; [|by right]. right. exists k, committed. by split.
Qed.

Lemma commit_dict tx k v s : vget (commit_of tx) k VNone = Ok v -> py_eq v (VStr s) = true -> exists d, dget tx "commit" = Some (VDict d).
Proof.
  unfold commit_of, dget_none, dget_or. destruct (dget tx "commit") as [c|]; cbn; [|by intros [= <-]].
  unfold py_or. destruct (truthy c); [|by intros [= <-]]. destruct c; try done. by eexists.
Qed.

(** A test that only transactions pass whose commit was requested. *)
Definition only_requested (p : string * pyval -> res bool) : Prop :=
  forall k v, p (k, v) = Ok true -> exists tx d, v = VDict tx /\ status_is tx "pending-commit" = true /\ dget tx "commit" = Some (VDict d).

Lemma bar_due_requested show : only_requested (bar_due show).
Proof.
  intros k v. unfold bar_due. cbn [snd]. destruct v as [| | | | | |tx]; try done. unfold and_then. destruct (status_is tx "pending-commit") eqn:E; [|done].
  intros (mode & Hm & H)%bind_ok. destruct (py_eq mode _) eqn:Em; [|done]. destruct (commit_dict _ _ _ _ Hm Em) as [d Hd]. by exists tx, d.
Qed.

Lemma cue_due_requested cue : only_requested (cue_due cue).
Proof.
  intros k v. unfold cue_due. cbn [snd]. destruct v as [| | | | | |tx]; try done. unfold and_then. destruct (status_is tx "pending-commit") eqn:E; [|done].
  intros (mode & Hm & H)%bind_ok. destruct (py_eq mode _) eqn:Em; [|done]. destruct (commit_dict _ _ _ _ Hm Em) as [d Hd]. by exists tx, d.
Qed.

Lemma select_requested m s p l : inv m s -> only_requested p -> select p m.(transactions) = Ok l ->
  l = [] \/ exists k tx d, l = [(k, tx)] /\ dget m.(transactions) k = Some (VDict tx) /\ dget tx "commit" = Some (VDict d).
Proof.
  intros H Hp Hl. destruct (select_pending m s p l H) as [->|([k tx] & -> & _)]; [|done|by left|].
  { intros k v Hv. destruct (Hp k v Hv) as (tx & d & -> & Hs & _). by exists tx. }
  right. destruct (select_ok _ _ _ Hl) as [_ Hall]. destruct (Hall (k, tx) ltac:(left)) as (v & Hin & Hv & Hpv). cbn [fst snd] in *.
  destruct (Hp _ _ Hpv) as (tx' & d & -> & _ & Hd). cbn [as_dict] in Hv. subst tx'. exists k, tx, d. split; [done|]. split; [|done].
  apply dget_nodup_In; [apply H|]. by apply list_elem_of_In.
Qed.

Lemma tick_result m s show w : inv m s -> wp (tick show w) (due_returned m w) m.
Proof.
  intros H. unfold tick. apply wp_get. apply wp_lift_any; [|by left]. intros due Hdue. apply wp_lift_any; [|by left]. intros keyed Hkeyed. cbv zeta.
  destruct (select_requested m s _ _ H (bar_due_requested show) Hdue) as [->|(k & tx & d & -> & Hk & Hd)].
  - injection Hkeyed as <-. left. split; [done|]. by intros l [= <-].
  - cbn [map_res] in Hkeyed. apply bind_ok in Hkeyed as (y & Hy & [= <-]). unfold due_key in Hy. apply bind_ok in Hy as (t & _ & [= <-]).
    by eapply (commit_one_result m s k tx d).
Qed.

Lemma cue_result m s cue show e w : inv m s -> wp (trigger_cue cue show e w) (due_returned m w) m.
Proof.
  intros H. unfold trigger_cue. cbv zeta. destruct (String.eqb _ ""); [by left|].
  apply wp_checked; [by left|]. apply wp_get. apply wp_modify. set (m1 := set_cue _ _ m).
  assert (inv m1 s) as H1 by by eapply inv_same. apply wp_lift_any; [|by left]. intros due Hdue.
  destruct (select_requested m1 s _ _ H1 (cue_due_requested _) Hdue) as [->|(k & tx & d & -> & Hk & Hd)].
  - apply wp_write; [intros m' _ Ha _; by left|]. intros m' Ha _. apply wp_ret. left. split; [done|]. by intros l [= <-].
  - eapply wp_mono; [by eapply (commit_one_result m1 s k tx d)|]. intros x m' [Hm|Hm]; [by left|right]. destruct x; [done|by eapply write_failed_later].
Qed.

Lemma rollback_result m s k show by_ e w : inv m s ->
  wp (rollback k show by_ e w) (fun x m' => m'.(active) = m.(active) \/ match x with Ok _ => True | Raise err => write_failed w err end) m.
Proof.
  intros H. unfold rollback. apply wp_checked; [by left|]. apply wp_get. apply wp_lift_any; [|by left]. intros tx Hf.
  apply wp_lift_any; [|by left]. intros _ _. cbv zeta. destruct (find_ok m s k tx H Hf) as (Hg & Hid & st & Hst & Hs). rewrite !Hs.
  destruct (String.eqb_spec st "pending-commit") as [->|Hnp].
  { unfold put_transaction. apply wp_modify, wp_write; intros; by left. }
  destruct (String.eqb_spec st "committed") as [->|]; [cbn [negb]|apply wp_raise; by left].
  destruct (active m) as [| | | | | |layer] eqn:Ea; try (apply wp_raise; by left).
  destruct (py_eq (dget_none layer "transactionId") (VStr k)) eqn:Ek; [cbn [negb]|apply wp_raise; by left].
  pose proof H as []. rewrite Ea in i_active0. destruct s as [|[k0 layer0] rest]; [done|]. cbn [top] in i_active0.
  injection i_active0 as ->. destruct i_chain0 as (Hk0 & Hrev & (tx0 & Ht0 & _ & Hp0) & Hrest).
  unfold dget_none, dget_or in Ek. rewrite Hk0 in Ek. cbn in Ek. apply String.eqb_eq in Ek as ->. rewrite Hg in Ht0. injection Ht0 as ->.
  rewrite Hp0, py_or_top. apply wp_modify. unfold put_transaction at 1. apply wp_modify.
  apply wp_lift with (a := dget_or (as_dict (top rest)) "venueName" VNone); [done|]. apply wp_lift with (a := dget_or (as_dict (top rest)) "transactionId" VNone); [done|].
  unfold put_transaction. apply wp_modify. apply wp_write; [intros m' Hb _ _; right; split; [done|]; by exists 0%nat|]. intros m' _ _. apply wp_ret. by right.
Qed.

(** Validating leaves the layer. What was not committed keeps its place in the
    stack, and what was committed is not valid. *)
Definition found_invalid (tx : pydict) : Prop := exists d, dget tx "validation" = Some (VDict d) /\ dget d "valid" = Some (VBool false).

Lemma validate_result m s k plan reqs e w : inv m s ->
  wp (validate k plan reqs e w) (fun x m' => m'.(active) = m.(active) /\ match x with Ok tx => inv m' s \/ found_invalid tx | Raise _ => True end) m.
Proof.
  intros H. unfold validate. apply wp_checked; [done|]. apply wp_get. apply wp_lift_any; [|done]. intros tx Hf.
  apply wp_lift_any; [|done]. intros _ _. apply wp_lift_any; [|done]. intros blockers Hb. destruct (find_ok m s k tx H Hf) as (Hg & Hid & st & Hst & Hs).
  cbv zeta. set (tx' := dset (dset (dset tx _ _) _ _) _ _). unfold put_transaction. apply wp_modify. apply wp_write; [done|].
  intros m' Ha Ht. apply wp_ret. split; [done|]. destruct (String.eqb_spec st "committed") as [->|Hnc]; [right|left].
  - eexists. split; [unfold tx'; by rewrite !dget_dset_ne, dget_dset_eq by done|]. cbn. f_equal. f_equal. unfold validation_blockers in Hb.
    apply bind_ok in Hb as (final & Hfinal & Hb). apply bind_ok in Hb as (x & _ & Hb). apply bind_ok in Hb as (y & _ & Hb).
    unfold dget_none, dget_or in Hfinal. rewrite Hst in Hfinal. injection Hfinal as <-. by injection Hb as <-.
  - apply (inv_same (set_transactions (dset (transactions m) k (VDict tx')) m)); [|exact Ha|exact Ht]. eapply (inv_store m s k tx tx' st (if plan_accepted blockers plan then "validated" else "proposed")); try done.
    + unfold tx'. by rewrite !dget_dset_ne.
    + unfold tx'. by rewrite dget_dset_ne, dget_dset_eq.
    + by destruct (plan_accepted _ _).
    + by destruct (plan_accepted _ _).
Qed.

(** What attaches the evidence of a fresh commit: it is stored beside the receipt,
    unless the file cannot be written. *)
Lemma attach_result m key tx evidence w : fresh_commit m key tx ->
  wp (attach_receipt_evidence key evidence w) (fun x m' => m'.(active) = m.(active) /\
    match x with
    | Ok _ => exists tx' receipt, find_transaction m' key = Ok tx' /\ dget tx "receipt" = Some (VDict receipt) /\
                dget tx' "receipt" = Some (VDict (dset receipt "publicRecord" evidence))
    | Raise err => write_failed w err
    end) m.
Proof.
  intros (Hf & Hs & Hid & layer & receipt & Ha & _ & Hr & Hp & _). unfold attach_receipt_evidence. apply wp_get. apply wp_lift with (a := tx); [done|].
  unfold get_dict, dget_none, dget_or. rewrite Hr, Hs. cbn [negb]. rewrite Hp. cbn [is_dict]. cbv zeta. unfold put_transaction. apply wp_modify. apply wp_write.
  { intros m' Hb Ha' _. split; [done|]. split; [done|]. by exists 0%nat. }
  intros m' Ha' Ht. apply wp_ret. split; [done|]. eexists _, receipt. unfold find_transaction. rewrite Ht. cbn [transactions set_transactions]. rewrite dget_dset_eq.
  split; [done|]. split; [done|]. by rewrite dget_dset_eq.
Qed.

(** ** Runs *)

Inductive action :=
| Propose (plan : pydict) (requirements : list pyval) (use_local_discovery : bool) (show_venue : string) (expected : pyval)
| Validate (id : string) (plan : pydict) (requirements : list pyval) (expected : pyval)
| Schedule (id : string) (mode : pyval) (show_seconds bpm : float) (cue_id : pyval) (requested_by : string) (expected : pyval)
| Tick (show_seconds : float)
| Cue (cue_id : string) (show_seconds : float) (expected : pyval)
| Rollback (id : string) (show_seconds : float) (requested_by : string) (expected : pyval)
| Attach (id : string) (evidence : pyval).

Definition act (a : action) (w : world) (m : manager) : manager :=
  match a with
  | Propose p r l v e => fst (propose p r l v e w m)
  | Validate id p r e => fst (validate id p r e w m)
  | Schedule id md s b c by_ e => fst (schedule_commit id md s b c by_ e w m)
  | Tick s => fst (tick s w m)
  | Cue c s e => fst (trigger_cue c s e w m)
  | Rollback id s by_ e => fst (rollback id s by_ e w m)
  | Attach id ev => fst (attach_receipt_evidence id ev w m)
  end.

(** Identifiers are fresh, and no transaction is validated while it is committed. *)
Definition allowed (a : action) (w : world) (m : manager) : Prop :=
  match a with
  | Propose _ _ _ _ _ => dget m.(transactions) ("adapt-" +:+ slice 16 (w.(uuid) 0%nat)) = None
  | Validate id _ _ _ => ~ holds_status m.(transactions) id "committed"
  | _ => True
  end.

(** What an observer of the active layer writes down: a change by a rollback
    removes the newest entry, any other change adds one. *)
Definition observe (a : action) (m m' : manager) (seen : list pyval) : list pyval :=
  if bool_decide (m'.(active) = m.(active)) then seen
  else match a with Rollback _ _ _ _ => tl seen | _ => m'.(active) :: seen end.

Fixpoint observed (steps : list (action * world)) (m : manager) (seen : list pyval) : manager * list pyval :=
  match steps with
  | [] => (m, seen)
  | (a, w) :: rest => let m' := act a w m in observed rest m' (observe a m m' seen)
  end.

Fixpoint all_allowed (steps : list (action * world)) (m : manager) : Prop :=
  match steps with
  | [] => True
  | (a, w) :: rest => allowed a w m /\ all_allowed rest (act a w m)
  end.

Lemma act_outcome a w m s : inv m s -> allowed a w m ->
  kept m s (act a w m)
  \/ (exists k, pushed m s k (act a w m)) /\ (forall id t b e, a <> Rollback id t b e)
  \/ (exists k, popped m s k (act a w m)) /\ exists id t b e, a = Rollback id t b e.
Proof.
  intros H Ha. destruct a as [p r l v e|id p r e|id md t b c by_ e|t|c t e|id t by_ e|id ev]; cbn [act allowed] in *.
  - left. by apply (propose_outcome m s p r l v e w).
  - left. by apply (validate_outcome m s id p r e w).
  - destruct (schedule_outcome m s id md t b c by_ e w H) as [?|?]; [by left|right; left]. split; [by exists id|done].
  - destruct (tick_outcome m s t w H) as [?|?]; [by left|right; left]. by split.
  - destruct (cue_outcome m s c t e w H) as [?|?]; [by left|right; left]. by split.
  - destruct (rollback_outcome m s id t by_ e w H) as [?|?]; [by left|right; right]. split; [by exists id|by eexists _, _, _, _].
  - left. by apply (attach_outcome m s id ev w).
Qed.

(** The active layers of a stack, from the newest to none. *)
Fixpoint shown (s : layers) : list pyval :=
  match s with [] => [VNone] | (_, layer) :: rest => VDict layer :: shown rest end.

Lemma shown_top s : hd VNone (shown s) = top s.
Proof. by destruct s as [|[k l] s]. Qed.

Lemma observed_stack steps : forall m s, inv m s -> all_allowed steps m ->
  exists s', inv (fst (observed steps m (shown s))) s' /\ snd (observed steps m (shown s)) = shown s'.
Proof.
  induction steps as [|[a w] steps IH]; intros m s H Hall; [by exists s|]. destruct Hall as [Ha Hall]. cbn [observed].
  unfold observe. destruct (act_outcome a w m s H Ha) as [[Hi He]|[[(k & layer & Hi & He) Hr]|[(k & layer & rest & -> & Hi & He) Hr]]].
  - rewrite bool_decide_eq_true_2 by done. by apply IH.
  - rewrite bool_decide_eq_false_2 by done. pose proof (i_active _ _ Hi) as Hact. cbn [top] in Hact. rewrite Hact.
    destruct a; try (by apply (IH _ _ Hi)). by destruct (Hr id show_seconds requested_by expected).
  - rewrite bool_decide_eq_false_2 by done. destruct Hr as (id & t & b & e & ->). cbn [shown tl]. by apply (IH _ _ Hi).
Qed.

Lemma initial_inv f : inv (initial_state f) [].
Proof.
  split; try done; cbn; try constructor.
  - intros k (tx & Htx & _). done.
  - intros k k' (tx & Htx & _). done.
Qed.

(** C39: venue adaptation is an undo stack. Take any run of proposals,
    validations, scheduled, bar-timed and cue-timed commits, rollbacks and
    receipts, with writes of the state file failing anywhere, in which new
    identifiers are fresh and no committed transaction is validated again. An
    observer who pushes the active layer at every commit and pops at every
    rollback always sees the active layer on top: a rollback restores exactly
    the layer its transaction replaced, and the first one restores none. The
    patch revision is the depth of the stack, and at most one commit is pending. *)
Theorem rollback_restores_the_replaced_layer steps :
  all_allowed steps (initial_state None) ->
  let '(m, seen) := observed steps (initial_state None) [VNone] in
  m.(active) = hd VNone seen
  /\ (forall layer, m.(active) = VDict layer -> dget layer "patchRevision" = Some (VInt (Z.of_nat (length seen) - 1)))
  /\ (forall k k', holds_status m.(transactions) k "pending-commit" ->
                   holds_status m.(transactions) k' "pending-commit" -> k = k').
Proof.
  intros Ha. destruct (observed_stack steps _ _ (initial_inv None) Ha) as (s & Hi & Hs). cbn [shown] in Hi, Hs.
  destruct (observed _ _ _) as [m seen]. cbn [fst snd] in Hi, Hs. subst seen. rewrite shown_top. destruct Hi.
  split_and!; [done| |done]. intros layer Hl. rewrite Hl in i_active0. destruct s as [|[k l] s]; [done|].
  injection i_active0 as ->. destruct i_chain0 as (_ & -> & _). do 2 f_equal. cbn [shown length].
  assert (length (shown s) = S (length s)) as ->; [|lia]. clear. induction s as [|[k l] s IH]; cbn; [done|by rewrite IH].
Qed.

(** ** Concrete runs *)

Definition sample_plan : pydict :=
  [("compatible", VBool true); ("grade", VStr "direct"); ("readiness", VStr "ready");
   ("venue", VDict [("id", VStr "club"); ("name", VStr "Club")]);
   ("devicePlan", VList [VDict [("id", VStr "output"); ("decision", VDict [("status", VStr "direct")]);
                                ("provider", VDict [("type", VStr "device"); ("id", VStr "audio-a")]);
                                ("patch", VDict [("target", VStr "audio-a:out-1-2")])]])].

Definition sample_requirements : list pyval := [VDict [("id", VStr "output"); ("patchKey", VStr "audio.foh")]].

Definition sample_world (i : Z) : world :=
  {| now := fun n => "t" +:+ dec i +:+ "." +:+ dec (Z.of_nat n); uuid := fun n => dec (1000 * i + Z.of_nat n);
     persist_fails := fun _ => false |}.

Definition plain (i : Z) (a : action) : action * world := (a, sample_world i).

Definition two_commits : list (action * world) :=
  [plain 1 (Propose sample_plan sample_requirements false "" VNone);
   plain 2 (Propose sample_plan sample_requirements false "Hall" VNone);
   plain 3 (Validate "adapt-1000" sample_plan sample_requirements VNone);
   plain 4 (Validate "adapt-2000" sample_plan sample_requirements VNone);
   plain 5 (Schedule "adapt-1000" VNone (float_of_Z 1) (float_of_Z 120) (VStr "") "" VNone);
   plain 6 (Schedule "adapt-2000" (VStr "next-bar") (float_of_Z 1) (float_of_Z 120) (VStr "") "" VNone);
   plain 7 (Tick (float_of_Z 1)); plain 8 (Tick (float_of_Z 2));
   plain 9 (Rollback "adapt-2000" (float_of_Z 3) "" VNone)].

Lemma not_committed txs k : match dget txs k with Some (VDict tx) => status_is tx "committed" | _ => false end = false ->
  ~ holds_status txs k "committed".
Proof. intros H (tx & Ht & Hs). by rewrite Ht, Hs in H. Qed.

Lemma two_commits_allowed : all_allowed two_commits (initial_state None).
Proof.
  cbn [all_allowed two_commits plain allowed]. split_and!; try done; try (apply not_committed); vm_compute; reflexivity.
Qed.

Lemma rollback_restores_the_replaced_layer_witness :
  let '(m, seen) := observed two_commits (initial_state None) [VNone] in
  m.(active) = hd VNone seen
  /\ (forall layer, m.(active) = VDict layer -> dget layer "patchRevision" = Some (VInt (Z.of_nat (length seen) - 1)))
  /\ (forall k k', holds_status m.(transactions) k "pending-commit" ->
                   holds_status m.(transactions) k' "pending-commit" -> k = k').
Proof. apply (rollback_restores_the_replaced_layer two_commits). exact two_commits_allowed. Defined.

(** The run commits at the bar line, not before, and the rollback leaves one layer. *)
Example two_commits_seen :
  map (fun n => length (snd (observed (firstn n two_commits) (initial_state None) [VNone]))) [7; 8; 9]%nat
  = [2; 3; 2]%nat.
Proof. vm_compute. done. Qed.

(** A second request to commit the active transaction validates it first: the
    request is refused, but the transaction is now only proposed, so the active
    layer can no longer be rolled back. *)
Example second_commit_request_disables_rollback :
  let m := fst (observed (firstn 5 two_commits) (initial_state None) []) in
  let '(m1, validated) := validate "adapt-1000" sample_plan sample_requirements VNone (sample_world 6) m in
  let '(_, rolled) := rollback "adapt-1000" (float_of_Z 2) "" VNone (sample_world 7) m1 in
  m1.(active) = m.(active) /\ match validated with Ok tx => status_is tx "proposed" | Raise _ => false end = true
  /\ rolled = Raise (ValueError "only committed or pending transactions can be rolled back").
Proof. vm_compute. done. Qed.

(** Validated twice, a committed transaction commits over its own layer; the
    rollback then leaves that layer active and the transaction rolled back. *)
Example committed_twice_loses_the_replaced_layer :
  let again i := [plain i (Validate "adapt-1000" sample_plan sample_requirements VNone);
                  plain (i + 1) (Validate "adapt-1000" sample_plan sample_requirements VNone);
                  plain (i + 2) (Schedule "adapt-1000" VNone (float_of_Z 2) (float_of_Z 120) (VStr "") "" VNone)] in
  let m := fst (observed (firstn 5 two_commits ++ again 20) (initial_state None) []) in
  let '(m1, rolled) := rollback "adapt-1000" (float_of_Z 3) "" VNone (sample_world 30) m in
  match rolled with Ok tx => status_is tx "rolled-back" | Raise _ => false end = true
  /\ dget_none (as_dict m1.(active)) "transactionId" = VStr "adapt-1000"
  /\ dget_none (as_dict m1.(active)) "patchRevision" = VInt 1.
Proof. vm_compute. done. Qed.

(** A rolled back transaction commits again without a new validation. *)
Example rolled_back_commits_without_validation :
  let m := fst (observed (firstn 5 two_commits ++ [plain 8 (Rollback "adapt-1000" (float_of_Z 2) "" VNone)]) (initial_state None) []) in
  let '(_, result) := schedule_commit "adapt-1000" VNone (float_of_Z 3) (float_of_Z 120) (VStr "") "" VNone (sample_world 9) m in
  m.(active) = VNone /\ match result with Ok tx => status_is tx "committed" | Raise _ => false end = true.
Proof. vm_compute. done. Qed.

(** ** The state file *)

(** The state file restores the manager. The document [_persist] writes reads
    back, after a restart, as the same revision, cue sequence, active layer, last
    cue and transactions, up to the order of the keys of its objects. *)
Theorem state_file_round_trip m : json_ok (VDict (state_dict m)) = true -> 1 <= m.(revision) -> 0 <= m.(cueSequence) ->
  dict_or_null m.(active) = m.(active) -> dict_or_null m.(lastCue) = m.(lastCue) ->
  let m' := fst (_persist false m) in
  _load m'.(state_file)
  = Ok {| revision := m.(revision); active := canon m.(active); transactions := as_dict (canon (VDict m.(transactions)));
          cueSequence := m.(cueSequence); lastCue := canon m.(lastCue); state_file := m'.(state_file) |}.
Proof.
  intros Hok Hr Hn Ha Hl m'. unfold _load, m', _persist. rewrite st_get_bind. unfold st_modify. cbn [fst set_file state_file].
  rewrite utf8_decode_utf8. cbn [mbind res_bind]. rewrite loads_dumps_line by done. cbn [mbind res_bind].
  assert (forall v, dict_or_null v = v -> dict_or_null (canon v) = canon v) as Hc by by intros [].
  change (canon (VDict (state_dict m)))
    with (VDict [("active", canon (active m)); ("cueSequence", VInt (cueSequence m)); ("lastCue", canon (lastCue m));
                 ("revision", VInt (revision m)); ("transactions", canon (VDict (transactions m)))]).
  unfold read_state. change (dget_or _ "revision" (VInt 1)) with (VInt (revision m)).
  change (dget_or _ "cueSequence" (VInt 0)) with (VInt (cueSequence m)).
  change (dget_none _ "transactions") with (canon (VDict (transactions m))).
  change (dget_none _ "active") with (canon (active m)). change (dget_none _ "lastCue") with (canon (lastCue m)).
  rewrite (Hc _ Ha), (Hc _ Hl). cbn [py_int mbind res_bind canon]. rewrite py_or_dict. cbn [py_dict mbind res_bind catch].
  by rewrite !Z.max_r by done.
Qed.

Definition sample_manager : manager :=
  {| revision := 3; active := VDict [("transactionId", VStr "adapt-1"); ("patchRevision", VInt 1)];
     transactions := [("adapt-1", VDict [("transactionId", VStr "adapt-1"); ("status", VStr "committed"); ("previousActive", VNone)])];
     cueSequence := 0; lastCue := VNone; state_file := None |}.

Lemma state_file_round_trip_witness :
  let m' := fst (_persist false sample_manager) in
  _load m'.(state_file)
  = Ok {| revision := 3; active := canon (active sample_manager);
          transactions := as_dict (canon (VDict (transactions sample_manager)));
          cueSequence := 0; lastCue := canon (lastCue sample_manager); state_file := m'.(state_file) |}.
Proof. apply (state_file_round_trip sample_manager); vm_compute; first [reflexivity|discriminate]. Defined.
