(* ===== verification/Venue.v ===== *)
(** * Venue profiles and the compatibility plan (backend/venue.py)

    Normalization of a venue profile, the merge with discovered devices, the
    lighting fixture intent, the plan of a show's requirements against the
    venue, and the store of the selected profile. Profiles, devices and humans
    keep the fields of the JSON documents they are. *)

From S2P Require Import Prelude PyStr PyFloat PyVal PyFacts Json JsonText StateLogic Reconciliation Compatibility Adaptation.
From Stdlib Require Import SpecFloat.

#[local] Open Scope string_scope.
#[local] Open Scope list_scope.
#[local] Open Scope Z_scope.
#[local] Open Scope st_scope.

Definition VENUE_PROFILE_DOCUMENT_TYPE : string := "org.upp.venue-profile".
Definition VENUE_PROFILE_SCHEMA_VERSION : Z := 1.

(** [max(1, int(data.get(k, 1)))], or the default when it does not convert. *)
Definition version_of (data : pydict) (k : string) (default : Z) : res Z :=
  catch type_or_value (v ← py_int (dget_or data k (VInt 1)); Ok (Z.max 1 v)) (fun _ => Ok default).

Definition inspect_venue_profile (data : pyval) : res pydict :=
  let unreadable mode reason := [("readable", VBool false); ("mode", VStr mode); ("reason", VStr reason)] in
  match data with
  | VDict data =>
      let document_type := text_or data "documentType" VENUE_PROFILE_DOCUMENT_TYPE in
      incoming ← version_of data "schemaVersion" VENUE_PROFILE_SCHEMA_VERSION;
      minimum ← version_of data "minimumReaderSchemaVersion" incoming;
      let versions := [("incomingSchemaVersion", VInt incoming); ("minimumReaderSchemaVersion", VInt minimum);
                       ("readerSchemaVersion", VInt VENUE_PROFILE_SCHEMA_VERSION)] in
      if negb (String.eqb document_type VENUE_PROFILE_DOCUMENT_TYPE)
      then Ok (unreadable "wrong-document-type" ("unsupported venue document type: " +:+ document_type) ++ versions)
      else if VENUE_PROFILE_SCHEMA_VERSION <? minimum
      then Ok (unreadable "reader-too-old"
                 ("venue profile requires schema reader " +:+ dec minimum +:+ ", this core supports "
                  +:+ dec VENUE_PROFILE_SCHEMA_VERSION) ++ versions)
      else Ok ([("readable", VBool true);
                ("mode", VStr (if incoming =? VENUE_PROFILE_SCHEMA_VERSION then "exact"
                               else if VENUE_PROFILE_SCHEMA_VERSION <? incoming then "forward-compatible" else "legacy"))]
               ++ versions ++ [("unknownFieldsPreserved", VBool true)])
  | _ => Ok (unreadable "invalid" "venue profile must be an object"
             ++ [("readerSchemaVersion", VInt VENUE_PROFILE_SCHEMA_VERSION)])
  end.

(** ** Normalization *)

Definition _capabilities (values : pyval) : list string :=
  match values with
  | VList l => sorted_set (List.filter (fun s => negb (String.eqb s "")) (map (fun v => strip (py_str v)) l))
  | _ => []
  end.

Definition _float (value : pyval) (default minimum : float) : res float :=
  v ← catch type_or_value (py_float value) (fun _ => Ok default); Ok (fmax minimum v).

Definition zero : float := float_of_Z 0.

Definition normalize_latency (data : pyval) : res pydict :=
  let raw := as_dict data in
  fixed ← _float (dget_none raw "fixedMs") zero zero;
  jitter ← _float (dget_none raw "jitterMs") zero zero;
  lookahead ← _float (dget_none raw "lookaheadMs") zero zero;
  Ok (dmerge raw [("fixedMs", VFloat fixed); ("jitterMs", VFloat jitter); ("lookaheadMs", VFloat lookahead);
                  ("timestamped", VBool (truthy (dget_or raw "timestamped" (VBool false))));
                  ("clockClass", VStr (str_or (slice 64 (strip (text_or raw "clockClass" "local"))) "local"))]).

(** [str(raw.get(k) or default).strip()[:n] or default]. *)
Definition label (raw : pydict) (k : string) (n : nat) (default : string) : string :=
  str_or (slice n (strip (py_str (py_or (dget_none raw k) (VStr default))))) default.

(** [str(raw.get(k, default)).strip()[:n] or default]. *)
Definition trimmed (raw : pydict) (k : string) (n : nat) (default : string) : string :=
  str_or (slice n (strip (text_or raw k default))) default.

Definition device_statuses : list string := ["expected"; "online"; "offline"; "degraded"; "unknown"].

Definition device_status (raw : pydict) : string :=
  let status := lower (strip (text_or raw "status" "expected")) in
  if existsb (String.eqb status) device_statuses then status else "unknown".

Definition normalize_device (raw : pydict) (index : Z) : res pydict :=
  let device_id := label raw "id" 128 ("device-" +:+ dec index) in
  latency ← normalize_latency (dget_none raw "latency");
  Ok (dmerge raw [("id", VStr device_id); ("name", VStr (label raw "name" 160 device_id));
                  ("kind", VStr (str_or (slice 64 (lower (strip (text_or raw "kind" "device")))) "device"));
                  ("status", VStr (device_status raw));
                  ("capabilities", text_list (_capabilities (dget_none raw "capabilities")));
                  ("latency", VDict latency);
                  ("roles", text_list (_capabilities (dget_none raw "roles")));
                  ("matchIds", text_list (_capabilities (py_or (dget_none raw "matchIds") (dget_none raw "aliases"))));
                  ("optional", VBool (truthy (dget_or raw "optional" (VBool false))))]).

Definition normalize_human (raw : pydict) (index : Z) : pydict :=
  let human_id := label raw "id" 128 ("human-" +:+ dec index) in
  dmerge raw [("id", VStr human_id); ("name", VStr (label raw "name" 160 human_id));
              ("available", VBool (truthy (dget_or raw "available" (VBool true))));
              ("capabilities", text_list (_capabilities (dget_none raw "capabilities")));
              ("roles", text_list (_capabilities (dget_none raw "roles")));
              ("authority", text_list (_capabilities (dget_none raw "authority")))].

Definition normalize_patch_item (raw : pyval) : pyval :=
  match raw with
  | VDict item =>
      let target := slice 160 (strip (text_or item "target" "")) in
      VDict (if String.eqb target "" then item else dset item "target" (VStr target))
  | v => v
  end.

Definition normalize_patch (data : pyval) : pydict :=
  match data with VDict d => map (fun kv => (fst kv, normalize_patch_item (snd kv))) d | _ => [] end.

(** The dicts of a list with their positions, as [enumerate] gives them. *)
Fixpoint dicts_from (index : Z) (l : list pyval) : list (Z * pydict) :=
  match l with
  | [] => []
  | VDict d :: rest => (index, d) :: dicts_from (index + 1) rest
  | _ :: rest => dicts_from (index + 1) rest
  end.

(** [[f(item, index) for index, item in enumerate(v or []) if isinstance(item, dict)]]. *)
Definition each_dict {A} (f : pydict -> Z -> res A) (v : pyval) : res (list A) :=
  items ← py_iter (py_or v (VList [])); map_res (fun x => f (snd x) (fst x)) (dicts_from 0 items).

(** [max(1, int(raw.get(k, 1) or 1))]. *)
Definition profile_version (raw : pydict) (k : string) : res Z :=
  v ← py_int (py_or (dget_or raw k (VInt 1)) (VInt 1)); Ok (Z.max 1 v).

Definition dict_list (l : list pydict) : pyval := VList (map VDict l).

(** [[dict(item) for item in adapters if isinstance(item, dict)]] of a list. *)
Definition dict_items (v : pyval) : list pydict :=
  match v with VList l => map snd (dicts_from 0 l) | _ => [] end.

Definition normalize_venue_profile (raw : pydict) : res pydict :=
  devices ← each_dict normalize_device (dget_none raw "devices");
  humans ← each_dict (fun d i => Ok (normalize_human d i)) (dget_none raw "humans");
  schema ← profile_version raw "schemaVersion";
  minimum ← profile_version raw "minimumReaderSchemaVersion";
  clock ← normalize_latency (dget_none raw "clock");
  Ok (dmerge raw [("documentType", VStr (text_or raw "documentType" VENUE_PROFILE_DOCUMENT_TYPE));
                  ("schemaVersion", VInt schema); ("minimumReaderSchemaVersion", VInt minimum);
                  ("unknownFieldsPreserved", VBool (truthy (dget_or raw "unknownFieldsPreserved" (VBool true))));
                  ("id", VStr (trimmed raw "id" 128 "venue")); ("name", VStr (trimmed raw "name" 160 "Venue"));
                  ("capabilities", text_list (_capabilities (dget_none raw "capabilities")));
                  ("devices", dict_list devices); ("humans", dict_list humans);
                  ("adapters", dict_list (dict_items (dget_none raw "adapters")));
                  ("patch", VDict (normalize_patch (dget_none raw "patch"))); ("clock", VDict clock);
                  ("offlineCapable", VBool (truthy (dget_or raw "offlineCapable" (VBool true))));
                  ("preservesUnknown", VBool (truthy (dget_or raw "preservesUnknown" (VBool true))))]).

(** ** Lighting fixture intent *)

Record fixture_value := { fv_fixture : string; fv_parameter : string; fv_normalized : float; fv_universe : Z; fv_channel : Z; fv_value : Z }.

Definition fixture_dict (v : fixture_value) : pydict :=
  [("fixtureId", VStr v.(fv_fixture)); ("parameter", VStr v.(fv_parameter)); ("normalizedValue", VFloat v.(fv_normalized));
   ("universe", VInt v.(fv_universe)); ("channel", VInt v.(fv_channel)); ("value", VInt v.(fv_value))].

(** [try: m except (TypeError, ValueError): raise ValueError(message)]. *)
Definition or_value_error {A} (message : string) (m : res A) : res A :=
  catch type_or_value m (fun _ => Raise (ValueError message)).

(** The offset, the range and the inversion a parameter mapping states. *)
Definition parameter_spec (spec : pyval) : res (Z * Z * Z * bool) :=
  match spec with
  | VInt offset => Ok (offset, 0, 255, false)
  | VDict d =>
      '(offset, minimum, maximum) ← or_value_error "lighting parameter mapping values must be integers"
        (offset ← py_int (dget_or d "offset" (VInt 0));
         minimum ← py_int (dget_or d "minimum" (VInt 0));
         maximum ← py_int (dget_or d "maximum" (VInt 255));
         Ok (offset, minimum, maximum));
      Ok (offset, minimum, maximum, truthy (dget_or d "invert" (VBool false)))
  | _ => Raise (ValueError "lighting parameter offset must be an integer or object")
  end.

(** [int(round(minimum + effective * (maximum - minimum)))]. *)
Definition dmx_value (minimum maximum : Z) (effective : float) : res Z :=
  py_round_int (fadd (float_of_Z minimum) (fmul effective (float_of_Z (maximum - minimum)))).

Definition guard_value (b : bool) (message : string) : res unit := guard_res b (ValueError message).

Definition find_fixture (mapping : pydict) (fixture_key : string) : option pydict :=
  let patch := match get_dict mapping "patch" with Some p => p | None => mapping end in
  get_dict (dict_at (dict_at patch "execution") "fixtures") fixture_key.

Definition resolve_lighting_fixture_intent (mapping : pyval) (fixture_id parameter : string) (normalized_value : pyval)
    : res fixture_value :=
  match mapping with
  | VDict mapping =>
      let fixture_key := slice 128 (strip fixture_id) in
      let parameter_key := slice 128 (strip parameter) in
      _ ← guard_value (negb (String.eqb fixture_key "" || String.eqb parameter_key ""))
            "lighting fixture intent requires fixtureId and parameter";
      fixture ← match find_fixture mapping fixture_key with
                | Some f => Ok f
                | None => Raise (ValueError ("lighting fixture is not mapped by the active venue: " +:+ fixture_key))
                end;
      '(universe, address) ← or_value_error "lighting fixture universe/address must be integers"
        (universe ← py_int (dget_or fixture "universe" (VInt 0)); address ← py_int (dget_or fixture "address" (VInt 1));
         Ok (universe, address));
      _ ← guard_value ((0 <=? universe) && (universe <? 16) && (1 <=? address) && (address <=? 512))
            "lighting fixture mapping exceeds the supported 16-universe/512-channel domain";
      spec ← match dget_none (dict_at fixture "parameters") parameter_key with
             | VNone => Raise (ValueError ("lighting parameter is not mapped for fixture " +:+ fixture_key +:+ ": " +:+ parameter_key))
             | v => Ok v
             end;
      '(offset, minimum, maximum, invert) ← parameter_spec spec;
      _ ← guard_value (negb ((offset <? 0) || (512 <? address + offset))) "lighting parameter mapping exceeds DMX channel 512";
      _ ← guard_value ((0 <=? minimum) && (minimum <=? 255) && (0 <=? maximum) && (maximum <=? 255) && (minimum <=? maximum))
            "lighting parameter range must satisfy 0 <= minimum <= maximum <= 255";
      normalized ← or_value_error "normalized lighting value must be numeric" (py_float normalized_value);
      _ ← guard_value (fle zero normalized && fle normalized (float_of_Z 1)) "normalized lighting value must be between 0 and 1";
      value ← dmx_value minimum maximum (if (invert : bool) then fsub (float_of_Z 1) normalized else normalized);
      Ok {| fv_fixture := fixture_key; fv_parameter := parameter_key; fv_normalized := normalized; fv_universe := universe;
            fv_channel := address + offset; fv_value := value |}
  | _ => Raise (ValueError "lighting fixture intent requires an active venue mapping")
  end.

(** ** Discovered devices *)

Definition id_of (item : pydict) : string := py_str (dget_none item "id").

(** The texts of a normalized list. *)
Definition texts_at (d : pydict) (k : string) : list string :=
  match dget_none d k with
  | VList l => omap (fun v => match v with VStr s => Some s | _ => None end) l
  | _ => []
  end.

(** [{item["id"]: item for item in items}]: a repeated identifier keeps its last item. *)
Definition index_by_id (items : list pydict) : list (string * pydict) :=
  fold_left (fun l item => aput l (id_of item) item) items [].

Definition aremove {A} (l : list (string * A)) (k : string) : list (string * A) :=
  List.filter (fun kv => negb (String.eqb k (fst kv))) l.

(** The discovered device that stands for an expected one, by identifier or by the first alias known. *)
Definition match_device (device_id : string) (aliases : list string) (discovered : list (string * pydict)) : option (string * pydict) :=
  first_some (fun k => match alookup discovered k with Some d => Some (k, d) | None => None end) (device_id :: aliases).

Definition is_ready (d : pydict) : bool := py_eq (dget_none d "status") (VStr "online") || py_eq (dget_none d "status") (VStr "expected").

Definition offline_device (item : pydict) : pydict :=
  let status := if is_ready item then VStr "offline" else dget_or item "status" (VStr "offline") in
  dmerge item [("status", status); ("discovered", VBool false)].

Definition joined_device (device_id : string) (item actual : pydict) : res pydict :=
  latency ← normalize_latency (VDict (dmerge (dict_at item "latency") (dict_at actual "latency")));
  Ok (dmerge (dmerge item actual)
        [("id", VStr device_id); ("discoveredId", dget_none actual "id");
         ("capabilities", text_list (sorted_set (texts_at item "capabilities" ++ texts_at actual "capabilities")));
         ("latency", VDict latency); ("discovered", VBool true)]).

Fixpoint merge_expected (expected discovered : list (string * pydict))
    : res (list pydict * list string * list (string * pydict)) :=
  match expected with
  | [] => Ok ([], [], discovered)
  | (device_id, item) :: rest =>
      match match_device device_id (texts_at item "matchIds") discovered with
      | None =>
          '(merged, warnings, left_) ← merge_expected rest discovered;
          let warning := if truthy (dget_or item "optional" (VBool false)) then []
                         else ["expected device offline: " +:+ device_id] in
          Ok (offline_device item :: merged, warning ++ warnings, left_)
      | Some (key, actual) =>
          device ← joined_device device_id item actual;
          '(merged, warnings, left_) ← merge_expected rest (aremove discovered key);
          Ok (device :: merged, warnings, left_)
      end
  end.

(** [sorted(devices, key=lambda item: item["id"])]. *)
Definition by_id (devices : list pydict) : list pydict := sort_by id_of devices.

(** [profile.get("devices", [])] of a normalized profile. *)
Definition profile_devices (profile : pydict) : list pydict := dict_items (dget_none profile "devices").
Definition profile_humans (profile : pydict) : list pydict := dict_items (dget_none profile "humans").

Definition merge_discovered_devices (profile : pydict) (discovered : pyval) : res (list pydict * list string) :=
  let expected := index_by_id (profile_devices profile) in
  match discovered with
  | VNone => Ok (by_id (map (fun kv => dmerge (snd kv) [("discovered", VNone)]) expected), [])
  | _ =>
      items ← each_dict normalize_device discovered;
      '(merged, warnings, left_) ← merge_expected expected (index_by_id items);
      let extra := map (fun kv => dmerge (snd kv) [("discovered", VBool true); ("unexpected", VBool true)]) left_ in
      Ok (by_id (merged ++ extra),
          warnings ++ map (fun kv => "unprofiled device discovered: " +:+ id_of (snd kv)) left_)
  end.

(** ** The venue as a participant *)

Definition is_available (human : pydict) : bool := truthy (dget_none human "available").

Definition venue_capabilities (profile : pydict) (devices : list pydict) : list string :=
  sorted_set (texts_at profile "capabilities"
              ++ concat (map (fun d => texts_at d "capabilities") (List.filter is_ready devices))
              ++ concat (map (fun h => texts_at h "capabilities") (List.filter is_available (profile_humans profile)))).

Definition venue_participant (profile : pydict) (devices : list pydict) : res pydict :=
  p ← normalize_participant
        [("id", dget_or profile "id" (VStr "venue"));
         ("apiVersions", py_or (dget_none profile "apiVersions") (VList [VInt 1]));
         ("schemaVersions", py_or (dget_none profile "schemaVersions") (VDict [("org.upp.show-state", VList [VInt 1])]));
         ("capabilities", text_list (venue_capabilities profile devices));
         ("adapters", py_or (dget_none profile "adapters") (VList []));
         ("preservesUnknown", dget_or profile "preservesUnknown" (VBool true));
         ("offlineCapable", dget_or profile "offlineCapable" (VBool true))];
  Ok (participant_dict p).

Definition device_provider (capability : string) (d : pydict) : option pydict :=
  if has (texts_at d "capabilities") capability && is_ready d then
    Some [("type", VStr "device"); ("id", VStr (id_of d)); ("name", dget_or d "name" (VStr (id_of d)));
          ("discoveredId", dget_none d "discoveredId"); ("discovered", dget_none d "discovered");
          ("latency", dget_or d "latency" (VDict []))]
  else None.

Definition human_provider (capability : string) (h : pydict) : option pydict :=
  if has (texts_at h "capabilities") capability && is_available h then
    Some [("type", VStr "human"); ("id", VStr (id_of h)); ("name", dget_or h "name" (VStr (id_of h)));
          ("authority", dget_or h "authority" (VList []))]
  else None.

Definition _find_provider (capability : string) (devices humans : list pydict) : option pydict :=
  match first_some (device_provider capability) devices with
  | Some p => Some p
  | None => first_some (human_provider capability) humans
  end.

Definition is_type (p : pydict) (t : string) : bool := py_eq (dget_none p "type") (VStr t).

(** ** Timing *)

(** [x and y > x] on floats: zero is no limit. *)
Definition exceeds (limit value : float) : bool := negb (feq limit zero) && flt limit value.

Definition _timing_assessment (requirement : pydict) (provider : option pydict) : res pydict :=
  let timing := dict_at requirement "timing" in
  match timing with
  | [] => Ok [("required", VBool false); ("status", VStr "not-specified")]
  | _ =>
      max_latency ← _float (dget_none timing "maxLatencyMs") zero zero;
      max_jitter ← _float (dget_none timing "maxJitterMs") zero zero;
      let require_timestamp := truthy (dget_or timing "timestamped" (VBool false)) in
      let limits := [("maxLatencyMs", VFloat max_latency); ("maxJitterMs", VFloat max_jitter);
                     ("timestampedRequired", VBool require_timestamp)] in
      match provider with
      | None => Ok ([("required", VBool true); ("status", VStr "unavailable")] ++ limits)
      | Some p =>
          if negb (is_type p "device") then Ok ([("required", VBool true); ("status", VStr "human-or-unknown")] ++ limits)
          else
            let latency := as_dict (py_or (dget_none p "latency") (VDict [])) in
            fixed ← _float (dget_none latency "fixedMs") zero zero;
            jitter ← _float (dget_none latency "jitterMs") zero zero;
            let timestamped := truthy (dget_or latency "timestamped" (VBool false)) in
            let problems :=
              when (exceeds max_latency fixed) ("latency " +:+ format_g fixed +:+ "ms exceeds " +:+ format_g max_latency +:+ "ms")
              ++ when (exceeds max_jitter jitter) ("jitter " +:+ format_g jitter +:+ "ms exceeds " +:+ format_g max_jitter +:+ "ms")
              ++ when (require_timestamp && negb timestamped) "timestamped execution unavailable" in
            Ok ([("required", VBool true); ("status", VStr (if null problems then "compatible" else "blocked"));
                 ("fixedMs", VFloat fixed); ("jitterMs", VFloat jitter); ("timestamped", VBool timestamped)]
                ++ limits ++ [("problems", text_list problems)])
      end
  end.

(** ** The compatibility plan *)

Record plan_item := {
  pi_id : string;
  pi_decision : pydict;
  pi_provider : option pydict;
  pi_timing : pydict;
  pi_patch : pyval;
  pi_mapped : bool;
}.

Definition provider_value (p : option pydict) : pyval := match p with Some d => VDict d | None => VNone end.

Definition plan_item_dict (i : plan_item) : pyval :=
  VDict [("id", VStr i.(pi_id)); ("decision", VDict i.(pi_decision)); ("provider", provider_value i.(pi_provider));
         ("timing", VDict i.(pi_timing)); ("patch", i.(pi_patch));
         ("patchStatus", VStr (if i.(pi_mapped) then "mapped" else "unmapped"))].

(** [{item["id"]: item for item in execution.get("requirements", [])}]. *)
Definition decisions (execution : pydict) : list (string * pydict) := index_by_id (dict_items (dget_none execution "requirements")).

Definition status_of (d : pydict) : pyval := dget_none d "status".

Definition requirement_id (requirement : pydict) : string :=
  py_str (py_or (dget_none requirement "id") (py_or (dget_none requirement "preferred") (VStr "requirement"))).

Definition plan_step (profile : pydict) (devices : list pydict) (decided : list (string * pydict)) (requirement : pyval)
    : res plan_item :=
  match requirement with
  | VDict r =>
      let id := requirement_id r in
      let decision := default [] (alookup decided id) in
      let chosen := py_str (py_or (dget_none decision "capability") (py_or (dget_none decision "preferred") (VStr ""))) in
      let provider := if String.eqb chosen "" then None else _find_provider chosen devices (profile_humans profile) in
      timing ← _timing_assessment r provider;
      let patch_key := py_str (py_or (dget_none r "patchKey") (VStr id)) in
      let patch := dget_none (dict_at profile "patch") patch_key in
      Ok {| pi_id := id; pi_decision := decision; pi_provider := provider; pi_timing := timing; pi_patch := patch;
            pi_mapped := match patch with VNone => false | _ => true end |}
  | _ => Raise AttributeError
  end.

(** A required requirement whose provider is too slow. *)
Definition timing_blocker (x : pydict * plan_item) : option string :=
  let '(r, i) := x in
  if py_eq (status_of i.(pi_timing)) (VStr "blocked") && truthy (dget_or r "required" (VBool true))
  then Some ("timing blocked: " +:+ i.(pi_id) +:+ ": " +:+ join "; " (texts_at i.(pi_timing) "problems")) else None.

Definition requirement_blockers (execution : pydict) : list string :=
  omap (fun d => if py_eq (status_of d) (VStr "blocked") then Some ("show requirement blocked: " +:+ id_of d) else None)
       (dict_items (dget_none execution "requirements")).

Definition is_required (i : plan_item) : bool := truthy (dget_none i.(pi_decision) "required").

(** A required requirement with a provider and a domain that must be patched. *)
Definition needs_patch (i : plan_item) : bool :=
  is_required i && match i.(pi_provider) with Some _ => true | None => false end && negb i.(pi_mapped)
  && existsb (fun p => starts_with p (text_or i.(pi_decision) "preferred" "")) ["audio."; "lighting."; "midi."].

Definition plan_grade (blocked : bool) (minimum : Z) : string :=
  if blocked then "blocked" else if 100 <=? minimum then "direct" else if 95 <=? minimum then "equivalent"
  else if 80 <=? minimum then "acceptable" else "degraded".

(** *** Departments *)

Record department := { dp_requirements : Z; dp_blocked : Z; dp_minimum : Z; dp_humans : Z }.

Definition new_department : department := {| dp_requirements := 0; dp_blocked := 0; dp_minimum := 100; dp_humans := 0 |}.

Definition is_human (i : plan_item) : bool := match i.(pi_provider) with Some p => is_type p "human" | None => false end.

Definition score_of (decision : pydict) : res Z := py_int (dget_or decision "qualityScore" (VInt 0)).

Definition count_item (i : plan_item) (d : department) : res department :=
  minimum ← (if is_required i then s ← score_of i.(pi_decision); Ok (Z.min d.(dp_minimum) s) else Ok d.(dp_minimum));
  let blocked := py_eq (status_of i.(pi_decision)) (VStr "blocked") || py_eq (status_of i.(pi_timing)) (VStr "blocked") in
  Ok {| dp_requirements := d.(dp_requirements) + 1; dp_blocked := d.(dp_blocked) + (if blocked then 1 else 0);
        dp_minimum := minimum; dp_humans := d.(dp_humans) + (if is_human i then 1 else 0) |}.

(** [str(requirement_lookup.get(id, {}).get("domain", "other"))]. *)
Definition domain_of (lookup : list (string * pydict)) (i : plan_item) : string :=
  text_or (default [] (alookup lookup i.(pi_id))) "domain" "other".

Definition count_department (lookup : list (string * pydict)) (departments : list (string * department)) (i : plan_item)
    : res (list (string * department)) :=
  let domain := domain_of lookup i in
  d ← count_item i (default new_department (alookup departments domain));
  Ok (aput departments domain d).

Definition department_dict (kd : string * department) : pydict :=
  let '(domain, d) := kd in
  [("domain", VStr domain); ("requirements", VInt d.(dp_requirements)); ("blocked", VInt d.(dp_blocked));
   ("minimumQualityScore", VInt d.(dp_minimum)); ("humanAssisted", VInt d.(dp_humans));
   ("grade", VStr (plan_grade (negb (d.(dp_blocked) =? 0)) d.(dp_minimum)))].

(** *** Actions *)

Definition action_for (type id message : string) (rest : pydict) : pydict :=
  [("type", VStr type); ("requirement", VStr id)] ++ rest ++ [("message", VStr message)].

Definition item_actions (i : plan_item) : list pydict :=
  let id := i.(pi_id) in
  let provider := default [] i.(pi_provider) in
  when (is_human i) (action_for "confirm-human" id ("Confirm human-assisted capability for " +:+ id)
                       [("provider", dget_none provider "id")])
  ++ (if py_eq (status_of i.(pi_decision)) (VStr "adapter") then
        let adapter := dict_at i.(pi_decision) "adapter" in
        [action_for "verify-adapter" id ("Verify explicit adapter for " +:+ id)
           [("from", dget_none adapter "from"); ("to", dget_none adapter "to")]]
      else [])
  ++ when (negb i.(pi_mapped) && is_required i && match i.(pi_provider) with Some _ => true | None => false end)
       (action_for "patch" id ("Patch logical requirement " +:+ id +:+ " to venue hardware") [])
  ++ map (fun problem => action_for "timing" id problem []) (texts_at i.(pi_timing) "problems").

Definition notice (type message : string) : pydict := [("type", VStr type); ("message", VStr message)].

(** *** The plan *)

Record venue_plan := {
  vp_profile : pydict;
  vp_report : pydict;
  vp_execution : pydict;
  vp_items : list plan_item;
  vp_departments : list (string * department);
  vp_devices : list pydict;
  vp_minimum : Z;
  vp_warnings : list string;
  vp_blockers : list string;
}.

Definition vp_unmapped (p : venue_plan) : list string := map pi_id (List.filter needs_patch p.(vp_items)).

Definition vp_readiness (p : venue_plan) : string :=
  if negb (null p.(vp_blockers)) then "blocked" else if negb (null (vp_unmapped p)) then "needs-patch" else "ready".

(** The items of a list of requirements, which are all dicts once they are planned. *)
Definition as_dicts (requirements : list pyval) : list pydict := map as_dict requirements.

Definition make_plan (profile_data : pyval) (requirements : list pyval) (discovered_devices : pyval) : res venue_plan :=
  report ← inspect_venue_profile profile_data;
  _ ← guard_value (truthy (dget_none report "readable"))
        (py_str (dget_or report "reason" (VStr "venue profile is not readable by this core")));
  profile ← normalize_venue_profile (as_dict profile_data);
  '(devices, warnings) ← merge_discovered_devices profile discovered_devices;
  participant ← venue_participant profile devices;
  execution ← resolve_requirements participant requirements;
  items ← map_res (plan_step profile devices (decisions execution)) requirements;
  let blockers := requirement_blockers execution
                  ++ omap timing_blocker (combine (as_dicts requirements) items) in
  minimum ← py_int (dget_or execution "minimumQualityScore" (VInt 0));
  let lookup := fold_left (fun l r => aput l (py_str (dget_none r "id")) r) (as_dicts requirements) [] in
  departments ← fold_res (count_department lookup) items [];
  Ok {| vp_profile := profile; vp_report := report; vp_execution := execution; vp_items := items;
        vp_departments := departments; vp_devices := devices; vp_minimum := minimum; vp_warnings := warnings;
        vp_blockers := blockers |}.

Definition venue_fields (profile : pydict) : pydict :=
  List.filter (fun kv => negb (existsb (String.eqb (fst kv)) ["devices"; "humans"; "adapters"; "patch"])) profile.

Definition plan_dict (p : venue_plan) : pydict :=
  let blockers := p.(vp_blockers) in
  [("compatible", VBool (null blockers));
   ("grade", VStr (plan_grade (negb (null blockers)) p.(vp_minimum)));
   ("readiness", VStr (vp_readiness p));
   ("venue", VDict (venue_fields p.(vp_profile)));
   ("profileCompatibility", VDict p.(vp_report));
   ("execution", VDict p.(vp_execution));
   ("devicePlan", VList (map plan_item_dict p.(vp_items)));
   ("departments", dict_list (map department_dict (sort_by fst p.(vp_departments))));
   ("actions", dict_list (concat (map item_actions p.(vp_items)) ++ map (notice "discovery") p.(vp_warnings)
                          ++ map (notice "blocker") blockers));
   ("devices", dict_list p.(vp_devices));
   ("humans", dget_or p.(vp_profile) "humans" (VList []));
   ("patch", dget_or p.(vp_profile) "patch" (VDict []));
   ("humanAssistedRequirements", VInt (Z.of_nat (length (List.filter is_human p.(vp_items)))));
   ("unmappedRequired", text_list (vp_unmapped p));
   ("discoveryWarnings", text_list p.(vp_warnings));
   ("blockers", text_list blockers)].

Definition venue_compatibility_plan (profile_data : pyval) (requirements : list pyval) (discovered_devices : pyval) : res pydict :=
  p ← make_plan profile_data requirements discovered_devices; Ok (plan_dict p).

(** ** The store of the selected profile *)

Definition store_load (f : option string) : res pydict :=
  match f with
  | None => normalize_venue_profile [("id", VStr "unassigned"); ("name", VStr "No venue selected")]
  | Some bytes =>
      match (text ← utf8_decode bytes; loads text) with
      | Ok v => normalize_venue_profile (as_dict v)
      | Raise (ValueError "JSONDecodeError") =>
          normalize_venue_profile [("id", VStr "invalid"); ("name", VStr "Venue profile unavailable")]
      | Raise e => Raise e
      end
  end.

(** The normalized profile and the new file; a failed write leaves the old one. *)
Definition store_save (profile : pyval) (write_fails : bool) : st (option string) pydict :=
  let* report := st_lift (inspect_venue_profile profile) in
  let* _ := st_lift (guard_value (truthy (dget_none report "readable"))
                       (py_str (dget_or report "reason" (VStr "venue profile is not readable by this core")))) in
  let* normalized := st_lift (normalize_venue_profile (as_dict profile)) in
  if write_fails then st_raise (OSError "write failed")
  else
    let* _ := st_put (Some (utf8 (json_dump_indented (VDict normalized) +:+ newline))) in
    st_ret normalized.
