(* ===== verification/VenueFacts.v ===== *)
(** * Venue plans: what a compatible plan guarantees

    A compatible plan names only providers that are there and have the
    capability, meets the timing of every required requirement, and leaves no
    required requirement unresolved. Discovery accounts for every device once. *)

From S2P Require Import Prelude PyStr PyFloat PyVal PyFacts Json JsonText Reconciliation Compatibility Adaptation Venue.
From Stdlib Require Import SpecFloat.

#[local] Open Scope string_scope.
#[local] Open Scope list_scope.
#[local] Open Scope Z_scope.

(** ** Providers *)

Lemma first_some_ok {A B} (f : A -> option B) l b : first_some f l = Some b -> exists a, a ∈ l /\ f a = Some b.
Proof.
  induction l as [|a l IH]; cbn; [done|]. destruct (f a) eqn:E.
  - intros [= ->]. exists a. split; [left|done].
  - intros H. destruct (IH H) as (a' & ? & ?). exists a'. split; [by right|done].
Qed.

(** A ready device or an available human of the plan that has the capability. *)
Definition serves (p : venue_plan) (capability : string) (provider : pydict) : Prop :=
  (exists d, d ∈ p.(vp_devices) /\ is_ready d = true /\ capability ∈ texts_at d "capabilities"
             /\ dget provider "type" = Some (VStr "device") /\ dget provider "id" = Some (VStr (id_of d)))
  \/ (exists h, h ∈ profile_humans p.(vp_profile) /\ is_available h = true /\ capability ∈ texts_at h "capabilities"
                /\ dget provider "type" = Some (VStr "human") /\ dget provider "id" = Some (VStr (id_of h))).

Lemma find_provider_serves p capability provider :
  _find_provider capability p.(vp_devices) (profile_humans p.(vp_profile)) = Some provider ->
  serves p capability provider.
Proof.
  unfold _find_provider, serves. destruct (first_some (device_provider capability) _) as [q|] eqn:E.
  - intros [= ->]. left. apply first_some_ok in E as (d & Hd & H). unfold device_provider in H.
    destruct (has _ _ && is_ready d) eqn:Ec; [|done]. apply andb_prop in Ec as [Hc Hr].
    injection H as <-. exists d. split_and!; [done..|by apply bool_decide_eq_true in Hc|done|done].
  - intros H. right. apply first_some_ok in H as (h & Hh & H). unfold human_provider in H.
    destruct (has _ _ && is_available h) eqn:Ec; [|done]. apply andb_prop in Ec as [Hc Hr].
    injection H as <-. exists h. split_and!; [done..|by apply bool_decide_eq_true in Hc|done|done].
Qed.

(** ** Timing *)

(** The latency, jitter and time stamps of a device provider respect the limits of a requirement. *)
Definition meets_timing (r : pydict) (provider : pydict) : Prop :=
  let timing := dict_at r "timing" in
  let latency := as_dict (py_or (dget_none provider "latency") (VDict [])) in
  timing <> [] -> is_type provider "device" = true ->
  exists max_latency max_jitter fixed jitter,
    _float (dget_none timing "maxLatencyMs") zero zero = Ok max_latency
    /\ _float (dget_none timing "maxJitterMs") zero zero = Ok max_jitter
    /\ _float (dget_none latency "fixedMs") zero zero = Ok fixed
    /\ _float (dget_none latency "jitterMs") zero zero = Ok jitter
    /\ exceeds max_latency fixed = false /\ exceeds max_jitter jitter = false
    /\ (truthy (dget_or timing "timestamped" (VBool false)) = true ->
        truthy (dget_or latency "timestamped" (VBool false)) = true).

Lemma assessment_meets r provider timing : _timing_assessment r (Some provider) = Ok timing ->
  py_eq (status_of timing) (VStr "blocked") = false -> meets_timing r provider.
Proof.
  unfold _timing_assessment, meets_timing. intros H Hs Hne Hdev. destruct (dict_at r "timing") as [|kv t]; [done|].
  apply bind_ok in H as (ml & Hml & H). apply bind_ok in H as (mj & Hmj & H). rewrite Hdev in H. cbn [negb] in H.
  apply bind_ok in H as (fixed & Hf & H). apply bind_ok in H as (jitter & Hj & H). cbv zeta in H.
  exists ml, mj, fixed, jitter. split; [done|]. split; [done|]. split; [done|]. split; [done|].
  match type of H with context [null ?l] => set (problems := l) in H end. injection H as <-.
  change (status_of _) with (VStr (if null problems then "compatible" else "blocked")) in Hs.
  destruct (null problems) eqn:En; [|done]. unfold problems in En. rewrite !null_app, !null_when in En.
  apply andb_prop in En as [E1 En]. apply andb_prop in En as [E2 E3]. apply negb_true_iff in E1, E2, E3.
  split; [done|]. split; [done|]. intros Hreq. rewrite Hreq in E3. by apply negb_false_iff in E3.
Qed.

(** ** The plan *)

Lemma map_res_Forall2 {A B} (f : A -> res B) l l' : map_res f l = Ok l' -> Forall2 (fun a b => f a = Ok b) l l'.
Proof.
  revert l'. induction l as [|a l IH]; intros l'; cbn [map_res]; [by intros [= <-]|].
  intros (b & Hb & H)%bind_ok. apply bind_ok in H as (bs & Hbs & [= <-]). constructor; auto.
Qed.

Lemma omap_none {A B} (f : A -> option B) l x : omap f l = [] -> x ∈ l -> f x = None.
Proof.
  induction l as [|a l IH]; cbn; [by intros _ ?%elem_of_nil|]. destruct (f a) eqn:E; [done|].
  intros H [->|Hx]%elem_of_cons; [done|by apply IH].
Qed.

(** The capability a requirement was resolved to. *)
Definition chosen (i : plan_item) : string :=
  py_str (py_or (dget_none i.(pi_decision) "capability") (py_or (dget_none i.(pi_decision) "preferred") (VStr ""))).

(** What one item of the device plan guarantees for its requirement. *)
Definition item_feasible (p : venue_plan) (requirement : pyval) (i : plan_item) : Prop :=
  exists r, requirement = VDict r /\ i.(pi_id) = requirement_id r
    /\ forall provider, i.(pi_provider) = Some provider ->
         serves p (chosen i) provider
         /\ (truthy (dget_or r "required" (VBool true)) = true -> meets_timing r provider).

Lemma step_feasible p profile devices decided requirement i :
  p.(vp_profile) = profile -> p.(vp_devices) = devices ->
  plan_step profile devices decided requirement = Ok i ->
  timing_blocker (as_dict requirement, i) = None -> item_feasible p requirement i.
Proof.
  intros <- <- H Hb. unfold plan_step in H. destruct requirement as [| | | | | |r]; try done. cbv zeta in H.
  apply bind_ok in H as (timing & Ht & [= <-]). exists r. split; [done|]. split; [done|]. cbn [pi_provider].
  intros provider Hp. rewrite Hp in Ht. unfold chosen. cbn [pi_decision]. split.
  - destruct (String.eqb _ ""); [done|]. by apply find_provider_serves.
  - intros Hr. apply (assessment_meets r provider timing Ht). unfold timing_blocker in Hb. cbn [as_dict pi_timing] in Hb.
    rewrite Hr, andb_true_r in Hb. by destruct (py_eq _ _).
Qed.

(** A compatible plan is feasible. When the plan of a show's requirements
    against a venue has no blocker, it has one entry per requirement, in order;
    every provider it names is a ready device or an available human of the merged
    venue that has the chosen capability; the device of a required requirement
    keeps within its latency and jitter limits and is time stamped when that is
    asked for; and no requirement was resolved as blocked. *)
Theorem compatible_plan_is_feasible profile_data requirements discovered p :
  make_plan profile_data requirements discovered = Ok p -> p.(vp_blockers) = [] ->
  Forall2 (item_feasible p) requirements p.(vp_items)
  /\ Forall (fun d => py_eq (status_of d) (VStr "blocked") = false) (dict_items (dget_none p.(vp_execution) "requirements")).
Proof.
  intros H Hnone. unfold make_plan in H. apply bind_ok in H as (report & _ & H). apply bind_ok in H as (_ & _ & H).
  apply bind_ok in H as (profile & _ & H). apply bind_ok in H as ([devices warnings] & _ & H).
  apply bind_ok in H as (participant & _ & H). apply bind_ok in H as (execution & _ & H).
  apply bind_ok in H as (items & Hitems & H). apply bind_ok in H as (minimum & _ & H).
  apply bind_ok in H as (departments & _ & [= Hp]).
  assert (vp_profile p = profile /\ vp_devices p = devices) as [Hpp Hpd] by by subst p.
  assert (vp_items p = items /\ vp_execution p = execution) as [-> ->] by by subst p.
  assert (requirement_blockers execution ++ omap timing_blocker (combine (as_dicts requirements) items) = []) as Hb by by rewrite <- Hnone, <- Hp.
  apply app_nil in Hb as [Hrb Htb]. clear Hp Hnone. split.
  - apply map_res_Forall2 in Hitems. revert Htb. induction Hitems as [|r i rs is_ Hi His IH]; [by constructor|].
    unfold as_dicts. cbn [map combine]. intros Htb.
    constructor.
    + eapply step_feasible; [done|done|exact Hi|]. eapply omap_none; [exact Htb|left].
    + apply IH. change (match timing_blocker (as_dict r, i) with
                        | Some y => y :: omap timing_blocker (combine (map as_dict rs) is_)
                        | None => omap timing_blocker (combine (map as_dict rs) is_)
                        end = []) in Htb. by destruct (timing_blocker (as_dict r, i)).
  - apply Forall_forall. intros d Hd. pose proof (omap_none _ _ _ Hrb Hd) as Hn. cbn in Hn. by destruct (py_eq _ _).
Qed.

(** ** Concrete venues *)

Definition sample_device (id : string) (rest : pydict) : pyval :=
  VDict ([("id", VStr id); ("status", VStr "online"); ("capabilities", VList [VStr "audio.output.multi"])] ++ rest).

Definition sample_profile (devices : list pyval) : pyval :=
  VDict [("id", VStr "club"); ("capabilities", VList [VStr "audio.transport"]); ("devices", VList devices);
         ("patch", VDict [("audio.foh", VDict [("target", VStr "audio-a:out-1-2")])])].

Definition latency_ms (fixed : Z) : string * pyval := ("latency", VDict [("fixedMs", VInt fixed)]).

Definition output_needed (limit : Z) : pyval :=
  VDict [("id", VStr "output"); ("preferred", VStr "audio.output.multi"); ("required", VBool true); ("patchKey", VStr "audio.foh");
         ("timing", VDict [("maxLatencyMs", VInt limit)])].

Lemma compatible_plan_is_feasible_witness :
  match make_plan (sample_profile [sample_device "audio-a" [latency_ms 5]]) [output_needed 20] VNone with
  | Ok p => Forall2 (item_feasible p) [output_needed 20] p.(vp_items)
            /\ Forall (fun d => py_eq (status_of d) (VStr "blocked") = false) (dict_items (dget_none p.(vp_execution) "requirements"))
  | Raise _ => False
  end.
Proof.
  destruct (make_plan (sample_profile [sample_device "audio-a" [latency_ms 5]]) [output_needed 20] VNone) as [p|e] eqn:E;
    [|vm_compute in E; discriminate].
  apply (compatible_plan_is_feasible _ _ _ _ E). vm_compute in E. injection E as <-. reflexivity.
Defined.

(** What a plan says of one profile, one limit and one discovery. *)
Definition planned (devices : list pyval) (limit : Z) (discovered : pyval) : res (bool * list (string * pyval)) :=
  p ← make_plan (sample_profile devices) [output_needed limit] discovered;
  Ok (null p.(vp_blockers), map (fun d => (id_of d, status_of d)) p.(vp_devices)).

(** A device declared slow blocks a strict requirement, but once discovery has
    reported it, without saying anything of latency, the declared value is
    replaced by the default zero and the plan is compatible. *)
Example discovery_erases_declared_latency :
  planned [sample_device "audio-a" [latency_ms 50]] 20 VNone = Ok (false, [("audio-a", VStr "online")])
  /\ planned [sample_device "audio-a" [latency_ms 50]] 20 (VList [sample_device "audio-a" []])
     = Ok (true, [("audio-a", VStr "online")]).
Proof. vm_compute. done. Qed.

(** The alias of an earlier device takes the discovered device that a later one
    names exactly; the later one is then reported offline. *)
Example alias_takes_an_exact_match :
  planned [sample_device "a" [("matchIds", VList [VStr "b"])]; sample_device "b" []] 20 (VList [sample_device "b" []])
  = Ok (true, [("a", VStr "online"); ("b", VStr "offline")]).
Proof. vm_compute. done. Qed.

(** The decisions are filed under trimmed identifiers and looked up untrimmed: a
    requirement whose identifier ends in a space gets no provider, and its limit
    is not checked. *)
Example untrimmed_requirement_is_not_timed :
  let requirement := VDict [("id", VStr "output "); ("preferred", VStr "audio.output.multi"); ("required", VBool true);
                            ("timing", VDict [("maxLatencyMs", VInt 20)])] in
  match make_plan (sample_profile [sample_device "audio-a" [latency_ms 50]]) [requirement] VNone with
  | Ok p => null p.(vp_blockers) = true /\ map pi_provider p.(vp_items) = [None]
  | Raise _ => False
  end.
Proof. vm_compute. done. Qed.

(** An identifier is trimmed before it is cut to its length: a saved profile can
    hold one that ends in a space, and reading it back trims it again. *)
Example reload_changes_a_cut_identifier :
  let id := of_chars (repeat (chr 97) 127 ++ [chr 32; chr 98]) in
  match store_save (VDict [("id", VStr id)]) false None with
  | (f, Ok saved) => match store_load f with
                     | Ok loaded => str_len (id_of saved) = 128 /\ str_len (id_of loaded) = 127
                     | Raise _ => False
                     end
  | _ => False
  end.
Proof. vm_compute. done. Qed.

(** ** Discovery accounts for every device *)

Definition keyed_by_id (l : list (string * pydict)) : Prop := Forall (fun kv => id_of (snd kv) = fst kv) l.

Lemma aput_keyed l k d : keyed_by_id l -> id_of d = k -> keyed_by_id (aput l k d).
Proof.
  intros H <-. induction H as [|[k' d'] l Hk Hl IH]; cbn [aput]; [by repeat constructor|].
  destruct (String.eqb_spec (id_of d) k') as [<-|Hne]; constructor; done.
Qed.

Lemma index_by_id_ok items : NoDup (map fst (index_by_id items)) /\ keyed_by_id (index_by_id items).
Proof.
  unfold index_by_id. assert (forall acc, NoDup (map fst acc) /\ keyed_by_id acc ->
    NoDup (map fst (fold_left (fun l item => aput l (id_of item) item) items acc))
    /\ keyed_by_id (fold_left (fun l item => aput l (id_of item) item) items acc)) as H.
  { induction items as [|i items IH]; intros acc Hacc; [done|]. cbn [fold_left]. apply IH. destruct Hacc as [Hn Hk].
    split; [by apply aput_nodup|by apply aput_keyed]. }
  apply H. repeat constructor.
Qed.

Lemma aremove_keys {A} (l : list (string * A)) k : NoDup (map fst l) -> k ∈ map fst l -> map fst l ≡ₚ k :: map fst (aremove l k).
Proof.
  unfold aremove. induction l as [|[k' a] l IH]; cbn [map fst List.filter]; [by intros _ ?%elem_of_nil|].
  intros [Hk' Hn]%NoDup_cons Hin. destruct (String.eqb_spec k k') as [->|Hne]; cbn [negb].
  - assert (List.filter (fun kv : string * A => negb (String.eqb k' (fst kv))) l = l) as ->; [|done].
    clear IH Hin Hn. induction l as [|[k2 b] l IH]; [done|]. cbn [List.filter fst map] in *.
    apply not_elem_of_cons in Hk' as [Hne Hk']. rewrite str_eqb_ne by done. cbn [negb]. by rewrite IH.
  - apply elem_of_cons in Hin as [->|Hin]; [done|]. cbn [map fst]. rewrite (IH Hn Hin). constructor.
Qed.

Lemma aremove_nodup {A} (l : list (string * A)) k : NoDup (map fst l) -> NoDup (map fst (aremove l k)).
Proof.
  intros H. eapply sublist_NoDup; [exact H|]. apply fmap_sublist. unfold aremove. clear.
  induction l as [|x l IH]; [done|]. cbn [List.filter]. destruct (negb _); by constructor.
Qed.

Lemma match_device_in device_id aliases l key d : match_device device_id aliases l = Some (key, d) -> key ∈ map fst l.
Proof.
  unfold match_device. intros (k & _ & H)%first_some_ok. destruct (alookup l k) as [x|] eqn:E; [|done].
  injection H as -> _. clear -E. induction l as [|[k' a] l IH]; cbn in *; [done|].
  destruct (String.eqb_spec key k') as [->|]; [left|right; by apply IH].
Qed.

Lemma id_of_merge d e s : NoDup (dkeys e) -> dget e "id" = None \/ dget e "id" = Some (VStr s) ->
  id_of d = s -> id_of (dmerge d e) = s.
Proof.
  intros Hn He <-. unfold id_of, dget_none, dget_or in *. rewrite dmerge_get by done. by destruct He as [-> | ->].
Qed.

Lemma offline_id item : id_of (offline_device item) = id_of item.
Proof. unfold offline_device. apply id_of_merge; [cbn [dkeys map fst]; nodup_keys|by left|done]. Qed.

Lemma joined_id device_id item actual d : joined_device device_id item actual = Ok d -> id_of d = device_id.
Proof.
  unfold joined_device. intros (latency & _ & H)%bind_ok. apply res_eq_dec_ok in H as <-. unfold id_of, dget_none, dget_or.
  rewrite dmerge_get by (cbn [dkeys map fst]; nodup_keys). done.
Qed.

(** Expected devices keep their identifiers; each takes at most one discovered device. *)
Lemma merge_expected_ok expected : forall discovered merged warnings left_,
  keyed_by_id expected -> NoDup (map fst discovered) ->
  merge_expected expected discovered = Ok (merged, warnings, left_) ->
  map id_of merged = map fst expected
  /\ (forall kv, kv ∈ left_ -> kv ∈ discovered)
  /\ exists taken, map fst discovered ≡ₚ taken ++ map fst left_ /\ (length taken <= length expected)%nat.
Proof.
  induction expected as [|[device_id item] expected IH]; intros discovered merged warnings left_ Hk Hn; cbn [merge_expected].
  - intros [= <- <- <-]. split; [done|]. split; [done|]. by exists [].
  - apply List.Forall_cons_iff in Hk as [Hid Hk]. cbn [fst snd] in Hid.
    destruct (match_device _ _ _) as [[key actual]|] eqn:Em.
    + intros (d & Hd & H)%bind_ok. apply bind_ok in H as ([[merged' warnings'] left'] & H & [= <- <- <-]).
      pose proof (match_device_in _ _ _ _ _ Em) as Hin.
      destruct (IH _ _ _ _ Hk (aremove_nodup _ key Hn) H) as (Hm & Hl & taken & Ht & Hlen).
      split; [cbn [map]; by rewrite Hm, (joined_id _ _ _ _ Hd)|]. split.
      * intros kv Hkv. specialize (Hl kv Hkv). unfold aremove in Hl. apply list_elem_of_In, List.filter_In in Hl as [Hl _].
        by apply list_elem_of_In.
      * exists (key :: taken). split; [|cbn; lia]. rewrite (aremove_keys _ key Hn Hin), Ht. done.
    + intros ([[merged' warnings'] left'] & H & [= <- <- <-])%bind_ok.
      destruct (IH _ _ _ _ Hk Hn H) as (Hm & Hl & taken & Ht & Hlen).
      split; [cbn [map]; by rewrite Hm, offline_id, Hid|]. split; [done|]. exists taken. split; [done|]. cbn. lia.
Qed.

(** Discovery accounts for every device. After a merge with discovered
    devices, every device the profile expects appears exactly once under its own
    identifier, and every distinct discovered device either stands for one
    expected device or appears as unprofiled under its own identifier, with a
    warning that names it. *)
Theorem discovery_accounts_for_every_device profile discovered items devices warnings :
  discovered <> VNone -> each_dict normalize_device discovered = Ok items ->
  merge_discovered_devices profile discovered = Ok (devices, warnings) ->
  let expected := map fst (index_by_id (profile_devices profile)) in
  let found := map fst (index_by_id items) in
  exists taken extra,
    map id_of devices ≡ₚ expected ++ extra
    /\ found ≡ₚ taken ++ extra /\ NoDup found /\ NoDup expected /\ (length taken <= length expected)%nat
    /\ (forall id, id ∈ extra -> ("unprofiled device discovered: " +:+ id) ∈ warnings).
Proof.
  intros Hsome Hitems H expected found. unfold merge_discovered_devices in H.
  destruct (index_by_id_ok (profile_devices profile)) as [Hne Hke]. destruct (index_by_id_ok items) as [Hnf Hkf].
  assert (each_dict normalize_device discovered = Ok items /\
          ('(merged, warnings, left_) ← merge_expected (index_by_id (profile_devices profile)) (index_by_id items);
           Ok (by_id (merged ++ map (fun kv => dmerge (snd kv) [("discovered", VBool true); ("unexpected", VBool true)]) left_),
               warnings ++ map (fun kv => "unprofiled device discovered: " +:+ id_of (snd kv)) left_)) = Ok (devices, warnings)) as [_ Hm].
  { split; [done|]. destruct discovered; try done; rewrite Hitems in H; exact H. }
  clear H. apply bind_ok in Hm as ([[merged w] left_] & Hm & [= <- <-]).
  destruct (merge_expected_ok _ _ _ _ _ Hke Hnf Hm) as (Hids & Hsub & taken & Htaken & Hlen).
  exists taken, (map fst left_).
  assert (Forall (fun kv => id_of (snd kv) = fst kv) left_) as Hkl.
  { apply Forall_forall. intros kv Hkv. unfold keyed_by_id in Hkf. rewrite Forall_forall in Hkf. by apply Hkf, Hsub. }
  split_and!; [|done|done|done|by unfold expected; rewrite length_map|].
  - unfold by_id. rewrite sort_by_Permutation, map_app, Hids, map_map. apply Permutation_app; [done|].
    clear -Hkl. induction Hkl as [|[k d] l Hk Hl IH]; [done|]. cbn [map fst snd] in *. rewrite IH.
    unfold id_of, dget_none, dget_or in *. by rewrite !dget_dset_ne, Hk by done.
  - intros id Hid. apply elem_of_app. right. apply list_elem_of_fmap in Hid as (kv & -> & Hkv).
    rewrite Forall_forall in Hkl. rewrite <- (Hkl _ Hkv). apply list_elem_of_fmap. by exists kv.
Qed.

Lemma discovery_accounts_for_every_device_witness :
  let profile := [("devices", VList [sample_device "a" []; sample_device "b" []])] in
  let discovered := VList [sample_device "b" []; sample_device "c" []] in
  match merge_discovered_devices profile discovered, each_dict normalize_device discovered with
  | Ok (devices, warnings), Ok items =>
      exists taken extra,
        map id_of devices ≡ₚ map fst (index_by_id (profile_devices profile)) ++ extra
        /\ map fst (index_by_id items) ≡ₚ taken ++ extra /\ NoDup (map fst (index_by_id items))
        /\ NoDup (map fst (index_by_id (profile_devices profile)))
        /\ (length taken <= length (map fst (index_by_id (profile_devices profile))))%nat
        /\ (forall id, id ∈ extra -> ("unprofiled device discovered: " +:+ id) ∈ warnings)
  | _, _ => False
  end.
Proof.
  intros profile discovered. destruct (each_dict normalize_device discovered) as [items|e] eqn:Ei; [|vm_compute in Ei; discriminate].
  destruct (merge_discovered_devices profile discovered) as [[devices warnings]|e] eqn:Em; [|vm_compute in Em; discriminate].
  exact (discovery_accounts_for_every_device profile discovered items devices warnings ltac:(discriminate) Ei Em).
Defined.
