(* ===== verification/PublicRecord.v ===== *)
(** * The public record (backend/public_record.py)

    The signed, hash-linked operational record and the second hash-linked ledger
    of attestations that outside witnesses make of its records: appending,
    resolving a reference, attesting, and the verification of both. The files are
    those of Persistence: bytes, appended to with a stated fate. The witness
    policy is a private file that is read again for every operation that needs
    it; what the operating system answers for it, the clock and the drawn
    identifiers are arguments. *)

From S2P Require Import Prelude PyStr PyFloat PyVal PyFacts Json Sha256 JsonText ClusterSecrets Persistence.

#[local] Open Scope string_scope.
#[local] Open Scope list_scope.
#[local] Open Scope Z_scope.
#[local] Open Scope st_scope.

Definition _ZERO : string := of_chars (repeat (chr 48) 64).
Definition _MAX_POLICY_BYTES : Z := 32768.
Definition _MAX_WITNESSES : Z := 16.

Definition _record_signature (record_hash signer_id secret : string) : string :=
  hmac_hex secret (_canonical (VDict
    [("purpose", VStr "org.upp.public-record-signature/1"); ("recordHash", VStr record_hash); ("signerId", VStr signer_id)])).

Definition attestation_payload (witness_id record_hash : string) (issued_at_ns : Z) : pydict :=
  [("version", VInt 1); ("witnessId", VStr witness_id); ("recordHash", VStr record_hash); ("issuedAtNs", VInt issued_at_ns)].

Definition attestation_mac (payload : pydict) (secret : string) : string :=
  hmac_hex secret (_canonical (VDict [("purpose", VStr "org.upp.public-record-witness/1"); ("payload", VDict payload)])).

(** 64 lower-case hexadecimal digits. *)
Definition valid_hash (s : string) : bool := (str_len s =? 64) && forallb lower_hex_char (chars s).

(** What a witness makes outside the store. *)
Definition make_witness_attestation (record_hash witness_id secret : string) (issued_at_ns : Z) : res pydict :=
  if negb (valid_hash record_hash) then Raise (ValueError "invalid public-record hash")
  else
    let witness_id := strip witness_id in
    if String.eqb witness_id "" || (64 <? str_len witness_id) then Raise (ValueError "invalid witness id")
    else
      let payload := attestation_payload witness_id record_hash issued_at_ns in
      Ok (payload ++ [("hmacSha256", VStr (attestation_mac payload secret))]).

(** ** The store *)

Record identity := { signer_id : string; signing_secret : string; witness_policy_path : option string }.

Record public_store := { record_file : option file; witness_file : option file }.

Abbreviation op := (st public_store).

Record witness_policy := { quorum : Z; witnesses : list (string * string) }.

Definition unavailable : exn := PermissionError "public-record witness policy unavailable or invalid".

Definition policy_caught (e : exn) : bool := is_value_error e || is_type_error e || is_attribute_error e.

Definition policy_document (value : pyval) : res witness_policy :=
  let invalid := Raise (ValueError "") in
  match value with
  | VDict d =>
      if negb (keys_are d ["version"; "quorum"; "witnesses"]) || negb (py_eq (dget_none d "version") (VInt 1)) then invalid
      else
        match dget_none d "quorum", dget_none d "witnesses" with
        | VInt quorum, VDict entries =>
            let n := Z.of_nat (length entries) in
            if negb ((1 <=? n) && (n <=? _MAX_WITNESSES)) || negb ((1 <=? quorum) && (quorum <=? n)) then invalid
            else ws ← keyring_entries entries; Ok {| quorum := quorum; witnesses := ws |}
        | _, _ => invalid
        end
  | _ => invalid
  end.

Section with_files.
Context (euid : Z) (files : string -> file_view).

Definition _read_private (path : string) : res string :=
  catch os_or_value (read_private _MAX_POLICY_BYTES euid (files path)) (fun _ => Raise unavailable).

Definition _witness_policy (i : identity) : res witness_policy :=
  match i.(witness_policy_path) with
  | None => Ok {| quorum := 0; witnesses := [] |}
  | Some path =>
      catch policy_caught
        (data ← _read_private path; text ← utf8_decode data; value ← loads text; policy_document value)
        (fun _ => Raise unavailable)
  end.

Definition make_identity (signer secret policy_path : string) : res identity :=
  let path := strip policy_path in
  let i := {| signer_id := slice 64 (strip signer); signing_secret := secret;
              witness_policy_path := if String.eqb path "" then None else Some path |} in
  if String.eqb i.(signer_id) "" || (str_len secret <? 32) then
    Raise (ValueError "public record signer identity and secret are required")
  else
    match i.(witness_policy_path) with
    | None => Ok i
    | Some _ => _ ← _witness_policy i; Ok i
    end.

(** ** Appending *)

Definition is_space_byte (c : ascii) : bool := in_range 9 13 c || (code c =? 32).

(** The lines of a binary file that are not blank. *)
Fixpoint byte_lines (current l : list ascii) : list (list ascii) :=
  match l with
  | [] => match current with [] => [] | _ => [rev current] end
  | c :: l' => if code c =? 10 then rev current :: byte_lines [] l' else byte_lines (c :: current) l'
  end.

Definition count_lines (f : file) : Z :=
  Z.of_nat (length (List.filter (fun l => negb (forallb is_space_byte l)) (byte_lines [] (chars f.(f_data))))).

Definition core_of (sequence : Z) (record_id record_type : string) (timestamp_ns : Z) (payload : pyval) (previous : string) : pydict :=
  [("sequence", VInt sequence); ("recordId", VStr record_id); ("recordType", VStr record_type); ("timestampNs", VInt timestamp_ns);
   ("payload", payload); ("previousHash", VStr previous)].

(** [hashlib.sha256(previous.encode("ascii") + b"\n" + _canonical(v))]. *)
Definition linked (previous : string) (v : pyval) : res string := prefix ← ascii_encode previous; Ok (link prefix v).

Definition signed (i : identity) (core : pydict) (digest : string) : pydict :=
  core ++ [("hash", VStr digest); ("signerId", VStr i.(signer_id)); ("signatureAlgorithm", VStr "hmac-sha256");
           ("signatureHmacSha256", VStr (_record_signature digest i.(signer_id) i.(signing_secret)))].

Record reference := { rf_id : string; rf_sequence : Z; rf_hash : string; rf_signature : string }.

Definition reference_dict (i : identity) (r : reference) : pydict :=
  [("recordId", VStr r.(rf_id)); ("sequence", VInt r.(rf_sequence)); ("recordHash", VStr r.(rf_hash));
   ("signerId", VStr i.(signer_id)); ("signatureAlgorithm", VStr "hmac-sha256"); ("signatureHmacSha256", VStr r.(rf_signature))].

(** [_append_line] on one of the two files. *)
Definition _append_line (f : option file) (value : pydict) (w : fate) : option file * res unit :=
  append_bytes f (record_line value) 0 w.

Definition append_record (value : pydict) (w : fate) : op unit := fun s =>
  let '(f, out) := _append_line s.(record_file) value w in ({| record_file := f; witness_file := s.(witness_file) |}, out).

Definition append_attestation (value : pydict) (w : fate) : op unit := fun s =>
  let '(f, out) := _append_line s.(witness_file) value w in ({| record_file := s.(record_file); witness_file := f |}, out).

(** [hex20]: the twenty characters drawn for the identifier. *)
Definition append (i : identity) (record_type : string) (payload : pyval) (hex20 : string) (now : Z) (w : fate) : op reference :=
  let record_type := slice 96 (strip record_type) in
  if String.eqb record_type "" || negb (is_dict payload) then
    st_raise (ValueError "public record requires record type and object payload")
  else
    let* s := st_get in
    let* previous := st_lift (_last_hash s.(record_file) _ZERO) in
    if String.eqb previous "INVALID" then st_raise (OSError "public record chain is invalid")
    else
      let sequence := match s.(record_file) with None => 1 | Some f => count_lines f + 1 end in
      let record_id := "record-" +:+ hex20 in
      let core := core_of sequence record_id record_type now payload previous in
      let* digest := st_lift (linked previous (VDict core)) in
      append_record (signed i core digest) w ;;;
      st_ret {| rf_id := record_id; rf_sequence := sequence; rf_hash := digest;
                rf_signature := _record_signature digest i.(signer_id) i.(signing_secret) |}.

(** ** Verification *)

Inductive report :=
  | RecordsBroken (records : Z) (line : option Z) (error : string)
  | WitnessesBroken (records witness_records : Z) (line : option Z) (error : string)
  | Verified (records : Z) (head : string) (policy : witness_policy) (witness_records witnessed : Z).

Definition core_keys : list string := ["sequence"; "recordId"; "recordType"; "timestampNs"; "payload"; "previousHash"].

(** One record after [records] of them: its digest, or the report that ends the verification. *)
Definition check_record (i : identity) (previous : string) (records number : Z) (line : string) : res (string + report) :=
  record ← loads line;
  core ← map_res (fun k => v ← vindex record k; Ok (k, v)) core_keys;
  let broken error := Ok (inr (RecordsBroken records (Some number) error)) in
  if negb (py_eq (dget_none core "previousHash") (VStr previous)) || negb (py_eq (dget_none core "sequence") (VInt (records + 1)))
  then broken "record chain mismatch"
  else
    digest ← linked previous (VDict core);
    let d := as_dict record in
    if negb (py_eq (dget_none d "hash") (VStr digest)) then broken "record hash mismatch"
    else
      let expected := _record_signature digest (py_str (dget_or d "signerId" (VStr ""))) i.(signing_secret) in
      if negb (py_eq (dget_none d "signerId") (VStr i.(signer_id))) then broken "record signature mismatch"
      else if negb (py_eq (dget_none d "signatureAlgorithm") (VStr "hmac-sha256")) then broken "record signature mismatch"
      else
        same ← compare_digest expected (py_str (dget_or d "signatureHmacSha256" (VStr "")));
        if negb same then broken "record signature mismatch" else Ok (inl digest).

(** The digests of the records of a file, in order, or the report. *)
Fixpoint check_records (i : identity) (lines : list string) (previous : string) (digests : list string) (number : Z)
    : res (list string + report) :=
  match lines with
  | [] => Ok (inl digests)
  | line :: rest =>
      if blank line then check_records i rest previous digests (number + 1)
      else
        let records := Z.of_nat (length digests) in
        match check_record i previous records number line with
        | Ok (inl digest) => check_records i rest digest (digests ++ [digest]) (number + 1)
        | Ok (inr r) => Ok (inr r)
        | Raise e => if chain_caught e then Ok (inr (RecordsBroken records None (error_text e))) else Raise e
        end
  end.

(** What the witness ledger holds so far: its last hash and who attested which record. *)
Record ledger := { lg_previous : string; lg_rows : list (string * string) }.

Definition rows (l : ledger) : Z := Z.of_nat (length l.(lg_rows)).

Definition check_attestation (p : witness_policy) (digests : list string) (l : ledger) (records number : Z) (line : string)
    : res (ledger + report) :=
  row ← loads line;
  event ← vindex row "event";
  expected_row ← linked l.(lg_previous) event;
  let d := as_dict row in
  let broken number error := Ok (inr (WitnessesBroken records (rows l) number error)) in
  if negb (py_eq (dget_none d "previousHash") (VStr l.(lg_previous))) || negb (py_eq (dget_none d "hash") (VStr expected_row))
  then broken (Some number) "witness chain mismatch"
  else
    w ← vindex event "witnessId"; h ← vindex event "recordHash";
    let witness_id := py_str w in
    let record_hash := py_str h in
    match key_lookup p.(witnesses) witness_id with
    | Some secret =>
        if negb (existsb (String.eqb record_hash) digests) then broken None "witness identity or record unavailable"
        else
          issued ← (t ← vindex event "issuedAtNs"; py_int t);
          same ← compare_digest (attestation_mac (attestation_payload witness_id record_hash issued) secret)
                   (py_str (dget_or (as_dict event) "hmacSha256" (VStr "")));
          if negb same then broken None "witness authentication mismatch"
          else Ok (inl {| lg_previous := expected_row; lg_rows := l.(lg_rows) ++ [(witness_id, record_hash)] |})
    | None => broken None "witness identity or record unavailable"
    end.

(** [except (OSError, json.JSONDecodeError, KeyError, TypeError, UnicodeDecodeError, ValueError)]. *)
Definition ledger_caught (e : exn) : bool := chain_caught e || is_value_error e.

Fixpoint check_attestations (p : witness_policy) (digests : list string) (records : Z) (lines : list string) (l : ledger) (number : Z)
    : res (ledger + report) :=
  match lines with
  | [] => Ok (inl l)
  | line :: rest =>
      if blank line then check_attestations p digests records rest l (number + 1)
      else match check_attestation p digests l records number line with
           | Ok (inl l) => check_attestations p digests records rest l (number + 1)
           | Ok (inr r) => Ok (inr r)
           | Raise e => if ledger_caught e then Ok (inr (WitnessesBroken records (rows l) None (error_text e))) else Raise e
           end
  end.

(** The lines of a file; [broken] is what an unreadable one reports. *)
Definition with_lines {A} (caught : exn -> bool) (broken : string -> A) (f : option file) (check : list string -> res A) (none : A) : res A :=
  match f with
  | None => Ok none
  | Some f => match file_lines f with
              | Ok lines => check lines
              | Raise e => if caught e then Ok (broken (error_text e)) else Raise e
              end
  end.

(** The witnesses that attested a record. *)
Definition attested_by (l : ledger) (digest : string) : list string :=
  map fst (List.filter (fun wh => String.eqb (snd wh) digest) l.(lg_rows)).

Definition distinct (l : list string) : Z := Z.of_nat (length (remove_dups l)).

Definition witnessed_count (quorum : Z) (digests : list string) (l : ledger) : Z :=
  if quorum =? 0 then 0
  else Z.of_nat (length (List.filter (fun d => quorum <=? distinct (attested_by l d)) (remove_dups digests))).

Definition verify_files (i : identity) (s : public_store) : res report :=
  checked ← with_lines chain_caught (fun e => inr (RecordsBroken 0 None e)) s.(record_file)
              (fun lines => check_records i lines _ZERO [] 1) (inl []);
  match checked with
  | inr r => Ok r
  | inl digests =>
      let records := Z.of_nat (length digests) in
      p ← _witness_policy i;
      let start := {| lg_previous := _ZERO; lg_rows := [] |} in
      checked ← with_lines ledger_caught (fun e => inr (WitnessesBroken records 0 None e)) s.(witness_file)
                  (fun lines => check_attestations p digests records lines start 1) (inl start);
      match checked with
      | inr r => Ok r
      | inl l => Ok (Verified records (default _ZERO (last digests)) p (rows l) (witnessed_count p.(quorum) digests l))
      end
  end.

Definition verify (i : identity) : op report := let* s := st_get in st_lift (verify_files i s).

Definition line_field (line : option Z) (k : string) : pydict := match line with Some l => [(k, VInt l)] | None => [] end.

Definition report_dict (i : identity) (r : report) : pydict :=
  match r with
  | RecordsBroken n line e => [("ok", VBool false); ("records", VInt n)] ++ line_field line "line" ++ [("error", VStr e)]
  | WitnessesBroken n w line e =>
      [("ok", VBool false); ("records", VInt n); ("witnessRecords", VInt w); ("error", VStr e)] ++ line_field line "witnessLine"
  | Verified n head p w k =>
      [("ok", VBool true); ("records", VInt n); ("head", VStr head); ("signerId", VStr i.(signer_id));
       ("signatureAlgorithm", VStr "hmac-sha256"); ("externalWitnessConfigured", VBool (negb (null p.(witnesses))));
       ("witnessQuorum", VInt p.(quorum)); ("witnessRecords", VInt w); ("quorumWitnessedRecords", VInt k);
       ("allRecordsWitnessed", VBool (negb (n =? 0) && negb (p.(quorum) =? 0) && (k =? n)))]
  end.

(** ** References *)

Definition bad_reference : string := "invalid public-record reference".

Definition is_record_id (s : string) : bool := starts_with "record-" s.

Definition reference_uri (r : pyval) : res string :=
  ids ← catch (fun e => is_key_error e || is_type_error e)
          (a ← vindex r "recordId"; b ← vindex r "recordHash"; Ok (py_str a, py_str b))
          (fun _ => Raise (ValueError bad_reference));
  let '(record_id, record_hash) := ids in
  if negb (is_record_id record_id) || negb (valid_hash record_hash) then Raise (ValueError bad_reference)
  else Ok ("upp-public-record:" +:+ record_id +:+ ":" +:+ record_hash).

(** [raw.split(":", 2)], when it has three parts. *)
Definition three_parts (raw : string) : option (string * string * string) :=
  match split_char ":"%char raw with
  | a :: b :: c :: rest => Some (a, b, join ":" (c :: rest))
  | _ => None
  end.

(** The first record of the lines with that identifier and hash. *)
Fixpoint find_record (record_id record_hash : string) (record_type : option string) (lines : list string) : res pyval :=
  match lines with
  | [] => Raise (KeyError "public-record reference not found")
  | line :: rest =>
      if blank line then find_record record_id record_hash record_type rest
      else
        record ← loads line;
        i ← vget record "recordId" VNone; h ← vget record "hash" VNone;
        if negb (py_eq i (VStr record_id)) || negb (py_eq h (VStr record_hash)) then find_record record_id record_hash record_type rest
        else
          t ← vget record "recordType" VNone;
          match record_type with
          | Some wanted => if py_eq t (VStr wanted) then Ok record
                           else Raise (ValueError "public-record reference has unexpected record type")
          | None => Ok record
          end
  end.

Definition resolve_reference (i : identity) (uri : string) (record_type : option string) : op pyval :=
  match three_parts (strip uri) with
  | None => st_raise (ValueError "invalid public-record reference URI")
  | Some (scheme, record_id, record_hash) =>
      if negb (String.eqb scheme "upp-public-record") then st_raise (ValueError "invalid public-record reference URI")
      else if negb (is_record_id record_id) || negb (valid_hash record_hash) then st_raise (ValueError "invalid public-record reference URI")
      else
        let* r := verify i in
        match r with
        | Verified _ _ _ _ _ =>
            let* s := st_get in
            match s.(record_file) with
            | None => st_raise (KeyError "public-record reference not found")
            | Some f =>
                st_lift (catch (fun e => is_os_error e || is_decode_error e || is_unicode_error e)
                  (lines ← file_lines f; find_record record_id record_hash record_type lines)
                  (fun _ => Raise (OSError "public record unavailable")))
            end
        | _ => st_raise (OSError "public record verification failed")
        end
  end.

(** ** Attesting *)

Definition hash_of_line (line : string) : res string := r ← loads line; h ← vget r "hash" (VStr ""); Ok (py_str h).

Definition _record_hashes (f : option file) : res (list string) :=
  match f with
  | None => Ok []
  | Some f => lines ← file_lines f; map_res hash_of_line (List.filter (fun l => negb (blank l)) lines)
  end.

(** The event already stored for this witness and record. *)
Fixpoint find_event (witness_id record_hash : string) (lines : list string) : res (option pydict) :=
  match lines with
  | [] => Ok None
  | line :: rest =>
      if blank line then find_event witness_id record_hash rest
      else
        row ← loads line;
        e ← vget row "event" VNone;
        let event := py_or e (VDict []) in
        w ← vget event "witnessId" VNone; h ← vget event "recordHash" VNone;
        if py_eq w (VStr witness_id) && py_eq h (VStr record_hash) then Ok (Some (as_dict event))
        else find_event witness_id record_hash rest
  end.

Definition bad_attestation : exn := PermissionError "invalid public-record witness attestation".

Definition attestation_fields (attestation : pyval) : res (string * string * Z * string) :=
  catch (fun e => is_key_error e || is_type_error e || is_value_error e)
    (a ← vindex attestation "witnessId"; b ← vindex attestation "recordHash";
     c ← (t ← vindex attestation "issuedAtNs"; py_int t); d ← vindex attestation "hmacSha256";
     Ok (py_str a, py_str b, c, py_str d))
    (fun _ => Raise bad_attestation).

Definition attest (i : identity) (attestation : pyval) (w : fate) : op pydict :=
  let* p := st_lift (_witness_policy i) in
  if null p.(witnesses) then st_raise (PermissionError "public-record external witnesses are not configured")
  else
    let* fields := st_lift (attestation_fields attestation) in
    let '(witness_id, record_hash, issued_at_ns, supplied) := fields in
    match key_lookup p.(witnesses) witness_id with
    | None => st_raise (PermissionError "unknown public-record witness")
    | Some secret =>
        let payload := attestation_payload witness_id record_hash issued_at_ns in
        let* same := st_lift (and_then (negb (String.eqb supplied "")) (compare_digest (attestation_mac payload secret) supplied)) in
        if negb (same : bool) then st_raise (PermissionError "public-record witness authentication failed")
        else
          let* s := st_get in
          let* hashes := st_lift (_record_hashes s.(record_file)) in
          if negb (existsb (String.eqb record_hash) hashes) then st_raise (ValueError "public-record witness references an unknown record")
          else
            let* known := st_lift (match s.(witness_file) with
                                   | None => Ok None
                                   | Some f => lines ← file_lines f; find_event witness_id record_hash lines
                                   end) in
            match (known : option pydict) with
            | Some event => st_ret (dmerge event [("accepted", VBool true); ("deduplicated", VBool true)])
            | None =>
                let* previous := st_lift (_last_hash s.(witness_file) _ZERO) in
                let event := payload ++ [("hmacSha256", VStr supplied)] in
                let* digest := st_lift (linked previous (VDict event)) in
                append_attestation [("event", VDict event); ("previousHash", VStr previous); ("hash", VStr digest)] w ;;;
                st_ret (dmerge event [("accepted", VBool true); ("deduplicated", VBool false)])
            end
    end.
End with_files.
