(* ===== verification/PublicRecordFacts.v ===== *)
(** * The public record implements a log of attested records (backend/public_record.py)

    The abstract state is a list of records and a list of attestations of them by
    witnesses of the policy. The files of a store represent it when they are the
    signed chain and the ledger written for it; every append and every
    attestation, with its write failing or not, takes a represented log to a
    represented log, and verification reports exactly its state. *)

From S2P Require Import Prelude PyStr PyFloat PyVal PyFacts Json Sha256 JsonText Persistence PersistenceChain PersistenceSegments ClusterSecrets WitnessAuth PublicRecord.

#[local] Open Scope string_scope.
#[local] Open Scope list_scope.
#[local] Open Scope Z_scope.
#[local] Open Scope st_scope.

(** ** Lines *)

Lemma canon_twice v : canon (canon v) = canon v.
Proof.
  induction v as [| | | | |l IH|d IH] using pyval_rect'; cbn [canon]; try done.
  - f_equal. rewrite map_map. apply map_ext_Forall. by eapply List.Forall_impl; [|exact IH].
  - f_equal. rewrite <- (sort_by_map fst fst (fun kv => (fst kv, canon (snd kv)))), sort_by_twice by done. f_equal.
    rewrite map_map. apply map_ext_Forall. eapply List.Forall_impl; [|exact IH]. intros [k v] H. cbn in *. by rewrite H.
Qed.

(** The file written for a list of dicts. *)
Definition lines_data (rs : list pydict) : string := fold_right (fun r data => record_line r +:+ data) "" rs.

Lemma lines_data_snoc rs r : lines_data (rs ++ [r]) = lines_data rs +:+ record_line r.
Proof.
  unfold lines_data. induction rs as [|x rs IH]; cbn [app fold_right]; [by rewrite string_app_nil|].
  by rewrite IH, string_app_assoc.
Qed.

Lemma file_lines_data rs stamp : file_lines {| f_data := lines_data rs; f_stamp := stamp |} = Ok (map record_text rs).
Proof.
  unfold file_lines, lines_data. cbn [f_data].
  assert (fold_right (fun r data => record_line r +:+ data) "" rs
          = utf8 (fold_right (fun r data => (record_text r +:+ newline) +:+ data) "" rs)) as ->.
  { induction rs as [|r rs IH]; [done|]. cbn [fold_right]. by rewrite utf8_app, IH. }
  rewrite utf8_decode_utf8. cbn [mbind res_bind]. f_equal. induction rs as [|r rs IH]; [done|]. cbn [fold_right map].
  rewrite !chars_app, <- app_assoc. change (chars newline ++ ?l) with (chr 10 :: l).
  rewrite text_lines_visible by apply visible_dumps. cbn [rev app]. by rewrite of_chars_chars, IH.
Qed.

Lemma utf8_visible l : visible l -> visible (concat (map utf8_char l)).
Proof.
  induction l as [|c l IH]; [done|]. intros [Hc Hl]%(visible_app [c]). cbn [map concat]. apply visible_app. split; [|by apply IH].
  revert Hc. by_char c.
Qed.

Lemma byte_lines_visible current l rest : visible l ->
  byte_lines current (l ++ chr 10 :: rest) = (rev current ++ l) :: byte_lines [] rest.
Proof.
  revert current. induction l as [|c l IH]; intros current; cbn [app].
  - intros _. by rewrite app_nil_r.
  - intros [Hc Hl]%(visible_app [c]). unfold visible in Hc. cbn in Hc. rewrite andb_true_r in Hc. apply Z.leb_le in Hc.
    cbn [byte_lines]. destruct (Z.eqb_spec (code c) 10); [lia|]. rewrite IH by done. cbn [rev]. by rewrite <- app_assoc.
Qed.

Lemma record_line_bytes r : exists l, chars (record_line r) = l ++ [chr 10] /\ visible l /\ forallb is_space_byte l = false.
Proof.
  exists (chars (utf8 (json_dumps (VDict r)))). unfold record_line. rewrite utf8_app, chars_app. split; [done|].
  unfold utf8. rewrite chars_of_chars. split; [apply utf8_visible, visible_dumps|].
  unfold json_dumps. cbn [write_json]. rewrite chars_app. done.
Qed.

(** As many lines as records. *)
Lemma count_lines_data rs stamp : count_lines {| f_data := lines_data rs; f_stamp := stamp |} = Z.of_nat (length rs).
Proof.
  unfold count_lines, lines_data. cbn [f_data]. f_equal. induction rs as [|r rs IH]; [done|]. cbn [fold_right].
  destruct (record_line_bytes r) as (l & Hl & Hv & Hs). rewrite chars_app, Hl, <- app_assoc. cbn [app].
  rewrite byte_lines_visible by done. cbn [rev app List.filter]. rewrite Hs. cbn [negb length]. by rewrite IH.
Qed.

(** ** The signed chain *)

Record draft := { dr_id : string; dr_type : string; dr_time : Z; dr_payload : pyval }.

Definition draft_core (n : Z) (previous : string) (d : draft) : pydict :=
  core_of n d.(dr_id) d.(dr_type) d.(dr_time) d.(dr_payload) previous.

Definition draft_hash (n : Z) (previous : string) (d : draft) : string := link previous (VDict (draft_core n previous d)).

#[global] Arguments draft_hash : simpl never.

(** Numbers of a width that JSON reads back. *)
Definition small (z : Z) : Prop := 0 <= z < 10 ^ 20.

Lemma int_ok_small z : small z -> int_ok z = true.
Proof.
  intros [H1 H2]. unfold int_ok. rewrite Z.abs_eq by done. apply Z.leb_le. unfold str_len. rewrite <- length_chars.
  pose proof (dec_length z 20 (conj H1 H2) ltac:(lia)). lia.
Qed.

Record draft_ok (d : draft) : Prop := { do_payload : json_ok d.(dr_payload) = true; do_time : small d.(dr_time) }.

Section record_log.
Context (i : identity).

Fixpoint signed_chain (n : Z) (previous : string) (ds : list draft) : list pydict :=
  match ds with
  | [] => []
  | d :: ds => signed i (draft_core n previous d) (draft_hash n previous d) :: signed_chain (n + 1) (draft_hash n previous d) ds
  end.

(** The hashes of the records, and the last one. *)
Fixpoint chain_hashes (n : Z) (previous : string) (ds : list draft) : list string :=
  match ds with [] => [] | d :: ds => draft_hash n previous d :: chain_hashes (n + 1) (draft_hash n previous d) ds end.

Fixpoint chain_end (n : Z) (previous : string) (ds : list draft) : string :=
  match ds with [] => previous | d :: ds => chain_end (n + 1) (draft_hash n previous d) ds end.

Lemma chain_end_last n previous ds : chain_end n previous ds = default previous (last (chain_hashes n previous ds)).
Proof.
  revert n previous. induction ds as [|d ds IH]; intros n previous; [done|]. cbn [chain_end chain_hashes]. rewrite IH, last_cons.
  by destruct (last _).
Qed.

Lemma chain_snoc n previous ds d :
  signed_chain n previous (ds ++ [d]) = signed_chain n previous ds ++
    [signed i (draft_core (n + Z.of_nat (length ds)) (chain_end n previous ds) d) (draft_hash (n + Z.of_nat (length ds)) (chain_end n previous ds) d)]
  /\ chain_hashes n previous (ds ++ [d]) = chain_hashes n previous ds ++ [draft_hash (n + Z.of_nat (length ds)) (chain_end n previous ds) d].
Proof.
  revert n previous. induction ds as [|x ds IH]; intros n previous; cbn [app signed_chain chain_hashes chain_end length].
  - by rewrite Z.add_0_r.
  - destruct (IH (n + 1) (draft_hash n previous x)) as [-> ->].
    replace (n + 1 + Z.of_nat (length ds)) with (n + Z.of_nat (S (length ds))) by lia. done.
Qed.

Lemma chain_hashes_length n previous ds : length (chain_hashes n previous ds) = length ds.
Proof. revert n previous. induction ds as [|d ds IH]; intros; cbn; [done|]. by rewrite IH. Qed.

Lemma signed_chain_length n previous ds : length (signed_chain n previous ds) = length ds.
Proof. revert n previous. induction ds as [|d ds IH]; intros; cbn; [done|]. by rewrite IH. Qed.

Lemma draft_hash_ascii n previous d : is_ascii (draft_hash n previous d) = true.
Proof. apply sha256_hex_ascii. Qed.

Lemma chain_end_ascii n previous ds : is_ascii previous = true -> is_ascii (chain_end n previous ds) = true.
Proof. revert n previous. induction ds as [|d ds IH]; intros n previous H; cbn; [done|]. apply IH, draft_hash_ascii. Qed.

(** *** One record, written and read *)

Lemma signed_keys n previous d h : NoDup (dkeys (signed i (draft_core n previous d) h)).
Proof. change (NoDup ["sequence"; "recordId"; "recordType"; "timestampNs"; "payload"; "previousHash"; "hash"; "signerId"; "signatureAlgorithm"; "signatureHmacSha256"]). nodup_keys. Qed.

Definition stored (n : Z) (previous : string) (d : draft) : pydict :=
  as_dict (canon (VDict (signed i (draft_core n previous d) (draft_hash n previous d)))).

Lemma stored_get n previous d k :
  dget (stored n previous d) k = option_map canon (dget (signed i (draft_core n previous d) (draft_hash n previous d)) k).
Proof. apply dget_canon, signed_keys. Qed.

Lemma loads_signed n previous d : draft_ok d -> small n ->
  loads (record_text (signed i (draft_core n previous d) (draft_hash n previous d))) = Ok (VDict (stored n previous d)).
Proof.
  intros [H Ht] Hn. unfold record_text. rewrite loads_dumps; [unfold stored; cbn [canon as_dict]; reflexivity|]. cbn [json_ok]. apply andb_true_iff. split.
  - apply bool_decide_eq_true, signed_keys.
  - unfold signed, draft_core, core_of. cbn. by rewrite H, !int_ok_small.
Qed.

Lemma link_back n previous d :
  link previous (VDict (core_of n d.(dr_id) d.(dr_type) d.(dr_time) (canon d.(dr_payload)) previous)) = draft_hash n previous d.
Proof.
  unfold draft_hash, draft_core. rewrite <- (link_canon _ (VDict (core_of n _ _ _ (canon _) _))), <- (link_canon _ (VDict (core_of n _ _ _ (dr_payload d) _))).
  f_equal. unfold core_of. cbn [canon map fst snd]. by rewrite canon_twice.
Qed.

Lemma check_record_signed previous d records number : is_ascii previous = true -> draft_ok d -> small (records + 1) ->
  check_record i previous records number (record_text (signed i (draft_core (records + 1) previous d) (draft_hash (records + 1) previous d)))
  = Ok (inl (draft_hash (records + 1) previous d)).
Proof.
  intros Hp Hok Hn. unfold check_record. rewrite loads_signed by done. cbn [mbind res_bind map_res core_keys vindex].
  unfold dindex, dget_none, dget_or. cbn [as_dict]. rewrite !stored_get. unfold signed, draft_core, core_of.
  cbn [app dget String.eqb Ascii.eqb Bool.eqb option_map canon mbind res_bind py_eq].
  rewrite str_eqb_refl. cbn [num_of num_eq negb orb]. rewrite Z.eqb_refl. cbn [negb]. unfold linked, ascii_encode. rewrite Hp.
  cbn [mbind res_bind]. match goal with |- context [link previous (VDict ?c)] =>
    change (link previous (VDict c)) with
      (link previous (VDict (core_of (records + 1) d.(dr_id) d.(dr_type) d.(dr_time) (canon d.(dr_payload)) previous))) end.
  rewrite link_back, !str_eqb_refl. cbn [negb py_str]. rewrite compare_digest_refl by apply hmac_hex_ascii. done.
Qed.

Lemma check_records_signed ds previous digests number :
  is_ascii previous = true -> Forall draft_ok ds -> small (Z.of_nat (length digests + length ds)) ->
  check_records i (map record_text (signed_chain (Z.of_nat (length digests) + 1) previous ds)) previous digests number
  = Ok (inl (digests ++ chain_hashes (Z.of_nat (length digests) + 1) previous ds)).
Proof.
  revert previous digests number. induction ds as [|d ds IH]; intros previous digests number Hp Hok Hn;
    cbn [signed_chain chain_hashes map check_records]; [by rewrite app_nil_r|].
  inversion Hok as [|? ? Hd Hds]; subst. unfold record_text at 1. rewrite record_not_blank.
  cbn [length] in Hn. rewrite check_record_signed by (done || unfold small in *; lia).
  specialize (IH (draft_hash (Z.of_nat (length digests) + 1) previous d)
    (digests ++ [draft_hash (Z.of_nat (length digests) + 1) previous d]) (number + 1)).
  rewrite length_app in IH. cbn [length] in IH.
  replace (Z.of_nat (length digests + 1) + 1) with (Z.of_nat (length digests) + 1 + 1) in IH by lia.
  rewrite IH; [by rewrite <- app_assoc|apply draft_hash_ascii|done|]. by replace (length digests + 1 + length ds)%nat with (length digests + S (length ds))%nat by lia.
Qed.

(** The last record's hash, read from the file. *)
Lemma last_hash_signed ds f : Forall draft_ok ds -> small (Z.of_nat (length ds)) ->
  match f with None => ds = [] | Some f => f.(f_data) = lines_data (signed_chain 1 _ZERO ds) end ->
  _last_hash f _ZERO = Ok (chain_end 1 _ZERO ds).
Proof.
  intros Hok Hn Hf. destruct f as [[data stamp]|]; cbn [f_data] in Hf; [|by subst]. subst data. unfold _last_hash, last_line.
  rewrite file_lines_data. cbn [mbind res_bind].
  assert (forall rs, List.filter (fun l => negb (blank l)) (map record_text rs) = map record_text rs) as ->.
  { induction rs as [|r rs IH]; [done|]. cbn [map List.filter]. unfold record_text at 1. rewrite record_not_blank. cbn. by rewrite IH. }
  destruct ds as [|d ds] using rev_ind; [done|]. clear IHds. rewrite (proj1 (chain_snoc 1 _ZERO ds d)), map_app. cbn [map]. rewrite last_snoc.
  apply Forall_app in Hok as [_ Hok]. inversion Hok as [|? ? Hd _]; subst. rewrite length_app in Hn. cbn in Hn.
  rewrite loads_signed by (done || unfold small in *; lia). cbn [mbind res_bind vindex]. unfold dindex. rewrite stored_get.
  unfold signed, draft_core, core_of. cbn [app dget String.eqb Ascii.eqb Bool.eqb option_map canon mbind res_bind catch py_str].
  f_equal. rewrite (chain_end_last 1 _ZERO (ds ++ [d])), (proj2 (chain_snoc 1 _ZERO ds d)), last_snoc. done.
Qed.
End record_log.

(** ** The ledger of attestations *)

Record attested := { at_witness : string; at_hash : string; at_issued : Z }.

Definition at_payload (a : attested) : pydict := attestation_payload a.(at_witness) a.(at_hash) a.(at_issued).

Definition attested_event (secret : string) (a : attested) : pydict :=
  at_payload a ++ [("hmacSha256", VStr (attestation_mac (at_payload a) secret))].

Definition at_pair (a : attested) : string * string := (a.(at_witness), a.(at_hash)).

Section ledger.
Context (p : witness_policy).

(** An attestation of one of the records by a witness of the policy, under its own secret. *)
Definition event_of (a : attested) : pyval :=
  VDict (match key_lookup p.(witnesses) a.(at_witness) with Some secret => attested_event secret a | None => [] end).

Record attested_ok (hashes : list string) (a : attested) : Prop := {
  ao_witness : exists secret, key_lookup p.(witnesses) a.(at_witness) = Some secret;
  ao_hash : a.(at_hash) ∈ hashes;
  ao_issued : int_ok a.(at_issued) = true;
}.

Lemma event_keys secret a : NoDup (dkeys (attested_event secret a)).
Proof. change (NoDup ["version"; "witnessId"; "recordHash"; "issuedAtNs"; "hmacSha256"]). nodup_keys. Qed.

Lemma event_json_ok hashes a : attested_ok hashes a -> json_ok (event_of a) = true.
Proof.
  intros [[secret Hs] _ Hi]. unfold event_of. rewrite Hs. cbn [json_ok]. apply andb_true_iff. split.
  - apply bool_decide_eq_true, event_keys.
  - unfold attested_event, at_payload, attestation_payload. cbn. by rewrite Hi.
Qed.

Lemma events_json_ok hashes atts : Forall (attested_ok hashes) atts -> Forall (fun e => json_ok e = true) (map event_of atts).
Proof. intros H. apply Forall_fmap. eapply Forall_impl; [exact H|]. intros a. apply event_json_ok. Qed.

Lemma existsb_elem l s : s ∈ l -> existsb (String.eqb s) l = true.
Proof. intros H. apply existsb_exists. exists s. split; [by apply list_elem_of_In|apply str_eqb_refl]. Qed.

Lemma check_attestation_ok hashes a l records number : is_ascii l.(lg_previous) = true -> attested_ok hashes a ->
  check_attestation p hashes l records number (record_text (_record l.(lg_previous) (event_of a)))
  = Ok (inl {| lg_previous := link l.(lg_previous) (event_of a); lg_rows := l.(lg_rows) ++ [at_pair a] |}).
Proof.
  intros Hp Hok. destruct (loads_record l.(lg_previous) (event_of a) (event_json_ok _ _ Hok)) as (d & Hd & H1 & H2 & H3).
  destruct Hok as [[secret Hs] Hh _]. unfold check_attestation. rewrite Hd. cbn [mbind res_bind vindex as_dict]. unfold dindex at 1.
  rewrite H1. cbn [mbind res_bind]. unfold linked, ascii_encode. rewrite Hp. cbn [mbind res_bind]. unfold dget_none, dget_or at 1 2.
  rewrite H2, H3, link_canon, ascii_replace_id by done. cbn [py_eq]. rewrite !str_eqb_refl. cbn [negb orb].
  unfold event_of. rewrite Hs. set (e := attested_event secret a).
  assert (forall k, dget (as_dict (canon (VDict e))) k = option_map canon (dget e k)) as Hget by (intros k; apply dget_canon, event_keys).
  set (ce := as_dict (canon (VDict e))) in *. change (canon (VDict e)) with (VDict ce). cbn [vindex as_dict].
  unfold dindex, dget_or. rewrite !Hget. unfold e, attested_event, at_payload, attestation_payload.
  cbn [app dget String.eqb Ascii.eqb Bool.eqb option_map canon mbind res_bind py_str py_int].
  rewrite Hs, existsb_elem by done. cbn [negb]. rewrite compare_digest_refl by apply hmac_hex_ascii. done.
Qed.

Lemma check_attestations_ok hashes atts l records number : is_ascii l.(lg_previous) = true -> Forall (attested_ok hashes) atts ->
  check_attestations p hashes records (map record_text (chain_records l.(lg_previous) (map event_of atts))) l number
  = Ok (inl {| lg_previous := chain_head l.(lg_previous) (map event_of atts); lg_rows := l.(lg_rows) ++ map at_pair atts |}).
Proof.
  revert l number. induction atts as [|a atts IH]; intros l number Hp Hok; cbn [map chain_records chain_head check_attestations].
  - rewrite app_nil_r. by destruct l.
  - inversion Hok as [|? ? Ha Hatts]; subst. unfold record_text at 1. rewrite record_not_blank, check_attestation_ok by done.
    rewrite (IH {| lg_previous := link l.(lg_previous) (event_of a); lg_rows := l.(lg_rows) ++ [at_pair a] |}) by (done || apply sha256_hex_ascii).
    cbn [lg_previous lg_rows]. by rewrite <- app_assoc.
Qed.

Lemma find_event_ok hashes atts h w r : Forall (attested_ok hashes) atts ->
  match find_event w r (map record_text (chain_records h (map event_of atts))) with
  | Ok (Some _) => (w, r) ∈ map at_pair atts
  | Ok None => (w, r) ∉ map at_pair atts
  | Raise _ => False
  end.
Proof.
  intros Hok. revert h. induction Hok as [|a atts Ha Hatts IH]; intros h; cbn [map chain_records find_event]; [by apply not_elem_of_nil|].
  unfold record_text at 1. rewrite record_not_blank.
  destruct (loads_record h (event_of a) (event_json_ok _ _ Ha)) as (d & Hd & H1 & _). destruct Ha as [[secret Hs] _ _].
  set (h' := link h (event_of a)). specialize (IH h'). clearbody h'.
  rewrite Hd. cbn [mbind res_bind vget]. unfold dget_or. rewrite H1. set (e := attested_event secret a).
  assert (event_of a = VDict e) as -> by (unfold event_of; by rewrite Hs).
  assert (forall k, dget (as_dict (canon (VDict e))) k = option_map canon (dget e k)) as Hget by (intros k; apply dget_canon, event_keys).
  set (ce := as_dict (canon (VDict e))) in *. change (canon (VDict e)) with (VDict ce). cbn [mbind res_bind].
  assert (py_or (VDict ce) (VDict []) = VDict ce) as -> by (by destruct ce). cbn [vget]. unfold dget_or. cbn [mbind res_bind]. rewrite !Hget.
  unfold e, attested_event, at_payload, attestation_payload.
  cbn [app dget String.eqb Ascii.eqb Bool.eqb option_map canon mbind res_bind py_eq].
  assert ((String.eqb (at_witness a) w && String.eqb (at_hash a) r = true) <-> at_pair a = (w, r)) as Hpair.
  { rewrite andb_true_iff, !String.eqb_eq. unfold at_pair. split; [intros [-> ->]; done|by intros [= -> ->]]. }
  destruct (String.eqb (at_witness a) w && String.eqb (at_hash a) r).
  - rewrite <- (proj1 Hpair eq_refl). left.
  - destruct (find_event w r _) as [[ev|]|]; [by right| |done]. intros [Hx|Hx]%elem_of_cons; [|done].
    by apply (eq_sym) in Hx; apply Hpair in Hx.
Qed.

(** One attestation of a record counts one witness. *)
Lemma distinct_nodup l : NoDup l -> distinct l = Z.of_nat (length l).
Proof.
  intros H. unfold distinct. f_equal. apply Permutation_length, NoDup_Permutation; [apply NoDup_remove_dups|done|].
  intros x. apply elem_of_remove_dups.
Qed.

Lemma attested_by_length h atts h' : NoDup (map at_pair atts) ->
  distinct (attested_by {| lg_previous := h; lg_rows := map at_pair atts |} h')
  = Z.of_nat (length (List.filter (fun a => String.eqb a.(at_hash) h') atts)).
Proof.
  intros Hn. unfold attested_by. cbn [lg_rows].
  assert (forall l, length (map fst (List.filter (fun wh : string * string => String.eqb (snd wh) h') (map at_pair l)))
    = length (List.filter (fun a => String.eqb (at_hash a) h') l)) as Hl.
  { induction l as [|a l IH]; cbn; [done|]. destruct (String.eqb (at_hash a) h'); cbn; by rewrite ?IH. }
  rewrite distinct_nodup; [by rewrite Hl|]. clear Hl. induction atts as [|a atts IH]; cbn; [constructor|].
  cbn in Hn. apply NoDup_cons in Hn as [Ha Hn]. destruct (String.eqb_spec (at_hash a) h') as [Eh|]; cbn; [|by apply IH].
  constructor; [|by apply IH]. intros Hin. apply Ha. apply list_elem_of_fmap in Hin as ([w r] & Hw & Hin). cbn in Hw.
  apply elem_of_filter_bool in Hin as [Hin Hh%String.eqb_eq]. cbn in Hh. unfold at_pair. by rewrite Hw, Eh, <- Hh.
Qed.
End ledger.

(** * What the public record guarantees (backend/public_record.py)

    Every append and attestation takes a represented log to a represented log;
    verification reports the state of the log; a witness counts once for a record
    and only with its own secret; and a reference resolves to its record. *)

(** ** The log *)

Record log := { drafts : list draft; atts : list attested }.

Definition hashes (lg : log) : list string := chain_hashes 1 _ZERO lg.(drafts).
Definition head_of (lg : log) : string := chain_end 1 _ZERO lg.(drafts).

Definition add_draft (d : draft) (lg : log) : log := {| drafts := lg.(drafts) ++ [d]; atts := lg.(atts) |}.
Definition add_att (a : attested) (lg : log) : log := {| drafts := lg.(drafts); atts := lg.(atts) ++ [a] |}.

(** How many witnesses attested a record, and how many records a quorum of them did. *)
Definition witnesses_of (lg : log) (h : string) : Z := Z.of_nat (length (List.filter (fun a => String.eqb a.(at_hash) h) lg.(atts))).

Definition quorum_records (quorum : Z) (lg : log) : Z :=
  if quorum =? 0 then 0 else Z.of_nat (length (List.filter (fun h => quorum <=? witnesses_of lg h) (remove_dups (hashes lg)))).

(** *** What a caller asks and is told *)

Inductive request :=
  | Append (record_type : string) (payload : pyval) (hex20 : string) (now : Z) (w : fate)
  | Attest (attestation : pyval) (w : fate).

Inductive answer :=
  | Recorded (record_id : string) (sequence : Z) (record_hash : string)
  | Counted (deduplicated : pyval).

Definition recorded (r : reference) : answer := Recorded r.(rf_id) r.(rf_sequence) r.(rf_hash).

Definition is_done (w : fate) : bool := match w with Done => true | _ => false end.

Definition new_draft (record_type : string) (payload : pyval) (hex20 : string) (now : Z) : draft :=
  {| dr_id := "record-" +:+ hex20; dr_type := slice 96 (strip record_type); dr_time := now; dr_payload := payload |}.

Definition recordable (record_type : string) (payload : pyval) : bool :=
  negb (String.eqb (slice 96 (strip record_type)) "") && is_dict payload.

(** The attestation of a record of the log, when it is one under its witness's secret. *)
Definition authenticated (p : witness_policy) (lg : log) (attestation : pyval) : option attested :=
  match attestation_fields attestation with
  | Ok (w, h, t, m) =>
      match key_lookup p.(witnesses) w with
      | Some secret =>
          if String.eqb m (attestation_mac (attestation_payload w h t) secret) && existsb (String.eqb h) (hashes lg)
          then Some {| at_witness := w; at_hash := h; at_issued := t |} else None
      | None => None
      end
  | Raise _ => None
  end.

(** The log's own operations: what a request makes of the log, and the answer to it unless it is refused. *)
Definition log_serve (p : witness_policy) (lg : log) (r : request) : log * option answer :=
  match r with
  | Append t payload hex20 now w =>
      let d := new_draft t payload hex20 now in
      if recordable t payload && is_done w
      then (add_draft d lg, Some (Recorded d.(dr_id) (Z.of_nat (S (length lg.(drafts)))) (head_of (add_draft d lg))))
      else (lg, None)
  | Attest attestation w =>
      match authenticated p lg attestation with
      | Some a =>
          if decide (at_pair a ∈ map at_pair lg.(atts)) then (lg, Some (Counted (VBool true)))
          else if is_done w then (add_att a lg, Some (Counted (VBool false))) else (lg, None)
      | None => (lg, None)
      end
  end.

(** A file that holds exactly the lines of some records; a missing file holds none. *)
Definition holds_lines (rs : list pydict) (f : option file) : Prop :=
  match f with None => rs = [] | Some f => f.(f_data) = lines_data rs end.

Lemma holds_signed i ds f : holds_lines (signed_chain i 1 _ZERO ds) f ->
  match f with None => ds = [] | Some f => f.(f_data) = lines_data (signed_chain i 1 _ZERO ds) end.
Proof. destruct f; [done|]. by destruct ds. Qed.

Section store.
Context (euid : Z) (files : string -> file_view) (i : identity) (p : witness_policy).

(** The files of a store hold a log of well-formed records, each witness of the policy at most once for a record. *)
Record represents (lg : log) (s : public_store) : Prop := {
  rp_records : holds_lines (signed_chain i 1 _ZERO lg.(drafts)) s.(record_file);
  rp_ledger : holds_chain _ZERO (map (event_of p) lg.(atts)) s.(witness_file);
  rp_drafts : Forall draft_ok lg.(drafts);
  rp_small : small (Z.of_nat (length lg.(drafts)));
  rp_atts : Forall (attested_ok p (hashes lg)) lg.(atts);
  rp_once : NoDup (map at_pair lg.(atts));
}.

Lemma represents_empty : represents {| drafts := []; atts := [] |} {| record_file := None; witness_file := None |}.
Proof. split; cbn; try done; constructor. Qed.

Definition status_of (lg : log) : report :=
  Verified (Z.of_nat (length lg.(drafts))) (head_of lg) p (Z.of_nat (length lg.(atts))) (quorum_records p.(quorum) lg).

Lemma filter_ext {A} (f g : A -> bool) l : (forall x, f x = g x) -> List.filter f l = List.filter g l.
Proof. intros H. induction l as [|x l IH]; cbn; [done|]. by rewrite H, IH. Qed.

(** Verification reports the log. *)
Lemma verify_represented lg s : represents lg s -> _witness_policy euid files i = Ok p ->
  verify_files euid files i s = Ok (status_of lg).
Proof.
  intros [Hr%holds_signed Hl Hd Hn Ha Ho] Hp. unfold verify_files.
  assert (with_lines chain_caught (fun e => inr (RecordsBroken 0 None e)) s.(record_file)
    (fun lines => check_records i lines _ZERO [] 1) (inl []) = Ok (inl (hashes lg))) as ->.
  { destruct (record_file s) as [[data stamp]|]; unfold with_lines; [|unfold hashes; by rewrite Hr].
    cbn [f_data] in Hr. rewrite Hr, file_lines_data. apply (check_records_signed i lg.(drafts) _ZERO [] 1 eq_refl Hd Hn). }
  cbn [mbind res_bind]. rewrite Hp. cbn [mbind res_bind].
  assert (with_lines ledger_caught (fun e => inr (WitnessesBroken (Z.of_nat (length (hashes lg))) 0 None e)) s.(witness_file)
    (fun lines => check_attestations p (hashes lg) (Z.of_nat (length (hashes lg))) lines {| lg_previous := _ZERO; lg_rows := [] |} 1)
    (inl {| lg_previous := _ZERO; lg_rows := [] |})
    = Ok (inl {| lg_previous := chain_head _ZERO (map (event_of p) lg.(atts)); lg_rows := map at_pair lg.(atts) |})) as ->.
  { destruct (witness_file s) as [[data stamp]|]; unfold with_lines; cbn [holds_chain f_data] in Hl.
    - rewrite Hl, file_lines_chain. by apply (check_attestations_ok p (hashes lg) lg.(atts) {| lg_previous := _ZERO; lg_rows := [] |}).
    - apply map_eq_nil in Hl. by rewrite Hl. }
  cbn [mbind res_bind]. unfold status_of, rows, witnessed_count, quorum_records, head_of. cbn [lg_rows]. rewrite length_map.
  unfold hashes. rewrite chain_hashes_length, <- chain_end_last. destruct (quorum p =? 0); [done|]. do 4 f_equal.
  apply filter_ext. intros h. unfold witnesses_of. by rewrite (attested_by_length _ _ _ Ho).
Qed.

(** ** The operations *)

Lemma append_data (f : option file) (rs : list pydict) r w : holds_lines rs f -> whole w ->
  let '(f', out) := _append_line f r w in
  if is_done w then out = Ok tt /\ holds_lines (rs ++ [r]) f' else out = Raise io_error /\ holds_lines rs f'.
Proof.
  intros Hf Hw. assert (match f with Some f => f.(f_data) | None => "" end = lines_data rs) as Hd by (destruct f; [done|by rewrite Hf]).
  unfold _append_line, append_bytes. rewrite Hd. destruct Hw as [->|[->| ->]]; cbn.
  - by rewrite lines_data_snoc.
  - done.
  - by rewrite string_app_nil.
Qed.

Lemma chain_end_valid ds : String.eqb (chain_end 1 _ZERO ds) "INVALID" = false.
Proof.
  apply String.eqb_neq. rewrite chain_end_last. destruct ds as [|d ds] using rev_ind; [done|].
  rewrite (proj2 (chain_snoc i 1 _ZERO ds d)), last_snoc. cbn [default]. intros H%(f_equal (fun s => length (chars s))).
  cbv beta in H. pose proof (eq_trans (eq_sym (sha256_hex_length _)) H) as H'. discriminate H'.
Qed.

Lemma add_draft_represented lg s d f' : represents lg s -> draft_ok d -> small (Z.of_nat (S (length lg.(drafts)))) ->
  holds_lines (signed_chain i 1 _ZERO (lg.(drafts) ++ [d])) f' ->
  represents (add_draft d lg) {| record_file := f'; witness_file := s.(witness_file) |}.
Proof.
  intros [Hr Hl Hd Hn Ha Ho] Hok Hsmall Hf. split; cbn [record_file witness_file add_draft drafts atts]; try done.
  - apply Forall_app. split; [done|]. by constructor.
  - rewrite length_app. cbn [length]. by rewrite Nat.add_1_r.
  - eapply Forall_impl; [exact Ha|]. intros a [H1 H2 H3]. split; [done| |done]. unfold hashes, add_draft. cbn [drafts].
    rewrite (proj2 (chain_snoc i 1 _ZERO _ _)). apply elem_of_app. by left.
Qed.

Lemma record_append_represented lg s record_type payload hex20 now w :
  represents lg s -> json_ok payload = true -> small now -> small (Z.of_nat (S (length lg.(drafts)))) -> whole w ->
  let d := new_draft record_type payload hex20 now in
  wp (append i record_type payload hex20 now w) (fun out s' =>
    if recordable record_type payload && is_done w then
      represents (add_draft d lg) s' /\ exists r, out = Ok r /\ recorded r = Recorded d.(dr_id) (Z.of_nat (S (length lg.(drafts)))) (head_of (add_draft d lg))
    else represents lg s' /\ exists e, out = Raise e) s.
Proof.
  intros Hrep Hpay Hnow Hsmall Hw d. unfold append.
  replace (recordable record_type payload) with (negb (String.eqb (slice 96 (strip record_type)) "" || negb (is_dict payload)))
    by (unfold recordable; by rewrite negb_orb, negb_involutive).
  destruct (String.eqb _ "" || negb (is_dict payload)); [apply wp_raise; split; [done|by eexists]|]. cbn [negb andb]. apply wp_get.
  pose proof Hrep as [Hr Hl Hd Hn Ha Ho].
  rewrite (last_hash_signed i lg.(drafts)) by (done || by apply holds_signed). eapply wp_lift; [done|]. rewrite chain_end_valid.
  assert (match s.(record_file) with None => 1 | Some f => count_lines f + 1 end = 1 + Z.of_nat (length lg.(drafts))) as ->.
  { destruct (record_file s) as [[data stamp]|]; [|by apply holds_signed in Hr; rewrite Hr]. cbn [holds_lines f_data] in Hr.
    subst data. rewrite count_lines_data, signed_chain_length. lia. }
  set (n := 1 + Z.of_nat (length lg.(drafts))). set (prev := chain_end 1 _ZERO lg.(drafts)).
  unfold linked, ascii_encode. assert (is_ascii prev = true) as -> by (by apply chain_end_ascii). cbn [mbind res_bind]. eapply wp_lift; [done|].
  change (core_of n ("record-" +:+ hex20) (slice 96 (strip record_type)) now payload prev) with (draft_core n prev d).
  change (link prev (VDict (draft_core n prev d))) with (draft_hash n prev d).
  pose proof (append_data s.(record_file) _ (signed i (draft_core n prev d) (draft_hash n prev d)) w Hr Hw) as Hap.
  apply wp_bind. unfold wp, append_record. destruct (_append_line _ _ w) as [f' out]. cbn [fst snd].
  destruct (is_done w); destruct Hap as [-> Hap]; [|split; [by split|by eexists]]. cbn [st_ret fst snd]. split.
  - apply add_draft_represented; [done|by split|done|]. by rewrite (proj1 (chain_snoc i 1 _ZERO lg.(drafts) d)).
  - eexists. split; [done|]. unfold recorded. cbn [rf_id rf_sequence rf_hash]. unfold head_of, add_draft. cbn [drafts].
    rewrite chain_end_last, (proj2 (chain_snoc i 1 _ZERO _ _)), last_snoc. f_equal. unfold n. lia.
Qed.

Lemma hash_of_signed n previous d : draft_ok d -> small n ->
  hash_of_line (record_text (signed i (draft_core n previous d) (draft_hash n previous d))) = Ok (draft_hash n previous d).
Proof.
  intros Hd Hn. unfold hash_of_line. rewrite loads_signed by done. cbn [mbind res_bind vget]. unfold dget_or. rewrite stored_get.
  unfold signed, draft_core, core_of. cbn [app dget String.eqb Ascii.eqb Bool.eqb option_map canon mbind res_bind py_str]. done.
Qed.

Lemma record_hashes_signed ds n previous : Forall draft_ok ds -> 0 <= n -> n + Z.of_nat (length ds) <= 10 ^ 20 ->
  map_res hash_of_line (List.filter (fun l => negb (blank l)) (map record_text (signed_chain i n previous ds))) = Ok (chain_hashes n previous ds).
Proof.
  intros Hok. revert n previous. induction Hok as [|d ds Hd Hds IH]; intros n previous Hn Hs; cbn [signed_chain chain_hashes map List.filter]; [done|].
  cbn [length] in Hs. unfold record_text at 1. rewrite record_not_blank. cbn [negb map_res].
  rewrite hash_of_signed by (done || unfold small in *; lia). cbn [mbind res_bind]. rewrite IH by lia. done.
Qed.

Lemma record_hashes_represented lg s : represents lg s -> _record_hashes s.(record_file) = Ok (hashes lg).
Proof.
  intros [Hr Hl Hd Hn Ha Ho]. unfold _record_hashes. apply holds_signed in Hr. destruct (record_file s) as [[data stamp]|].
  - cbn [f_data] in Hr. rewrite Hr, file_lines_data. cbn [mbind res_bind]. apply record_hashes_signed; [done..|]. unfold small in Hn. lia.
  - unfold hashes. by rewrite Hr.
Qed.

Lemma known_event lg s w h : represents lg s ->
  match (match s.(witness_file) with None => Ok None | Some f => lines ← file_lines f; find_event w h lines end) with
  | Ok (Some _) => (w, h) ∈ map at_pair lg.(atts)
  | Ok None => (w, h) ∉ map at_pair lg.(atts)
  | Raise _ => False
  end.
Proof.
  intros [Hr Hl Hd Hn Ha Ho]. destruct (witness_file s) as [[data stamp]|]; cbn [holds_chain f_data] in Hl.
  - rewrite Hl, file_lines_chain. cbn [mbind res_bind]. by apply (find_event_ok p (hashes lg)).
  - apply map_eq_nil in Hl. rewrite Hl. apply not_elem_of_nil.
Qed.

(** An authenticated attestation is one of a record of the log by a witness of the policy. *)
Lemma authenticated_ok lg attestation a : authenticated p lg attestation = Some a ->
  (forall w h t m, attestation_fields attestation = Ok (w, h, t, m) -> int_ok t = true) ->
  attested_ok p (hashes lg) a.
Proof.
  unfold authenticated. intros H Hint. destruct (attestation_fields attestation) as [[[[w h] t] m]|]; [|done]. specialize (Hint _ _ _ _ eq_refl).
  destruct (key_lookup p.(witnesses) w) as [secret|] eqn:Es; [|done]. destruct (_ && _) eqn:E; [|done]. simplify_eq.
  apply andb_prop in E as [_ (x & Hx & ->%String.eqb_eq)%existsb_exists]. split; [by exists secret|by apply list_elem_of_In|done].
Qed.

Lemma wp_lift_raise {S A B} e (k : A -> st S B) (Q : res B -> S -> Prop) s : Q (Raise e) s -> wp (st_bind (st_lift (Raise e)) k) Q s.
Proof. done. Qed.

Lemma add_att_represented lg s a f' : represents lg s -> attested_ok p (hashes lg) a -> (at_pair a ∉ map at_pair lg.(atts)) ->
  holds_chain _ZERO (map (event_of p) lg.(atts) ++ [event_of p a]) f' ->
  represents (add_att a lg) {| record_file := s.(record_file); witness_file := f' |}.
Proof.
  intros [Hr Hl Hd Hn Ha Ho] Hok Hnew Hf.
  split; cbn [record_file witness_file add_att drafts atts]; [done|..|done|done| |].
  - by rewrite map_app.
  - apply Forall_app. split; [done|]. by constructor.
  - rewrite map_app. apply NoDup_app. split; [done|]. split; [by intros x Hx ->%list_elem_of_singleton|apply NoDup_singleton].
Qed.

(** Writing an event that is not in the ledger yet. *)
Lemma append_event_represented lg s a secret w (k : unit -> op pydict) Q : represents lg s -> attested_ok p (hashes lg) a ->
  key_lookup p.(witnesses) a.(at_witness) = Some secret -> (at_pair a ∉ map at_pair lg.(atts)) -> whole w ->
  let previous := chain_head _ZERO (map (event_of p) lg.(atts)) in
  let event := attested_event secret a in
  (forall s', is_done w = true -> represents (add_att a lg) s' -> wp (k tt) Q s') ->
  (forall s' e, is_done w = false -> represents lg s' -> Q (Raise e) s') ->
  wp (st_bind (append_attestation [("event", VDict event); ("previousHash", VStr previous); ("hash", VStr (link previous (VDict event)))] w) k) Q s.
Proof.
  intros Hrep Hok Hs Hnew Hw previous event Hthen Helse. pose proof Hrep as [Hr Hl Hd Hn Ha Ho].
  assert (event_of p a = VDict event) as Hev by (unfold event_of; by rewrite Hs).
  pose proof (append_chain _ZERO _ _ (event_of p a) 0 w Hl Hw) as Hap. rewrite Hev in Hap.
  replace (_record (chain_head _ZERO (map (event_of p) lg.(atts))) (VDict event))
    with [("event", VDict event); ("previousHash", VStr previous); ("hash", VStr (link previous (VDict event)))] in Hap.
  2:{ unfold _record. by rewrite ascii_replace_id by by apply chain_head_ascii. }
  apply wp_bind. unfold wp at 1, append_attestation, _append_line. destruct (append_bytes _ _ _ _) as [f' out]. cbn [fst snd].
  destruct Hw as [->|Hw].
  - destruct Hap as [-> Hap]. apply Hthen; [done|]. apply add_att_represented; [done..|]. by rewrite Hev.
  - assert (is_done w = false /\ out = Raise io_error /\ holds_chain _ZERO (map (event_of p) lg.(atts)) f') as (Hf & -> & Hap')
      by (by destruct Hw as [->| ->]).
    apply Helse; [done|]. by split.
Qed.

Lemma attest_represented lg attestation w s : represents lg s -> _witness_policy euid files i = Ok p -> whole w ->
  (forall a h t m, attestation_fields attestation = Ok (a, h, t, m) -> int_ok t = true) ->
  wp (attest euid files i attestation w) (fun out s' =>
    let '(lg', told) := log_serve p lg (Attest attestation w) in
    represents lg' s' /\
    match told with Some a => exists d, out = Ok d /\ Counted (dget_none d "deduplicated") = a | None => exists e, out = Raise e end) s.
Proof.
  intros Hrep Hp Hw Hint. unfold attest. rewrite Hp. eapply wp_lift; [done|]. cbn [log_serve].
  pose proof (fun a => authenticated_ok lg attestation a) as Hauth. unfold authenticated in *.
  assert (forall e, represents lg s /\ exists e' : exn, @Raise pydict e = Raise e') as Hno by (intros e; split; [done|by eexists]).
  destruct (null p.(witnesses)) eqn:En.
  { apply wp_raise. destruct p.(witnesses); [|done]. destruct (attestation_fields attestation) as [[[[? ?] ?] ?]|]; apply Hno. }
  destruct (attestation_fields attestation) as [[[[w' h] t] m]|e] eqn:Ef; [|apply wp_lift_raise, Hno].
  eapply wp_lift; [done|]. cbv beta iota.
  destruct (key_lookup p.(witnesses) w') as [secret|] eqn:Es; [|apply wp_raise, Hno].
  destruct (String.eqb_spec m (attestation_mac (attestation_payload w' h t) secret)) as [->|Hm].
  2:{ cbn [andb] in *. destruct (and_then _ _) as [[]|e] eqn:Em; [|eapply wp_lift; [done|]; apply wp_raise, Hno|apply wp_lift_raise, Hno].
      unfold and_then in Em. destruct (negb _); [|done]. by apply compare_digest_true in Em. }
  set (mac := attestation_mac _ secret) in *.
  assert (and_then (negb (String.eqb mac "")) (compare_digest mac mac) = Ok true) as ->.
  { rewrite compare_digest_refl by apply hmac_hex_ascii. assert (mac <> "") as Hne%String.eqb_neq by apply hmac_hex_nonempty. by rewrite Hne. }
  eapply wp_lift; [done|]. cbn [negb andb] in *. apply wp_get. rewrite (record_hashes_represented lg) by done. eapply wp_lift; [done|].
  destruct (existsb _ _) eqn:Ex; [|apply wp_raise, Hno]. cbn [negb].
  set (a := {| at_witness := w'; at_hash := h; at_issued := t |}) in *.
  specialize (Hauth a eq_refl Hint). pose proof (known_event lg s w' h Hrep) as Hk.
  destruct (match s.(witness_file) with None => _ | Some f => _ end) as [[ev|]|e]; [| |done]; (eapply wp_lift; [done|]);
    cbv beta iota; destruct (decide (at_pair a ∈ map at_pair lg.(atts))) as [Hin|Hout]; try done.
  { apply wp_ret. split; [done|]. eexists. split; [done|]. unfold dget_none, dget_or. by rewrite dmerge_get by nodup_keys. }
  pose proof Hrep as [Hr Hl Hd Hn Ha Ho].
  rewrite (last_hash_chain _ZERO _ _ (eq_refl : is_ascii _ZERO = true) (events_json_ok p (hashes lg) _ Ha) Hl). eapply wp_lift; [done|].
  unfold linked, ascii_encode. rewrite chain_head_ascii by done. cbn [mbind res_bind]. eapply wp_lift; [done|].
  apply (append_event_represented lg s a secret); [done..| |].
  - intros s' -> Hs'. apply wp_ret. split; [done|]. eexists. split; [done|]. unfold dget_none, dget_or. by rewrite dmerge_get by nodup_keys.
  - intros s' e -> Hs'. split; [done|]. by eexists.
Qed.

(** ** Serving requests *)

(** What JSON can carry, and a write that happens as a whole or not at all. *)
Definition request_ok (r : request) : Prop :=
  match r with
  | Append _ payload _ now w => json_ok payload = true /\ small now /\ whole w
  | Attest attestation w =>
      whole w /\ forall a h t m, attestation_fields attestation = Ok (a, h, t, m) -> int_ok t = true
  end.

Definition serve (r : request) : op answer :=
  match r with
  | Append t payload hex20 now w => let* r := append i t payload hex20 now w in st_ret (recorded r)
  | Attest attestation w => let* d := attest euid files i attestation w in st_ret (Counted (dget_none d "deduplicated"))
  end.

(** The answers to a list of requests, one after the other. *)
Fixpoint run (rs : list request) (s : public_store) : public_store * list (option answer) :=
  match rs with
  | [] => (s, [])
  | r :: rs =>
      let '(s, out) := serve r s in
      let '(s, outs) := run rs s in
      (s, match out with Ok a => Some a | Raise _ => None end :: outs)
  end.

Lemma serve_represented lg s r : represents lg s -> _witness_policy euid files i = Ok p -> request_ok r ->
  small (Z.of_nat (S (length lg.(drafts)))) ->
  let '(s', out) := serve r s in
  represents (fst (log_serve p lg r)) s' /\ match out with Ok a => Some a | Raise _ => None end = snd (log_serve p lg r).
Proof.
  intros Hrep Hp Hok Hsmall. destruct r as [t payload hex20 now w|attestation w]; cbn [serve request_ok] in *; unfold st_bind.
  - destruct Hok as (H1 & H2 & H3). pose proof (record_append_represented lg s t payload hex20 now w Hrep H1 H2 Hsmall H3) as H.
    cbn [log_serve]. unfold wp in H. destruct (append _ _ _ _ _ _ _) as [s' out]. cbn [fst snd] in H.
    destruct (recordable t payload && is_done w); [destruct H as (Hs & r & -> & Hr)|destruct H as (Hs & e & ->)]; cbn [st_ret fst snd]; [|done].
    by rewrite Hr.
  - destruct Hok as (H1 & H2). pose proof (attest_represented lg attestation w s Hrep Hp H1 H2) as H. unfold wp in H.
    destruct (attest _ _ _ _ _ _) as [s' out]. cbn [fst snd] in H. destruct (log_serve p lg _) as [lg' [told|]]; destruct H as (Hs & H); cbn [fst snd].
    + destruct H as (d & -> & Hd). cbn [st_ret]. by rewrite Hd.
    + by destruct H as (e & ->).
Qed.
End store.

(** A list of requests made of the log itself. *)
Fixpoint log_run (p : witness_policy) (rs : list request) (lg : log) : log * list (option answer) :=
  match rs with
  | [] => (lg, [])
  | r :: rs => let '(lg, a) := log_serve p lg r in let '(lg, answers) := log_run p rs lg in (lg, a :: answers)
  end.

Lemma log_serve_length p lg r : (length (drafts (fst (log_serve p lg r))) <= S (length (drafts lg)))%nat.
Proof.
  destruct r; cbn [log_serve]; repeat case_match; cbn; rewrite ?length_app; cbn; lia.
Qed.

(** C19: the public record implements an append-only log of attested records.
    Whatever requests a store is served, with every write failing whole or not
    at all, its answers are those of the log: an acceptable record is appended
    under the next number and the log's new head hash, an authentic attestation
    of a record of the log is counted once and answered as a duplicate from then
    on, everything else is refused and changes nothing; and verification of the
    files then succeeds and reports exactly the log's size, its head, and how many
    records a quorum of witnesses attested. *)
Theorem public_record_refines_log euid files i p lg s rs :
  represents i p lg s -> _witness_policy euid files i = Ok p -> Forall request_ok rs ->
  small (Z.of_nat (length lg.(drafts) + length rs)) ->
  let '(s', answers) := run euid files i rs s in
  let '(lg', told) := log_run p rs lg in
  answers = told /\ represents i p lg' s' /\ verify_files euid files i s' = Ok (status_of p lg').
Proof.
  intros Hrep Hp Hok. revert lg s Hrep. induction Hok as [|r rs Hr Hrs IH]; intros lg s Hrep Hsmall; cbn [run log_run].
  - split; [done|split; [done|]]. by apply verify_represented.
  - cbn [length] in Hsmall. pose proof (serve_represented euid files i p lg s r Hrep Hp Hr) as H.
    pose proof (log_serve_length p lg r) as Hlen. destruct (serve euid files i r s) as [s1 out].
    destruct (log_serve p lg r) as [lg1 a]. cbn [fst snd] in *. destruct H as [Hrep1 Ha]; [unfold small in *; lia|].
    specialize (IH lg1 s1 Hrep1 ltac:(unfold small in *; lia)). destruct (run euid files i rs s1) as [s2 outs].
    destruct (log_run p rs lg1) as [lg2 answers]. destruct IH as (-> & IH). by rewrite Ha.
Qed.

(** ** A store with one witness *)

Definition sample_witness_secret : string := "0123456789012345678901234567890a".

Definition sample_info : stat_info :=
  {| st_regular := true; st_uid := 1000; st_mode := 33152; st_size := 90; st_dev := 1; st_ino := 2; st_mtime_ns := 3; st_ctime_ns := 4 |}.

Definition sample_files (path : string) : file_view :=
  {| fv_absolute := true; fv_opens := true; fv_before := sample_info;
     fv_data := _canonical (VDict [("version", VInt 1); ("quorum", VInt 1); ("witnesses", VDict [("w1", VStr sample_witness_secret)])]);
     fv_after := sample_info |}.

Definition sample_policy : witness_policy := {| quorum := 1; witnesses := [("w1", sample_witness_secret)] |}.

Definition sample_identity : identity :=
  {| signer_id := "stage"; signing_secret := "0123456789012345678901234567890s"; witness_policy_path := Some "/etc/witnesses" |}.

Lemma sample_policy_reads : _witness_policy 1000 sample_files sample_identity = Ok sample_policy.
Proof. vm_compute. reflexivity. Qed.

Definition sample_draft (k : Z) (name : string) : draft :=
  {| dr_id := "record-" +:+ name; dr_type := "decision"; dr_time := k; dr_payload := VDict [("n", VInt k)] |}.

(** Two records, the first one attested. *)
Definition sample_drafts : list draft := [sample_draft 1 "a"; sample_draft 2 "b"].

Definition sample_log : log :=
  {| drafts := sample_drafts; atts := [{| at_witness := "w1"; at_hash := draft_hash 1 _ZERO (sample_draft 1 "a"); at_issued := 7 |}] |}.

Definition sample_store : public_store :=
  {| record_file := Some {| f_data := lines_data (signed_chain sample_identity 1 _ZERO sample_drafts); f_stamp := 0 |};
     witness_file := Some {| f_data := chain_data _ZERO (map (event_of sample_policy) sample_log.(atts)); f_stamp := 0 |} |}.

Lemma sample_represents : represents sample_identity sample_policy sample_log sample_store.
Proof.
  split; [done|done|..].
  - repeat constructor; done.
  - done.
  - constructor; [|constructor]. split; [by eexists|left|done].
  - apply NoDup_singleton.
Qed.

(** The witness attests the second record, twice; a record whose write fails; and one more record. *)
Definition made (r : res pydict) : pyval := VDict (match r with Ok d => d | Raise _ => [] end).

Definition sample_attestation : pyval :=
  made (make_witness_attestation (draft_hash 2 (draft_hash 1 _ZERO (sample_draft 1 "a")) (sample_draft 2 "b")) "w1" sample_witness_secret 9).

Definition sample_requests : list request :=
  [Attest sample_attestation Done; Attest sample_attestation Done;
   Append "decision" (VDict [("n", VInt 3)]) "c" 3 OpenFails; Append "decision" (VDict [("n", VInt 3)]) "d" 4 Done].

Lemma public_record_refines_log_witness :
  let '(s', answers) := run 1000 sample_files sample_identity sample_requests sample_store in
  let '(lg', told) := log_run sample_policy sample_requests sample_log in
  answers = told /\ represents sample_identity sample_policy lg' s' /\
  verify_files 1000 sample_files sample_identity s' = Ok (status_of sample_policy lg').
Proof.
  apply (public_record_refines_log 1000 sample_files sample_identity sample_policy).
  - apply sample_represents.
  - apply sample_policy_reads.
  - assert (forall a h t m, attestation_fields sample_attestation = Ok (a, h, t, m) -> int_ok t = true) as Hint.
    { assert (exists a h m, attestation_fields sample_attestation = Ok (a, h, 9, m)) as (a & h & m & ->) by (do 3 eexists; vm_compute; reflexivity).
      by intros ? ? ? ? [= _ _ <- _]. }
    assert (request_ok (Attest sample_attestation Done)) as Ha by (split; [by left|exact Hint]). unfold sample_requests.
    constructor; [exact Ha|]. constructor; [exact Ha|]. constructor; [by split_and!; [..|right; left]|].
    constructor; [by split_and!; [..|left]|constructor].
  - done.
Defined.

(** Its answers: counted, a duplicate, refused, recorded as number 3; two of the three records witnessed. *)
Example sample_answers :
  (map (option_map (fun a => match a with Recorded r n _ => (r, VInt n) | Counted d => ("", d) end)) (snd (log_run sample_policy sample_requests sample_log)),
   match status_of sample_policy (fst (log_run sample_policy sample_requests sample_log)) with Verified n _ _ w k => (n, w, k) | _ => (0, 0, 0) end)
  = ([Some ("", VBool false); Some ("", VBool true); None; Some ("record-d", VInt 3)], (3, 2, 2)).
Proof. vm_compute. reflexivity. Qed.

(** ** Where the code falls short *)

(** Everything of the line but its end is written: the caller is told that the append failed, the next append is
    accepted on the same line, and the chain never verifies again. *)
Definition torn_length : nat :=
  pred (String.length (lines_data (signed_chain sample_identity 1 _ZERO [sample_draft 1 "a"]))).

Example torn_newline_corrupts_the_record :
  let append1 := append sample_identity "decision" (VDict [("n", VInt 1)]) "a" 1 (WriteFails torn_length) in
  let append2 := append sample_identity "decision" (VDict [("n", VInt 2)]) "b" 2 Done in
  let '(s1, out1) := append1 {| record_file := None; witness_file := None |} in
  let '(s2, out2) := append2 s1 in
  (out1, match out2 with Ok r => Some r.(rf_sequence) | Raise _ => None end,
   verify_files 1000 sample_files sample_identity s2)
  = (Raise io_error, Some 2, Ok (RecordsBroken 0 None "JSONDecodeError")).
Proof. vm_compute. reflexivity. Qed.

(** A policy without a witness that attested before: the whole ledger is reported broken. *)
Definition other_files (path : string) : file_view :=
  {| fv_absolute := true; fv_opens := true; fv_before := sample_info;
     fv_data := _canonical (VDict [("version", VInt 1); ("quorum", VInt 1); ("witnesses", VDict [("w2", VStr sample_witness_secret)])]);
     fv_after := sample_info |}.

Example retired_witness_breaks_verification :
  verify_files 1000 other_files sample_identity sample_store = Ok (WitnessesBroken 2 0 None "witness identity or record unavailable").
Proof. vm_compute. reflexivity. Qed.
