(* ===== verification/PublicRecordChecks.v ===== *)
(** * What a verified public record proves (backend/public_record.py)

    For any files at all, whoever wrote them: a record that verification counts as
    attested by a quorum is signed by the store's signer, and as many different
    witnesses of the policy as the quorum asks for authenticated it. And every
    reference to a record of a store in order resolves to that record. *)

From S2P Require Import Prelude PyStr PyFloat PyVal PyFacts Json Sha256 JsonText Persistence PersistenceChain PersistenceSegments PersistenceAudit ClusterSecrets WitnessAuth PublicRecord PublicRecordFacts.

#[local] Open Scope string_scope.
#[local] Open Scope list_scope.
#[local] Open Scope Z_scope.
#[local] Open Scope st_scope.

(** ** Quorums *)

(** A line that carries the signer's signature of a record hash. *)
Definition signed_line (i : identity) (h line : string) : Prop :=
  exists record signer, loads line = Ok record /\ dget_none (as_dict record) "hash" = VStr h /\
  dget_none (as_dict record) "signerId" = VStr signer /\ signer = i.(signer_id) /\
  py_str (dget_or (as_dict record) "signatureHmacSha256" (VStr "")) = _record_signature h signer i.(signing_secret).

(** A line on which a witness of the policy authenticates a record hash. *)
Definition authentic_line (p : witness_policy) (w h line : string) : Prop :=
  exists row event wv hv issued secret, loads line = Ok row /\ vindex row "event" = Ok event /\
  vindex event "witnessId" = Ok wv /\ py_str wv = w /\ vindex event "recordHash" = Ok hv /\ py_str hv = h /\
  key_lookup p.(witnesses) w = Some secret /\
  py_str (dget_or (as_dict event) "hmacSha256" (VStr "")) = attestation_mac (attestation_payload w h issued) secret.

Lemma check_record_signed_line i previous records number line digest :
  check_record i previous records number line = Ok (inl digest) -> signed_line i digest line.
Proof.
  unfold check_record. intros H. pyinv. destruct (_ || _) in H; [done|]. pyinv.
  destruct (py_eq (dget_none (as_dict x) "hash") _) eqn:Eh in H; [|done]. apply py_eq_str in Eh.
  destruct (py_eq (dget_none (as_dict x) "signerId") _) eqn:Es in H; [|done]. apply py_eq_str in Es.
  destruct (py_eq (dget_none (as_dict x) "signatureAlgorithm") _) in H; [|done]. cbn [negb] in H. pyinv.
  destruct x2; [|done]. cbn [negb] in H. pyinv. subst digest. apply compare_digest_true in H3.
  exists x, i.(signer_id). split_and!; try done. rewrite <- H3. f_equal.
  unfold dget_none, dget_or in *. destruct (dget (as_dict x) "signerId"); [by subst|done].
Qed.

Lemma check_records_signed_lines i lines previous digests number digests' :
  check_records i lines previous digests number = Ok (inl digests') ->
  forall h, h ∈ digests' -> h ∈ digests \/ exists line, line ∈ lines /\ signed_line i h line.
Proof.
  revert previous digests number. induction lines as [|line lines IH]; intros previous digests number; cbn [check_records].
  - intros [= <-] h Hh. by left.
  - intros H h Hh. destruct (blank line).
    { destruct (IH _ _ _ H h Hh) as [Hin|(l & Hl & Hs)]; [by left|]. right. exists l. split; [by right|done]. }
    destruct (check_record i previous _ number line) as [[digest|r]|e] eqn:E; [|done|by destruct (chain_caught e)].
    apply check_record_signed_line in E. destruct (IH _ _ _ H h Hh) as [[Hin|Hin]%elem_of_app|(l & Hl & Hs)]; [by left|..].
    + apply list_elem_of_singleton in Hin as ->. right. exists line. split; [left|done].
    + right. exists l. split; [by right|done].
Qed.

Lemma check_attestation_line p digests l records number line l' :
  check_attestation p digests l records number line = Ok (inl l') ->
  exists w h, l'.(lg_rows) = l.(lg_rows) ++ [(w, h)] /\ authentic_line p w h line.
Proof.
  unfold check_attestation. intros H. pyinv. destruct (_ || _) in H; [done|]. pyinv.
  destruct (key_lookup p.(witnesses) _) as [secret|] eqn:Es in H; [|done]. destruct (existsb _ _) in H; [|done]. cbn [negb] in H. pyinv.
  destruct x5; [|done]. cbn [negb] in H. pyinv. apply compare_digest_true in H6. subst l'.
  exists (py_str x2), (py_str x3). split; [done|]. exists x, x0, x2, x3, x4, secret. by split_and!.
Qed.

Lemma check_attestations_lines p digests records lines l number l' :
  check_attestations p digests records lines l number = Ok (inl l') ->
  forall w h, (w, h) ∈ l'.(lg_rows) -> (w, h) ∈ l.(lg_rows) \/ exists line, line ∈ lines /\ authentic_line p w h line.
Proof.
  revert l number. induction lines as [|line lines IH]; intros l number; cbn [check_attestations].
  - intros [= <-] w h Hin. by left.
  - intros H w h Hin. destruct (blank line).
    { destruct (IH _ _ H w h Hin) as [Hin'|(x & Hx & Hs)]; [by left|]. right. exists x. split; [by right|done]. }
    destruct (check_attestation _ _ _ _ _ line) as [[l1|r]|e] eqn:E; [|done|by destruct (ledger_caught e)].
    apply check_attestation_line in E as (w1 & h1 & Hr & E).
    destruct (IH _ _ H w h Hin) as [Hin'|(x & Hx & Hs)]; [|right; exists x; split; [by right|done]].
    rewrite Hr in Hin'. apply elem_of_app in Hin' as [Hin'|Hin']; [by left|].
    apply list_elem_of_singleton in Hin' as [= -> ->]. right. exists line. split; [left|done].
Qed.

(** A report that ends the checks early is not one that the files are in order. *)
Definition in_order (r : report) : bool := match r with Verified _ _ _ _ _ => true | _ => false end.

Lemma check_record_broken i previous records number line r : check_record i previous records number line = Ok (inr r) -> in_order r = false.
Proof. unfold check_record. intros H. pyinv. repeat (case_match; pyinv; try by subst). Qed.

Lemma check_records_broken i lines previous digests number r : check_records i lines previous digests number = Ok (inr r) -> in_order r = false.
Proof.
  revert previous digests number. induction lines as [|line lines IH]; intros previous digests number; cbn [check_records]; [done|].
  destruct (blank line); [apply IH|]. destruct (check_record i previous _ number line) as [[digest|r']|e] eqn:E; [apply IH|..].
  - intros [= ->]. by eapply check_record_broken.
  - destruct (chain_caught e); [|done]. by intros [= <-].
Qed.

Lemma check_attestation_broken p digests l records number line r :
  check_attestation p digests l records number line = Ok (inr r) -> in_order r = false.
Proof. unfold check_attestation. intros H. pyinv. repeat (case_match; pyinv; try by subst). Qed.

Lemma check_attestations_broken p digests records lines l number r :
  check_attestations p digests records lines l number = Ok (inr r) -> in_order r = false.
Proof.
  revert l number. induction lines as [|line lines IH]; intros l number; cbn [check_attestations]; [done|].
  destruct (blank line); [apply IH|]. destruct (check_attestation _ _ _ _ _ line) as [[l1|r']|e] eqn:E; [apply IH|..].
  - intros [= ->]. by eapply check_attestation_broken.
  - destruct (ledger_caught e); [|done]. by intros [= <-].
Qed.

(** A line of a file that can be read. *)
Definition line_of (f : option file) (line : string) : Prop :=
  exists g lines, f = Some g /\ file_lines g = Ok lines /\ line ∈ lines.

(** What [with_lines] accepts is what the check accepted of the file's lines. *)
Lemma with_lines_inl {A} caught broken f (check : list string -> res (A + report)) none a :
  (forall e, exists r, broken e = inr r) -> with_lines caught broken f check (inl none) = Ok (inl a) ->
  f = None /\ a = none \/ exists g lines, f = Some g /\ file_lines g = Ok lines /\ check lines = Ok (inl a).
Proof.
  unfold with_lines. intros Hb H. destruct f as [g|]; [|left; by simplify_eq]. right.
  destruct (file_lines g) as [lines|e] eqn:E; [by eauto|]. destruct (caught e); [|done]. destruct (Hb (error_text e)) as [r Hr].
  rewrite Hr in H. done.
Qed.

Lemma with_lines_inr {A} caught broken f (check : list string -> res (A + report)) none r :
  (forall e r, broken e = inr r -> in_order r = false) -> (forall lines r, check lines = Ok (inr r) -> in_order r = false) ->
  with_lines caught broken f check (inl none) = Ok (inr r) -> in_order r = false.
Proof.
  unfold with_lines. intros Hb Hc H. destruct f as [g|]; [|done]. destruct (file_lines g) as [lines|e]; [by eapply Hc|].
  destruct (caught e); [|done]. simplify_eq. by eapply Hb.
Qed.

(** C20: a record that verification counts as witnessed really is. Whatever the
    two files hold, if verification reports them in order, then as many different
    record hashes as it counts are each signed by the store's signer on a line of
    the record file, and each authenticated, on lines of the ledger, by at least
    as many different witnesses of the policy as its quorum, every one under its
    own secret. *)
Theorem witnessed_records_have_a_quorum euid files i s n head p w k :
  verify_files euid files i s = Ok (Verified n head p w k) -> p.(quorum) <> 0 ->
  _witness_policy euid files i = Ok p /\
  exists hs, NoDup hs /\ Z.of_nat (length hs) = k /\ forall h, h ∈ hs ->
    (exists line, line_of s.(record_file) line /\ signed_line i h line) /\
    exists ws, NoDup ws /\ p.(quorum) <= Z.of_nat (length ws) /\
      forall x, x ∈ ws -> exists line, line_of s.(witness_file) line /\ authentic_line p x h line.
Proof.
  unfold verify_files. intros H Hq. pyinv. destruct x as [digests|r].
  2:{ apply with_lines_inr in H0; [pyinv; by subst|by intros e r' [= <-]|]. intros lines r'. apply check_records_broken. }
  pyinv. destruct x0 as [l|r].
  2:{ apply with_lines_inr in H2; [pyinv; by subst|by intros e r' [= <-]|]. intros lines r'. apply check_attestations_broken. }
  pyinv. simplify_eq. split; [done|].
  apply with_lines_inl in H0; [|by eauto]. apply with_lines_inl in H2; [|by eauto].
  exists (List.filter (fun d => p.(quorum) <=? distinct (attested_by l d)) (remove_dups digests)). split_and!.
  - apply NoDup_ListNoDup, List.NoDup_filter, NoDup_ListNoDup, NoDup_remove_dups.
  - unfold witnessed_count. by destruct (Z.eqb_spec p.(quorum) 0).
  - intros h [Hh Hc%Z.leb_le]%elem_of_filter_bool. rewrite elem_of_remove_dups in Hh. split.
    + destruct H0 as [[_ ->]|(g & lines & Hf & Hl & Hc')]; [by apply not_elem_of_nil in Hh|].
      destruct (check_records_signed_lines _ _ _ _ _ _ Hc' h Hh) as [Hno|(line & Hin & Hs)]; [by apply not_elem_of_nil in Hno|].
      exists line. split; [by exists g, lines|done].
    + exists (remove_dups (attested_by l h)). split; [apply NoDup_remove_dups|]. split; [done|].
      intros x Hx. rewrite elem_of_remove_dups in Hx. unfold attested_by in Hx.
      apply list_elem_of_fmap in Hx as ([x' h'] & -> & [Hx Hh'%String.eqb_eq]%elem_of_filter_bool). cbn in Hh' |- *. subst h'.
      destruct H2 as [[_ ->]|(g & lines & Hf & Hl & Hc')]; [by apply not_elem_of_nil in Hx|].
      destruct (check_attestations_lines _ _ _ _ _ _ _ Hc' _ _ Hx) as [Hno|(line & Hin & Hs)]; [by apply not_elem_of_nil in Hno|].
      exists line. split; [by exists g, lines|done].
Qed.

Lemma witnessed_records_have_a_quorum_witness :
  _witness_policy 1000 sample_files sample_identity = Ok sample_policy /\
  exists hs, NoDup hs /\ Z.of_nat (length hs) = 1 /\ forall h, h ∈ hs ->
    (exists line, line_of sample_store.(record_file) line /\ signed_line sample_identity h line) /\
    exists ws, NoDup ws /\ 1 <= Z.of_nat (length ws) /\
      forall x, x ∈ ws -> exists line, line_of sample_store.(witness_file) line /\ authentic_line sample_policy x h line.
Proof.
  apply (witnessed_records_have_a_quorum 1000 sample_files sample_identity sample_store 2 (head_of sample_log) sample_policy 1 1); [|done].
  rewrite (verify_represented 1000 sample_files sample_identity sample_policy sample_log sample_store sample_represents sample_policy_reads).
  assert (quorum_records sample_policy.(quorum) sample_log = 1) as Hq by (vm_compute; reflexivity). unfold status_of. by rewrite Hq.
Defined.

(** * References to public records (backend/public_record.py)

    The reference that appending a record returns, written as a URI and resolved
    later, when the record has many successors and attestations, gives back
    exactly that record. *)

(** ** Text of a reference *)

Lemma split_on_apart sep current l rest : forallb (fun c => negb (Ascii.eqb c sep)) l = true ->
  split_on sep current (l ++ sep :: rest) = (rev current ++ l) :: split_on sep [] rest.
Proof.
  revert current. induction l as [|c l IH]; intros current; cbn [app split_on forallb].
  - by rewrite Ascii.eqb_refl, app_nil_r.
  - intros [Hc Hl]%andb_prop. apply negb_true_iff in Hc. rewrite Hc, IH by done. cbn [rev]. by rewrite <- app_assoc.
Qed.

Lemma split_on_last sep current l : forallb (fun c => negb (Ascii.eqb c sep)) l = true -> split_on sep current l = [rev current ++ l].
Proof.
  revert current. induction l as [|c l IH]; intros current; cbn [split_on forallb]; [by rewrite app_nil_r|].
  intros [Hc Hl]%andb_prop. apply negb_true_iff in Hc. rewrite Hc, IH by done. cbn [rev]. by rewrite <- app_assoc.
Qed.

(** No colon in an identifier. *)
Definition plain_id (s : string) : bool := is_record_id s && forallb (fun c => negb (Ascii.eqb c ":"%char)) (chars s).

Definition uri_of (record_id record_hash : string) : string := "upp-public-record:" +:+ record_id +:+ ":" +:+ record_hash.

Lemma lower_hex_plain l : forallb lower_hex_char l = true -> forallb (fun c => negb (Ascii.eqb c ":"%char) && negb (is_space c)) l = true.
Proof.
  intros H. apply forallb_forall. intros c Hc. rewrite forallb_forall in H. specialize (H c Hc). revert H. clear. by_char c.
Qed.

Lemma uri_three_parts record_id record_hash : plain_id record_id = true -> valid_hash record_hash = true ->
  three_parts (strip (uri_of record_id record_hash)) = Some ("upp-public-record", record_id, record_hash).
Proof.
  intros [_ Hid]%andb_prop [Hlen Hh%lower_hex_plain]%andb_prop.
  assert (strip (uri_of record_id record_hash) = uri_of record_id record_hash) as ->.
  { destruct (chars record_hash) as [|c l] eqn:Ec using rev_ind.
    { unfold str_len in Hlen. rewrite <- length_chars, Ec in Hlen. done. }
    clear IHl. rewrite forallb_app in Hh. apply andb_prop in Hh as [_ Hh]. cbn in Hh. rewrite andb_true_r in Hh.
    apply andb_prop in Hh as [_ Hsp%negb_true_iff]. unfold uri_of.
    eapply (strip_same _ _ _ (chars ("upp-public-record:" +:+ record_id +:+ ":") ++ l) c).
    - rewrite chars_app. cbn. reflexivity.
    - rewrite !chars_app, Ec, <- !app_assoc. reflexivity.
    - reflexivity.
    - done. }
  unfold three_parts, split_char, uri_of. rewrite !chars_app.
  change (chars "upp-public-record:" ++ ?x) with (chars "upp-public-record" ++ ":"%char :: x).
  rewrite split_on_apart by done. change (chars ":" ++ ?x) with (":"%char :: x). rewrite split_on_apart by done.
  rewrite split_on_last.
  2:{ apply forallb_forall. intros c Hc. rewrite forallb_forall in Hh. by destruct (andb_prop _ _ (Hh c Hc)). }
  cbn [map rev app]. unfold join. by rewrite !of_chars_chars.
Qed.

Lemma draft_hash_valid n previous d : valid_hash (draft_hash n previous d) = true.
Proof. destruct (sha256_hash_text (previous +:+ newline +:+ _canonical (VDict (draft_core n previous d)))) as [H1 H2]. unfold valid_hash. by apply andb_true_iff; rewrite Z.eqb_eq. Qed.

(** The reference that appending returned reads as that URI. *)
Lemma reference_uri_of i r : is_record_id r.(rf_id) = true -> valid_hash r.(rf_hash) = true ->
  reference_uri (VDict (reference_dict i r)) = Ok (uri_of r.(rf_id) r.(rf_hash)).
Proof. intros H1 H2. unfold reference_uri. cbn -[is_record_id valid_hash]. by rewrite H1, H2. Qed.

(** ** Finding a record *)

Lemma find_record_signed i d post n previous pre wanted : Forall draft_ok (pre ++ d :: post) -> 0 <= n ->
  n + Z.of_nat (length (pre ++ d :: post)) <= 10 ^ 20 -> (d.(dr_id) ∉ map dr_id pre) ->
  match wanted with Some t => t = d.(dr_type) | None => True end ->
  let m := n + Z.of_nat (length pre) in
  let h := chain_end n previous pre in
  find_record d.(dr_id) (draft_hash m h d) wanted (map record_text (signed_chain i n previous (pre ++ d :: post)))
  = Ok (VDict (stored i m h d)).
Proof.
  revert n previous. induction pre as [|x pre IH]; intros n previous Hok Hn Hsmall Hnew Hw; cbn [app signed_chain map find_record chain_end length] in *;
    inversion Hok as [|? ? Hd Hds]; subst; unfold record_text at 1; rewrite record_not_blank, loads_signed by (done || unfold small; lia);
    cbn [mbind res_bind vget]; unfold dget_or; rewrite !stored_get; unfold signed, draft_core, core_of;
    cbn [app dget String.eqb Ascii.eqb Bool.eqb option_map canon mbind res_bind py_eq].
  - rewrite Z.add_0_r, !str_eqb_refl. cbn [negb orb]. destruct wanted as [t|]; [|done]. subst. by rewrite str_eqb_refl.
  - apply not_elem_of_cons in Hnew as [Hne Hnew]. assert (String.eqb (dr_id x) (dr_id d) = false) as -> by by apply String.eqb_neq.
    cbn [negb orb]. replace (n + Z.of_nat (S (length pre))) with (n + 1 + Z.of_nat (length pre)) by lia. apply IH; try done; lia.
Qed.

(** A reference resolves to its record. In a store that holds a log of
    records with identifiers of their own, the reference returned when a record
    was appended, written as a URI, resolves to exactly the record that was
    stored (asked for with its type or without), however many records and
    attestations followed. *)
Theorem references_resolve euid files i p lg s pre d post wanted :
  represents i p lg s -> _witness_policy euid files i = Ok p -> lg.(drafts) = pre ++ d :: post ->
  NoDup (map dr_id lg.(drafts)) -> plain_id d.(dr_id) = true ->
  match wanted with Some t => t = d.(dr_type) | None => True end ->
  let n := 1 + Z.of_nat (length pre) in
  let h := chain_end 1 _ZERO pre in
  let r := {| rf_id := d.(dr_id); rf_sequence := n; rf_hash := draft_hash n h d;
              rf_signature := _record_signature (draft_hash n h d) i.(signer_id) i.(signing_secret) |} in
  exists uri, reference_uri (VDict (reference_dict i r)) = Ok uri /\
  resolve_reference euid files i uri wanted s = (s, Ok (VDict (stored i n h d))).
Proof.
  intros Hrep Hp Hlg Hnd Hid Hw n h r. pose proof (draft_hash_valid n h d) as Hvalid.
  assert (is_record_id d.(dr_id) = true) as Hrid by (by apply andb_prop in Hid as [? _]).
  exists (uri_of d.(dr_id) (draft_hash n h d)). split; [by apply (reference_uri_of i r)|].
  unfold resolve_reference. rewrite uri_three_parts, Hrid, Hvalid by done. rewrite String.eqb_refl. cbn [negb orb].
  unfold verify. rewrite st_bind_assoc, st_get_bind. unfold st_bind at 1. rewrite (verify_represented euid files i p lg s Hrep Hp).
  cbn [st_lift status_of]. rewrite st_get_bind. destruct Hrep as [Hr _ Hd Hn _ _]. unfold small in Hn.
  rewrite Hlg, map_app in Hnd. apply NoDup_app in Hnd as (_ & Hnd & _).
  destruct s.(record_file) as [[data stamp]|]; cbn [holds_lines f_data] in Hr.
  - subst data. rewrite file_lines_data. cbn [mbind res_bind]. rewrite Hlg in *. unfold n, h.
    rewrite (find_record_signed i d post 1 _ZERO pre wanted Hd); [done|lia|lia| |done].
    intros Hin. by apply (Hnd _ Hin); left.
  - exfalso. rewrite Hlg in Hr. by destruct pre.
Qed.

Lemma references_resolve_witness : exists uri r,
  reference_uri (VDict (reference_dict sample_identity r)) = Ok uri /\ r.(rf_sequence) = 2 /\
  exists d, resolve_reference 1000 sample_files sample_identity uri (Some "decision") sample_store = (sample_store, Ok (VDict d)).
Proof.
  destruct (references_resolve 1000 sample_files sample_identity sample_policy sample_log sample_store
    [sample_draft 1 "a"] (sample_draft 2 "b") [] (Some "decision") sample_represents sample_policy_reads eq_refl) as (uri & Hu & Hr).
  - apply (bool_decide_unpack _). vm_compute. exact I.
  - reflexivity.
  - reflexivity.
  - exists uri. eexists. split; [exact Hu|]. split; [reflexivity|]. eexists. exact Hr.
Defined.
