(* ===== verification/HttpAuthorization.v ===== *)
(** * Who may control the show over HTTP (backend/http_authorization.py)

    The role policy read from a private file for every request, the classification
    of a control route, and the decision. The environment's path setting and what
    the operating system answers for that path are arguments. Methods and paths
    are strings of code points 0..255; the upper-case form of a method is only
    compared with ASCII words, so [upper] maps the ASCII letters. *)

From S2P Require Import Prelude PyStr PyVal PyFacts Json Sha256 ClusterSecrets.

#[local] Open Scope string_scope.
#[local] Open Scope list_scope.
#[local] Open Scope Z_scope.

Definition ROLE_NAMES : list string := ["observer"; "performer"; "operator"; "authority"; "admin"].
Definition _MUTATING_METHODS : list string := ["POST"; "PATCH"; "PUT"; "DELETE"].

Definition _SPECIALIZED_EXACT : list (string * string) :=
  [("POST", "/api/v1/handoff/execution/shadow"); ("POST", "/api/v1/handoff/execution/live");
   ("POST", "/api/v1/venue/reconciliation/report"); ("POST", "/api/v1/le-uwb/observations/uwb");
   ("POST", "/api/v1/le-uwb/observations/le"); ("POST", "/api/v1/venue/profile"); ("POST", "/api/v1/replication/apply");
   ("POST", "/api/v1/handoff/planned/peer-ready"); ("POST", "/api/v1/community/accounts");
   ("POST", "/api/v1/community/proposals"); ("POST", "/api/v1/community/vote"); ("POST", "/api/v1/community/session");
   ("POST", "/api/v1/community/session/revoke"); ("POST", "/api/v1/community/public-record/reconcile");
   ("POST", "/api/v1/public-record/witness"); ("POST", "/api/v1/technology/conformance-receipt");
   ("PATCH", "/api/v1/community/policy")].

Definition _AUTHORITY_EXACT : list string := ["/api/v1/witness/recover"; "/api/v1/node/role"; "/api/v1/failover/promote"].
Definition _AUTHORITY_PREFIXES : list string := ["/api/v1/handoff/planned/"; "/api/v1/venue/authority/"].

Definition _PLAYER_SUFFIX_ACTIONS : list (string * string) :=
  [("/monitor", "player.monitor.write"); ("/midi/input", "player.midi.write"); ("/notation/note", "player.notation.write");
   ("/notation/clear", "player.notation.write"); ("/notation/settings", "player.notation.write")].

Record AuthorizationDecision := {
  allowed : bool; actor : option string; ad_roles : list string; action : string; target : option string; reason : string;
}.

(** ** The policy file *)

Definition _valid_identifier (maximum : Z) (value : pyval) : bool :=
  match value with
  | VStr s => String.eqb s (strip s) && ((0 <? str_len s) && (str_len s <=? maximum))
              && forallb (fun c => (32 <=? code c) && negb (code c =? 127)) (chars s)
  | _ => false
  end.

Definition stamp (i : stat_info) : list Z := [i.(st_size); i.(st_mtime_ns); i.(st_ctime_ns)].

Definition _read_private_json (euid : Z) (f : file_view) : res pyval :=
  let maximum_bytes := 65536 in
  if negb f.(fv_absolute) then Raise (ValueError "absolute path required")
  else if negb f.(fv_opens) then Raise (OSError "open")
  else
    let before := f.(fv_before) in
    if negb before.(st_regular) || negb (before.(st_uid) =? euid) || negb (Z.land (Z.land before.(st_mode) 4095) 63 =? 0)
       || (maximum_bytes <? before.(st_size))
    then Raise (ValueError "invalid file")
    else
      let data := slice (Z.to_nat (maximum_bytes + 1)) f.(fv_data) in
      if (maximum_bytes <? str_len data) || negb (bool_decide (stamp before = stamp f.(fv_after)))
      then Raise (ValueError "changed file")
      else text ← utf8_decode data; loads_with _unique_pairs text.

Record user := { u_roles : list string; u_players : list string }.

Abbreviation policy := (list (string * user)).

Definition strings_of (l : list pyval) : list string := omap (fun v => match v with VStr s => Some s | _ => None end) l.

Definition read_roles (v : pyval) : res (list string) :=
  let invalid := Raise (ValueError "invalid roles") in
  match v with
  | VList l =>
      let n := Z.of_nat (length l) in
      if negb ((1 <=? n) && (n <=? Z.of_nat (length ROLE_NAMES)))
         || negb (forallb (fun v => match v with VStr s => existsb (String.eqb s) ROLE_NAMES | _ => false end) l)
         || has_dup (strings_of l)
      then invalid else Ok (sort_strings (strings_of l))
  | _ => invalid
  end.

Definition read_players (v : pyval) : res (list string) :=
  let invalid := Raise (ValueError "invalid players") in
  match v with
  | VList l =>
      if (32 <? Z.of_nat (length l)) || negb (forallb (_valid_identifier 128) l) || has_dup (strings_of l)
      then invalid else Ok (strings_of l)
  | _ => invalid
  end.

Definition read_user (entry : string * pyval) : res (string * user) :=
  let '(name, record) := entry in
  if negb (_valid_identifier 128 (VStr name)) then Raise (ValueError "invalid actor")
  else
    match record with
    | VDict d =>
        if negb (forallb (fun k => existsb (String.eqb k) ["roles"; "players"]) (dkeys d)) then Raise (ValueError "invalid user record")
        else
          roles ← read_roles (dget_none d "roles");
          players ← read_players (dget_or d "players" (VList []));
          Ok (name, {| u_roles := roles; u_players := players |})
    | _ => Raise (ValueError "invalid user record")
    end.

Definition policy_document (value : pyval) : res policy :=
  match value with
  | VDict d =>
      if negb (keys_are d ["version"; "users"]) || negb (py_eq (dget_none d "version") (VInt 1)) then Raise (ValueError "invalid policy root")
      else
        match dget_none d "users" with
        | VDict users => if 1024 <? Z.of_nat (length users) then Raise (ValueError "invalid users") else map_res read_user users
        | _ => Raise (ValueError "invalid users")
        end
  | _ => Raise (ValueError "invalid policy root")
  end.

Definition policy_caught (e : exn) : bool := is_os_error e || is_value_error e || is_attribute_error e.

(** [setting] is the environment's [STAGEFORGE_HTTP_AUTHORIZATION_FILE]. *)
Definition authorization_policy (euid : Z) (files : string -> file_view) (setting : string) : res (option policy) :=
  let path := strip setting in
  if String.eqb path "" then Ok None
  else
    catch policy_caught
      (value ← _read_private_json euid (files path); users ← policy_document value; Ok (Some users))
      (fun _ => Raise (PermissionError "HTTP authorization file unavailable or invalid")).

(** ** Routes *)

Definition upper (s : string) : string := of_chars (map upper_char (chars s)).

(** [s[n:]] and [s[:-n]]. *)
Definition from_char (n : nat) (s : string) : string := of_chars (skipn n (chars s)).
Definition but_last (n : nat) (s : string) : string := of_chars (firstn (length (chars s) - n) (chars s)).

Definition slash : ascii := "/"%char.

(** [s.strip("/")]. *)
Definition strip_slash (s : string) : string := rstrip_by (Ascii.eqb slash) (lstrip_by (Ascii.eqb slash) s).

Definition has_slash (s : string) : bool := existsb (Ascii.eqb slash) (chars s).

Definition specialized_authorization_route (method path : string) : bool :=
  let method := upper method in
  existsb (fun mp => String.eqb method (fst mp) && String.eqb path (snd mp)) _SPECIALIZED_EXACT
  || existsb (String.eqb method) _MUTATING_METHODS && starts_with "/api/v1/community/proposals/" path.

Definition players_prefix : string := "/api/v1/players/".

Fixpoint player_suffix (tail : string) (table : list (string * string)) : option (string * string) :=
  match table with
  | [] => None
  | (suffix, act) :: table =>
      if ends_with suffix tail then
        let player := strip_slash (but_last (String.length suffix) tail) in
        if negb (String.eqb player "") && negb (has_slash player) then Some (act, player) else player_suffix tail table
      else player_suffix tail table
  end.

Definition _player_action (path : string) : option (string * string) :=
  if starts_with players_prefix path then player_suffix (from_char (String.length players_prefix) path) _PLAYER_SUFFIX_ACTIONS
  else None.

Definition api_prefix : string := "/api/v1/".
Definition api_tail (path : string) : string := from_char (String.length api_prefix) path.

(** [s.replace("/", ".")]. *)
Definition dotted (s : string) : string := of_chars (map (fun c => if Ascii.eqb c slash then "."%char else c) (chars s)).

(** The part of a route before its first slash. *)
Definition domain_of (path : string) : string :=
  str_or (match split_char slash (api_tail path) with d :: _ => d | [] => "" end) "api".

(** The action, the player it is for, and whether it concerns authority. *)
Definition classify_control_action (method path : string) : string * option string * bool :=
  match _player_action path with
  | Some (act, player) => (act, Some player, false)
  | None =>
      if existsb (String.eqb path) _AUTHORITY_EXACT || existsb (fun p => starts_with p path) _AUTHORITY_PREFIXES then
        ("authority." +:+ dotted (api_tail path), None, true)
      else if String.eqb path "/api/v1/handoff" then ("authority.handoff.policy", None, true)
      else if starts_with api_prefix path then (domain_of path +:+ ".control", None, false)
      else ("http.control", None, false)
  end.

(** ** The decision *)

Definition has_role (r : string) (roles : list string) : bool := existsb (String.eqb r) roles.

Definition decide_user (name : string) (u : user) (act : string) (player : option string) (sensitive : bool) : AuthorizationDecision :=
  let decision b why := {| allowed := b; actor := Some name; ad_roles := u.(u_roles); action := act; target := player; reason := why |} in
  if has_role "admin" u.(u_roles) then decision true "admin-role"
  else if sensitive then
    let b := has_role "authority" u.(u_roles) in decision b (if b then "authority-role" else "authority-role-required")
  else
    match player with
    | Some p =>
        if has_role "operator" u.(u_roles) then decision true "operator-role"
        else if has_role "performer" u.(u_roles) && existsb (String.eqb p) u.(u_players) then decision true "assigned-performer"
        else decision false "player-control-not-authorized"
    | None =>
        let b := has_role "operator" u.(u_roles) in decision b (if b then "operator-role" else "operator-role-required")
    end.

Definition authorize_control_request (pol : option policy) (who : option string) (method path : string) : option AuthorizationDecision :=
  let method := upper method in
  match pol with
  | None => None
  | Some users =>
      if negb (existsb (String.eqb method) _MUTATING_METHODS) || negb (starts_with api_prefix path) then None
      else if specialized_authorization_route method path then None
      else
        let '(act, player, sensitive) := classify_control_action method path in
        let refused who why := {| allowed := false; actor := who; ad_roles := []; action := act; target := player; reason := why |} in
        match who with
        | None => Some (refused None "authenticated-user-required")
        | Some name =>
            if String.eqb name "" then Some (refused None "authenticated-user-required")
            else match alookup users name with
                 | None => Some (refused who "user-not-authorized")
                 | Some u => Some (decide_user name u act player sensitive)
                 end
        end
  end.

(** The player a route acts for, as the server takes it from the path. *)
Definition routed_player (suffix path : string) : option string :=
  if starts_with players_prefix path && ends_with suffix path then
    let n := String.length players_prefix in
    Some (strip_slash (of_chars (skipn n (firstn (length (chars path) - String.length suffix) (chars path)))))
  else None.

(** * What the HTTP role policy guarantees (backend/http_authorization.py)

    A policy that cannot be read, or that other accounts could have written,
    refuses every request; and a control request is allowed exactly when its
    user's roles grant it, a performer's for the players listed for that user
    only. *)

(** ** The file *)

Record user_ok (entry : string * user) : Prop := {
  uo_name : _valid_identifier 128 (VStr (fst entry)) = true;
  uo_roles : (snd entry).(u_roles) <> [] /\ NoDup (snd entry).(u_roles) /\ Forall (fun r => r ∈ ROLE_NAMES) (snd entry).(u_roles);
  uo_players : NoDup (snd entry).(u_players) /\ (length (snd entry).(u_players) <= 32)%nat /\
               Forall (fun p => _valid_identifier 128 (VStr p) = true) (snd entry).(u_players);
}.

Lemma has_dup_false l : has_dup l = false <-> NoDup l.
Proof. unfold has_dup. rewrite negb_false_iff. apply bool_decide_eq_true. Qed.

Lemma elem_existsb l s : existsb (String.eqb s) l = true <-> s ∈ l.
Proof.
  rewrite existsb_exists. split; [intros (y & Hy & ->%String.eqb_eq); by apply list_elem_of_In|].
  intros H. exists s. split; [by apply list_elem_of_In|apply str_eqb_refl].
Qed.

Lemma strings_of_forall (p : pyval -> bool) l : (forall v, p v = true -> is_str v = true) -> forallb p l = true ->
  length (strings_of l) = length l /\ Forall (fun s => p (VStr s) = true) (strings_of l).
Proof.
  intros Hp H. induction l as [|v l IH]; [by split|]. cbn in H. apply andb_prop in H as [Hv H].
  pose proof (Hp v Hv) as Hs. destruct v; try done. destruct (IH H) as [Hn Hl]. unfold strings_of in *. cbn. rewrite Hn. by split; [|constructor].
Qed.

Lemma read_roles_ok v l : read_roles v = Ok l -> l <> [] /\ NoDup l /\ Forall (fun r => r ∈ ROLE_NAMES) l.
Proof.
  unfold read_roles. destruct v as [| | | | |vs|]; try done. destruct (negb _ || _ || _) eqn:E; [done|]. intros [= <-]. pyinv.
  match goal with H : has_dup _ = false |- _ => apply has_dup_false in H as Hd end.
  match goal with H : forallb _ vs = true |- _ => apply strings_of_forall in H as [Hn Hall]; [|by intros []] end.
  unfold sort_strings. split; [|split].
  - intros Hnil. pose proof (Permutation_length (sort_by_Permutation (fun s : string => s) (strings_of vs))) as Hl.
    rewrite Hnil in Hl. cbn in Hl. lia.
  - by rewrite sort_by_Permutation.
  - rewrite sort_by_Permutation. eapply Forall_impl; [exact Hall|]. intros s. apply elem_existsb.
Qed.

Lemma read_players_ok v l : read_players v = Ok l ->
  NoDup l /\ (length l <= 32)%nat /\ Forall (fun p => _valid_identifier 128 (VStr p) = true) l.
Proof.
  unfold read_players. destruct v as [| | | | |vs|]; try done. destruct (_ || _ || _) eqn:E; [done|]. intros [= <-]. pyinv.
  match goal with H : has_dup _ = false |- _ => apply has_dup_false in H as Hd end.
  match goal with H : forallb _ vs = true |- _ => apply strings_of_forall in H as [Hn Hall]; [|by intros []] end.
  split; [done|]. split; [lia|done].
Qed.

Lemma read_user_ok entry u : read_user entry = Ok u -> user_ok u.
Proof.
  unfold read_user. destruct entry as [name record]. destruct (_valid_identifier 128 (VStr name)) eqn:En; cbn [negb]; [|done].
  destruct record as [| | | | | |d]; try done. destruct (negb _); [done|]. intros H.
  apply bind_ok in H as (roles & Hr & H). apply bind_ok in H as (players & Hp & H). injection H as <-.
  apply read_roles_ok in Hr. apply read_players_ok in Hp. by split.
Qed.

Lemma policy_document_ok v users : policy_document v = Ok users -> Forall user_ok users.
Proof.
  unfold policy_document. destruct v as [| | | | | |d]; try done. destruct (_ || _); [done|].
  destruct (dget_none d "users") as [| | | | | |us]; try done. destruct (_ <? _); [done|]. intros H%map_res_ok.
  induction H as [|e u es us' He H IH]; constructor; [by eapply read_user_ok|done].
Qed.

(** ** Which exceptions are raised *)

(** The operation answers, or raises one of the exceptions [p]. *)
Definition raises_only {A} (p : exn -> bool) (m : res A) : Prop := match m with Ok _ => True | Raise e => p e = true end.

Lemma only_bind {A B} p (m : res A) (f : A -> res B) :
  raises_only p m -> (forall a, raises_only p (f a)) -> raises_only p (m ≫= f).
Proof. destruct m; [intros _ H; apply H|done]. Qed.

Lemma only_mono {A} (p q : exn -> bool) (m : res A) : (forall e, p e = true -> q e = true) -> raises_only p m -> raises_only q m.
Proof. destruct m; cbn; auto. Qed.

Lemma only_map_res {A B} p (f : A -> res B) l : (forall a, raises_only p (f a)) -> raises_only p (map_res f l).
Proof. intros H. induction l as [|a l IH]; cbn [map_res]; [done|]. apply only_bind; [apply H|]. intros b. by apply only_bind. Qed.

Lemma only_fold_res {A B} p (f : B -> A -> res B) l b : (forall b a, raises_only p (f b a)) -> raises_only p (fold_res f l b).
Proof. intros H. revert b. induction l as [|a l IH]; intros b; cbn [fold_res]; [done|]. apply only_bind; [apply H|apply IH]. Qed.

(** Walk through tests, binds and matches. *)
Ltac only_tac :=
  repeat first
    [ assumption | exact I | reflexivity
    | match goal with |- raises_only _ (_ ≫= _) => apply only_bind; [|intros ?] end
    | match goal with |- raises_only _ (if ?b then _ else _) => destruct b end
    | match goal with |- raises_only _ (match ?x with _ => _ end) => destruct x end ].

Section json.
Context (hook : pydict -> res pydict) (hook_raises : forall d, raises_only is_value_error (hook d)).

Lemma string_body_raises l : raises_only is_value_error (string_body l).
Proof using Type.
  induction l as [l IH] using (induction_ltof1 _ (@length ascii)). unfold ltof in IH.
  assert (Hpush : forall c m, raises_only is_value_error m -> raises_only is_value_error (push c m)) by (intros c [[]|]; done).
  destruct l as [|c l1]; [done|]. cbn [string_body]. only_tac; apply Hpush, IH; cbn; lia.
Qed.

Lemma number_raises neg l : raises_only is_value_error (number neg l).
Proof using Type. unfold number. only_tac. Qed.

Lemma parser_raises n :
  (forall l, raises_only is_value_error (value hook n l)) /\
  (forall l, raises_only is_value_error (elements hook n l)) /\
  (forall l, raises_only is_value_error (members hook n l)).
Proof using hook_raises.
  induction n as [|n (IHv & IHe & IHm)]; [done|]. split; [|split]; intros l.
  - cbn [value]. only_tac; auto using string_body_raises, number_raises.
  - cbn [elements]. only_tac; auto.
  - cbn [members]. only_tac; auto using string_body_raises.
Qed.

Lemma loads_with_raises text : raises_only is_value_error (loads_with hook text).
Proof using hook_raises. unfold loads_with. apply only_bind; [apply parser_raises|]. intros [v rest]. only_tac. Qed.
End json.

Lemma unique_pairs_raises d : raises_only is_value_error (_unique_pairs d).
Proof. apply only_fold_res. intros b kv. only_tac. Qed.

Lemma utf8_decode_raises text : raises_only is_value_error (utf8_decode text).
Proof.
  unfold utf8_decode. apply only_bind; [|done]. generalize (chars text). intros l.
  induction l as [l IH] using (induction_ltof1 _ (@length ascii)). unfold ltof in IH.
  destruct l as [|c l1]; [done|]. cbn [utf8_decode_chars]. only_tac; apply IH; cbn; lia.
Qed.

(** What the file must be at the moment it is read. *)
Record private_policy (euid : Z) (f : file_view) : Prop := {
  pp_regular : f.(fv_before).(st_regular) = true;
  pp_owner : f.(fv_before).(st_uid) = euid;
  pp_mode : Z.land (Z.land f.(fv_before).(st_mode) 4095) 63 = 0;
  pp_stable : stamp f.(fv_before) = stamp f.(fv_after);
}.

Lemma read_private_json_ok euid f v : _read_private_json euid f = Ok v -> private_policy euid f.
Proof.
  unfold _read_private_json. destruct (negb _); [done|]. destruct (negb _) in |- *; [done|].
  destruct (_ || _ || _ || _) eqn:E; [done|]. destruct (_ <? str_len _); [done|].
  destruct (bool_decide (stamp _ = stamp _)) eqn:Es; [|done]. intros _. pyinv. by split.
Qed.

Lemma read_private_json_raises euid f : raises_only policy_caught (_read_private_json euid f).
Proof.
  unfold _read_private_json. only_tac.
  - eapply only_mono; [|apply utf8_decode_raises]. by intros [].
  - eapply only_mono; [|apply loads_with_raises, unique_pairs_raises]. by intros [].
Qed.

Lemma policy_document_raises v : raises_only policy_caught (policy_document v).
Proof.
  unfold policy_document. only_tac. apply only_map_res. intros [name record]. unfold read_user, read_roles, read_players. only_tac.
Qed.

(** C18: the policy fails closed. When a policy file is configured, a request is
    either given a policy, read from a regular file of this process's owner that
    no other account can read or write and that did not change while it was
    read, in which every user has a valid identifier, at least one role, only
    known roles, and at most 32 valid players, each named once; or it is refused
    as forbidden, whatever the file holds and whatever goes wrong. It is never
    taken to be unrestricted. *)
Theorem policy_fails_closed euid files setting : strip setting <> "" ->
  match authorization_policy euid files setting with
  | Ok (Some users) => private_policy euid (files (strip setting)) /\ Forall user_ok users
  | Ok None => False
  | Raise e => is_permission_error e = true
  end.
Proof.
  intros Hp. unfold authorization_policy. rewrite str_eqb_ne by done. set (m := _ ≫= _).
  assert (raises_only policy_caught m) as Hm.
  { apply only_bind; [apply read_private_json_raises|]. intros v. apply only_bind; [apply policy_document_raises|done]. }
  destruct m as [[users|]|e] eqn:E; cbn [catch]; [| |by rewrite Hm].
  - apply bind_ok in E as (v & Hv & E). apply bind_ok in E as (u & Hu & E). injection E as ->.
    split; [by eapply read_private_json_ok|by eapply policy_document_ok].
  - apply bind_ok in E as (v & Hv & E). apply bind_ok in E as (u & Hu & E). discriminate E.
Qed.

Definition policy_file (mode : Z) : file_view :=
  let info := {| st_regular := true; st_uid := 1000; st_mode := mode; st_size := 60; st_dev := 1; st_ino := 1; st_mtime_ns := 7; st_ctime_ns := 7 |} in
  {| fv_absolute := true; fv_opens := true; fv_before := info; fv_after := info;
     fv_data := _canonical (VDict [("version", VInt 1); ("users", VDict [("ana", VDict [("roles", VList [VStr "operator"])])])]) |}.

(** The same policy in a private file, and in one that its group may read. *)
Lemma policy_fails_closed_witness :
  let read mode := authorization_policy 1000 (fun _ => policy_file mode) " /etc/stageforge/roles.json" in
  read 384 = Ok (Some [("ana", {| u_roles := ["operator"]; u_players := [] |})]) /\
  Forall user_ok [("ana", {| u_roles := ["operator"]; u_players := [] |})] /\
  match read 416 with Ok _ => False | Raise e => is_permission_error e = true end.
Proof.
  assert (Hs : strip " /etc/stageforge/roles.json" <> "") by (vm_compute; discriminate). intros read.
  assert (read 384 = Ok (Some [("ana", {| u_roles := ["operator"]; u_players := [] |})])) as Hr by (vm_compute; reflexivity).
  pose proof (policy_fails_closed 1000 (fun _ => policy_file 384) " /etc/stageforge/roles.json" Hs) as H.
  change (match read 384 with Ok (Some users) => private_policy 1000 (policy_file 384) /\ Forall user_ok users | Ok None => False
          | Raise e => is_permission_error e = true end) in H. rewrite Hr in H.
  split; [exact Hr|]. split; [exact (proj2 H)|vm_compute; reflexivity].
Defined.

(** ** Routes *)

Lemma starts_with_app p s : starts_with p s = true <-> exists t, chars s = chars p ++ t.
Proof.
  unfold starts_with. revert s. induction p as [|c p IH]; intros s; cbn; [split; [by eexists|by destruct s]|].
  destruct s as [|d s]; cbn; [split; [done|by intros [t [=]]]|].
  destruct (ascii_dec c d) as [->|Hne].
  { rewrite IH. split; intros [t Ht]; exists t; [exact (f_equal (cons d) Ht)|by injection Ht]. }
  split; [done|]. intros [t [= Hd _]]. congruence.
Qed.

Lemma ends_with_app p s : ends_with p s = true <-> exists t, chars s = t ++ chars p.
Proof.
  unfold ends_with. rewrite String.eqb_eq. split.
  - intros H. exists (firstn (length (chars s) - length (chars p)) (chars s)).
    rewrite <- (firstn_skipn (length (chars s) - length (chars p)) (chars s)) at 1. f_equal.
    apply (f_equal chars) in H. by rewrite chars_of_chars in H.
  - intros [t H]. rewrite H, length_app. replace (length t + length (chars p) - length (chars p))%nat with (length t) by lia.
    rewrite skipn_app, skipn_all, Nat.sub_diag. apply of_chars_chars.
Qed.

(** No suffix of the table ends another. *)
Definition separate (table : list (string * string)) : bool :=
  forallb (fun x => forallb (fun y => String.eqb (fst x) (fst y) || negb (ends_with (fst x) (fst y))) table) table.

Lemma suffixes_exclusive p q s act act' : (p, act) ∈ _PLAYER_SUFFIX_ACTIONS -> (q, act') ∈ _PLAYER_SUFFIX_ACTIONS ->
  ends_with p s = true -> ends_with q s = true -> p = q.
Proof.
  assert (Hsep : separate _PLAYER_SUFFIX_ACTIONS = true) by (vm_compute; reflexivity).
  assert (forall x y, x ∈ _PLAYER_SUFFIX_ACTIONS -> y ∈ _PLAYER_SUFFIX_ACTIONS -> ends_with (fst x) (fst y) = true -> fst x = fst y) as H.
  { intros x y Hx%list_elem_of_In Hy%list_elem_of_In He. unfold separate in Hsep. rewrite forallb_forall in Hsep.
    specialize (Hsep x Hx). rewrite forallb_forall in Hsep. specialize (Hsep y Hy). rewrite He, orb_false_r in Hsep.
    by apply String.eqb_eq. }
  intros Hp Hq [t Ht]%ends_with_app [u Hu]%ends_with_app. rewrite Ht in Hu.
  apply app_eq_inv in Hu as [(k & _ & Hk)|(k & _ & Hk)].
  - apply (H (p, act) (q, act') Hp Hq). apply ends_with_app. by exists k.
  - symmetry. apply (H (q, act') (p, act) Hq Hp). apply ends_with_app. by exists k.
Qed.

(** The player the policy reads in a path is the one the server acts for. *)
Lemma but_last_app t p : but_last (String.length p) (of_chars (t ++ chars p)) = of_chars t.
Proof.
  unfold but_last. rewrite chars_of_chars, length_app, length_chars.
  replace (length t + String.length p - String.length p)%nat with (length t) by lia. by rewrite firstn_app, firstn_all, Nat.sub_diag, app_nil_r.
Qed.

Lemma routed_app suffix t : routed_player suffix (of_chars (chars players_prefix ++ t ++ chars suffix)) = Some (strip_slash (of_chars t)).
Proof.
  unfold routed_player. rewrite (proj2 (starts_with_app _ _)) by (eexists; apply chars_of_chars).
  rewrite (proj2 (ends_with_app _ _)) by (eexists; rewrite chars_of_chars; apply app_assoc). cbn [andb].
  rewrite chars_of_chars, !length_app, !length_chars.
  replace (String.length players_prefix + (length t + String.length suffix) - String.length suffix)%nat
    with (length (chars players_prefix ++ t)) by (rewrite length_app, length_chars; lia).
  rewrite app_assoc, firstn_app, firstn_all, Nat.sub_diag, app_nil_r, skipn_app, <- length_chars, skipn_all, Nat.sub_diag. done.
Qed.

Definition player_of (path player : string) : Prop :=
  exists suffix act, (suffix, act) ∈ _PLAYER_SUFFIX_ACTIONS /\ routed_player suffix path = Some player.

Lemma player_suffix_some tail table act player : player_suffix tail table = Some (act, player) ->
  player <> "" /\ has_slash player = false /\
  exists suffix, (suffix, act) ∈ table /\ ends_with suffix tail = true /\ player = strip_slash (but_last (String.length suffix) tail).
Proof.
  induction table as [|[suffix a] table IH]; cbn [player_suffix]; [done|].
  assert (player_suffix tail table = Some (act, player) -> player <> "" /\ has_slash player = false /\
    exists suffix0, (suffix0, act) ∈ (suffix, a) :: table /\ ends_with suffix0 tail = true /\
      player = strip_slash (but_last (String.length suffix0) tail)) as Hrest.
  { intros H. destruct (IH H) as (H1 & H2 & s & H3 & H4). split; [done|]. split; [done|]. exists s. split; [by right|done]. }
  destruct (ends_with suffix tail) eqn:He; [|exact Hrest]. destruct (negb _ && negb _) eqn:Et; [|exact Hrest].
  intros [= <- <-]. pyinv. split; [done|]. split; [done|]. exists suffix. split; [left|done].
Qed.

Lemma player_action_routed path act player : _player_action path = Some (act, player) -> player_of path player.
Proof.
  unfold _player_action. destruct (starts_with _ _) eqn:Hs; [|done]. intros H.
  apply player_suffix_some in H as (_ & _ & suffix & Hin & He & ->). exists suffix, act. split; [done|].
  apply starts_with_app in Hs as [t Ht].
  assert (from_char (String.length players_prefix) path = of_chars t) as Hf.
  { unfold from_char. by rewrite Ht, <- length_chars, skipn_app, skipn_all, Nat.sub_diag. }
  rewrite Hf in *. apply ends_with_app in He as [u Hu]. rewrite chars_of_chars in Hu. rewrite Hu in *.
  rewrite but_last_app, <- (of_chars_chars path), Ht. apply routed_app.
Qed.

Lemma player_of_unique path p q : player_of path p -> player_of path q -> p = q.
Proof.
  intros (s & a & Hs & Hp) (s' & a' & Hs' & Hq). assert (ends_with s path = true /\ ends_with s' path = true) as [He He'].
  { unfold routed_player in *. destruct (starts_with _ _); [|done]. by destruct (ends_with s path), (ends_with s' path). }
  pose proof (suffixes_exclusive _ _ _ _ _ Hs Hs' He He') as ->. congruence.
Qed.

Lemma player_suffix_found tail suffix act table : (suffix, act) ∈ table -> ends_with suffix tail = true ->
  strip_slash (but_last (String.length suffix) tail) <> "" -> has_slash (strip_slash (but_last (String.length suffix) tail)) = false ->
  exists r, player_suffix tail table = Some r.
Proof.
  intros Hin He Hp Hs. induction table as [|[s a] table IH]; [by inversion Hin|]. cbn [player_suffix].
  apply elem_of_cons in Hin as [[= <- <-]|Hin].
  - rewrite He, (str_eqb_ne _ "") by done. rewrite Hs. cbn. eauto.
  - destruct (ends_with s tail); [|by apply IH]. destruct (negb _ && negb _); [eauto|by apply IH].
Qed.

(** A route of a player that has a name is classified as that player's. *)
Lemma routed_player_action path p : player_of path p -> p <> "" -> has_slash p = false ->
  exists act, _player_action path = Some (act, p).
Proof.
  intros Hpl Hp Hs. pose proof Hpl as (suffix & act & Hin & Hr). unfold routed_player in Hr.
  destruct (starts_with players_prefix path) eqn:Hst; [|done]. destruct (ends_with suffix path) eqn:He; [|done]. cbn [andb] in Hr.
  injection Hr as Hr. apply starts_with_app in Hst as [t Ht]. apply ends_with_app in He as [u Hu].
  rewrite Hu, length_app, length_chars in Hr. replace (length u + String.length suffix - String.length suffix)%nat with (length u) in Hr by lia.
  rewrite firstn_app, firstn_all, Nat.sub_diag, app_nil_r in Hr. rewrite Ht in Hu.
  apply app_eq_inv in Hu as [(k & Hk & Hk')|(k & -> & ->)].
  { apply (f_equal length) in Hk. rewrite length_app, length_chars in Hk. change (String.length players_prefix) with 16%nat in Hk.
    rewrite skipn_all2 in Hr by lia. by subst p. }
  change (drop 16 (chars players_prefix ++ k)) with k in Hr.
  assert (from_char (String.length players_prefix) path = of_chars (k ++ chars suffix)) as Hf.
  { unfold from_char. by rewrite Ht, <- length_chars, skipn_app, skipn_all, Nat.sub_diag. }
  destruct (player_suffix_found (of_chars (k ++ chars suffix)) suffix act _PLAYER_SUFFIX_ACTIONS Hin) as [[a q] Hq].
  - apply ends_with_app. exists k. apply chars_of_chars.
  - by rewrite but_last_app, Hr.
  - by rewrite but_last_app, Hr.
  - assert (_player_action path = Some (a, q)) as Ha.
    { unfold _player_action. rewrite (proj2 (starts_with_app players_prefix path)) by (by eexists). by rewrite Hf. }
    exists a. rewrite Ha. by rewrite (player_of_unique path p q Hpl (player_action_routed _ _ _ Ha)).
Qed.

(** The routes that concern who leads. *)
Definition authority_route (path : string) : bool :=
  existsb (String.eqb path) _AUTHORITY_EXACT || existsb (fun p => starts_with p path) _AUTHORITY_PREFIXES
  || String.eqb path "/api/v1/handoff".

Lemma common_prefix p q s : starts_with p s = true -> starts_with q s = true -> starts_with p q || starts_with q p = true.
Proof.
  intros [t Ht]%starts_with_app [u Hu]%starts_with_app. rewrite Ht in Hu. apply orb_true_iff.
  apply app_eq_inv in Hu as [(k & Hk & _)|(k & Hk & _)]; [right|left]; apply starts_with_app; eauto.
Qed.

Lemma players_are_not_authority path : starts_with players_prefix path = true -> authority_route path = false.
Proof.
  intros H. unfold authority_route. rewrite !orb_false_iff. split; [split|]; apply not_true_iff_false; intros Ha.
  - apply elem_existsb in Ha. unfold _AUTHORITY_EXACT in Ha. by repeat (apply elem_of_cons in Ha as [->|Ha]; [done|]); apply not_elem_of_nil in Ha.
  - apply existsb_exists in Ha as (p & Hp & Hs). pose proof (common_prefix _ _ _ H Hs) as Hc. by repeat (destruct Hp as [<-|Hp]; [done|]).
  - apply String.eqb_eq in Ha as ->. done.
Qed.

Lemma upper_upper s : upper (upper s) = upper s.
Proof.
  unfold upper. rewrite chars_of_chars, map_map. f_equal. apply map_ext. intros [[] [] [] [] [] [] [] []]; reflexivity.
Qed.

Lemma has_role_elem r roles : has_role r roles = true <-> r ∈ roles.
Proof. apply elem_existsb. Qed.

(** What the roles of a user grant on a route. *)
Definition granted (users : policy) (name path : string) : Prop :=
  exists u, alookup users name = Some u /\
    ("admin" ∈ u.(u_roles)
     \/ authority_route path = true /\ "authority" ∈ u.(u_roles)
     \/ authority_route path = false /\ "operator" ∈ u.(u_roles)
     \/ "performer" ∈ u.(u_roles) /\ exists p, player_of path p /\ p <> "" /\ has_slash p = false /\ p ∈ u.(u_players)).

Lemma decide_user_granted name u path act player sensitive method :
  classify_control_action method path = (act, player, sensitive) ->
  (allowed (decide_user name u act player sensitive) = true <->
   ("admin" ∈ u.(u_roles)
    \/ authority_route path = true /\ "authority" ∈ u.(u_roles)
    \/ authority_route path = false /\ "operator" ∈ u.(u_roles)
    \/ "performer" ∈ u.(u_roles) /\ exists p, player_of path p /\ p <> "" /\ has_slash p = false /\ p ∈ u.(u_players))).
Proof.
  unfold classify_control_action, decide_user. rewrite <- !has_role_elem. destruct (_player_action path) as [[a p]|] eqn:Ea.
  - intros [= <- <- <-]. pose proof (player_action_routed _ _ _ Ea) as Hp.
    assert (starts_with players_prefix path = true) as Hs by (unfold _player_action in Ea; by destruct (starts_with _ _)).
    rewrite (players_are_not_authority _ Hs). destruct (has_role "admin" _); [cbn; tauto|].
    destruct (has_role "operator" _); [cbn; tauto|]. cbn [allowed].
    assert (p <> "" /\ has_slash p = false) as [Hne Hsl].
    { unfold _player_action in Ea. rewrite Hs in Ea. by apply player_suffix_some in Ea as (? & ? & _). }
    destruct (has_role "performer" _); cbn [andb allowed]; [|naive_solver].
    destruct (existsb (String.eqb p) (u_players u)) eqn:Ep; cbn [allowed].
    + apply elem_existsb in Ep. split; [|done]. intros _. do 3 right. split; [done|]. by exists p.
    + split; [done|]. intros [?|[[? ?]|[[? ?]|(_ & q & Hq & _ & _ & Hin)]]]; try done.
      rewrite <- (player_of_unique _ _ _ Hp Hq) in Hin. apply elem_existsb in Hin. congruence.
  - assert (forall p, player_of path p -> p <> "" -> has_slash p = false -> False) as Hno.
    { intros p Hp Hne Hs. destruct (routed_player_action _ _ Hp Hne Hs) as [a Ha]. congruence. }
    unfold authority_route. destruct (existsb (String.eqb path) _ || existsb _ _); cbn [orb];
      [|destruct (String.eqb path "/api/v1/handoff"); [|destruct (starts_with api_prefix path)]]; intros [= <- <- <-];
      destruct (has_role "admin" _); cbn [allowed]; try tauto; naive_solver.
Qed.

(** C17: control is granted exactly by role. With a policy in force, every
    mutation under the interface's routes that has no credential of its own is
    decided, and it is allowed exactly when it comes from an authenticated user
    of the policy whose roles grant it: an administrator any of them; a user with
    the authority role the transfer of authority, the node's role, failover and
    the handoff policy, which no operator reaches; an operator all others; and a
    performer only the controls of a player assigned to that user, the very
    player the server acts for on that route. *)
Theorem control_is_granted_exactly users who method path :
  upper method ∈ _MUTATING_METHODS -> starts_with api_prefix path = true -> specialized_authorization_route method path = false ->
  exists d, authorize_control_request (Some users) who method path = Some d /\
    (allowed d = true <-> exists name, who = Some name /\ name <> "" /\ granted users name path).
Proof.
  intros Hm Hp Hs. unfold authorize_control_request. rewrite (proj2 (elem_existsb _ _) Hm), Hp. cbn [negb orb].
  assert (specialized_authorization_route (upper method) path = false) as ->
    by (unfold specialized_authorization_route in *; by rewrite upper_upper).
  destruct (classify_control_action _ path) as [[act player] sensitive] eqn:Ec.
  destruct who as [name|]; [|eexists; split; [done|]; cbn; split; [done|]; by intros (? & ? & _)].
  destruct (String.eqb_spec name "") as [->|Hn]; [eexists; split; [done|]; cbn; split; [done|]; naive_solver|].
  destruct (alookup users name) as [u|] eqn:Eu; eexists; (split; [done|]).
  - rewrite (decide_user_granted _ _ _ _ _ _ _ Ec). unfold granted. naive_solver.
  - cbn. split; [done|]. intros (n & [= <-] & _ & u & Hu & _). congruence.
Qed.

Lemma control_is_granted_exactly_witness :
  let users := [("ana", {| u_roles := ["performer"]; u_players := ["p1"] |})] in
  (exists d, authorize_control_request (Some users) (Some "ana") "patch" "/api/v1/players/p1/monitor" = Some d /\
    (allowed d = true <-> exists name, Some "ana" = Some name /\ name <> "" /\ granted users name "/api/v1/players/p1/monitor")) /\
  option_map allowed (authorize_control_request (Some users) (Some "ana") "patch" "/api/v1/players/p1/monitor") = Some true /\
  option_map allowed (authorize_control_request (Some users) (Some "ana") "patch" "/api/v1/players/p2/monitor") = Some false.
Proof.
  split; [|split; vm_compute; reflexivity].
  apply (control_is_granted_exactly _ (Some "ana") "patch" "/api/v1/players/p1/monitor");
    [apply elem_existsb; vm_compute; reflexivity|vm_compute; reflexivity|vm_compute; reflexivity].
Defined.
