(* ===== verification/DawSession.v ===== *)
(** * DAW sessions (backend/daw_session.py, backend/clip_fades.py)

    Tracks, clips, automation points and markers: the normalization every session
    goes through, and the render plan with the fade envelope of its regions; the
    edits and their history are in DawStore. A normalized clip, track or marker is
    a record whose [raw] field is the dict it was read from, so that unknown
    fields survive; the dict it is written as is that dict under the normalized
    fields. *)

From S2P Require Import Prelude PyStr PyFloat PyVal PyFacts JsonText Adaptation.
From Stdlib Require Import SpecFloat.

#[local] Open Scope string_scope.
#[local] Open Scope list_scope.
#[local] Open Scope Z_scope.
#[local] Open Scope st_scope.

Definition MAX_TRACKS : Z := 128.
Definition MAX_CLIPS : Z := 4096.
Definition CANONICAL_RATE : Z := 192000.

(** ** Data *)

Record fades := { fd_in : Z; fd_out : Z; fd_curve : string; fd_span : option (Z * Z) }.

Record clip := {
  cl_raw : pydict; cl_id : string; cl_start : Z; cl_length : Z; cl_offset : Z; cl_source : pydict; cl_muted : bool;
  cl_fades : fades;
}.

Record point := { pt_raw : pydict; pt_id : string; pt_frame : Z; pt_value : float }.

Record track := {
  tr_raw : pydict; tr_id : string; tr_kind : string; tr_name : string; tr_gain : float; tr_pan : float; tr_muted : bool;
  tr_solo : bool; tr_bus : string; tr_sends : list pyval; tr_automation : list point; tr_clips : list clip;
}.

Record marker := { mk_raw : pydict; mk_id : string; mk_frame : Z; mk_name : string; mk_kind : string }.

Record session := {
  ss_raw : pydict; ss_reader : Z; ss_id : string; ss_revision : Z; ss_tempo : list pyval; ss_markers : list marker;
  ss_tracks : list track;
}.

(** *** The dicts they are written as *)

Definition fades_dict (f : fades) : pydict :=
  [("inFrames", VInt f.(fd_in)); ("outFrames", VInt f.(fd_out)); ("curve", VStr f.(fd_curve))]
  ++ match f.(fd_span) with Some (span, offset) => [("spanFrames", VInt span); ("offsetFrames", VInt offset)] | None => [] end.

Definition clip_dict (c : clip) : pydict :=
  dmerge c.(cl_raw)
    [("clipId", VStr c.(cl_id)); ("startFrame", VInt c.(cl_start)); ("lengthFrames", VInt c.(cl_length));
     ("sourceOffsetFrames", VInt c.(cl_offset)); ("source", VDict c.(cl_source)); ("muted", VBool c.(cl_muted));
     ("fades", VDict (fades_dict c.(cl_fades)))].

Definition point_dict (p : point) : pydict :=
  dmerge p.(pt_raw)
    [("pointId", VStr p.(pt_id)); ("parameter", VStr "volume"); ("frame", VInt p.(pt_frame)); ("value", VFloat p.(pt_value));
     ("interpolation", VStr "linear")].

Definition track_dict (t : track) : pydict :=
  dmerge t.(tr_raw)
    [("trackId", VStr t.(tr_id)); ("kind", VStr t.(tr_kind)); ("name", VStr t.(tr_name)); ("gain", VFloat t.(tr_gain));
     ("pan", VFloat t.(tr_pan)); ("muted", VBool t.(tr_muted)); ("solo", VBool t.(tr_solo)); ("outputBus", VStr t.(tr_bus));
     ("sends", VList t.(tr_sends)); ("automation", VList (map (fun p => VDict (point_dict p)) t.(tr_automation)));
     ("clips", VList (map (fun c => VDict (clip_dict c)) t.(tr_clips)))].

Definition marker_dict (m : marker) : pydict :=
  dmerge m.(mk_raw)
    [("markerId", VStr m.(mk_id)); ("frame", VInt m.(mk_frame)); ("name", VStr m.(mk_name)); ("kind", VStr m.(mk_kind))].

Definition session_dict (s : session) : pydict :=
  dmerge s.(ss_raw)
    [("documentType", VStr "org.upp.daw-session"); ("schemaVersion", VInt 1); ("minimumReaderSchemaVersion", VInt s.(ss_reader));
     ("sessionId", VStr s.(ss_id)); ("revision", VInt s.(ss_revision)); ("sampleRate", VInt CANONICAL_RATE);
     ("sampleFormat", VStr "float32-planar"); ("tempoMap", VList s.(ss_tempo));
     ("markers", VList (map (fun m => VDict (marker_dict m)) s.(ss_markers)));
     ("tracks", VList (map (fun t => VDict (track_dict t)) s.(ss_tracks))); ("unknownFieldsPreserved", VBool true);
     ("physicalOutputsArmed", VBool false)].

(** ** Normalization *)

(** [str(d.get(k, "")).strip()[:128]]. *)
Definition token (d : pydict) (k : string) : string := slice 128 (strip (text_or d k "")).

(** [v in {...}] for a set of strings: a list or a dict cannot be looked up. *)
Definition in_set (v : pyval) (allowed : list string) : res bool :=
  match v with
  | VList _ | VDict _ => Raise TypeError
  | VStr s => Ok (existsb (String.eqb s) allowed)
  | _ => Ok false
  end.

Definition check (b : bool) (message : string) : res unit := guard_res b (ValueError message).
Definition has_id (l : list string) (x : string) : bool := existsb (String.eqb x) l.
Definition int_field (d : pydict) (k : string) (default : Z) : res Z := py_int (dget_or d k (VInt default)).

(** [dict(d.get(k) or {})]. *)
Definition dict_field (d : pydict) (k : string) : res pydict := py_dict (py_or (dget_none d k) (VDict [])).

Definition read_fades (f : pydict) (length : Z) : res fades :=
  v_in ← int_field f "inFrames" 0; v_out ← int_field f "outFrames" 0;
  span ← int_field f "spanFrames" length; offset ← int_field f "offsetFrames" 0;
  let fade_in := Z.max 0 v_in in let fade_out := Z.max 0 v_out in
  _ ← check (negb ((span <? length) || (offset <? 0) || (span <? offset + length))) "invalid fade span";
  _ ← check (fade_in + fade_out <=? span) "combined fades exceed clip length";
  known ← in_set (dget_or f "curve" (VStr "equal-power")) ["linear"; "equal-power"];
  _ ← check known "unsupported clip fade curve";
  Ok {| fd_in := fade_in; fd_out := fade_out; fd_curve := text_or f "curve" "equal-power";
        fd_span := if dhas f "spanFrames" || dhas f "offsetFrames" then Some (span, offset) else None |}.

(** A value of the wrong class has no [get]. *)
Definition need_dict (v : pyval) : res pydict := match v with VDict d => Ok d | _ => Raise AttributeError end.

(** The clips read so far in the session, then those of the track. *)
Definition read_clip (seen : list string) (raw : pyval) : res clip :=
  _ ← check (Z.of_nat (length seen) <? MAX_CLIPS) "session exceeds 4096 clips";
  d ← need_dict raw;
  let id := token d "clipId" in
  start ← int_field d "startFrame" 0; len ← int_field d "lengthFrames" 0; offset ← int_field d "sourceOffsetFrames" 0;
  _ ← check (negb (String.eqb id "" || has_id seen id || (len <? 1))) "clip identity and length must be valid";
  source ← dict_field d "source";
  known ← in_set (dget_none source "type") ["audio-file"; "midi-sequence"; "generator"];
  _ ← check known "clip source type is unsupported";
  f ← dict_field d "fades";
  fd ← read_fades f len;
  Ok {| cl_raw := d; cl_id := id; cl_start := Z.max 0 start; cl_length := len; cl_offset := Z.max 0 offset;
        cl_source := source; cl_muted := truthy (dget_or d "muted" (VBool false)); cl_fades := fd |}.

Definition ids_of (l : list clip) : list string := map cl_id l.

Definition read_clips (seen : list string) (raws : list pyval) : res (list clip) :=
  fold_res (fun clips raw => c ← read_clip (seen ++ ids_of clips) raw; Ok (clips ++ [c])) raws [].

(** A finite number of 0 to 2 that is not a boolean. *)
Definition volume (v : pyval) : res float :=
  let refuse := Raise (ValueError "invalid volume automation point") in
  match v with
  | VInt z => f ← py_float (VInt z); if (0 <=? z) && (z <=? 2) then Ok f else refuse
  | VFloat f => if fle (float_of_Z 0) f && fle f (float_of_Z 2) then Ok f else refuse
  | _ => refuse
  end.

Definition frame_of (v : pyval) (message : string) : res Z :=
  match v with VInt z => if z <? 0 then Raise (ValueError message) else Ok z | _ => Raise (ValueError message) end.

Definition point_before (a b : point) : bool :=
  if a.(pt_frame) =? b.(pt_frame) then str_ltb a.(pt_id) b.(pt_id) else a.(pt_frame) <? b.(pt_frame).

Definition read_point (seen : list point) (raw : pyval) : res point :=
  match raw with
  | VDict d =>
      let parameter := text_or d "parameter" "" in
      let default_id := parameter +:+ "-" +:+ py_str (dget_none d "frame") +:+ "-" +:+ dec (Z.of_nat (length seen)) in
      let id := slice 128 (text_or d "pointId" default_id) in
      _ ← check (String.eqb parameter "volume") "unsupported automation parameter";
      frame ← frame_of (dget_none d "frame") "invalid volume automation point";
      value ← volume (dget_none d "value");
      _ ← check (negb (String.eqb id "" || existsb (fun p => String.eqb p.(pt_id) id || (p.(pt_frame) =? frame)) seen))
            "automation point ids and positions must be unique";
      Ok {| pt_raw := d; pt_id := id; pt_frame := frame; pt_value := value |}
  | _ => Raise (ValueError "automation points must be objects")
  end.

Definition read_points (raws : list pyval) : res (list point) :=
  l ← fold_res (fun points raw => p ← read_point points raw; Ok (points ++ [p])) raws [];
  Ok (sort_lt point_before l).

Definition bounded_list (v : pyval) (bound : Z) (message : string) : res (list pyval) :=
  match v with
  | VList l => if bound <? Z.of_nat (length l) then Raise (ValueError message) else Ok l
  | _ => Raise (ValueError message)
  end.

(** [max(lo, min(hi, float(d.get(k, default))))]. *)
Definition level_field (d : pydict) (k : string) (default lo hi : Z) : res float :=
  x ← py_float (dget_or d k (VFloat (float_of_Z default)));
  Ok (fmax (float_of_Z lo) (fmin (float_of_Z hi) x)).

Definition all_clips (tracks : list track) : list clip := concat (map tr_clips tracks).

Definition read_track (tracks : list track) (raw : pyval) : res track :=
  d ← need_dict raw;
  let id := token d "trackId" in
  _ ← check (negb (String.eqb id "" || has_id (map tr_id tracks) id)) "track ids must be unique non-empty tokens";
  let kind := text_or d "kind" "audio" in
  _ ← check (has_id ["audio"; "midi"; "aux"; "master"] kind) "unsupported track kind";
  raws ← py_iter (dget_or d "clips" (VList []));
  clips ← read_clips (ids_of (all_clips tracks)) raws;
  raw_points ← bounded_list (py_or (dget_none d "automation") (VList [])) 4096 "track automation must contain at most 4096 points";
  points ← read_points raw_points;
  sends ← py_iter (py_or (dget_none d "sends") (VList []));
  gain ← level_field d "gain" 1 0 4;
  pan ← level_field d "pan" 0 (-1) 1;
  Ok {| tr_raw := d; tr_id := id; tr_kind := kind; tr_name := slice 128 (text_or d "name" id); tr_gain := gain; tr_pan := pan;
        tr_muted := truthy (dget_or d "muted" (VBool false)); tr_solo := truthy (dget_or d "solo" (VBool false));
        tr_bus := slice 128 (text_or d "outputBus" "master"); tr_sends := firstn 32 sends; tr_automation := points;
        tr_clips := clips |}.

Definition read_tracks (raws : list pyval) : res (list track) :=
  fold_res (fun tracks raw => t ← read_track tracks raw; Ok (tracks ++ [t])) raws [].

Definition marker_kinds : list string := ["note"; "section"; "cue"].

Definition marker_before (a b : marker) : bool :=
  if a.(mk_frame) =? b.(mk_frame) then str_ltb a.(mk_id) b.(mk_id) else a.(mk_frame) <? b.(mk_frame).

Definition marker_name (d : pydict) (id : string) : string := str_or (slice 128 (strip (text_or d "name" id))) id.

Definition read_marker (seen : list marker) (raw : pyval) : res marker :=
  match raw with
  | VDict d =>
      let id := token d "markerId" in
      let kind := text_or d "kind" "note" in
      _ ← check (negb (String.eqb id "" || has_id (map mk_id seen) id)) "marker ids must be unique non-empty tokens";
      frame ← frame_of (dget_none d "frame") "marker frame must be a non-negative integer";
      _ ← check (has_id marker_kinds kind) "unsupported marker kind";
      Ok {| mk_raw := d; mk_id := id; mk_frame := frame; mk_name := marker_name d id; mk_kind := kind |}
  | _ => Raise (ValueError "markers must be objects")
  end.

Definition read_markers (raws : list pyval) : res (list marker) :=
  l ← fold_res (fun markers raw => m ← read_marker markers raw; Ok (markers ++ [m])) raws [];
  Ok (sort_lt marker_before l).

Definition default_tempo : pyval :=
  VList [VDict [("beat", VInt 0); ("bpm", VInt 120); ("numerator", VInt 4); ("denominator", VInt 4)]].

Definition normalize_session (value : pydict) : res session :=
  raw_tracks ← bounded_list (dget_or value "tracks" (VList [])) MAX_TRACKS "tracks must contain at most 128 entries";
  tracks ← read_tracks raw_tracks;
  tempo ← py_iter (py_or (dget_none value "tempoMap") default_tempo);
  raw_markers ← bounded_list (py_or (dget_none value "markers") (VList [])) 1024 "markers must contain at most 1024 entries";
  markers ← read_markers raw_markers;
  reader ← int_field value "minimumReaderSchemaVersion" 1;
  revision ← int_field value "revision" 0;
  Ok {| ss_raw := value; ss_reader := reader; ss_id := slice 128 (text_or value "sessionId" "default");
        ss_revision := Z.max 0 revision; ss_tempo := firstn 1024 tempo; ss_markers := markers; ss_tracks := tracks |}.

(** ** The render plan *)

(** A part of a clip that falls in the range, with what its track adds. *)
Record region := {
  rg_track : track; rg_clip : clip; rg_start : Z; rg_frames : Z; rg_source_start : Z;
}.

Definition audible (tracks : list track) (t : track) : bool :=
  negb t.(tr_muted) && (negb (existsb tr_solo tracks) || t.(tr_solo)).

Definition clip_region (start end_ : Z) (t : track) (c : clip) : list region :=
  let a := Z.max start c.(cl_start) in
  let b := Z.min end_ (c.(cl_start) + c.(cl_length)) in
  when (negb c.(cl_muted) && (a <? b))
    {| rg_track := t; rg_clip := c; rg_start := a; rg_frames := b - a; rg_source_start := c.(cl_offset) + a - c.(cl_start) |}.

Definition track_regions (tracks : list track) (start end_ : Z) (t : track) : list region :=
  if audible tracks t then concat (map (clip_region start end_ t) t.(tr_clips)) else [].

Definition region_before (a b : region) : bool :=
  if a.(rg_start) =? b.(rg_start) then
    if String.eqb a.(rg_track).(tr_id) b.(rg_track).(tr_id) then str_ltb a.(rg_clip).(cl_id) b.(rg_clip).(cl_id)
    else str_ltb a.(rg_track).(tr_id) b.(rg_track).(tr_id)
  else a.(rg_start) <? b.(rg_start).

Definition plan_regions (tracks : list track) (start end_ : Z) : list region :=
  sort_lt region_before (concat (map (track_regions tracks start end_) tracks)).

Definition region_dict (r : region) : pydict :=
  let t := r.(rg_track) in
  let c := r.(rg_clip) in
  [("trackId", VStr t.(tr_id)); ("clipId", VStr c.(cl_id)); ("renderStartFrame", VInt r.(rg_start));
   ("renderFrames", VInt r.(rg_frames)); ("sourceStartFrame", VInt r.(rg_source_start)); ("gain", VFloat t.(tr_gain));
   ("pan", VFloat t.(tr_pan)); ("outputBus", VStr t.(tr_bus)); ("sends", VList t.(tr_sends));
   ("automation", VList (map (fun p => VDict (point_dict p)) t.(tr_automation))); ("fades", VDict (fades_dict c.(cl_fades)));
   ("source", VDict c.(cl_source)); ("clipOffsetFrames", VInt (r.(rg_start) - c.(cl_start)));
   ("clipLengthFrames", VInt c.(cl_length))].

Record render := { rp_session : string; rp_revision : Z; rp_start : Z; rp_end : Z; rp_regions : list region }.

Definition render_plan (value : pydict) (start_frame end_frame : pyval) : res render :=
  s ← normalize_session value;
  first ← py_int start_frame;
  end_ ← py_int end_frame;
  let start := Z.max 0 first in
  _ ← check (negb ((end_ <=? start) || (CANONICAL_RATE * 60 * 60 <? end_ - start)))
        "render range must be positive and no longer than one hour";
  Ok {| rp_session := s.(ss_id); rp_revision := s.(ss_revision); rp_start := start; rp_end := end_;
        rp_regions := plan_regions s.(ss_tracks) start end_ |}.

Definition render_dict (p : render) : pydict :=
  [("documentType", VStr "org.upp.daw-render-plan"); ("schemaVersion", VInt 1); ("sessionId", VStr p.(rp_session));
   ("sessionRevision", VInt p.(rp_revision)); ("startFrame", VInt p.(rp_start)); ("endFrame", VInt p.(rp_end));
   ("sampleRate", VInt CANONICAL_RATE); ("regions", VList (map (fun r => VDict (region_dict r)) p.(rp_regions)));
   ("bounded", VBool true); ("offline", VBool true); ("physicalOutputsArmed", VBool false)].

(** ** The fade envelope *)

(** [n / d] on integers, correctly rounded, for a positive [d]. *)
Definition int_div (n d : Z) : res float :=
  let in_range x := match x with S754_infinity _ => Raise OverflowError | x => Ok x end in
  match n, d with
  | Z0, Zpos _ => Ok (S754_zero false)
  | Zpos p, Zpos q => in_range (float_of_ratio false p q)
  | Zneg p, Zpos q => in_range (float_of_ratio true p q)
  | _, _ => Raise (ValueError "division by zero")
  end.

(** Where a frame of a region lies in its fades: position, span, and the two fade lengths. *)
Record envelope := { ev_position : Z; ev_span : Z; ev_in : Z; ev_out : Z; ev_curve : string }.

Definition envelope_at (r : region) (relative_frame : Z) : envelope :=
  let f := r.(rg_clip).(cl_fades) in
  let '(span, offset) := match f.(fd_span) with Some so => so | None => (r.(rg_clip).(cl_length), 0) end in
  {| ev_position := offset + (r.(rg_start) - r.(rg_clip).(cl_start)) + relative_frame; ev_span := span; ev_in := f.(fd_in);
     ev_out := f.(fd_out); ev_curve := f.(fd_curve) |}.

Definition fade_level (e : envelope) : res float :=
  let one := float_of_Z 1 in
  level ← (if e.(ev_in) =? 0 then Ok one else x ← int_div (e.(ev_position) + 1) e.(ev_in); Ok (fmin one x));
  level ← (if e.(ev_out) =? 0 then Ok level else x ← int_div (e.(ev_span) - e.(ev_position)) e.(ev_out); Ok (fmin level x));
  Ok (fmax (float_of_Z 0) (fmin one level)).

(** [sin] and [pi] are those of the language's library. *)
Definition fade_envelope (sin : float -> float) (pi : float) (r : region) (relative_frame : Z) : res float :=
  let e := envelope_at r relative_frame in
  level ← fade_level e;
  if String.eqb e.(ev_curve) "equal-power" then Ok (sin (fdiv (fmul level pi) (float_of_Z 2)))
  else if String.eqb e.(ev_curve) "linear" then Ok level
  else Raise (ValueError "unsupported clip fade curve").
