(* ===== verification/DawStore.v ===== *)
(** * Editing DAW sessions (backend/daw_session.py, class DawSessionStore)

    The session file and its undo history, and the edits: clips trimmed, split,
    faded, moved alone or together and resized, markers, automation points, undo
    and redo. Every edit states the revision it was made against, and is saved
    as the next one. The store holds the values of its two files, the session
    file with sorted keys as its text is read back (JsonText); a write that fails
    leaves its file as it was. *)

From S2P Require Import Prelude PyStr PyFloat PyVal PyFacts JsonText Adaptation DawSession.

#[local] Open Scope string_scope.
#[local] Open Scope list_scope.
#[local] Open Scope Z_scope.
#[local] Open Scope st_scope.

(** ** The store *)

(** The dicts the two files hold; the history is the undone and the redone sessions, latest last. *)
Record store := { session_file : option pydict; history_file : option (list pydict * list pydict) }.

Abbreviation op := (st store).

Record fates := { save_fails : bool; history_fails : bool }.

Definition load (s : store) : res session :=
  match s.(session_file) with
  | None => normalize_session [("sessionId", VStr "default"); ("tracks", VList [])]
  | Some d => normalize_session d
  end.

Definition load_session : op session := let* s := st_get in st_lift (load s).

(** What the session file reads as once written: sorted keys. *)
Definition written (s : session) : pydict := as_dict (canon (VDict (session_dict s))).

Definition save (f : fates) (value : pydict) : op session :=
  let* result := st_lift (normalize_session value) in
  let* current := load_session in
  if result.(ss_revision) <=? current.(ss_revision) then st_raise (ValueError "DAW session revision must advance")
  else if f.(save_fails) then st_raise (OSError "write failed")
  else
    st_modify (fun s => {| session_file := Some (written result); history_file := s.(history_file) |}) ;;;
    st_ret result.

(** [l[-n:]]. *)
Definition last_of {A} (n : nat) (l : list A) : list A := skipn (length l - n) l.

Definition _history (s : store) : list pydict * list pydict :=
  match s.(history_file) with None => ([], []) | Some (u, r) => (last_of 100 u, last_of 100 r) end.

Definition _write_history (f : fates) (h : list pydict * list pydict) : op unit :=
  if f.(history_fails) then st_raise (OSError "write failed")
  else st_modify (fun s => {| session_file := s.(session_file); history_file := Some h |}).

(** ** Changing a session *)

Definition with_clips (clips : list clip) (t : track) : track :=
  {| tr_raw := t.(tr_raw); tr_id := t.(tr_id); tr_kind := t.(tr_kind); tr_name := t.(tr_name); tr_gain := t.(tr_gain);
     tr_pan := t.(tr_pan); tr_muted := t.(tr_muted); tr_solo := t.(tr_solo); tr_bus := t.(tr_bus); tr_sends := t.(tr_sends);
     tr_automation := t.(tr_automation); tr_clips := clips |}.

Definition with_points (points : list point) (t : track) : track :=
  {| tr_raw := t.(tr_raw); tr_id := t.(tr_id); tr_kind := t.(tr_kind); tr_name := t.(tr_name); tr_gain := t.(tr_gain);
     tr_pan := t.(tr_pan); tr_muted := t.(tr_muted); tr_solo := t.(tr_solo); tr_bus := t.(tr_bus); tr_sends := t.(tr_sends);
     tr_automation := points; tr_clips := t.(tr_clips) |}.

Definition with_tracks (tracks : list track) (s : session) : session :=
  {| ss_raw := s.(ss_raw); ss_reader := s.(ss_reader); ss_id := s.(ss_id); ss_revision := s.(ss_revision);
     ss_tempo := s.(ss_tempo); ss_markers := s.(ss_markers); ss_tracks := tracks |}.

Definition with_markers (markers : list marker) (s : session) : session :=
  {| ss_raw := s.(ss_raw); ss_reader := s.(ss_reader); ss_id := s.(ss_id); ss_revision := s.(ss_revision);
     ss_tempo := s.(ss_tempo); ss_markers := markers; ss_tracks := s.(ss_tracks) |}.

Definition with_revision (r : Z) (s : session) : session :=
  {| ss_raw := s.(ss_raw); ss_reader := s.(ss_reader); ss_id := s.(ss_id); ss_revision := r; ss_tempo := s.(ss_tempo);
     ss_markers := s.(ss_markers); ss_tracks := s.(ss_tracks) |}.

(** The same clip elsewhere: start, length, source offset, and fades. *)
Definition placed (start len offset : Z) (f : fades) (c : clip) : clip :=
  {| cl_raw := c.(cl_raw); cl_id := c.(cl_id); cl_start := start; cl_length := len; cl_offset := offset;
     cl_source := c.(cl_source); cl_muted := c.(cl_muted); cl_fades := f |}.

Definition renamed (id : string) (c : clip) : clip :=
  {| cl_raw := c.(cl_raw); cl_id := id; cl_start := c.(cl_start); cl_length := c.(cl_length); cl_offset := c.(cl_offset);
     cl_source := c.(cl_source); cl_muted := c.(cl_muted); cl_fades := c.(cl_fades) |}.

Definition with_span (span : option (Z * Z)) (f : DawSession.fades) : DawSession.fades :=
  {| fd_in := f.(fd_in); fd_out := f.(fd_out); fd_curve := f.(fd_curve); fd_span := span |}.

(** [if "spanFrames" in fades: fades["offsetFrames"] += n]. *)
Definition skip_fades (n : Z) (f : DawSession.fades) : DawSession.fades :=
  with_span (option_map (fun so => (fst so, snd so + n)) f.(fd_span)) f.

Definition clip_before (a b : clip) : bool :=
  if a.(cl_start) =? b.(cl_start) then str_ltb a.(cl_id) b.(cl_id) else a.(cl_start) <? b.(cl_start).

(** The first clip with an identifier: the index of its track, and its own. *)
Fixpoint find_index {A} (p : A -> bool) (l : list A) : option nat :=
  match l with
  | [] => None
  | a :: l => if p a then Some O else option_map S (find_index p l)
  end.

Definition clip_at (id : string) (t : track) : option nat := find_index (fun c => String.eqb c.(cl_id) id) t.(tr_clips).

Fixpoint find_clip (id : string) (tracks : list track) : option (nat * nat) :=
  match tracks with
  | [] => None
  | t :: tracks => match clip_at id t with
                   | Some j => Some (O, j)
                   | None => option_map (fun ij => (S (fst ij), snd ij)) (find_clip id tracks)
                   end
  end.

(** An integer of the operation that is not a boolean. *)
Definition exact_int (v : pyval) (message : string) : res Z :=
  match v with VInt z => Ok z | _ => Raise (ValueError message) end.

Definition snap_message : string := "snapFrames must be an integer from 1 frame through one minute".

Definition read_snap (d : pydict) (message : string) : res Z :=
  snap ← exact_int (dget_or d "snapFrames" (VInt 1)) message;
  _ ← check (negb ((snap <? 1) || (CANONICAL_RATE * 60 <? snap))) message;
  Ok snap.

Definition snapped (frame snap : Z) : Z := ((frame + snap / 2) / snap) * snap.

(** *** The edits of one clip *)

Definition trim_clip (d : pydict) (c : clip) : res clip :=
  a ← int_field d "trimStartFrames" 0; b ← int_field d "trimEndFrames" 0;
  let trim_start := Z.max 0 a in
  let trim_end := Z.max 0 b in
  _ ← check (negb (c.(cl_length) <=? trim_start + trim_end)) "trim removes complete clip";
  Ok (placed (c.(cl_start) + trim_start) (c.(cl_length) - (trim_start + trim_end)) (c.(cl_offset) + trim_start)
        (skip_fades trim_start c.(cl_fades)) c).

(** Both halves keep the fades of the whole, at their own offset. *)
Definition split_clip (d : pydict) (c : clip) : res (clip * clip) :=
  split ← int_field d "splitFrame" 0;
  let relative := split - c.(cl_start) in
  _ ← check (negb ((relative <=? 0) || (c.(cl_length) <=? relative))) "split must fall inside clip";
  let '(span, offset) := default (c.(cl_length), 0) c.(cl_fades).(fd_span) in
  let new_id := slice 128 (text_or d "newClipId" (c.(cl_id) +:+ "-split")) in
  Ok (placed c.(cl_start) relative c.(cl_offset) (with_span (Some (span, offset)) c.(cl_fades)) c,
      renamed new_id (placed split (c.(cl_length) - relative) (c.(cl_offset) + relative)
                        (with_span (Some (span, offset + relative)) c.(cl_fades)) c)).

Definition fade_clip (d : pydict) (c : clip) : res clip :=
  a ← int_field d "fadeInFrames" 0; b ← int_field d "fadeOutFrames" 0;
  _ ← check (negb (c.(cl_length) <? Z.max 0 a + Z.max 0 b)) "combined fades exceed clip length";
  Ok (placed c.(cl_start) c.(cl_length) c.(cl_offset)
        {| fd_in := Z.max 0 a; fd_out := Z.max 0 b; fd_curve := text_or d "curve" "equal-power"; fd_span := None |} c).

Definition resize_clip (d : pydict) (c : clip) : res clip :=
  let message := "resize boundaries must be JSON integers" in
  a ← exact_int (dget_none d "startFrame") message; b ← exact_int (dget_none d "endFrame") message;
  snap ← read_snap d snap_message;
  let start := snapped a snap in
  let end_ := snapped b snap in
  _ ← check (negb ((start <? c.(cl_start)) || (c.(cl_start) + c.(cl_length) <? end_) || (end_ <=? start)))
        "resize may trim within the current clip only";
  let n := start - c.(cl_start) in
  Ok (placed start (end_ - start) (c.(cl_offset) + n) (skip_fades n c.(cl_fades)) c).

(** The clip in its place among the tracks. *)
Definition edit_at (i j : nat) (f : clip -> res (list clip)) (tracks : list track) : res (list track) :=
  match tracks !! i with
  | Some t =>
      match t.(tr_clips) !! j with
      | Some c => new ← f c; Ok (<[i := with_clips (firstn j t.(tr_clips) ++ new ++ skipn (S j) t.(tr_clips)) t]> tracks)
      | None => Raise (ValueError "clip not found")
      end
  | None => Raise (ValueError "clip not found")
  end.

Definition one (m : res clip) : res (list clip) := c ← m; Ok [c].

(** The kinds of track a source may lie on. *)
Definition fits (source_type : pyval) (kind : string) : bool :=
  negb (py_eq source_type (VStr "audio-file") && negb (has_id ["audio"; "aux"] kind)
        || py_eq source_type (VStr "midi-sequence") && negb (String.eqb kind "midi")).

Definition sort_clips (t : track) : track := with_clips (sort_lt clip_before t.(tr_clips)) t.

Definition remove_at {A} (j : nat) (l : list A) : list A := firstn j l ++ skipn (S j) l.

Definition move_clip (d : pydict) (i j : nat) (tracks : list track) : res (list track) :=
  let message := "move startFrame must be a non-negative integer" in
  start ← frame_of (dget_none d "startFrame") message;
  snap ← read_snap d snap_message;
  match tracks !! i with
  | Some t =>
      match t.(tr_clips) !! j with
      | Some c =>
          let target_id := text_or d "targetTrackId" t.(tr_id) in
          match find_index (fun t => String.eqb t.(tr_id) target_id) tracks with
          | None => Raise (ValueError "target track not found")
          | Some k =>
              let target := default t (tracks !! k) in
              _ ← check (fits (dget_none c.(cl_source) "type") target.(tr_kind)) "clip source is incompatible with target track";
              let c := placed (snapped start snap) c.(cl_length) c.(cl_offset) c.(cl_fades) c in
              if Nat.eqb k i then Ok (<[i := sort_clips (with_clips (<[j := c]> t.(tr_clips)) t)]> tracks)
              else Ok (<[k := sort_clips (with_clips (target.(tr_clips) ++ [c]) target)]>
                         (<[i := with_clips (remove_at j t.(tr_clips)) t]> tracks))
          end
      | None => Raise (ValueError "clip not found")
      end
  | None => Raise (ValueError "clip not found")
  end.

Definition resized (d : pydict) (i j : nat) (kind : string) : option (list track -> res (list track)) :=
  if String.eqb kind "trim" then Some (edit_at i j (fun c => one (trim_clip d c)))
  else if String.eqb kind "split" then
    Some (edit_at i j (fun c => halves ← split_clip d c; Ok [fst halves; snd halves]))
  else if String.eqb kind "fade" then Some (edit_at i j (fun c => one (fade_clip d c)))
  else if String.eqb kind "move" then Some (move_clip d i j)
  else if String.eqb kind "resize" then Some (edit_at i j (fun c => one (resize_clip d c)))
  else None.

(** *** The edit of several clips *)

Definition group_ids (v : pyval) : res (list string) :=
  let message := "moveMany requires 2 through 256 clip ids" in
  let id_of v := match v with VStr s => if String.eqb s "" then None else Some s | _ => None end in
  match v with
  | VList l =>
      let ids := omap id_of l in
      if negb ((2 <=? Z.of_nat (length l)) && (Z.of_nat (length l) <=? 256) && Nat.eqb (length ids) (length l)) then
        Raise (ValueError message)
      else if bool_decide (NoDup ids) then Ok ids
      else Raise (ValueError "moveMany clip ids must be unique")
  | _ => Raise (ValueError message)
  end.

(** The least of the clips, the first of those that tie. *)
Definition anchor_of (c : clip) (l : list clip) : clip :=
  fold_left (fun best c => if clip_before c best then c else best) l c.

Definition moved_by (n : Z) (c : clip) : clip := placed (c.(cl_start) + n) c.(cl_length) c.(cl_offset) c.(cl_fades) c.

Definition _move_many (d : pydict) (tracks : list track) : res (list track) :=
  ids ← group_ids (dget_none d "clipIds");
  let message := "deltaFrames must be an integer within one hour" in
  delta ← exact_int (dget_none d "deltaFrames") message;
  _ ← check (Z.abs delta <=? CANONICAL_RATE * 60 * 60) message;
  snap ← read_snap d snap_message;
  let clips := filter (fun c => has_id ids c.(cl_id)) (all_clips tracks) in
  _ ← check (Nat.eqb (length clips) (length ids)) "group clip not found";
  match clips with
  | [] => Raise (ValueError "min() arg is an empty sequence")
  | c :: rest =>
      let anchor := anchor_of c rest in
      let applied := snapped (anchor.(cl_start) + delta) snap - anchor.(cl_start) in
      _ ← check (forallb (fun c => 0 <=? c.(cl_start) + applied) clips) "group move would cross timeline start";
      let shift c := if has_id ids c.(cl_id) then moved_by applied c else c in
      Ok (map (fun t => sort_clips (with_clips (map shift t.(tr_clips)) t)) tracks)
  end.

(** ** The operations *)

(** What is written as text is read back from it. *)
Definition _commit_edit (f : fates) (before after : session) : op session :=
  let* s := st_get in
  let '(undo, _) := _history s in
  let history := (last_of 100 (undo ++ [session_dict before]), []) in
  let* saved := save f (session_dict (with_revision (before.(ss_revision) + 1) after)) in
  _write_history f history ;;;
  st_ret saved.

Definition expect_revision (d : pydict) (what : string) (s : session) : res unit :=
  let message := what +:+ " expected revision " +:+ dec s.(ss_revision) in
  z ← exact_int (dget_none d "expectedRevision") message;
  check (z =? s.(ss_revision)) message.

(** The edited tracks. *)
Definition edit_tracks (d : pydict) (tracks : list track) : res (list track) :=
  let kind := text_or d "op" "" in
  if String.eqb kind "moveMany" then _move_many d tracks
  else
    match find_clip (text_or d "clipId" "") tracks with
    | None => Raise (ValueError "clip not found")
    | Some (i, j) => match resized d i j kind with
                     | Some change => change tracks
                     | None => Raise (ValueError "unsupported DAW edit")
                     end
    end.

Definition edit (f : fates) (d : pydict) : op session :=
  let* before := load_session in
  st_lift (expect_revision d "DAW edit" before) ;;;
  let* tracks := st_lift (edit_tracks d before.(ss_tracks)) in
  _commit_edit f before (with_tracks tracks before).

(** *** Markers *)

Definition moved_marker (frame : Z) (m : marker) : marker :=
  {| mk_raw := m.(mk_raw); mk_id := m.(mk_id); mk_frame := frame; mk_name := m.(mk_name); mk_kind := m.(mk_kind) |}.

Definition add_marker (d : pydict) (id : string) (found : option nat) (markers : list marker) : res (list marker) :=
  let taken := match found with Some _ => true | None => false end in
  _ ← check (negb (String.eqb id "" || taken || (1024 <=? Z.of_nat (length markers)))) "marker id must be unique and capacity available";
  let kind := text_or d "kind" "note" in
  frame ← frame_of (dget_none d "frame") "marker frame must be a non-negative integer";
  _ ← check (has_id marker_kinds kind) "unsupported marker kind";
  Ok (markers ++ [{| mk_raw := []; mk_id := id; mk_frame := frame; mk_name := marker_name d id; mk_kind := kind |}]).

Definition move_marker (d : pydict) (found : option nat) (markers : list marker) : res (list marker) :=
  match found with
  | None => Raise (ValueError "marker not found")
  | Some i =>
      let message := "marker move frame and snapFrames are invalid" in
      frame ← frame_of (dget_none d "frame") message;
      snap ← read_snap d message;
      Ok (alter (moved_marker (snapped frame snap)) i markers)
  end.

Definition edit_markers (d : pydict) (markers : list marker) : res (list marker) :=
  let action := text_or d "action" "" in
  let id := token d "markerId" in
  let found := find_index (fun m => String.eqb m.(mk_id) id) markers in
  markers ←
    (if String.eqb action "add" then add_marker d id found markers
     else if String.eqb action "move" then move_marker d found markers
     else if String.eqb action "delete" then
       match found with None => Raise (ValueError "marker not found") | Some i => Ok (remove_at i markers) end
     else Raise (ValueError "unsupported marker action"));
  Ok (sort_lt marker_before markers).

Definition marker_edit (f : fates) (d : pydict) : op session :=
  let* before := load_session in
  st_lift (expect_revision d "marker edit" before) ;;;
  let* markers := st_lift (edit_markers d before.(ss_markers)) in
  _commit_edit f before (with_markers markers before).

(** *** Automation *)

Definition upsert_point (d : pydict) (id : string) (found : option nat) (points : list point) : res (list point) :=
  let message := "invalid volume automation point" in
  _ ← check (negb (String.eqb id "") && String.eqb (text_or d "parameter" "volume") "volume") message;
  frame ← frame_of (dget_none d "frame") message;
  value ← volume (dget_none d "value");
  _ ← check (negb (existsb (fun p => (p.(pt_frame) =? frame) && negb (String.eqb p.(pt_id) id)) points))
        "automation position already has a point";
  let p := {| pt_raw := []; pt_id := id; pt_frame := frame; pt_value := value |} in
  match found with
  | None => _ ← check (Z.of_nat (length points) <? 4096) "automation point capacity reached"; Ok (points ++ [p])
  | Some i => Ok (<[i := p]> points)
  end.

Definition edit_points (d : pydict) (points : list point) : res (list point) :=
  let action := text_or d "action" "" in
  let id := token d "pointId" in
  let found := find_index (fun p => String.eqb p.(pt_id) id) points in
  points ←
    (if String.eqb action "upsert" then upsert_point d id found points
     else if String.eqb action "delete" then
       match found with None => Raise (ValueError "automation point not found") | Some i => Ok (remove_at i points) end
     else Raise (ValueError "unsupported automation action"));
  Ok (sort_lt point_before points).

Definition automate (d : pydict) (tracks : list track) : res (list track) :=
  let track_id := text_or d "trackId" "" in
  match find_index (fun t => String.eqb t.(tr_id) track_id) tracks with
  | None => Raise (ValueError "automation track not found")
  | Some i =>
      match tracks !! i with
      | None => Raise (ValueError "automation track not found")
      | Some t => points ← edit_points d t.(tr_automation); Ok (<[i := with_points points t]> tracks)
      end
  end.

Definition automation_edit (f : fates) (d : pydict) : op session :=
  let* before := load_session in
  st_lift (expect_revision d "automation edit" before) ;;;
  let* tracks := st_lift (automate d before.(ss_tracks)) in
  _commit_edit f before (with_tracks tracks before).

(** *** Undo and redo *)

(** The last session of one list goes back to the file, and the current one goes to the other list. *)
Definition _restore (undoing : bool) (f : fates) : op session :=
  let* s := st_get in
  let '(undone, redone) := _history s in
  let source := if undoing then undone else redone in
  let target := if undoing then redone else undone in
  match last source with
  | None => st_raise (ValueError ("nothing to " +:+ (if undoing then "undo" else "redo")))
  | Some restored =>
      let* current := load_session in
      let source := removelast source in
      let target := target ++ [session_dict current] in
      let* saved := save f (dset restored "revision" (VInt (current.(ss_revision) + 1))) in
      _write_history f (if undoing then (source, target) else (target, source)) ;;;
      st_ret saved
  end.

Definition undo : fates -> op session := _restore true.
Definition redo : fates -> op session := _restore false.
