(* ===== verification/DawFacts.v ===== *)
(** * What every normalized DAW session satisfies (backend/daw_session.py)

    The well-formedness that [normalize_session] gives, whatever it is given; the
    data types of the documents; and normalization of a document that was
    normalized before. *)

From S2P Require Import Prelude PyStr PyFloat PyVal PyFacts Sha256 JsonText ClusterSecrets Adaptation DawSession DawStore.
From Stdlib Require Import SpecFloat Sorted.

#[local] Open Scope string_scope.
#[local] Open Scope list_scope.
#[local] Open Scope Z_scope.
#[local] Open Scope st_scope.

(** ** Sorting and collecting *)

(** Sorting a sorted list changes nothing. *)
Lemma sort_lt_id {A} (lt : A -> A -> bool) l : ordered_by lt l -> sort_lt lt l = l.
Proof.
  assert (forall r, ordered_by lt (rev r) -> fold_right (insert_lt lt) [] r = rev r) as H.
  { induction r as [|x r IH]; cbn; [done|]. intros [H1 H2]%sorted_snoc. rewrite IH by done. by apply insert_lt_last. }
  intros Hl. unfold sort_lt. rewrite H; by rewrite rev_involutive.
Qed.

Lemma sort_lt_map {A B} (la : A -> A -> bool) (lb : B -> B -> bool) (g : A -> B) l :
  (forall a b, lb (g a) (g b) = la a b) -> sort_lt lb (map g l) = map g (sort_lt la l).
Proof.
  intros H. unfold sort_lt. rewrite <- map_rev.
  assert (forall x m, insert_lt lb (g x) (map g m) = map g (insert_lt la x m)) as Hi.
  { intros x m. induction m as [|y m IH]; cbn; [done|]. rewrite H. destruct (la x y); cbn; by rewrite ?IH. }
  induction (rev l) as [|x r IH]; cbn; [done|]. by rewrite IH, Hi.
Qed.

(** The lexicographic order of two keys, as the sessions sort. *)
Definition key_lt {A} (frame : A -> Z) (id : A -> string) (a b : A) : bool :=
  if frame a =? frame b then str_ltb (id a) (id b) else frame a <? frame b.

Section key_order.
Context {A : Type} (frame : A -> Z) (id : A -> string).

Lemma key_lt_irrefl a : key_lt frame id a a = false.
Proof. unfold key_lt. rewrite Z.eqb_refl. apply str_ltb_irrefl. Qed.

Lemma key_lt_trans a b c : key_lt frame id a b = true -> key_lt frame id b c = true -> key_lt frame id a c = true.
Proof.
  unfold key_lt. destruct (Z.eqb_spec (frame a) (frame b)), (Z.eqb_spec (frame b) (frame c)), (Z.eqb_spec (frame a) (frame c));
    intros; pyinv; try apply Z.ltb_lt; try lia. by eapply str_ltb_trans.
Qed.

Lemma key_sorted l : ordered_by (key_lt frame id) (sort_lt (key_lt frame id) l).
Proof using Type. apply sort_lt_ordered_by; [apply key_lt_irrefl|apply key_lt_trans]. Qed.
End key_order.

(** Reading a list element by element, each against what was read before it. *)
Lemma collect_map {A B C} (f : list B -> A -> res B) (h : C -> A) (g : C -> B) l :
  (forall pre x post, l = pre ++ x :: post -> f (map g pre) (h x) = Ok (g x)) ->
  fold_res (fun acc a => b ← f acc a; Ok (acc ++ [b])) (map h l) [] = Ok (map g l).
Proof.
  intros H. assert (forall post pre, l = pre ++ post ->
    fold_res (fun acc a => b ← f acc a; Ok (acc ++ [b])) (map h post) (map g pre) = Ok (map g (pre ++ post))) as Hp.
  { induction post as [|x post IH]; intros pre Hl; cbn; [by rewrite app_nil_r|].
    rewrite (H pre x post Hl). cbn. specialize (IH (pre ++ [x])). rewrite map_app in IH. cbn in IH.
    rewrite IH by (by rewrite Hl, <- app_assoc). by rewrite <- app_assoc. }
  by apply (Hp l []).
Qed.

(** The same without knowing that it succeeds. *)
Lemma collect_only {A B C} (f : list B -> A -> res B) (h : C -> A) (g : C -> B) (P : C -> Prop) l l' :
  (forall acc x b, P x -> f acc (h x) = Ok b -> b = g x) -> Forall P l ->
  fold_res (fun acc a => b ← f acc a; Ok (acc ++ [b])) (map h l) [] = Ok l' -> l' = map g l.
Proof.
  intros H Hl. assert (forall l acc, Forall P l ->
    fold_res (fun acc a => b ← f acc a; Ok (acc ++ [b])) (map h l) acc = Ok l' -> l' = acc ++ map g l) as Hp.
  { clear l Hl. induction l as [|x l IH]; intros acc Hl; cbn; intros E; [injection E as <-; by rewrite app_nil_r|].
    inversion Hl as [|? ? Hx Hr]; subst. destruct (f acc (h x)) as [b|] eqn:Eb; [|done]. cbn in E.
    rewrite (H _ _ _ Hx Eb) in E. rewrite (IH _ Hr E). by rewrite <- app_assoc. }
  intros E. by apply (Hp l []).
Qed.

Lemma collect_length {A B} (f : list B -> A -> res B) raws acc l :
  fold_res (fun acc a => b ← f acc a; Ok (acc ++ [b])) raws acc = Ok l -> length l = (length acc + length raws)%nat.
Proof.
  revert acc. induction raws as [|r raws IH]; intros acc H; cbn in *; [injection H as <-; lia|].
  destruct (f acc r); [|done]. cbn in H. apply IH in H. rewrite H, length_app. cbn. lia.
Qed.

Lemma NoDup_snoc {A} (l : list A) x : NoDup (l ++ [x]) <-> NoDup l /\ x ∉ l.
Proof.
  rewrite NoDup_app. split; [intros (Hl & Hx & _); split; [done|]; intros Hin; apply (Hx x Hin); left|].
  intros [Hl Hx]. repeat split; [done| |apply NoDup_singleton]. by intros y Hy ->%list_elem_of_singleton.
Qed.

Lemma has_id_elem l x : has_id l x = true <-> x ∈ l.
Proof.
  unfold has_id. rewrite existsb_exists. split; [intros (y & Hy & ->%String.eqb_eq); by apply list_elem_of_In|].
  intros H. exists x. split; [by apply list_elem_of_In|apply str_eqb_refl].
Qed.

Lemma has_id_false l x : has_id l x = false <-> x ∉ l.
Proof. rewrite <- has_id_elem. by destruct (has_id l x). Qed.

Lemma check_ok b m u : check b m = Ok u <-> b = true.
Proof. unfold check, guard_res. destruct u, b; split; done. Qed.

(** ** Well-formed sessions *)

Record fades_ok (length : Z) (f : DawSession.fades) : Prop := {
  fo_in : 0 <= f.(fd_in);
  fo_out : 0 <= f.(fd_out);
  fo_curve : f.(fd_curve) ∈ ["linear"; "equal-power"];
  fo_span : match f.(fd_span) with
            | None => f.(fd_in) + f.(fd_out) <= length
            | Some (span, offset) => f.(fd_in) + f.(fd_out) <= span /\ 0 <= offset /\ offset + length <= span
            end;
}.

Record clip_ok (c : clip) : Prop := {
  co_id : c.(cl_id) <> "";
  co_start : 0 <= c.(cl_start);
  co_length : 1 <= c.(cl_length);
  co_offset : 0 <= c.(cl_offset);
  co_source : exists kind, dget c.(cl_source) "type" = Some (VStr kind) /\ kind ∈ ["audio-file"; "midi-sequence"; "generator"];
  co_fades : fades_ok c.(cl_length) c.(cl_fades);
}.

Record point_ok (p : point) : Prop := {
  po_id : p.(pt_id) <> "";
  po_short : slice 128 p.(pt_id) = p.(pt_id);
  po_frame : 0 <= p.(pt_frame);
  po_value : within (float_of_Z 0) (float_of_Z 2) p.(pt_value);
}.

Record track_ok (t : track) : Prop := {
  to_id : t.(tr_id) <> "";
  to_kind : t.(tr_kind) ∈ ["audio"; "midi"; "aux"; "master"];
  to_gain : exists x, t.(tr_gain) = fmax (float_of_Z 0) (fmin (float_of_Z 4) x);
  to_pan : exists x, t.(tr_pan) = fmax (float_of_Z (-1)) (fmin (float_of_Z 1) x);
  to_name : slice 128 t.(tr_name) = t.(tr_name);
  to_bus : slice 128 t.(tr_bus) = t.(tr_bus);
  to_sends : (length t.(tr_sends) <= 32)%nat;
  to_points : Forall point_ok t.(tr_automation) /\ Z.of_nat (length t.(tr_automation)) <= 4096;
  to_point_ids : NoDup (map pt_id t.(tr_automation));
  to_frames : NoDup (map pt_frame t.(tr_automation));
  to_sorted : ordered_by point_before t.(tr_automation);
  to_clips : Forall clip_ok t.(tr_clips);
}.

Record marker_ok (m : marker) : Prop := {
  mo_id : m.(mk_id) <> "";
  mo_frame : 0 <= m.(mk_frame);
  mo_kind : m.(mk_kind) ∈ marker_kinds;
}.

(** The tracks of a session, also of one that is still being read. *)
Record tracks_ok (tracks : list track) : Prop := {
  ts_each : Forall track_ok tracks;
  ts_ids : NoDup (map tr_id tracks);
  ts_clip_ids : NoDup (ids_of (all_clips tracks));
  ts_clips : Z.of_nat (length (all_clips tracks)) <= MAX_CLIPS;
}.

Record session_ok (s : session) : Prop := {
  so_tracks : tracks_ok s.(ss_tracks);
  so_count : Z.of_nat (length s.(ss_tracks)) <= MAX_TRACKS;
  so_id : slice 128 s.(ss_id) = s.(ss_id);
  so_revision : 0 <= s.(ss_revision);
  so_tempo : s.(ss_tempo) <> [] /\ (length s.(ss_tempo) <= 1024)%nat;
  so_markers : Forall marker_ok s.(ss_markers) /\ Z.of_nat (length s.(ss_markers)) <= 1024;
  so_marker_ids : NoDup (map mk_id s.(ss_markers));
  so_sorted : ordered_by marker_before s.(ss_markers);
}.

(** ** Normalization gives a well-formed session *)

Lemma slice_slice n s : slice n (slice n s) = slice n s.
Proof. unfold slice. by rewrite chars_of_chars, firstn_firstn, Nat.min_id. Qed.

Lemma in_set_known v allowed : in_set v allowed = Ok true -> exists s, v = VStr s /\ s ∈ allowed.
Proof. destruct v; cbn; intros H; try done. injection H as H. eexists; split; [done|]. by apply has_id_elem. Qed.

Lemma py_int_default z : py_int (VInt z) = Ok z.
Proof. done. Qed.

Lemma read_fades_ok f len r : read_fades f len = Ok r -> fades_ok len r.
Proof.
  unfold read_fades. intros H. repeat (apply bind_ok in H; destruct H as (? & ? & H)).
  repeat match goal with E : check _ _ = Ok _ |- _ => apply check_ok in E end. subst.
  match goal with E : in_set _ _ = Ok true |- _ => apply in_set_known in E as (curve & Hc & Hin) end.
  pyinv. subst r.
  assert (Hcurve : text_or f "curve" "equal-power" = curve) by (unfold text_or; by rewrite Hc).
  split; cbn [fd_in fd_out fd_curve fd_span]; [lia|lia|by rewrite Hcurve|].
  destruct (dhas f "spanFrames") eqn:E1; cbn [orb]; [lia|]. destruct (dhas f "offsetFrames") eqn:E2; cbn [orb]; [lia|].
  unfold int_field, dhas, dget_or in *. destruct (dget f "spanFrames"); [done|]. rewrite py_int_default in *. pyinv. lia.
Qed.

Lemma read_clip_ok seen raw c :
  read_clip seen raw = Ok c -> clip_ok c /\ (c.(cl_id) ∉ seen) /\ Z.of_nat (length seen) < MAX_CLIPS.
Proof.
  unfold read_clip. intros H. repeat (apply bind_ok in H; destruct H as (? & ? & H)).
  repeat match goal with E : check _ _ = Ok _ |- _ => apply check_ok in E end. subst.
  match goal with E : in_set _ _ = Ok true |- _ => apply in_set_known in E as (kind & Hk & Hin) end.
  match goal with E : read_fades _ _ = Ok _ |- _ => apply read_fades_ok in E end.
  pyinv. subst c. rewrite <- has_id_false. split; [|done]. split; cbn; [done|lia|lia|lia| |done].
  exists kind. split; [|done]. unfold dget_none, dget_or in Hk. destruct (dget _ _); [by subst|done].
Qed.

Lemma read_clips_ok seen raws l : NoDup seen -> Z.of_nat (length seen) <= MAX_CLIPS -> read_clips seen raws = Ok l ->
  Forall clip_ok l /\ NoDup (seen ++ ids_of l) /\ Z.of_nat (length (seen ++ ids_of l)) <= MAX_CLIPS.
Proof.
  intros Hn Hc. unfold read_clips. apply (fold_res_inv (fun l =>
    Forall clip_ok l /\ NoDup (seen ++ ids_of l) /\ Z.of_nat (length (seen ++ ids_of l)) <= MAX_CLIPS)).
  - intros acc raw acc' (H1 & H2 & H3) H. apply bind_ok in H as (c & Hr & [= <-]).
    apply read_clip_ok in Hr as (Hok & Hid & Hlen). unfold ids_of in *. rewrite map_app, app_assoc. cbn. split.
    + apply Forall_app. by split; [|constructor].
    + split; [by apply NoDup_snoc|]. rewrite length_app. cbn. lia.
  - rewrite app_nil_r. by split; [constructor|].
Qed.

Lemma volume_ok v x : volume v = Ok x -> within (float_of_Z 0) (float_of_Z 2) x.
Proof.
  unfold volume. destruct v as [| |z|y| | |]; try done; intros H.
  - apply bind_ok in H as (y & Hf & H). destruct (_ && _) eqn:E; [|done]. injection H as <-. pyinv.
    assert (z = 0 \/ z = 1 \/ z = 2) as [->|[->| ->]] by lia; injection Hf as <-; by split.
  - destruct (_ && _) eqn:E; [|done]. injection H as <-. pyinv. by split.
Qed.

Lemma frame_of_ok v m z : frame_of v m = Ok z <-> v = VInt z /\ 0 <= z.
Proof.
  unfold frame_of. destruct v as [| |y| | | |]; split; try done; try (intros [H ?]; done).
  - destruct (y <? 0) eqn:E; [done|]. intros [= ->]. split; [done|lia].
  - intros [[= ->] H]. by destruct (z <? 0) eqn:E; [lia|].
Qed.

Lemma free_position id frame seen :
  existsb (fun p => String.eqb p.(pt_id) id || (p.(pt_frame) =? frame)) seen = false ->
  (id ∉ map pt_id seen) /\ (frame ∉ map pt_frame seen).
Proof.
  rewrite <- not_true_iff_false, existsb_exists. intros Hs.
  split; intros (q & -> & Hin)%list_elem_of_fmap; apply Hs; exists q; (split; [by apply list_elem_of_In|]).
  - by rewrite str_eqb_refl.
  - rewrite Z.eqb_refl. apply orb_true_r.
Qed.

Lemma read_point_ok seen raw p : read_point seen raw = Ok p ->
  point_ok p /\ (p.(pt_id) ∉ map pt_id seen) /\ (p.(pt_frame) ∉ map pt_frame seen).
Proof.
  unfold read_point. destruct raw; try done. intros H. repeat (apply bind_ok in H; destruct H as (? & ? & H)).
  repeat match goal with E : check _ _ = Ok _ |- _ => apply check_ok in E end.
  repeat match goal with E : frame_of _ _ = Ok _ |- _ => apply frame_of_ok in E as [? ?] end.
  repeat match goal with E : volume _ = Ok _ |- _ => apply volume_ok in E end. pyinv. subst p. cbn.
  split; [split; cbn; [done|apply slice_slice|done|done]|]. by apply free_position.
Qed.

Lemma read_points_ok raws l : read_points raws = Ok l ->
  Forall point_ok l /\ NoDup (map pt_id l) /\ NoDup (map pt_frame l) /\ ordered_by point_before l /\ length l = length raws.
Proof.
  unfold read_points. intros H. apply bind_ok in H as (l0 & H & Hl). injection Hl as <-.
  apply collect_length in H as Hl0.
  assert (Forall point_ok l0 /\ NoDup (map pt_id l0) /\ NoDup (map pt_frame l0)) as (H1 & H2 & H3).
  { revert H. apply (fold_res_inv (fun l => Forall point_ok l /\ NoDup (map pt_id l) /\ NoDup (map pt_frame l)));
      [|by repeat constructor].
    intros acc raw acc' (H1 & H2 & H3) H. apply bind_ok in H as (p & Hr & [= <-]).
    apply read_point_ok in Hr as (Hok & Hid & Hf). rewrite !map_app. cbn. split; [|by split; apply NoDup_snoc].
    apply Forall_app. by split; [|constructor]. }
  pose proof (sort_lt_Permutation point_before l0) as Hp. repeat split.
  - by rewrite Hp.
  - by rewrite (Permutation_map pt_id Hp).
  - by rewrite (Permutation_map pt_frame Hp).
  - apply (key_sorted pt_frame pt_id).
  - by rewrite (Permutation_length Hp).
Qed.

Lemma bounded_list_ok v n m l : bounded_list v n m = Ok l <-> v = VList l /\ Z.of_nat (length l) <= n.
Proof.
  unfold bounded_list. destruct v as [| | | | |xs|]; split; try done; try (intros [H ?]; done).
  - destruct (n <? _) eqn:E; [done|]. intros [= ->]. split; [done|lia].
  - intros [[= ->] H]. by destruct (n <? _) eqn:E; [lia|].
Qed.

Lemma level_field_ok d k a lo hi x : level_field d k a lo hi = Ok x ->
  exists y, x = fmax (float_of_Z lo) (fmin (float_of_Z hi) y).
Proof. unfold level_field. intros H. apply bind_ok in H as (y & _ & [= <-]). by exists y. Qed.

Lemma read_track_ok tracks raw t : tracks_ok tracks -> read_track tracks raw = Ok t -> tracks_ok (tracks ++ [t]).
Proof.
  intros [H1 H2 H3 H4]. unfold read_track. intros H. repeat (apply bind_ok in H; destruct H as (? & ? & H)).
  repeat match goal with E : check _ _ = Ok _ |- _ => apply check_ok in E end.
  repeat match goal with E : level_field _ _ _ _ _ = Ok _ |- _ => apply level_field_ok in E end.
  match goal with E : bounded_list _ _ _ = Ok _ |- _ => apply bounded_list_ok in E as [_ Hb] end.
  match goal with E : read_clips _ _ = Ok _ |- _ => apply read_clips_ok in E as (Hclips & Hids & Hlen); [|done|] end;
    [|unfold ids_of; by rewrite length_map].
  match goal with E : read_points _ = Ok _ |- _ => apply read_points_ok in E as (Hp & Hpi & Hpf & Hs & Hpl) end.
  injection H as <-. pyinv. unfold ids_of, all_clips in *. rewrite length_app, !length_map in Hlen.
  split; unfold ids_of, all_clips; rewrite ?map_app, ?concat_app; cbn; rewrite ?app_nil_r, ?map_app, ?length_app.
  - apply Forall_app. split; [done|]. constructor; [|constructor]. split; cbn; try done; try apply slice_slice.
    + by apply has_id_elem.
    + apply firstn_le_length.
    + split; [done|]. by rewrite Hpl.
  - apply NoDup_snoc. split; [done|]. by apply has_id_false.
  - done.
  - lia.
Qed.

Lemma read_tracks_ok raws tracks : read_tracks raws = Ok tracks -> tracks_ok tracks /\ length tracks = length raws.
Proof.
  intros H. split; [|by apply collect_length in H]. revert H. apply (fold_res_inv tracks_ok).
  - intros acc raw acc' Hacc H. apply bind_ok in H as (t & Ht & [= <-]). by eapply read_track_ok.
  - by repeat constructor.
Qed.

Lemma read_marker_ok seen raw m : read_marker seen raw = Ok m -> marker_ok m /\ (m.(mk_id) ∉ map mk_id seen).
Proof.
  unfold read_marker. destruct raw; try done. intros H. repeat (apply bind_ok in H; destruct H as (? & ? & H)).
  repeat match goal with E : check _ _ = Ok _ |- _ => apply check_ok in E end.
  repeat match goal with E : frame_of _ _ = Ok _ |- _ => apply frame_of_ok in E as [? ?] end. pyinv. subst m. cbn.
  split; [|by apply has_id_false]. split; cbn; [done|done|by apply has_id_elem].
Qed.

Lemma read_markers_ok raws l : read_markers raws = Ok l ->
  Forall marker_ok l /\ NoDup (map mk_id l) /\ ordered_by marker_before l /\ length l = length raws.
Proof.
  unfold read_markers. intros H. apply bind_ok in H as (l0 & H & Hl). injection Hl as <-. apply collect_length in H as Hl0.
  assert (Forall marker_ok l0 /\ NoDup (map mk_id l0)) as (H1 & H2).
  { revert H. apply (fold_res_inv (fun l => Forall marker_ok l /\ NoDup (map mk_id l))); [|by repeat constructor].
    intros acc raw acc' (H1 & H2) H. apply bind_ok in H as (m & Hr & [= <-]). apply read_marker_ok in Hr as (Hok & Hid).
    rewrite !map_app. cbn. split; [|by apply NoDup_snoc]. apply Forall_app. by split; [|constructor]. }
  pose proof (sort_lt_Permutation marker_before l0) as Hp. repeat split.
  - by rewrite Hp.
  - by rewrite (Permutation_map mk_id Hp).
  - apply (key_sorted mk_frame mk_id).
  - by rewrite (Permutation_length Hp).
Qed.

(** A true value has something to iterate over. *)
Lemma truthy_iter v l : truthy v = true -> py_iter v = Ok l -> l <> [].
Proof.
  destruct v as [| | | |s|xs|d]; cbn; try done; intros Ht [= <-].
  - destruct s; [done|]. cbn. discriminate.
  - by destruct xs.
  - by destruct d.
Qed.

Lemma normalize_session_ok value s : normalize_session value = Ok s -> session_ok s.
Proof.
  unfold normalize_session. intros H. repeat (apply bind_ok in H; destruct H as (? & ? & H)).
  repeat match goal with E : bounded_list _ _ _ = Ok _ |- _ => apply bounded_list_ok in E as [_ E] end.
  match goal with E : read_tracks _ = Ok _ |- _ => apply read_tracks_ok in E as [? El] end.
  match goal with E : read_markers _ = Ok _ |- _ => apply read_markers_ok in E as (? & ? & ? & Em) end.
  match goal with E : py_iter _ = Ok _ |- _ => apply truthy_iter in E; [|unfold py_or; by destruct (truthy (dget_none _ _)) eqn:?] end.
  injection H as <-. split; cbn; try done; try lia.
  - apply slice_slice.
  - split; [|apply firstn_le_length]. match goal with E : ?l <> [] |- _ => by destruct l end.
  - split; [done|]. by rewrite Em.
Qed.

(** * Normalizing a normalized session again (backend/daw_session.py)

    Every edit saves a document built from a normalized session, every load reads
    one. What normalization then does: it reads each clip, point, track and
    marker as the record it was, up to the identifiers, which are stripped before
    they are cut to 128 characters and so may be stripped once more. What is read is either
    the dict itself or what its text in the session file reads as, with sorted
    keys; the lemmas hold for both, and only use what the two have in common. *)

(** ** Reading a dict back *)

(** Dicts read back by [g], values by [G]: fields keep their names, and scalars their values. *)
Class ReadBack (g : pydict -> pydict) (G : pyval -> pyval) := {
  back_get d k : dget (g d) k = option_map G (dget d k);
  back_dict d : G (VDict d) = VDict (g d);
  back_list l : G (VList l) = VList (map G l);
  back_str s : G (VStr s) = VStr s;
  back_int z : G (VInt z) = VInt z;
  back_bool b : G (VBool b) = VBool b;
  back_float x : G (VFloat x) = VFloat x;
}.

(** In memory. *)
#[export] Instance kept_back : ReadBack (fun d => d) (fun v => v).
Proof. split; try done; [by intros d k; destruct (dget d k)|intros l; by rewrite map_id]. Defined.

(** From the file. *)
Definition from_file (d : pydict) : pydict := as_dict (canon (VDict d)).

Lemma dget_insert_by k v l k' : StronglySorted (in_order fst) l ->
  dget (insert_by fst (k, v) l) k' =
  match dget l k' with Some x => Some x | None => if String.eqb k' k then Some v else None end.
Proof.
  induction 1 as [|[k0 v0] l Hl IH Hx]; cbn; [done|]. destruct (str_ltb k k0) eqn:E; cbn.
  - destruct (String.eqb_spec k' k) as [->|]; [|by destruct (String.eqb k' k0); [|destruct (dget l k')]].
    destruct (String.eqb_spec k k0) as [->|]; [by rewrite str_ltb_irrefl in E|].
    destruct (dget l k) eqn:Ek; [|done]. exfalso. apply dget_Some_In, list_elem_of_In in Ek. rewrite Forall_forall in Hx.
    specialize (Hx _ Ek). unfold in_order in Hx. cbn in Hx. congruence.
  - by destruct (String.eqb k' k0).
Qed.

Lemma dget_app (l m : pydict) k : dget (l ++ m) k = match dget l k with Some x => Some x | None => dget m k end.
Proof. induction l as [|[k0 v0] l IH]; cbn; [done|]. by destruct (String.eqb k k0). Qed.

Lemma dget_sorted (l : pydict) k : dget (sort_by fst l) k = dget l k.
Proof.
  unfold sort_by. assert (forall r, dget (fold_right (insert_by fst) [] r) k = dget (rev r) k) as H.
  { induction r as [|[k0 v0] r IH]; [done|]. cbn [fold_right rev].
    pose proof (sort_by_sorted fst (rev r)) as Hs. unfold sort_by in Hs. rewrite rev_involutive in Hs.
    rewrite dget_insert_by, IH by done. by rewrite dget_app. }
  rewrite H. by rewrite rev_involutive.
Qed.

#[export] Instance file_back : ReadBack from_file canon.
Proof.
  split; try done. intros d k. unfold from_file. cbn [canon as_dict]. rewrite dget_sorted.
  induction d as [|[k0 v0] d IH]; cbn; [done|]. by destruct (String.eqb k k0).
Defined.

(** ** The records read again *)

Section again.
Context (g : pydict -> pydict) (G : pyval -> pyval) {back : ReadBack g G}.

Definition retoken (id : string) : string := slice 128 (strip id).

Definition again_clip (c : clip) : clip :=
  {| cl_raw := g (clip_dict c); cl_id := retoken c.(cl_id); cl_start := c.(cl_start); cl_length := c.(cl_length);
     cl_offset := c.(cl_offset); cl_source := g c.(cl_source); cl_muted := c.(cl_muted); cl_fades := c.(cl_fades) |}.

Definition again_point (p : point) : point :=
  {| pt_raw := g (point_dict p); pt_id := p.(pt_id); pt_frame := p.(pt_frame); pt_value := p.(pt_value) |}.

Definition again_track (t : track) : track :=
  {| tr_raw := g (track_dict t); tr_id := retoken t.(tr_id); tr_kind := t.(tr_kind); tr_name := t.(tr_name); tr_gain := t.(tr_gain);
     tr_pan := t.(tr_pan); tr_muted := t.(tr_muted); tr_solo := t.(tr_solo); tr_bus := t.(tr_bus); tr_sends := map G t.(tr_sends);
     tr_automation := map again_point t.(tr_automation); tr_clips := map again_clip t.(tr_clips) |}.

Definition again_marker (m : marker) : marker :=
  {| mk_raw := g (marker_dict m); mk_id := retoken m.(mk_id); mk_frame := m.(mk_frame);
     mk_name := str_or (retoken m.(mk_name)) (retoken m.(mk_id)); mk_kind := m.(mk_kind) |}.

(** What a clip, and a track with its points, keep from an earlier normalization. *)
Record clip_placed (c : clip) : Prop := {
  cp_start : 0 <= c.(cl_start);
  cp_offset : 0 <= c.(cl_offset);
  cp_in : 0 <= c.(cl_fades).(fd_in);
  cp_out : 0 <= c.(cl_fades).(fd_out);
}.

Record track_settled (t : track) : Prop := {
  sl_gain : exists x, t.(tr_gain) = fmax (float_of_Z 0) (fmin (float_of_Z 4) x);
  sl_pan : exists x, t.(tr_pan) = fmax (float_of_Z (-1)) (fmin (float_of_Z 1) x);
  sl_name : slice 128 t.(tr_name) = t.(tr_name);
  sl_bus : slice 128 t.(tr_bus) = t.(tr_bus);
  sl_sends : (length t.(tr_sends) <= 32)%nat;
  sl_points : Forall point_ok t.(tr_automation);
  sl_sorted : ordered_by point_before t.(tr_automation);
  sl_clips : Forall clip_placed t.(tr_clips);
}.

Lemma clip_ok_placed c : clip_ok c -> clip_placed c.
Proof using Type. intros [? ? ? ? ? [? ? ? ?]]. by split. Qed.

Lemma track_ok_settled t : track_ok t -> track_settled t.
Proof using Type. intros H. split; try apply H. eapply Forall_impl; [apply H|]. apply clip_ok_placed. Qed.

(** ** Reading what was written *)

(** Look up the fields of a written dict. *)
Ltac read_fields dict :=
  unfold token, marker_name, int_field, dict_field, text_or, level_field, dget_none, dget_or, dict;
  rewrite ?(@back_get g G back), ?dmerge_get by nodup_keys; cbn [dget String.eqb Ascii.eqb Bool.eqb py_str py_int py_float mbind res_bind truthy option_map];
  rewrite ?(@back_dict g G back), ?(@back_list g G back), ?(@back_str g G back), ?(@back_int g G back), ?(@back_bool g G back), ?(@back_float g G back);
  cbn [py_str py_int py_float mbind res_bind truthy].

Lemma back_dicts {A} (dict : A -> pydict) l : map G (map (fun a => VDict (dict a)) l) = map (fun a => VDict (g (dict a))) l.
Proof using back. rewrite map_map. apply map_ext. intros a. apply (@back_dict g G back). Qed.


Lemma read_fades_dict f len : read_fades (g (fades_dict f)) len =
  (let '(span, offset) := default (len, 0) f.(fd_span) in
   _ ← check (negb ((span <? len) || (offset <? 0) || (span <? offset + len))) "invalid fade span";
   _ ← check (Z.max 0 f.(fd_in) + Z.max 0 f.(fd_out) <=? span) "combined fades exceed clip length";
   _ ← check (has_id ["linear"; "equal-power"] f.(fd_curve)) "unsupported clip fade curve";
   Ok {| fd_in := Z.max 0 f.(fd_in); fd_out := Z.max 0 f.(fd_out); fd_curve := f.(fd_curve); fd_span := f.(fd_span) |}).
Proof using back.
  unfold read_fades, int_field, text_or, dhas, dget_or. rewrite !(@back_get g G back). unfold fades_dict.
  destruct (fd_span f) as [[span offset]|]; cbn; by rewrite ?(@back_int g G back), ?(@back_str g G back).
Qed.

Lemma fades_eta (f : DawSession.fades) :
  {| fd_in := f.(fd_in); fd_out := f.(fd_out); fd_curve := f.(fd_curve); fd_span := f.(fd_span) |} = f.
Proof using Type. by destruct f. Qed.

Lemma read_fades_again f len r : 0 <= f.(fd_in) -> 0 <= f.(fd_out) -> read_fades (g (fades_dict f)) len = Ok r -> r = f.
Proof using back.
  intros Hi Ho. rewrite read_fades_dict. destruct (default _ _) as [span offset]. intros H.
  repeat (apply bind_ok in H; destruct H as (? & _ & H)). injection H as <-. by rewrite !Z.max_r, fades_eta.
Qed.

Lemma py_dict_or d : py_dict (py_or (VDict d) (VDict [])) = Ok d.
Proof using Type. by destruct d. Qed.

Lemma read_clip_dict seen c : read_clip seen (VDict (g (clip_dict c))) =
  (_ ← check (Z.of_nat (length seen) <? MAX_CLIPS) "session exceeds 4096 clips";
   _ ← check (negb (String.eqb (retoken c.(cl_id)) "" || has_id seen (retoken c.(cl_id)) || (c.(cl_length) <? 1)))
         "clip identity and length must be valid";
   known ← in_set (dget_none (g c.(cl_source)) "type") ["audio-file"; "midi-sequence"; "generator"];
   _ ← check known "clip source type is unsupported";
   fd ← read_fades (g (fades_dict c.(cl_fades))) c.(cl_length);
   Ok {| cl_raw := g (clip_dict c); cl_id := retoken c.(cl_id); cl_start := Z.max 0 c.(cl_start); cl_length := c.(cl_length);
         cl_offset := Z.max 0 c.(cl_offset); cl_source := g c.(cl_source); cl_muted := c.(cl_muted); cl_fades := fd |}).
Proof using back.
  unfold read_clip. destruct (check (Z.of_nat _ <? _) _); [|done]. cbn [mbind res_bind need_dict]. read_fields clip_dict.
  fold (retoken c.(cl_id)). rewrite !py_dict_or. cbn [mbind res_bind]. by rewrite (@back_get g G back).
Qed.

Lemma read_clip_again seen c c' : clip_placed c -> read_clip seen (VDict (g (clip_dict c))) = Ok c' -> c' = again_clip c.
Proof using back.
  intros [Hs Ho Hi Hou]. rewrite read_clip_dict. intros H. repeat (apply bind_ok in H; destruct H as (? & ? & H)).
  match goal with E : read_fades _ _ = Ok _ |- _ => apply read_fades_again in E as ->; [|done|done] end.
  injection H as <-. by rewrite !Z.max_r.
Qed.

(** A clip that is well-formed and whose identifier is trimmed and free reads as itself. *)
Lemma read_clip_accepts seen c : clip_ok c -> retoken c.(cl_id) = c.(cl_id) -> (c.(cl_id) ∉ seen) ->
  Z.of_nat (length seen) < MAX_CLIPS -> read_clip seen (VDict (g (clip_dict c))) = Ok (again_clip c).
Proof using back.
  intros [Hid Hs Hl Ho (kind & Hk & Hkin) [Hi Hou Hc Hspan]] Htok Hseen Hlen. rewrite read_clip_dict, Htok.
  rewrite (proj2 (Z.ltb_lt _ _) Hlen), str_eqb_ne, (proj2 (has_id_false _ _) Hseen) by done.
  assert ((cl_length c <? 1) = false) as -> by lia. cbn [mbind res_bind check guard_res negb orb].
  unfold dget_none, dget_or. rewrite (@back_get g G back), Hk. cbn [option_map]. rewrite (@back_str g G back). cbn [mbind res_bind in_set].
  change (existsb (String.eqb kind) _) with (has_id ["audio-file"; "midi-sequence"; "generator"] kind).
  rewrite (proj2 (has_id_elem _ _) Hkin). cbn [mbind res_bind check guard_res]. rewrite read_fades_dict.
  rewrite (proj2 (has_id_elem _ _) Hc), !Z.max_r by done.
  assert (forall span offset, default (cl_length c, 0) (fd_span (cl_fades c)) = (span, offset) ->
    negb ((span <? cl_length c) || (offset <? 0) || (span <? offset + cl_length c)) = true /\
    (fd_in (cl_fades c) + fd_out (cl_fades c) <=? span) = true) as Hspans.
  { intros span offset. revert Hspan. destruct (fd_span (cl_fades c)) as [[sp o]|]; cbn; intros Hspan [= <- <-]; lia. }
  destruct (default _ _) as [span offset]. destruct (Hspans span offset eq_refl) as [-> ->].
  cbn [mbind res_bind check guard_res]. unfold again_clip. by rewrite Htok, fades_eta.
Qed.

Lemma volume_float x : volume (VFloat x) = if fle (float_of_Z 0) x && fle x (float_of_Z 2) then Ok x
  else Raise (ValueError "invalid volume automation point").
Proof using Type. done. Qed.

Lemma read_point_dict seen p : point_ok p -> read_point seen (VDict (g (point_dict p))) =
  (_ ← check (negb (String.eqb p.(pt_id) "" || existsb (fun q => String.eqb q.(pt_id) p.(pt_id) || (q.(pt_frame) =? p.(pt_frame))) seen))
         "automation point ids and positions must be unique";
   Ok (again_point p)).
Proof using back.
  intros [Hid Hsh Hf [Hv1 Hv2]]. unfold read_point. read_fields point_dict.
  assert (slice 128 (pt_id p) = pt_id p) as -> by done. rewrite volume_float, Hv1, Hv2.
  unfold frame_of. by rewrite (proj2 (Z.ltb_ge _ _) Hf).
Qed.

Lemma read_points_again l l' : Forall point_ok l -> ordered_by point_before l ->
  read_points (map (fun p => VDict (g (point_dict p))) l) = Ok l' -> l' = map again_point l.
Proof using back.
  intros Hl Hs. unfold read_points. intros H. apply bind_ok in H as (l0 & H & Hl').
  apply (collect_only read_point _ again_point point_ok) in H as ->; [|clear -back; intros acc p q Hp|done].
  - injection Hl' as <-. by rewrite (sort_lt_map point_before), (sort_lt_id _ _ Hs).
  - rewrite read_point_dict by done. intros H. apply bind_ok in H as (? & _ & H). by injection H as <-.
Qed.

Lemma nodup_prefix {A B} (key : A -> B) l pre x post : NoDup (map key l) -> l = pre ++ x :: post -> key x ∉ map key pre.
Proof using Type. intros H ->. rewrite map_app in H. apply NoDup_app in H as (_ & H & _). intros Hin. apply (H _ Hin). left. Qed.

Lemma position_free id frame seen : id ∉ map pt_id seen -> frame ∉ map pt_frame seen ->
  existsb (fun p => String.eqb p.(pt_id) id || (p.(pt_frame) =? frame)) seen = false.
Proof using Type.
  intros Hi Hf. rewrite <- not_true_iff_false, existsb_exists. intros (q & Hq & H). apply list_elem_of_In in Hq.
  apply orb_prop in H as [H|H]; pyinv; [apply Hi|apply Hf]; rewrite <- H; by apply list_elem_of_fmap_2.
Qed.

Lemma again_ids l : map pt_id (map again_point l) = map pt_id l.
Proof using Type. rewrite map_map. by apply map_ext. Qed.

Lemma again_frames l : map pt_frame (map again_point l) = map pt_frame l.
Proof using Type. rewrite map_map. by apply map_ext. Qed.

Lemma read_points_accepts l : Forall point_ok l -> NoDup (map pt_id l) -> NoDup (map pt_frame l) ->
  ordered_by point_before l -> read_points (map (fun p => VDict (g (point_dict p))) l) = Ok (map again_point l).
Proof using back.
  intros Hl Hi Hf Hs. unfold read_points. rewrite (collect_map read_point _ again_point).
  - cbn [mbind res_bind]. by rewrite (sort_lt_map point_before), (sort_lt_id _ _ Hs).
  - intros pre x post Hsplit. rewrite Forall_forall in Hl. assert (point_ok x) as Hx by (apply Hl; subst; set_solver).
    rewrite read_point_dict, position_free, str_eqb_ne by
      (rewrite ?again_ids, ?again_frames; try apply Hx; by eapply nodup_prefix). done.
Qed.

Lemma clamp_twice lo hi x : flt lo hi = true -> fmax lo (fmin hi (fmax lo (fmin hi x))) = fmax lo (fmin hi x).
Proof using Type.
  intros H. set (y := fmax lo (fmin hi x)).
  assert ((y = x /\ flt x hi = true /\ flt lo x = true) \/ y = lo \/ y = hi) as [(-> & E1 & E2)|[->| ->]].
  { unfold y, fmin, fmax. destruct (flt x hi) eqn:E1; [destruct (flt lo x) eqn:E2; auto|rewrite H; auto]. }
  - unfold fmin. rewrite E1. unfold fmax. by rewrite E2.
  - unfold fmin. rewrite H. unfold fmax. by destruct (flt lo lo).
  - unfold fmin. destruct (flt hi hi); unfold fmax; by rewrite H.
Qed.

Lemma py_or_list l : py_or (VList l) (VList []) = VList l.
Proof using Type. by destruct l. Qed.

Lemma read_track_dict tracks t : track_settled t -> read_track tracks (VDict (g (track_dict t))) =
  (_ ← check (negb (String.eqb (retoken t.(tr_id)) "" || has_id (map tr_id tracks) (retoken t.(tr_id))))
         "track ids must be unique non-empty tokens";
   _ ← check (has_id ["audio"; "midi"; "aux"; "master"] t.(tr_kind)) "unsupported track kind";
   clips ← read_clips (ids_of (all_clips tracks)) (map (fun c => VDict (g (clip_dict c))) t.(tr_clips));
   raw_points ← bounded_list (VList (map (fun p => VDict (g (point_dict p))) t.(tr_automation))) 4096
                  "track automation must contain at most 4096 points";
   points ← read_points raw_points;
   Ok {| tr_raw := g (track_dict t); tr_id := retoken t.(tr_id); tr_kind := t.(tr_kind); tr_name := t.(tr_name);
         tr_gain := t.(tr_gain); tr_pan := t.(tr_pan); tr_muted := t.(tr_muted); tr_solo := t.(tr_solo); tr_bus := t.(tr_bus);
         tr_sends := map G t.(tr_sends); tr_automation := points; tr_clips := clips |}).
Proof using back.
  intros [[y Hy] [p Hp] Hn Hb Hs _ _ _]. unfold read_track. cbn [mbind res_bind need_dict]. read_fields track_dict.
  fold (retoken t.(tr_id)). rewrite !back_dicts, !py_or_list, Hn, Hb. cbn [mbind res_bind py_iter].
  rewrite firstn_all2 by (by rewrite length_map).
  assert (fmax (float_of_Z 0) (fmin (float_of_Z 4) (tr_gain t)) = tr_gain t) as -> by (rewrite Hy; by apply clamp_twice).
  assert (fmax (float_of_Z (-1)) (fmin (float_of_Z 1) (tr_pan t)) = tr_pan t) as -> by (rewrite Hp; by apply clamp_twice).
  done.
Qed.

Lemma read_track_again tracks t t' : track_settled t -> read_track tracks (VDict (g (track_dict t))) = Ok t' -> t' = again_track t.
Proof using back.
  intros Hs. rewrite read_track_dict by done. intros H. repeat (apply bind_ok in H; destruct H as (? & ? & H)).
  match goal with E : bounded_list _ _ _ = Ok _ |- _ => apply bounded_list_ok in E as [[= <-] _] end.
  match goal with E : read_points _ = Ok _ |- _ => apply read_points_again in E as ->; [|apply Hs|apply Hs] end.
  match goal with E : read_clips _ _ = Ok _ |- _ => unfold read_clips in E;
    apply (collect_only (fun clips => read_clip (_ ++ ids_of clips)) _ again_clip clip_placed) in E as -> end;
    [by injection H as <-|intros acc c c' Hc; by apply read_clip_again|apply Hs].
Qed.

(** ** Whole sessions *)

(** Identifiers, and marker names, that stripping and cutting leave alone. *)
Record tidy (s : session) : Prop := {
  td_tracks : Forall (fun t => retoken t.(tr_id) = t.(tr_id)) s.(ss_tracks);
  td_clips : Forall (fun c => retoken c.(cl_id) = c.(cl_id)) (all_clips s.(ss_tracks));
  td_markers : Forall (fun m => retoken m.(mk_id) = m.(mk_id) /\ str_or (retoken m.(mk_name)) m.(mk_id) = m.(mk_name)) s.(ss_markers);
}.

Definition again_session (s : session) : session :=
  {| ss_raw := g (session_dict s); ss_reader := s.(ss_reader); ss_id := s.(ss_id); ss_revision := s.(ss_revision);
     ss_tempo := map G s.(ss_tempo); ss_markers := map again_marker s.(ss_markers); ss_tracks := map again_track s.(ss_tracks) |}.

Lemma all_clips_again tracks : all_clips (map again_track tracks) = map again_clip (all_clips tracks).
Proof using Type. unfold all_clips. rewrite concat_map, !map_map. by f_equal. Qed.

Lemma tidy_map {A} (id : A -> string) (again : A -> A) l :
  (forall a, id (again a) = retoken (id a)) -> Forall (fun a => retoken (id a) = id a) l -> map id (map again l) = map id l.
Proof using Type.
  intros H Hl. rewrite map_map. induction Hl as [|a l Ha Hl IH]; cbn; [done|]. by rewrite H, Ha, IH.
Qed.

Lemma all_clips_split pre t post : all_clips (pre ++ t :: post) = all_clips pre ++ t.(tr_clips) ++ all_clips post.
Proof using Type. unfold all_clips. by rewrite map_app, concat_app. Qed.

Lemma has_id_in l x : x ∈ l -> has_id l x = true.
Proof using Type. by rewrite has_id_elem. Qed.

Lemma Forall_here {A} (P : A -> Prop) l pre x post : Forall P l -> l = pre ++ x :: post -> Forall P pre /\ P x.
Proof using Type. intros H ->. apply Forall_app in H as [Hp H]. by inversion H. Qed.

Lemma read_clips_accepts seen l : Forall clip_ok l -> Forall (fun c => retoken c.(cl_id) = c.(cl_id)) l ->
  NoDup (seen ++ ids_of l) -> Z.of_nat (length (seen ++ ids_of l)) <= MAX_CLIPS ->
  read_clips seen (map (fun c => VDict (g (clip_dict c))) l) = Ok (map again_clip l).
Proof using back.
  intros Hok Htidy Hn Hc. apply (collect_map (fun clips => read_clip (seen ++ ids_of clips)) _ again_clip).
  intros pre c post Hl. destruct (Forall_here _ _ _ _ _ Hok Hl) as [_ Hcok].
  destruct (Forall_here _ _ _ _ _ Htidy Hl) as [Hpre Hct]. unfold ids_of in *. rewrite (tidy_map cl_id again_clip) by done.
  rewrite Hl, map_app in Hn, Hc. cbn in Hn, Hc. rewrite app_assoc in Hn, Hc. apply read_clip_accepts; [done|done| |].
  - apply NoDup_app in Hn as (_ & Hd & _). intros Hx. apply (Hd _ Hx). left.
  - rewrite length_app in Hc. cbn in Hc. lia.
Qed.

Lemma bounded_map {A} (h : A -> pyval) l n m : Z.of_nat (length l) <= n -> bounded_list (VList (map h l)) n m = Ok (map h l).
Proof using Type. intros H. apply bounded_list_ok. by rewrite length_map. Qed.

Lemma read_track_accepts tracks pre t post : tracks_ok tracks -> tracks = pre ++ t :: post ->
  Forall (fun t => retoken t.(tr_id) = t.(tr_id)) tracks -> Forall (fun c => retoken c.(cl_id) = c.(cl_id)) (all_clips tracks) ->
  read_track (map again_track pre) (VDict (g (track_dict t))) = Ok (again_track t).
Proof using back.
  intros [Hok Hids Hcids Hcount] Hl Htids Htc. destruct (Forall_here _ _ _ _ _ Hok Hl) as [_ Ht].
  destruct (Forall_here _ _ _ _ _ Htids Hl) as [Hpre Htid]. pose proof (nodup_prefix tr_id _ _ _ _ Hids Hl) as Hfree.
  rewrite Hl, all_clips_split in Htc, Hcids, Hcount. apply Forall_app in Htc as [Hpc [Htcl _]%Forall_app].
  unfold ids_of in Hcids. rewrite !map_app, app_assoc in Hcids. apply NoDup_app in Hcids as (Hcids & _ & _).
  rewrite !length_app in Hcount. rewrite read_track_dict by (by apply track_ok_settled). rewrite Htid, str_eqb_ne by apply Ht.
  rewrite (tidy_map tr_id again_track), (proj2 (has_id_false _ _) Hfree), has_id_in by (done || apply Ht).
  rewrite all_clips_again. unfold ids_of. rewrite (tidy_map cl_id again_clip) by done.
  rewrite read_clips_accepts by (done || apply Ht || (unfold ids_of; rewrite length_app, !length_map; lia)).
  destruct Ht as [_ _ _ _ _ _ _ [Hpo Hpn] Hpi Hpf Hps _]. cbn [mbind res_bind check guard_res negb orb].
  rewrite bounded_map by done. cbn [mbind res_bind]. rewrite read_points_accepts by done. cbn [mbind res_bind]. unfold again_track. by rewrite Htid.
Qed.

Lemma read_tracks_accepts tracks : tracks_ok tracks -> Forall (fun t => retoken t.(tr_id) = t.(tr_id)) tracks ->
  Forall (fun c => retoken c.(cl_id) = c.(cl_id)) (all_clips tracks) ->
  read_tracks (map (fun t => VDict (g (track_dict t))) tracks) = Ok (map again_track tracks).
Proof using back. intros Hok Ht Hc. apply (collect_map read_track _ again_track). intros pre t post Hl. by apply (read_track_accepts tracks pre t post). Qed.

Lemma read_marker_dict seen m : 0 <= m.(mk_frame) -> read_marker seen (VDict (g (marker_dict m))) =
  (_ ← check (negb (String.eqb (retoken m.(mk_id)) "" || has_id (map mk_id seen) (retoken m.(mk_id))))
         "marker ids must be unique non-empty tokens";
   _ ← check (has_id marker_kinds m.(mk_kind)) "unsupported marker kind";
   Ok (again_marker m)).
Proof using back.
  intros Hf. unfold read_marker. read_fields marker_dict. unfold frame_of. rewrite (proj2 (Z.ltb_ge _ _) Hf). by fold (retoken m.(mk_id)).
Qed.

Lemma read_markers_accepts l : Forall marker_ok l -> NoDup (map mk_id l) -> ordered_by marker_before l ->
  Forall (fun m => retoken m.(mk_id) = m.(mk_id) /\ str_or (retoken m.(mk_name)) m.(mk_id) = m.(mk_name)) l ->
  read_markers (map (fun m => VDict (g (marker_dict m))) l) = Ok (map again_marker l).
Proof using back.
  intros Hok Hn Hs Ht. assert (Forall (fun m => retoken (mk_id m) = mk_id m) l) as Hids by (eapply Forall_impl; [exact Ht|by intros m [? _]]).
  unfold read_markers. rewrite (collect_map read_marker _ again_marker).
  - cbn [mbind res_bind]. f_equal. assert (map again_marker l = map (fun m => again_marker m) l) as -> by done.
    revert Hs. generalize Hids. clear. intros Hids Hs. rewrite sort_lt_id; [done|].
    induction Hs as [|m l Hs IH Hm]; cbn; [constructor|]. inversion Hids as [|? ? Hmt Hlt]; subst. constructor; [by apply IH|].
    apply Forall_fmap. rewrite Forall_forall in *. intros b Hb. specialize (Hm b Hb). specialize (Hlt b Hb). cbn in *.
    unfold marker_before in *. cbn. by rewrite Hmt, Hlt.
  - intros pre m post Hl. destruct (Forall_here _ _ _ _ _ Hok Hl) as [_ Hm]. destruct (Forall_here _ _ _ _ _ Hids Hl) as [Hpre Hmt].
    rewrite read_marker_dict by apply Hm. rewrite (tidy_map mk_id again_marker), Hmt, str_eqb_ne by (done || apply Hm).
    rewrite (proj2 (has_id_false _ _) (nodup_prefix mk_id _ _ _ _ Hn Hl)), has_id_in by apply Hm. done.
Qed.

Lemma normalize_dict s :
  slice 128 s.(ss_id) = s.(ss_id) -> 0 <= s.(ss_revision) -> s.(ss_tempo) <> [] -> (length s.(ss_tempo) <= 1024)%nat ->
  normalize_session (g (session_dict s)) =
  (raw_tracks ← bounded_list (VList (map (fun t => VDict (g (track_dict t))) s.(ss_tracks))) MAX_TRACKS "tracks must contain at most 128 entries";
   tracks ← read_tracks raw_tracks;
   raw_markers ← bounded_list (VList (map (fun m => VDict (g (marker_dict m))) s.(ss_markers))) 1024 "markers must contain at most 1024 entries";
   markers ← read_markers raw_markers;
   Ok {| ss_raw := g (session_dict s); ss_reader := s.(ss_reader); ss_id := s.(ss_id); ss_revision := s.(ss_revision);
         ss_tempo := map G s.(ss_tempo); ss_markers := markers; ss_tracks := tracks |}).
Proof using back.
  intros Hid Hr Ht Htl. unfold normalize_session. read_fields session_dict. rewrite !py_or_list, Hid, Z.max_r by done.
  assert (py_or (VList (map G (ss_tempo s))) default_tempo = VList (map G (ss_tempo s))) as -> by (by destruct (ss_tempo s)).
  cbn [py_iter mbind res_bind]. by rewrite !back_dicts, firstn_all2 by (by rewrite length_map).
Qed.

(** A well-formed session whose identifiers are trimmed reads as itself. *)
Lemma normalize_accepts s : session_ok s -> tidy s -> normalize_session (g (session_dict s)) = Ok (again_session s).
Proof using back.
  intros [Hts Hn Hid Hr [Hte Htl] [Hm Hmn] Hmi Hms] [Htt Htc Htm]. rewrite normalize_dict by done.
  rewrite (bounded_map (fun t => VDict (g (track_dict t)))) by done. cbn [mbind res_bind]. rewrite read_tracks_accepts by done. cbn [mbind res_bind].
  rewrite bounded_map by done. cbn [mbind res_bind]. by rewrite read_markers_accepts.
Qed.

(** Whatever its identifiers, the tracks that come out are the tracks that went in. *)
Lemma normalize_again s a : session_ok a -> Forall track_settled s.(ss_tracks) -> 
  normalize_session (g (session_dict s)) = Ok a -> a.(ss_tracks) = map again_track s.(ss_tracks).
Proof using back.
  intros _ Hs. unfold normalize_session. intros H. apply bind_ok in H as (raws & Hb & H). apply bind_ok in H as (tracks & Ht & H).
  repeat (apply bind_ok in H; destruct H as (? & ? & H)). injection H as <-. cbn. revert Hb. read_fields session_dict.
  intros [[= <-] _]%bounded_list_ok. rewrite back_dicts in Ht. unfold read_tracks in Ht.
  apply (collect_only read_track _ again_track track_settled) in Ht as ->; [done| |done].
  intros acc t t' Hst. by apply read_track_again.
Qed.

End again.

(** *** The document it is written as *)

Abbreviation same := (fun d : pydict => d).
Abbreviation same_value := (fun v : pyval => v).

(** Writing the same fields once more changes nothing. *)
Lemma dmerge_twice d e : NoDup (dkeys e) -> dmerge (dmerge d e) e = dmerge d e.
Proof.
  intros He. apply dmerge_same, Forall_forall. intros [k v] Hin. rewrite dmerge_get by done.
  apply list_elem_of_In in Hin. cbn [fst snd]. by rewrite (dget_nodup_In e k v).
Qed.

Lemma dset_comm d k k' v v' : k <> k' -> dhas d k = true -> dset (dset d k' v') k v = dset (dset d k v) k' v'.
Proof.
  unfold dhas. intros Hk. induction d as [|[k0 v0] d IH]; [done|]. cbn [dget dset].
  destruct (String.eqb_spec k k0) as [->|Hk0].
  - intros _. rewrite (str_eqb_ne k' k0) by done. cbn [dset]. by rewrite str_eqb_refl, (str_eqb_ne k' k0).
  - intros H. destruct (String.eqb k' k0) eqn:Ek'; cbn [dset]; rewrite Ek', (str_eqb_ne k k0) by done; [done|]. by rewrite IH.
Qed.

(** A field written last may be written among the others. *)
Lemma dset_dmerge d e k v : k ∉ dkeys e -> dhas d k = true -> dset (dmerge d e) k v = dmerge (dset d k v) e.
Proof.
  revert d. induction e as [|[k' v'] e IH]; intros d Hk Hd; [done|]. apply not_elem_of_cons in Hk as [Hne Hk]. cbn in Hne.
  rewrite !dget_dmerge_cons, IH; [|done|unfold dhas in *; rewrite dget_dset_ne by done; exact Hd]. by rewrite dset_comm.
Qed.

Lemma dmerge_app d e e' : dmerge d (e ++ e') = dmerge (dmerge d e) e'.
Proof. unfold dmerge. apply fold_left_app. Qed.

Lemma with_revision_dict s z : dset (session_dict s) "revision" (VInt z) = session_dict (with_revision z s).
Proof.
  unfold session_dict. cbn [with_revision ss_raw ss_reader ss_id ss_revision ss_tempo ss_markers ss_tracks].
  assert (forall d a b c e v back, "revision" ∉ dkeys back ->
    dset (dmerge d (a :: b :: c :: e :: ("revision", v) :: back)) "revision" (VInt z) =
    dmerge d (a :: b :: c :: e :: ("revision", VInt z) :: back)) as H.
  { intros d [] [] [] [] v back Hb. rewrite !dget_dmerge_cons, dset_dmerge, dset_twice; [done|done|].
    unfold dhas. by rewrite dget_dset_eq. }
  apply H. apply (bool_decide_unpack _). vm_compute. exact I.
Qed.

Lemma again_clip_dict c : retoken c.(cl_id) = c.(cl_id) -> clip_dict (again_clip same c) = clip_dict c.
Proof. intros H. unfold clip_dict at 1. cbn [again_clip cl_raw cl_id cl_start cl_length cl_offset cl_source cl_muted cl_fades]. rewrite H. apply dmerge_twice. nodup_keys. Qed.

Lemma again_point_dict p : point_dict (again_point same p) = point_dict p.
Proof. apply dmerge_twice. nodup_keys. Qed.

Lemma map_dicts {A} (again : A -> A) (dict : A -> pydict) l : Forall (fun a => dict (again a) = dict a) l ->
  map (fun a => VDict (dict a)) (map again l) = map (fun a => VDict (dict a)) l.
Proof. intros H. rewrite map_map. induction H as [|a l Ha Hl IH]; cbn; [done|]. by rewrite Ha, IH. Qed.

Lemma again_track_dict t : retoken t.(tr_id) = t.(tr_id) -> Forall (fun c => retoken c.(cl_id) = c.(cl_id)) t.(tr_clips) ->
  track_dict (again_track same same_value t) = track_dict t.
Proof.
  intros Ht Hc. unfold track_dict at 1.
  cbn [again_track tr_raw tr_id tr_kind tr_name tr_gain tr_pan tr_muted tr_solo tr_bus tr_sends tr_automation tr_clips].
  rewrite Ht, map_id, !map_dicts; [apply dmerge_twice; nodup_keys| |].
  - eapply Forall_impl; [exact Hc|]. apply again_clip_dict.
  - apply Forall_forall. intros p _. apply again_point_dict.
Qed.

Lemma again_marker_dict m : retoken m.(mk_id) = m.(mk_id) -> str_or (retoken m.(mk_name)) m.(mk_id) = m.(mk_name) ->
  marker_dict (again_marker same m) = marker_dict m.
Proof. intros H Hn. unfold marker_dict at 1. cbn [again_marker mk_raw mk_id mk_frame mk_name mk_kind]. rewrite H, Hn. apply dmerge_twice. nodup_keys. Qed.

Lemma tidy_tracks s t : tidy s -> t ∈ s.(ss_tracks) -> Forall (fun c => retoken c.(cl_id) = c.(cl_id)) t.(tr_clips).
Proof.
  intros [_ Hc _] Hin. apply list_elem_of_split in Hin as (pre & post & Hl). rewrite Hl, all_clips_split in Hc.
  by apply Forall_app in Hc as [_ [Hc _]%Forall_app].
Qed.

Lemma again_session_dict s : tidy s -> session_dict (again_session same same_value s) = session_dict s.
Proof.
  intros Ht. unfold session_dict at 1. cbn [again_session ss_raw ss_reader ss_id ss_revision ss_tempo ss_markers ss_tracks].
  rewrite map_id, !map_dicts; [apply dmerge_twice; nodup_keys| |].
  - apply Forall_forall. intros t Hin. pose proof (td_tracks _ Ht) as Hid. rewrite Forall_forall in Hid.
    apply again_track_dict; [by apply Hid|by eapply tidy_tracks].
  - eapply Forall_impl; [apply Ht|]. intros m [? ?]. by apply again_marker_dict.
Qed.
