(* ===== verification/DawRequests.v ===== *)
(** * The data types of DAW session documents (backend/daw_session.py)

    A small language of data types for the values a session is written as:
    ranges, bounded lists, dicts with the fields they must and may have, and any
    other field beside them. Every document the store hands out has the type of
    a session, whatever its files and its callers hold. *)

From S2P Require Import Prelude PyStr PyFloat PyVal PyFacts JsonText Adaptation DawSession DawStore DawFacts.
From Stdlib Require Import SpecFloat Sorted.

#[local] Open Scope string_scope.
#[local] Open Scope list_scope.
#[local] Open Scope Z_scope.
#[local] Open Scope st_scope.

(** ** Types *)

#[warnings="-register-all"]
Inductive ty :=
  | TAny
  | TText (nonempty : bool)
  | TOne (allowed : list pyval)
  | TInt (least : Z)
  | TBool
  | TFloat (lo hi : float)
  | TList (bound : Z) (t : ty)
  | TDict (must may : list (string * ty)).

Definition field {A} (d : pydict) (absent : A) (present : pyval -> A) (k : string) : A :=
  match dget d k with Some v => present v | None => absent end.

Fixpoint has_type (t : ty) (v : pyval) {struct t} : bool :=
  match t, v with
  | TAny, _ => true
  | TText nonempty, VStr s => negb (nonempty && String.eqb s "")
  | TOne allowed, _ => bool_decide (v ∈ allowed)
  | TInt least, VInt z => least <=? z
  | TBool, VBool _ => true
  | TFloat lo hi, VFloat x => fle lo x && fle x hi
  | TList bound t, VList l => (Z.of_nat (length l) <=? bound) && forallb (has_type t) l
  | TDict must may, VDict d =>
      forallb (fun f => field d false (has_type (snd f)) (fst f)) must
      && forallb (fun f => field d true (has_type (snd f)) (fst f)) may
  | _, _ => false
  end.

Definition fades_type : ty :=
  TDict [("inFrames", TInt 0); ("outFrames", TInt 0); ("curve", TOne [VStr "linear"; VStr "equal-power"])]
        [("spanFrames", TInt 1); ("offsetFrames", TInt 0)].

Definition source_type : ty :=
  TDict [("type", TOne [VStr "audio-file"; VStr "midi-sequence"; VStr "generator"])] [].

Definition clip_type : ty :=
  TDict [("clipId", TText true); ("startFrame", TInt 0); ("lengthFrames", TInt 1); ("sourceOffsetFrames", TInt 0);
         ("source", source_type); ("muted", TBool); ("fades", fades_type)] [].

Definition point_type : ty :=
  TDict [("pointId", TText true); ("parameter", TOne [VStr "volume"]); ("frame", TInt 0);
         ("value", TFloat (float_of_Z 0) (float_of_Z 2)); ("interpolation", TOne [VStr "linear"])] [].

Definition track_type : ty :=
  TDict [("trackId", TText true); ("kind", TOne [VStr "audio"; VStr "midi"; VStr "aux"; VStr "master"]); ("name", TText false);
         ("gain", TFloat (float_of_Z 0) (float_of_Z 4)); ("pan", TFloat (float_of_Z (-1)) (float_of_Z 1)); ("muted", TBool);
         ("solo", TBool); ("outputBus", TText false); ("sends", TList 32 TAny); ("automation", TList 4096 point_type);
         ("clips", TList MAX_CLIPS clip_type)] [].

Definition marker_type : ty :=
  TDict [("markerId", TText true); ("frame", TInt 0); ("name", TText false);
         ("kind", TOne [VStr "note"; VStr "section"; VStr "cue"])] [].

Definition session_type : ty :=
  TDict [("documentType", TOne [VStr "org.upp.daw-session"]); ("schemaVersion", TOne [VInt 1]); ("sessionId", TText false);
         ("revision", TInt 0); ("sampleRate", TOne [VInt CANONICAL_RATE]); ("sampleFormat", TOne [VStr "float32-planar"]);
         ("tempoMap", TList 1024 TAny); ("markers", TList 1024 marker_type); ("tracks", TList MAX_TRACKS track_type);
         ("unknownFieldsPreserved", TOne [VBool true]); ("physicalOutputsArmed", TOne [VBool false])] [].

(** ** Typing, one rule for each form *)

Lemma type_text s b : (b = true -> s <> "") -> has_type (TText b) (VStr s) = true.
Proof. intros H. destruct b; [|done]. cbn. rewrite str_eqb_ne; [done|by apply H]. Qed.

Lemma type_one v l : v ∈ l -> has_type (TOne l) v = true.
Proof. intros H. by apply bool_decide_eq_true. Qed.

Lemma type_name s names l : s ∈ names -> l = map VStr names -> has_type (TOne l) (VStr s) = true.
Proof. intros H ->. apply type_one. by apply list_elem_of_fmap_2. Qed.

Lemma type_int n z : n <= z -> has_type (TInt n) (VInt z) = true.
Proof. intros H. by apply Z.leb_le. Qed.

Lemma type_float lo hi x : within lo hi x -> has_type (TFloat lo hi) (VFloat x) = true.
Proof. intros [H1 H2]. cbn. by rewrite H1, H2. Qed.

Lemma type_list {A} n t (f : A -> pyval) l : Z.of_nat (length l) <= n -> Forall (fun a => has_type t (f a) = true) l ->
  has_type (TList n t) (VList (map f l)) = true.
Proof.
  intros Hn Hl. cbn. rewrite length_map. apply andb_true_iff. split; [by apply Z.leb_le|].
  apply forallb_forall. intros v (a & <- & Ha)%in_map_iff. rewrite Forall_forall in Hl. apply Hl. by apply list_elem_of_In.
Qed.

Lemma type_any_list n l : Z.of_nat (length l) <= n -> has_type (TList n TAny) (VList l) = true.
Proof. intros H. rewrite <- (map_id l). by apply type_list; [|apply Forall_forall]. Qed.

(** A dict written over another has its own fields. *)
Definition given (e : pydict) (f : string * ty) : Prop :=
  match dget e (fst f) with Some v => has_type (snd f) v = true | None => False end.

Lemma type_merged raw e must : NoDup (dkeys e) -> Forall (given e) must ->
  has_type (TDict must []) (VDict (dmerge raw e)) = true.
Proof.
  intros He Hm. cbn. rewrite andb_true_r. apply forallb_forall. intros [k t] Hin%list_elem_of_In.
  rewrite Forall_forall in Hm. specialize (Hm _ Hin). unfold given, field in *. cbn in *.
  rewrite dmerge_get by done. by destruct (dget e k).
Qed.

Create HintDb typing discriminated.
#[local] Hint Resolve type_text type_one type_int type_float type_list type_any_list : typing.

(** Enter a merged dict: one goal for each of its fields. *)
Ltac merged := apply type_merged; [nodup_keys|]; repeat constructor; unfold given; cbn [fst snd dget String.eqb Ascii.eqb Bool.eqb].

Lemma fades_typed len f : 1 <= len -> fades_ok len f -> has_type fades_type (VDict (fades_dict f)) = true.
Proof.
  intros Hl [Hi Ho Hc Hs]. assert (has_type (TOne [VStr "linear"; VStr "equal-power"]) (VStr f.(fd_curve)) = true) as Hcurve
    by (eapply type_name; [exact Hc|done]).
  cbn in Hcurve. unfold fades_dict, fades_type. cbn [has_type forallb fst snd]. unfold field.
  destruct (fd_span f) as [[span offset]|]; cbn; rewrite Hcurve; cbn; repeat (apply andb_true_iff; split); try apply Z.leb_le; try done; lia.
Qed.

Lemma clip_typed c : clip_ok c -> has_type clip_type (VDict (clip_dict c)) = true.
Proof.
  intros [Hid Hs Hl Ho (kind & Hk & Hkin) Hf]. merged; try (by auto with typing).
  - cbn. unfold field. cbn. rewrite Hk. pose proof (type_name _ _ _ Hkin eq_refl) as Ht. cbn in Ht. by rewrite Ht.
  - by eapply fades_typed.
Qed.

Lemma point_typed p : point_ok p -> has_type point_type (VDict (point_dict p)) = true.
Proof. intros [Hid Hs Hf Hv]. merged; try (by auto with typing). Qed.

Lemma marker_typed m : marker_ok m -> has_type marker_type (VDict (marker_dict m)) = true.
Proof. intros [Hid Hf Hk]. merged; try (by auto with typing). eapply type_name; [exact Hk|done]. Qed.

Lemma track_typed tracks t : tracks_ok tracks -> t ∈ tracks -> has_type track_type (VDict (track_dict t)) = true.
Proof.
  intros [Hts _ _ Hn] Hin. rewrite Forall_forall in Hts. destruct (Hts t Hin) as [Hid Hk [g Hg] [p Hp] _ _ Hs [Hpo Hpn] _ _ _ Hc].
  assert (Z.of_nat (length t.(tr_clips)) <= MAX_CLIPS) as Hclips.
  { apply elem_of_Permutation in Hin as [rest Hr]. unfold all_clips in Hn. rewrite Hr in Hn. cbn in Hn. rewrite length_app in Hn. lia. }
  merged; try (by auto with typing).
  - eapply type_name; [exact Hk|done].
  - apply type_float. rewrite Hg. by apply clamp_within.
  - apply type_float. rewrite Hp. by apply clamp_within.
  - apply type_any_list. lia.
  - apply type_list; [done|]. eapply Forall_impl; [exact Hpo|]. apply point_typed.
  - apply type_list; [done|]. eapply Forall_impl; [exact Hc|]. apply clip_typed.
Qed.

Lemma session_typed s : session_ok s -> has_type session_type (VDict (session_dict s)) = true.
Proof.
  intros [Ht Hn Hid Hr [_ Htempo] [Hm Hmn] _ _]. merged; try (by auto with typing).
  - apply type_any_list. lia.
  - apply type_list; [done|]. eapply Forall_impl; [exact Hm|]. apply marker_typed.
  - apply type_list; [done|]. apply Forall_forall. intros t. by apply track_typed.
Qed.

(** * Requests to the DAW session store (backend/daw_session.py)

    What the operations of the store have in common: every one of them that
    answers has written a well-formed, well-typed document of a later revision,
    and every one that refuses has left the session file as it was. *)

Inductive request :=
  | Save (value : pydict)
  | Edit (operation : pydict)
  | MarkerEdit (operation : pydict)
  | AutomationEdit (operation : pydict)
  | Undo
  | Redo.

Definition serve (f : fates) (r : request) : op session :=
  match r with
  | Save value => save f value
  | Edit operation => edit f operation
  | MarkerEdit operation => marker_edit f operation
  | AutomationEdit operation => automation_edit f operation
  | Undo => undo f
  | Redo => redo f
  end.

(** ** Saving *)

Lemma save_ok f v s s' a : save f v s = (s', Ok a) ->
  normalize_session v = Ok a /\
  s' = {| session_file := Some (written a); history_file := s.(history_file) |} /\
  exists before, load s = Ok before /\ before.(ss_revision) < a.(ss_revision).
Proof.
  unfold save, load_session, st_bind, st_lift, st_get, st_modify, st_ret, st_raise.
  destruct (normalize_session v) as [r|]; [|done]. destruct (load s) as [b|]; [|done].
  destruct (_ <=? _) eqn:E; [done|]. destruct (save_fails f); [done|]. intros [= <- <-]. pyinv. eauto.
Qed.

Lemma save_refused f v s s' e : save f v s = (s', Raise e) -> s' = s.
Proof.
  unfold save, load_session, st_bind, st_lift, st_get, st_modify, st_ret, st_raise.
  destruct (normalize_session v) as [r|]; [|congruence]. destruct (load s) as [b|]; [|congruence].
  destruct (_ <=? _); [congruence|]. destruct (save_fails f); [congruence|discriminate].
Qed.

Lemma normalized_revision v a z :
  dget v "revision" = Some (VInt z) -> normalize_session v = Ok a -> a.(ss_revision) = Z.max 0 z.
Proof.
  intros Hr. unfold normalize_session. intros H. repeat (apply bind_ok in H; destruct H as (? & ? & H)).
  unfold int_field, dget_or in *. rewrite Hr in *. injection H as <-. cbn. cbn in *. pyinv. congruence.
Qed.

Lemma session_dict_revision s : dget (session_dict s) "revision" = Some (VInt s.(ss_revision)).
Proof. unfold session_dict. by rewrite dmerge_get by nodup_keys. Qed.

Lemma _write_history_out f h s s' out : _write_history f h s = (s', out) ->
  s'.(session_file) = s.(session_file) /\
  match out with
  | Ok _ => s'.(history_file) = Some h
  | Raise _ => s' = s /\ f.(history_fails) = true
  end.
Proof. unfold _write_history. destruct (history_fails f); intros [= <- <-]; by repeat split. Qed.

(** What an operation makes of the store: the answered document is in the file. *)
Definition settles (f : fates) (advances : session -> session -> Prop) (s : store) (m : store * res session) : Prop :=
  match m with
  | (s', Ok a) => session_ok a /\ s'.(session_file) = Some (written a) /\ exists before, load s = Ok before /\ advances before a
  | (s', Raise _) => s' = s \/ f.(history_fails) = true
  end.

Definition next_revision (before a : session) : Prop := a.(ss_revision) = before.(ss_revision) + 1.
Definition later_revision (before a : session) : Prop := before.(ss_revision) < a.(ss_revision).

(** A save at the next revision, and then the history. *)
Lemma save_then_history f v h s before z :
  load s = Ok before -> dget v "revision" = Some (VInt z) -> z = before.(ss_revision) + 1 ->
  settles f next_revision s (st_bind (save f v) (fun saved => _write_history f h ;;; st_ret saved) s).
Proof.
  intros Hl Hr ->. unfold st_bind. destruct (save f v s) as [s1 [a|e]] eqn:Es; [|apply save_refused in Es as ->; by left].
  apply save_ok in Es as (Hn & -> & _). pose proof (normalize_session_ok _ _ Hn) as Hok.
  destruct (_write_history f h _) as [s2 [u|e]] eqn:Eh; apply _write_history_out in Eh as [Hs Hh]; [|right; apply Hh].
  split; [done|]. split; [done|]. exists before. split; [done|]. unfold next_revision.
  rewrite (normalized_revision v a _ Hr Hn). unfold load in Hl. assert (session_ok before) as Hb.
  { destruct (session_file s); by eapply normalize_session_ok. }
  pose proof (so_revision _ Hb). lia.
Qed.

Lemma commit_settles f before after s :
  load s = Ok before -> settles f next_revision s (_commit_edit f before after s).
Proof.
  intros Hl. unfold _commit_edit. rewrite st_get_bind. destruct (_history s) as [undone redone].
  eapply save_then_history; [done|apply session_dict_revision|done].
Qed.

(** An edit reads the session, checks, and commits. *)
Lemma edit_settles {A} f (expected : session -> res unit) (change : session -> res A) (after : session -> A -> session) s :
  settles f next_revision s
    ((let* before := load_session in
      st_lift (expected before) ;;;
      let* x := st_lift (change before) in
      _commit_edit f before (after before x)) s).
Proof.
  unfold load_session. rewrite st_bind_assoc, st_get_bind. destruct (load s) as [before|e] eqn:El; [|by left].
  rewrite st_lift_Ok. destruct (expected before); [|by left]. rewrite st_lift_Ok.
  destruct (change before); [|by left]. rewrite st_lift_Ok. by apply commit_settles.
Qed.

Lemma restore_settles undoing f s : settles f next_revision s (_restore undoing f s).
Proof.
  unfold _restore. rewrite st_get_bind. destruct (_history s) as [undone redone].
  destruct (last _) as [restored|]; [|by left]. unfold load_session. rewrite st_bind_assoc, st_get_bind.
  destruct (load s) as [current|e] eqn:El; [|by left]. rewrite st_lift_Ok.
  eapply save_then_history; [done|by rewrite dget_dset_eq|done].
Qed.

Lemma request_settles f r s :
  settles f (match r with Save _ => later_revision | _ => next_revision end) s (serve f r s).
Proof.
  destruct r as [v|d|d|d| |]; cbn [serve].
  - destruct (save f v s) as [s1 [a|e]] eqn:Es; [|apply save_refused in Es as ->; by left].
    apply save_ok in Es as (Hn & -> & Hb). split; [by eapply normalize_session_ok|]. split; [done|exact Hb].
  - apply (edit_settles f _ (fun b => edit_tracks d b.(ss_tracks)) (fun b t => with_tracks t b)).
  - apply (edit_settles f _ (fun b => edit_markers d b.(ss_markers)) (fun b m => with_markers m b)).
  - apply (edit_settles f _ (fun b => automate d b.(ss_tracks)) (fun b t => with_tracks t b)).
  - apply restore_settles.
  - apply restore_settles.
Qed.

(** C13: type safety of the session store. Whatever its two files hold and
    whatever document or operation a client sends, a request that is answered is
    answered with a document that has the data type of a session: identifiers
    nonempty, frames not negative, lengths positive, gains, pans and automation
    values in their ranges, kinds and sources known, lists no longer than their
    bounds, no output armed. That document is what the session file then holds,
    at a later revision than before, the next one unless a client saved a whole
    document. A request that is refused changes neither file, unless it is the
    history file that could not be written. *)
Theorem documents_are_well_typed f r s s' out : serve f r s = (s', out) ->
  match out with
  | Ok a =>
      has_type session_type (VDict (session_dict a)) = true /\ session_ok a /\ s'.(session_file) = Some (written a) /\
      exists before, load s = Ok before /\
        match r with Save _ => later_revision before a | _ => next_revision before a end
  | Raise _ => s' = s \/ f.(history_fails) = true
  end.
Proof.
  intros H. pose proof (request_settles f r s) as Hs. rewrite H in Hs. destruct out as [a|e]; [|exact Hs].
  destruct Hs as (Hok & Hfile & before & Hl & Ha). split; [by apply session_typed|]. split; [done|]. split; [done|].
  exists before. split; [done|]. by destruct r.
Qed.

(** ** A small session *)

Definition sample_clip : pyval :=
  VDict [("clipId", VStr "a"); ("startFrame", VInt 10); ("lengthFrames", VInt 100); ("source", VDict [("type", VStr "audio-file")]);
         ("fades", VDict [("inFrames", VInt 20); ("outFrames", VInt 20); ("curve", VStr "linear")])].

Definition sample_track : pyval :=
  VDict [("trackId", VStr "t"); ("color", VStr "red"); ("automation", VList [VDict [("parameter", VStr "volume"); ("frame", VInt 5); ("value", VInt 1)]]);
         ("clips", VList [sample_clip])].

Definition sample_document : pydict := [("revision", VInt 1); ("tracks", VList [sample_track])].

Definition no_failure : fates := {| save_fails := false; history_fails := false |}.

Definition new_store : store := {| session_file := None; history_file := None |}.
Definition sample_store : store := fst (serve no_failure (Save sample_document) new_store).

Definition sample_split : pydict :=
  [("op", VStr "split"); ("clipId", VStr "a"); ("splitFrame", VInt 50); ("expectedRevision", VInt 1)].

Definition answered {A} (m : store * res A) : bool := match snd m with Ok _ => true | Raise _ => false end.

Lemma documents_are_well_typed_witness :
  exists s a, serve no_failure (Edit sample_split) sample_store = (s, Ok a) /\
    has_type session_type (VDict (session_dict a)) = true.
Proof.
  assert (answered (serve no_failure (Edit sample_split) sample_store) = true) as H by (vm_compute; reflexivity).
  destruct (serve no_failure (Edit sample_split) sample_store) as [s [a|e]] eqn:E; [|discriminate H].
  exists s, a. split; [reflexivity|]. exact (proj1 (documents_are_well_typed _ _ _ _ _ E)).
Defined.
