(* ===== verification/DawEdits.v ===== *)
(** * The render plan against the timeline (backend/daw_session.py, backend/clip_fades.py)

    What a session sounds like at a frame, stated clip by clip without plans or
    regions: the reference the render plan is proved equivalent to, and the thing
    a split clip keeps. *)

From S2P Require Import Prelude PyStr PyFloat PyVal PyFacts JsonText Adaptation DawSession DawStore DawFacts DawRequests.

#[local] Open Scope string_scope.
#[local] Open Scope list_scope.
#[local] Open Scope Z_scope.
#[local] Open Scope st_scope.

(** ** The timeline *)

(** One sounding source: how it is routed, where its source is read, and where it is in its fades. *)
Record voice := {
  vc_gain : float; vc_pan : float; vc_bus : string; vc_sends : list pyval; vc_automation : list (Z * float);
  vc_source : pydict; vc_frame : Z; vc_fade : envelope;
}.

Definition curve_of (t : track) : list (Z * float) := map (fun p => (p.(pt_frame), p.(pt_value))) t.(tr_automation).

Definition clip_envelope (c : clip) (f : Z) : envelope :=
  let '(span, offset) := default (c.(cl_length), 0) c.(cl_fades).(fd_span) in
  {| ev_position := offset + (f - c.(cl_start)); ev_span := span; ev_in := c.(cl_fades).(fd_in);
     ev_out := c.(cl_fades).(fd_out); ev_curve := c.(cl_fades).(fd_curve) |}.

Definition voice_of (t : track) (c : clip) (f : Z) : voice :=
  {| vc_gain := t.(tr_gain); vc_pan := t.(tr_pan); vc_bus := t.(tr_bus); vc_sends := t.(tr_sends);
     vc_automation := curve_of t; vc_source := c.(cl_source); vc_frame := c.(cl_offset) + (f - c.(cl_start));
     vc_fade := clip_envelope c f |}.

Definition sounds (c : clip) (f : Z) : bool :=
  negb c.(cl_muted) && ((c.(cl_start) <=? f) && (f <? c.(cl_start) + c.(cl_length))).

Definition named (t : track) (c : clip) (v : voice) : string * string * voice := (t.(tr_id), c.(cl_id), v).

Definition clip_sounding (t : track) (f : Z) (c : clip) : list (string * string * voice) :=
  when (sounds c f) (named t c (voice_of t c f)).

(** Solo on any track silences the others. *)
Definition heard (tracks : list track) (t : track) : bool :=
  if t.(tr_muted) then false else if existsb tr_solo tracks then t.(tr_solo) else true.

Lemma audible_heard tracks t : audible tracks t = heard tracks t.
Proof. unfold audible, heard. by destruct (tr_muted t), (existsb tr_solo tracks), (tr_solo t). Qed.

Definition track_sounding (tracks : list track) (f : Z) (t : track) : list (string * string * voice) :=
  if heard tracks t then concat (map (clip_sounding t f) t.(tr_clips)) else [].

(** The voices of a frame, with the track and the clip each comes from. *)
Definition sounding (tracks : list track) (f : Z) : list (string * string * voice) :=
  concat (map (track_sounding tracks f) tracks).

(** ** The plan *)

Definition region_voice (r : region) (f : Z) : voice :=
  {| vc_gain := r.(rg_track).(tr_gain); vc_pan := r.(rg_track).(tr_pan); vc_bus := r.(rg_track).(tr_bus);
     vc_sends := r.(rg_track).(tr_sends); vc_automation := curve_of r.(rg_track); vc_source := r.(rg_clip).(cl_source);
     vc_frame := r.(rg_source_start) + (f - r.(rg_start)); vc_fade := envelope_at r (f - r.(rg_start)) |}.

Definition region_played (f : Z) (r : region) : list (string * string * voice) :=
  when ((r.(rg_start) <=? f) && (f <? r.(rg_start) + r.(rg_frames))) (named r.(rg_track) r.(rg_clip) (region_voice r f)).

Definition played (p : render) (f : Z) : list (string * string * voice) := concat (map (region_played f) p.(rp_regions)).

Lemma concat_map_Permutation {A B} (g : A -> list B) l l' : l ≡ₚ l' -> concat (map g l) ≡ₚ concat (map g l').
Proof.
  induction 1 as [|x l l' _ IH|x y l|l1 l2 l3 _ IH1 _ IH2]; cbn; [done|by rewrite IH| |by rewrite IH1].
  rewrite !app_assoc. by rewrite (Permutation_app_comm (g y) (g x)).
Qed.

Lemma concat_map_concat {A B C} (g : B -> list C) (h : A -> list B) l :
  concat (map g (concat (map h l))) = concat (map (fun a => concat (map g (h a))) l).
Proof. induction l as [|a l IH]; cbn; [done|]. by rewrite map_app, concat_app, IH. Qed.

Lemma concat_map_ext {A B} (g h : A -> list B) l : (forall a, g a = h a) -> concat (map g l) = concat (map h l).
Proof. intros H. f_equal. by apply map_ext. Qed.

Lemma concat_map_nil {A B} (g : A -> list B) l : (forall a, g a = []) -> concat (map g l) = [].
Proof. intros H. induction l as [|a l IH]; cbn; [done|]. by rewrite H. Qed.

(** The part of a clip in a range plays what the clip sounds like in the range. *)
Lemma clip_region_played start end_ t c f :
  concat (map (region_played f) (clip_region start end_ t c)) =
  if (start <=? f) && (f <? end_) then clip_sounding t f c else [].
Proof.
  unfold clip_region, clip_sounding, sounds.
  set (a := Z.max start (cl_start c)). set (b := Z.min end_ (cl_start c + cl_length c)).
  destruct (cl_muted c); cbn [negb andb when map concat]; [by destruct (_ && _)|].
  destruct ((start <=? f) && (f <? end_)) eqn:Er; destruct ((cl_start c <=? f) && (f <? cl_start c + cl_length c)) eqn:Ec;
    destruct (a <? b) eqn:Eab; cbn [when map concat]; unfold region_played; cbn [rg_start rg_frames];
    try (assert ((a <=? f) && (f <? a + (b - a)) = false) as -> by lia; done); try lia; try done.
  assert ((a <=? f) && (f <? a + (b - a)) = true) as -> by lia. cbn [when app]. repeat f_equal.
  unfold region_voice, voice_of. cbn [rg_track rg_clip rg_start rg_source_start]. f_equal; [lia|].
  unfold envelope_at, clip_envelope. cbn [rg_track rg_clip rg_start rg_source_start].
  destruct (fd_span (cl_fades c)) as [[span offset]|]; cbn; f_equal; lia.
Qed.

Lemma plan_regions_played tracks start end_ f :
  concat (map (region_played f) (plan_regions tracks start end_)) ≡ₚ
  if (start <=? f) && (f <? end_) then sounding tracks f else [].
Proof.
  unfold plan_regions. rewrite (concat_map_Permutation _ _ _ (sort_lt_Permutation _ _)), concat_map_concat.
  assert (forall t, concat (map (region_played f) (track_regions tracks start end_ t)) =
    if (start <=? f) && (f <? end_) then track_sounding tracks f t else []) as Ht.
  { intros t. unfold track_regions, track_sounding. rewrite audible_heard. destruct (heard tracks t); [|by destruct (_ && _)].
    rewrite concat_map_concat. rewrite (concat_map_ext _ _ _ (fun c => clip_region_played start end_ t c f)).
    destruct (_ && _); [done|]. by apply concat_map_nil. }
  rewrite (concat_map_ext _ _ _ Ht). destruct (_ && _); [done|]. by rewrite concat_map_nil.
Qed.

(** C14: equivalence of the render plan with the timeline. At every frame of its
    range a plan plays, region by region, exactly the voices the session sounds
    there: the clips that are not muted, on tracks that are not muted and that
    are soloed when any track is, each once, from the same frame of its source,
    at the same place of the same fades, through the same gain, pan, bus, sends
    and automation; and at a frame outside the range it plays nothing. *)
Theorem render_plan_plays_the_timeline value start_frame end_frame p f :
  render_plan value start_frame end_frame = Ok p ->
  exists s, normalize_session value = Ok s /\
    played p f ≡ₚ if (p.(rp_start) <=? f) && (f <? p.(rp_end)) then sounding s.(ss_tracks) f else [].
Proof.
  unfold render_plan. intros H. apply bind_ok in H as (s & Hs & H). repeat (apply bind_ok in H; destruct H as (? & ? & H)).
  injection H as <-. exists s. split; [done|]. apply plan_regions_played.
Qed.

Lemma render_plan_plays_the_timeline_witness :
  exists p s, render_plan [("tracks", VList [VDict [("trackId", VStr "t"); ("clips", VList [
      VDict [("clipId", VStr "a"); ("startFrame", VInt 10); ("lengthFrames", VInt 100); ("source", VDict [("type", VStr "generator")])]])]])]
      (VInt 20) (VInt 60) = Ok p /\ played p 30 ≡ₚ sounding s.(ss_tracks) 30 /\ (0 < length (played p 30))%nat.
Proof.
  match goal with |- exists p s, ?m = Ok p /\ _ => assert (match m with Ok p => (p.(rp_start) <=? 30) && (30 <? p.(rp_end)) && (0 <? Z.of_nat (length (played p 30))) | _ => false end = true)
    as H by (vm_compute; reflexivity); destruct m as [p|e] eqn:E; [|discriminate H] end.
  apply andb_prop in H as [Hr Hn]. destruct (render_plan_plays_the_timeline _ _ _ p 30 E) as (s & _ & Hs). rewrite Hr in Hs.
  exists p, s. split; [reflexivity|]. split; [exact Hs|]. apply Z.ltb_lt in Hn. lia.
Defined.

(** * What the edits of a DAW session keep (backend/daw_session.py)

    A split clip sounds as it did, fades included, and undo and redo bring back
    the documents they were asked for. *)

(** ** Reading a successful edit *)

Lemma loaded_ok s before : load s = Ok before -> session_ok before.
Proof. unfold load. destruct (session_file s); apply normalize_session_ok. Qed.

Lemma commit_ok f before after s s' a : _commit_edit f before after s = (s', Ok a) ->
  normalize_session (session_dict (with_revision (before.(ss_revision) + 1) after)) = Ok a.
Proof.
  unfold _commit_edit. rewrite st_get_bind. destruct (_history s) as [undone redone]. unfold st_bind.
  destruct (save _ _ _) as [s1 [saved|e]] eqn:Es; [|done]. apply save_ok in Es as (Hn & _ & _).
  destruct (_write_history _ _ _) as [s2 [u|e]]; [|done]. cbn. intros [= _ <-]. exact Hn.
Qed.

(** An edit reads the session, checks, and commits what it made of it. *)
Lemma editing_ok {A} f (expected : session -> res unit) (change : session -> res A) (after : session -> A -> session) s s' a :
  (let* before := load_session in
   st_lift (expected before) ;;;
   let* x := st_lift (change before) in
   _commit_edit f before (after before x)) s = (s', Ok a) ->
  exists before x, load s = Ok before /\ change before = Ok x /\ _commit_edit f before (after before x) s = (s', Ok a).
Proof.
  unfold load_session. rewrite st_bind_assoc, st_get_bind. destruct (load s) as [before|e] eqn:El; [|done].
  rewrite st_lift_Ok. destruct (expected before); [|done]. rewrite st_lift_Ok.
  destruct (change before) as [x|e] eqn:Ec; [|done]. rewrite st_lift_Ok. eauto.
Qed.

Lemma edit_ok f d s s' a : edit f d s = (s', Ok a) ->
  exists before tracks, load s = Ok before /\ edit_tracks d before.(ss_tracks) = Ok tracks /\
    normalize_session (session_dict (with_revision (before.(ss_revision) + 1) (with_tracks tracks before))) = Ok a.
Proof.
  intros H. apply (editing_ok f _ (fun b => edit_tracks d b.(ss_tracks)) (fun b t => with_tracks t b)) in H
    as (before & tracks & Hl & Ht & H%commit_ok). eauto.
Qed.

(** ** Splitting a clip *)

Lemma split_clip_ok d c l r : clip_ok c -> split_clip d c = Ok (l, r) ->
  clip_placed l /\ clip_placed r /\ l.(cl_muted) = c.(cl_muted) /\ r.(cl_muted) = c.(cl_muted).
Proof.
  intros [_ Hs Hl Ho _ [Hi Hou _ _]]. unfold split_clip. intros H.
  repeat (apply bind_ok in H; destruct H as (? & ? & H)). destruct (default _ _) as [span offset].
  match goal with E : check _ _ = Ok _ |- _ => apply check_ok in E end. pyinv. subst l r.
  repeat split; cbn; try done; lia.
Qed.

(** At every frame one half or the other sounds as the whole did. *)
Lemma split_clip_voices d t c l r frame : clip_ok c -> split_clip d c = Ok (l, r) ->
  map snd (clip_sounding t frame l) ++ map snd (clip_sounding t frame r) = map snd (clip_sounding t frame c).
Proof.
  unfold split_clip. intros _ H. apply bind_ok in H as (split & _ & H). apply bind_ok in H as (u & Hc & H). apply check_ok in Hc.
  destruct (default (cl_length c, 0) _) as [span offset] eqn:Espan. pyinv. subst l r.
  unfold clip_sounding, sounds, placed, renamed. cbn [cl_muted cl_start cl_length].
  destruct (cl_muted c); cbn [negb andb when map app]; [done|].
  assert (forall n, cl_start c + (n - cl_start c) = n) as Hn by lia. rewrite Hn.
  assert (split + (cl_length c - (split - cl_start c)) = cl_start c + cl_length c) as -> by lia.
  destruct ((cl_start c <=? frame) && (frame <? cl_start c + cl_length c)) eqn:Ec.
  - destruct (frame <? split) eqn:El.
    + assert ((cl_start c <=? frame) && true = true) as -> by lia.
      assert ((split <=? frame) && (frame <? cl_start c + cl_length c) = false) as -> by lia. cbn [when map app].
      unfold named, voice_of, clip_envelope. cbn. by rewrite Espan.
    + rewrite andb_false_r. assert ((split <=? frame) && (frame <? cl_start c + cl_length c) = true) as -> by lia. cbn [when map app].
      unfold named, voice_of, clip_envelope. cbn. rewrite Espan. cbn.
      assert (cl_offset c + (split - cl_start c) + (frame - split) = cl_offset c + (frame - cl_start c)) as -> by lia.
      by assert (offset + (split - cl_start c) + (frame - split) = offset + (frame - cl_start c)) as -> by lia.
  - assert ((cl_start c <=? frame) && (frame <? split) = false) as -> by lia.
    by assert ((split <=? frame) && (frame <? cl_start c + cl_length c) = false) as -> by lia.
Qed.

(** ** Replacing the clips of one track *)

Definition voices (tracks : list track) (frame : Z) : list voice := map snd (sounding tracks frame).

Definition clip_voices (t : track) (frame : Z) (clips : list clip) : list voice :=
  concat (map (fun c => map snd (clip_sounding t frame c)) clips).

Lemma map_concat {A B C} (f : A -> B) (g : C -> list A) l : map f (concat (map g l)) = concat (map (fun c => map f (g c)) l).
Proof. by rewrite concat_map, map_map. Qed.

Lemma voices_alt tracks frame :
  voices tracks frame = concat (map (fun t => if heard tracks t then clip_voices t frame t.(tr_clips) else []) tracks).
Proof.
  unfold voices, sounding. rewrite map_concat. apply concat_map_ext. intros t. unfold track_sounding.
  destruct (heard tracks t); [|done]. apply map_concat.
Qed.

(** Tracks that differ in their clips only are heard alike. *)
Lemma voices_replace pre t post clips frame : clip_voices t frame clips = clip_voices t frame t.(tr_clips) ->
  voices (pre ++ with_clips clips t :: post) frame = voices (pre ++ t :: post) frame.
Proof.
  intros Hc. rewrite !voices_alt.
  assert (forall u, heard (pre ++ with_clips clips t :: post) u = heard (pre ++ t :: post) u) as Ha.
  { intros u. unfold heard. by rewrite !existsb_app. }
  erewrite concat_map_ext by (intros u; rewrite Ha; reflexivity).
  rewrite !map_app, !concat_app. f_equal. cbn [map concat]. f_equal.
  assert (heard (pre ++ t :: post) (with_clips clips t) = heard (pre ++ t :: post) t) as -> by done.
  destruct (heard _ t); [|done]. exact Hc.
Qed.

Lemma voices_insert tracks i t clips frame : tracks !! i = Some t ->
  clip_voices t frame clips = clip_voices t frame t.(tr_clips) ->
  voices (<[i := with_clips clips t]> tracks) frame = voices tracks frame.
Proof.
  intros Hi Hc. rewrite insert_take_drop by (by eapply lookup_lt_Some).
  rewrite voices_replace by done. by rewrite take_drop_middle.
Qed.

(** Reading the tracks again changes identifiers only. *)
Lemma voices_again tracks frame : voices (map (again_track same same_value) tracks) frame = voices tracks frame.
Proof.
  rewrite !voices_alt, map_map. apply concat_map_ext. intros t.
  assert (heard (map (again_track same same_value) tracks) (again_track same same_value t) = heard tracks t) as ->.
  { unfold heard. assert (existsb tr_solo (map (again_track same same_value) tracks) = existsb tr_solo tracks) as ->; [|done].
    clear t. induction tracks as [|u l IH]; cbn; [done|]. by rewrite IH. }
  destruct (heard tracks t); [|done]. unfold clip_voices. cbn [again_track tr_clips]. rewrite map_map.
  apply concat_map_ext. intros c. unfold clip_sounding, sounds. cbn [again_clip cl_muted cl_start cl_length].
  destruct (_ && _); [|done]. cbn [when map snd named]. unfold voice_of, clip_envelope, curve_of. cbn.
  by rewrite map_map, map_id.
Qed.

Lemma insert_settled tracks i t clips : Forall track_ok tracks -> tracks !! i = Some t -> Forall clip_placed clips ->
  Forall track_settled (<[i := with_clips clips t]> tracks).
Proof.
  intros Hok Hi Hc. apply Forall_insert; [eapply Forall_impl; [exact Hok|]; apply track_ok_settled|].
  rewrite Forall_forall in Hok. assert (track_ok t) as Ht by (apply Hok; by eapply list_elem_of_lookup_2). by split; try apply Ht.
Qed.

Lemma edit_at_ok i j g tracks tracks' : edit_at i j g tracks = Ok tracks' ->
  exists t c new, tracks !! i = Some t /\ t.(tr_clips) !! j = Some c /\ g c = Ok new /\
    tracks' = <[i := with_clips (take j t.(tr_clips) ++ new ++ drop (S j) t.(tr_clips)) t]> tracks.
Proof.
  unfold edit_at. destruct (tracks !! i) as [t|]; [|done]. destruct (tr_clips t !! j) as [c|] eqn:Ej; [|done].
  intros H. apply bind_ok in H as (new & Hn & [= <-]). by exists t, c, new.
Qed.

Lemma clip_voices_app t frame l l' : clip_voices t frame (l ++ l') = clip_voices t frame l ++ clip_voices t frame l'.
Proof. unfold clip_voices. by rewrite map_app, concat_app. Qed.

(** C15: a split is inaudible. When a clip has been split, the saved session
    sounds at every frame exactly as the session did before the edit: the same
    voices in the same order, each reading the same frame of the same source
    through the same gain, pan, bus, sends and automation, at the same place of
    the same fades, so that the fades of the whole clip run on across the cut
    and do not start again at it. *)
Theorem split_keeps_the_sound f d s s' a : text_or d "op" "" = "split" -> edit f d s = (s', Ok a) ->
  exists before, load s = Ok before /\ forall frame, voices a.(ss_tracks) frame = voices before.(ss_tracks) frame.
Proof.
  intros Hop H. apply edit_ok in H as (before & tracks & Hl & He & Hn). exists before. split; [done|]. intros frame.
  apply loaded_ok in Hl. destruct Hl as [[Hok _ _ _] _ _ _ _ _ _ _]. unfold edit_tracks in He. rewrite Hop in He. cbn in He.
  destruct (find_clip _ _) as [[i j]|]; [|done]. cbn in He. apply edit_at_ok in He as (t & c & new & Hi & Hj & Hg & ->).
  apply bind_ok in Hg as ([l r] & Hs & [= <-]).
  assert (track_ok t) as Ht by (rewrite Forall_forall in Hok; apply Hok; by eapply list_elem_of_lookup_2).
  assert (clip_ok c) as Hc by (pose proof (to_clips _ Ht) as Hcs; rewrite Forall_forall in Hcs; apply Hcs; by eapply list_elem_of_lookup_2).
  destruct (split_clip_ok _ _ _ _ Hc Hs) as (Hpl & Hpr & _).
  apply (normalize_again same same_value) in Hn as ->; [|by eapply normalize_session_ok|]; cbn [with_revision with_tracks ss_tracks fst snd].
  - rewrite voices_again. apply voices_insert; [done|]. rewrite <- (take_drop_middle _ _ _ Hj) at 3.
    rewrite !clip_voices_app. f_equal. change (c :: drop (S j) (tr_clips t)) with ([c] ++ drop (S j) (tr_clips t)).
    rewrite clip_voices_app. f_equal. unfold clip_voices. cbn. rewrite !app_nil_r. by eapply split_clip_voices.
  - apply insert_settled; [done|done|]. assert (Forall clip_placed (tr_clips t)) as Hp
      by (eapply Forall_impl; [apply Ht|]; apply clip_ok_placed).
    apply Forall_app. split; [by apply Forall_take|]. repeat (constructor; [done|]). by apply Forall_drop.
Qed.

Lemma split_keeps_the_sound_witness :
  exists s a before, edit no_failure sample_split sample_store = (s, Ok a) /\ load sample_store = Ok before /\
    voices a.(ss_tracks) 70 = voices before.(ss_tracks) 70.
Proof.
  assert (answered (edit no_failure sample_split sample_store) = true) as H by (vm_compute; reflexivity).
  destruct (edit no_failure sample_split sample_store) as [s [a|e]] eqn:E; [|discriminate H].
  destruct (split_keeps_the_sound no_failure sample_split sample_store s a eq_refl E) as (before & Hl & Hv).
  exists s, a, before. split; [reflexivity|]. split; [exact Hl|]. apply Hv.
Defined.

(** ** Undo and redo *)

Lemma with_revision_ok z s : 0 <= z -> session_ok s -> session_ok (with_revision z s).
Proof. intros Hz [? ? ? ? ? ? ? ?]. by split. Qed.

Lemma with_revision_tidy z s : tidy s -> tidy (with_revision z s).
Proof. intros [? ? ?]. by split. Qed.

Lemma retoken_tidy {A} (id : A -> string) (again : A -> A) l : (forall a, id (again a) = retoken (id a)) ->
  Forall (fun a => retoken (id a) = id a) l -> Forall (fun a => retoken (id a) = id a) (map again l).
Proof. intros H Hl. apply Forall_fmap. eapply Forall_impl; [exact Hl|]. cbn. intros a Ha. by rewrite H, Ha. Qed.

Lemma again_tidy g G s : tidy s -> tidy (again_session g G s).
Proof.
  intros [Ht Hc Hm]. split; cbn [again_session ss_tracks ss_markers].
  - by apply retoken_tidy.
  - rewrite all_clips_again. by apply retoken_tidy.
  - apply Forall_fmap. eapply Forall_impl; [exact Hm|]. intros m [H1 H2].
    cbn [compose again_marker mk_id mk_name]. by rewrite H1, H2.
Qed.

(** A saved session is read back from its file. *)
Lemma saved_session_loads a h : session_ok a -> tidy a ->
  load {| session_file := Some (written a); history_file := h |} = Ok (again_session from_file canon a).
Proof. apply (normalize_accepts from_file canon). Qed.

Lemma last_last_of {A} (l : list A) n x : last (last_of (S n) (l ++ [x])) = Some x.
Proof.
  unfold last_of. rewrite length_app. cbn [length]. rewrite skipn_app.
  replace (length l + 1 - S n - length l)%nat with 0%nat by lia. cbn [skipn]. by rewrite last_snoc.
Qed.

Lemma last_of_snoc {A} (l : list A) n x : exists l', last_of (S n) (l ++ [x]) = l' ++ [x].
Proof.
  unfold last_of. rewrite length_app. cbn [length]. rewrite skipn_app.
  replace (length l + 1 - S n - length l)%nat with 0%nat by lia. by eexists.
Qed.

Lemma commit_out before after s s' a : _commit_edit no_failure before after s = (s', Ok a) ->
  exists undone, s' = {| session_file := Some (written a); history_file := Some (undone ++ [session_dict before], []) |} /\
    normalize_session (session_dict (with_revision (before.(ss_revision) + 1) after)) = Ok a.
Proof.
  unfold _commit_edit. rewrite st_get_bind. destruct (_history s) as [undone redone].
  destruct (last_of_snoc undone 99 (session_dict before)) as [l' ->]. unfold st_bind.
  destruct (save _ _ _) as [s1 [saved|e]] eqn:Es; [|done]. apply save_ok in Es as (Hn & -> & _). cbn.
  intros [= <- <-]. by exists l'.
Qed.

(** The last session of a list of the history goes back to the file, at the next revision. *)
Lemma restore_out (undoing : bool) s undone redone front b current :
  _history s = (undone, redone) -> (if undoing then undone else redone) = front ++ [session_dict b] ->
  session_ok b -> tidy b -> load s = Ok current ->
  let restored := again_session same same_value (with_revision (current.(ss_revision) + 1) b) in
  _restore undoing no_failure s =
  ({| session_file := Some (written restored);
      history_file := Some (if undoing then (front, redone ++ [session_dict current]) else (undone ++ [session_dict current], front)) |},
   Ok restored).
Proof.
  intros Hh Hs Hok Ht Hl restored. pose proof (so_revision _ (loaded_ok _ _ Hl)) as Hr.
  unfold _restore. rewrite st_get_bind, Hh, Hs, last_snoc. unfold load_session. rewrite st_bind_assoc, st_get_bind, Hl, st_lift_Ok.
  assert (Hn : normalize_session (dset (session_dict b) "revision" (VInt (ss_revision current + 1))) = Ok restored).
  { rewrite with_revision_dict. apply (normalize_accepts same same_value); [apply with_revision_ok; [lia|done]|by apply with_revision_tidy]. }
  unfold st_bind, save, load_session, st_bind, st_lift, st_get. rewrite Hn, Hl.
  assert ((ss_revision restored <=? ss_revision current) = false) as -> by (cbn; lia). cbn.
  rewrite removelast_last. by destruct undoing.
Qed.

Definition is_edit (r : request) : bool := match r with Edit _ | MarkerEdit _ | AutomationEdit _ => true | _ => false end.

Lemma edit_commits r s s1 before a : is_edit r = true -> load s = Ok before -> serve no_failure r s = (s1, Ok a) ->
  exists after, _commit_edit no_failure before after s = (s1, Ok a).
Proof.
  intros Hr Hl Hs. destruct r as [|d|d|d| |]; try done; cbn [serve] in Hs.
  - apply (editing_ok _ _ (fun b => edit_tracks d b.(ss_tracks)) (fun b t => with_tracks t b)) in Hs as (b & x & Hb & _ & Hc).
    rewrite Hl in Hb. injection Hb as <-. eauto.
  - apply (editing_ok _ _ (fun b => edit_markers d b.(ss_markers)) (fun b m => with_markers m b)) in Hs as (b & x & Hb & _ & Hc).
    rewrite Hl in Hb. injection Hb as <-. eauto.
  - apply (editing_ok _ _ (fun b => automate d b.(ss_tracks)) (fun b t => with_tracks t b)) in Hs as (b & x & Hb & _ & Hc).
    rewrite Hl in Hb. injection Hb as <-. eauto.
Qed.

(** C16: undo and redo are a round trip, where every write succeeds and both
    sessions are trimmed. Take an edit of clips, markers or automation that is
    accepted, such that in the session before it and in the session it gives every
    identifier of a track, clip or marker and every marker name is as trimming and
    cutting it once more leaves it. Then undo saves the document the session had
    before the edit, field for field, at the next revision; and redo then saves the
    edited document again, field for field as the session file held it, at the
    revision after that. Both hypotheses are needed: an edit may add a clip whose
    identifier ends in a space after the cut at 128 characters, and such a session
    does not come back as it was. *)
Theorem undo_then_redo r s s1 before a :
  is_edit r = true -> load s = Ok before -> serve no_failure r s = (s1, Ok a) -> tidy before -> tidy a ->
  exists edited s2 undone s3 redone,
    load s1 = Ok edited /\
    serve no_failure Undo s1 = (s2, Ok undone) /\
    session_dict undone = dset (session_dict before) "revision" (VInt (before.(ss_revision) + 2)) /\
    serve no_failure Redo s2 = (s3, Ok redone) /\
    session_dict redone = dset (session_dict edited) "revision" (VInt (before.(ss_revision) + 3)).
Proof.
  intros Hr Hl Hs Htb Hta. pose proof (loaded_ok _ _ Hl) as Hok.
  destruct (edit_commits _ _ _ _ _ Hr Hl Hs) as [after Hc].
  apply commit_out in Hc as (undo0 & -> & Hn). pose proof (normalize_session_ok _ _ Hn) as Hoka.
  apply (normalized_revision _ _ _ (session_dict_revision _)) in Hn. cbn in Hn. pose proof (so_revision _ Hok).
  set (s1 := {| session_file := _; history_file := _ |}). set (edited := again_session from_file canon a).
  assert (Hl1 : load s1 = Ok edited) by (by apply saved_session_loads).
  assert (Hh1 : exists front, _history s1 = (front ++ [session_dict before], [])).
  { unfold s1, _history. cbn [history_file]. destruct (last_of_snoc undo0 99 (session_dict before)) as [l' ->]. by exists l'. }
  destruct Hh1 as [front Hh1]. pose proof (restore_out true s1 _ _ _ before edited Hh1 eq_refl Hok Htb Hl1) as Hundo.
  cbn [app] in Hundo. set (undone := again_session same same_value (with_revision (ss_revision edited + 1) before)) in Hundo.
  set (s2 := {| session_file := Some (written undone); history_file := _ |}) in Hundo.
  assert (tidy undone) as Htu by (by apply again_tidy, with_revision_tidy).
  assert (session_ok undone) as Hoku.
  { eapply normalize_session_ok. apply (normalize_accepts same same_value (with_revision (ss_revision edited + 1) before));
      [apply with_revision_ok; [cbn; lia|done]|by apply with_revision_tidy]. }
  assert (Hl2 : load s2 = Ok (again_session from_file canon undone)) by (by apply saved_session_loads).
  assert (Hh2 : _history s2 = (last_of 100 front, [session_dict edited])) by done.
  pose proof (restore_out false s2 _ _ [] edited _ Hh2 eq_refl (loaded_ok _ _ Hl1) (again_tidy _ _ _ Hta) Hl2) as Hredo.
  exists edited, s2, undone. do 2 eexists. split; [exact Hl1|]. split; [exact Hundo|]. split; [|split; [exact Hredo|]].
  - unfold undone. rewrite again_session_dict by (by apply with_revision_tidy). rewrite with_revision_dict. do 2 f_equal. cbn. lia.
  - rewrite again_session_dict by (by apply with_revision_tidy, again_tidy). rewrite with_revision_dict. do 2 f_equal. cbn. lia.
Qed.

#[local] Instance tidy_dec s : Decision (tidy s).
Proof.
  refine (cast_if_and3 (decide (Forall (fun t => retoken t.(tr_id) = t.(tr_id)) s.(ss_tracks)))
    (decide (Forall (fun c => retoken c.(cl_id) = c.(cl_id)) (all_clips s.(ss_tracks))))
    (decide (Forall (fun m => retoken m.(mk_id) = m.(mk_id) /\ str_or (retoken m.(mk_name)) m.(mk_id) = m.(mk_name)) s.(ss_markers))));
    by split || (intros []; done).
Defined.

Definition tidy_result (r : res session) : bool := match r with Ok s => bool_decide (tidy s) | Raise _ => false end.

Lemma undo_then_redo_witness :
  exists before s1 a, load sample_store = Ok before /\ serve no_failure (Edit sample_split) sample_store = (s1, Ok a) /\
    exists edited s2 undone s3 redone, load s1 = Ok edited /\ serve no_failure Undo s1 = (s2, Ok undone) /\
      session_dict undone = dset (session_dict before) "revision" (VInt (before.(ss_revision) + 2)) /\
      serve no_failure Redo s2 = (s3, Ok redone) /\
      session_dict redone = dset (session_dict edited) "revision" (VInt (before.(ss_revision) + 3)).
Proof.
  assert (tidy_result (load sample_store) = true) as Hb by (vm_compute; reflexivity).
  assert (tidy_result (snd (serve no_failure (Edit sample_split) sample_store)) = true) as Ha by (vm_compute; reflexivity).
  destruct (load sample_store) as [before|e] eqn:El; [|discriminate Hb].
  destruct (serve no_failure (Edit sample_split) sample_store) as [s1 [a|e]] eqn:Es; [|discriminate Ha].
  exists before, s1, a. split; [reflexivity|]. split; [reflexivity|].
  exact (undo_then_redo (Edit sample_split) sample_store s1 before a eq_refl El Es
    (bool_decide_eq_true_1 _ Hb) (bool_decide_eq_true_1 _ Ha)).
Defined.

(** ** A saved session that does not load *)

Definition long_id : string := of_chars (repeat "a"%char 127).

Definition clip_named (id : string) : pyval :=
  VDict [("clipId", VStr id); ("lengthFrames", VInt 1); ("source", VDict [("type", VStr "generator")])].

(** The second identifier is cut after its space, and stripped of it only on the next load. *)
Definition twin_document : pydict :=
  [("revision", VInt 1);
   ("tracks", VList [VDict [("trackId", VStr "t"); ("clips", VList [clip_named long_id; clip_named (long_id +:+ " b")])]])].

Example saved_session_does_not_load :
  let '(s, out) := serve no_failure (Save twin_document) new_store in
  match out with Ok _ => true | Raise _ => false end = true /\
  load s = Raise (ValueError "clip identity and length must be valid").
Proof. vm_compute. split; reflexivity. Qed.
