(* ===== verification/PunchCapture.v ===== *)
(** * Punch-in, punch-out and loop capture (backend/punch_capture.py)

    The gate that selects the frames of a recorded block: the punch window with
    its pre-roll, the latency correction, and the passes of a loop. The frame
    numbers are unbounded integers, as in the source. *)

From S2P Require Import Prelude PyStr PyFloat PyVal PyFacts.

#[local] Open Scope string_scope.
#[local] Open Scope list_scope.
#[local] Open Scope Z_scope.
#[local] Open Scope st_scope.

Definition MAX_PRE_ROLL_FRAMES : Z := 65536.
Definition MAX_LOOP_PASSES : Z := 128.

Record CaptureSlice := { offset : Z; frames : Z; corrected_start_frame : Z; loop_pass : Z }.

Record PunchCaptureGate := {
  generation : Z;
  punch_in : Z;
  pre_roll : Z;
  latency : Z;
  loop : option (Z * Z);
  maximum_passes : Z;
  capture_start : Z;
  capture_end : option Z;
  selected_frames : Z;
  discarded_frames : Z;
  stale_blocks : Z;
  loop_passes : gset Z;
  complete : bool;
}.

(** What the constructor is given; [None] for an argument that is left out. *)
Record gate_request := {
  rq_generation : Z; rq_punch_in : Z; rq_punch_out : option Z; rq_pre_roll : Z; rq_latency : Z;
  rq_loop_start : option Z; rq_loop_end : option Z; rq_passes : Z;
}.

Definition refuse (b : bool) (message : string) : res unit := guard_res (negb b) (ValueError message).

(** The loop's bounds, when both are stated and ordered. *)
Definition loop_range (r : gate_request) : res (option (Z * Z)) :=
  match r.(rq_loop_start), r.(rq_loop_end) with
  | None, None => Ok None
  | Some a, Some b => if (a <? 0) || (b <=? a) then Raise (ValueError "invalid loop capture range") else Ok (Some (a, b))
  | _, _ => Raise (ValueError "invalid loop capture range")
  end.

Definition new_gate (r : gate_request) : res PunchCaptureGate :=
  _ ← refuse (r.(rq_generation) <? 1) "capture generation must be positive";
  _ ← refuse ((r.(rq_pre_roll) <? 0) || (MAX_PRE_ROLL_FRAMES <? r.(rq_pre_roll))) "pre-roll exceeds bounded capacity";
  _ ← refuse ((r.(rq_latency) <? 0) || (MAX_PRE_ROLL_FRAMES <? r.(rq_latency)))
        "latency compensation exceeds bounded capacity";
  _ ← refuse ((r.(rq_punch_in) <? 0) || match r.(rq_punch_out) with Some o => o <=? r.(rq_punch_in) | None => false end)
        "invalid punch range";
  range ← loop_range r;
  _ ← refuse ((r.(rq_passes) <? 1) || (MAX_LOOP_PASSES <? r.(rq_passes))) "loop capture pass count is out of range";
  Ok {| generation := r.(rq_generation); punch_in := r.(rq_punch_in); pre_roll := r.(rq_pre_roll); latency := r.(rq_latency);
        loop := range; maximum_passes := r.(rq_passes); capture_start := Z.max 0 (r.(rq_punch_in) - r.(rq_pre_roll));
        capture_end := match range with Some (a, b) => Some (a + (b - a) * r.(rq_passes)) | None => r.(rq_punch_out) end;
        selected_frames := 0; discarded_frames := 0; stale_blocks := 0; loop_passes := ∅; complete := false |}.

(** ** Selecting the frames of a block *)

Definition count (selected discarded : Z) (passes : gset Z) (complete : bool) (g : PunchCaptureGate) : PunchCaptureGate :=
  {| generation := g.(generation); punch_in := g.(punch_in); pre_roll := g.(pre_roll); latency := g.(latency);
     loop := g.(loop); maximum_passes := g.(maximum_passes); capture_start := g.(capture_start);
     capture_end := g.(capture_end); selected_frames := g.(selected_frames) + selected;
     discarded_frames := g.(discarded_frames) + discarded; stale_blocks := g.(stale_blocks);
     loop_passes := g.(loop_passes) ∪ passes; complete := complete |}.

Definition stale (g : PunchCaptureGate) : PunchCaptureGate :=
  {| generation := g.(generation); punch_in := g.(punch_in); pre_roll := g.(pre_roll); latency := g.(latency);
     loop := g.(loop); maximum_passes := g.(maximum_passes); capture_start := g.(capture_start);
     capture_end := g.(capture_end); selected_frames := g.(selected_frames);
     discarded_frames := g.(discarded_frames); stale_blocks := g.(stale_blocks) + 1;
     loop_passes := g.(loop_passes); complete := g.(complete) |}.

(** The pass the cursor is in, when it is in the loop, and the end of the slice that starts there. *)
Definition next_slice (loop : option (Z * Z)) (cursor finish : Z) : option Z * Z :=
  match loop with
  | None => (None, finish)
  | Some (a, b) =>
      if cursor <? a then (None, Z.min finish a)
      else let pass := (cursor - a) / (b - a) in (Some pass, Z.min finish (a + (pass + 1) * (b - a)))
  end.

(** [while cursor < finish]; [None] when the fuel runs out first. *)
Fixpoint cut (fuel : nat) (loop : option (Z * Z)) (start cursor finish : Z) : option (list CaptureSlice * gset Z) :=
  if finish <=? cursor then Some ([], ∅)
  else
    match fuel with
    | O => None
    | S fuel =>
        let '(pass, boundary) := next_slice loop cursor finish in
        match cut fuel loop start boundary finish with
        | None => None
        | Some (slices, passes) =>
            Some ({| offset := cursor - start; frames := boundary - cursor; corrected_start_frame := cursor;
                     loop_pass := default 0 pass |} :: slices,
                  match pass with Some p => {[p]} ∪ passes | None => passes end)
        end
    end.

(** One slice before the loop and one per pass the window touches. *)
Definition cut_fuel (loop : option (Z * Z)) (begin finish : Z) : nat :=
  match loop with None => 1 | Some (a, b) => Z.to_nat (2 + (finish - begin) / (b - a)) end.

(** [sum(item.frames for item in slices)]. *)
Definition total_frames (slices : list CaptureSlice) : Z := foldr (fun s n => s.(frames) + n) 0 slices.

Definition block_int (block : pydict) (k : string) (default : Z) : res Z := py_int (dget_or block k (VInt default)).

Definition reaches_end (g : PunchCaptureGate) (end_ : Z) : bool :=
  match g.(capture_end) with Some e => e <=? end_ | None => false end.

(** The window a block's corrected frames [start, end_) leave open. *)
Definition window (g : PunchCaptureGate) (start end_ : Z) : Z * Z :=
  (Z.max start g.(capture_start), Z.min end_ (default end_ g.(capture_end))).

(** The slices of a block; [None] when the loop does not end within its fuel. *)
Definition select (block : pydict) : st PunchCaptureGate (option (list CaptureSlice)) :=
  let* g := st_get in
  let* gen := st_lift (block_int block "generation" g.(generation)) in
  if negb (gen =? g.(generation)) then st_modify stale ;;; st_ret (Some [])
  else
    let* n := st_lift (block_int block "frames" 0) in
    let* raw_start := st_lift (block_int block "showFrame" 0) in
    let start := Z.max 0 (raw_start - g.(latency)) in
    let end_ := start + n in
    let '(begin, finish) := window g start end_ in
    if finish <=? begin then st_modify (count 0 n ∅ (reaches_end g end_)) ;;; st_ret (Some [])
    else
      match cut (cut_fuel g.(loop) begin finish) g.(loop) start begin finish with
      | None => st_ret None
      | Some (slices, passes) =>
          let selected := total_frames slices in
          st_modify (count selected (n - selected) passes (reaches_end g end_)) ;;; st_ret (Some slices)
      end.

Definition gate_status (g : PunchCaptureGate) : pydict :=
  [("generation", VInt g.(generation)); ("punchInFrame", VInt g.(punch_in)); ("punchOutFrame", opt_int g.(capture_end));
   ("captureStartFrame", VInt g.(capture_start)); ("preRollFrames", VInt g.(pre_roll));
   ("latencyCompensationFrames", VInt g.(latency)); ("loopStartFrame", opt_int (option_map fst g.(loop)));
   ("loopEndFrame", opt_int (option_map snd g.(loop))); ("maximumPasses", VInt g.(maximum_passes));
   ("completedPasses", VInt (Z.of_nat (size g.(loop_passes)))); ("selectedFrames", VInt g.(selected_frames));
   ("discardedFrames", VInt g.(discarded_frames)); ("staleBlocks", VInt g.(stale_blocks));
   ("punchComplete", VBool g.(complete)); ("frameDomain", VStr "capture-adapter"); ("physicalOutputsArmed", VBool false)].

(** ** What the gates the constructor builds satisfy *)

Definition gate_ok (g : PunchCaptureGate) : Prop :=
  1 <= g.(maximum_passes) /\ 0 <= g.(capture_start) /\ 0 <= g.(latency)
  /\ match g.(loop) with
     | Some (a, b) => 0 <= a < b /\ g.(capture_end) = Some (a + (b - a) * g.(maximum_passes))
     | None => True
     end.

Lemma refuse_ok b m u : refuse b m = Ok u -> b = false.
Proof. by destruct b. Qed.

Lemma new_gate_ok r g : new_gate r = Ok g -> gate_ok g.
Proof.
  unfold new_gate. intros H.
  repeat (apply bind_ok in H as (? & ?%refuse_ok & H)). apply bind_ok in H as (range & Hr & H).
  apply bind_ok in H as (? & ?%refuse_ok & [= <-]). unfold gate_ok; cbn. pyinv. split_and!; [lia..|].
  unfold loop_range in Hr. destruct (rq_loop_start r), (rq_loop_end r); try done; [|by injection Hr as <-].
  destruct (_ || _) eqn:E; [done|]. injection Hr as <-. pyinv. split; [lia|done].
Qed.

(** ** The slices are the frames of the window, one by one *)

(** A captured frame: its index in the block, its corrected position and its pass. *)
Abbreviation captured := (Z * Z * Z)%type.

Definition slice_frames (s : CaptureSlice) : list captured :=
  map (fun i => (s.(offset) + i, s.(corrected_start_frame) + i, s.(loop_pass))) (seqZ 0 s.(frames)).

(** The reference: the pass of one frame, and the frames of a window. *)
Definition pass_of (loop : option (Z * Z)) (f : Z) : Z :=
  match loop with Some (a, b) => if f <? a then 0 else (f - a) / (b - a) | None => 0 end.

Definition window_frames (loop : option (Z * Z)) (start begin finish : Z) : list captured :=
  map (fun f => (f - start, f, pass_of loop f)) (seqZ begin (finish - begin)).

Definition loop_ok (loop : option (Z * Z)) : Prop := match loop with Some (a, b) => a < b | None => True end.

Lemma next_slice_bounds loop cursor finish pass boundary : loop_ok loop -> cursor < finish ->
  next_slice loop cursor finish = (pass, boundary) ->
  cursor < boundary <= finish /\ forall f, cursor <= f < boundary -> pass_of loop f = default 0 pass.
Proof.
  unfold next_slice, pass_of. destruct loop as [[a b]|]; cbn; [|by intros _ ? [= <- <-]; split; [lia|]].
  intros Hab Hlt. destruct (cursor <? a) eqn:E; intros [= <- <-]; pyinv.
  - split; [lia|]. intros f Hf. by replace (f <? a) with true by lia.
  - set (q := (cursor - a) / (b - a)).
    assert (0 < b - a) as Hpos by lia.
    pose proof (Z.mul_div_le (cursor - a) (b - a) Hpos). pose proof (Z.mul_succ_div_gt (cursor - a) (b - a) Hpos).
    fold q in H, H0. split; [nia|]. intros f Hf. replace (f <? a) with false by lia. cbn.
    symmetry. apply (Z.div_unique (f - a) (b - a) q (f - a - (b - a) * q)); [left; nia|ring].
Qed.

Lemma seqZ_shift n k m : seqZ m k = map (fun i => m - n + i) (seqZ n k).
Proof. change (seqZ m k = Z.add (m - n) <$> seqZ n k). rewrite fmap_add_seqZ. by replace (m - n + n) with m by lia. Qed.

Lemma cut_frames loop start fuel : loop_ok loop -> forall cursor finish slices passes,
  cut fuel loop start cursor finish = Some (slices, passes) ->
  concat (map slice_frames slices) = window_frames loop start cursor finish
  /\ total_frames slices = Z.max 0 (finish - cursor)
  /\ forall p, p ∈ passes <-> exists f, cursor <= f < finish /\ pass_of loop f = p
                                  /\ match loop with Some (a, _) => a <= f | None => False end.
Proof.
  intros Hl. induction fuel as [|fuel IH]; intros cursor finish slices passes; cbn [cut];
    (destruct (finish <=? cursor) eqn:E; [intros [= <- <-]; pyinv|]).
  1, 3: split_and!; [unfold window_frames; rewrite seqZ_nil by lia; done|cbn; lia|];
    intros p; split; [by intros ?%not_elem_of_empty|intros (f & ? & _); lia].
  - done.
  - pyinv. destruct (next_slice loop cursor finish) as [pass boundary] eqn:En.
    destruct (next_slice_bounds loop cursor finish pass boundary Hl ltac:(lia) En) as [Hb Hp].
    destruct (cut fuel loop start boundary finish) as [[ss ps]|] eqn:Ec; [|done]. intros [= <- <-].
    destruct (IH _ _ _ _ Ec) as (Hf & Ht & Hps). cbn [map concat total_frames foldr]. split_and!.
    + rewrite Hf. unfold window_frames.
      replace (finish - cursor) with ((boundary - cursor) + (finish - boundary)) by lia.
      rewrite seqZ_app by lia. rewrite map_app. replace (cursor + (boundary - cursor)) with boundary by lia. f_equal.
      unfold slice_frames; cbn. rewrite (seqZ_shift 0 _ cursor), map_map. apply map_ext_in.
      intros i Hi%list_elem_of_In%elem_of_seqZ. rewrite Hp by lia. repeat f_equal; lia.
    + unfold total_frames in Ht. rewrite Ht. cbn. lia.
    + assert (Hpass : forall p, pass = Some p <-> exists f, cursor <= f < boundary /\ pass_of loop f = p
          /\ match loop with Some (a, _) => a <= f | None => False end).
      { intros p. unfold next_slice in En. destruct loop as [[a b]|].
        2: { injection En as <- <-. split; [done|]. by intros (? & _ & _ & []). }
        destruct (cursor <? a) eqn:Ea; injection En as <- Hbd; pyinv.
        - split; [done|]. intros (f & ? & _ & ?). lia.
        - split; [intros [= <-]; exists cursor; split_and!; [lia..| |lia]; by rewrite Hp by lia|].
          intros (f & Hf' & <- & _). rewrite Hp by lia. done. }
      intros p. transitivity (pass = Some p \/ p ∈ ps); [|].
      { clear. destruct pass as [q|]; [rewrite elem_of_union, elem_of_singleton|]; naive_solver. }
      rewrite Hpass, Hps. split.
      * intros [(f & ? & ? & ?)|(f & ? & ? & ?)]; exists f; split_and!; try done; lia.
      * intros (f & ? & ? & ?). destruct (decide (f < boundary)); [left|right]; exists f; split_and!; try done; lia.
Qed.

(** ** The loop ends *)

(** The slices that are left at a cursor: one before the loop, one per pass. *)
Definition slices_left (a b cursor finish : Z) : Z :=
  (if cursor <? a then 2 + Z.max 0 (finish - 1 - a) / (b - a) else 1 + (finish - 1 - a) / (b - a) - (cursor - a) / (b - a)).

Lemma cut_ends a b start finish fuel : a < b -> forall cursor, (cursor < finish -> slices_left a b cursor finish <= Z.of_nat fuel) ->
  cut fuel (Some (a, b)) start cursor finish <> None.
Proof.
  intros Hab. set (L := b - a). assert (HL : 0 < L) by lia.
  induction fuel as [|fuel IH]; intros cursor Hfuel; cbn [cut]; destruct (finish <=? cursor) eqn:E; try done; pyinv;
    specialize (Hfuel E); unfold slices_left in Hfuel; fold L in Hfuel.
  - destruct (cursor <? a) eqn:Ea; pyinv.
    + pose proof (Z.div_pos (Z.max 0 (finish - 1 - a)) L ltac:(lia) HL). lia.
    + pose proof (Z.div_le_mono (cursor - a) (finish - 1 - a) L HL ltac:(lia)). lia.
  - destruct (next_slice _ _ _) as [pass boundary] eqn:En. specialize (IH boundary).
    destruct (cut fuel _ start boundary finish) as [[? ?]|]; [done|]. exfalso. apply IH; [|done]. clear IH. intros Hlt.
    unfold slices_left, next_slice in *. fold L in En |- *. destruct (cursor <? a) eqn:Ea; injection En as <- <-; pyinv.
    + destruct (Z.min finish a <? a) eqn:Eb; pyinv; [lia|]. replace (Z.min finish a) with a in * by lia.
      rewrite Z.sub_diag, Z.div_0_l by lia. rewrite Z.max_r in Hfuel by lia. lia.
    + set (q := (cursor - a) / L) in *. pose proof (Z.mul_succ_div_gt (cursor - a) L HL).
      replace (Z.min finish (a + (q + 1) * L)) with (a + (q + 1) * L) in * by lia. fold q in H.
      replace (a + (q + 1) * L <? a) with false by nia.
      replace (a + (q + 1) * L - a) with ((q + 1) * L) by ring. rewrite Z.div_mul by lia. lia.
Qed.

Lemma cut_fuel_enough loop start begin finish : loop_ok loop -> begin < finish ->
  cut (cut_fuel loop begin finish) loop start begin finish <> None.
Proof.
  destruct loop as [[a b]|]; cbn; intros Hl Hlt.
  - apply cut_ends; [done|]. intros _. set (L := b - a). assert (HL : 0 < L) by lia. unfold slices_left. fold L.
    pose proof (Z.div_pos (finish - begin) L ltac:(lia) HL). rewrite Z2Nat.id by lia.
    destruct (begin <? a) eqn:E; pyinv.
    + pose proof (Z.div_le_mono (Z.max 0 (finish - 1 - a)) (finish - begin) L HL ltac:(lia)). lia.
    + pose proof (Z.div_le_mono (finish - 1 - a) (finish - begin + (begin - a)) L HL ltac:(lia)).
      pose proof (Z.mul_div_le (begin - a) L HL). pose proof (Z.mul_succ_div_gt (begin - a) L HL).
      pose proof (Z.mul_div_le (finish - begin) L HL). pose proof (Z.mul_succ_div_gt (finish - begin) L HL).
      set (u := (finish - begin) / L) in *. set (v := (begin - a) / L) in *.
      assert ((finish - begin + (begin - a)) / L < u + v + 2) by (apply Z.div_lt_upper_bound; nia). lia.
  - replace (finish <=? begin) with false by lia. cbn. by rewrite Z.leb_refl.
Qed.

(** ** The gate over the blocks of a recording *)

(** The blocks pass one after the other; one that raises ends the recording, the others keep their effect. *)
Definition run_blocks (blocks : list pydict) (g : PunchCaptureGate) : PunchCaptureGate :=
  fold_left (fun g block => fst (select block g)) blocks g.

(** The parts of a gate no block changes. *)
Definition same_window (g g' : PunchCaptureGate) : Prop :=
  g'.(generation) = g.(generation) /\ g'.(latency) = g.(latency) /\ g'.(loop) = g.(loop)
  /\ g'.(maximum_passes) = g.(maximum_passes) /\ g'.(capture_start) = g.(capture_start) /\ g'.(capture_end) = g.(capture_end).

(** The passes counted so far are passes of the loop. *)
Definition passes_ok (g : PunchCaptureGate) : Prop := forall p, p ∈ g.(loop_passes) -> 0 <= p < g.(maximum_passes).

(** The four outcomes of a block: it does not convert, it is stale, it lies outside the window, or its slices are cut. *)
Lemma select_cases block g :
  (exists e, select block g = (g, Raise e))
  \/ select block g = (stale g, Ok (Some []))
  \/ exists n raw, block_int block "frames" 0 = Ok n /\ block_int block "showFrame" 0 = Ok raw
     /\ let start := Z.max 0 (raw - g.(latency)) in
        let '(begin, finish) := window g start (start + n) in
        (finish <= begin /\ select block g = (count 0 n ∅ (reaches_end g (start + n)) g, Ok (Some [])))
        \/ (begin < finish /\ select block g
            = match cut (cut_fuel g.(loop) begin finish) g.(loop) start begin finish with
              | None => (g, Ok None)
              | Some (slices, passes) =>
                  (count (total_frames slices) (n - total_frames slices) passes (reaches_end g (start + n)) g, Ok (Some slices))
              end).
Proof.
  unfold select. rewrite st_get_bind. unfold st_bind, st_lift.
  destruct (block_int block "generation" _) as [gen|e]; [|by left; exists e].
  destruct (negb _); [by right; left|].
  destruct (block_int block "frames" 0) as [n|e]; [|by left; exists e].
  destruct (block_int block "showFrame" 0) as [raw|e]; [|by left; exists e].
  right; right. exists n, raw. split_and!; [done..|]. cbn zeta.
  destruct (window g _ _) as [begin finish]. destruct (finish <=? begin) eqn:E; pyinv; [by left|right]. split; [done|].
  by destruct (cut _ _ _ _ _) as [[slices passes]|].
Qed.

Lemma gate_loop_ok g : gate_ok g -> loop_ok g.(loop).
Proof. intros (_ & _ & _ & H). destruct (loop g) as [[a b]|]; cbn; [lia|done]. Qed.

Lemma passes_within g start end_ f : gate_ok g ->
  let '(begin, finish) := window g start end_ in
  begin <= f < finish -> match g.(loop) with Some (a, _) => a <= f | None => False end ->
  0 <= pass_of g.(loop) f < g.(maximum_passes).
Proof.
  intros (Hm & _ & _ & H). cbn. unfold pass_of. destruct (loop g) as [[a b]|]; [|done]. destruct H as [Hab ->]. cbn.
  intros Hf Ha. replace (f <? a) with false by lia. split; [apply Z.div_pos; lia|].
  apply Z.div_lt_upper_bound; lia.
Qed.

Lemma select_keeps block g : gate_ok g -> passes_ok g ->
  same_window g (fst (select block g)) /\ gate_ok (fst (select block g)) /\ passes_ok (fst (select block g)).
Proof.
  intros Hg Hp.
  destruct (select_cases block g) as [[e ->]|[->|(n & raw & _ & _ & H)]]; [done|done|]. cbn zeta in H.
  pose proof (passes_within g (Z.max 0 (raw - g.(latency))) (Z.max 0 (raw - g.(latency)) + n)) as Hw.
  destruct (window g _ _) as [begin finish]. destruct H as [[_ ->]|[Hlt ->]].
  - split_and!; [done|done|]. intros p Hin. cbn in Hin. apply Hp. by apply elem_of_union in Hin as [?|[]%not_elem_of_empty].
  - destruct (cut _ _ _ _ _) as [[slices passes]|] eqn:Ec; [|done]. split_and!; [done|done|].
    intros p Hin. cbn in Hin. apply elem_of_union in Hin as [Hin|Hin]; [by apply Hp|].
    destruct (cut_frames _ _ _ (gate_loop_ok g Hg) _ _ _ _ Ec) as (_ & _ & Hps).
    apply Hps in Hin as (f & Hf & <- & Ha). by apply (Hw f Hg).
Qed.

Lemma run_keeps blocks g : gate_ok g -> passes_ok g ->
  same_window g (run_blocks blocks g) /\ gate_ok (run_blocks blocks g) /\ passes_ok (run_blocks blocks g).
Proof.
  revert g. induction blocks as [|block blocks IH]; intros g Hg Hp; [done|].
  change (run_blocks (block :: blocks) g) with (run_blocks blocks (fst (select block g))).
  destruct (select_keeps block g Hg Hp) as (Hs & Hg' & Hp'). destruct (IH _ Hg' Hp') as (Hs' & ? & ?).
  split_and!; [|done|done]. destruct Hs as (? & ? & ? & ? & ? & ?), Hs' as (? & ? & ? & ? & ? & ?). split_and!; congruence.
Qed.

Lemma new_passes_ok r g : new_gate r = Ok g -> passes_ok g.
Proof.
  unfold new_gate. intros H.
  repeat (apply bind_ok in H as (? & ?%refuse_ok & H)). apply bind_ok in H as (range & Hr & H).
  apply bind_ok in H as (? & ?%refuse_ok & [= <-]). intros p []%not_elem_of_empty.
Qed.

Lemma reached_ok r g0 blocks : new_gate r = Ok g0 -> gate_ok (run_blocks blocks g0) /\ passes_ok (run_blocks blocks g0).
Proof. intros H. eapply run_keeps; [by eapply new_gate_ok|by eapply new_passes_ok]. Qed.

(** C35: the loop over a block's slices ends. After any blocks of a recording, the
    gate answers every further block: either an exception for a field that is
    not a number, or a list of slices, whatever the positions, lengths and loop. *)
Theorem capture_loop_ends r g0 blocks block :
  new_gate r = Ok g0 ->
  (exists e, snd (select block (run_blocks blocks g0)) = Raise e)
  \/ exists slices, snd (select block (run_blocks blocks g0)) = Ok (Some slices).
Proof.
  intros [Hg _]%(reached_ok r g0 blocks). set (g := run_blocks blocks g0) in *.
  destruct (select_cases block g) as [[e ->]|[->|(n & raw & _ & _ & H)]]; [left; eauto|right; eauto|right]. cbn zeta in H.
  destruct (window g _ _) as [begin finish]. destruct H as [[_ ->]|[Hlt ->]]; [eauto|].
  pose proof (cut_fuel_enough g.(loop) (Z.max 0 (raw - g.(latency))) begin finish (gate_loop_ok g Hg) Hlt) as Hc.
  destruct (cut _ _ _ _ _) as [[slices passes]|]; [eauto|done].
Qed.

(** The slices of a block are its captured frames, one by one. For a gate
    after any blocks, the slices of a block of the gate's generation cover
    exactly the corrected frames inside the window, in order, each once and with
    the pass of the loop it falls in; the counts of selected and discarded frames
    grow by the frames of the block; and every pass counted is below the maximum. *)
Theorem slices_are_frame_by_frame r g0 blocks block g n raw slices g' :
  new_gate r = Ok g0 -> run_blocks blocks g0 = g ->
  block_int block "generation" g.(generation) = Ok g.(generation) -> block_int block "frames" 0 = Ok n ->
  block_int block "showFrame" 0 = Ok raw -> select block g = (g', Ok (Some slices)) ->
  let start := Z.max 0 (raw - g.(latency)) in
  let '(begin, finish) := window g start (start + n) in
  concat (map slice_frames slices) = window_frames g.(loop) start begin finish
  /\ g'.(selected_frames) = g.(selected_frames) + Z.max 0 (finish - begin)
  /\ g'.(selected_frames) + g'.(discarded_frames) = g.(selected_frames) + g.(discarded_frames) + n
  /\ passes_ok g'.
Proof.
  intros Hnew <- Hgen Hn Hraw Hs. set (g := run_blocks blocks g0) in *. cbn zeta.
  destruct (reached_ok r g0 blocks Hnew) as [Hg Hp]. fold g in Hg, Hp.
  pose proof (select_keeps block g Hg Hp) as (_ & _ & Hp'). rewrite Hs in Hp'. cbn in Hp'.
  unfold select in Hs. rewrite st_get_bind, (st_lift_bind _ _ _ _ Hgen), Z.eqb_refl in Hs. cbn [negb] in Hs.
  rewrite (st_lift_bind _ _ _ _ Hn), (st_lift_bind _ _ _ _ Hraw) in Hs. cbn zeta in Hs.
  destruct (window g _ _) as [begin finish]. destruct (finish <=? begin) eqn:E; pyinv.
  - rewrite st_modify_bind in Hs. injection Hs as <- <-. cbn.
    unfold window_frames. rewrite seqZ_nil by lia. split_and!; [done|lia|lia|done].
  - destruct (cut _ _ _ _ _) as [[ss ps]|] eqn:Ec; [|done]. rewrite st_modify_bind in Hs. injection Hs as <- <-.
    destruct (cut_frames _ _ _ (gate_loop_ok g Hg) _ _ _ _ Ec) as (Hf & Ht & _). cbn. rewrite Ht.
    split_and!; [done|lia|lia|done].
Qed.

(** ** Concrete recordings *)

Definition loop_request : gate_request :=
  {| rq_generation := 1; rq_punch_in := 100; rq_punch_out := None; rq_pre_roll := 10; rq_latency := 0;
     rq_loop_start := Some 100; rq_loop_end := Some 200; rq_passes := 2 |}.

Definition block_at (show_frame n : Z) : pydict := [("generation", VInt 1); ("frames", VInt n); ("showFrame", VInt show_frame)].

Lemma capture_loop_ends_witness :
  match new_gate loop_request with
  | Ok g => (exists e, snd (select (block_at 80 300) (run_blocks [block_at 0 80] g)) = Raise e)
            \/ exists slices, snd (select (block_at 80 300) (run_blocks [block_at 0 80] g)) = Ok (Some slices)
  | Raise _ => False
  end.
Proof.
  destruct (new_gate loop_request) as [g|e] eqn:E; [|vm_compute in E; discriminate].
  apply (capture_loop_ends loop_request g _ _ E).
Defined.

Lemma slices_are_frame_by_frame_witness :
  match new_gate loop_request with
  | Ok g0 =>
      match select (block_at 80 300) (run_blocks [block_at 0 80] g0) with
      | (g', Ok (Some slices)) =>
          concat (map slice_frames slices) = window_frames (Some (100, 200)) 80 90 300
          /\ g'.(selected_frames) = 0 + Z.max 0 (300 - 90) /\ g'.(selected_frames) + g'.(discarded_frames) = 0 + 80 + 300
          /\ passes_ok g'
      | _ => False
      end
  | Raise _ => False
  end.
Proof.
  destruct (new_gate loop_request) as [g0|e] eqn:E; [|vm_compute in E; discriminate].
  destruct (select (block_at 80 300) (run_blocks [block_at 0 80] g0)) as [g' [[slices|]|]] eqn:Es.
  - pose proof (slices_are_frame_by_frame loop_request g0 [block_at 0 80] (block_at 80 300) (run_blocks [block_at 0 80] g0)
                  300 80 slices g' E eq_refl) as H.
    vm_compute in E. injection E as <-. apply H; [reflexivity..|exact Es].
  - vm_compute in E. injection E as <-. vm_compute in Es. discriminate.
  - vm_compute in E. injection E as <-. vm_compute in Es. discriminate.
Defined.

(** The slices of the test of the repository: the pre-roll, then one slice per pass. *)
Example loop_slices :
  match new_gate loop_request with
  | Ok g => snd (select (block_at 80 300) g)
            = Ok (Some [{| offset := 10; frames := 10; corrected_start_frame := 90; loop_pass := 0 |};
                        {| offset := 20; frames := 100; corrected_start_frame := 100; loop_pass := 0 |};
                        {| offset := 120; frames := 100; corrected_start_frame := 200; loop_pass := 1 |}])
  | Raise _ => False
  end.
Proof. reflexivity. Qed.

(** The latency correction stops at frame 0 instead of dropping what lies before
    it: with a correction of 100 frames the first two blocks of 50 frames are both
    captured, over the same corrected frames. *)
Example early_blocks_are_captured_twice :
  match new_gate {| rq_generation := 1; rq_punch_in := 0; rq_punch_out := None; rq_pre_roll := 0; rq_latency := 100;
                    rq_loop_start := None; rq_loop_end := None; rq_passes := 1 |} with
  | Ok g => let first := select (block_at 0 50) g in
            let second := select (block_at 50 50) (fst first) in
            let slice := {| offset := 0; frames := 50; corrected_start_frame := 0; loop_pass := 0 |} in
            snd first = Ok (Some [slice]) /\ snd second = Ok (Some [slice]) /\ (fst second).(selected_frames) = 100
  | Raise _ => False
  end.
Proof. done. Qed.
