(* ===== verification/OverloadPolicy.v ===== *)
(** * Shedding effects under overload (backend/overload_policy.py)

    The plan that recommends which optional, latency-preserving effects to bypass
    when an output is overloaded, and which to restore when none is. *)

From S2P Require Import Prelude PyStr PyFloat PyVal PyFacts.

#[local] Open Scope string_scope.
#[local] Open Scope list_scope.
#[local] Open Scope Z_scope.

Record effect := { effectId : Z; outputSlot : Z; safetyClass : string; bypassMode : string; shedPriority : Z }.

(** An integer that is not a boolean, within bounds. *)
Definition int_between (v : pyval) (lo hi : Z) (message : string) : res Z :=
  match v with
  | VInt z => if (lo <=? z) && (z <=? hi) then Ok z else Raise (ValueError message)
  | _ => Raise (ValueError message)
  end.

Definition overload_level (raw : pyval) : res Z :=
  match raw with
  | VDict d => int_between (dget_or d "overloadLevel" (VInt 0)) 0 2 "overload level must be an integer from 0 through 2"
  | _ => Raise AttributeError
  end.

Definition seen_id (seen : list effect) (id : Z) : bool := existsb (fun e => e.(effectId) =? id) seen.

Definition one_of (s : string) (allowed : list string) (message : string) : res unit :=
  guard_res (existsb (String.eqb s) allowed) (ValueError message).

Definition new_id (v : pyval) (seen : list effect) : res Z :=
  match v with
  | VInt id => if (id <=? 0) || seen_id seen id then Raise (ValueError "effectId must be a unique positive integer") else Ok id
  | _ => Raise (ValueError "effectId must be a unique positive integer")
  end.

Definition classify (seen : list effect) (raw : pyval) : res (list effect) :=
  match raw with
  | VDict d =>
      let safety := py_str (dget_or d "safetyClass" (VStr "")) in
      let mode := py_str (dget_or d "bypassMode" (VStr "")) in
      id ← new_id (dget_none d "effectId") seen;
      slot ← int_between (dget_none d "outputSlot") 0 3 "effect outputSlot must be 0..3";
      _ ← one_of safety ["essential"; "optional"] "effect safetyClass must be essential or optional";
      _ ← one_of mode ["never"; "latency-preserving"] "effect bypassMode must be never or latency-preserving";
      priority ← int_between (dget_or d "shedPriority" (VInt 0)) 0 1000 "shedPriority must be an integer from 0 through 1000";
      Ok (seen ++ [{| effectId := id; outputSlot := slot; safetyClass := safety; bypassMode := mode; shedPriority := priority |}])
  | _ => Raise (ValueError "effect classification must be an object")
  end.

Definition optional (e : effect) : bool := String.eqb e.(safetyClass) "optional".
Definition preserving (e : effect) : bool := String.eqb e.(bypassMode) "latency-preserving".

(** The key (-priority, slot, identifier). *)
Definition sheds_before (a b : effect) : bool :=
  if a.(shedPriority) =? b.(shedPriority) then
    if a.(outputSlot) =? b.(outputSlot) then a.(effectId) <? b.(effectId) else a.(outputSlot) <? b.(outputSlot)
  else b.(shedPriority) <? a.(shedPriority).

Definition eligible (effects : list effect) : list effect :=
  sort_lt sheds_before (List.filter (fun e => optional e && preserving e) effects).

(** The effects the policy has bypassed already, each once. *)
Definition read_prior (effects : list effect) (prior : list Z) (v : pyval) : res (list Z) :=
  match v with
  | VInt id => if negb (seen_id effects id) then Raise (ValueError "policyBypassedEffectIds must reference classified effects")
               else Ok (if existsb (Z.eqb id) prior then prior else prior ++ [id])
  | _ => Raise (ValueError "policyBypassedEffectIds must reference classified effects")
  end.

Record shedding_plan := { sp_level : Z; sp_effects : list effect; sp_bypass : list Z; sp_restore : list Z }.

Definition bypass_of (level : Z) (effects : list effect) : list Z :=
  if level =? 0 then []
  else match level, eligible effects with
       | 1, e :: _ => [e.(effectId)]
       | _, l => map effectId l
       end.

Definition overload_shedding_plan (outputs effects : list pyval) (policy_bypassed : option (list pyval)) : res shedding_plan :=
  levels ← map_res overload_level outputs;
  let level := foldr Z.max 0 levels in
  normalized ← fold_res classify effects [];
  prior ← fold_res (read_prior normalized) (default [] policy_bypassed) [];
  Ok {| sp_level := level; sp_effects := normalized; sp_bypass := bypass_of level normalized;
        sp_restore := if level =? 0 then sort_lt Z.ltb prior else [] |}.

Definition ids (l : list Z) : pyval := VList (map VInt l).

Definition shedding_plan_dict (p : shedding_plan) : pydict :=
  [("documentType", VStr "org.upp.audio.overload-shedding-plan"); ("schemaVersion", VInt 1); ("overloadLevel", VInt p.(sp_level));
   ("action", VStr (if negb (null p.(sp_restore)) then "restore" else if negb (null p.(sp_bypass)) then "shed" else "hold"));
   ("recommendedBypassEffectIds", ids p.(sp_bypass)); ("recommendedRestoreEffectIds", ids p.(sp_restore));
   ("blockedOptionalEffectIds", ids (map effectId (List.filter (fun e => optional e && negb (preserving e)) p.(sp_effects))));
   ("essentialEffectIds", ids (map effectId (List.filter (fun e => String.eqb e.(safetyClass) "essential") p.(sp_effects))));
   ("deterministicOrder", VStr "priority-descending-output-slot-effect-id");
   ("requiresPreparedDelayGraph", VBool (negb (null p.(sp_bypass)) || negb (null p.(sp_restore))));
   ("automaticApply", VBool false); ("latencyPreservingOnly", VBool true); ("physicalOutputsArmed", VBool false)].

(** ** What a plan recommends *)

Lemma fold_max_range l : Forall (fun z => 0 <= z <= 2) l -> 0 <= foldr Z.max 0 l <= 2.
Proof. induction 1; cbn; lia. Qed.

Lemma overload_level_range raw z : overload_level raw = Ok z -> 0 <= z <= 2.
Proof.
  destruct raw; try done. cbn. unfold int_between. destruct (dget_or _ _ _); try done.
  destruct (_ && _) eqn:E; [|done]. intros [= <-]. pyinv. lia.
Qed.

(** Effects as they leave the classification: positive identifiers, each once. *)
Definition classified (l : list effect) : Prop := NoDup (map effectId l) /\ Forall (fun e => 0 < e.(effectId)) l.

Lemma seen_id_iff l id : seen_id l id = true <-> id ∈ map effectId l.
Proof.
  unfold seen_id. rewrite existsb_exists, list_elem_of_In, in_map_iff. clear.
  split; intros (e & H); exists e; rewrite Z.eqb_eq in *; tauto.
Qed.

Lemma classify_ok seen raw l : classify seen raw = Ok l -> classified seen -> classified l.
Proof.
  destruct raw; try done. cbn. intros H [Hnd Hpos]. apply bind_ok in H as (id & Hid & H).
  repeat (apply bind_ok in H as (? & _ & H)). injection H as <-.
  unfold new_id in Hid. destruct (dget_none _ _); try done. destruct (_ || _) eqn:E; [done|]. injection Hid as <-. pyinv.
  assert (Hn : z ∉ map effectId seen) by (rewrite <- seen_id_iff; congruence).
  split; [rewrite map_app; apply NoDup_app; split_and!; [done| |apply NoDup_singleton]|].
  - intros y Hy ->%list_elem_of_singleton. done.
  - apply Forall_app. split; [done|]. constructor; [cbn; lia|constructor].
Qed.

Lemma sheds_irreflexive e : sheds_before e e = false.
Proof. unfold sheds_before. by rewrite !Z.eqb_refl, Z.ltb_irrefl. Qed.

Lemma sheds_transitive a b c : sheds_before a b = true -> sheds_before b c = true -> sheds_before a c = true.
Proof.
  unfold sheds_before.
  destruct (Z.eqb_spec (shedPriority a) (shedPriority b)), (Z.eqb_spec (shedPriority b) (shedPriority c)),
    (Z.eqb_spec (shedPriority a) (shedPriority c)), (Z.eqb_spec (outputSlot a) (outputSlot b)),
    (Z.eqb_spec (outputSlot b) (outputSlot c)), (Z.eqb_spec (outputSlot a) (outputSlot c)); lia.
Qed.

Lemma elem_of_eligible effects e :
  e ∈ eligible effects <-> e ∈ effects /\ e.(safetyClass) = "optional" /\ e.(bypassMode) = "latency-preserving".
Proof.
  unfold eligible, optional, preserving.
  by rewrite sort_lt_Permutation, elem_of_filter_bool, andb_true_iff, !String.eqb_eq.
Qed.

Lemma eligible_head effects e l : eligible effects = e :: l -> forall e', e' ∈ eligible effects -> e'.(shedPriority) <= e.(shedPriority).
Proof.
  intros H e' He'. unfold eligible in *. rewrite sort_lt_Permutation in He'.
  pose proof (sort_lt_head _ sheds_irreflexive sheds_transitive _ _ _ H e' He') as Hlt. unfold sheds_before in Hlt.
  destruct (Z.eqb_spec (shedPriority e') (shedPriority e)); [lia|]. pyinv. lia.
Qed.

Lemma bypass_elem level effects id : id ∈ bypass_of level effects ->
  level <> 0 /\ exists e, e ∈ eligible effects /\ e.(effectId) = id
    /\ (level = 1 -> bypass_of level effects = [id] /\ forall e', e' ∈ eligible effects -> e'.(shedPriority) <= e.(shedPriority)).
Proof.
  unfold bypass_of. destruct (Z.eqb_spec level 0) as [->|H0]; [by intros ?%not_elem_of_nil|]. intros Hin. split; [done|].
  destruct (eligible effects) as [|e l] eqn:El; [by destruct level as [|[]|]; apply not_elem_of_nil in Hin|].
  destruct (decide (level = 1)) as [->|H1].
  - apply list_elem_of_singleton in Hin as ->. exists e. split_and!; [left|done|]. intros _. split; [done|].
    rewrite <- El. by apply (eligible_head _ _ l).
  - assert (Hin' : id ∈ map effectId (e :: l)) by (destruct level as [|[]|]; done).
    apply list_elem_of_fmap in Hin' as (e' & -> & He'). by exists e'.
Qed.

(** Only optional effects that can be bypassed without changing the latency
    are shed. A plan recommends a bypass only when an output is overloaded; then
    every effect it names is classified once as optional and latency preserving,
    at level 1 it names at most one, and that one has the highest priority; at
    level 2 it names all of them; and effects are restored only at level 0. *)
Theorem only_safe_effects_are_shed outputs effects prior p :
  overload_shedding_plan outputs effects prior = Ok p ->
  0 <= p.(sp_level) <= 2 /\ classified p.(sp_effects)
  /\ (forall id, id ∈ p.(sp_bypass) -> 0 < p.(sp_level) /\ exists e, e ∈ p.(sp_effects) /\ e.(effectId) = id
        /\ e.(safetyClass) = "optional" /\ e.(bypassMode) = "latency-preserving"
        /\ (p.(sp_level) = 1 -> p.(sp_bypass) = [id] /\ forall e', e' ∈ p.(sp_effects) -> optional e' = true -> preserving e' = true ->
              e'.(shedPriority) <= e.(shedPriority)))
  /\ (p.(sp_level) = 2 -> forall e, e ∈ p.(sp_effects) -> optional e = true -> preserving e = true -> e.(effectId) ∈ p.(sp_bypass))
  /\ (0 < p.(sp_level) -> p.(sp_restore) = []).
Proof.
  unfold overload_shedding_plan. intros H. apply bind_ok in H as (levels & Hlevels & H).
  apply bind_ok in H as (normalized & Hn & H). apply bind_ok in H as (priors & _ & [= <-]). cbn.
  assert (Hr : 0 <= foldr Z.max 0 levels <= 2).
  { apply fold_max_range. apply map_res_ok in Hlevels. eapply Forall2_Forall_r; [exact Hlevels|].
    apply Forall_forall. intros raw _ z. apply overload_level_range. }
  split_and!; [lia|lia| |..].
  - apply (fold_res_inv classified classify effects [] normalized); [|by split; constructor|done].
    intros b raw b' Hb Hc. by apply (classify_ok b raw b').
  - intros id (H0 & e & He & Hid & H1)%bypass_elem. split; [lia|]. apply elem_of_eligible in He as (He & Ho & Hp).
    exists e. split_and!; [done..|]. intros [Hb Hmax]%H1. split; [done|]. intros e' He' Ho' Hp'. apply Hmax, elem_of_eligible.
    unfold optional, preserving in *. by pyinv.
  - intros Hl e He Ho Hp. rewrite Hl. apply list_elem_of_fmap_2, elem_of_eligible. unfold optional, preserving in *. by pyinv.
  - intros Hl. by replace (foldr Z.max 0 levels =? 0) with false by lia.
Qed.

Definition classified_effect (id priority : Z) (safety mode : string) : pyval :=
  VDict [("effectId", VInt id); ("outputSlot", VInt 0); ("safetyClass", VStr safety); ("bypassMode", VStr mode);
         ("shedPriority", VInt priority)].

Definition rack : list pyval :=
  [classified_effect 1 900 "essential" "latency-preserving"; classified_effect 2 100 "optional" "latency-preserving";
   classified_effect 3 500 "optional" "latency-preserving"; classified_effect 4 800 "optional" "never"].

Definition outputs_at (levels : list Z) : list pyval := map (fun l => VDict [("overloadLevel", VInt l)]) levels.

Lemma only_safe_effects_are_shed_witness :
  match overload_shedding_plan (outputs_at [0; 1]) rack (Some [VInt 2]) with
  | Ok p => p.(sp_bypass) = [3] /\ p.(sp_restore) = [] /\ classified p.(sp_effects)
  | Raise _ => False
  end.
Proof.
  destruct (overload_shedding_plan (outputs_at [0; 1]) rack (Some [VInt 2])) as [p|e] eqn:E; [|vm_compute in E; discriminate].
  pose proof (only_safe_effects_are_shed _ _ _ _ E) as (_ & Hc & _). split; [vm_compute in E; by injection E as <-|].
  split; [vm_compute in E; by injection E as <-|exact Hc].
Defined.

Example shedding_by_level :
  map (fun levels => match overload_shedding_plan (outputs_at levels) rack (Some [VInt 4; VInt 2; VInt 4]) with
                     | Ok p => (p.(sp_bypass), p.(sp_restore))
                     | Raise _ => ([], [])
                     end) [[0; 0]; [1; 0]; [1; 2]]
  = [([], [2; 4]); ([3], []); ([3; 2], [])].
Proof. reflexivity. Qed.
