(* ===== verification/Notation.v ===== *)
(** * Notation capture (backend/notation.py)

    Player-scoped capture of note events as raw performance, the quantized
    notation derived from it, and its MusicXML text. *)

From S2P Require Import Prelude PyStr PyFloat PyVal PyFacts.
From Stdlib Require Import SpecFloat.

#[local] Open Scope string_scope.
#[local] Open Scope list_scope.
#[local] Open Scope Z_scope.
#[local] Open Scope st_scope.

Definition fz (z : Z) : float := float_of_Z z.
Definition fzero : float := S754_zero false.

(** [QUANTIZE_GRIDS]: the step of a grid in beats. *)
Definition QUANTIZE_GRIDS : list (string * float) :=
  [("1/4", fz 1); ("1/8", float_of_dec false 5 (-1)); ("1/16", float_of_dec false 25 (-2));
   ("1/32", float_of_dec false 125 (-3))].

Definition SHARP_NAMES : list string := ["C"; "C#"; "D"; "D#"; "E"; "F"; "F#"; "G"; "G#"; "A"; "A#"; "B"].
Definition FLAT_NAMES : list string := ["C"; "Db"; "D"; "Eb"; "E"; "F"; "Gb"; "G"; "Ab"; "A"; "Bb"; "B"].
Definition FLAT_KEYS : list string := ["F"; "Bb"; "Eb"; "Ab"; "Db"; "Gb"; "Cb"; "Fm"; "Bbm"; "Ebm"; "Abm"].

Definition clamp (value low high : float) : float := fmax low (fmin high value).

(** [sorted(...)] of the grids' names, as an error text shows them. *)
Definition bad_grid : exn := ValueError "quantize must be one of ['1/16', '1/32', '1/4', '1/8']".

(** [floor(max(0.0, beats) / step + 0.5) * step]. *)
Definition quantize_step (beats step : float) : res float :=
  n ← py_floor (fadd (fdiv (fmax fzero beats) step) (float_of_dec false 5 (-1)));
  x ← py_float (VInt n);
  Ok (fmul x step).

Definition quantize_beats (beats : float) (grid : string) : res float :=
  match alookup QUANTIZE_GRIDS grid with
  | Some step => quantize_step beats step
  | None => Raise bad_grid
  end.

(** Step letter, octave and alteration. *)
Definition midi_pitch_name (pitch : Z) (key : string) : res (string * Z * Z) :=
  if (pitch <? 0) || (127 <? pitch) then Raise (ValueError "pitch must be 0..127")
  else
    let names := if bool_decide (key ∈ FLAT_KEYS) || contains "b" key then FLAT_NAMES else SHARP_NAMES in
    let token := nth (Z.to_nat (pitch mod 12)) names "" in
    let octave := pitch / 12 - 1 in
    Ok (if str_len token =? 1 then (token, octave, 0)
        else (slice 1 token, octave, if contains "b" token then -1 else 1)).

(** ** Settings *)

Record NotationSettings := {
  enabled : bool;
  source : string;
  quantize : string;
  preserve_performance : bool;
  spell_by_project_key : bool;
}.

Definition default_settings : NotationSettings :=
  {| enabled := true; source := "midi"; quantize := "1/16"; preserve_performance := true;
     spell_by_project_key := true |}.

(** [if k in data: body(data[k])]. *)
Definition when_key {S} (data : pyval) (k : string) (body : pyval -> st S unit) : st S unit :=
  let* present := st_lift (vhas data k) in
  if (present : bool) then let* v := st_lift (vindex data k) in body v else st_ret tt.

(** The settings are assigned one by one: a refused one keeps those before it. *)
Definition patch_settings_of (data : pyval) : st NotationSettings unit :=
  let* _ := when_key data "enabled" (fun v => st_modify (fun s =>
    {| enabled := truthy v; source := s.(source); quantize := s.(quantize);
       preserve_performance := s.(preserve_performance); spell_by_project_key := s.(spell_by_project_key) |})) in
  let* _ := when_key data "source" (fun v =>
    let text := lower (strip (py_str v)) in
    if negb (bool_decide (text ∈ ["midi"; "manual"]))
    then st_raise (ValueError "notation source must be midi or manual")
    else st_modify (fun s =>
      {| enabled := s.(enabled); source := text; quantize := s.(quantize);
         preserve_performance := s.(preserve_performance); spell_by_project_key := s.(spell_by_project_key) |})) in
  let* _ := when_key data "quantize" (fun v =>
    let grid := strip (py_str v) in
    match alookup QUANTIZE_GRIDS grid with
    | None => st_raise bad_grid
    | Some _ => st_modify (fun s =>
        {| enabled := s.(enabled); source := s.(source); quantize := grid;
           preserve_performance := s.(preserve_performance); spell_by_project_key := s.(spell_by_project_key) |})
    end) in
  let* _ := when_key data "preservePerformance" (fun v =>
    if negb (truthy v) then st_raise (ValueError "preservePerformance must remain true in notation v1")
    else st_modify (fun s =>
      {| enabled := s.(enabled); source := s.(source); quantize := s.(quantize);
         preserve_performance := true; spell_by_project_key := s.(spell_by_project_key) |})) in
  when_key data "spellByProjectKey" (fun v => st_modify (fun s =>
    {| enabled := s.(enabled); source := s.(source); quantize := s.(quantize);
       preserve_performance := s.(preserve_performance); spell_by_project_key := truthy v |})).

(** ** Parts *)

Record CapturedNote := {
  n_id : Z; pitch : Z; velocity : Z;
  raw_start_seconds : float; raw_end_seconds : float;
  raw_start_beats : float; raw_duration_beats : float;
}.

(** A sounding note: identifier, velocity, start in seconds and in beats. *)
Definition active_note : Type := Z * Z * float * float.

Record NotationPart := {
  player_id : string;
  settings : NotationSettings;
  _notes : list CapturedNote;
  _active : gmap Z (list active_note);
  _next_id : Z;
}.

Abbreviation op := (st NotationPart).

Definition new_part (id : string) : NotationPart :=
  {| player_id := id; settings := default_settings; _notes := []; _active := ∅; _next_id := 1 |}.

Definition set_settings (x : NotationSettings) (p : NotationPart) : NotationPart :=
  {| player_id := p.(player_id); settings := x; _notes := p.(_notes); _active := p.(_active);
     _next_id := p.(_next_id) |}.

Definition set_capture (notes : list CapturedNote) (active : gmap Z (list active_note)) (next : Z)
    (p : NotationPart) : NotationPart :=
  {| player_id := p.(player_id); settings := p.(settings); _notes := notes; _active := active; _next_id := next |}.

(** A method of the settings, run on a part. *)
Definition on_settings (m : st NotationSettings unit) : op unit := fun p =>
  let '(x, r) := m p.(settings) in (set_settings x p, r).

(** A stored note read back. *)
Definition read_note (raw : pyval) : res CapturedNote :=
  i ← vindex raw "id"; id ← py_int i;
  p ← vindex raw "pitch"; pitch ← py_int p;
  v ← vget raw "velocity" (VInt 100); velocity ← py_int v;
  s ← vindex raw "rawStartSeconds"; start ← py_float s;
  e ← vindex raw "rawEndSeconds"; stop ← py_float e;
  b ← vget raw "rawStartBeats" (VFloat fzero); beats ← py_float b;
  d ← vget raw "rawDurationBeats" (VFloat fzero); duration ← py_float d;
  Ok {| n_id := Z.max 1 id; pitch := pitch; velocity := velocity;
        raw_start_seconds := fmax fzero start; raw_end_seconds := fmax fzero stop;
        raw_start_beats := fmax fzero beats; raw_duration_beats := fmax fzero duration |}.

(** The notes that read back and are in range; others are dropped. *)
Definition restore_note (acc : list CapturedNote) (raw : pyval) : res (list CapturedNote) :=
  match read_note raw with
  | Ok n => Ok (if (0 <=? n.(pitch)) && (n.(pitch) <=? 127) && fle n.(raw_start_seconds) n.(raw_end_seconds)
                then acc ++ [n] else acc)
  | Raise e => if key_type_value e then Ok acc else Raise e
  end.

Definition highest_id (notes : list CapturedNote) : Z := fold_left (fun m n => Z.max m n.(n_id)) notes 0.

Definition make_part (id : string) (snapshot : pyval) : res NotationPart :=
  if negb (truthy snapshot) then Ok (new_part id)
  else
    s ← vget snapshot "settings" VNone;
    x ← (match patch_settings_of (py_or s (VDict [])) default_settings with
         | (x, Ok _) => Ok x
         | (_, Raise e) => Raise e
         end);
    r ← vget snapshot "rawNotes" VNone;
    items ← (py_iter (py_or r (VList [])) : res (list pyval));
    notes ← fold_res restore_note items [];
    Ok {| player_id := id; settings := x; _notes := notes; _active := ∅; _next_id := highest_id notes + 1 |}.

Definition bad_pitch (p : Z) : bool := (p <? 0) || (127 <? p).

(** [seconds * float(bpm) / 60.0]. *)
Definition beat_at (seconds bpm : float) : float := fdiv (fmul seconds bpm) (fz 60).

Definition note_on (pitch velocity : Z) (seconds bpm : float) : op unit :=
  if bad_pitch pitch then st_raise (ValueError "pitch must be 0..127")
  else
    let* v := st_lift (py_float (VInt velocity)) in
    let* v := st_lift (py_int (VFloat (clamp v (fz 1) (fz 127)))) in
    let seconds := fmax fzero seconds in
    st_modify (fun p =>
      let held := default [] (p.(_active) !! pitch) in
      set_capture p.(_notes) (<[pitch := held ++ [(p.(_next_id), v, seconds, beat_at seconds bpm)]]> p.(_active))
        (p.(_next_id) + 1) p).

Definition note_lt (a b : CapturedNote) : bool :=
  if feq a.(raw_start_seconds) b.(raw_start_seconds) then a.(n_id) <? b.(n_id)
  else flt a.(raw_start_seconds) b.(raw_start_seconds).

Definition max_notes : nat := Z.to_nat 4096.

(** [l[-n:]]: the last [n] elements, all of them for [n = 0]. *)
Definition last_slice {A} (n : nat) (l : list A) : list A :=
  match n with O => l | _ => skipn (length l - n) l end.

Definition note_off (pitch : Z) (seconds bpm : float) : op unit :=
  if bad_pitch pitch then st_raise (ValueError "pitch must be 0..127")
  else
    let* p := st_get in
    match p.(_active) !! pitch with
    | Some ((id, velocity, start, start_beat) :: rest) =>
        let stop := fmax start seconds in
        let note := {| n_id := id; pitch := pitch; velocity := velocity; raw_start_seconds := start;
                       raw_end_seconds := stop; raw_start_beats := start_beat;
                       raw_duration_beats := fmax fzero (fsub (beat_at stop bpm) start_beat) |} in
        let notes := sort_lt note_lt (p.(_notes) ++ [note]) in
        st_put (set_capture
                  (if Nat.ltb max_notes (length notes) then last_slice max_notes notes else notes)
                  (match rest with [] => delete pitch p.(_active) | _ => <[pitch := rest]> p.(_active) end)
                  p.(_next_id) p)
    | _ => st_raise (ValueError ("no active note for pitch " +:+ dec pitch))
    end.

Definition clear : op unit := st_modify (set_capture [] ∅ 1).

(** ** The derived view *)

Record derived := {
  d_note : CapturedNote;
  d_start : float;
  d_duration : float;
  d_step : string;
  d_alter : Z;
  d_octave : Z;
}.

Definition derive (p : NotationPart) (key : string) (minimum : float) (n : CapturedNote) : res derived :=
  start ← quantize_beats n.(raw_start_beats) p.(settings).(quantize);
  length ← quantize_beats n.(raw_duration_beats) p.(settings).(quantize);
  '(step, octave, alter) ← midi_pitch_name n.(pitch) (if p.(settings).(spell_by_project_key) then key else "C");
  Ok {| d_note := n; d_start := fround 6 start; d_duration := fround 6 (fmax minimum length);
        d_step := step; d_alter := alter; d_octave := octave |}.

Definition derived_notes (p : NotationPart) (key : string) : res (list derived) :=
  match alookup QUANTIZE_GRIDS p.(settings).(quantize) with
  | None => Raise (KeyError p.(settings).(quantize))
  | Some minimum => map_res (derive p key minimum) p.(_notes)
  end.

Definition raw_fields (n : CapturedNote) : pydict :=
  [("id", VInt n.(n_id)); ("pitch", VInt n.(pitch)); ("velocity", VInt n.(velocity));
   ("rawStartSeconds", VFloat (fround 6 n.(raw_start_seconds)));
   ("rawEndSeconds", VFloat (fround 6 n.(raw_end_seconds)));
   ("rawStartBeats", VFloat (fround 6 n.(raw_start_beats)));
   ("rawDurationBeats", VFloat (fround 6 n.(raw_duration_beats)))].

Definition alter_text (alter : Z) : string := if 0 <? alter then "#" else if alter <? 0 then "b" else "".

Definition derived_dict (d : derived) : pydict :=
  raw_fields d.(d_note)
  ++ [("startBeats", VFloat d.(d_start)); ("durationBeats", VFloat d.(d_duration)); ("step", VStr d.(d_step));
      ("alter", VInt d.(d_alter)); ("octave", VInt d.(d_octave));
      ("name", VStr (d.(d_step) +:+ alter_text d.(d_alter) +:+ dec d.(d_octave)))].

Definition settings_dict (x : NotationSettings) : pydict :=
  [("enabled", VBool x.(enabled)); ("source", VStr x.(source)); ("quantize", VStr x.(quantize));
   ("preservePerformance", VBool x.(preserve_performance));
   ("spellByProjectKey", VBool x.(spell_by_project_key))].

Definition active_count (p : NotationPart) : Z :=
  map_fold (fun _ l n => Z.of_nat (length l) + n) 0 p.(_active).

Definition snapshot (key : string) (include_raw : bool) (note_limit : option Z) (p : NotationPart) : res pydict :=
  ds ← derived_notes p key;
  let ds := match note_limit with Some n => last_slice (Z.to_nat (Z.max 0 n)) ds | None => ds end in
  Ok ([("playerId", VStr p.(player_id)); ("settings", VDict (settings_dict p.(settings)));
       ("activeNotes", VInt (active_count p)); ("rawNoteCount", VInt (Z.of_nat (length p.(_notes))));
       ("notes", VList (map (fun d => VDict (derived_dict d)) ds))]
      ++ (if include_raw then [("rawNotes", VList (map (fun n => VDict (raw_fields n)) p.(_notes)))] else [])).

(** ** MusicXML *)

Definition escape_char (c : ascii) : list ascii :=
  let z := code c in
  if z =? 38 then chars "&amp;" else if z =? 60 then chars "&lt;" else if z =? 62 then chars "&gt;"
  else if z =? 34 then chars "&quot;" else if z =? 39 then chars "&#x27;" else [c].

(** [attr="value"]. *)
Definition attr (name value : string) : string :=
  name +:+ "=" +:+ of_chars [dquote] +:+ value +:+ of_chars [dquote].

(** [html.escape(text)]. *)
Definition escape (s : string) : string := of_chars (concat (map escape_char (chars s))).

Definition divisions : Z := 8.

Definition fifths_by_key : list (string * Z) :=
  [("C", 0); ("G", 1); ("D", 2); ("A", 3); ("E", 4); ("B", 5); ("F#", 6); ("C#", 7);
   ("F", -1); ("Bb", -2); ("Eb", -3); ("Ab", -4); ("Db", -5); ("Gb", -6); ("Cb", -7)].

(** [int(floor(note["startBeats"] / 4.0)) + 1]. *)
Definition measure_of (d : derived) : res Z := n ← py_floor (fdiv d.(d_start) (fz 4)); Ok (n + 1).

Definition derived_lt (a b : derived) : bool :=
  if feq a.(d_start) b.(d_start) then a.(d_note).(pitch) <? b.(d_note).(pitch) else flt a.(d_start) b.(d_start).

(** [1e-9]. *)
Definition epsilon : float := float_of_dec false 1 (-9).

(** [max(1, int(round(beats * divisions)))]. *)
Definition duration_of (beats : float) : res Z :=
  n ← py_round_int (fmul beats (fz divisions)); Ok (Z.max 1 n).

Definition rest_lines (duration : Z) : list string :=
  ["      <note>"; "        <rest/>"; "        <duration>" +:+ dec duration +:+ "</duration>"; "      </note>"].

Definition note_lines (d : derived) (chord : bool) (duration : Z) : list string :=
  ["      <note>"] ++ (if chord then ["        <chord/>"] else []) ++ ["        <pitch>"]
  ++ ["          <step>" +:+ d.(d_step) +:+ "</step>"]
  ++ (if d.(d_alter) =? 0 then [] else ["          <alter>" +:+ dec d.(d_alter) +:+ "</alter>"])
  ++ ["          <octave>" +:+ dec d.(d_octave) +:+ "</octave>"; "        </pitch>";
      "        <duration>" +:+ dec duration +:+ "</duration>"; "      </note>"].

(** The position reached, the last start and the lines so far. *)
Definition cursor : Type := float * option float * list string.

Definition measure_note (c : cursor) (d : derived) : res cursor :=
  let '(position, last_start, lines) := c in
  let chord := match last_start with
               | Some s => flt (fabs (fsub d.(d_start) s)) epsilon
               | None => false
               end in
  let gap := if chord then fzero else fmax fzero (fsub d.(d_start) position) in
  '(position, lines) ← (if flt epsilon gap
                        then rest ← duration_of gap;
                             Ok (fadd position (fdiv (fz rest) (fz divisions)), lines ++ rest_lines rest)
                        else Ok (position, lines));
  duration ← duration_of d.(d_duration);
  Ok (if chord then position else fmax position (fadd d.(d_start) d.(d_duration)), Some d.(d_start),
      lines ++ note_lines d chord duration).

Definition first_measure_lines (fifths : Z) (bpm : float) : list string :=
  ["      <attributes>"; "        <divisions>" +:+ dec divisions +:+ "</divisions>";
   "        <key><fifths>" +:+ dec fifths +:+ "</fifths></key>";
   "        <time><beats>4</beats><beat-type>4</beat-type></time>";
   "        <clef><sign>G</sign><line>2</line></clef>"; "      </attributes>";
   "      <direction " +:+ attr "placement" "above" +:+ "><sound " +:+ attr "tempo" (format_g bpm) +:+ "/></direction>"].

Definition measure_lines (fifths : Z) (bpm : float) (placed : list (Z * derived)) (no : Z) : res (list string) :=
  let notes := sort_lt derived_lt (omap (M:=list) (fun md => if fst md =? no then Some (snd md) else None) placed) in
  '(position, _, lines) ← fold_res measure_note notes
      (fmul (fz (no - 1)) (fz 4), None, if no =? 1 then first_measure_lines fifths bpm else []);
  let remaining := fsub (fmul (fz no) (fz 4)) position in
  tail ← (if flt epsilon remaining then d ← duration_of remaining; Ok (rest_lines d) else Ok []);
  Ok (["    <measure " +:+ attr "number" (dec no) +:+ ">"] ++ lines ++ tail
      ++ ["    </measure>"]).

Definition score_head (part_name : string) : list string :=
  ["<?xml " +:+ attr "version" "1.0" +:+ " " +:+ attr "encoding" "UTF-8" +:+ " " +:+ attr "standalone" "no" +:+ "?>";
   "<!DOCTYPE score-partwise PUBLIC " +:+ of_chars [dquote] +:+ "-//Recordare//DTD MusicXML 4.0 Partwise//EN"
   +:+ of_chars [dquote] +:+ " " +:+ of_chars [dquote] +:+ "http://www.musicxml.org/dtds/partwise.dtd"
   +:+ of_chars [dquote] +:+ ">";
   "<score-partwise " +:+ attr "version" "4.0" +:+ ">"; "  <part-list>";
   "    <score-part " +:+ attr "id" "P1" +:+ "><part-name>" +:+ escape part_name +:+ "</part-name></score-part>";
   "  </part-list>"; "  <part " +:+ attr "id" "P1" +:+ ">"].

Definition musicxml (part_name : string) (bpm : float) (key : string) (p : NotationPart) : res string :=
  notes ← derived_notes p key;
  placed ← map_res (fun d => m ← measure_of d; Ok (m, d)) notes;
  let count := fold_left (fun m md => Z.max m (fst md)) placed 1 in
  let fifths := default 0 (alookup fifths_by_key key) in
  measures ← map_res (measure_lines fifths bpm placed) (seqZ 1 count);
  Ok (join newline (score_head part_name ++ concat measures ++ ["  </part>"; "</score-partwise>"; ""])).

(** ** The registry *)

Record registry := { _parts : list (string * NotationPart) }.

Abbreviation rop := (st registry).

Definition make_registry (player_ids : list string) (snapshot : pyval) : res registry :=
  let snapshot := py_or snapshot (VDict []) in
  parts ← fold_res (fun m id => v ← vget snapshot id VNone; p ← make_part id v; Ok (aput m id p)) player_ids [];
  Ok {| _parts := parts |}.

Definition ensure (id : string) (r : registry) : NotationPart := default (new_part id) (alookup r.(_parts) id).

(** A method of one part, which exists from then on. *)
Definition on_part {A} (id : string) (m : op A) : rop A := fun r =>
  let '(p, a) := m (ensure id r) in ({| _parts := aput r.(_parts) id p |}, a).

Definition registry_snapshot (key : string) (include_raw : bool) (note_limit : option Z) (r : registry)
    : res pydict :=
  map_res (fun kv => s ← snapshot key include_raw note_limit (snd kv); Ok (fst kv, VDict s)) r.(_parts).

Definition part_snapshot (id key : string) (include_raw : bool) (note_limit : option Z) : rop pydict :=
  on_part id (let* p := st_get in st_lift (snapshot key include_raw note_limit p)).

Definition patch_settings (id : string) (data : pyval) : rop unit :=
  on_part id (on_settings (patch_settings_of data)).

Definition note (id action : string) (pitch velocity : Z) (seconds bpm : float) : rop unit :=
  on_part id
    (let action := lower (strip action) in
     if String.eqb action "on" then note_on pitch velocity seconds bpm
     else if String.eqb action "off" then note_off pitch seconds bpm
     else st_raise (ValueError "notation note action must be on or off")).

Definition clear_part (id : string) : rop unit := on_part id clear.

Definition registry_musicxml (id part_name : string) (bpm : float) (key : string) : rop string :=
  on_part id (let* p := st_get in st_lift (musicxml part_name bpm key p)).

(** ** A fact its clients share *)

Lemma last_slice_length {A} n (l : list A) : (0 < n)%nat -> (length (last_slice n l) <= n)%nat.
Proof. unfold last_slice. destruct n; [lia|]. intros _. rewrite length_skipn. lia. Qed.
