(* ===== verification/NotationCapture.v ===== *)
(** * What capture and spelling guarantee (backend/notation.py)

    The pitch spelling names exactly the captured pitch; and whatever events a
    part receives, refused ones included, its captured notes stay bounded, in
    range and uniquely identified, and a note that is still sounding has not
    been captured. *)

From S2P Require Import Prelude PyStr PyFloat PyVal PyFacts StateLogic Notation.
From Stdlib Require Import SpecFloat.

#[local] Open Scope string_scope.
#[local] Open Scope list_scope.
#[local] Open Scope Z_scope.
#[local] Open Scope st_scope.

(** ** Spelling *)

(** Semitones of a step letter above C. *)
Definition semitone (step : string) : option Z :=
  alookup [("C", 0); ("D", 2); ("E", 4); ("F", 5); ("G", 7); ("A", 9); ("B", 11)] step.

Definition spelled (pitch : Z) (s : string * Z * Z) : bool :=
  let '(step, octave, alter) := s in
  match semitone step with
  | Some n => (12 * (octave + 1) + n + alter =? pitch) && (-1 <=? alter) && (alter <=? 1)
  | None => false
  end.

Lemma every_pitch_spelled :
  forallb (fun key => forallb (fun pitch => match midi_pitch_name pitch key with Ok s => spelled pitch s | Raise _ => false end)
                        (seqZ 0 128)) ["C"; "F"] = true.
Proof. vm_compute. reflexivity. Qed.

(** Only the choice between sharps and flats depends on the key. *)
Lemma key_is_sharp_or_flat pitch key :
  midi_pitch_name pitch key = midi_pitch_name pitch "C" \/ midi_pitch_name pitch key = midi_pitch_name pitch "F".
Proof.
  unfold midi_pitch_name. destruct (bool_decide (key ∈ FLAT_KEYS) || contains "b" key).
  - right. reflexivity.
  - left. reflexivity.
Qed.

(** The spelling of a pitch in any key names that pitch: a step letter, its octave and an alteration of at most
    one semitone that add up to the MIDI number; and exactly the numbers outside 0..127 are refused. *)
Theorem spelling_names_the_pitch pitch key :
  match midi_pitch_name pitch key with
  | Ok (step, octave, alter) =>
      0 <= pitch <= 127 /\ exists n, semitone step = Some n /\ 12 * (octave + 1) + n + alter = pitch /\ -1 <= alter <= 1
  | Raise e => (pitch < 0 \/ 127 < pitch) /\ e = ValueError "pitch must be 0..127"
  end.
Proof.
  destruct (decide (0 <= pitch <= 127)) as [H|H].
  - assert (Hs : exists s, midi_pitch_name pitch key = Ok s /\ spelled pitch s = true).
    { pose proof every_pitch_spelled as Hall. rewrite forallb_forall in Hall.
      assert (Hin : In pitch (seqZ 0 128)) by (apply list_elem_of_In, elem_of_seqZ; lia).
      assert (Hk : forall k, In k ["C"; "F"] -> exists s, midi_pitch_name pitch k = Ok s /\ spelled pitch s = true).
      { intros k Hk. specialize (Hall k Hk). rewrite forallb_forall in Hall. specialize (Hall pitch Hin).
        destruct (midi_pitch_name pitch k) as [s|]; [by exists s|done]. }
      destruct (key_is_sharp_or_flat pitch key) as [->| ->]; apply Hk; cbn; auto. }
    destruct Hs as ([[step octave] alter] & -> & Hs). unfold spelled in Hs. split; [done|].
    destruct (semitone step) as [n|]; [|done]. exists n. pyinv. by split_and!.
  - unfold midi_pitch_name. replace ((pitch <? 0) || (127 <? pitch)) with true; [split; [lia|done]|].
    symmetry. apply orb_true_iff. rewrite !Z.ltb_lt. lia.
Qed.

(** ** The capture invariant *)

(** The identifiers of a pitch's sounding notes, oldest first. *)
Definition held_ids (l : list active_note) : list Z := map (fun a => fst (fst (fst a))) l.

Definition note_in_range (n : CapturedNote) : Prop :=
  0 <= n.(pitch) <= 127 /\ fle n.(raw_start_seconds) n.(raw_end_seconds) = true
  /\ fle fzero n.(raw_duration_beats) = true.

(** A sounding note of some pitch. *)
Definition sounds (p : NotationPart) (pitch : Z) (i : nat) (a : active_note) : Prop :=
  exists l, p.(_active) !! pitch = Some l /\ l !! i = Some a.

Record capture_ok (p : NotationPart) : Prop := {
  co_bound : (length p.(_notes) <= max_notes)%nat;
  co_notes : Forall note_in_range p.(_notes);
  co_ids : NoDup (map n_id p.(_notes));
  co_next : Forall (fun n => n.(n_id) < p.(_next_id)) p.(_notes);
  co_sounds : forall pitch i a, sounds p pitch i a ->
    0 <= pitch <= 127 /\ fst (fst (fst a)) < p.(_next_id) /\ fle (snd (fst a)) (snd (fst a)) = true
    /\ fst (fst (fst a)) ∉ map n_id p.(_notes);
  co_once : forall pitch i a pitch' j b, sounds p pitch i a -> sounds p pitch' j b ->
    fst (fst (fst a)) = fst (fst (fst b)) -> pitch = pitch' /\ i = j;
}.


Lemma last_slice_sublist {A} n (l : list A) : last_slice n l `sublist_of` l.
Proof. unfold last_slice. destruct n; [done|]. apply sublist_drop. Qed.

(** The completed list after one more note: some of the old ones and the new one, within the bound. *)
Definition completed (notes : list CapturedNote) (n : CapturedNote) : list CapturedNote :=
  let sorted := sort_lt note_lt (notes ++ [n]) in
  if Nat.ltb max_notes (length sorted) then last_slice max_notes sorted else sorted.

Lemma completed_sublist notes n : exists l, l ≡ₚ n :: notes /\ completed notes n `sublist_of` l.
Proof.
  exists (sort_lt note_lt (notes ++ [n])). split; [by rewrite sort_lt_Permutation, Permutation_app_comm|].
  unfold completed. destruct (Nat.ltb _ _); [apply last_slice_sublist|done].
Qed.

Lemma completed_bound notes n : (length (completed notes n) <= max_notes)%nat.
Proof.
  unfold completed. destruct (Nat.ltb_spec max_notes (length (sort_lt note_lt (notes ++ [n])))); [|lia].
  apply last_slice_length. unfold max_notes. lia.
Qed.

Lemma completed_Forall (P : CapturedNote -> Prop) notes n : P n -> Forall P notes -> Forall P (completed notes n).
Proof.
  intros Hn H. destruct (completed_sublist notes n) as (l & Hp & Hs).
  assert (Hl : Forall P l) by (rewrite Hp; by constructor). rewrite !list.Forall_forall in *.
  intros x Hx. eapply Hl, elem_of_sublist; eauto.
Qed.

Lemma completed_ids notes n : n.(n_id) ∉ map n_id notes -> NoDup (map n_id notes) ->
  NoDup (map n_id (completed notes n)).
Proof.
  intros Hn H. destruct (completed_sublist notes n) as (l & Hp & Hs).
  eapply sublist_NoDup; [|exact (fmap_sublist n_id _ _ Hs)].
  change (NoDup (n_id <$> l)). rewrite Hp. cbn. by constructor.
Qed.

Lemma completed_not_in notes n i : i <> n.(n_id) -> i ∉ map n_id notes -> i ∉ map n_id (completed notes n).
Proof.
  intros Hi Hn. destruct (completed_sublist notes n) as (l & Hp & Hs). intros Hc.
  apply (elem_of_sublist _ (map n_id l)) in Hc; [|exact (fmap_sublist n_id _ _ Hs)].
  change (i ∈ n_id <$> l) in Hc. rewrite Hp in Hc. cbn in Hc. by apply elem_of_cons in Hc as [?|?].
Qed.

(** ** Every event keeps the invariant *)

Lemma silent p notes next q i a : ~ sounds (set_capture notes ∅ next p) q i a.
Proof. intros (l & Hl & _). unfold set_capture in Hl. cbn [_active] in Hl. by rewrite lookup_empty in Hl. Qed.

Lemma empty_ok p next : capture_ok (set_capture [] ∅ next p).
Proof.
  split; cbn [_notes set_capture length map]; try by constructor.
  - lia.
  - by intros q i a Ha%silent.
  - by intros q i a q' j b Ha%silent.
Qed.

Lemma new_part_ok id : capture_ok (new_part id).
Proof. exact (empty_ok (new_part id) 1). Qed.

Lemma fmax_fzero_not_nan x : fle (fmax fzero x) (fmax fzero x) = true.
Proof.
  unfold fmax. destruct (flt fzero x) eqn:E; [|done]. destruct x as [| | |s m e]; try done; [by destruct s|].
  unfold fle, SFleb, SFcompare. rewrite Z.compare_refl. destruct s; by rewrite Pos.compare_refl.
Qed.

Lemma fmax_le x y : fle x x = true -> fle x (fmax x y) = true.
Proof. intros H. unfold fmax. destruct (flt x y) eqn:E; [by apply flt_fle|done]. Qed.

(** A note that starts to sound joins its pitch's queue under a fresh identifier. *)
Lemma sounds_on p q v start beat q' i a :
  sounds (set_capture p.(_notes) (<[q := default [] (p.(_active) !! q) ++ [(p.(_next_id), v, start, beat)]]> p.(_active))
            (p.(_next_id) + 1) p) q' i a ->
  sounds p q' i a \/ q' = q /\ i = length (default [] (p.(_active) !! q)) /\ a = (p.(_next_id), v, start, beat).
Proof.
  intros (l & Hl & Hi). cbn in Hl. destruct (decide (q' = q)) as [->|Hq].
  - rewrite lookup_insert_eq in Hl. injection Hl as <-.
    apply lookup_app_Some in Hi as [Hi|[Hle Hi]].
    + left. destruct (p.(_active) !! q) as [l|] eqn:E; [|done]. by exists l.
    + right. apply list_lookup_singleton_Some in Hi as [Hz <-]. split; [done|]. split; [|done]. by apply Nat.le_antisymm; [apply Nat.sub_0_le|].
  - rewrite lookup_insert_ne in Hl by done. left. by exists l.
Qed.

Lemma note_on_ok p q v start beat : capture_ok p -> 0 <= q <= 127 -> fle start start = true ->
  capture_ok (set_capture p.(_notes)
    (<[q := default [] (p.(_active) !! q) ++ [(p.(_next_id), v, start, beat)]]> p.(_active)) (p.(_next_id) + 1) p).
Proof.
  intros [Hb Hn Hi Hx Hs Ho] Hq Hf. assert (Hfresh : p.(_next_id) ∉ map n_id p.(_notes)).
  { intros (n & Hid & Hin)%list_elem_of_fmap. rewrite list.Forall_forall in Hx. specialize (Hx n Hin). lia. }
  split; auto.
  - eapply Forall_impl; [exact Hx|]. cbn. intros n Hn'. lia.
  - intros q' i a [Ha|(-> & -> & ->)]%sounds_on; cbn; [|by split_and!; auto; lia].
    destruct (Hs _ _ _ Ha) as (? & ? & ? & ?). split_and!; auto; lia.
  - intros q1 i a q2 j b [Ha|(-> & -> & ->)]%sounds_on [Hb'|(-> & -> & ->)]%sounds_on; cbn; intros E; eauto.
    + destruct (Hs _ _ _ Ha) as (_ & Hlt & _). lia.
    + destruct (Hs _ _ _ Hb') as (_ & Hlt & _). lia.
Qed.

(** When the oldest note of a pitch ends, the others move up. *)
Lemma sounds_off p q a rest notes next q' i b : p.(_active) !! q = Some (a :: rest) ->
  sounds (set_capture notes (match rest with [] => delete q p.(_active) | _ => <[q := rest]> p.(_active) end) next p) q' i b ->
  if decide (q' = q) then sounds p q' (S i) b else sounds p q' i b.
Proof.
  intros Hq (l & Hl & Hi). cbn in Hl. destruct (decide (q' = q)) as [->|Hne].
  - destruct rest as [|c rest]; [by rewrite lookup_delete_eq in Hl|].
    rewrite lookup_insert_eq in Hl. injection Hl as <-. by exists (a :: c :: rest).
  - exists l. split; [|done]. destruct rest; [by rewrite lookup_delete_ne in Hl|by rewrite lookup_insert_ne in Hl].
Qed.

Lemma note_off_ok p q a rest n : capture_ok p -> p.(_active) !! q = Some (a :: rest) ->
  n.(n_id) = fst (fst (fst a)) -> note_in_range n ->
  capture_ok (set_capture (completed p.(_notes) n)
    (match rest with [] => delete q p.(_active) | _ => <[q := rest]> p.(_active) end) p.(_next_id) p).
Proof.
  intros [Hb Hn Hi Hx Hs Ho] Hq Hid Hr. assert (Ha : sounds p q 0 a) by (by exists (a :: rest)).
  destruct (Hs _ _ _ Ha) as (Hq' & Hlt & _ & Hnew).
  assert (Hmoved : forall q' i b, sounds (set_capture (completed p.(_notes) n)
      (match rest with [] => delete q p.(_active) | _ => <[q := rest]> p.(_active) end) p.(_next_id) p) q' i b ->
      exists j, sounds p q' j b /\ j = (if decide (q' = q) then S i else i)).
  { intros q' i b Hso%(sounds_off _ _ a); [|done]. destruct (decide (q' = q)); eauto. }
  split; cbn [_notes _next_id set_capture].
  - apply completed_bound.
  - by apply completed_Forall.
  - apply completed_ids; [by rewrite Hid|done].
  - apply completed_Forall; [lia|done].
  - intros q' i b (j & Hso & Hj)%Hmoved. destruct (Hs _ _ _ Hso) as (? & ? & ? & ?). split_and!; auto; try lia.
    apply completed_not_in; [|done]. rewrite Hid. intros E. destruct (Ho _ _ _ _ _ _ Hso Ha E) as [-> ->].
    by rewrite decide_True in Hj.
  - intros q1 i b q2 j c (i' & Hb' & Hi')%Hmoved (j' & Hc & Hj')%Hmoved E.
    destruct (Ho _ _ _ _ _ _ Hb' Hc E) as [-> ->]. split; [done|]. destruct (decide (q2 = q)); lia.
Qed.

(** The events a part receives. *)
Inductive event :=
  | EOn (pitch velocity : Z) (seconds bpm : float)
  | EOff (pitch : Z) (seconds bpm : float)
  | EClear
  | ESettings (data : pyval).

Definition event_op (e : event) : op unit :=
  match e with
  | EOn pitch velocity seconds bpm => note_on pitch velocity seconds bpm
  | EOff pitch seconds bpm => note_off pitch seconds bpm
  | EClear => clear
  | ESettings data => on_settings (patch_settings_of data)
  end.

Definition receive (p : NotationPart) (e : event) : NotationPart := fst (event_op e p).

Lemma bad_pitch_false q : bad_pitch q = false -> 0 <= q <= 127.
Proof. unfold bad_pitch. intros H. pyinv. lia. Qed.

Lemma keeps_note_on q v seconds bpm : keeps capture_ok (note_on q v seconds bpm).
Proof.
  unfold note_on. destruct (bad_pitch q) eqn:E; [apply keeps_raise|]. apply bad_pitch_false in E. keeps_tac.
  by apply note_on_ok, fmax_fzero_not_nan.
Qed.

Lemma keeps_note_off q seconds bpm : keeps capture_ok (note_off q seconds bpm).
Proof.
  unfold note_off. destruct (bad_pitch q) eqn:E; [apply keeps_raise|]. apply bad_pitch_false in E.
  apply keeps_get_bind. intros p Hp. destruct (p.(_active) !! q) as [[|[[[id v] start] beat] rest]|] eqn:Hq;
    [exact Hp| |exact Hp].
  apply at_put. eapply (note_off_ok p q (id, v, start, beat)); [done|done|done|].
  destruct (co_sounds _ Hp q 0 (id, v, start, beat)) as (_ & _ & Hf & _); [by exists ((id, v, start, beat) :: rest)|].
  split; [done|]. split; [by apply fmax_le|]. by apply fmax_le.
Qed.

Lemma keeps_event e : keeps capture_ok (event_op e).
Proof.
  destruct e; cbn [event_op]; [apply keeps_note_on|apply keeps_note_off| |].
  - apply keeps_modify. intros p _. apply empty_ok.
  - unfold on_settings. intros p [Hb Hn Hi Hx Hs Ho]. destruct (patch_settings_of data p.(settings)) as [x r].
    by split.
Qed.

(** The capture invariant. Whatever events a fresh part receives (notes on and off in any order and overlap,
    unmatched or out of range, with NaN or infinite times, settings changes and clears), at most 4096 notes are
    captured; every captured note has a MIDI pitch, does not end before it starts and has a duration that is not
    negative; no two notes, captured or sounding, share an identifier; and a note off completes the oldest
    sounding note of its pitch, under that note's identifier and velocity and from its own start. *)
Theorem capture_invariant id events :
  let p := fold_left receive events (new_part id) in
  capture_ok p
  /\ forall q seconds bpm i v start beat rest, p.(_active) !! q = Some ((i, v, start, beat) :: rest) ->
       exists n, note_off q seconds bpm p
         = (set_capture (completed p.(_notes) n)
              (match rest with [] => delete q p.(_active) | _ => <[q := rest]> p.(_active) end) p.(_next_id) p, Ok tt)
       /\ n.(n_id) = i /\ n.(pitch) = q /\ n.(velocity) = v /\ n.(raw_start_seconds) = start
       /\ n.(raw_end_seconds) = fmax start seconds.
Proof.
  intros p. assert (Hp : capture_ok p).
  { unfold p. assert (H : forall p0, capture_ok p0 -> capture_ok (fold_left receive events p0)).
    { induction events as [|e es IH]; intros p0 H0; [done|]. cbn. apply IH. by apply keeps_event. }
    apply H, new_part_ok. }
  split; [done|]. intros q seconds bpm i v start beat rest Hq. clearbody p. unfold note_off.
  destruct (bad_pitch q) eqn:E.
  - destruct (co_sounds _ Hp q 0 (i, v, start, beat)) as (Hr & _); [by exists ((i, v, start, beat) :: rest)|].
    unfold bad_pitch in E. apply orb_true_iff in E. rewrite !Z.ltb_lt in E. lia.
  - rewrite st_get_bind, Hq. eexists. split; [unfold st_put; reflexivity|]. by split_and!.
Qed.

(** Two overlapping notes of one pitch end first in, first out. *)
Example overlapping_notes :
  map (fun n => (n.(n_id), n.(velocity)))
    (fold_left receive [EOn 60 100 fzero (fz 120); EOn 60 30 (fz 1) (fz 120); EOff 60 (fz 2) (fz 120);
                        EOff 61 (fz 2) (fz 120); EOff 60 (fz 3) (fz 120)] (new_part "p")).(_notes)
  = [(1, 100); (2, 30)].
Proof. vm_compute. reflexivity. Qed.
