(* ===== verification/Technology.v ===== *)
(** * Technology extensions and their maturity (backend/technology.py)

    Normalization of the openness policy and of declared extensions, the
    assessment of an extension's maturity from its evidence, the assessment of
    the whole registry, and the exact negotiation of capabilities. *)

From S2P Require Import Prelude PyStr PyFloat PyVal PyFacts Sha256.

#[local] Open Scope string_scope.
#[local] Open Scope list_scope.
#[local] Open Scope Z_scope.

Inductive maturity := Experimental | Community | Candidate | Standard.

#[export] Instance maturity_eq_dec : EqDecision maturity.
Proof. solve_decision. Defined.

Definition maturity_text (m : maturity) : string :=
  match m with
  | Experimental => "experimental" | Community => "community" | Candidate => "candidate" | Standard => "standard"
  end.

Definition parse_maturity (text : string) : option maturity :=
  alookup [("experimental", Experimental); ("community", Community); ("candidate", Candidate);
           ("standard", Standard)] text.

(** ** Policy *)

Definition policy_flags : list string :=
  ["preserveUnknownCapabilities"; "allowUnregisteredExperimentalNamespaces"; "allowNoAiParticipant";
   "requirePublicSpecForCandidate"; "requireConformanceForStandard"; "requireInteropForStandard";
   "requireFallbackForStandard"; "requireUnknownPreservationForStandard"; "forbidMandatoryVendorDependency";
   "forbidMandatoryCloudDependency"; "forbidMandatoryAiDependency"; "scaleSafeguards"].

Definition policy_limits : list (string * Z) :=
  [("emergingStandardGroups", 2); ("emergingCoreGroups", 3); ("growingStandardGroups", 3);
   ("growingCoreGroups", 4); ("largeStandardGroups", 4); ("largeCoreGroups", 5);
   ("infrastructureStandardGroups", 5); ("infrastructureCoreGroups", 7); ("maxMandatoryCoreExtensions", 24)].

Definition DEFAULT_TECHNOLOGY_POLICY : pydict :=
  map (fun k => (k, VBool true)) policy_flags ++ map (fun kv => (fst kv, VInt (snd kv))) policy_limits.

Definition _bool (value : pyval) (default : bool) : bool :=
  match value with VNone => default | _ => truthy value end.

Definition _int (value : pyval) (low high default : Z) : res Z :=
  match py_int value with
  | Ok z => Ok (Z.max low (Z.min high z))
  | Raise e => if type_or_value e then Ok default else Raise e
  end.

(** [policy[key] = bool(raw[key])] for a key the raw policy has. *)
Definition set_flag (raw policy : pydict) (key : string) : pydict :=
  match dget raw key with Some v => dset policy key (VBool (truthy v)) | None => policy end.

(** The default of [_int] is read from the merged policy before [_int] runs. *)
Definition set_limit (raw policy : pydict) (key : string) : res pydict :=
  match dget raw key with
  | Some v =>
      current ← dindex policy key;
      default ← py_int current;
      z ← _int v 1 64 default;
      Ok (dset policy key (VInt z))
  | None => Ok policy
  end.

Definition normalize_technology_policy (value : pyval) : res pydict :=
  let raw := as_dict value in
  let policy := dmerge DEFAULT_TECHNOLOGY_POLICY raw in
  let policy := fold_left (set_flag raw) policy_flags policy in
  fold_res (set_limit raw) (map fst policy_limits) policy.

(** ** Extensions *)

Record implementation := {
  i_raw : pydict;
  i_id : string;
  organization : string;
  independentGroup : string;
  conformancePass : bool;
  openSource : bool;
  interopPeers : list string;
}.

Definition text_of (d : pydict) (k : string) (n : nat) : string :=
  slice n (strip (py_str (dget_or d k (VStr "")))).

(** [sorted({str(x).strip()[:n] for x in items if str(x).strip()})]. *)
Definition text_set (n : nat) (items : list pyval) : list string :=
  sort_strings (remove_dups (map (slice n) (List.filter (fun s => negb (String.eqb s ""))
                                              (map (fun v => strip (py_str v)) items)))).

Definition _normalize_implementation (value : pydict) : res implementation :=
  let impl_id := text_of value "id" 128 in
  let group := slice 128 (strip (py_str (dget_or value "independentGroup"
                                           (dget_or value "organization" (VStr impl_id))))) in
  peers ← (py_iter (py_or (dget_none value "interopPeers") (VList [])) : res (list pyval));
  Ok {| i_raw := value; i_id := impl_id; organization := text_of value "organization" 128;
        independentGroup := str_or group impl_id;
        conformancePass := _bool (dget_none value "conformancePass") false;
        openSource := _bool (dget_none value "openSource") false; interopPeers := text_set 128 peers |}.

Record extension := {
  x_raw : pydict;
  x_id : string;
  description : string;
  x_maturity : maturity;
  requestedCore : bool;
  mandatoryCore : bool;
  deprecated : bool;
  replacementId : string;
  migrationBridge : bool;
  adoptionRecordRef : string;
  publicSpec : bool;
  conformanceTests : bool;
  interoperabilityEvidence : bool;
  fallbackDefined : bool;
  backwardCompatible : bool;
  unknownPreservationTested : bool;
  productionDeployments : Z;
  x_dependencies : pydict;
  mandatoryVendor : string;
  cloudRequired : bool;
  aiRequired : bool;
  implementations : list implementation;
}.

(** The implementations kept so far and their identifiers. *)
Definition add_implementation (acc : list implementation) (raw : pyval) : res (list implementation) :=
  match raw with
  | VDict d =>
      impl ← _normalize_implementation d;
      Ok (if String.eqb impl.(i_id) "" || existsb (fun i => String.eqb i.(i_id) impl.(i_id)) acc
          then acc else acc ++ [impl])
  | _ => Ok acc
  end.

Definition normalize_technology_extension (value : pyval) : res extension :=
  match value with
  | VDict d =>
      let extension_id := text_of d "id" 160 in
      if String.eqb extension_id "" || negb (contains "." extension_id)
      then Raise (ValueError "technology extension id must be a namespaced identifier")
      else match parse_maturity (lower (strip (py_str (dget_or d "maturity" (VStr "experimental"))))) with
      | None => Raise (ValueError "technology maturity must be one of ('experimental', 'community', 'candidate', 'standard')")
      | Some m =>
          let dependency := as_dict (dget_none d "dependencies") in
          raws ← (py_iter (py_or (dget_none d "implementations") (VList [])) : res (list pyval));
          impls ← fold_res add_implementation raws [];
          deployments ← _int (dget_none d "productionDeployments") 0 1000000 0;
          let flag k := _bool (dget_none d k) false in
          Ok {| x_raw := d; x_id := extension_id; description := text_of d "description" 512; x_maturity := m;
                requestedCore := flag "requestedCore"; mandatoryCore := flag "mandatoryCore";
                deprecated := flag "deprecated"; replacementId := text_of d "replacementId" 160;
                migrationBridge := flag "migrationBridge";
                adoptionRecordRef := text_of d "adoptionRecordRef" 256; publicSpec := flag "publicSpec";
                conformanceTests := flag "conformanceTests";
                interoperabilityEvidence := flag "interoperabilityEvidence";
                fallbackDefined := flag "fallbackDefined";
                backwardCompatible := _bool (dget_none d "backwardCompatible") true;
                unknownPreservationTested := flag "unknownPreservationTested";
                productionDeployments := deployments; x_dependencies := dependency;
                mandatoryVendor := text_of dependency "mandatoryVendor" 128;
                cloudRequired := _bool (dget_none dependency "cloudRequired") false;
                aiRequired := _bool (dget_none dependency "aiRequired") false; implementations := impls |}
      end
  | _ => Raise (ValueError "technology extension must be an object")
  end.

Definition text_list (l : list string) : pyval := VList (map VStr l).

Definition implementation_dict (i : implementation) : pydict :=
  dmerge i.(i_raw)
    [("id", VStr i.(i_id)); ("organization", VStr i.(organization));
     ("independentGroup", VStr i.(independentGroup)); ("conformancePass", VBool i.(conformancePass));
     ("openSource", VBool i.(openSource)); ("interopPeers", text_list i.(interopPeers))].

(** The dict the program keeps: the given one with the known fields replaced. *)
Definition extension_dict (x : extension) : pydict :=
  dmerge x.(x_raw)
    [("id", VStr x.(x_id)); ("description", VStr x.(description));
     ("maturity", VStr (maturity_text x.(x_maturity))); ("requestedCore", VBool x.(requestedCore));
     ("mandatoryCore", VBool x.(mandatoryCore)); ("deprecated", VBool x.(deprecated));
     ("replacementId", VStr x.(replacementId)); ("migrationBridge", VBool x.(migrationBridge));
     ("adoptionRecordRef", VStr x.(adoptionRecordRef)); ("publicSpec", VBool x.(publicSpec));
     ("conformanceTests", VBool x.(conformanceTests));
     ("interoperabilityEvidence", VBool x.(interoperabilityEvidence));
     ("fallbackDefined", VBool x.(fallbackDefined)); ("backwardCompatible", VBool x.(backwardCompatible));
     ("unknownPreservationTested", VBool x.(unknownPreservationTested));
     ("productionDeployments", VInt x.(productionDeployments));
     ("dependencies", VDict (dmerge x.(x_dependencies)
        [("mandatoryVendor", VStr x.(mandatoryVendor)); ("cloudRequired", VBool x.(cloudRequired));
         ("aiRequired", VBool x.(aiRequired))]));
     ("implementations", VList (map (fun i => VDict (implementation_dict i)) x.(implementations)))].

Definition add_extension (acc : list extension) (raw : pyval) : res (list extension) :=
  match raw with
  | VDict _ =>
      x ← normalize_technology_extension raw;
      Ok (if existsb (fun y => String.eqb y.(x_id) x.(x_id)) acc then acc else acc ++ [x])
  | _ => Ok acc
  end.

Definition normalize_technology_extensions (values : pyval) : res (list extension) :=
  items ← (py_iter (py_or values (VList [])) : res (list pyval));
  fold_res add_extension items [].

(** ** Evidence *)

Definition technology_evidence_statement (value : pyval) : res pydict :=
  x ← normalize_technology_extension value;
  Ok [("version", VInt 1); ("extensionId", VStr x.(x_id));
      ("declaredMaturity", VStr (maturity_text x.(x_maturity))); ("requestedCore", VBool x.(requestedCore));
      ("mandatoryCore", VBool x.(mandatoryCore)); ("publicSpec", VBool x.(publicSpec));
      ("conformanceTests", VBool x.(conformanceTests));
      ("interoperabilityEvidence", VBool x.(interoperabilityEvidence));
      ("fallbackDefined", VBool x.(fallbackDefined)); ("backwardCompatible", VBool x.(backwardCompatible));
      ("unknownPreservationTested", VBool x.(unknownPreservationTested));
      ("productionDeployments", VInt x.(productionDeployments));
      ("dependencies", VDict [("mandatoryVendor", VStr x.(mandatoryVendor));
                              ("cloudRequired", VBool x.(cloudRequired)); ("aiRequired", VBool x.(aiRequired))]);
      ("implementations", VList (map (fun i => VDict
         [("id", VStr i.(i_id)); ("organization", VStr i.(organization));
          ("independentGroup", VStr i.(independentGroup)); ("conformancePass", VBool i.(conformancePass));
          ("openSource", VBool i.(openSource)); ("interopPeers", text_list i.(interopPeers))]) x.(implementations)))].

Definition technology_evidence_digest (value : pyval) : res string :=
  s ← technology_evidence_statement value; Ok (sha256_hex (_canonical (VDict s))).

(** ** Assessment *)

Inductive tier := Emerging | Growing | Large | Infrastructure.

Definition tier_text (t : tier) : string :=
  match t with
  | Emerging => "emerging" | Growing => "growing" | Large => "large" | Infrastructure => "infrastructure"
  end.

Definition scale_tier (participants : Z) : tier :=
  if 200 <=? participants then Infrastructure
  else if 50 <=? participants then Large
  else if 10 <=? participants then Growing else Emerging.

Definition limit (policy : pydict) (key : string) : res Z := v ← dindex policy key; py_int v.
Definition flag (policy : pydict) (key : string) : res bool := v ← dindex policy key; Ok (truthy v).

(** Required groups for a standard and for mandatory core. *)
Definition _thresholds (policy : pydict) (t : tier) : res (Z * Z) :=
  let name := if truthy (dget_or policy "scaleSafeguards" (VBool true)) then tier_text t else "emerging" in
  s ← limit policy (name +:+ "StandardGroups");
  c ← limit policy (name +:+ "CoreGroups");
  Ok (s, c).

Definition group_of (i : implementation) : string := str_or i.(independentGroup) i.(i_id).

Definition groups_where (p : implementation -> bool) (x : extension) : list string :=
  remove_dups (map group_of (List.filter (fun i => negb (String.eqb i.(i_id) "") && p i) x.(implementations))).

Definition groups (x : extension) : list string := groups_where (fun _ => true) x.
Definition conforming_groups (x : extension) : list string := groups_where conformancePass x.

Definition find_implementation (x : extension) (id : string) : option implementation :=
  List.find (fun i => String.eqb i.(i_id) id) x.(implementations).

Definition ordered_pair (a b : string) : string * string := if str_ltb b a then (b, a) else (a, b).

(** Pairs of implementations from different groups, one of which lists the other as a peer. *)
Definition interop_pairs (x : extension) : list (string * string) :=
  remove_dups (concat (map (fun i =>
    omap (M:=list) (fun peer =>
      if String.eqb peer i.(i_id) then None
      else match find_implementation x peer with
           | Some j => if String.eqb (group_of i) (group_of j) then None else Some (ordered_pair i.(i_id) peer)
           | None => None
           end) i.(interopPeers)) x.(implementations))).

Definition count {A} (l : list A) : Z := Z.of_nat (length l).

(** The flags and limits an assessment reads from the policy. *)
Record rules := {
  r_public_spec : bool;
  r_conformance : bool;
  r_interop : bool;
  r_fallback : bool;
  r_unknown : bool;
  r_vendor : bool;
  r_cloud : bool;
  r_ai : bool;
  r_baseline : Z;
  r_standard : Z;
  r_core : Z;
}.

Definition read_rules (policy : pydict) (t : tier) : res rules :=
  '(s, c) ← _thresholds policy t;
  public_spec ← flag policy "requirePublicSpecForCandidate";
  baseline ← limit policy "emergingStandardGroups";
  conformance ← flag policy "requireConformanceForStandard";
  interop ← flag policy "requireInteropForStandard";
  fallback ← flag policy "requireFallbackForStandard";
  unknown ← flag policy "requireUnknownPreservationForStandard";
  vendor ← flag policy "forbidMandatoryVendorDependency";
  cloud ← flag policy "forbidMandatoryCloudDependency";
  ai ← flag policy "forbidMandatoryAiDependency";
  Ok {| r_public_spec := public_spec; r_conformance := conformance; r_interop := interop;
        r_fallback := fallback; r_unknown := unknown; r_vendor := vendor; r_cloud := cloud; r_ai := ai;
        r_baseline := baseline; r_standard := s; r_core := c |}.

Definition community_blockers (x : extension) : list string :=
  when (count (groups x) <? 2) "community maturity requires at least two independent implementation groups".

Definition candidate_blockers (r : rules) (x : extension) : list string :=
  when (r.(r_public_spec) && negb x.(publicSpec)) "candidate maturity requires a public specification"
  ++ when (count (groups x) <? 2) "candidate maturity requires independent implementations".

Definition base_standard_blockers (r : rules) (x : extension) : list string :=
  when (count (groups x) <? r.(r_baseline))
    ("standard maturity requires at least " +:+ dec r.(r_baseline) +:+ " independent groups")
  ++ when (r.(r_public_spec) && negb x.(publicSpec)) "public specification missing"
  ++ when (r.(r_conformance) && (negb x.(conformanceTests) || (count (conforming_groups x) <? r.(r_baseline))))
       "public conformance evidence is insufficient"
  ++ when (r.(r_interop) && (negb x.(interoperabilityEvidence) || null (interop_pairs x)))
       "independent interoperability evidence missing"
  ++ when (r.(r_fallback) && (negb x.(fallbackDefined) || negb x.(backwardCompatible)))
       "fallback/backward-compatibility behavior missing"
  ++ when (r.(r_unknown) && negb x.(unknownPreservationTested)) "unknown-extension preservation has not been tested"
  ++ when (r.(r_vendor) && negb (String.eqb x.(mandatoryVendor) ""))
       "mandatory vendor dependency is incompatible with open standard status"
  ++ when (r.(r_cloud) && x.(cloudRequired))
       "mandatory cloud dependency is incompatible with open standard status"
  ++ when (r.(r_ai) && x.(aiRequired)) "mandatory AI dependency is incompatible with open standard status".

Definition standard_blockers (r : rules) (t : tier) (x : extension) : list string :=
  base_standard_blockers r x
  ++ when (count (groups x) <? r.(r_standard))
       ("current " +:+ tier_text t +:+ "-scale promotion/revalidation expects " +:+ dec r.(r_standard)
        +:+ " independent groups")
  ++ when (r.(r_conformance) && (count (conforming_groups x) <? r.(r_standard)))
       "current-scale conformance evidence is not broad enough".

Definition core_blockers (r : rules) (t : tier) (x : extension) : list string :=
  standard_blockers r t x
  ++ when (count (groups x) <? r.(r_core))
       ("mandatory core promotion requires " +:+ dec r.(r_core) +:+ " independent groups at " +:+ tier_text t
        +:+ " scale")
  ++ when (negb x.(requestedCore)) "extension has not requested mandatory-core review".

Definition deprecation_blockers (x : extension) : list string :=
  if x.(deprecated) && bool_decide (x.(x_maturity) = Standard) then
    when (String.eqb x.(replacementId) "") "deprecated standard must identify a replacement or explicitly remain terminal"
    ++ when (negb (String.eqb x.(replacementId) "") && negb x.(migrationBridge))
         "standard replacement lacks a migration/compatibility bridge"
  else [].

Definition grandfathered (r : rules) (t : tier) (x : extension) : bool :=
  bool_decide (x.(x_maturity) = Standard) && negb (String.eqb x.(adoptionRecordRef) "")
  && null (base_standard_blockers r x) && negb (null (standard_blockers r t x)).

Definition highest_maturity (r : rules) (t : tier) (x : extension) : maturity :=
  if null (standard_blockers r t x) then Standard
  else if null (candidate_blockers r x) then Candidate
  else if null (community_blockers x) then Community else Experimental.

(** Whether the declared maturity holds, and what stands against it. *)
Definition declared_maturity (r : rules) (t : tier) (x : extension) : bool * list string :=
  match x.(x_maturity) with
  | Experimental => (true, [])
  | Community => (null (community_blockers x), community_blockers x)
  | Candidate => (null (candidate_blockers r x), candidate_blockers r x)
  | Standard =>
      if null (standard_blockers r t x) || grandfathered r t x then (true, [])
      else if null (base_standard_blockers r x) && String.eqb x.(adoptionRecordRef) ""
      then (false, standard_blockers r t x
                   ++ ["no adoption record is available for grandfathered Standard recognition"])
      else (false, base_standard_blockers r x)
  end.

Record assessment := { as_extension : extension; as_rules : rules; as_tier : tier }.

Definition maturity_valid (a : assessment) : bool := fst (declared_maturity a.(as_rules) a.(as_tier) a.(as_extension)).
Definition core_eligible (a : assessment) : bool := null (core_blockers a.(as_rules) a.(as_tier) a.(as_extension)).
Definition revalidation_needed (a : assessment) : bool := grandfathered a.(as_rules) a.(as_tier) a.(as_extension).
Definition deprecation_safe (a : assessment) : bool := null (deprecation_blockers a.(as_extension)).

Definition assessment_dict (a : assessment) : pydict :=
  let x := a.(as_extension) in
  let r := a.(as_rules) in
  let t := a.(as_tier) in
  let standard_ready := null (standard_blockers r t x) in
  [("id", VStr x.(x_id)); ("declaredMaturity", VStr (maturity_text x.(x_maturity)));
   ("highestEligibleMaturity", VStr (maturity_text (highest_maturity r t x)));
   ("declaredMaturityValid", VBool (maturity_valid a));
   ("maturityBlockers", text_list (snd (declared_maturity r t x)));
   ("currentScaleStandardReady", VBool standard_ready);
   ("scaleRevalidationNeeded", VBool (revalidation_needed a));
   ("grandfatheredStandard", VBool (revalidation_needed a));
   ("adoptionRecordRef", str_or_none x.(adoptionRecordRef));
   ("scaleRevalidationBlockers", text_list (if revalidation_needed a then standard_blockers r t x else []));
   ("coreEligible", VBool (core_eligible a)); ("coreBlockers", text_list (core_blockers r t x));
   ("mandatoryCore", VBool x.(mandatoryCore)); ("deprecated", VBool x.(deprecated));
   ("replacementId", str_or_none x.(replacementId)); ("deprecationSafe", VBool (deprecation_safe a));
   ("deprecationBlockers", text_list (deprecation_blockers x)); ("scaleTier", VStr (tier_text t));
   ("standardIndependentGroupsRequired", VInt r.(r_standard)); ("coreIndependentGroupsRequired", VInt r.(r_core));
   ("implementationCount", VInt (count x.(implementations))); ("independentGroupCount", VInt (count (groups x)));
   ("conformingIndependentGroupCount", VInt (count (conforming_groups x)));
   ("interopPairCount", VInt (count (interop_pairs x)));
   ("vendorLocked", VBool (negb (String.eqb x.(mandatoryVendor) "")));
   ("cloudLocked", VBool x.(cloudRequired)); ("aiLocked", VBool x.(aiRequired));
   ("unknownFieldsPreserved", VBool true)].

Definition assess (value policy : pyval) (participants : Z) : res assessment :=
  p ← normalize_technology_policy policy;
  x ← normalize_technology_extension value;
  let t := scale_tier participants in
  r ← read_rules p t;
  Ok {| as_extension := x; as_rules := r; as_tier := t |}.

Definition evaluate_technology_extension (value policy : pyval) (participants : Z) : res pydict :=
  a ← assess value policy participants; Ok (assessment_dict a).

(** ** The registry *)

Record registry_view := {
  g_policy : pydict;
  g_assessments : list assessment;
  g_tier : tier;
  g_thresholds : Z * Z;
  g_budget : Z;
}.

Definition locked (a : assessment) : bool :=
  let x := a.(as_extension) in
  negb (String.eqb x.(mandatoryVendor) "") || x.(cloudRequired) || x.(aiRequired).

Definition locked_standards (v : registry_view) : list assessment :=
  List.filter (fun a => bool_decide (a.(as_extension).(x_maturity) = Standard) && locked a) v.(g_assessments).

Definition mandatory_core (v : registry_view) : list assessment :=
  List.filter (fun a => a.(as_extension).(mandatoryCore)) v.(g_assessments).

Definition budget_exceeded (v : registry_view) : bool := v.(g_budget) <? count (mandatory_core v).

Definition unsafe_core (v : registry_view) : list assessment :=
  List.filter (fun a => a.(as_extension).(requestedCore) && negb (core_eligible a)) v.(g_assessments).

Definition invalid (v : registry_view) : list assessment :=
  List.filter (fun a => negb (maturity_valid a)) v.(g_assessments).

Definition policy_failures (v : registry_view) : list string :=
  let on k := truthy (dget_none v.(g_policy) k) in
  when (negb (on "preserveUnknownCapabilities")) "unknown capabilities are not guaranteed to survive"
  ++ when (negb (on "allowUnregisteredExperimentalNamespaces")) "experimental technology requires central registration"
  ++ when (negb (on "allowNoAiParticipant")) "no-AI participants are not protected"
  ++ when (negb (null (locked_standards v))) "declared standards contain mandatory vendor/cloud/AI dependencies"
  ++ when (negb (forallb deprecation_safe v.(g_assessments))) "standard deprecation lacks a migration-safe path"
  ++ when (budget_exceeded v)
       "mandatory core extension budget is exceeded; new capabilities should remain profiles/extensions".

Inductive openness := Open_ | Guarded | AtRisk.

Definition openness_of (v : registry_view) : openness :=
  if negb (null (unsafe_core v)) || (2 <=? count (policy_failures v)) then AtRisk
  else if negb (null (policy_failures v)) || negb (null (invalid v)) then Guarded else Open_.

Definition openness_text (o : openness) : string :=
  match o with Open_ => "open" | Guarded => "guarded" | AtRisk => "at-risk" end.

Definition view_registry (extensions policy : pyval) (participants : Z) : res registry_view :=
  p ← normalize_technology_policy policy;
  xs ← normalize_technology_extensions extensions;
  as_ ← map_res (fun x => assess (VDict (extension_dict x)) (VDict p) participants) xs;
  budget ← limit p "maxMandatoryCoreExtensions";
  let t := scale_tier participants in
  th ← _thresholds p t;
  Ok {| g_policy := p; g_assessments := as_; g_tier := t; g_thresholds := th; g_budget := budget |}.

Definition registry_dict (v : registry_view) (participants : Z) : pydict :=
  let ids l := text_list (map (fun a => a.(as_extension).(x_id)) l) in
  let having p := count (List.filter (fun a => p a.(as_extension)) v.(g_assessments)) in
  let on k := VBool (truthy (dget_none v.(g_policy) k)) in
  [("openness", VStr (openness_text (openness_of v))); ("scaleTier", VStr (tier_text v.(g_tier)));
   ("ecosystemParticipants", VInt (Z.max 0 participants)); ("policy", VDict v.(g_policy));
   ("extensionCount", VInt (count v.(g_assessments)));
   ("experimentalCount", VInt (having (fun x => bool_decide (x.(x_maturity) = Experimental))));
   ("standardCount", VInt (having (fun x => bool_decide (x.(x_maturity) = Standard))));
   ("requestedCoreCount", VInt (having requestedCore));
   ("mandatoryCoreCount", VInt (count (mandatory_core v))); ("maxMandatoryCoreExtensions", VInt v.(g_budget));
   ("coreBudgetExceeded", VBool (budget_exceeded v));
   ("standardIndependentGroupsRequired", VInt (fst v.(g_thresholds)));
   ("coreIndependentGroupsRequired", VInt (snd v.(g_thresholds)));
   ("preserveUnknownCapabilities", on "preserveUnknownCapabilities");
   ("experimentalWithoutPermission", on "allowUnregisteredExperimentalNamespaces");
   ("noAiParticipantValid", on "allowNoAiParticipant");
   ("invalidDeclaredMaturityIds", ids (invalid v)); ("unsafeCoreRequestIds", ids (unsafe_core v));
   ("scaleRevalidationIds", ids (List.filter revalidation_needed v.(g_assessments)));
   ("unsafeDeprecationIds", ids (List.filter (fun a => negb (deprecation_safe a)) v.(g_assessments)));
   ("policyFailures", text_list (policy_failures v));
   ("extensions", VList (map (fun a => VDict (assessment_dict a)) v.(g_assessments)))].

Definition evaluate_technology_registry (extensions policy : pyval) (participants : Z) : res pydict :=
  v ← view_registry extensions policy participants; Ok (registry_dict v participants).

(** ** Negotiation *)

Record negotiation := { common : list string; localOnly : list string; remoteOnly : list string; preserved : list string }.

Definition negotiate (local remote : pyval) : res negotiation :=
  ls ← (py_iter (py_or local (VList [])) : res (list pyval));
  rs ← (py_iter (py_or remote (VList [])) : res (list pyval));
  let l := text_set 192 ls in
  let r := text_set 192 rs in
  let keep a p := sort_strings (List.filter p a) in
  Ok {| common := keep l (fun s => bool_decide (s ∈ r)); localOnly := keep l (fun s => negb (bool_decide (s ∈ r)));
        remoteOnly := keep r (fun s => negb (bool_decide (s ∈ l)));
        preserved := sort_strings (remove_dups (l ++ r)) |}.

Definition negotiate_technology_capabilities (local remote : pyval) : res pydict :=
  n ← negotiate local remote;
  Ok [("common", text_list n.(common)); ("localOnly", text_list n.(localOnly));
      ("remoteOnly", text_list n.(remoteOnly)); ("preservedUnknown", text_list n.(preserved));
      ("executeCommonOnly", VBool true); ("implicitCoercion", VBool false);
      ("translationRequired", VBool (negb (null n.(localOnly)) || negb (null n.(remoteOnly))))].

(** * What recognition and negotiation establish (backend/technology.py)

    A declared maturity holds exactly when the evidence the policy asks for is
    there; the default policy asks for all of it; and negotiation executes
    exactly what both sides declare and loses nothing. *)

Lemma negb_flag (b c : bool) : negb (b && negb c) = true <-> (b = true -> c = true).
Proof. by destruct b, c; intuition. Qed.

(** The evidence a standard needs at a number of independent groups. *)
Record standard_evidence (r : rules) (needed : Z) (x : extension) : Prop := {
  se_groups : r.(r_baseline) <= count (groups x) /\ needed <= count (groups x);
  se_spec : r.(r_public_spec) = true -> x.(publicSpec) = true;
  se_conformance : r.(r_conformance) = true ->
    x.(conformanceTests) = true /\ r.(r_baseline) <= count (conforming_groups x)
    /\ needed <= count (conforming_groups x);
  se_interop : r.(r_interop) = true -> x.(interoperabilityEvidence) = true /\ interop_pairs x <> [];
  se_fallback : r.(r_fallback) = true -> x.(fallbackDefined) = true /\ x.(backwardCompatible) = true;
  se_unknown : r.(r_unknown) = true -> x.(unknownPreservationTested) = true;
  se_vendor : r.(r_vendor) = true -> x.(mandatoryVendor) = "";
  se_cloud : r.(r_cloud) = true -> x.(cloudRequired) = false;
  se_ai : r.(r_ai) = true -> x.(aiRequired) = false;
}.

Lemma base_standard_evidence r x :
  null (base_standard_blockers r x) = true <-> standard_evidence r r.(r_baseline) x.
Proof.
  unfold base_standard_blockers. autorewrite with blockers. rewrite !andb_true_iff, !negb_true_iff. split.
  - intros H. destruct_and! H. split; try intros Hr; try rewrite Hr in *; cbn in *; pyinv; subst; auto; try lia.
    + split; [done|]. intros E. by rewrite E in *.
  - intros [Hg Hs Hc Hi Hf Hu Hv Hcl Ha]. split_and!.
    + apply Z.ltb_ge. lia.
    + destruct r.(r_public_spec); [|done]. by rewrite Hs.
    + destruct r.(r_conformance); [|done]. destruct Hc as (-> & Hc & _); [done|]. cbn. apply Z.ltb_ge. lia.
    + destruct r.(r_interop); [|done]. destruct Hi as [-> Hi]; [done|]. cbn. by destruct (interop_pairs x).
    + destruct r.(r_fallback); [|done]. by destruct Hf as [-> ->].
    + destruct r.(r_unknown); [|done]. by rewrite Hu.
    + destruct r.(r_vendor); [|done]. by rewrite Hv.
    + destruct r.(r_cloud); [|done]. by rewrite Hcl.
    + destruct r.(r_ai); [|done]. by rewrite Ha.
Qed.

Lemma current_standard_evidence r t x :
  null (standard_blockers r t x) = true <-> standard_evidence r r.(r_standard) x.
Proof.
  unfold standard_blockers. autorewrite with blockers. rewrite !andb_true_iff, base_standard_evidence, !negb_true_iff.
  split.
  - intros ([Hg Hs Hc Hi Hf Hu Hv Hcl Ha] & Hn & Hm). apply Z.ltb_ge in Hn. split; auto; [lia|].
    intros Hr. rewrite Hr in Hm. cbn in Hm. apply Z.ltb_ge in Hm. destruct (Hc Hr) as (? & ? & _). auto.
  - intros [Hg Hs Hc Hi Hf Hu Hv Hcl Ha]. split_and!.
    + split; auto; [lia|]. intros Hr. destruct (Hc Hr) as (? & ? & _). auto.
    + apply Z.ltb_ge. lia.
    + destruct r.(r_conformance); [|done]. destruct Hc as (_ & _ & Hc); [done|]. cbn. apply Z.ltb_ge. lia.
Qed.

Lemma core_evidence r t x : null (core_blockers r t x) = true <->
  standard_evidence r r.(r_standard) x /\ r.(r_core) <= count (groups x) /\ x.(requestedCore) = true.
Proof.
  unfold core_blockers. autorewrite with blockers.
  rewrite !andb_true_iff, current_standard_evidence, negb_true_iff, Z.ltb_ge, negb_involutive. tauto.
Qed.

(** What the default policy asks for: everything, of more groups at a larger scale. *)
Definition default_rules (t : tier) : rules :=
  {| r_public_spec := true; r_conformance := true; r_interop := true; r_fallback := true; r_unknown := true;
     r_vendor := true; r_cloud := true; r_ai := true; r_baseline := 2;
     r_standard := match t with Emerging => 2 | Growing => 3 | Large => 4 | Infrastructure => 5 end;
     r_core := match t with Emerging => 3 | Growing => 4 | Large => 5 | Infrastructure => 7 end |}.

Lemma read_default_rules t : (p ← normalize_technology_policy VNone; read_rules p t) = Ok (default_rules t).
Proof. destruct t; vm_compute; reflexivity. Qed.

Lemma assess_default value participants a : assess value VNone participants = Ok a ->
  a.(as_rules) = default_rules (scale_tier participants).
Proof.
  unfold assess. pose proof (read_default_rules (scale_tier participants)) as Hd. intros H.
  apply bind_ok in H as (p & Hp & H). rewrite Hp in Hd. cbn [mbind res_bind] in Hd. pyinv. subst a. cbn. congruence.
Qed.

(** Recognition is earned. A declared Standard is valid exactly when its evidence suffices at the current
    scale, or sufficed at the baseline scale and an adoption record shows that it was adopted then; an extension
    is eligible for the mandatory core exactly when its current evidence suffices, enough independent groups
    implement it and it asked for the review. Under the default policy the evidence includes a public
    specification, conformance and interoperability across independent groups, fallback and unknown-field
    preservation, and no mandatory vendor, cloud or AI dependency, and larger ecosystems ask for more groups. *)
Theorem recognition_is_earned value policy participants a :
  assess value policy participants = Ok a -> a.(as_extension).(x_maturity) = Standard ->
  (maturity_valid a = true <->
     standard_evidence a.(as_rules) a.(as_rules).(r_standard) a.(as_extension)
     \/ standard_evidence a.(as_rules) a.(as_rules).(r_baseline) a.(as_extension)
        /\ a.(as_extension).(adoptionRecordRef) <> "")
  /\ (core_eligible a = true <->
        standard_evidence a.(as_rules) a.(as_rules).(r_standard) a.(as_extension)
        /\ a.(as_rules).(r_core) <= count (groups a.(as_extension))
        /\ a.(as_extension).(requestedCore) = true)
  /\ (policy = VNone -> a.(as_rules) = default_rules (scale_tier participants)).
Proof.
  intros Ha Hm. split; [|split; [apply core_evidence|intros ->; by eapply assess_default]].
  unfold maturity_valid, declared_maturity, grandfathered. rewrite Hm.
  rewrite <- (current_standard_evidence _ a.(as_tier)), <- base_standard_evidence.
  rewrite (bool_decide_eq_true_2 _ (eq_refl Standard)).
  destruct (null (standard_blockers _ _ _)); [by split; auto|]. cbn [orb negb andb].
  destruct (String.eqb_spec (adoptionRecordRef (as_extension a)) "") as [E|E];
    destruct (null (base_standard_blockers _ _)); cbn; split; try done; try tauto; intros [?|[? ?]]; done.
Qed.

(** A standard with two conforming, interoperating groups: valid while the ecosystem is small, no longer without
    an adoption record once it has grown, and grandfathered with one. *)
Definition example_standard (record : string) : pyval :=
  VDict ([("id", VStr "org.midi"); ("maturity", VStr "standard"); ("publicSpec", VBool true);
          ("conformanceTests", VBool true); ("interoperabilityEvidence", VBool true); ("fallbackDefined", VBool true);
          ("unknownPreservationTested", VBool true); ("adoptionRecordRef", VStr record);
          ("implementations", VList
             [VDict [("id", VStr "i1"); ("independentGroup", VStr "g1"); ("conformancePass", VBool true);
                     ("interopPeers", VList [VStr "i2"])];
              VDict [("id", VStr "i2"); ("independentGroup", VStr "g2"); ("conformancePass", VBool true)]])]).

Example scale_revalidates :
  map (fun c => a ← assess (example_standard (fst c)) VNone (snd c); Ok (maturity_valid a))
    [("", 3); ("", 20); ("record-1", 20)] = [Ok true; Ok false; Ok true].
Proof. vm_compute. reflexivity. Qed.

Lemma recognition_is_earned_witness : exists a,
  assess (example_standard "") VNone 3 = Ok a /\ a.(as_rules) = default_rules Emerging.
Proof.
  eexists. split; [vm_compute; reflexivity|].
  refine (proj2 (proj2 (recognition_is_earned (example_standard "") VNone 3 _ _ _)) _).
  - vm_compute. reflexivity.
  - reflexivity.
  - reflexivity.
Defined.

(** ** Negotiation *)

(** The capability texts a side declares. *)
Definition declares (v : pyval) (s : string) : Prop :=
  exists items, py_iter (py_or v (VList [])) = Ok items /\ s ∈ text_set 192 items.

Lemma text_set_nodup n items : NoDup (text_set n items).
Proof. unfold text_set, sort_strings. rewrite sort_by_Permutation. apply NoDup_remove_dups. Qed.

Lemma kept_nodup p l : NoDup l -> NoDup (sort_strings (List.filter p l)).
Proof. unfold sort_strings. rewrite sort_by_Permutation, !NoDup_ListNoDup. apply List.NoDup_filter. Qed.

(** Negotiation. The capabilities a session executes are exactly those both sides declare; what only one side
    declares is reported on that side and never executed; every declared capability is preserved; no list
    repeats an entry; and translation is required exactly when some capability is not shared. *)
Theorem negotiation_is_exact local remote n :
  negotiate local remote = Ok n ->
  (forall s, s ∈ n.(common) <-> declares local s /\ declares remote s)
  /\ (forall s, s ∈ n.(localOnly) <-> declares local s /\ ~ declares remote s)
  /\ (forall s, s ∈ n.(remoteOnly) <-> declares remote s /\ ~ declares local s)
  /\ (forall s, s ∈ n.(preserved) <-> declares local s \/ declares remote s)
  /\ NoDup n.(common) /\ NoDup n.(localOnly) /\ NoDup n.(remoteOnly) /\ NoDup n.(preserved)
  /\ (negb (null n.(localOnly)) || negb (null n.(remoteOnly)) = false <->
        forall s, declares local s <-> declares remote s).
Proof.
  unfold negotiate. intros H. apply bind_ok in H as (ls & Hl & H). apply bind_ok in H as (rs & Hr & H).
  injection H as <-. cbn [common localOnly remoteOnly preserved].
  assert (Dl : forall s, declares local s <-> s ∈ text_set 192 ls).
  { intros s. unfold declares. split; [intros (i & Hi & Hs); congruence|eauto]. }
  assert (Dr : forall s, declares remote s <-> s ∈ text_set 192 rs).
  { intros s. unfold declares. split; [intros (i & Hi & Hs); congruence|eauto]. }
  pose proof (text_set_nodup 192 ls) as Nl. pose proof (text_set_nodup 192 rs) as Nr.
  set (l := text_set 192 ls) in *. set (r := text_set 192 rs) in *. clearbody l r.
  assert (Hf : forall (a b : list string) s, s ∈ sort_strings (List.filter (fun s => negb (bool_decide (s ∈ b))) a)
                 <-> s ∈ a /\ s ∉ b).
  { intros a b s. rewrite elem_of_sort_strings, !list_elem_of_In, filter_In, negb_true_iff, bool_decide_eq_false.
    by rewrite list_elem_of_In. }
  split_and!.
  - intros s. by rewrite elem_of_sort_strings, list_elem_of_In, filter_In, <- list_elem_of_In, bool_decide_eq_true, Dl, Dr.
  - intros s. by rewrite Hf, Dl, Dr.
  - intros s. by rewrite Hf, Dl, Dr.
  - intros s. by rewrite elem_of_sort_strings, elem_of_remove_dups, elem_of_app, Dl, Dr.
  - by apply kept_nodup.
  - by apply kept_nodup.
  - by apply kept_nodup.
  - unfold sort_strings. rewrite sort_by_Permutation. apply NoDup_remove_dups.
  - rewrite orb_false_iff, !negb_false_iff, !null_eq. split.
    + intros [E1 E2] s. rewrite Dl, Dr. split; intros Hs; apply dec_stable; intros Hn.
      * apply (not_elem_of_nil s). rewrite <- E1. by apply Hf.
      * apply (not_elem_of_nil s). rewrite <- E2. by apply Hf.
    + intros He. assert (Hnil : forall k : list string, (forall s, s ∉ k) -> k = []).
      { intros [|x k] Hk; [done|]. exfalso. apply (Hk x). left. }
      split; apply Hnil; intros s [Hs Hn]%Hf; apply Hn, Dl || apply Hn, Dr; apply He; by (apply Dr || apply Dl).
Qed.

Lemma negotiation_is_exact_witness : exists n,
  negotiate (VList [VStr "midi"; VStr "osc"]) (VList [VStr "midi"; VStr "ltc"]) = Ok n
  /\ n.(common) = ["midi"] /\ NoDup n.(common).
Proof.
  eexists. split; [vm_compute; reflexivity|]. split; [reflexivity|].
  refine (proj1 (proj2 (proj2 (proj2 (proj2
    (negotiation_is_exact (VList [VStr "midi"; VStr "osc"]) (VList [VStr "midi"; VStr "ltc"]) _ _)))))).
  vm_compute. reflexivity.
Defined.
