(* ===== verification/ShowData.v ===== *)
(** * The data of the show state (backend/state.py)

    Monitor mixes and players, the routing tables, and the state of
    [ShowState] grouped by the resource each part belongs to, with the update of
    one group at a time. *)

From S2P Require Import Prelude PyStr PyFloat PyVal PyFacts.
From S2P Require Handoff Notation Technology Compatibility.
From Stdlib Require Import SpecFloat.

#[local] Open Scope string_scope.
#[local] Open Scope list_scope.
#[local] Open Scope Z_scope.
#[local] Open Scope st_scope.

Definition fz (z : Z) : float := float_of_Z z.
#[global] Arguments fz : simpl never.
Definition fzero : float := S754_zero false.

Definition MONITOR_KEYS : list string := ["master"; "self"; "vocals"; "band"; "click"; "talkback"; "ambient"].
Definition SYSTEM_MODES : list string := ["audio"; "full"; "reduced"; "safe"].

Definition clamp (value low high : float) : float := fmax low (fmin high value).

(** ** Monitor mixes and players *)

(** The seven levels by key (floats, or the integers a mix was built with), mute
    and output. *)
Record MonitorMix := { levels : pydict; muted : bool; m_output : string }.

Definition default_levels : pydict := combine MONITOR_KEYS (map (fun z => VFloat (fz z)) [72; 76; 58; 62; 38; 45; 28]).

(** A mix built with some integer levels. *)
Definition mix (given : list (string * Z)) : MonitorMix :=
  {| levels := fold_left (fun d kv => dset d (fst kv) (VInt (snd kv))) given default_levels; muted := false;
     m_output := "IEM A" |}.

Definition default_mix : MonitorMix := mix [].

(** [if key in data: setattr(self, key, clamp(float(data[key]), 0.0, 100.0))]. *)
Definition patch_level (data : pyval) (key : string) : st MonitorMix unit :=
  let* present := st_lift (vhas data key) in
  if (present : bool) then
    let* v := st_lift (v ← vindex data key; py_float v) in
    st_modify (fun m => {| levels := dset m.(levels) key (VFloat (clamp v fzero (fz 100))); muted := m.(muted);
                           m_output := m.(m_output) |})
  else st_ret tt.

Definition patch_mix (data : pyval) : st MonitorMix unit :=
  let* _ := st_iter (patch_level data) MONITOR_KEYS in
  let* _ := Notation.when_key data "muted" (fun v =>
    st_modify (fun m => {| levels := m.(levels); muted := truthy v; m_output := m.(m_output) |})) in
  Notation.when_key data "output" (fun v =>
    let text := strip (py_str v) in
    st_when (negb (String.eqb text ""))
      (st_modify (fun m => {| levels := m.(levels); muted := m.(muted); m_output := slice 64 text |}))).

Record Player := { p_id : string; name : string; p_role : string; monitor : MonitorMix; p_mode : string; available : bool }.

Definition make_player (id name role : string) (m : MonitorMix) (mode : string) : string * Player :=
  (id, {| p_id := id; name := name; p_role := role; monitor := m; p_mode := mode; available := true |}).

Definition _default_players : list (string * Player) :=
  [make_player "alex" "Alex" "Drums" (mix [("self", 82); ("click", 42)]) "local";
   make_player "sam" "Sam" "Bass" (mix [("self", 74); ("click", 28)]) "local";
   make_player "maya" "Maya" "Keys" (mix [("vocals", 70); ("ambient", 36)]) "remote";
   make_player "jordan" "Jordan" "Lead Vocal" (mix [("self", 84); ("band", 52); ("click", 22)]) "local"].

Definition mix_dict (m : MonitorMix) : pydict :=
  m.(levels) ++ [("muted", VBool m.(muted)); ("output", VStr m.(m_output))].

Definition player_dict (p : Player) : pydict :=
  [("id", VStr p.(p_id)); ("name", VStr p.(name)); ("role", VStr p.(p_role));
   ("monitor", VDict (mix_dict p.(monitor))); ("mode", VStr p.(p_mode)); ("available", VBool p.(available))].

(** ** Audio routing *)

Record drift := { d_enabled : bool; maxCorrectionPpm : float; queueGainPpm : float }.

Record audio_output := {
  o_slot : Z; o_device : string; purpose : string; o_player : string; graphOutput : Z;
  o_master : float; o_ceiling : float; o_drift : drift;
}.

Record audio_input := {
  i_slot : Z; i_device : string; i_player : string; i_rate : float; r_output : Z; r_gain : float;
}.

Definition default_drift : drift := {| d_enabled := true; maxCorrectionPpm := fz 2000; queueGainPpm := fz 1000 |}.

Definition default_output (s : Z) : audio_output :=
  {| o_slot := s; o_device := if s =? 0 then "null-audio" else "";
     purpose := if s =? 0 then "foh" else if (s =? 1) || (s =? 2) then "monitor" else "broadcast";
     o_player := ""; graphOutput := s; o_master := fz 1; o_ceiling := fz (-1); o_drift := default_drift |}.

Definition default_outputs : list audio_output := map default_output [0; 1; 2; 3].

Definition default_input (rate : float) (s : Z) : audio_input :=
  {| i_slot := s; i_device := ""; i_player := ""; i_rate := rate; r_output := 0; r_gain := fzero |}.

Definition default_inputs (rate : float) : list audio_input := map (default_input rate) [0; 1; 2; 3].

Definition drift_dict (d : drift) : pydict :=
  [("enabled", VBool d.(d_enabled)); ("maxCorrectionPpm", VFloat d.(maxCorrectionPpm));
   ("queueGainPpm", VFloat d.(queueGainPpm))].

Definition output_dict (o : audio_output) : pydict :=
  [("slot", VInt o.(o_slot)); ("deviceId", VStr o.(o_device)); ("purpose", VStr o.(purpose));
   ("playerId", VStr o.(o_player)); ("graphOutput", VInt o.(graphOutput)); ("master", VFloat o.(o_master));
   ("limiterCeilingDb", VFloat o.(o_ceiling)); ("driftCompensation", VDict (drift_dict o.(o_drift)))].

Definition route_dict (output : Z) (gain : float) : pydict :=
  [("output", VInt output); ("gain", VFloat gain)].

Definition input_dict (i : audio_input) : pydict :=
  [("slot", VInt i.(i_slot)); ("deviceId", VStr i.(i_device)); ("playerId", VStr i.(i_player));
   ("sampleRate", VFloat i.(i_rate)); ("route", VDict (route_dict i.(r_output) i.(r_gain)))].

(** ** The groups of the state *)

Record transport_state := { running : bool; elapsed : float; started_at : float }.
Record show_group := { bpm : float; key : string }.
Record system_state := { capacity : float; system_mode : string; venue : string; production_manager : string }.

Record audio_state := {
  a_device : string;
  a_input_device : string;
  a_input_player : string;
  a_route_output : Z;
  a_route_gain : float;
  a_inputs : list audio_input;
  a_outputs : list audio_output;
  a_rate : float;
  a_buffer : Z;
  a_ceiling : float;
}.

Record lighting_state := { protocol : string; l_target : string; port : Z; universe_base : Z }.

Record handoff_state := {
  h_policy : Handoff.policy;
  h_live : list Handoff.live_config;
  h_sources : list Handoff.source_config;
}.

Record technology_state := { t_policy : pydict; t_participants : Z; t_extensions : list Technology.extension }.

Record midi_state := { bindings : list (string * string); received : Z; activity : list pydict }.

(** An entry of the event history. *)
Record event := {
  eventId : Z; category : string; text : string; showTimeSeconds : float; wallTimeUnixMs : Z;
  e_revision : Z; e_payload : pydict;
}.

(** An event recorded by this core, or one restored as it was. *)
Inductive history_entry := Recorded (e : event) | Restored (d : pydict).

Record revision_state := {
  revision : Z;
  resource_revisions : list (string * Z);
  next_event_id : Z;
  events : list history_entry;
}.

Record compat_state := { overlay : pydict; compat_report : pydict }.

Record ShowState := {
  s_transport : transport_state;
  s_show : show_group;
  s_system : system_state;
  s_audio : audio_state;
  s_lighting : lighting_state;
  s_handoff : handoff_state;
  s_technology : technology_state;
  s_midi : midi_state;
  s_players : list (string * Player);
  s_notation : Notation.registry;
  s_revisions : revision_state;
  s_compat : compat_state;
}.

Definition with_transport (x : transport_state) (s : ShowState) : ShowState :=
  {| s_transport := x; s_show := s.(s_show); s_system := s.(s_system); s_audio := s.(s_audio);
     s_lighting := s.(s_lighting); s_handoff := s.(s_handoff); s_technology := s.(s_technology);
     s_midi := s.(s_midi); s_players := s.(s_players); s_notation := s.(s_notation);
     s_revisions := s.(s_revisions); s_compat := s.(s_compat) |}.
Definition with_show (x : show_group) (s : ShowState) : ShowState :=
  {| s_transport := s.(s_transport); s_show := x; s_system := s.(s_system); s_audio := s.(s_audio);
     s_lighting := s.(s_lighting); s_handoff := s.(s_handoff); s_technology := s.(s_technology);
     s_midi := s.(s_midi); s_players := s.(s_players); s_notation := s.(s_notation);
     s_revisions := s.(s_revisions); s_compat := s.(s_compat) |}.
Definition with_system (x : system_state) (s : ShowState) : ShowState :=
  {| s_transport := s.(s_transport); s_show := s.(s_show); s_system := x; s_audio := s.(s_audio);
     s_lighting := s.(s_lighting); s_handoff := s.(s_handoff); s_technology := s.(s_technology);
     s_midi := s.(s_midi); s_players := s.(s_players); s_notation := s.(s_notation);
     s_revisions := s.(s_revisions); s_compat := s.(s_compat) |}.
Definition with_audio (x : audio_state) (s : ShowState) : ShowState :=
  {| s_transport := s.(s_transport); s_show := s.(s_show); s_system := s.(s_system); s_audio := x;
     s_lighting := s.(s_lighting); s_handoff := s.(s_handoff); s_technology := s.(s_technology);
     s_midi := s.(s_midi); s_players := s.(s_players); s_notation := s.(s_notation);
     s_revisions := s.(s_revisions); s_compat := s.(s_compat) |}.
Definition with_lighting (x : lighting_state) (s : ShowState) : ShowState :=
  {| s_transport := s.(s_transport); s_show := s.(s_show); s_system := s.(s_system); s_audio := s.(s_audio);
     s_lighting := x; s_handoff := s.(s_handoff); s_technology := s.(s_technology);
     s_midi := s.(s_midi); s_players := s.(s_players); s_notation := s.(s_notation);
     s_revisions := s.(s_revisions); s_compat := s.(s_compat) |}.
Definition with_handoff (x : handoff_state) (s : ShowState) : ShowState :=
  {| s_transport := s.(s_transport); s_show := s.(s_show); s_system := s.(s_system); s_audio := s.(s_audio);
     s_lighting := s.(s_lighting); s_handoff := x; s_technology := s.(s_technology);
     s_midi := s.(s_midi); s_players := s.(s_players); s_notation := s.(s_notation);
     s_revisions := s.(s_revisions); s_compat := s.(s_compat) |}.
Definition with_technology (x : technology_state) (s : ShowState) : ShowState :=
  {| s_transport := s.(s_transport); s_show := s.(s_show); s_system := s.(s_system); s_audio := s.(s_audio);
     s_lighting := s.(s_lighting); s_handoff := s.(s_handoff); s_technology := x;
     s_midi := s.(s_midi); s_players := s.(s_players); s_notation := s.(s_notation);
     s_revisions := s.(s_revisions); s_compat := s.(s_compat) |}.
Definition with_midi (x : midi_state) (s : ShowState) : ShowState :=
  {| s_transport := s.(s_transport); s_show := s.(s_show); s_system := s.(s_system); s_audio := s.(s_audio);
     s_lighting := s.(s_lighting); s_handoff := s.(s_handoff); s_technology := s.(s_technology);
     s_midi := x; s_players := s.(s_players); s_notation := s.(s_notation);
     s_revisions := s.(s_revisions); s_compat := s.(s_compat) |}.
Definition with_players (x : list (string * Player)) (s : ShowState) : ShowState :=
  {| s_transport := s.(s_transport); s_show := s.(s_show); s_system := s.(s_system); s_audio := s.(s_audio);
     s_lighting := s.(s_lighting); s_handoff := s.(s_handoff); s_technology := s.(s_technology);
     s_midi := s.(s_midi); s_players := x; s_notation := s.(s_notation);
     s_revisions := s.(s_revisions); s_compat := s.(s_compat) |}.
Definition with_notation (x : Notation.registry) (s : ShowState) : ShowState :=
  {| s_transport := s.(s_transport); s_show := s.(s_show); s_system := s.(s_system); s_audio := s.(s_audio);
     s_lighting := s.(s_lighting); s_handoff := s.(s_handoff); s_technology := s.(s_technology);
     s_midi := s.(s_midi); s_players := s.(s_players); s_notation := x;
     s_revisions := s.(s_revisions); s_compat := s.(s_compat) |}.
Definition with_revisions (x : revision_state) (s : ShowState) : ShowState :=
  {| s_transport := s.(s_transport); s_show := s.(s_show); s_system := s.(s_system); s_audio := s.(s_audio);
     s_lighting := s.(s_lighting); s_handoff := s.(s_handoff); s_technology := s.(s_technology);
     s_midi := s.(s_midi); s_players := s.(s_players); s_notation := s.(s_notation);
     s_revisions := x; s_compat := s.(s_compat) |}.
Definition with_compat (x : compat_state) (s : ShowState) : ShowState :=
  {| s_transport := s.(s_transport); s_show := s.(s_show); s_system := s.(s_system); s_audio := s.(s_audio);
     s_lighting := s.(s_lighting); s_handoff := s.(s_handoff); s_technology := s.(s_technology);
     s_midi := s.(s_midi); s_players := s.(s_players); s_notation := s.(s_notation);
     s_revisions := s.(s_revisions); s_compat := x |}.

(** A method of one group, run on the whole state. *)
Definition on {X A} (get : ShowState -> X) (set : X -> ShowState -> ShowState) (m : st X A) : st ShowState A :=
  fun s => let '(x, r) := m (get s) in (set x s, r).
