(* ===== verification/ShowState.v ===== *)
(** * The authoritative show state (backend/state.py, class ShowState)

    Revisions and conflicts, the bounded event history, the snapshot, and the
    operations that patch one resource each. The clocks an operation reads are
    arguments: the monotonic clock when the operation itself, the event it
    records and the snapshot it returns read it, and the wall clock. *)

From S2P Require Import Prelude PyStr PyFloat PyVal PyFacts ShowData.
From S2P Require Handoff Notation Technology Compatibility.
From Stdlib Require Import SpecFloat.

#[local] Open Scope string_scope.
#[local] Open Scope list_scope.
#[local] Open Scope Z_scope.
#[local] Open Scope st_scope.

Record readings := { mono_op : float; mono_event : float; mono_snapshot : float; wall_time : float }.

Abbreviation op := (st ShowState).

(** ** Clock, events and revisions *)

Definition _clock_seconds (now : float) (s : ShowState) : float :=
  let t := s.(s_transport) in
  if t.(running) then fadd t.(elapsed) (fsub now t.(started_at)) else t.(elapsed).

Definition max_events : nat := 100.

Definition _event (r : readings) (cat txt : string) (payload : pydict) : op event :=
  let* s := st_get in
  let* wall := st_lift (py_int (VFloat (fmul r.(wall_time) (fz 1000)))) in
  let v := s.(s_revisions) in
  let e := {| eventId := v.(next_event_id); category := cat; text := txt;
              showTimeSeconds := fround 3 (_clock_seconds r.(mono_event) s); wallTimeUnixMs := wall;
              e_revision := v.(revision); e_payload := payload |} in
  let* _ := st_put (with_revisions
      {| revision := v.(revision); resource_revisions := v.(resource_revisions);
         next_event_id := v.(next_event_id) + 1;
         events := firstn max_events (Recorded e :: v.(events)) |} s) in
  st_ret e.

(** [self._resource_revisions.get(key, 1)]. *)
Definition resource_revision (v : revision_state) (key : string) : Z :=
  default 1 (alookup v.(resource_revisions) key).

Definition bump (v : revision_state) (key : string) : revision_state :=
  {| revision := v.(revision);
     resource_revisions := aput v.(resource_revisions) key (resource_revision v key + 1);
     next_event_id := v.(next_event_id); events := v.(events) |}.

(** [dict.fromkeys(l)]: the first occurrences, in order. *)
Fixpoint first_occurrences (seen l : list string) : list string :=
  match l with
  | [] => []
  | x :: l' => if bool_decide (x ∈ seen) then first_occurrences seen l' else x :: first_occurrences (x :: seen) l'
  end.

Definition _touch_resources (keys : list string) : op unit :=
  st_modify (fun s =>
    let v := s.(s_revisions) in
    with_revisions
      (fold_left bump (first_occurrences [] keys)
         {| revision := v.(revision) + 1; resource_revisions := v.(resource_revisions);
            next_event_id := v.(next_event_id); events := v.(events) |}) s).

Definition _touch (key : string) : op unit := _touch_resources [key].

Definition _check_revision (expected : option Z) (key : string) (expected_resource : option Z) : op unit :=
  let* s := st_get in
  let v := s.(s_revisions) in
  match expected_resource with
  | Some e =>
      if negb (e =? resource_revision v key) then st_raise (RevisionConflict e (resource_revision v key) key)
      else st_ret tt
  | None =>
      match expected with
      | Some e => if negb (e =? v.(revision)) then st_raise (RevisionConflict e v.(revision) "global") else st_ret tt
      | None => st_ret tt
      end
  end.

Definition event_dict (e : event) : pydict :=
  [("eventId", VInt e.(eventId)); ("category", VStr e.(category)); ("text", VStr e.(text));
   ("showTimeSeconds", VFloat e.(showTimeSeconds)); ("wallTimeUnixMs", VInt e.(wallTimeUnixMs));
   ("revision", VInt e.(e_revision)); ("payload", VDict e.(e_payload))].

Definition entry_dict (h : history_entry) : pydict :=
  match h with Recorded e => event_dict e | Restored d => d end.

Definition latest_event (s : ShowState) : option pydict :=
  match s.(s_revisions).(events) with [] => None | h :: _ => Some (entry_dict h) end.

(** Oldest first, the events after an identifier. *)
Definition events_since (event_id : Z) (s : ShowState) : res (list pydict) :=
  kept ← map_res (fun d => i ← py_int (dget_or d "eventId" (VInt 0)); Ok (d, event_id <? i))
           (map entry_dict (rev s.(s_revisions).(events)));
  Ok (map fst (List.filter snd kept)).

Definition record_external_event (r : readings) (cat txt : string) (payload : pydict) : op event :=
  _event r (slice 64 cat) (slice 240 txt) payload.

(** The events present at once, or those present when the bounded wait ends:
    [later] is the state then. *)
Definition wait_for_events (event_id : Z) (now later : ShowState) : res (list pydict) :=
  ready ← events_since event_id now;
  match ready with [] => events_since event_id later | _ => Ok ready end.

(** ** Snapshots *)

Definition _quality_score (s : ShowState) : res Z :=
  let y := s.(s_system) in
  let base := fmin (fz 100) (fadd y.(capacity) (fz 18)) in
  let base := if String.eqb y.(system_mode) "reduced" then fmax base (fz 90)
              else if String.eqb y.(system_mode) "safe" then fmax base (fz 94)
              else if String.eqb y.(system_mode) "audio" then fz 100 else base in
  py_round_int (clamp base fzero (fz 100)).

Definition technology_dict (t : technology_state) (detail : bool) : pydict :=
  [("policy", VDict t.(t_policy)); ("ecosystemParticipants", VInt t.(t_participants));
   ("extensionCount", VInt (Z.of_nat (length t.(t_extensions))))]
  ++ (if detail
      then [("extensions", VList (map (fun x => VDict (Technology.extension_dict x)) t.(t_extensions)))] else []).

Definition live_dict (c : Handoff.live_config) : pydict :=
  [("slot", VInt c.(Handoff.slot)); ("mode", VStr c.(Handoff.mode)); ("ready", VBool c.(Handoff.ready));
   ("sourceId", VStr c.(Handoff.sourceId)); ("latencyMs", VFloat c.(Handoff.latencyMs))].

Definition source_dict (c : Handoff.source_config) : pydict :=
  [("id", VStr c.(Handoff.src_id)); ("kind", VStr c.(Handoff.src_kind)); ("required", VBool c.(Handoff.required));
   ("shadowCapable", VBool c.(Handoff.shadowCapable)); ("localAssetReady", VBool c.(Handoff.localAssetReady));
   ("contentHash", VStr c.(Handoff.contentHash))].

Definition audio_dict (a : audio_state) : pydict :=
  [("deviceId", VStr a.(a_device)); ("inputDeviceId", VStr a.(a_input_device));
   ("inputPlayerId", VStr a.(a_input_player));
   ("inputRoute", VDict (route_dict a.(a_route_output) a.(a_route_gain)));
   ("inputs", VList (map (fun i => VDict (input_dict i)) a.(a_inputs)));
   ("outputs", VList (map (fun o => VDict (output_dict o)) a.(a_outputs)));
   ("sampleRate", VFloat a.(a_rate)); ("engineSampleRate", VFloat (fz 192000));
   ("engineSampleFormat", VStr "float32"); ("bufferFrames", VInt a.(a_buffer));
   ("limiterCeilingDb", VFloat a.(a_ceiling))].

Definition handoff_dict (h : handoff_state) : pydict :=
  [("policy", VDict (Handoff.policy_dict h.(h_policy)));
   ("liveInputs", VList (map (fun c => VDict (live_dict c)) h.(h_live)));
   ("deterministicSources", VList (map (fun c => VDict (source_dict c)) h.(h_sources)))].

Definition lighting_dict (l : lighting_state) : pydict :=
  [("network", VDict [("protocol", VStr l.(protocol)); ("target", VStr l.(l_target)); ("port", VInt l.(port));
                      ("universeBase", VInt l.(universe_base)); ("armed", VBool false)])].

Definition midi_dict (m : midi_state) (detail : bool) : pydict :=
  [("bindings", VDict (map (fun kv => (fst kv, VStr (snd kv))) m.(bindings))); ("received", VInt m.(received));
   ("activity", VList (map VDict (Notation.last_slice (if detail then 512 else 16) m.(activity))))].

(** The document of what this core knows, before the overlay. *)
Definition generated (notation_detail technology_detail : bool) (now : float) (s : ShowState) : res pydict :=
  quality ← _quality_score s;
  parts ← Notation.registry_snapshot s.(s_show).(key) notation_detail
            (if notation_detail then None else Some 16) s.(s_notation);
  Ok [("apiVersion", VInt 1); ("compatibility", VDict (Compatibility.compatibility_metadata None []));
      ("revision", VInt s.(s_revisions).(revision));
      ("resourceRevisions", VDict (map (fun kv => (fst kv, VInt (snd kv))) s.(s_revisions).(resource_revisions)));
      ("transport", VDict [("running", VBool s.(s_transport).(running));
                           ("seconds", VFloat (fround 3 (_clock_seconds now s)));
                           ("bpm", VFloat s.(s_show).(bpm)); ("key", VStr s.(s_show).(key))]);
      ("system", VDict [("capacity", VFloat s.(s_system).(capacity)); ("mode", VStr s.(s_system).(system_mode));
                        ("quality", VInt quality); ("venue", VStr s.(s_system).(venue));
                        ("productionManager", VStr s.(s_system).(production_manager))]);
      ("audio", VDict (audio_dict s.(s_audio))); ("handoff", VDict (handoff_dict s.(s_handoff)));
      ("technology", VDict (technology_dict s.(s_technology) technology_detail));
      ("lighting", VDict (lighting_dict s.(s_lighting)));
      ("players", VList (map (fun kv => VDict (player_dict (snd kv))) s.(s_players)));
      ("midi", VDict (midi_dict s.(s_midi) notation_detail)); ("notation", VDict parts);
      ("events", VList (map (fun h => VDict (entry_dict h)) s.(s_revisions).(events)))].

(** [report.get("mode") == "forward-compatible"]. *)
Definition forward_compatible (report : pydict) : bool :=
  py_eq (dget_none report "mode") (VStr "forward-compatible").

Definition incoming_version (report : pydict) : res Z := py_int (dget_or report "incomingApiVersion" (VInt 1)).

Definition snapshot (notation_detail technology_detail : bool) (now : float) (s : ShowState) : res pydict :=
  g ← generated notation_detail technology_detail now s;
  let report := s.(s_compat).(compat_report) in
  let merged := as_dict (Compatibility.merge_preserving_unknown (VDict s.(s_compat).(overlay)) (VDict g)) in
  version ← (if forward_compatible report then incoming_version report else Ok 1);
  let merged := dset merged "apiVersion" (VInt (Z.max 1 version)) in
  let meta := dmerge (as_dict (dget_none merged "compatibility")) (Compatibility.compatibility_metadata None []) in
  meta ← (if forward_compatible report
          then v ← incoming_version report; Ok (dset meta "sourceApiVersion" (VInt v)) else Ok meta);
  let migrations := dget_none report "migrations" in
  items ← (if truthy migrations then l ← (py_iter migrations : res (list pyval)); Ok (Some l) else Ok None);
  let meta := match items with Some l => dset meta "migrations" (VList l) | None => meta end in
  Ok (dset merged "compatibility" (VDict meta)).

Definition compatibility_status (s : ShowState) : pydict :=
  dmerge s.(s_compat).(compat_report)
    [("documentType", VStr "org.upp.show-state"); ("currentApiVersion", VInt 1); ("unknownFieldsPreserved", VBool true)].

Definition persistence_snapshot (now : float) (s : ShowState) : res pydict := snapshot true true now s.

Definition replication_snapshot (now : float) (s : ShowState) : res pydict :=
  d ← snapshot true false now s;
  let d := dremove d "technology" in
  Ok (match dget_none d "resourceRevisions" with
      | VDict r => dset d "resourceRevisions" (VDict (dremove r "technology"))
      | _ => d
      end).

Definition technology_snapshot (s : ShowState) : pydict :=
  technology_dict s.(s_technology) true
  ++ [("resourceRevision", VInt (resource_revision s.(s_revisions) "technology"))].

(** [return self.snapshot()]. *)
Definition answer (r : readings) : op pydict :=
  let* s := st_get in st_lift (snapshot false false r.(mono_snapshot) s).

(** [if changes: self._touch(key); self._event(...)], then the snapshot. *)
Definition commit (r : readings) (key cat prefix : string) (changes : list string) : op unit :=
  match changes with
  | [] => st_ret tt
  | _ =>
      let* _ := _touch key in
      let* _ := _event r cat (prefix +:+ join ", " changes) [("changes", VList (map VStr changes))] in
      st_ret tt
  end.

(** ** Transport *)

Definition set_clock (running : bool) (elapsed started : float) : op unit :=
  st_modify (with_transport {| running := running; elapsed := elapsed; started_at := started |}).

Definition transport (r : readings) (action : string) (expected expected_resource : option Z) : op pydict :=
  let* _ := _check_revision expected "transport" expected_resource in
  let action := strip (lower action) in
  let* s := st_get in
  let t := s.(s_transport) in
  let* changed :=
    (if String.eqb action "play" then
       if t.(running) then st_ret false
       else let* _ := set_clock true t.(elapsed) r.(mono_op) in st_ret true
     else if String.eqb action "pause" then
       if t.(running)
       then let* _ := set_clock false (_clock_seconds r.(mono_op) s) t.(started_at) in st_ret true
       else st_ret false
     else if String.eqb action "stop" then
       let* _ := set_clock false fzero r.(mono_op) in st_ret true
     else if String.eqb action "rewind" then
       let* _ := set_clock t.(running) fzero r.(mono_op) in st_ret true
     else st_raise (ValueError "action must be play, pause, stop, or rewind")) in
  let* _ := (if (changed : bool)
             then let* _ := _touch "transport" in
                  let* _ := _event r "transport" (capitalize action) [("action", VStr action)] in st_ret tt
             else st_ret tt) in
  answer r.
