(* ===== verification/ShowPatch.v ===== *)
(** * Patching the show state (backend/state.py, class ShowState)

    The operations that change one resource from a request body: show, system,
    handoff, technology, audio and lighting network. Fields are assigned as they
    are read, so a refused field keeps the assignments made before it. *)

From S2P Require Import Prelude PyStr PyFloat PyVal PyFacts ShowData ShowState.
From S2P Require Handoff Notation Technology.
From Stdlib Require Import SpecFloat.

#[local] Open Scope string_scope.
#[local] Open Scope list_scope.
#[local] Open Scope Z_scope.
#[local] Open Scope st_scope.
#[local] Existing Instance Technology.maturity_eq_dec.

(** [if k in data: body(data[k])]; the change notes it leaves. *)
Definition when_data (data : pydict) (k : string) (body : pyval -> op (list string)) : op (list string) :=
  match dget data k with Some v => body v | None => st_ret [] end.

(** [int(v)] with [TypeError] and [ValueError] replaced by a [ValueError] of a given text. *)
Definition int_or (v : pyval) (message : string) : res Z :=
  catch type_or_value (py_int v) (fun _ => Raise (ValueError message)).

(** The notes of several parts, in order. *)
Fixpoint gather (parts : list (op (list string))) : op (list string) :=
  match parts with
  | [] => st_ret []
  | p :: rest => let* c := p in let* cs := gather rest in st_ret (c ++ cs)
  end.

(** Check the revision, patch, commit the changes, return the snapshot. *)
Definition patch_resource (r : readings) (key cat prefix : string) (technology_detail : bool)
    (expected expected_resource : option Z) (parts : list (op (list string))) : op pydict :=
  let* _ := _check_revision expected key expected_resource in
  let* changes := gather parts in
  let* _ := commit r key cat prefix changes in
  let* s := st_get in
  st_lift (snapshot false technology_detail r.(mono_snapshot) s).

(** ** Show and system *)

Definition patch_bpm (v : pyval) : op (list string) :=
  let* x := st_lift (py_float v) in
  let b := clamp x (fz 30) (fz 300) in
  let* _ := st_modify (fun s => with_show {| bpm := b; key := s.(s_show).(key) |} s) in
  st_ret ["BPM " +:+ format_g b].

Definition patch_key (v : pyval) : op (list string) :=
  let text := strip (py_str v) in
  if String.eqb text "" then st_ret []
  else
    let k := slice 12 text in
    let* _ := st_modify (fun s => with_show {| bpm := s.(s_show).(bpm); key := k |} s) in
    st_ret ["key " +:+ k].

Definition patch_show (r : readings) (data : pydict) (expected expected_resource : option Z) : op pydict :=
  patch_resource r "show" "show" "Updated " false expected expected_resource
    [when_data data "bpm" patch_bpm; when_data data "key" patch_key].

Definition patch_capacity (v : pyval) : op (list string) :=
  let* x := st_lift (py_float v) in
  let c := clamp x fzero (fz 100) in
  let* _ := st_modify (fun s => let y := s.(s_system) in with_system
      {| capacity := c; system_mode := y.(system_mode); venue := y.(venue);
         production_manager := y.(production_manager) |} s) in
  st_ret ["capacity " +:+ format_g c +:+ "%"].

Definition patch_mode (v : pyval) : op (list string) :=
  let m := strip (lower (py_str v)) in
  if negb (bool_decide (m ∈ SYSTEM_MODES))
  then st_raise (ValueError "mode must be one of ['audio', 'full', 'reduced', 'safe']")
  else
    let* _ := st_modify (fun s => let y := s.(s_system) in with_system
        {| capacity := y.(capacity); system_mode := m; venue := y.(venue);
           production_manager := y.(production_manager) |} s) in
    st_ret ["mode " +:+ m].

Definition patch_venue (v : pyval) : op (list string) :=
  let* s := st_get in
  let y := s.(s_system) in
  let x := str_or (slice 80 (strip (py_str v))) y.(venue) in
  let* _ := st_put (with_system
      {| capacity := y.(capacity); system_mode := y.(system_mode); venue := x;
         production_manager := y.(production_manager) |} s) in
  st_ret ["venue " +:+ x].

Definition patch_manager (v : pyval) : op (list string) :=
  let* s := st_get in
  let y := s.(s_system) in
  let x := str_or (slice 80 (strip (py_str v))) y.(production_manager) in
  let* _ := st_put (with_system
      {| capacity := y.(capacity); system_mode := y.(system_mode); venue := y.(venue); production_manager := x |} s) in
  st_ret ["manager " +:+ x].

Definition patch_system (r : readings) (data : pydict) (expected expected_resource : option Z) : op pydict :=
  patch_resource r "system" "system" "Updated " false expected expected_resource
    [when_data data "capacity" patch_capacity; when_data data "mode" patch_mode;
     when_data data "venue" patch_venue; when_data data "productionManager" patch_manager].

(** ** Handoff *)

Definition set_handoff (p : Handoff.policy) (l : list Handoff.live_config) (c : list Handoff.source_config)
    : op unit := st_modify (with_handoff {| h_policy := p; h_live := l; h_sources := c |}).

Definition patch_handoff_policy (v : pyval) : op (list string) :=
  match v with
  | VDict raw =>
      let* s := st_get in
      let h := s.(s_handoff) in
      let* p := st_lift (Handoff.normalize_policy (VDict (dmerge (Handoff.policy_dict h.(h_policy)) raw))) in
      if py_eq (VDict (Handoff.policy_dict p)) (VDict (Handoff.policy_dict h.(h_policy))) then st_ret []
      else let* _ := set_handoff p h.(h_live) h.(h_sources) in st_ret ["policy"]
  | _ => st_raise (ValueError "handoff policy must be an object")
  end.

(** [merged[slot] = {**merged[slot], **raw, "slot": slot}]. *)
Definition overlay_live (merged : list pydict) (item : pyval) : res (list pydict) :=
  match item with
  | VDict raw =>
      slot ← int_or (dget_or raw "slot" (VInt (-1))) "handoff live input slot must be an integer";
      if negb ((0 <=? slot) && (slot <? 4)) then Raise (ValueError "handoff live input slot must be 0..3")
      else
        let base := default [] (merged !! Z.to_nat slot) in
        Ok (<[Z.to_nat slot := dset (dmerge base raw) "slot" (VInt slot)]> merged)
  | _ => Raise (ValueError "each handoff live input must be an object")
  end.

Definition patch_live_inputs (v : pyval) : op (list string) :=
  match v with
  | VList items =>
      let* s := st_get in
      let h := s.(s_handoff) in
      let* merged := st_lift (fold_res overlay_live items (map live_dict h.(h_live))) in
      let* l := st_lift (Handoff.normalize_live_inputs (VList (map VDict merged))) in
      let rows x := VList (map (fun c => VDict (live_dict c)) x) in
      if py_eq (rows l) (rows h.(h_live)) then st_ret []
      else let* _ := set_handoff h.(h_policy) l h.(h_sources) in st_ret ["live-input redundancy"]
  | _ => st_raise (ValueError "handoff liveInputs must be an array")
  end.

Definition patch_sources (v : pyval) : op (list string) :=
  match v with
  | VList _ =>
      let* s := st_get in
      let h := s.(s_handoff) in
      let c := Handoff.normalize_deterministic_sources v in
      let rows x := VList (map (fun c => VDict (source_dict c)) x) in
      if py_eq (rows c) (rows h.(h_sources)) then st_ret []
      else let* _ := set_handoff h.(h_policy) h.(h_live) c in st_ret ["deterministic sources"]
  | _ => st_raise (ValueError "handoff deterministicSources must be an array")
  end.

Definition patch_handoff (r : readings) (data : pydict) (expected expected_resource : option Z) : op pydict :=
  patch_resource r "handoff" "handoff" "Updated " false expected expected_resource
    [when_data data "policy" patch_handoff_policy; when_data data "liveInputs" patch_live_inputs;
     when_data data "deterministicSources" patch_sources].

(** ** Technology *)

Definition set_technology (p : pydict) (n : Z) (xs : list Technology.extension) : op unit :=
  st_modify (with_technology {| t_policy := p; t_participants := n; t_extensions := xs |}).

Definition extension_rows (xs : list Technology.extension) : pyval :=
  VList (map (fun x => VDict (Technology.extension_dict x)) xs).

Definition patch_openness (v : pyval) : op (list string) :=
  match v with
  | VDict raw =>
      let* s := st_get in
      let t := s.(s_technology) in
      let* p := st_lift (Technology.normalize_technology_policy (VDict (dmerge t.(t_policy) raw))) in
      if py_eq (VDict p) (VDict t.(t_policy)) then st_ret []
      else let* _ := set_technology p t.(t_participants) t.(t_extensions) in st_ret ["openness policy"]
  | _ => st_raise (ValueError "technology policy must be an object")
  end.

Definition patch_participants (v : pyval) : op (list string) :=
  let* n := st_lift (int_or v "technology ecosystemParticipants must be an integer") in
  let n := Z.max 1 (Z.min 1000000 n) in
  let* s := st_get in
  let t := s.(s_technology) in
  if n =? t.(t_participants) then st_ret []
  else let* _ := set_technology t.(t_policy) n t.(t_extensions) in
       st_ret ["ecosystem participants " +:+ dec n].

(** A submitted extension overlaid on the registered one of the same identifier. *)
Definition overlay_extension (by_id : list (string * pydict)) (item : pyval) : res (list (string * pydict)) :=
  match item with
  | VDict raw =>
      let id := slice 160 (strip (py_str (dget_or raw "id" (VStr "")))) in
      if String.eqb id "" then Raise (ValueError "technology extension id required")
      else
        let existing := default [] (alookup by_id id) in
        let merged := dset (dmerge existing raw) "id" (VStr id) in
        let merged := match dget_none existing "dependencies", dget_none raw "dependencies" with
                      | VDict a, VDict b => dset merged "dependencies" (VDict (dmerge a b))
                      | _, _ => merged
                      end in
        Ok (aput by_id id merged)
  | _ => Raise (ValueError "each technology extension must be an object")
  end.

Definition patch_extensions (v : pyval) : op (list string) :=
  match v with
  | VList items =>
      let* s := st_get in
      let t := s.(s_technology) in
      let known := map (fun x => (x.(Technology.x_id), Technology.extension_dict x)) t.(t_extensions) in
      let* by_id := st_lift (fold_res overlay_extension items known) in
      let* xs := st_lift (Technology.normalize_technology_extensions (VList (map (fun kv => VDict (snd kv)) by_id))) in
      if py_eq (extension_rows xs) (extension_rows t.(t_extensions)) then st_ret []
      else let* _ := set_technology t.(t_policy) t.(t_participants) xs in st_ret ["technology registry"]
  | _ => st_raise (ValueError "technology extensions must be an array")
  end.

Definition removal_ids (items : list pyval) : list string :=
  map (slice 160) (List.filter (fun x => negb (String.eqb x "")) (map (fun v => strip (py_str v)) items)).

Definition patch_removals (v : pyval) : op (list string) :=
  match v with
  | VList items =>
      let ids := removal_ids items in
      let listed x := bool_decide (x.(Technology.x_id) ∈ ids) in
      let* s := st_get in
      let t := s.(s_technology) in
      let guarded x := listed x && (bool_decide (x.(Technology.x_maturity) = Technology.Standard)
                                    || x.(Technology.mandatoryCore)) in
      match List.filter guarded t.(t_extensions) with
      | [] =>
          let kept := List.filter (fun x => negb (listed x)) t.(t_extensions) in
          if py_eq (extension_rows kept) (extension_rows t.(t_extensions)) then st_ret []
          else let* _ := set_technology t.(t_policy) t.(t_participants) kept in
               st_ret ["technology registry removals"]
      | protected =>
          st_raise (ValueError ("standard/core technology cannot be deleted; deprecate or supersede it instead: "
                                +:+ join ", " (map Technology.x_id protected)))
      end
  | _ => st_raise (ValueError "removeExtensionIds must be an array")
  end.

Definition patch_technology (r : readings) (data : pydict) (expected expected_resource : option Z) : op pydict :=
  patch_resource r "technology" "technology" "Updated " true expected expected_resource
    [when_data data "policy" patch_openness; when_data data "ecosystemParticipants" patch_participants;
     when_data data "extensions" patch_extensions; when_data data "removeExtensionIds" patch_removals].

(** ** Audio *)

Definition allowed_purposes : list string := ["aux"; "broadcast"; "foh"; "monitor"; "record"].

(** [device_id and any(ch.isspace() for ch in device_id)]. *)
Definition has_space (s : string) : bool := existsb is_space (chars s).

Definition text96 (v : pyval) : string := slice 96 (strip (py_str v)).
Definition text64 (v : pyval) : string := slice 64 (strip (py_str v)).

Definition known_player (s : ShowState) (id : string) : bool :=
  match alookup s.(s_players) id with Some _ => true | None => false end.

(** [player_id and player_id not in self._players]. *)
Definition unknown_player (s : ShowState) (id : string) : bool :=
  negb (String.eqb id "") && negb (known_player s id).

Definition clamp_int (lo hi z : Z) : Z := Z.max lo (Z.min hi z).
Definition get_clamped_int (d : pydict) (k : string) (current lo hi : Z) : res Z :=
  z ← py_int (dget_or d k (VInt current)); Ok (clamp_int lo hi z).
Definition get_clamped (d : pydict) (k : string) (current lo hi : float) : res float :=
  x ← py_float (dget_or d k (VFloat current)); Ok (clamp x lo hi).

Definition read_drift (v : pyval) (current : drift) : res drift :=
  match v with
  | VDict d =>
      c ← get_clamped d "maxCorrectionPpm" current.(maxCorrectionPpm) fzero (fz 10000);
      q ← get_clamped d "queueGainPpm" current.(queueGainPpm) fzero (fz 10000);
      Ok {| d_enabled := truthy (dget_or d "enabled" (VBool current.(d_enabled)));
            maxCorrectionPpm := c; queueGainPpm := q |}
  | _ => Raise (ValueError "audio driftCompensation must be an object")
  end.

(** One submitted output, checked against the current row of its slot. *)
Definition read_output (s : ShowState) (raw : pydict) (slot : Z) (current : audio_output) : res audio_output :=
  let device := text96 (dget_or raw "deviceId" (VStr current.(o_device))) in
  if has_space device
  then Raise (ValueError "audio output device id must be an empty value or non-empty token")
  else
    let use := lower (strip (py_str (dget_or raw "purpose" (VStr current.(purpose))))) in
    if negb (bool_decide (use ∈ allowed_purposes))
    then Raise (ValueError "audio output purpose must be one of ['aux', 'broadcast', 'foh', 'monitor', 'record']")
    else
      let player := text64 (dget_or raw "playerId" (VStr current.(o_player))) in
      if unknown_player s player
      then Raise (ValueError "audio output playerId must reference an existing player or be empty")
      else
        graph ← get_clamped_int raw "graphOutput" current.(graphOutput) 0 15;
        master ← get_clamped raw "master" current.(o_master) fzero (fz 4);
        ceiling ← get_clamped raw "limiterCeilingDb" current.(o_ceiling) (fz (-24)) fzero;
        d ← read_drift (dget_or raw "driftCompensation" (VDict (drift_dict current.(o_drift)))) current.(o_drift);
        Ok {| o_slot := slot; o_device := device; purpose := use; o_player := player; graphOutput := graph;
              o_master := master; o_ceiling := ceiling; o_drift := d |}.

Definition read_input (s : ShowState) (raw : pydict) (slot : Z) (current : audio_input) : res audio_input :=
  let device := text96 (dget_or raw "deviceId" (VStr current.(i_device))) in
  if has_space device
  then Raise (ValueError "audio input device id must be an empty value or non-empty token")
  else
    let player := text64 (dget_or raw "playerId" (VStr current.(i_player))) in
    if unknown_player s player
    then Raise (ValueError "audio input playerId must reference an existing player or be empty")
    else match dget_or raw "route" (VDict (route_dict current.(r_output) current.(r_gain))) with
    | VDict route =>
        output ← get_clamped_int route "output" current.(r_output) 0 15;
        gain ← get_clamped route "gain" current.(r_gain) fzero (fz 4);
        rate ← get_clamped raw "sampleRate" current.(i_rate) (fz 8000) (fz 768000);
        Ok {| i_slot := slot; i_device := device; i_player := player; i_rate := rate;
              r_output := output; r_gain := gain |}
    | _ => Raise (ValueError "audio input route must be an object")
    end.

Definition set_rows (inputs : list audio_input) (outputs : list audio_output) (a : audio_state) : audio_state :=
  {| a_device := a.(a_device); a_input_device := a.(a_input_device); a_input_player := a.(a_input_player);
     a_route_output := a.(a_route_output); a_route_gain := a.(a_route_gain); a_inputs := inputs;
     a_outputs := outputs; a_rate := a.(a_rate); a_buffer := a.(a_buffer); a_ceiling := a.(a_ceiling) |}.

Definition modify_audio (f : audio_state -> audio_state) : op unit :=
  st_modify (fun s => with_audio (f s.(s_audio)) s).

(** The slot of a submitted row: 0..3. *)
Definition read_slot (what : string) (item : pyval) : res (pydict * Z) :=
  match item with
  | VDict raw =>
      slot ← int_or (dget_or raw "slot" (VInt (-1))) ("audio " +:+ what +:+ " slot must be an integer");
      if negb ((0 <=? slot) && (slot <? 4)) then Raise (ValueError ("audio " +:+ what +:+ " slot must be 0..3"))
      else Ok (raw, slot)
  | _ => Raise (ValueError ("each audio " +:+ what +:+ " must be an object"))
  end.

Definition patch_output (item : pyval) : op (list string) :=
  let* rs := st_lift (read_slot "output" item) in
  let '(raw, slot) := rs in
  let* s := st_get in
  match s.(s_audio).(a_outputs) !! Z.to_nat slot with
  | None => st_raise IndexError
  | Some current =>
      let* updated := st_lift (read_output s raw slot current) in
      if py_eq (VDict (output_dict updated)) (VDict (output_dict current)) then st_ret []
      else
        let* _ := modify_audio (fun a => set_rows a.(a_inputs) (<[Z.to_nat slot := updated]> a.(a_outputs)) a) in
        st_ret ["output slot " +:+ dec slot]
  end.

Definition patch_input (item : pyval) : op (list string) :=
  let* rs := st_lift (read_slot "input" item) in
  let '(raw, slot) := rs in
  let* s := st_get in
  match s.(s_audio).(a_inputs) !! Z.to_nat slot with
  | None => st_raise IndexError
  | Some current =>
      let* updated := st_lift (read_input s raw slot current) in
      if py_eq (VDict (input_dict updated)) (VDict (input_dict current)) then st_ret []
      else
        let* _ := modify_audio (fun a => set_rows (<[Z.to_nat slot := updated]> a.(a_inputs)) a.(a_outputs) a) in
        st_ret ["input slot " +:+ dec slot]
  end.

Definition first_output (a : audio_state) : audio_output := default (default_output 0) (head a.(a_outputs)).
Definition first_input (a : audio_state) : audio_input := default (default_input fzero 0) (head a.(a_inputs)).

(** The aliases of slot 0 follow its row. *)
Definition sync_outputs (a : audio_state) : audio_state :=
  {| a_device := str_or (first_output a).(o_device) "null-audio"; a_input_device := a.(a_input_device);
     a_input_player := a.(a_input_player); a_route_output := a.(a_route_output);
     a_route_gain := a.(a_route_gain); a_inputs := a.(a_inputs); a_outputs := a.(a_outputs);
     a_rate := a.(a_rate); a_buffer := a.(a_buffer); a_ceiling := (first_output a).(o_ceiling) |}.

Definition sync_inputs (a : audio_state) : audio_state :=
  let i := first_input a in
  {| a_device := a.(a_device); a_input_device := i.(i_device); a_input_player := i.(i_player);
     a_route_output := i.(r_output); a_route_gain := i.(r_gain); a_inputs := a.(a_inputs);
     a_outputs := a.(a_outputs); a_rate := a.(a_rate); a_buffer := a.(a_buffer); a_ceiling := a.(a_ceiling) |}.

Definition patch_outputs (v : pyval) : op (list string) :=
  match v with
  | VList items =>
      let* c := gather (map patch_output items) in
      let* _ := modify_audio sync_outputs in
      st_ret c
  | _ => st_raise (ValueError "audio outputs must be an array")
  end.

Definition patch_inputs (v : pyval) : op (list string) :=
  match v with
  | VList items =>
      let* c := gather (map patch_input items) in
      let* _ := modify_audio sync_inputs in
      st_ret c
  | _ => st_raise (ValueError "audio inputs must be an array")
  end.

(** Update the first row. *)
Definition on_first {A} (f : A -> A) (l : list A) : list A :=
  match l with [] => [] | a :: l' => f a :: l' end.

Definition set_output_device (d : string) (o : audio_output) : audio_output :=
  {| o_slot := o.(o_slot); o_device := d; purpose := o.(purpose); o_player := o.(o_player);
     graphOutput := o.(graphOutput); o_master := o.(o_master); o_ceiling := o.(o_ceiling); o_drift := o.(o_drift) |}.
Definition set_output_ceiling (c : float) (o : audio_output) : audio_output :=
  {| o_slot := o.(o_slot); o_device := o.(o_device); purpose := o.(purpose); o_player := o.(o_player);
     graphOutput := o.(graphOutput); o_master := o.(o_master); o_ceiling := c; o_drift := o.(o_drift) |}.
Definition set_input_row (device player : string) (rate : float) (output : Z) (gain : float) (i : audio_input)
    : audio_input :=
  {| i_slot := i.(i_slot); i_device := device; i_player := player; i_rate := rate; r_output := output; r_gain := gain |}.

Definition patch_device (v : pyval) : op (list string) :=
  let device := text96 v in
  if String.eqb device "" || has_space device
  then st_raise (ValueError "audio device id must be a non-empty token")
  else
    let* s := st_get in
    if String.eqb device s.(s_audio).(a_device) then st_ret []
    else
      let* _ := modify_audio (fun a =>
        {| a_device := device; a_input_device := a.(a_input_device); a_input_player := a.(a_input_player);
           a_route_output := a.(a_route_output); a_route_gain := a.(a_route_gain); a_inputs := a.(a_inputs);
           a_outputs := on_first (set_output_device device) a.(a_outputs); a_rate := a.(a_rate);
           a_buffer := a.(a_buffer); a_ceiling := a.(a_ceiling) |}) in
      st_ret ["device " +:+ device].

Definition patch_input_device (v : pyval) : op (list string) :=
  let device := text96 v in
  if has_space device
  then st_raise (ValueError "audio input device id must be an empty value or non-empty token")
  else
    let* s := st_get in
    if String.eqb device s.(s_audio).(a_input_device) then st_ret []
    else
      let* _ := modify_audio (fun a =>
        {| a_device := a.(a_device); a_input_device := device; a_input_player := a.(a_input_player);
           a_route_output := a.(a_route_output); a_route_gain := a.(a_route_gain);
           a_inputs := on_first (fun i => set_input_row device i.(i_player) i.(i_rate) i.(r_output) i.(r_gain) i)
                         a.(a_inputs);
           a_outputs := a.(a_outputs); a_rate := a.(a_rate); a_buffer := a.(a_buffer); a_ceiling := a.(a_ceiling) |}) in
      st_ret ["input device " +:+ str_or device "none"].

Definition patch_input_player (v : pyval) : op (list string) :=
  let player := text64 v in
  let* s := st_get in
  if unknown_player s player
  then st_raise (ValueError "audio inputPlayerId must reference an existing player or be empty")
  else if String.eqb player s.(s_audio).(a_input_player) then st_ret []
  else
    let* _ := modify_audio (fun a =>
      {| a_device := a.(a_device); a_input_device := a.(a_input_device); a_input_player := player;
         a_route_output := a.(a_route_output); a_route_gain := a.(a_route_gain);
         a_inputs := on_first (fun i => set_input_row i.(i_device) player i.(i_rate) i.(r_output) i.(r_gain) i)
                       a.(a_inputs);
         a_outputs := a.(a_outputs); a_rate := a.(a_rate); a_buffer := a.(a_buffer); a_ceiling := a.(a_ceiling) |}) in
    st_ret ["input player " +:+ str_or player "unassigned"].

Definition patch_input_route (v : pyval) : op (list string) :=
  match v with
  | VDict route =>
      let* s := st_get in
      let a := s.(s_audio) in
      let* output := st_lift (get_clamped_int route "output" a.(a_route_output) 0 15) in
      let* gain := st_lift (get_clamped route "gain" a.(a_route_gain) fzero (fz 4)) in
      if (output =? a.(a_route_output)) && feq gain a.(a_route_gain) then st_ret []
      else
        let* _ := modify_audio (fun a =>
          {| a_device := a.(a_device); a_input_device := a.(a_input_device); a_input_player := a.(a_input_player);
             a_route_output := output; a_route_gain := gain;
             a_inputs := on_first (fun i => set_input_row i.(i_device) i.(i_player) i.(i_rate) output gain i)
                           a.(a_inputs);
             a_outputs := a.(a_outputs); a_rate := a.(a_rate); a_buffer := a.(a_buffer); a_ceiling := a.(a_ceiling) |}) in
        st_ret ["input route source 24 -> output " +:+ dec output +:+ " gain " +:+ format_g gain]
  | _ => st_raise (ValueError "audio inputRoute must be an object")
  end.

(** The inputs that followed the previous rate follow the new one, unless the
    request lists inputs itself. *)
Definition patch_rate (lists_inputs : bool) (v : pyval) : op (list string) :=
  let* x := st_lift (py_float v) in
  let rate := clamp x (fz 8000) (fz 768000) in
  let* s := st_get in
  let previous := s.(s_audio).(a_rate) in
  if feq rate previous then st_ret []
  else
    let follow i := if feq i.(i_rate) previous
                    then set_input_row i.(i_device) i.(i_player) rate i.(r_output) i.(r_gain) i else i in
    let* _ := modify_audio (fun a =>
      {| a_device := a.(a_device); a_input_device := a.(a_input_device); a_input_player := a.(a_input_player);
         a_route_output := a.(a_route_output); a_route_gain := a.(a_route_gain);
         a_inputs := if lists_inputs then a.(a_inputs) else map follow a.(a_inputs);
         a_outputs := a.(a_outputs); a_rate := rate; a_buffer := a.(a_buffer); a_ceiling := a.(a_ceiling) |}) in
    st_ret ["sample rate " +:+ format_g rate].

Definition patch_buffer (v : pyval) : op (list string) :=
  let* z := st_lift (py_int v) in
  let frames := clamp_int 16 8192 z in
  let* s := st_get in
  if frames =? s.(s_audio).(a_buffer) then st_ret []
  else
    let* _ := modify_audio (fun a =>
      {| a_device := a.(a_device); a_input_device := a.(a_input_device); a_input_player := a.(a_input_player);
         a_route_output := a.(a_route_output); a_route_gain := a.(a_route_gain); a_inputs := a.(a_inputs);
         a_outputs := a.(a_outputs); a_rate := a.(a_rate); a_buffer := frames; a_ceiling := a.(a_ceiling) |}) in
    st_ret ["buffer " +:+ dec frames].

Definition patch_ceiling (v : pyval) : op (list string) :=
  let* x := st_lift (py_float v) in
  let ceiling := clamp x (fz (-24)) fzero in
  let* s := st_get in
  if feq ceiling s.(s_audio).(a_ceiling) then st_ret []
  else
    let* _ := modify_audio (fun a =>
      {| a_device := a.(a_device); a_input_device := a.(a_input_device); a_input_player := a.(a_input_player);
         a_route_output := a.(a_route_output); a_route_gain := a.(a_route_gain); a_inputs := a.(a_inputs);
         a_outputs := on_first (set_output_ceiling ceiling) a.(a_outputs); a_rate := a.(a_rate);
         a_buffer := a.(a_buffer); a_ceiling := ceiling |}) in
    st_ret ["limiter " +:+ format_g ceiling +:+ " dBFS"].

Definition patch_audio (r : readings) (data : pydict) (expected expected_resource : option Z) : op pydict :=
  patch_resource r "audio" "audio" "Audio desired state updated: " false expected expected_resource
    [when_data data "outputs" patch_outputs; when_data data "inputs" patch_inputs;
     when_data data "deviceId" patch_device; when_data data "inputDeviceId" patch_input_device;
     when_data data "inputPlayerId" patch_input_player; when_data data "inputRoute" patch_input_route;
     when_data data "sampleRate" (patch_rate (dhas data "inputs")); when_data data "bufferFrames" patch_buffer;
     when_data data "limiterCeilingDb" patch_ceiling].

(** ** Lighting network *)

Definition octet (s : string) : option Z :=
  let l := chars s in
  if negb (String.eqb s "") && forallb is_digit l && (Z.of_nat (length l) <=? 3)
     && (Nat.eqb (length l) 1 || negb (starts_with "0" s))
  then match parse_int s with Some z => if z <=? 255 then Some z else None | None => None end
  else None.

(** [int(IPv4Address(text))]; [None] where the text is refused. *)
Definition ipv4 (text : string) : option Z :=
  match map octet (split_char "."%char text) with
  | [Some a; Some b; Some c; Some d] => Some (a * 2 ^ 24 + b * 2 ^ 16 + c * 2 ^ 8 + d)
  | _ => None
  end.

(** [address.is_multicast or address.is_unspecified or int(address) == 0xFFFFFFFF]. *)
Definition not_unicast (address : Z) : bool :=
  (Z.shiftr address 28 =? 14) || (address =? 0) || (address =? 4294967295).

Definition modify_lighting (f : lighting_state -> lighting_state) : op unit :=
  st_modify (fun s => with_lighting (f s.(s_lighting)) s).

Definition default_port (protocol : string) : Z := if String.eqb protocol "sacn" then 5568 else 6454.

Definition patch_protocol (has_port : bool) (v : pyval) : op (list string) :=
  let p := lower (strip (py_str v)) in
  if negb (bool_decide (p ∈ ["artnet"; "sacn"])) then st_raise (ValueError "lighting protocol must be artnet or sacn")
  else
    let* s := st_get in
    let l := s.(s_lighting) in
    if String.eqb p l.(protocol) then st_ret []
    else
      let moves := negb has_port && (l.(port) =? default_port l.(protocol)) in
      let* _ := modify_lighting (fun l =>
        {| protocol := p; l_target := l.(l_target); port := if moves then default_port p else l.(port);
           universe_base := l.(universe_base) |}) in
      st_ret ("protocol" :: if moves then ["port"] else []).

Definition patch_target (v : pyval) : op (list string) :=
  let t := text64 v in
  match (if String.eqb t "" then Some 1 else ipv4 t) with
  | None => st_raise (ValueError "lighting target must be an IPv4 address")
  | Some address =>
      if negb (String.eqb t "") && not_unicast address
      then st_raise (ValueError "lighting target must be unicast IPv4")
      else
        let* s := st_get in
        if String.eqb t s.(s_lighting).(l_target) then st_ret []
        else
          let* _ := modify_lighting (fun l =>
            {| protocol := l.(protocol); l_target := t; port := l.(port); universe_base := l.(universe_base) |}) in
          st_ret ["target"]
  end.

Definition patch_port (v : pyval) : op (list string) :=
  let* n := st_lift (int_or v "lighting port must be an integer") in
  if negb ((1 <=? n) && (n <=? 65535)) then st_raise (ValueError "lighting port must be 1..65535")
  else
    let* s := st_get in
    if n =? s.(s_lighting).(port) then st_ret []
    else
      let* _ := modify_lighting (fun l =>
        {| protocol := l.(protocol); l_target := l.(l_target); port := n; universe_base := l.(universe_base) |}) in
      st_ret ["port"].

Definition patch_universe (v : pyval) : op (list string) :=
  let* n := st_lift (int_or v "lighting universeBase must be an integer") in
  if negb ((1 <=? n) && (n <=? 63984)) then st_raise (ValueError "lighting universeBase must be 1..63984")
  else
    let* s := st_get in
    if n =? s.(s_lighting).(universe_base) then st_ret []
    else
      let* _ := modify_lighting (fun l =>
        {| protocol := l.(protocol); l_target := l.(l_target); port := l.(port); universe_base := n |}) in
      st_ret ["universeBase"].

Definition patch_lighting_network (r : readings) (data : pydict) (expected expected_resource : option Z)
    : op pydict :=
  patch_resource r "lighting-network" "lighting" "Lighting network desired state updated: " false
    expected expected_resource
    [when_data data "protocol" (patch_protocol (dhas data "port")); when_data data "target" patch_target;
     when_data data "port" patch_port; when_data data "universeBase" patch_universe].
