(* ===== verification/ShowRestore.v ===== *)
(** * Restoring the show state (backend/state.py, class ShowState)

    Construction from nothing or from a persisted snapshot, and replacement by a
    replicated one. [_restore] assigns the parts of the state one after another,
    so a refused field keeps the assignments made before it. *)

From S2P Require Import Prelude PyStr PyFloat PyVal PyFacts ShowData ShowState ShowPatch.
From S2P Require Handoff Notation Technology Compatibility.
From Stdlib Require Import SpecFloat.

#[local] Open Scope string_scope.
#[local] Open Scope list_scope.
#[local] Open Scope Z_scope.
#[local] Open Scope st_scope.

(** ** The initial state *)

Definition initial_audio : audio_state :=
  {| a_device := "null-audio"; a_input_device := ""; a_input_player := ""; a_route_output := 0;
     a_route_gain := fzero; a_inputs := default_inputs (fz 192000); a_outputs := default_outputs;
     a_rate := fz 192000; a_buffer := 256; a_ceiling := fz (-1) |}.

Definition initial_resources : list (string * Z) :=
  map (fun k => (k, 1)) ["transport"; "show"; "system"; "midi-bindings"; "audio"; "lighting-network"; "handoff"; "technology"]
  ++ concat (map (fun kv => [("monitor:" +:+ fst kv, 1); ("midi:" +:+ fst kv, 1); ("notation:" +:+ fst kv, 1)])
               _default_players).

Definition new_report : pydict := [("readable", VBool true); ("mode", VStr "new"); ("readerApiVersion", VInt 1)].

Definition initial_state (now : float) : ShowState :=
  {| s_transport := {| running := false; elapsed := fzero; started_at := now |};
     s_show := {| bpm := fz 120; key := "C" |};
     s_system := {| capacity := fz 78; system_mode := "full"; venue := "Small Club";
                    production_manager := "Touring Default" |};
     s_audio := initial_audio;
     s_lighting := {| protocol := "artnet"; l_target := ""; port := 6454; universe_base := 1 |};
     s_handoff := {| h_policy := Handoff.DEFAULT_HANDOFF_POLICY;
                     h_live := Handoff.default_live_input_redundancy; h_sources := [] |};
     s_technology := {| t_policy := Technology.DEFAULT_TECHNOLOGY_POLICY; t_participants := 1; t_extensions := [] |};
     s_midi := {| bindings := []; received := 0; activity := [] |};
     s_players := _default_players;
     s_notation := {| Notation._parts := map (fun kv => (fst kv, Notation.new_part (fst kv))) _default_players |};
     s_revisions := {| revision := 1; resource_revisions := initial_resources; next_event_id := 1; events := [] |};
     s_compat := {| overlay := []; compat_report := new_report |} |}.

(** ** Reading a snapshot *)

(** [snapshot.get(k) or {}]. *)
Definition section (d : pydict) (k : string) : pyval := py_or (dget_none d k) (VDict []).

Definition field_float (v : pyval) (k : string) (default low high : float) : res float :=
  x ← vget v k (VFloat default); f ← py_float x; Ok (clamp f low high).
Definition field_int (v : pyval) (k : string) (default low high : Z) : res Z :=
  x ← vget v k (VInt default); z ← py_int x; Ok (clamp_int low high z).
Definition field_text (v : pyval) (k default : string) : res string :=
  x ← vget v k (VStr default); Ok (strip (py_str x)).

(** [try: m except (TypeError, ValueError): fallback]. *)
Definition or_else {A} (m : res A) (fallback : A) : res A := catch type_or_value m (fun _ => Ok fallback).

Definition restore_transport (t : pyval) (hold : bool) (now : float) : op unit :=
  let* x := st_lift (field_float t "seconds" fzero fzero (fz 604800)) in
  let* _ := st_modify (fun s => with_transport
      {| running := s.(s_transport).(running); elapsed := x; started_at := s.(s_transport).(started_at) |} s) in
  let* flag := (if (hold : bool) then st_ret false
                else let* v := st_lift (vget t "running" (VBool false)) in st_ret (truthy v)) in
  let* _ := st_modify (with_transport {| running := flag; elapsed := x; started_at := now |}) in
  let* b := st_lift (field_float t "bpm" (fz 120) (fz 30) (fz 300)) in
  let* _ := st_modify (fun s => with_show {| bpm := b; key := s.(s_show).(key) |} s) in
  let* k := st_lift (field_text t "key" "C") in
  st_modify (fun s => with_show {| bpm := b; key := str_or (slice 12 k) "C" |} s).

Definition set_system (c : float) (m v p : string) : op unit :=
  st_modify (with_system {| capacity := c; system_mode := m; venue := v; production_manager := p |}).

Definition restore_system (t : pyval) : op unit :=
  let* c := st_lift (field_float t "capacity" (fz 78) fzero (fz 100)) in
  let* m := st_lift (field_text t "mode" "full") in
  let* v := st_lift (field_text t "venue" "Small Club") in
  let* p := st_lift (field_text t "productionManager" "Touring Default") in
  let m := lower m in
  set_system c (if bool_decide (m ∈ SYSTEM_MODES) then m else "safe")
    (str_or (slice 80 v) "Small Club") (str_or (slice 80 p) "Touring Default").

(** [handoff.get(k) if isinstance(handoff, dict) else None]. *)
Definition handoff_field (h : pyval) (k : string) : pyval := dget_none (as_dict h) k.

Definition restore_handoff (h : pyval) : op unit :=
  let* p := st_lift (Handoff.normalize_policy (handoff_field h "policy")) in
  let* _ := st_modify (fun s => with_handoff {| h_policy := p; h_live := s.(s_handoff).(h_live);
                                                h_sources := s.(s_handoff).(h_sources) |} s) in
  let* l := st_lift (Handoff.normalize_live_inputs (handoff_field h "liveInputs")) in
  st_modify (with_handoff {| h_policy := p; h_live := l;
     h_sources := Handoff.normalize_deterministic_sources (handoff_field h "deterministicSources") |}).

(** The parts of the technology section that are present replace the node's own. *)
Definition restore_technology (t : pyval) : op unit :=
  match t with
  | VDict d =>
      let* _ := (if dhas d "policy" then
                   let* p := st_lift (Technology.normalize_technology_policy (dget_none d "policy")) in
                   st_modify (fun s => with_technology {| t_policy := p;
                     t_participants := s.(s_technology).(t_participants);
                     t_extensions := s.(s_technology).(t_extensions) |} s)
                 else st_ret tt) in
      let* s := st_get in
      let own := s.(s_technology) in
      let* n := st_lift (if dhas d "ecosystemParticipants"
                         then or_else (z ← py_int (dget_none d "ecosystemParticipants");
                                       Ok (clamp_int 1 1000000 z)) own.(t_participants)
                         else Ok own.(t_participants)) in
      let* _ := st_modify (with_technology {| t_policy := own.(t_policy); t_participants := n;
                                              t_extensions := own.(t_extensions) |}) in
      if dhas d "extensions" then
        let* xs := st_lift (Technology.normalize_technology_extensions (dget_none d "extensions")) in
        st_modify (with_technology {| t_policy := own.(t_policy); t_participants := n; t_extensions := xs |})
      else st_ret tt
  | _ => st_ret tt
  end.

(** A device text, empty when it is not a token. *)
Definition token (t : string) : string := if has_space t then "" else t.

Definition text_field (v : pyval) (k default : string) (n : nat) : res string :=
  t ← field_text v k default; Ok (slice n t).

(** [output, gain] of a route, zero when it cannot be read. *)
Definition read_route (route : pyval) : res (Z * float) :=
  or_else (o ← field_int route "output" 0 0 15; g ← field_float route "gain" fzero fzero (fz 4); Ok (o, g)) (0, fzero).

(** [int(raw.get("slot", -1))] when it names a slot. *)
Definition slot_of (d : pydict) : res (option Z) :=
  z ← or_else (z ← py_int (dget_or d "slot" (VInt (-1))); Ok (Some z)) None;
  Ok (match z with Some s => if (0 <=? s) && (s <? 4) then Some s else None | None => None end).

Definition restore_input (audio : pyval) (rows : list audio_input) (item : pyval) : res (list audio_input) :=
  match item with
  | VDict d =>
      o ← slot_of d;
      match o with
      | None => Ok rows
      | Some slot =>
          let device := token (slice 96 (strip (py_str (dget_or d "deviceId" (VStr ""))))) in
          let player := slice 64 (strip (py_str (dget_or d "playerId" (VStr "")))) in
          '(output, gain) ← read_route (section d "route");
          fallback ← vget audio "sampleRate" (VFloat (fz 192000));
          rate ← py_float (dget_or d "sampleRate" fallback);
          Ok (<[Z.to_nat slot := {| i_slot := slot; i_device := device; i_player := player;
                i_rate := clamp rate (fz 8000) (fz 768000); r_output := output; r_gain := gain |}]> rows)
      end
  | _ => Ok rows
  end.

(** The single-input fields of older documents. *)
Definition legacy_input (audio : pyval) (rate : float) (rows : list audio_input) : res (list audio_input) :=
  device ← text_field audio "inputDeviceId" "" 96;
  player ← text_field audio "inputPlayerId" "" 64;
  r ← vget audio "inputRoute" VNone;
  '(output, gain) ← read_route (py_or r (VDict []));
  Ok (on_first (fun _ => {| i_slot := 0; i_device := token device; i_player := player; i_rate := rate;
                            r_output := output; r_gain := gain |}) rows).

(** The same fields as aliases of slot 0 next to a current input table. *)
Definition alias_input (audio : pyval) (rows : list audio_input) : res (list audio_input) :=
  has_device ← vhas audio "inputDeviceId";
  device ← text_field audio "inputDeviceId" "" 96;
  has_player ← vhas audio "inputPlayerId";
  player ← text_field audio "inputPlayerId" "" 64;
  let rows := if has_device && negb (has_space device)
              then on_first (fun i => set_input_row device i.(i_player) i.(i_rate) i.(r_output) i.(r_gain) i) rows
              else rows in
  let rows := if (has_player : bool)
              then on_first (fun i => set_input_row i.(i_device) player i.(i_rate) i.(r_output) i.(r_gain) i) rows
              else rows in
  route ← vget audio "inputRoute" VNone;
  match route with
  | VDict _ =>
      og ← or_else (o ← field_int route "output" 0 0 15; g ← field_float route "gain" fzero fzero (fz 4);
                    Ok (Some (o, g))) None;
      Ok (match og with
          | Some (o, g) => on_first (fun i => set_input_row i.(i_device) i.(i_player) i.(i_rate) o g i) rows
          | None => rows
          end)
  | _ => Ok rows
  end.

Definition restored_inputs (audio : pyval) : res (list audio_input) :=
  raw ← vget audio "inputs" VNone;
  rate ← field_float audio "sampleRate" (fz 192000) (fz 8000) (fz 768000);
  match raw with
  | VList items =>
      rows ← fold_res (restore_input audio) (firstn 16 items) (default_inputs rate);
      alias_input audio rows
  | _ => legacy_input audio rate (default_inputs rate)
  end.

(** [raw.get("driftCompensation", current)] when it is an object, else the current one. *)
Definition drift_of (d : pydict) (current : drift) : pydict :=
  match dget_or d "driftCompensation" (VDict (drift_dict current)) with VDict x => x | _ => drift_dict current end.

(** Graph output, master, ceiling and drift, all four or none. *)
Definition read_levels (d : pydict) (current : audio_output) : res (Z * float * float * drift) :=
  or_else
    (graph ← get_clamped_int d "graphOutput" current.(graphOutput) 0 15;
     master ← get_clamped d "master" current.(o_master) fzero (fz 4);
     ceiling ← get_clamped d "limiterCeilingDb" current.(o_ceiling) (fz (-24)) fzero;
     dr ← read_drift (VDict (drift_of d current.(o_drift))) current.(o_drift);
     Ok (graph, master, ceiling, dr))
    (current.(graphOutput), current.(o_master), current.(o_ceiling), current.(o_drift)).

Definition restore_output (rows : list audio_output) (item : pyval) : res (list audio_output) :=
  match item with
  | VDict d =>
      o ← slot_of d;
      match o with
      | None => Ok rows
      | Some slot =>
          let current := default (default_output slot) (rows !! Z.to_nat slot) in
          let device := text96 (dget_or d "deviceId" (VStr current.(o_device))) in
          let use := lower (strip (py_str (dget_or d "purpose" (VStr current.(purpose))))) in
          '(graph, master, ceiling, dr) ← read_levels d current;
          Ok (<[Z.to_nat slot :=
                {| o_slot := slot; o_device := if has_space device then current.(o_device) else device;
                   purpose := if bool_decide (use ∈ allowed_purposes) then use else current.(purpose);
                   o_player := text64 (dget_or d "playerId" (VStr current.(o_player))); graphOutput := graph;
                   o_master := master; o_ceiling := ceiling; o_drift := dr |}]> rows)
      end
  | _ => Ok rows
  end.

(** [not isinstance(raw, list) or k in audio]. *)
Definition alias_applies (raw audio : pyval) (k : string) : res bool :=
  if is_list raw then vhas audio k else Ok true.

Definition restore_outputs (audio : pyval) : op unit :=
  let* s := st_get in
  let a := s.(s_audio) in
  let* raw := st_lift (vget audio "outputs" VNone) in
  let* rows := st_lift (match raw with
                        | VList items => fold_res restore_output (firstn 16 items) default_outputs
                        | _ => Ok default_outputs
                        end) in
  let* device := st_lift (alias_applies raw audio "deviceId") in
  let rows := if (device : bool) then on_first (set_output_device a.(a_device)) rows else rows in
  let* ceiling := st_lift (alias_applies raw audio "limiterCeilingDb") in
  let rows := if (ceiling : bool) then on_first (set_output_ceiling a.(a_ceiling)) rows else rows in
  modify_audio (fun a => sync_outputs (set_rows a.(a_inputs) rows a)).

Definition set_audio_levels (device : string) (rate : float) (buffer : Z) (ceiling : float) : op unit :=
  modify_audio (fun a =>
    {| a_device := device; a_input_device := a.(a_input_device); a_input_player := a.(a_input_player);
       a_route_output := a.(a_route_output); a_route_gain := a.(a_route_gain); a_inputs := a.(a_inputs);
       a_outputs := a.(a_outputs); a_rate := rate; a_buffer := buffer; a_ceiling := ceiling |}).

(** The audio section; the inputs it yields are stored once the players are known. *)
Definition restore_audio (audio : pyval) : op (list audio_input) :=
  let* device := st_lift (text_field audio "deviceId" "null-audio" 96) in
  let device := if String.eqb device "" || has_space device then "null-audio" else device in
  let* s := st_get in
  let a := s.(s_audio) in
  let* _ := set_audio_levels device a.(a_rate) a.(a_buffer) a.(a_ceiling) in
  let* rows := st_lift (restored_inputs audio) in
  let* rate := st_lift (field_float audio "sampleRate" (fz 192000) (fz 8000) (fz 768000)) in
  let* _ := set_audio_levels device rate a.(a_buffer) a.(a_ceiling) in
  let* buffer := st_lift (or_else (field_int audio "bufferFrames" 256 16 8192) 256) in
  let* _ := set_audio_levels device rate buffer a.(a_ceiling) in
  let* ceiling := st_lift (field_float audio "limiterCeilingDb" (fz (-1)) (fz (-24)) fzero) in
  let* _ := set_audio_levels device rate buffer ceiling in
  let* _ := restore_outputs audio in
  st_ret rows.

Definition restore_lighting (lighting : pyval) : op unit :=
  let* n := st_lift (vget lighting "network" VNone) in
  let network := py_or n (VDict []) in
  let* p := st_lift (field_text network "protocol" "artnet") in
  let p := lower p in
  let* t := st_lift (text_field network "target" "" 64) in
  let t := match ipv4 t with
           | Some address => if not_unicast address then "" else t
           | None => ""
           end in
  let* q := st_lift (or_else (field_int network "port" 6454 1 65535) 6454) in
  let* u := st_lift (or_else (field_int network "universeBase" 1 1 63984) 1) in
  st_modify (with_lighting {| protocol := if bool_decide (p ∈ ["artnet"; "sacn"]) then p else "artnet";
                              l_target := t; port := q; universe_base := u |}).

(** ** Revisions, players, MIDI, notation and events *)

Definition modify_revisions (f : revision_state -> revision_state) : op unit :=
  st_modify (fun s => with_revisions (f s.(s_revisions)) s).

Definition set_revision (z : Z) (v : revision_state) : revision_state :=
  {| revision := z; resource_revisions := v.(resource_revisions); next_event_id := v.(next_event_id);
     events := v.(events) |}.

Definition set_resource (k : string) (z : Z) (v : revision_state) : revision_state :=
  {| revision := v.(revision); resource_revisions := aput v.(resource_revisions) k z;
     next_event_id := v.(next_event_id); events := v.(events) |}.

(** [try: ... = max(1, int(value)) except (TypeError, ValueError): continue]. *)
Definition restore_resource (kv : string * pyval) : op unit :=
  let* o := st_lift (or_else (z ← py_int (snd kv); Ok (Some z)) None) in
  match o with
  | Some z => modify_revisions (set_resource (fst kv) (Z.max 1 z))
  | None => st_ret tt
  end.

Definition restore_revisions (d : pydict) : op unit :=
  let* z := st_lift (py_int (dget_or d "revision" (VInt 1))) in
  let* _ := modify_revisions (set_revision (Z.max 1 z)) in
  st_iter restore_resource (as_dict (section d "resourceRevisions")).

Definition read_player (raw : pyval) : res (string * Player) :=
  i ← vindex raw "id";
  let id := strip (py_str i) in
  m ← vget raw "monitor" VNone;
  mixed ← (match patch_mix (py_or m (VDict [])) default_mix with
           | (x, Ok _) => Ok x
           | (_, Raise e) => Raise e
           end);
  n ← vget raw "name" (VStr id);
  role ← vget raw "role" (VStr "Player");
  mode ← vget raw "mode" (VStr "local");
  avail ← vget raw "available" (VBool true);
  Ok (id, {| p_id := id; name := slice 80 (py_str n); p_role := slice 80 (py_str role); monitor := mixed;
             p_mode := slice 32 (py_str mode); available := truthy avail |}).

Definition restore_player (acc : list (string * Player)) (raw : pyval) : res (list (string * Player)) :=
  match read_player raw with
  | Ok (id, p) => Ok (aput acc id p)
  | Raise e => if key_type_value e then Ok acc else Raise e
  end.

Definition restore_players (d : pydict) : op unit :=
  let* items := st_lift (py_iter (py_or (dget_none d "players") (VList [])) : res (list pyval)) in
  let* ps := st_lift (fold_res restore_player items []) in
  match ps with [] => st_ret tt | _ => st_modify (with_players ps) end.

(** A row's player is dropped when no such player exists. *)
Definition known_or_none (s : ShowState) (id : string) : string := if unknown_player s id then "" else id.

Definition assign_inputs (rows : list audio_input) : op unit :=
  let* s := st_get in
  let fix_input i := set_input_row i.(i_device) (known_or_none s i.(i_player)) i.(i_rate) i.(r_output) i.(r_gain) i in
  let fix_output o := {| o_slot := o.(o_slot); o_device := o.(o_device); purpose := o.(purpose);
                         o_player := known_or_none s o.(o_player); graphOutput := o.(graphOutput);
                         o_master := o.(o_master); o_ceiling := o.(o_ceiling); o_drift := o.(o_drift) |} in
  modify_audio (fun a => sync_inputs (set_rows (map fix_input rows) (map fix_output a.(a_outputs)) a)).

Definition restore_binding (s : ShowState) (acc : list (string * string)) (kv : string * pyval)
    : list (string * string) :=
  let player := py_str (snd kv) in
  if negb (String.eqb (strip (fst kv)) "") && known_player s player
  then aput acc (slice 96 (fst kv)) (slice 64 player) else acc.

Definition set_midi (b : list (string * string)) (n : Z) (a : list pydict) : op unit :=
  st_modify (with_midi {| bindings := b; received := n; activity := a |}).

Definition dict_rows (l : list pyval) : list pydict :=
  omap (M:=list) (fun v => match v with VDict d => Some d | _ => None end) l.

Definition restore_midi (d : pydict) : op unit :=
  let midi := section d "midi" in
  let* b := st_lift (vget midi "bindings" VNone) in
  let raw := py_or (py_or b (dget_none d "midiBindings")) (VDict []) in
  let* s := st_get in
  let own := s.(s_midi) in
  let bound := match raw with VDict x => fold_left (restore_binding s) x [] | _ => own.(bindings) end in
  let* _ := set_midi bound own.(received) own.(activity) in
  let* n := st_lift (or_else (r ← vget midi "received" (VInt 0); z ← py_int r; Ok (Z.max 0 z)) 0) in
  let* _ := set_midi bound n own.(activity) in
  let* a := st_lift (vget midi "activity" VNone) in
  match py_or a (VList []) with
  | VList l => set_midi bound n (dict_rows (Notation.last_slice 512 l))
  | _ => st_ret tt
  end.

(** [self._resource_revisions.setdefault(key, 1)]. *)
Definition default_resource (v : revision_state) (key : string) : revision_state :=
  {| revision := v.(revision);
     resource_revisions := match alookup v.(resource_revisions) key with
                           | Some _ => v.(resource_revisions)
                           | None => v.(resource_revisions) ++ [(key, 1)]
                           end;
     next_event_id := v.(next_event_id); events := v.(events) |}.

Definition player_resources (ids : list string) : list string :=
  concat (map (fun id => ["monitor:" +:+ id; "midi:" +:+ id; "notation:" +:+ id]) ids).

Definition restore_notation (d : pydict) : op unit :=
  let* s := st_get in
  let ids := map fst s.(s_players) in
  let* reg := st_lift (Notation.make_registry ids (section d "notation")) in
  let* _ := st_modify (with_notation reg) in
  modify_revisions (fun v => fold_left default_resource (player_resources ids) v).

(** The events that carry an identifier, and the highest one. *)
Definition restore_event (acc : list pydict * Z) (raw : pyval) : res (list pydict * Z) :=
  match raw with
  | VDict e =>
      i ← or_else (z ← py_int (dget_or e "eventId" (VInt 0)); Ok (Some z)) None;
      Ok (match i with Some z => (fst acc ++ [e], Z.max (snd acc) z) | None => acc end)
  | _ => Ok acc
  end.

Definition restore_events (d : pydict) : op unit :=
  let* items := st_lift (py_iter (py_or (dget_none d "events") (VList [])) : res (list pyval)) in
  let* kept := st_lift (fold_res restore_event items ([], 0)) in
  modify_revisions (fun v =>
    {| revision := v.(revision); resource_revisions := v.(resource_revisions);
       next_event_id := Z.max (snd kept + 1) 1; events := map Restored (firstn max_events (fst kept)) |}).

Definition _restore (d : pydict) (hold_transport : bool) (now : float) : op unit :=
  let* _ := restore_transport (section d "transport") hold_transport now in
  let* _ := restore_system (section d "system") in
  let* _ := restore_handoff (section d "handoff") in
  let* _ := restore_technology (dget_none d "technology") in
  let* rows := restore_audio (section d "audio") in
  let* _ := restore_lighting (section d "lighting") in
  let* _ := restore_revisions d in
  let* _ := restore_players d in
  let* _ := assign_inputs rows in
  let* _ := restore_midi d in
  let* _ := restore_notation d in
  restore_events d.

(** [ShowState(snapshot)]; an empty snapshot starts a new show. *)
Definition make_show (snapshot : pyval) (r : readings) : ShowState * res event :=
  if truthy snapshot then
    (let* migrated := st_lift (Compatibility.migrate_show_state snapshot) in
     let '(doc, report) := migrated in
     let* _ := st_modify (with_compat {| overlay := doc; compat_report := report |}) in
     let* _ := _restore doc true r.(mono_op) in
     _event r "recovery" "Recovered persisted show state; transport held paused" [])
    (initial_state r.(mono_op))
  else _event r "system" "Development show state initialized" [] (initial_state r.(mono_op)).

Definition apply_replica_snapshot (incoming : pyval) (r : readings) : op pydict :=
  if negb (is_dict incoming) then st_raise (ValueError "unsupported replica show state")
  else
    let* migrated := st_lift (Compatibility.migrate_show_state incoming) in
    let '(doc, report) := migrated in
    let* revision_in := st_lift (catch key_type_value (v ← dindex doc "revision"; py_int v)
                                   (fun _ => Raise (ValueError "replica state requires an integer revision"))) in
    let* s := st_get in
    if revision_in <? s.(s_revisions).(revision)
    then st_raise (RevisionConflict revision_in s.(s_revisions).(revision) "replica")
    else
      let* _ := st_modify (with_compat {| overlay := doc; compat_report := report |}) in
      let* _ := _restore doc false r.(mono_op) in
      answer r.
