(* ===== verification/ShowCommands.v ===== *)
(** * Players of the show: monitors, MIDI and notation (backend/state.py, class ShowState)

    The operations that act for one player: the personal monitor mix, MIDI
    device bindings, ingested MIDI messages, and captured notation. *)

From S2P Require Import Prelude PyStr PyFloat PyVal PyFacts ShowData ShowState ShowPatch ShowRestore.
From S2P Require Notation.
From Stdlib Require Import SpecFloat.

#[local] Open Scope string_scope.
#[local] Open Scope list_scope.
#[local] Open Scope Z_scope.
#[local] Open Scope st_scope.

(** [self._players.get(player_id)], [KeyError] when absent. *)
Definition find_player (id : string) : op Player :=
  let* s := st_get in
  match alookup s.(s_players) id with Some p => st_ret p | None => st_raise (KeyError id) end.

(** A method of the notation registry. *)
Definition on_notation {A} (m : Notation.rop A) : op A := on s_notation with_notation m.

(** ** Monitors *)

Definition set_monitor (m : MonitorMix) (p : Player) : Player :=
  {| p_id := p.(p_id); name := p.(name); p_role := p.(p_role); monitor := m; p_mode := p.(p_mode);
     available := p.(available) |}.

(** [player.monitor.patch(data)] on the player's own mix. *)
Definition patch_player_mix (id : string) (data : pydict) : op unit := fun s =>
  match alookup s.(s_players) id with
  | None => (s, Raise (KeyError id))
  | Some p =>
      let '(m, x) := patch_mix (VDict data) p.(monitor) in
      (with_players (aput s.(s_players) id (set_monitor m p)) s, x)
  end.

Definition monitor_fields (data : pydict) : list string :=
  sort_strings (List.filter (fun k => bool_decide (k ∈ MONITOR_KEYS ++ ["muted"; "output"])) (dkeys data)).

Definition patch_monitor (r : readings) (id : string) (data : pydict) (expected expected_resource : option Z)
    : op pydict :=
  let key := "monitor:" +:+ id in
  let* _ := _check_revision expected key expected_resource in
  let* p := find_player id in
  let* _ := patch_player_mix id data in
  let* _ := _touch key in
  let* _ := _event r "monitor" (p.(name) +:+ " personal monitor updated; FOH unchanged")
              [("playerId", VStr id); ("fields", VList (map VStr (monitor_fields data)))] in
  answer r.

(** ** MIDI bindings *)

Definition set_bindings (b : list (string * string)) : op unit :=
  st_modify (fun s => with_midi {| bindings := b; received := s.(s_midi).(received);
                                   activity := s.(s_midi).(activity) |} s).

Definition bind_midi_device (r : readings) (device player : string) (expected expected_resource : option Z)
    : op pydict :=
  let key := "midi-bindings" in
  let* _ := _check_revision expected key expected_resource in
  let device := slice 96 (strip device) in
  if String.eqb device "" || has_space device
  then st_raise (ValueError "MIDI device id must be a non-empty token")
  else
    let* p := find_player player in
    let* s := st_get in
    if bool_decide (alookup s.(s_midi).(bindings) device = Some player) then answer r
    else
      let* _ := set_bindings (aput s.(s_midi).(bindings) device player) in
      let* _ := _touch key in
      let* _ := _event r "midi" ("MIDI device " +:+ device +:+ " bound to " +:+ p.(name))
                  [("deviceId", VStr device); ("playerId", VStr player)] in
      answer r.

Definition aremove {A} (l : list (string * A)) (k : string) : list (string * A) :=
  List.filter (fun kv => negb (String.eqb (fst kv) k)) l.

Definition unbind_midi_device (r : readings) (device : string) (expected expected_resource : option Z) : op pydict :=
  let key := "midi-bindings" in
  let* _ := _check_revision expected key expected_resource in
  let device := slice 96 (strip device) in
  let* s := st_get in
  match alookup s.(s_midi).(bindings) device with
  | None => answer r
  | Some previous =>
      let* _ := set_bindings (aremove s.(s_midi).(bindings) device) in
      let* _ := _touch key in
      let* _ := _event r "midi" ("MIDI device " +:+ device +:+ " unbound")
                  [("deviceId", VStr device); ("playerId", VStr previous)] in
      answer r
  end.

(** ** Notation *)

(** [self._notation.part_snapshot(id, self._key)]. *)
Definition current_part (id : string) : op pydict :=
  let* s := st_get in on_notation (Notation.part_snapshot id s.(s_show).(key) true None).

Definition notation_snapshot (id : string) : op pydict :=
  let* _ := find_player id in current_part id.

Definition patch_notation_settings (r : readings) (id : string) (data : pydict)
    (expected expected_resource : option Z) : op pydict :=
  let key := "notation:" +:+ id in
  let* _ := _check_revision expected key expected_resource in
  let* p := find_player id in
  let* _ := on_notation (Notation.patch_settings id (VDict data)) in
  let* _ := _touch key in
  let* part := current_part id in
  let* settings := st_lift (dindex part "settings") in
  let* _ := _event r "notation" (p.(name) +:+ " notation settings updated; performance capture preserved")
              [("playerId", VStr id); ("settings", settings)] in
  answer r.

(** [part["settings"]["enabled"]]. *)
Definition notation_enabled (id : string) : op bool :=
  let* part := current_part id in
  st_lift (s ← dindex part "settings"; e ← vindex s "enabled"; Ok (truthy e)).

(** [max(0.0, float(value))], or the show clock when there is none. *)
Definition show_seconds (r : readings) (value : pyval) : op float :=
  match value with
  | VNone => let* s := st_get in st_ret (_clock_seconds r.(mono_op) s)
  | v => let* x := st_lift (py_float v) in st_ret (fmax fzero x)
  end.

Definition capture_note (id action : string) (pitch velocity : Z) (seconds : float) : op unit :=
  let* s := st_get in on_notation (Notation.note id action pitch velocity seconds s.(s_show).(bpm)).

Definition notation_note (r : readings) (id : string) (data : pydict) (expected expected_resource : option Z)
    : op pydict :=
  let key := "notation:" +:+ id in
  let* _ := _check_revision expected key expected_resource in
  let* p := find_player id in
  let* on_ := notation_enabled id in
  if negb on_ then answer r
  else
    let action := lower (strip (py_str (dget_or data "action" (VStr "")))) in
    if negb (dhas data "pitch") then st_raise (ValueError "pitch is required")
    else
      let* pitch := st_lift (py_int (dget_none data "pitch")) in
      let* velocity := st_lift (py_int (dget_or data "velocity" (VInt 100))) in
      let* seconds := show_seconds r (dget_none data "showTimeSeconds") in
      let* _ := capture_note id action pitch velocity seconds in
      let* _ := _touch key in
      let* _ := _event r "notation" (p.(name) +:+ " note " +:+ action +:+ " captured for auto notation")
                  [("playerId", VStr id); ("action", VStr action); ("pitch", VInt pitch);
                   ("velocity", VInt velocity)] in
      answer r.

Definition clear_notation (r : readings) (id : string) (expected expected_resource : option Z) : op pydict :=
  let key := "notation:" +:+ id in
  let* _ := _check_revision expected key expected_resource in
  let* p := find_player id in
  let* _ := on_notation (Notation.clear_part id) in
  let* _ := _touch key in
  let* _ := _event r "notation" (p.(name) +:+ " notation capture cleared") [("playerId", VStr id)] in
  answer r.

Definition notation_musicxml (id : string) : op string :=
  let* p := find_player id in
  let* s := st_get in
  on_notation (Notation.registry_musicxml id (p.(name) +:+ " - " +:+ p.(p_role)) s.(s_show).(bpm) s.(s_show).(key)).

(** ** MIDI input *)

Definition midi_error : exn := ValueError "MIDI input requires integer status, data1 and optional data2".

(** Status and the two data bytes. *)
Definition read_midi (data : pydict) : res (Z * Z * Z) :=
  catch key_type_value
    (s ← dindex data "status"; status ← py_int s;
     d ← dindex data "data1"; data1 ← py_int d;
     data2 ← py_int (dget_or data "data2" (VInt 0));
     Ok (status, data1, data2))
    (fun _ => Raise midi_error).

Inductive note_action := NoteOn | NoteOff.

Definition action_text (a : note_action) : string := match a with NoteOn => "on" | NoteOff => "off" end.

(** What a channel message does to the notation. *)
Definition note_action_of (status data2 : Z) : option note_action :=
  let message := Z.land status 240 in
  if (message =? 144) && (0 <? data2) then Some NoteOn
  else if (message =? 128) || ((message =? 144) && (data2 =? 0)) then Some NoteOff
  else None.

Definition max_activity : nat := 512.

Definition record_activity (a : pydict) : op unit :=
  st_modify (fun s => let m := s.(s_midi) in with_midi
    {| bindings := m.(bindings); received := m.(received) + 1;
       activity := Notation.last_slice max_activity (m.(activity) ++ [a]) |} s).

(** Let the notation observe the message; whether it did. *)
Definition observe (id : string) (action : option note_action) (data1 data2 : Z) (seconds : float) : op bool :=
  match action with
  | None => st_ret false
  | Some a =>
      let* on_ := notation_enabled id in
      if (on_ : bool) then
        let velocity := match a with NoteOn => Z.max 1 data2 | NoteOff => 0 end in
        let* _ := capture_note id (action_text a) data1 velocity seconds in st_ret true
      else st_ret false
  end.

Definition in_bytes (status data1 data2 : Z) : bool :=
  (0 <=? status) && (status <=? 255) && (0 <=? data1) && (data1 <=? 127) && (0 <=? data2) && (data2 <=? 127).

Definition ingest_midi (r : readings) (id : string) (data : pydict) (expected expected_resource : option Z)
    : op pydict :=
  let key := "midi:" +:+ id in
  let* _ := _check_revision expected key expected_resource in
  let* p := find_player id in
  let* message := st_lift (read_midi data) in
  let '(status, data1, data2) := message in
  if negb (in_bytes status data1 data2) then st_raise (ValueError "MIDI bytes out of range")
  else
    let* seconds := show_seconds r (dget_none data "showTimeSeconds") in
    let device := str_or (text96 (dget_or data "deviceId" (VStr "direct"))) "direct" in
    let action := note_action_of status data2 in
    let* observed := observe id action data1 data2 seconds in
    let entry :=
      [("playerId", VStr id); ("deviceId", VStr device); ("showTimeSeconds", VFloat (fround 6 seconds));
       ("status", VInt status);
       ("channel", if status <? 240 then VInt (Z.land status 15 + 1) else VNone);
       ("data1", VInt data1); ("data2", VInt data2); ("notationObserved", VBool observed)] in
    let* _ := record_activity entry in
    let* _ := _touch_resources (key :: if (observed : bool) then ["notation:" +:+ id] else []) in
    let suffix := match action with
                  | Some a => if (observed : bool) then "; auto notation observed note " +:+ action_text a else ""
                  | None => ""
                  end in
    let* _ := _event r "midi" (p.(name) +:+ " MIDI input received" +:+ suffix) entry in
    answer r.

(** * The commands of the show state

    The operations of backend/state.py a control point can issue, as one type
    with one interpreter; the revision check each starts with; and the shows that
    can be reached from a persisted snapshot by commands and replicas. *)

(** ** Commands *)

Inductive command :=
| Transport (action : string)
| PatchShow (data : pydict)
| PatchSystem (data : pydict)
| PatchHandoff (data : pydict)
| PatchTechnology (data : pydict)
| PatchAudio (data : pydict)
| PatchLighting (data : pydict)
| PatchMonitor (player : string) (data : pydict)
| BindMidi (device player : string)
| UnbindMidi (device : string)
| PatchNotation (player : string) (data : pydict)
| NotationNote (player : string) (data : pydict)
| ClearNotation (player : string)
| IngestMidi (player : string) (data : pydict).

Definition resource_of (c : command) : string :=
  match c with
  | Transport _ => "transport" | PatchShow _ => "show" | PatchSystem _ => "system" | PatchHandoff _ => "handoff"
  | PatchTechnology _ => "technology" | PatchAudio _ => "audio" | PatchLighting _ => "lighting-network"
  | PatchMonitor p _ => "monitor:" +:+ p | BindMidi _ _ | UnbindMidi _ => "midi-bindings"
  | PatchNotation p _ | NotationNote p _ | ClearNotation p => "notation:" +:+ p
  | IngestMidi p _ => "midi:" +:+ p
  end.

Definition run (r : readings) (c : command) (expected expected_resource : option Z) : op pydict :=
  match c with
  | Transport a => transport r a expected expected_resource
  | PatchShow d => patch_show r d expected expected_resource
  | PatchSystem d => patch_system r d expected expected_resource
  | PatchHandoff d => patch_handoff r d expected expected_resource
  | PatchTechnology d => patch_technology r d expected expected_resource
  | PatchAudio d => patch_audio r d expected expected_resource
  | PatchLighting d => patch_lighting_network r d expected expected_resource
  | PatchMonitor p d => patch_monitor r p d expected expected_resource
  | BindMidi d p => bind_midi_device r d p expected expected_resource
  | UnbindMidi d => unbind_midi_device r d expected expected_resource
  | PatchNotation p d => patch_notation_settings r p d expected expected_resource
  | NotationNote p d => notation_note r p d expected expected_resource
  | ClearNotation p => clear_notation r p expected expected_resource
  | IngestMidi p d => ingest_midi r p d expected expected_resource
  end.

(** Every command starts with its revision check. *)
Lemma run_checks r c e er : exists rest, run r c e er = (let* _ := _check_revision e (resource_of c) er in rest).
Proof. destruct c; eexists; reflexivity. Qed.

(** The conflict a command's expectations meet, if any. *)
Definition conflict (e : option Z) (key : string) (er : option Z) (v : revision_state) : option exn :=
  match er with
  | Some x => if x =? resource_revision v key then None else Some (RevisionConflict x (resource_revision v key) key)
  | None => match e with
            | Some x => if x =? v.(revision) then None else Some (RevisionConflict x v.(revision) "global")
            | None => None
            end
  end.

Lemma check_revision_eq e key er s : _check_revision e key er s
  = (s, match conflict e key er s.(s_revisions) with Some x => Raise x | None => Ok tt end).
Proof.
  unfold _check_revision, conflict. rewrite st_get_bind.
  destruct er as [x|]; [by destruct (x =? _)|]. destruct e as [x|]; [by destruct (x =? _)|done].
Qed.

(** A command whose expected revision does not match is refused with the revision it expected, the
    current one and the scope that was compared, and it leaves the whole show state exactly as it was; a
    resource expectation, when given, is the one that counts. *)
Theorem stale_command_changes_nothing r c e er s x :
  conflict e (resource_of c) er s.(s_revisions) = Some x -> run r c e er s = (s, Raise x).
Proof.
  intros H. destruct (run_checks r c e er) as [rest ->]. unfold st_bind. by rewrite check_revision_eq, H.
Qed.

Definition sample_readings : readings :=
  {| mono_op := fz 5; mono_event := fz 5; mono_snapshot := fz 5; wall_time := fz 1000 |}.
Definition sample_show : ShowState := initial_state (fz 0).

Lemma stale_command_changes_nothing_witness :
  run sample_readings (PatchShow [("bpm", VInt 90)]) (Some 1) (Some 4) sample_show
  = (sample_show, Raise (RevisionConflict 4 1 "show")).
Proof.
  apply (stale_command_changes_nothing sample_readings (PatchShow [("bpm", VInt 90)]) (Some 1) (Some 4) sample_show).
  reflexivity.
Defined.

(** ** What touching and recording do to the revisions *)

Definition touched (keys : list string) (v : revision_state) : revision_state :=
  fold_left bump (first_occurrences [] keys)
    {| revision := v.(revision) + 1; resource_revisions := v.(resource_revisions);
       next_event_id := v.(next_event_id); events := v.(events) |}.

Definition logged (e : event) (v : revision_state) : revision_state :=
  {| revision := v.(revision); resource_revisions := v.(resource_revisions); next_event_id := v.(next_event_id) + 1;
     events := firstn max_events (Recorded e :: v.(events)) |}.

(** ** The shows of a running system *)

(** Built from any snapshot, then changed by commands, by events recorded from
    outside and by replicated snapshots, whether these succeed or raise. *)
Inductive reachable : ShowState -> Prop :=
| reach_start snapshot r s e : make_show snapshot r = (s, Ok e) -> reachable s
| reach_command r c e er s : reachable s -> reachable (fst (run r c e er s))
| reach_event r cat txt payload s : reachable s -> reachable (fst (record_external_event r cat txt payload s))
| reach_replica incoming r s : reachable s -> reachable (fst (apply_replica_snapshot incoming r s)).

(** One command, whatever it returns. *)
Definition issued (s s' : ShowState) : Prop := exists r c e er, s' = fst (run r c e er s).
