(* ===== verification/ShowRanges.v ===== *)
(** * What every reachable show state satisfies

    The ranges and tables the operations of backend/state.py maintain: tempo,
    capacity, routing, ports, levels and sizes stay within their documented
    bounds under every command, replica and restore, whatever the request bodies
    hold and also when an operation raises half-way. The walk over the operations
    is done once, together with any property [J] of the revisions and events. *)

From S2P Require Import Prelude PyStr PyFloat PyVal PyFacts StateLogic.
From S2P Require Import ShowData ShowState ShowPatch ShowCommands ShowRestore.
From S2P Require Handoff Notation Technology.
From Stdlib Require Import SpecFloat.

#[local] Open Scope string_scope.
#[local] Open Scope list_scope.
#[local] Open Scope Z_scope.
#[local] Open Scope st_scope.

(** ** The ranges *)

Definition system_ok (y : system_state) : Prop :=
  within fzero (fz 100) y.(capacity) /\ y.(system_mode) ∈ SYSTEM_MODES.

Definition drift_ok (d : drift) : Prop :=
  within fzero (fz 10000) d.(maxCorrectionPpm) /\ within fzero (fz 10000) d.(queueGainPpm).

Definition output_ok (o : audio_output) : Prop :=
  o.(purpose) ∈ allowed_purposes /\ 0 <= o.(graphOutput) <= 15 /\ within fzero (fz 4) o.(o_master)
  /\ within (fz (-24)) fzero o.(o_ceiling) /\ drift_ok o.(o_drift).

Definition input_ok (i : audio_input) : Prop :=
  within (fz 8000) (fz 768000) i.(i_rate) /\ 0 <= i.(r_output) <= 15 /\ within fzero (fz 4) i.(r_gain).

Definition inputs_ok (l : list audio_input) : Prop := four_slots i_slot l /\ Forall input_ok l.
Definition outputs_ok (l : list audio_output) : Prop := four_slots o_slot l /\ Forall output_ok l.

Record audio_ok (a : audio_state) : Prop := {
  ok_inputs : inputs_ok a.(a_inputs);
  ok_outputs : outputs_ok a.(a_outputs);
  ok_route : 0 <= a.(a_route_output) <= 15 /\ within fzero (fz 4) a.(a_route_gain);
  ok_rate : within (fz 8000) (fz 768000) a.(a_rate);
  ok_buffer : 16 <= a.(a_buffer) <= 8192;
  ok_ceiling : within (fz (-24)) fzero a.(a_ceiling);
}.

Definition target_ok (t : string) : Prop :=
  t = "" \/ exists address, ipv4 t = Some address /\ not_unicast address = false.

Definition lighting_ok (l : lighting_state) : Prop :=
  l.(protocol) ∈ ["artnet"; "sacn"] /\ target_ok l.(l_target) /\ 1 <= l.(port) <= 65535
  /\ 1 <= l.(universe_base) <= 63984.

(** A monitor level: an integer or float from 0 to 100. *)
Definition level_ok (v : pyval) : Prop := exists x, py_float v = Ok x /\ within fzero (fz 100) x.
Definition mix_ok (m : MonitorMix) : Prop := Forall (fun kv => level_ok (snd kv)) m.(levels).
Definition players_ok (l : list (string * Player)) : Prop := Forall (fun kv => mix_ok (snd kv).(monitor)) l.

Record in_range (s : ShowState) : Prop := {
  ok_bpm : within (fz 30) (fz 300) s.(s_show).(bpm);
  ok_system : system_ok s.(s_system);
  ok_audio : audio_ok s.(s_audio);
  ok_lighting : lighting_ok s.(s_lighting);
  ok_policy : Handoff.policy_ok s.(s_handoff).(h_policy);
  ok_live : Handoff.live_table_ok s.(s_handoff).(h_live);
  ok_participants : 1 <= s.(s_technology).(t_participants) <= 1000000;
  ok_activity : (length s.(s_midi).(activity) <= max_activity)%nat;
  ok_received : 0 <= s.(s_midi).(received);
  ok_players : players_ok s.(s_players);
}.

Create HintDb ranges discriminated.

Lemma clamp_ok lo hi v :
  fle lo lo = true -> fle hi hi = true -> fle lo hi = true -> within lo hi (clamp v lo hi).
Proof. apply clamp_within. Qed.

Lemma bpm_clamp v : within (fz 30) (fz 300) (clamp v (fz 30) (fz 300)).
Proof. by apply clamp_ok. Qed.
Lemma percent_clamp v : within fzero (fz 100) (clamp v fzero (fz 100)).
Proof. by apply clamp_ok. Qed.
Lemma gain_clamp v : within fzero (fz 4) (clamp v fzero (fz 4)).
Proof. by apply clamp_ok. Qed.
Lemma ppm_clamp v : within fzero (fz 10000) (clamp v fzero (fz 10000)).
Proof. by apply clamp_ok. Qed.
Lemma rate_clamp v : within (fz 8000) (fz 768000) (clamp v (fz 8000) (fz 768000)).
Proof. by apply clamp_ok. Qed.
Lemma ceiling_clamp v : within (fz (-24)) fzero (clamp v (fz (-24)) fzero).
Proof. by apply clamp_ok. Qed.
Lemma int_clamp lo hi z : lo <= hi -> lo <= clamp_int lo hi z <= hi.
Proof. apply clamp_range. Qed.
#[export] Hint Resolve bpm_clamp percent_clamp gain_clamp ppm_clamp rate_clamp ceiling_clamp : ranges.

(** ** Rows *)

Lemma get_clamped_ok d k c lo hi x :
  fle lo lo = true -> fle hi hi = true -> fle lo hi = true -> get_clamped d k c lo hi = Ok x -> within lo hi x.
Proof. intros Hl Hh Hlh H. unfold get_clamped in H. pyinv. subst. by apply clamp_ok. Qed.

Lemma get_clamped_int_ok d k c lo hi x : lo <= hi -> get_clamped_int d k c lo hi = Ok x -> lo <= x <= hi.
Proof. intros Hl H. unfold get_clamped_int in H. pyinv. subst. by apply int_clamp. Qed.

Lemma read_drift_ok v c d : read_drift v c = Ok d -> drift_ok d.
Proof.
  intros H. unfold read_drift in H. destruct v; pyinv. subst d.
  split; cbn; by eapply get_clamped_ok; [..|eassumption].
Qed.

(** The range a conversion in the context gives its result. *)
Ltac converted :=
  match goal with
  | H : get_clamped _ _ _ _ _ = Ok ?x |- within _ _ ?x => by eapply get_clamped_ok; [..|exact H]
  | H : get_clamped_int _ _ _ _ _ = Ok ?x |- context [?x] => apply get_clamped_int_ok in H; lia
  | H : read_drift _ _ = Ok ?x |- drift_ok ?x => by eapply read_drift_ok
  end.

Lemma read_output_ok s raw slot c o : read_output s raw slot c = Ok o -> o.(o_slot) = slot /\ output_ok o.
Proof.
  intros H. unfold read_output in H. repeat inv_case H. pyinv. subst o. split; [done|].
  unfold output_ok; cbn. split_and!; first [done | converted].
Qed.

Lemma read_input_ok s raw slot c i : read_input s raw slot c = Ok i -> i.(i_slot) = slot /\ input_ok i.
Proof.
  intros H. unfold read_input in H. repeat inv_case H. pyinv. subst i. split; [done|].
  unfold input_ok; cbn. split_and!; converted.
Qed.

Lemma read_slot_ok what item raw slot : read_slot what item = Ok (raw, slot) -> 0 <= slot < 4.
Proof.
  intros H. unfold read_slot in H. destruct item; try done. apply bind_ok in H as (z & _ & H).
  destruct ((0 <=? z) && (z <? 4)) eqn:E; cbn in H; [|done]. pyinv. lia.
Qed.

Lemma outputs_insert l slot o : outputs_ok l -> 0 <= slot < 4 -> o.(o_slot) = slot -> output_ok o ->
  outputs_ok (<[Z.to_nat slot := o]> l).
Proof. intros [Hs Hf] Hb Ho Hok. split; [by apply four_slots_insert|by apply insert_Forall]. Qed.

Lemma inputs_insert l slot i : inputs_ok l -> 0 <= slot < 4 -> i.(i_slot) = slot -> input_ok i ->
  inputs_ok (<[Z.to_nat slot := i]> l).
Proof. intros [Hs Hf] Hb Hi Hok. split; [by apply four_slots_insert|by apply insert_Forall]. Qed.

Lemma inputs_map l f :
  (forall i, (f i).(i_slot) = i.(i_slot)) -> (forall i, input_ok i -> input_ok (f i)) -> inputs_ok l -> inputs_ok (map f l).
Proof.
  intros Hs Hf [H1 H2]. split; [by apply four_slots_map|]. apply Forall_map. eapply Forall_impl; [exact H2|exact Hf].
Qed.

Lemma outputs_map l f :
  (forall o, (f o).(o_slot) = o.(o_slot)) -> (forall o, output_ok o -> output_ok (f o)) ->
  outputs_ok l -> outputs_ok (map f l).
Proof.
  intros Hs Hf [H1 H2]. split; [by apply four_slots_map|]. apply Forall_map. eapply Forall_impl; [exact H2|exact Hf].
Qed.

Lemma inputs_first l f :
  (forall i, (f i).(i_slot) = i.(i_slot)) -> (forall i, input_ok i -> input_ok (f i)) -> inputs_ok l -> inputs_ok (on_first f l).
Proof.
  intros Hs Hf [H1 H2]. destruct l as [|i l]; [done|]. unfold inputs_ok, four_slots in *. cbn in *. rewrite Hs.
  inversion H2; subst. split; [done|constructor; auto].
Qed.

Lemma outputs_first l f :
  (forall o, (f o).(o_slot) = o.(o_slot)) -> (forall o, output_ok o -> output_ok (f o)) ->
  outputs_ok l -> outputs_ok (on_first f l).
Proof.
  intros Hs Hf [H1 H2]. destruct l as [|o l]; [done|]. unfold outputs_ok, four_slots in *. cbn in *. rewrite Hs.
  inversion H2; subst. split; [done|constructor; auto].
Qed.

Lemma first_output_ok a : audio_ok a -> output_ok (first_output a).
Proof.
  intros [_ [Hs Hf] _ _ _ _]. unfold first_output. destruct (a_outputs a) as [|o l]; [done|]. by inversion Hf.
Qed.

Lemma first_input_ok a : audio_ok a -> input_ok (first_input a).
Proof.
  intros [[Hs Hf] _ _ _ _ _]. unfold first_input. destruct (a_inputs a) as [|i l]; [done|]. by inversion Hf.
Qed.

Lemma sync_outputs_ok a : audio_ok a -> audio_ok (sync_outputs a).
Proof. intros H. pose proof (first_output_ok a H) as (_ & _ & _ & Hc & _). by destruct H; constructor. Qed.

Lemma sync_inputs_ok a : audio_ok a -> audio_ok (sync_inputs a).
Proof. intros H. pose proof (first_input_ok a H) as (_ & Ho & Hg). by destruct H; constructor. Qed.

Lemma set_rows_ok a ins outs : audio_ok a -> inputs_ok ins -> outputs_ok outs -> audio_ok (set_rows ins outs a).
Proof. intros H Hi Ho. destruct H; by constructor. Qed.
#[export] Hint Resolve sync_outputs_ok sync_inputs_ok set_rows_ok : ranges.

(** ** Monitor mixes *)

Lemma patch_mix_ok data : keeps mix_ok (patch_mix data).
Proof.
  unfold patch_mix, Notation.when_key. keeps_tac; try done.
  apply keeps_iter. intros k _. unfold patch_level. keeps_tac; try done.
  apply dset_values; [|done]. eexists. split; [reflexivity|apply percent_clamp].
Qed.


(** ** The invariant, group by group *)

Section show_invariant.
Context (J : revision_state -> Prop).
Context (J_touched : forall keys v, J v -> J (touched keys v)).
Context (J_logged : forall e v, J v -> e.(eventId) = v.(next_event_id) -> J (logged e v)).

Definition holds (s : ShowState) : Prop := J s.(s_revisions) /\ in_range s.

Lemma holds_revisions v s : holds s -> J v -> holds (with_revisions v s).
Proof. intros [_ []] H. by split. Qed.
Lemma holds_transport t s : holds s -> holds (with_transport t s).
Proof. intros [H []]. by split. Qed.
Lemma holds_compat t s : holds s -> holds (with_compat t s).
Proof. intros [H []]. by split. Qed.
Lemma holds_notation n s : holds s -> holds (with_notation n s).
Proof. intros [H []]. by split. Qed.
Lemma holds_show g s : holds s -> within (fz 30) (fz 300) g.(bpm) -> holds (with_show g s).
Proof. intros [H []] Hg. by split. Qed.
Lemma holds_system y s : holds s -> system_ok y -> holds (with_system y s).
Proof. intros [H []] Hg. by split. Qed.
Lemma holds_audio a s : holds s -> audio_ok a -> holds (with_audio a s).
Proof. intros [H []] Hg. by split. Qed.
Lemma holds_lighting l s : holds s -> lighting_ok l -> holds (with_lighting l s).
Proof. intros [H []] Hg. by split. Qed.
Lemma holds_handoff h s :
  holds s -> Handoff.policy_ok h.(h_policy) -> Handoff.live_table_ok h.(h_live) -> holds (with_handoff h s).
Proof. intros [H []] Hp Hl. by split. Qed.
Lemma holds_technology t s : holds s -> 1 <= t.(t_participants) <= 1000000 -> holds (with_technology t s).
Proof. intros [H []] Ht. by split. Qed.
Lemma holds_midi m s :
  holds s -> (length m.(activity) <= max_activity)%nat -> 0 <= m.(received) -> holds (with_midi m s).
Proof. intros [H []] Ha Hr. by split. Qed.
Lemma holds_players l s : holds s -> players_ok l -> holds (with_players l s).
Proof. intros [H []] Hp. by split. Qed.
#[local] Hint Resolve holds_revisions holds_transport holds_compat holds_notation : ranges.

Lemma holds_range s : holds s -> in_range s.
Proof. by intros [_ ?]. Qed.

(** ** Revisions, events and snapshots *)

Lemma touch_holds keys : keeps holds (_touch_resources keys).
Proof. apply keeps_modify. intros s H. apply holds_revisions; [done|]. apply (J_touched keys), H. Qed.

Lemma event_holds r c t p : keeps holds (_event r c t p).
Proof. unfold _event. keeps_tac. apply holds_revisions; [done|]. by apply (J_logged _ (s_revisions s)); [apply H|]. Qed.

Lemma check_holds e k er : keeps holds (_check_revision e k er).
Proof. intros s H. by rewrite check_revision_eq. Qed.
#[local] Hint Resolve touch_holds event_holds check_holds : keeps.

Lemma answer_holds r : keeps holds (answer r).
Proof. unfold answer. keeps_tac. Qed.
#[local] Hint Resolve answer_holds : keeps.

Lemma commit_holds r k c p l : keeps holds (commit r k c p l).
Proof. unfold commit, _touch. keeps_tac. Qed.
#[local] Hint Resolve commit_holds : keeps.

(** ** Patches *)

Lemma when_data_holds d k b : (forall v, keeps holds (b v)) -> keeps holds (when_data d k b).
Proof. intros H. unfold when_data. destruct (dget d k); [apply H|apply keeps_ret]. Qed.

Lemma gather_holds l : Forall (keeps holds) l -> keeps holds (gather l).
Proof. induction 1 as [|m l Hm Hl IH]; cbn; keeps_tac; assumption. Qed.

Lemma rows_holds (f : pyval -> op (list string)) l : (forall v, keeps holds (f v)) -> keeps holds (gather (map f l)).
Proof. intros H. apply gather_holds, Forall_map, Forall_forall. intros v _. apply H. Qed.

Lemma patch_resource_holds r k c p t e er parts :
  Forall (keeps holds) parts -> keeps holds (patch_resource r k c p t e er parts).
Proof. intros H%gather_holds. unfold patch_resource. keeps_tac. Qed.

Ltac patch_parts :=
  apply patch_resource_holds; repeat apply Forall_cons_2; try apply Forall_nil_2; apply when_data_holds; intros ?.

Lemma transport_holds r a e er : keeps holds (transport r a e er).
Proof. unfold transport, set_clock, _touch. keeps_tac; auto with ranges. Qed.

Lemma patch_show_holds r d e er : keeps holds (patch_show r d e er).
Proof.
  unfold patch_show. patch_parts; [unfold patch_bpm|unfold patch_key]; keeps_tac;
    (apply holds_show; [assumption|]); cbn; [apply bpm_clamp|by apply ok_bpm, holds_range].
Qed.

Lemma patch_system_holds r d e er : keeps holds (patch_system r d e er).
Proof.
  unfold patch_system. patch_parts;
    [unfold patch_capacity|unfold patch_mode|unfold patch_venue|unfold patch_manager]; keeps_tac;
    (apply holds_system; [assumption|]);
    match goal with H : holds ?s |- _ => destruct (ok_system s (holds_range s H)) end; split; cbn;
    auto with ranges.
  pyinv. assumption.
Qed.

Lemma patch_handoff_holds r d e er : keeps holds (patch_handoff r d e er).
Proof.
  unfold patch_handoff. patch_parts;
    [unfold patch_handoff_policy|unfold patch_live_inputs|unfold patch_sources]; unfold set_handoff; keeps_tac;
    match goal with H : holds ?s |- _ => destruct (holds_range s H) end;
    (apply holds_handoff; [assumption|..]); cbn; try assumption.
  - by eapply Handoff.normalize_policy_ok.
  - by eapply Handoff.normalize_live_inputs_ok.
Qed.

Lemma patch_technology_holds r d e er : keeps holds (patch_technology r d e er).
Proof.
  unfold patch_technology. patch_parts;
    [unfold patch_openness|unfold patch_participants|unfold patch_extensions|unfold patch_removals];
    unfold set_technology; keeps_tac;
    match goal with H : holds ?s |- _ => destruct (holds_range s H) end;
    (apply holds_technology; [assumption|]); cbn; try assumption; lia.
Qed.

Ltac audio_leaf :=
  match goal with H : holds ?s |- _ => apply holds_audio; [exact H|]; pose proof (ok_audio s (holds_range s H)) end.

Lemma patch_output_holds v : keeps holds (patch_output v).
Proof.
  unfold patch_output, modify_audio. keeps_tac. audio_leaf.
  match goal with H : read_slot _ _ = Ok _ |- _ => apply read_slot_ok in H end.
  match goal with H : read_output _ _ _ _ = Ok _ |- _ => apply read_output_ok in H as [? ?] end.
  apply set_rows_ok; [done|by apply ok_inputs|]. apply outputs_insert; try done. by apply ok_outputs.
Qed.

Lemma patch_input_holds v : keeps holds (patch_input v).
Proof.
  unfold patch_input, modify_audio. keeps_tac. audio_leaf.
  match goal with H : read_slot _ _ = Ok _ |- _ => apply read_slot_ok in H end.
  match goal with H : read_input _ _ _ _ = Ok _ |- _ => apply read_input_ok in H as [? ?] end.
  apply set_rows_ok; [done| |by apply ok_outputs]. apply inputs_insert; try done. by apply ok_inputs.
Qed.
#[local] Hint Resolve patch_output_holds patch_input_holds : keeps.

Lemma patch_tables_holds v : keeps holds (patch_outputs v) /\ keeps holds (patch_inputs v).
Proof.
  split; [unfold patch_outputs|unfold patch_inputs]; unfold modify_audio; keeps_tac;
    try (apply rows_holds; intros ?; eauto with keeps); audio_leaf; auto with ranges.
Qed.

(** The rows keep their ranges when a text, a rate, a route or a ceiling in range is put in. *)
Lemma device_row d o : output_ok o -> output_ok (set_output_device d o).
Proof. done. Qed.
Lemma ceiling_row c o : within (fz (-24)) fzero c -> output_ok o -> output_ok (set_output_ceiling c o).
Proof. intros Hc (H1 & H2 & H3 & _ & H4). exact (conj H1 (conj H2 (conj H3 (conj Hc H4)))). Qed.
Lemma input_row d p x o g i :
  within (fz 8000) (fz 768000) x -> 0 <= o <= 15 -> within fzero (fz 4) g -> input_ok (set_input_row d p x o g i).
Proof. intros Hx Ho Hg. exact (conj Hx (conj Ho Hg)). Qed.

Lemma patch_device_holds v : keeps holds (patch_device v).
Proof.
  unfold patch_device, modify_audio. keeps_tac. audio_leaf. match goal with H : audio_ok _ |- _ => destruct H end.
  constructor; try done. by apply outputs_first.
Qed.

Ltac input_leaf :=
  audio_leaf; match goal with H : audio_ok _ |- _ => destruct H end; constructor; cbn; try done;
  apply inputs_first; [done| |done]; intros ? (? & ? & ?); apply input_row; done.

Lemma patch_input_aliases_hold v :
  keeps holds (patch_input_device v) /\ keeps holds (patch_input_player v) /\ keeps holds (patch_input_route v).
Proof.
  split_and!; [unfold patch_input_device|unfold patch_input_player|unfold patch_input_route];
    unfold modify_audio; keeps_tac; [input_leaf|input_leaf|].
  match goal with H : get_clamped_int _ _ _ _ _ = Ok _ |- _ => apply get_clamped_int_ok in H; [|lia] end.
  match goal with H : get_clamped _ _ _ _ _ = Ok _ |- _ => apply get_clamped_ok in H; [|done..] end.
  input_leaf.
Qed.

Lemma patch_levels_hold b v :
  keeps holds (patch_rate b v) /\ keeps holds (patch_buffer v) /\ keeps holds (patch_ceiling v).
Proof.
  split_and!; [unfold patch_rate|unfold patch_buffer|unfold patch_ceiling];
    unfold modify_audio; keeps_tac; audio_leaf;
    match goal with H : audio_ok _ |- _ => destruct H end; constructor; cbn; auto with ranges.
  - destruct b; [done|]. apply inputs_map; [|intros i Hi|done].
    + intros i. by case_match.
    + case_match; [|done]. destruct Hi as (? & ? & ?). by apply input_row; [apply rate_clamp|..].
  - apply int_clamp. lia.
  - apply outputs_first; [done|intros o; apply ceiling_row; auto with ranges|done].
Qed.

Lemma patch_audio_holds r d e er : keeps holds (patch_audio r d e er).
Proof.
  unfold patch_audio. patch_parts.
  - apply patch_tables_holds.
  - apply patch_tables_holds.
  - apply patch_device_holds.
  - apply patch_input_aliases_hold.
  - apply patch_input_aliases_hold.
  - apply patch_input_aliases_hold.
  - apply patch_levels_hold.
  - by apply (patch_levels_hold true).
  - by apply (patch_levels_hold true).
Qed.

Lemma lighting_row p t q u :
  p ∈ ["artnet"; "sacn"] -> target_ok t -> 1 <= q <= 65535 -> 1 <= u <= 63984 ->
  lighting_ok {| protocol := p; l_target := t; port := q; universe_base := u |}.
Proof. intros Hp Ht Hq Hu. exact (conj Hp (conj Ht (conj Hq Hu))). Qed.

Lemma patch_lighting_holds r d e er : keeps holds (patch_lighting_network r d e er).
Proof.
  unfold patch_lighting_network. patch_parts;
    [unfold patch_protocol|unfold patch_target|unfold patch_port|unfold patch_universe];
    unfold modify_lighting; keeps_tac;
    match goal with H : holds ?s |- _ =>
      apply holds_lighting; [exact H|]; destruct (ok_lighting s (holds_range s H)) as (? & ? & ? & ?) end.
  - pyinv. apply lighting_row; try assumption; unfold default_port; repeat case_match; lia.
  - apply lighting_row; try assumption. unfold target_ok. destruct (String.eqb (text64 v) "") eqn:Et; [pyinv; by left|].
    right. eexists. split; [eassumption|]. by destruct (not_unicast _).
  - pyinv. by apply lighting_row.
  - pyinv. by apply lighting_row.
Qed.

(** ** Players, MIDI and notation *)

Lemma on_notation_holds {A} (m : Notation.rop A) : keeps holds (on_notation m).
Proof. apply keeps_frame. intros x s H. by apply holds_notation. Qed.
Lemma find_player_holds id : keeps holds (find_player id).
Proof. unfold find_player. keeps_tac. Qed.
#[local] Hint Resolve on_notation_holds find_player_holds : keeps.
Lemma current_part_holds id : keeps holds (current_part id).
Proof. unfold current_part. keeps_tac. Qed.
#[local] Hint Resolve current_part_holds : keeps.
Lemma enabled_holds id : keeps holds (notation_enabled id).
Proof. unfold notation_enabled. keeps_tac. Qed.
Lemma capture_holds id a p v x : keeps holds (capture_note id a p v x).
Proof. unfold capture_note. keeps_tac. Qed.
Lemma seconds_holds r v : keeps holds (show_seconds r v).
Proof. unfold show_seconds. keeps_tac. Qed.
#[local] Hint Resolve enabled_holds capture_holds seconds_holds : keeps.
Lemma observe_holds id a d1 d2 x : keeps holds (observe id a d1 d2 x).
Proof. unfold observe. keeps_tac. Qed.
#[local] Hint Resolve observe_holds : keeps.

Lemma player_mix_holds id d : keeps holds (patch_player_mix id d).
Proof.
  intros s H. unfold patch_player_mix. destruct (alookup _ id) as [p|] eqn:E; [|done].
  pose proof (ok_players s (holds_range s H)) as Hp.
  pose proof (patch_mix_ok (VDict d) p.(monitor) (alookup_values (fun p => mix_ok p.(monitor)) _ _ _ Hp E)) as Hm.
  destruct (patch_mix _ _) as [m x]. cbn in *. apply holds_players; [done|].
  by apply (aput_values (fun p => mix_ok p.(monitor))).
Qed.
#[local] Hint Resolve player_mix_holds : keeps.

Lemma patch_monitor_holds r id d e er : keeps holds (patch_monitor r id d e er).
Proof. unfold patch_monitor, _touch. keeps_tac. Qed.

Ltac midi_leaf :=
  match goal with H : holds ?s |- _ => apply holds_midi; [exact H|..]; destruct (holds_range s H); cbn [activity received] end.

Lemma bindings_hold r d p e er :
  keeps holds (bind_midi_device r d p e er) /\ keeps holds (unbind_midi_device r d e er).
Proof.
  split; [unfold bind_midi_device|unfold unbind_midi_device]; unfold set_bindings, _touch; keeps_tac; midi_leaf; done.
Qed.

Lemma notation_operations_hold r id d e er :
  keeps holds (patch_notation_settings r id d e er) /\ keeps holds (notation_note r id d e er)
  /\ keeps holds (clear_notation r id e er).
Proof.
  split_and!; [unfold patch_notation_settings|unfold notation_note|unfold clear_notation]; unfold _touch; keeps_tac.
Qed.

Lemma ingest_midi_holds r id d e er : keeps holds (ingest_midi r id d e er).
Proof.
  unfold ingest_midi, record_activity. keeps_tac; midi_leaf; [apply Notation.last_slice_length; unfold max_activity; lia|lia].
Qed.

(** Every command keeps the invariant, whether it succeeds or raises. *)
Lemma run_holds r c e er : keeps holds (run r c e er).
Proof.
  destruct c; cbn [run]; first
    [ apply transport_holds | apply patch_show_holds | apply patch_system_holds | apply patch_handoff_holds
    | apply patch_technology_holds | apply patch_audio_holds | apply patch_lighting_holds | apply patch_monitor_holds
    | apply (bindings_hold r device "") | apply bindings_hold | apply (notation_operations_hold r player [])
    | apply notation_operations_hold | apply ingest_midi_holds ].
Qed.
End show_invariant.
