(* ===== verification/ShowRecovery.v ===== *)
(** * What restoring a show state establishes

    Construction from a persisted snapshot and replacement by a replica
    (backend/state.py, [_restore]) keep the ranges of ShowRanges, one assignment
    at a time, so a snapshot refused half-way leaves a show in range. *)

From S2P Require Import Prelude PyStr PyFloat PyVal PyFacts StateLogic.
From S2P Require Import ShowData ShowState ShowPatch ShowCommands ShowRestore ShowRanges.
From S2P Require Handoff Notation Technology.
From Stdlib Require Import SpecFloat.

#[local] Open Scope string_scope.
#[local] Open Scope list_scope.
#[local] Open Scope Z_scope.
#[local] Open Scope st_scope.

Section recovery.
Context (J : revision_state -> Prop).
Context (J_touched : forall keys v, J v -> J (touched keys v)).
Context (J_logged : forall e v, J v -> e.(eventId) = v.(next_event_id) -> J (logged e v)).
#[local] Abbreviation holds := (holds J).
#[local] Hint Resolve holds_revisions holds_transport holds_compat holds_notation : ranges.
Context (J_restored : forall v v', v'.(events) = v.(events) -> v'.(next_event_id) = v.(next_event_id) -> J v -> J v').
Context (J_emptied : forall v l m, fold_res restore_event l ([], 0) = Ok m -> J
  {| revision := v.(revision); resource_revisions := v.(resource_revisions);
     next_event_id := Z.max (snd m + 1) 1; events := map Restored (firstn max_events (fst m)) |}).

Lemma modify_revisions_holds f :
  (forall v, (f v).(events) = v.(events) /\ (f v).(next_event_id) = v.(next_event_id)) ->
  keeps holds (modify_revisions f).
Proof.
  intros Hf. unfold modify_revisions. keeps_tac. apply holds_revisions; [done|].
  destruct (Hf (s_revisions s)) as [He Hn]. by eapply J_restored; [..|apply H].
Qed.

Lemma field_float_ok v k d lo hi x :
  fle lo lo = true -> fle hi hi = true -> fle lo hi = true -> field_float v k d lo hi = Ok x -> within lo hi x.
Proof. intros Hl Hh Hlh H. unfold field_float in H. pyinv. subst. by apply clamp_ok. Qed.

Lemma field_int_ok v k d lo hi x : lo <= hi -> field_int v k d lo hi = Ok x -> lo <= x <= hi.
Proof. intros Hl H. unfold field_int in H. pyinv. subst. by apply int_clamp. Qed.

(** A field that falls back keeps the property both its values have. *)
Lemma caught_ok {A} (P : A -> Prop) m b a : (forall a, m = Ok a -> P a) -> P b -> or_else m b = Ok a -> P a.
Proof. intros Hm Hb. apply (or_else_ok _ m _ P); [done|]. by intros _ x [= <-]. Qed.

Lemma field_int_caught v k d lo hi x : lo <= d <= hi -> or_else (field_int v k d lo hi) d = Ok x -> lo <= x <= hi.
Proof.
  intros Hd. apply (caught_ok (fun x => lo <= x <= hi)); [|done]. intros z. apply field_int_ok. lia.
Qed.

Lemma restore_transport_holds t h now : keeps holds (restore_transport t h now).
Proof.
  unfold restore_transport. keeps_tac; auto with ranges; (apply holds_show; [assumption|]);
    by eapply field_float_ok; [..|eassumption].
Qed.

Lemma restore_system_holds t : keeps holds (restore_system t).
Proof.
  unfold restore_system, set_system. keeps_tac. apply holds_system; [assumption|]. split; cbn.
  - by eapply field_float_ok; [..|eassumption].
  - case_bool_decide; [done|set_solver].
Qed.

Lemma restore_handoff_holds h : keeps holds (restore_handoff h).
Proof.
  unfold restore_handoff. keeps_tac; (apply holds_handoff; [assumption|..]); cbn;
    try (by eapply Handoff.normalize_policy_ok); try (by eapply Handoff.normalize_live_inputs_ok).
  by eapply ok_live, holds_range.
Qed.

Lemma participants_ok (b : bool) v own n :
  1 <= own <= 1000000 -> (if b then or_else (z ← py_int v; Ok (clamp_int 1 1000000 z)) own else Ok own) = Ok n ->
  1 <= n <= 1000000.
Proof.
  intros Ho. destruct b; [|by intros [= <-]]. apply (caught_ok (fun z => 1 <= z <= 1000000)); [|done].
  intros z Hz. pyinv. subst. by apply int_clamp.
Qed.

Lemma own_participants s : holds s -> 1 <= s.(s_technology).(t_participants) <= 1000000.
Proof. intros H. by apply (ok_participants s), (holds_range J). Qed.

Lemma restore_technology_holds t : keeps holds (restore_technology t).
Proof.
  unfold restore_technology. destruct t; try apply keeps_ret.
  keeps_tac; (apply holds_technology; [assumption|]); cbn; first [by apply own_participants |
    match goal with H : holds _ |- _ => by eapply participants_ok; [apply own_participants, H|eassumption] end].
Qed.

Lemma read_route_ok v o g : read_route v = Ok (o, g) -> 0 <= o <= 15 /\ within fzero (fz 4) g.
Proof.
  apply (caught_ok (fun og => 0 <= fst og <= 15 /\ within fzero (fz 4) (snd og))); [|done].
  intros [z x] H. pyinv. subst. split; [by eapply field_int_ok|by eapply field_float_ok; [..|eassumption]].
Qed.

Lemma slot_of_ok d slot : slot_of d = Ok (Some slot) -> 0 <= slot < 4.
Proof.
  unfold slot_of. intros H. apply bind_ok in H as (o & _ & H). destruct o as [z|]; [|done].
  destruct ((0 <=? z) && (z <? 4)) eqn:E; [|done]. pyinv. subst. lia.
Qed.

Lemma restore_input_ok audio rows item rows' :
  inputs_ok rows -> restore_input audio rows item = Ok rows' -> inputs_ok rows'.
Proof.
  intros Hr H. unfold restore_input in H. destruct item; try (by injection H as <-).
  apply bind_ok in H as ([slot|] & Hs & H); [|by injection H as <-]. apply slot_of_ok in Hs. cbv zeta in H.
  apply bind_ok in H as ([o g] & Hog & H). pyinv. subst. apply read_route_ok in Hog as [Ho Hg].
  apply inputs_insert; try done. exact (conj (rate_clamp _) (conj Ho Hg)).
Qed.

Lemma default_inputs_ok rate : within (fz 8000) (fz 768000) rate -> inputs_ok (default_inputs rate).
Proof. intros H. split; [done|]. by repeat constructor; try apply H. Qed.

Lemma legacy_input_ok audio rate rows rows' :
  within (fz 8000) (fz 768000) rate -> inputs_ok rows -> legacy_input audio rate rows = Ok rows' -> inputs_ok rows'.
Proof.
  intros Hrate [Hs Hf] H. unfold legacy_input in H. pyinv. destruct x2 as [o g]. pyinv. subst.
  match goal with H : read_route _ = Ok _ |- _ => apply read_route_ok in H as [Ho Hg] end.
  destruct rows as [|i rows]; [done|]. unfold inputs_ok, four_slots in *. cbn in *.
  injection Hs as _ Hs. rewrite Hs. split; [done|]. inversion Hf; subst. constructor; [|done].
  exact (conj Hrate (conj Ho Hg)).
Qed.

Lemma alias_input_ok audio rows rows' : inputs_ok rows -> alias_input audio rows = Ok rows' -> inputs_ok rows'.
Proof.
  assert (text_row : forall f g l, inputs_ok l -> inputs_ok (on_first
    (fun i => set_input_row (f i) (g i) i.(i_rate) i.(r_output) i.(r_gain) i) l)).
  { intros f g l Hl. apply inputs_first; [done| |done]. by intros i (? & ? & ?); apply input_row. }
  intros Hr H. unfold alias_input in H. pyinv.
  match type of H with context [on_first ?f (if ?b then ?x else ?y)] =>
    assert (Ha : inputs_ok (if b then x else y)) by (destruct b; auto);
    revert H; generalize dependent (if b then x else y) end.
  intros l Hl H.
  assert (Hp : inputs_ok (if x1 then on_first
    (fun i => set_input_row i.(i_device) x2 i.(i_rate) i.(r_output) i.(r_gain) i) l else l)) by (destruct x1; auto).
  destruct x3; try by (injection H as <-).
  apply bind_ok in H as ([[o g]|] & Hog & H); [|by injection H as <-]. injection H as <-.
  assert (Hr2 : 0 <= o <= 15 /\ within fzero (fz 4) g).
  { refine (caught_ok (fun og => match og with Some (o, g) => 0 <= o <= 15 /\ within fzero (fz 4) g | None => True end)
      _ _ _ _ _ Hog); [|exact I].
    intros a Ha. pyinv. subst. split; [by eapply field_int_ok|by eapply field_float_ok; [..|eassumption]]. }
  destruct Hr2. apply inputs_first; [done| |done]. intros i (? & ? & ?). by apply input_row.
Qed.

Lemma restored_inputs_ok audio rows : restored_inputs audio = Ok rows -> inputs_ok rows.
Proof.
  unfold restored_inputs. intros H. apply bind_ok in H as (raw & _ & H). apply bind_ok in H as (rate & Hrate & H).
  assert (within (fz 8000) (fz 768000) rate) by (by eapply field_float_ok; [..|exact Hrate]).
  destruct raw; try (by eapply legacy_input_ok; [..|exact H]; [|apply default_inputs_ok]).
  apply bind_ok in H as (t & Ht & H). eapply alias_input_ok; [|exact H].
  eapply fold_res_inv; [|by apply default_inputs_ok|exact Ht]. intros b a b' Hb. by apply restore_input_ok.
Qed.

Lemma read_levels_ok d c g m x dr :
  output_ok c -> read_levels d c = Ok (g, m, x, dr) ->
  0 <= g <= 15 /\ within fzero (fz 4) m /\ within (fz (-24)) fzero x /\ drift_ok dr.
Proof.
  intros (_ & Hg & Hm & Hx & Hd) H.
  refine (caught_ok (fun q : Z * float * float * drift => let '(g, m, x, dr) := q in
    0 <= g <= 15 /\ within fzero (fz 4) m /\ within (fz (-24)) fzero x /\ drift_ok dr) _ _ _ _ _ H).
  - intros q Hq. pyinv. subst. split; [by converted|]. split; [converted|]. split; converted.
  - exact (conj Hg (conj Hm (conj Hx Hd))).
Qed.

Lemma default_output_ok slot : 0 <= slot < 4 -> output_ok (default_output slot).
Proof.
  intros H. assert (slot = 0 \/ slot = 1 \/ slot = 2 \/ slot = 3) as [->|[->|[->| ->]]] by lia;
    by apply (bool_decide_unpack _); vm_compute.
Qed.

Lemma default_outputs_ok : outputs_ok default_outputs.
Proof. split; [done|]. repeat constructor; apply default_output_ok; lia. Qed.

Lemma row_ok rows slot :
  outputs_ok rows -> 0 <= slot < 4 -> output_ok (default (default_output slot) (rows !! Z.to_nat slot)).
Proof.
  intros [_ Hf] Hs. destruct (rows !! Z.to_nat slot) as [o|] eqn:E; cbn; [by eapply Forall_lookup_1|].
  by apply default_output_ok.
Qed.

Lemma restore_output_ok rows item rows' : outputs_ok rows -> restore_output rows item = Ok rows' -> outputs_ok rows'.
Proof.
  intros Hr H. unfold restore_output in H. destruct item; try (by injection H as <-).
  apply bind_ok in H as ([slot|] & Hs & H); [|by injection H as <-]. apply slot_of_ok in Hs. cbv zeta in H.
  apply bind_ok in H as ([[[g m] x] dr] & Hl & H). injection H as <-.
  pose proof (row_ok rows slot Hr Hs) as Hc. apply read_levels_ok in Hl as (Hg & Hm & Hx & Hd); [|done].
  apply outputs_insert; try done. destruct Hc as [Hp _].
  refine (conj _ (conj Hg (conj Hm (conj Hx Hd)))). cbn. by case_bool_decide.
Qed.

Lemma outputs_alias (b : bool) f l :
  (forall o, (f o).(o_slot) = o.(o_slot)) -> (forall o, output_ok o -> output_ok (f o)) -> outputs_ok l ->
  outputs_ok (if b then on_first f l else l).
Proof. intros Hs Hf Hl. destruct b; [by apply outputs_first|done]. Qed.

Lemma restore_outputs_holds audio : keeps holds (restore_outputs audio).
Proof.
  unfold restore_outputs, modify_audio. keeps_tac.
  apply holds_audio; [done|]. pose proof (ok_audio s (holds_range J s H)) as Ha.
  apply sync_outputs_ok, set_rows_ok; [done|by apply ok_inputs|].
  apply outputs_alias; [done|intros o; apply ceiling_row; by apply ok_ceiling|].
  apply outputs_alias; [done|done|].
  destruct a; try (injection H1 as <-; apply default_outputs_ok).
  eapply fold_res_inv; [|apply default_outputs_ok|exact H1]. intros b x b' Hb. by apply restore_output_ok.
Qed.

Lemma set_audio_levels_holds d x b c :
  within (fz 8000) (fz 768000) x -> 16 <= b <= 8192 -> within (fz (-24)) fzero c ->
  keeps holds (set_audio_levels d x b c).
Proof.
  intros Hx Hb Hc. unfold set_audio_levels, modify_audio. keeps_tac. apply holds_audio; [done|].
  destruct (ok_audio s (holds_range J s H)). by constructor.
Qed.

(** The inputs [restore_audio] yields are in range too. *)
Lemma restore_audio_yields audio : yields (restore_audio audio) inputs_ok.
Proof.
  unfold restore_audio. repeat first [apply yields_lift_bind; intros ? ?|apply yields_bind; intros ?].
  apply yields_ret. by eapply restored_inputs_ok.
Qed.

Lemma restore_audio_holds audio : keeps holds (restore_audio audio).
Proof.
  unfold restore_audio. keeps_tac; try apply restore_outputs_holds;
    match goal with H : holds _ |- _ => destruct (ok_audio _ (holds_range J _ H)) end;
    apply set_audio_levels_holds; try assumption.
  all: first [by eapply field_float_ok; [..|eassumption]
    | by eapply field_int_caught; [|eassumption]].
Qed.

Lemma restore_lighting_holds lighting : keeps holds (restore_lighting lighting).
Proof.
  unfold restore_lighting. keeps_tac. apply holds_lighting; [done|]. apply lighting_row.
  - case_bool_decide; [done|set_solver].
  - destruct (ipv4 a1) as [address|] eqn:E; [|by left]. destruct (not_unicast address) eqn:E2; [by left|].
    right. eauto.
  - by eapply field_int_caught; [|eassumption].
  - by eapply field_int_caught; [|eassumption].
Qed.

Lemma restore_revisions_holds d : keeps holds (restore_revisions d).
Proof.
  unfold restore_revisions. keeps_tac; [by apply modify_revisions_holds|].
  apply keeps_iter. intros kv _. unfold restore_resource. keeps_tac; try done. by apply modify_revisions_holds.
Qed.

Lemma default_mix_ok : mix_ok default_mix.
Proof. repeat constructor; eexists; (split; [reflexivity|]); by apply (bool_decide_unpack _); vm_compute. Qed.

Lemma read_player_ok raw id p : read_player raw = Ok (id, p) -> mix_ok p.(monitor).
Proof.
  unfold read_player. intros H. apply bind_ok in H as (i & _ & H). apply bind_ok in H as (m & _ & H).
  apply bind_ok in H as (x & Hx & H). pyinv. subst. cbn.
  pose proof (patch_mix_ok (py_or m (VDict [])) default_mix default_mix_ok) as Hm.
  destruct (patch_mix _ _) as [x' [|]]; [|done]. by injection Hx as <-.
Qed.

Lemma restore_players_holds d : keeps holds (restore_players d).
Proof.
  unfold restore_players. keeps_tac. apply holds_players; [done|].
  eapply (fold_res_inv players_ok); [|constructor|eassumption].
  intros b a2 b' Hb Hr. unfold restore_player in Hr. destruct (read_player a2) as [[id q]|e] eqn:Ep.
  - injection Hr as <-. apply (aput_values (fun p => mix_ok p.(monitor))); [by eapply read_player_ok|done].
  - destruct (key_type_value e); [by injection Hr as <-|done].
Qed.

Lemma assign_inputs_holds rows : inputs_ok rows -> keeps holds (assign_inputs rows).
Proof.
  intros Hr. unfold assign_inputs, modify_audio. keeps_tac. apply holds_audio; [done|].
  pose proof (ok_audio _ (holds_range J _ H)) as Ha. apply sync_inputs_ok, set_rows_ok; [done| |].
  - apply inputs_map; [done| |done]. intros i (? & ? & ?). by apply input_row.
  - apply outputs_map; [done|done|]. by apply ok_outputs.
Qed.

Lemma set_midi_holds b n l : (length l <= max_activity)%nat -> 0 <= n -> keeps holds (set_midi b n l).
Proof. intros Hl Hn. unfold set_midi. keeps_tac. by apply holds_midi. Qed.

Lemma received_caught (v : pyval) n :
  or_else (r ← vget v "received" (VInt 0); z ← py_int r; Ok (Z.max 0 z)) 0 = Ok n -> 0 <= n.
Proof. apply (caught_ok (fun n => 0 <= n)); [|done]. intros z H. pyinv. subst. lia. Qed.

Lemma dict_rows_length l : (length (dict_rows l) <= length l)%nat.
Proof. unfold dict_rows. induction l as [|v l IH]; cbn; [done|]. destruct v; cbn in *; lia. Qed.

Lemma restore_midi_holds d : keeps holds (restore_midi d).
Proof.
  unfold restore_midi. keeps_tac; match goal with H : holds _ |- _ => destruct (holds_range J _ H) end;
    apply set_midi_holds; try assumption; try (by eapply received_caught).
  etransitivity; [apply dict_rows_length|]. apply Notation.last_slice_length; unfold max_activity; lia.
Qed.

Lemma default_resource_same v k :
  (default_resource v k).(events) = v.(events) /\ (default_resource v k).(next_event_id) = v.(next_event_id).
Proof. done. Qed.

Lemma default_resources_same keys v :
  (fold_left default_resource keys v).(events) = v.(events)
  /\ (fold_left default_resource keys v).(next_event_id) = v.(next_event_id).
Proof. revert v. induction keys as [|k keys IH]; intros v; [done|]. apply (IH (default_resource v k)). Qed.

Lemma restore_notation_holds d : keeps holds (restore_notation d).
Proof.
  unfold restore_notation. keeps_tac; [auto with ranges|].
  apply modify_revisions_holds. intros v. apply default_resources_same.
Qed.

Lemma restore_events_holds d : keeps holds (restore_events d).
Proof.
  unfold restore_events, modify_revisions. keeps_tac. apply holds_revisions; [done|]. by eapply J_emptied.
Qed.

Lemma _restore_holds d h now : keeps holds (_restore d h now).
Proof.
  unfold _restore.
  apply keeps_bind; [apply restore_transport_holds|intros _].
  apply keeps_bind; [apply restore_system_holds|intros _].
  apply keeps_bind; [apply restore_handoff_holds|intros _].
  apply keeps_bind; [apply restore_technology_holds|intros _].
  eapply keeps_yields_bind; [apply restore_audio_holds|apply restore_audio_yields|intros rows Hrows].
  apply keeps_bind; [apply restore_lighting_holds|intros _].
  apply keeps_bind; [apply restore_revisions_holds|intros _].
  apply keeps_bind; [apply restore_players_holds|intros _].
  apply keeps_bind; [by apply assign_inputs_holds|intros _].
  apply keeps_bind; [apply restore_midi_holds|intros _].
  apply keeps_bind; [apply restore_notation_holds|intros _]. apply restore_events_holds.
Qed.

Lemma apply_replica_holds incoming r : keeps holds (apply_replica_snapshot incoming r).
Proof.
  unfold apply_replica_snapshot. keeps_tac; first [by auto with ranges | apply _restore_holds | by apply answer_holds].
Qed.

Ltac computed := by apply (bool_decide_unpack _); vm_compute.

Lemma initial_in_range now : in_range (initial_state now).
Proof.
  split; try computed.
  - split; try computed; [split; [done|]; repeat constructor; computed|apply default_outputs_ok].
  - apply lighting_row; try computed. by left.
  - apply Handoff.default_live_ok.
  - repeat constructor; eexists; (split; [reflexivity|]); computed.
Qed.

Context (J_initial : forall now, J (initial_state now).(s_revisions)).

(** Every show of a running system satisfies the invariant. *)
Lemma reachable_holds s : reachable s -> holds s.
Proof.
  induction 1 as [snapshot r s e H|r c e er s _ IH|r cat txt payload s _ IH|incoming r s _ IH].
  - assert (Hs : holds (fst (make_show snapshot r))); [|by rewrite H in Hs].
    assert (H0 : holds (initial_state r.(mono_op))) by (split; [apply J_initial|apply initial_in_range]).
    unfold make_show. destruct (truthy snapshot); [|by apply event_holds].
    match goal with |- holds (fst (?m _)) => assert (Hm : keeps holds m); [|by apply Hm] end.
    keeps_tac; [auto with ranges|apply _restore_holds|by apply event_holds].
  - by apply run_holds.
  - by apply event_holds.
  - by apply apply_replica_holds.
Qed.
End recovery.

(** C38: in every show reachable from any persisted snapshot by any commands, external events and replicas,
    whether they succeeded or were refused half-way, tempo, capacity, mode, audio rows and levels, lighting
    protocol, target and ports, handoff policy and live inputs, participants, MIDI history and monitor levels
    are within their documented ranges. *)
Theorem values_stay_in_range s : reachable s -> in_range s.
Proof.
  intros H. apply (holds_range (fun _ => True)). by apply reachable_holds.
Qed.

(** A show started from a snapshot with a NaN tempo and an infinite capacity, after a refused system patch. *)
Definition hostile_snapshot : pyval :=
  VDict [("apiVersion", VInt 1); ("transport", VDict [("bpm", VFloat S754_nan)]);
         ("system", VDict [("capacity", VFloat (S754_infinity false)); ("mode", VStr "party")])].

Definition hostile_show : ShowState := fst (make_show hostile_snapshot sample_readings).

Lemma hostile_show_reachable : reachable hostile_show.
Proof.
  destruct (make_show hostile_snapshot sample_readings) as [s [e|x]] eqn:E.
  - eapply (reach_start hostile_snapshot sample_readings _ e). unfold hostile_show. by rewrite E.
  - exfalso. assert (H : match snd (make_show hostile_snapshot sample_readings) with Ok _ => true | Raise _ => false end = true)
      by (vm_compute; reflexivity). by rewrite E in H.
Defined.

Lemma values_stay_in_range_witness :
  in_range (fst (run sample_readings (PatchSystem [("capacity", VStr "nan"); ("mode", VStr "party")]) None None
    hostile_show)).
Proof. apply values_stay_in_range, reach_command, hostile_show_reachable. Defined.
