(* ===== verification/ShowRevisions.v ===== *)
(** * Optimistic concurrency of the show state

    What the revision numbers of backend/state.py promise to control points that
    act on what they last saw: no command moves a revision backwards and an
    expectation that was used up is never accepted again. The event history
    stays bounded, ordered and readable. *)

From S2P Require Import Prelude PyStr PyFloat PyVal PyFacts StateLogic.
From S2P Require Import ShowData ShowState ShowPatch ShowCommands ShowRestore ShowRanges ShowRecovery.
From Stdlib Require Import SpecFloat Sorting.Sorted.

#[local] Open Scope string_scope.
#[local] Open Scope list_scope.
#[local] Open Scope Z_scope.
#[local] Open Scope st_scope.

(** ** Revisions only grow *)

Definition grows (v v' : revision_state) : Prop :=
  v.(revision) <= v'.(revision) /\ v.(next_event_id) <= v'.(next_event_id)
  /\ forall k, resource_revision v k <= resource_revision v' k.

#[local] Instance grows_preorder : PreOrder grows.
Proof.
  split.
  - intros v. unfold grows. split_and!; [lia|lia|]. intros k. lia.
  - intros v1 v2 v3 (A1 & B1 & C1) (A2 & B2 & C2). split_and!; [lia|lia|]. intros k.
    specialize (C1 k). specialize (C2 k). lia.
Qed.

Lemma resource_bump v key k :
  resource_revision (bump v key) k = if String.eqb k key then resource_revision v key + 1 else resource_revision v k.
Proof. unfold bump, resource_revision. cbn. rewrite alookup_aput. by destruct (String.eqb k key). Qed.

Lemma bump_grows v key : grows v (bump v key).
Proof.
  split_and!; [cbn; lia|cbn; lia|]. intros k. rewrite resource_bump.
  destruct (String.eqb k key) eqn:E; [|lia]. apply String.eqb_eq in E as ->. lia.
Qed.

Lemma bumps_grow keys v : grows v (fold_left bump keys v).
Proof.
  revert v. induction keys as [|k keys IH]; intros v; cbn; [reflexivity|].
  etransitivity; [apply bump_grows|apply IH].
Qed.


Lemma touched_grows keys v : grows v (touched keys v).
Proof.
  unfold touched. etransitivity; [|apply bumps_grow].
  split_and!; [cbn; lia|cbn; lia|]. intros k. unfold resource_revision. cbn. lia.
Qed.

Lemma logged_grows e v : grows v (logged e v).
Proof. split_and!; [cbn; lia|cbn; lia|]. intros k. unfold resource_revision. cbn. lia. Qed.

Lemma run_grows r c e er s : in_range s -> grows s.(s_revisions) (fst (run r c e er s)).(s_revisions).
Proof.
  intros H. refine (proj1 (run_holds (grows s.(s_revisions)) _ _ r c e er s (conj _ H))); [| |reflexivity].
  - intros keys v Hv. etransitivity; [exact Hv|apply touched_grows].
  - intros x v Hv _. etransitivity; [exact Hv|apply logged_grows].
Qed.

Lemma issued_grows s s' : reachable s -> rtc issued s s' -> reachable s' /\ grows s.(s_revisions) s'.(s_revisions).
Proof.
  intros Hr H. induction H as [s|s s1 s2 (r & c & e & er & ->) _ IH]; [done|].
  assert (Hi : in_range s) by (apply (holds_range (fun _ => True)); by apply reachable_holds).
  destruct IH as [Hr2 Hg]; [by apply reach_command|]. split; [done|].
  etransitivity; [by apply run_grows|exact Hg].
Qed.

(** An expectation is used up by the command that met it: once a command that expected resource revision
    [n] has changed that revision, then after any further commands a command on the same resource that still
    expects [n] is refused with the current revision and changes nothing, so no control point overwrites a
    change it has not seen. *)
Theorem used_revision_is_refused s r c e n s1 a s2 r' c' e' :
  reachable s -> run r c e (Some n) s = (s1, a) ->
  resource_revision s1.(s_revisions) (resource_of c) <> resource_revision s.(s_revisions) (resource_of c) ->
  rtc issued s1 s2 -> resource_of c' = resource_of c ->
  run r' c' e' (Some n) s2
  = (s2, Raise (RevisionConflict n (resource_revision s2.(s_revisions) (resource_of c)) (resource_of c))).
Proof.
  intros Hr Hrun Hmoved Hlater Hsame.
  destruct (run_checks r' c' e' (Some n)) as [rest ->]. unfold st_bind. rewrite check_revision_eq. unfold conflict.
  assert (Hi : in_range s) by (apply (holds_range (fun _ => True)); by apply reachable_holds).
  pose proof (run_grows r c e (Some n) s Hi) as (_ & _ & Hg). rewrite Hrun in Hg.
  assert (Hs1 : reachable s1). { replace s1 with (fst (run r c e (Some n) s)) by (by rewrite Hrun). by apply reach_command. }
  destruct (issued_grows s1 s2 Hs1 Hlater) as [_ (_ & _ & Hg2)].
  specialize (Hg (resource_of c)). specialize (Hg2 (resource_of c)). cbn [fst] in Hg. rewrite Hsame.
  destruct (n =? resource_revision (s_revisions s2) (resource_of c)) eqn:E; [|done]. exfalso. pyinv.
  destruct (run_checks r c e (Some n)) as [rest' Heq]. rewrite Heq in Hrun. unfold st_bind in Hrun.
  rewrite check_revision_eq in Hrun. unfold conflict in Hrun.
  destruct (n =? resource_revision (s_revisions s) (resource_of c)) eqn:E2; [pyinv; lia|by injection Hrun as <- <-].
Qed.

Lemma used_revision_is_refused_witness :
  let s1 := fst (run sample_readings (PatchShow [("bpm", VInt 90)]) None (Some 1) hostile_show) in
  run sample_readings (PatchShow [("key", VStr "G")]) None (Some 1) s1
  = (s1, Raise (RevisionConflict 1 (resource_revision s1.(s_revisions) "show") "show")).
Proof.
  cbv zeta.
  eapply (used_revision_is_refused hostile_show sample_readings (PatchShow [("bpm", VInt 90)]) None 1 _ _ _
    sample_readings (PatchShow [("key", VStr "G")]) None).
  - apply hostile_show_reachable.
  - apply surjective_pairing.
  - vm_compute. discriminate.
  - apply rtc_refl.
  - reflexivity.
Defined.

(** ** The event history *)

(** The identifier a watcher reads. *)
Definition entry_id (h : history_entry) : res Z := py_int (dget_or (entry_dict h) "eventId" (VInt 0)).

Definition older_than (bound : Z) (h : history_entry) : Prop := exists i, entry_id h = Ok i /\ i < bound.

(** Newest first: a recorded event is newer than all that follow it; nothing is recorded behind a restored one. *)
Definition newer (h1 h2 : history_entry) : Prop :=
  match h1 with
  | Recorded e => older_than e.(eventId) h2
  | Restored _ => match h2 with Recorded _ => False | Restored _ => True end
  end.

Definition log_ok (v : revision_state) : Prop :=
  (length v.(events) <= max_events)%nat /\ Forall (older_than v.(next_event_id)) v.(events)
  /\ StronglySorted newer v.(events).

Lemma recorded_id e : entry_id (Recorded e) = Ok e.(eventId).
Proof. done. Qed.

Lemma older_than_mono a b h : a <= b -> older_than a h -> older_than b h.
Proof. intros H (i & Hi & Hlt). exists i. split; [done|lia]. Qed.

Lemma StronglySorted_firstn {A} (R : A -> A -> Prop) n l : StronglySorted R l -> StronglySorted R (firstn n l).
Proof.
  intros H. revert n. induction H as [|a l Hl IH Ha]; intros [|n]; cbn; try constructor; [apply IH|].
  by apply Forall_take.
Qed.

Lemma log_ok_logged e v : log_ok v -> e.(eventId) = v.(next_event_id) -> log_ok (logged e v).
Proof.
  intros (_ & Hf & Hs) He. unfold log_ok, logged; cbn [events next_event_id]. split; [|split].
  - rewrite length_take. lia.
  - apply Forall_take. constructor; [exists e.(eventId); split; [done|lia]|].
    eapply Forall_impl; [exact Hf|]. intros h. apply older_than_mono. lia.
  - apply StronglySorted_firstn. constructor; [done|]. by rewrite <- He in Hf.
Qed.

Lemma bumps_events keys v :
  (fold_left bump keys v).(events) = v.(events) /\ (fold_left bump keys v).(next_event_id) = v.(next_event_id).
Proof. revert v. induction keys as [|k keys IH]; intros v; [done|]. apply (IH (bump v k)). Qed.

Lemma log_ok_same v v' :
  v'.(events) = v.(events) -> v'.(next_event_id) = v.(next_event_id) -> log_ok v -> log_ok v'.
Proof. intros He Hn. unfold log_ok. by rewrite He, Hn. Qed.

Lemma log_ok_touched keys v : log_ok v -> log_ok (touched keys v).
Proof.
  unfold touched. match goal with |- _ -> log_ok (fold_left bump ?k ?w) => destruct (bumps_events k w) as [He Hn] end.
  by apply log_ok_same.
Qed.

Lemma restore_event_ids l acc m :
  Forall (older_than (snd acc + 1)) (map Restored (fst acc)) -> fold_res restore_event l acc = Ok m ->
  Forall (older_than (snd m + 1)) (map Restored (fst m)).
Proof.
  apply (fold_res_inv (fun acc => Forall (older_than (snd acc + 1)) (map Restored (fst acc)))).
  intros b a b' Hb H. unfold restore_event in H. destruct a as [| | | | | |e]; try by injection H as <-.
  apply bind_ok in H as ([z|] & Hz & H); [|by injection H as <-]. injection H as <-. cbn [fst snd].
  rewrite map_app. apply Forall_app. split.
  - eapply Forall_impl; [exact Hb|]. intros h. apply older_than_mono. lia.
  - constructor; [|constructor]. exists z. split; [|lia].
    refine (caught_ok (fun o => match o with Some z => entry_id (Restored e) = Ok z | None => True end)
      _ _ _ _ _ Hz); [|exact I]. intros o Ho. pyinv. subst. done.
Qed.

Lemma log_ok_emptied v l m : fold_res restore_event l ([], 0) = Ok m -> log_ok
  {| revision := v.(revision); resource_revisions := v.(resource_revisions);
     next_event_id := Z.max (snd m + 1) 1; events := map Restored (firstn max_events (fst m)) |}.
Proof.
  intros H. assert (Hm := restore_event_ids l ([], 0) m (Forall_nil_2 _) H). split; [|split]; cbn [events next_event_id].
  - rewrite length_map, length_take. lia.
  - rewrite <- firstn_map. apply Forall_take. eapply Forall_impl; [exact Hm|]. intros h. apply older_than_mono. lia.
  - induction (take max_events m.1) as [|d r IH]; cbn; constructor; [done|]. by apply Forall_map, Forall_true.
Qed.

Lemma reachable_log s : reachable s -> log_ok s.(s_revisions).
Proof.
  intros H. refine (proj1 (reachable_holds log_ok _ _ _ _ _ s H)).
  - apply log_ok_touched.
  - intros e v. apply log_ok_logged.
  - apply log_ok_same.
  - apply log_ok_emptied.
  - intros now. split; [cbn; unfold max_events; lia|]. split; constructor.
Qed.

(** The entries a watcher at a cursor has not seen. *)
Definition beyond (cursor : Z) (h : history_entry) : bool :=
  match entry_id h with Ok i => cursor <? i | Raise _ => false end.

Lemma poll_readable cursor bound l :
  Forall (older_than bound) l ->
  map_res (fun d => i ← py_int (dget_or d "eventId" (VInt 0)); Ok (d, cursor <? i)) (map entry_dict l)
  = Ok (map (fun h => (entry_dict h, beyond cursor h)) l).
Proof.
  induction 1 as [|h l (i & Hi & _) Hl IH]; [done|]. cbn [map map_res]. rewrite IH.
  unfold beyond. rewrite Hi. unfold entry_id in Hi. by rewrite Hi.
Qed.

Lemma filter_snd {A B} (f : A -> B) (g : A -> bool) l :
  map fst (List.filter snd (map (fun h => (f h, g h)) l)) = map f (List.filter g l).
Proof. induction l as [|h l IH]; [done|]. cbn. destruct (g h); cbn; by rewrite IH. Qed.

(** In every reachable show the event history holds at most a hundred entries, each with an identifier below
    the next one: those recorded since the last restore, each newer than all that follow it, then the restored
    ones in the order of their snapshot. Polling it never fails: from any cursor a watcher gets exactly the
    entries beyond it, in the reverse order. *)
Theorem event_history_is_readable s cursor :
  reachable s ->
  (length s.(s_revisions).(events) <= max_events)%nat /\ StronglySorted newer s.(s_revisions).(events)
  /\ Forall (older_than s.(s_revisions).(next_event_id)) s.(s_revisions).(events)
  /\ events_since cursor s = Ok (map entry_dict (List.filter (beyond cursor) (rev s.(s_revisions).(events)))).
Proof.
  intros (Hl & Hf & Hs)%reachable_log. split; [done|]. split; [done|]. split; [done|].
  unfold events_since. erewrite poll_readable by (by apply Forall_rev). cbn [mbind res_bind].
  f_equal. apply filter_snd.
Qed.

Lemma event_history_is_readable_witness :
  events_since 1 (fst (run sample_readings (PatchShow [("bpm", VInt 90)]) None None hostile_show))
  = Ok (map entry_dict (firstn 1
      (fst (run sample_readings (PatchShow [("bpm", VInt 90)]) None None hostile_show)).(s_revisions).(events))).
Proof.
  destruct (event_history_is_readable
    (fst (run sample_readings (PatchShow [("bpm", VInt 90)]) None None hostile_show)) 1) as (_ & _ & _ & ->).
  - apply reach_command, hostile_show_reachable.
  - vm_compute. reflexivity.
Defined.

(** ** Edges of these promises *)

Definition outcome (x : ShowState * res pydict) : res unit :=
  match snd x with Ok _ => Ok tt | Raise e => Raise e end.

(** A refused patch keeps the fields it assigned before the refusal, without a new revision. *)
Lemma refused_patch_keeps_earlier_fields :
  let x := run sample_readings (PatchSystem [("capacity", VInt 10); ("mode", VStr "party")]) None None sample_show in
  outcome x = Raise (ValueError "mode must be one of ['audio', 'full', 'reduced', 'safe']")
  /\ (fst x).(s_system).(capacity) = fz 10 /\ (fst x).(s_revisions) = sample_show.(s_revisions).
Proof. vm_compute. auto. Qed.

(** A note-off the notation does not know refuses the MIDI message itself. *)
Lemma unmatched_note_off_is_refused :
  let x := run sample_readings (IngestMidi "alex" [("status", VInt 128); ("data1", VInt 60)]) None None sample_show in
  outcome x = Raise (ValueError "no active note for pitch 60") /\ (fst x).(s_midi).(received) = 0.
Proof. vm_compute. auto. Qed.

(** A note that ends at an infinite time makes the answer of every later command fail, after its change. *)
Lemma infinite_note_breaks_snapshots :
  let note action seconds := NotationNote "alex"
    [("action", VStr action); ("pitch", VInt 60); ("showTimeSeconds", VStr seconds)] in
  let s1 := fst (run sample_readings (note "on" "1") None None sample_show) in
  let s2 := fst (run sample_readings (note "off" "Infinity") None None s1) in
  let x := run sample_readings (PatchShow [("bpm", VInt 90)]) None None s2 in
  outcome x = Raise OverflowError /\ (fst x).(s_show).(bpm) = fz 90.
Proof. vm_compute. auto. Qed.
