(* ===== verification/CivilTime.v ===== *)
(** * Civil time (the standard library's datetime, as the control plane uses it)

    A moment is a number of microseconds since the first of January of year 1, in
    UTC. [isoformat] writes one and [fromisoformat] reads the texts Python 3.11
    accepts: calendar and week dates, with and without separators, fractions and
    offsets. What is written reads back. *)

From S2P Require Import Prelude PyStr PyFloat PyVal PyFacts Json Sha256 JsonText.

#[local] Open Scope string_scope.
#[local] Open Scope list_scope.
#[local] Open Scope Z_scope.

(** ** The calendar *)

Definition second : Z := 1000000.
Definition day : Z := 86400 * second.

(** Days of the years 1 to 9999. *)
Definition max_days : Z := 3652059.
Definition max_moment : Z := max_days * day.

Definition is_leap (y : Z) : bool := (y mod 4 =? 0) && (negb (y mod 100 =? 0) || (y mod 400 =? 0)).

Definition days_in_month (y m : Z) : Z :=
  if m =? 2 then (if is_leap y then 29 else 28)
  else if (m =? 4) || (m =? 6) || (m =? 9) || (m =? 11) then 30 else 31.

(** Days before a date, counted in the years that begin with March. *)
Definition days_of_date (y m d : Z) : Z :=
  let y' := if m <=? 2 then y - 1 else y in
  let m' := if m <=? 2 then m + 9 else m - 3 in
  let yoe := y' mod 400 in
  let doy := (153 * m' + 2) / 5 + d - 1 in
  (y' / 400) * 146097 + (yoe * 365 + yoe / 4 - yoe / 100 + doy) - 306.

(** The month and day of a day of a year that begins with March. *)
Definition month_day (doy : Z) : Z * Z :=
  let mp := (5 * doy + 2) / 153 in
  (if mp <? 10 then mp + 3 else mp - 9, doy - (153 * mp + 2) / 5 + 1).

(** The date of a day of a cycle of 400 years: by centuries, four years and years, the last of each being the longer one. *)
Definition date_of_cycle (doe : Z) : Z * Z * Z :=
  let c := Z.min 3 (doe / 36524) in
  let r := doe - c * 36524 in
  let q := r / 1461 in
  let y1 := Z.min 3 (r mod 1461 / 365) in
  let yoe := 100 * c + 4 * q + y1 in
  let '(m, d) := month_day (r mod 1461 - y1 * 365) in
  ((if m <=? 2 then yoe + 1 else yoe), m, d).

Definition date_of_days (n : Z) : Z * Z * Z :=
  let z := n + 306 in
  let '(y, m, d) := date_of_cycle (z mod 146097) in
  (y + z / 146097 * 400, m, d).

Definition valid_date (y m d : Z) : bool :=
  (1 <=? y) && (y <=? 9999) && (1 <=? m) && (m <=? 12) && (1 <=? d) && (d <=? days_in_month y m).

(** ** Writing *)

Definition digit_char (d : Z) : ascii := chr (48 + d).

(** The last [w] decimal digits. *)
Fixpoint padded (w : nat) (z : Z) : list ascii :=
  match w with O => [] | S w => padded w (z / 10) ++ [digit_char (z mod 10)] end.

(** [isoformat()] of a moment in UTC. *)
Definition isoformat (t : Z) : string :=
  let '(y, m, d) := date_of_days (t / day) in
  let us := t mod day in
  let s := us / second in
  let f := us mod second in
  of_chars (padded 4 y ++ ["-"%char] ++ padded 2 m ++ ["-"%char] ++ padded 2 d ++ ["T"%char] ++
            padded 2 (s / 3600) ++ [":"%char] ++ padded 2 (s / 60 mod 60) ++ [":"%char] ++ padded 2 (s mod 60) ++
            (if f =? 0 then [] else "."%char :: padded 6 f) ++ chars "+00:00").

(** ** Reading *)

Definition no_time : exn := ValueError "Invalid isoformat string".

(** Exactly [w] digits, and what follows them. *)
Fixpoint take_digits (w : nat) (acc : Z) (l : list ascii) : option (Z * list ascii) :=
  match w, l with
  | O, _ => Some (acc, l)
  | S w, c :: l => if is_digit c then take_digits w (acc * 10 + (code c - 48)) l else None
  | S _, [] => None
  end.

Definition parse_digits (w : nat) (l : list ascii) : option (Z * list ascii) := take_digits w 0 l.

(** The weekday of a day, Monday being 0. *)
Definition weekday (n : Z) : Z := n mod 7.

(** The day on which the ISO year begins. *)
Definition iso_week1_monday (y : Z) : Z :=
  let first := days_of_date y 1 1 in
  let w := weekday first in
  let monday := first - w in
  if 3 <? w then monday + 7 else monday.

Definition days_of_week (y week d : Z) : option Z :=
  let first := weekday (days_of_date y 1 1) in
  let long := (first =? 3) || ((first =? 2) && is_leap y) in
  if negb ((1 <=? y) && (y <=? 9999)) then None
  else if negb ((1 <=? week) && ((week <=? 52) || ((week =? 53) && long))) then None
  else if negb ((1 <=? d) && (d <=? 7)) then None
  else Some (iso_week1_monday y + (week - 1) * 7 + (d - 1)).

Definition days_of_valid (y m d : Z) : option Z := if valid_date y m d then Some (days_of_date y m d) else None.

Definition head_is (c : ascii) (l : list ascii) : bool := match l with c' :: _ => Ascii.eqb c' c | [] => false end.

(** What follows the separator of a date that uses one. *)
Definition after_sep (sep : bool) (l : list ascii) : option (list ascii) :=
  if sep then (if head_is "-"%char l then Some (tl l) else None) else Some l.

(** The days before the date of a text. *)
Definition parse_date (l : list ascii) : option Z :=
  '(y, l) ← parse_digits 4 l;
  let sep := head_is "-"%char l in
  let l := if sep then tl l else l in
  if head_is "W"%char l then
    '(week, l) ← parse_digits 2 (tl l);
    match l with
    | [] => days_of_week y week 1
    | _ => l ← after_sep sep l; '(d, _) ← parse_digits 1 l; days_of_week y week d
    end
  else '(m, l) ← parse_digits 2 l; l ← after_sep sep l; '(d, _) ← parse_digits 2 l; days_of_valid y m d.

(** Where the date ends. *)
Fixpoint digit_run (n : nat) (l : list ascii) : nat :=
  match l with c :: l' => if is_digit c then digit_run (S n) l' else n | [] => n end.

Definition nth_char (n : nat) (l : list ascii) : ascii := nth n l (chr 0).

Definition date_end (l : list ascii) : option nat :=
  let len := length l in
  let at_ n c := Ascii.eqb (nth_char n l) c in
  if Nat.eqb len 7 then Some 7%nat
  else if at_ 4%nat "-"%char then
    if at_ 5%nat "W"%char then
      if (8 <? len)%nat && at_ 8%nat "-"%char then
        if Nat.eqb len 9 then None
        else if (10 <? len)%nat && is_digit (nth_char 10 l) then Some 8%nat else Some 10%nat
      else Some 8%nat
    else Some 10%nat
  else if at_ 4%nat "W"%char then
    let pos := digit_run 7 (skipn 7 l) in
    if (pos <? 9)%nat then Some pos else if Nat.even pos then Some 7%nat else Some 8%nat
  else Some 8%nat.

(** What a time of day is read into, and whether text was left. *)
Record clock_time := { ct_h : Z; ct_m : Z; ct_s : Z; ct_us : Z; ct_more : bool }.

Definition parse_fraction (h m s : Z) (more : bool) (l : list ascii) : option clock_time :=
  let n := Nat.min 6 (length l) in
  '(f, rest) ← parse_digits n l;
  let rest := drop_while is_digit rest in
  Some {| ct_h := h; ct_m := m; ct_s := s; ct_us := f * 10 ^ (6 - Z.of_nat n);
          ct_more := match rest with [] => more | _ => true end |}.

(** [HH[:?MM[:?SS]]] with a fraction; [more]: text follows the segment. *)
Fixpoint parse_clock (fields : nat) (first sep : bool) (read : list Z) (more : bool) (l : list ascii) : option clock_time :=
  let field n := nth n read 0 in
  match fields with
  | O => parse_fraction (field 0%nat) (field 1%nat) (field 2%nat) more l
  | S fields =>
      '(v, l) ← parse_digits 2 l;
      let read := read ++ [v] in
      let field n := nth n read 0 in
      let done more := Some {| ct_h := field 0%nat; ct_m := field 1%nat; ct_s := field 2%nat; ct_us := 0; ct_more := more |} in
      match l with
      | [] => done more
      | [_] => done true
      | c :: l' =>
          let sep := if first then Ascii.eqb c ":"%char else sep in
          if sep && Ascii.eqb c ":"%char then parse_clock fields false sep read more l'
          else if Ascii.eqb c "."%char || Ascii.eqb c ","%char then parse_fraction (field 0%nat) (field 1%nat) (field 2%nat) more l'
          else if negb sep then parse_clock fields false sep read more l
          else None
      end
  end.

Definition clock_of (more : bool) (l : list ascii) : option clock_time := parse_clock 3 true true [] more l.

(** The text before an offset, its sign, and what follows it. *)
Fixpoint before_offset (before l : list ascii) : list ascii * option (ascii * list ascii) :=
  match l with
  | [] => (rev before, None)
  | c :: l' => if Ascii.eqb c "+"%char || Ascii.eqb c "-"%char || Ascii.eqb c "Z"%char then (rev before, Some (c, l')) else before_offset (c :: before) l'
  end.

(** Microseconds of the day, and of the offset. *)
Definition day_time (c : clock_time) : option Z :=
  if (ct_h c <? 24) && (ct_m c <? 60) && (ct_s c <? 60)
  then Some (((ct_h c * 60 + ct_m c) * 60 + ct_s c) * second + ct_us c) else None.

Definition offset_of (sign : ascii) (c : clock_time) : option Z :=
  let seconds := (ct_h c * 60 + ct_m c) * 60 + ct_s c in
  let us := if seconds =? 0 then 0 else seconds * second + ct_us c in
  if us <? day then Some (if Ascii.eqb sign "-"%char then - us else us) else None.

Definition parse_time_of_day (l : list ascii) : option (Z * Z) :=
  match before_offset [] l with
  | (l, None) => c ← clock_of false l; if ct_more c then None else us ← day_time c; Some (us, 0)
  | (l, Some (sign, rest)) =>
      c ← clock_of true l;
      offset ← (if Ascii.eqb sign "Z"%char then match rest with [] => Some 0 | _ => None end
                else o ← clock_of false rest; if ct_more o then None else offset_of sign o);
      us ← day_time c; Some (us, offset)
  end.

(** [datetime.fromisoformat(text)], brought to UTC; a text without an offset is taken as UTC. *)
Definition fromisoformat (text : string) : res Z :=
  let l := chars text in
  match (if (length l <? 7)%nat then None else date_end l) with
  | None => Raise no_time
  | Some n =>
      match days ← parse_date (firstn n l);
            match skipn n l with
            | [] => Some (days, 0, 0)
            | _ :: rest => '(us, offset) ← parse_time_of_day rest; Some (days, us, offset)
            end
      with
      | None => Raise no_time
      | Some (days, us, offset) =>
          if negb ((0 <=? days) && (days <? max_days)) then Raise no_time
          else let t := days * day + us - offset in
               if (0 <=? t) && (t <? max_moment) then Ok t else Raise OverflowError
      end
  end.

(** ** What is written reads back *)

(** The months of one year, day by day. *)
Definition year_ok (doy : Z) : bool :=
  let '(m, d) := month_day doy in
  let m' := if m <=? 2 then m + 9 else m - 3 in
  (1 <=? m) && (m <=? 12) && (1 <=? d) && ((153 * m' + 2) / 5 + d - 1 =? doy)
  && (d <=? (if m =? 2 then (if doy =? 365 then 29 else 28) else if (m =? 4) || (m =? 6) || (m =? 9) || (m =? 11) then 30 else 31))
  && (Bool.eqb (m <=? 2) (306 <=? doy)).

Lemma year_checked : forallb (fun k => year_ok (Z.of_nat k)) (seq 0 366) = true.
Proof. vm_compute. reflexivity. Qed.

Lemma year_facts doy : 0 <= doy < 366 -> year_ok doy = true.
Proof.
  intros H. pose proof year_checked as Hc. rewrite forallb_forall in Hc. specialize (Hc (Z.to_nat doy)).
  rewrite Z2Nat.id in Hc by lia. apply Hc, in_seq. lia.
Qed.

(** [lia] on quotients and remainders. *)
Ltac div_lia := Z.div_mod_to_equations; lia.

Lemma days_of_cycle doe : 0 <= doe < 146097 ->
  let '(y, m, d) := date_of_cycle doe in
  let y' := if m <=? 2 then y - 1 else y in
  let m' := if m <=? 2 then m + 9 else m - 3 in
  1 <= m <= 12 /\ 1 <= d <= days_in_month y m /\ 0 <= y' < 400 /\
  y' * 365 + y' / 4 - y' / 100 + ((153 * m' + 2) / 5 + d - 1) = doe /\
  (306 <= doe -> 1 <= y) /\ (doe < 146037 -> y <= 399).
Proof.
  intros H. unfold date_of_cycle. set (c := Z.min 3 (doe / 36524)). set (r := doe - c * 36524). set (q := r / 1461).
  set (y1 := Z.min 3 (r mod 1461 / 365)). set (doy := r mod 1461 - y1 * 365). set (yoe := 100 * c + 4 * q + y1).
  assert (0 <= c <= 3 /\ 0 <= r <= 36524 /\ (r = 36524 -> c = 3)) as (Hc & Hr & Hr3) by (unfold r, c; div_lia).
  assert (0 <= q <= 24 /\ r = 1461 * q + r mod 1461 /\ 0 <= r mod 1461 < 1461) as (Hq & Hrq & Hrm) by (unfold q; clearbody r; div_lia).
  assert (0 <= y1 <= 3 /\ 0 <= doy < 366 /\ (doy = 365 -> r mod 1461 = 1460 /\ y1 = 3)) as (Hy & Hd & Hd5) by (unfold doy, y1; clear -Hrm; generalize dependent (r mod 1461); intros; div_lia).
  assert (yoe / 4 = 25 * c + q) as H4 by (symmetry; unfold yoe; apply (Z.div_unique _ 4 _ y1); lia).
  assert (yoe / 100 = c) as H100 by (symmetry; unfold yoe; apply (Z.div_unique _ 100 _ (4 * q + y1)); lia).
  assert (yoe * 365 + yoe / 4 - yoe / 100 + doy = doe) as Hsum by (rewrite H4, H100; unfold yoe, doy, r in *; lia).
  pose proof (year_facts doy Hd) as Hok. unfold year_ok in Hok. destruct (month_day doy) as [m d].
  rewrite !andb_true_iff in Hok. destruct Hok as (((((H1 & H2) & H3) & H5) & H6) & H7). apply Z.eqb_eq in H5. apply Bool.eqb_prop in H7.
  assert (0 <= yoe < 400) as Hyoe by (unfold yoe; lia).
  assert ((if m <=? 2 then (if m <=? 2 then yoe + 1 else yoe) - 1 else (if m <=? 2 then yoe + 1 else yoe)) = yoe) as -> by (destruct (m <=? 2); lia).
  split; [lia|]. split; [|split; [done|split; [lia|]]].
  - split; [lia|]. unfold days_in_month. apply Z.leb_le in H6. revert H6. destruct (Z.eqb_spec m 2) as [->|]; [|done].
    change (2 <=? 2) with true. cbv iota.
    destruct (Z.eqb_spec doy 365) as [E|]; [|destruct (is_leap _); lia]. destruct (Hd5 E) as [Hr1 Hy1]. intros Hd29.
    assert (is_leap (yoe + 1) = true) as ->; [|done]. unfold is_leap, yoe. rewrite Hy1. clear Hsum H4 H100 Hyoe. clearbody c q r. apply andb_true_iff. split.
    { apply Z.eqb_eq. replace (100 * c + 4 * q + 3 + 1) with ((25 * c + q + 1) * 4) by lia. apply Z.mod_mul. lia. }
    apply orb_true_iff. destruct (Z.eq_dec q 24) as [->|]; [right|left]; [rewrite (Hr3 ltac:(lia)); reflexivity|].
    apply negb_true_iff, Z.eqb_neq. replace (100 * c + 4 * q + 3 + 1) with (4 * q + 4 + c * 100) by lia. rewrite Z.mod_add, Z.mod_small by lia. lia.
  - destruct (m <=? 2) eqn:Em; symmetry in H7.
    + apply Z.leb_le in H7. split; [lia|]. intros Hlt. assert (yoe <> 399); [|lia]. intros Hyy. rewrite Hyy in Hsum. cbn in Hsum. lia.
    + apply Z.leb_gt in H7. split; [|lia]. intros Hge. assert (yoe <> 0); [|lia]. intros Hyy. rewrite Hyy in Hsum. cbn in Hsum. lia.
Qed.

Lemma is_leap_cycle y k : is_leap (y + k * 400) = is_leap y.
Proof.
  unfold is_leap.
  rewrite (Z.mod_add y k 400) by lia.
  replace (y + k * 400) with (y + k * 100 * 4) at 1 by lia. rewrite Z.mod_add by lia.
  replace (y + k * 400) with (y + k * 4 * 100) by lia. by rewrite Z.mod_add by lia.
Qed.

Lemma date_of_days_ok n : 0 <= n < max_days ->
  let '(y, m, d) := date_of_days n in valid_date y m d = true /\ days_of_date y m d = n.
Proof.
  intros Hn. unfold date_of_days. set (z := n + 306). pose proof (Z.mod_pos_bound z 146097 ltac:(lia)) as Hdoe.
  pose proof (Z.div_mod z 146097 ltac:(lia)) as Hz. pose proof (days_of_cycle _ Hdoe) as Hc.
  destruct (date_of_cycle (z mod 146097)) as [[y m] d]. set (doe := z mod 146097) in *. set (k := z / 146097) in *.
  unfold max_days in Hn. assert (0 <= k <= 24) as Hk by (unfold z in *; lia).
  destruct Hc as (Hm & Hd & Hy' & Hsum & Hlo & Hhi).
  unfold valid_date, days_of_date, days_in_month in *. rewrite is_leap_cycle.
  replace ((if m <=? 2 then y + k * 400 - 1 else y + k * 400)) with ((if m <=? 2 then y - 1 else y) + k * 400) by (destruct (m <=? 2); lia).
  assert (1 <= y + k * 400 <= 9999) as Hy by (destruct (m <=? 2); unfold z in *; lia).
  set (y' := if m <=? 2 then y - 1 else y) in *. set (m' := if m <=? 2 then m + 9 else m - 3) in *.
  rewrite Z.mod_add, Z.div_add by lia. rewrite Z.mod_small by lia. rewrite (Z.div_small y') by lia. split.
  - rewrite !andb_true_iff, !Z.leb_le. lia.
  - unfold z in *. lia.
Qed.

(** *** Digits *)

Lemma take_digits_S w acc l : take_digits (S w) acc l = ('(a, l) ← take_digits w acc l; take_digits 1 a l).
Proof.
  revert acc l. induction w as [|w IH]; intros acc l; [done|].
  change (take_digits (S (S w)) acc l) with (match l with c :: l => if is_digit c then take_digits (S w) (acc * 10 + (code c - 48)) l else None | [] => None end).
  cbn [take_digits]. destruct l as [|c l]; [done|]. destruct (is_digit c); [|done]. apply IH.
Qed.

Lemma digit_char_digit d : 0 <= d < 10 -> is_digit (digit_char d) = true /\ code (digit_char d) - 48 = d.
Proof.
  intros H. unfold digit_char, is_digit, in_range. rewrite code_chr by lia. split; [|lia].
  apply andb_true_iff; rewrite !Z.leb_le; lia.
Qed.

Lemma take_digits_padded w acc z rest : 0 <= z < 10 ^ Z.of_nat w -> take_digits w acc (padded w z ++ rest) = Some (acc * 10 ^ Z.of_nat w + z, rest).
Proof.
  revert acc z rest. induction w as [|w IH]; intros acc z rest H.
  - cbn in *. do 2 f_equal. lia.
  - rewrite Nat2Z.inj_succ, Z.pow_succ_r in * by lia. rewrite take_digits_S. cbn [padded]. rewrite <- app_assoc.
    pose proof (Z.mod_pos_bound z 10 ltac:(lia)) as Hm. pose proof (Z.div_mod z 10 ltac:(lia)) as Hz.
    rewrite IH by lia. cbn [mbind option_bind app take_digits]. destruct (digit_char_digit _ Hm) as [-> ->]. do 2 f_equal. lia.
Qed.

Lemma parse_padded w z rest : 0 <= z < 10 ^ Z.of_nat w -> parse_digits w (padded w z ++ rest) = Some (z, rest).
Proof. intros H. unfold parse_digits. rewrite take_digits_padded by done. do 2 f_equal. Qed.

Lemma padded_length w z : length (padded w z) = w.
Proof. revert z. induction w as [|w IH]; intros z; cbn [padded]; [done|]. rewrite length_app, IH. cbn. lia. Qed.

Lemma padded_digits w z : Forall (fun c => is_digit c = true) (padded w z).
Proof.
  revert z. induction w as [|w IH]; intros z; cbn [padded]; [constructor|]. apply Forall_app. split; [apply IH|].
  constructor; [|constructor]. apply digit_char_digit, Z.mod_pos_bound. lia.
Qed.

(** *** Texts *)

(** A digit is not one of the other characters of a time. *)
Lemma digit_apart c : is_digit c = true ->
  Ascii.eqb c "-"%char = false /\ Ascii.eqb c "+"%char = false /\ Ascii.eqb c "Z"%char = false /\ Ascii.eqb c "W"%char = false /\
  Ascii.eqb c ":"%char = false /\ Ascii.eqb c "."%char = false /\ Ascii.eqb c ","%char = false.
Proof.
  intros H. split_and!; match goal with |- Ascii.eqb c ?x = false => destruct (Ascii.eqb_spec c x) as [->|]; [discriminate H|done] end.
Qed.

Lemma before_offset_digits before l rest : Forall (fun c => is_digit c = true) l ->
  before_offset before (l ++ rest) = before_offset (rev l ++ before) rest.
Proof.
  intros H. revert before. induction H as [|c l Hc Hl IH]; intros before; [done|]. cbn [app before_offset rev].
  destruct (digit_apart c Hc) as (-> & -> & -> & _). cbn [orb]. rewrite IH, <- app_assoc. done.
Qed.

Lemma date_text y m d rest : 1 <= y <= 9999 -> 1 <= m <= 12 -> 1 <= d <= 31 ->
  let text := padded 4 y ++ ["-"%char] ++ padded 2 m ++ ["-"%char] ++ padded 2 d in
  date_end (text ++ "T"%char :: rest) = Some 10%nat /\ firstn 10 (text ++ "T"%char :: rest) = text /\
  skipn 10 (text ++ "T"%char :: rest) = "T"%char :: rest /\ parse_date text = days_of_valid y m d.
Proof.
  intros Hy Hm Hd text.
  assert (length text = 10%nat) as Hlen by (unfold text; by rewrite !length_app, !padded_length).
  split; [|split; [|split]].
  - unfold date_end. rewrite length_app, Hlen. cbn [length Nat.eqb Nat.add]. unfold nth_char, text.
    rewrite <- !app_assoc, !(app_nth2 (padded 4 y)) by (rewrite padded_length; lia). rewrite padded_length. cbn [Nat.sub app nth Ascii.eqb Bool.eqb].
    pose proof (padded_digits 2 m) as Hdig. cbn [padded app] in *. inversion_clear Hdig as [|? ? H1 _].
    cbn [nth]. by destruct (digit_apart _ H1) as (_ & _ & _ & -> & _).
  - rewrite <- Hlen. apply take_app_length.
  - rewrite <- Hlen. apply drop_app_length.
  - unfold text, parse_date. rewrite parse_padded by (cbn; lia). cbn [mbind option_bind app head_is tl]. rewrite Ascii.eqb_refl.
    assert (head_is "W"%char (padded 2 m ++ "-"%char :: padded 2 d) = false) as ->.
    { pose proof (padded_digits 2 m) as Hdig. cbn [padded app] in *. inversion_clear Hdig as [|? ? H1 _].
      by destruct (digit_apart _ H1) as (_ & _ & _ & HW & _). }
    rewrite parse_padded by (cbn; lia). cbn [mbind option_bind after_sep head_is tl]. rewrite Ascii.eqb_refl.
    cbn [mbind option_bind]. rewrite <- (app_nil_r (padded 2 d)), parse_padded by (cbn; lia). done.
Qed.

(** The time of a day, written with its microseconds when there are any. *)
Definition clock_text (s f : Z) : list ascii :=
  padded 2 (s / 3600) ++ [":"%char] ++ padded 2 (s / 60 mod 60) ++ [":"%char] ++ padded 2 (s mod 60) ++
  (if f =? 0 then [] else "."%char :: padded 6 f).

Lemma parse_clock_colon fields first read more v l : 0 <= v < 100 -> l <> [] ->
  parse_clock (S fields) first true read more (padded 2 v ++ ":"%char :: l) = parse_clock fields false true (read ++ [v]) more l.
Proof.
  intros Hv Hl. cbn [parse_clock]. rewrite parse_padded by (cbn; lia). cbn [mbind option_bind].
  destruct l as [|c l]; [done|]. by destruct first.
Qed.

Lemma padded_not_nil w z l : padded (S w) z ++ l <> [].
Proof. intros H%(f_equal length). rewrite length_app, padded_length in H. done. Qed.

Lemma clock_of_text s f : 0 <= s < 86400 -> 0 <= f < second ->
  exists c, clock_of true (clock_text s f) = Some c /\ day_time c = Some (s * second + f).
Proof.
  intros Hs Hf. unfold clock_of, clock_text, second in *. assert (0 <= s / 3600 < 24) as Hh by div_lia.
  pose proof (Z.mod_pos_bound (s / 60) 60 ltac:(lia)) as Hm. pose proof (Z.mod_pos_bound s 60 ltac:(lia)) as Hsec.
  assert (s = (s / 3600 * 60 + s / 60 mod 60) * 60 + s mod 60) as Hsum by div_lia.
  cbn [app]. rewrite parse_clock_colon by (lia || apply padded_not_nil). rewrite parse_clock_colon by (lia || apply padded_not_nil).
  cbn [parse_clock app]. rewrite parse_padded by (cbn; lia). cbn [mbind option_bind nth].
  assert (forall us more, day_time {| ct_h := s / 3600; ct_m := s / 60 mod 60; ct_s := s mod 60; ct_us := us; ct_more := more |} = Some (s * 1000000 + us)) as Hday.
  { intros us more. unfold day_time. cbn [ct_h ct_m ct_s ct_us]. rewrite (proj2 (Z.ltb_lt _ 24)), !(proj2 (Z.ltb_lt _ 60)) by lia.
    cbn [andb]. by rewrite <- Hsum. }
  destruct (Z.eqb_spec f 0) as [->|Hne]; [by eexists|].
  pose proof (padded_length 6 f) as Hlen. destruct (padded 6 f) as [|c1 [|c2 l]] eqn:E; [done..|]. rewrite <- E.
  cbn [Ascii.eqb Bool.eqb andb orb]. unfold parse_fraction. rewrite E, Hlen, <- E. cbn [Nat.min].
  rewrite <- (app_nil_r (padded 6 f)), parse_padded by (cbn; lia). cbn [mbind option_bind drop_while]. eexists. split; [done|].
  rewrite Hday. f_equal. cbn. lia.
Qed.

Lemma clock_text_before s f rest : 0 <= s < 86400 -> 0 <= f ->
  before_offset [] (clock_text s f ++ "+"%char :: rest) = (clock_text s f, Some ("+"%char, rest)).
Proof.
  intros Hs Hf. unfold clock_text. rewrite <- !app_assoc.
  pose proof (padded_digits 2 (s / 3600)) as H1. pose proof (padded_digits 2 (s / 60 mod 60)) as H2.
  pose proof (padded_digits 2 (s mod 60)) as H3. pose proof (padded_digits 6 f) as H4.
  rewrite before_offset_digits by done. cbn [app before_offset Ascii.eqb Bool.eqb orb].
  rewrite before_offset_digits by done. cbn [app before_offset Ascii.eqb Bool.eqb orb].
  rewrite before_offset_digits by done. destruct (f =? 0); cbn [app before_offset Ascii.eqb Bool.eqb orb].
  - rewrite !rev_app_distr. cbn [rev]. rewrite !rev_app_distr. cbn [rev app]. rewrite !rev_involutive, <- !app_assoc, ?app_nil_r. done.
  - rewrite before_offset_digits by done. cbn [app before_offset Ascii.eqb Bool.eqb orb].
    rewrite !rev_app_distr. cbn [rev]. rewrite !rev_app_distr. cbn [rev app]. rewrite !rev_involutive, <- !app_assoc, ?app_nil_r. done.
Qed.

(** A moment reads back from the text written for it, and from the text with the offset written as Z. *)
Lemma isoformat_text t : chars (isoformat t) =
  (let '(y, m, d) := date_of_days (t / day) in padded 4 y ++ ["-"%char] ++ padded 2 m ++ ["-"%char] ++ padded 2 d)
  ++ "T"%char :: clock_text (t mod day / second) (t mod day mod second) ++ chars "+00:00".
Proof.
  unfold isoformat, clock_text. destruct (date_of_days (t / day)) as [[y m] d]. rewrite chars_of_chars, <- !app_assoc. done.
Qed.

Lemma fromisoformat_isoformat t : 0 <= t < max_moment -> fromisoformat (isoformat t) = Ok t.
Proof.
  intros Ht. unfold max_moment in Ht. assert (0 <= t / day < max_days) as Hn by (unfold day, second in *; div_lia).
  pose proof (Z.mod_pos_bound t day ltac:(done)) as Hus. pose proof (Z.div_mod t day ltac:(done)) as Hsum.
  assert (0 <= t mod day / second < 86400) as Hs by (unfold day, second in *; div_lia).
  pose proof (Z.mod_pos_bound (t mod day) second ltac:(done)) as Hf. pose proof (Z.div_mod (t mod day) second ltac:(done)) as Hsum'.
  unfold fromisoformat. rewrite isoformat_text. pose proof (date_of_days_ok _ Hn) as Hd.
  destruct (date_of_days (t / day)) as [[y m] d]. destruct Hd as [Hv Hd].
  assert (1 <= y <= 9999 /\ 1 <= m <= 12 /\ 1 <= d <= 31) as (Hy & Hm & Hdd).
  { unfold valid_date, days_in_month in Hv. rewrite !andb_true_iff, !Z.leb_le in Hv. destruct Hv as (((((? & ?) & ?) & ?) & ?) & Hle).
    split_and!; try done. etransitivity; [exact Hle|]. repeat case_match; done. }
  destruct (date_text y m d (clock_text (t mod day / second) (t mod day mod second) ++ chars "+00:00") Hy Hm Hdd) as (H1 & H2 & H3 & H4).
  cbv zeta. replace (_ <? 7)%nat with false.
  2:{ symmetry. apply Nat.ltb_ge. rewrite !length_app, !padded_length. cbn. lia. }
  rewrite H1. cbv beta iota. rewrite H2, H3, H4.
  unfold days_of_valid. rewrite Hv, Hd. cbn [mbind option_bind]. unfold parse_time_of_day.
  change (chars "+00:00") with ("+"%char :: chars "00:00"). rewrite clock_text_before by lia.
  destruct (clock_of_text _ _ Hs Hf) as (c & -> & Hc). cbn [mbind option_bind].
  change (clock_of false (chars "00:00")) with (Some {| ct_h := 0; ct_m := 0; ct_s := 0; ct_us := 0; ct_more := false |}).
  cbn [mbind option_bind Ascii.eqb Bool.eqb ct_more].
  change (offset_of "+" {| ct_h := 0; ct_m := 0; ct_s := 0; ct_us := 0; ct_more := false |}) with (Some 0). cbn [mbind option_bind]. rewrite Hc. cbn [mbind option_bind].
  replace ((0 <=? t / day) && (t / day <? max_days)) with true by (symmetry; apply andb_true_iff; rewrite Z.leb_le, Z.ltb_lt; lia). cbn [negb].
  replace (t / day * day + (t mod day / second * second + t mod day mod second) - 0) with t by lia.
  replace ((0 <=? t) && (t <? max_moment)) with true by (symmetry; apply andb_true_iff; rewrite Z.leb_le, Z.ltb_lt; unfold max_moment; lia).
  done.
Qed.

(** *** Moments in documents *)

(** The text before the offset begins with a digit. *)
Lemma isoformat_split t : exists c l, is_digit c = true /\ chars (isoformat t) = (c :: l) ++ chars "+00:00".
Proof.
  rewrite isoformat_text. destruct (date_of_days (t / day)) as [[y m] d].
  pose proof (padded_digits 4 y) as Hd. destruct (padded 4 y) as [|c l] eqn:E.
  { pose proof (padded_length 4 y) as Hl. by rewrite E in Hl. }
  inversion_clear Hd as [|? ? Hc _]. exists c.
  generalize (["-"%char] ++ padded 2 m ++ ["-"%char] ++ padded 2 d), (clock_text (t mod day / second) (t mod day mod second)).
  intros l1 l2. exists (l ++ l1 ++ "T"%char :: l2). split; [done|]. generalize (chars "+00:00"). intros l3. cbn [app].
  by rewrite <- !app_assoc.
Qed.
