(* ===== verification/Governance.v ===== *)
(** * Community governance: policy, hype and tallies (backend/community_governance.py)

    Accounts, proposals, invitations and votes are the dicts of a JSON document,
    in order of their identifiers' first appearance. Moments are those of
    CivilTime. This file has what is computed of them without changing them: the
    age of a proposal, its tally, and what of a record is made public. *)

From S2P Require Import Prelude PyStr PyFloat PyVal PyFacts Json Sha256 JsonText StateLogic CivilTime.
From Stdlib Require Import SpecFloat.

#[local] Open Scope string_scope.
#[local] Open Scope list_scope.
#[local] Open Scope Z_scope.
#[local] Open Scope st_scope.

Definition table := list (string * pydict).

Record governance := {
  policy : pydict;
  accounts : table;
  proposals : table;
  invitations : table;
  votes : table;
  revision : Z;
}.

Definition one : float := float_of_Z 1.
Definition zero : float := S754_zero false.

(** [n / d] on integers: the nearest float to the quotient, for [0 < d]. *)
Definition int_div (n d : Z) : float :=
  match n with
  | Z0 => zero
  | Zpos p => float_of_ratio false p (Z.to_pos d)
  | Zneg p => float_of_ratio true p (Z.to_pos d)
  end.

Definition DEFAULT_COMMUNITY_POLICY : pydict :=
  [("hypeStartValue", VFloat one); ("hypeDayOne", VInt 1); ("hypeZeroDay", VInt 365); ("defaultVoteWindowHours", VInt 168);
   ("minRawVotes", VInt 3); ("minApprovalRatio", VFloat (int_div 3 5)); ("minDurableVoteUnits", VFloat (float_of_Z 3));
   ("requireAllIssuedWindowsClosedForBinding", VBool true); ("requireAuthenticatedAccount", VBool true);
   ("urgentProvisionalMaxDays", VInt 30)].

Definition CHOICES : list string := ["yes"; "no"; "abstain"].

(** ** Moments *)

(** [isoformat().replace("+00:00", "Z")]: the offset stands at the end only. *)
Definition _iso (t : Z) : string :=
  let l := chars (isoformat t) in of_chars (firstn (length l - 6) l ++ ["Z"%char]).

Definition _parse_time (value : pyval) : res Z :=
  let text := strip (py_str value) in
  fromisoformat (if ends_with "Z" text then slice (String.length text - 1) text +:+ "+00:00" else text).

(** [t + timedelta(...)] of some microseconds. *)
Definition later (t us : Z) : res Z :=
  if (0 <=? t + us) && (t + us <? max_moment) then Ok (t + us) else Raise OverflowError.

(** ** Changes, hype *)

Definition _change_record (value : pyval) : res pyval :=
  match value with
  | VNone => Ok VNone
  | VDict d =>
      let kind := slice 128 (strip (py_str (dget_or d "kind" (VStr "")))) in
      match dget_none d "payload" with
      | VDict payload =>
          if String.eqb kind "" then Raise (ValueError "proposal change requires kind and object payload")
          else Ok (VDict [("kind", VStr kind); ("payload", VDict payload);
                          ("hash", VStr (sha256_hex (_canonical (VDict [("kind", VStr kind); ("payload", VDict payload)]))))])
      | _ => Raise (ValueError "proposal change requires kind and object payload")
      end
  | _ => Raise (ValueError "proposal change must be an object")
  end.

Definition hype_value (created now zero_day : Z) : float :=
  let elapsed_days := fmax zero (fdiv (int_div (now - created) second) (float_of_Z 86400)) in
  if fle elapsed_days one then one
  else
    let span := fmax one (float_of_Z (zero_day - 1)) in
    fround 9 (fmax zero (fmin one (fsub one (fdiv (fsub elapsed_days one) span)))).

Definition durable_fraction (created now zero_day : Z) : float := fround 9 (fsub one (hype_value created now zero_day)).

Definition policy_int (p : pydict) (k : string) : res Z := v ← dindex p k; py_int v.

Definition _proposal_hype (p proposal : pydict) (now : Z) : res (float * float) :=
  created_at ← dindex proposal "createdAt";
  zero_day ← policy_int p "hypeZeroDay";
  created ← _parse_time created_at;
  let hype := hype_value created now zero_day in
  Ok (hype, fround 9 (fsub one hype)).

(** ** Selections *)

(** [all(f(x) for x in l)]. *)
Fixpoint all_res {A} (f : A -> res bool) (l : list A) : res bool :=
  match l with [] => Ok true | x :: l => b ← f x; if b : bool then all_res f l else Ok false end.

(** [v in {...}]: lists and dicts cannot be looked for. *)
Definition in_set (v : pyval) (l : list string) : res bool :=
  match v with
  | VList _ | VDict _ => Raise TypeError
  | _ => Ok (existsb (fun s => py_eq v (VStr s)) l)
  end.

(** [table.get(v)] for any value. *)
Definition get_by (t : table) (v : pyval) : res (option pydict) :=
  match v with
  | VStr k => Ok (alookup t k)
  | VList _ | VDict _ => Raise TypeError
  | _ => Ok None
  end.

(** [int(d.get(k, default))]. *)
Definition get_int (d : pydict) (k : string) (default : Z) : res Z := py_int (dget_or d k (VInt default)).

(** A record of a proposal in its present version, by [get]. *)
Definition of_version (proposal_id : pyval) (version : res Z) (x : pydict) : res bool :=
  if py_eq (dget_none x "proposalId") proposal_id then v ← get_int x "proposalVersion" 0; w ← version; Ok (v =? w) else Ok false.

(** The same by index, as the tally selects. *)
Definition counted_for (proposal_id : string) (proposal x : pydict) : res bool :=
  i ← dindex x "proposalId";
  if py_eq i (VStr proposal_id) then
    v ← (v ← dindex x "proposalVersion"; py_int v); w ← (v ← dindex proposal "version"; py_int v); Ok (v =? w)
  else Ok false.

(** ** Tallies *)

Definition has (x : pydict) (k : string) : bool := truthy (dget_none x k).

(** [parse(sentAt) <= now <= parse(expiresAt)]. *)
Definition in_window (now : Z) (invite : pydict) : res bool :=
  sent ← (v ← dindex invite "sentAt"; _parse_time v);
  if sent <=? now then expires ← (v ← dindex invite "expiresAt"; _parse_time v); Ok (now <=? expires) else Ok false.

Definition active_window (now : Z) (invite : pydict) : res bool :=
  if has invite "sentAt" && has invite "expiresAt" then
    b ← in_window now invite; Ok (b && py_eq (dget_none invite "status") (VStr "sent"))
  else Ok false.

Definition window_closed (now : Z) (invite : pydict) : res bool :=
  b ← in_set (dget_none invite "status") ["voted"; "expired"];
  if b : bool then Ok true
  else if has invite "expiresAt" then t ← (v ← dindex invite "expiresAt"; _parse_time v); Ok (t <? now) else Ok false.

(** Without its evidence in the public record. *)
Definition unpublished (x : pydict) : bool := has x "publicRecordPending" || negb (has x "publicRecordRef").

Definition count_choice (choice : string) (vs : list pydict) : res Z :=
  l ← filter_res (fun v => c ← dindex v "choice"; Ok (py_eq c (VStr choice))) vs; Ok (Z.of_nat (length l)).

Record tally := {
  t_proposal : pydict;
  t_at : Z;
  t_hype : float;
  t_durable : float;
  t_raw : list (string * Z);
  t_units : list (string * float);
  t_votes : Z;
  t_total_durable : float;
  t_approval : float;
  t_invitations : Z;
  t_active : Z;
  t_all_closed : bool;
  t_blockers : list string;
}.

Definition binding_ready (t : tally) : bool := null t.(t_blockers).

Definition raw_of (raw : list (string * Z)) (choice : string) : Z := default 0 (alookup raw choice).

(** [sum(...)] of floats. *)
Definition fsum (l : list float) : float := fold_left fadd l zero.

Definition blocker (b : bool) (text : string) : list string := if b then [text] else [].

(** [public]: a public record is required; [order]: the order in which the set of choices is iterated. *)
Definition proposal_tally (public : bool) (order : list string) (g : governance) (proposal_id : string) (now : Z) : res tally :=
  match alookup g.(proposals) proposal_id with
  | None => Raise (KeyError proposal_id)
  | Some proposal =>
      if null proposal then Raise (KeyError proposal_id) else
      vs ← filter_res (counted_for proposal_id proposal) (map snd g.(votes));
      invites ← filter_res (counted_for proposal_id proposal) (map snd g.(invitations));
      raw ← map_res (fun c => n ← count_choice c vs; Ok (c, n)) order;
      hd ← _proposal_hype g.(policy) proposal now;
      let '(hype, durable) := hd in
      let units := map (fun cn => (fst cn, fround 6 (fmul (float_of_Z (snd cn)) durable))) raw in
      let decisive := raw_of raw "yes" + raw_of raw "no" in
      let ratio := if decisive =? 0 then zero else int_div (raw_of raw "yes") decisive in
      let total := fround 6 (fsum (map snd units)) in
      active ← filter_res (active_window now) invites;
      closed ← (if negb (null invites) && null active then all_res (window_closed now) invites else Ok false);
      minimum ← policy_int g.(policy) "minRawVotes";
      few_approve ← (if decisive =? 0 then Ok true else m ← (v ← dindex g.(policy) "minApprovalRatio"; py_float v); Ok (flt ratio m));
      durable_minimum ← (v ← dindex g.(policy) "minDurableVoteUnits"; py_float v);
      let blockers :=
        blocker (public && unpublished proposal) "proposal version is missing Public Record evidence" ++
        blocker (public && existsb unpublished invites) "one or more vote invitations are missing Public Record evidence" ++
        blocker (public && existsb unpublished vs) "one or more ballots are missing Public Record evidence" ++
        blocker (Z.of_nat (length vs) <? minimum) "raw participation minimum not reached" ++
        blocker few_approve "approval ratio minimum not reached" ++
        blocker (flt total durable_minimum) "durable vote-unit minimum not reached while proposal hype remains" ++
        blocker (truthy (dget_or g.(policy) "requireAllIssuedWindowsClosedForBinding" (VBool true)) && negb closed)
          "issued voting windows are still open" in
      Ok {| t_proposal := proposal; t_at := now; t_hype := hype; t_durable := durable; t_raw := raw; t_units := units;
            t_votes := Z.of_nat (length vs); t_total_durable := total; t_approval := fround 6 ratio;
            t_invitations := Z.of_nat (length invites); t_active := Z.of_nat (length active); t_all_closed := closed;
            t_blockers := blockers |}
  end.

Definition raw_dict (t : tally) : pydict := map (fun cn => (fst cn, VInt (snd cn))) t.(t_raw).

Definition tally_dict (t : tally) : pydict :=
  [("proposal", VDict t.(t_proposal)); ("evaluatedAt", VStr (_iso t.(t_at))); ("hype", VFloat t.(t_hype));
   ("durableFraction", VFloat t.(t_durable)); ("hypeVoteUnits", VFloat zero); ("rawVotes", VDict (raw_dict t));
   ("durableVoteUnits", VDict (map (fun cf => (fst cf, VFloat (snd cf))) t.(t_units))); ("totalRawVotes", VInt t.(t_votes));
   ("totalDurableVoteUnits", VFloat t.(t_total_durable)); ("approvalRatio", VFloat t.(t_approval));
   ("invitationCount", VInt t.(t_invitations)); ("activeVotingWindows", VInt t.(t_active));
   ("allIssuedWindowsClosed", VBool t.(t_all_closed)); ("bindingChangeReady", VBool (binding_ready t));
   ("bindingBlockers", VList (map VStr t.(t_blockers)));
   ("principle", VStr "one-account-one-raw-vote; hype adds zero choice weight; durability matures equally with proposal age")].

(** ** What is made public *)

Definition get_str (d : pydict) (k : string) : pyval := VStr (py_str (dget_or d k (VStr ""))).

Definition _proposal_public_payload (proposal : pydict) : res pydict :=
  version ← get_int proposal "version" 1;
  Ok [("version", VInt 1); ("proposalId", get_str proposal "id"); ("proposalVersion", VInt version); ("title", get_str proposal "title");
      ("description", get_str proposal "description"); ("scope", get_str proposal "scope"); ("createdAt", dget_none proposal "createdAt");
      ("updatedAt", dget_none proposal "updatedAt"); ("status", get_str proposal "status");
      ("provisional", VBool (truthy (dget_or proposal "provisional" (VBool false))));
      ("provisionalExpiresAt", dget_none proposal "provisionalExpiresAt");
      ("change", match dget_none proposal "change" with VDict c => VDict c | _ => VNone end)].

Definition _invitation_public_payload (invite : pydict) : res pydict :=
  version ← get_int invite "proposalVersion" 0;
  hours ← get_int invite "windowHours" 0;
  Ok [("version", VInt 1); ("invitationId", get_str invite "id"); ("proposalId", get_str invite "proposalId");
      ("proposalVersion", VInt version); ("status", get_str invite "status"); ("windowHours", VInt hours);
      ("sentAt", dget_none invite "sentAt"); ("expiresAt", dget_none invite "expiresAt");
      ("deliveryAcceptedAt", dget_none invite "deliveryAcceptedAt"); ("deliveryMode", dget_none invite "deliveryMode")].

Definition _ballot_public_payload (vote : pydict) : res pydict :=
  version ← get_int vote "proposalVersion" 0;
  Ok [("version", VInt 1); ("publicBallotId", get_str vote "publicBallotId"); ("proposalId", get_str vote "proposalId");
      ("proposalVersion", VInt version); ("invitationId", get_str vote "invitationId"); ("castAt", dget_none vote "castAt");
      ("choiceCommitmentSha256", get_str vote "choiceCommitmentSha256"); ("rawVoteUnits", VFloat one)].

(** What the commitment of a ballot hashes. *)
Definition commitment (ballot_id salt : string) (vote : pydict) : res string :=
  version ← get_int vote "proposalVersion" 0;
  Ok (sha256_hex (_canonical (VDict
    [("purpose", VStr "org.upp.community-ballot-choice/1"); ("publicBallotId", VStr ballot_id); ("proposalId", get_str vote "proposalId");
     ("proposalVersion", VInt version); ("choice", get_str vote "choice"); ("salt", VStr salt)]))).

Definition _reference_uri (reference : pydict) : res string :=
  let record_id := strip (py_str (dget_or reference "recordId" (VStr ""))) in
  let record_hash := strip (py_str (dget_or reference "recordHash" (VStr ""))) in
  if negb (starts_with "record-" record_id) || negb (str_len record_hash =? 64) then Raise (ValueError "invalid public-record reference")
  else Ok ("upp-public-record:" +:+ record_id +:+ ":" +:+ record_hash).

(** * Community governance: the operations (backend/community_governance.py)

    The state is the governance document in memory, the document last written,
    and how many answers of the environment were used: readings of the clock,
    drawn tokens, whether a document could be written, what appending to the
    public record returned, whether a mail was accepted. An operation that fails
    half-way leaves what it changed before. [issue_vote_emails] holds the lock
    while it prepares invitations and while it settles each delivery, but not
    between: [prepare_invitations] and [deliver] are steps of their own. *)

(** ** Environment and state *)

Record environment := {
  now_at : nat -> Z;
  token_at : nat -> string;
  write_at : nat -> bool;
  publish_at : option (nat -> string -> pydict -> res pydict);
  send_at : nat -> string -> string -> string -> string -> res pydict;
  mailer_status : pyval;
  choice_order : list string;
}.

Record community := { gov : governance; disk : option pyval; asked : nat }.

Abbreviation op := (st community).

Inductive kind := Accounts | Proposals | Invitations | Votes.

#[export] Instance kind_eq_dec : EqDecision kind.
Proof. solve_decision. Defined.

Definition table_of (k : kind) (g : governance) : table :=
  match k with Accounts => g.(accounts) | Proposals => g.(proposals) | Invitations => g.(invitations) | Votes => g.(votes) end.

Definition with_table (k : kind) (t : table) (g : governance) : governance :=
  {| policy := g.(policy); accounts := match k with Accounts => t | _ => g.(accounts) end;
     proposals := match k with Proposals => t | _ => g.(proposals) end;
     invitations := match k with Invitations => t | _ => g.(invitations) end;
     votes := match k with Votes => t | _ => g.(votes) end; revision := g.(revision) |}.

Definition with_policy (p : pydict) (g : governance) : governance :=
  {| policy := p; accounts := g.(accounts); proposals := g.(proposals); invitations := g.(invitations); votes := g.(votes);
     revision := g.(revision) |}.

Definition next_revision (g : governance) : governance :=
  {| policy := g.(policy); accounts := g.(accounts); proposals := g.(proposals); invitations := g.(invitations); votes := g.(votes);
     revision := g.(revision) + 1 |}.

Definition change_gov (f : governance -> governance) : op unit :=
  st_modify (fun s => {| gov := f s.(gov); disk := s.(disk); asked := s.(asked) |}).

Definition get_gov : op governance := fun s => (s, Ok s.(gov)).

(** [table[id] = x], and a change of the record that is there. *)
Definition put (k : kind) (id : string) (x : pydict) : op unit := change_gov (fun g => with_table k (aput (table_of k g) id x) g).

Definition amend (k : kind) (id : string) (f : pydict -> pydict) : op unit :=
  change_gov (fun g => match alookup (table_of k g) id with Some x => with_table k (aput (table_of k g) id (f x)) g | None => g end).

Definition set_field (k : kind) (id field : string) (v : pyval) : op unit := amend k id (fun x => dset x field v).

Definition fetch (k : kind) (id : string) : op pydict := fun s =>
  (s, match alookup (table_of k s.(gov)) id with Some x => Ok x | None => Raise (KeyError id) end).

(** The next answer of the environment. *)
Definition ask {A} (answer : nat -> A) : op A := fun s =>
  ({| gov := s.(gov); disk := s.(disk); asked := S s.(asked) |}, Ok (answer s.(asked))).

Definition any_error (e : exn) : bool := true.

(** ** Loading *)

(** [{str(x["id"]): x for x in value.get(k, []) if isinstance(x, dict) and x.get("id")}]. *)
Definition load_table (value : pydict) (k : string) : res table :=
  items ← py_iter (dget_or value k (VList []));
  Ok (fold_left (fun t x => match x with
                            | VDict d => if has d "id" then aput t (py_str (dget_none d "id")) d else t
                            | _ => t
                            end) items []).

Definition new_governance : governance :=
  {| policy := DEFAULT_COMMUNITY_POLICY; accounts := []; proposals := []; invitations := []; votes := []; revision := 1 |}.

Definition load_caught (e : exn) : bool := is_os_error e || match e with ValueError m => String.eqb m "JSONDecodeError" | _ => false end.

(** [file]: what parsing the file gave, if there is one. *)
Definition _load (file : option (res pyval)) : res governance :=
  match file with
  | None => Ok new_governance
  | Some (Raise e) => if load_caught e then Ok new_governance else Raise e
  | Some (Ok (VDict value)) =>
      p ← match py_or (dget_none value "policy") (VDict []) with VDict p => Ok p | _ => Raise TypeError end;
      a ← load_table value "accounts"; q ← load_table value "proposals";
      i ← load_table value "invitations"; v ← load_table value "votes";
      revision ← catch type_or_value (r ← py_int (dget_or value "revision" (VInt 1)); Ok (Z.max 1 r)) (fun _ => Ok 1);
      Ok {| policy := dmerge DEFAULT_COMMUNITY_POLICY p; accounts := a; proposals := q; invitations := i; votes := v; revision := revision |}
  | Some (Ok _) => Ok new_governance
  end.

Definition table_list (t : table) : pyval := VList (map (fun x => VDict (snd x)) t).

Definition _persistence_snapshot (g : governance) : pyval :=
  VDict [("revision", VInt g.(revision)); ("policy", VDict g.(policy)); ("accounts", table_list g.(accounts));
         ("proposals", table_list g.(proposals)); ("invitations", table_list g.(invitations)); ("votes", table_list g.(votes))].

Section operations.
Context (env : environment).

Definition public_record_required : bool := match env.(publish_at) with Some _ => true | None => false end.

Definition _utc_now : op Z := ask env.(now_at).
Definition token : op string := ask env.(token_at).

(** ** Saving and publishing *)

Definition _save : op unit :=
  let* written := ask env.(write_at) in
  if written : bool then st_modify (fun s => {| gov := s.(gov); disk := Some (_persistence_snapshot s.(gov)); asked := s.(asked) |})
  else st_raise (OSError "community governance unavailable").

Definition _changed : op unit := change_gov next_revision ;;; _save.

Definition _append_public_record (record_type : string) (payload : res pydict) : op pyval :=
  match env.(publish_at) with
  | None => st_ret VNone
  | Some publish =>
      let* p := st_lift payload in
      let* answer := ask (fun n => publish n record_type p) in
      let* reference := st_lift answer in
      let* uri := st_lift (_reference_uri reference) in
      st_ret (VStr uri)
  end.

(** Publishing the evidence of one record: whether it succeeded. *)
Definition record_evidence (k : kind) (id record_type : string) (payload : pydict -> res pydict) : op bool :=
  if negb public_record_required then st_ret true
  else
    set_field k id "publicRecordPending" (VBool true) ;;;
    _save ;;;
    st_catch any_error
      (let* x := fetch k id in
       let* uri := _append_public_record record_type (payload x) in
       set_field k id "publicRecordRef" uri ;;;
       set_field k id "publicRecordPending" (VBool false) ;;;
       _save ;;; st_ret true)
      (fun _ => _save ;;; st_ret false).

Definition _record_proposal_version (id : string) : op bool :=
  record_evidence Proposals id "community-proposal-version" _proposal_public_payload.

Definition _record_invitation (id : string) : op bool :=
  record_evidence Invitations id "community-vote-invitation" _invitation_public_payload.

Definition _ensure_vote_commitment (vote : pydict) : op pydict :=
  if has vote "publicBallotId" && has vote "choiceSalt" && has vote "choiceCommitmentSha256" then st_ret vote
  else
    let* drawn := token in
    let ballot_id := "ballot-" +:+ drawn in
    let* salt := token in
    let* digest := st_lift (commitment ballot_id salt vote) in
    st_ret (dset (dset (dset vote "publicBallotId" (VStr ballot_id)) "choiceSalt" (VStr salt)) "choiceCommitmentSha256" (VStr digest)).

Definition _record_vote (id : string) : op bool :=
  if negb public_record_required then st_ret true
  else
    let* vote := fetch Votes id in
    let* vote := _ensure_vote_commitment vote in
    put Votes id vote ;;;
    record_evidence Votes id "community-ballot" _ballot_public_payload.

(** ** Policy *)

Definition base_snapshot (g : governance) : pydict :=
  [("revision", VInt g.(revision)); ("policy", VDict g.(policy)); ("accountCount", VInt (Z.of_nat (length g.(accounts))));
   ("proposalCount", VInt (Z.of_nat (length g.(proposals)))); ("invitationCount", VInt (Z.of_nat (length g.(invitations))));
   ("voteCount", VInt (Z.of_nat (length g.(votes)))); ("mailer", env.(mailer_status));
   ("publicRecordRequired", VBool public_record_required)].

Definition hiding (field : string) (t : table) : pyval := VList (map (fun x => VDict (dremove (snd x) field)) t).

Definition snapshot (detail : bool) : op pydict :=
  let* g := get_gov in
  st_ret (base_snapshot g ++
          if detail then [("accounts", table_list g.(accounts)); ("proposals", table_list g.(proposals));
                          ("invitations", hiding "tokenHash" g.(invitations)); ("votes", hiding "choiceSalt" g.(votes))] else []).

Definition clamp (lo hi z : Z) : Z := Z.max lo (Z.min hi z).

(** The policy that a patch makes of one. *)
Definition patched_policy (p data : pydict) : res pydict :=
  let known := dset (dset (dmerge p data) "hypeStartValue" (VFloat one)) "hypeDayOne" (VInt 1) in
  zero_day ← get_int known "hypeZeroDay" 365;
  let known := dset known "hypeZeroDay" (VInt (clamp 2 3650 zero_day)) in
  hours ← get_int known "defaultVoteWindowHours" 168;
  let known := dset known "defaultVoteWindowHours" (VInt (clamp 1 8760 hours)) in
  raw ← get_int known "minRawVotes" 3;
  let known := dset known "minRawVotes" (VInt (Z.max 1 raw)) in
  ratio ← py_float (dget_or known "minApprovalRatio" (VFloat (int_div 3 5)));
  let known := dset known "minApprovalRatio" (VFloat (fmax (int_div 1 2) (fmin one ratio))) in
  units ← py_float (dget_or known "minDurableVoteUnits" (VFloat one));
  let known := dset known "minDurableVoteUnits" (VFloat (fmax zero units)) in
  let flag k d := dset d k (VBool (truthy (dget_or d k (VBool true)))) in
  let known := flag "requireAuthenticatedAccount" (flag "requireAllIssuedWindowsClosedForBinding" known) in
  days ← get_int known "urgentProvisionalMaxDays" 30;
  Ok (dset known "urgentProvisionalMaxDays" (VInt (clamp 1 365 days))).

Definition patch_policy (data : pydict) : op pydict :=
  let* g := get_gov in
  let* known := st_lift (patched_policy g.(policy) data) in
  st_when (negb (py_eq (VDict known) (VDict g.(policy)))) (change_gov (with_policy known) ;;; _changed) ;;;
  snapshot false.

(** ** Accounts *)

Definition generation (account : pydict) : res Z := n ← get_int account "authGeneration" 1; Ok (Z.max 1 n).

Definition upsert_account (data : pydict) : op pydict :=
  let account_id := slice 128 (strip (py_str (dget_or data "id" (VStr "")))) in
  let email := slice 320 (strip (py_str (dget_or data "email" (VStr "")))) in
  if String.eqb account_id "" || negb (contains "@" email) then st_raise (ValueError "account id and valid email are required")
  else
    let* g := get_gov in
    let existing := default [] (alookup g.(accounts) account_id) in
    let* n := st_lift (generation existing) in
    let account := dmerge existing
      [("id", VStr account_id); ("email", VStr email);
       ("displayName", VStr (slice 160 (strip (py_str (dget_or data "displayName" (dget_or existing "displayName" (VStr "")))))));
       ("active", VBool (truthy (dget_or data "active" (dget_or existing "active" (VBool true)))));
       ("authGeneration", VInt n)] in
    let renewed := negb (null existing) && (negb (py_eq (dget_none account "email") (dget_none existing "email"))
                                            || negb (py_eq (dget_none account "active") (dget_none existing "active"))) in
    let account := if renewed then dset account "authGeneration" (VInt (n + 1)) else account in
    put Accounts account_id account ;;;
    _changed ;;;
    st_ret account.

(** The account of an identifier when it is active. *)
Definition active_account (g : governance) (account_id : string) : option pydict :=
  match alookup g.(accounts) account_id with
  | Some account => if null account || negb (has account "active") then None else Some account
  | None => None
  end.

Definition authenticated_account (account_id : string) : op pydict :=
  let account_id := strip account_id in
  let* g := get_gov in
  match active_account g account_id with
  | None => st_raise (PermissionError "active community account not found")
  | Some account =>
      st_when (negb (dhas account "authGeneration")) (set_field Accounts account_id "authGeneration" (VInt 1) ;;; _save) ;;;
      fetch Accounts account_id
  end.

Definition revoke_account_sessions (account_id : string) : op pydict :=
  let account_id := strip account_id in
  let* g := get_gov in
  match alookup g.(accounts) account_id with
  | None | Some [] => st_raise (KeyError account_id)
  | Some account =>
      let* n := st_lift (generation account) in
      set_field Accounts account_id "authGeneration" (VInt (n + 1)) ;;;
      _changed ;;;
      let* account := fetch Accounts account_id in
      st_ret (dremove account "email")
  end.
End operations.
