(* ===== verification/GovernanceProposals.v ===== *)
(** * Community governance: proposals (backend/community_governance.py)

    Creating and changing proposals, adopting them on a tally, applying what was
    adopted, and publishing the evidence that is still missing. *)

From S2P Require Import Prelude PyStr PyFloat PyVal PyFacts Json Sha256 JsonText CivilTime StateLogic Governance.
From Stdlib Require Import SpecFloat.

#[local] Open Scope string_scope.
#[local] Open Scope list_scope.
#[local] Open Scope Z_scope.
#[local] Open Scope st_scope.

(** [str(data.get(k, default)).strip()[:limit]]. *)
Definition field_text (data : pydict) (k default : string) (limit : nat) : pyval :=
  VStr (slice limit (strip (py_str (dget_or data k (VStr default))))).

Definition text_limits : list (string * nat) := [("title", 240%nat); ("description", 4000%nat); ("scope", 80%nat)].

(** The fields whose change makes a new version. *)
Definition material : list string := ["title"; "description"; "scope"; "change"].

Definition STATUSES : list string := ["open"; "closed"; "adopted"; "rejected"; "superseded"].

Definition touches (data : pydict) (ks : list string) : bool := existsb (dhas data) ks.

Definition is_status (proposal : pydict) (status : string) : bool := py_eq (dget_none proposal "status") (VStr status).

(** The references of the published records of a version, in order. *)
Definition published_refs (proposal_id : string) (version : Z) (t : table) : res pyval :=
  l ← filter_res (fun x => b ← of_version (VStr proposal_id) (Ok version) x; Ok (b && has x "publicRecordRef")) (map snd t);
  Ok (VList (map VStr (sort_strings (map (fun x => py_str (dget_none x "publicRecordRef")) l)))).

Definition ratification_payload (g : governance) (proposal_id : string) (proposal : pydict) (t : tally) : res pydict :=
  version ← get_int proposal "version" 1;
  invites ← published_refs proposal_id version g.(invitations);
  ballots ← published_refs proposal_id version g.(votes);
  Ok [("version", VInt 1); ("proposalId", VStr proposal_id); ("proposalVersion", VInt version);
      ("proposalRecordRef", dget_none proposal "publicRecordRef"); ("invitationRecordRefs", invites); ("ballotRecordRefs", ballots);
      ("rawVotes", VDict (raw_dict t)); ("totalRawVotes", VInt t.(t_votes)); ("approvalRatio", VFloat t.(t_approval));
      ("totalDurableVoteUnits", VFloat t.(t_total_durable)); ("evaluatedAt", VStr (_iso t.(t_at)));
      ("changeHash", match dget_none proposal "change" with VDict c => dget_none c "hash" | _ => VNone end)].

(** An invitation of the version whose window is still open. *)
Definition still_open (proposal_id : string) (version : res Z) (now : Z) (invite : pydict) : res bool :=
  b ← of_version (VStr proposal_id) version invite;
  if b && py_eq (dget_none invite "status") (VStr "sent") && has invite "expiresAt"
  then t ← (v ← dindex invite "expiresAt"; _parse_time v); Ok (now <=? t) else Ok false.

Definition adoptable (proposal : pydict) : res pydict :=
  if negb (is_status proposal "adopted") then Raise (ValueError "proposal is not adopted")
  else if has proposal "appliedAt" then Raise (ValueError "proposal change has already been applied")
  else match dget_none proposal "change" with
       | VDict change => Ok change
       | _ => Raise (ValueError "proposal has no executable change payload")
       end.

(** The proposal of an identifier; an empty one counts as none. *)
Definition find_proposal (g : governance) (proposal_id : string) : res pydict :=
  match alookup g.(proposals) proposal_id with
  | Some (f :: proposal) => Ok (f :: proposal)
  | _ => Raise (KeyError proposal_id)
  end.

Section operations.
Context (env : environment).

Definition create_proposal (data : pydict) : op pydict :=
  let* given := (if has data "id" then st_ret (py_str (dget_none data "id"))
                 else let* drawn := token env in st_ret ("proposal-" +:+ drawn)) in
  let proposal_id := slice 160 (strip given) in
  let title := field_text data "title" "" 240 in
  if negb (truthy title) then st_raise (ValueError "proposal title is required")
  else
    let* g := get_gov in
    match alookup g.(proposals) proposal_id with
    | Some _ => st_raise (ValueError "proposal id already exists")
    | None =>
        let* now := _utc_now env in
        let* expires := (if has data "provisional" then
                           st_lift (days ← policy_int g.(policy) "urgentProvisionalMaxDays"; t ← later now (days * day); Ok (VStr (_iso t)))
                         else st_ret VNone) in
        let* change := st_lift (_change_record (dget_none data "change")) in
        put Proposals proposal_id
          [("id", VStr proposal_id); ("version", VInt 1); ("title", title); ("description", field_text data "description" "" 4000);
           ("scope", field_text data "scope" "platform-change" 80); ("createdAt", VStr (_iso now)); ("status", VStr "open");
           ("provisional", VBool (has data "provisional")); ("provisionalExpiresAt", expires); ("change", change); ("appliedAt", VNone)] ;;;
        _changed env ;;;
        st_when (public_record_required env) (_record_proposal_version env proposal_id ;;; st_ret tt) ;;;
        fetch Proposals proposal_id
    end.

(** Publishing the ratification, before the proposal is adopted. *)
Definition ratify (proposal_id : string) (proposal : pydict) (t : tally) : op unit :=
  let* g := get_gov in
  let* payload := st_lift (ratification_payload g proposal_id proposal t) in
  let* uri := _append_public_record env "community-ratification" (Ok payload) in
  set_field Proposals proposal_id "ratificationRecordRef" uri.

(** What must hold before the status of a proposal becomes [status]. *)
Definition admit_status (proposal_id : string) (proposal : pydict) (status : string) : op unit :=
  if negb (existsb (String.eqb status) STATUSES) then st_raise (ValueError "invalid proposal status")
  else
    let* _ := (if negb (is_status proposal status) && existsb (String.eqb status) ["closed"; "rejected"; "superseded"] then
                 let* now := _utc_now env in
                 let* g := get_gov in
                 let* active := st_lift (filter_res (still_open proposal_id (get_int proposal "version" 1) now) (map snd g.(invitations))) in
                 if null active then st_ret tt else st_raise (ValueError "proposal status cannot close while emailed voting windows are active")
               else st_ret tt) in
    if String.eqb status "adopted" && negb (is_status proposal "adopted") then
      let* now := _utc_now env in
      let* g := get_gov in
      let* t := st_lift (proposal_tally (public_record_required env) env.(choice_order) g proposal_id now) in
      if negb (binding_ready t)
      then st_raise (ValueError ("proposal cannot be adopted until community vote is binding-ready: " +:+ join "; " t.(t_blockers)))
      else st_when (public_record_required env) (ratify proposal_id proposal t)
    else st_ret tt.

(** The status half of an update: whether it changed. *)
Definition update_status (proposal_id : string) (data : pydict) : op bool :=
  match dget data "status" with
  | None => st_ret false
  | Some v =>
      let status := lower (strip (py_str v)) in
      let* proposal := fetch Proposals proposal_id in
      admit_status proposal_id proposal status ;;;
      let* now_ := st_lift (dindex proposal "status") in
      if py_eq now_ (VStr status) then st_ret false
      else set_field Proposals proposal_id "status" (VStr status) ;;; st_ret true
  end.

(** The text half: the fields one by one, then the change, then the version. *)
Definition update_text (proposal_id : string) (data : pydict) : op bool :=
  if negb (touches data material) then st_ret false
  else
    st_iter (fun kl => match dget data (fst kl) with
                       | Some v => set_field Proposals proposal_id (fst kl) (VStr (slice (snd kl) (strip (py_str v))))
                       | None => st_ret tt
                       end) text_limits ;;;
    st_when (dhas data "change")
      (let* change := st_lift (_change_record (dget_none data "change")) in
       set_field Proposals proposal_id "change" change ;;;
       set_field Proposals proposal_id "appliedAt" VNone) ;;;
    let* proposal := fetch Proposals proposal_id in
    let* version := st_lift (get_int proposal "version" 1) in
    set_field Proposals proposal_id "version" (VInt (version + 1)) ;;;
    let* now := _utc_now env in
    set_field Proposals proposal_id "updatedAt" (VStr (_iso now)) ;;;
    st_ret true.

Definition update_proposal (proposal_id : string) (data : pydict) : op pydict :=
  let* g := get_gov in
  let* proposal := st_lift (find_proposal g proposal_id) in
  if public_record_required env && has proposal "publicRecordPending" && touches data (material ++ ["status"])
  then st_raise (RuntimeError "proposal public-record evidence is pending; reconcile before further mutation")
  else if is_status proposal "adopted" && touches data (material ++ ["status"])
          && (touches data material || negb (String.eqb (lower (strip (py_str (dget_or data "status" (VStr "adopted"))))) "adopted"))
  then st_raise (ValueError "adopted proposal is immutable; supersede it with a new proposal")
  else
    let* restated := update_status proposal_id data in
    let* reworded := update_text proposal_id data in
    st_when (restated || reworded)
      (_changed env ;;;
       st_when (touches data material && public_record_required env) (_record_proposal_version env proposal_id ;;; st_ret tt)) ;;;
    fetch Proposals proposal_id.

(** ** Adopted changes *)

Definition adopted_change (proposal_id : string) : op (pydict * pydict) :=
  let* g := get_gov in
  let* proposal := st_lift (find_proposal g proposal_id) in
  let* change := st_lift (adoptable proposal) in
  let* version := st_lift (dindex proposal "version") in
  st_ret ([("proposalId", VStr proposal_id); ("proposalVersion", version); ("change", VDict change)], change).

(** Marking the change as applied now. *)
Definition applied (proposal_id : string) (change : pydict) : op unit :=
  let* now := _utc_now env in
  set_field Proposals proposal_id "appliedAt" (VStr (_iso now)) ;;;
  set_field Proposals proposal_id "appliedChangeHash" (dget_none change "hash") ;;;
  _changed env.

Definition apply_ratified_governance_policy (proposal_id : string) : op pydict :=
  let* adopted := adopted_change proposal_id in
  let change := snd adopted in
  if negb (py_eq (dget_none change "kind") (VStr "community-governance-policy"))
  then st_raise (ValueError "proposal does not contain a community-governance-policy change")
  else
    let* payload := st_lift (match py_or (dget_none change "payload") (VDict []) with VDict d => Ok d | _ => Raise TypeError end) in
    patch_policy env payload ;;;
    applied proposal_id change ;;;
    let* g := get_gov in
    st_ret [("applied", VBool true); ("proposalId", VStr proposal_id); ("changeHash", dget_none change "hash"); ("policy", VDict g.(policy))].

Definition mark_change_applied (proposal_id : string) : op pydict :=
  let* adopted := adopted_change proposal_id in
  applied proposal_id (snd adopted) ;;;
  fetch Proposals proposal_id.

Definition bootstrap_policy_mutation_allowed : op bool :=
  let* g := get_gov in st_ret (null g.(proposals) && null g.(invitations) && null g.(votes)).

(** ** Publishing what is missing *)

(** One record of the version: published now when its evidence is missing. *)
Definition reconcile_record (k : kind) (publish : string -> op bool) (proposal_id : pyval) (version : Z) (id : string) : op Z :=
  let* x := fetch k id in
  let* mine := st_lift (of_version proposal_id (Ok version) x) in
  if mine && unpublished x then let* ok := publish id in st_ret (if ok : bool then 1 else 0) else st_ret 0.

Fixpoint sum_of {A} (f : A -> op Z) (l : list A) : op Z :=
  match l with [] => st_ret 0 | x :: l => let* n := f x in let* m := sum_of f l in st_ret (n + m) end.

Definition reconcile_proposal (proposal_id : string) : op Z :=
  let* proposal := fetch Proposals proposal_id in
  let* version := st_lift (get_int proposal "version" 1) in
  let* n := (if unpublished proposal then let* ok := _record_proposal_version env proposal_id in st_ret (if ok : bool then 1 else 0) else st_ret 0) in
  let* g := get_gov in
  let id := dget_none proposal "id" in
  let* m := sum_of (reconcile_record Invitations (_record_invitation env) id version) (map fst g.(invitations)) in
  let* k := sum_of (reconcile_record Votes (_record_vote env) id version) (map fst g.(votes)) in
  st_ret (n + m + k).

Definition pending_of (g : governance) (proposal_id : string) : res Z :=
  match alookup g.(proposals) proposal_id with
  | None => Ok 0
  | Some proposal =>
      version ← get_int proposal "version" 1;
      let missing t := (l ← filter_res (fun x => b ← of_version (dget_none proposal "id") (Ok version) x; Ok (b && unpublished x)) (map snd t);
                        Ok (Z.of_nat (length l))) in
      i ← missing g.(invitations); v ← missing g.(votes);
      Ok ((if unpublished proposal then 1 else 0) + i + v)
  end.

Definition reconcile_public_record (proposal_id : option string) : op pydict :=
  if negb (public_record_required env) then st_ret [("required", VBool false); ("published", VInt 0); ("pending", VInt 0)]
  else
    let* g := get_gov in
    let* ids := match proposal_id with
                | Some id => match alookup g.(proposals) id with Some _ => st_ret [id] | None => st_raise (KeyError id) end
                | None => st_ret (map fst g.(proposals))
                end in
    let* published := sum_of reconcile_proposal ids in
    let* g := get_gov in
    let* pending := st_lift (l ← map_res (pending_of g) ids; Ok (fold_left Z.add l 0)) in
    st_ret [("required", VBool true); ("published", VInt published); ("pending", VInt pending)].

(** ** Monitoring *)

Definition monitor_item (g : governance) (now : Z) (id : string) (proposal : pydict) : res (string * pydict) :=
  hd ← _proposal_hype g.(policy) proposal now;
  key ← dindex proposal "id";
  t ← match key with
      | VStr k => proposal_tally (public_record_required env) env.(choice_order) g k now
      | _ => Raise (KeyError (py_str key))
      end;
  created ← (v ← dindex proposal "createdAt"; _parse_time v);
  zero_day ← policy_int g.(policy) "hypeZeroDay";
  zero_at ← later created (zero_day * day);
  version ← dindex proposal "version"; title ← dindex proposal "title"; status ← dindex proposal "status";
  Ok (py_str key,
      [("id", key); ("version", version); ("title", title); ("status", status); ("hype", VFloat (fst hd)); ("durableFraction", VFloat (snd hd));
       ("hypeZeroAt", VStr (_iso zero_at)); ("totalRawVotes", VInt t.(t_votes)); ("totalDurableVoteUnits", VFloat t.(t_total_durable));
       ("bindingChangeReady", VBool (binding_ready t)); ("bindingBlockers", VList (map VStr t.(t_blockers)))]).

(** [at_]: a given moment, or the present one. *)
Definition moment (at_ : option pyval) : op Z :=
  match at_ with Some v => st_lift (_parse_time v) | None => _utc_now env end.

Definition monitor (at_ : option pyval) : op pydict :=
  let* now := moment at_ in
  let* g := get_gov in
  let* items := st_lift (map_res (fun x => monitor_item g now (fst x) (snd x)) g.(proposals)) in
  let* zero_day := st_lift (dindex g.(policy) "hypeZeroDay") in
  st_ret [("evaluatedAt", VStr (_iso now));
          ("hypeRule", VStr ("day 1 = 1.0; day " +:+ py_str zero_day +:+ " = 0.0; hype contributes zero choice-vote units"));
          ("proposals", VList (map (fun x => VDict (snd x)) (sort_by fst items)))].

Definition tally_at (proposal_id : string) (at_ : option pyval) : op pydict :=
  let* now := moment at_ in
  let* g := get_gov in
  let* t := st_lift (proposal_tally (public_record_required env) env.(choice_order) g proposal_id now) in
  st_ret (tally_dict t).
End operations.
