(* ===== verification/GovernanceVotes.v ===== *)
(** * Community governance: invitations and votes (backend/community_governance.py)

    Preparing invitations and delivering them by mail, casting a vote with the
    credential of a mail or from the session of an account, and all requests as
    one type. *)

From S2P Require Import Prelude PyStr PyFloat PyVal PyFacts Json Sha256 JsonText Persistence CivilTime StateLogic Governance GovernanceProposals.
From Stdlib Require Import SpecFloat.

#[local] Open Scope string_scope.
#[local] Open Scope list_scope.
#[local] Open Scope Z_scope.
#[local] Open Scope st_scope.

Definition token_hash_of (token : string) : string := sha256_hex (utf8 token).

Definition vote_id_of (proposal_id user_id version : pyval) : string :=
  "vote-" +:+ py_str proposal_id +:+ "-" +:+ py_str user_id +:+ "-v" +:+ py_str version.

(** The first invitation whose credential has that hash. *)
Fixpoint find_credential (token_hash : string) (t : table) : res (option (string * pydict)) :=
  match t with
  | [] => Ok None
  | (id, invite) :: t =>
      same ← compare_digest (py_str (dget_or invite "tokenHash" (VStr ""))) token_hash;
      if same : bool then Ok (Some (id, invite)) else find_credential token_hash t
  end.

Definition select_fields (d : pydict) (ks : list string) : pyval := VDict (map (fun k => (k, dget_none d k)) ks).

(** The text of the mail. *)
Definition vote_message (p proposal : pydict) (invite : pydict) (sent_at expires_at : Z) (vote_url : string) : res (string * string) :=
  title ← dindex proposal "title"; id ← dindex proposal "id"; version ← dindex proposal "version";
  hours ← dindex invite "windowHours"; zero_day ← dindex p "hypeZeroDay";
  Ok ("StageForge admin vote: " +:+ py_str title,
      "StageForge community change vote" +:+ newline +:+ newline +:+
      "Proposal: " +:+ py_str title +:+ newline +:+
      "Proposal ID: " +:+ py_str id +:+ newline +:+
      "Version: " +:+ py_str version +:+ newline +:+ newline +:+
      py_str (dget_or proposal "description" (VStr "")) +:+ newline +:+ newline +:+
      "Voting window opens: " +:+ _iso sent_at +:+ newline +:+
      "Voting window closes: " +:+ _iso expires_at +:+ newline +:+
      "Window length: " +:+ py_str hours +:+ " hours" +:+ newline +:+
      "Vote: " +:+ vote_url +:+ newline +:+ newline +:+
      "Raw vote: one account, one vote. Hype contributes zero vote units." +:+ newline +:+
      "Binding maturity is calculated from proposal age: day 1 hype=1.0, day " +:+ py_str zero_day +:+ " hype=0.0." +:+ newline).

Section operations.
Context (env : environment).

(** ** Invitations *)

(** One invitation of the list: the account must be active when it is its turn. *)
Definition prepare_invitation (proposal_id : string) (proposal : pydict) (hours : Z) (user_id : string) : op (string * string) :=
  let* g := get_gov in
  match active_account g user_id with
  | None => st_raise (ValueError ("active user account not found: " +:+ user_id))
  | Some account =>
      let* token_ := token env in
      let* drawn := token env in
      let invitation_id := "invite-" +:+ drawn in
      let* version := st_lift (v ← dindex proposal "version"; py_int v) in
      let* id := st_lift (dindex account "id") in
      let* email := st_lift (dindex account "email") in
      put Invitations invitation_id
        [("id", VStr invitation_id); ("proposalId", VStr proposal_id); ("proposalVersion", VInt version); ("userId", id); ("email", email);
         ("status", VStr "pending-send"); ("windowHours", VInt hours); ("sentAt", VNone); ("expiresAt", VNone);
         ("messageId", VStr invitation_id); ("tokenHash", VStr (token_hash_of token_))] ;;;
      st_ret (invitation_id, token_)
  end.

Fixpoint prepare_all (proposal_id : string) (proposal : pydict) (hours : Z) (user_ids : list string) : op (list (string * string)) :=
  match user_ids with
  | [] => st_ret []
  | user_id :: rest =>
      let* one_ := prepare_invitation proposal_id proposal hours user_id in
      let* others := prepare_all proposal_id proposal hours rest in
      st_ret (one_ :: others)
  end.

Definition prepare_invitations (proposal_id : string) (user_ids : list pyval) (window_hours : option pyval) : op (list (string * string)) :=
  let* g := get_gov in
  let* proposal := st_lift (find_proposal g proposal_id) in
  if negb (is_status proposal "open") then st_raise (ValueError "proposal is not open for voting")
  else
    let* hours := st_lift (v ← match window_hours with Some v => Ok v | None => dindex g.(policy) "defaultVoteWindowHours" end; py_int v) in
    let* prepared := prepare_all proposal_id proposal (clamp 1 8760 hours) (map py_str user_ids) in
    _changed env ;;;
    st_ret prepared.

(** What an attempt to deliver leaves in the invitation. *)
Definition settle (id : string) (fields : pydict) : op unit :=
  amend Invitations id (fun x => dmerge x fields) ;;;
  _changed env ;;;
  st_when (public_record_required env) (_record_invitation env id ;;; st_ret tt).

Definition deliver (id token_ base_url : string) : op pydict :=
  let* invite := fetch Invitations id in
  let* g := get_gov in
  let* proposal := st_lift (v ← dindex invite "proposalId"; p ← get_by g.(proposals) v;
                            match p with Some p => Ok p | None => Raise (KeyError (py_str v)) end) in
  let* account := st_lift (v ← dindex invite "userId"; a ← get_by g.(accounts) v;
                           match a with Some a => Ok a | None => Raise (KeyError (py_str v)) end) in
  let vote_url := rstrip_char "/"%char base_url +:+ "/vote.html?token=" +:+ token_ in
  let* sent_at := _utc_now env in
  let* expires_at := st_lift (h ← (v ← dindex invite "windowHours"; py_int v); later sent_at (h * (3600 * second))) in
  let* message := st_lift (vote_message g.(policy) proposal invite sent_at expires_at vote_url) in
  st_catch any_error
    (let* email := st_lift (dindex account "email") in
     let* message_id := st_lift (dindex invite "messageId") in
     let* answer := ask (fun n => env.(send_at) n (py_str email) (fst message) (snd message) (py_str message_id)) in
     let* delivery := st_lift answer in
     settle id [("status", VStr "sent"); ("sentAt", VStr (_iso sent_at)); ("expiresAt", VStr (_iso expires_at));
                ("deliveryAcceptedAt", dget_none delivery "acceptedAt"); ("deliveryMode", dget_none delivery "mode")] ;;;
     let* current := fetch Invitations id in
     st_ret (dremove current "tokenHash"))
    (fun e =>
       settle id [("status", VStr "delivery-failed"); ("deliveryError", VStr (slice 500 (error_text e)))] ;;;
       st_ret [("id", VStr id); ("status", VStr "delivery-failed"); ("error", VStr (error_text e))]).

Fixpoint deliver_all (base_url : string) (prepared : list (string * string)) : op (list pydict) :=
  match prepared with
  | [] => st_ret []
  | (id, token_) :: rest =>
      let* r := deliver id token_ base_url in
      let* rs := deliver_all base_url rest in
      st_ret (r :: rs)
  end.

Definition issue_vote_emails (proposal_id : string) (user_ids : list pyval) (window_hours : option pyval) (base_url : string) : op pydict :=
  let* prepared := prepare_invitations proposal_id user_ids window_hours in
  let* results := deliver_all base_url prepared in
  st_ret [("proposalId", VStr proposal_id); ("issued", VList (map VDict results))].

(** ** Voting *)

Definition vote_context (token_ : string) : op pydict :=
  let* now := _utc_now env in
  let* g := get_gov in
  let* found := st_lift (find_credential (token_hash_of token_) g.(invitations)) in
  match found with
  | None => st_raise (PermissionError "invalid vote credential")
  | Some (_, invite) =>
      let* proposal := st_lift (v ← dindex invite "proposalId"; get_by g.(proposals) v) in
      match proposal with
      | None | Some [] => st_raise (PermissionError "proposal is unavailable")
      | Some proposal =>
          let* hd := st_lift (_proposal_hype g.(policy) proposal now) in
          st_ret [("proposal", select_fields proposal ["id"; "version"; "title"; "description"; "scope"; "createdAt"; "status"]);
                  ("invitation", select_fields invite ["id"; "proposalVersion"; "userId"; "status"; "sentAt"; "expiresAt"; "windowHours"]);
                  ("hype", VFloat (fst hd)); ("durableFraction", VFloat (snd hd)); ("hypeVoteUnits", VFloat zero);
                  ("requiresAuthenticatedAccount", VBool (truthy (dget_or g.(policy) "requireAuthenticatedAccount" (VBool true))))]
      end
  end.

Definition normal_choice (choice : string) : res string :=
  let c := lower (strip choice) in
  if existsb (String.eqb c) CHOICES then Ok c else Raise (ValueError "choice must be yes, no, or abstain").

(** Storing a vote of an invitation, which it uses up. *)
Definition store_vote (invitation_key vote_id : string) (vote : pydict) : op pydict :=
  let* vote := _ensure_vote_commitment env vote in
  put Votes vote_id vote ;;;
  set_field Invitations invitation_key "status" (VStr "voted") ;;;
  let* cast_at := st_lift (dindex vote "castAt") in
  set_field Invitations invitation_key "votedAt" cast_at ;;;
  _changed env ;;;
  st_when (public_record_required env) (_record_vote env vote_id ;;; st_ret tt) ;;;
  fetch Votes vote_id.

Definition invited_vote_id (invite : pydict) (user_id : pyval) : res string :=
  proposal_id ← dindex invite "proposalId"; version ← dindex invite "proposalVersion"; Ok (vote_id_of proposal_id user_id version).

(** The vote of an invitation for a choice at a moment. *)
Definition make_vote (vote_id : string) (invite : pydict) (user_id : pyval) (choice : string) (now : Z) (hype durable : float) : res pydict :=
  proposal_id ← dindex invite "proposalId"; version ← dindex invite "proposalVersion"; id ← dindex invite "id";
  Ok [("id", VStr vote_id); ("proposalId", proposal_id); ("proposalVersion", version); ("invitationId", id); ("userId", user_id);
      ("choice", VStr choice); ("castAt", VStr (_iso now)); ("hypeAtCast", VFloat hype); ("durableFractionAtCast", VFloat durable);
      ("rawVoteUnits", VFloat one); ("hypeVoteUnits", VFloat zero)].

(** Voting by an invitation, unless a vote of that identifier is stored. *)
Definition vote_by_invitation (key : string) (invite proposal : pydict) (user_id : pyval) (choice : string) (now : Z) (method : pydict) : op pydict :=
  let* g := get_gov in
  let* vote_id := st_lift (invited_vote_id invite user_id) in
  match alookup g.(votes) vote_id with
  | Some _ => st_raise (PermissionError "this account already voted on this proposal version")
  | None =>
      let* hd := st_lift (_proposal_hype g.(policy) proposal now) in
      let* vote := st_lift (make_vote vote_id invite user_id choice now (fst hd) (snd hd)) in
      store_vote key vote_id (vote ++ method)
  end.

(** The checks of an invitation that was mailed, up to its window: the proposal it is for. *)
Definition usable_invitation (g : governance) (invite : pydict) : res pydict :=
  known ← in_set (dget_none invite "status") ["sent"; "voted"];
  if negb known then Raise (PermissionError "vote invitation is not active")
  else if py_eq (dget_none invite "status") (VStr "voted") then Raise (PermissionError "vote credential has already been used")
  else
    let changed := Raise (PermissionError "proposal version changed after this email was issued") in
    proposal ← (v ← dindex invite "proposalId"; get_by g.(proposals) v);
    match proposal with
    | None | Some [] => changed
    | Some proposal =>
        v ← get_int proposal "version" 1; w ← get_int invite "proposalVersion" 0;
        if negb (v =? w) then changed
        else if negb (is_status proposal "open") then Raise (PermissionError "proposal is no longer open")
        else Ok proposal
    end.

Definition cast_vote (token_ choice : string) (authenticated_user_id : option string) (allow_token_only : bool) : op pydict :=
  let* choice_n := st_lift (normal_choice choice) in
  let* now := _utc_now env in
  let* g := get_gov in
  let* found := st_lift (find_credential (token_hash_of token_) g.(invitations)) in
  match found with
  | None | Some (_, []) => st_raise (PermissionError "invalid vote credential")
  | Some (key, invite) =>
      let* proposal := st_lift (usable_invitation g invite) in
      let* sent_at := st_lift (v ← dindex invite "sentAt"; _parse_time v) in
      let* expires_at := st_lift (v ← dindex invite "expiresAt"; _parse_time v) in
      if (now <? sent_at) || (expires_at <? now) then
        set_field Invitations key "status" (VStr "expired") ;;;
        _changed env ;;;
        st_raise (PermissionError "voting window has expired")
      else
        let require_auth := truthy (dget_or g.(policy) "requireAuthenticatedAccount" (VBool true)) && negb allow_token_only in
        let mismatch := st_raise (PermissionError "authenticated user account does not match the emailed invitation") in
        let user := default "" authenticated_user_id in
        if require_auth && String.eqb user "" then mismatch
        else
          let* user_id := st_lift (dindex invite "userId") in
          if require_auth && negb (py_eq (VStr user) user_id) then mismatch
          else vote_by_invitation key invite proposal user_id choice_n now []
  end.

(** The invitations of an account that are open now. *)
Definition open_invitations (g : governance) (proposal : pydict) (account_id : string) (version now : Z) : res table :=
  filter_res (fun x =>
    let invite := snd x in
    if negb (py_eq (dget_none invite "proposalId") (dget_none proposal "id")) || negb (py_eq (dget_none invite "userId") (VStr account_id))
    then Ok false
    else
      v ← get_int invite "proposalVersion" 0;
      if negb (v =? version) || negb (py_eq (dget_none invite "status") (VStr "sent")) || negb (has invite "sentAt") || negb (has invite "expiresAt")
      then Ok false
      else in_window now invite) g.(invitations).

Definition cast_account_vote (proposal_id choice account_id : string) : op pydict :=
  let account_id := strip account_id in
  let* choice_n := st_lift (normal_choice choice) in
  let* now := _utc_now env in
  let* g := get_gov in
  match active_account g account_id with
  | None => st_raise (PermissionError "active community account not found")
  | Some _ =>
      match alookup g.(proposals) proposal_id with
      | None | Some [] => st_raise (PermissionError "proposal is not open")
      | Some proposal =>
          if negb (is_status proposal "open") then st_raise (PermissionError "proposal is not open")
          else
            let* version := st_lift (get_int proposal "version" 1) in
            let* active := st_lift (open_invitations g proposal account_id version now) in
            match active with
            | [] => st_raise (PermissionError "no active voting invitation exists for this account and proposal version")
            | [(key, invite)] =>
                vote_by_invitation key invite proposal (VStr account_id) choice_n now [("authMethod", VStr "account-session")]
            | _ => st_raise (PermissionError "multiple active voting invitations exist for this account and proposal version")
            end
      end
  end.

(** ** Every request *)

Inductive request :=
  | PatchPolicy (data : pydict)
  | UpsertAccount (data : pydict)
  | AuthenticatedAccount (account_id : string)
  | RevokeSessions (account_id : string)
  | CreateProposal (data : pydict)
  | UpdateProposal (proposal_id : string) (data : pydict)
  | PrepareInvitations (proposal_id : string) (user_ids : list pyval) (window_hours : option pyval)
  | Deliver (id token_ base_url : string)
  | CastVote (token_ choice : string) (authenticated_user_id : option string) (allow_token_only : bool)
  | CastAccountVote (proposal_id choice account_id : string)
  | Reconcile (proposal_id : option string)
  | ApplyPolicy (proposal_id : string)
  | MarkApplied (proposal_id : string)
  | Look (token_ : string)
  | Monitor (at_ : option pyval)
  | TallyAt (proposal_id : string) (at_ : option pyval)
  | Snapshot (detail : bool).

Definition run (r : request) : op unit :=
  let drop {A} (m : op A) : op unit := let* _ := m in st_ret tt in
  match r with
  | PatchPolicy data => drop (patch_policy env data)
  | UpsertAccount data => drop (upsert_account env data)
  | AuthenticatedAccount a => drop (authenticated_account env a)
  | RevokeSessions a => drop (revoke_account_sessions env a)
  | CreateProposal data => drop (create_proposal env data)
  | UpdateProposal p data => drop (update_proposal env p data)
  | PrepareInvitations p users hours => drop (prepare_invitations p users hours)
  | Deliver id t url => drop (deliver id t url)
  | CastVote t c user only => drop (cast_vote t c user only)
  | CastAccountVote p c a => drop (cast_account_vote p c a)
  | Reconcile p => drop (reconcile_public_record env p)
  | ApplyPolicy p => drop (apply_ratified_governance_policy env p)
  | MarkApplied p => drop (mark_change_applied env p)
  | Look t => drop (vote_context t)
  | Monitor at_ => drop (monitor env at_)
  | TallyAt p at_ => drop (tally_at env p at_)
  | Snapshot detail => drop (snapshot env detail)
  end.

Definition run_all (rs : list request) (s : community) : community := fold_left (fun s r => fst (run r s)) rs s.
End operations.
