(* ===== verification/GovernanceTypes.v ===== *)
(** * The governance document stays well-formed (backend/community_governance.py)

    Schemas for the records of the document: every operation, whatever the
    environment answers, keeps every record in its schema and the policy in its
    bounds. On such a document the tally of any proposal can always be made. *)

From S2P Require Import Prelude PyStr PyFloat PyVal PyFacts StateLogic Json Sha256 JsonText PersistenceChain CivilTime Governance GovernanceProposals GovernanceVotes.
From Stdlib Require Import SpecFloat.

#[local] Open Scope string_scope.
#[local] Open Scope list_scope.
#[local] Open Scope Z_scope.
#[local] Open Scope st_scope.

(** ** Moments *)

Lemma parse_iso t : 0 <= t < max_moment -> _parse_time (VStr (_iso t)) = Ok t.
Proof.
  intros Ht. destruct (isoformat_split t) as (c & l & Hc & Hl).
  assert (chars (_iso t) = (c :: l) ++ ["Z"%char]) as Hz.
  { unfold _iso. rewrite chars_of_chars, Hl, length_app. change (length (chars "+00:00")) with 6%nat.
    replace (length (c :: l) + 6 - 6)%nat with (length (c :: l)) by lia. by rewrite take_app_length. }
  assert (is_space c = false) as Hs.
  { destruct (is_space c) eqn:E; [|done]. revert E Hc. unfold is_space, is_digit, in_range. lia. }
  unfold _parse_time. cbn [py_str]. rewrite (strip_same (_iso t) c (l ++ ["Z"%char]) (c :: l) "Z"%char) by done.
  assert (ends_with "Z" (_iso t) = true) as ->.
  { unfold ends_with. rewrite Hz, length_app. change (length (chars "Z")) with 1%nat. cbn [length].
    replace (S (length l) + 1 - 1)%nat with (length (c :: l)) by (cbn; lia). by rewrite drop_app_length. }
  assert (slice (String.length (_iso t) - 1) (_iso t) +:+ "+00:00" = isoformat t) as ->; [|by apply fromisoformat_isoformat].
  apply chars_inj. rewrite chars_app. unfold slice. rewrite chars_of_chars, Hl, <- length_chars, Hz, length_app. cbn [length].
  replace (S (length l) + 1 - 1)%nat with (length (c :: l)) by (cbn; lia). by rewrite take_app_length.
Qed.

(** ** Schemas *)

Definition is_text (v : pyval) : Prop := exists s, v = VStr s.
Definition is_flag (v : pyval) : Prop := exists b, v = VBool b.
Definition one_of (l : list string) (v : pyval) : Prop := exists s, v = VStr s /\ s ∈ l.
Definition the (s : string) (v : pyval) : Prop := v = VStr s.
Definition at_least (n : Z) (v : pyval) : Prop := exists z, v = VInt z /\ n <= z.
Definition between (n m : Z) (v : pyval) : Prop := exists z, v = VInt z /\ n <= z <= m.
Definition is_moment (v : pyval) : Prop := exists t, v = VStr (_iso t) /\ 0 <= t < max_moment.
Definition maybe (P : pyval -> Prop) (v : pyval) : Prop := v = VNone \/ P v.
Definition is_change (v : pyval) : Prop := exists kind payload hash, v = VDict [("kind", VStr kind); ("payload", VDict payload); ("hash", VStr hash)].

Definition schema := list (string * (pyval -> Prop)).

Definition fits (sc : schema) (x : pydict) : Prop :=
  Forall (fun f => match dget x (fst f) with Some v => snd f v | None => False end) sc.

Definition INVITE_STATUSES : list string := ["pending-send"; "sent"; "delivery-failed"; "voted"; "expired"].

(** The schema of the records of a table, under their key. *)
Definition schema_of (k : kind) (key : string) : schema :=
  match k with
  | Accounts => [("id", the key); ("email", is_text); ("displayName", is_text); ("active", is_flag); ("authGeneration", at_least 1)]
  | Proposals =>
      [("id", the key); ("version", at_least 1); ("title", is_text); ("description", is_text); ("scope", is_text); ("createdAt", is_moment);
       ("status", one_of STATUSES); ("provisional", is_flag); ("change", maybe is_change); ("appliedAt", maybe is_moment)]
  | Invitations =>
      [("id", the key); ("proposalId", is_text); ("proposalVersion", at_least 1); ("userId", is_text); ("email", is_text);
       ("status", one_of INVITE_STATUSES); ("windowHours", between 1 8760); ("sentAt", maybe is_moment); ("expiresAt", maybe is_moment);
       ("messageId", is_text); ("tokenHash", is_text)]
  | Votes =>
      [("id", the key); ("proposalId", is_text); ("proposalVersion", at_least 1); ("invitationId", is_text); ("userId", is_text);
       ("choice", one_of CHOICES); ("castAt", is_moment)]
  end.

Definition ratio_bounds : float * float := (int_div 1 2, one).

Definition policy_schema : schema :=
  [("hypeZeroDay", between 2 3650); ("defaultVoteWindowHours", between 1 8760); ("minRawVotes", at_least 1);
   ("minApprovalRatio", fun v => exists x, v = VFloat x /\ within (fst ratio_bounds) (snd ratio_bounds) x);
   ("minDurableVoteUnits", fun v => exists x, v = VFloat x /\ fle zero x = true);
   ("requireAllIssuedWindowsClosedForBinding", is_flag); ("requireAuthenticatedAccount", is_flag);
   ("urgentProvisionalMaxDays", between 1 365)].

Record well_formed (g : governance) : Prop := {
  wf_policy : fits policy_schema g.(policy);
  wf_tables : forall k, Forall (fun e => fits (schema_of k (fst e)) (snd e)) (table_of k g);
  wf_revision : 1 <= g.(revision);
}.

(** ** Rules *)

Lemma fits_get sc x k P : fits sc x -> (k, P) ∈ sc -> exists v, dget x k = Some v /\ P v.
Proof.
  intros H Hin. unfold fits in H. rewrite Forall_forall in H. specialize (H _ Hin). cbn in H. destruct (dget x k) as [v|]; [by eauto|done].
Qed.

(** The fields of that name accept the value. *)
Definition accepts (sc : schema) (k : string) (v : pyval) : Prop := Forall (fun f => fst f = k -> snd f v) sc.

Lemma fits_dset sc x k v : fits sc x -> accepts sc k v -> fits sc (dset x k v).
Proof.
  unfold fits, accepts. intros H Hv. apply Forall_forall. intros [k' P] Hin. rewrite Forall_forall in H, Hv. specialize (H _ Hin). cbn in *.
  rewrite dget_dset. destruct (String.eqb_spec k' k) as [->|]; [|done]. by apply (Hv _ Hin).
Qed.

Lemma fits_dmerge sc x e : NoDup (dkeys e) -> fits sc x -> Forall (fun kv => accepts sc (fst kv) (snd kv)) e -> fits sc (dmerge x e).
Proof.
  intros _ Hx He. revert x Hx. induction He as [|[k v] e Hk He IH]; intros x Hx; [done|].
  rewrite dget_dmerge_cons. apply IH. by apply fits_dset.
Qed.

Lemma fits_more sc x e : fits sc x -> fits sc (x ++ e).
Proof.
  intros H. eapply Forall_impl; [exact H|]. intros [k P]. cbn. assert (forall v, dget x k = Some v -> dget (x ++ e) k = Some v) as Hx.
  { clear. intros v. induction x as [|[k' v'] x IH]; [done|]. cbn. destruct (String.eqb k k'); [done|apply IH]. }
  destruct (dget x k) as [v|]; [|done]. by rewrite (Hx v eq_refl).
Qed.

(** Decide [accepts] and [fits] on concrete names. *)
Ltac schema_tac :=
  repeat match goal with
  | |- fits _ (_ :: _) => unfold fits
  | |- accepts _ _ _ => unfold accepts
  | |- Forall _ (schema_of _ _) => cbn [schema_of]
  | |- Forall _ policy_schema => unfold policy_schema
  | |- Forall _ (_ :: _) => constructor
  | |- Forall _ [] => constructor
  end; cbn [fst snd dget String.eqb Ascii.eqb Bool.eqb];
  try match goal with
  | |- ?a = ?b -> _ => intros Hname; try discriminate Hname; clear Hname
  end.

Lemma index_fits sc x k v P : fits sc x -> (k, P) ∈ sc -> dindex x k = Ok v -> P v.
Proof. intros Hx Hin. destruct (fits_get _ _ _ _ Hx Hin) as (v' & Hv & Ht). unfold dindex. rewrite Hv. by intros [= <-]. Qed.

Ltac in_schema := cbn [schema_of]; repeat first [left | right].
Tactic Notation "field" hyp(Hx) hyp(H) "as" simple_intropattern(pat) :=
  match type of H with dindex _ ?k = Ok _ => pose proof (index_fits _ _ k _ _ Hx ltac:(in_schema) H) as pat end.

(** One goal for each field of a schema. *)
Ltac each_field :=
  unfold fits; cbn [schema_of];
  repeat match goal with |- Forall _ (_ :: _) => apply List.Forall_cons | |- Forall _ [] => apply List.Forall_nil end;
  cbn [fst snd].

Lemma aput_entries {A} (P : string * A -> Prop) l k a : P (k, a) -> Forall P l -> Forall P (aput l k a).
Proof.
  intros Ha. induction 1 as [|[k' a'] l H Hl IH]; cbn; [by repeat constructor|].
  destruct (String.eqb_spec k k') as [<-|]; by constructor.
Qed.

Lemma alookup_entry {A} (P : string * A -> Prop) l k a : Forall P l -> alookup l k = Some a -> P (k, a).
Proof.
  induction 1 as [|[k' a'] l H Hl IH]; cbn; [done|]. destruct (String.eqb_spec k k') as [<-|]; [by intros [= <-]|done].
Qed.

Lemma table_of_with k k' t g : table_of k (with_table k' t g) = if decide (k = k') then t else table_of k g.
Proof. by destruct k, k'. Qed.

(** ** Every operation keeps the document well-formed *)

Definition good (s : community) : Prop := well_formed s.(gov).

Lemma put_good k id x : fits (schema_of k id) x -> keeps good (put k id x).
Proof.
  intros Hx. apply keeps_modify. intros s [Hp Ht Hr]. split; [done| |done]. intros k'. cbn [gov]. rewrite table_of_with.
  destruct (decide (k' = k)) as [->|]; [|apply Ht]. by apply aput_entries.
Qed.

Lemma amend_good k id f : (forall x, fits (schema_of k id) x -> fits (schema_of k id) (f x)) -> keeps good (amend k id f).
Proof.
  intros Hf. apply keeps_modify. intros s [Hp Ht Hr]. cbn [gov]. destruct (alookup _ id) as [x|] eqn:E; [|by split].
  split; [done| |done]. intros k'. cbn [gov]. rewrite table_of_with. destruct (decide (k' = k)) as [->|]; [|apply Ht].
  apply aput_entries; [|apply Ht]. apply Hf. by apply (alookup_entry _ _ _ _ (Ht k) E).
Qed.

Lemma set_field_good k id field v : accepts (schema_of k id) field v -> keeps good (set_field k id field v).
Proof. intros Hv. apply amend_good. intros x Hx. by apply fits_dset. Qed.

Lemma fetch_good k id : keeps good (fetch k id).
Proof. by intros s. Qed.

Lemma get_gov_good : keeps good get_gov.
Proof. by intros s. Qed.

Lemma ask_good {A} (answer : nat -> A) : keeps good (ask answer).
Proof. by intros s. Qed.

(** What [fetch] and [get_gov] find on a well-formed document. *)
Lemma bind_get_gov {A} (k : governance -> op A) : (forall g, well_formed g -> keeps good (k g)) -> keeps good (st_bind get_gov k).
Proof. intros H s Hs. by apply (H s.(gov)). Qed.

Lemma bind_fetch {A} k id (f : pydict -> op A) :
  (forall x, fits (schema_of k id) x -> keeps good (f x)) -> keeps good (st_bind (fetch k id) f).
Proof.
  intros H s Hs. unfold st_bind, fetch. destruct (alookup _ id) as [x|] eqn:E; [|done]. apply H; [|done].
  by apply (alookup_entry _ _ _ _ (wf_tables _ Hs k) E).
Qed.

(** A reading of the clock. *)
Lemma bind_ask {A B} (P : A -> Prop) (answer : nat -> A) (k : A -> op B) :
  (forall n, P (answer n)) -> (forall a, P a -> keeps good (k a)) -> keeps good (st_bind (ask answer) k).
Proof. intros Ha H s Hs. unfold st_bind, ask. by apply H. Qed.

Lemma found g k id x : well_formed g -> alookup (table_of k g) id = Some x -> fits (schema_of k id) x.
Proof. intros [_ Ht _] H. by apply (alookup_entry _ _ _ _ (Ht k) H). Qed.

#[local] Hint Resolve fetch_good get_gov_good ask_good keeps_catch : keeps.

Section operations.
Context (env : environment) (clock : forall n, 0 <= env.(now_at) n < max_moment).

Lemma save_good : keeps good (_save env).
Proof. unfold _save. keeps_tac. by destruct H. Qed.
#[local] Hint Resolve save_good : keeps.

Lemma changed_good : keeps good (_changed env).
Proof.
  unfold _changed. apply keeps_bind; [|intros _; apply save_good]. apply keeps_modify. intros s [Hp Ht Hr]. split; [done|by intros []; apply Ht|].
  cbn. lia.
Qed.
#[local] Hint Resolve changed_good : keeps.

Lemma append_good t payload : keeps good (_append_public_record env t payload).
Proof. unfold _append_public_record. keeps_tac. Qed.
#[local] Hint Resolve append_good : keeps.

(** Evidence of a record is beside its schema. *)
Lemma evidence_accepts k id f v : f ∈ ["publicRecordPending"; "publicRecordRef"; "ratificationRecordRef"; "deliveryError"; "deliveryAcceptedAt"; "deliveryMode"; "votedAt"; "updatedAt"; "appliedChangeHash"] ->
  accepts (schema_of k id) f v.
Proof. intros H. repeat (apply elem_of_cons in H as [->|H]; [destruct k; schema_tac|]). by apply elem_of_nil in H. Qed.

Ltac beside := apply set_field_good, evidence_accepts, (bool_decide_unpack _); vm_compute; exact I.

Lemma record_evidence_good k id t payload : keeps good (record_evidence env k id t payload).
Proof.
  unfold record_evidence. destruct (negb _); [apply keeps_ret|]. apply keeps_bind; [beside|intros _]. apply keeps_bind; [apply save_good|intros _].
  apply keeps_catch; [|intros e; keeps_tac]. apply keeps_bind; [apply fetch_good|intros x]. apply keeps_bind; [apply append_good|intros uri].
  apply keeps_bind; [beside|intros _]. apply keeps_bind; [beside|intros _]. keeps_tac.
Qed.
#[local] Hint Resolve record_evidence_good : keeps.

Lemma bind_now {A} (k : Z -> op A) : (forall t, 0 <= t < max_moment -> keeps good (k t)) -> keeps good (st_bind (_utc_now env) k).
Proof using clock. apply bind_ask, clock. Qed.

Lemma commitment_fits id vote : fits (schema_of Votes id) vote -> yields (_ensure_vote_commitment env vote) (fits (schema_of Votes id)).
Proof.
  intros Hv. unfold _ensure_vote_commitment. destruct (_ && _); [by apply yields_ret|].
  apply yields_bind. intros drawn. apply yields_bind. intros salt. apply yields_lift_bind. intros digest _. apply yields_ret.
  repeat (apply fits_dset; [|schema_tac]). done.
Qed.

Lemma commitment_good vote : keeps good (_ensure_vote_commitment env vote).
Proof. unfold _ensure_vote_commitment, token. keeps_tac. Qed.

Lemma record_vote_good id : keeps good (_record_vote env id).
Proof.
  unfold _record_vote. destruct (negb _); [apply keeps_ret|]. apply bind_fetch. intros vote Hv.
  eapply keeps_yields_bind; [apply commitment_good|by apply commitment_fits|]. intros vote' Hv'.
  apply keeps_bind; [by apply put_good|]. intros _. apply record_evidence_good.
Qed.
#[local] Hint Resolve record_vote_good : keeps.

(** *** Policy and accounts *)

Lemma patched_policy_fits p data q : patched_policy p data = Ok q -> fits policy_schema q.
Proof.
  unfold patched_policy. intros H. pyinv. subst q. unfold policy_schema. each_field; rewrite !dget_dset;
    cbn [String.eqb Ascii.eqb Bool.eqb]; cbv beta.
  - eexists. split; [done|]. unfold clamp. lia.
  - eexists. split; [done|]. unfold clamp. lia.
  - eexists. split; [done|]. lia.
  - eexists. split; [done|]. by apply clamp_within.
  - eexists. split; [done|]. unfold fmax. destruct (flt zero _) eqn:E; [by apply flt_fle|done].
  - by eexists.
  - by eexists.
  - eexists. split; [done|]. unfold clamp. lia.
Qed.

Lemma patch_policy_good data : keeps good (patch_policy env data).
Proof.
  unfold patch_policy. apply bind_get_gov. intros g Hg. apply keeps_lift_bind. intros q Hq%patched_policy_fits.
  apply keeps_bind; [|intros _; unfold snapshot; apply keeps_bind; [apply get_gov_good|intros; apply keeps_ret]].
  apply keeps_when, keeps_bind; [|intros _; apply changed_good]. apply keeps_modify. intros s [_ Ht Hr]. by split; [|intros []; apply Ht|].
Qed.
#[local] Hint Resolve patch_policy_good : keeps.

Lemma upsert_account_good data : keeps good (upsert_account env data).
Proof.
  unfold upsert_account. destruct (_ || _); [apply keeps_raise|]. apply bind_get_gov. intros g Hg. apply keeps_lift_bind. intros n Hn.
  unfold generation in Hn. pyinv. apply keeps_bind; [|intros _; apply keeps_bind; [apply changed_good|intros; apply keeps_ret]]. apply put_good.
  match goal with |- fits _ (if ?c then dset ?a _ _ else _) => assert (fits (schema_of Accounts (slice 128 (strip (py_str (dget_or data "id" (VStr "")))))) a) as Ha end.
  { each_field; rewrite dmerge_get by nodup_keys; cbn [dget String.eqb Ascii.eqb Bool.eqb].
    - done.
    - by eexists.
    - by eexists.
    - by eexists.
    - eexists. split; [done|]. lia. }
  case_match; [|done]. apply fits_dset; [done|]. schema_tac. eexists. split; [done|]. lia.
Qed.

Lemma authenticated_account_good a : keeps good (authenticated_account env a).
Proof.
  unfold authenticated_account. apply bind_get_gov. intros g Hg. case_match; [|apply keeps_raise].
  apply keeps_bind; [|intros _; apply fetch_good]. apply keeps_when, keeps_bind; [|intros _; apply save_good].
  apply set_field_good. schema_tac. by exists 1.
Qed.

Lemma revoke_good a : keeps good (revoke_account_sessions env a).
Proof.
  unfold revoke_account_sessions. apply bind_get_gov. intros g Hg. case_match; [|apply keeps_raise]. case_match; [apply keeps_raise|].
  apply keeps_lift_bind. intros n Hn. unfold generation in Hn. pyinv. apply keeps_bind; [|intros _; keeps_tac].
  apply set_field_good. schema_tac. eexists. split; [done|]. lia.
Qed.

(** *** Proposals *)

Lemma change_fits v c : _change_record v = Ok c -> maybe is_change c.
Proof.
  unfold _change_record. destruct v; try done; [by intros [= <-]; left|]. destruct (dget_none d "payload"); try done.
  destruct (String.eqb _ ""); [done|]. intros [= <-]. right. by do 3 eexists.
Qed.

Lemma later_moment t us t' : later t us = Ok t' -> 0 <= t' < max_moment.
Proof. unfold later. destruct (_ && _) eqn:E; [|done]. intros [= <-]. apply andb_prop in E as [?%Z.leb_le ?%Z.ltb_lt]. lia. Qed.

Lemma create_proposal_good data : keeps good (create_proposal env data).
Proof using clock.
  unfold create_proposal. apply keeps_bind; [unfold token; keeps_tac|intros given]. cbv zeta. case_match; [apply keeps_raise|].
  apply bind_get_gov. intros g Hg. case_match; [apply keeps_raise|]. apply bind_now. intros now Hnow.
  apply keeps_bind; [keeps_tac|intros expires]. apply keeps_lift_bind. intros change Hc%change_fits.
  apply keeps_bind; [apply put_good|intros _; keeps_tac].
  each_field; cbn [dget String.eqb Ascii.eqb Bool.eqb]; try done; try (by eexists).
  - eexists. split; [done|]. by left.
  - by left.
Qed.

Lemma ratify_good id proposal t : keeps good (ratify env id proposal t).
Proof. unfold ratify. apply bind_get_gov. intros g Hg. apply keeps_lift_bind. intros payload _. apply keeps_bind; [apply append_good|intros uri; beside]. Qed.
#[local] Hint Resolve ratify_good : keeps.

Lemma admit_status_good id proposal status : keeps good (admit_status env id proposal status).
Proof.
  unfold admit_status. destruct (negb _); [apply keeps_raise|]. apply keeps_bind.
  - destruct (_ && _); [|apply keeps_ret]. unfold _utc_now. keeps_tac.
  - intros _. destruct (_ && _); [|apply keeps_ret]. unfold _utc_now. keeps_tac.
Qed.

Lemma update_status_good id data : keeps good (update_status env id data).
Proof.
  unfold update_status. destruct (dget data "status") as [v|]; [|apply keeps_ret]. apply bind_fetch. intros x Hx.
  set (status := lower (strip (py_str v))). destruct (existsb (String.eqb status) STATUSES) eqn:Es.
  2:{ unfold admit_status. rewrite Es. by intros s Hs. }
  apply existsb_exists in Es as (status' & Hin & Heq%String.eqb_eq). subst status'. apply keeps_bind; [apply admit_status_good|].
  intros _. apply keeps_lift_bind. intros v' _. destruct (py_eq v' _); [apply keeps_ret|]. apply keeps_bind; [|intros _; apply keeps_ret].
  apply set_field_good. schema_tac. exists status. split; [done|]. by apply list_elem_of_In.
Qed.

Lemma update_text_good id data : keeps good (update_text env id data).
Proof using clock.
  unfold update_text. destruct (negb _); [apply keeps_ret|]. apply keeps_bind.
  { apply keeps_iter. intros [field limit] Hin. cbn [fst snd]. destruct (dget data field) as [v|]; [|apply keeps_ret].
    apply set_field_good. unfold text_limits in Hin. repeat (apply elem_of_cons in Hin as [[= -> ->]|Hin]; [schema_tac; by eexists|]).
    by apply elem_of_nil in Hin. }
  intros _. apply keeps_bind.
  { apply keeps_when, keeps_lift_bind. intros change Hc%change_fits. apply keeps_bind; [apply set_field_good; schema_tac; done|].
    intros _. apply set_field_good. schema_tac. by left. }
  intros _. apply bind_fetch. intros x Hx. apply keeps_lift_bind. intros v Hv.
  destruct (fits_get _ _ "version" _ Hx ltac:(by right; left)) as (v0 & Hv0 & z & -> & Hz).
  unfold get_int, dget_or in Hv. rewrite Hv0 in Hv. cbn in Hv. pyinv. subst z.
  apply keeps_bind; [apply set_field_good; schema_tac; eexists; split; [done|lia]|]. intros _.
  unfold _utc_now. apply keeps_bind; [apply ask_good|intros t]. apply keeps_bind; [beside|intros _; apply keeps_ret].
Qed.

Lemma update_proposal_good id data : keeps good (update_proposal env id data).
Proof using clock.
  unfold update_proposal. apply bind_get_gov. intros g Hg. apply keeps_lift_bind. intros x _. case_match; [apply keeps_raise|].
  case_match; [apply keeps_raise|]. apply keeps_bind; [apply update_status_good|intros b1]. apply keeps_bind; [apply update_text_good|intros b2].
  apply keeps_bind; [|intros _; apply fetch_good]. apply keeps_when, keeps_bind; [apply changed_good|intros _].
  unfold _record_proposal_version. keeps_tac.
Qed.

Lemma applied_good id change : keeps good (applied env id change).
Proof using clock.
  unfold applied. apply bind_now. intros t Ht. apply keeps_bind; [apply set_field_good; schema_tac; right; by exists t|intros _].
  apply keeps_bind; [beside|intros _; apply changed_good].
Qed.

Lemma adopted_change_good id : keeps good (adopted_change id).
Proof. unfold adopted_change. keeps_tac. Qed.
#[local] Hint Resolve applied_good adopted_change_good : keeps.

Lemma apply_policy_good id : keeps good (apply_ratified_governance_policy env id).
Proof using clock. unfold apply_ratified_governance_policy. keeps_tac. Qed.

Lemma mark_applied_good id : keeps good (mark_change_applied env id).
Proof using clock. unfold mark_change_applied. keeps_tac. Qed.

Lemma sum_of_good {A} (f : A -> op Z) l : (forall a, keeps good (f a)) -> keeps good (sum_of f l).
Proof. intros H. induction l as [|a l IH]; cbn; [apply keeps_ret|]. apply keeps_bind; [done|intros n]. apply keeps_bind; [done|intros m; apply keeps_ret]. Qed.

Lemma reconcile_record_good k publish id v key : (forall i, keeps good (publish i)) -> keeps good (reconcile_record k publish id v key).
Proof. intros H. unfold reconcile_record. apply keeps_bind; [apply fetch_good|intros x]. keeps_tac; apply H. Qed.

Lemma reconcile_good id : keeps good (reconcile_public_record env id).
Proof.
  unfold reconcile_public_record. destruct (negb _); [apply keeps_ret|]. apply keeps_bind; [apply get_gov_good|intros g].
  apply keeps_bind; [keeps_tac|intros ids]. apply keeps_bind; [|intros n; keeps_tac]. apply sum_of_good. intros i. unfold reconcile_proposal.
  apply keeps_bind; [apply fetch_good|intros x]. apply keeps_lift_bind. intros v _. apply keeps_bind; [unfold _record_proposal_version; keeps_tac|intros a].
  apply keeps_bind; [apply get_gov_good|intros g']. apply keeps_bind; [|intros b; apply keeps_bind; [|intros c; apply keeps_ret]];
    apply sum_of_good; intros j; apply reconcile_record_good; intros k; first [apply record_evidence_good|apply record_vote_good].
Qed.

(** *** Invitations and votes *)

Lemma find_proposal_fits g id x : well_formed g -> find_proposal g id = Ok x -> fits (schema_of Proposals id) x.
Proof.
  unfold find_proposal. intros Hg. destruct (alookup _ id) as [[|f l]|] eqn:E; try done. intros [= <-]. by apply (found g Proposals).
Qed.

Lemma prepare_good id x hours user : fits (schema_of Proposals id) x -> 1 <= hours <= 8760 -> keeps good (prepare_invitation env id x hours user).
Proof.
  intros Hx Hh. unfold prepare_invitation. apply bind_get_gov. intros g Hg. destruct (active_account g user) as [a|] eqn:Ea; [|apply keeps_raise].
  assert (fits (schema_of Accounts user) a) as Ha.
  { unfold active_account in Ea. destruct (alookup _ user) as [a'|] eqn:E; [|done]. destruct (_ || _); [done|]. simplify_eq. by apply (found g Accounts). }
  unfold token. apply keeps_bind; [apply ask_good|intros t]. apply keeps_bind; [apply ask_good|intros drawn].
  apply keeps_lift_bind. intros v Hv. apply keeps_lift_bind. intros uid Huid. apply keeps_lift_bind. intros email Hemail.
  assert (1 <= v) as Hv1.
  { destruct (fits_get _ _ "version" _ Hx ltac:(in_schema)) as (v0 & E0 & z & -> & Hz). unfold dindex in Hv. rewrite E0 in Hv. cbn in Hv. by simplify_eq. }
  field Ha Huid as Hu. field Ha Hemail as He.
  apply keeps_bind; [|intros _; apply keeps_ret]. apply put_good. each_field; cbn [dget String.eqb Ascii.eqb Bool.eqb]; try done; try (by eexists); try (by left).
  - eexists. split; [done|]. by left.
Qed.

Lemma prepare_all_good id x hours users : fits (schema_of Proposals id) x -> 1 <= hours <= 8760 -> keeps good (prepare_all env id x hours users).
Proof.
  intros Hx Hh. induction users as [|u users IH]; cbn; [apply keeps_ret|]. apply keeps_bind; [by apply prepare_good|intros a].
  apply keeps_bind; [done|intros b; apply keeps_ret].
Qed.

Lemma prepare_invitations_good id users hours : keeps good (prepare_invitations env id users hours).
Proof.
  unfold prepare_invitations. apply bind_get_gov. intros g Hg. apply keeps_lift_bind. intros x Hx%find_proposal_fits; [|done].
  case_match; [apply keeps_raise|]. apply keeps_lift_bind. intros h _. apply keeps_bind; [apply prepare_all_good; [done|unfold clamp; lia]|].
  intros prepared. keeps_tac.
Qed.

Lemma settle_good id fields : Forall (fun kv => accepts (schema_of Invitations id) (fst kv) (snd kv)) fields -> NoDup (dkeys fields) ->
  keeps good (settle env id fields).
Proof.
  intros Hf Hn. unfold settle. apply keeps_bind; [apply amend_good; intros x Hx; by apply fits_dmerge|intros _].
  apply keeps_bind; [apply changed_good|intros _]. unfold _record_invitation. keeps_tac.
Qed.

Lemma deliver_good id t url : keeps good (deliver env id t url).
Proof using clock.
  unfold deliver. apply keeps_bind; [apply fetch_good|intros invite]. apply keeps_bind; [apply get_gov_good|intros g].
  apply keeps_lift_bind. intros proposal _. apply keeps_lift_bind. intros account _. cbv zeta. apply bind_now. intros sent Hsent.
  apply keeps_lift_bind. intros expires Hexp. assert (0 <= expires < max_moment) as He by (pyinv; by eapply later_moment).
  apply keeps_lift_bind. intros message _. apply keeps_catch.
  - apply keeps_lift_bind. intros email _. apply keeps_lift_bind. intros mid _. apply keeps_bind; [apply ask_good|intros answer].
    apply keeps_lift_bind. intros delivery _. apply keeps_bind; [|intros _; keeps_tac]. apply settle_good; [|nodup_keys].
    repeat apply List.Forall_cons; try apply List.Forall_nil; try (apply evidence_accepts, (bool_decide_unpack _); vm_compute; exact I); schema_tac.
    + eexists. split; [done|]. right. by left.
    + right. by eexists.
    + right. by eexists.
  - intros e. apply keeps_bind; [|intros _; apply keeps_ret]. apply settle_good; [|nodup_keys].
    repeat apply List.Forall_cons; try apply List.Forall_nil; try (apply evidence_accepts, (bool_decide_unpack _); vm_compute; exact I); schema_tac.
    eexists. split; [done|]. do 2 right. by left.
Qed.

Lemma store_vote_good key id vote : fits (schema_of Votes id) vote -> keeps good (store_vote env key id vote).
Proof.
  intros Hv. unfold store_vote. eapply keeps_yields_bind; [apply commitment_good|by apply commitment_fits|]. intros vote' Hv'.
  apply keeps_bind; [by apply put_good|intros _]. apply keeps_bind; [|intros _].
  { apply set_field_good. schema_tac. eexists. split; [done|]. do 3 right. by left. }
  apply keeps_lift_bind. intros at_ _. apply keeps_bind; [beside|intros _]. keeps_tac.
Qed.

Lemma vote_by_invitation_good key invite proposal user choice now method :
  (exists id, fits (schema_of Invitations id) invite) -> is_text user -> choice ∈ CHOICES -> 0 <= now < max_moment ->
  keeps good (vote_by_invitation env key invite proposal user choice now method).
Proof.
  intros [id Hi] Hu Hc Hnow. unfold vote_by_invitation. apply bind_get_gov. intros g Hg. apply keeps_lift_bind. intros vid _.
  case_match; [apply keeps_raise|]. apply keeps_lift_bind. intros hd _. apply keeps_lift_bind. intros vote Hvote. apply store_vote_good, fits_more.
  unfold make_vote in Hvote. pyinv. subst vote.
  field Hi H0 as Hp. field Hi H1 as Hv.
  field Hi H2 as Hid.
  each_field; cbn [dget String.eqb Ascii.eqb Bool.eqb]; try done; try (by eexists).
Qed.

Lemma normal_choice_ok c c' : normal_choice c = Ok c' -> c' ∈ CHOICES.
Proof.
  unfold normal_choice. destruct (existsb _ CHOICES) eqn:E; [|done]. intros [= <-]. apply existsb_exists in E as (x & Hx & ->%String.eqb_eq).
  by apply list_elem_of_In.
Qed.

Lemma find_credential_in h t k x : find_credential h t = Ok (Some (k, x)) -> (k, x) ∈ t /\ py_str (dget_or x "tokenHash" (VStr "")) = h.
Proof.
  induction t as [|[k' x'] t IH]; cbn; [done|]. intros H. pyinv. destruct x0; [|by split; [right|]; apply IH].
  simplify_eq. split; [left|]. by apply compare_digest_true.
Qed.

Lemma entry_fits g k id x : well_formed g -> (id, x) ∈ table_of k g -> fits (schema_of k id) x.
Proof. intros [_ Ht _] H. specialize (Ht k). rewrite Forall_forall in Ht. by apply (Ht (id, x)). Qed.

Lemma cast_vote_good t c user only : keeps good (cast_vote env t c user only).
Proof using clock.
  unfold cast_vote. apply keeps_lift_bind. intros choice Hc%normal_choice_ok. apply bind_now. intros now Hnow. apply bind_get_gov. intros g Hg.
  apply keeps_lift_bind. intros [[key [|f invite]]|] Hfound; [apply keeps_raise| |apply keeps_raise]. apply find_credential_in in Hfound as [Hin _].
  assert (fits (schema_of Invitations key) (f :: invite)) as Hi by (by apply (entry_fits g)).
  apply keeps_lift_bind. intros proposal _. apply keeps_lift_bind. intros sent _. apply keeps_lift_bind. intros expires _.
  destruct (_ || _).
  { apply keeps_bind; [apply set_field_good; schema_tac|intros _; keeps_tac]. eexists. split; [done|]. do 4 right. by left. }
  cbv zeta. case_match; [apply keeps_raise|]. apply keeps_lift_bind. intros uid Hu. field Hi Hu as Huid.
  case_match; [apply keeps_raise|]. apply vote_by_invitation_good; [by exists key|done..].
Qed.

Lemma cast_account_vote_good p c a : keeps good (cast_account_vote env p c a).
Proof using clock.
  unfold cast_account_vote. cbv zeta. apply keeps_lift_bind. intros choice Hc%normal_choice_ok. apply bind_now. intros now Hnow. apply bind_get_gov. intros g Hg.
  case_match; [|apply keeps_raise]. case_match; [|apply keeps_raise]. case_match; [apply keeps_raise|]. case_match; [apply keeps_raise|].
  apply keeps_lift_bind. intros version _. apply keeps_lift_bind. intros active Ha. destruct active as [|[key invite] [|]]; [apply keeps_raise| |apply keeps_raise].
  assert ((key, invite) ∈ g.(invitations)) as Hin by (by eapply filter_res_in; [exact Ha|left]).
  apply vote_by_invitation_good; [|by eexists|done..]. exists key. by apply (entry_fits g).
Qed.

Lemma run_good r : keeps good (run env r).
Proof using clock.
  destruct r; cbn [run]; (apply keeps_bind; [|intros ?; apply keeps_ret]);
    auto using patch_policy_good, upsert_account_good, authenticated_account_good, revoke_good, create_proposal_good, update_proposal_good,
      prepare_invitations_good, deliver_good, cast_vote_good, cast_account_vote_good, reconcile_good, apply_policy_good, mark_applied_good.
  - unfold vote_context, _utc_now. keeps_tac.
  - unfold monitor, moment, _utc_now. keeps_tac.
  - unfold tally_at, moment, _utc_now. keeps_tac.
  - unfold snapshot. keeps_tac.
Qed.

Lemma run_all_good rs s : good s -> good (run_all env rs s).
Proof using clock. revert s. induction rs as [|r rs IH]; intros s Hs; cbn; [done|]. apply IH. by apply run_good. Qed.
End operations.

(** ** Tallies can always be made *)

Lemma all_res_total {A} (f : A -> res bool) l : Forall (fun x => exists b, f x = Ok b) l -> exists b, all_res f l = Ok b.
Proof. induction 1 as [|x l [b Hb] Hl IH]; cbn; [by eexists|]. rewrite Hb. cbn. destruct b; [done|by eexists]. Qed.

Lemma fits_index sc x k P : fits sc x -> (k, P) ∈ sc -> exists v, dindex x k = Ok v /\ P v.
Proof. intros Hx Hin. destruct (fits_get _ _ _ _ Hx Hin) as (v & Hv & HP). exists v. unfold dindex. by rewrite Hv. Qed.

Lemma parse_maybe sc x k : fits sc x -> (k, maybe is_moment) ∈ sc -> has x k = true ->
  exists v t, dindex x k = Ok v /\ _parse_time v = Ok t.
Proof.
  intros Hx Hin Hh. destruct (fits_get _ _ _ _ Hx Hin) as (v & Hv & Hm). unfold has, dget_none, dget_or in Hh. rewrite Hv in Hh.
  destruct Hm as [->|(t & -> & Ht)]; [done|]. exists (VStr (_iso t)), t. unfold dindex. rewrite Hv. split; [done|]. by apply parse_iso.
Qed.

Section total.
Context (g : governance) (Hg : well_formed g) (id : string) (proposal : pydict) (Hp : fits (schema_of Proposals id) proposal).

Lemma counted_total k key x : k = Invitations \/ k = Votes -> fits (schema_of k key) x -> exists b, counted_for id proposal x = Ok b.
Proof using Hp.
  intros Hk Hx. assert (exists v, dindex x "proposalId" = Ok v /\ is_text v) as (v & Hv & s & ->).
  { by destruct Hk as [-> | ->]; apply (fits_index _ _ _ _ Hx); in_schema. }
  assert (exists v, dindex x "proposalVersion" = Ok v /\ at_least 1 v) as (v & Hv' & z & -> & _).
  { by destruct Hk as [-> | ->]; apply (fits_index _ _ _ _ Hx); in_schema. }
  destruct (fits_index _ _ "version" _ Hp ltac:(in_schema)) as (v & Hv'' & z' & -> & _).
  unfold counted_for. rewrite Hv. cbn [mbind res_bind]. destruct (py_eq _ _); [|by eexists]. rewrite Hv', Hv''. cbn. by eexists.
Qed.

Lemma select_total k : k = Invitations \/ k = Votes -> exists l, filter_res (counted_for id proposal) (map snd (table_of k g)) = Ok l.
Proof using Hp Hg.
  intros Hk. apply filter_res_total, Forall_fmap. eapply Forall_impl; [exact (wf_tables _ Hg k)|]. intros [key x] Hx. by apply (counted_total k key).
Qed.

(** What was selected is still in its schema. *)
Lemma selected_fits k l : filter_res (counted_for id proposal) (map snd (table_of k g)) = Ok l -> Forall (fun x => exists key, fits (schema_of k key) x) l.
Proof using Hg.
  intros H. apply Forall_forall. intros x Hx. destruct (filter_res_in _ _ _ _ H Hx) as [Hin _].
  apply list_elem_of_fmap in Hin as ([key x'] & -> & Hin). exists key. by apply (entry_fits g).
Qed.

Lemma window_total now x key : fits (schema_of Invitations key) x -> (exists b, active_window now x = Ok b) /\ exists b, window_closed now x = Ok b.
Proof using.
  intros Hx. split.
  - unfold active_window. destruct (has x "sentAt" && has x "expiresAt") eqn:E; [|by eexists]. apply andb_prop in E as [E1 E2].
    destruct (parse_maybe _ _ "sentAt" Hx ltac:(in_schema) E1) as (v & t & Hv & Ht). destruct (parse_maybe _ _ "expiresAt" Hx ltac:(in_schema) E2) as (v' & t' & Hv' & Ht').
    unfold in_window. rewrite Hv. cbn [mbind res_bind]. rewrite Ht. cbn [mbind res_bind]. destruct (t <=? now); [|by eexists].
    rewrite Hv'. cbn [mbind res_bind]. rewrite Ht'. by eexists.
  - unfold window_closed. destruct (fits_get _ _ "status" _ Hx ltac:(in_schema)) as (v & Hv & s & -> & _). unfold dget_none, dget_or. rewrite Hv.
    cbn [in_set mbind res_bind]. destruct (existsb _ _); [by eexists|]. destruct (has x "expiresAt") eqn:E; [|by eexists].
    destruct (parse_maybe _ _ "expiresAt" Hx ltac:(in_schema) E) as (v' & t & Hv' & Ht). rewrite Hv'. cbn [mbind res_bind]. rewrite Ht. by eexists.
Qed.

Lemma hype_total now : exists hd, _proposal_hype g.(policy) proposal now = Ok hd.
Proof using Hp Hg.
  unfold _proposal_hype, policy_int. destruct (fits_index _ _ "createdAt" _ Hp ltac:(in_schema)) as (v & -> & t & -> & Ht). cbn [mbind res_bind].
  destruct (fits_index _ _ "hypeZeroDay" _ (wf_policy _ Hg) ltac:(unfold policy_schema; in_schema)) as (v & -> & z & -> & _). cbn [mbind res_bind py_int].
  rewrite parse_iso by done. cbn. by eexists.
Qed.

Lemma count_total c vs : Forall (fun x => exists key, fits (schema_of Votes key) x) vs -> exists n, count_choice c vs = Ok n.
Proof using.
  intros Hvs. unfold count_choice. edestruct (filter_res_total (fun v => c' ← dindex v "choice"; Ok (py_eq c' (VStr c))) vs) as [l ->]; [|cbn; by eexists].
  eapply Forall_impl; [exact Hvs|]. intros x [key Hx]. destruct (fits_index _ _ "choice" _ Hx ltac:(in_schema)) as (v & -> & _). cbn. by eexists.
Qed.

Lemma tally_total public order now : alookup g.(proposals) id = Some proposal -> exists t, proposal_tally public order g id now = Ok t.
Proof using Hp Hg.
  intros Hl. unfold proposal_tally. rewrite Hl.
  assert (null proposal = false) as -> by (destruct (fits_get _ _ "id" _ Hp ltac:(in_schema)) as (v & Hv & _); by destruct proposal).
  destruct (select_total Votes ltac:(by right)) as [vs Hvs]. destruct (select_total Invitations ltac:(by left)) as [invites Hin]. cbn [table_of] in Hvs, Hin.
  rewrite Hvs. cbn [mbind res_bind]. rewrite Hin. cbn [mbind res_bind]. apply (selected_fits Votes) in Hvs. apply (selected_fits Invitations) in Hin.
  assert (exists raw, map_res (fun c => n ← count_choice c vs; Ok (c, n)) order = Ok raw) as [raw ->].
  { induction order as [|c order [raw IH]]; cbn; [by eexists|]. destruct (count_total c vs Hvs) as [n ->]. cbn. rewrite IH. by eexists. }
  cbn [mbind res_bind]. destruct (hype_total now) as [[hype durable] ->]. cbn [mbind res_bind].
  edestruct (filter_res_total (active_window now) invites) as [active ->].
  { eapply Forall_impl; [exact Hin|]. intros x [key Hx]. by apply (window_total now x key). }
  cbn [mbind res_bind]. assert (exists b, (if negb (null invites) && null active then all_res (window_closed now) invites else Ok false) = Ok b) as [closed ->].
  { destruct (_ && _); [|by eexists]. apply all_res_total. eapply Forall_impl; [exact Hin|]. intros x [key Hx]. by apply (window_total now x key). }
  cbn [mbind res_bind]. unfold policy_int.
  destruct (fits_index _ _ "minRawVotes" _ (wf_policy _ Hg) ltac:(unfold policy_schema; in_schema)) as (v & -> & z & -> & _).
  destruct (fits_index _ _ "minApprovalRatio" _ (wf_policy _ Hg) ltac:(unfold policy_schema; in_schema)) as (v & -> & x & -> & _).
  destruct (fits_index _ _ "minDurableVoteUnits" _ (wf_policy _ Hg) ltac:(unfold policy_schema; in_schema)) as (v & -> & y & -> & _).
  cbn [mbind res_bind py_int py_float]. destruct (_ =? 0); cbn [mbind res_bind]; by eexists.
Qed.
End total.

(** C24: the governance document keeps its data types. Whatever requests are
    served, refused ones included, and whatever the environment answers (writes
    and mails that fail, a public record that refuses), every account, proposal,
    invitation and vote stays in its schema under its key, the policy stays in its
    bounds, and the tally of every proposal can be made at any moment. *)
Theorem governance_stays_well_formed env rs s : (forall n, 0 <= env.(now_at) n < max_moment) -> well_formed s.(gov) ->
  let g := (run_all env rs s).(gov) in
  well_formed g /\
  forall id proposal now, alookup g.(proposals) id = Some proposal ->
    exists t, proposal_tally (public_record_required env) env.(choice_order) g id now = Ok t.
Proof.
  intros clock Hs g. assert (well_formed g) as Hg by (by apply run_all_good). split; [done|]. intros id proposal now Hl.
  eapply tally_total; [done| |exact Hl]. by apply (found g Proposals).
Qed.

Lemma new_well_formed : well_formed new_governance.
Proof.
  split; [|by intros []; apply List.Forall_nil|done]. unfold policy_schema. each_field; cbn; try (by eexists); (eexists; split; [done|]); try lia; done.
Qed.

(** ** A run *)

(** A clock that stands, tokens that count, a disk and a mailer that accept all. *)
Definition sample_env : environment := {|
  now_at := fun _ => 739616 * day;
  token_at := fun n => "t" +:+ dec (Z.of_nat n);
  write_at := fun _ => true;
  publish_at := None;
  send_at := fun _ _ _ _ _ => Ok [("mode", VStr "outbox")];
  mailer_status := VNone;
  choice_order := CHOICES;
|}.

Definition empty_community : community := {| gov := new_governance; disk := None; asked := 0 |}.

(** One account is invited to vote on a proposal, votes for it, and it is adopted. *)
Definition sample_requests : list request :=
  [PatchPolicy [("minRawVotes", VInt 1); ("minDurableVoteUnits", VInt 0)];
   UpsertAccount [("id", VStr "ada"); ("email", VStr "ada@example.org")];
   CreateProposal [("id", VStr "p"); ("title", VStr "Longer rehearsals")];
   PrepareInvitations "p" [VStr "ada"] None;
   Deliver "invite-t5" "t4" "https://stage.example/";
   CastVote "t4" " Yes" (Some "ada") false].

Definition adoption_request : request := UpdateProposal "p" [("status", VStr "adopted")].

Definition voted : community := run_all sample_env sample_requests empty_community.

Lemma sample_clock n : 0 <= sample_env.(now_at) n < max_moment.
Proof. cbn [now_at sample_env]. split; [apply Z.leb_le|apply Z.ltb_lt]; vm_compute; reflexivity. Qed.

Lemma governance_stays_well_formed_witness : well_formed voted.(gov).
Proof. apply (governance_stays_well_formed sample_env sample_requests empty_community); [apply sample_clock|apply new_well_formed]. Defined.
