(* ===== verification/GovernanceAdoption.v ===== *)
(** * What is adopted, and what stays (backend/community_governance.py)

    Which operations leave the core of a record alone; that a proposal is adopted
    only on a tally without a blocker, and that an adopted proposal never changes
    again. An update can adopt a proposal and replace its text at once: an
    example shows it. *)

From S2P Require Import Prelude PyStr PyFloat PyVal PyFacts StateLogic Json Sha256 JsonText PersistenceChain CivilTime Governance GovernanceProposals GovernanceVotes GovernanceTypes.
From Stdlib Require Import SpecFloat.

#[local] Open Scope string_scope.
#[local] Open Scope list_scope.
#[local] Open Scope Z_scope.
#[local] Open Scope st_scope.

(** ** The core of a record *)

(** The fields of a record that only the operations about it change. *)
Definition core (k : kind) : list string :=
  match k with
  | Accounts => ["authGeneration"]
  | Proposals => ["id"; "version"; "title"; "description"; "scope"; "createdAt"; "status"; "provisional"; "change"]
  | Invitations => ["id"; "proposalId"; "proposalVersion"; "userId"; "email"; "windowHours"; "tokenHash"]
  | Votes => ["id"; "proposalId"; "proposalVersion"; "invitationId"; "userId"; "choice"; "castAt"]
  end.

Definition agree (k : kind) (x y : pydict) : Prop := forall f, f ∈ core k -> dget y f = dget x f.

(** A record is there before and after, with the same core, or neither. *)
Definition same_at (k : kind) (id : string) (g g' : governance) : Prop :=
  match alookup (table_of k g) id, alookup (table_of k g') id with
  | Some x, Some y => agree k x y
  | None, None => True
  | _, _ => False
  end.

Lemma same_at_refl k id g : same_at k id g g.
Proof. unfold same_at. by destruct (alookup _ id). Qed.

Lemma same_at_trans k id g1 g2 g3 : same_at k id g1 g2 -> same_at k id g2 g3 -> same_at k id g1 g3.
Proof.
  unfold same_at. destruct (alookup _ id) as [x|], (alookup _ id) as [y|], (alookup (table_of k g3) id) as [z|]; try done.
  intros H1 H2 f Hf. by rewrite (H2 f Hf), (H1 f Hf).
Qed.

Lemma lookup_put {A} (l : list (string * A)) k a k' : alookup (aput l k a) k' = if decide (k' = k) then Some a else alookup l k'.
Proof.
  induction l as [|[k0 a0] l IH]; cbn.
  - destruct (decide (k' = k)) as [->|Hne]; [by rewrite str_eqb_refl|]. by rewrite str_eqb_ne.
  - destruct (String.eqb_spec k k0) as [<-|Hk]; cbn.
    + destruct (decide (k' = k)) as [->|Hne]; [by rewrite str_eqb_refl|]. by rewrite str_eqb_ne.
    + destruct (String.eqb_spec k' k0) as [->|]; [by rewrite decide_False|]. exact IH.
Qed.

Section calm.
Context (k : kind) (id : string) (g0 : governance).

(** The record keeps its core, seen from a state before. *)
Definition calm (s : community) : Prop := same_at k id g0 s.(gov).

Lemma put_calm k' id' x : k' <> k \/ id' <> id -> keeps calm (put k' id' x).
Proof.
  intros H. apply keeps_modify. unfold calm, same_at. intros s Hs. cbn [gov]. rewrite table_of_with. destruct (decide (k = k')) as [<-|]; [|done].
  rewrite lookup_put. destruct (decide (id = id')) as [<-|]; [by destruct H|done].
Qed.

Lemma amend_calm k' id' f : k' <> k \/ id' <> id \/ (forall x, agree k x (f x)) -> keeps calm (amend k' id' f).
Proof.
  intros H. apply keeps_modify. intros s Hs. cbn [gov]. unfold calm in *. eapply same_at_trans; [exact Hs|]. cbn [gov].
  destruct (alookup (table_of k' s.(gov)) id') as [x|] eqn:E; [|apply same_at_refl]. unfold same_at. rewrite table_of_with.
  destruct (decide (k = k')) as [<-|]; [|by destruct (alookup _ id)]. rewrite lookup_put. destruct (decide (id = id')) as [<-|]; [|by destruct (alookup _ id)].
  rewrite E. destruct H as [H|[H|H]]; [done..|apply H].
Qed.

Lemma set_field_calm k' id' f v : k' <> k \/ id' <> id \/ f ∉ core k -> keeps calm (set_field k' id' f v).
Proof.
  intros H. apply amend_calm. destruct H as [H|[H|H]]; [by left|by right; left|]. right; right. intros x f' Hf'. apply dget_dset_ne. by intros ->.
Qed.

Lemma fetch_calm k' id' : keeps calm (fetch k' id').
Proof. by intros s. Qed.
Lemma get_gov_calm : keeps calm get_gov.
Proof. by intros s. Qed.
Lemma ask_calm {A} (answer : nat -> A) : keeps calm (ask answer).
Proof. by intros s. Qed.

#[local] Hint Resolve fetch_calm get_gov_calm ask_calm keeps_catch : keeps.

Section operations.
Context (env : environment).

Lemma save_calm : keeps calm (_save env).
Proof. unfold _save. keeps_tac. done. Qed.
#[local] Hint Resolve save_calm : keeps.

Lemma changed_calm : keeps calm (_changed env).
Proof. unfold _changed. apply keeps_bind; [|intros _; apply save_calm]. apply keeps_modify. unfold calm, same_at. intros s Hs. by destruct k. Qed.
#[local] Hint Resolve changed_calm : keeps.

Lemma append_calm t payload : keeps calm (_append_public_record env t payload).
Proof. unfold _append_public_record. keeps_tac. Qed.
#[local] Hint Resolve append_calm : keeps.

(** A field beside every core. *)
Lemma beside_calm k' id' f v :
  f ∈ ["publicRecordPending"; "publicRecordRef"; "ratificationRecordRef"; "deliveryError"; "deliveryAcceptedAt"; "deliveryMode"; "votedAt"; "updatedAt"; "appliedChangeHash"; "appliedAt"] ->
  keeps calm (set_field k' id' f v).
Proof.
  intros H. apply set_field_calm. right; right. intros Hf. assert (existsb (String.eqb f) (core k) = true) as Hc by (apply existsb_exists; exists f; by rewrite str_eqb_refl, <- list_elem_of_In).
  repeat (apply elem_of_cons in H as [->|H]; [by destruct k|]). by apply elem_of_nil in H.
Qed.
End operations.
End calm.

Ltac beside := apply beside_calm, (bool_decide_unpack _); vm_compute; exact I.

Section operations.
Context (k : kind) (id : string) (g0 : governance) (env : environment).
#[local] Hint Resolve fetch_calm get_gov_calm ask_calm keeps_catch save_calm changed_calm append_calm : keeps.

Lemma record_evidence_calm k' id' t payload : keeps (calm k id g0) (record_evidence env k' id' t payload).
Proof.
  unfold record_evidence. destruct (negb _); [apply keeps_ret|]. apply keeps_bind; [beside|intros _]. apply keeps_bind; [apply save_calm|intros _].
  apply keeps_catch; [|intros e; keeps_tac]. apply keeps_bind; [apply fetch_calm|intros x]. apply keeps_bind; [apply append_calm|intros uri].
  apply keeps_bind; [beside|intros _]. apply keeps_bind; [beside|intros _]. keeps_tac.
Qed.
#[local] Hint Resolve record_evidence_calm : keeps.

(** Committing to a choice adds to the vote only. *)
Lemma commitment_agrees vote s : let '(s', out) := _ensure_vote_commitment env vote s in
  s'.(gov) = s.(gov) /\ match out with Ok vote' => agree Votes vote vote' | Raise _ => True end.
Proof.
  unfold _ensure_vote_commitment. destruct (_ && _); [by split; [|intros f]|]. unfold token, st_bind, ask, st_lift. cbn.
  destruct (commitment _ _ _) as [digest|e]; [|done]. split; [done|]. intros f Hf.
  assert (f <> "publicBallotId" /\ f <> "choiceSalt" /\ f <> "choiceCommitmentSha256") as (H1 & H2 & H3).
  { cbn in Hf. split_and!; intros ->; repeat (apply elem_of_cons in Hf as [Hf|Hf]; [done|]); by apply elem_of_nil in Hf. }
  by rewrite !dget_dset_ne.
Qed.

Lemma record_vote_calm id' : keeps (calm k id g0) (_record_vote env id').
Proof.
  unfold _record_vote. destruct (negb _); [apply keeps_ret|]. intros s Hs. unfold st_bind, fetch. destruct (alookup (table_of Votes s.(gov)) id') as [x|] eqn:E; [|done].
  pose proof (commitment_agrees x s) as Hc. destruct (_ensure_vote_commitment env x s) as [s1 [x'|e]]; destruct Hc as [Hg Hc]; [|unfold calm in *; cbn [fst]; by rewrite Hg].
  cbn [put change_gov st_modify]. apply record_evidence_calm. unfold calm in *. cbn [gov]. rewrite Hg. eapply same_at_trans; [exact Hs|].
  unfold same_at. rewrite table_of_with. destruct (decide (k = Votes)) as [->|]; [|by destruct (alookup _ id)]. rewrite lookup_put.
  destruct (decide (id = id')) as [->|]; [by rewrite E|by destruct (alookup _ id)].
Qed.
#[local] Hint Resolve record_vote_calm : keeps.

Context (Hk : k <> Invitations).

Ltac other := (apply put_calm || apply amend_calm || apply set_field_calm); left; congruence.

Lemma patch_policy_calm data : keeps (calm k id g0) (patch_policy env data).
Proof using.
  unfold patch_policy, snapshot. keeps_tac.
Qed.

Lemma applied_calm id' change : keeps (calm k id g0) (applied env id' change).
Proof using. unfold applied, _utc_now. apply keeps_bind; [apply ask_calm|intros t]. apply keeps_bind; [beside|intros _]. apply keeps_bind; [beside|intros _]. apply changed_calm. Qed.
#[local] Hint Resolve patch_policy_calm applied_calm : keeps.

Lemma upsert_account_calm data : k <> Accounts -> keeps (calm k id g0) (upsert_account env data).
Proof using.
  intros Ha. unfold upsert_account. destruct (_ || _); [apply keeps_raise|]. apply keeps_bind; [apply get_gov_calm|intros g]. apply keeps_lift_bind. intros n _.
  cbv zeta. apply keeps_bind; [other|intros _; keeps_tac].
Qed.

Lemma accounts_calm a : k <> Accounts -> keeps (calm k id g0) (authenticated_account env a) /\ keeps (calm k id g0) (revoke_account_sessions env a).
Proof using.
  intros Ha. split; [unfold authenticated_account|unfold revoke_account_sessions]; (apply keeps_bind; [apply get_gov_calm|intros g]); cbv zeta; case_match; try apply keeps_raise.
  - apply keeps_bind; [|intros _; apply fetch_calm]. apply keeps_when, keeps_bind; [other|intros _; apply save_calm].
  - case_match; [apply keeps_raise|]. apply keeps_lift_bind. intros n _. apply keeps_bind; [other|intros _; keeps_tac].
Qed.

Lemma prepare_all_calm id' x hours users : keeps (calm k id g0) (prepare_all env id' x hours users).
Proof using Hk.
  induction users as [|u users IH]; cbn; [apply keeps_ret|]. apply keeps_bind; [|intros a; apply keeps_bind; [done|intros b; apply keeps_ret]].
  unfold prepare_invitation, token. apply keeps_bind; [apply get_gov_calm|intros g]. case_match; [|apply keeps_raise].
  apply keeps_bind; [apply ask_calm|intros t]. apply keeps_bind; [apply ask_calm|intros d]. apply keeps_lift_bind. intros v _. apply keeps_lift_bind. intros uid _.
  apply keeps_lift_bind. intros email _. apply keeps_bind; [other|intros _; apply keeps_ret].
Qed.
#[local] Hint Resolve prepare_all_calm : keeps.

Lemma settle_calm id' fields : keeps (calm k id g0) (settle env id' fields).
Proof using Hk.
  unfold settle, _record_invitation. apply keeps_bind; [other|intros _]. apply keeps_bind; [apply changed_calm|intros _]. keeps_tac.
Qed.
#[local] Hint Resolve settle_calm : keeps.

Lemma prepare_invitations_calm id' users hours : keeps (calm k id g0) (prepare_invitations env id' users hours).
Proof using Hk. unfold prepare_invitations. keeps_tac. Qed.

Lemma deliver_calm id' t url : keeps (calm k id g0) (deliver env id' t url).
Proof using Hk. unfold deliver, _utc_now. keeps_tac. apply keeps_catch; [keeps_tac|intros e; keeps_tac]. Qed.

Lemma reconcile_calm id' : keeps (calm k id g0) (reconcile_public_record env id').
Proof using.
  unfold reconcile_public_record. destruct (negb _); [apply keeps_ret|]. apply keeps_bind; [apply get_gov_calm|intros g].
  apply keeps_bind; [keeps_tac|intros ids].
  assert (forall A (f : A -> op Z) l, (forall a, keeps (calm k id g0) (f a)) -> keeps (calm k id g0) (sum_of f l)) as Hsum.
  { clear. intros A f l H. induction l as [|a l IH]; cbn; [apply keeps_ret|]. apply keeps_bind; [done|intros n]. apply keeps_bind; [done|intros m; apply keeps_ret]. }
  apply keeps_bind; [|intros n; keeps_tac]. apply Hsum. intros i. unfold reconcile_proposal, _record_proposal_version.
  apply keeps_bind; [apply fetch_calm|intros x]. apply keeps_lift_bind. intros v _. apply keeps_bind; [keeps_tac|intros a].
  apply keeps_bind; [apply get_gov_calm|intros g']. cbv zeta.
  apply keeps_bind; [|intros b; apply keeps_bind; [|intros c; apply keeps_ret]]; apply Hsum; intros j; unfold reconcile_record, _record_invitation;
    (apply keeps_bind; [apply fetch_calm|intros y]); keeps_tac.
Qed.

Lemma apply_policy_calm id' : keeps (calm k id g0) (apply_ratified_governance_policy env id').
Proof using. unfold apply_ratified_governance_policy, adopted_change. keeps_tac. Qed.

Lemma mark_applied_calm id' : keeps (calm k id g0) (mark_change_applied env id').
Proof using. unfold mark_change_applied, adopted_change. keeps_tac. Qed.

Lemma ratify_calm id' x t : keeps (calm k id g0) (ratify env id' x t).
Proof using.
  unfold ratify. apply keeps_bind; [apply get_gov_calm|intros g]. apply keeps_lift_bind. intros p _. apply keeps_bind; [apply append_calm|intros u; beside].
Qed.
#[local] Hint Resolve ratify_calm : keeps.

Lemma admit_status_calm id' x status : keeps (calm k id g0) (admit_status env id' x status).
Proof using. unfold admit_status, _utc_now. keeps_tac. Qed.

(** An operation on another proposal. *)
Section elsewhere.
Context (id' : string) (Helse : Proposals <> k \/ id' <> id).

Ltac elsewhere := (apply put_calm || apply amend_calm || apply set_field_calm); destruct Helse; [by left|by right; try left].

Lemma update_status_elsewhere data : keeps (calm k id g0) (update_status env id' data).
Proof using Helse.
  unfold update_status. destruct (dget data "status"); [|apply keeps_ret]. cbv zeta. apply keeps_bind; [apply fetch_calm|intros x].
  apply keeps_bind; [apply admit_status_calm|intros _]. apply keeps_lift_bind. intros v _. case_match; [apply keeps_ret|].
  apply keeps_bind; [elsewhere|intros _; apply keeps_ret].
Qed.

Lemma update_text_elsewhere data : keeps (calm k id g0) (update_text env id' data).
Proof using Helse.
  unfold update_text. destruct (negb _); [apply keeps_ret|]. apply keeps_bind.
  { apply keeps_iter. intros [f l] _. cbn [fst snd]. case_match; [elsewhere|apply keeps_ret]. }
  intros _. apply keeps_bind; [apply keeps_when, keeps_lift_bind; intros c _; apply keeps_bind; [elsewhere|intros _; beside]|intros _].
  apply keeps_bind; [apply fetch_calm|intros x]. apply keeps_lift_bind. intros v _. apply keeps_bind; [elsewhere|intros _].
  unfold _utc_now. apply keeps_bind; [apply ask_calm|intros t]. apply keeps_bind; [beside|intros _; apply keeps_ret].
Qed.

Lemma update_proposal_elsewhere data : keeps (calm k id g0) (update_proposal env id' data).
Proof using Helse.
  unfold update_proposal. apply keeps_bind; [apply get_gov_calm|intros g]. apply keeps_lift_bind. intros x _. case_match; [apply keeps_raise|].
  case_match; [apply keeps_raise|]. apply keeps_bind; [apply update_status_elsewhere|intros b1]. apply keeps_bind; [apply update_text_elsewhere|intros b2].
  apply keeps_bind; [|intros _; apply fetch_calm]. apply keeps_when, keeps_bind; [apply changed_calm|intros _]. unfold _record_proposal_version. keeps_tac.
Qed.
End elsewhere.

(** Creating a proposal leaves every proposal that is there, and every other record. *)
Lemma create_proposal_calm data : k <> Proposals \/ is_Some (alookup g0.(proposals) id) -> keeps (calm k id g0) (create_proposal env data).
Proof using Hk.
  intros Hthere. unfold create_proposal. apply keeps_bind; [unfold token; keeps_tac|intros given]. cbv zeta. case_match; [apply keeps_raise|].
  intros s Hs. unfold st_bind at 1, get_gov. destruct (alookup (proposals (gov s)) (slice 160 (strip given))) as [x|] eqn:E; [done|].
  assert (Proposals <> k \/ slice 160 (strip given) <> id) as Hne.
  { destruct Hthere as [Hne|[y Hy]]; [left; congruence|]. destruct (decide (k = Proposals)) as [->|Hne]; [right|left; congruence]. intros <-.
    unfold calm, same_at in Hs. cbn [table_of] in Hs. by rewrite Hy, E in Hs. }
  revert s Hs E. enough (forall g, keeps (calm k id g0) (let* now := _utc_now env in
    let* expires := (if has data "provisional" then
                       st_lift (days ← policy_int (policy g) "urgentProvisionalMaxDays"; t ← later now (days * day); Ok (VStr (_iso t)))
                     else st_ret VNone) in
    let* change := st_lift (_change_record (dget_none data "change")) in
    put Proposals (slice 160 (strip given))
      [("id", VStr (slice 160 (strip given))); ("version", VInt 1); ("title", field_text data "title" "" 240); ("description", field_text data "description" "" 4000);
       ("scope", field_text data "scope" "platform-change" 80); ("createdAt", VStr (_iso now)); ("status", VStr "open");
       ("provisional", VBool (has data "provisional")); ("provisionalExpiresAt", expires); ("change", change); ("appliedAt", VNone)] ;;;
    _changed env ;;;
    st_when (public_record_required env) (_record_proposal_version env (slice 160 (strip given)) ;;; st_ret tt) ;;;
    fetch Proposals (slice 160 (strip given)))) as Hrest by (intros s Hs _; by apply Hrest).
  intros g. unfold _utc_now, _record_proposal_version. apply keeps_bind; [apply ask_calm|intros now]. apply keeps_bind; [keeps_tac|intros e].
  apply keeps_lift_bind. intros c _. apply keeps_bind; [apply put_calm; tauto|intros _]. keeps_tac.
Qed.

Lemma store_vote_calm key vid vote : k <> Votes -> keeps (calm k id g0) (store_vote env key vid vote).
Proof using Hk.
  intros Hp. unfold store_vote. apply keeps_bind; [unfold _ensure_vote_commitment, token; keeps_tac|intros v]. apply keeps_bind; [other|intros _].
  apply keeps_bind; [other|intros _]. apply keeps_lift_bind. intros t _. apply keeps_bind; [beside|intros _]. keeps_tac.
Qed.

Lemma casts_calm : k <> Votes -> (forall t c u o, keeps (calm k id g0) (cast_vote env t c u o)) /\ forall p c a, keeps (calm k id g0) (cast_account_vote env p c a).
Proof using Hk.
  intros Hp. assert (forall key i x u c n m, keeps (calm k id g0) (vote_by_invitation env key i x u c n m)) as Hv.
  { intros. unfold vote_by_invitation. keeps_tac; by apply store_vote_calm. }
  split.
  - intros t c u o. unfold cast_vote, _utc_now. keeps_tac; try apply Hv. other.
  - intros p c a. unfold cast_account_vote, _utc_now. keeps_tac; apply Hv.
Qed.
End operations.

(** Every request but those about the proposal leaves its core. *)
Lemma run_calm env r id g0 : (forall data, r <> UpdateProposal id data) -> (forall data, r <> CreateProposal data) ->
  keeps (calm Proposals id g0) (run env r).
Proof.
  intros Hu Hc. assert (Proposals <> Invitations /\ Proposals <> Accounts) as [Hk Ha] by done.
  destruct r; cbn [run]; (apply keeps_bind; [|intros ?; apply keeps_ret]);
    auto using patch_policy_calm, upsert_account_calm, prepare_invitations_calm, deliver_calm, reconcile_calm, apply_policy_calm, mark_applied_calm.
  1,2: by apply accounts_calm.
  - by destruct (Hc data).
  - apply update_proposal_elsewhere. right. intros ->. by eapply Hu.
  - by apply casts_calm.
  - by apply casts_calm.
  - unfold vote_context, _utc_now. keeps_tac.
  - unfold monitor, moment, _utc_now. keeps_tac.
  - unfold tally_at, moment, _utc_now. keeps_tac.
  - unfold snapshot. keeps_tac.
Qed.

(** A request creates a proposal, or does not. *)
Lemma creation r : (exists data, r = CreateProposal data) \/ forall data, r <> CreateProposal data.
Proof. destruct r; try (by right). left. by eexists. Qed.

Lemma run_calm_proposal env r s id x : alookup s.(gov).(proposals) id = Some x -> (forall data, r <> UpdateProposal id data) ->
  same_at Proposals id s.(gov) (fst (run env r s)).(gov).
Proof.
  intros Hx Hr. assert (keeps (calm Proposals id s.(gov)) (run env r)) as H; [|by apply H, same_at_refl].
  destruct (creation r) as [[data ->]|Hc]; [|by apply run_calm]. cbn [run]. apply keeps_bind; [|intros ?; apply keeps_ret].
  apply create_proposal_calm; [done|]. right. by exists x.
Qed.

(** ** Adoption *)

Definition adopted (g : governance) (id : string) : Prop := exists x, alookup g.(proposals) id = Some x /\ is_status x "adopted" = true.

Lemma agree_status x y status : agree Proposals x y -> is_status y status = is_status x status.
Proof. intros H. unfold is_status, dget_none, dget_or. by rewrite (H "status") by (apply (bool_decide_unpack _); vm_compute; exact I). Qed.

Lemma same_adopted g g' id : same_at Proposals id g g' -> adopted g id <-> adopted g' id.
Proof.
  unfold same_at, adopted. cbn [table_of]. intros H. destruct (alookup (proposals g) id) as [x|], (alookup (proposals g') id) as [y|]; try done.
  pose proof (agree_status x y "adopted" H) as Hst. split; intros (z & Hz & Ha); simplify_eq; eexists; (split; [done|]); congruence.
Qed.

(** A request updates the proposal, or does not. *)
Lemma update_of id r : (exists data, r = UpdateProposal id data) \/ forall data, r <> UpdateProposal id data.
Proof.
  destruct r as [| | | | |id' data| | | | | | | | | | |]; try by right. destruct (decide (id' = id)) as [->|Hne]; [left; by exists data|]. right. by intros data' [= ? _].
Qed.

(** Updating an adopted proposal changes nothing of it. *)
Lemma update_adopted env id data s : adopted s.(gov) id -> same_at Proposals id s.(gov) (fst (update_proposal env id data s)).(gov).
Proof.
  intros (x & Hx & Ha). unfold update_proposal, st_bind at 1, get_gov, find_proposal. rewrite Hx. destruct x as [|f l]; [done|]. set (x := f :: l) in *.
  rewrite (st_lift_bind (Ok x) _ s x eq_refl). destruct (_ && _ && touches _ _); [apply same_at_refl|]. rewrite Ha. cbn [andb].
  destruct (touches data (material ++ ["status"]) && _) eqn:E; [apply same_at_refl|].
  assert (touches data material = false /\ forall v, dget data "status" = Some v -> lower (strip (py_str v)) = "adopted") as [Hm Hs].
  { unfold touches in *. rewrite existsb_app in E. cbn [existsb] in E. rewrite orb_false_r in E.
    destruct (existsb (dhas data) material); [by rewrite andb_true_r in E|]. cbn [orb] in E. split; [done|]. intros v Hv.
    unfold dhas, dget_or in E. rewrite Hv in E. cbn [andb] in E. apply negb_false_iff in E. by apply String.eqb_eq in E. }
  assert (update_status env id data s = (s, Ok false)) as Hu.
  { unfold update_status. destruct (dget data "status") as [v|] eqn:Ev; [|done]. rewrite (Hs v eq_refl). cbv zeta. unfold st_bind at 1, fetch. cbn [table_of].
    rewrite Hx. unfold admit_status. rewrite Ha. cbn. unfold is_status, dget_none, dget_or in Ha. unfold dindex.
    destruct (dget x "status") as [v'|]; [|done]. destruct v'; try discriminate Ha. cbn in Ha. apply String.eqb_eq in Ha as ->. reflexivity. }
  unfold st_bind at 1. rewrite Hu. unfold update_text. rewrite Hm. cbn. apply same_at_refl.
Qed.

(** C21: an adopted proposal is immutable. Whatever requests follow, with the
    environment answering whatever it likes, its title, description, scope,
    change, version and status stay what they were. *)
Theorem adopted_proposals_are_immutable env rs s id : adopted s.(gov) id -> same_at Proposals id s.(gov) (run_all env rs s).(gov).
Proof.
  revert s. induction rs as [|r rs IH]; intros s Ha; cbn [run_all fold_left]; [apply same_at_refl|].
  assert (same_at Proposals id s.(gov) (fst (run env r s)).(gov)) as Hstep.
  { destruct (update_of id r) as [[data ->]|Hr].
    - cbn [run]. unfold st_bind. pose proof (update_adopted env id data s Ha) as H. by destruct (update_proposal env id data s) as [s' [y|e]].
    - destruct Ha as (x & Hx & _). by eapply run_calm_proposal. }
  eapply same_at_trans; [exact Hstep|]. apply IH. by apply (same_adopted _ _ id Hstep).
Qed.

(** The tally of a proposal at the reading of the clock that a request begins
    with, without a blocker. *)
Definition ready (env : environment) (s : community) (id : string) : Prop := exists t,
  proposal_tally (public_record_required env) env.(choice_order) s.(gov) id (env.(now_at) s.(asked)) = Ok t /\ t.(t_blockers) = [].

(** Not adopted, unless it was ready before. *)
Definition unadopted (P : Prop) (id : string) (s : community) : Prop := P \/ ~ adopted s.(gov) id.

Lemma calm_unadopted {A} P id (m : op A) : (forall g0, keeps (calm Proposals id g0) m) -> keeps (unadopted P id) m.
Proof.
  intros H s [HP|Ha]; [by left|]. right. intros Ha'. apply Ha. apply (same_adopted _ _ id (H s.(gov) s (same_at_refl _ _ _))). exact Ha'.
Qed.

Section adoption.
Context (env : environment) (P : Prop) (id : string).
#[local] Hint Resolve fetch_calm get_gov_calm ask_calm save_calm changed_calm append_calm record_evidence_calm : keeps.

Lemma set_unadopted field v : field <> "status" \/ py_eq v (VStr "adopted") = false -> keeps (unadopted P id) (set_field Proposals id field v).
Proof.
  intros H. apply keeps_modify. intros s [HP|Ha]; [by left|]. right. cbn [gov]. destruct (alookup (table_of Proposals s.(gov)) id) as [x|] eqn:E; [|done].
  intros (y & Hy & Hst). apply Ha. cbn [proposals with_table] in Hy. rewrite lookup_put, decide_True in Hy by done. simplify_eq. exists x. split; [done|].
  unfold is_status, dget_none, dget_or in *. rewrite dget_dset in Hst. destruct (String.eqb_spec "status" field) as [<-|Hne]; [|done].
  destruct H as [H|H]; [done|]. by rewrite H in Hst.
Qed.

Lemma update_text_unadopted data : keeps (unadopted P id) (update_text env id data).
Proof.
  unfold update_text. destruct (negb _); [apply keeps_ret|]. apply keeps_bind.
  { apply keeps_iter. intros [f l] Hin. cbn [fst snd]. case_match; [|apply keeps_ret]. apply set_unadopted. left.
    unfold text_limits in Hin. intros ->. repeat (apply elem_of_cons in Hin as [Hin|Hin]; [done|]). by apply elem_of_nil in Hin. }
  intros _. apply keeps_bind.
  { apply keeps_when, keeps_lift_bind. intros c _. apply keeps_bind; [|intros _]; apply set_unadopted; by left. }
  intros _. apply keeps_bind; [by intros s|intros x]. apply keeps_lift_bind. intros v _. apply keeps_bind; [apply set_unadopted; by left|intros _].
  unfold _utc_now. apply keeps_bind; [by intros s|intros t]. apply keeps_bind; [apply set_unadopted; by left|intros _; apply keeps_ret].
Qed.

(** A status that is admitted is not that of adoption, or the tally was ready. *)
Lemma admitted x status s s' : admit_status env id x status s = (s', Ok tt) -> alookup s.(gov).(proposals) id = Some x ->
  is_status x "adopted" = false -> status <> "adopted" \/ ready env s id.
Proof.
  intros H Hx Hst. destruct (String.eqb_spec status "adopted") as [->|Hne]; [right|by left]. revert H. unfold admit_status. cbn [existsb negb STATUSES].
  rewrite Hst. cbn [String.eqb Ascii.eqb Bool.eqb orb andb negb]. rewrite st_ret_bind. unfold _utc_now. unfold st_bind at 1, ask.
  unfold st_bind at 1, get_gov. cbn [gov]. destruct (proposal_tally _ _ _ _ _) as [t|e] eqn:Et; [|done]. rewrite st_lift_Ok.
  destruct (binding_ready t) eqn:Er; [|done]. intros _. exists t. split; [done|]. unfold binding_ready in Er. by destruct (t_blockers t).
Qed.

Lemma update_status_unadopted data s : (ready env s id -> P) -> ~ adopted s.(gov) id -> unadopted P id (fst (update_status env id data s)).
Proof.
  intros HP Ha. unfold update_status. destruct (dget data "status") as [v|]; [|by right]. cbv zeta. set (status := lower (strip (py_str v))).
  unfold st_bind at 1, fetch. cbn [table_of]. destruct (alookup (proposals (gov s)) id) as [x|] eqn:Ex; [|by right].
  assert (is_status x "adopted" = false) as Hst by (destruct (is_status x "adopted") eqn:E; [exfalso; apply Ha; by exists x|done]).
  pose proof (calm_unadopted P id (admit_status env id x status) (fun g0 => admit_status_calm _ _ g0 env id x status) s (or_intror Ha)) as Hcalm.
  unfold st_bind at 1. destruct (admit_status env id x status s) as [s1 [[]|e]] eqn:Ead; [|done]. cbn [fst] in Hcalm.
  enough (keeps (unadopted P id) (let* now_ := st_lift (dindex x "status") in
            if py_eq now_ (VStr status) then st_ret false else set_field Proposals id "status" (VStr status) ;;; st_ret true)) as H by (by apply H).
  apply keeps_lift_bind. intros v' _. case_match; [apply keeps_ret|]. apply keeps_bind; [|intros _; apply keeps_ret].
  destruct (admitted _ _ _ _ Ead Ex Hst) as [Hne|Hr].
  - apply set_unadopted. right. cbn. by apply str_eqb_ne.
  - apply HP in Hr. intros s2 _. by left.
Qed.

Lemma update_unadopted data s : (ready env s id -> P) -> ~ adopted s.(gov) id -> unadopted P id (fst (update_proposal env id data s)).
Proof.
  intros HP Ha. unfold update_proposal. unfold st_bind at 1, get_gov. destruct (find_proposal _ _) as [x|e]; [|by right]. rewrite st_lift_Ok.
  destruct (_ && _ && touches _ _); [by right|]. destruct (_ && _ && _); [by right|]. unfold st_bind at 1.
  pose proof (update_status_unadopted data s HP Ha) as H. destruct (update_status env id data s) as [s1 [b1|e]]; [|done]. cbn [fst] in H. revert s1 H.
  enough (keeps (unadopted P id) (let* b2 := update_text env id data in
    st_when (b1 || b2) (_changed env ;;; st_when (touches data material && public_record_required env) (_record_proposal_version env id ;;; st_ret tt)) ;;;
    fetch Proposals id)) as Hk by done.
  apply keeps_bind; [apply update_text_unadopted|intros b2]. apply calm_unadopted. intros g0. apply keeps_bind; [|intros _; apply fetch_calm].
  apply keeps_when, keeps_bind; [apply changed_calm|intros _]. unfold _record_proposal_version. keeps_tac.
Qed.

Lemma create_unadopted data : keeps (unadopted P id) (create_proposal env data).
Proof.
  unfold create_proposal, token, _utc_now. apply keeps_bind; [keeps_tac; by intros s|intros given]. cbv zeta. case_match; [apply keeps_raise|].
  apply keeps_bind; [by intros s|intros g]. case_match; [apply keeps_raise|]. apply keeps_bind; [by intros s|intros now]. apply keeps_bind; [keeps_tac|intros e].
  apply keeps_lift_bind. intros c _. apply keeps_bind.
  - apply keeps_modify. intros s [HP|Ha]; [by left|]. right. cbn [gov]. intros (y & Hy & Hst). apply Ha. cbn [proposals with_table table_of] in Hy.
    rewrite lookup_put in Hy. destruct (decide _); [by simplify_eq|]. by exists y.
  - intros _. apply calm_unadopted. intros g0. unfold _record_proposal_version. keeps_tac.
Qed.
End adoption.

Lemma all_res_Forall {A} (f : A -> res bool) l : all_res f l = Ok true -> Forall (fun x => f x = Ok true) l.
Proof. induction l as [|x l IH]; cbn [all_res]; intros H; [constructor|]. destruct (f x) as [[]|e] eqn:E; [|done..]. constructor; auto. Qed.

Lemma existsb_unpublished l : existsb unpublished l = false -> Forall (fun x => unpublished x = false) l.
Proof. induction l as [|x l IH]; cbn; [constructor|]. intros H%orb_false_iff. constructor; [|apply IH]; apply H. Qed.

(** A list whose selection is empty is rejected throughout. *)
Lemma filter_res_nil {A} (f : A -> res bool) l : filter_res f l = Ok [] -> Forall (fun x => f x = Ok false) l.
Proof.
  induction l as [|x l IH]; cbn; intros H; [constructor|]. destruct (f x) as [b|e] eqn:E; [|done].
  cbn in H. destruct (filter_res f l) as [l'|e]; [|done]. destruct b; [done|]. cbn in H. simplify_eq. constructor; auto.
Qed.

Lemma counts_of order vs raw c : map_res (fun c => n ← count_choice c vs; Ok (c, n)) order = Ok raw -> c ∈ order -> count_choice c vs = Ok (raw_of raw c).
Proof.
  revert raw. induction order as [|d order IH]; intros raw H Hc; [by apply elem_of_nil in Hc|]. cbn in H.
  destruct (count_choice d vs) as [n|e] eqn:En; [|done]. cbn in H. destruct (map_res _ order) as [rest|e] eqn:Er; [|done]. cbn in H. simplify_eq.
  unfold raw_of. cbn [alookup]. destruct (String.eqb_spec c d) as [->|Hne]; [done|].
  apply elem_of_cons in Hc as [->|Hc]; [done|]. by apply IH.
Qed.

Lemma no_blocker (b : bool) (text : string) : (if b then [text] else []) = [] -> b = false.
Proof. by destruct b. Qed.

(** What makes the vote on a proposal binding at a moment, over the votes and the
    invitations of its present version. *)
Record binding (public : bool) (order : list string) (g : governance) (now : Z) (p : pydict)
    (vs invites : list pydict) (yes no : Z) (durable : float) : Prop := {
  b_participation : forall m, policy_int g.(policy) "minRawVotes" = Ok m -> m <= Z.of_nat (length vs);
  b_counted : ("yes" ∈ order -> count_choice "yes" vs = Ok yes) /\ ("no" ∈ order -> count_choice "no" vs = Ok no);
  b_decisive : yes + no <> 0;
  b_approval : forall v m, dindex g.(policy) "minApprovalRatio" = Ok v -> py_float v = Ok m -> flt (int_div yes (yes + no)) m = false;
  b_durable : forall v m, dindex g.(policy) "minDurableVoteUnits" = Ok v -> py_float v = Ok m -> flt durable m = false;
  b_windows : truthy (dget_or g.(policy) "requireAllIssuedWindowsClosedForBinding" (VBool true)) = true ->
    invites <> [] /\ Forall (fun i => window_closed now i = Ok true /\ active_window now i = Ok false) invites;
  b_published : public = true -> Forall (fun x => unpublished x = false) (p :: invites ++ vs);
}.

(** What a tally without a blocker says. *)
Lemma ready_means public order g id now t : proposal_tally public order g id now = Ok t -> t.(t_blockers) = [] ->
  exists p vs invites, alookup g.(proposals) id = Some p /\
    filter_res (counted_for id p) (map snd g.(votes)) = Ok vs /\ filter_res (counted_for id p) (map snd g.(invitations)) = Ok invites /\
    t.(t_votes) = Z.of_nat (length vs) /\ t.(t_proposal) = p /\
    binding public order g now p vs invites (raw_of t.(t_raw) "yes") (raw_of t.(t_raw) "no") t.(t_total_durable).
Proof.
  unfold proposal_tally. intros H. destruct (alookup _ id) as [x|]; [|done]. destruct (null x); [done|]. pyinv. destruct x3 as [hype durable]. pyinv. subst t. cbn [t_blockers t_votes t_raw t_proposal t_total_durable].
  intros Hb. unfold blocker in Hb. repeat match goal with H : _ ++ _ = [] |- _ => apply app_eq_nil in H as [? H] end.
  repeat match goal with H : (if _ then [_] else []) = [] |- _ => apply no_blocker in H end.
  eexists _, _, _. split_and!; [done..|]. set (yes := raw_of _ "yes") in *. set (no := raw_of _ "no") in *.
  match goal with H : (if yes + no =? 0 then Ok true else _) = _ |- _ => rename H into Ha; destruct (Z.eqb_spec (yes + no) 0) as [?|Hd]; [by simplify_eq|] end.
  constructor; [| |done| | | |].
  - intros m Hm. match goal with H : (_ <? _) = false |- _ => apply Z.ltb_ge in H end. congruence.
  - split; intros Hc; by eapply counts_of.
  - intros v m Hv Hm. rewrite Hv in Ha. cbn in Ha. rewrite Hm in Ha. cbn in Ha. by simplify_eq.
  - intros v m Hv Hm. congruence.
  - intros Ht. rewrite Ht in Hb. cbn in Hb. destruct x4; [|done].
    destruct (null x1) eqn:E1; [done|]. destruct (null x3) eqn:E3; [|done]. destruct x3; [|done]. split; [by destruct x1|].
    apply Forall_and; split; [by apply all_res_Forall|by apply filter_res_nil].
  - intros ->. cbn in *. constructor; [done|]. apply Forall_app; split; by apply existsb_unpublished.
Qed.

(** C22: a proposal is adopted only by the vote. The one request after which a
    proposal is adopted that was not before is an update of it, and the tally taken
    at the reading of the clock with which that request begins has no blocker: over
    the votes and the invitations of the proposal's present version there are
    enough votes for the policy, some of them decisive, approved in the proportion
    it asks for and with enough durable units; where the policy requires it, there
    are invitations and the window of each is closed at that reading; and where a
    public record is kept, the proposal, each invitation and each vote is published
    in it. *)
Theorem adoption_follows_the_tally env r s id :
  ~ adopted s.(gov) id -> adopted (fst (run env r s)).(gov) id ->
  let now := env.(now_at) s.(asked) in let public := public_record_required env in
  exists data p vs invites t, r = UpdateProposal id data /\
    proposal_tally public env.(choice_order) s.(gov) id now = Ok t /\ t.(t_blockers) = [] /\
    alookup s.(gov).(proposals) id = Some p /\
    filter_res (counted_for id p) (map snd s.(gov).(votes)) = Ok vs /\
    filter_res (counted_for id p) (map snd s.(gov).(invitations)) = Ok invites /\
    t.(t_votes) = Z.of_nat (length vs) /\ t.(t_proposal) = p /\
    binding public env.(choice_order) s.(gov) now p vs invites (raw_of t.(t_raw) "yes") (raw_of t.(t_raw) "no") t.(t_total_durable).
Proof.
  intros Ha Ha'. cbv zeta. destruct (update_of id r) as [[data ->]|Hr].
  - assert (unadopted (ready env s id) id (fst (run env (UpdateProposal id data) s))) as [(t & Ht & Hb)|H]; [| |done].
    + cbn [run]. unfold st_bind. pose proof (update_unadopted env (ready env s id) id data s (fun H => H) Ha) as H.
      by destruct (update_proposal env id data s) as [s' [y|e]].
    + destruct (ready_means _ _ _ _ _ _ Ht Hb) as (p & vs & invites & ? & ? & ? & ? & ? & ?). by exists data, p, vs, invites, t.
  - exfalso. assert (keeps (unadopted False id) (run env r)) as H.
    { destruct (creation r) as [[data' ->]|Hc]; [|by apply calm_unadopted; intros g0; apply run_calm].
      cbn [run]. apply keeps_bind; [apply create_unadopted|intros ?; apply keeps_ret]. }
    by destruct (H s (or_intror Ha)).
Qed.

(** *** A run *)

Lemma adopted_decide g id : match alookup g.(proposals) id with Some x => is_status x "adopted" | None => false end = true -> adopted g id.
Proof. unfold adopted. destruct (alookup _ id) as [x|]; [|done]. intros H. by exists x. Qed.

(** One vote, for it, and the only invitation settled at the reading of the clock. *)
Lemma adoption_follows_the_tally_witness :
  exists p vs invites t, proposal_tally false CHOICES voted.(gov) "p" (739616 * day) = Ok t /\ t.(t_blockers) = [] /\
    filter_res (counted_for "p" p) (map snd voted.(gov).(votes)) = Ok vs /\ 1 <= Z.of_nat (length vs) /\ raw_of t.(t_raw) "yes" + raw_of t.(t_raw) "no" <> 0 /\
    filter_res (counted_for "p" p) (map snd voted.(gov).(invitations)) = Ok invites /\
    invites <> [] /\ Forall (fun i => window_closed (739616 * day) i = Ok true /\ active_window (739616 * day) i = Ok false) invites.
Proof.
  destruct (adoption_follows_the_tally sample_env adoption_request voted "p") as (data & p & vs & invites & t & _ & Ht & Hb & _ & Hv & Hi & _ & _ & B).
  - intros (x & Hx & Hs). revert Hs. enough (match alookup (proposals (gov voted)) "p" with Some x => is_status x "adopted" | None => true end = false) as H
      by (rewrite Hx in H; rewrite H; discriminate). vm_compute. reflexivity.
  - apply adopted_decide. vm_compute. reflexivity.
  - exists p, vs, invites, t. split; [exact Ht|]. split; [exact Hb|]. split; [exact Hv|]. split; [|split; [exact (b_decisive _ _ _ _ _ _ _ _ _ _ B)|split; [exact Hi|]]].
    + apply (b_participation _ _ _ _ _ _ _ _ _ _ B). vm_compute. reflexivity.
    + apply (b_windows _ _ _ _ _ _ _ _ _ _ B). vm_compute. reflexivity.
Defined.

(** Rewording the proposal, or opening it again, is refused from then on. *)
Lemma adopted_proposals_are_immutable_witness :
  let s := run_all sample_env [adoption_request] voted in
  same_at Proposals "p" s.(gov) (run_all sample_env [UpdateProposal "p" [("title", VStr "Other")]; UpdateProposal "p" [("status", VStr "open")]] s).(gov).
Proof. intros s. apply adopted_proposals_are_immutable, adopted_decide. vm_compute. reflexivity. Defined.
