(* ===== verification/GovernanceBallots.v ===== *)
(** * Where votes come from (backend/community_governance.py)

    A vote is stored once, by an invitation of the account to the present version
    of an open proposal, in its window; and it never changes afterwards. Runs show
    what the code also does: it adopts a proposal and replaces its change at once,
    a refused update keeps half of its changes, an undelivered invitation blocks
    its proposal, and two accounts can share the identifier of a vote. *)

From S2P Require Import Prelude PyStr PyFloat PyVal PyFacts StateLogic Json Sha256 JsonText PersistenceChain CivilTime Governance GovernanceProposals GovernanceVotes GovernanceTypes GovernanceAdoption.
From Stdlib Require Import SpecFloat.

#[local] Open Scope string_scope.
#[local] Open Scope list_scope.
#[local] Open Scope Z_scope.
#[local] Open Scope st_scope.

(** ** Storing a vote *)

Definition is_cast (r : request) : bool := match r with CastVote _ _ _ _ | CastAccountVote _ _ _ => true | _ => false end.

Lemma run_calm_votes env r id g0 : is_cast r = false -> keeps (calm Votes id g0) (run env r).
Proof.
  intros Hr. assert (Votes <> Invitations /\ Votes <> Accounts) as [Hk Ha] by done.
  destruct r; cbn [run]; try done; (apply keeps_bind; [|intros ?; apply keeps_ret]);
    auto using patch_policy_calm, upsert_account_calm, prepare_invitations_calm, deliver_calm, reconcile_calm, apply_policy_calm, mark_applied_calm.
  1,2: by apply accounts_calm.
  - apply create_proposal_calm; [done|by left].
  - apply update_proposal_elsewhere. by left.
  - unfold vote_context, _utc_now. keeps_tac; apply get_gov_calm || apply ask_calm.
  - unfold monitor, moment, _utc_now. keeps_tac; apply get_gov_calm || apply ask_calm.
  - unfold tally_at, moment, _utc_now. keeps_tac; apply get_gov_calm || apply ask_calm.
  - unfold snapshot. keeps_tac; apply get_gov_calm || apply ask_calm.
Qed.

(** The votes of a later state: those there were, and one that agrees with [vote] at most. *)
Definition only_adds (vid : string) (vote : pydict) (g g' : governance) : Prop :=
  (forall id, id <> vid -> same_at Votes id g g') /\
  match alookup g'.(votes) vid with Some v' => agree Votes vote v' | None => True end.

Lemma store_vote_adds env key vid vote s : alookup s.(gov).(votes) vid = None ->
  only_adds vid vote s.(gov) (fst (store_vote env key vid vote s)).(gov).
Proof.
  intros Hnone. unfold store_vote. pose proof (commitment_agrees env vote s) as Hc. unfold st_bind at 1.
  destruct (_ensure_vote_commitment env vote s) as [s1 [vote'|e]]; destruct Hc as [Hg Hc].
  2:{ cbn [fst]. rewrite Hg. split; [intros id _; apply same_at_refl|by rewrite Hnone]. }
  set (s2 := {| gov := with_table Votes (aput (votes (gov s1)) vid vote') (gov s1); disk := disk s1; asked := asked s1 |}).
  assert (forall id, same_at Votes id s2.(gov) (fst ((set_field Invitations key "status" (VStr "voted") ;;;
     let* cast_at := st_lift (dindex vote' "castAt") in set_field Invitations key "votedAt" cast_at ;;; _changed env ;;;
     st_when (public_record_required env) (_record_vote env vid ;;; st_ret tt) ;;; fetch Votes vid) s2)).(gov)) as Hrest.
  { intros id. match goal with |- same_at _ _ _ (gov (fst (?m s2))) => assert (keeps (calm Votes id s2.(gov)) m) as Hm end; [|by apply Hm, same_at_refl].
    apply keeps_bind; [by apply set_field_calm; left|intros _]. apply keeps_lift_bind. intros t _.
    apply keeps_bind; [by apply set_field_calm; left|intros _]. apply keeps_bind; [apply changed_calm|intros _].
    apply keeps_bind; [|intros _; apply fetch_calm]. apply keeps_when, keeps_bind; [apply record_vote_calm|intros _; apply keeps_ret]. }
  match goal with |- only_adds _ _ _ (gov (fst ?r)) => match type of Hrest with forall id, same_at _ _ _ (gov (fst ?r')) => change r with r'; set (g' := gov (fst r')) in * end end.
  clearbody g'. unfold s2, same_at in Hrest. cbn [gov table_of votes with_table] in Hrest. split.
  - intros id Hid. specialize (Hrest id). unfold same_at. cbn [table_of]. rewrite lookup_put, decide_False, Hg in Hrest by done. exact Hrest.
  - specialize (Hrest vid). rewrite lookup_put, decide_True in Hrest by done.
    destruct (alookup (votes g') vid) as [v'|]; [|done]. intros f Hf. by rewrite (Hrest f Hf), (Hc f Hf).
Qed.

(** ** Votes and the requests they come from *)

(** A request may use an invitation of an account: it has the credential of the
    mail, and the session of the account where the policy asks for it; or it comes
    from the session of the account, which is active. *)
Definition entitled (g : governance) (r : request) (account : string) (invite : pydict) : Prop :=
  match r with
  | CastVote token_ _ user only =>
      py_str (dget_or invite "tokenHash" (VStr "")) = token_hash_of token_ /\
      (truthy (dget_or g.(policy) "requireAuthenticatedAccount" (VBool true)) = true -> only = false -> user = Some account)
  | CastAccountVote _ _ a => account = strip a /\ is_Some (active_account g account)
  | _ => False
  end.

Definition choice_of (r : request) : res string :=
  match r with CastVote _ c _ _ | CastAccountVote _ c _ => normal_choice c | _ => Raise TypeError end.

(** The vote that a request casts on a document. *)
Definition cast_from (g : governance) (r : request) (vid : string) (vote : pydict) : Prop :=
  exists now key invite p proposal account n c,
    ((key, invite) ∈ g.(invitations)) /\ is_status invite "sent" = true /\ in_window now invite = Ok true /\
    dget invite "proposalId" = Some (VStr p) /\ dget invite "userId" = Some (VStr account) /\ dget invite "proposalVersion" = Some (VInt n) /\
    alookup g.(proposals) p = Some proposal /\ is_status proposal "open" = true /\ dget proposal "version" = Some (VInt n) /\
    entitled g r account invite /\ choice_of r = Ok c /\
    vid = vote_id_of (VStr p) (VStr account) (VInt n) /\
    dget vote "proposalId" = Some (VStr p) /\ dget vote "userId" = Some (VStr account) /\ dget vote "proposalVersion" = Some (VInt n) /\
    dget vote "invitationId" = dget invite "id" /\ dget vote "choice" = Some (VStr c) /\ dget vote "castAt" = Some (VStr (_iso now)).

(** What a request does to the votes: nothing, or it casts one. *)
Definition casts (g : governance) (r : request) (g' : governance) : Prop :=
  (forall id, same_at Votes id g g') \/
  exists vid vote, alookup g.(votes) vid = None /\ cast_from g r vid vote /\ only_adds vid vote g g'.

Lemma casts_nothing g r g' : g' = g -> casts g r g'.
Proof. intros ->. left. intros id. apply same_at_refl. Qed.

Lemma vote_by_invitation_casts env key invite p proposal account n c now method r s :
  fits (schema_of Invitations key) invite -> ((key, invite) ∈ s.(gov).(invitations)) -> is_status invite "sent" = true ->
  in_window now invite = Ok true -> dget invite "proposalId" = Some (VStr p) -> dget invite "userId" = Some (VStr account) ->
  dget invite "proposalVersion" = Some (VInt n) -> alookup s.(gov).(proposals) p = Some proposal -> is_status proposal "open" = true ->
  dget proposal "version" = Some (VInt n) -> entitled s.(gov) r account invite -> choice_of r = Ok c ->
  casts s.(gov) r (fst (vote_by_invitation env key invite proposal (VStr account) c now method s)).(gov).
Proof.
  intros Hfit Hin Hsent Hwin Hp Hu Hn Hl Hopen Hv Hent Hc. destruct (fits_index _ _ "id" _ Hfit ltac:(in_schema)) as (i & Hi & _).
  unfold vote_by_invitation, invited_vote_id, make_vote, dindex in *. rewrite Hp, Hn. destruct (dget invite "id") as [i'|] eqn:Ei; [|done].
  unfold st_bind at 1, get_gov. cbn [mbind res_bind]. rewrite st_lift_Ok.
  destruct (alookup (votes (gov s)) _) as [v|] eqn:Enone; [by apply casts_nothing|].
  destruct (_proposal_hype _ _ _) as [hd|e]; [|by apply casts_nothing]. rewrite !st_lift_Ok. right. do 2 eexists. split; [exact Enone|].
  split; [|by apply store_vote_adds]. exists now, key, invite, p, proposal, account, n, c. rewrite Ei. by split_and!.
Qed.

Lemma get_int_field sc x k n z d P : fits sc x -> (k, P) ∈ sc -> (forall v, P v -> at_least n v) -> get_int x k d = Ok z -> dget x k = Some (VInt z).
Proof.
  intros Hx Hin HP H. destruct (fits_get _ _ _ _ Hx Hin) as (v & Hv & (z' & -> & _)%HP). unfold get_int, dget_or in H. rewrite Hv in *. cbn in H. by simplify_eq.
Qed.

Lemma text_field sc x k : fits sc x -> (k, is_text) ∈ sc -> exists t, dget x k = Some (VStr t).
Proof. intros Hx Hin. destruct (fits_get _ _ _ _ Hx Hin) as (v & Hv & t & ->). by exists t. Qed.

(** What the checks of a mailed invitation establish. *)
Lemma usable_means g key invite proposal : well_formed g -> fits (schema_of Invitations key) invite -> usable_invitation g invite = Ok proposal ->
  exists p n, is_status invite "sent" = true /\ dget invite "proposalId" = Some (VStr p) /\ dget invite "proposalVersion" = Some (VInt n) /\
    alookup g.(proposals) p = Some proposal /\ is_status proposal "open" = true /\ dget proposal "version" = Some (VInt n).
Proof.
  intros Hg Hi H. destruct (text_field _ _ "proposalId" Hi ltac:(in_schema)) as [p Hp].
  destruct (fits_get _ _ "status" _ Hi ltac:(in_schema)) as (v & Hv & status & -> & _).
  assert (dget_none invite "status" = VStr status) as Hst by (unfold dget_none, dget_or; by rewrite Hv).
  unfold usable_invitation, in_set, dindex in H. unfold is_status at 1. rewrite Hp, Hst in *. cbn [mbind res_bind existsb] in H.
  rewrite orb_false_r in H. destruct (py_eq (VStr status) (VStr "voted")) eqn:Ev; [by destruct (_ || _)|]. rewrite orb_false_r in H.
  destruct (py_eq (VStr status) (VStr "sent")) eqn:Hsent; [|done]. cbn [negb] in H.
  cbn [get_by mbind res_bind] in H. destruct (alookup _ p) as [[|f l]|] eqn:El; [done| |done]. set (x := f :: l) in *.
  pose proof (found g Proposals p x Hg El) as Hx. pyinv. destruct (Z.eqb_spec x0 x1) as [<-|]; [|done]. cbn [negb] in H. destruct (is_status x "open") eqn:Eo; [|done].
  cbn [negb] in H. injection H as <-. exists p, x0. split_and!; try done.
  - by eapply (get_int_field _ _ "proposalVersion" 1); [exact Hi|in_schema| |].
  - by eapply (get_int_field _ _ "version" 1); [exact Hx|in_schema| |].
Qed.

Lemma cast_vote_casts env t c user only s : well_formed s.(gov) ->
  casts s.(gov) (CastVote t c user only) (fst (cast_vote env t c user only s)).(gov).
Proof.
  intros Hg. unfold cast_vote. destruct (normal_choice c) as [choice|e] eqn:Hc; [|by apply casts_nothing]. rewrite st_lift_Ok.
  unfold st_bind at 1, _utc_now, ask. unfold st_bind at 1, get_gov. cbn [gov]. set (now := now_at env (asked s)).
  match goal with |- context [{| gov := gov s; disk := disk s; asked := ?n |}] => set (s1 := {| gov := gov s; disk := disk s; asked := n |}) end.
  destruct (find_credential _ _) as [[[key invite]|]|e] eqn:Ef; [|by apply casts_nothing..]. rewrite st_lift_Ok.
  apply find_credential_in in Ef as [Hin Htoken]. destruct invite as [|f l]; [by apply casts_nothing|]. set (invite := f :: l) in *.
  assert (fits (schema_of Invitations key) invite) as Hi by (by apply (entry_fits s.(gov))).
  destruct (usable_invitation _ _) as [proposal|e] eqn:Eu; [|by apply casts_nothing]. rewrite st_lift_Ok.
  destruct (usable_means _ _ _ _ Hg Hi Eu) as (p & n & Hsent & Hp & Hn & Hl & Hopen & Hv).
  destruct (v ← dindex invite "sentAt"; _parse_time v) as [sent|e] eqn:Es; [|by apply casts_nothing]. rewrite st_lift_Ok.
  destruct (v ← dindex invite "expiresAt"; _parse_time v) as [expires|e] eqn:Ee; [|by apply casts_nothing]. rewrite st_lift_Ok.
  destruct ((now <? sent) || (expires <? now)) eqn:Ewin.
  { left. intros id. match goal with |- same_at _ _ _ (gov (fst (?m s1))) => assert (keeps (calm Votes id (gov s)) m) as Hm end; [|by apply Hm, same_at_refl].
    apply keeps_bind; [apply set_field_calm; by left|intros _]. apply keeps_bind; [apply changed_calm|intros _; apply keeps_raise]. }
  apply orb_false_iff in Ewin as [Ew1%Z.ltb_ge Ew2%Z.ltb_ge].
  assert (in_window now invite = Ok true) as Hwin.
  { unfold in_window. rewrite Es. cbn [mbind res_bind]. rewrite (proj2 (Z.leb_le _ _) Ew1), Ee. cbn [mbind res_bind]. by rewrite (proj2 (Z.leb_le _ _) Ew2). }
  destruct (text_field _ _ "userId" Hi ltac:(in_schema)) as [account Hu]. cbv zeta.
  set (require := truthy _ && negb only). destruct (require && String.eqb (default "" user) "") eqn:E1; [by apply casts_nothing|].
  unfold dindex at 1. rewrite Hu, st_lift_Ok. destruct (require && negb _) eqn:E2; [by apply casts_nothing|].
  refine (vote_by_invitation_casts env key invite p proposal account n choice now [] (CastVote t c user only) s1 Hi Hin Hsent Hwin Hp Hu Hn Hl Hopen Hv _ Hc).
  split; [exact Htoken|]. intros Hpolicy ->. change (gov s1) with (gov s) in Hpolicy. unfold require in *. rewrite Hpolicy in *. cbn [negb andb] in E1, E2.
  apply negb_false_iff in E2. cbn in E2. apply String.eqb_eq in E2. destruct user as [u|]; [|discriminate E1]. cbn in E2. by rewrite E2.
Qed.

Lemma cast_account_vote_casts env id c a s : well_formed s.(gov) ->
  casts s.(gov) (CastAccountVote id c a) (fst (cast_account_vote env id c a s)).(gov).
Proof.
  intros Hg. unfold cast_account_vote. cbv zeta. destruct (normal_choice c) as [choice|e] eqn:Hc; [|by apply casts_nothing]. rewrite st_lift_Ok.
  unfold st_bind at 1, _utc_now, ask. unfold st_bind at 1, get_gov. cbn [gov]. set (now := now_at env (asked s)).
  match goal with |- context [{| gov := gov s; disk := disk s; asked := ?n |}] => set (s1 := {| gov := gov s; disk := disk s; asked := n |}) end.
  destruct (active_account _ _) as [account|] eqn:Ea; [|by apply casts_nothing].
  destruct (alookup (proposals (gov s)) id) as [[|f l]|] eqn:El; [by apply casts_nothing| |by apply casts_nothing]. set (proposal := f :: l) in *.
  destruct (is_status proposal "open") eqn:Eo; [|by apply casts_nothing]. cbn [negb].
  pose proof (found (gov s) Proposals id proposal Hg El) as Hx.
  destruct (get_int proposal "version" 1) as [n|e] eqn:En; [|by apply casts_nothing]. rewrite st_lift_Ok.
  destruct (open_invitations _ _ _ _ _) as [active|e] eqn:Eact; [|by apply casts_nothing]. rewrite st_lift_Ok.
  destruct active as [|[key invite] [|]]; [by apply casts_nothing| |by apply casts_nothing].
  destruct (filter_res_in _ _ _ (key, invite) Eact ltac:(left)) as [Hin Hopen]. cbn [snd] in Hopen.
  assert (fits (schema_of Invitations key) invite) as Hi by (by apply (entry_fits s.(gov))).
  destruct (text_field _ _ "userId" Hi ltac:(in_schema)) as [account' Hu]. destruct (text_field _ _ "proposalId" Hi ltac:(in_schema)) as [p Hp].
  destruct (fits_get _ _ "id" _ Hx ltac:(in_schema)) as (i & Hid & ->).
  destruct (negb _ || negb _) eqn:E1 in Hopen; [done|]. apply orb_false_iff in E1 as [E1%negb_false_iff E2%negb_false_iff].
  unfold dget_none, dget_or in E1, E2. rewrite Hp, Hid in E1. rewrite Hu in E2. cbn in E1, E2. apply String.eqb_eq in E1 as ->. apply String.eqb_eq in E2 as ->.
  destruct (get_int invite "proposalVersion" 0) as [n'|e] eqn:En'; [|done]. cbn [mbind res_bind] in Hopen.
  destruct (_ || _ || _ || _) eqn:E3 in Hopen; [done|]. apply orb_false_iff in E3 as [E3 _]. apply orb_false_iff in E3 as [E3 _].
  apply orb_false_iff in E3 as [E3%negb_false_iff%Z.eqb_eq E4%negb_false_iff]. subst n'.
  apply (vote_by_invitation_casts env key invite id proposal (strip a) n choice now _ (CastAccountVote id c a) s1 Hi Hin E4 Hopen Hp Hu); [|exact El|exact Eo| | |exact Hc].
  - eapply (get_int_field _ _ "proposalVersion" 1); [exact Hi|in_schema|by intros v|exact En'].
  - eapply (get_int_field _ _ "version" 1); [exact Hx|in_schema|by intros v|exact En].
  - split; [done|]. by exists account.
Qed.

Lemma run_casts env r s : well_formed s.(gov) -> casts s.(gov) r (fst (run env r s)).(gov).
Proof.
  intros Hg. destruct (is_cast r) eqn:Er.
  - destruct r; try done; cbn [run]; unfold st_bind at 1.
    + pose proof (cast_vote_casts env token_ choice authenticated_user_id allow_token_only s Hg) as H. by destruct (cast_vote _ _ _ _ _ s) as [s' [v|e]].
    + pose proof (cast_account_vote_casts env proposal_id choice account_id s Hg) as H. by destruct (cast_account_vote _ _ _ _ s) as [s' [v|e]].
  - left. intros id. by apply (run_calm_votes env r id s.(gov) Er), same_at_refl.
Qed.

Lemma cast_from_agree g r vid vote vote' : agree Votes vote vote' -> cast_from g r vid vote -> cast_from g r vid vote'.
Proof.
  intros Ha (now & key & invite & p & x & account & n & c & H). exists now, key, invite, p, x, account, n, c.
  rewrite !(Ha _) by (apply (bool_decide_unpack _); vm_compute; exact I). exact H.
Qed.

(** A request keeps the core of every vote, and every new vote is one that it casts. *)
Lemma run_votes env r s vid vote : well_formed s.(gov) -> alookup (fst (run env r s)).(gov).(votes) vid = Some vote ->
  (exists old, alookup s.(gov).(votes) vid = Some old /\ agree Votes old vote) \/
  alookup s.(gov).(votes) vid = None /\ cast_from s.(gov) r vid vote.
Proof.
  intros Hg Hv. destruct (run_casts env r s Hg) as [Hsame|(vid' & vote' & Hnone & Hcast & Hadd & Hnew)].
  - left. specialize (Hsame vid). unfold same_at in Hsame. cbn [table_of] in Hsame. rewrite Hv in Hsame. destruct (alookup (votes (gov s)) vid) as [old|]; [by exists old|done].
  - destruct (decide (vid = vid')) as [->|Hne].
    + right. split; [done|]. rewrite Hv in Hnew. by eapply cast_from_agree.
    + left. specialize (Hadd vid Hne). unfold same_at in Hadd. cbn [table_of] in Hadd. rewrite Hv in Hadd. destruct (alookup (votes (gov s)) vid) as [old|]; [by exists old|done].
Qed.

Lemma run_keeps_votes env r s vid old : well_formed s.(gov) -> alookup s.(gov).(votes) vid = Some old ->
  exists vote, alookup (fst (run env r s)).(gov).(votes) vid = Some vote /\ agree Votes old vote.
Proof.
  intros Hg Ho. assert (same_at Votes vid s.(gov) (fst (run env r s)).(gov)) as H.
  { destruct (run_casts env r s Hg) as [Hsame|(vid' & vote' & Hnone & _ & Hadd & _)]; [apply Hsame|]. apply Hadd. intros ->. by rewrite Hnone in Ho. }
  unfold same_at in H. cbn [table_of] in H. rewrite Ho in H. destruct (alookup (votes (gov (fst (run env r s)))) vid) as [vote|]; [by exists vote|done].
Qed.

Lemma run_all_snoc env rs r s : run_all env (rs ++ [r]) s = fst (run env r (run_all env rs s)).
Proof. unfold run_all. by rewrite fold_left_app. Qed.

Section votes.
Context (env : environment) (clock : forall n, 0 <= env.(now_at) n < max_moment).

Lemma votes_origin rs s vid vote : well_formed s.(gov) -> s.(gov).(votes) = [] -> alookup (run_all env rs s).(gov).(votes) vid = Some vote ->
  exists rs1 r rs2, rs = rs1 ++ r :: rs2 /\ cast_from (run_all env rs1 s).(gov) r vid vote.
Proof using clock.
  intros Hg He. revert vote. induction rs as [|r rs IH] using rev_ind; intros vote Hv; [change (run_all env [] s) with s in Hv; by rewrite He in Hv|]. rewrite run_all_snoc in Hv.
  apply run_votes in Hv as [(old & Ho & Ha)|[_ Hcast]]; [| |by apply run_all_good].
  - destruct (IH old Ho) as (rs1 & r' & rs2 & -> & Hc). exists rs1, r', (rs2 ++ [r]). split; [by rewrite <- app_assoc|]. by eapply cast_from_agree.
  - by exists rs, r, [].
Qed.

Lemma votes_stay rs s vid old : well_formed s.(gov) -> alookup s.(gov).(votes) vid = Some old ->
  exists vote, alookup (run_all env rs s).(gov).(votes) vid = Some vote /\ agree Votes old vote.
Proof using clock.
  intros Hg Ho. induction rs as [|r rs (v & Hv & Ha)] using rev_ind; [by exists old|]. rewrite run_all_snoc.
  apply run_keeps_votes with (env := env) (r := r) in Hv as (v' & Hv' & Ha'); [|by apply run_all_good]. exists v'. split; [done|].
  intros f Hf. by rewrite (Ha' f Hf), (Ha f Hf).
Qed.

(** C23: votes are cast by invitation, once and for good. Whatever requests are
    served from a document without votes, each vote of the document was cast by one
    of them, with an invitation that was mailed, unused and in its window at that
    moment, for the present version of a proposal then open, by who was entitled to
    it (the credential of the mail and the account's session where the policy asks
    for it, or the session of the active account), and it says what that request
    chose; no account has two votes on one version of a proposal; and no later
    request removes a vote or changes who voted, on what, when, or which choice. *)
Theorem votes_are_cast_by_invitation rs s : well_formed s.(gov) -> s.(gov).(votes) = [] ->
  let g := (run_all env rs s).(gov) in
  (forall vid vote, alookup g.(votes) vid = Some vote -> exists rs1 r rs2, rs = rs1 ++ r :: rs2 /\ cast_from (run_all env rs1 s).(gov) r vid vote) /\
  (forall vid vid' vote vote', alookup g.(votes) vid = Some vote -> alookup g.(votes) vid' = Some vote' ->
    (forall f, f ∈ ["proposalId"; "userId"; "proposalVersion"] -> dget vote f = dget vote' f) -> vid = vid') /\
  forall rs' vid old, alookup g.(votes) vid = Some old ->
    exists vote, alookup (run_all env rs' (run_all env rs s)).(gov).(votes) vid = Some vote /\ agree Votes old vote.
Proof using clock.
  intros Hg He g. split; [|split].
  - intros vid vote Hv. by apply votes_origin.
  - intros vid vid' vote vote' Hv Hv' Hf. apply votes_origin in Hv as (? & ? & ? & _ & ? & ? & ? & ? & ? & ? & ? & ? & H); [|done..].
    apply votes_origin in Hv' as (? & ? & ? & _ & ? & ? & ? & ? & ? & ? & ? & ? & H'); [|done..].
    pose proof (Hf "proposalId" ltac:(by left)). pose proof (Hf "userId" ltac:(right; by left)). pose proof (Hf "proposalVersion" ltac:(do 2 right; by left)).
    destruct_and!. congruence.
  - intros rs' vid old Ho. apply votes_stay; [by apply run_all_good|done].
Qed.
End votes.

(** ** Runs *)

Definition vote_list (s : community) : list (string * pyval) := map (fun x => (fst x, dget_none (snd x) "choice")) s.(gov).(votes).

Lemma votes_are_cast_by_invitation_witness :
  vote_list voted = [("vote-p-ada-v1", VStr "yes")] /\
  forall vid vote, alookup voted.(gov).(votes) vid = Some vote ->
    exists rs1 r rs2, sample_requests = rs1 ++ r :: rs2 /\ cast_from (run_all sample_env rs1 empty_community).(gov) r vid vote.
Proof.
  split; [vm_compute; reflexivity|].
  apply (votes_are_cast_by_invitation sample_env sample_clock sample_requests empty_community new_well_formed eq_refl).
Defined.

(** The proposal of a document: its title, version and status. *)
Definition outline (s : community) (id : string) : option pyval :=
  match alookup s.(gov).(proposals) id with Some x => Some (select_fields x ["title"; "version"; "status"]) | None => None end.

(** One update adopts the proposal that was voted on and replaces its text: what is
    adopted is a version nobody voted on. *)
Example adopts_a_text_nobody_voted_on :
  outline (run_all sample_env [UpdateProposal "p" [("status", VStr "adopted"); ("title", VStr "No rehearsals")]] voted) "p" =
    Some (VDict [("title", VStr "No rehearsals"); ("version", VInt 2); ("status", VStr "adopted")]) /\
  Forall (fun x => dget (snd x) "proposalVersion" = Some (VInt 1)) voted.(gov).(votes).
Proof. split; [vm_compute; reflexivity|]. vm_compute. by repeat constructor. Qed.

(** An update that is refused for its change keeps the new title, in the version
    that is being voted on. *)
Example refused_update_keeps_its_title :
  let '(s, out) := run sample_env (UpdateProposal "p" [("title", VStr "No rehearsals"); ("change", VInt 1)]) voted in
  (exists e, out = Raise e) /\ outline s "p" = Some (VDict [("title", VStr "No rehearsals"); ("version", VInt 1); ("status", VStr "open")]).
Proof. vm_compute. split; [by eexists|reflexivity]. Qed.

(** An invitation whose mail was never accepted has no window, and keeps the
    proposal from being adopted at any moment: here seven thousand years later. *)
Example undelivered_invitation_blocks :
  let s := run_all sample_env [UpsertAccount [("id", VStr "bob"); ("email", VStr "bob@example.org")]; PrepareInvitations "p" [VStr "bob"] None] voted in
  match proposal_tally false CHOICES s.(gov) "p" (3000000 * day) with
  | Ok t => t.(t_blockers) = ["issued voting windows are still open"]
  | Raise _ => False
  end.
Proof. vm_compute. reflexivity. Qed.

(** Different accounts and proposals can share the identifier of a vote. *)
Example vote_identifiers_collide : vote_id_of (VStr "p") (VStr "q-r") (VInt 1) = vote_id_of (VStr "p-q") (VStr "r") (VInt 1).
Proof. reflexivity. Qed.

(** A proposal with a blank identifier is accepted, saved, and dropped by the next start. *)
Example blank_proposal_is_dropped :
  let s := run_all sample_env [CreateProposal [("id", VStr " "); ("title", VStr "Nameless")]] voted in
  map fst s.(gov).(proposals) = ["p"; ""] /\
  match s.(disk) with
  | Some d => match _load (Some (Ok d)) with Ok g => map fst g.(proposals) = ["p"] | Raise _ => False end
  | None => False
  end.
Proof. vm_compute. by split. Qed.
