(* ===== verification/Runtime.v ===== *)
(** * The runtime that composes the node (backend/runtime.py, class StageForgeRuntime)

    One node: the states of its components, its authority, the fence that
    silences its physical outputs, and the path every mutation of the show takes:
    authority, command deduplication, the operation, persistence, and the
    native engine. What the environment answers in one call (clocks, files, the
    native engine, the witnesses) is one argument, [world]; each clock is read
    once per call. *)

From S2P Require Import Prelude PyStr PyFloat PyVal PyFacts StateLogic ClusterSecrets Adaptation ShowData ShowState.
From S2P Require Replication WitnessQuorum AuthorityLeases Handoff PeerReplication Persistence.
From Stdlib Require Import SpecFloat.

#[local] Open Scope string_scope.
#[local] Open Scope list_scope.
#[local] Open Scope Z_scope.
#[local] Open Scope st_scope.

(** ** The state of a node *)

(** The commands the runtime sends to the native engine. *)
Inductive native_call :=
| ArmLighting (armed : bool)
| ConfigureLighting (target : string) (port : Z) (protocol : string) (universe_base : Z)
| DeactivateInputs
| DeactivateOutputs
| DetachMidi (device : string)
| SyncState
| PrepareHandoff (transaction source_epoch target_epoch target_show_ns : Z) (allow_degraded : bool)
| AcknowledgeHandoff (transaction : Z) (ready : bool)
| CommitHandoff (transaction source_epoch epoch show_ns : Z)
| AbortHandoff (transaction : Z)
| ShadowBlock (source : string)
| ShadowReport (source : string).

(** The attributes of the runtime itself; the calls it made are kept latest first. *)
Record own := {
  last_persisted : Z;
  command_results : list (string * pydict);
  planned : option pydict;
  telemetry : pydict;
  lighting_armed : bool;
  continuity : pydict;
  promotion_at : option float;
  promotion_at_ns : option Z;
  midi_devices : list pydict;
  last_reconciliation : pyval;
  native_log : list native_call;
}.

Record runtime := {
  replication : Replication.tracker;
  witness : WitnessQuorum.client;
  leases : AuthorityLeases.registry;
  execution : Handoff.registry;
  peer : PeerReplication.client;
  repository : Persistence.repository;
  adaptations : manager;
  show : ShowState;
  mine : own;
}.

Abbreviation op := (st runtime).

Definition build (r : Replication.tracker) (w : WitnessQuorum.client) (l : AuthorityLeases.registry) (x : Handoff.registry)
    (p : PeerReplication.client) (d : Persistence.repository) (a : manager) (s : ShowState) (m : own) : runtime :=
  {| replication := r; witness := w; leases := l; execution := x; peer := p; repository := d; adaptations := a;
     show := s; mine := m |}.

#[export] Instance replication_part : Part runtime Replication.tracker.
Proof.
  refine {| part := replication;
            with_part r s := build r s.(witness) s.(leases) s.(execution) s.(peer) s.(repository) s.(adaptations) s.(show) s.(mine) |}; [done|by intros []|done].
Defined.
#[export] Instance witness_part : Part runtime WitnessQuorum.client.
Proof.
  refine {| part := witness;
            with_part w s := build s.(replication) w s.(leases) s.(execution) s.(peer) s.(repository) s.(adaptations) s.(show) s.(mine) |}; [done|by intros []|done].
Defined.
#[export] Instance leases_part : Part runtime AuthorityLeases.registry.
Proof.
  refine {| part := leases;
            with_part l s := build s.(replication) s.(witness) l s.(execution) s.(peer) s.(repository) s.(adaptations) s.(show) s.(mine) |}; [done|by intros []|done].
Defined.
#[export] Instance execution_part : Part runtime Handoff.registry.
Proof.
  refine {| part := execution;
            with_part x s := build s.(replication) s.(witness) s.(leases) x s.(peer) s.(repository) s.(adaptations) s.(show) s.(mine) |}; [done|by intros []|done].
Defined.
#[export] Instance peer_part : Part runtime PeerReplication.client.
Proof.
  refine {| part := peer;
            with_part p s := build s.(replication) s.(witness) s.(leases) s.(execution) p s.(repository) s.(adaptations) s.(show) s.(mine) |}; [done|by intros []|done].
Defined.
#[export] Instance repository_part : Part runtime Persistence.repository.
Proof.
  refine {| part := repository;
            with_part d s := build s.(replication) s.(witness) s.(leases) s.(execution) s.(peer) d s.(adaptations) s.(show) s.(mine) |}; [done|by intros []|done].
Defined.
#[export] Instance adaptations_part : Part runtime manager.
Proof.
  refine {| part := adaptations;
            with_part a s := build s.(replication) s.(witness) s.(leases) s.(execution) s.(peer) s.(repository) a s.(show) s.(mine) |}; [done|by intros []|done].
Defined.
#[export] Instance show_part : Part runtime ShowState.
Proof.
  refine {| part := show;
            with_part x s := build s.(replication) s.(witness) s.(leases) s.(execution) s.(peer) s.(repository) s.(adaptations) x s.(mine) |}; [done|by intros []|done].
Defined.
#[export] Instance own_part : Part runtime own.
Proof.
  refine {| part := mine;
            with_part m s := build s.(replication) s.(witness) s.(leases) s.(execution) s.(peer) s.(repository) s.(adaptations) s.(show) m |}; [done|by intros []|done].
Defined.

(** ** The environment *)

Record runtime_config := {
  witness_config : WitnessQuorum.config;
  _replication_keyring : RotatingHmacKeyring;
  _replication_secret : string;
  _auto_failover : bool;
  _failover_suspect_ms : Z;
  _failover_promote_ms : Z;
}.

Record world := {
  now_ms : Z;
  mono : float;
  mono_ns : Z;
  wall_ns : Z;
  show_clock : readings;
  euid : Z;
  key_files : string -> file_view;
  exchanges : list WitnessQuorum.exchange;
  native_available : bool;
  native_fails : native_call -> bool;
  native_seconds : res pyval;
  native_shadow_plan : res pyval;
  journal : list pydict;
  midi_scan : res (list pydict);
  audio_outputs : res (list pydict);
  audio_inputs : res (list pydict);
  ledger_fate : nat -> Persistence.fate;
  snapshot_fails : bool;
}.

(** ** Fields of the runtime itself *)

Definition put_mine (persisted : Z) (results : list (string * pydict)) (handoff : option pydict) (t : pydict) (armed : bool)
    (c : pydict) (at_ : option float) (at_ns : option Z) (devices : list pydict) (reconciled : pyval) (log : list native_call) : own :=
  {| last_persisted := persisted; command_results := results; planned := handoff; telemetry := t; lighting_armed := armed;
     continuity := c; promotion_at := at_; promotion_at_ns := at_ns; midi_devices := devices;
     last_reconciliation := reconciled; native_log := log |}.

Definition set_persisted (z : Z) (m : own) : own :=
  put_mine z m.(command_results) m.(planned) m.(telemetry) m.(lighting_armed) m.(continuity) m.(promotion_at)
    m.(promotion_at_ns) m.(midi_devices) m.(last_reconciliation) m.(native_log).
Definition set_results (l : list (string * pydict)) (m : own) : own :=
  put_mine m.(last_persisted) l m.(planned) m.(telemetry) m.(lighting_armed) m.(continuity) m.(promotion_at)
    m.(promotion_at_ns) m.(midi_devices) m.(last_reconciliation) m.(native_log).
Definition set_planned (p : option pydict) (m : own) : own :=
  put_mine m.(last_persisted) m.(command_results) p m.(telemetry) m.(lighting_armed) m.(continuity) m.(promotion_at)
    m.(promotion_at_ns) m.(midi_devices) m.(last_reconciliation) m.(native_log).
Definition set_telemetry (t : pydict) (m : own) : own :=
  put_mine m.(last_persisted) m.(command_results) m.(planned) t m.(lighting_armed) m.(continuity) m.(promotion_at)
    m.(promotion_at_ns) m.(midi_devices) m.(last_reconciliation) m.(native_log).
Definition set_lighting (b : bool) (m : own) : own :=
  put_mine m.(last_persisted) m.(command_results) m.(planned) m.(telemetry) b m.(continuity) m.(promotion_at)
    m.(promotion_at_ns) m.(midi_devices) m.(last_reconciliation) m.(native_log).
Definition set_continuity (c : pydict) (m : own) : own :=
  put_mine m.(last_persisted) m.(command_results) m.(planned) m.(telemetry) m.(lighting_armed) c m.(promotion_at)
    m.(promotion_at_ns) m.(midi_devices) m.(last_reconciliation) m.(native_log).
Definition set_promotion (t : float) (ns : Z) (m : own) : own :=
  put_mine m.(last_persisted) m.(command_results) m.(planned) m.(telemetry) m.(lighting_armed) m.(continuity) (Some t)
    (Some ns) m.(midi_devices) m.(last_reconciliation) m.(native_log).
Definition set_devices (l : list pydict) (m : own) : own :=
  put_mine m.(last_persisted) m.(command_results) m.(planned) m.(telemetry) m.(lighting_armed) m.(continuity)
    m.(promotion_at) m.(promotion_at_ns) l m.(last_reconciliation) m.(native_log).
Definition set_reconciliation (v : pyval) (m : own) : own :=
  put_mine m.(last_persisted) m.(command_results) m.(planned) m.(telemetry) m.(lighting_armed) m.(continuity)
    m.(promotion_at) m.(promotion_at_ns) m.(midi_devices) v m.(native_log).
Definition add_call (c : native_call) (m : own) : own :=
  put_mine m.(last_persisted) m.(command_results) m.(planned) m.(telemetry) m.(lighting_armed) m.(continuity)
    m.(promotion_at) m.(promotion_at_ns) m.(midi_devices) m.(last_reconciliation) (c :: m.(native_log)).

(** A command to the native engine: sent, then answered or failed. *)
Definition call (w : world) (c : native_call) : op unit :=
  change (add_call c) ;;;
  if w.(native_fails) c then st_raise (RuntimeError "native engine") else st_ret tt.

(** [NativeEngineClient.detach_midi_input]: the identifier must be one token. *)
Definition detach_midi_input (w : world) (device : string) : op unit :=
  if String.eqb device "" || existsb is_space (chars device)
  then st_raise (ValueError "device id must be a non-empty token")
  else call w (DetachMidi device).

(** ** Authority *)

Section node.
Context (cfg : runtime_config).
Local Abbreviation cf := (cfg.(witness_config)).

Definition suspended (s : runtime) : bool := s.(witness).(WitnessQuorum.acquisition_suspended).

(** [self._witness.valid()], with its default margin of 100 ms. *)
Definition lease_valid (w : world) (s : runtime) : bool := WitnessQuorum.valid cf w.(now_ms) 100 s.(witness).

Definition _has_authority (w : world) (s : runtime) : bool :=
  Replication.is_primary s.(replication) && negb (suspended s)
  && (negb (WitnessQuorum.configured cf) || lease_valid w s).

Definition attached_devices (s : runtime) : list string :=
  omap (fun d => if truthy (dget_none d "attached") && truthy (dget_none d "id") then Some (py_str (dget_none d "id")) else None)
       s.(mine).(midi_devices).

Definition _fence_physical_outputs (w : world) : op unit :=
  let* s := st_get in
  st_when w.(native_available)
    (attempt (call w (ArmLighting false)) ;;;
     attempt (call w DeactivateInputs) ;;;
     attempt (call w DeactivateOutputs) ;;;
     st_iter (fun device => attempt (detach_midi_input w device)) (attached_devices s)) ;;;
  change (set_lighting false) ;;;
  inside (T:=AuthorityLeases.registry) AuthorityLeases.clear ;;;
  change (set_reconciliation VNone).

(** ** Persistence of the show *)

(** The events recorded since the last persisted one, appended to the ledger. *)
Fixpoint append_all (w : world) (i : nat) (events : list pydict) : op unit :=
  match events with
  | [] => st_ret tt
  | event :: rest =>
      let* _ := inside (Persistence.append_event (VDict event) (w.(ledger_fate) i)) in
      let* id := st_lift (py_int (dget_or event "eventId" (VInt 0))) in
      change (fun m => set_persisted (Z.max m.(last_persisted) id) m) ;;;
      append_all w (S i) rest
  end.

Definition _persist_new_events (w : world) : op unit :=
  let* s := st_get in
  let* events := st_lift (events_since s.(mine).(last_persisted) s.(show)) in
  append_all w 0 events.

(** The ledger event of one native journal record. *)
Definition journal_event (raw : pydict) : res pydict :=
  let field k := py_int (dget_or raw k (VStr "0")) in
  sequence ← field "sequence"; kind ← field "kind"; show_ns ← field "showNs"; event_id ← field "eventId";
  subject ← field "subjectId"; revision ← field "revision"; previous ← field "previousHash"; hash ← field "hash";
  Ok [("type", VStr "native-core"); ("sequence", VInt sequence); ("kind", VInt kind); ("showNs", VInt show_ns);
      ("eventId", VInt event_id); ("subjectId", VInt subject); ("revision", VInt revision);
      ("nativePreviousHash", VInt previous); ("nativeHash", VInt hash)].

(** [w.(journal)]: the records until the engine has none left or fails. *)
Fixpoint drain_journal (w : world) (i : nat) (records : list pydict) : op unit :=
  match records with
  | [] => st_ret tt
  | raw :: rest =>
      if negb (py_eq (dget_none raw "available") (VStr "1")) then st_ret tt
      else
        let* event := st_lift (journal_event raw) in
        let* _ := inside (Persistence.append_event (VDict event) (w.(ledger_fate) i)) in
        drain_journal w (S i) rest
  end.

Definition _persist_core_journal (w : world) : op unit :=
  st_when w.(native_available) (drain_journal w 0 (firstn 512 w.(journal))).

Definition save_show (w : world) : op unit :=
  let* s := st_get in
  let* snapshot := st_lift (persistence_snapshot w.(show_clock).(mono_snapshot) s.(show)) in
  inside (Persistence.save_snapshot snapshot w.(snapshot_fails)).

(** [NativeEngineClient.sync_state] returns at once when no engine runs. *)
Definition sync_native (w : world) : op unit := st_when w.(native_available) (call w SyncState).

Definition _after_mutation (w : world) : op unit :=
  _persist_new_events w ;;;
  save_show w ;;;
  attempt (sync_native w ;;; _persist_core_journal w).

(** ** Mutations *)

Definition max_results : nat := 256.

(** [results[id] = result; move_to_end(id)], the oldest dropped beyond the bound. *)
Definition remember (id : string) (result : pydict) (l : list (string * pydict)) : list (string * pydict) :=
  let l := List.filter (fun kv => negb (String.eqb id (fst kv))) l ++ [(id, result)] in
  skipn (length l - max_results) l.

Definition clean_command (id : string) : string := slice 128 (strip id).

(** The authority check, and the cached result of a command already carried out. *)
Definition admit_command (w : world) (id : string) : op (option pydict) :=
  let* s := st_get in
  if negb (_has_authority w s) then
    if negb (Replication.is_primary s.(replication))
    then st_raise (RuntimeError "standby node is read-only; apply replicated state or promote authority first")
    else st_raise (RuntimeError "primary node lacks witness quorum lease")
  else
    match (if String.eqb id "" then None else alookup s.(mine).(command_results) id) with
    | Some cached => change (fun m => set_results (remember id cached m.(command_results)) m) ;;; st_ret (Some cached)
    | None => st_ret None
    end.

(** The part under the mutation lock: the operation, and what follows when it changed the revision. *)
Definition carry_out (w : world) (id : string) (operation : ShowState.op pydict) : op pydict :=
  let* s := st_get in
  let before := s.(show).(s_revisions).(revision) in
  let* result := inside operation in
  let* revision := st_lift (dindex result "revision") in
  st_when (negb (py_eq revision (VInt before))) (_after_mutation w) ;;;
  st_when (negb (String.eqb id "")) (change (fun m => set_results (remember id result m.(command_results)) m)) ;;;
  st_ret result.

(** The state a command answers with, and whether it was answered from the cache. *)
Definition mutate (w : world) (command_id : string) (operation : ShowState.op pydict) : op (pydict * bool) :=
  let id := clean_command command_id in
  let* cached := admit_command w id in
  match cached with
  | Some result => st_ret (result, true)
  | None => let* result := carry_out w id operation in st_ret (result, false)
  end.
End node.

(** * Physical outputs of the runtime (backend/runtime.py)

    The venue mappings that name the execution devices, the lighting network
    taken from them or from the show, arming it, and the measurements a
    promotion leaves. *)

(** ** The active venue mapping *)

Definition _active_venue_mapping (logical_key : string) (s : runtime) : res (option pydict) :=
  state ← Adaptation.snapshot s.(adaptations);
  match dget_none state "active" with
  | VDict active =>
      minimum ← catch type_or_value (v ← py_int (dget_or active "minimumReaderSchemaVersion" (VInt 1)); Ok (Some (Z.max 1 v)))
                  (fun _ => Ok None);
      Ok (match minimum with
          | None => None
          | Some minimum =>
              if VENUE_PATCH_LAYER_SCHEMA_VERSION <? minimum then None
              else match dget_none (dict_at active "mappings") logical_key with VDict d => Some d | _ => None end
          end)
  | _ => Ok None
  end.

(** The mapping, when there is one with a field. *)
Definition mapped (logical_key : string) (s : runtime) : res (option pydict) :=
  m ← _active_venue_mapping logical_key s; Ok (match m with Some [] => None | m => m end).

Definition _mapped_execution_device (logical_key : string) (s : runtime) : res (option string) :=
  m ← mapped logical_key s;
  Ok (match m with
      | None => None
      | Some m =>
          let explicit := strip (text_or (dict_at (dict_at m "patch") "execution") "deviceId" "") in
          let discovered := strip (text_or (dict_at m "provider") "discoveredId" "") in
          if negb (String.eqb explicit "") then Some (slice 160 explicit)
          else if negb (String.eqb discovered "") then Some (slice 160 discovered) else None
      end).

(** *** [ipaddress.IPv4Address] *)

(** One decimal octet: at most three ASCII digits, no leading zero, at most 255. *)
Definition parse_octet (s : string) : option Z :=
  let l := chars s in
  if null l || negb (forallb is_digit l) || (3 <? Z.of_nat (length l)) then None
  else if negb (String.eqb s "0") && match l with c :: _ => code c =? 48 | [] => false end then None
  else match parse_int s with Some z => if z <=? 255 then Some z else None | None => None end.

Definition parse_ipv4 (s : string) : option Z :=
  match split_char "."%char s with
  | [a; b; c; d] =>
      match parse_octet a, parse_octet b, parse_octet c, parse_octet d with
      | Some a, Some b, Some c, Some d => Some (((a * 256 + b) * 256 + c) * 256 + d)
      | _, _, _, _ => None
      end
  | _ => None
  end.

(** Not multicast, not unspecified, not the broadcast address. *)
Definition unicast (address : Z) : bool :=
  negb ((0xE0000000 <=? address) && (address <=? 0xEFFFFFFF)) && negb (address =? 0) && negb (address =? 0xFFFFFFFF).

Definition default_port (protocol : string) : Z := if String.eqb protocol "sacn" then 5568 else 6454.

Definition int_or (v : pyval) (default : Z) : res Z := catch type_or_value (py_int v) (fun _ => Ok default).

Definition lighting_protocol (protocol : string) : bool := String.eqb protocol "artnet" || String.eqb protocol "sacn".

Definition _mapped_lighting_execution (s : runtime) : res (option pydict) :=
  m ← mapped "lighting.primary" s;
  match m with
  | None => Ok None
  | Some m =>
      let execution := dict_at (dict_at m "patch") "execution" in
      let target := strip (text_or execution "target" "") in
      if String.eqb target "" then Ok None
      else
        let protocol := str_or (lower (strip (text_or execution "protocol" "artnet"))) "artnet" in
        if negb (lighting_protocol protocol && match parse_ipv4 target with Some a => unicast a | None => false end) then Ok None
        else
          port ← int_or (dget_or execution "port" (VInt (default_port protocol))) (default_port protocol);
          base ← int_or (dget_or execution "universeBase" (VInt 1)) 1;
          Ok (Some [("target", VStr (slice 64 target)); ("port", VInt (Z.max 1 (Z.min port 65535)));
                    ("protocol", VStr protocol); ("universeBase", VInt (Z.max 1 (Z.min base 63984)));
                    ("fixtures", VDict (dict_at execution "fixtures")); ("source", VStr "venue-patch-layer")])
  end.

(** ** The lighting network *)

(** [(self.state.snapshot().get("lighting") or {}).get("network") or {}]. *)
Definition show_network (w : world) (s : runtime) : res pydict :=
  snapshot ← snapshot false false w.(show_clock).(mono_snapshot) s.(show);
  Ok (dict_at (dict_at snapshot "lighting") "network").

(** [NativeEngineClient.configure_lighting_network]. *)
Definition configure_lighting_network (w : world) (target : string) (port : Z) (protocol : string) (universe_base : Z) : op unit :=
  let target := strip target in
  if String.eqb target "" || existsb is_space (chars target)
  then st_raise (ValueError "lighting target must be a non-empty IPv4 token")
  else
    let protocol := lower (strip protocol) in
    if negb (lighting_protocol protocol) then st_raise (ValueError "lighting protocol must be artnet or sacn")
    else if negb ((1 <=? universe_base) && (universe_base <=? 63984))
    then st_raise (ValueError "sACN universe base must be 1..63984")
    else call w (ConfigureLighting target port protocol universe_base).

(** The network's numbers, read and sent. *)
Definition configure_from (w : world) (network : pydict) (target protocol : string) : op unit :=
  let* port := st_lift (py_int (dget_or network "port" (VInt (default_port protocol)))) in
  let* base := st_lift (py_int (dget_or network "universeBase" (VInt 1))) in
  configure_lighting_network w target port protocol base.

Definition network_target (network : pydict) : string := strip (text_or network "target" "").
Definition network_protocol (network : pydict) : string := lower (text_or network "protocol" "artnet").

Definition _configure_lighting_from_state (w : world) : op unit :=
  if negb w.(native_available) then st_ret tt
  else
    let* s := st_get in
    let* network := st_lift (show_network w s) in
    let target := network_target network in
    let protocol := network_protocol network in
    st_when (negb (String.eqb target "") && lighting_protocol protocol) (configure_from w network target protocol) ;;;
    call w (ArmLighting false) ;;;
    change (set_lighting false).

(** [int(max(0.0, monotonic() - self._promotion_at) * 1000)]. *)
Definition elapsed_ms (now since : float) : res Z :=
  py_int (VFloat (fmul (fmax (S754_zero false) (fsub now since)) (float_of_Z 1000))).

Definition _mark_post_promotion_output (w : world) (kind : string) : op unit :=
  let* s := st_get in
  match s.(mine).(promotion_at) with
  | None => st_ret tt
  | Some since =>
      let* elapsed := st_lift (elapsed_ms w.(mono) since) in
      let key := if String.eqb kind "audio" then "firstAudioArmAfterMs" else "firstLightingArmAfterMs" in
      match dget_none s.(mine).(continuity) key with
      | VNone => change (fun m => set_continuity (dset m.(continuity) key (VInt elapsed)) m)
      | _ => st_ret tt
      end
  end.

(** [v is True]. *)
Definition is_true (v : pyval) : bool := match v with VBool true => true | _ => false end.

(** The status it answers with is read from the engine and left out. *)
Definition arm_lighting_network (cfg : runtime_config) (w : world) (data : pydict) : op unit :=
  let* s := st_get in
  let armed := truthy (dget_or data "armed" (VBool false)) in
  if armed && negb (_has_authority cfg w s) then st_raise (RuntimeError "node lacks authoritative lease for physical lighting output")
  else if negb w.(native_available) then st_raise (RuntimeError "native lighting output unavailable")
  else if armed && negb (is_true (dget_none data "acknowledgePhysicalOutput"))
  then st_raise (ValueError "arming lighting output requires acknowledgePhysicalOutput=true")
  else
    let* network := st_lift (show_network w s) in
    let* venue := st_lift (_mapped_lighting_execution s) in
    let execution_network := default network venue in
    st_when armed
      (let protocol := network_protocol execution_network in
       let target := network_target execution_network in
       if negb (lighting_protocol protocol) then st_raise (RuntimeError "unsupported lighting network protocol")
       else if String.eqb target "" then st_raise (ValueError ("configure a unicast " +:+ protocol +:+ " target before arming"))
       else configure_from w execution_network target protocol) ;;;
    call w (ArmLighting armed) ;;;
    change (set_lighting armed) ;;;
    st_when armed (_mark_post_promotion_output w "lighting").
