(* ===== verification/RuntimeFailover.v ===== *)
(** * Failover and replication of a node (backend/runtime.py)

    Execution evidence and the takeover decision, the failover status, the
    witness tick that keeps or loses authority, promotion, recovery, explicit role
    changes, and the export and application of replicated state. *)

From S2P Require Import Prelude PyStr PyFloat PyVal PyFacts StateLogic ClusterSecrets Adaptation.
From S2P Require Import ShowData ShowState Runtime.
From S2P Require Replication WitnessQuorum AuthorityLeases Handoff PeerReplication Persistence ShowRestore.
From Stdlib Require Import SpecFloat.

#[local] Open Scope string_scope.
#[local] Open Scope list_scope.
#[local] Open Scope Z_scope.
#[local] Open Scope st_scope.

(** ** Reading the telemetry of the source *)

Definition iter_or_empty (v : pyval) : res (list pyval) := py_iter (py_or v (VList [])).

(** The dicts of an iterable. *)
Definition dicts_of (v : pyval) : res (list pydict) :=
  l ← iter_or_empty v; Ok (omap (M:=list) (fun x => match x with VDict d => Some d | _ => None end) l).

Definition max_or_zero (l : list Z) : Z := match l with [] => 0 | x :: l => fold_left Z.max l x end.

(** [max([int(item.get("lastBlockEndShowNs", 0)) for item in outputs if isinstance(item, dict)] or [0])]. *)
Definition source_cursor (telemetry : pydict) : res Z :=
  items ← dicts_of (dget_none telemetry "audioOutputs");
  l ← map_res (fun d => py_int (dget_or d "lastBlockEndShowNs" (VInt 0))) items;
  Ok (max_or_zero l).

Definition slot_like (v : pyval) : bool := match v with VInt _ | VBool _ => true | _ => is_digit_str (py_str v) end.

Definition source_slots (telemetry : pydict) : res (list Z) :=
  l ← iter_or_empty (dget_none telemetry "activeAudioInputSlots"); map_res py_int (List.filter slot_like l).

Definition native_caught (e : exn) : bool := is_runtime_error e || type_or_value e.

(** [int(x * 1_000_000_000)]. *)
Definition nanoseconds (seconds : float) : res Z := py_int (VFloat (fmul seconds (float_of_Z 1000000000))).

Definition native_position (w : world) : res float := v ← w.(native_seconds); py_float v.

(** [int(float(native.time_state()["seconds"]) * 1e9)], when the engine answers. *)
Definition local_show_ns (w : world) : res (option Z) :=
  if w.(native_available)
  then catch native_caught (x ← native_position w; z ← nanoseconds x; Ok (Some z)) (fun _ => Ok None)
  else Ok None.

Definition replica_age (status : pydict) : option Z := match dget_none status "replicaAgeMs" with VInt z => Some z | _ => None end.

Definition opt_source (status : pydict) : option string := match dget_none status "sourceNodeId" with VStr s => Some s | _ => None end.

Definition show_snapshot (w : world) (s : runtime) : res pydict := snapshot false false w.(show_clock).(mono_snapshot) s.(show).

(** [float(transport.get("seconds", 0.0))]. *)
Definition show_seconds (snapshot : pydict) : res float :=
  py_float (dget_or (dict_at snapshot "transport") "seconds" (VFloat (S754_zero false))).

Definition handoff_facts (w : world) (replica telemetry : pydict) : res Handoff.HandoffFacts :=
  slots ← source_slots telemetry;
  cursor ← source_cursor telemetry;
  shown ← py_int (py_or (dget_or telemetry "showTimeNs" (VInt 0)) (VInt 0));
  local ← local_show_ns w;
  Ok {| Handoff.f_role := text_or replica "role" "standby"; Handoff.replica_age_ms := replica_age replica;
        Handoff.source_program_cursor_ns := cursor; Handoff.handoff_target_show_ns := Z.max shown cursor;
        Handoff.local_show_ns := local; Handoff.active_live_input_slots := slots;
        Handoff.source_outputs_active := truthy (dget_none telemetry "audioOutputs");
        Handoff.transport_running := truthy (dget_or telemetry "transportRunning" (VBool false)) |}.

Definition handoff_decision (w : world) (s : runtime) : res pydict :=
  replica ← Replication.status w.(mono) s.(replication);
  facts ← handoff_facts w replica s.(mine).(telemetry);
  show ← show_snapshot w s;
  let handoff := dict_at show "handoff" in
  execution ← Handoff.snapshot w.(mono) s.(execution);
  decision ← Handoff.evaluate_handoff facts (dget_none handoff "policy") (dget_none handoff "liveInputs")
               (dget_none handoff "deterministicSources") (VDict execution);
  let target := facts.(Handoff.handoff_target_show_ns) in
  plan ← (if w.(native_available) && negb (target =? 0)
          then catch native_caught w.(native_shadow_plan) (fun _ => Ok VNone) else Ok VNone);
  Ok (dmerge decision
        [("replicaAgeMs", dget_none replica "replicaAgeMs"); ("sourceNodeId", dget_none replica "sourceNodeId");
         ("sourceProgramCursorNs", int_or_none facts.(Handoff.source_program_cursor_ns));
         ("handoffTargetShowNs", int_or_none target); ("localShowNs", opt_int facts.(Handoff.local_show_ns));
         ("activeLiveInputSlots", VList (map VInt facts.(Handoff.active_live_input_slots)));
         ("nativeShadowPlan", plan); ("physicalOutputsAutoArm", VBool false)]).

Definition handoff_decision_status (w : world) : op pydict := let* s := st_get in st_lift (handoff_decision w s).

(** ** Execution evidence, accepted on a standby only *)

(** The show revision and the generation the native engine is told only name the report. *)
Definition report_shadow_prebuffer (w : world) (data : pydict) : op pydict :=
  let* s := st_get in
  if Replication.is_primary s.(replication)
  then st_raise (RuntimeError "shadow prebuffer execution reports are accepted on standby nodes only")
  else
    let source := strip (text_or data "sourceId" "") in
    if String.eqb source "" then st_raise (ValueError "sourceId is required")
    else if negb (dhas data "bufferedUntilShowNs") then st_raise (ValueError "bufferedUntilShowNs is required")
    else
      let start := dget_none data "startShowNs" in
      let* frames := st_lift (py_int (dget_or data "renderedFrames" (VInt 0))) in
      let* until := st_lift (py_int (dget_none data "bufferedUntilShowNs")) in
      let* start_ns := st_lift (match start with VNone => Ok VNone | v => z ← py_int v; Ok (VInt z) end) in
      let* _ := inside (Handoff.report_shadow (VStr source) (VInt until) (VStr (text_or data "contentHash" ""))
                          (VBool (truthy (dget_or data "healthy" (VBool true)))) start_ns (VInt frames) w.(mono) w.(mono)) in
      st_when w.(native_available)
        (attempt (call w (match start with
                          | VNone => ShadowReport source
                          | _ => if 0 <? frames then ShadowBlock source else ShadowReport source
                          end))) ;;;
      handoff_decision_status w.

Definition report_live_feed_ready (w : world) (data : pydict) : op pydict :=
  let* s := st_get in
  if Replication.is_primary s.(replication)
  then st_raise (RuntimeError "duplicated live-feed reports are accepted on standby nodes only")
  else if negb (dhas data "slot") then st_raise (ValueError "slot is required")
  else
    let source := strip (text_or data "sourceId" "") in
    if String.eqb source "" then st_raise (ValueError "sourceId is required")
    else
      let* slot := st_lift (py_int (dget_none data "slot")) in
      let* latency := st_lift (py_float (dget_or data "latencyMs" (VFloat (S754_zero false)))) in
      let* frames := st_lift (py_int (dget_or data "frames" (VInt 0))) in
      let* _ := inside (Handoff.report_live (VInt slot) (VStr source) (VBool (truthy (dget_or data "healthy" (VBool true))))
                          (VFloat latency) (dget_none data "firstShowNs") (dget_none data "lastShowNs") (VInt frames)
                          (dget_none data "sequence") w.(mono) w.(mono)) in
      handoff_decision_status w.

(** ** Continuity of a promotion *)

Definition millis (a b : Z) : res float := x ← py_float (VInt (a - b)); Ok (fdiv x (float_of_Z 1000000)).

(** The grade of a measure against three limits. *)
Definition grade_by (x : float) (limits : list (Z * string)) (otherwise : string) : string :=
  match List.find (fun l => fle x (float_of_Z (fst l))) limits with Some l => snd l | None => otherwise end.

Definition opt_rounded (n : Z) (x : option float) : pyval := match x with Some x => VFloat (fround n x) | None => VNone end.

Definition new_continuity (w : world) (age : option Z) (transport telemetry : pydict) (bridge : float) : res pydict :=
  native ← (if w.(native_available)
            then catch native_caught (x ← native_position w; Ok (Some x)) (fun _ => Ok None) else Ok None);
  let error := match native with Some x => Some (fmul (fabs (fsub x bridge)) (float_of_Z 1000)) | None => None end in
  let grade := match error with
               | None => "unmeasured"
               | Some x => grade_by x [(5, "sample-window"); (20, "tight"); (100, "degraded")] "discontinuous"
               end in
  last ← source_cursor telemetry;
  let running := truthy (dget_or transport "running" (VBool false)) in
  let inputs := truthy (dget_none telemetry "activeAudioInputSlots") in
  let deterministic := negb inputs && truthy (dget_none telemetry "audioOutputs") && running in
  let mode := if inputs then "live-input-state-warm" else if deterministic then "deterministic-prebuffer-eligible" else "state-warm" in
  shown ← nanoseconds bridge;
  let target := Z.max shown last in
  adjustment ← match native with
               | Some x => if 0 <? last then position ← nanoseconds x; d ← millis target position; Ok (fmax (S754_zero false) d)
                           else Ok (S754_zero false)
               | None => Ok (S754_zero false)
               end;
  Ok [("measured", VBool (match error with Some _ => true | None => false end)); ("replicaAgeMs", opt_int age);
      ("transportRunning", VBool running); ("bridgeShowSeconds", VFloat (fround 6 bridge));
      ("nativeShowSeconds", opt_rounded 6 native); ("timelineErrorMs", opt_rounded 3 error); ("grade", VStr grade);
      ("firstAudioArmAfterMs", VNone); ("firstAudioWriteAfterMs", VNone); ("maxObservedOutputGapMs", VNone);
      ("audioResumptionGrade", VStr "not-rearmed"); ("activeAudioOutputSlots", VList []); ("firstLightingArmAfterMs", VNone);
      ("sourceLastProgramShowNs", int_or_none last); ("newFirstProgramShowNs", VNone); ("crossNodeProgramGapMs", VNone);
      ("crossNodeProgramOverlapMs", VNone); ("crossNodeProgramGrade", VStr "unmeasured"); ("handoffMode", VStr mode);
      ("deterministicPrebufferEligible", VBool deterministic); ("prebufferReady", VBool false);
      ("handoffTargetShowNs", int_or_none target); ("handoffAdjustmentMs", VFloat (fround 3 adjustment));
      ("physicalOutputsAutoArmed", VBool false)].

Definition _record_failover_continuity (w : world) (age : option Z) : op unit :=
  let* s := st_get in
  let* show := st_lift (show_snapshot w s) in
  let* bridge := st_lift (show_seconds show) in
  let* c := st_lift (new_continuity w age (dict_at show "transport") s.(mine).(telemetry) bridge) in
  change (fun m => set_continuity c (set_promotion w.(mono) w.(mono_ns) m)).

Definition put_continuity (k : string) (v : pyval) : op unit := change (fun m => set_continuity (dset m.(continuity) k v) m).

Definition min_of (l : list Z) : option Z := match l with [] => None | x :: l => Some (fold_left Z.min l x) end.

Definition read_ints (k : string) (l : list pydict) : res (list Z) := map_res (fun d => py_int (dget_or d k (VInt 0))) l.

(** The first audio written after the promotion. *)
Definition first_write (since : Z) (active : list pydict) : op unit :=
  let* writes := st_lift (read_ints "firstWriteNs" active) in
  match min_of (List.filter (fun t => since <=? t) writes) with
  | None => st_ret tt
  | Some t =>
      let* elapsed := st_lift (d ← millis t since; Ok (fmax (S754_zero false) d)) in
      put_continuity "firstAudioWriteAfterMs" (VFloat (fround 3 elapsed)) ;;;
      put_continuity "audioResumptionGrade"
        (VStr (grade_by elapsed [(20, "tight"); (100, "short-gap"); (500, "degraded")] "long-gap"))
  end.

(** The gap or overlap between the source's last and this node's first program position. *)
Definition program_gap (active : list pydict) : op unit :=
  let* positions := st_lift (read_ints "firstRenderShowNs" active) in
  let* s := st_get in
  let* last := st_lift (py_int (py_or (dget_none s.(mine).(continuity) "sourceLastProgramShowNs") (VInt 0))) in
  match min_of (List.filter (fun t => 0 <? t) positions) with
  | Some first =>
      st_when (0 <? last)
        (let* delta := st_lift (millis first last) in
         let gap := fmax (S754_zero false) delta in
         let overlap := fmax (S754_zero false) (SFopp delta) in
         put_continuity "newFirstProgramShowNs" (VInt first) ;;;
         put_continuity "crossNodeProgramGapMs" (VFloat (fround 3 gap)) ;;;
         put_continuity "crossNodeProgramOverlapMs" (VFloat (fround 3 overlap)) ;;;
         put_continuity "crossNodeProgramGrade"
           (VStr (grade_by (fmax gap overlap) [(5, "sample-window"); (20, "tight"); (100, "degraded")] "discontinuous")))
  | None => st_ret tt
  end.

Definition largest_gap (active : list pydict) : op unit :=
  let* gaps := st_lift (map_res (fun d => py_float (dget_or d "maxExcessGapMs" (VFloat (S754_zero false)))) active) in
  match gaps with
  | [] => st_ret tt
  | x :: l => put_continuity "maxObservedOutputGapMs" (VFloat (fround 3 (fold_left fmax l x)))
  end.

Definition _refresh_failover_audio_telemetry (w : world) : op unit :=
  let* s := st_get in
  match s.(mine).(promotion_at_ns), w.(native_available), w.(audio_outputs) with
  | Some since, true, Ok outputs =>
      let active := List.filter (fun d => truthy (dget_none d "active")) outputs in
      let* slots := st_lift (read_ints "slot" active) in
      put_continuity "activeAudioOutputSlots" (VList (map VInt slots)) ;;;
      first_write since active ;;;
      program_gap active ;;;
      largest_gap active
  | Some _, true, Raise e => if native_caught e then st_ret tt else st_raise e
  | _, _, _ => st_ret tt
  end.

(** ** Failover *)

Section node.
Context (cfg : runtime_config).
Local Abbreviation cf := (cfg.(witness_config)).

Record failover := {
  fo_state : string;
  fo_safe : bool;
  fo_decision : option pydict;
  fo_heartbeat : bool;
  fo_age : option Z;
  fo_witness : pydict;
}.

Definition read_failover (w : world) (s : runtime) : res failover :=
  replica ← Replication.status w.(mono) s.(replication);
  let age := replica_age replica in
  let eligible := match age with Some a => cfg.(_failover_promote_ms) <=? a | None => false end in
  let witness := WitnessQuorum.status cf w.(now_ms) s.(witness) in
  let '(state, safe) :=
    if Replication.is_primary s.(replication) then (if _has_authority cfg w s then "primary" else "lease-lost", false)
    else match age with
         | None => ("waiting", false)
         | Some a =>
             if eligible then ("eligible", negb (WitnessQuorum.configured cf) || truthy (dget_none witness "leaseValid"))
             else if cfg.(_failover_suspect_ms) <=? a then ("suspect", false) else ("healthy", false)
         end in
  decision ← (if Replication.is_primary s.(replication) then Ok None else d ← handoff_decision w s; Ok (Some d));
  Ok {| fo_state := state; fo_safe := safe; fo_decision := decision; fo_heartbeat := eligible; fo_age := age; fo_witness := witness |}.

(** The status also refreshes the continuity measures it reports. *)
Definition failover_status (w : world) : op failover :=
  let* s := st_get in
  let* f := st_lift (read_failover w s) in
  _refresh_failover_audio_telemetry w ;;;
  st_ret f.

Definition failover_dict (f : failover) (replica continuity : pydict) : pydict :=
  let ready k := VBool (match f.(fo_decision) with Some d => truthy (dget_none d k) | None => false end) in
  let election := if WitnessQuorum.configured cf
                  then (if cfg.(_auto_failover) then "witness-quorum-auto" else "witness-quorum-manual")
                  else "manual-after-failure-detection" in
  [("state", VStr f.(fo_state)); ("safeToPromote", VBool f.(fo_safe)); ("safeToPromoteAuthority", VBool f.(fo_safe));
   ("programLogicReady", ready "programLogicReady"); ("programExecutionReady", ready "executionReady");
   ("programContinuityReady", ready "readyForProgramTakeover"); ("handoffDecision", dict_or_none f.(fo_decision));
   ("heartbeatEligible", VBool f.(fo_heartbeat)); ("electionMode", VStr election);
   ("suspectAfterMs", VInt cfg.(_failover_suspect_ms)); ("promotionEligibleAfterMs", VInt cfg.(_failover_promote_ms));
   ("replicaAgeMs", opt_int f.(fo_age)); ("sourceNodeId", dget_none replica "sourceNodeId");
   ("lastAppliedRevision", dget_or replica "lastAppliedRevision" (VInt 0)); ("witness", VDict f.(fo_witness));
   ("splitBrainProtection", VStr "witness lease fences authority; physical outputs remain disarmed after promotion");
   ("continuity", VDict continuity)].

(** *** Role changes *)

Definition acquire_lease (w : world) : op pydict :=
  inside (WitnessQuorum.acquire w.(euid) w.(key_files) cf w.(exchanges) w.(now_ms) w.(now_ms)).

Definition set_role (w : world) (text : string) : op unit := inside (Replication.set_role text w.(mono)) ;;; st_ret tt.

(** [int(lease.get("leaseEpoch", 1))]. *)
Definition lease_epoch_of (lease : pydict) : res Z := py_int (dget_or lease "leaseEpoch" (VInt 1)).
Definition granted (lease : pydict) : bool := truthy (dget_none lease "leaseValid").

Definition promote (w : world) (lease : pydict) : op unit :=
  let* epoch := st_lift (lease_epoch_of lease) in
  inside (Replication.promote_with_epoch epoch w.(mono)) ;;; st_ret tt.

(** The list of devices [self._refresh_midi_devices] leaves, or its exception: the scan and its bindings belong to the
    device part, which is not modelled. *)
Definition rescan_midi (w : world) : op unit :=
  match w.(midi_scan) with Ok l => change (set_devices l) | Raise e => st_raise e end.
(** [try: self._refresh_midi_devices(rebind=True) except RuntimeError: pass], when the engine runs. *)
Definition rebind_midi (w : world) : op unit := st_when w.(native_available) (attempt (rescan_midi w)).

Definition record_promotion (w : world) (age : option Z) (decision : pydict) : op unit :=
  _record_failover_continuity w age ;;;
  put_continuity "handoffDecisionAtPromotion" (VDict decision).

(** Fenced and standby. *)
Definition demote (w : world) : op unit := _fence_physical_outputs w ;;; set_role w "standby".

Definition _witness_tick (w : world) : op unit :=
  let* lease := acquire_lease w in
  let* s := st_get in
  if Replication.is_primary s.(replication) then
    if granted lease
    then let* epoch := st_lift (lease_epoch_of lease) in
         inside (Replication.adopt_epoch epoch w.(mono)) ;;; st_ret tt
    else demote w
  else st_when cfg.(_auto_failover)
    (let* f := failover_status w in
     st_when (f.(fo_heartbeat) && granted lease)
       (let* decision := handoff_decision_status w in
        promote w lease ;;;
        record_promotion w f.(fo_age) decision ;;;
        rebind_midi w)).

(** The status it answers with, and whether it was promoted. *)
Definition set_node_role (w : world) (data : pydict) : op unit :=
  let role := lower (strip (text_or data "role" "")) in
  let* s := st_get in
  if String.eqb role "primary" && suspended s
  then st_raise (RuntimeError "handoff acquisition fence requires recovery before promotion")
  else if negb (is_true (dget_none data "acknowledgeAuthorityChange"))
  then st_raise (ValueError "role change requires acknowledgeAuthorityChange=true")
  else
    let previous := Replication.role_text s.(replication).(Replication._role) in
    let rising := String.eqb previous "standby" && String.eqb role "primary" in
    let* decision := st_lift (if rising then d ← handoff_decision w s; Ok (Some d) else Ok None) in
    if String.eqb role previous && (negb (String.eqb role "primary") || _has_authority cfg w s) then st_ret tt
    else if String.eqb role "standby" then
      demote w ;;;
      inside (T:=AuthorityLeases.registry) AuthorityLeases.clear ;;;
      change (set_reconciliation VNone)
    else if negb (String.eqb role "primary") then st_raise (ValueError "node role must be primary or standby")
    else
      let forced := is_true (dget_none data "forceAuthorityOverride") in
      let* eligible := (if String.eqb previous "standby" && negb forced
                        then let* f := failover_status w in st_ret f.(fo_heartbeat) else st_ret true) in
      if negb eligible
      then st_raise (RuntimeError "standby is not promotion-eligible; wait for heartbeat failure or use an explicit administrative override")
      else
        (if WitnessQuorum.configured cf && negb forced then
           let* lease := acquire_lease w in
           if negb (granted lease) then st_raise (RuntimeError "cannot promote without a witness quorum lease")
           else promote w lease
         else set_role w "primary") ;;;
        st_when (String.eqb previous "standby")
          (let* f := failover_status w in
           _record_failover_continuity w f.(fo_age) ;;;
           match decision with
           | Some d => put_continuity "handoffDecisionAtPromotion" (VDict d)
           | None => st_ret tt
           end) ;;;
        rebind_midi w.

Definition promote_after_failure (w : world) (data : pydict) : op bool :=
  let* s := st_get in
  if suspended s then st_raise (RuntimeError "handoff acquisition fence requires recovery before promotion")
  else if Replication.is_primary s.(replication) then failover_status w ;;; st_ret false
  else if negb (is_true (dget_none data "acknowledgeAuthorityChange"))
  then st_raise (ValueError "failover promotion requires acknowledgeAuthorityChange=true")
  else
    let* f := failover_status w in
    let* decision := st_lift (match f.(fo_decision) with
                              | Some ((_ :: _) as d) => Ok d
                              | _ => handoff_decision w s
                              end) in
    if negb f.(fo_heartbeat)
    then st_raise (RuntimeError "standby is not yet promotion-eligible; primary heartbeat has not exceeded the failover threshold")
    else
      (if WitnessQuorum.configured cf then
         let* lease := acquire_lease w in
         if negb (granted lease) then st_raise (RuntimeError "standby could not acquire witness quorum lease")
         else
           promote w lease ;;;
           record_promotion w f.(fo_age) decision ;;;
           rebind_midi w
       else set_node_role w [("role", VStr "primary"); ("acknowledgeAuthorityChange", VBool true);
                             ("forceAuthorityOverride", VBool true)]) ;;;
      failover_status w ;;;
      st_ret true.

(** [temp_exists] and [fence_later] are what the recovery finds on disk. *)
Definition recover_fenced_node (w : world) (data : pydict) (temp_exists : bool) (fence_later : WitnessQuorum.fence_view) : op pydict :=
  if negb (is_true (dget_none data "acknowledgeStandbyRecovery"))
  then st_raise (ValueError "fenced-node recovery requires acknowledgeStandbyRecovery=true")
  else
    let recovery_id := strip (text_or data "recoveryId" "") in
    if String.eqb recovery_id "" then st_raise (ValueError "fenced-node recovery requires recoveryId")
    else
      demote w ;;;
      inside (T:=AuthorityLeases.registry) AuthorityLeases.clear ;;;
      inside (WitnessQuorum.recover w.(euid) w.(key_files) cf recovery_id w.(exchanges) temp_exists fence_later w.(now_ms)).

(** ** Replication *)

Definition _replication_auth_configured : bool :=
  ring_configured cfg.(_replication_keyring) || negb (String.eqb cfg.(_replication_secret) "").

Definition _replication_auth_snapshot (w : world) : res HmacKeySnapshot :=
  if ring_configured cfg.(_replication_keyring) then ClusterSecrets.snapshot w.(euid) w.(key_files) cfg.(_replication_keyring)
  else ClusterSecrets.snapshot w.(euid) w.(key_files) {| _path := None; _legacy_secret := cfg.(_replication_secret) |}.

(** The status of an output stream, as the telemetry carries it. *)
Definition output_telemetry (d : pydict) : res pyval :=
  let num k := py_int (dget_or d k (VInt 0)) in
  slot ← num "slot"; block_end ← num "lastBlockEndShowNs"; render ← num "lastRenderShowNs"; write ← num "lastWriteNs";
  frames ← num "framesWritten";
  Ok (VDict [("slot", VInt slot); ("purpose", VStr (text_or d "purpose" "aux")); ("lastBlockEndShowNs", VInt block_end);
             ("lastRenderShowNs", VInt render); ("lastWriteNsLocal", VInt write); ("framesWritten", VInt frames)]).

Definition active_streams {A} (w : world) (streams : res (list pydict)) (f : pydict -> res A) : res (list A) :=
  if w.(native_available)
  then catch native_caught (l ← streams; map_res f (List.filter (fun d => truthy (dget_none d "active")) l)) (fun _ => Ok [])
  else Ok [].

Definition _execution_replication_telemetry (w : world) (s : runtime) : res pydict :=
  outputs ← active_streams w w.(audio_outputs) output_telemetry;
  inputs ← active_streams w w.(audio_inputs) (fun d => py_int (dget_or d "slot" (VInt 0)));
  show ← show_snapshot w s;
  seconds ← show_seconds show;
  shown ← nanoseconds seconds;
  Ok [("capturedAtMonotonicNsLocal", VInt w.(mono_ns)); ("showTimeNs", VInt shown);
      ("transportRunning", VBool (truthy (dget_or (dict_at show "transport") "running" (VBool false))));
      ("audioOutputs", VList outputs); ("activeAudioInputSlots", VList (map VInt inputs))].

Definition key_id_of (auth : HmacKeySnapshot) : option string := if auth.(keyring_mode) then auth.(active_key_id) else None.

Definition export_with (w : world) (auth : HmacKeySnapshot) (show : pydict) : op pydict :=
  let* s := st_get in
  let* secret := st_lift (active_secret auth) in
  let* t := st_lift (_execution_replication_telemetry w s) in
  inside (Replication.export show secret (Some (VDict t)) (key_id_of auth)).

Definition export_replica (w : world) : op pydict :=
  let* s := st_get in
  let* auth := st_lift (_replication_auth_snapshot w) in
  let* show := st_lift (replication_snapshot w.(show_clock).(mono_snapshot) s.(show)) in
  export_with w auth show.

(** One round of the replication loop: the last revision sent and when. *)
Definition replication_round (w : world) (heartbeat : float) (outcome : PeerReplication.http_outcome) (sent : Z * float)
    : op (Z * float) :=
  let* s := st_get in
  if negb (_has_authority cfg w s) || negb (PeerReplication.configured s.(peer)) || negb _replication_auth_configured then st_ret sent
  else
    let* show := st_lift (replication_snapshot w.(show_clock).(mono_snapshot) s.(show)) in
    let* revision := st_lift (py_int (dget_or show "revision" (VInt 0))) in
    if (revision =? fst sent) && flt (fsub w.(mono) (snd sent)) heartbeat then st_ret sent
    else
      let* envelope := st_catch (fun e => is_runtime_error e || is_permission_error e)
                         (let* auth := st_lift (_replication_auth_snapshot w) in
                          let* e := export_with w auth show in st_ret (Some e))
                         (fun _ => st_ret None) in
      match envelope with
      | None => st_ret sent
      | Some envelope =>
          let* result := inside (PeerReplication.push envelope outcome w.(mono) w.(mono)) in
          st_ret (if result.(PeerReplication.ok) then (revision, w.(mono)) else sent)
      end.

(** The authority an envelope comes from differs from the one last applied. *)
Definition authority_changed (prior envelope : pydict) : res bool :=
  let source d := py_str (py_or (dget_none d "sourceNodeId") (VStr "")) in
  if negb (String.eqb (source prior) (source envelope)) then Ok true
  else
    a ← py_int (py_or (dget_or prior "lastAppliedEpoch" (VInt 0)) (VInt 0));
    b ← py_int (py_or (dget_or envelope "epoch" (VInt 0)) (VInt 0));
    Ok (negb (a =? b)).

(** The native follower is disarmed before it is given the replicated state; the refresh of the audio devices is its
    answer, [audio_outputs]. *)
Definition follow_replica (w : world) : op unit :=
  call w (ArmLighting false) ;;;
  call w DeactivateInputs ;;;
  call w DeactivateOutputs ;;;
  call w SyncState ;;;
  _configure_lighting_from_state w ;;;
  match w.(audio_outputs) with Ok _ => st_ret tt | Raise e => st_raise e end ;;;
  rescan_midi w.

(** The part under the mutation lock. *)
Definition install_replica (w : world) (envelope : pydict) : op pydict :=
  let* incoming := st_lift (dindex envelope "snapshot") in
  let* state := inside (ShowRestore.apply_replica_snapshot incoming w.(show_clock)) in
  save_show w ;;;
  let* events := st_lift (py_iter (dget_or state "events" (VList [])) : res (list pyval)) in
  let* ids := st_lift (map_res (fun e => v ← vget e "eventId" (VInt 0); py_int v) events) in
  change (set_persisted (max_or_zero ids)) ;;;
  st_when w.(native_available) (attempt (follow_replica w)) ;;;
  change (set_lighting false) ;;;
  change (set_telemetry (match py_or (dget_none envelope "executionTelemetry") (VDict []) with VDict d => d | _ => [] end)) ;;;
  inside (Replication.mark_applied envelope w.(mono)) ;;;
  st_ret state.

(** [hook] is the server's authorization audit, which may refuse. *)
Definition apply_replica (w : world) (envelope : pydict) (hook : bool -> res unit) : op pydict :=
  let* auth := st_lift (_replication_auth_snapshot w) in
  let* verdict := st_lift (Replication.verify_envelope envelope "" (Some auth)) in
  let '(ok, reason) := (verdict : bool * string) in
  if negb ok then let* _ := st_lift (hook false) in st_raise (ValueError reason)
  else
    let* _ := st_lift (hook true) in
    let* s := st_get in
    let* prior := st_lift (Replication.status w.(mono) s.(replication)) in
    let* decision := st_lift (Replication.can_apply envelope s.(replication)) in
    let '(accepted, why) := (decision : bool * string) in
    if negb accepted then st_raise (ValueError why)
    else
      let* changed := st_lift (authority_changed prior envelope) in
      st_when changed (inside (T:=Handoff.registry) Handoff.clear) ;;;
      install_replica w envelope.
End node.
