(* ===== verification/RuntimeHandoff.v ===== *)
(** * The planned handoff of a running show (backend/runtime.py)

    The transaction between a primary and a standby: offer, acceptance, pre-roll
    acknowledgement with its receipt, the release of the source's authority with
    the transfer of its lease, the commit on the target, and abort. The status
    each step answers with is read from the transaction and left out. *)

From S2P Require Import Prelude PyStr PyFloat PyVal PyFacts StateLogic ClusterSecrets PlannedHandoff Adaptation ShowData ShowState Runtime RuntimeFailover.
From S2P Require Replication WitnessQuorum PeerReplication.
From S2P Require AuthorityLeases.

#[local] Open Scope string_scope.
#[local] Open Scope list_scope.
#[local] Open Scope Z_scope.
#[local] Open Scope st_scope.

(** ** The transaction *)



(** [self._planned_handoff.get("state") in states]; an absent or empty transaction is in none. *)
Definition in_state (states : list string) (p : option pydict) : bool :=
  match p with
  | Some ((_ :: _) as d) => existsb (fun x => py_eq (dget_none d "state") (VStr x)) states
  | _ => false
  end.

Definition put_planned (k : string) (v : pyval) : op unit :=
  change (fun m => set_planned (option_map (fun d => dset d k v) m.(planned)) m).

(** A field of the transaction, by index. *)
Definition planned_field (k : string) : op pyval :=
  let* s := st_get in st_lift (dindex (default [] s.(mine).(planned)) k).
Definition planned_int (k : string) : op Z := let* v := planned_field k in st_lift (py_int v).

(** [int(float(transport.get("seconds", 0.0)) * 1_000_000_000)]. *)
Definition show_ns (w : world) (s : runtime) : res Z :=
  show ← show_snapshot w s; seconds ← show_seconds show; nanoseconds seconds.

(** [{"state": state, **{k: offer[k] for k in offer if keep(k)}}]. *)
Definition transaction_of (state : string) (keep : string -> bool) (offer : pydict) : pydict :=
  dmerge [("state", VStr state)] (List.filter (fun kv => keep (fst kv)) offer).

Definition need (b : bool) (e : exn) : op unit := st_lift (guard_res b e).

Section node.
Context (cfg : runtime_config).
Local Abbreviation cf := (cfg.(witness_config)).

Definition need_authentication : op unit :=
  need (_replication_auth_configured cfg) (RuntimeError "planned handoff requires authenticated replication").

Definition planned_handoff_offer (w : world) (data : pydict) : op pydict :=
  let* s := st_get in
  need (Replication.is_primary s.(replication)) (PermissionError "only the primary may create a planned handoff offer") ;;;
  need_authentication ;;;
  let target_node := strip (text_or data "targetNodeId" "") in
  let* requested := st_lift (py_int (dget_or data "preRollMs" (VInt 2000))) in
  let pre_roll := Z.max 100 (Z.min requested 60000) in
  let* now := st_lift (show_ns w s) in
  let* wanted := st_lift (py_int (dget_or data "targetShowNs" (VInt 0))) in
  let* transaction := st_lift (py_int (dget_or data "transactionId" (VInt 0))) in
  let* auth := st_lift (_replication_auth_snapshot cfg w) in
  let epoch := s.(replication).(Replication._epoch) in
  let* secret := st_lift (active_secret auth) in
  let* offer := st_lift (make_offer
      {| transaction_id := transaction; source_node_id := s.(replication).(Replication._node_id); target_node_id := target_node;
         source_epoch := epoch; target_epoch := epoch + 1; target_show_ns := Z.max wanted (now + pre_roll * 1000000) |}
      (truthy (dget_or data "allowDegradedProgram" (VBool false))) secret (key_id_of auth) w.(wall_ns)) in
  change (set_planned (Some (transaction_of "offered" (fun k => negb (starts_with "hmac" k)) offer))) ;;;
  st_ret offer.

Definition planned_handoff_accept (w : world) (offer : pydict) : op unit :=
  let* s := st_get in
  need (negb (Replication.is_primary s.(replication)))
    (PermissionError "planned handoff offers are accepted by standby nodes only") ;;;
  need_authentication ;;;
  let* auth := st_lift (_replication_auth_snapshot cfg w) in
  let* verdict := st_lift (verify_offer offer "" (Some auth) s.(replication).(Replication._node_id)) in
  need (fst (verdict : bool * string)) (PermissionError (snd verdict)) ;;;
  let source := s.(replication).(Replication._source_node_id) in
  let* offered := st_lift (dindex offer "sourceNodeId") in
  need (String.eqb source "" || py_eq (VStr source) offered)
    (RuntimeError "planned handoff source does not match replicated authority") ;;;
  need w.(native_available) (RuntimeError "native planned handoff execution is unavailable") ;;;
  let* transaction := st_lift (index_int offer "transactionId") in
  let* source_epoch := st_lift (index_int offer "sourceEpoch") in
  let* target_epoch := st_lift (index_int offer "targetEpoch") in
  let* target := st_lift (index_int offer "targetShowNs") in
  let* degraded := st_lift (dindex offer "allowDegradedProgram") in
  call w (PrepareHandoff transaction source_epoch target_epoch target (truthy degraded)) ;;;
  change (set_planned (Some (transaction_of "preparing" (fun k => negb (String.eqb k "hmacSha256")) offer))).

Definition acknowledge_receipt (w : world) (ready : bool) : op pydict :=
  let* auth := st_lift (_replication_auth_snapshot cfg w) in
  let* s := st_get in
  let offer := default [] s.(mine).(planned) in
  let key := dget_none offer "keyId" in
  let* secret := st_lift (resolve auth key) in
  st_lift (make_ready_receipt offer ready secret
             (if auth.(keyring_mode) then match key with VStr k => Some k | _ => None end else None) w.(wall_ns)).

Definition delivery_dict (r : PeerReplication.PeerPushResult) : pydict :=
  [("delivered", VBool r.(PeerReplication.ok)); ("httpStatus", int_or_none r.(PeerReplication.http_status));
   ("error", opt_str r.(PeerReplication.error))].

Definition planned_handoff_acknowledge (w : world) (data : pydict) (delivery : PeerReplication.http_outcome) : op unit :=
  let* s := st_get in
  need (in_state ["preparing"] s.(mine).(planned)) (RuntimeError "no planned handoff is awaiting pre-roll acknowledgement") ;;;
  need (is_true (dget_none data "acknowledgePreRoll")) (ValueError "planned handoff requires acknowledgePreRoll=true") ;;;
  let* decision := handoff_decision_status w in
  let ready := truthy (dget_none decision "readyForProgramTakeover") in
  need (ready || truthy (dget_none (default [] s.(mine).(planned)) "allowDegradedProgram"))
    (RuntimeError "program pre-roll is not execution-ready") ;;;
  let* transaction := planned_int "transactionId" in
  call w (AcknowledgeHandoff transaction ready) ;;;
  put_planned "state" (VStr "target-ready") ;;;
  put_planned "programReady" (VBool ready) ;;;
  let* _ := acknowledge_receipt w ready in
  let* result := inside (PeerReplication.deliver_planned_handoff_ready delivery) in
  put_planned "readinessDelivery" (VDict (delivery_dict result)).

(** [hook] is the server's authorization audit, which may refuse. *)
Definition planned_handoff_peer_ready (w : world) (receipt : pydict) (hook : bool -> res unit) : op unit :=
  let* s := st_get in
  need (Replication.is_primary s.(replication) && in_state ["offered"; "target-ready"] s.(mine).(planned))
    (RuntimeError "primary has no matching planned handoff offer") ;;;
  need_authentication ;;;
  let* auth := st_lift (_replication_auth_snapshot cfg w) in
  let offer := default [] s.(mine).(planned) in
  let* verdict := st_lift (verify_ready_receipt receipt "" (Some auth) s.(replication).(Replication._node_id) offer) in
  let '(ok, reason) := (verdict : bool * string) in
  if negb ok then let* _ := st_lift (hook false) in st_raise (PermissionError reason)
  else
    let* _ := st_lift (hook true) in
    let* ready := st_lift (dindex receipt "programReady") in
    if in_state ["target-ready"] s.(mine).(planned) then
      need (py_eq (VBool (truthy (dget_none offer "programReady"))) ready)
        (RuntimeError "conflicting planned handoff readiness receipt")
    else
      let* digest := st_lift (dindex receipt "digestSha256") in
      put_planned "state" (VStr "target-ready") ;;;
      put_planned "programReady" ready ;;;
      put_planned "readyReceiptDigest" (VStr (py_str digest)).

Definition planned_handoff_commit (w : world) (data : pydict) : op unit :=
  let* s := st_get in
  need (in_state ["target-ready"] s.(mine).(planned)) (RuntimeError "planned handoff target is not ready") ;;;
  need (is_true (dget_none data "acknowledgeAuthorityChange"))
    (ValueError "planned handoff commit requires acknowledgeAuthorityChange=true") ;;;
  need (WitnessQuorum.configured cf) (RuntimeError "planned handoff commit requires witness quorum fencing") ;;;
  let* lease := acquire_lease cfg w in
  let* target_epoch := planned_int "targetEpoch" in
  let* epoch := st_lift (py_int (dget_or lease "leaseEpoch" (VInt 0))) in
  need (granted lease && (epoch =? target_epoch)) (RuntimeError "standby did not acquire the exact planned witness epoch") ;;;
  let* now := st_lift (show_ns w s) in
  let* transaction := planned_int "transactionId" in
  let* source_epoch := planned_int "sourceEpoch" in
  call w (CommitHandoff transaction source_epoch epoch now) ;;;
  inside (Replication.promote_with_epoch epoch w.(mono)) ;;;
  put_planned "state" (VStr "committed") ;;;
  put_planned "physicalOutputsArmed" (VBool false).

(** The transfer asked of the witnesses: [identity] is the fence marker's. *)
Definition transfer_lease (w : world) (identity : Z * Z) : op pydict :=
  let* target := planned_field "targetNodeId" in
  let* source_epoch := planned_int "sourceEpoch" in
  let* target_epoch := planned_int "targetEpoch" in
  let* transaction := planned_int "transactionId" in
  inside (WitnessQuorum.transfer w.(euid) w.(key_files) cf
            {| WitnessQuorum.tf_target := py_str target; WitnessQuorum.tf_source_epoch := source_epoch;
               WitnessQuorum.tf_target_epoch := target_epoch; WitnessQuorum.tf_transaction := transaction |}
            identity w.(exchanges) w.(now_ms) w.(now_ms)).

Definition planned_handoff_release_authority (w : world) (data : pydict) (identity : Z * Z) : op unit :=
  let* s := st_get in
  need (Replication.is_primary s.(replication)) (PermissionError "only the old primary may release planned-handoff authority") ;;;
  need (in_state ["target-ready"] s.(mine).(planned)) (RuntimeError "planned handoff target is not ready") ;;;
  need (is_true (dget_none data "acknowledgeAuthorityRelease"))
    (ValueError "planned handoff release requires acknowledgeAuthorityRelease=true") ;;;
  need (WitnessQuorum.configured cf) (RuntimeError "planned handoff release requires witness quorum fencing") ;;;
  let* now := st_lift (show_ns w s) in
  let* boundary := planned_int "targetShowNs" in
  need (boundary <=? now) (RuntimeError "planned handoff Show-Time boundary has not arrived") ;;;
  demote w ;;;
  put_planned "state" (VStr "authority-release-pending") ;;;
  let* transfer := transfer_lease w identity in
  put_planned "authorityTransfer" (VDict transfer) ;;;
  put_planned "state" (VStr (if truthy (dget_none transfer "transferred") then "authority-released" else "release-indeterminate")) ;;;
  put_planned "physicalOutputsArmed" (VBool false).

Definition planned_handoff_abort (w : world) (data : pydict) : op unit :=
  let* s := st_get in
  need (match s.(mine).(planned) with Some (_ :: _) => true | _ => false end) (RuntimeError "no planned handoff is active") ;;;
  need (is_true (dget_none data "acknowledgeAbort")) (ValueError "planned handoff abort requires acknowledgeAbort=true") ;;;
  st_when w.(native_available) (let* transaction := planned_int "transactionId" in call w (AbortHandoff transaction)) ;;;
  put_planned "state" (VStr "aborted").
End node.

(** * Operator leases of a node (backend/runtime.py)

    The lease requests a node accepts: typed against its resources, departments
    and active venue mappings, granted and revoked only while it has authority,
    and entered in the public record. *)

Definition _authority_department_for_resource (resource : string) : string :=
  let r := strip resource in
  if starts_with "monitor:" r || String.eqb r "audio" then "audio"
  else if starts_with "midi:" r || String.eqb r "midi-bindings" then "midi"
  else if starts_with "notation:" r then "notation"
  else if String.eqb r "lighting-network" then "lighting"
  else if String.eqb r "technology" then "technology"
  else if String.eqb r "transport" || String.eqb r "handoff" then "production"
  else if String.eqb r "show" then "show"
  else if String.eqb r "system" then "system"
  else "".

Definition resource_authority (resource : string) (default : option string) (mono : nat -> float) (s : runtime) : res (option string) :=
  AuthorityLeases.resolve (VStr resource) (VStr (_authority_department_for_resource resource)) default mono s.(leases).

(** [(active.get("mappings") or {})] of the active patch layer. *)
Definition active_mappings_of (s : runtime) : res pydict :=
  state ← Adaptation.snapshot s.(adaptations); Ok (dict_at (dict_at state "active") "mappings").

Definition domain_prefix (key : string) : string :=
  match before_char "."%char (chars key) with Some l => of_chars l | None => key end.

Definition known_resources (w : world) (s : runtime) : res (list string) :=
  show ← snapshot false false w.(show_clock).(mono_snapshot) s.(show);
  Ok (dkeys (dict_at show "resourceRevisions")).

Definition has_text (l : list string) (x : string) : bool := existsb (String.eqb x) l.

(** The kind and context of a scope, explicit or inferred. *)
Definition classify_scope (scope kind : string) (mappings : pydict) (resources : list string) : res (string * string) :=
  let domains := map domain_prefix (dkeys mappings) in
  let departments := List.filter (fun d => negb (String.eqb d "")) (map _authority_department_for_resource resources) ++ domains in
  if negb (String.eqb kind "") then
    if String.eqb kind "patch" then
      if dhas mappings scope then Ok (kind, "venue")
      else Raise (ValueError "patch authority lease scope is not part of the active Venue Patch Layer")
    else if String.eqb kind "resource" then
      if has_text resources scope then Ok (kind, "runtime")
      else Raise (ValueError "resource authority lease scope is not a known runtime resource")
    else if String.eqb kind "department" then
      if has_text departments scope then Ok (kind, "runtime")
      else Raise (ValueError "department authority lease scope is not a known runtime department")
    else Raise (ValueError "authority lease scopeKind must be patch, department, or resource")
  else if dhas mappings scope then Ok ("patch", "venue")
  else if has_text domains scope then Ok ("department", "venue")
  else if has_text resources scope then Ok ("resource", "runtime")
  else if has_text departments scope then Ok ("department", "runtime")
  else Raise (ValueError "authority lease scope is not a known patch, department, or runtime resource").

Definition _normalize_authority_lease_request (w : world) (s : runtime) (data : pydict) : res pydict :=
  let scope := strip (text_or data "scope" "") in
  _ ← guard_res (negb (String.eqb scope "")) (ValueError "authority lease requires scope and grantee");
  mappings ← active_mappings_of s;
  resources ← known_resources w s;
  '(kind, context) ← classify_scope scope (lower (strip (text_or data "scopeKind" ""))) mappings resources;
  Ok (dmerge data [("scope", VStr scope); ("scopeKind", VStr kind); ("context", VStr context)]).

(** What a grant draws and reads: the new identifier, the clocks, and the texts of now. *)
Record lease_draw := {
  ld_id : string; ld_mono : nat -> float; ld_stamp : nat -> string; ld_issued : string;
}.

(** An event of the show that is persisted at once. *)
Definition record_event (w : world) (cat txt : string) (payload : pydict) : op unit :=
  let* _ := inside (record_external_event w.(show_clock) cat txt payload) in
  _persist_new_events w.

(** [arrow] is the character U+2192 of the event's text; [record] is the public record. *)
Definition venue_authority_grant (cfg : runtime_config) (w : world) (data : pydict) (draw : lease_draw) (arrow : string)
    (record : pydict -> res pyval) : op pydict :=
  let* s := st_get in
  if negb (_has_authority cfg w s) then st_raise (RuntimeError "authority lease grant requires current node authority")
  else
    let* normalized := st_lift (_normalize_authority_lease_request w s data) in
    let* p := inside (AuthorityLeases.grant normalized draw.(ld_id) draw.(ld_mono) draw.(ld_stamp) w.(mono) draw.(ld_issued) w.(mono)) in
    let lease := AuthorityLeases.public_dict p in
    match record lease with
    | Raise _ =>
        let* _ := inside (AuthorityLeases.revoke (text_or lease "leaseId" "") (VStr "public-record-failure") draw.(ld_issued) w.(mono)) in
        st_raise (RuntimeError "public record unavailable")
    | Ok evidence =>
        let lease := dmerge lease [("publicRecord", evidence)] in
        record_event w "authority"
          ("Authority leased: " +:+ py_str (dget_none lease "scopeKind") +:+ ":" +:+ py_str (dget_none lease "scope") +:+ " "
           +:+ arrow +:+ " " +:+ py_str (dget_none lease "grantee")) lease ;;;
        change (set_reconciliation VNone) ;;;
        st_ret lease
    end.

Definition venue_authority_revoke (cfg : runtime_config) (w : world) (lease_id : string) (data : pydict) (stamp : string)
    (record : pydict -> res pyval) : op pydict :=
  let* s := st_get in
  if negb (_has_authority cfg w s) then st_raise (RuntimeError "authority lease revoke requires current node authority")
  else
    let* p := inside (AuthorityLeases.revoke lease_id (VStr (text_or data "requestedBy" "")) stamp w.(mono)) in
    let lease := AuthorityLeases.public_dict p in
    match record lease with
    | Raise _ => st_raise (RuntimeError "public record unavailable after authority revocation")
    | Ok evidence =>
        let lease := dmerge lease [("publicRecord", evidence)] in
        record_event w "authority" ("Venue authority lease revoked: " +:+ py_str (dget_none lease "scope")) lease ;;;
        change (set_reconciliation VNone) ;;;
        st_ret lease
    end.
