(* ===== verification/RuntimeFacts.v ===== *)
(** * What a node guarantees (backend/runtime.py)

    The operations of the runtime as one type with one interpreter; the silence
    of a node that is not primary, kept by all of them; mutations that need
    authority and run once; and the release that always fences its source. *)

From S2P Require Import Prelude PyStr PyFloat PyVal PyFacts StateLogic ClusterSecrets Adaptation.
From S2P Require Import ShowData ShowState ShowCommands Runtime RuntimeFailover RuntimeHandoff.
From S2P Require Replication WitnessQuorum WitnessLease WitnessSystem AuthorityLeases Handoff PeerReplication Persistence ShowRestore.

#[local] Open Scope string_scope.
#[local] Open Scope list_scope.
#[local] Open Scope Z_scope.
#[local] Open Scope st_scope.

(** ** The operations of a node *)

Inductive request :=
| Mutate (command_id : string) (c : command) (expected expected_resource : option Z)
| ArmLightingNetwork (data : pydict)
| WitnessTick
| SetNodeRole (data : pydict)
| PromoteAfterFailure (data : pydict)
| RecoverFencedNode (data : pydict) (temp_exists : bool) (fence_later : WitnessQuorum.fence_view)
| ApplyReplica (envelope : pydict) (hook : bool -> res unit)
| ExportReplica
| ReplicationRound (heartbeat : float) (outcome : PeerReplication.http_outcome) (sent : Z * float)
| ReportShadow (data : pydict)
| ReportLive (data : pydict)
| FailoverStatus
| Offer (data : pydict)
| Accept (offer : pydict)
| Acknowledge (data : pydict) (delivery : PeerReplication.http_outcome)
| PeerReady (receipt : pydict) (hook : bool -> res unit)
| Commit (data : pydict)
| Release (data : pydict) (identity : Z * Z)
| AbortHandoffRequest (data : pydict)
| GrantLease (data : pydict) (draw : lease_draw) (arrow : string) (record : pydict -> res pyval)
| RevokeLease (lease_id : string) (data : pydict) (stamp : string) (record : pydict -> res pyval).

Definition ignore {A} (m : op A) : op unit := let* _ := m in st_ret tt.

Definition perform (cfg : runtime_config) (w : world) (r : request) : op unit :=
  match r with
  | Mutate id c e er => ignore (mutate cfg w id (run w.(show_clock) c e er))
  | ArmLightingNetwork d => arm_lighting_network cfg w d
  | WitnessTick => _witness_tick cfg w
  | SetNodeRole d => set_node_role cfg w d
  | PromoteAfterFailure d => ignore (promote_after_failure cfg w d)
  | RecoverFencedNode d t f => ignore (recover_fenced_node cfg w d t f)
  | ApplyReplica e h => ignore (apply_replica cfg w e h)
  | ExportReplica => ignore (export_replica cfg w)
  | ReplicationRound h o s => ignore (replication_round cfg w h o s)
  | ReportShadow d => ignore (report_shadow_prebuffer w d)
  | ReportLive d => ignore (report_live_feed_ready w d)
  | FailoverStatus => ignore (failover_status cfg w)
  | Offer d => ignore (planned_handoff_offer cfg w d)
  | Accept o => planned_handoff_accept cfg w o
  | Acknowledge d o => planned_handoff_acknowledge cfg w d o
  | PeerReady r h => planned_handoff_peer_ready cfg w r h
  | Commit d => planned_handoff_commit cfg w d
  | Release d i => planned_handoff_release_authority cfg w d i
  | AbortHandoffRequest d => planned_handoff_abort w d
  | GrantLease d x a r => ignore (venue_authority_grant cfg w d x a r)
  | RevokeLease i d t r => ignore (venue_authority_revoke cfg w i d t r)
  end.

(** ** Invariants the operations keep

    What the lemmas below need of an invariant of the node: it ignores the parts
    most operations change, and survives the few calls that matter to it. *)

Definition keeps_role {A} (m : Replication.op A) : Prop := forall t, Replication._role (fst (m t)) = Replication._role t.
Definition becomes_primary {A} (m : Replication.op A) : Prop := forall t, Replication.is_primary (fst (m t)) = true.

(** Neither the armed flag nor the cached results. *)
Definition minor (f : own -> own) : Prop :=
  forall m, (f m).(lighting_armed) = m.(lighting_armed) /\ (f m).(command_results) = m.(command_results).

Class Quiet (cfg : runtime_config) (w : world) (I : runtime -> Prop) : Prop := {
  q_show_part : forall (x : ShowState) s, I s -> I (with_part x s);
  q_execution_part : forall (x : Handoff.registry) s, I s -> I (with_part x s);
  q_peer_part : forall (x : PeerReplication.client) s, I s -> I (with_part x s);
  q_repository_part : forall (x : Persistence.repository) s, I s -> I (with_part x s);
  q_minor : forall f, minor f -> keeps I (change f);
  q_off : keeps I (change (set_lighting false));
  q_clear : keeps I (inside (T:=AuthorityLeases.registry) AuthorityLeases.clear);
  q_role : forall A (m : Replication.op A), keeps_role m -> keeps I (inside m);
  q_demote : keeps I (_fence_physical_outputs w) -> keeps I (demote w);
  q_acquire : keeps I (acquire_lease cfg w);
}.

(** And, for the operations that promote the node or pass its lease on: *)
Class Loud (cfg : runtime_config) (w : world) (I : runtime -> Prop) : Prop := {
  q_primary : forall A (m : Replication.op A), becomes_primary m -> keeps I (inside m);
  q_transfer : forall identity, keeps I (transfer_lease cfg w identity);
}.

Lemma export_role show secret t k : keeps_role (Replication.export show secret t k).
Proof. intros x. unfold Replication.export. rewrite st_get_bind. by destruct (Replication.is_primary x). Qed.

Lemma adopt_role epoch now : keeps_role (Replication.adopt_epoch epoch now).
Proof. intros x. unfold Replication.adopt_epoch. rewrite st_get_bind. unfold st_bind, st_when. by destruct (_ <? _). Qed.

Lemma mark_role envelope now : keeps_role (Replication.mark_applied envelope now).
Proof.
  intros x. unfold Replication.mark_applied, st_bind, st_lift, st_modify.
  destruct (dindex envelope "sourceNodeId"); [|done]. destruct (_ ≫= _); [|done]. destruct (_ ≫= _); [|done].
  by destruct (_ ≫= _).
Qed.

Lemma promote_primary epoch now : becomes_primary (Replication.promote_with_epoch epoch now).
Proof. by intros x. Qed.

Lemma set_role_primary now : becomes_primary (Replication.set_role "primary" now).
Proof.
  intros x. unfold Replication.set_role. change (Replication.parse_role "primary") with (Some Replication.Primary). cbv beta iota.
  rewrite st_get_bind. unfold st_bind, st_when. destruct (bool_decide _) eqn:E; cbn.
  - apply bool_decide_eq_true in E. change (Replication.is_primary x = true). unfold Replication.is_primary. by rewrite <- E.
  - done.
Qed.

#[export] Hint Resolve export_role adopt_role mark_role promote_primary set_role_primary : keeps.

Lemma keeps_planned_int (I : runtime -> Prop) k : keeps I (planned_int k).
Proof. unfold planned_int, planned_field. keeps_tac. Qed.
#[export] Hint Resolve keeps_planned_int : keeps.

Section quiet.
Context (cfg : runtime_config) (w : world) (I : runtime -> Prop) `{Q : !Quiet cfg w I}.

Lemma keeps_minor f : minor f -> keeps I (change f).
Proof. apply q_minor. Qed.

Lemma keeps_show {A} (m : st ShowState A) : keeps I (inside m).
Proof. apply keeps_within, q_show_part. Qed.
Lemma keeps_execution {A} (m : st Handoff.registry A) : keeps I (inside m).
Proof. apply keeps_within, q_execution_part. Qed.
Lemma keeps_peer {A} (m : st PeerReplication.client A) : keeps I (inside m).
Proof. apply keeps_within, q_peer_part. Qed.
Lemma keeps_repository {A} (m : st Persistence.repository A) : keeps I (inside m).
Proof. apply keeps_within, q_repository_part. Qed.
Lemma keeps_off : keeps I (change (set_lighting false)).
Proof. apply q_off. Qed.
Lemma keeps_clear : keeps I (inside (T:=AuthorityLeases.registry) AuthorityLeases.clear).
Proof. apply q_clear. Qed.
Lemma keeps_role_of {A} (m : Replication.op A) : keeps_role m -> keeps I (inside m).
Proof. apply q_role. Qed.
Lemma keeps_acquire : keeps I (acquire_lease cfg w).
Proof. apply q_acquire. Qed.
#[local] Hint Extern 2 (keeps I (change (fun _ => _))) => (apply keeps_minor; done) : keeps.
#[local] Hint Extern 2 (keeps I (change (set_persisted _))) => (apply keeps_minor; done) : keeps.
#[local] Hint Extern 2 (keeps I (change (set_planned _))) => (apply keeps_minor; done) : keeps.
#[local] Hint Extern 2 (keeps I (change (set_telemetry _))) => (apply keeps_minor; done) : keeps.
#[local] Hint Extern 2 (keeps I (change (set_devices _))) => (apply keeps_minor; done) : keeps.
#[local] Hint Extern 2 (keeps I (change (set_reconciliation _))) => (apply keeps_minor; done) : keeps.
#[local] Hint Extern 2 (keeps I (change (add_call _))) => (apply keeps_minor; done) : keeps.
#[local] Hint Resolve keeps_show keeps_execution keeps_peer keeps_repository keeps_off keeps_clear keeps_role_of keeps_acquire : keeps.

(** *** The steps of the operations *)

Lemma quiet_call c : keeps I (call w c).
Proof. unfold call. keeps_tac. Qed.
#[local] Hint Resolve quiet_call : keeps.

Lemma quiet_attempt m : keeps I m -> keeps I (attempt m).
Proof. apply keeps_attempt. Qed.

Lemma quiet_need b e : keeps I (need b e).
Proof. apply keeps_lift. Qed.

Lemma quiet_put_planned k v : keeps I (put_planned k v).
Proof. unfold put_planned. keeps_tac. Qed.

Lemma quiet_put_continuity k v : keeps I (put_continuity k v).
Proof. unfold put_continuity. keeps_tac. Qed.

#[local] Hint Resolve quiet_attempt quiet_need quiet_put_planned quiet_put_continuity : keeps.

Lemma quiet_detach d : keeps I (detach_midi_input w d).
Proof. unfold detach_midi_input. keeps_tac. Qed.
#[local] Hint Resolve quiet_detach : keeps.

Lemma quiet_fence : keeps I (_fence_physical_outputs w).
Proof.
  unfold _fence_physical_outputs. keeps_tac. apply keeps_iter. intros d _. auto with keeps.
Qed.

Lemma quiet_append i l : keeps I (append_all w i l).
Proof. revert i. induction l as [|e l IH]; intros i; cbn; keeps_tac. Qed.

Lemma quiet_drain i l : keeps I (drain_journal w i l).
Proof. revert i. induction l as [|e l IH]; intros i; cbn; keeps_tac. Qed.
#[local] Hint Resolve quiet_fence quiet_append quiet_drain : keeps.

Lemma quiet_persist : keeps I (_persist_new_events w).
Proof. unfold _persist_new_events. keeps_tac. Qed.

Lemma quiet_save : keeps I (save_show w).
Proof. unfold save_show. keeps_tac. Qed.
#[local] Hint Resolve quiet_persist quiet_save : keeps.

Lemma quiet_after : keeps I (_after_mutation w).
Proof.
  unfold _after_mutation, sync_native, _persist_core_journal. keeps_tac. apply quiet_attempt. keeps_tac.
Qed.
#[local] Hint Resolve quiet_after : keeps.

(** Mutations also change the cached results. *)
Lemma quiet_mutate id operation : (forall f, keeps I (change (fun m => set_results (f m) m))) -> keeps I (mutate cfg w id operation).
Proof. intros Hr. unfold mutate, admit_command, carry_out. keeps_tac; apply (Hr (fun m => remember _ _ (command_results m))). Qed.

Lemma quiet_configure network target protocol : keeps I (configure_from w network target protocol).
Proof. unfold configure_from, configure_lighting_network. keeps_tac. Qed.
#[local] Hint Resolve quiet_configure : keeps.

Lemma quiet_lighting_from_state : keeps I (_configure_lighting_from_state w).
Proof. unfold _configure_lighting_from_state. keeps_tac. Qed.

Lemma quiet_mark kind : keeps I (_mark_post_promotion_output w kind).
Proof. unfold _mark_post_promotion_output. keeps_tac. Qed.
#[local] Hint Resolve quiet_lighting_from_state quiet_mark : keeps.

Lemma quiet_decision : keeps I (handoff_decision_status w).
Proof. unfold handoff_decision_status. keeps_tac. Qed.
#[local] Hint Resolve quiet_decision : keeps.

Lemma quiet_shadow d : keeps I (report_shadow_prebuffer w d).
Proof. unfold report_shadow_prebuffer. keeps_tac. Qed.

Lemma quiet_live d : keeps I (report_live_feed_ready w d).
Proof. unfold report_live_feed_ready. keeps_tac. Qed.

Lemma quiet_record age : keeps I (_record_failover_continuity w age).
Proof. unfold _record_failover_continuity. keeps_tac. Qed.

Lemma quiet_refresh : keeps I (_refresh_failover_audio_telemetry w).
Proof. unfold _refresh_failover_audio_telemetry, first_write, program_gap, largest_gap. keeps_tac. Qed.
#[local] Hint Resolve quiet_shadow quiet_live quiet_record quiet_refresh : keeps.

Lemma quiet_failover : keeps I (failover_status cfg w).
Proof. unfold failover_status. keeps_tac. Qed.

Lemma quiet_rebind : keeps I (rebind_midi w).
Proof. unfold rebind_midi, rescan_midi. keeps_tac. apply quiet_attempt. keeps_tac. Qed.
#[local] Hint Resolve quiet_failover quiet_rebind : keeps.

Lemma quiet_record_promotion age d : keeps I (record_promotion w age d).
Proof. unfold record_promotion. keeps_tac. Qed.
#[local] Hint Resolve quiet_record_promotion : keeps.

Lemma quiet_demotion : keeps I (demote w).
Proof. apply q_demote, quiet_fence. Qed.
#[local] Hint Resolve quiet_demotion : keeps.

(** *** Every operation *)


Lemma quiet_export auth d : keeps I (export_with w auth d).
Proof. unfold export_with. keeps_tac. Qed.
#[local] Hint Resolve quiet_export : keeps.

Lemma quiet_round h o x : keeps I (replication_round cfg w h o x).
Proof.
  unfold replication_round. keeps_tac. apply keeps_catch; [|intros; auto with keeps].
  keeps_tac.
Qed.

Lemma quiet_follow : keeps I (follow_replica w).
Proof. unfold follow_replica, rescan_midi. keeps_tac. Qed.
#[local] Hint Resolve quiet_follow : keeps.

Lemma quiet_install envelope : keeps I (install_replica w envelope).
Proof. unfold install_replica. keeps_tac. Qed.
#[local] Hint Resolve quiet_install : keeps.

Lemma quiet_apply envelope hook : keeps I (apply_replica cfg w envelope hook).
Proof. unfold apply_replica. keeps_tac. Qed.

Lemma quiet_offer d : keeps I (planned_handoff_offer cfg w d).
Proof. unfold planned_handoff_offer, need_authentication. keeps_tac. Qed.

Lemma quiet_accept d : keeps I (planned_handoff_accept cfg w d).
Proof. unfold planned_handoff_accept, need_authentication. keeps_tac. Qed.

Lemma quiet_acknowledge d o : keeps I (planned_handoff_acknowledge cfg w d o).
Proof. unfold planned_handoff_acknowledge, acknowledge_receipt. keeps_tac. Qed.

Lemma quiet_peer_ready r h : keeps I (planned_handoff_peer_ready cfg w r h).
Proof. unfold planned_handoff_peer_ready, need_authentication. keeps_tac. Qed.

Lemma quiet_abort d : keeps I (planned_handoff_abort w d).
Proof. unfold planned_handoff_abort. keeps_tac. Qed.

Lemma quiet_recorded cat txt payload : keeps I (record_event w cat txt payload).
Proof. unfold record_event. keeps_tac. Qed.
#[local] Hint Resolve quiet_round quiet_apply quiet_offer quiet_accept quiet_acknowledge
  quiet_peer_ready  quiet_abort quiet_recorded : keeps.

(** *** The five operations an invariant may treat apart *)

Lemma quiet_arm d : (forall b, keeps I (change (set_lighting b))) -> keeps I (arm_lighting_network cfg w d).
Proof. intros Hl. unfold arm_lighting_network. keeps_tac; apply Hl. Qed.

Lemma quiet_grant d x a r :
  (forall A (m : st AuthorityLeases.registry A), keeps I (inside m)) -> keeps I (venue_authority_grant cfg w d x a r).
Proof. intros Hl. unfold venue_authority_grant. keeps_tac; apply Hl. Qed.

Lemma quiet_revoke i d x r :
  (forall A (m : st AuthorityLeases.registry A), keeps I (inside m)) -> keeps I (venue_authority_revoke cfg w i d x r).
Proof. intros Hl. unfold venue_authority_revoke. keeps_tac; apply Hl. Qed.

Lemma quiet_recover d t f :
  (forall id, keeps I (inside (WitnessQuorum.recover w.(euid) w.(key_files) cfg.(witness_config) id w.(exchanges) t f w.(now_ms)))) ->
  keeps I (recover_fenced_node cfg w d t f).
Proof. intros Hr. unfold recover_fenced_node. keeps_tac; apply Hr. Qed.

Definition plain (r : request) : bool :=
  match r with
  | Mutate _ _ _ _ | ArmLightingNetwork _ | GrantLease _ _ _ _ | RevokeLease _ _ _ _ | RecoverFencedNode _ _ _ => false
  | _ => true
  end.

(** The operations that neither promote the node nor pass its lease on. *)
Definition settled (r : request) : bool :=
  match r with
  | WitnessTick | SetNodeRole _ | PromoteAfterFailure _ | Commit _ | Release _ _ => false
  | _ => plain r
  end.

Lemma quiet_settled r : settled r = true -> keeps I (perform cfg w r).
Proof. destruct r; [done|..]; intros Hp; try done; cbn [perform]; unfold ignore, export_replica; keeps_tac. Qed.

(** *** Promotion, and the release of the lease *)

Context `{L : !Loud cfg w I}.

Lemma keeps_primary_of {A} (m : Replication.op A) : becomes_primary m -> keeps I (inside m).
Proof. apply q_primary. Qed.
Lemma keeps_transfer i : keeps I (transfer_lease cfg w i).
Proof. apply q_transfer. Qed.
#[local] Hint Resolve keeps_primary_of keeps_transfer : keeps.

Lemma quiet_promote lease : keeps I (promote w lease).
Proof. unfold promote. keeps_tac. Qed.
#[local] Hint Resolve quiet_promote : keeps.

Lemma quiet_tick : keeps I (_witness_tick cfg w).
Proof. unfold _witness_tick. keeps_tac. Qed.

Lemma quiet_set_node_role d : keeps I (set_node_role cfg w d).
Proof. unfold set_node_role. keeps_tac; unfold set_role; keeps_tac. Qed.
#[local] Hint Resolve quiet_tick quiet_set_node_role : keeps.

Lemma quiet_promotion d : keeps I (promote_after_failure cfg w d).
Proof. unfold promote_after_failure. keeps_tac. Qed.

Lemma quiet_commit d : keeps I (planned_handoff_commit cfg w d).
Proof. unfold planned_handoff_commit. keeps_tac. Qed.

Lemma quiet_release d i : keeps I (planned_handoff_release_authority cfg w d i).
Proof. unfold planned_handoff_release_authority, planned_field. keeps_tac. Qed.
#[local] Hint Resolve quiet_promotion quiet_commit quiet_release : keeps.

Lemma quiet_perform r : plain r = true -> keeps I (perform cfg w r).
Proof.
  intros Hp. destruct (settled r) eqn:Hs; [by apply quiet_settled|]. destruct r; try done; cbn [perform]; unfold ignore; keeps_tac.
Qed.
End quiet.

(** ** A node that is not primary is silent *)

Definition is_standby (s : runtime) : Prop := Replication.is_primary s.(replication) = false.

(** No lighting armed, no operator lease. *)
Definition silent (s : runtime) : Prop := is_standby s -> s.(mine).(lighting_armed) = false /\ s.(leases) = [].

(** *** The parts silence does not look at *)

Section other_parts.
Context {T : Type} `{!Part runtime T} `{!Independent runtime T Replication.tracker} `{!Independent runtime T own}
  `{!Independent runtime T AuthorityLeases.registry}.

Lemma silent_with (t : T) s : silent s -> silent (with_part t s).
Proof.
  unfold silent, is_standby.
  pose proof (part_independent (U:=Replication.tracker) t s) as H1. pose proof (part_independent (U:=own) t s) as H2.
  pose proof (part_independent (U:=AuthorityLeases.registry) t s) as H3. cbn [part replication_part own_part leases_part] in H1, H2, H3.
  by rewrite H1, H2, H3.
Qed.

Lemma silent_within {A} (m : st T A) : keeps silent (inside m).
Proof. apply keeps_within. apply silent_with. Qed.
End other_parts.

Ltac independent := by intros ? [].
#[export] Instance witness_tracker : Independent runtime WitnessQuorum.client Replication.tracker. Proof. independent. Qed.
#[export] Instance witness_own : Independent runtime WitnessQuorum.client own. Proof. independent. Qed.
#[export] Instance witness_leases : Independent runtime WitnessQuorum.client AuthorityLeases.registry. Proof. independent. Qed.
#[export] Instance execution_tracker : Independent runtime Handoff.registry Replication.tracker. Proof. independent. Qed.
#[export] Instance execution_own : Independent runtime Handoff.registry own. Proof. independent. Qed.
#[export] Instance execution_leases : Independent runtime Handoff.registry AuthorityLeases.registry. Proof. independent. Qed.
#[export] Instance peer_tracker : Independent runtime PeerReplication.client Replication.tracker. Proof. independent. Qed.
#[export] Instance peer_own : Independent runtime PeerReplication.client own. Proof. independent. Qed.
#[export] Instance peer_leases : Independent runtime PeerReplication.client AuthorityLeases.registry. Proof. independent. Qed.
#[export] Instance repository_tracker : Independent runtime Persistence.repository Replication.tracker. Proof. independent. Qed.
#[export] Instance repository_own : Independent runtime Persistence.repository own. Proof. independent. Qed.
#[export] Instance repository_leases : Independent runtime Persistence.repository AuthorityLeases.registry. Proof. independent. Qed.
#[export] Instance show_tracker : Independent runtime ShowState Replication.tracker. Proof. independent. Qed.
#[export] Instance show_own : Independent runtime ShowState own. Proof. independent. Qed.
#[export] Instance show_leases : Independent runtime ShowState AuthorityLeases.registry. Proof. independent. Qed.

Lemma silent_own (f : own -> own) : (forall m, (f m).(lighting_armed) = m.(lighting_armed)) -> keeps silent (change f).
Proof. intros Hf. apply keeps_modify. intros s H Hs. specialize (H Hs). cbn. by rewrite Hf. Qed.

Lemma silent_off : keeps silent (change (set_lighting false)).
Proof. apply keeps_modify. intros s H Hs. by destruct (H Hs). Qed.

Lemma silent_clear : keeps silent (inside (T:=AuthorityLeases.registry) AuthorityLeases.clear).
Proof. intros s H Hs. by destruct (H Hs). Qed.

Lemma silent_role {A} (m : Replication.op A) : keeps_role m -> keeps silent (inside m).
Proof.
  intros Hm s H. unfold silent, is_standby, Replication.is_primary in *. rewrite inside_eq. cbn. rewrite Hm. exact H.
Qed.

Lemma silent_primary {A} (m : Replication.op A) : becomes_primary m -> keeps silent (inside m).
Proof. intros Hm s _ Hs. unfold is_standby in Hs. rewrite inside_eq in Hs. cbn in Hs. by rewrite Hm in Hs. Qed.

(** *** Demotion *)

Definition authority_is (t : Replication.tracker) (c : WitnessQuorum.client) (s : runtime) : Prop :=
  s.(replication) = t /\ s.(witness) = c.

Lemma authority_own t c (f : own -> own) : keeps (authority_is t c) (change f).
Proof. by apply keeps_modify. Qed.

Lemma authority_call t c w n : keeps (authority_is t c) (call w n).
Proof. unfold call. apply keeps_bind; [apply authority_own|]. intros _. destruct (native_fails w n); auto with keeps. Qed.

Lemma authority_detach t c w d : keeps (authority_is t c) (detach_midi_input w d).
Proof. unfold detach_midi_input. destruct (_ || _); [auto with keeps|apply authority_call]. Qed.

(** The fence touches neither the role nor the lease; when it ends, nothing is armed and nobody holds an operator lease. *)
Lemma fence_spec w s :
  wp (_fence_physical_outputs w)
     (fun r s' => authority_is s.(replication) s.(witness) s'
                  /\ match r with Ok _ => s'.(mine).(lighting_armed) = false /\ s'.(leases) = [] | Raise _ => True end) s.
Proof.
  unfold _fence_physical_outputs.
  apply wp_get, wp_bind, (wp_mono _ (fun _ => authority_is s.(replication) s.(witness))).
  - assert (Hk : keeps (authority_is s.(replication) s.(witness))
      (st_when w.(native_available)
        (attempt (call w (ArmLighting false)) ;;; attempt (call w DeactivateInputs) ;;; attempt (call w DeactivateOutputs) ;;;
         st_iter (fun device => attempt (detach_midi_input w device)) (attached_devices s)))).
    { apply keeps_when. repeat (apply keeps_bind; [apply keeps_attempt, authority_call|intros _]).
      apply keeps_iter. intros d _. apply keeps_attempt, authority_detach. }
    by apply (Hk s).
  - intros [a|e] s' H; [|done]. split; [exact H|done].
Qed.

Lemma set_role_standby now t : Replication.is_primary (fst (Replication.set_role "standby" now t)) = false.
Proof.
  unfold Replication.set_role. change (Replication.parse_role "standby") with (Some Replication.Standby). cbv beta iota.
  rewrite st_get_bind. unfold st_bind, st_when. destruct (bool_decide _) eqn:E; cbn; [|done].
  apply bool_decide_eq_true in E. change (Replication.is_primary t = false). unfold Replication.is_primary. by rewrite <- E.
Qed.

(** A demotion leaves the lease to its caller. It ends standby with nothing armed,
    or the fence raised and the role is as it was. *)
Lemma demote_spec w s :
  wp (demote w)
     (fun r s' => s'.(witness) = s.(witness)
                  /\ (is_standby s' /\ s'.(mine).(lighting_armed) = false /\ s'.(leases) = []
                      \/ s'.(replication) = s.(replication) /\ (exists e, r = Raise e) /\ exists e, snd (_fence_physical_outputs w s) = Raise e)) s.
Proof.
  unfold demote, set_role. pose proof (fence_spec w s) as Hf. unfold wp in Hf. apply wp_bind. unfold wp at 1.
  destruct (_fence_physical_outputs w s) as [s1 [[]|e]] eqn:E; cbn [fst snd] in *.
  - destruct Hf as [[_ Hw] [Hl Ha]]. unfold wp, st_bind, inside. cbn [part replication_part].
    pose proof (set_role_standby w.(mono) s1.(replication)) as Hs.
    destruct (Replication.set_role "standby" (mono w) (replication s1)) as [t [d|e]] eqn:Et;
      split; [exact Hw|by left|exact Hw|by left].
  - destruct Hf as [[Hr Hw] _]. split; [exact Hw|]. right. split_and!; [exact Hr|eauto|eauto].
Qed.

Lemma silent_demote w : keeps silent (_fence_physical_outputs w) -> keeps silent (demote w).
Proof.
  intros Hk s Hs. destruct (demote_spec w s) as [_ [(_ & Ha & Hl)|(_ & _ & He)]]; [by intros _|].
  destruct He as [e He]. pose proof (Hk s Hs) as Hf. unfold demote, st_bind.
  destruct (_fence_physical_outputs w s) as [s1 [|]]; [done|exact Hf].
Qed.

#[export] Instance quiet_silent cfg w : Quiet cfg w silent.
Proof.
  split; [intros x; apply silent_with..|intros f Hf; apply silent_own; intros m; apply Hf|apply silent_off|apply silent_clear
    |intros A; apply silent_role|apply silent_demote|apply silent_within].
Qed.

#[export] Instance loud_silent cfg w : Loud cfg w silent.
Proof.
  split; [intros A; apply silent_primary|]. intros i. unfold transfer_lease, planned_int, planned_field. keeps_tac. apply silent_within.
Qed.

(** *** Operations that need authority keep the role *)

Definition tracker_is (t : Replication.tracker) (s : runtime) : Prop := s.(replication) = t.

Lemma tracker_within {T A} `{!Part runtime T} `{!Independent runtime T Replication.tracker} t (m : st T A) :
  keeps (tracker_is t) (inside m).
Proof. intros s Hs. pose proof (inside_frame (U:=Replication.tracker) m s) as H. cbn in H. unfold tracker_is in *. congruence. Qed.

#[export] Instance leases_tracker : Independent runtime AuthorityLeases.registry Replication.tracker. Proof. independent. Qed.
#[export] Instance own_tracker : Independent runtime own Replication.tracker. Proof. independent. Qed.

Lemma tracker_own t (f : own -> own) : keeps (tracker_is t) (change f).
Proof. by apply keeps_modify. Qed.

#[export] Hint Extern 2 (keeps (tracker_is _) (inside _)) => (apply tracker_within) : keeps.
#[export] Hint Extern 2 (keeps (tracker_is _) (change _)) => (apply tracker_own) : keeps.

Lemma tracker_call t w c : keeps (tracker_is t) (call w c).
Proof. unfold call. keeps_tac. Qed.
#[export] Hint Resolve tracker_call : keeps.

Lemma tracker_configure t w network target protocol : keeps (tracker_is t) (configure_from w network target protocol).
Proof. unfold configure_from, configure_lighting_network. keeps_tac. Qed.

Lemma tracker_mark t w kind : keeps (tracker_is t) (_mark_post_promotion_output w kind).
Proof. unfold _mark_post_promotion_output. keeps_tac. Qed.

Lemma tracker_append t w i l : keeps (tracker_is t) (append_all w i l).
Proof. revert i. induction l as [|e l IH]; intros i; cbn; keeps_tac. Qed.
#[export] Hint Resolve tracker_configure tracker_mark tracker_append : keeps.

Lemma tracker_recorded t w cat txt payload : keeps (tracker_is t) (record_event w cat txt payload).
Proof. unfold record_event, _persist_new_events. keeps_tac. Qed.
#[export] Hint Resolve tracker_recorded : keeps.

Lemma tracker_arm t cfg w d : keeps (tracker_is t) (arm_lighting_network cfg w d).
Proof. unfold arm_lighting_network. keeps_tac. Qed.

Lemma tracker_grant t cfg w d x a r : keeps (tracker_is t) (venue_authority_grant cfg w d x a r).
Proof. unfold venue_authority_grant. keeps_tac. Qed.

Lemma tracker_revoke t cfg w i d x r : keeps (tracker_is t) (venue_authority_revoke cfg w i d x r).
Proof. unfold venue_authority_revoke. keeps_tac. Qed.

(** What a primary does without losing its role keeps a node silent. *)
Lemma silent_if_primary {A} (m : op A) s :
  (forall t, keeps (tracker_is t) m) -> Replication.is_primary s.(replication) = true -> silent (fst (m s)).
Proof. intros Hk Hp Hs. unfold is_standby in Hs. specialize (Hk _ s eq_refl). unfold tracker_is in Hk. congruence. Qed.

Lemma authority_primary cfg w s : _has_authority cfg w s = true -> Replication.is_primary s.(replication) = true.
Proof. unfold _has_authority. intros H. by pyinv. Qed.

Lemma silent_arm cfg w d : keeps silent (arm_lighting_network cfg w d).
Proof.
  intros s Hs. destruct (_has_authority cfg w s) eqn:E.
  - apply silent_if_primary; [intros t; apply tracker_arm|by eapply authority_primary].
  - unfold arm_lighting_network. rewrite st_get_bind. cbv zeta. rewrite E. cbn [negb].
    destruct (truthy (dget_or d "armed" (VBool false))); [exact Hs|].
    assert (Hk : keeps silent (call w (ArmLighting false) ;;; change (set_lighting false) ;;; st_ret tt)).
    { apply keeps_bind; [apply (quiet_call cfg w silent)|intros _]. apply keeps_bind; [apply silent_off|intros _; apply keeps_ret]. }
    cbn [andb]. destruct (negb _); [exact Hs|]. unfold st_bind at 1 2, st_lift.
    destruct (show_network w s); [|exact Hs]. destruct (_mapped_lighting_execution s); [|exact Hs]. by apply Hk.
Qed.

Lemma silent_grant cfg w d x a r : keeps silent (venue_authority_grant cfg w d x a r).
Proof.
  intros s Hs. destruct (_has_authority cfg w s) eqn:E.
  - apply silent_if_primary; [intros t; apply tracker_grant|by eapply authority_primary].
  - unfold venue_authority_grant. rewrite st_get_bind, E. exact Hs.
Qed.

Lemma silent_revoke cfg w i d x r : keeps silent (venue_authority_revoke cfg w i d x r).
Proof.
  intros s Hs. destruct (_has_authority cfg w s) eqn:E.
  - apply silent_if_primary; [intros t; apply tracker_revoke|by eapply authority_primary].
  - unfold venue_authority_revoke. rewrite st_get_bind, E. exact Hs.
Qed.

Lemma ignore_state {A} (m : op A) s : fst (ignore m s) = fst (m s).
Proof. unfold ignore, st_bind. by destruct (m s) as [s' [a|e]]. Qed.

Lemma keeps_ignore {A} (I : runtime -> Prop) (m : op A) : keeps I m -> keeps I (ignore m).
Proof. intros Hm. unfold ignore. apply keeps_bind; [done|]. intros _. apply keeps_ret. Qed.

Lemma silent_perform cfg w r : keeps silent (perform cfg w r).
Proof.
  destruct (plain r) eqn:Hp; [by apply (quiet_perform cfg w silent)|]. destruct r; try done; cbn [perform].
  - apply keeps_ignore, (quiet_mutate cfg w silent). intros f. apply silent_own. done.
  - apply silent_arm.
  - apply keeps_ignore, (quiet_recover cfg w silent). intros id. apply silent_within.
  - apply keeps_ignore, silent_grant.
  - apply keeps_ignore, silent_revoke.
Qed.

(** ** Standby nodes stay silent *)

(** A node answers any of its requests, in any environment. *)
Definition served (cfg : runtime_config) (s s' : runtime) : Prop := exists w r, s' = fst (perform cfg w r s).

(** C10: a standby node is silent. From a silent state, after any sequence of requests, in any environment and however
    each of them ended (refused, failed half way, or carried out), a node whose role is standby has no lighting
    armed and no operator lease. *)
Theorem standby_is_silent cfg s s' :
  silent s -> rtc (served cfg) s s' -> is_standby s' -> s'.(mine).(lighting_armed) = false /\ s'.(leases) = [].
Proof.
  intros Hs H. assert (Hi : silent s').
  { induction H as [s|s s1 s2 [w [r ->]] _ IH]; [done|]. apply IH. by apply silent_perform. }
  exact Hi.
Qed.

(** An environment without native engine or peers, with the given answers of the witnesses and fate of a checkpoint. *)
Definition world_with (xs : list WitnessQuorum.exchange) (save_fails : bool) : world :=
  {| now_ms := 1000; mono := fz 5; mono_ns := 5000000000; wall_ns := 1000000000; show_clock := sample_readings; euid := 0;
     key_files := WitnessLease.no_files; exchanges := xs; native_available := false; native_fails := fun _ => false;
     native_seconds := Ok (VInt 0); native_shadow_plan := Ok VNone; journal := []; midi_scan := Ok []; audio_outputs := Ok [];
     audio_inputs := Ok []; ledger_fate := fun _ => Persistence.Done; snapshot_fails := save_fails |}.
Definition calm : world := world_with [] false.

Definition node_config (n : string) : runtime_config :=
  {| witness_config := WitnessSystem.member n; _replication_keyring := {| _path := None; _legacy_secret := "" |};
     _replication_secret := "replication-secret"; _auto_failover := false; _failover_suspect_ms := 1500;
     _failover_promote_ms := 3000 |}.

Definition fresh_own : own :=
  put_mine 0 [] None [] false [] None None [] VNone [].

Definition fresh_node (n role : string) : runtime :=
  build (Replication.make_tracker n role) (WitnessQuorum.init_client (WitnessSystem.member n) WitnessQuorum.FAbsent false) []
    Handoff.init_registry (PeerReplication.make_client "" (fz 1)) {| Persistence.disk_of := Persistence.empty_disk;
      Persistence._authorization_state := None |} (Adaptation.initial_state None) sample_show fresh_own.

Lemma standby_is_silent_witness :
  let s := fst (perform (node_config "node-b") calm (SetNodeRole [("role", VStr "primary")]) (fresh_node "node-b" "standby")) in
  s.(mine).(lighting_armed) = false /\ s.(leases) = [].
Proof.
  apply (standby_is_silent (node_config "node-b") (fresh_node "node-b" "standby")).
  - by split.
  - apply rtc_once. by eexists calm, _.
  - vm_compute. reflexivity.
Defined.
