(* ===== verification/RuntimeAuthority.v ===== *)
(** * How a node comes to lead, and stops (backend/runtime.py)

    No request makes a standby primary without an unexpired quorum lease, the
    administrative override apart; and a lease is passed on only by a node that
    was silenced first. *)

From S2P Require Import Prelude PyStr PyFloat PyVal PyFacts StateLogic ClusterSecrets Adaptation.
From S2P Require Import WitnessQuorum WitnessLease ShowData ShowState ShowCommands Runtime RuntimeFailover RuntimeHandoff RuntimeFacts.
From S2P Require Replication AuthorityLeases Handoff PeerReplication Persistence PlannedHandoff.

#[local] Open Scope string_scope.
#[local] Open Scope list_scope.
#[local] Open Scope Z_scope.
#[local] Open Scope st_scope.

Section node.
Context (cfg : runtime_config) (w : world) (Hurls : NoDup cfg.(witness_config).(urls)).

(** The node's lease runs at the clock of [w]. *)
Definition holds_lease (s : runtime) : Prop :=
  s.(witness).(acquisition_suspended) = false /\ w.(now_ms) < s.(witness).(lease_expires_at).

Definition leads_rightly (s : runtime) : Prop := is_standby s \/ holds_lease s.

(** ** Both are kept by what does not promote *)

#[local] Instance tracker_client : Independent runtime Replication.tracker client. Proof. independent. Qed.
#[local] Instance leases_client : Independent runtime AuthorityLeases.registry client. Proof. independent. Qed.
#[local] Instance show_client : Independent runtime ShowState client. Proof. independent. Qed.
#[local] Instance execution_client : Independent runtime Handoff.registry client. Proof. independent. Qed.
#[local] Instance peer_client : Independent runtime PeerReplication.client client. Proof. independent. Qed.
#[local] Instance repository_client : Independent runtime Persistence.repository client. Proof. independent. Qed.

Lemma holds_with {T} `{!Part runtime T} `{!Independent runtime T client} (t : T) s : holds_lease s -> holds_lease (with_part t s).
Proof. unfold holds_lease. pose proof (part_independent (U:=client) t s) as H. cbn [part witness_part] in H. by rewrite H. Qed.

Lemma holds_within {T A} `{!Part runtime T} `{!Independent runtime T client} (m : st T A) : keeps holds_lease (inside m).
Proof. apply keeps_within. intros t s. apply holds_with. Qed.

Lemma holds_own f : keeps holds_lease (change (f : own -> own)).
Proof. by apply keeps_modify. Qed.

Lemma rightly_with {T} `{!Part runtime T} `{!Independent runtime T client} `{!Independent runtime T Replication.tracker} (t : T) s :
  leads_rightly s -> leads_rightly (with_part t s).
Proof.
  intros [H|H]; [left|right; by apply holds_with]. unfold is_standby in *.
  pose proof (part_independent (U:=Replication.tracker) t s) as Ht. cbn [part replication_part] in Ht. by rewrite Ht.
Qed.

Lemma rightly_within {T A} `{!Part runtime T} `{!Independent runtime T client} `{!Independent runtime T Replication.tracker} (m : st T A) :
  keeps leads_rightly (inside m).
Proof. apply keeps_within. intros t s. apply rightly_with. Qed.

Lemma rightly_own f : keeps leads_rightly (change (f : own -> own)).
Proof. by apply keeps_modify. Qed.

(** An acquisition answers with the status of the client it leaves. *)
Lemma acquire_answers euid files cf xs now status_now c :
  match snd (acquire euid files cf xs now status_now c) with
  | Ok d => d = status cf status_now (fst (acquire euid files cf xs now status_now c))
  | Raise _ => True
  end.
Proof.
  unfold acquire. rewrite st_get_bind. destruct (acquisition_suspended c); [done|].
  unfold _acquire_locked, st_bind, st_lift. by destruct (collect _ _ _ _).
Qed.

Lemma granted_status cf now c : granted (status cf now c) = negb c.(acquisition_suspended) && (now <? c.(lease_expires_at)).
Proof. reflexivity. Qed.

(** A running lease survives an acquisition, and an acquisition that says it has a lease has one. *)
Lemma acquire_spec s :
  wp (acquire_lease cfg w)
     (fun r s' => s'.(replication) = s.(replication) /\ (holds_lease s -> holds_lease s')
                  /\ match r with Ok d => granted d = true -> holds_lease s' | Raise _ => True end) s.
Proof.
  unfold wp, acquire_lease. rewrite inside_eq. cbn [fst snd]. split; [done|]. unfold holds_lease.
  cbn [witness with_part witness_part build part]. split.
  - rewrite acquire_state. intros [Hs Hl]. rewrite Hs. destruct (collect _ _ _ _) as [rs|e] eqn:Ec; [|done].
    assert (Hnd : NoDup (map r_url rs)).
    { eapply sublist_NoDup; [exact Hurls|]. eapply collect_urls; [|exact Ec]. intros p url x r. apply one_url. }
    destruct (settle_cases cfg.(witness_config) w.(now_ms) rs s.(witness) Hnd) as (-> & _ & [[-> _]|[H _]]); done.
  - pose proof (acquire_answers w.(euid) w.(key_files) cfg.(witness_config) w.(exchanges) w.(now_ms) w.(now_ms) s.(witness)) as Ha.
    destruct (snd _) as [d|e]; [|done]. rewrite Ha, granted_status. intros H. pyinv. done.
Qed.

#[local] Instance quiet_holds : Quiet cfg w holds_lease.
Proof.
  split; try (intros; by apply holds_with); try (intros; apply holds_within); try (intros; apply holds_own).
  - intros Hf. apply keeps_bind; [done|]. intros _. unfold set_role. keeps_tac. apply holds_within.
  - intros s Hs. by apply (acquire_spec s).
Qed.

#[local] Instance quiet_rightly : Quiet cfg w leads_rightly.
Proof.
  split; try (intros; by apply rightly_with); try (intros; apply rightly_within); try (intros; apply rightly_own).
  - intros A m Hm s [H|H]; [left|right; by apply holds_within]. rewrite inside_eq.
    unfold is_standby, Replication.is_primary in *. cbn. by rewrite Hm.
  - intros Hf s Hs. destruct (demote_spec w s) as [Hw [[H _]|[Hr _]]]; [by left|].
    destruct Hs as [Hs|Hs]; [left; unfold is_standby in *; by rewrite Hr|right; unfold holds_lease in *; by rewrite Hw].
  - intros s Hs. destruct (acquire_spec s) as (Hr & Hh & _). destruct Hs as [Hs|Hs]; [left; unfold is_standby in *; by rewrite Hr|].
    right. by apply Hh.
Qed.

(** ** Promotion *)

(** What follows an acquisition: with the lease granted only the lease matters, whatever the role becomes. *)
Lemma after_acquire {A} (k : pydict -> op A) :
  (forall d, granted d = true -> keeps holds_lease (k d)) -> (forall d, granted d = false -> keeps leads_rightly (k d)) ->
  keeps leads_rightly (let* d := acquire_lease cfg w in k d).
Proof.
  intros Hy Hn s Hs. pose proof (q_acquire (Quiet:=quiet_rightly) s Hs) as Hk. destruct (acquire_spec s) as (_ & _ & Hg).
  unfold st_bind. destruct (acquire_lease cfg w s) as [s1 [d|e]]; cbn [fst snd] in *; [|done].
  destruct (granted d) eqn:E; [right; by apply Hy, Hg|by apply Hn].
Qed.

Lemma holds_promote lease : keeps holds_lease (promote w lease).
Proof. unfold promote. keeps_tac; apply holds_within. Qed.

Lemma rightly_tick : keeps leads_rightly (_witness_tick cfg w).
Proof.
  unfold _witness_tick. apply after_acquire; intros d Hd; rewrite Hd.
  - keeps_tac.
    all: try solve [apply holds_within|apply (quiet_failover cfg w holds_lease)|apply (quiet_decision cfg w holds_lease)
      |apply holds_promote|apply (quiet_record_promotion cfg w holds_lease)|apply (quiet_rebind cfg w holds_lease)].
  - repeat first [rewrite andb_false_r; apply keeps_ret|keeps_step];
      [apply (quiet_demotion cfg w leads_rightly)|apply (quiet_failover cfg w leads_rightly)].
Qed.

(** A step that ends with the lease held unless it raised. *)
Definition secures (m : op unit) : Prop :=
  forall s, leads_rightly s -> match m s with (s', Ok _) => holds_lease s' | (s', Raise _) => leads_rightly s' end.

Lemma secures_then {A} (m : op unit) (k : op A) : secures m -> keeps holds_lease k -> keeps leads_rightly (m ;;; k).
Proof.
  intros Hm Hk s Hs. specialize (Hm s Hs). unfold st_bind. destruct (m s) as [s' [[]|e]]; [right; by apply Hk|done].
Qed.

(** Acquire, refuse without a lease, promote. *)
Lemma secures_promotion e (k : pydict -> op unit) : (forall d, keeps holds_lease (k d)) ->
  secures (let* lease := acquire_lease cfg w in if negb (granted lease) then st_raise e else promote w lease ;;; k lease).
Proof.
  intros Hk s Hs. pose proof (q_acquire (Quiet:=quiet_rightly) s Hs) as Ha. destruct (acquire_spec s) as (_ & _ & Hg).
  unfold st_bind at 1. destruct (acquire_lease cfg w s) as [s1 [d|x]]; cbn [fst snd] in *; [|done].
  destruct (granted d) eqn:E; cbn [negb]; [|done]. specialize (Hg eq_refl).
  assert (Hp : keeps holds_lease (promote w d ;;; k d)) by (apply keeps_bind; [apply holds_promote|intros _; apply Hk]).
  specialize (Hp s1 Hg). destruct ((promote w d ;;; k d) s1) as [s2 [|]]; [done|by right].
Qed.

Lemma secures_promotion_alone e :
  secures (let* lease := acquire_lease cfg w in if negb (granted lease) then st_raise e else promote w lease).
Proof.
  intros s Hs. pose proof (secures_promotion e (fun _ => st_ret tt) (fun _ => keeps_ret _ _) s Hs) as H. revert H.
  unfold st_bind at 1 3. destruct (acquire_lease cfg w s) as [s1 [d|x]]; [|done]. destruct (granted d); [|done].
  cbn [negb]. unfold st_bind, st_ret. by destruct (promote w d s1) as [s2 [[]|]].
Qed.

Lemma holds_after_promotion (decision : option pydict) rising :
  keeps holds_lease
    (st_when rising
       (let* f := failover_status cfg w in
        _record_failover_continuity w f.(fo_age) ;;;
        match decision with Some d => put_continuity "handoffDecisionAtPromotion" (VDict d) | None => st_ret tt end) ;;;
     rebind_midi w).
Proof.
  keeps_tac; solve [apply (quiet_failover cfg w holds_lease)|apply (quiet_record cfg w holds_lease)
    |apply (quiet_put_continuity cfg w holds_lease)|apply (quiet_rebind cfg w holds_lease)].
Qed.

Lemma rightly_set_node_role d :
  configured cfg.(witness_config) = true -> is_true (dget_none d "forceAuthorityOverride") = false ->
  keeps leads_rightly (set_node_role cfg w d).
Proof.
  intros Hc Hf. unfold set_node_role. cbv zeta. rewrite Hf, Hc. cbn [andb negb]. apply keeps_get_bind. intros s Hs.
  destruct (_ && suspended s); [exact Hs|]. destruct (negb (is_true _)); [exact Hs|].
  apply at_lift_bind; [exact Hs|]. intros decision _.
  destruct (_ && _); [exact Hs|]. destruct (String.eqb _ "standby").
  { apply at_keeps; [exact Hs|]. apply keeps_bind; [apply (quiet_demotion cfg w leads_rightly)|intros _].
    apply keeps_bind; [apply (keeps_clear cfg w leads_rightly)|intros _]. apply rightly_own. }
  destruct (negb (String.eqb _ "primary")); [exact Hs|].
  apply at_keeps; [exact Hs|]. apply keeps_bind.
  { keeps_tac. apply (quiet_failover cfg w leads_rightly). }
  intros eligible. destruct (negb eligible); [apply keeps_raise|].
  apply secures_then; [apply secures_promotion_alone|]. apply holds_after_promotion.
Qed.

Lemma rightly_promotion d : configured cfg.(witness_config) = true -> keeps leads_rightly (promote_after_failure cfg w d).
Proof.
  intros Hc. unfold promote_after_failure. rewrite Hc. apply keeps_get_bind. intros s Hs.
  destruct (suspended s); [exact Hs|]. apply at_keeps; [exact Hs|]. destruct (Replication.is_primary _).
  { apply keeps_bind; [apply (quiet_failover cfg w leads_rightly)|]. intros _. apply keeps_ret. }
  destruct (negb (is_true _)); [apply keeps_raise|]. apply keeps_bind; [apply (quiet_failover cfg w leads_rightly)|]. intros f.
  apply keeps_lift_bind. intros decision _. destruct (negb (fo_heartbeat f)); [apply keeps_raise|].
  apply secures_then.
  - apply secures_promotion. intros _. keeps_tac; solve [apply (quiet_record_promotion cfg w holds_lease)|apply (quiet_rebind cfg w holds_lease)].
  - keeps_tac. apply (quiet_failover cfg w holds_lease).
Qed.

Lemma rightly_commit d : keeps leads_rightly (planned_handoff_commit cfg w d).
Proof.
  unfold planned_handoff_commit. apply keeps_get_bind. intros s Hs. apply at_keeps; [exact Hs|].
  do 3 (apply keeps_bind; [apply keeps_lift|intros _]). apply after_acquire; intros lease Hl; rewrite Hl.
  - keeps_tac. apply (quiet_call cfg w holds_lease).
  - apply keeps_bind; [apply keeps_planned_int|]. intros te. apply keeps_lift_bind. intros e _ s1 Hs1.
    cbn [andb]. exact Hs1.
Qed.

(** ** Release *)

Definition silenced (s : runtime) : Prop := is_standby s /\ s.(mine).(lighting_armed) = false /\ s.(leases) = [].

Lemma wp_need {A} b e (k : unit -> op A) Q s : Q (Raise e) s -> wp (k tt) Q s -> wp (st_bind (need b e) k) Q s.
Proof. intros He Hk. unfold need, guard_res. by destruct b. Qed.

Lemma wp_planned_int {A} k (f : Z -> op A) Q s :
  (forall e, Q (Raise e) s) -> (forall z, wp (f z) Q s) -> wp (st_bind (planned_int k) f) Q s.
Proof.
  intros He Hf. unfold wp, planned_int, planned_field, st_bind, st_get, st_lift in *.
  destruct (dindex _ k) as [v|e]; [|apply He]. destruct (py_int v) as [z|e]; [apply Hf|apply He].
Qed.

Lemma wp_planned_field {A} k (f : pyval -> op A) Q s :
  (forall e, Q (Raise e) s) -> (forall v, wp (f v) Q s) -> wp (st_bind (planned_field k) f) Q s.
Proof. intros He Hf. unfold wp, planned_field, st_bind, st_get, st_lift in *. destruct (dindex _ k) as [v|e]; [apply Hf|apply He]. Qed.

(** The transfer fences the client whatever the witnesses answer. *)
Lemma transfer_spec identity s : silenced s ->
  wp (transfer_lease cfg w identity)
     (fun _ s' => silenced s' /\ (s'.(witness) = s.(witness) \/ fenced s'.(witness))) s.
Proof.
  intros Hs. unfold transfer_lease.
  apply wp_planned_field; [by auto|]. intros target. do 3 (apply wp_planned_int; [by auto|]; intros ?).
  unfold wp. rewrite inside_eq. split; [exact Hs|]. right. apply transfer_fences.
Qed.

Definition not_asked (s s' : runtime) : Prop :=
  s'.(witness) = s.(witness) /\ (is_standby s' \/ s'.(replication) = s.(replication)).

Lemma release_spec d identity s :
  wp (planned_handoff_release_authority cfg w d identity)
     (fun _ s' => not_asked s s' \/ silenced s' /\ fenced s'.(witness)) s.
Proof.
  assert (Hsame : not_asked s s) by (split; [done|by right]). unfold planned_handoff_release_authority. apply wp_get.
  do 4 (apply wp_need; [by left|]). destruct (show_ns w s) as [now|e]; [|by left]. eapply wp_lift; [reflexivity|].
  apply wp_planned_int; [by left|]. intros boundary. apply wp_need; [by left|].
  eapply wp_step; [apply demote_spec| |].
  2: { intros e s1 [Hw Hr]. left. split; [done|]. destruct Hr as [[? _]|[? _]]; [by left|by right]. }
  intros [] s1 [Hw [Hs1|(_ & [e He] & _)]]; [|done].
  apply wp_modify. set (s2 := with_part _ s1).
  assert (Hs2 : silenced s2) by exact Hs1. assert (Hw2 : s2.(witness) = s.(witness)) by exact Hw.
  eapply wp_step; [by apply transfer_spec| |].
  - intros tr s3 [Hs3 Hw3]. apply wp_modify, wp_modify. rewrite Hw2 in Hw3.
    destruct Hw3; [left; split; [done|left; by apply Hs3]|by right].
  - intros e s3 [Hs3 Hw3]. rewrite Hw2 in Hw3. destruct Hw3; [left; split; [done|left; by apply Hs3]|by right].
Qed.

Lemma rightly_release d identity : keeps leads_rightly (planned_handoff_release_authority cfg w d identity).
Proof.
  intros s Hs. destruct (release_spec d identity s) as [[Hw Hr]|[[? _] _]]; [|by left].
  destruct Hr as [?|Hr]; [by left|]. destruct Hs as [Hs|Hs]; [left; unfold is_standby in *; by rewrite Hr|right].
  unfold holds_lease in *. by rewrite Hw.
Qed.

Lemma rightly_recover d temp later : keeps leads_rightly (recover_fenced_node cfg w d temp later).
Proof.
  intros s Hs. unfold recover_fenced_node. destruct (negb _); [done|]. destruct (String.eqb _ ""); [done|].
  pose proof (quiet_demotion cfg w leads_rightly s Hs) as Hk. destruct (demote_spec w s) as [_ Hd]. unfold st_bind.
  destruct (demote w s) as [s1 [[]|e]]; cbn [fst snd] in *; [|done]. destruct Hd as [[Hd _]|(_ & [e He] & _)]; [|done].
  left. rewrite (inside_eq AuthorityLeases.clear). cbn [AuthorityLeases.clear st_put fst snd]. rewrite inside_eq. exact Hd.
Qed.

(** ** Every request *)

(** The administrative override of a role change. *)
Definition overrides (r : request) : bool :=
  match r with SetNodeRole d => is_true (dget_none d "forceAuthorityOverride") | _ => false end.

Lemma rightly_perform r :
  configured cfg.(witness_config) = true -> overrides r = false -> keeps leads_rightly (perform cfg w r).
Proof.
  intros Hc Ho. destruct (settled r) eqn:Hs; [by apply (quiet_settled cfg w leads_rightly)|].
  destruct r; try done; cbn [perform]; try apply keeps_ignore.
  - apply (quiet_mutate cfg w leads_rightly). intros f. apply rightly_own.
  - apply (quiet_arm cfg w leads_rightly). intros b. apply rightly_own.
  - apply rightly_tick.
  - by apply rightly_set_node_role.
  - by apply rightly_promotion.
  - apply rightly_recover.
  - apply rightly_commit.
  - apply rightly_release.
  - apply (quiet_grant cfg w leads_rightly). intros A m. apply rightly_within.
  - apply (quiet_revoke cfg w leads_rightly). intros A m. apply rightly_within.
Qed.

(** C9: a standby leads only with a lease. In a node with witnesses configured, whatever one request does to a standby, and
    however it ends, the node is then still standby, or primary with a quorum lease that runs at that time; only a role
    change with the administrative override is exempt. *)
Theorem promotion_rests_on_a_lease r s :
  configured cfg.(witness_config) = true -> overrides r = false -> is_standby s ->
  let s' := fst (perform cfg w r s) in
  is_standby s' \/ (s'.(witness).(acquisition_suspended) = false /\ w.(now_ms) < s'.(witness).(lease_expires_at)).
Proof. intros Hc Ho Hs. apply rightly_perform; [done|done|by left]. Qed.

(** C11: a lease is passed on in silence. A release of authority, whatever the fence, the files, the keys and the witnesses
    do and however it ends, either never asked the witnesses to move the lease, or leaves the node standby, with no
    lighting armed and no operator lease, suspended and without a lease of its own. *)
Theorem release_passes_the_lease_in_silence d identity s :
  let s' := fst (planned_handoff_release_authority cfg w d identity s) in
  s'.(witness) = s.(witness)
  \/ (is_standby s' /\ s'.(mine).(lighting_armed) = false /\ s'.(leases) = []
      /\ s'.(witness).(acquisition_suspended) = true /\ s'.(witness).(lease_expires_at) = 0).
Proof.
  destruct (release_spec d identity s) as [[Hw _]|[(H1 & H2 & H3) [H4 H5]]]; [by left|]. right. by split_and!.
Qed.
End node.

(** ** The override, and a name that stops the fence *)

(** A standby promoted by override has no lease, and so no authority. *)
Definition forced : runtime :=
  fst (perform (node_config "node-b") calm
         (SetNodeRole [("role", VStr "primary"); ("acknowledgeAuthorityChange", VBool true); ("forceAuthorityOverride", VBool true)])
         (fresh_node "node-b" "standby")).

Example override_leads_without_a_lease :
  (Replication.is_primary forced.(replication), _has_authority (node_config "node-b") calm forced) = (true, false).
Proof. vm_compute. reflexivity. Qed.

Lemma promotion_rests_on_a_lease_witness :
  let s' := fst (perform (node_config "node-b") calm WitnessTick (fresh_node "node-b" "standby")) in
  is_standby s' \/ (s'.(witness).(acquisition_suspended) = false /\ calm.(now_ms) < s'.(witness).(lease_expires_at)).
Proof.
  apply (promotion_rests_on_a_lease (node_config "node-b") calm ltac:(nodup_keys) WitnessTick (fresh_node "node-b" "standby"));
    reflexivity.
Defined.

(** An environment with the native engine running. *)
Definition engine : world :=
  {| now_ms := 1000; mono := fz 5; mono_ns := 5000000000; wall_ns := 1000000000; show_clock := sample_readings; euid := 0;
     key_files := no_files; exchanges := []; native_available := true; native_fails := fun _ => false;
     native_seconds := Ok (VInt 0); native_shadow_plan := Ok VNone; journal := []; midi_scan := Ok []; audio_outputs := Ok [];
     audio_inputs := Ok []; ledger_fate := fun _ => Persistence.Done; snapshot_fails := false |}.

Definition on_stage (devices : list pydict) (role : string) : runtime :=
  let s := fresh_node "node-b" role in
  with_part (T:=own) (set_devices devices (set_lighting true s.(mine))) s.

(** An attached device whose identifier holds a space: the demotion raises, and the node stays primary with its lighting
    armed. *)
Example a_spaced_device_stops_the_fence :
  let r := demote engine (on_stage [[("id", VStr "usb keys"); ("attached", VBool true)]] "primary") in
  (snd r, Replication.is_primary (fst r).(replication), (fst r).(mine).(lighting_armed))
  = (Raise (ValueError "device id must be a non-empty token"), true, true).
Proof. vm_compute. reflexivity. Qed.

(** An authentic offer with one more field, named like the transaction's own state: once accepted it passes for a
    transaction whose pre-roll was acknowledged. *)
Definition smuggled_offer : pydict :=
  match PlannedHandoff.make_offer
          {| PlannedHandoff.transaction_id := 7; PlannedHandoff.source_node_id := "node-a";
             PlannedHandoff.target_node_id := "node-b"; PlannedHandoff.source_epoch := 1; PlannedHandoff.target_epoch := 2;
             PlannedHandoff.target_show_ns := 9000000000 |} false "replication-secret" None 1000000000 with
  | Ok d => d ++ [("state", VStr "target-ready")]
  | Raise _ => []
  end.

Example a_smuggled_state_skips_the_acknowledgement :
  let r := planned_handoff_accept (node_config "node-b") engine smuggled_offer (on_stage [] "standby") in
  (snd r, in_state ["target-ready"] (fst r).(mine).(planned)) = (Ok tt, true).
Proof. vm_compute. reflexivity. Qed.
