(* ===== verification/RuntimeCommands.v ===== *)
(** * Commands that run once (backend/runtime.py, mutate)

    A client that does not hear the answer of a command sends it again with the
    same command identifier. What the cache of results guarantees about the retry,
    and what it does not. *)

From S2P Require Import Prelude PyStr PyFloat PyVal PyFacts StateLogic.
From S2P Require Import ShowData ShowState ShowCommands Runtime RuntimeFailover RuntimeHandoff RuntimeFacts.
From S2P Require Replication WitnessQuorum WitnessSystem Handoff PeerReplication Persistence.

#[local] Open Scope string_scope.
#[local] Open Scope list_scope.
#[local] Open Scope Z_scope.
#[local] Open Scope st_scope.

(** ** The cache of results *)

Definition keys_of (l : list (string * pydict)) : list string := map fst l.

(** The result of [id] is in the cache, with at most [n] newer ones. *)
Definition cached_within (n : nat) (id : string) (result : pydict) (l : list (string * pydict)) : Prop :=
  exists older newer, l = older ++ ((id, result) :: newer) /\ (length newer <= n)%nat
                      /\ (id ∉ keys_of older) /\ (id ∉ keys_of newer).

Abbreviation others id := (List.filter (fun kv : string * pydict => negb (String.eqb id (fst kv)))).

Lemma others_absent id l : id ∉ keys_of (others id l).
Proof.
  unfold keys_of. rewrite list_elem_of_In. intros (kv & <- & H)%in_map_iff. apply filter_In in H as [_ H].
  by rewrite String.eqb_refl in H.
Qed.

Lemma others_subset id id' l : id ∉ keys_of l -> id ∉ keys_of (others id' l).
Proof.
  unfold keys_of. rewrite !list_elem_of_In. intros H (kv & <- & Hin)%in_map_iff. apply H, in_map.
  by apply filter_In in Hin as [? _].
Qed.

Lemma keys_skipn id n l : id ∉ keys_of l -> id ∉ keys_of (skipn n l).
Proof.
  unfold keys_of. rewrite !list_elem_of_In. intros H (kv & <- & Hin)%in_map_iff. apply H, in_map.
  rewrite <- (take_drop n l). apply in_or_app. by right.
Qed.

Lemma remember_new id result l : cached_within 0 id result (remember id result l).
Proof.
  unfold remember. cbv zeta. rewrite length_app. cbn [length]. set (o := others id l).
  exists (skipn (length o + 1 - max_results) o), []. split_and!; [|done|apply keys_skipn, others_absent|by intros ?%not_elem_of_nil].
  rewrite skipn_app. f_equal. unfold max_results. replace (length o + 1 - 256 - length o)%nat with 0%nat by lia. done.
Qed.

Lemma length_others id l : (length (others id l) <= length l)%nat.
Proof. induction l as [|a l IH]; cbn; [lia|]. destruct (negb _); cbn; lia. Qed.

Lemma remember_keeps n id result id' result' l : (S n < max_results)%nat -> id' <> id ->
  cached_within n id result l -> cached_within (S n) id result (remember id' result' l).
Proof.
  intros Hn Hne (older & newer & -> & Hlen & Ho & Hw). unfold remember. cbv zeta.
  rewrite List.filter_app. cbn [List.filter fst]. rewrite (str_eqb_ne _ _ Hne). cbn [negb].
  set (o := others id' older). set (w := others id' newer). rewrite <- app_assoc, <- app_comm_cons.
  pose proof (length_others id' newer) as Hwl. fold w in Hwl. rewrite !length_app. cbn [length]. rewrite length_app. cbn [length].
  set (d := (length o + S (length w + 1) - max_results)%nat).
  exists (skipn d o), (w ++ [(id', result')]). split_and!.
  - rewrite skipn_app. f_equal. unfold d. replace (_ - length o)%nat with 0%nat by lia. done.
  - rewrite length_app. cbn. lia.
  - by apply keys_skipn, others_subset.
  - unfold keys_of. rewrite map_app. intros [H|H]%elem_of_app; [by apply (others_subset id id' newer)|].
    apply list_elem_of_singleton in H. cbn in H. congruence.
Qed.

Lemma cached_lookup n id result l : cached_within n id result l -> alookup l id = Some result.
Proof.
  intros (older & newer & -> & _ & Ho & _). induction older as [|[k v] older IH]; cbn.
  - by rewrite String.eqb_refl.
  - unfold keys_of in *. cbn in Ho. apply not_elem_of_cons in Ho as [Hk Ho]. rewrite (str_eqb_ne id k) by done.
    apply IH, Ho.
Qed.

Lemma cached_mono n n' id result l : (n <= n')%nat -> cached_within n id result l -> cached_within n' id result l.
Proof. intros Hn (o & w & H & Hl & ?). exists o, w. split_and!; [done|lia|tauto..]. Qed.

(** ** What mutations and the other operations do to it *)

Section command.
Context (cfg : runtime_config) (id : string) (result : pydict).

Definition remembers (n : nat) (s : runtime) : Prop := cached_within n id result s.(mine).(command_results).

Lemma remembers_with {T} `{!Part runtime T} `{!Independent runtime T own} n (t : T) s :
  remembers n s -> remembers n (with_part t s).
Proof.
  unfold remembers. pose proof (part_independent (U:=own) t s) as H. cbn [part own_part] in H. by rewrite H.
Qed.

Lemma remembers_own n (f : own -> own) : (forall m, (f m).(command_results) = m.(command_results)) -> keeps (remembers n) (change f).
Proof. intros Hf. apply keeps_modify. intros s H. unfold remembers. cbn. by rewrite Hf. Qed.

#[local] Instance tracker_own' : Independent runtime Replication.tracker own. Proof. independent. Qed.
#[local] Instance leases_own : Independent runtime AuthorityLeases.registry own. Proof. independent. Qed.

Lemma remembers_within {T A} `{!Part runtime T} `{!Independent runtime T own} n (m : st T A) : keeps (remembers n) (inside m).
Proof. apply keeps_within. intros t s. apply remembers_with. Qed.

#[export] Instance quiet_remembers w n : Quiet cfg w (remembers n).
Proof.
  split; try (intros; by apply remembers_with); try (intros; apply remembers_within).
  - intros f Hf. apply remembers_own. intros m. apply Hf.
  - by apply remembers_own.
  - intros Hw. apply keeps_bind; [done|]. intros _. unfold set_role. keeps_tac. apply remembers_within.
Qed.

#[export] Instance loud_remembers w n : Loud cfg w (remembers n).
Proof.
  split; [intros; apply remembers_within|]. intros i. unfold transfer_lease, planned_int, planned_field. keeps_tac. apply remembers_within.
Qed.

Lemma remembers_perform n w r : (match r with Mutate _ _ _ _ => false | _ => true end = true) -> keeps (remembers n) (perform cfg w r).
Proof.
  intros Hr. destruct (plain r) eqn:Hp; [by apply (quiet_perform cfg w (remembers n))|]. destruct r; try done; cbn [perform].
  - apply (quiet_arm cfg w (remembers n)). intros b. by apply remembers_own.
  - apply keeps_ignore, (quiet_recover cfg w (remembers n)). intros i. apply remembers_within.
  - apply keeps_ignore, (quiet_grant cfg w (remembers n)). intros A m. apply remembers_within.
  - apply keeps_ignore, (quiet_revoke cfg w (remembers n)). intros A m. apply remembers_within.
Qed.

(** The operation of a mutation and what follows a changed revision. *)
Lemma after_operation n w (operation : ShowState.op pydict) (k : pydict -> op pydict) before Q s : remembers n s ->
  (forall r s', remembers n s' -> wp (k r) Q s') -> (forall e s', remembers n s' -> Q (Raise e) s') ->
  wp (let* r := inside operation in
      let* rev := st_lift (dindex r "revision") in
      st_when (negb (py_eq rev (VInt before))) (_after_mutation w) ;;; k r) Q s.
Proof.
  intros Hs Hk He.
  eapply wp_step; [apply (keeps_wp (remembers n)); [apply remembers_within|exact Hs]| |exact He]. intros r s1 H1.
  destruct (dindex r "revision") as [v|e] eqn:E; [|by apply He].
  eapply wp_lift; [reflexivity|]. eapply wp_step; [apply (keeps_wp (remembers n)); [|exact H1]| |exact He].
  - apply keeps_when, (quiet_after cfg w (remembers n)).
  - intros ? s2 H2. by apply Hk.
Qed.

(** Another mutation makes the result at most one place older. *)
Lemma remembers_mutate n w id' operation s : (S n < max_results)%nat -> remembers n s ->
  remembers (S n) (fst (mutate cfg w id' operation s)).
Proof.
  intros Hn Hs. set (Q := fun (_ : res (pydict * bool)) => remembers (S n)). change (wp (mutate cfg w id' operation) Q s).
  assert (Hup : forall s', remembers n s' -> remembers (S n) s') by (intros s'; apply cached_mono; lia).
  assert (Hput : forall i r s', (i = id -> r = result) -> remembers n s' ->
            wp (change (fun m => set_results (remember i r m.(command_results)) m)) (fun _ => remembers (S n)) s').
  { intros i r s' Hi H. unfold wp, remembers. cbn. destruct (decide (i = id)) as [->|Hne].
    - rewrite (Hi eq_refl). apply (cached_mono 0); [lia|]. apply remember_new.
    - by apply remember_keeps. }
  unfold mutate. cbv zeta. set (i := clean_command id'). unfold admit_command.
  apply wp_bind, wp_get. destruct (negb (_has_authority cfg w s)); [destruct (negb _); by apply Hup|].
  set (hit := if String.eqb i "" then None else alookup (command_results (mine s)) i).
  destruct hit as [r|] eqn:Eh.
  - eapply wp_step; [apply (Hput i r s); [|done]|..]; [|by intros ? s1 H1|by intros ? s1 H1].
    intros Hi. unfold hit in Eh. destruct (String.eqb i "") eqn:E; [done|]. rewrite Hi, (cached_lookup n id result) in Eh by done. congruence.
  - assert (Hi : i <> "" -> i <> id).
    { intros H ->. unfold hit in Eh. rewrite str_eqb_ne in Eh by done. by rewrite (cached_lookup n id result) in Eh. }
    apply wp_ret, wp_bind. unfold carry_out. apply wp_get. cbv zeta.
    eapply (after_operation n); [done|..]; [|by intros e s' H; apply Hup].
    intros r s1 H1. destruct (String.eqb_spec i "") as [_|Hne]; cbn [negb st_when].
    + by apply Hup.
    + eapply wp_step; [apply (Hput i r s1); [|done]|..]; [|by intros ? s2 H2|by intros ? s2 H2].
      intros Heq. by destruct (Hi Hne).
Qed.
End command.

(** ** Retries *)

(** A mutation carried out leaves its result as the newest. *)
Lemma mutate_remembers cfg w id operation result s s' : clean_command id <> "" ->
  mutate cfg w id operation s = (s', Ok (result, false)) -> remembers (clean_command id) result 0 s'.
Proof.
  intros Hid. unfold mutate. cbv zeta. set (i := clean_command id) in *. unfold admit_command, carry_out, st_bind, st_get, st_lift.
  destruct (negb (_has_authority cfg w s)); [by destruct (negb _)|].
  destruct (if String.eqb i "" then _ else _); [done|]. cbn [st_ret].
  destruct (inside operation s) as [s1 [r|e]]; [|done]. destruct (dindex r "revision") as [v|e]; [|done].
  destruct (st_when _ _ s1) as [s2 [[]|e]]; [|done]. rewrite str_eqb_ne by done. intros [= <- <-].
  unfold remembers. cbn. apply remember_new.
Qed.

(** Requests a node answers one after the other, each in an environment of its own. *)
Definition serve_all (cfg : runtime_config) (l : list (world * request)) (s : runtime) : runtime :=
  fold_left (fun s wr => fst (perform cfg (fst wr) (snd wr) s)) l s.

Definition is_mutation (r : request) : bool := match r with Mutate _ _ _ _ => true | _ => false end.
Definition mutations (l : list (world * request)) : nat := length (List.filter (fun wr => is_mutation (snd wr)) l).

Lemma remembers_serve_all cfg id result l : forall n s, (n + mutations l < max_results)%nat ->
  remembers id result n s -> remembers id result (n + mutations l) (serve_all cfg l s).
Proof.
  induction l as [|[w r] l IH]; intros n s Hn Hs; [cbn; by rewrite Nat.add_0_r|].
  unfold mutations in *. cbn [serve_all fold_left List.filter snd fst] in *. destruct (is_mutation r) eqn:Er.
  - cbn [length] in *. replace (n + S _)%nat with (S n + length (List.filter (fun wr => is_mutation (snd wr)) l))%nat by lia.
    apply IH; [lia|]. destruct r; try done. cbn [perform]. rewrite ignore_state. apply remembers_mutate; [lia|done].
  - apply IH; [done|]. apply remembers_perform; [by destruct r|done].
Qed.

(** C12: a command carried out once is not carried out again. A node that answered a command keeps its result through any
    requests that follow, fewer than 256 of them mutations, in any environment; as long as it has authority, the same
    command identifier is then answered with the first result, without running the operation: the show is untouched. *)
Theorem retried_command_runs_once cfg w id operation result s s1 l w' id' operation' :
  clean_command id <> "" -> mutate cfg w id operation s = (s1, Ok (result, false)) -> (mutations l < max_results)%nat ->
  clean_command id' = clean_command id ->
  let s2 := serve_all cfg l s1 in
  _has_authority cfg w' s2 = true ->
  exists s3, mutate cfg w' id' operation' s2 = (s3, Ok (result, true)) /\ s3.(show) = s2.(show).
Proof.
  intros Hid Hm Hn Hsame s2 Ha. pose proof (mutate_remembers _ _ _ _ _ _ _ Hid Hm) as H0.
  apply (remembers_serve_all cfg _ _ l 0) in H0; [|done]. fold s2 in H0. apply cached_lookup in H0.
  unfold mutate. cbv zeta. rewrite Hsame. unfold admit_command. rewrite st_bind_assoc, st_get_bind, Ha. cbn [negb].
  rewrite str_eqb_ne, H0 by done. by eexists.
Qed.

(** *** A primary of a cluster without witnesses *)

Definition alone : runtime_config :=
  {| witness_config := {| WitnessQuorum.urls := []; WitnessQuorum.independent_mode := false; WitnessQuorum.configured_quorum := 0;
       WitnessQuorum.max_clock_skew_ms := 0; WitnessQuorum.endpoint_meta := []; WitnessQuorum.cluster_id := "show";
       WitnessQuorum.node_id := "node-a"; WitnessQuorum.secret := ""; WitnessQuorum.keyring := None;
       WitnessQuorum.ttl_ms := 3000; WitnessQuorum.has_fence_path := false |};
     _replication_keyring := {| ClusterSecrets._path := None; ClusterSecrets._legacy_secret := "" |};
     _replication_secret := ""; _auto_failover := false; _failover_suspect_ms := 1500; _failover_promote_ms := 3000 |}.

Definition solo : runtime := fresh_node "node-a" "primary".
Definition set_tempo : ShowState.op pydict := run sample_readings (PatchShow [("bpm", VInt 90)]) None None.
Definition solo_after : runtime := fst (mutate alone calm "cmd-1" set_tempo solo).
Definition tempo_result : pydict := match snd (mutate alone calm "cmd-1" set_tempo solo) with Ok (d, _) => d | Raise _ => [] end.

Definition others_served : list (world * request) :=
  [(calm, FailoverStatus); (calm, Mutate "cmd-2" (PatchShow [("key", VStr "G")]) None None)].

Lemma first_run : mutate alone calm "cmd-1" set_tempo solo = (solo_after, Ok (tempo_result, false)).
Proof.
  unfold solo_after, tempo_result. assert (Hs : match snd (mutate alone calm "cmd-1" set_tempo solo) with
    Ok (_, false) => true | _ => false end = true) by (vm_compute; reflexivity).
  destruct (mutate alone calm "cmd-1" set_tempo solo) as [s [[d []]|e]]; done.
Qed.

Lemma retried_command_runs_once_witness : exists s3,
  mutate alone calm " cmd-1 " set_tempo (serve_all alone others_served solo_after) = (s3, Ok (tempo_result, true))
  /\ s3.(show) = (serve_all alone others_served solo_after).(show).
Proof.
  refine (retried_command_runs_once alone calm "cmd-1" set_tempo tempo_result solo solo_after others_served calm " cmd-1 " set_tempo
    _ first_run _ _ _).
  - done.
  - unfold max_results. vm_compute. lia.
  - reflexivity.
  - vm_compute. reflexivity.
Defined.

(** The result is kept only when everything that follows the operation succeeded: after a checkpoint that could not be
    written, the retry carries the command out a second time. *)
Definition full_disk : world := world_with [] true.

Definition outcome {A} (r : runtime * res (A * bool)) : Z * option bool :=
  ((fst r).(show).(s_revisions).(revision), match snd r with Ok (_, b) => Some b | Raise _ => None end).

Example failed_save_runs_twice :
  let first := mutate alone full_disk "cmd-1" set_tempo solo in
  (outcome first, outcome (mutate alone calm "cmd-1" set_tempo (fst first)))
  = ((2, None), (3, Some false)).
Proof. vm_compute. reflexivity. Qed.
