(* ===== verification/RuntimeCluster.v ===== *)
(** * A cluster of nodes (backend/runtime.py with backend/witness.py)

    The runtimes of the nodes and the lease stores of the witnesses as one
    transition system: a node answers any request, in an environment whose clock
    is the cluster's and whose witness answers were given by the witnesses. Each
    run is a run of the witness system (WitnessSystem), so at most one node has
    authority. *)

From S2P Require Import Prelude PyStr PyFloat PyVal PyFacts StateLogic ClusterSecrets.
From S2P Require Import WitnessStore WitnessQuorum WitnessLease WitnessSystem.
From S2P Require Import ShowData ShowState Runtime RuntimeFailover RuntimeHandoff RuntimeFacts.
From S2P Require Replication AuthorityLeases Handoff PeerReplication Persistence.
From stdpp Require Import functions.

#[local] Open Scope string_scope.
#[local] Open Scope list_scope.
#[local] Open Scope Z_scope.
#[local] Open Scope st_scope.

Record cluster := {
  time : Z;
  witnesses : string -> WitnessStore.store;
  members : string -> runtime;
  given : list grant;
}.

Section cluster.
Context (U : list string) (cl : string) (cfg : string -> runtime_config).

Definition member_config (n : string) : config := (cfg n).(witness_config).

Abbreviation system_step := (step U cl member_config).

(** What the witness system sees of a cluster. *)
Definition seen (c : cluster) : system :=
  {| clock := c.(time); stores := c.(witnesses); nodes := fun n => (c.(members) n).(witness); answers := c.(given) |}.

(** The environment of a node: the cluster's clock, and votes that the witnesses gave it. *)
Definition honest (n : string) (w : world) (t : Z) (l : list grant) : Prop :=
  w.(now_ms) = t
  /\ forall rs r, collect (member_config n) (_pin_operation_auth w.(euid) w.(key_files) (member_config n)) (_one (member_config n))
                    w.(exchanges) = Ok rs ->
       r ∈ rs -> r.(r_granted) = true -> r.(r_holder) = Some n -> (n, r.(r_url), r.(r_expires)) ∈ l.

Definition set_member (n : string) (s : runtime) (c : cluster) : cluster :=
  {| time := c.(time); witnesses := c.(witnesses); members := <[n := s]> c.(members); given := c.(given) |}.
Definition set_given (l : list grant) (c : cluster) : cluster :=
  {| time := c.(time); witnesses := c.(witnesses); members := c.(members); given := l |}.
Definition set_witness (w : string) (x : WitnessStore.store) (c : cluster) : cluster :=
  {| time := c.(time); witnesses := <[w := x]> c.(witnesses); members := c.(members); given := c.(given) |}.

Definition recovers (r : request) : bool := match r with RecoverFencedNode _ _ _ => true | _ => false end.

(** A recovery forgets the answers the node had before. *)
Inductive cluster_step : cluster -> cluster -> Prop :=
| clock_runs t c : c.(time) <= t ->
    cluster_step c {| time := t; witnesses := c.(witnesses); members := c.(members); given := c.(given) |}
| witness_answers n w writes x r c : n <> "" ->
    WitnessStore.acquire writes c.(time) cl n (member_config n).(ttl_ms) (c.(witnesses) w) = (x, r) ->
    cluster_step c (set_given (hear n w r c.(given)) (set_witness w x c))
| witness_moves w writes src tgt se te tx ttl c :
    (c.(members) src).(witness).(acquisition_suspended) = true ->
    cluster_step c (set_witness w (fst (WitnessStore.transfer writes c.(time) cl src tgt se te tx ttl (c.(witnesses) w))) c)
| witness_comes_back w x c : (c.(witnesses) w).(has_path) = true -> WitnessStore.restart (c.(witnesses) w) = Ok x ->
    cluster_step c (set_witness w x c)
| node_serves n w r c : n <> "" -> honest n w c.(time) c.(given) -> recovers r = false ->
    cluster_step c (set_member n (fst (perform (cfg n) w r (c.(members) n))) c)
| node_is_recovered n w r c : n <> "" -> honest n w c.(time) c.(given) -> recovers r = true ->
    cluster_step c (set_given (forget n c.(given)) (set_member n (fst (perform (cfg n) w r (c.(members) n))) c))
| node_starts n marker receipt s c : n <> "" -> s.(witness) = init_client (member_config n) marker receipt ->
    cluster_step c (set_given (forget n c.(given)) (set_member n s c)).

(** ** The witness client of a node that serves *)

(** The system after steps of node [n] alone, whose client is now [q]. *)
Definition led_to (S : system) (n : string) (q : client) : Prop :=
  exists S', rtc system_step S S' /\ S'.(clock) = S.(clock) /\ S'.(stores) = S.(stores) /\ S'.(answers) = S.(answers)
             /\ S'.(nodes) n = q /\ forall m, m <> n -> S'.(nodes) m = S.(nodes) m.

Definition linked (S : system) (n : string) (s : runtime) : Prop := led_to S n s.(witness).

Lemma led_step S n q q' :
  (forall S', S'.(clock) = S.(clock) -> S'.(answers) = S.(answers) -> S'.(nodes) n = q -> system_step S' (set_node n q' S')) ->
  led_to S n q -> led_to S n q'.
Proof.
  intros H (S' & Hr & Hc & Hs & Ha & Hn & Ho). exists (set_node n q' S'). split_and!; try done.
  - eapply rtc_r; [exact Hr|]. by apply H.
  - cbn. by rewrite fn_lookup_insert.
  - intros m Hm. cbn. rewrite fn_lookup_insert_ne by done. by apply Ho.
Qed.

Lemma led_here S n : led_to S n (S.(nodes) n).
Proof. by exists S. Qed.

Section serving.
Context (D : deployment U member_config) (S : system) (n : string) (Hn : n <> "") (w : world)
  (Hw : honest n w S.(clock) S.(answers)).

Lemma led_acquire q :
  led_to S n q ->
  led_to S n (fst (WitnessQuorum.acquire w.(euid) w.(key_files) (member_config n) w.(exchanges) w.(now_ms) w.(now_ms) q)).
Proof.
  intros Hq. destruct Hw as [Ht Hh]. rewrite acquire_state. destruct (acquisition_suspended q) eqn:Es; [done|].
  destruct (collect _ _ _ _) as [rs|e] eqn:Ec; [|done]. revert Hq. apply led_step. intros S' Hc Ha <-.
  rewrite Ht, <- Hc. apply node_settles; [done|done| |].
  - rewrite <- (dep_urls _ _ D n). eapply collect_urls; [|exact Ec]. intros p url x r. apply one_url.
  - intros r Hr Hg Hr'. rewrite Ha. by apply (Hh rs r).
Qed.

Lemma led_transfer q t identity :
  led_to S n q ->
  led_to S n (fst (WitnessQuorum.transfer w.(euid) w.(key_files) (member_config n) t identity w.(exchanges) w.(now_ms) w.(now_ms) q)).
Proof.
  destruct Hw as [Ht _]. apply led_step. intros S' Hc _ <-. rewrite Ht, <- Hc. by apply node_transfers.
Qed.

Lemma linked_with {T} `{!Part runtime T} `{!Independent runtime T client} (t : T) s : linked S n s -> linked S n (with_part t s).
Proof. unfold linked. pose proof (part_independent (U:=client) t s) as H. cbn [part witness_part] in H. by rewrite H. Qed.

Lemma linked_within {T A} `{!Part runtime T} `{!Independent runtime T client} (m : st T A) : keeps (linked S n) (inside m).
Proof. apply keeps_within. intros t s. apply linked_with. Qed.

Lemma linked_own f : keeps (linked S n) (change (f : own -> own)).
Proof. by apply keeps_modify. Qed.

#[local] Instance tracker_client : Independent runtime Replication.tracker client. Proof. independent. Qed.
#[local] Instance leases_client : Independent runtime AuthorityLeases.registry client. Proof. independent. Qed.
#[local] Instance show_client : Independent runtime ShowState client. Proof. independent. Qed.
#[local] Instance execution_client : Independent runtime Handoff.registry client. Proof. independent. Qed.
#[local] Instance peer_client : Independent runtime PeerReplication.client client. Proof. independent. Qed.
#[local] Instance repository_client : Independent runtime Persistence.repository client. Proof. independent. Qed.

#[local] Instance quiet_linked : Quiet (cfg n) w (linked S n).
Proof.
  split; try (intros; by apply linked_with); try (intros; apply linked_within); try (intros; apply linked_own).
  - intros Hf. apply keeps_bind; [done|]. intros _. unfold set_role. keeps_tac. apply linked_within.
  - intros s Hs. unfold acquire_lease. rewrite inside_eq. by apply led_acquire.
Qed.

#[local] Instance loud_linked : Loud (cfg n) w (linked S n).
Proof.
  split; [intros; apply linked_within|]. intros i. unfold transfer_lease, planned_int, planned_field. keeps_tac.
  intros s Hs. rewrite inside_eq. by apply led_transfer.
Qed.

(** Whatever a node is asked, except a recovery, its witness client makes steps of the witness system. *)
Lemma linked_perform r : recovers r = false -> keeps (linked S n) (perform (cfg n) w r).
Proof.
  intros Hr. destruct (plain r) eqn:Hp; [by apply (quiet_perform (cfg n) w (linked S n))|]. destruct r; try done; cbn [perform].
  - apply keeps_ignore, (quiet_mutate (cfg n) w (linked S n)). intros f. apply linked_own.
  - apply (quiet_arm (cfg n) w (linked S n)). intros b. apply linked_own.
  - apply keeps_ignore, (quiet_grant (cfg n) w (linked S n)). intros A m. apply linked_within.
  - apply keeps_ignore, (quiet_revoke (cfg n) w (linked S n)). intros A m. apply linked_within.
Qed.
End serving.

(** A recovery asks the witnesses at most once, and nothing else moves the client. *)
Lemma recover_client rc w d temp later s :
  let s' := fst (recover_fenced_node rc w d temp later s) in
  s'.(witness) = s.(witness)
  \/ exists id, s'.(witness) = fst (recover w.(euid) w.(key_files) rc.(witness_config) id w.(exchanges) temp later w.(now_ms) s.(witness)).
Proof.
  cbv zeta. unfold recover_fenced_node. destruct (negb _); [by left|]. destruct (String.eqb _ ""); [by left|].
  destruct (demote_spec w s) as [Hw _]. unfold st_bind. destruct (demote w s) as [s1 [a|e]]; cbn [fst] in Hw; [|by left].
  right. eexists. rewrite (inside_eq AuthorityLeases.clear). cbn [AuthorityLeases.clear st_put st_modify fst snd]. rewrite inside_eq.
  cbn [fst witness with_part witness_part build part leases_part]. by rewrite <- Hw.
Qed.

(** ** Refinement *)

(** The cluster as the witness system sees it; nodes are compared one by one. *)
Definition sim (S : system) (c : cluster) : Prop :=
  S.(clock) = c.(time) /\ S.(stores) = c.(witnesses) /\ S.(answers) = c.(given)
  /\ forall n, S.(nodes) n = ((c.(members) n).(witness)).

Lemma sim_member S c n q s : sim S c -> q = s.(witness) -> sim (set_node n q S) (set_member n s c).
Proof.
  intros (Hc & Hs & Ha & Hn) ->. split_and!; [done..|]. intros m. cbn. destruct (decide (n = m)) as [->|Hm].
  - by rewrite !fn_lookup_insert.
  - by rewrite !fn_lookup_insert_ne.
Qed.

Lemma sim_given S c l : sim S c -> sim (set_answers l S) (set_given l c).
Proof. intros (? & ? & ? & ?). done. Qed.

Lemma sim_witness S c w x : sim S c -> sim (set_store w x S) (set_witness w x c).
Proof. intros (? & Hs & ? & ?). split_and!; try done. cbn. by rewrite Hs. Qed.

Lemma sim_served S c n w r : deployment U member_config -> n <> "" -> honest n w c.(time) c.(given) -> recovers r = false -> sim S c ->
  exists S', rtc system_step S S' /\ sim S' (set_member n (fst (perform (cfg n) w r (c.(members) n))) c).
Proof.
  intros D Hn Hw Hr (Hc & Hs & Ha & Hm). rewrite <- Hc, <- Ha in Hw.
  assert (H0 : linked S n (c.(members) n)) by (unfold linked; rewrite <- Hm; apply led_here).
  destruct (linked_perform D S n Hn w Hw r Hr _ H0) as (S' & Hr' & Hc' & Hs' & Ha' & Hq & Ho).
  exists S'. split; [done|]. split_and!; [by rewrite Hc'|by rewrite Hs'|by rewrite Ha'|]. intros m. cbn.
  destruct (decide (n = m)) as [<-|Hne]; [by rewrite fn_lookup_insert|rewrite fn_lookup_insert_ne by done; rewrite Ho; auto].
Qed.

Lemma sim_recovered S c n w r : n <> "" -> honest n w c.(time) c.(given) -> recovers r = true -> sim S c ->
  exists S', rtc system_step S S' /\ sim S' (set_given (forget n c.(given)) (set_member n (fst (perform (cfg n) w r (c.(members) n))) c)).
Proof.
  intros Hn [Ht _] Hr Hs. assert (Ha : S.(answers) = c.(given)) by apply Hs. assert (Hc : S.(clock) = c.(time)) by apply Hs.
  destruct r; try done. cbn [perform]. rewrite ignore_state.
  destruct (recover_client (cfg n) w data temp_exists fence_later (c.(members) n)) as [He|[id He]].
  - exists (set_answers (forget n S.(answers)) S). split; [apply rtc_once, answers_lost|]. rewrite Ha.
    apply sim_given. destruct Hs as (? & ? & ? & Hm). split_and!; [done..|]. intros m. cbn.
    destruct (decide (n = m)) as [<-|Hne]; [by rewrite fn_lookup_insert, He|by rewrite fn_lookup_insert_ne].
  - eexists. split; [apply rtc_once, (node_recovers U cl member_config w.(euid) w.(key_files) n id w.(exchanges) temp_exists fence_later S Hn)|].
    rewrite Ha. apply sim_given, sim_member; [done|]. rewrite He, Ht, Hc. by destruct Hs as (_ & _ & _ & ->).
Qed.

Lemma step_simulated S c c' : deployment U member_config -> sim S c -> cluster_step c c' -> exists S', rtc system_step S S' /\ sim S' c'.
Proof.
  intros D Hs Hstep. assert (Ha : S.(answers) = c.(given)) by apply Hs. assert (Hc : S.(clock) = c.(time)) by apply Hs.
  assert (Hst : S.(stores) = c.(witnesses)) by apply Hs. assert (Hm : forall n, S.(nodes) n = (c.(members) n).(witness)) by apply Hs.
  destruct Hstep as [t c Ht|n w writes x r c Hn Hx|w writes src tgt se te tx ttl c Hsrc|w x c Hp Hx|n w r c Hn Hw Hr|n w r c Hn Hw Hr|n marker receipt s c Hn Hi].
  - eexists. split; [apply rtc_once, (time_passes _ _ _ t); by rewrite Hc|]. by destruct Hs as (? & ? & ? & ?).
  - eexists. split; [apply rtc_once, (witness_acquires _ _ _ n w writes x r S Hn); by rewrite Hc, Hst|].
    rewrite Ha. by apply sim_given, sim_witness.
  - eexists. split; [apply rtc_once, (witness_transfers _ _ _ w writes src tgt se te tx ttl S); by rewrite Hm|].
    rewrite Hc, Hst. by apply sim_witness.
  - eexists. split; [apply rtc_once, (witness_restarts _ _ _ w x S); by rewrite Hst|]. by apply sim_witness.
  - by apply sim_served.
  - by apply sim_recovered.
  - eexists. split; [apply rtc_once, (node_restarts _ _ _ n marker receipt S Hn)|]. rewrite Ha. by apply sim_given, sim_member.
Qed.

(** The nodes just started, the witnesses without leases. *)
Definition fresh (t : Z) (paths : string -> bool) (nodes_at : string -> runtime) : cluster :=
  {| time := t; witnesses := fun w => empty_store (paths w); members := nodes_at; given := [] |}.

Definition just_started (nodes_at : string -> runtime) (markers : string -> fence_view) (receipts : string -> bool) : Prop :=
  forall n, (nodes_at n).(witness) = init_client (member_config n) (markers n) (receipts n).

Lemma runs_simulated S c c' : deployment U member_config -> sim S c -> rtc cluster_step c c' -> exists S', rtc system_step S S' /\ sim S' c'.
Proof.
  intros D Hs H. revert S Hs. induction H as [c|c c1 c2 H1 _ IH]; intros S Hs; [by exists S|].
  destruct (step_simulated S c c1 D Hs H1) as (S1 & HS1 & Hs1). destruct (IH S1 Hs1) as (S2 & HS2 & Hs2).
  exists S2. split; [by etrans|done].
Qed.

Lemma fresh_simulated t paths nodes_at markers receipts : just_started nodes_at markers receipts ->
  sim (initial member_config t paths markers receipts) (fresh t paths nodes_at).
Proof. intros H. split_and!; [done..|]. intros n. cbn. by rewrite H. Qed.

(** C2: the runtimes implement the witness protocol. Every run of a cluster of nodes just started, whatever its nodes are
    asked and in whatever environment, is a run of the witness system: the witnesses, their leases and the lease each
    node believes it has are those of a state the witness system reaches. *)
Theorem cluster_refines_witness_system t paths markers receipts nodes_at c :
  deployment U member_config -> just_started nodes_at markers receipts -> rtc cluster_step (fresh t paths nodes_at) c ->
  exists S, rtc system_step (initial member_config t paths markers receipts) S /\ sim S c.
Proof. intros D Hi. apply runs_simulated; [done|]. by apply fresh_simulated. Qed.

(** C1: at most one node leads. With every node configured with witnesses and requiring a majority of them, after any run
    of the cluster (failovers, planned handoffs, recoveries, restarts of nodes and witnesses, lease files that cannot be written, role changes, lost and delayed answers) two nodes that
    have authority to change the show are the same node. *)
Theorem at_most_one_node_has_authority t paths markers receipts nodes_at c n1 n2 w1 w2 :
  deployment U member_config -> just_started nodes_at markers receipts -> 0 <= t ->
  (forall n, configured (member_config n) = true) ->
  rtc cluster_step (fresh t paths nodes_at) c -> n1 <> "" -> n2 <> "" -> w1.(now_ms) = c.(time) -> w2.(now_ms) = c.(time) ->
  _has_authority (cfg n1) w1 (c.(members) n1) = true -> _has_authority (cfg n2) w2 (c.(members) n2) = true ->
  n1 = n2.
Proof.
  intros D Hi Ht Hcf Hrun Hn1 Hn2 Hw1 Hw2 Ha1 Ha2.
  destruct (runs_simulated _ _ _ D (fresh_simulated t paths _ markers receipts Hi) Hrun) as (S & HS & Hc & _ & _ & Hm).
  apply (leases_exclusive U cl member_config S n1 n2 100 100); try done.
  - eapply steps_invariant; [done|exact HS|done|by apply initial_invariant].
  - rewrite Hc, Hm, <- Hw1. unfold _has_authority in Ha1. fold (member_config n1) in Ha1. rewrite Hcf in Ha1. by pyinv.
  - rewrite Hc, Hm, <- Hw2. unfold _has_authority in Ha2. fold (member_config n2) in Ha2. rewrite Hcf in Ha2. by pyinv.
Qed.
End cluster.

(** ** A run: node-a hears two of three witnesses on its first tick, and leads *)

Definition first_day : cluster := fresh 1000 (fun _ => true) (fun n => fresh_node n "primary").

(** The cluster after a witness was asked. *)
Definition after_answer (n w : string) (c : cluster) : cluster :=
  let '(x, a) := WitnessStore.acquire true c.(time) "show" n 3000 (c.(witnesses) w) in
  set_given (hear n w a c.(given)) (set_witness w x c).

Definition vote (i : string) : exchange :=
  {| x_nonce := "n" +:+ i; x_reply := granting_reply (member "node-a") ("n" +:+ i) 1 4000; x_now := 1000 |}.
Definition no_vote : exchange := {| x_nonce := "n3"; x_reply := RFailed (OSError "refused"); x_now := 1000 |}.

Definition election : world := world_with [vote "1"; vote "2"; no_vote] false.

Definition answered : cluster := after_answer "node-a" "http://w2" (after_answer "node-a" "http://w1" first_day).
Definition first_tick : runtime := fst (perform (node_config "node-a") election WitnessTick (answered.(members) "node-a")).
Definition led : cluster := set_member "node-a" first_tick answered.

Lemma answer_is_a_step n w c : n <> "" -> cluster_step "show" node_config c (after_answer n w c).
Proof.
  intros Hn. unfold after_answer. destruct (WitnessStore.acquire _ _ _ _ _ _) as [x a] eqn:E. by apply (witness_answers _ _ _ _ true).
Qed.

Definition collected : res (list WitnessResult) :=
  collect (member "node-a") (_pin_operation_auth 0 no_files (member "node-a")) (_one (member "node-a")) election.(exchanges).

Lemma collected_votes :
  match collected with
  | Ok rs => forallb (fun r => negb r.(r_granted) || (r.(r_expires) =? 4000) && existsb (String.eqb r.(r_url)) ["http://w1"; "http://w2"]) rs
  | Raise _ => true
  end = true.
Proof. vm_compute. reflexivity. Qed.

Lemma answered_given : answered.(given) = [("node-a", "http://w2", 4000); ("node-a", "http://w1", 4000)].
Proof. vm_compute. reflexivity. Qed.

Lemma election_honest : honest node_config "node-a" election answered.(time) answered.(given).
Proof.
  split; [reflexivity|]. intros rs r Hc Hr Hg _. rewrite answered_given. pose proof collected_votes as Hv.
  change (collected = Ok rs) in Hc. rewrite Hc in Hv. rewrite forallb_forall in Hv.
  apply list_elem_of_In, Hv in Hr. rewrite Hg in Hr. cbn [negb orb existsb] in Hr. pyinv; subst.
  destruct r as [u ? ? e]. cbn [r_url r_expires] in *. subst e. destruct (String.eqb_spec u "http://w1") as [->|]; [right; left|].
  destruct (String.eqb_spec u "http://w2") as [->|]; [left|done].
Qed.

Lemma led_reachable : rtc (cluster_step "show" node_config) first_day led.
Proof.
  apply (rtc_l _ _ (after_answer "node-a" "http://w1" first_day)); [by apply answer_is_a_step|].
  apply (rtc_l _ _ answered); [by apply answer_is_a_step|].
  apply rtc_once. apply node_serves; [done|apply election_honest|done].
Qed.

Lemma nodes_just_started :
  just_started node_config (fun n => fresh_node n "primary") (fun _ => FAbsent) (fun _ => false).
Proof. by intros n. Qed.

Lemma cluster_refines_witness_system_witness :
  exists S, rtc (step three "show" member) (initial member 1000 (fun _ => true) (fun _ => FAbsent) (fun _ => false)) S /\ sim S led.
Proof.
  apply (cluster_refines_witness_system three "show" node_config 1000 (fun _ => true) (fun _ => FAbsent) (fun _ => false)
    (fun n => fresh_node n "primary") led); [exact three_deployment|exact nodes_just_started|exact led_reachable].
Defined.

Lemma at_most_one_node_has_authority_witness :
  _has_authority (node_config "node-a") calm (led.(members) "node-a") = true
  /\ forall n, n <> "" -> _has_authority (node_config n) calm (led.(members) n) = true -> "node-a" = n.
Proof.
  assert (Ha : _has_authority (node_config "node-a") calm (led.(members) "node-a") = true) by (vm_compute; reflexivity).
  split; [exact Ha|]. intros n Hn Hb.
  refine (at_most_one_node_has_authority three "show" node_config 1000 (fun _ => true) (fun _ => FAbsent) (fun _ => false)
    (fun n => fresh_node n "primary") led "node-a" n calm calm three_deployment nodes_just_started _ _ led_reachable _ Hn _ _ Ha Hb);
    [lia|intros m; reflexivity|done|reflexivity|reflexivity].
Defined.

(** ** Two ticks that do more, and less, than keep the lease *)

(** A standby whose operator disabled automatic failover still takes the lease of the cluster. *)
Example a_manual_standby_takes_the_lease :
  let s := fst (perform (node_config "node-a") election WitnessTick (fresh_node "node-a" "standby")) in
  (Replication.is_primary s.(replication), s.(witness).(lease_expires_at)) = (false, 4000).
Proof. vm_compute. reflexivity. Qed.

(** Telemetry the source replicated with a show time that is no number ends the tick of an automatic standby with an
    error, which its loop does not catch. *)
Definition automatic (n : string) : runtime_config :=
  {| witness_config := (node_config n).(witness_config); _replication_keyring := (node_config n).(_replication_keyring);
     _replication_secret := "replication-secret"; _auto_failover := true; _failover_suspect_ms := 1500; _failover_promote_ms := 3000 |}.

Example malformed_telemetry_ends_the_tick :
  let s := fresh_node "node-b" "standby" in
  snd (perform (automatic "node-b") election WitnessTick
         (with_part (T:=own) (set_telemetry [("showTimeNs", VStr "abc")] s.(mine)) s))
  = Raise (ValueError "invalid literal for int()").
Proof. vm_compute. reflexivity. Qed.
