(* ===== verification/UserProfiles.v ===== *)
(** * User profiles (backend/user_profiles.py)

    The inspection and normalization of profiles, the preferences a profile
    resolves to, and the store that keeps one profile in a file. The file is what
    parsing it gives: nothing, a value, or the exception of reading it. *)

From S2P Require Import Prelude PyStr PyFloat PyVal PyFacts StateLogic.
From Stdlib Require Import SpecFloat.

#[local] Open Scope string_scope.
#[local] Open Scope list_scope.
#[local] Open Scope Z_scope.

Definition DOCUMENT_TYPE : string := "org.upp.user-profile".
Definition SCHEMA_VERSION : Z := 1.
Definition LAYERS : list (string * Z) := [("base", 0); ("user", 1); ("role", 2); ("venue", 3); ("session", 4)].
Definition VALUE_TYPES : list string := ["boolean"; "integer"; "scalar"; "token"].

(** ** Inspection *)

Inductive inspection :=
  | Unreadable (mode reason : string) (incoming : option Z)
  | Readable (incoming : Z).

Definition inspect_user_profile (profile : pyval) : res inspection :=
  match profile with
  | VDict d =>
      if negb (String.eqb (py_str (dget_or d "documentType" (VStr DOCUMENT_TYPE))) DOCUMENT_TYPE)
      then Ok (Unreadable "wrong-document-type" "unsupported user-profile document type" None)
      else
        catch type_or_value
          (incoming ← py_int (dget_or d "schemaVersion" (VInt 1));
           minimum ← py_int (dget_or d "minimumReaderSchemaVersion" (VInt incoming));
           Ok (if SCHEMA_VERSION <? minimum
               then Unreadable "reader-too-old" ("profile requires reader schema " +:+ dec minimum) (Some incoming)
               else Readable incoming))
          (fun _ => Ok (Unreadable "invalid" "profile schema versions must be integers" None))
  | _ => Ok (Unreadable "invalid" "user profile must be an object" None)
  end.

Definition inspection_dict (i : inspection) : pydict :=
  match i with
  | Unreadable mode reason incoming =>
      [("readable", VBool false); ("mode", VStr mode); ("reason", VStr reason)] ++
      match incoming with Some z => [("incomingSchemaVersion", VInt z)] | None => [] end
  | Readable incoming =>
      [("readable", VBool true); ("mode", VStr (if incoming =? SCHEMA_VERSION then "exact" else "forward-compatible"));
       ("incomingSchemaVersion", VInt incoming); ("readerSchemaVersion", VInt SCHEMA_VERSION); ("preserveUnknown", VBool true)]
  end.

(** ** Normalization *)

Definition layer_rank (layer : string) : Z := default 0 (alookup LAYERS layer).

Definition field_str (d : pydict) (k default : string) : string := py_str (dget_or d k (VStr default)).

(** A value is of its declared type: a bool is no integer and no scalar. *)
Definition value_typed (value_type : string) (value : pyval) : bool :=
  match value with
  | VBool _ => String.eqb value_type "boolean"
  | VInt _ => String.eqb value_type "integer" || String.eqb value_type "scalar"
  | VFloat _ => String.eqb value_type "scalar"
  | VStr _ => String.eqb value_type "token"
  | _ => false
  end.

Definition value_message (value_type : string) : string :=
  if String.eqb value_type "boolean" then "boolean preference requires a boolean value"
  else if String.eqb value_type "integer" then "integer preference requires an integer value"
  else if String.eqb value_type "scalar" then "scalar preference requires a numeric value"
  else "token preference requires a string value".

Record preference := {
  p_raw : pydict;
  p_namespace : string;
  p_key : string;
  p_layer : string;
  p_type : string;
  p_revision : Z;
  p_value : pyval;
}.

Definition preference_dict (p : preference) : pydict :=
  dmerge p.(p_raw)
    [("namespace", VStr p.(p_namespace)); ("key", VStr p.(p_key)); ("layer", VStr p.(p_layer)); ("type", VStr p.(p_type));
     ("revision", VInt p.(p_revision)); ("value", p.(p_value))].

Definition normalize_preference (raw : pyval) : res preference :=
  match raw with
  | VDict d =>
      let namespace := strip (field_str d "namespace" "") in
      let key := strip (field_str d "key" "") in
      let layer := field_str d "layer" "user" in
      let value_type := field_str d "type" "token" in
      revision ← py_int (dget_or d "revision" (VInt 0));
      if String.eqb namespace "" || String.eqb key "" || negb (existsb (String.eqb layer) (map fst LAYERS))
         || negb (existsb (String.eqb value_type) VALUE_TYPES) || (revision <? 1)
      then Raise (ValueError "invalid preference identity, layer, type, or revision")
      else
        let value := dget_none d "value" in
        if negb (value_typed value_type value) then Raise (ValueError (value_message value_type))
        else Ok {| p_raw := d; p_namespace := slice 128 namespace; p_key := slice 128 key; p_layer := layer; p_type := value_type;
                   p_revision := revision; p_value := value |}
  | _ => Raise (ValueError "each preference must be an object")
  end.

Record user_profile := {
  u_raw : pydict;
  u_id : string;
  u_revision : Z;
  u_preferences : list preference;
}.

(** [result.setdefault(k, v)]. *)
Definition set_default (d : pydict) (k : string) (v : pyval) : pydict := if dhas d k then d else dset d k v.

Definition profile_dict (u : user_profile) : pydict :=
  let result := dmerge u.(u_raw)
    [("documentType", VStr DOCUMENT_TYPE); ("profileId", VStr u.(u_id)); ("revision", VInt u.(u_revision)); ("unknownFieldsPreserved", VBool true)] in
  let result := set_default (set_default result "schemaVersion" (VInt SCHEMA_VERSION)) "minimumReaderSchemaVersion" (VInt 1) in
  dset result "preferences" (VList (map (fun p => VDict (preference_dict p)) u.(u_preferences))).

Definition normalize_user_profile (profile : pyval) : res user_profile :=
  report ← inspect_user_profile profile;
  match report, profile with
  | Readable _, VDict d =>
      revision ← py_int (dget_or d "revision" (VInt 0));
      match py_or (dget_none d "preferences") (VList []) with
      | VList preferences =>
          if 128 <? Z.of_nat (length preferences) then Raise (ValueError "preferences must be an array of at most 128 entries")
          else
            normalized ← map_res normalize_preference preferences;
            Ok {| u_raw := d; u_id := str_or (slice 128 (strip (field_str d "profileId" "default"))) "default";
                  u_revision := Z.max 0 revision; u_preferences := normalized |}
      | _ => Raise (ValueError "preferences must be an array of at most 128 entries")
      end
  | Unreadable _ reason _, _ => Raise (ValueError reason)
  | _, _ => Raise AttributeError
  end.

(** ** Resolution *)

Definition identity (p : preference) : string * string := (p.(p_namespace), p.(p_key)).

Definition same_identity (p q : preference) : bool := String.eqb p.(p_namespace) q.(p_namespace) && String.eqb p.(p_key) q.(p_key).

(** [(a, b) > (c, d)] on pairs of integers. *)
Definition pair_gt (x y : Z * Z) : bool := (fst y <? fst x) || ((fst x =? fst y) && (snd y <? snd x)).

Definition identity_lt (p q : preference) : bool :=
  str_ltb p.(p_namespace) q.(p_namespace) || (String.eqb p.(p_namespace) q.(p_namespace) && str_ltb p.(p_key) q.(p_key)).

Section selection.
Context (rank : preference -> Z * Z).

(** One more preference: it replaces one of its identity and a lower rank, in its place. *)
Fixpoint select_one (selected : list preference) (item : preference) : list preference :=
  match selected with
  | [] => [item]
  | current :: rest =>
      if same_identity current item then (if pair_gt (rank item) (rank current) then item else current) :: rest
      else current :: select_one rest item
  end.

Definition select_all (items : list preference) : list preference := fold_left select_one items [].
End selection.

Definition plain_rank (p : preference) : Z * Z := (layer_rank p.(p_layer), p.(p_revision)).

Definition resolve_user_preferences (profile : pyval) : res pydict :=
  u ← normalize_user_profile profile;
  Ok [("profileId", VStr u.(u_id)); ("revision", VInt u.(u_revision));
      ("resolved", VList (map (fun p => VDict (preference_dict p)) (sort_lt identity_lt (select_all plain_rank u.(u_preferences)))));
      ("physicalOutputsArmed", VBool false)].

(** ** The store *)

Definition default_profile : pyval := VDict [("profileId", VStr "default"); ("preferences", VList [])].
Definition unavailable_profile : pyval := VDict [("profileId", VStr "unavailable"); ("preferences", VList []); ("loadError", VBool true)].

Definition unloadable (e : exn) : bool := is_os_error e || type_or_value e.

Definition load (file : option (res pyval)) : res user_profile :=
  match file with
  | None => normalize_user_profile default_profile
  | Some content => catch unloadable (value ← content; normalize_user_profile value) (fun _ => normalize_user_profile unavailable_profile)
  end.

(** The profile that is kept, and the file afterwards; [written]: the file could be replaced. *)
Definition save (written : bool) (profile : pyval) : st (option (res pyval)) user_profile := fun file =>
  match normalize_user_profile profile with
  | Raise e => (file, Raise e)
  | Ok normalized =>
      match load file with
      | Raise e => (file, Raise e)
      | Ok current =>
          if normalized.(u_revision) <=? current.(u_revision) then (file, Raise (ValueError "user profile revision must advance"))
          else if written then (Some (Ok (VDict (profile_dict normalized))), Ok normalized)
          else (file, Raise (OSError "user profile unavailable"))
      end
  end.

(** ** Facts *)

Lemma slice_twice n s : slice n (slice n s) = slice n s.
Proof. unfold slice. by rewrite chars_of_chars, firstn_firstn, Nat.min_id. Qed.

Lemma slice_nonempty n s : s <> "" -> slice (S n) s <> "".
Proof. destruct s as [|c s]; [done|]. by cbn. Qed.

(** What normalization establishes of a preference. *)
Record normal (p : preference) : Prop := {
  n_namespace : p.(p_namespace) <> "" /\ slice 128 p.(p_namespace) = p.(p_namespace);
  n_key : p.(p_key) <> "" /\ slice 128 p.(p_key) = p.(p_key);
  n_layer : p.(p_layer) ∈ map fst LAYERS;
  n_type : p.(p_type) ∈ VALUE_TYPES;
  n_revision : 1 <= p.(p_revision);
  n_value : value_typed p.(p_type) p.(p_value) = true;
}.

Lemma existsb_name s l : existsb (String.eqb s) l = true <-> s ∈ l.
Proof.
  rewrite existsb_exists. split.
  - by intros (x & Hx & ->%String.eqb_eq); apply list_elem_of_In.
  - intros H. exists s. by rewrite str_eqb_refl, <- list_elem_of_In.
Qed.

Lemma normalize_preference_normal raw p : normalize_preference raw = Ok p -> normal p.
Proof.
  destruct raw as [| | | | | |d]; try done. unfold normalize_preference. intros H. apply bind_ok in H as (r & _ & H).
  destruct (_ || _ || _ || _ || _) eqn:E; [done|]. destruct (value_typed _ _) eqn:Ev; [|done]. injection H as <-.
  apply orb_false_iff in E as [E Er]. apply orb_false_iff in E as [E Et]. apply orb_false_iff in E as [E El]. apply orb_false_iff in E as [En Ek].
  apply String.eqb_neq in En, Ek. apply negb_false_iff in El, Et. apply Z.ltb_ge in Er.
  split; cbn [p_namespace p_key p_layer p_type p_revision p_value]; try done.
  - split; [by apply slice_nonempty|apply slice_twice].
  - split; [by apply slice_nonempty|apply slice_twice].
  - by apply existsb_name.
  - by apply existsb_name.
Qed.

(** Cutting its names left no blank at their end. *)
Definition tidy_preference (p : preference) : bool :=
  String.eqb (strip p.(p_namespace)) p.(p_namespace) && String.eqb (strip p.(p_key)) p.(p_key).

Definition tidy (u : user_profile) : bool := String.eqb (strip u.(u_id)) u.(u_id) && forallb tidy_preference u.(u_preferences).

Lemma preference_dict_get p k : dget (preference_dict p) k =
  match dget [("namespace", VStr p.(p_namespace)); ("key", VStr p.(p_key)); ("layer", VStr p.(p_layer)); ("type", VStr p.(p_type));
              ("revision", VInt p.(p_revision)); ("value", p.(p_value))] k with
  | Some v => Some v
  | None => dget p.(p_raw) k
  end.
Proof. unfold preference_dict. apply dmerge_get. nodup_keys. Qed.

(** A normalized preference is read back as itself. *)
Lemma normalize_preference_again p : normal p -> tidy_preference p = true ->
  exists p', normalize_preference (VDict (preference_dict p)) = Ok p' /\ preference_dict p' = preference_dict p.
Proof.
  intros [[Hn1 Hn2] [Hk1 Hk2] Hl Ht Hr Hv] [H1%String.eqb_eq H2%String.eqb_eq]%andb_prop.
  unfold normalize_preference, field_str, dget_none, dget_or. rewrite !preference_dict_get. cbn [dget String.eqb Ascii.eqb Bool.eqb py_str py_int mbind res_bind].
  rewrite H1, H2, (str_eqb_ne _ _ Hn1), (str_eqb_ne _ _ Hk1), (proj2 (existsb_name _ _) Hl), (proj2 (existsb_name _ _) Ht), (proj2 (Z.ltb_ge _ _) Hr), Hv.
  cbn [negb orb]. eexists. split; [reflexivity|]. rewrite Hn2, Hk2.
  unfold preference_dict at 1. cbn [p_raw p_namespace p_key p_layer p_type p_revision p_value]. apply dmerge_same.
  repeat apply List.Forall_cons; try apply List.Forall_nil; cbn [fst snd]; rewrite preference_dict_get; reflexivity.
Qed.

Lemma normalize_preferences_again l : Forall normal l -> forallb tidy_preference l = true ->
  exists l', map_res normalize_preference (map (fun p => VDict (preference_dict p)) l) = Ok l' /\ map preference_dict l' = map preference_dict l.
Proof.
  induction 1 as [|p l Hp Hl IH]; [by exists []|]. intros [Ht Hts]%andb_prop. destruct (normalize_preference_again p Hp Ht) as (p' & Hp' & Hd).
  destruct (IH Hts) as (l' & Hl' & Hds). exists (p' :: l'). cbn [map map_res]. rewrite Hp'. cbn [mbind res_bind]. rewrite Hl'. cbn [mbind res_bind map]. split; [done|by rewrite Hd, Hds].
Qed.

Lemma dget_set_default d k v k' : dget (set_default d k v) k' = if String.eqb k' k then Some (dget_or d k v) else dget d k'.
Proof.
  unfold set_default, dhas, dget_or. destruct (String.eqb_spec k' k) as [->|Hne]; [destruct (dget d k) eqn:E; [by rewrite E|apply dget_dset_eq]|].
  destruct (dget d k); [done|by apply dget_dset_ne].
Qed.

Lemma set_default_same d k v : is_Some (dget d k) -> set_default d k v = d.
Proof. intros [x Hx]. unfold set_default, dhas. by rewrite Hx. Qed.

(** The lookups of a normalized document. *)
Lemma profile_dict_get u k : dget (profile_dict u) k =
  if String.eqb k "preferences" then Some (VList (map (fun p => VDict (preference_dict p)) u.(u_preferences)))
  else if String.eqb k "minimumReaderSchemaVersion" then Some (dget_or u.(u_raw) k (VInt 1))
  else if String.eqb k "schemaVersion" then Some (dget_or u.(u_raw) k (VInt SCHEMA_VERSION))
  else match dget [("documentType", VStr DOCUMENT_TYPE); ("profileId", VStr u.(u_id)); ("revision", VInt u.(u_revision)); ("unknownFieldsPreserved", VBool true)] k with
       | Some v => Some v
       | None => dget u.(u_raw) k
       end.
Proof.
  assert (NoDup (dkeys [("documentType", VStr DOCUMENT_TYPE); ("profileId", VStr u.(u_id)); ("revision", VInt u.(u_revision)); ("unknownFieldsPreserved", VBool true)])) as Hnd.
  { change (NoDup ["documentType"; "profileId"; "revision"; "unknownFieldsPreserved"]). nodup_keys. }
  unfold profile_dict. rewrite dget_dset. destruct (String.eqb_spec k "preferences") as [->|_]; [done|].
  rewrite dget_set_default. destruct (String.eqb_spec k "minimumReaderSchemaVersion") as [->|_].
  - unfold dget_or. rewrite dget_set_default. cbn [String.eqb Ascii.eqb Bool.eqb]. by rewrite (dmerge_get _ _ _ Hnd).
  - rewrite dget_set_default. destruct (String.eqb_spec k "schemaVersion") as [->|_]; [unfold dget_or|]; by rewrite (dmerge_get _ _ _ Hnd).
Qed.

(** What normalization establishes of a profile. *)
Record normal_profile (u : user_profile) : Prop := {
  np_id : slice 128 u.(u_id) = u.(u_id) /\ u.(u_id) <> "";
  np_revision : 0 <= u.(u_revision);
  np_preferences : Forall normal u.(u_preferences);
  np_count : Z.of_nat (length u.(u_preferences)) <= 128;
  np_versions : exists incoming minimum, py_int (dget_or u.(u_raw) "schemaVersion" (VInt 1)) = Ok incoming /\
    py_int (dget_or u.(u_raw) "minimumReaderSchemaVersion" (VInt 1)) = Ok minimum /\ minimum <= SCHEMA_VERSION;
}.

Lemma normalize_user_profile_normal v u : normalize_user_profile v = Ok u -> normal_profile u.
Proof.
  unfold normalize_user_profile. intros H. apply bind_ok in H as (i & Hi & H). destruct i as [|incoming]; [done|]. destruct v as [| | | | | |d]; try done.
  apply bind_ok in H as (r & _ & H). destruct (py_or _ _) as [| | | | |l|]; try done. destruct (Z.ltb_spec 128 (Z.of_nat (length l))) as [|Hlen]; [done|].
  apply bind_ok in H as (ps & Hps & H). injection H as <-.
  split; cbn [u_id u_revision u_preferences u_raw].
  - unfold str_or. destruct (String.eqb_spec (slice 128 (strip (field_str d "profileId" "default"))) "") as [_|Hne]; [done|]. split; [apply slice_twice|done].
  - lia.
  - apply Forall_forall. intros p Hp. rewrite map_res_ok in Hps. apply list_elem_of_lookup in Hp as [n Hn].
    destruct (Forall2_lookup_r _ _ _ _ _ Hps Hn) as (raw & _ & Hraw). by eapply normalize_preference_normal.
  - by rewrite (map_res_length _ _ _ Hps).
  - unfold inspect_user_profile in Hi. destruct (negb _); [done|]. apply catch_ok in Hi as [Hi|(e & _ & _ & Hi)]; [|done].
    apply bind_ok in Hi as (inc & Hinc & Hi). apply bind_ok in Hi as (min & Hmin & Hi). destruct (Z.ltb_spec SCHEMA_VERSION min) as [|Hle]; [done|].
    exists inc. unfold dget_or in Hmin |- *. destruct (dget d "minimumReaderSchemaVersion"); [exists min; by split_and!|]. exists 1. by split_and!.
Qed.

Lemma profile_read_again u : normal_profile u -> tidy u = true ->
  exists u', normalize_user_profile (VDict (profile_dict u)) = Ok u' /\ profile_dict u' = profile_dict u /\ u'.(u_revision) = u.(u_revision).
Proof.
  intros [[Hid Hne] Hr Hps Hlen (incoming & minimum & Hi & Hm & Hle)] [Ht%String.eqb_eq Hts]%andb_prop.
  destruct (normalize_preferences_again _ Hps Hts) as (ps & Hps' & Hds).
  assert (inspect_user_profile (VDict (profile_dict u)) = Ok (Readable incoming)) as Hins.
  { unfold inspect_user_profile, dget_or. rewrite !profile_dict_get. cbn [dget String.eqb Ascii.eqb Bool.eqb py_str]. rewrite str_eqb_refl. cbn [negb].
    change (VInt SCHEMA_VERSION) with (VInt 1).
    rewrite Hi. cbn [mbind res_bind]. rewrite Hm. cbn [mbind res_bind catch]. by rewrite (proj2 (Z.ltb_ge _ _) Hle). }
  unfold normalize_user_profile. rewrite Hins. cbn [mbind res_bind]. unfold field_str, dget_none, dget_or. rewrite !profile_dict_get.
  cbn [dget String.eqb Ascii.eqb Bool.eqb py_str py_int mbind res_bind].
  assert (py_or (VList (map (fun p => VDict (preference_dict p)) (u_preferences u))) (VList []) = VList (map (fun p => VDict (preference_dict p)) (u_preferences u))) as ->
    by (by destruct (u_preferences u)).
  rewrite length_map, (proj2 (Z.ltb_ge _ _) Hlen), Hps', Ht, Hid. cbn [mbind res_bind]. unfold str_or. rewrite (str_eqb_ne _ _ Hne), (Z.max_r 0 _ Hr).
  eexists. split; [reflexivity|]. split; [|done]. unfold profile_dict at 1. cbn [u_raw u_id u_revision u_preferences].
  rewrite dmerge_same by (repeat apply List.Forall_cons; try apply List.Forall_nil; cbn [fst snd]; rewrite profile_dict_get; reflexivity).
  rewrite (set_default_same (profile_dict u) "schemaVersion") by (rewrite profile_dict_get; by eexists).
  rewrite set_default_same by (rewrite profile_dict_get; by eexists). apply dset_same. rewrite profile_dict_get. cbn [String.eqb Ascii.eqb Bool.eqb].
  f_equal. f_equal. rewrite <- !(List.map_map preference_dict VDict). by rewrite Hds.
Qed.

(** A saved profile is loaded back, and revisions only advance. When a profile
    is kept, its revision is above that of the profile loaded before; the file then
    loads as the very document that was kept, unless cutting one of its names at
    128 characters left a blank at the end; and when it is refused, or the file
    cannot be replaced, the file stays what it was. *)
Theorem saved_profile_reloads written profile file :
  let '(file', out) := save written profile file in
  match out with
  | Ok kept =>
      (exists before, load file = Ok before /\ before.(u_revision) < kept.(u_revision)) /\
      (tidy kept = true -> exists back, load file' = Ok back /\ profile_dict back = profile_dict kept /\ back.(u_revision) = kept.(u_revision))
  | Raise _ => file' = file
  end.
Proof.
  unfold save. destruct (normalize_user_profile profile) as [kept|e] eqn:En; [|done]. destruct (load file) as [before|e] eqn:El; [|done].
  destruct (Z.leb_spec (u_revision kept) (u_revision before)) as [|Hlt]; [done|]. destruct written; [|done]. split; [by exists before|].
  intros Ht. destruct (profile_read_again kept (normalize_user_profile_normal _ _ En) Ht) as (back & Hb & Hd & Hr). exists back.
  unfold load. cbn [mbind res_bind]. rewrite Hb. by split_and!.
Qed.

Definition sample_profile (revision : Z) : pyval :=
  VDict [("profileId", VStr " ana "); ("revision", VInt revision); ("theme", VStr "kept");
         ("preferences", VList [VDict [("namespace", VStr "org.upp.display"); ("key", VStr "contrast"); ("layer", VStr "user"); ("type", VStr "scalar");
                                       ("revision", VInt 2); ("value", VFloat (float_of_Z 1))]])].

(** A profile whose name ends at a blank once it is cut loads as another one. *)
Definition spaced_name : string := of_chars (repeat "a"%char 127 ++ " "%char :: repeat "b"%char 10).

Example cut_names_do_not_reload :
  let profile := VDict [("profileId", VStr spaced_name); ("revision", VInt 1)] in
  match save true profile None with
  | (Some (Ok v), Ok kept) => tidy kept = false /\ match normalize_user_profile v with Ok back => back.(u_id) <> kept.(u_id) | Raise _ => False end
  | _ => False
  end.
Proof. vm_compute. by split. Qed.

(** A file that cannot be read counts as revision 0: the next save replaces the
    profile it holds, of whatever revision. *)
Example unreadable_profile_is_replaced :
  match save true (sample_profile 1) (Some (Raise (OSError "busy"))) with (Some (Ok _), Ok kept) => kept.(u_revision) = 1 | _ => False end.
Proof. vm_compute. reflexivity. Qed.

(** ** What a selection keeps *)

Section selection.
Context (rank : preference -> Z * Z).

Lemma pair_gt_trans x y z : pair_gt x y = true -> pair_gt y z = true -> pair_gt x z = true.
Proof. unfold pair_gt. lia. Qed.

Lemma same_identity_eq p q : same_identity p q = true <-> identity p = identity q.
Proof.
  unfold same_identity, identity. rewrite andb_true_iff, !String.eqb_eq. split; [by intros [-> ->]|by intros [= -> ->]].
Qed.

(** No item is ranked above the selected one of its identity. *)
Definition tops (items : list preference) (selected : list preference) : Prop :=
  NoDup (map identity selected) /\ (forall p, p ∈ selected -> p ∈ items) /\
  forall q, q ∈ items -> exists p, (p ∈ selected) /\ identity p = identity q /\ pair_gt (rank q) (rank p) = false.

Lemma select_one_spec selected item :
  map identity (select_one rank selected item) = (if existsb (fun p => same_identity p item) selected then map identity selected else map identity selected ++ [identity item])
  /\ (forall p, p ∈ select_one rank selected item -> p ∈ selected \/ p = item)
  /\ (exists p, (p ∈ select_one rank selected item) /\ identity p = identity item /\ pair_gt (rank item) (rank p) = false)
  /\ forall q, q ∈ selected -> exists p, (p ∈ select_one rank selected item) /\ identity p = identity q /\ (p = q \/ pair_gt (rank p) (rank q) = true).
Proof.
  induction selected as [|current rest (IH1 & IH2 & IH3 & IH4)]; cbn [select_one existsb map].
  - split; [done|]. split; [by intros p ->%list_elem_of_singleton; right|]. split; [|by intros q Hq%elem_of_nil].
    exists item. split; [left|]. split; [done|]. unfold pair_gt. lia.
  - destruct (same_identity current item) eqn:E; cbn [orb map].
    + apply same_identity_eq in E. destruct (pair_gt (rank item) (rank current)) eqn:Eg; rewrite ?E; (split; [by rewrite ?E|]); (split; [|split]).
      * intros p [->|Hp]%elem_of_cons; [by right|left; by right].
      * exists item. split; [left|]. split; [done|]. unfold pair_gt. lia.
      * intros q [->|Hq]%elem_of_cons; [exists item|exists q]; (split; [by (left || right)|]); auto.
      * intros p Hp. by left.
      * exists current. split; [left|]. by split.
      * intros q Hq. exists q. auto.
    + split; [destruct (existsb _ rest); by rewrite IH1|]. split; [|split].
      * intros p [->|Hp]%elem_of_cons; [left; left|]. destruct (IH2 p Hp) as [?| ->]; [left; by right|by right].
      * destruct IH3 as (p & Hp & H). exists p. split; [by right|done].
      * intros q [->|Hq]%elem_of_cons; [exists current; split; [left|auto]|]. destruct (IH4 q Hq) as (p & Hp & H). exists p. split; [by right|done].
Qed.

Lemma select_all_tops items : tops items (select_all rank items).
Proof.
  unfold select_all. induction items as [|item items IH] using rev_ind; [split; [constructor|]; split; [by intros p ?%elem_of_nil|by intros q ?%elem_of_nil]|].
  rewrite fold_left_app. cbn [fold_left]. destruct IH as (Hn & Hin & Htop). set (selected := fold_left (select_one rank) items []) in *.
  destruct (select_one_spec selected item) as (H1 & H2 & H3 & H4). split; [|split].
  - rewrite H1. destruct (existsb _ selected) eqn:E; [done|]. apply NoDup_app. split; [done|]. split; [|apply NoDup_singleton].
    intros i (p & -> & Hp)%list_elem_of_fmap Hi. apply list_elem_of_singleton in Hi. assert (existsb (fun p => same_identity p item) selected = true) as Hc; [|congruence].
    apply existsb_exists. exists p. split; [by apply list_elem_of_In|by apply same_identity_eq].
  - intros p Hp. apply elem_of_app. destruct (H2 p Hp) as [Hs| ->]; [left; by apply Hin|right; by left].
  - intros q [Hq| ->%list_elem_of_singleton]%elem_of_app; [|done]. destruct (Htop q Hq) as (p & Hp & Hid & Hgt).
    destruct (H4 p Hp) as (p' & Hp' & Hid' & [->|Hgt']); [by exists p|]. exists p'. split; [done|]. split; [congruence|].
    destruct (pair_gt (rank q) (rank p')) eqn:E; [|done]. by rewrite (pair_gt_trans _ _ _ E Hgt') in Hgt.
Qed.
End selection.

Lemma saved_profile_reloads_witness :
  match save true (sample_profile 3) (Some (Ok (sample_profile 2))) with
  | (file', Ok kept) => exists back, load file' = Ok back /\ profile_dict back = profile_dict kept /\ back.(u_revision) = 3
  | (_, Raise _) => False
  end.
Proof.
  pose proof (saved_profile_reloads true (sample_profile 3) (Some (Ok (sample_profile 2)))) as H.
  destruct (save true (sample_profile 3) (Some (Ok (sample_profile 2)))) as [file' [kept|e]] eqn:E; [|vm_compute in E; discriminate E].
  destruct H as [_ H]. destruct H as (back & Hl & Hd & Hr); [vm_compute in E; injection E as _ <-; vm_compute; reflexivity|].
  exists back. split; [exact Hl|]. split; [exact Hd|]. rewrite Hr. vm_compute in E. injection E as _ <-. vm_compute. reflexivity.
Defined.
