(* ===== verification/Interoperability.v ===== *)
(** * Interoperability sessions (backend/interoperability_sessions.py)

    The registry of capabilities and adapters, the projection of a user's profile,
    offers signed for one participant, and the sessions that are negotiated on
    them, consented to and activated. The clock and drawn identifiers are
    arguments. *)

From S2P Require Import Prelude PyStr PyFloat PyVal PyFacts StateLogic Sha256 Compatibility UserProfiles.
From Stdlib Require Import SpecFloat.

#[local] Open Scope string_scope.
#[local] Open Scope list_scope.
#[local] Open Scope Z_scope.
#[local] Open Scope st_scope.

Definition digest (value : pyval) : string := sha256_hex (_canonical value).
Definition key_fingerprint (secret : string) : string := "sha256:" +:+ sha256_hex secret.

(** ** The registry *)

Record registry := { r_capabilities : list (string * pydict); r_adapters : list pydict; r_revision : Z }.

Definition new_registry : registry := {| r_capabilities := []; r_adapters := []; r_revision := 0 |}.

Definition lower_hex (s : string) : bool := forallb (fun c => in_range 48 57 c || in_range 97 102 c) (chars s).

Definition register (capability : pydict) : st registry pydict :=
  let name := strip (py_str (dget_or capability "id" (VStr ""))) in
  let version := strip (py_str (dget_or capability "semanticVersion" (VStr ""))) in
  let schema_digest := lower (py_str (dget_or capability "schemaSha256" (VStr ""))) in
  if String.eqb name "" || negb (contains "." name) || String.eqb version "" || negb (str_len schema_digest =? 64) || negb (lower_hex schema_digest)
  then st_raise (ValueError "capability requires namespaced id, semanticVersion and 64-character schemaSha256")
  else
    let item := dmerge capability
      [("id", VStr (slice 160 name)); ("semanticVersion", VStr (slice 64 version)); ("schemaSha256", VStr schema_digest);
       ("provenance", py_or (dget_none capability "provenance") (VDict [])); ("unknownFieldsPreserved", VBool true)] in
    st_modify (fun r => {| r_capabilities := aput r.(r_capabilities) name item; r_adapters := r.(r_adapters); r_revision := r.(r_revision) + 1 |}) ;;;
    st_ret item.

Definition register_adapter (adapter : pydict) : st registry pydict :=
  let source := strip (py_str (dget_or adapter "from" (VStr ""))) in
  let target := strip (py_str (dget_or adapter "to" (VStr ""))) in
  let* quality := st_lift (py_int (dget_or adapter "quality" (VInt 0))) in
  let provenance := dget_none adapter "provenance" in
  if String.eqb source "" || String.eqb target "" || (quality <? 1) || (100 <? quality) || negb (is_dict provenance) || negb (truthy provenance)
  then st_raise (ValueError "adapter requires from, to, quality 1..100 and provenance")
  else
    let item := dmerge adapter [("from", VStr source); ("to", VStr target); ("quality", VInt quality); ("explicit", VBool true); ("provenance", provenance)] in
    st_modify (fun r => {| r_capabilities := r.(r_capabilities); r_adapters := r.(r_adapters) ++ [item]; r_revision := r.(r_revision) + 1 |}) ;;;
    st_ret item.

Definition snapshot (r : registry) : pydict :=
  [("revision", VInt r.(r_revision)); ("capabilities", VList (map (fun x => VDict (snd x)) (sort_by fst r.(r_capabilities))));
   ("adapters", VList (map VDict r.(r_adapters)))].

(** ** The projection of a profile *)

(** In the accessibility namespaces the user's own layer is above all others. *)
Definition accessible_rank (p : preference) : Z * Z :=
  let layer :=
    if starts_with "org.upp.accessibility" p.(p_namespace) then
      if String.eqb p.(p_layer) "user" then 6 else if String.eqb p.(p_layer) "venue" then 2 else layer_rank p.(p_layer)
    else layer_rank p.(p_layer) in
  (layer, p.(p_revision)).

(** The first choice of the user's own layer for that identity. *)
Definition user_choice (items : list preference) (p : preference) : option preference :=
  List.find (fun q => same_identity q p && String.eqb q.(p_layer) "user") items.

Record consent_item := { c_choice : preference; c_user_value : pyval }.

Definition consent_of (items : list preference) (chosen : preference) : list consent_item :=
  if existsb (String.eqb chosen.(p_layer)) ["role"; "venue"; "session"] then
    match user_choice items chosen with
    | Some user => if py_eq chosen.(p_value) user.(p_value) then [] else [{| c_choice := chosen; c_user_value := user.(p_value) |}]
    | None => []
    end
  else [].

Definition consent_dict (c : consent_item) : pydict :=
  let p := c.(c_choice) in
  [("namespace", VStr p.(p_namespace)); ("key", VStr p.(p_key)); ("userValue", c.(c_user_value)); ("proposedValue", p.(p_value)); ("sourceLayer", VStr p.(p_layer))].

Record projection := { j_profile : user_profile; j_values : list preference; j_consent : list consent_item }.

Definition project (u : user_profile) : projection :=
  let selected := select_all accessible_rank u.(u_preferences) in
  {| j_profile := u; j_values := sort_lt identity_lt selected; j_consent := flat_map (consent_of u.(u_preferences)) selected |}.

Definition values_list (j : projection) : pyval := VList (map (fun p => VDict (preference_dict p)) j.(j_values)).

Definition projection_dict (j : projection) : pydict :=
  [("profileId", VStr j.(j_profile).(u_id)); ("profileRevision", VInt j.(j_profile).(u_revision));
   ("projectionDigestSha256", VStr (digest (values_list j))); ("values", values_list j);
   ("consentRequired", VList (map (fun c => VDict (consent_dict c)) j.(j_consent))); ("safeToApply", VBool (null j.(j_consent)));
   ("physicalOutputsArmed", VBool false)].

Definition project_profile (profile : pyval) : res pydict := u ← normalize_user_profile profile; Ok (projection_dict (project u)).

(** ** Offers *)

Definition offer_payload (local_ : pyval) (target : string) (epoch sequence ttl now : Z) (nonce fingerprint : string) : pydict :=
  [("documentType", VStr "org.upp.interoperability-offer"); ("schemaVersion", VInt 1); ("participant", local_);
   ("targetParticipantId", VStr target); ("authorityEpoch", VInt epoch); ("sequence", VInt sequence); ("nonce", VStr nonce);
   ("issuedAtUnixMs", VInt now); ("expiresAtUnixMs", VInt (now + ttl));
   ("authentication", VDict [("scheme", VStr "hmac-sha256"); ("keyFingerprint", VStr fingerprint)])].

(** [nonce]: the caller's, or the one drawn when that is empty. *)
Definition make_authenticated_offer (local_ : pyval) (target : string) (authority_epoch sequence ttl_ms : Z) (secret : string) (now : Z) (nonce : string) : res pydict :=
  if String.eqb (strip target) "" || String.eqb secret "" then Raise (ValueError "target participant and authentication secret are required")
  else
    let ttl := Z.max 1 (Z.min ttl_ms 300000) in
    let payload := offer_payload local_ target (Z.max 1 authority_epoch) (Z.max 1 sequence) ttl now nonce (key_fingerprint secret) in
    let transcript := digest (VDict payload) in
    Ok (dmerge payload
          [("transcriptSha256", VStr transcript);
           ("authentication", VDict [("scheme", VStr "hmac-sha256"); ("keyFingerprint", VStr (key_fingerprint secret)); ("signature", VStr (hmac_hex secret transcript))])]).

(** [dict(v)] where keys are strings. *)
Definition dict_of (v : pyval) : res pydict :=
  match v with
  | VDict d => Ok d
  | _ =>
      l ← py_iter v;
      fold_res (fun d x => pair ← py_iter x;
                           match pair with
                           | [VStr k; v] => Ok (dset d k v)
                           | [_; _] => Raise TypeError
                           | _ => Raise (ValueError "dictionary update sequence element")
                           end) l []
  end.

Definition dpop (d : pydict) (k : string) : res (pyval * pydict) := v ← dindex d k; Ok (v, dremove d k).

(** [int(offer[key])], [str(offer[key])]. *)
Definition at_int (d : pydict) (k : string) : res Z := v ← dindex d k; py_int v.

(** The checks of an offer, in order: the reason of the first that fails. *)
Fixpoint first_failure (checks : list (res bool * string)) : res (bool * string) :=
  match checks with
  | [] => Ok (true, "ok")
  | (failed, reason) :: rest => b ← failed; if b : bool then Ok (false, reason) else first_failure rest
  end.

Definition max_of (l : list Z) : Z := match l with [] => 0 | x :: l => fold_left Z.max l x end.

Definition verify_authenticated_offer (offer : pydict) (expected_target secret : string) (now minimum_protocol_version : Z) : res (bool * string) :=
  catch key_type_value
    (authentication ← (v ← dindex offer "authentication"; dict_of v);
     popped ← dpop authentication "signature";
     let '(signature, auth) := popped in
     let payload := dset (dremove offer "transcriptSha256") "authentication" (VDict auth) in
     let transcript := digest (VDict payload) in
     let expected := hmac_hex secret transcript in
     participant ← dindex offer "participant";
     versions ← (v ← vget participant "apiVersions" (VList []); l ← py_iter v; map_res py_int l);
     first_failure
       [((same ← (t ← dindex offer "transcriptSha256"; compare_digest transcript (py_str t));
          if same : bool then signed ← compare_digest expected (py_str signature); Ok (negb signed) else Ok true), "transcript authentication failed");
        (Ok (negb (py_eq (dget_none auth "keyFingerprint") (VStr (key_fingerprint secret)))), "identity fingerprint mismatch");
        ((t ← dindex offer "targetParticipantId"; Ok (negb (String.eqb (py_str t) expected_target))), "offer target mismatch");
        ((issued ← at_int offer "issuedAtUnixMs"; if now <? issued then Ok true else expires ← at_int offer "expiresAtUnixMs"; Ok (expires <? now)),
         "offer expired or not yet valid");
        ((if negb (truthy (dget_none offer "nonce")) then Ok true
          else epoch ← at_int offer "authorityEpoch"; if epoch <? 1 then Ok true else sequence ← at_int offer "sequence"; Ok (sequence <? 1)), "invalid replay fence");
        (Ok (null versions || (max_of versions <? minimum_protocol_version)), "protocol downgrade detected")])
    (fun _ => Ok (false, "malformed authenticated offer")).

(** ** Sessions *)

Inductive session_state := Offered | Authenticated | Negotiated | Consented | Active | Expired.

#[export] Instance session_state_eq_dec : EqDecision session_state.
Proof. solve_decision. Defined.

Definition state_name (s : session_state) : string :=
  match s with
  | Offered => "offered" | Authenticated => "authenticated" | Negotiated => "negotiated" | Consented => "consented" | Active => "active" | Expired => "expired"
  end.

Record session := {
  s_state : session_state;
  s_reason : string;
  s_transcript : pyval;
  s_plan : pydict;
  s_profile_revision : Z;
  s_registry_revision : Z;
  s_epoch : Z;
  s_expires : Z;
  s_consent : option string;
}.

Definition session_dict (id : string) (s : session) : pydict :=
  [("sessionId", VStr id); ("state", VStr (state_name s.(s_state))); ("authenticated", VBool true); ("reason", VStr s.(s_reason));
   ("transcriptSha256", s.(s_transcript)); ("plan", VDict s.(s_plan)); ("profileRevision", VInt s.(s_profile_revision));
   ("registryRevision", VInt s.(s_registry_revision)); ("authorityEpoch", VInt s.(s_epoch)); ("expiresAtUnixMs", VInt s.(s_expires));
   ("consentDigestSha256", opt_str s.(s_consent)); ("physicalOutputsArmed", VBool false)].

Definition moved (s : session) (state : session_state) (reason : string) (consent : option string) : session :=
  {| s_state := state; s_reason := reason; s_transcript := s.(s_transcript); s_plan := s.(s_plan); s_profile_revision := s.(s_profile_revision);
     s_registry_revision := s.(s_registry_revision); s_epoch := s.(s_epoch); s_expires := s.(s_expires); s_consent := consent |}.

Record manager := {
  m_local : string;
  m_sessions : list (string * session);
  m_last_seen : list ((string * Z) * Z);
}.

Definition new_manager (local_participant_id : string) : manager := {| m_local := local_participant_id; m_sessions := []; m_last_seen := [] |}.

Definition same_fence (x y : string * Z) : bool := String.eqb (fst x) (fst y) && (snd x =? snd y).

Definition last_seen (m : manager) (fence : string * Z) : Z :=
  match List.find (fun e => same_fence fence (fst e)) m.(m_last_seen) with Some e => snd e | None => 0 end.

Definition see (fence : string * Z) (sequence : Z) (m : manager) : manager :=
  {| m_local := m.(m_local); m_sessions := m.(m_sessions);
     m_last_seen := (fence, sequence) :: List.filter (fun e => negb (same_fence fence (fst e))) m.(m_last_seen) |}.

Definition put_session (id : string) (s : session) (m : manager) : manager :=
  {| m_local := m.(m_local); m_sessions := aput m.(m_sessions) id s; m_last_seen := m.(m_last_seen) |}.

(** The session an offer opens, once it is accepted. *)
Definition opened (offer : pydict) (r : registry) (plan : pydict) (profile_revision epoch expires : Z) (transcript : pyval) : session :=
  let compatible := truthy (dget_none plan "compatible") in
  {| s_state := if compatible then Negotiated else Expired; s_reason := if compatible then "ok" else "incompatible";
     s_transcript := transcript; s_plan := plan; s_profile_revision := profile_revision; s_registry_revision := r.(r_revision);
     s_epoch := epoch; s_expires := expires; s_consent := None |}.

Definition session_id_of (transcript : pyval) (local_id : string) : string :=
  slice 32 (digest (VDict [("transcript", transcript); ("local", VStr local_id)])).

Record request_facts := { q_remote : string; q_epoch : Z; q_sequence : Z; q_participant : pydict }.

Definition offer_facts (offer : pydict) : res request_facts :=
  participant ← dindex offer "participant";
  remote ← vget participant "id" (VStr "remote");
  epoch ← at_int offer "authorityEpoch";
  sequence ← at_int offer "sequence";
  Ok {| q_remote := py_str remote; q_epoch := epoch; q_sequence := sequence; q_participant := as_dict participant |}.

Definition minimum_secure (d : pydict) : res Z := py_int (dget_or d "minimumSecureApiVersion" (VInt 1)).

Definition authenticate_and_negotiate (offer local_ : pydict) (r : registry) (secret : string) (now profile_revision authority_epoch : Z) : st manager (string * session) :=
  let* m := st_get in
  let* verified := st_lift (verify_authenticated_offer offer m.(m_local) secret now 1) in
  if negb (fst verified) then st_raise (ValueError (snd verified))
  else
    let* q := st_lift (offer_facts offer) in
    let fence := (q.(q_remote), q.(q_epoch)) in
    if negb (q.(q_epoch) =? authority_epoch) then st_raise (ValueError "authority epoch changed")
    else if q.(q_sequence) <=? last_seen m fence then st_raise (ValueError "replayed interoperability offer")
    else
      st_modify (see fence q.(q_sequence)) ;;;
      let local_offer := dset local_ "adapters" (VList (map VDict r.(r_adapters))) in
      let* plan := st_lift (compatibility_report local_offer q.(q_participant)) in
      let* minimum := st_lift (a ← minimum_secure local_offer; b ← minimum_secure q.(q_participant); Ok (Z.max a b)) in
      let* downgraded := st_lift (match dget_none plan "selectedApiVersion" with VNone => Ok false | v => z ← py_int v; Ok (z <? minimum) end) in
      if downgraded : bool then st_raise (ValueError "protocol downgrade detected")
      else
        let* transcript := st_lift (dindex offer "transcriptSha256") in
        let* expires := st_lift (at_int offer "expiresAtUnixMs") in
        let id := session_id_of transcript m.(m_local) in
        let s := opened offer r plan profile_revision q.(q_epoch) expires transcript in
        st_modify (put_session id s) ;;;
        st_ret (id, s).

(** The new state of a session that is found. *)
Definition with_session (id : string) (missing : exn) (step : session -> res session) : st manager session :=
  let* m := st_get in
  match alookup m.(m_sessions) id with
  | None => st_raise missing
  | Some s => let* s' := st_lift (step s) in st_modify (put_session id s') ;;; st_ret s'
  end.

Definition consent (id : string) (projection : pydict) (accepted : bool) : st manager session :=
  let refused := ValueError "session is not awaiting consent" in
  with_session id refused (fun s =>
    if negb (bool_decide (s.(s_state) = Negotiated)) then Raise refused
    else if negb accepted then Ok (moved s Expired "user declined profile projection" s.(s_consent))
    else d ← dindex projection "projectionDigestSha256"; Ok (moved s Consented "consented" (Some (py_str d)))).

(** What was negotiated no longer holds. *)
Definition inputs_changed (s : session) (now profile_revision registry_revision authority_epoch : Z) : bool :=
  (s.(s_expires) <? now) || negb (profile_revision =? s.(s_profile_revision)) || negb (registry_revision =? s.(s_registry_revision))
  || negb (authority_epoch =? s.(s_epoch)).

Definition activate (id : string) (now profile_revision registry_revision authority_epoch : Z) : st manager session :=
  let refused := ValueError "session is not consented" in
  with_session id refused (fun s =>
    if negb (bool_decide (s.(s_state) = Consented)) then Raise refused
    else if inputs_changed s now profile_revision registry_revision authority_epoch
    then Ok (moved s Expired "negotiated inputs changed" s.(s_consent))
    else Ok (moved s Active "active" s.(s_consent))).

Definition status (id : string) (now : option Z) : st manager session :=
  with_session id (KeyError id) (fun s =>
    Ok (match now with
        | Some n => if s.(s_expires) <? n then moved s Expired "session expired" s.(s_consent) else s
        | None => s
        end)).

(** ** Every request *)

Inductive request :=
  | Negotiate (offer local_ : pydict) (r : registry) (secret : string) (now profile_revision authority_epoch : Z)
  | Consent (id : string) (projection : pydict) (accepted : bool)
  | Activate (id : string) (now profile_revision registry_revision authority_epoch : Z)
  | Status (id : string) (now : option Z).

Definition run (r : request) : st manager unit :=
  match r with
  | Negotiate offer local_ reg secret now p e => let* _ := authenticate_and_negotiate offer local_ reg secret now p e in st_ret tt
  | Consent id projection accepted => let* _ := consent id projection accepted in st_ret tt
  | Activate id now p r e => let* _ := activate id now p r e in st_ret tt
  | Status id now => let* _ := status id now in st_ret tt
  end.

Definition run_all (rs : list request) (m : manager) : manager := fold_left (fun m r => fst (run r m)) rs m.

(** The fence and sequence of an offer that this request gets accepted. *)
Definition accepted (m : manager) (r : request) : option ((string * Z) * Z) :=
  match r with
  | Negotiate offer _ _ secret now _ authority_epoch =>
      match verify_authenticated_offer offer m.(m_local) secret now 1, offer_facts offer with
      | Ok (true, _), Ok q =>
          let fence := (q.(q_remote), q.(q_epoch)) in
          if (q.(q_epoch) =? authority_epoch) && (last_seen m fence <? q.(q_sequence)) then Some (fence, q.(q_sequence)) else None
      | _, _ => None
      end
  | _ => None
  end.

(** ** What an accepted offer says *)

(** The payload that is signed, with the signature beside it. *)
Definition signed_payload (offer : pydict) : option (pyval * pydict) :=
  match dget offer "authentication" with
  | Some v => match dict_of v with
              | Ok d => match dget d "signature" with
                        | Some signature => Some (signature, dset (dremove offer "transcriptSha256") "authentication" (VDict (dremove d "signature")))
                        | None => None
                        end
              | Raise _ => None
              end
  | None => None
  end.

Record authentic (offer : pydict) (target secret : string) (now : Z) (transcript : pyval) (expires : Z) : Prop := {
  a_signed : exists signature payload, signed_payload offer = Some (signature, payload) /\
    py_str signature = hmac_hex secret (digest (VDict payload)) /\ py_str transcript = digest (VDict payload);
  a_transcript : dget offer "transcriptSha256" = Some transcript;
  a_target : exists t, dget offer "targetParticipantId" = Some t /\ py_str t = target;
  a_window : exists issued, at_int offer "issuedAtUnixMs" = Ok issued /\ issued <= now <= expires;
  a_expires : at_int offer "expiresAtUnixMs" = Ok expires;
}.

Lemma first_failure_ok checks reason : first_failure checks = Ok (true, reason) -> Forall (fun c => fst c = Ok false) checks.
Proof.
  induction checks as [|[m r] checks IH]; cbn [first_failure]; [constructor|]. intros H. apply bind_ok in H as ([|] & Hb & H); [done|].
  constructor; [exact Hb|by apply IH].
Qed.

Lemma verified_authentic offer target secret now minimum reason :
  verify_authenticated_offer offer target secret now minimum = Ok (true, reason) -> exists transcript expires, authentic offer target secret now transcript expires.
Proof.
  unfold verify_authenticated_offer. intros H. apply catch_ok in H as [H|(e & _ & _ & H)]; [|done].
  apply bind_ok in H as (d & Hd & H). apply bind_ok in Hd as (v & Hv & Hd). apply bind_ok in H as ([signature auth] & Hpop & H). cbv beta iota zeta in H.
  unfold dpop in Hpop. apply bind_ok in Hpop as (sg & Hsg & Hpop). injection Hpop as -> <-.
  apply bind_ok in H as (participant & _ & H). apply bind_ok in H as (versions & _ & H). apply first_failure_ok in H.
  set (payload := dset (dremove offer "transcriptSha256") "authentication" (VDict (dremove d "signature"))) in *.
  apply Forall_cons in H as [H1 H]. apply Forall_cons in H as [_ H]. apply Forall_cons in H as [H3 H]. apply Forall_cons in H as [H4 _]. cbn [fst] in *.
  apply bind_ok in H1 as (same & Hs & H1). apply bind_ok in Hs as (t & Ht & Hs). destruct same; [|done]. apply compare_digest_true in Hs.
  apply bind_ok in H1 as (signed & Hc & H1). injection H1 as H1. apply negb_false_iff in H1. subst signed. apply compare_digest_true in Hc.
  apply bind_ok in H3 as (tg & Htg & H3). injection H3 as H3. apply negb_false_iff, String.eqb_eq in H3.
  apply bind_ok in H4 as (issued & Hi & H4). destruct (Z.ltb_spec now issued) as [|Hni]; [done|]. apply bind_ok in H4 as (expires & Hx & H4).
  injection H4 as H4. apply Z.ltb_ge in H4. apply dindex_some in Hv, Hsg, Ht, Htg.
  eexists _, expires. split.
  - eexists _, payload. split; [unfold signed_payload; by rewrite Hv, Hd, Hsg|]. split; [symmetry; exact Hc|symmetry; exact Hs].
  - exact Ht.
  - by exists tg.
  - exists issued. split; [done|lia].
  - done.
Qed.

(** ** The history of a session *)

Definition agreed_plan (s : session) : Prop := truthy (dget_none s.(s_plan) "compatible") = true.

(** The request that opened it: its offer was authentic for this participant then. *)
Definition opens (local_id : string) (r : request) (id : string) (s : session) : Prop :=
  match r with
  | Negotiate offer _ reg secret now profile_revision authority_epoch =>
      authentic offer local_id secret now s.(s_transcript) s.(s_expires) /\ id = session_id_of s.(s_transcript) local_id /\
      s.(s_profile_revision) = profile_revision /\ s.(s_registry_revision) = reg.(r_revision) /\ s.(s_epoch) = authority_epoch
  | _ => False
  end.

Definition was_opened (local_id : string) (rs : list request) (id : string) (s : session) : Prop :=
  exists rs1 r rs2, rs = rs1 ++ r :: rs2 /\ opens local_id r id s.

(** Later, its user accepted a projection, the one whose digest it keeps. *)
Definition was_agreed (local_id : string) (rs : list request) (id : string) (s : session) : Prop :=
  agreed_plan s /\ exists rs1 projection d rs2, rs = rs1 ++ Consent id projection true :: rs2 /\ was_opened local_id rs1 id s /\
    dget projection "projectionDigestSha256" = Some d /\ s.(s_consent) = Some (py_str d).

(** Later still, it was activated, when nothing it was negotiated on had changed. *)
Definition was_activated (local_id : string) (rs : list request) (id : string) (s : session) : Prop :=
  exists rs1 now profile_revision registry_revision authority_epoch rs2,
    rs = rs1 ++ Activate id now profile_revision registry_revision authority_epoch :: rs2 /\ was_agreed local_id rs1 id s /\
    inputs_changed s now profile_revision registry_revision authority_epoch = false.

Definition history (local_id : string) (rs : list request) (id : string) (s : session) : Prop :=
  was_opened local_id rs id s /\
  match s.(s_state) with
  | Negotiated => agreed_plan s
  | Consented => was_agreed local_id rs id s
  | Active => was_activated local_id rs id s
  | Expired => True
  | Offered | Authenticated => False
  end.

(** What the history speaks of, beside the state. *)
Definition same_terms (s s' : session) : Prop :=
  s'.(s_transcript) = s.(s_transcript) /\ s'.(s_plan) = s.(s_plan) /\ s'.(s_profile_revision) = s.(s_profile_revision) /\
  s'.(s_registry_revision) = s.(s_registry_revision) /\ s'.(s_epoch) = s.(s_epoch) /\ s'.(s_expires) = s.(s_expires).

Lemma opened_later local_id rs r id s : was_opened local_id rs id s -> was_opened local_id (rs ++ [r]) id s.
Proof. intros (rs1 & r' & rs2 & -> & H). exists rs1, r', (rs2 ++ [r]). split; [by rewrite <- app_assoc|done]. Qed.

Lemma agreed_later local_id rs r id s : was_agreed local_id rs id s -> was_agreed local_id (rs ++ [r]) id s.
Proof. intros (Hp & rs1 & p & d & rs2 & -> & H). split; [done|]. exists rs1, p, d, (rs2 ++ [r]). split; [by rewrite <- app_assoc|done]. Qed.

Lemma history_later local_id rs r id s : history local_id rs id s -> history local_id (rs ++ [r]) id s.
Proof.
  intros [Ho Hs]. split; [by apply opened_later|]. destruct (s_state s); try done.
  - by apply agreed_later.
  - destruct Hs as (rs1 & n & p & g & e & rs2 & -> & H). exists rs1, n, p, g, e, (rs2 ++ [r]). split; [by rewrite <- app_assoc|done].
Qed.

Lemma opened_terms local_id rs id s s' : same_terms s s' -> was_opened local_id rs id s -> was_opened local_id rs id s'.
Proof.
  intros (H1 & H2 & H3 & H4 & H5 & H6) (rs1 & r & rs2 & -> & H). exists rs1, r, rs2. split; [done|]. destruct r; try done. unfold opens in *.
  by rewrite H1, H3, H4, H5, H6.
Qed.

(** Every session of a manager has its history. *)
Definition explained (local_id : string) (rs : list request) (m : manager) : Prop :=
  m.(m_local) = local_id /\ forall id s, alookup m.(m_sessions) id = Some s -> history local_id rs id s.

Lemma put_explained local_id rs id s m : explained local_id rs m -> history local_id rs id s -> explained local_id rs (put_session id s m).
Proof.
  intros [Hl Hm] Hs. split; [done|]. intros id' s' H. cbn [put_session m_sessions] in H. rewrite alookup_aput in H.
  destruct (String.eqb_spec id' id) as [->|]; [by injection H as <-|by apply Hm].
Qed.

Lemma explained_later local_id rs r m : explained local_id rs m -> explained local_id (rs ++ [r]) m.
Proof. intros [Hl Hm]. split; [done|]. intros id s H. by apply history_later, Hm. Qed.

Lemma with_session_explained local_id rs r id missing step m :
  explained local_id rs m -> (forall s s', history local_id rs id s -> step s = Ok s' -> history local_id (rs ++ [r]) id s') ->
  explained local_id (rs ++ [r]) (fst (with_session id missing step m)).
Proof.
  intros Hm Hstep. unfold with_session. rewrite st_get_bind. pose proof (explained_later _ _ r _ Hm) as Hl.
  destruct (alookup (m_sessions m) id) as [s|] eqn:E; [|exact Hl].
  destruct (step s) as [s'|e] eqn:Es; [|exact Hl]. rewrite st_lift_Ok. cbn. apply put_explained; [done|]. eapply Hstep; [by apply Hm|done].
Qed.

Lemma expired_history local_id rs r id s reason c : history local_id rs id s -> history local_id (rs ++ [r]) id (moved s Expired reason c).
Proof. intros [Ho _]. split; [|done]. apply opened_later. by eapply opened_terms. Qed.

Lemma consent_explained local_id rs id projection ok m : explained local_id rs m ->
  explained local_id (rs ++ [Consent id projection ok]) (fst (consent id projection ok m)).
Proof.
  intros Hm. apply with_session_explained; [done|]. intros s s' Hs Hstep.
  destruct (decide (s_state s = Negotiated)) as [Hst|Hst]; [rewrite bool_decide_eq_true_2 in Hstep by done|by rewrite bool_decide_eq_false_2 in Hstep].
  destruct ok; cbn [negb] in Hstep; [|injection Hstep as <-; by apply expired_history]. apply bind_ok in Hstep as (d & Hd & Hstep). injection Hstep as <-.
  apply dindex_some in Hd. destruct Hs as [Ho Hp]. rewrite Hst in Hp. split; [apply opened_later; by eapply opened_terms|]. cbn [s_state moved].
  split; [exact Hp|]. exists rs, projection, d, []. split; [done|]. split; [by eapply opened_terms|done].
Qed.

Lemma activate_explained local_id rs id now p g e m : explained local_id rs m ->
  explained local_id (rs ++ [Activate id now p g e]) (fst (activate id now p g e m)).
Proof.
  intros Hm. apply with_session_explained; [done|]. intros s s' Hs Hstep.
  destruct (decide (s_state s = Consented)) as [Hst|Hst]; [rewrite bool_decide_eq_true_2 in Hstep by done|by rewrite bool_decide_eq_false_2 in Hstep].
  cbn [negb] in Hstep. destruct (inputs_changed s now p g e) eqn:Ei; [injection Hstep as <-; by apply expired_history|]. injection Hstep as <-.
  destruct Hs as [Ho Ha]. rewrite Hst in Ha. split; [apply opened_later; by eapply opened_terms|]. cbn [s_state moved].
  exists rs, now, p, g, e, []. split; [done|]. split; [|exact Ei]. destruct Ha as (Hp & rs1 & pr & d & rs2 & -> & Hop & Hd & Hc). split; [exact Hp|].
  exists rs1, pr, d, rs2. split; [done|]. split; [by eapply opened_terms|done].
Qed.

Lemma status_explained local_id rs id now m : explained local_id rs m -> explained local_id (rs ++ [Status id now]) (fst (status id now m)).
Proof.
  intros Hm. apply with_session_explained; [done|]. intros s s' Hs [= <-]. destruct now as [n|]; [destruct (s_expires s <? n)|].
  - by apply expired_history.
  - by apply history_later.
  - by apply history_later.
Qed.

Lemma negotiate_explained local_id rs offer local_ reg secret now p e m : explained local_id rs m ->
  let r := Negotiate offer local_ reg secret now p e in
  explained local_id (rs ++ [r]) (fst (authenticate_and_negotiate offer local_ reg secret now p e m)).
Proof.
  intros Hm r. pose proof (explained_later _ _ r _ Hm) as Hl. unfold authenticate_and_negotiate. rewrite st_get_bind.
  destruct (verify_authenticated_offer _ _ _ _ _) as [[[|] reason]|x] eqn:Ev; [|exact Hl..]. rewrite st_lift_Ok. cbn [fst negb].
  destruct (offer_facts offer) as [q|x] eqn:Eq; [|exact Hl]. rewrite st_lift_Ok. cbv zeta. destruct (Z.eqb_spec (q_epoch q) e) as [He|]; [|exact Hl]. cbn [negb].
  destruct (_ <=? _); [exact Hl|]. rewrite st_modify_bind.
  assert (explained local_id (rs ++ [r]) (see (q_remote q, q_epoch q) (q_sequence q) m)) as Hs by exact Hl.
  set (m' := see _ _ m) in *. destruct (compatibility_report _ _) as [plan|x]; [|exact Hs]. rewrite st_lift_Ok.
  destruct (a ← _; _) as [minimum|x]; [|exact Hs]. rewrite st_lift_Ok. destruct (match dget_none plan _ with VNone => _ | _ => _ end) as [[|]|x]; [exact Hs| |exact Hs].
  rewrite st_lift_Ok. destruct (dindex offer "transcriptSha256") as [t|x] eqn:Et; [|exact Hs]. rewrite st_lift_Ok.
  destruct (at_int offer "expiresAtUnixMs") as [expires|x] eqn:Ex; [|exact Hs]. rewrite st_lift_Ok, st_modify_bind. cbn [fst st_ret].
  apply put_explained; [exact Hs|]. destruct Hm as [Hid _]. apply verified_authentic in Ev as (t' & x' & Hauth).
  pose proof (a_transcript _ _ _ _ _ _ Hauth) as Ht'. apply dindex_some in Et. rewrite Ht' in Et. injection Et as ->.
  pose proof (a_expires _ _ _ _ _ _ Hauth) as Hx'. rewrite Hx' in Ex. injection Ex as ->. rewrite Hid in *. split.
  - exists rs, r, []. split; [done|]. by split_and!.
  - unfold opened. cbn [s_state]. destruct (truthy _) eqn:Ec; [exact Ec|done].
Qed.

Lemma run_all_last rs r m : run_all (rs ++ [r]) m = fst (run r (run_all rs m)).
Proof. unfold run_all. by rewrite fold_left_app. Qed.

Lemma run_all_app rs rs' m : run_all (rs ++ rs') m = run_all rs' (run_all rs m).
Proof. apply fold_left_app. Qed.

Lemma fst_drop {S A} (m : st S A) s : fst ((let* _ := m in st_ret tt) s) = fst (m s).
Proof. unfold st_bind. by destruct (m s) as [s' [a|e]]. Qed.

Lemma all_explained local_id rs : explained local_id rs (run_all rs (new_manager local_id)).
Proof.
  induction rs as [|r rs IH] using rev_ind; [done|]. rewrite run_all_last.
  destruct r; cbn [run]; rewrite fst_drop; [by apply negotiate_explained|by apply consent_explained|by apply activate_explained|by apply status_explained].
Qed.

(** *** Sequences *)

Lemma same_fence_eq x y : same_fence x y = true <-> x = y.
Proof. destruct x, y. unfold same_fence. cbn. rewrite andb_true_iff, String.eqb_eq, Z.eqb_eq. split; [by intros [-> ->]|by intros [= -> ->]]. Qed.

Lemma last_seen_see fence n m fence' : last_seen (see fence n m) fence' = if same_fence fence' fence then n else last_seen m fence'.
Proof.
  unfold last_seen, see. cbn [m_last_seen List.find fst]. destruct (same_fence fence' fence) eqn:E; [done|].
  assert (forall l, List.find (fun e => same_fence fence' (fst e)) (List.filter (fun e : (string * Z) * Z => negb (same_fence fence (fst e))) l) =
    List.find (fun e => same_fence fence' (fst e)) l) as H; [|by rewrite H].
  induction l as [|[f z] l IH]; [done|]. cbn [List.filter List.find fst]. destruct (same_fence fence f) eqn:Ef; cbn [negb].
  - apply same_fence_eq in Ef as <-. by rewrite E.
  - cbn [List.find fst]. destruct (same_fence fence' f); [done|exact IH].
Qed.

(** What a request does to the sequence last seen under a fence. *)
Lemma run_last_seen r m fence : last_seen (fst (run r m)) fence =
  match accepted m r with Some (f, n) => if same_fence fence f then n else last_seen m fence | None => last_seen m fence end.
Proof.
  assert (forall id missing step, last_seen (fst (with_session id missing step m)) fence = last_seen m fence) as Hw.
  { intros id missing step. unfold with_session. rewrite st_get_bind. destruct (alookup _ id) as [s|]; [|done]. by destruct (step s). }
  destruct r as [offer local_ reg secret now p e| | |]; cbn [run accepted]; rewrite fst_drop; [|apply Hw..].
  unfold authenticate_and_negotiate. rewrite st_get_bind. destruct (verify_authenticated_offer _ _ _ _ _) as [[[|] reason]|x]; [|done..]. rewrite st_lift_Ok. cbn [fst negb].
  destruct (offer_facts offer) as [q|x]; [|done]. rewrite st_lift_Ok. cbv zeta. destruct (q_epoch q =? e); [|done]. cbn [negb andb].
  destruct (Z.leb_spec (q_sequence q) (last_seen m (q_remote q, q_epoch q))) as [Hle|Hlt]; [by rewrite (proj2 (Z.ltb_ge _ _) Hle)|].
  rewrite (proj2 (Z.ltb_lt _ _) Hlt), st_modify_bind. rewrite <- last_seen_see. set (m' := see _ _ m).
  match goal with |- last_seen (fst (?k m')) fence = _ => assert (StateLogic.keeps (fun m => last_seen m fence = last_seen m' fence) k) as Hk end.
  { keeps_tac. done. }
  by apply Hk.
Qed.

Lemma last_seen_grows rs m fence : last_seen m fence <= last_seen (run_all rs m) fence.
Proof.
  induction rs as [|r rs IH] using rev_ind; [done|]. rewrite run_all_last, run_last_seen. destruct (accepted _ r) as [[f n]|] eqn:Ea; [|done].
  destruct (same_fence fence f) eqn:Ef; [|done]. apply same_fence_eq in Ef as <-. destruct r as [offer local_ reg secret now p e| | |]; try done. cbn [accepted] in Ea.
  destruct (verify_authenticated_offer _ _ _ _ _) as [[[|] ?]|]; try done. destruct (offer_facts offer) as [q|]; [|done]. cbv zeta in Ea.
  destruct (_ && _) eqn:E; [|done]. injection Ea as <- <-. apply andb_prop in E as [_ E%Z.ltb_lt]. lia.
Qed.

(** C27: sessions are authenticated, agreed to and fresh. Every session of a manager
    was opened by an offer signed with the secret presented, for this participant
    and within its window; a consented one was, after that, compatible and accepted
    by its user, and keeps the digest of the projection accepted; an active one was,
    after that, activated before its expiry with the profile, the registry and the
    authority it was negotiated on. And of two offers accepted under one participant
    and epoch the later has the greater sequence: none is accepted twice. *)
Theorem sessions_are_authenticated_and_agreed local_id rs :
  (forall id s, alookup (run_all rs (new_manager local_id)).(m_sessions) id = Some s -> history local_id rs id s) /\
  forall rs1 r1 rs2 r2 rs3 fence n1 n2, rs = rs1 ++ r1 :: rs2 ++ r2 :: rs3 ->
    accepted (run_all rs1 (new_manager local_id)) r1 = Some (fence, n1) ->
    accepted (run_all (rs1 ++ r1 :: rs2) (new_manager local_id)) r2 = Some (fence, n2) -> n1 < n2.
Proof.
  split; [apply all_explained|]. intros rs1 r1 rs2 r2 rs3 fence n1 n2 _ H1 H2.
  assert (last_seen (run_all (rs1 ++ r1 :: rs2) (new_manager local_id)) fence < n2) as Hn2.
  { destruct r2 as [offer local_ reg secret now p e| | |]; try done. cbn [accepted] in H2. destruct (verify_authenticated_offer _ _ _ _ _) as [[[|] ?]|]; try done.
    destruct (offer_facts offer) as [q|]; [|done]. cbv zeta in H2. destruct (_ && _) eqn:E; [|done]. injection H2 as <- <-.
    by apply andb_prop in E as [_ E%Z.ltb_lt]. }
  change (r1 :: rs2) with ([r1] ++ rs2) in Hn2. rewrite app_assoc, run_all_app in Hn2.
  pose proof (last_seen_grows rs2 (run_all (rs1 ++ [r1]) (new_manager local_id)) fence) as Hg.
  rewrite run_all_last, run_last_seen, H1, (proj2 (same_fence_eq fence fence) eq_refl) in Hg. rewrite run_all_last in Hn2. lia.
Qed.

(** ** Projections *)

Lemma nodup_map_inj {A B} (f : A -> B) l x y : NoDup (map f l) -> x ∈ l -> y ∈ l -> f x = f y -> x = y.
Proof.
  induction l as [|a l IH]; [by intros _ ?%elem_of_nil|]. cbn. intros [Ha Hl]%NoDup_cons Hx Hy Hf.
  apply elem_of_cons in Hx as [->|Hx], Hy as [->|Hy]; [done| | |by apply IH]; exfalso; apply Ha.
  - rewrite Hf. by apply list_elem_of_fmap_2.
  - rewrite <- Hf. by apply list_elem_of_fmap_2.
Qed.

Lemma accessible_user_top p q : starts_with "org.upp.accessibility" p.(p_namespace) = true -> same_identity p q = true -> p.(p_layer) = "user" -> q.(p_layer) ∈ map fst LAYERS ->
  q.(p_layer) <> "user" -> pair_gt (accessible_rank p) (accessible_rank q) = true.
Proof.
  intros Ha [Hn%String.eqb_eq _]%andb_prop Hp Hq Hne. unfold accessible_rank, pair_gt. rewrite <- Hn, Ha, Hp. cbn [fst snd String.eqb Ascii.eqb Bool.eqb].
  rewrite (str_eqb_ne _ _ Hne). unfold LAYERS in Hq. cbn [map fst] in Hq.
  repeat (apply elem_of_cons in Hq as [->|Hq]; [done || by vm_compute|]). by apply elem_of_nil in Hq.
Qed.

(** A projection keeps, for each preference of the profile, exactly one value of
    its identity, and none of a higher rank; in the accessibility namespaces the
    user's own choice stands against every other layer; and it is safe to apply
    exactly when no value chosen by a role, a venue or a session differs from the
    first choice of the user's own layer. *)
Theorem projection_keeps_the_highest u : normal_profile u ->
  let j := project u in
  NoDup (map identity j.(j_values)) /\ (forall p, p ∈ j.(j_values) -> p ∈ u.(u_preferences)) /\
  (forall q, q ∈ u.(u_preferences) -> exists p, (p ∈ j.(j_values)) /\ identity p = identity q /\ pair_gt (accessible_rank q) (accessible_rank p) = false) /\
  (forall p q, p ∈ j.(j_values) -> q ∈ u.(u_preferences) -> identity p = identity q -> q.(p_layer) = "user" ->
     starts_with "org.upp.accessibility" q.(p_namespace) = true -> p.(p_layer) = "user") /\
  (j.(j_consent) = [] <-> forall p user, p ∈ j.(j_values) -> p.(p_layer) ∈ ["role"; "venue"; "session"] ->
     user_choice u.(u_preferences) p = Some user -> py_eq p.(p_value) user.(p_value) = true).
Proof.
  intros Hu j. pose proof (select_all_tops accessible_rank u.(u_preferences)) as (Hn & Hin & Htop). set (selected := select_all accessible_rank (u_preferences u)) in *.
  assert (forall p, p ∈ j_values j <-> p ∈ selected) as Hv by (intros p; unfold j, project; cbn [j_values]; fold selected; by rewrite (sort_lt_Permutation identity_lt selected)).
  split; [unfold j, project; cbn [j_values]; fold selected; by rewrite (sort_lt_Permutation identity_lt selected)|].
  split; [intros p Hp; by apply Hin, Hv|]. split; [intros q Hq; destruct (Htop q Hq) as (p & Hp & H); exists p; by rewrite Hv|]. split.
  - intros p q Hp%Hv Hq Hid Huser Hacc. destruct (decide (p_layer p = "user")) as [|Hne]; [done|exfalso].
    destruct (Htop q Hq) as (p' & Hp' & Hid' & Hgt). assert (p' = p) as ->.
    { eapply nodup_map_inj; [exact Hn|done..|congruence]. }
    rewrite (accessible_user_top q p) in Hgt; [done|done|apply same_identity_eq; congruence|done| |done].
    apply n_layer. eapply Forall_forall; [exact (np_preferences _ Hu)|by apply Hin].
  - unfold j at 1, project. cbn [j_consent]. fold selected. split.
    + intros Hnil p user Hp%Hv Hl Hc. assert (consent_of (u_preferences u) p = []) as H.
      { destruct (consent_of (u_preferences u) p) as [|c l] eqn:E; [done|]. assert (In c (flat_map (consent_of (u_preferences u)) selected)) as Hi; [|by rewrite Hnil in Hi].
        apply in_flat_map. exists p. split; [by apply list_elem_of_In|]. rewrite E. by left. }
      unfold consent_of in H. rewrite (proj2 (existsb_name _ _) Hl), Hc in H. by destruct (py_eq _ _).
    + intros H. destruct (flat_map _ selected) as [|c l] eqn:E; [done|exfalso]. assert (In c (flat_map (consent_of (u_preferences u)) selected)) as Hi by (rewrite E; by left).
      apply in_flat_map in Hi as (p & Hp & Hi). unfold consent_of in Hi. destruct (existsb _ _) eqn:El; [|done]. destruct (user_choice _ _) as [user|] eqn:Ec; [|done].
      rewrite (H p user) in Hi; [done|by apply Hv, list_elem_of_In|by apply existsb_name|exact Ec].
Qed.

(** ** Runs *)

Definition participant (id : string) : pydict := [("id", VStr id); ("apiVersions", VList [VInt 3])].

Definition sample_offer : pydict :=
  match make_authenticated_offer (VDict (participant "guest")) "stage" 4 7 60000 "shared-secret" 1000 "n1" with Ok d => d | Raise _ => [] end.

(** An offer that was made is accepted by its target until it expires, and by no
    other participant, and not after one of its fields was changed. *)
Example made_offers_verify :
  verify_authenticated_offer sample_offer "stage" "shared-secret" 61000 1 = Ok (true, "ok") /\
  verify_authenticated_offer sample_offer "stage" "shared-secret" 61001 1 = Ok (false, "offer expired or not yet valid") /\
  verify_authenticated_offer sample_offer "other" "shared-secret" 2000 1 = Ok (false, "offer target mismatch") /\
  verify_authenticated_offer (dset sample_offer "sequence" (VInt 8)) "stage" "shared-secret" 2000 1 = Ok (false, "transcript authentication failed").
Proof. vm_compute. by split_and!. Qed.

(** An offer whose participant is no object is not refused: the check fails with an
    exception it does not catch, before any signature was looked at. *)
Example malformed_participant_raises :
  verify_authenticated_offer (dset sample_offer "participant" (VStr "guest")) "stage" "shared-secret" 2000 1 = Raise AttributeError.
Proof. vm_compute. reflexivity. Qed.

Definition sample_preference (layer value : string) (revision : Z) : pyval :=
  VDict [("namespace", VStr "org.upp.display"); ("key", VStr "theme"); ("layer", VStr layer); ("revision", VInt revision); ("value", VStr value)].

Definition sample_user (preferences : list pyval) : user_profile :=
  match normalize_user_profile (VDict [("profileId", VStr "ana"); ("revision", VInt 1); ("preferences", VList preferences)]) with
  | Ok u => u | Raise _ => {| u_raw := []; u_id := ""; u_revision := 0; u_preferences := [] |} end.

(** Consent is asked against the first entry of the user's layer, not the latest:
    a role may set what the user has given up, and no consent is required. *)
Example superseded_choice_decides_consent :
  let u := sample_user [sample_preference "user" "dark" 1; sample_preference "user" "light" 2; sample_preference "role" "dark" 1] in
  let j := project u in
  map p_value (select_all plain_rank (filter (fun p => p.(p_layer) = "user") u.(u_preferences))) = [VStr "light"] /\
  map p_value j.(j_values) = [VStr "dark"] /\ j.(j_consent) = [].
Proof. vm_compute. by split_and!. Qed.

Definition sample_projection : pydict :=
  projection_dict (project (sample_user [sample_preference "user" "dark" 1; sample_preference "venue" "light" 1])).

Definition sample_requests : list request :=
  [Negotiate sample_offer (participant "stage") new_registry "shared-secret" 2000 1 4;
   Consent (session_id_of (dget_none sample_offer "transcriptSha256") "stage") sample_projection true;
   Activate (session_id_of (dget_none sample_offer "transcriptSha256") "stage") 3000 1 0 4].

Lemma sessions_are_authenticated_and_agreed_witness :
  let m := run_all sample_requests (new_manager "stage") in
  let id := session_id_of (dget_none sample_offer "transcriptSha256") "stage" in
  match alookup m.(m_sessions) id with
  | Some s => s.(s_state) = Active /\ was_activated "stage" sample_requests id s
  | None => False
  end.
Proof.
  intros m id. destruct (alookup (m_sessions m) id) as [s|] eqn:E; [|vm_compute in E; discriminate E].
  assert (s_state s = Active) as Hs by (vm_compute in E; injection E as <-; reflexivity). split; [exact Hs|].
  pose proof (proj1 (sessions_are_authenticated_and_agreed "stage" sample_requests) id s E) as [_ H]. rewrite Hs in H. exact H.
Defined.

Lemma projection_keeps_the_highest_witness :
  let u := sample_user [sample_preference "user" "dark" 1; sample_preference "venue" "light" 1] in
  map p_value (project u).(j_values) = [VStr "light"] /\ NoDup (map identity (project u).(j_values)).
Proof.
  intros u. split; [vm_compute; reflexivity|]. apply (projection_keeps_the_highest u).
  apply (normalize_user_profile_normal (VDict [("profileId", VStr "ana"); ("revision", VInt 1);
    ("preferences", VList [sample_preference "user" "dark" 1; sample_preference "venue" "light" 1])])). vm_compute. reflexivity.
Defined.
