(* ===== verification/CommunityAuth.v ===== *)
(** * Community account sessions (backend/community_auth.py)

    Signed bearer tokens: the payload in URL-safe base64 without padding, a dot,
    and its HMAC under a purpose. The clock and the drawn identifier are
    arguments; bytes are strings. *)

From S2P Require Import Prelude PyStr PyFloat PyVal PyFacts Json Sha256 JsonText ClusterSecrets Persistence PersistenceChain PersistenceSegments.
From Stdlib Require Import SpecFloat.

#[local] Open Scope string_scope.
#[local] Open Scope list_scope.
#[local] Open Scope Z_scope.

Definition _PURPOSE : string := "org.upp.community-account-session/1".
Definition _MAX_TOKEN_BYTES : Z := 2048.
Definition _MIN_TTL_SECONDS : Z := 60.
Definition _MAX_TTL_SECONDS : Z := 86400.

(** ** Base64 *)

Definition alphabet : list ascii := chars "ABCDEFGHIJKLMNOPQRSTUVWXYZabcdefghijklmnopqrstuvwxyz0123456789-_".

Definition sextet_char (z : Z) : ascii := nth (Z.to_nat z) alphabet "A"%char.

Fixpoint position (c : ascii) (l : list ascii) (n : Z) : option Z :=
  match l with [] => None | d :: l => if Ascii.eqb c d then Some n else position c l (n + 1) end.

Definition char_sextet (c : ascii) : option Z := position c alphabet 0.

(** Three bytes are four groups of six bits; of one or two bytes the last group is filled with zeros. *)
Fixpoint encode_bytes (l : list Z) : list Z :=
  match l with
  | a :: b :: c :: l => (a / 4) :: (a mod 4 * 16 + b / 16) :: (b mod 16 * 4 + c / 64) :: c mod 64 :: encode_bytes l
  | [a; b] => [a / 4; a mod 4 * 16 + b / 16; b mod 16 * 4]
  | [a] => [a / 4; a mod 4 * 16]
  | [] => []
  end.

(** Surplus bits are dropped; one group alone is no byte. *)
Fixpoint decode_sextets (l : list Z) : option (list Z) :=
  match l with
  | p :: q :: r :: s :: l =>
      match decode_sextets l with
      | Some rest => Some (p * 4 + q / 16 :: q mod 16 * 16 + r / 4 :: r mod 4 * 64 + s :: rest)
      | None => None
      end
  | [p; q; r] => Some [p * 4 + q / 16; q mod 16 * 16 + r / 4]
  | [p; q] => Some [p * 4 + q / 16]
  | [_] => None
  | [] => Some []
  end.

Definition _b64url_encode (value : string) : string := of_chars (map sextet_char (encode_bytes (map code (chars value)))).

Definition invalid_credential : exn := PermissionError "invalid community session credential".

Fixpoint all_some {A B} (f : A -> option B) (l : list A) : option (list B) :=
  match l with
  | [] => Some []
  | a :: l => match f a, all_some f l with Some b, Some bs => Some (b :: bs) | _, _ => None end
  end.

Definition _b64url_decode (value : string) : res string :=
  if String.eqb value "" then Raise invalid_credential
  else
    match all_some char_sextet (chars value) with
    | None => Raise invalid_credential
    | Some sextets => match decode_sextets sextets with Some bytes => Ok (of_chars (map chr bytes)) | None => Raise invalid_credential end
    end.

(** ** Sessions *)

Definition _valid_account_id (value : string) : bool :=
  negb (String.eqb value "") && (str_len value <=? 128) && String.eqb value (strip value)
  && forallb (fun c => (32 <=? code c) && negb (code c =? 127)) (chars value).

Record CommunitySession := {
  account_id : string;
  auth_generation : Z;
  session_id : string;
  issued_at_ns : Z;
  expires_at_ns : Z;
}.

Record session_manager := { signing_secret : string; ttl_seconds : Z }.

Definition new_manager (secret : string) (ttl : Z) : res session_manager :=
  if str_len secret <? 32 then Raise (ValueError "community session signing secret is too short")
  else Ok {| signing_secret := secret; ttl_seconds := Z.max _MIN_TTL_SECONDS (Z.min _MAX_TTL_SECONDS ttl) |}.

Definition session_payload (s : CommunitySession) : pydict :=
  [("version", VInt 1); ("purpose", VStr _PURPOSE); ("accountId", VStr s.(account_id)); ("authGeneration", VInt s.(auth_generation));
   ("sessionId", VStr s.(session_id)); ("issuedAtNs", VInt s.(issued_at_ns)); ("expiresAtNs", VInt s.(expires_at_ns))].

Definition token_signature (m : session_manager) (encoded : string) : string :=
  hmac_hex m.(signing_secret) (_PURPOSE +:+ newline +:+ encoded).

Definition token_of (m : session_manager) (s : CommunitySession) : string :=
  let encoded := _b64url_encode (_canonical (VDict (session_payload s))) in encoded +:+ "." +:+ token_signature m encoded.

Definition issue (m : session_manager) (account : string) (generation now : Z) (drawn : string) : res CommunitySession :=
  let account := strip account in
  if negb (_valid_account_id account) then Raise (ValueError "invalid community account identity")
  else if generation <? 1 then Raise (ValueError "invalid community account auth generation")
  else Ok {| account_id := account; auth_generation := generation; session_id := "community-session-" +:+ drawn; issued_at_ns := now;
             expires_at_ns := now + m.(ttl_seconds) * 1000000000 |}.

Definition issued_dict (m : session_manager) (s : CommunitySession) : pydict :=
  [("sessionToken", VStr (token_of m s)); ("accountId", VStr s.(account_id)); ("authGeneration", VInt s.(auth_generation));
   ("sessionId", VStr s.(session_id)); ("issuedAtNs", VInt s.(issued_at_ns)); ("expiresAtNs", VInt s.(expires_at_ns));
   ("expiresInSeconds", VInt m.(ttl_seconds))].

Definition payload_keys : list string := ["version"; "purpose"; "accountId"; "authGeneration"; "sessionId"; "issuedAtNs"; "expiresAtNs"].

Definition read_session (payload : pydict) : res CommunitySession :=
  catch key_type_value
    (account ← dindex payload "accountId";
     generation ← (v ← dindex payload "authGeneration"; py_int v);
     issued ← (v ← dindex payload "issuedAtNs"; py_int v);
     expires ← (v ← dindex payload "expiresAtNs"; py_int v);
     id ← dindex payload "sessionId";
     Ok {| account_id := py_str account; auth_generation := generation; session_id := py_str id; issued_at_ns := issued; expires_at_ns := expires |})
    (fun _ => Raise invalid_credential).

Definition session_valid (payload : pydict) (s : CommunitySession) : bool :=
  py_eq (dget_none payload "version") (VInt 1) && py_eq (dget_none payload "purpose") (VStr _PURPOSE) && _valid_account_id s.(account_id)
  && (1 <=? s.(auth_generation)) && starts_with "community-session-" s.(session_id) && (str_len s.(session_id) =? 50)
  && (0 <? s.(issued_at_ns)) && (s.(issued_at_ns) <? s.(expires_at_ns)) && (s.(expires_at_ns) - s.(issued_at_ns) <=? _MAX_TTL_SECONDS * 1000000000).

(** The text before a character, and after it. *)
Definition split_at (c : ascii) (s : string) : string * string :=
  match before_char c (chars s) with
  | Some l => (of_chars l, of_chars (skipn (S (length l)) (chars s)))
  | None => (s, "")
  end.

Definition count_char (c : ascii) (s : string) : Z := Z.of_nat (length (List.filter (Ascii.eqb c) (chars s))).

Definition hex_text (s : string) : bool := forallb (fun c => in_range 48 57 c || in_range 97 102 c) (chars s).

Definition verify (m : session_manager) (token : string) (now : Z) : res CommunitySession :=
  let raw := strip token in
  if String.eqb raw "" || (_MAX_TOKEN_BYTES <? str_len (utf8 raw)) || negb (count_char "."%char raw =? 1) then Raise invalid_credential
  else
    let '(encoded, supplied) := split_at "."%char raw in
    if negb (str_len supplied =? 64) || negb (hex_text supplied) then Raise invalid_credential
    else if negb (is_ascii encoded) then Raise (ValueError "UnicodeEncodeError")
    else
      same ← compare_digest (token_signature m encoded) supplied;
      if negb same then Raise (PermissionError "community session authentication failed")
      else
        bytes ← _b64url_decode encoded;
        payload ← catch (fun e => match e with ValueError _ => true | _ => false end) (text ← utf8_decode bytes; loads text) (fun _ => Raise invalid_credential);
        match payload with
        | VDict d =>
            if negb (keys_are d payload_keys) then Raise invalid_credential
            else
              s ← read_session d;
              if negb (session_valid d s) then Raise invalid_credential
              else if now <? s.(issued_at_ns) - 5000000000 then Raise (PermissionError "community session is not yet valid")
              else if s.(expires_at_ns) <? now then Raise (PermissionError "community session has expired")
              else Ok s
        | _ => Raise invalid_credential
        end.

(** ** Facts *)

Lemma decode_encode l : Forall (fun z => 0 <= z < 256) l -> decode_sextets (encode_bytes l) = Some l.
Proof.
  assert (forall n l, (length l <= n)%nat -> Forall (fun z => 0 <= z < 256) l -> decode_sextets (encode_bytes l) = Some l) as H; [|by apply (H (length l))].
  clear l. induction n as [|n IH]; intros l Hn Hl; [by destruct l; [|cbn in Hn; lia]|].
  destruct l as [|a [|b [|c l]]]; cbn [encode_bytes decode_sextets]; [done|..].
  - apply Forall_cons in Hl as [Ha _]. do 2 f_equal. Z.div_mod_to_equations. lia.
  - apply Forall_cons in Hl as [Ha Hl]. apply Forall_cons in Hl as [Hb _]. do 2 f_equal; [|f_equal]; Z.div_mod_to_equations; lia.
  - apply Forall_cons in Hl as [Ha Hl]. apply Forall_cons in Hl as [Hb Hl]. apply Forall_cons in Hl as [Hc Hl].
    rewrite IH by (done || cbn in Hn; lia). do 2 f_equal; [|f_equal; [|f_equal]]; Z.div_mod_to_equations; lia.
Qed.

Lemma encode_range l : Forall (fun z => 0 <= z < 256) l -> Forall (fun z => 0 <= z < 64) (encode_bytes l).
Proof.
  assert (forall n l, (length l <= n)%nat -> Forall (fun z => 0 <= z < 256) l -> Forall (fun z => 0 <= z < 64) (encode_bytes l)) as H; [|by apply (H (length l))].
  clear l. induction n as [|n IH]; intros l Hn Hl; [by destruct l; [|cbn in Hn; lia]|].
  destruct l as [|a [|b [|c l]]]; cbn [encode_bytes]; [constructor|..];
    repeat (apply Forall_cons in Hl as [? Hl]); repeat (constructor; [Z.div_mod_to_equations; lia|]); try constructor.
  apply IH; [cbn in Hn; lia|done].
Qed.

(** Decoding a group of six bits, checked on all sixty-four. *)
Lemma sextet_back z : 0 <= z < 64 -> char_sextet (sextet_char z) = Some z /\ is_space (sextet_char z) = false /\ Ascii.eqb "." (sextet_char z) = false /\ (code (sextet_char z) <? 128) = true.
Proof.
  intros Hz. assert (forallb (fun n => let z := Z.of_nat n in bool_decide (char_sextet (sextet_char z) = Some z) && negb (is_space (sextet_char z))
    && negb (Ascii.eqb "." (sextet_char z)) && (code (sextet_char z) <? 128)) (seq 0 64) = true) as H by (vm_compute; reflexivity).
  rewrite forallb_forall in H. specialize (H (Z.to_nat z)). rewrite Z2Nat.id in H by lia. cbv zeta in H.
  assert (In (Z.to_nat z) (seq 0 64)) as Hin by (apply in_seq; lia). specialize (H Hin).
  apply andb_prop in H as [H H4]. apply andb_prop in H as [H H3]. apply andb_prop in H as [H1%bool_decide_eq_true H2].
  apply negb_true_iff in H2, H3. done.
Qed.

Lemma code_256 s : Forall (fun z => 0 <= z < 256) (map code (chars s)).
Proof. apply Forall_fmap, Forall_forall. intros c _. apply code_bound. Qed.

Lemma encoded_sextets s : Forall (fun z => 0 <= z < 64) (encode_bytes (map code (chars s))).
Proof. apply encode_range, code_256. Qed.

Lemma all_some_map {A B} (f : B -> option A) (g : A -> B) l : Forall (fun a => f (g a) = Some a) l -> all_some f (map g l) = Some l.
Proof. induction 1 as [|a l Ha Hl IH]; [done|]. cbn. by rewrite Ha, IH. Qed.

Lemma map_chr_code l : map chr (map code l) = l.
Proof.
  induction l as [|c l IH]; [done|]. cbn [map]. rewrite IH. f_equal. unfold chr, code. rewrite Nat2Z.id. apply ascii_nat_embedding.
Qed.

(** What is encoded decodes to itself. *)
Lemma b64_round s : s <> "" -> _b64url_decode (_b64url_encode s) = Ok s.
Proof.
  intros Hs. unfold _b64url_decode, _b64url_encode. rewrite chars_of_chars, all_some_map by (eapply Forall_impl; [apply encoded_sextets|]; intros z Hz; by apply sextet_back).
  rewrite decode_encode, map_chr_code, of_chars_chars by apply code_256. destruct (String.eqb_spec (of_chars (map sextet_char (encode_bytes (map code (chars s))))) "") as [He|]; [|done].
  exfalso. apply Hs. apply (f_equal chars) in He. rewrite chars_of_chars in He. apply chars_inj. destruct (chars s) as [|a [|b [|c l]]]; done.
Qed.

(** Texts of base64 characters: no blank, no dot, ASCII. *)
Definition plain_char (c : ascii) : bool := negb (is_space c) && negb (Ascii.eqb "." c) && (code c <? 128).

Lemma encoded_plain s : forallb plain_char (chars (_b64url_encode s)) = true.
Proof.
  unfold _b64url_encode. rewrite chars_of_chars. apply forallb_forall. intros c (z & <- & Hz)%in_map_iff. pose proof (encoded_sextets s) as H.
  rewrite List.Forall_forall in H. destruct (sextet_back z (H z Hz)) as (_ & H2 & H3 & H4). unfold plain_char. by rewrite H2, H3, H4.
Qed.

Lemma hex_is_hex s : forallb (fun c => in_range 48 57 c || in_range 97 102 c) (chars (hex s)) = true.
Proof.
  unfold hex. rewrite chars_of_chars. apply forallb_forall. intros c Hc. apply in_concat in Hc as (l & Hl & Hc). apply in_map_iff in Hl as (d & <- & _).
  pose proof (code_bound d). assert (forall z, 0 <= z < 16 -> in_range 48 57 (hex_digit z) || in_range 97 102 (hex_digit z) = true) as Hd.
  { intros z Hz. unfold hex_digit, in_range. case_match; rewrite code_chr; lia. }
  destruct Hc as [<-|[<-|[]]]; apply Hd; [|apply Z.mod_pos_bound; lia]. split; [apply Z.div_pos; lia|]. apply Z.div_lt_upper_bound; lia.
Qed.

Lemma hex_char_plain c : in_range 48 57 c || in_range 97 102 c = true -> plain_char c = true.
Proof.
  intros H. unfold plain_char. assert (is_space c = false) as ->.
  { destruct (is_space c) eqn:E; [|done]. revert E H. unfold is_space, in_range. lia. }
  destruct (Ascii.eqb_spec "." c) as [<-|]; [vm_compute in H; discriminate|]. cbn [negb andb]. revert H. unfold in_range. lia.
Qed.

Lemma before_dot l r : forallb plain_char l = true -> before_char "."%char (l ++ "."%char :: r) = Some l.
Proof.
  induction l as [|c l IH]; [done|]. cbn [forallb app before_char]. intros [Hc Hl]%andb_prop. unfold plain_char in Hc. apply andb_prop in Hc as [Hc _].
  apply andb_prop in Hc as [_ Hc]. apply negb_true_iff in Hc. rewrite Hc, IH by done. done.
Qed.

Lemma no_dots l : forallb plain_char l = true -> List.filter (Ascii.eqb "."%char) l = [].
Proof.
  induction l as [|c l IH]; [done|]. cbn [forallb List.filter]. intros [Hc Hl]%andb_prop. unfold plain_char in Hc. apply andb_prop in Hc as [Hc _].
  apply andb_prop in Hc as [_ Hc]. apply negb_true_iff in Hc. by rewrite Hc, IH.
Qed.

Lemma plain_first l c r : forallb plain_char l = true -> l = c :: r -> is_space c = false.
Proof. intros H ->. cbn in H. unfold plain_char in H. destruct (is_space c); [discriminate|done]. Qed.

(** The shape of a token: it is split where it was joined. *)
Section token.
Context (encoded signature : string) (Hne : encoded <> "") (He : forallb plain_char (chars encoded) = true)
  (Hs : forallb plain_char (chars signature) = true) (Hl : str_len signature = 64).

Let token : string := encoded +:+ "." +:+ signature.

Lemma token_chars : chars token = chars encoded ++ "."%char :: chars signature.
Proof using. unfold token. by rewrite !chars_app. Qed.

Lemma token_split : split_at "."%char token = (encoded, signature).
Proof using He.
  unfold split_at. rewrite token_chars, before_dot by done. f_equal; [apply of_chars_chars|]. rewrite <- (of_chars_chars signature) at 2. f_equal.
  rewrite skipn_app, skipn_all2 by lia. replace (S (length (chars encoded)) - length (chars encoded))%nat with 1%nat by lia. done.
Qed.

Lemma token_one_dot : count_char "."%char token = 1.
Proof using He Hs. unfold count_char. rewrite token_chars, List.filter_app, no_dots by done. cbn. by rewrite no_dots. Qed.

Lemma token_strip : strip token = token.
Proof using Hne He Hs Hl.
  destruct (chars encoded) as [|a l] eqn:Ea; [exfalso; apply Hne, chars_inj; done|].
  destruct (chars signature) as [|z r _] eqn:Ez using rev_ind; [unfold str_len in Hl; rewrite <- length_chars, Ez in Hl; done|].
  apply (strip_same token a (l ++ "."%char :: (r ++ [z])) ((a :: l) ++ "."%char :: r) z).
  - rewrite token_chars, Ea, Ez. done.
  - rewrite token_chars, Ea, Ez, <- app_assoc. done.
  - eapply plain_first; [exact He|reflexivity].
  - rewrite forallb_app in Hs. apply andb_prop in Hs as [_ Hz]. cbn in Hz. unfold plain_char in Hz. by destruct (is_space z).
Qed.
End token.

Lemma plain_ascii s : forallb plain_char (chars s) = true -> is_ascii s = true.
Proof. unfold is_ascii. rewrite !forallb_forall. intros H c Hc. specialize (H c Hc). unfold plain_char in H. by apply andb_prop in H as [_ H]. Qed.

Lemma starts_with_own p s : starts_with p (p +:+ s) = true.
Proof.
  unfold starts_with. induction p as [|c p IH]; [by destruct s|]. change (String c p +:+ s) with (String c (p +:+ s)). cbn [String.prefix].
  destruct (ascii_dec c c) as [_|Hn]; [exact IH|by destruct Hn].
Qed.

Lemma issue_ok m account generation now drawn s : issue m account generation now drawn = Ok s ->
  s = {| account_id := strip account; auth_generation := generation; session_id := "community-session-" +:+ drawn; issued_at_ns := now;
         expires_at_ns := now + m.(ttl_seconds) * 1000000000 |} /\ _valid_account_id (strip account) = true /\ 1 <= generation.
Proof.
  unfold issue. destruct (_valid_account_id _) eqn:E; [|done]. cbn [negb]. destruct (Z.ltb_spec generation 1) as [|Hg]; [done|]. intros [= <-]. done.
Qed.

(** ** Tokens read back *)

(** The sessions whose payload JSON reads back: numbers of at most twenty digits. *)
Definition readable (s : CommunitySession) : Prop :=
  _valid_account_id s.(account_id) = true /\ 1 <= s.(auth_generation) < sequence_limit /\ 0 < s.(issued_at_ns) /\ s.(issued_at_ns) < s.(expires_at_ns) < sequence_limit /\
  s.(expires_at_ns) - s.(issued_at_ns) <= _MAX_TTL_SECONDS * 1000000000 /\ exists drawn, s.(session_id) = "community-session-" +:+ drawn /\ str_len drawn = 32.

Lemma payload_loads s : readable s -> (text ← utf8_decode (_canonical (VDict (session_payload s))); loads text) = Ok (VDict
  [("accountId", VStr s.(account_id)); ("authGeneration", VInt s.(auth_generation)); ("expiresAtNs", VInt s.(expires_at_ns));
   ("issuedAtNs", VInt s.(issued_at_ns)); ("purpose", VStr _PURPOSE); ("sessionId", VStr s.(session_id)); ("version", VInt 1)]).
Proof.
  intros (_ & Hg & Hi & He & _). unfold _canonical. rewrite utf8_decode_utf8. cbn [mbind res_bind]. rewrite loads_dumps; [reflexivity|].
  assert (bool_decide (NoDup (dkeys (session_payload s))) = true) as Hn by (apply bool_decide_eq_true; change (NoDup payload_keys); unfold payload_keys; nodup_keys).
  cbn [json_ok]. rewrite Hn. unfold session_payload. cbn [forallb snd json_ok]. rewrite !small_int_ok by (unfold sequence_limit in *; lia). done.
Qed.

Lemma session_valid_ok s : readable s -> session_valid
  [("accountId", VStr s.(account_id)); ("authGeneration", VInt s.(auth_generation)); ("expiresAtNs", VInt s.(expires_at_ns));
   ("issuedAtNs", VInt s.(issued_at_ns)); ("purpose", VStr _PURPOSE); ("sessionId", VStr s.(session_id)); ("version", VInt 1)] s = true.
Proof.
  intros (Ha & Hg & Hi & He & Ht & drawn & Hid & Hd). unfold session_valid. rewrite Ha, Hid, starts_with_own.
  assert (str_len ("community-session-" +:+ drawn) = 50) as ->.
  { unfold str_len in *. rewrite <- length_chars, chars_app, length_app, !length_chars. change (String.length "community-session-") with 18%nat. lia. }
  unfold dget_none, dget_or. cbn [dget String.eqb Ascii.eqb Bool.eqb]. change (py_eq (VInt 1) (VInt 1)) with true.
  change (py_eq (VStr _PURPOSE) (VStr _PURPOSE)) with true. rewrite (proj2 (Z.leb_le _ _) (proj1 Hg)), (proj2 (Z.ltb_lt _ _) Hi), (proj2 (Z.ltb_lt _ _) (proj1 He)), (proj2 (Z.leb_le _ _) Ht). done.
Qed.

(** The token of a readable session, up to its window. *)
Lemma verify_token m s now : readable s -> str_len (token_of m s) <= _MAX_TOKEN_BYTES ->
  verify m (token_of m s) now = (if now <? s.(issued_at_ns) - 5000000000 then Raise (PermissionError "community session is not yet valid")
                                 else if s.(expires_at_ns) <? now then Raise (PermissionError "community session has expired") else Ok s).
Proof.
  intros Hr Hlen. pose proof (encoded_plain (_canonical (VDict (session_payload s)))) as He. set (encoded := _b64url_encode (_canonical (VDict (session_payload s)))) in *.
  assert (forallb plain_char (chars (token_signature m encoded)) = true) as Hs.
  { apply forallb_forall. intros c Hc. apply hex_char_plain. pose proof (hex_is_hex (hmac_sha256 (signing_secret m) (_PURPOSE +:+ newline +:+ encoded))) as H.
    rewrite forallb_forall in H. by apply H. }
  assert (str_len (token_signature m encoded) = 64) as Hl by (unfold str_len, token_signature, hmac_hex; by rewrite <- length_chars, hex_length, hmac_sha256_length).
  assert (_canonical (VDict (session_payload s)) <> "") as Hcan.
  { intros H. pose proof (payload_loads s Hr) as Hp. rewrite H in Hp. vm_compute in Hp. discriminate Hp. }
  assert (encoded <> "") as Hne.
  { intros H. pose proof (b64_round _ Hcan) as Hb. fold encoded in Hb. rewrite H in Hb. vm_compute in Hb. discriminate Hb. }
  assert (is_ascii (token_of m s) = true) as Ha.
  { unfold token_of. fold encoded. unfold is_ascii. rewrite token_chars, forallb_app. cbn [forallb]. fold (is_ascii encoded). fold (is_ascii (token_signature m encoded)).
    rewrite !plain_ascii by done. reflexivity. }
  unfold verify. assert (token_of m s = encoded +:+ "." +:+ token_signature m encoded) as Ht by done. rewrite Ht in Hlen, Ha |- *.
  rewrite token_strip, utf8_ascii, (proj2 (Z.ltb_ge _ _) Hlen), token_one_dot, token_split by done.
  assert (String.eqb (encoded +:+ "." +:+ token_signature m encoded) "" = false) as ->.
  { apply String.eqb_neq. intros H. apply (f_equal chars) in H. rewrite token_chars in H. by destruct (chars encoded). }
  cbn [orb negb Z.eqb Pos.eqb]. rewrite Hl. unfold hex_text. unfold token_signature at 1, hmac_hex at 1. rewrite hex_is_hex. cbn [negb orb Z.eqb Pos.eqb].
  rewrite plain_ascii by done. cbn [negb]. rewrite compare_digest_refl by apply hmac_hex_ascii. cbn [mbind res_bind negb].
  unfold encoded at 1. rewrite b64_round by done. cbn [mbind res_bind]. rewrite payload_loads by done. cbn [catch mbind res_bind].
  change (keys_are _ payload_keys) with true. cbn [negb]. unfold read_session, dindex. cbn [dget String.eqb Ascii.eqb Bool.eqb mbind res_bind py_int py_str catch].
  pose proof (session_valid_ok _ Hr) as Hv. destruct s as [account generation id issued expires].
  cbn [account_id auth_generation session_id issued_at_ns expires_at_ns] in *. rewrite Hv. done.
Qed.

(** What a token that verifies says, and who could write it. *)
Record vouched (m : session_manager) (token : string) (now : Z) (s : CommunitySession) : Prop := {
  v_signed : exists encoded payload, strip token = encoded +:+ "." +:+ token_signature m encoded /\ (bytes ← _b64url_decode encoded; text ← utf8_decode bytes; loads text) = Ok (VDict payload)
    /\ read_session payload = Ok s;
  v_account : _valid_account_id s.(account_id) = true;
  v_generation : 1 <= s.(auth_generation);
  v_window : s.(issued_at_ns) - 5000000000 <= now <= s.(expires_at_ns);
  v_lifetime : s.(expires_at_ns) - s.(issued_at_ns) <= _MAX_TTL_SECONDS * 1000000000;
}.

Lemma before_char_split c l r : before_char c l = Some r -> l = r ++ c :: skipn (S (length r)) l.
Proof.
  revert r. induction l as [|d l IH]; intros r; [done|]. cbn [before_char]. destruct (Ascii.eqb_spec c d) as [->|Hne]; [by intros [= <-]|].
  destruct (before_char c l) as [r'|]; [|done]. cbn [option_map]. intros [= <-]. cbn [length skipn app]. f_equal. by apply IH.
Qed.

Lemma verify_vouched m token now s : verify m token now = Ok s -> vouched m token now s.
Proof.
  unfold verify. destruct (_ || _ || _) eqn:E1; [done|]. apply orb_false_iff in E1 as [_ Hdot]. apply negb_false_iff, Z.eqb_eq in Hdot.
  unfold split_at. destruct (before_char "."%char (chars (strip token))) as [l|] eqn:Eb.
  2:{ exfalso. revert Hdot. unfold count_char. assert (List.filter (Ascii.eqb "."%char) (chars (strip token)) = []) as ->; [|done]. revert Eb. generalize (chars (strip token)).
      clear. intros l. induction l as [|d l IH]; [done|]. cbn [before_char List.filter]. destruct (Ascii.eqb "." d); [done|]. destruct (before_char "." l); [done|]. intros _. by apply IH. }
  apply before_char_split in Eb. set (encoded := of_chars l) in *. set (supplied := of_chars (skipn (S (length l)) (chars (strip token)))) in *.
  destruct (_ || _); [done|]. destruct (negb _); [done|]. intros H. apply bind_ok in H as ([|] & Hc & H); [|done]. apply compare_digest_true in Hc. cbn [negb] in H.
  apply bind_ok in H as (bytes & Hb & H). apply bind_ok in H as (payload & Hp & H). apply catch_ok in Hp as [Hp|(e & _ & _ & Hp)]; [|done].
  destruct payload as [| | | | | |d]; try done. destruct (negb (keys_are _ _)); [done|]. apply bind_ok in H as (s' & Hs & H).
  destruct (session_valid d s') eqn:Ev; [|done]. cbn [negb] in H. destruct (Z.ltb_spec now (issued_at_ns s' - 5000000000)); [done|].
  destruct (Z.ltb_spec (expires_at_ns s') now); [done|]. injection H as <-. unfold session_valid in Ev.
  apply andb_prop in Ev as [Ev E9%Z.leb_le]. do 4 apply andb_prop in Ev as [Ev _]. apply andb_prop in Ev as [Ev E4%Z.leb_le]. apply andb_prop in Ev as [_ E3].
  split; [|done|done|lia|done]. exists encoded, d. split; [|split; [|exact Hs]].
  - apply chars_inj. rewrite !chars_app, Hc. unfold encoded, supplied. rewrite !chars_of_chars. exact Eb.
  - rewrite Hb. cbn [mbind res_bind]. exact Hp.
Qed.

(** Community sessions round trip. The token of an issued session is accepted by
    the manager that signed it, as that very session, from five seconds before it
    was issued until it expires, and refused as expired from then on; and a token
    of any origin that is accepted is the text of its session under this manager's
    signature, inside a window of at most a day. *)
Theorem community_sessions_round_trip m secret ttl account generation now drawn s :
  new_manager secret ttl = Ok m -> issue m account generation now drawn = Ok s ->
  str_len drawn = 32 -> 0 < now -> generation < sequence_limit -> s.(expires_at_ns) < sequence_limit -> str_len (token_of m s) <= _MAX_TOKEN_BYTES ->
  (forall t, now - 5000000000 <= t <= now + m.(ttl_seconds) * 1000000000 -> verify m (token_of m s) t = Ok s) /\
  (forall t, now + m.(ttl_seconds) * 1000000000 < t -> verify m (token_of m s) t = Raise (PermissionError "community session has expired")) /\
  forall token t s', verify m token t = Ok s' -> vouched m token t s'.
Proof.
  intros Hm Hi Hd Hnow Hg He Hlen. split; [|split; [|intros; by apply verify_vouched]].
  all: unfold new_manager in Hm; destruct (_ <? 32); [done|]; injection Hm as <-; apply issue_ok in Hi as (-> & Ha & Hg1);
    cbn [expires_at_ns ttl_seconds] in *; unfold _MIN_TTL_SECONDS, _MAX_TTL_SECONDS in *;
    assert (60 <= Z.max 60 (Z.min 86400 ttl) <= 86400) as Ht by lia; set (lifetime := Z.max 60 (Z.min 86400 ttl)) in *;
    intros t Hw; rewrite verify_token; try done; cbn [issued_at_ns expires_at_ns];
    try (split_and!; cbn [account_id auth_generation session_id issued_at_ns expires_at_ns]; unfold _MAX_TTL_SECONDS; try done; try lia; by exists drawn).
  - by rewrite (proj2 (Z.ltb_ge _ _) (proj1 Hw)), (proj2 (Z.ltb_ge _ _) (proj2 Hw)).
  - rewrite (proj2 (Z.ltb_ge t _)) by lia. by rewrite (proj2 (Z.ltb_lt _ _) Hw).
Qed.

Definition sample_manager : session_manager := {| signing_secret := of_chars (repeat "k"%char 32); ttl_seconds := 900 |}.
Definition sample_drawn : string := of_chars (repeat "7"%char 32).
Definition sample_session : CommunitySession :=
  match issue sample_manager " ada " 2 1700000000000000000 sample_drawn with
  | Ok s => s
  | Raise _ => {| account_id := ""; auth_generation := 0; session_id := ""; issued_at_ns := 0; expires_at_ns := 0 |}
  end.

Lemma community_sessions_round_trip_witness :
  verify sample_manager (token_of sample_manager sample_session) 1700000000000000000 = Ok sample_session /\
  verify sample_manager (token_of sample_manager sample_session) 1700000900000000001 = Raise (PermissionError "community session has expired").
Proof.
  destruct (community_sessions_round_trip sample_manager (of_chars (repeat "k"%char 32)) 900 " ada " 2 1700000000000000000 sample_drawn sample_session) as (H1 & H2 & _);
    [reflexivity|vm_compute; reflexivity|vm_compute; reflexivity|lia|vm_compute; reflexivity|vm_compute; reflexivity|vm_compute; discriminate|].
  split; [apply H1|apply H2]; cbn [ttl_seconds sample_manager]; lia.
Defined.

(** A token with a character outside ASCII before its dot is no refusal but an
    encoding error, a [ValueError]. *)
Example foreign_token_raises :
  verify sample_manager (of_chars [chr 233] +:+ "." +:+ of_chars (repeat "a"%char 64)) 1 = Raise (ValueError "UnicodeEncodeError").
Proof. vm_compute. reflexivity. Qed.
