(* ===== verification/RuntimeCommunity.v ===== *)
(** * The community operations of the runtime (backend/runtime.py)

    What the runtime adds to community governance: account sessions and their
    revocation, votes by session, the bootstrap gates of both policies, and the
    technology policy an adopted proposal applies to the show. A service holds the
    node and the governance; a turn is a request with what surrounds it. *)

From S2P Require Import Prelude PyStr PyFloat PyVal PyFacts StateLogic CivilTime Governance GovernanceProposals GovernanceVotes GovernanceTypes GovernanceAdoption GovernanceBallots CommunityAuth.
From S2P Require ShowData ShowState ShowPatch Runtime RuntimeFacts RuntimeCommands.
From Stdlib Require Import SpecFloat.

#[local] Open Scope string_scope.
#[local] Open Scope list_scope.
#[local] Open Scope Z_scope.
#[local] Open Scope st_scope.

(** ** State *)

Record service := { node : Runtime.runtime; com : community }.

#[export] Instance node_part : Part service Runtime.runtime.
Proof. refine {| part := node; with_part n s := {| node := n; com := s.(com) |} |}; [done|by intros []|done]. Defined.
#[export] Instance community_part : Part service community.
Proof. refine {| part := com; with_part c s := {| node := s.(node); com := c |} |}; [done|by intros []|done]. Defined.
#[export] Instance node_community : Independent service Runtime.runtime community.
Proof. done. Qed.
#[export] Instance community_node : Independent service community Runtime.runtime.
Proof. done. Qed.

Abbreviation act := (st service).

(** The variables of the process environment that are read, where they are set. *)
Record settings := {
  STAGEFORGE_GOVERNANCE_BOOTSTRAP : option string;
  STAGEFORGE_GOVERNANCE_TOKEN_ONLY : option string;
  STAGEFORGE_PUBLIC_BASE_URL : option string;
}.

Definition flag_set (v : option string) : bool := existsb (String.eqb (lower (strip (default "0" v)))) ["1"; "true"; "yes"; "on"].

(** [str(data.get(k, "")).strip()]. *)
Definition stripped (data : pydict) (k : string) : string := strip (py_str (dget_or data k (VStr ""))).

(** [authenticated_user_id or ""]: nobody and the empty name are the same. *)
Definition user_name (user : option string) : string := default "" user.

Section service.
Context (cfg : Runtime.runtime_config) (env : environment) (sessions : session_manager) (vars : settings).

(** ** Policies *)

Definition bootstrap_override : bool := flag_set vars.(STAGEFORGE_GOVERNANCE_BOOTSTRAP).

Definition patch_technology (w : Runtime.world) (data : pydict) (expected expected_resource : option Z) (command_id : string) : act (pydict * bool) :=
  let* allowed := (if dhas data "policy" then inside bootstrap_policy_mutation_allowed else st_ret true) in
  if negb allowed && negb bootstrap_override
  then st_raise (PermissionError "technology openness policy changes require an adopted community proposal")
  else inside (Runtime.mutate cfg w command_id (ShowPatch.patch_technology w.(Runtime.show_clock) data expected expected_resource)).

Definition community_patch_policy (data : pydict) : act pydict :=
  let* allowed := inside bootstrap_policy_mutation_allowed in
  if negb allowed && negb bootstrap_override
  then st_raise (PermissionError "community governance policy is community-controlled; use an adopted community-governance-policy proposal")
  else inside (patch_policy env data).

Definition apply_command (proposal_id : string) (version : pyval) : string :=
  "community-apply:" +:+ proposal_id +:+ ":v" +:+ py_str version.

Definition community_apply_change (w : Runtime.world) (proposal_id : string) : act pydict :=
  let* adopted := inside (adopted_change proposal_id) in
  let change := snd adopted in
  let kind := py_str (dget_or change "kind" (VStr "")) in
  let payload := py_or (dget_none change "payload") (VDict []) in
  if String.eqb kind "community-governance-policy" then inside (apply_ratified_governance_policy env proposal_id)
  else if String.eqb kind "technology-openness-policy" then
    let* version := st_lift (dindex (fst adopted) "proposalVersion") in
    let* answer := inside (Runtime.mutate cfg w (apply_command proposal_id version)
                             (ShowPatch.patch_technology w.(Runtime.show_clock) [("policy", payload)] None None)) in
    let* proposal := inside (mark_change_applied env proposal_id) in
    st_ret [("applied", VBool true); ("proposalId", VStr proposal_id); ("changeHash", dget_none proposal "appliedChangeHash");
            ("technology", dget_none (fst answer) "technology")]
  else st_raise (ValueError ("unsupported adopted community change kind: " +:+ kind)).

(** ** Mails *)

Definition community_issue_vote_emails (proposal_id : string) (data : pydict) : act pydict :=
  match dget_none data "userIds" with
  | VList ((_ :: _) as user_ids) =>
      let* window_hours := match dget_none data "windowHours" with
                           | VNone => st_ret None
                           | v => st_lift (catch type_or_value (n ← py_int v; Ok (Some (VInt n)))
                                                 (fun _ => Raise (ValueError "windowHours must be an integer")))
                           end in
      let base_url := strip (py_str (py_or (dget_none data "baseUrl") (VStr (default "http://127.0.0.1:8787" vars.(STAGEFORGE_PUBLIC_BASE_URL))))) in
      inside (issue_vote_emails env proposal_id (map (fun x => VStr (py_str x)) user_ids) window_hours base_url)
  | _ => st_raise (ValueError "userIds must be a non-empty array")
  end.

(** ** Sessions *)

Definition community_issue_session (now_ns : Z) (drawn : string) (authenticated_user_id : option string) : act pydict :=
  let user := user_name authenticated_user_id in
  if String.eqb user "" then st_raise (PermissionError "community account session requires trusted authenticated user identity")
  else
    let* account := inside (authenticated_account env user) in
    let* id := st_lift (dindex account "id") in
    let* generation := st_lift (get_int account "authGeneration" 1) in
    let* session := st_lift (issue sessions (py_str id) generation now_ns drawn) in
    st_ret (issued_dict sessions session ++
            [("account", VDict [("id", id); ("displayName", dget_or account "displayName" (VStr "")); ("active", VBool (has account "active"))])]).

Definition community_revoke_sessions (authenticated_user_id : option string) : act pydict :=
  let user := user_name authenticated_user_id in
  if String.eqb user "" then st_raise (PermissionError "community session revocation requires trusted authenticated user identity")
  else inside (revoke_account_sessions env user).

(** ** Votes *)

Definition token_only : bool := flag_set vars.(STAGEFORGE_GOVERNANCE_TOKEN_ONLY).

(** The vote of a session that verified. *)
Definition session_vote (session : CommunitySession) (proposal_id choice user : string) : op pydict :=
  if negb (String.eqb user "") && negb (String.eqb user session.(account_id))
  then st_raise (PermissionError "trusted authenticated user does not match community session")
  else
    let* account := authenticated_account env session.(account_id) in
    let* generation := st_lift (get_int account "authGeneration" 1) in
    if negb (generation =? session.(auth_generation)) then st_raise (PermissionError "community session has been revoked")
    else cast_account_vote env proposal_id choice session.(account_id).

Definition community_cast_vote (now_ns : Z) (data : pydict) (authenticated_user_id : option string) : act pydict :=
  let token := stripped data "token" in
  let session_token := stripped data "sessionToken" in
  let choice := py_str (dget_or data "choice" (VStr "")) in
  if negb (String.eqb token "") && negb (String.eqb session_token "")
  then st_raise (ValueError "provide either vote token or community session, not both")
  else if negb (String.eqb session_token "") then
    let proposal_id := stripped data "proposalId" in
    if String.eqb proposal_id "" then st_raise (ValueError "proposalId is required for community session voting")
    else
      let* session := st_lift (verify sessions session_token now_ns) in
      inside (session_vote session proposal_id choice (user_name authenticated_user_id))
  else if String.eqb token "" then st_raise (ValueError "vote token is required")
  else inside (cast_vote env token choice authenticated_user_id token_only).

(** ** Turns *)

Definition community_public_record_reconcile (verified : res pydict) (proposal_id : option string) : act pydict :=
  let* result := inside (reconcile_public_record env proposal_id) in
  let* record := st_lift verified in
  st_ret (dset result "publicRecord" (VDict record)).

Inductive service_request :=
  | TechnologyPatch (data : pydict) (expected expected_resource : option Z) (command_id : string)
  | CommunitySnapshot (detail : bool)
  | CommunityUpsertAccount (data : pydict)
  | CommunityPatchPolicy (data : pydict)
  | CommunityApplyChange (proposal_id : string)
  | CommunityCreateProposal (data : pydict)
  | CommunityUpdateProposal (proposal_id : string) (data : pydict)
  | CommunityIssueVoteEmails (proposal_id : string) (data : pydict)
  | CommunityVoteContext (token_ : string)
  | CommunityIssueSession (user : option string)
  | CommunityRevokeSessions (user : option string)
  | CommunityCastVote (data : pydict) (user : option string)
  | CommunityTally (proposal_id : string) (at_ : option string)
  | CommunityMonitor (at_ : option string)
  | CommunityReconcile (proposal_id : option string).

(** A request with the world it is served in: the clocks, the identifier drawn for
    a session, and what verifying the public record gives. *)
Record turn := { t_world : Runtime.world; t_drawn : string; t_verified : res pydict; t_request : service_request }.

Definition now_ns (t : turn) : Z := t.(t_world).(Runtime.wall_ns).

Definition serve (t : turn) : act unit :=
  let drop {A} (m : act A) : act unit := let* _ := m in st_ret tt in
  match t.(t_request) with
  | TechnologyPatch data e er id => drop (patch_technology t.(t_world) data e er id)
  | CommunitySnapshot detail => drop (inside (T:=community) (snapshot env detail))
  | CommunityUpsertAccount data => drop (inside (upsert_account env data))
  | CommunityPatchPolicy data => drop (community_patch_policy data)
  | CommunityApplyChange p => drop (community_apply_change t.(t_world) p)
  | CommunityCreateProposal data => drop (inside (create_proposal env data))
  | CommunityUpdateProposal p data => drop (inside (update_proposal env p data))
  | CommunityIssueVoteEmails p data => drop (community_issue_vote_emails p data)
  | CommunityVoteContext token_ => drop (inside (vote_context env token_))
  | CommunityIssueSession user => drop (community_issue_session (now_ns t) t.(t_drawn) user)
  | CommunityRevokeSessions user => drop (community_revoke_sessions user)
  | CommunityCastVote data user => drop (community_cast_vote (now_ns t) data user)
  | CommunityTally p at_ => drop (inside (tally_at env p (option_map VStr at_)))
  | CommunityMonitor at_ => drop (inside (monitor env (option_map VStr at_)))
  | CommunityReconcile p => drop (community_public_record_reconcile t.(t_verified) p)
  end.

Definition serve_all (ts : list turn) (s : service) : service := fold_left (fun s t => fst (serve t s)) ts s.
End service.

(** ** What a turn asks of the governance *)

(** The account of a session, in its present generation. *)
Definition current (g : governance) (session : CommunitySession) : Prop :=
  exists account, alookup g.(accounts) (strip session.(account_id)) = Some account /\ get_int account "authGeneration" 1 = Ok session.(auth_generation).

(** A turn may make a request of the governance: it asked for it, and where the
    request needs a right, it was there. *)
Definition permitted (sessions : session_manager) (vars : settings) (t : turn) (g : governance) (r : request) : Prop :=
  let q := t.(t_request) in
  match r with
  | PatchPolicy data => q = CommunityPatchPolicy data /\
      (bootstrap_override vars = true \/ g.(proposals) = [] /\ g.(invitations) = [] /\ g.(votes) = [])
  | UpsertAccount data => q = CommunityUpsertAccount data
  | AuthenticatedAccount a => q = CommunityIssueSession (Some a) \/ exists data user, q = CommunityCastVote data user
  | RevokeSessions a => q = CommunityRevokeSessions (Some a)
  | CreateProposal data => q = CommunityCreateProposal data
  | UpdateProposal p data => q = CommunityUpdateProposal p data
  | PrepareInvitations p _ _ => exists data, q = CommunityIssueVoteEmails p data
  | Deliver _ _ _ => exists p data, q = CommunityIssueVoteEmails p data
  | CastVote token _ user only => exists data, q = CommunityCastVote data user /\ token = stripped data "token" /\ only = token_only vars
  | CastAccountVote p _ a => exists data user session, q = CommunityCastVote data user /\ p = stripped data "proposalId" /\
      vouched sessions (stripped data "sessionToken") (now_ns t) session /\ a = session.(account_id) /\ current g session
  | ApplyPolicy p | MarkApplied p => q = CommunityApplyChange p
  | Reconcile p => q = CommunityReconcile p
  | Look token => q = CommunityVoteContext token
  | Monitor at_ => exists a, q = CommunityMonitor a
  | TallyAt p at_ => exists a, q = CommunityTally p a
  | Snapshot d => q = CommunitySnapshot d
  end.

Section requests.
Context (env : environment) (P : governance -> request -> Prop).

(** Each request of a list is permitted where it runs. *)
Fixpoint all_permitted (c : community) (rs : list request) : Prop :=
  match rs with
  | [] => True
  | r :: rs => P c.(gov) r /\ all_permitted (fst (run env r c)) rs
  end.

Lemma all_permitted_app c rs rs' : all_permitted c (rs ++ rs') <-> all_permitted c rs /\ all_permitted (run_all env rs c) rs'.
Proof. revert c. induction rs as [|r rs IH]; intros c; cbn; [tauto|]. rewrite IH. unfold run_all. cbn. tauto. Qed.

(** What permitted requests make of [c0]. *)
Definition acted (c0 c : community) : Prop := exists rs, c = run_all env rs c0 /\ all_permitted c0 rs.

Lemma acted_refl c : acted c c.
Proof. by exists []. Qed.

Lemma acted_step c0 c r : acted c0 c -> P c.(gov) r -> acted c0 (fst (run env r c)).
Proof.
  intros (rs & -> & Hrs) Hr. exists (rs ++ [r]). split; [by rewrite run_all_snoc|]. apply all_permitted_app. by split; [|split].
Qed.

(** An operation that is a request, and one that only looks. *)
Lemma acted_run {A} c0 r (m : op A) : (forall c, fst (m c) = fst (run env r c)) -> (forall g, P g r) -> keeps (acted c0) m.
Proof. intros Hm Hr c Hc. rewrite Hm. by apply acted_step. Qed.

Lemma acted_look {A} c0 (m : op A) : (forall c, fst (m c) = c) -> keeps (acted c0) m.
Proof. intros Hm c Hc. by rewrite Hm. Qed.
End requests.

Lemma run_drop {A} (m : op A) c : fst ((let* _ := m in st_ret tt) c) = fst (m c).
Proof. unfold st_bind. by destruct (m c) as [c' [a|e]]. Qed.

Ltac is_request := intros ?; cbn [run]; by rewrite run_drop.

Lemma adopted_change_looks p c : fst (adopted_change p c) = c.
Proof.
  unfold adopted_change, st_bind, get_gov, st_lift. cbn. destruct (find_proposal _ _) as [x|]; [|done]. destruct (adoptable x); [|done]. by destruct (dindex x "version").
Qed.

Definition bootstrap_open (g : governance) : bool := null g.(proposals) && null g.(invitations) && null g.(votes).

Lemma bootstrap_looks c : bootstrap_policy_mutation_allowed c = (c, Ok (bootstrap_open c.(gov))).
Proof. done. Qed.

Section acting.
Context (cfg : Runtime.runtime_config) (env : environment) (sessions : session_manager) (vars : settings) (t : turn) (c0 : community).
#[local] Abbreviation P := (permitted sessions vars t).
#[local] Abbreviation acts m := (keeps (fun s : service => acted env P c0 s.(com)) m).

Lemma acts_inside {A} (m : op A) : keeps (acted env P c0) m -> acts (inside m).
Proof. intros Hm s Hs. rewrite inside_eq. apply (Hm s.(com)), Hs. Qed.

Lemma acts_node {A} (m : st Runtime.runtime A) : acts (inside m).
Proof. by apply keeps_within. Qed.

Lemma acts_bootstrap : acts (inside bootstrap_policy_mutation_allowed).
Proof. by apply acts_inside, acted_look. Qed.

Lemma acts_adopted p : acts (inside (adopted_change p)).
Proof. by apply acts_inside, acted_look, adopted_change_looks. Qed.

Lemma acts_deliver url l : (exists p data, t.(t_request) = CommunityIssueVoteEmails p data) -> keeps (acted env P c0) (deliver_all env url l).
Proof.
  intros H. induction l as [|[id token_] l IH]; cbn [deliver_all]; [apply keeps_ret|].
  apply keeps_bind; [|intros r; apply keeps_bind; [exact IH|intros rs; apply keeps_ret]]. by apply (acted_run env P c0 (Deliver id token_ url)); [is_request|].
Qed.

Lemma acts_emails p data : t.(t_request) = CommunityIssueVoteEmails p data -> acts (community_issue_vote_emails env vars p data).
Proof.
  intros H. unfold community_issue_vote_emails. destruct (dget_none data "userIds") as [| | | | |[|u us]|]; try apply keeps_raise.
  apply keeps_bind; [case_match; auto with keeps|intros hours]. cbv zeta. apply acts_inside. unfold issue_vote_emails. apply keeps_bind.
  - by eapply (acted_run env P c0 (PrepareInvitations p _ _)); [is_request|intros g; exists data].
  - intros prepared. apply keeps_bind; [|intros r; apply keeps_ret]. apply acts_deliver. by exists p, data.
Qed.

Lemma acts_apply w p : t.(t_request) = CommunityApplyChange p -> acts (community_apply_change cfg env w p).
Proof.
  intros H. unfold community_apply_change. apply keeps_bind; [apply acts_adopted|intros adopted]. cbv zeta. destruct (String.eqb _ _).
  - apply acts_inside. by apply (acted_run env P c0 (ApplyPolicy p)); [is_request|].
  - destruct (String.eqb _ _); [|apply keeps_raise]. apply keeps_bind; [apply keeps_lift|intros v]. apply keeps_bind; [apply acts_node|intros a].
    apply keeps_bind; [|intros x; apply keeps_ret]. apply acts_inside. by apply (acted_run env P c0 (MarkApplied p)); [is_request|].
Qed.

Lemma acts_patch_policy data : t.(t_request) = CommunityPatchPolicy data -> acts (community_patch_policy env vars data).
Proof.
  intros H [n c] Hs. unfold community_patch_policy, st_bind. rewrite inside_eq. change (part {| node := n; com := c |}) with c. rewrite bootstrap_looks. cbn [fst snd with_part community_part node com].
  destruct (bootstrap_open c.(gov)) eqn:E; cbn [negb andb]; [|destruct (bootstrap_override vars) eqn:E'; [|done]]; cbn [negb]; rewrite inside_eq; cbn [fst com with_part community_part];
    (replace (fst (patch_policy env data _)) with (fst (run env (PatchPolicy data) c)) by (cbn [run]; by rewrite run_drop));
    (apply acted_step; [done|split; [done|]]); [right|by left].
  unfold bootstrap_open in E. destruct (proposals (gov c)), (invitations (gov c)), (votes (gov c)); try discriminate E; done.
Qed.

Lemma acts_issue ns drawn user : t.(t_request) = CommunityIssueSession user -> acts (community_issue_session env sessions ns drawn user).
Proof.
  intros H. unfold community_issue_session. cbv zeta. destruct user as [u|]; [|apply keeps_raise]. change (user_name (Some u)) with u. destruct (String.eqb u ""); [apply keeps_raise|].
  apply keeps_bind; [|intros account; keeps_tac]. apply acts_inside. apply (acted_run env P c0 (AuthenticatedAccount u)); [is_request|]. intros g. by left.
Qed.

Lemma acts_revoke user : t.(t_request) = CommunityRevokeSessions user -> acts (community_revoke_sessions env user).
Proof.
  intros H. unfold community_revoke_sessions. cbv zeta. destruct user as [u|]; [|apply keeps_raise]. change (user_name (Some u)) with u. destruct (String.eqb u ""); [apply keeps_raise|].
  apply acts_inside. by apply (acted_run env P c0 (RevokeSessions u)); [is_request|].
Qed.
End acting.

(** ** Votes by session *)

Section votes.
Context (cfg : Runtime.runtime_config) (env : environment) (sessions : session_manager) (vars : settings).

Lemma authenticated_looks a c : let '(c', out) := authenticated_account env a c in
  match out with Ok x => alookup c'.(gov).(accounts) (strip a) = Some x | Raise _ => True end.
Proof.
  unfold authenticated_account, st_bind. cbn [get_gov]. destruct (active_account _ _) as [x|]; [|done]. unfold st_bind.
  destruct (st_when _ _ c) as [c1 [[]|e]]; [|done]. unfold fetch. cbn [table_of]. by destruct (alookup _ (strip a)).
Qed.

(** What a session votes: nothing, or as its account, in the state its account was looked up. *)
Lemma session_vote_runs session p choice user c : let looked := fst (run env (AuthenticatedAccount session.(account_id)) c) in
  fst (session_vote env session p choice user c) = c \/ fst (session_vote env session p choice user c) = looked \/
  (user = "" \/ user = session.(account_id)) /\ current looked.(gov) session /\
  fst (session_vote env session p choice user c) = fst (run env (CastAccountVote p choice session.(account_id)) looked).
Proof.
  cbn [run]. rewrite !run_drop. unfold session_vote. destruct (negb (String.eqb user "") && _) eqn:E; [by left|right].
  unfold st_bind. pose proof (authenticated_looks session.(account_id) c) as Hl. destruct (authenticated_account env _ c) as [c1 [x|e]]; [|by left]. cbn [fst].
  unfold st_lift. destruct (get_int x "authGeneration" 1) as [g|e] eqn:Eg; [|by left]. destruct (Z.eqb_spec g session.(auth_generation)) as [->|]; [|by left]. cbn [negb]. right.
  split_and!; [|by exists x|done]. apply andb_false_iff in E as [E|E]; apply negb_false_iff, String.eqb_eq in E; [by left|by right].
Qed.

(** The vote a turn casts on a community: with the credential of a mail, or with
    a session that this service signed, for its account in its generation. *)
Definition voted_by (t : turn) (c : community) (vid : string) (vote : pydict) : Prop := exists data user,
  t.(t_request) = CommunityCastVote data user /\
  let choice := py_str (dget_or data "choice" (VStr "")) in
  (stripped data "token" <> "" /\ cast_from c.(gov) (CastVote (stripped data "token") choice user (token_only vars)) vid vote \/
   exists session, vouched sessions (stripped data "sessionToken") (now_ns t) session /\
     (user_name user = "" \/ user_name user = session.(account_id)) /\
     let looked := (fst (run env (AuthenticatedAccount session.(account_id)) c)).(gov) in
     current looked session /\ cast_from looked (CastAccountVote (stripped data "proposalId") choice session.(account_id)) vid vote).

(** A community made by one cast of a turn, or by none. *)
Definition cast_by (t : turn) (c c' : community) : Prop :=
  (exists rs, c' = run_all env rs c /\ Forall (fun r => is_cast r = false) rs) \/
  exists c1 r, (exists rs, c1 = run_all env rs c /\ Forall (fun r => is_cast r = false) rs) /\ c' = fst (run env r c1) /\
    forall vid vote, cast_from c1.(gov) r vid vote -> voted_by t c vid vote.

Lemma cast_turn t data user s : t.(t_request) = CommunityCastVote data user ->
  acted env (permitted sessions vars t) s.(com) (fst (serve cfg env sessions vars t s)).(com) /\ cast_by t s.(com) (fst (serve cfg env sessions vars t s)).(com).
Proof.
  intros H. set (P := permitted sessions vars t). unfold serve. rewrite H.
  assert (forall A (m : act A) s, fst ((let* _ := m in st_ret tt) s) = fst (m s)) as -> by (intros A m s'; unfold st_bind; by destruct (m s') as [s'' [a|e]]).
  destruct s as [n c]. cbn [com]. assert (acted env P c c /\ cast_by t c c) as Hsame by (split; [apply acted_refl|left; by exists []]).
  unfold community_cast_vote. cbv zeta. destruct (negb _ && negb _); [done|]. destruct (String.eqb_spec (stripped data "sessionToken") "") as [_|_]; cbn [negb].
  - destruct (String.eqb_spec (stripped data "token") "") as [_|Hne]; [done|]. rewrite inside_eq. cbn [fst com with_part community_part part].
    replace (fst (cast_vote env _ _ _ _ c)) with (fst (run env (CastVote (stripped data "token") (py_str (dget_or data "choice" (VStr ""))) user (token_only vars)) c)) by (cbn [run]; by rewrite run_drop).
    split; [apply acted_step; [apply acted_refl|by exists data]|]. right. exists c. eexists. split; [by exists []|]. split; [done|]. intros vid vote Hv. exists data, user. split; [done|]. by left.
  - destruct (String.eqb_spec (stripped data "proposalId") "") as [_|_]; [done|]. unfold st_bind, st_lift.
    destruct (verify sessions _ _) as [session|e] eqn:Ev; [|done]. apply verify_vouched in Ev. rewrite inside_eq. cbn [fst com with_part community_part part].
    set (looked := fst (run env (AuthenticatedAccount session.(account_id)) c)).
    assert (acted env P c looked) as Ha by (apply acted_step; [apply acted_refl|]; right; by exists data, user).
    assert (exists rs, looked = run_all env rs c /\ Forall (fun r => is_cast r = false) rs) as Hl by (exists [AuthenticatedAccount session.(account_id)]; by repeat constructor).
    destruct (session_vote_runs session (stripped data "proposalId") (py_str (dget_or data "choice" (VStr ""))) (user_name user) c) as [->|[->|(Hu & Hc & ->)]]; fold looked.
    + done.
    + split; [done|by left].
    + split; [apply acted_step; [done|by exists data, user, session]|]. right. exists looked. eexists. split; [done|]. split; [done|].
      intros vid vote Hv. exists data, user. split; [done|]. right. exists session. by split_and!.
Qed.
End votes.

Section service_requests.
Context (cfg : Runtime.runtime_config) (env : environment) (sessions : session_manager) (vars : settings).
#[local] Abbreviation serve := (serve cfg env sessions vars).
#[local] Abbreviation serve_all := (serve_all cfg env sessions vars).

Lemma cast_or_not q : (exists data user, q = CommunityCastVote data user) \/ forall data user, q <> CommunityCastVote data user.
Proof. destruct q; try (by right). left. by eexists _, _. Qed.

Lemma serve_acted t s : acted env (permitted sessions vars t) s.(com) (fst (serve t s)).(com).
Proof.
  destruct (cast_or_not t.(t_request)) as [(data & user & H)|Hno]; [by eapply cast_turn|].
  assert (keeps (fun s' : service => acted env (permitted sessions vars t) s.(com) s'.(com)) (serve t)) as Hk; [|by apply Hk, acted_refl].
  unfold serve, RuntimeCommunity.serve. destruct t.(t_request) eqn:E; try (by destruct (Hno data user)); (apply keeps_bind; [|intros ?; apply keeps_ret]);
    auto using acts_emails, acts_apply, acts_patch_policy, acts_issue, acts_revoke.
  2-8: apply acts_inside.
  - unfold patch_technology. apply keeps_bind; [destruct (dhas _ _); [apply acts_bootstrap|apply keeps_ret]|intros b]. destruct (_ && _); [apply keeps_raise|apply acts_node].
  - apply (acted_run env _ _ (Snapshot detail)); [is_request|done].
  - apply (acted_run env _ _ (UpsertAccount data)); [is_request|done].
  - apply (acted_run env _ _ (CreateProposal data)); [is_request|done].
  - apply (acted_run env _ _ (UpdateProposal proposal_id data)); [is_request|done].
  - apply (acted_run env _ _ (Look token_)); [is_request|done].
  - eapply (acted_run env _ _ (TallyAt proposal_id (option_map VStr at_))); [is_request|intros g; by exists at_].
  - eapply (acted_run env _ _ (Monitor (option_map VStr at_))); [is_request|intros g; by exists at_].
  - unfold community_public_record_reconcile. apply keeps_bind; [|intros r; keeps_tac]. apply acts_inside.
    by apply (acted_run env _ _ (Reconcile proposal_id)); [is_request|].
Qed.

(** The community service acts through governance only. What a turn makes of
    the community is what a list of governance requests makes of it, each of them
    permitted where it runs: asked for by the turn, a policy patched only while
    nothing was proposed yet or by the operator's override, a mailed credential
    used as the turn gave it, and a vote by account cast only with a token this
    service signed, for that account, in the account's present generation. *)
Theorem service_acts_through_governance t s : exists rs,
  (fst (serve t s)).(com) = run_all env rs s.(com) /\ all_permitted env (permitted sessions vars t) s.(com) rs.
Proof. apply serve_acted. Qed.

Lemma permitted_no_cast t c rs : (forall data user, t.(t_request) <> CommunityCastVote data user) ->
  all_permitted env (permitted sessions vars t) c rs -> Forall (fun r => is_cast r = false) rs.
Proof.
  intros Hno. revert c. induction rs as [|r rs IH]; intros c; cbn; [constructor|]. intros [Hr Hrs]. constructor; [|by eapply IH].
  destruct r; try done; cbn in Hr; exfalso.
  - destruct Hr as (data & H & _). by eapply Hno.
  - destruct Hr as (data & user & session & H & _). by eapply Hno.
Qed.

Lemma serve_casts t s : cast_by env sessions vars t s.(com) (fst (serve t s)).(com).
Proof.
  destruct (cast_or_not t.(t_request)) as [(data & user & H)|Hno]; [by eapply cast_turn|].
  left. destruct (serve_acted t s) as (rs & Hrs & Hp). exists rs. split; [done|]. by eapply permitted_no_cast.
Qed.

Context (clock : forall n, 0 <= env.(now_at) n < max_moment).

Lemma serve_good t s : good s.(com) -> good (fst (serve t s)).(com).
Proof using clock. intros Hs. destruct (serve_acted t s) as (rs & -> & _). by apply run_all_good. Qed.

Lemma serve_all_good ts s : good s.(com) -> good (serve_all ts s).(com).
Proof using clock. revert s. induction ts as [|t ts IH]; intros s Hs; [done|]. apply IH, serve_good, Hs. Qed.

(** Requests that are no casts leave every vote. *)
Lemma no_casts_same rs c vid : Forall (fun r => is_cast r = false) rs -> same_at Votes vid c.(gov) (run_all env rs c).(gov).
Proof using.
  intros H. revert c. induction H as [|r rs Hr Hrs IH]; intros c; [apply same_at_refl|]. eapply same_at_trans; [|apply IH].
  by apply (run_calm_votes env r vid c.(gov) Hr), same_at_refl.
Qed.

Lemma same_vote g g' vid vote : same_at Votes vid g g' -> alookup g'.(votes) vid = Some vote ->
  exists old, alookup g.(votes) vid = Some old /\ agree Votes old vote.
Proof using. unfold same_at. cbn [table_of]. intros H Hv. rewrite Hv in H. destruct (alookup (votes g) vid) as [old|]; [by exists old|done]. Qed.

Lemma vote_same g g' vid vote : same_at Votes vid g g' -> alookup g.(votes) vid = Some vote ->
  exists vote', alookup g'.(votes) vid = Some vote' /\ agree Votes vote vote'.
Proof using. unfold same_at. cbn [table_of]. intros H Hv. rewrite Hv in H. destruct (alookup (votes g') vid) as [v|]; [by exists v|done]. Qed.

Lemma voted_by_agree t c vid vote vote' : agree Votes vote vote' -> voted_by env sessions vars t c vid vote -> voted_by env sessions vars t c vid vote'.
Proof using.
  intros Ha (data & user & Hq & [[Ht Hc]|(session & Hs & Hu & Hcur & Hc)]); exists data, user; (split; [done|]); [left|right].
  - split; [done|]. by eapply cast_from_agree.
  - exists session. refine (conj Hs (conj Hu (conj Hcur _))). by eapply cast_from_agree.
Qed.

(** A vote after a turn was there before, or is the one the turn cast. *)
Lemma turn_votes t s vid vote : good s.(com) -> alookup (fst (serve t s)).(com).(gov).(votes) vid = Some vote ->
  (exists old, alookup s.(com).(gov).(votes) vid = Some old /\ agree Votes old vote) \/ voted_by env sessions vars t s.(com) vid vote.
Proof using clock.
  intros Hg Hv. destruct (serve_casts t s) as [(rs & Hc & Hrs)|(c1 & r & (rs & Hc1 & Hrs) & Hc & Hby)]; rewrite Hc in Hv.
  - left. eapply same_vote; [by apply no_casts_same|done].
  - pose proof (no_casts_same rs s.(com) vid Hrs) as Hsame. rewrite <- Hc1 in Hsame.
    apply run_votes in Hv as [(old & Ho & Ha)|[_ Hcast]]; [| |by rewrite Hc1; apply run_all_good].
    + left. destruct (same_vote _ _ _ _ Hsame Ho) as (old' & Ho' & Ha'). exists old'. split; [done|]. intros f Hf. by rewrite (Ha f Hf), (Ha' f Hf).
    + right. by apply Hby.
Qed.

Lemma turn_keeps_votes t s vid vote : good s.(com) -> alookup s.(com).(gov).(votes) vid = Some vote ->
  exists vote', alookup (fst (serve t s)).(com).(gov).(votes) vid = Some vote' /\ agree Votes vote vote'.
Proof using clock.
  intros Hg Hv. destruct (serve_casts t s) as [(rs & -> & Hrs)|(c1 & r & (rs & Hc1 & Hrs) & -> & _)].
  - eapply vote_same; [by apply no_casts_same|done].
  - pose proof (no_casts_same rs s.(com) vid Hrs) as Hsame. rewrite <- Hc1 in Hsame. destruct (vote_same _ _ _ _ Hsame Hv) as (v1 & Hv1 & Ha1).
    apply run_keeps_votes with (env := env) (r := r) in Hv1 as (v2 & Hv2 & Ha2); [|by rewrite Hc1; apply run_all_good].
    exists v2. split; [done|]. intros f Hf. by rewrite (Ha2 f Hf), (Ha1 f Hf).
Qed.

Lemma serve_all_snoc ts t s : serve_all (ts ++ [t]) s = fst (serve t (serve_all ts s)).
Proof using. unfold RuntimeCommunity.serve_all. by rewrite fold_left_app. Qed.

Lemma turns_keep_votes ts s vid vote : good s.(com) -> alookup s.(com).(gov).(votes) vid = Some vote ->
  exists vote', alookup (serve_all ts s).(com).(gov).(votes) vid = Some vote' /\ agree Votes vote vote'.
Proof using clock.
  intros Hg Hv. induction ts as [|t ts (v & Hl & Ha)] using rev_ind; [by exists vote|]. rewrite serve_all_snoc.
  destruct (turn_keeps_votes t _ _ _ (serve_all_good ts s Hg) Hl) as (v' & Hv' & Ha'). exists v'. split; [done|]. intros f Hf. by rewrite (Ha' f Hf), (Ha f Hf).
Qed.

(** C25: the votes of the service are authenticated, end to end. Whatever turns are
    served from a governance document without votes, each vote was cast by one of
    them, a vote request: with the credential of an invitation's mail, or with a
    session token under this service's signature, inside its window, for the
    account that votes and in the generation the account had at that moment; and
    no later turn, whatever it asks for, removes the vote or changes who voted on
    what, when, and how. *)
Theorem service_votes_are_authenticated ts s vid vote : well_formed s.(com).(gov) -> s.(com).(gov).(votes) = [] ->
  alookup (serve_all ts s).(com).(gov).(votes) vid = Some vote ->
  (exists ts1 t ts2, ts = ts1 ++ t :: ts2 /\ voted_by env sessions vars t (serve_all ts1 s).(com) vid vote) /\
  forall ts', exists later, alookup (serve_all (ts ++ ts') s).(com).(gov).(votes) vid = Some later /\ agree Votes vote later.
Proof using clock.
  intros Hg He Hv. split.
  - revert vote Hv. induction ts as [|t ts IH] using rev_ind; intros vote Hv; [change (serve_all [] s) with s in Hv; by rewrite He in Hv|].
    rewrite serve_all_snoc in Hv. apply turn_votes in Hv as [(old & Ho & Ha)|Hby]; [| |by apply serve_all_good].
    + destruct (IH old Ho) as (ts1 & t' & ts2 & -> & Hc). exists ts1, t', (ts2 ++ [t]). split; [by rewrite <- app_assoc|]. by eapply voted_by_agree.
    + by exists ts, t, [].
  - intros ts'. assert (serve_all (ts ++ ts') s = serve_all ts' (serve_all ts s)) as -> by (unfold RuntimeCommunity.serve_all; by rewrite fold_left_app).
    apply turns_keep_votes; [by apply serve_all_good|done].
Qed.
End service_requests.

(** ** Revocation *)

(** The account is past a generation. *)
Definition past (a : string) (n : Z) (c : community) : Prop :=
  exists account m, alookup c.(gov).(accounts) a = Some account /\ dget account "authGeneration" = Some (VInt m) /\ n < m.

Section past.
Context (env : environment) (a : string) (n : Z).

Lemma calm_past {A} (m : op A) : (forall g0, keeps (calm Accounts a g0) m) -> keeps (past a n) m.
Proof.
  intros Hm c (x & k & Hx & Hk & Hn). pose proof (Hm c.(gov) c (same_at_refl _ _ _)) as Hs. unfold calm, same_at in Hs. cbn [table_of] in Hs. rewrite Hx in Hs.
  unfold past. destruct (alookup (accounts (gov (fst (m c)))) a) as [y|]; [|done]. exists y, k. split; [done|]. split; [|done].
  rewrite (Hs "authGeneration"); [done|by left].
Qed.

Lemma put_past x m : dget x "authGeneration" = Some (VInt m) -> n < m -> keeps (fun _ => True) (put Accounts a x) /\ forall c, past a n (fst (put Accounts a x c)).
Proof.
  intros Hx Hm. split; [done|]. intros c. exists x, m. cbn. split; [|done]. by rewrite lookup_put, decide_True.
Qed.

Lemma changed_past : keeps (past a n) (_changed env).
Proof. apply calm_past. intros g0. apply changed_calm. Qed.

Lemma generation_past x m : dget x "authGeneration" = Some (VInt m) -> generation x = Ok (Z.max 1 m).
Proof. intros H. unfold generation, get_int, dget_or. by rewrite H. Qed.

Lemma past_of c x : past a n c -> alookup c.(gov).(accounts) a = Some x -> exists m, dget x "authGeneration" = Some (VInt m) /\ n < m.
Proof. intros (y & m & Hy & Hm & Hn) Hx. simplify_eq. by exists m. Qed.

Lemma upsert_past data : keeps (past a n) (upsert_account env data).
Proof.
  intros c Hc. unfold upsert_account. cbv zeta. set (id := slice 128 _). destruct (_ || _); [done|]. unfold st_bind at 1, get_gov.
  destruct (decide (id = a)) as [->|Hne].
  - destruct Hc as (x & m & Hx & Hm & Hn). rewrite Hx. change (default [] (Some x)) with x. rewrite (generation_past _ _ Hm), st_lift_Ok.
    match goal with |- context [put Accounts a ?y] => set (account := y) end.
    assert (exists m', dget account "authGeneration" = Some (VInt m') /\ n < m') as (m' & Hm' & Hn').
    { unfold account. match goal with |- context [dmerge x ?e] => assert (dget (dmerge x e) "authGeneration" = Some (VInt (Z.max 1 m))) as Hg by (rewrite dmerge_get by nodup_keys; reflexivity) end.
      case_match; [|exists (Z.max 1 m); split; [exact Hg|lia]]. exists (Z.max 1 m + 1). split; [apply dget_dset_eq|lia]. }
    unfold st_bind at 1. pose proof (proj2 (put_past account m' Hm' Hn') c) as Hp. cbn [put change_gov st_modify fst] in *.
    assert (keeps (past a n) (_changed env ;;; st_ret account)) as Hk by (apply keeps_bind; [apply changed_past|intros ?; apply keeps_ret]). by apply Hk.
  - enough (keeps (past a n) (let* n0 := st_lift (generation (default [] (alookup c.(gov).(accounts) id))) in _)) as Hk by (by apply Hk).
    apply calm_past. intros g0. apply keeps_lift_bind. intros k _. apply keeps_bind; [apply put_calm; by right|intros _]. apply keeps_bind; [apply changed_calm|intros _; apply keeps_ret].
Qed.

Lemma authenticated_past user : keeps (past a n) (authenticated_account env user).
Proof.
  intros c Hc. unfold authenticated_account. cbv zeta. unfold st_bind at 1, get_gov. destruct (active_account _ _) as [x|] eqn:Ex; [|done].
  assert (keeps (past a n) (fetch Accounts (strip user))) as Hf by (by intros s).
  destruct (decide (a = strip user)) as [Ha|Hne].
  - unfold active_account in Ex. rewrite <- Ha in Ex, Hf |- *. destruct (alookup (accounts (gov c)) a) as [y|] eqn:Ey; [|done]. destruct (_ || _); [done|]. injection Ex as ->. destruct (past_of c x Hc Ey) as (m & Hm & _).
    unfold dhas. rewrite Hm. cbn [negb st_when]. by apply Hf.
  - enough (keeps (past a n) (st_when (negb (dhas x "authGeneration")) (set_field Accounts (strip user) "authGeneration" (VInt 1) ;;; _save env) ;;; fetch Accounts (strip user))) as Hk by (by apply Hk).
    apply calm_past. intros g0. apply keeps_bind; [|intros _; apply fetch_calm]. apply keeps_when, keeps_bind; [apply set_field_calm; right; left; congruence|intros _; apply save_calm].
Qed.

Lemma revoke_past user : keeps (past a n) (revoke_account_sessions env user).
Proof.
  intros c Hc. unfold revoke_account_sessions. cbv zeta. unfold st_bind at 1, get_gov. destruct (alookup (accounts (gov c)) (strip user)) as [[|f x]|] eqn:Ex; [done| |done]. set (account := f :: x) in *.
  assert (forall (i : string), keeps (past a n) (_changed env ;;; let* z := fetch Accounts i in st_ret (dremove z "email"))) as Hrest.
  { intros i. apply keeps_bind; [apply changed_past|intros _]. intros s Hs. unfold st_bind, fetch. by destruct (alookup (table_of Accounts (gov s)) i). }
  destruct (decide (a = strip user)) as [Ha|Hne].
  - rewrite <- Ha in Ex |- *. destruct (past_of c account Hc Ex) as (m & Hm & Hn). rewrite (generation_past _ _ Hm), st_lift_Ok. unfold st_bind at 1. cbn [set_field amend change_gov st_modify table_of]. rewrite Ex.
    apply Hrest. exists (dset account "authGeneration" (VInt (Z.max 1 m + 1))), (Z.max 1 m + 1). split; [cbn [gov accounts with_table table_of]; by rewrite lookup_put, decide_True|]. split; [apply dget_dset_eq|lia].
  - enough (keeps (past a n) (let* k := st_lift (generation account) in set_field Accounts (strip user) "authGeneration" (VInt (k + 1)) ;;; _changed env ;;;
                              let* z := fetch Accounts (strip user) in st_ret (dremove z "email"))) as Hk by (by apply Hk).
    apply keeps_lift_bind. intros k _. apply keeps_bind; [|intros _; apply Hrest]. apply calm_past. intros g0. apply set_field_calm. right. left. congruence.
Qed.

(** No request takes an account back to a generation it was past. *)
Lemma run_past r : keeps (past a n) (run env r).
Proof.
  assert (Accounts <> Invitations) as Hk by done.
  destruct r; cbn [run]; (apply keeps_bind; [|intros ?; apply keeps_ret]); auto using upsert_past, authenticated_past, revoke_past;
    apply calm_past; intros g0; auto using patch_policy_calm, prepare_invitations_calm, deliver_calm, reconcile_calm, apply_policy_calm, mark_applied_calm.
  - apply create_proposal_calm; [done|by left].
  - apply update_proposal_elsewhere. by left.
  - by apply casts_calm.
  - by apply casts_calm.
  - unfold vote_context, _utc_now. keeps_tac; apply get_gov_calm || apply ask_calm.
  - unfold monitor, moment, _utc_now. keeps_tac; apply get_gov_calm || apply ask_calm.
  - unfold tally_at, moment, _utc_now. keeps_tac; apply get_gov_calm || apply ask_calm.
  - unfold snapshot. keeps_tac; apply get_gov_calm || apply ask_calm.
Qed.

Lemma run_all_past rs c : past a n c -> past a n (run_all env rs c).
Proof. revert c. induction rs as [|r rs IH]; intros c Hc; [done|]. apply IH. by apply run_past. Qed.
End past.

Lemma past_mono a n n' c : n' <= n -> past a n c -> past a n' c.
Proof. intros Hn (x & m & Hx & Hm & Hlt). exists x, m. split_and!; [done..|lia]. Qed.

(** Looking up an account past any generation changes nothing. *)
Lemma authenticated_past_looks env a n c : past (strip a) n c -> exists e, authenticated_account env a c = (c, Raise e) \/
  exists x m, authenticated_account env a c = (c, Ok x) /\ get_int x "authGeneration" 1 = Ok m /\ n < m.
Proof.
  intros (x & m & Hx & Hm & Hn).
  assert (authenticated_account env a c = if null x || negb (has x "active") then (c, Raise (PermissionError "active community account not found")) else (c, Ok x)) as ->.
  { unfold authenticated_account. cbv zeta. unfold st_bind at 1, get_gov. unfold active_account. rewrite Hx. destruct (_ || _); [done|].
    unfold dhas. rewrite Hm. cbn [negb st_when]. unfold st_bind, st_ret, fetch. cbn [table_of]. by rewrite Hx. }
  eexists. destruct (_ || _); [left; reflexivity|right]. exists x, m. split_and!; [done| |done]. unfold get_int, dget_or. by rewrite Hm.
Qed.

Lemma ok_inj {S A} (s s' : S) (a a' : A) : (s, Ok a) = (s', Ok a') -> s = s' /\ a = a'.
Proof. by intros [= -> ->]. Qed.

Lemma issued_inj m s s' l l' : issued_dict m s ++ l = issued_dict m s' ++ l' -> s = s'.
Proof. destruct s, s'. cbn. intros [=]. by subst. Qed.

Lemma token_nonempty m s : readable s -> str_len (token_of m s) <= _MAX_TOKEN_BYTES -> token_of m s <> "".
Proof.
  intros Hr Hl He. pose proof (verify_token m s s.(issued_at_ns) Hr Hl) as Hv. rewrite He in Hv.
  destruct Hr as (_ & _ & _ & [Hw _] & _). rewrite (proj2 (Z.ltb_ge _ _)), (proj2 (Z.ltb_ge _ _)) in Hv by lia. discriminate Hv.
Qed.

Section revocation.
Context (cfg : Runtime.runtime_config) (env : environment) (sessions : session_manager) (vars : settings).
Context (clock : forall n, 0 <= env.(now_at) n < max_moment).
#[local] Abbreviation serve_all := (serve_all cfg env sessions vars).

Lemma serve_all_past ts s a n : past a n s.(com) -> past a n (serve_all ts s).(com).
Proof using.
  revert s. induction ts as [|t ts IH]; intros s Hs; [done|]. apply IH. destruct (serve_acted cfg env sessions vars t s) as (rs & -> & _). by apply run_all_past.
Qed.

(** Issuing a session: it is of the account, in its generation. *)
Lemma issue_session_means ns drawn user s0 s1 d : well_formed s0.(com).(gov) ->
  community_issue_session env sessions ns drawn user s0 = (s1, Ok d) ->
  exists session about, d = issued_dict sessions session ++ about /\ session.(account_id) = strip (user_name user) /\
    past session.(account_id) (session.(auth_generation) - 1) s1.(com) /\ well_formed s1.(com).(gov).
Proof using clock.
  intros Hg. unfold community_issue_session. cbv zeta. set (u := user_name user). destruct (String.eqb u ""); [done|].
  unfold st_bind at 1. rewrite inside_eq. pose proof (authenticated_looks env u s0.(com)) as Hl.
  pose proof (run_all_good env clock [AuthenticatedAccount u] s0.(com) Hg) as Hg1. unfold run_all in Hg1. cbn [fold_left run] in Hg1. rewrite run_drop in Hg1.
  change (part s0) with s0.(com). destruct (authenticated_account env u s0.(com)) as [c1 [x|e]]; [|done]. cbn [fst snd] in *.
  pose proof (found c1.(gov) Accounts (strip u) x Hg1 Hl) as Hx. destruct (fits_get _ _ "id" _ Hx ltac:(in_schema)) as (i & Hi & ->).
  destruct (fits_get _ _ "authGeneration" _ Hx ltac:(in_schema)) as (v & Hv & g & -> & _). unfold dindex, get_int, dget_or. rewrite Hi, Hv. rewrite !st_lift_Ok.
  cbn [py_int]. rewrite st_lift_Ok. cbn [py_str]. destruct (issue sessions (strip u) g ns drawn) as [session|e] eqn:Ei; [|done]. rewrite st_lift_Ok.
  apply issue_ok in Ei as (-> & _ & _). intros [<- <-]%ok_inj. eexists _, _. split; [reflexivity|]. cbn [account_id auth_generation]. rewrite strip_strip.
  split_and!; [done| |done]. exists x, g. split_and!; [done..|lia].
Qed.

Lemma revoke_bumps u n c : past (strip u) n c -> past (strip u) (n + 1) (fst (revoke_account_sessions env u c)).
Proof using.
  intros (x & m & Hx & Hm & Hn). unfold revoke_account_sessions. cbv zeta. unfold st_bind at 1, get_gov. rewrite Hx. destruct x as [|f x]; [done|]. set (account := f :: x) in *.
  rewrite (generation_past _ _ Hm), st_lift_Ok. unfold st_bind at 1. cbn [set_field amend change_gov st_modify table_of]. rewrite Hx.
  match goal with |- context [st_bind (_changed env) _ ?c] => set (c1 := c) end.
  assert (past (strip u) (n + 1) c1) as Hp.
  { exists (dset account "authGeneration" (VInt (Z.max 1 m + 1))), (Z.max 1 m + 1). split; [cbn [c1 gov accounts with_table table_of]; by rewrite lookup_put, decide_True|].
    split; [apply dget_dset_eq|lia]. }
  enough (keeps (past (strip u) (n + 1)) (_changed env ;;; let* z := fetch Accounts (strip u) in st_ret (dremove z "email"))) as Hk by (by apply Hk).
  apply keeps_bind; [apply changed_past|intros _]. intros c' Hc'. unfold st_bind, fetch. by destruct (alookup (table_of Accounts (gov c')) (strip u)).
Qed.

Lemma revoked_past user s s' d n : past (strip (user_name user)) n s.(com) -> community_revoke_sessions env user s = (s', Ok d) ->
  past (strip (user_name user)) (n + 1) s'.(com).
Proof using.
  intros Hp. unfold community_revoke_sessions. cbv zeta. destruct (String.eqb _ ""); [done|]. rewrite inside_eq. intros [= <- _]. by apply revoke_bumps.
Qed.

(** C26: a revoked session never votes again. A session token of the service, once
    the sessions of its account have been revoked, is refused in every later turn,
    whatever turns lie between (the account renewed, revoked or deactivated, other
    sessions issued), whoever presents it and for whatever proposal: the request
    raises and changes nothing. *)
Theorem revoked_sessions_never_vote ns drawn user s0 s1 session about ts1 user' s2 d ts2 ns' data user'' :
  well_formed s0.(com).(gov) ->
  community_issue_session env sessions ns drawn user s0 = (s1, Ok (issued_dict sessions session ++ about)) ->
  readable session -> str_len (token_of sessions session) <= _MAX_TOKEN_BYTES ->
  strip (user_name user') = session.(account_id) ->
  community_revoke_sessions env user' (serve_all ts1 s1) = (s2, Ok d) ->
  stripped data "sessionToken" = token_of sessions session ->
  exists e, community_cast_vote env sessions vars ns' data user'' (serve_all ts2 s2) = (serve_all ts2 s2, Raise e).
Proof using clock.
  intros Hg Hi Hr Hl Hu Hrev Htoken. apply issue_session_means in Hi as (session' & about' & Hd & Ha & Hp & _); [|done]. apply issued_inj in Hd as <-.
  apply serve_all_past with (ts := ts1) in Hp. rewrite <- Hu in Hp. apply (revoked_past _ _ _ _ _ Hp) in Hrev as Hp2.
  apply serve_all_past with (ts := ts2) in Hp2. rewrite Hu in Hp2. apply past_mono with (n' := session.(auth_generation)) in Hp2; [|lia].
  set (s := serve_all ts2 s2) in *. unfold community_cast_vote. cbv zeta. rewrite Htoken. rewrite (str_eqb_ne _ _ (token_nonempty _ _ Hr Hl)). cbn [negb].
  destruct (negb _ && _); [by eexists|]. destruct (String.eqb _ _); [by eexists|]. rewrite (verify_token _ _ _ Hr Hl).
  destruct (ns' <? _); [by eexists|]. destruct (_ <? ns'); [by eexists|]. rewrite st_lift_Ok, inside_eq. change (part s) with s.(com).
  assert (exists e, session_vote env session (stripped data "proposalId") (py_str (dget_or data "choice" (VStr ""))) (user_name user'') s.(com) = (s.(com), Raise e)) as [e ->].
  { unfold session_vote. destruct (_ && _); [by eexists|]. unfold st_bind.
    assert (strip session.(account_id) = session.(account_id)) as Hs by (by rewrite Ha, strip_strip). rewrite <- Hs in Hp2.
    destruct (authenticated_past_looks env _ _ _ Hp2) as (e & [->|(x & m & -> & Hm & Hlt)]); [by eexists|]. unfold st_lift. rewrite Hm.
    rewrite (proj2 (Z.eqb_neq _ _)) by lia. by eexists. }
  exists e. cbn [fst snd]. by destruct s.
Qed.
End revocation.

(** ** Runs *)

Definition no_settings : settings :=
  {| STAGEFORGE_GOVERNANCE_BOOTSTRAP := None; STAGEFORGE_GOVERNANCE_TOKEN_ONLY := None; STAGEFORGE_PUBLIC_BASE_URL := None |}.

Definition turn_of (r : service_request) : turn :=
  {| t_world := RuntimeFacts.calm; t_drawn := sample_drawn; t_verified := Ok []; t_request := r |}.

Abbreviation sample_serve := (serve RuntimeCommands.alone sample_env sample_manager no_settings).
Abbreviation sample_serve_all := (serve_all RuntimeCommands.alone sample_env sample_manager no_settings).

Definition new_service : service := {| node := RuntimeCommands.solo; com := empty_community |}.

(** The session of the account ada, issued at the second one of the epoch. *)
Definition ada_session : CommunitySession :=
  {| account_id := "ada"; auth_generation := 1; session_id := "community-session-" +:+ sample_drawn; issued_at_ns := 1000000000;
     expires_at_ns := 901000000000 |}.
Definition ada_token : string := Eval vm_compute in token_of sample_manager ada_session.

Definition invited_turns : list turn := map turn_of
  [CommunityUpsertAccount [("id", VStr "ada"); ("email", VStr "ada@example.org")];
   CommunityCreateProposal [("id", VStr "p"); ("title", VStr "Longer rehearsals")];
   CommunityIssueVoteEmails "p" [("userIds", VList [VStr "ada"])];
   CommunityIssueSession (Some "ada")].

Definition session_ballot : turn := turn_of (CommunityCastVote
  [("sessionToken", VStr ada_token); ("proposalId", VStr "p"); ("choice", VStr "yes")] (Some "ada")).

Abbreviation balloted := (sample_serve_all (invited_turns ++ [session_ballot]) new_service).

(** The one vote of the run. *)
Lemma balloted_vote : exists vid vote, alookup balloted.(com).(gov).(votes) vid = Some vote /\ dget_none vote "choice" = VStr "yes".
Proof.
  assert (match balloted.(com).(gov).(votes) with
          | [(_, vote)] => match dget_none vote "choice" with VStr c => String.eqb c "yes" | _ => false end | _ => false end = true) as H by (vm_compute; reflexivity).
  destruct (votes (gov (com balloted))) as [|[vid vote] [|]]; [discriminate H| |discriminate H]. exists vid, vote. cbn [alookup]. rewrite str_eqb_refl. split; [reflexivity|].
  destruct (dget_none vote "choice") as [| | | |c| |]; try discriminate H. by apply String.eqb_eq in H as ->.
Qed.

Lemma service_votes_are_authenticated_witness : exists vid vote,
  dget_none vote "choice" = VStr "yes" /\
  exists ts1 t ts2, invited_turns ++ [session_ballot] = ts1 ++ t :: ts2 /\
    voted_by sample_env sample_manager no_settings t (sample_serve_all ts1 new_service).(com) vid vote.
Proof.
  destruct balloted_vote as (vid & vote & Hv & Hc). exists vid, vote. split; [exact Hc|].
  destruct (service_votes_are_authenticated RuntimeCommands.alone sample_env sample_manager no_settings sample_clock (invited_turns ++ [session_ballot]) new_service vid vote
    new_well_formed eq_refl Hv) as [H _]. exact H.
Defined.

(** The session is issued, the account renames itself and revokes its sessions,
    another session is issued; then the first one is presented. *)
Definition with_account : service := {| node := RuntimeCommands.solo; com := {| gov := with_table Accounts
  [("ada", [("id", VStr "ada"); ("email", VStr "ada@example.org"); ("displayName", VStr ""); ("active", VBool true); ("authGeneration", VInt 1)])] new_governance;
  disk := None; asked := 0 |} |}.

Definition renamed : list turn := [turn_of (CommunityUpsertAccount [("id", VStr "ada"); ("email", VStr "ada@example.org"); ("displayName", VStr "Ada")])].
Definition issued_again : list turn := [turn_of (CommunityIssueSession (Some "ada"))].

Definition account_part : pydict := [("account", VDict [("id", VStr "ada"); ("displayName", VStr ""); ("active", VBool true)])].

Lemma account_well_formed : well_formed with_account.(com).(gov).
Proof.
  destruct new_well_formed as [Hp _ _]. split; [exact Hp| |done]. intros []; cbn; try apply List.Forall_nil. repeat constructor; cbn; try done; [by eexists..|].
  by exists 1.
Qed.

Lemma ada_readable : readable ada_session.
Proof. unfold readable. cbn. split_and!; try (vm_compute; congruence). by exists sample_drawn. Qed.

Lemma revoked_sessions_never_vote_witness : exists e s,
  community_cast_vote sample_env sample_manager no_settings 2000000000 [("sessionToken", VStr (token_of sample_manager ada_session)); ("proposalId", VStr "p")] None s = (s, Raise e).
Proof.
  destruct (revoked_sessions_never_vote RuntimeCommands.alone sample_env sample_manager no_settings sample_clock 1000000000 sample_drawn (Some "ada") with_account with_account
    ada_session account_part renamed (Some " ada") (fst (community_revoke_sessions sample_env (Some " ada") (sample_serve_all renamed with_account)))
    (match snd (community_revoke_sessions sample_env (Some " ada") (sample_serve_all renamed with_account)) with Ok d => d | Raise _ => [] end)
    issued_again 2000000000 [("sessionToken", VStr (token_of sample_manager ada_session)); ("proposalId", VStr "p")] None account_well_formed) as [e He].
  - reflexivity.
  - exact ada_readable.
  - vm_compute. discriminate.
  - reflexivity.
  - reflexivity.
  - vm_compute. reflexivity.
  - eexists e, _. exact He.
Defined.

(** A change of the technology policy that the community adopted. *)
Definition adopted_change_of (id : string) : string * pydict :=
  (id, [("id", VStr id); ("version", VInt 1); ("status", VStr "adopted");
        ("change", VDict [("kind", VStr "technology-openness-policy"); ("payload", VDict [("emergingStandardGroups", VInt 4)]); ("hash", VStr "h")])]).

Definition adopted_service : service := {| node := RuntimeCommands.solo;
  com := {| gov := with_table Proposals [adopted_change_of "p"] new_governance; disk := None; asked := 0 |} |}.

(** The policy of the show, and whether the change counts as applied. *)
Definition applied_state (s : service) : pyval * bool :=
  (dget_none s.(node).(Runtime.show).(ShowData.s_technology).(ShowData.t_policy) "emergingStandardGroups",
   match alookup s.(com).(gov).(proposals) "p" with Some x => has x "appliedAt" | None => false end).

(** A change that is adopted is applied under a command identifier that any client
    may have used before, for any other command: the change then counts as applied,
    and the policy stays as it was. *)
Example used_identifier_swallows_the_change :
  applied_state (sample_serve_all [turn_of (CommunityApplyChange "p")] adopted_service) = (VInt 4, true) /\
  applied_state (sample_serve_all [turn_of (TechnologyPatch [] None None "community-apply:p:v1"); turn_of (CommunityApplyChange "p")] adopted_service) = (VInt 2, true).
Proof. vm_compute. split; reflexivity. Qed.

(** Identifiers of commands are cut to 128 characters, those of proposals to 160:
    the changes of two long proposals share one. *)
Example long_proposals_share_an_identifier : let stem := of_chars (repeat "p"%char 112) in
  Runtime.clean_command (apply_command (stem +:+ "-first") (VInt 1)) = Runtime.clean_command (apply_command (stem +:+ "-second") (VInt 1)).
Proof. vm_compute. reflexivity. Qed.
