(* ===== verification/DeviceIdentity.v ===== *)
(** * Identity of MIDI and audio endpoints (backend/midi_identity.py, backend/audio_identity.py)

    What an endpoint is identified by, on each platform, and the two stores that
    pin an identity to the identifier the engine gave the endpoint. The files the
    descriptions read are an argument, [sysfs]: the text of a file and the path a
    path resolves to, nothing where the system call fails. *)

From S2P Require Import Prelude PyStr PyFloat PyVal PyFacts StateLogic Sha256.
From S2P Require Adaptation.

#[local] Open Scope string_scope.
#[local] Open Scope list_scope.
#[local] Open Scope Z_scope.
#[local] Open Scope st_scope.

(** ** Identity tokens *)

Definition is_hex_lower (c : ascii) : bool := is_digit c || in_range 97 102 c.

(** What follows a prefix of a text. *)
Fixpoint after (prefix l : list ascii) : option (list ascii) :=
  match prefix, l with
  | [], _ => Some l
  | p :: prefix, c :: l => if Ascii.eqb p c then after prefix l else None
  | _, _ => None
  end.

(** [re.fullmatch("sha256:[0-9a-f]{64}", text)]. *)
Definition is_hash_token (text : string) : bool :=
  match after (chars "sha256:") (chars text) with
  | Some digits => (length digits =? 64)%nat && forallb is_hex_lower digits
  | None => false
  end.

Definition _hashed_token (value : pyval) : option string :=
  let text := lower (strip (py_str (py_or value (VStr "")))) in
  if is_hash_token text then Some text else None.

(** [item.split("=", 1)]. *)
Fixpoint split_equals (l : list ascii) : option (list ascii * list ascii) :=
  match l with
  | [] => None
  | c :: l => if Ascii.eqb c (chr 61) then Some ([], l) else match split_equals l with Some (a, b) => Some (c :: a, b) | None => None end
  end.

(** The value under [key] stays only when it is empty or a hash token. *)
Definition drop_raw (key : string) (result : list (string * string)) : list (string * string) :=
  match alookup result key with
  | Some v => if negb (String.eqb v "") && negb (is_hash_token v) then List.filter (fun kv => negb (String.eqb (fst kv) key)) result else result
  | None => result
  end.

Definition metadata_item (keys : list string) (result : list (string * string)) (item : string) : list (string * string) :=
  match split_equals (chars item) with
  | Some (key, val) =>
      if existsb (String.eqb (of_chars key)) keys then aput result (of_chars key) (lower (strip (of_chars val))) else result
  | None => result
  end.

Definition metadata_of (keys : list string) (value : pyval) : list (string * string) :=
  drop_raw "persistent" (drop_raw "native"
    (fold_left (metadata_item keys) (split_char ";"%char (strip (py_str (py_or value (VStr ""))))) [])).

(** [_engine_identity_metadata] of the two modules. *)
Definition midi_metadata : pyval -> list (string * string) := metadata_of ["backend"; "native"; "persistent"; "strength"; "auto"].
Definition audio_metadata : pyval -> list (string * string) := metadata_of ["native"; "persistent"; "strength"; "auto"].

(** [metadata.get(key)], compared with a text; and as a value. *)
Definition says (metadata : list (string * string)) (key value : string) : bool :=
  match alookup metadata key with Some v => String.eqb v value | None => false end.
Definition stated (metadata : list (string * string)) (key : string) : pyval :=
  match alookup metadata key with Some v => VStr v | None => VNone end.

(** ** The files of the system *)

Record sysfs := { read_file : string -> option string; resolve_path : string -> option string }.

Definition _read (fs : sysfs) (path : string) : string :=
  match fs.(read_file) path with Some text => slice 256 (strip text) | None => "" end.

(** [(resolved, *resolved.parents)] of an absolute path. *)
Definition ancestors (path : string) : list string :=
  let parts := List.filter (fun p => negb (String.eqb p "")) (split_char "/"%char path) in
  map (fun n => "/" +:+ join "/" (firstn n parts)) (rev (seq 0 (S (length parts)))).

(** [path / name]. *)
Definition child (path name : string) : string := if String.eqb path "/" then "/" +:+ name else path +:+ "/" +:+ name.

Definition is_usb_device (fs : sysfs) (candidate : string) : bool :=
  negb (String.eqb (_read fs (child candidate "idVendor")) "") && negb (String.eqb (_read fs (child candidate "idProduct")) "").

Definition find_usb (fs : sysfs) (resolved : string) : option string := List.find (is_usb_device fs) (ancestors resolved).

Fixpoint span (p : ascii -> bool) (l : list ascii) : list ascii * list ascii :=
  match l with
  | [] => ([], [])
  | c :: l' => if p c then let '(a, b) := span p l' in (c :: a, b) else ([], l)
  end.

Definition digest24 (kind material : string) : pyval := VStr (kind +:+ slice 24 (sha256_hex (utf8 material))).

(** ** MIDI endpoints *)

Definition midi_identity (persistent : pyval) (strength : string) (eligible : bool) (scope : string) : pydict :=
  [("persistentId", persistent); ("identityStrength", VStr strength); ("automaticRebindEligible", VBool eligible); ("identityScope", VStr scope)].

Definition midi_volatile (scope : string) : pydict := midi_identity VNone "volatile" false scope.

(** [re.fullmatch("/dev/snd/(midiC([0-9]{1,3})D([0-9]{1,3}))", path)]: the card and the device number. *)
Definition midi_node (path : string) : option (string * string) :=
  match after (chars "/dev/snd/midiC") (chars path) with
  | Some l =>
      let '(card, rest) := span is_digit l in
      match rest with
      | d :: l' =>
          let '(device, rest') := span is_digit l' in
          if Ascii.eqb d "D"%char && negb (null card) && (length card <=? 3)%nat && negb (null device) && (length device <=? 3)%nat && null rest'
          then Some (of_chars card, of_chars device) else None
      | [] => None
      end
  | None => None
  end.

Definition field_text (d : pydict) (k : string) : string := py_str (dget_or d k (VStr "")).
Definition is_true (v : pyval) : bool := match v with VBool true => true | _ => false end.

Definition describe_coremidi (device : pydict) (metadata : list (string * string)) : pydict :=
  let unique := match _hashed_token (py_or (dget_none device "uniqueIdHash") (dget_none device "connectionUniqueIdHash")) with
                | Some u => Some u
                | None => if says metadata "strength" "os-stable-endpoint" && says metadata "auto" "1" then _hashed_token (stated metadata "persistent") else None
                end in
  match unique with
  | Some u => midi_identity (digest24 "midi-" ("coremidi:" +:+ u)) "os-stable-endpoint" true "hash of CoreMIDI unique/connection ID"
  | None => midi_volatile "CoreMIDI endpoint lacks a hashed unique ID"
  end.

Definition describe_windows_midi (device : pydict) (metadata : list (string * string)) : pydict :=
  let persistent := _hashed_token (py_or (dget_none device "persistentIdHash") (stated metadata "persistent")) in
  let verified := is_true (dget_none device "persistentIdentityVerified") || (says metadata "strength" "os-stable-endpoint" && says metadata "auto" "1") in
  match persistent with
  | Some p =>
      if verified then midi_identity (digest24 "midi-" ("windows-midi:" +:+ p)) "os-stable-endpoint" true "platform-verified Windows MIDI persistent identity hash"
      else if says metadata "strength" "installation-snapshot"
      then midi_identity (digest24 "midi-" ("windows-midi-installation:" +:+ p)) "installation-snapshot" false "Windows MIDI installation/interface hash; explicit rebind required"
      else midi_volatile "Windows MIDI endpoint identity is not verified persistence-grade; explicit rebind required"
  | None => midi_volatile "Windows MIDI endpoint identity is not verified persistence-grade; explicit rebind required"
  end.

Definition upper_text (s : string) : string := of_chars (map upper_char (chars s)).

Definition usb_hardware_id (vendor product : string) : pyval := VStr ("USB:" +:+ upper_text vendor +:+ ":" +:+ upper_text product).

Definition describe_alsa_midi (fs : sysfs) (sys_root : string) (card device resolved : string) : pydict :=
  match find_usb fs resolved with
  | Some usb =>
      let vendor := lower (_read fs (child usb "idVendor")) in
      let product := lower (_read fs (child usb "idProduct")) in
      let serial := _read fs (child usb "serial") in
      let has_serial := negb (String.eqb serial "") in
      let material := if has_serial then "usb:" +:+ vendor +:+ ":" +:+ product +:+ ":" +:+ serial
                      else "usb-port:" +:+ vendor +:+ ":" +:+ product +:+ ":" +:+ resolved in
      midi_identity (digest24 "midi-" material) (if has_serial then "hardware-serial" else "topology") has_serial
        (if has_serial then "USB VID/PID and hashed serial" else "USB topology; explicit rebind required")
        ++ [("usbHardwareId", usb_hardware_id vendor product)]
  | None =>
      let card_id := _read fs (sys_root +:+ "/class/sound/card" +:+ card +:+ "/id") in
      midi_identity (digest24 "midi-" ("alsa:" +:+ card_id +:+ ":" +:+ device +:+ ":" +:+ resolved)) "topology" false
        "ALSA card identity and topology; explicit rebind required"
  end.

Definition describe_midi_device (fs : sysfs) (device : pydict) : pydict :=
  let metadata := midi_metadata (dget_none device "path") in
  let backend := lower (py_str (py_or (py_or (dget_none device "backend") (stated metadata "backend")) (VStr ""))) in
  if String.eqb backend "coremidi" then describe_coremidi device metadata
  else if String.eqb backend "windows-midi" then describe_windows_midi device metadata
  else
    match midi_node (field_text device "path") with
    | Some (card, number) =>
        match fs.(resolve_path) ("/sys/class/sound/midiC" +:+ card +:+ "D" +:+ number) with
        | Some resolved => describe_alsa_midi fs "/sys" card number resolved
        | None => midi_volatile "ALSA card/device numbers; sysfs identity unavailable"
        end
    | None => midi_volatile "current native endpoint only"
    end.

(** ** Audio endpoints *)

Definition audio_identity (persistent : pyval) (strength : string) (eligible : bool) (scope : string) : pydict :=
  [("persistentId", persistent); ("identityStrength", VStr strength); ("automaticReconnectEligible", VBool eligible); ("identityScope", VStr scope)].

Definition audio_volatile (scope : string) : pydict := audio_identity VNone "volatile" false scope.

Definition describe_wasapi (device : pydict) (metadata : list (string * string)) (direction : string) : pydict :=
  let stable := match _hashed_token (dget_none device "stableIdHash") with
                | Some t => Some t
                | None => if says metadata "strength" "os-stable-endpoint" && says metadata "auto" "1" then _hashed_token (stated metadata "persistent") else None
                end in
  let snapshot := match _hashed_token (dget_none device "instanceIdHash") with
                  | Some t => Some t
                  | None => if says metadata "strength" "installation-snapshot" then _hashed_token (stated metadata "persistent") else None
                  end in
  match stable, snapshot with
  | Some t, _ => audio_identity (digest24 "audio-" ("wasapi-stable:" +:+ t +:+ ":" +:+ direction)) "os-stable-endpoint" true
                   "Windows stable endpoint identity hash; mutable endpoint properties must be re-queried"
  | None, Some t => audio_identity (digest24 "audio-" ("wasapi-installation:" +:+ t +:+ ":" +:+ direction)) "installation-snapshot" false
                      "Windows installation-scoped endpoint hash; explicit recovery required because driver/OS updates can replace it"
  | None, None => audio_volatile "WASAPI endpoint lacks a persistence-grade identity hash"
  end.

Definition describe_coreaudio (device : pydict) (metadata : list (string * string)) (direction : string) : pydict :=
  let uid := match _hashed_token (dget_none device "uidHash") with
             | Some t => Some t
             | None => if says metadata "strength" "os-stable-endpoint" && says metadata "auto" "1" then _hashed_token (stated metadata "persistent") else None
             end in
  match uid with
  | Some t => audio_identity (digest24 "audio-" ("coreaudio:" +:+ t +:+ ":" +:+ direction)) "os-stable-endpoint" true
                "hash of CoreAudio device UID; mutable device properties must be re-queried"
  | None => audio_volatile "CoreAudio endpoint lacks a hashed device UID"
  end.

(** What follows a prefix, letters compared without case, when it is there. *)
Definition skip_prefix (prefix : string) (l : list ascii) : list ascii :=
  let n := String.length prefix in
  if String.eqb (lower (of_chars (firstn n l))) prefix then skipn n l else l.

Definition is_card_char (c : ascii) : bool := is_digit c || in_range 65 90 c || in_range 97 122 c || Ascii.eqb c "_"%char || Ascii.eqb c "-"%char.

(** [re.fullmatch("(?:plug)?hw:(?:CARD=)?([A-Za-z0-9_-]+)(?:,(?:DEV=)?([0-9]+))?", address, re.I)]:
    the card and the number of the device, when there is one. *)
Definition alsa_address (address : string) : option (string * option string) :=
  match after (chars "hw:") (map lower_char (skip_prefix "plug" (chars address))) with
  | Some _ =>
      let l := skip_prefix "card=" (skipn 3 (skip_prefix "plug" (chars address))) in
      let '(card, rest) := span is_card_char l in
      if null card then None
      else
        match rest with
        | [] => Some (of_chars card, None)
        | comma :: l' =>
            let '(number, rest') := span is_digit (skip_prefix "dev=" l') in
            if Ascii.eqb comma ","%char && negb (null number) && null rest' then Some (of_chars card, Some (of_chars number)) else None
        end
  | None => None
  end.

Definition card_id_path (card : string) : string := "/proc/asound/card" +:+ card +:+ "/id".

(** The number of the card a token names: itself, or the first of 256 whose id it is. *)
Definition card_number_of (fs : sysfs) (token : string) : option string :=
  if forallb is_digit (chars token) then Some token
  else List.find (fun n => String.eqb (_read fs (card_id_path n)) token) (map (fun n => dec (Z.of_nat n)) (seq 0 256)).

Definition describe_alsa_audio (fs : sysfs) (card number resolved direction : string) : pydict :=
  let endpoint := ":pcm:" +:+ number +:+ ":" +:+ direction in
  match find_usb fs resolved with
  | Some usb =>
      let vendor := lower (_read fs (child usb "idVendor")) in
      let product := lower (_read fs (child usb "idProduct")) in
      let serial := _read fs (child usb "serial") in
      let has_serial := negb (String.eqb serial "") in
      let material := if has_serial then "usb:" +:+ vendor +:+ ":" +:+ product +:+ ":" +:+ serial +:+ endpoint
                      else "usb-port:" +:+ vendor +:+ ":" +:+ product +:+ ":" +:+ resolved +:+ endpoint in
      audio_identity (digest24 "audio-" material) (if has_serial then "hardware-serial" else "topology") has_serial
        (if has_serial then "USB VID/PID, hashed serial and PCM endpoint" else "USB topology; explicit recovery required")
        ++ [("usbHardwareId", usb_hardware_id vendor product)]
  | None =>
      audio_identity (digest24 "audio-" ("alsa:" +:+ _read fs (card_id_path card) +:+ ":" +:+ resolved +:+ endpoint)) "topology" false
        "ALSA card identity and topology; explicit recovery required"
  end.

Definition direction_bits (device : pydict) : string :=
  (if truthy (dget_none device "input") then "1" else "0") +:+ (if truthy (dget_none device "output") then "1" else "0").

Definition describe_audio_device (fs : sysfs) (device : pydict) : pydict :=
  if py_eq (dget_none device "id") (VStr "null-audio") then audio_identity (VStr "audio-null") "builtin" true "built-in null endpoint"
  else
    let backend := lower (py_str (py_or (dget_none device "backend") (VStr ""))) in
    let direction := direction_bits device in
    let metadata := audio_metadata (dget_none device "address") in
    if String.eqb backend "wasapi" then describe_wasapi device metadata direction
    else if String.eqb backend "coreaudio" then describe_coreaudio device metadata direction
    else if negb (String.eqb backend "alsa") then audio_volatile "current native endpoint only"
    else
      match alsa_address (strip (field_text device "address")) with
      | None => audio_volatile "ALSA alias; hardware identity unavailable"
      | Some (token, number) =>
          match card_number_of fs token with
          | None => audio_volatile "ALSA card name could not be resolved"
          | Some card =>
              match fs.(resolve_path) ("/sys/class/sound/card" +:+ card +:+ "/device") with
              | None => audio_volatile "ALSA card topology unavailable"
              | Some resolved => describe_alsa_audio fs card (default "0" number) resolved direction
              end
          end
      end.

(** ** The stores *)

(** [_load]: the records of the file, which is the value parsing it gives or the exception of reading it. *)
Definition load_records (file : res pyval) : pydict :=
  match file with
  | Ok (VDict d) => match dget_none d "records" with VDict records => records | _ => [] end
  | _ => []
  end.

(** The fields of an identity a store keeps. *)
Definition kept_fields (fields : list string) (identity : pydict) : pydict := map (fun k => (k, dget_none identity k)) fields.

Definition midi_fields : list string := ["persistentId"; "identityStrength"; "automaticRebindEligible"; "usbHardwareId"].
Definition audio_fields : list string := ["persistentId"; "identityStrength"; "automaticReconnectEligible"; "usbHardwareId"].

Abbreviation store := pydict.

(** A new record, and [_write]; [written]: the file could be replaced. *)
Definition put_record (written : bool) (native_id : string) (record : pydict) : st store unit :=
  st_modify (fun records => dset records native_id (VDict record)) ;;;
  if written then st_ret tt else st_raise (OSError "device identities unavailable").

(** [MidiIdentityStore.record]. *)
Definition midi_record (written : bool) (native_id : string) (identity : pydict) : st store (option pydict) :=
  if negb (truthy (dget_none identity "persistentId")) then st_ret None
  else
    let* records := st_get in
    match dget_none records native_id with
    | VDict existing => st_ret (Some existing)
    | _ => let record := kept_fields midi_fields identity in put_record written native_id record ;;; st_ret (Some record)
    end.

(** [AudioIdentityStore.record]. *)
Definition audio_record (written : bool) (native_id : string) (identity : pydict) : st store (option pydict) :=
  if negb (truthy (dget_none identity "persistentId")) then st_ret None
  else
    let* records := st_get in
    match dget records native_id with
    | Some existing => let* d := st_lift (Adaptation.py_dict existing) in st_ret (Some d)
    | None => let record := kept_fields audio_fields identity in put_record written native_id record ;;; st_ret (Some record)
    end.

(** [AudioIdentityStore.replace]. *)
Definition audio_replace (written : bool) (native_id : string) (identity : pydict) : st store (pydict * pydict) :=
  if negb (truthy (dget_none identity "persistentId")) then st_raise (ValueError "replacement audio endpoint has no persistent identity")
  else
    let* records := st_get in
    match dget_none records native_id with
    | VDict previous =>
        let record := dset (kept_fields audio_fields identity) "explicitlyRebound" (VBool true) in
        put_record written native_id record ;;; st_ret (previous, record)
    | _ => st_raise (ValueError "desired audio endpoint has no pinned identity to replace")
    end.

Definition expected (records : store) (native_id : string) : option pydict :=
  match dget records native_id with Some (VDict d) => Some d | _ => None end.

(** [if expected]: there is a record, and it is not empty. *)
Definition pinned (records : store) (native_id : string) : option pydict :=
  match expected records native_id with Some [] => None | o => o end.

Definition same_id (a b : pydict) : bool := py_eq (dget_none a "persistentId") (dget_none b "persistentId").
Definition rebindable (d : pydict) : bool := is_true (dget_none d "automaticRebindEligible").
Definition reconnectable (d : pydict) : bool := is_true (dget_none d "automaticReconnectEligible").
Definition explicitly_rebound (d : pydict) : bool := is_true (dget_none d "explicitlyRebound").

(** [matches[0] if len(matches) == 1 else None]. *)
Definition only {A} (l : list A) : option A := match l with [x] => Some x | _ => None end.

Definition not_false (v : pyval) : bool := match v with VBool false => false | _ => true end.

Definition permits_rebind (records : store) (native_id : string) (identity : pydict) : bool :=
  match pinned records native_id with
  | Some e => rebindable e && same_id e identity && rebindable identity
  | None => false
  end.

Definition midi_matches (e device : pydict) : bool :=
  not_false (dget_none device "connected") && same_id device e && rebindable device.

Definition midi_reconnect_match (records : store) (native_id : string) (devices : list pydict) : option pydict :=
  match pinned records native_id with
  | Some e => if rebindable e then only (List.filter (midi_matches e) devices) else None
  | None => None
  end.

Definition midi_direct (native_id : string) (devices : list pydict) : option pydict :=
  List.find (fun device => String.eqb (field_text device "id") native_id && not_false (dget_none device "connected")) devices.

(** The device found at the identifier itself, unless another identity is pinned there. *)
Definition unless_replaced (e direct : option pydict) : option pydict :=
  match e, direct with
  | Some e, Some (f :: d) => if same_id e (f :: d) then direct else None
  | _, _ => direct
  end.

(** [MidiIdentityStore.resolve]. *)
Definition midi_resolve (records : store) (native_id : string) (devices : list pydict) : option pydict :=
  match pinned records native_id with
  | Some e => if rebindable e then midi_reconnect_match records native_id devices else unless_replaced (Some e) (midi_direct native_id devices)
  | None => midi_direct native_id devices
  end.

Definition audio_matches (e device : pydict) : bool := same_id device e && (reconnectable device || explicitly_rebound e).

Definition audio_reconnect_match (records : store) (native_id : string) (devices : list pydict) : option pydict :=
  match pinned records native_id with
  | Some e => if reconnectable e || explicitly_rebound e then only (List.filter (audio_matches e) devices) else None
  | None => None
  end.

Definition audio_candidate (direction : string) (device : pydict) : bool := truthy (dget_none device "connected") && truthy (dget_none device direction).

(** [AudioIdentityStore.resolve]. *)
Definition audio_resolve (records : store) (native_id : string) (devices : list pydict) (direction : string) : option pydict :=
  let candidates := List.filter (audio_candidate direction) devices in
  let direct := List.find (fun device => py_eq (dget_none device "id") (VStr native_id)) candidates in
  match pinned records native_id with
  | Some e => if reconnectable e || explicitly_rebound e then audio_reconnect_match records native_id candidates else unless_replaced (Some e) direct
  | None => direct
  end.

(** ** What a store keeps *)

(** What a client of a store can ask of it: an observation of an endpoint, or, of
    the audio store, a replacement the operator acknowledged. *)
Inductive identity_request :=
| ObserveMidi (written : bool) (native_id : string) (identity : pydict)
| ObserveAudio (written : bool) (native_id : string) (identity : pydict)
| ReplaceAudio (written : bool) (native_id : string) (identity : pydict).

Record stores := { midi_store : store; audio_store : store }.

Definition apply_request (q : identity_request) (s : stores) : stores :=
  match q with
  | ObserveMidi w id d => {| midi_store := fst (midi_record w id d s.(midi_store)); audio_store := s.(audio_store) |}
  | ObserveAudio w id d => {| midi_store := s.(midi_store); audio_store := fst (audio_record w id d s.(audio_store)) |}
  | ReplaceAudio w id d => {| midi_store := s.(midi_store); audio_store := fst (audio_replace w id d s.(audio_store)) |}
  end.

Definition apply_all (l : list identity_request) (s : stores) : stores := fold_left (fun s q => apply_request q s) l s.

(** A request that trusts another endpoint at an identifier. *)
Definition replaces (id : string) (q : identity_request) : bool :=
  match q with ReplaceAudio _ id' _ => String.eqb id' id | _ => false end.

Lemma put_record_store w id record s : fst (put_record w id record s) = dset s id (VDict record).
Proof. unfold put_record, st_modify, st_bind. by destruct w. Qed.

Lemma put_then {A} w id record (k : unit -> st store A) s : (forall u t, fst (k u t) = t) ->
  fst (st_bind (put_record w id record) k s) = dset s id (VDict record).
Proof.
  intros Hk. pose proof (put_record_store w id record s) as H. unfold st_bind at 1. destruct (put_record w id record s) as [t [u|x]]; cbn in *; [by rewrite Hk|done].
Qed.

(** An observation changes nothing, or adds what was not there. *)
Lemma midi_record_store w id d s : fst (midi_record w id d s) = s \/
  (fst (midi_record w id d s) = dset s id (VDict (kept_fields midi_fields d)) /\ expected s id = None /\ truthy (dget_none d "persistentId") = true).
Proof.
  unfold midi_record, expected. destruct (truthy _) eqn:Et; cbn [negb]; [|by left]. rewrite st_get_bind. unfold dget_none, dget_or.
  destruct (dget s id) as [[]|]; try (by left); right; (rewrite put_then; [done|done]).
Qed.

Lemma audio_record_store w id d s : fst (audio_record w id d s) = s \/
  (fst (audio_record w id d s) = dset s id (VDict (kept_fields audio_fields d)) /\ dget s id = None /\ truthy (dget_none d "persistentId") = true).
Proof.
  unfold audio_record. destruct (truthy _) eqn:Et; cbn [negb]; [|by left]. rewrite st_get_bind.
  destruct (dget s id) as [v|] eqn:Ei; [|right; rewrite put_then; [done|done]]. left. unfold st_bind, st_lift. by destruct (Adaptation.py_dict v).
Qed.

Lemma audio_replace_store w id d s : fst (audio_replace w id d s) = s \/
  (fst (audio_replace w id d s) = dset s id (VDict (dset (kept_fields audio_fields d) "explicitlyRebound" (VBool true)))).
Proof.
  unfold audio_replace. destruct (truthy _) eqn:Et; cbn [negb]; [|by left]. rewrite st_get_bind.
  destruct (dget_none s id); try (by left). right. rewrite put_then; [done|done].
Qed.

Lemma expected_dset s id d id' : expected (dset s id (VDict d)) id' = if String.eqb id' id then Some d else expected s id'.
Proof. unfold expected. rewrite dget_dset. by destruct (String.eqb id' id). Qed.

(** A step keeps every pinned identity, unless it replaces it. *)
Lemma step_keeps_midi q s id e : expected s.(midi_store) id = Some e -> expected (apply_request q s).(midi_store) id = Some e.
Proof.
  intros H. destruct q as [w i d|w i d|w i d]; cbn; try done. destruct (midi_record_store w i d s.(midi_store)) as [->|(-> & Hn & _)]; [done|].
  rewrite expected_dset. destruct (String.eqb_spec id i) as [->|]; [by rewrite Hn in H|done].
Qed.

Lemma step_keeps_audio q s id e : replaces id q = false -> expected s.(audio_store) id = Some e -> expected (apply_request q s).(audio_store) id = Some e.
Proof.
  intros Hr H. destruct q as [w i d|w i d|w i d]; cbn in *; try done.
  - destruct (audio_record_store w i d s.(audio_store)) as [->|(-> & Hn & _)]; [done|].
    rewrite expected_dset. destruct (String.eqb_spec id i) as [->|]; [|done]. unfold expected in H. by rewrite Hn in H.
  - destruct (audio_replace_store w i d s.(audio_store)) as [-> | ->]; [done|]. rewrite expected_dset.
    destruct (String.eqb_spec id i) as [->|]; [by rewrite str_eqb_refl in Hr|done].
Qed.

(** A record carries the identity of the endpoint it was made for. *)
Definition carries (r : pydict) (identity : pydict) : Prop :=
  truthy (dget_none identity "persistentId") = true /\ dget_none r "persistentId" = dget_none identity "persistentId".

Lemma step_pins_midi q s id e : expected s.(midi_store) id = None -> expected (apply_request q s).(midi_store) id = Some e ->
  exists w d, q = ObserveMidi w id d /\ carries e d.
Proof.
  intros Hn. destruct q as [w i d|w i d|w i d]; cbn; try congruence. destruct (midi_record_store w i d s.(midi_store)) as [->|(-> & _ & Ht)]; [congruence|].
  rewrite expected_dset. destruct (String.eqb_spec id i) as [->|]; [|congruence]. intros [= <-]. by exists w, d.
Qed.

(** Observation is not authority. Whatever endpoints are observed, the identity
    a store has pinned to an identifier stays; only a replacement of that very
    identifier changes it, and only in the audio store. *)
Theorem pinned_identities_stay l s id e :
  (expected s.(midi_store) id = Some e -> expected (apply_all l s).(midi_store) id = Some e) /\
  (expected s.(audio_store) id = Some e -> forallb (fun q => negb (replaces id q)) l = true -> expected (apply_all l s).(audio_store) id = Some e).
Proof.
  split; revert s; (induction l as [|q l IH]; intros s H; [done|]); cbn [forallb apply_all fold_left].
  - apply IH. by apply step_keeps_midi.
  - intros [Hq Hl]%andb_prop. apply (IH (apply_request q s)); [|done]. apply step_keeps_audio; [by destruct (replaces id q)|done].
Qed.

(** ** Resolution *)

Lemma only_list {A} (l : list A) x : only l = Some x <-> l = [x].
Proof. destruct l as [|y [|z l]]; cbn; split; congruence. Qed.

Lemma filter_one {A} (p : A -> bool) l x : List.filter p l = [x] -> x ∈ l /\ p x = true.
Proof. intros H. apply elem_of_filter_bool. rewrite H. by left. Qed.

Lemma find_in {A} (p : A -> bool) l x : List.find p l = Some x -> x ∈ l /\ p x = true.
Proof. intros [H1 H2]%List.find_some. split; [by apply list_elem_of_In|done]. Qed.

Lemma unless_replaced_some e direct d : unless_replaced e direct = Some d ->
  direct = Some d /\ forall e', e = Some e' -> d = [] \/ same_id e' d = true.
Proof.
  destruct e as [e'|]; [|by intros H]. destruct direct as [[|f d']|]; cbn; [| |done].
  - intros [= <-]. split; [done|]. by left.
  - destruct (same_id e' (f :: d')) eqn:E; [|done]. intros [= <-]. split; [done|]. intros ? [= <-]. by right.
Qed.

(** The endpoint a MIDI identifier may stand for: with a strong identity pinned, the
    only one that carries it; else the endpoint of the identifier, if it has the
    identity pinned there. *)
Definition midi_stands_for (records : store) (id : string) (devices : list pydict) (d : pydict) : Prop :=
  d ∈ devices /\ not_false (dget_none d "connected") = true /\
  match pinned records id with
  | Some e => if rebindable e then same_id d e = true /\ rebindable d = true /\ List.filter (midi_matches e) devices = [d]
              else field_text d "id" = id /\ same_id e d = true
  | None => field_text d "id" = id
  end.

Lemma midi_direct_some id devices d : midi_direct id devices = Some d -> d ∈ devices /\ not_false (dget_none d "connected") = true /\ field_text d "id" = id.
Proof. intros (Hin & [Hid%String.eqb_eq Hc]%andb_prop)%find_in. done. Qed.

Lemma midi_resolve_some records id devices d : [] ∉ devices -> midi_resolve records id devices = Some d -> midi_stands_for records id devices d.
Proof.
  intros Hne. unfold midi_resolve, midi_stands_for, midi_reconnect_match. destruct (pinned records id) as [e|]; [|intros (? & ? & ?)%midi_direct_some; done].
  destruct (rebindable e).
  - intros Ho%only_list. pose proof (filter_one _ _ _ Ho) as [Hin [[Hc Hs]%andb_prop Hr]%andb_prop]. done.
  - intros (Hd & Hs)%unless_replaced_some. apply midi_direct_some in Hd as (Hin & Hc & Hid). split; [done|]. split; [done|]. split; [done|]. by destruct (Hs e eq_refl) as [->|].
Qed.

Definition trusted (e : pydict) : bool := reconnectable e || explicitly_rebound e.

(** The same for a direction of the audio endpoints, where an operator may have
    trusted an identity that is not strong. *)
Definition audio_stands_for (records : store) (id : string) (devices : list pydict) (direction : string) (d : pydict) : Prop :=
  d ∈ devices /\ audio_candidate direction d = true /\
  match pinned records id with
  | Some e => if trusted e then same_id d e = true /\ (reconnectable d || explicitly_rebound e) = true /\
                                List.filter (audio_matches e) (List.filter (audio_candidate direction) devices) = [d]
              else py_eq (dget_none d "id") (VStr id) = true /\ same_id e d = true
  | None => py_eq (dget_none d "id") (VStr id) = true
  end.

Lemma audio_resolve_some records id devices direction d : [] ∉ devices -> audio_resolve records id devices direction = Some d -> audio_stands_for records id devices direction d.
Proof.
  intros Hne. unfold audio_resolve, audio_stands_for, audio_reconnect_match, trusted. cbv zeta.
  assert (forall x, List.find (fun device => py_eq (dget_none device "id") (VStr id)) (List.filter (audio_candidate direction) devices) = Some x ->
    x ∈ devices /\ audio_candidate direction x = true /\ py_eq (dget_none x "id") (VStr id) = true) as Hdirect.
  { intros x ([Hin Hc]%elem_of_filter_bool & Hid)%find_in. done. }
  destruct (pinned records id) as [e|]; [|intros (? & ? & ?)%Hdirect; done]. destruct (_ || _).
  - intros Ho%only_list. pose proof (filter_one _ _ _ Ho) as [[Hin Hc]%elem_of_filter_bool [Hs Hr]%andb_prop]. done.
  - intros (Hd & Hs)%unless_replaced_some. apply Hdirect in Hd as (Hin & Hc & Hid). split; [done|]. split; [done|]. split; [done|]. by destruct (Hs e eq_refl) as [->|].
Qed.

(** ** Runs *)

(** A keyboard with a serial on its second card, and its files. *)
Definition keyboard : pydict := [("id", VStr "linux-raw-1-0"); ("path", VStr "/dev/snd/midiC1D0"); ("connected", VBool true)].

Definition usb_files (serial : string) : sysfs := {|
  read_file := fun path =>
    alookup [("/devices/usb/1-2/idVendor", "1234"); ("/devices/usb/1-2/idProduct", "abcd"); ("/devices/usb/1-2/serial", serial)] path;
  resolve_path := fun path => if String.eqb path "/sys/class/sound/midiC1D0" then Some "/devices/usb/1-2/sound/card1/midiC1D0" else None |}.

Definition identified (serial : string) : pydict := dmerge keyboard (describe_midi_device (usb_files serial) keyboard).

Example serial_makes_it_rebindable :
  map (fun serial => (dget_none (identified serial) "identityStrength", dget_none (identified serial) "automaticRebindEligible")) ["s-1"; ""] =
    [(VStr "hardware-serial", VBool true); (VStr "topology", VBool false)] /\
  dget_none (identified "s-1") "usbHardwareId" = VStr "USB:1234:ABCD" /\ negb (py_eq (dget_none (identified "s-1") "persistentId") (dget_none (identified "s-2") "persistentId")) = true.
Proof. vm_compute. done. Qed.

(** Raw identifiers are no identity: only hash tokens of the platform are. *)
Example raw_tokens_are_refused :
  map (fun d => dget_none (describe_midi_device (usb_files "s") d) "persistentId")
    [[("backend", VStr "coremidi"); ("uniqueIdHash", VStr "private")];
     [("path", VStr "backend=windows-midi;persistent=private;strength=os-stable-endpoint;auto=1")]] = [VNone; VNone] /\
  map (fun a => alsa_address a) ["plughw:CARD=Track_1,DEV=2"; "hw:0"; "default"; "hw:1,x"] =
    [Some ("Track_1", Some "2"); Some ("0", None); None; None].
Proof. vm_compute. done. Qed.

Lemma pinned_identities_stay_witness :
  let first := [("persistentId", VStr "midi-a"); ("automaticRebindEligible", VBool true)] in
  let l := [ObserveMidi true "port" [("persistentId", VStr "midi-b")]; ReplaceAudio true "other" [("persistentId", VStr "audio-c")]] in
  let s := {| midi_store := [("port", VDict first)]; audio_store := [("port", VDict first)] |} in
  expected (apply_all l s).(midi_store) "port" = Some first /\ expected (apply_all l s).(audio_store) "port" = Some first.
Proof.
  intros first l s. split; [exact (proj1 (pinned_identities_stay l s "port" first) eq_refl)|exact (proj2 (pinned_identities_stay l s "port" first) eq_refl eq_refl)].
Defined.
