(* ===== verification/DeviceHotplug.v ===== *)
(** * Hotplug of MIDI and audio endpoints (backend/runtime.py, backend/native_engine.py)

    The scans of the runtime: what the engine lists, what is pinned, the endpoints
    that left or were replaced and what is detached or stopped for it, the
    bindings of the show resolved to the endpoints that are there, and the
    history a client polls. The engine is an argument: its answer to each command
    line, by the number of lines sent before. *)

From S2P Require Import Prelude PyStr PyFloat PyVal PyFacts StateLogic JsonText DeviceIdentity.
From Stdlib Require Import SpecFloat.

#[local] Open Scope string_scope.
#[local] Open Scope list_scope.
#[local] Open Scope Z_scope.
#[local] Open Scope st_scope.

(** ** State *)

(** The attributes of the runtime the scans use, and the lines given to the engine,
    whether or not it still runs, first to last. *)
Record hub := {
  midi_identities : store;
  audio_identities : store;
  _midi_devices : list pydict;
  _midi_hotplug_generation : Z;
  _midi_hotplug_changes : list pydict;
  _audio_devices : list pydict;
  _audio_hotplug_generation : Z;
  _audio_hotplug_changes : list pydict;
  sent : list string;
}.

(** What one line gives: the process does not run, the pipe broke, or the line that was read. *)
Inductive reply := Dead (message : string) | Broken (message : string) | Replied (line : string).

Record engine := {
  available : bool;
  answer : nat -> string -> reply;
  system : sysfs;
  (* the monotonic clock at one change, and whether the record of an endpoint reaches its file *)
  observed_ns : nat -> Z;
  stored : string -> bool;
}.

Abbreviation act := (st hub).

Definition set_midi_identities (x : store) (h : hub) : hub :=
  {| midi_identities := x; audio_identities := h.(audio_identities); _midi_devices := h.(_midi_devices);
     _midi_hotplug_generation := h.(_midi_hotplug_generation); _midi_hotplug_changes := h.(_midi_hotplug_changes);
     _audio_devices := h.(_audio_devices); _audio_hotplug_generation := h.(_audio_hotplug_generation);
     _audio_hotplug_changes := h.(_audio_hotplug_changes); sent := h.(sent) |}.
Definition set_audio_identities (x : store) (h : hub) : hub :=
  {| midi_identities := h.(midi_identities); audio_identities := x; _midi_devices := h.(_midi_devices);
     _midi_hotplug_generation := h.(_midi_hotplug_generation); _midi_hotplug_changes := h.(_midi_hotplug_changes);
     _audio_devices := h.(_audio_devices); _audio_hotplug_generation := h.(_audio_hotplug_generation);
     _audio_hotplug_changes := h.(_audio_hotplug_changes); sent := h.(sent) |}.
Definition set_midi_scan (devices : list pydict) (generation : Z) (changes : list pydict) (h : hub) : hub :=
  {| midi_identities := h.(midi_identities); audio_identities := h.(audio_identities); _midi_devices := devices;
     _midi_hotplug_generation := generation; _midi_hotplug_changes := changes;
     _audio_devices := h.(_audio_devices); _audio_hotplug_generation := h.(_audio_hotplug_generation);
     _audio_hotplug_changes := h.(_audio_hotplug_changes); sent := h.(sent) |}.
Definition set_audio_scan (devices : list pydict) (generation : Z) (changes : list pydict) (h : hub) : hub :=
  {| midi_identities := h.(midi_identities); audio_identities := h.(audio_identities); _midi_devices := h.(_midi_devices);
     _midi_hotplug_generation := h.(_midi_hotplug_generation); _midi_hotplug_changes := h.(_midi_hotplug_changes);
     _audio_devices := devices; _audio_hotplug_generation := generation; _audio_hotplug_changes := changes; sent := h.(sent) |}.
Definition set_sent (x : list string) (h : hub) : hub :=
  {| midi_identities := h.(midi_identities); audio_identities := h.(audio_identities); _midi_devices := h.(_midi_devices);
     _midi_hotplug_generation := h.(_midi_hotplug_generation); _midi_hotplug_changes := h.(_midi_hotplug_changes);
     _audio_devices := h.(_audio_devices); _audio_hotplug_generation := h.(_audio_hotplug_generation);
     _audio_hotplug_changes := h.(_audio_hotplug_changes); sent := x |}.

#[export] Instance midi_store_part : Part hub store.
Proof. refine {| part := midi_identities; with_part := set_midi_identities |}; [done|by intros []|done]. Defined.
#[export] Instance audio_store_part : Part hub store.
Proof. refine {| part := audio_identities; with_part := set_audio_identities |}; [done|by intros []|done]. Defined.

(** ** Lists of endpoints *)

(** The state after one operation on each element, and the results in order. *)
Fixpoint st_map {S A B} (f : A -> st S B) (l : list A) : st S (list B) :=
  match l with
  | [] => st_ret []
  | x :: l => let* y := f x in let* ys := st_map f l in st_ret (y :: ys)
  end.

(** [l[-n:]]. *)
Definition last_of {A} (n : nat) (l : list A) : list A := skipn (length l - n) l.

Definition device_id (device : pydict) : string := field_text device "id".

(** [{str(item.get("id", "")): item for item in devices}]: the last of an identifier. *)
Definition by_id (devices : list pydict) : list (string * pydict) := fold_left (fun m d => aput m (device_id d) d) devices [].

Definition ids_of (devices : list pydict) : list string := remove_dups (map device_id devices).

(** [sorted(a - b)]. *)
Definition sorted_minus (a b : list string) : list string := sort_strings (List.filter (fun x => negb (existsb (String.eqb x) b)) a).

(** [d.get(key)] of what may be absent. *)
Definition persistent_of (d : option pydict) : pyval := match d with Some d => dget_none d "persistentId" | None => VNone end.

(** [previous_by_id.get(device_id) or expected(device_id) or {}]. *)
Definition prior_of (records : store) (previous : list (string * pydict)) (id : string) : option pydict :=
  match alookup previous id with
  | Some (f :: d) => Some (f :: d)
  | _ => pinned records id
  end.

Definition identity_changed (records : store) (previous current : list (string * pydict)) (id : string) : bool :=
  let prior := persistent_of (prior_of records previous id) in
  let now := persistent_of (alookup current id) in
  truthy prior && truthy now && negb (py_eq prior now)
  && match alookup previous id with Some d => negb (py_eq (dget_none d "persistentId") now) | None => true end.

(** What the scans compare: the identifiers that left and those whose identity changed, each sorted. *)
Record difference := { connected_now : list string; disconnected : list string; replaced : list string; prior : string -> pyval }.

Definition difference_of (records : store) (before devices : list pydict) : difference :=
  let previous := by_id before in
  let current := by_id devices in
  {| connected_now := sorted_minus (ids_of devices) (ids_of before);
     disconnected := sorted_minus (ids_of before) (ids_of devices);
     replaced := sort_strings (List.filter (identity_changed records previous current) (ids_of devices));
     prior := fun id => persistent_of (prior_of records previous id) |}.

Definition unsafe_ids (d : difference) : list string := d.(disconnected) ++ d.(replaced).

(** The entry of a scan is the entry resolved to: the engine numbers them. *)
Definition is_device (device : pydict) (found : option pydict) : bool :=
  match found with Some d => py_eq (dget_none d "index") (dget_none device "index") | None => false end.

(** ** The lines of the engine (backend/native_engine.py) *)

(** [s.split()]. *)
Fixpoint words_of (current l : list ascii) : list (list ascii) :=
  match l with
  | [] => if null current then [] else [rev current]
  | c :: l => if is_space c then (if null current then words_of [] l else rev current :: words_of [] l) else words_of (c :: current) l
  end.

(** [value.replace("_", " ")]. *)
Definition spaced (s : string) : string := of_chars (map (fun c => if Ascii.eqb c "_"%char then " "%char else c) (chars s)).

Definition add_value (values : list (string * string)) (token : list ascii) : list (string * string) :=
  match split_equals token with
  | Some (key, value) => aput values (of_chars key) (if String.eqb (of_chars key) "message" then spaced (of_chars value) else of_chars value)
  | None => values
  end.

Definition parse_response (line : string) : res (bool * list (string * string)) :=
  match words_of [] (chars line) with
  | [] => Raise (RuntimeError "native engine returned an empty response")
  | first :: tokens =>
      let ok := String.eqb (of_chars first) "OK" in
      if negb ok && negb (String.eqb (of_chars first) "ERR") then Raise (RuntimeError ("invalid native engine response: " +:+ repr_str line))
      else Ok (ok, fold_left add_value tokens [])
  end.

(** [result.get(key, default)]. *)
Definition raw_get (raw : list (string * string)) (key default : string) : string := match alookup raw key with Some v => v | None => default end.
Definition raw_is (raw : list (string * string)) (key value : string) : bool := match alookup raw key with Some v => String.eqb v value | None => false end.

(** What [request] makes of what one line gives. *)
Definition values_of (r : reply) : res (list (string * string)) :=
  match r with
  | Dead message => Raise (RuntimeError (str_or message "native engine unavailable"))
  | Broken message => Raise (RuntimeError ("native IPC failed: " +:+ message))
  | Replied line =>
      parsed ← parse_response line;
      let '(ok, values) := (parsed : bool * list (string * string)) in
      if ok then Ok values else Raise (RuntimeError (raw_get values "code" "error" +:+ ": " +:+ raw_get values "message" "native engine error"))
  end.

Definition is_line_break (c : ascii) : bool := (code c =? 10) || (code c =? 13).

Section scans.
Context (e : engine).

Definition request (command : string) : act (list (string * string)) :=
  if existsb is_line_break (chars command) then st_raise (ValueError "native engine commands must be one line")
  else
    let* h := st_get in
    st_modify (set_sent (h.(sent) ++ [command])) ;;;
    st_lift (values_of (e.(answer) (length h.(sent)) command)).

Definition midi_entry (index : nat) (raw : list (string * string)) : pydict :=
  [("index", VInt (Z.of_nat index)); ("id", VStr (raw_get raw "id" "")); ("name", VStr (spaced (raw_get raw "name" "")));
   ("path", VStr (raw_get raw "path" "")); ("input", VBool (raw_is raw "input" "1")); ("connected", VBool (raw_is raw "connected" "1"))].

Definition audio_entry (index : nat) (raw : list (string * string)) : pydict :=
  [("index", VInt (Z.of_nat index)); ("id", VStr (raw_get raw "id" "")); ("name", VStr (spaced (raw_get raw "name" "")));
   ("backend", VStr (raw_get raw "backend" "")); ("address", VStr (spaced (raw_get raw "address" "")));
   ("input", VBool (raw_is raw "input" "1")); ("output", VBool (raw_is raw "output" "1")); ("connected", VBool (raw_is raw "connected" "1"));
   ("attached", VBool (raw_is raw "attached" "1")); ("selected", VBool (raw_is raw "selected" "1")); ("inputSelected", VBool (raw_is raw "inputSelected" "1"))].

(** The entry at one index, and the entries of a scan, at most [limit]. *)
Definition read_entry (line : string) (entry : nat -> list (string * string) -> pydict) (index : nat) : act pydict :=
  let* raw := request (line +:+ " " +:+ dec (Z.of_nat index)) in st_ret (entry index raw).

Definition scan (start line : string) (limit : Z) (entry : nat -> list (string * string) -> pydict) : act (list pydict) :=
  let* result := request start in
  let* count := st_lift (py_int (VStr (raw_get result "count" "0"))) in
  st_map (read_entry line entry) (seq 0 (Z.to_nat (Z.max 0 (Z.min count limit)))).

Definition scan_midi_devices : act (list pydict) := scan "MIDI_SCAN" "MIDI_DEVICE" 32 midi_entry.
Definition scan_audio_devices : act (list pydict) := scan "AUDIO_SCAN" "AUDIO_DEVICE" 64 audio_entry.

(** A non-empty token without spaces. *)
Definition is_token (s : string) : bool := negb (String.eqb s "") && negb (existsb is_space (chars s)).

Definition attach_midi_input (device player : string) : act unit :=
  if negb (is_token device) then st_raise (ValueError "device id must be a non-empty token")
  else if negb (is_token player) then st_raise (ValueError "player id must be a non-empty token")
  else let* _ := request ("MIDI_ATTACH " +:+ device +:+ " " +:+ player) in st_ret tt.

Definition detach_midi_input (device : string) : act unit :=
  if negb (is_token device) then st_raise (ValueError "device id must be a non-empty token")
  else let* _ := request ("MIDI_DETACH " +:+ device) in st_ret tt.

Definition slot_ok (slot : Z) : bool := (0 <=? slot) && (slot <? 4).

Definition select_audio (command kind port device : string) (slot : Z) : act unit :=
  if negb (is_token device) then st_raise (ValueError (kind +:+ " id must be a non-empty token"))
  else if negb (slot_ok slot) then st_raise (ValueError (port +:+ " slot must be 0..3"))
  else let* _ := request (command +:+ " " +:+ dec slot +:+ " " +:+ device) in st_ret tt.

Definition select_audio_device : string -> Z -> act unit := select_audio "AUDIO_SELECT" "audio device" "audio output".
Definition select_audio_input : string -> Z -> act unit := select_audio "AUDIO_INPUT_SELECT" "audio input device" "audio input".

Definition slot_request (command : string) (slot : nat) : act (list (string * string)) := request (command +:+ " " +:+ dec (Z.of_nat slot)).
Definition audio_stream_status : nat -> act (list (string * string)) := slot_request "AUDIO_STREAM_STATUS".
Definition audio_input_status : nat -> act (list (string * string)) := slot_request "AUDIO_INPUT_STATUS".
Definition deactivate_audio : nat -> act (list (string * string)) := slot_request "AUDIO_DEACTIVATE".
Definition deactivate_audio_input : nat -> act (list (string * string)) := slot_request "AUDIO_INPUT_DEACTIVATE".

(** [except (RuntimeError, ValueError)]: what the operation gave, or the value for a failure. *)
Definition engine_error (x : exn) : bool := is_runtime_error x || is_value_error x.
Definition or_else {A} (m : act A) (a : A) : act A := st_catch engine_error m (fun _ => st_ret a).

(** ** Scanning MIDI endpoints *)

Definition set_key (device : pydict) (kv : string * pyval) : pydict := dset device (fst kv) (snd kv).

(** The entry with its identity, and whether one is pinned at its identifier. *)
Definition described_midi (records : store) (device : pydict) : pydict :=
  let device := dmerge device (describe_midi_device e.(system) device) in
  let device := dset device "attached" (VBool (truthy (dget_none device "attached"))) in
  dset device "identityRecorded" (VBool (bool_decide (is_Some (expected records (device_id device))))).

(** The bindings, by the identifier of the endpoint each resolves to. *)
Definition claim (records : store) (devices : list pydict) (claims : list (string * list (string * string))) (binding : string * pyval)
    : list (string * list (string * string)) :=
  match midi_resolve records (fst binding) devices with
  | Some candidate =>
      let current := device_id candidate in
      aput claims current (default [] (alookup claims current) ++ [(fst binding, py_str (snd binding))])
  | None => claims
  end.

Definition claims_of (records : store) (devices : list pydict) (bindings : pydict) : list (string * list (string * string)) :=
  fold_left (claim records devices) bindings [].

(** Detach one endpoint; the identifiers detached. *)
Definition detach_one (id : string) : act (list string) := or_else (detach_midi_input id ;;; st_ret [id]) [].

(** Attach the endpoint of one claim, when one binding makes it; the identifiers attached. *)
Definition attach_one (entry : string * list (string * string)) : act (list string) :=
  match snd entry with
  | [(_, player)] => or_else (attach_midi_input (fst entry) player ;;; st_ret [fst entry]) []
  | _ => st_ret []
  end.

(** The mark goes to the last entry of the identifier. *)
Fixpoint mark_first (id : string) (devices : list pydict) : list pydict :=
  match devices with
  | [] => []
  | d :: l => if String.eqb (device_id d) id then dset d "attached" (VBool true) :: l else d :: mark_first id l
  end.
Definition mark_attached (devices : list pydict) (id : string) : list pydict := rev (mark_first id (rev devices)).

Definition reconnect_status (records : store) (id : string) (device : pydict) (desired : list (string * string)) (reconnects : list string) : string :=
  if (1 <? Z.of_nat (length desired)) || (1 <? Z.of_nat (length (remove_dups (map snd desired)))) then "ambiguous"
  else if negb (null reconnects) then "persistent-match"
  else if negb (null desired) then (if permits_rebind records id device then "eligible" else "explicit-rebind-required")
  else "unbound".

Definition midi_report (records : store) (claims : list (string * list (string * string))) (device : pydict) : pydict :=
  let id := device_id device in
  let desired := default [] (alookup claims id) in
  let wanted := map fst desired in
  let reconnects := List.filter (fun w => negb (String.eqb w id)) wanted in
  fold_left set_key
    [("desired", VBool (negb (null desired))); ("desiredDeviceIds", VList (map VStr wanted)); ("reconnectsDeviceIds", VList (map VStr reconnects));
     ("playerId", match desired with [(_, player)] => VStr player | _ => VNone end);
     ("reconnectStatus", VStr (reconnect_status records id device desired reconnects))]
    device.

Definition connected_changes (d : difference) : list pydict := map (fun id => [("kind", VStr "connected"); ("deviceId", VStr id)]) d.(connected_now).

Definition midi_changes (d : difference) (current : list (string * pydict)) (detached : list string) : list pydict :=
  let was id := VBool (existsb (String.eqb id) detached) in
  connected_changes d
  ++ map (fun id => [("kind", VStr "disconnected"); ("deviceId", VStr id); ("detached", was id)]) d.(disconnected)
  ++ map (fun id => [("kind", VStr "identity-changed"); ("deviceId", VStr id); ("previousPersistentId", d.(prior) id);
                     ("currentPersistentId", persistent_of (alookup current id)); ("detached", was id)]) d.(replaced).

(** The changes of one scan carry the next generation. *)
Definition stamped (generation : Z) (changes : list pydict) : list pydict :=
  imap (fun i change => dset (dset change "generation" (VInt generation)) "observedMonotonicNs" (VInt (e.(observed_ns) i))) changes.

(** The generation and the history after a scan. *)
Definition next_history (generation : Z) (history changes : list pydict) : Z * list pydict :=
  if null changes then (generation, history) else (generation + 1, last_of 128 (history ++ stamped (generation + 1) changes)).

Definition record_midi (device : pydict) : act unit :=
  let* _ := inside (H:=midi_store_part) (midi_record (e.(stored) (device_id device)) (device_id device) device) in st_ret tt.

(** The history, the endpoints and the identities after a scan. *)
Definition publish_midi (devices changes : list pydict) : act (list pydict) :=
  st_modify (fun h => let '(g, c) := next_history h.(_midi_hotplug_generation) h.(_midi_hotplug_changes) changes in set_midi_scan devices g c h) ;;;
  st_iter record_midi devices ;;; st_ret devices.

(** [bindings]: those of the show when the scan has been read. *)
Definition _refresh_midi_devices (primary : bool) (bindings : pydict) (rebind : bool) : act (list pydict) :=
  if negb e.(available) then st_modify (fun h => set_midi_scan [] h.(_midi_hotplug_generation) h.(_midi_hotplug_changes) h) ;;; st_ret []
  else
    let* scanned := scan_midi_devices in
    let* h := st_get in
    let devices := map (described_midi h.(midi_identities)) scanned in
    let d := difference_of h.(midi_identities) h.(_midi_devices) devices in
    let* detached := st_map detach_one (sort_strings (unsafe_ids d)) in
    let claims := claims_of h.(midi_identities) devices bindings in
    let* attached := if rebind && primary then st_map attach_one claims else st_ret [] in
    let devices := map (midi_report h.(midi_identities) claims) (fold_left mark_attached (concat attached) devices) in
    publish_midi devices (midi_changes d (by_id devices) (concat detached)).

Definition newer (after : Z) (change : pydict) : res bool := v ← dindex change "generation"; g ← py_int v; Ok (after <? g).

Definition history_status (generation : Z) (changes : list pydict) (after : Z) : res pydict :=
  kept ← map_res (fun c => n ← newer after c; Ok (if (n : bool) then [c] else [])) changes;
  Ok [("generation", VInt generation); ("changes", VList (map VDict (concat kept))); ("scanIntervalMs", VInt 2000);
      ("automaticActivation", VBool false); ("physicalOutputsArmed", VBool false)].

Definition midi_hotplug_status (after : Z) : act pydict :=
  let* h := st_get in st_lift (history_status h.(_midi_hotplug_generation) h.(_midi_hotplug_changes) after).

(** [stale]: a rescan was asked for, or the last is older than two seconds. *)
Definition midi_devices (primary stale : bool) (bindings : pydict) : act pydict :=
  st_when stale (st_catch is_runtime_error (_refresh_midi_devices primary bindings true ;;; st_ret tt)
    (fun _ => st_modify (fun h => set_midi_scan [] h.(_midi_hotplug_generation) h.(_midi_hotplug_changes) h))) ;;;
  let* h := st_get in
  let devices := map (fun d => dset d "attached" (VBool (truthy (dget_none d "attached")))) h.(_midi_devices) in
  let* hotplug := midi_hotplug_status 0 in
  st_ret [("available", VBool e.(available)); ("devices", VList (map VDict devices)); ("bindings", VDict bindings); ("hotplug", VDict hotplug);
          ("backend", VStr (if existsb (fun d => starts_with "linux-raw-" (device_id d)) devices then "linux-raw" else "native-abstraction"))].

(** [bind_midi_device] after the show has the binding. *)
Definition bind_endpoint (primary : bool) (bindings : pydict) (id player : string) : act unit :=
  st_when e.(available) (or_else
    (let* _ := _refresh_midi_devices primary bindings false in
     let* h := st_get in
     match List.find (fun d => py_eq (dget_none d "id") (VStr id) && truthy (dget_none d "connected")) h.(_midi_devices) with
     | Some selected =>
         let* _ := inside (H:=midi_store_part) (midi_record (e.(stored) id) id selected) in attach_midi_input id player
     | None => st_ret tt
     end ;;;
     let* _ := _refresh_midi_devices primary bindings true in st_ret tt) tt).

(** [unbind_midi_device] after the show has dropped the binding. *)
Definition unbind_endpoint (primary : bool) (bindings : pydict) (id : string) : act unit :=
  st_when e.(available) (st_catch is_runtime_error
    (detach_midi_input id ;;; let* _ := _refresh_midi_devices primary bindings true in st_ret tt) (fun _ => st_ret tt)).

(** ** Scanning audio endpoints *)

Definition _physical_audio_execution (value : pyval) : bool :=
  negb (existsb (String.eqb (lower (strip (py_str (py_or value (VStr "")))))) [""; "none"; "null"; "null-audio"; "bridge-only"]).

(** A slot that runs on an endpoint that left or was replaced. *)
Definition runs_unsafe (unsafe : list string) (status : list (string * string)) : bool :=
  match alookup status "selected" with Some id => existsb (String.eqb id) unsafe | None => false end
  && _physical_audio_execution (stated status "execution") && raw_is status "state" "2".

(** Stop one slot of one direction when it is unsafe; the slots stopped. *)
Definition stop_unsafe (status_of stop : nat -> act (list (string * string))) (unsafe : list string) (slot : nat) : act (list Z) :=
  or_else (let* status := status_of slot in
           if runs_unsafe unsafe status then let* _ := stop slot in st_ret [Z.of_nat slot] else st_ret []) [].

Definition stop_slot (unsafe : list string) (slot : nat) : act (list Z * list Z) :=
  let* outputs := stop_unsafe audio_stream_status deactivate_audio unsafe slot in
  let* inputs := stop_unsafe audio_input_status deactivate_audio_input unsafe slot in
  st_ret (outputs, inputs).

Definition rate_192k : pyval := VFloat (float_of_Z 192000).

Definition output_default (slot : Z) : pydict :=
  [("slot", VInt slot); ("deviceId", VStr (if slot =? 0 then "null-audio" else ""));
   ("purpose", VStr (if slot =? 0 then "foh" else if (slot =? 1) || (slot =? 2) then "monitor" else "broadcast"));
   ("playerId", VStr ""); ("graphOutput", VInt slot); ("master", VFloat (float_of_Z 1)); ("limiterCeilingDb", VFloat (float_of_Z (-1)));
   ("driftCompensation", VDict [("enabled", VBool true); ("maxCorrectionPpm", VFloat (float_of_Z 2000)); ("queueGainPpm", VFloat (float_of_Z 1000))])].

Definition four_defaults : list pydict := map (fun n => output_default (Z.of_nat n)) (seq 0 4).

Definition update_at (slot : Z) (item : pydict) (configs : list pydict) : list pydict :=
  match configs !! Z.to_nat slot with Some c => <[Z.to_nat slot := dmerge c item]> configs | None => configs end.

(** One configured output; one whose slot is no number is skipped. *)
Definition output_config (configs : list pydict) (item : pyval) : res (list pydict) :=
  match item with
  | VDict d =>
      match py_int (dget_or d "slot" (VInt (-1))) with
      | Ok slot => Ok (if slot_ok slot then update_at slot d configs else configs)
      | Raise x => if type_or_value x then Ok configs else Raise x
      end
  | _ => Ok configs
  end.

Definition _audio_output_configs (audio : pydict) : res (list pydict) :=
  match dget_none audio "outputs" with
  | VList outputs => fold_res output_config outputs four_defaults
  | _ => Ok (update_at 0 [("deviceId", dget_or audio "deviceId" (VStr "null-audio")); ("limiterCeilingDb", dget_or audio "limiterCeilingDb" (VFloat (float_of_Z (-1))))] four_defaults)
  end.

Definition route_default : pyval := VDict [("output", VInt 0); ("gain", VFloat (float_of_Z 0))].

Definition input_default (audio : pydict) (slot : Z) : pydict :=
  [("slot", VInt slot); ("deviceId", VStr ""); ("playerId", VStr ""); ("sampleRate", dget_or audio "sampleRate" rate_192k); ("route", route_default)].

(** The items whose slot is one of the four, with it. *)
Definition input_item (item : pyval) : res (list (Z * pydict)) :=
  match item with
  | VDict d => slot ← py_int (dget_or d "slot" (VInt (-1))); Ok (if slot_ok slot then [(slot, d)] else [])
  | _ => Ok []
  end.

(** [by_slot.get(slot, default)]: the last item of a slot. *)
Definition of_slot (items : list (Z * pydict)) (slot : Z) (default : pydict) : pydict :=
  match List.find (fun x => fst x =? slot) (rev items) with Some x => snd x | None => default end.

Definition _audio_input_configs (audio : pydict) : res (list pydict) :=
  match dget_none audio "inputs" with
  | VList inputs =>
      items ← map_res input_item inputs;
      Ok (map (fun n => of_slot (concat items) (Z.of_nat n) (input_default audio (Z.of_nat n))) (seq 0 4))
  | _ =>
      Ok ([("slot", VInt 0); ("deviceId", dget_or audio "inputDeviceId" (VStr "")); ("playerId", dget_or audio "inputPlayerId" (VStr ""));
           ("sampleRate", dget_or audio "sampleRate" rate_192k); ("route", py_or (dget_none audio "inputRoute") route_default)]
          :: map (fun n => input_default audio (Z.of_nat n)) (seq 1 3))
  end.

Definition described_audio (records : store) (device : pydict) : pydict :=
  dset (dmerge device (describe_audio_device e.(system) device)) "identityRecorded" (VBool (bool_decide (is_Some (expected records (device_id device))))).

Definition wanted_id (config : pydict) : string := field_text config "deviceId".

(** Select the endpoint a configuration resolves to, when there is one. *)
Definition select_one (records : store) (devices : list pydict) (direction : string) (select : string -> Z -> act unit) (config : pydict) : act unit :=
  match audio_resolve records (wanted_id config) devices direction with
  | Some (f :: d) =>
      or_else (let* slot := st_lift (py_int (dget_or config "slot" (VInt 0))) in select (device_id (f :: d)) slot) tt
  | _ => st_ret tt
  end.

(** The slots of the configurations that resolve to a device. *)
Definition slots_of (records : store) (devices : list pydict) (direction : string) (configs : list pydict) (device : pydict) : res (list Z) :=
  map_res (fun c => v ← dindex c "slot"; py_int v)
    (List.filter (fun c => is_device device (audio_resolve records (wanted_id c) devices direction)) configs).

Definition reconnects_of (records : store) (devices configs : list pydict) (device : pydict) : list string :=
  map wanted_id (List.filter (fun c => negb (String.eqb (wanted_id c) (device_id device))
                                    && is_device device (audio_reconnect_match records (wanted_id c) devices)) configs).

(** [list(dict.fromkeys(l))]. *)
Definition first_seen (l : list string) : list string := rev (remove_dups (rev l)).

Definition audio_report (records : store) (devices outputs inputs : list pydict) (device : pydict) : res pydict :=
  output_slots ← slots_of records devices "output" outputs device;
  input_slots ← slots_of records devices "input" inputs device;
  let reconnects := reconnects_of records devices (outputs ++ inputs) device in
  let wanted := existsb (fun c => truthy (dget_none c "deviceId") && is_device device (audio_resolve records (wanted_id c) devices "input")) inputs in
  Ok (fold_left set_key
    [("desired", VBool (existsb (Z.eqb 0) output_slots)); ("desiredOutput", VBool (negb (null output_slots)));
     ("desiredOutputSlots", VList (map VInt output_slots)); ("desiredInput", VBool wanted); ("desiredInputSlots", VList (map VInt input_slots));
     ("reconnectsDeviceIds", VList (map VStr (first_seen reconnects)));
     ("reconnectStatus", VStr (if negb (null reconnects) then "serial-match"
                               else if truthy (dget_none device "automaticReconnectEligible") then "eligible" else "explicit-recovery-required"))]
    device).

Definition audio_changes (d : difference) (current : list (string * pydict)) (outputs inputs : list Z) : list pydict :=
  let stopped := [("stoppedOutputSlots", VList (map VInt outputs)); ("stoppedInputSlots", VList (map VInt inputs))] in
  connected_changes d
  ++ map (fun id => [("kind", VStr "disconnected"); ("deviceId", VStr id)] ++ stopped) d.(disconnected)
  ++ map (fun id => [("kind", VStr "identity-changed"); ("deviceId", VStr id); ("previousPersistentId", d.(prior) id);
                     ("currentPersistentId", persistent_of (alookup current id))] ++ stopped) d.(replaced).

Definition record_audio (device : pydict) : act unit :=
  let* _ := inside (H:=audio_store_part) (audio_record (e.(stored) (device_id device)) (device_id device) device) in st_ret tt.

Definition publish_audio (devices changes : list pydict) : act (list pydict) :=
  st_modify (fun h => let '(g, c) := next_history h.(_audio_hotplug_generation) h.(_audio_hotplug_changes) changes in set_audio_scan devices g c h) ;;;
  st_iter record_audio devices ;;; st_ret devices.

(** [audio]: the audio section of the show when the slots have been checked. *)
Definition _refresh_audio_devices (audio : pydict) (reselect : bool) : act (list pydict) :=
  if negb e.(available) then st_modify (fun h => set_audio_scan [] h.(_audio_hotplug_generation) h.(_audio_hotplug_changes) h) ;;; st_ret []
  else
    let* scanned := scan_audio_devices in
    let* h := st_get in
    let records := h.(audio_identities) in
    let devices := map (described_audio records) scanned in
    let d := difference_of records h.(_audio_devices) devices in
    let* stopped := st_map (stop_slot (unsafe_ids d)) (seq 0 4) in
    let* outputs := st_lift (_audio_output_configs audio) in
    let* inputs := st_lift (_audio_input_configs audio) in
    st_when reselect (st_iter (select_one records devices "output" select_audio_device) outputs ;;;
                      st_iter (select_one records devices "input" select_audio_input) inputs) ;;;
    let* reported := st_lift (map_res (audio_report records devices outputs inputs) devices) in
    publish_audio reported (audio_changes d (by_id devices) (concat (map fst stopped)) (concat (map snd stopped))).

Definition audio_hotplug_status (after : Z) : act pydict :=
  let* h := st_get in st_lift (history_status h.(_audio_hotplug_generation) h.(_audio_hotplug_changes) after).

Definition _find_audio_device (desired direction : string) : act (option pydict) :=
  let* h := st_get in st_ret (audio_resolve h.(audio_identities) desired h.(_audio_devices) direction).

(** One round of [_audio_hotplug_loop]. *)
Definition audio_hotplug_round (audio : pydict) : act unit :=
  st_when e.(available) (st_catch (fun x => engine_error x || is_os_error x) (_refresh_audio_devices audio true ;;; st_ret tt) (fun _ => st_ret tt)).

(** The refusal while a stream of the direction runs; a slot that cannot be read is passed over. *)
Definition need_stopped (direction : string) (slot : nat) : act unit :=
  let* active := or_else (let* status := (if String.eqb direction "output" then audio_stream_status slot else audio_input_status slot) in
                          st_ret (negb (raw_is status "execution" "none") && String.eqb (raw_get status "state" "0") "2")) false in
  if active then st_raise (ValueError ("stop all active audio " +:+ direction +:+ " streams before replacing endpoint identity")) else st_ret tt.

Definition replace_audio_identity (audio data : pydict) : act pydict :=
  if negb (is_true (dget_none data "acknowledgeIdentityReplacement"))
  then st_raise (ValueError "audio identity replacement requires acknowledgeIdentityReplacement=true")
  else
    let desired_id := strip (field_text data "desiredDeviceId") in
    let current_id := strip (field_text data "currentDeviceId") in
    let direction := strip (field_text data "direction") in
    if String.eqb desired_id "" || String.eqb current_id "" then st_raise (ValueError "desiredDeviceId and currentDeviceId are required")
    else if negb (String.eqb direction "output" || String.eqb direction "input") then st_raise (ValueError "direction must be output or input")
    else
      let* _ := _refresh_audio_devices audio false in
      let* h := st_get in
      match List.find (fun d => String.eqb (device_id d) current_id && audio_candidate direction d) h.(_audio_devices) with
      | None => st_raise (ValueError ("current audio " +:+ direction +:+ " endpoint is not connected"))
      | Some current =>
          st_iter (need_stopped direction) (seq 0 4) ;;;
          let* moved := inside (H:=audio_store_part) (audio_replace (e.(stored) desired_id) desired_id current) in
          let* _ := _refresh_audio_devices audio true in
          let* selected := _find_audio_device desired_id direction in
          st_ret [("documentType", VStr "org.upp.audio-identity-replacement"); ("schemaVersion", VInt 1); ("desiredDeviceId", VStr desired_id);
                  ("currentDeviceId", VStr current_id); ("direction", VStr direction);
                  ("previousPersistentId", dget_none (fst moved) "persistentId"); ("currentPersistentId", dget_none (snd moved) "persistentId");
                  ("identityStrength", dget_none (snd moved) "identityStrength");
                  ("automaticReconnectEligible", VBool (reconnectable (snd moved)));
                  ("selected", VBool (match selected with Some d => String.eqb (py_str (dget_none d "id")) current_id | None => false end));
                  ("streamsStarted", VBool false); ("physicalOutputsArmed", VBool false)]
      end.
End scans.

(** * The lines a scan sends *)

Lemma visible_char c : is_space c = false -> is_line_break c = false.
Proof. unfold is_space, is_line_break, in_range. lia. Qed.

Definition one_line (s : string) : bool := negb (existsb is_line_break (chars s)).

Lemma one_line_app a b : one_line (a +:+ b) = one_line a && one_line b.
Proof. unfold one_line. by rewrite chars_app, existsb_app, negb_orb. Qed.

Lemma token_one_line s : is_token s = true -> one_line s = true.
Proof.
  unfold is_token, one_line. intros [_ H]%andb_prop. destruct (existsb is_line_break (chars s)) eqn:E; [|done].
  apply existsb_exists in E as (c & Hin & Hc). apply negb_true_iff in H. assert (is_space c = false) as Hs.
  { destruct (is_space c) eqn:Es; [|done]. rewrite <- H. symmetry. apply existsb_exists. by exists c. }
  by rewrite (visible_char _ Hs) in Hc.
Qed.

Lemma dec_one_line n : one_line (dec (Z.of_nat n)) = true.
Proof.
  unfold one_line. destruct (dec_digits (Z.of_nat n) ltac:(lia)) as (c & ds & -> & Hd & _). apply negb_true_iff.
  destruct (existsb is_line_break (c :: ds)) eqn:E; [|done]. apply existsb_exists in E as (x & Hin & Hx). rewrite forallb_forall in Hd.
  specialize (Hd x Hin). unfold is_digit, in_range, is_line_break in *. lia.
Qed.

(** Only [sent] changes. *)
Definition send (lines : list string) (h : hub) : hub := set_sent (h.(sent) ++ lines) h.

Lemma send_send a b h : send b (send a h) = send (a ++ b) h.
Proof. unfold send, set_sent. cbn. by rewrite app_assoc. Qed.

Lemma send_nil h : send [] h = h.
Proof. unfold send, set_sent. rewrite app_nil_r. by destruct h. Qed.

Section lines.
Context (e : engine).

Definition asked (n : nat) (command : string) : res (list (string * string)) := values_of (e.(answer) n command).

Lemma request_line command h : one_line command = true -> request e command h = (send [command] h, asked (length h.(sent)) command).
Proof. unfold one_line, request. intros ->%negb_true_iff. done. Qed.

Lemma asked_engine_error n command x : asked n command = Raise x -> engine_error x = true.
Proof.
  unfold asked, values_of. destruct (answer e n command) as [m|m|line]; [by intros [= <-]..|]. unfold parse_response.
  destruct (words_of [] (chars line)) as [|w ws]; [by intros [= <-]|]. destruct (_ && _); [by intros [= <-]|]. cbn [mbind res_bind].
  cbn. destruct (String.eqb _ _); [done|by intros [= <-]].
Qed.

(** The entries of a scan are read with one line each. *)
Definition scan_lines (start line : string) (n : nat) : list string := start :: map (fun i => line +:+ " " +:+ dec (Z.of_nat i)) (seq 0 n).

Lemma read_entry_line line entry i h : one_line line = true ->
  read_entry e line entry i h = (send [line +:+ " " +:+ dec (Z.of_nat i)] h, raw ← asked (length h.(sent)) (line +:+ " " +:+ dec (Z.of_nat i)); Ok (entry i raw)).
Proof.
  intros Hl. unfold read_entry. unfold st_bind. rewrite request_line by (by rewrite !one_line_app, Hl, dec_one_line). by destruct (asked _ _).
Qed.

Lemma entries_lines line entry ixs h : one_line line = true -> exists n, (n <= length ixs)%nat /\
  fst (st_map (read_entry e line entry) ixs h) = send (map (fun i => line +:+ " " +:+ dec (Z.of_nat i)) (firstn n ixs)) h /\
  forall ds, snd (st_map (read_entry e line entry) ixs h) = Ok ds -> n = length ixs /\ length ds = length ixs /\
    forall k i d, ixs !! k = Some i -> ds !! k = Some d ->
      exists raw, asked (length h.(sent) + k) (line +:+ " " +:+ dec (Z.of_nat i)) = Ok raw /\ d = entry i raw.
Proof.
  intros Hl. revert h. induction ixs as [|i ixs IH]; intros h; cbn [st_map].
  { exists 0%nat. rewrite send_nil. split; [done|]. split; [done|]. by intros ds [= <-]. }
  unfold st_bind at 1 3. rewrite (read_entry_line line entry i h Hl). destruct (asked _ _) as [raw|x] eqn:Ea; cbn [mbind res_bind].
  2: { exists 1%nat. cbn. split; [lia|]. by split. }
  cbn. destruct (IH (send [line +:+ " " +:+ dec (Z.of_nat i)] h)) as (n & Hn & Hf & Hs). exists (S n). split; [cbn; lia|].
  unfold st_bind. destruct (st_map _ ixs _) as [h' [ds|x]]; cbn [fst snd] in *; subst h'; rewrite send_send; (split; [done|]); [|done].
  intros ? [= <-]. destruct (Hs ds eq_refl) as (-> & Hds & Hall). split; [done|]. split; [cbn; congruence|]. intros [|k] j d Hj Hd; cbn in Hj, Hd.
  - injection Hj as <-. injection Hd as <-. exists raw. by rewrite Nat.add_0_r.
  - destruct (Hall k j d Hj Hd) as (raw' & Hr & ->). exists raw'. split; [|done]. rewrite <- Hr. f_equal. cbn. rewrite length_app. cbn. lia.
Qed.

(** A scan's entries are the answers to the lines that ask for them, one each, sent from [n] on. *)
Definition listing (line : string) (entry : nat -> list (string * string) -> pydict) (n : nat) (ds : list pydict) : Prop :=
  forall i d, ds !! i = Some d -> exists raw, asked (n + i) (line +:+ " " +:+ dec (Z.of_nat i)) = Ok raw /\ d = entry i raw.

Lemma scan_sends start line limit entry h : one_line start = true -> one_line line = true -> exists n, (Z.of_nat n <= Z.max 0 limit) /\
  fst (scan e start line limit entry h) = send (scan_lines start line n) h /\
  forall ds, snd (scan e start line limit entry h) = Ok ds -> length ds = n /\ listing line entry (S (length h.(sent))) ds.
Proof.
  intros Hs Hl. unfold scan. unfold st_bind at 1 3. rewrite (request_line start h Hs).
  destruct (asked _ start) as [raw|x]; [|exists 0%nat; split; [lia|by split]].
  unfold st_bind, st_lift. destruct (py_int _) as [count|x]; [|exists 0%nat; split; [lia|by split]].
  destruct (entries_lines line entry (seq 0 (Z.to_nat (Z.max 0 (Z.min count limit)))) (send [start] h) Hl) as (n & Hn & Hf & Hd). rewrite Hf, send_send.
  rewrite length_seq in Hn. exists n. split; [lia|]. split.
  - unfold scan_lines. cbn [app]. f_equal. f_equal. f_equal. rewrite take_seq. f_equal. lia.
  - intros ds H. destruct (Hd ds H) as (-> & Hlen & Hall). split; [done|]. intros i d Hi.
    assert (i < Z.to_nat (Z.max 0 (Z.min count limit)))%nat as Hlt by (apply lookup_lt_Some in Hi; by rewrite Hlen, length_seq in Hi).
    destruct (Hall i i d) as (r & Hr & ->); [by apply lookup_seq; lia|done|]. exists r. split; [|done]. rewrite <- Hr. f_equal. cbn. rewrite length_app. cbn. lia.
Qed.

(** Detaching and attaching send one line per token, whatever the engine answers. *)
Lemma detach_one_line id h : exists l, detach_one e id h = (send (when (is_token id) ("MIDI_DETACH " +:+ id)) h, Ok l).
Proof.
  unfold detach_one, or_else, st_catch, detach_midi_input. destruct (is_token id) eqn:Et; cbn [negb when].
  - unfold st_bind. rewrite request_line by (by rewrite one_line_app, (token_one_line id)). destruct (asked _ _) as [r|x] eqn:Ea; [by exists [id]|].
    rewrite (asked_engine_error _ _ _ Ea). by exists [].
  - rewrite send_nil. by exists [].
Qed.

Lemma attach_one_line entry h : exists l, attach_one e entry h =
  (send (match snd entry with [(_, player)] => when (is_token (fst entry) && is_token player) ("MIDI_ATTACH " +:+ fst entry +:+ " " +:+ player) | _ => [] end) h, Ok l).
Proof.
  destruct entry as [id l]. unfold attach_one. cbn [fst snd]. destruct l as [|[w player] [|]]; try (rewrite send_nil; by exists []).
  unfold or_else, st_catch, attach_midi_input. destruct (is_token id) eqn:Et; cbn [negb andb when]; [|rewrite send_nil; by exists []].
  destruct (is_token player) eqn:Ep; cbn [negb when]; [|rewrite send_nil; by exists []].
  unfold st_bind. rewrite request_line by (by rewrite !one_line_app, (token_one_line id), (token_one_line player)). destruct (asked _ _) as [r|x] eqn:Ea; [by exists [id]|].
  rewrite (asked_engine_error _ _ _ Ea). by exists [].
Qed.

Lemma st_map_sends {A B} (f : A -> act B) (lines : A -> list string) l h :
  (forall a h, exists b, f a h = (send (lines a) h, Ok b)) -> exists bs, st_map f l h = (send (concat (map lines l)) h, Ok bs).
Proof.
  intros Hf. revert h. induction l as [|a l IH]; intros h; cbn [st_map map concat]; [exists []; by rewrite send_nil|].
  destruct (Hf a h) as [b Hb]. unfold st_bind at 1. rewrite Hb. destruct (IH (send (lines a) h)) as [bs Hbs]. unfold st_bind. rewrite Hbs, send_send. by exists (b :: bs).
Qed.

Definition detach_lines (ids : list string) : list string := map (fun id => "MIDI_DETACH " +:+ id) (List.filter is_token ids).

Lemma detach_all_sends ids h : exists l, st_map (detach_one e) ids h = (send (detach_lines ids) h, Ok l).
Proof.
  destruct (st_map_sends (detach_one e) (fun id => when (is_token id) ("MIDI_DETACH " +:+ id)) ids h) as [l ->]; [intros; apply detach_one_line|].
  exists l. do 2 f_equal. unfold detach_lines. induction ids as [|id ids IH]; [done|]. cbn. rewrite IH. by destruct (is_token id).
Qed.

Definition attach_lines (claims : list (string * list (string * string))) : list string :=
  concat (map (fun entry => match snd entry with
                            | [(_, player)] => when (is_token (fst entry) && is_token player) ("MIDI_ATTACH " +:+ fst entry +:+ " " +:+ player)
                            | _ => [] end) claims).

Lemma attach_all_sends claims h : exists l, st_map (attach_one e) claims h = (send (attach_lines claims) h, Ok l).
Proof. apply st_map_sends. intros. apply attach_one_line. Qed.

Lemma publish_midi_sends devices changes h : (fst (publish_midi e devices changes h)).(sent) = h.(sent).
Proof.
  assert (keeps (fun x => x.(sent) = h.(sent)) (publish_midi e devices changes)) as Hk.
  { unfold publish_midi. apply keeps_bind.
    - apply keeps_modify. intros x Hx. destruct (next_history _ _ _). done.
    - intros _. apply keeps_bind; [|intros; apply keeps_ret]. apply keeps_iter. intros d _. unfold record_midi. apply keeps_bind; [|intros; apply keeps_ret].
      intros x Hx. by rewrite inside_eq. }
  by apply Hk.
Qed.

Lemma scan_midi_sends h : exists n, (n <= 32)%nat /\ fst (scan_midi_devices e h) = send (scan_lines "MIDI_SCAN" "MIDI_DEVICE" n) h /\
  forall ds, snd (scan_midi_devices e h) = Ok ds -> length ds = n /\ listing "MIDI_DEVICE" midi_entry (S (length h.(sent))) ds.
Proof. destruct (scan_sends "MIDI_SCAN" "MIDI_DEVICE" 32 midi_entry h) as (n & Hn & H); [done..|]. exists n. split; [lia|done]. Qed.

Lemma scan_audio_sends h : exists n, (n <= 64)%nat /\ fst (scan_audio_devices e h) = send (scan_lines "AUDIO_SCAN" "AUDIO_DEVICE" n) h /\
  forall ds, snd (scan_audio_devices e h) = Ok ds -> length ds = n /\ listing "AUDIO_DEVICE" audio_entry (S (length h.(sent))) ds.
Proof. destruct (scan_sends "AUDIO_SCAN" "AUDIO_DEVICE" 64 audio_entry h) as (n & Hn & H); [done..|]. exists n. split; [lia|done]. Qed.
End lines.

(** ** What is claimed *)

Lemma claims_lookup records devices bindings id : default [] (alookup (claims_of records devices bindings) id) =
  map (fun b => (fst b, py_str (snd b)))
    (List.filter (fun b => match midi_resolve records (fst b) devices with Some c => String.eqb (device_id c) id | None => false end) bindings).
Proof.
  unfold claims_of. assert (forall start, default [] (alookup (fold_left (claim records devices) bindings start) id) =
    default [] (alookup start id) ++ map (fun b => (fst b, py_str (snd b)))
      (List.filter (fun b => match midi_resolve records (fst b) devices with Some c => String.eqb (device_id c) id | None => false end) bindings)) as H; [|by rewrite H].
  induction bindings as [|b bindings IH]; intros start; [by rewrite app_nil_r|]. cbn [fold_left List.filter]. rewrite IH. unfold claim.
  destruct (midi_resolve records (fst b) devices) as [c|]; [|done]. rewrite alookup_aput, String.eqb_sym. destruct (String.eqb_spec (device_id c) id) as [->|]; [|done].
  cbn. by rewrite <- app_assoc.
Qed.

Lemma claims_keys records devices bindings : NoDup (map fst (claims_of records devices bindings)).
Proof.
  unfold claims_of. assert (forall start, NoDup (map fst start) -> NoDup (map fst (fold_left (claim records devices) bindings start))) as H; [|apply H; constructor].
  induction bindings as [|b bindings IH]; intros start Hs; [done|]. cbn. apply IH. unfold claim. destruct (midi_resolve _ _ _); [by apply aput_nodup|done].
Qed.

Lemma dset_nonempty d k v : dset d k v <> [].
Proof. destruct d as [|[k' w] d]; cbn; [done|]. by destruct (String.eqb k k'). Qed.

Lemma described_nonempty e records scanned : [] ∉ map (described_midi e records) scanned.
Proof. intros (d & H & _)%list_elem_of_fmap. by apply (dset_nonempty _ _ _ (eq_sym H)). Qed.

(** One binding, of the show, makes the claim. *)
Definition sole_claim (records : store) (devices : list pydict) (bindings : pydict) (wanted : string) (device : pydict) : Prop :=
  forall other v found, (other, v) ∈ bindings -> midi_resolve records other devices = Some found -> device_id found = device_id device -> other = wanted.

Lemma attach_lines_claimed records devices bindings line : [] ∉ devices -> line ∈ attach_lines (claims_of records devices bindings) ->
  exists wanted player device, line = "MIDI_ATTACH " +:+ device_id device +:+ " " +:+ py_str player /\ (wanted, player) ∈ bindings /\
    midi_stands_for records wanted devices device /\ sole_claim records devices bindings wanted device.
Proof.
  intros Hne (ls & Hin & Hl)%list_elem_of_In%in_concat. apply in_map_iff in Hin as ([id claimed] & <- & Hc%list_elem_of_In). cbn [snd fst] in Hl.
  destruct claimed as [|[w p] [|]]; [done| |done]. destruct (_ && _); cbn [when] in Hl; [|done]. destruct Hl as [<-|[]].
  pose proof (alookup_nodup _ _ _ (claims_keys records devices bindings) Hc) as Hlk. pose proof (claims_lookup records devices bindings id) as Hcl. rewrite Hlk in Hcl. cbn [default] in Hcl.
  match type of Hcl with _ = map _ ?l => destruct l as [|[w' v] [|]] eqn:Ef end; [discriminate Hcl| |discriminate Hcl]. injection Hcl as -> ->.
  destruct (filter_one _ _ _ Ef) as [Hb Hr]. cbn [fst] in Hr. destruct (midi_resolve records w' devices) as [device|] eqn:Er; [|discriminate Hr]. apply String.eqb_eq in Hr as <-.
  exists w', v, device. split; [done|]. split; [done|]. split; [by apply midi_resolve_some|].
  intros other v' found Ho Hf Hid. assert ((other, v') ∈ [(w', v)]) as Hx.
  { rewrite <- Ef. apply elem_of_filter_bool. split; [done|]. cbn [fst]. by rewrite Hf, Hid, str_eqb_refl. }
  by apply list_elem_of_singleton in Hx as [= -> _].
Qed.

(** ** Endpoints that left or were replaced *)

Definition listed (l : list pydict) (id : string) : Prop := exists d, d ∈ l /\ device_id d = id.

(** The entry of an identifier in a list: the last that has it. *)
Definition entry_of (l : list pydict) (id : string) (d : pydict) : Prop :=
  exists l1 l2, l = l1 ++ d :: l2 /\ device_id d = id /\ forall x, x ∈ l2 -> device_id x <> id.

Definition identity (d : pydict) : pyval := dget_none d "persistentId".

(** What was known of an identifier: the entry of the scan before, or else what is pinned there. *)
Definition known_as (records : store) (before : list pydict) (id : string) (p : pydict) : Prop :=
  (entry_of before id p /\ p <> []) \/ ((~ listed before id \/ entry_of before id []) /\ pinned records id = Some p).

(** Listed before, and no longer. *)
Definition gone (before now : list pydict) (id : string) : Prop := listed before id /\ ~ listed now id.

(** Listed with a readable identity that is another than the readable one known of it. *)
Definition replaced_at (records : store) (before now : list pydict) (id : string) : Prop :=
  exists d p, entry_of now id d /\ known_as records before id p /\
    truthy (identity d) = true /\ truthy (identity p) = true /\ py_eq (identity p) (identity d) = false.

Definition unsafe_at (records : store) (before now : list pydict) (id : string) : Prop :=
  gone before now id \/ replaced_at records before now id.

Lemma by_id_snoc l d : by_id (l ++ [d]) = aput (by_id l) (device_id d) d.
Proof. unfold by_id. by rewrite fold_left_app. Qed.

Lemma entry_of_snoc l d id x : entry_of (l ++ [d]) id x <-> (device_id d = id /\ x = d) \/ (device_id d <> id /\ entry_of l id x).
Proof.
  split.
  - intros (l1 & l2 & E & Hx & Hl). destruct l2 as [|y l2 _] using rev_ind.
    + apply app_inj_tail in E as [-> ->]. by left.
    + rewrite app_comm_cons, app_assoc in E. apply app_inj_tail in E as [-> ->]. right. split; [apply Hl; set_solver|].
      exists l1, l2. split_and!; [done..|]. intros z Hz. apply Hl. set_solver.
  - intros [[Hd ->]|[Hd (l1 & l2 & -> & Hx & Hl)]]; [exists l, []; split_and!; [done..|set_solver]|].
    exists l1, (l2 ++ [d]). rewrite <- app_assoc. split_and!; [done..|]. intros z [Hz|Hz%list_elem_of_singleton]%elem_of_app; [by apply Hl|by subst z].
Qed.

Lemma by_id_entry l id x : alookup (by_id l) id = Some x <-> entry_of l id x.
Proof.
  induction l as [|d l IH] using rev_ind.
  - split; [done|]. intros ([|? l1] & l2 & E & _); done.
  - rewrite by_id_snoc, entry_of_snoc, alookup_aput, String.eqb_sym. destruct (String.eqb_spec (device_id d) id) as [E|E].
    + split; [intros [= ->]; by left|by intros [[_ ->]|[? _]]].
    + rewrite IH. split; [intros H; by right|by intros [[? _]|[_ ?]]].
Qed.

Lemma entry_listed l id x : entry_of l id x -> listed l id.
Proof. intros (l1 & l2 & -> & H & _). exists x. split; [set_solver|done]. Qed.

Lemma by_id_none l id : alookup (by_id l) id = None <-> ~ listed l id.
Proof.
  induction l as [|d l IH] using rev_ind.
  - split; [intros _ (x & Hx & _); set_solver|done].
  - rewrite by_id_snoc, alookup_aput, String.eqb_sym. destruct (String.eqb_spec (device_id d) id) as [E|E].
    + split; [done|]. intros H. destruct H. exists d. split; [apply elem_of_app; right; by left|done].
    + rewrite IH. unfold listed. split; intros H (x & Hx & Hid); apply H; exists x; (split; [|done]); [|apply elem_of_app; by left].
      apply elem_of_app in Hx as [Hx|Hx%list_elem_of_singleton]; [done|by subst].
Qed.

Lemma elem_of_ids_of l id : id ∈ ids_of l <-> listed l id.
Proof.
  unfold ids_of, listed. rewrite elem_of_remove_dups, list_elem_of_fmap. split; [intros (d & -> & H); by exists d|intros (d & H & <-); by exists d].
Qed.

Lemma elem_of_sorted_minus a b x : x ∈ sorted_minus a b <-> x ∈ a /\ x ∉ b.
Proof.
  unfold sorted_minus. rewrite elem_of_sort_strings, elem_of_filter_bool, negb_true_iff. f_equiv. rewrite <- not_true_iff_false. f_equiv.
  rewrite existsb_exists. split; [by intros (y & Hy & ->%String.eqb_eq); apply list_elem_of_In|]. intros H. exists x. split; [by apply list_elem_of_In|apply str_eqb_refl].
Qed.

(** What was known has the identity the scan compares with. *)
Lemma prior_known records before id : 
  match prior_of records (by_id before) id with
  | Some p => known_as records before id p
  | None => forall p, ~ known_as records before id p
  end /\ forall p q, known_as records before id p -> known_as records before id q -> p = q.
Proof.
  assert (forall x y, entry_of before id x -> entry_of before id y -> x = y) as Hone.
  { intros x y Hx%by_id_entry Hy%by_id_entry. congruence. }
  split.
  - unfold prior_of. destruct (alookup (by_id before) id) as [[|f d]|] eqn:E.
    + apply by_id_entry in E. destruct (pinned records id) as [p|] eqn:Ep; [right; split; [by right|done]|].
      intros p [[Hp Hne]|[_ Hp]]; [|congruence]. by rewrite <- (Hone _ _ E Hp) in Hne.
    + apply by_id_entry in E. by left.
    + apply by_id_none in E. destruct (pinned records id) as [p|] eqn:Ep; [right; split; [by left|done]|].
      intros p [[Hp _]|[_ Hp]]; [|congruence]. by apply entry_listed in Hp.
  - intros p q [[Hp Hpn]|[Hp Ep]] [[Hq Hqn]|[Hq Eq]]; [by eapply Hone| | |congruence]; exfalso.
    + destruct Hq as [Hq|Hq]; [by apply Hq, (entry_listed _ _ p)|]. by rewrite (Hone _ _ Hq Hp) in Hpn.
    + destruct Hp as [Hp|Hp]; [by apply Hp, (entry_listed _ _ q)|]. by rewrite (Hone _ _ Hp Hq) in Hqn.
Qed.

Lemma changed_replaced records before now id :
  listed now id /\ identity_changed records (by_id before) (by_id now) id = true <-> replaced_at records before now id.
Proof.
  unfold identity_changed, replaced_at. destruct (prior_known records before id) as [Hp Hone]. split.
  - intros [Hl H]. destruct (alookup (by_id now) id) as [d|] eqn:Ed; [|by apply by_id_none in Ed]. apply by_id_entry in Ed.
    destruct (prior_of records (by_id before) id) as [p|]; cbn [persistent_of] in H; [|done].
    repeat (apply andb_true_iff in H as [H ?]). exists d, p. split_and!; [done..|]. by apply negb_true_iff.
  - intros (d & p & Hd & Hk & Td & Tp & Hne). split; [by eapply entry_listed|]. apply by_id_entry in Hd as ->. cbn [persistent_of].
    destruct (prior_of records (by_id before) id) as [p'|] eqn:Ep; [|by apply Hp in Hk]. assert (p' = p) as -> by (by apply Hone). cbn [persistent_of].
    change (dget_none p "persistentId") with (identity p). change (dget_none d "persistentId") with (identity d). rewrite Td, Tp, Hne. cbn.
    unfold prior_of in Ep. destruct (alookup (by_id before) id) as [[|f q]|]; [|injection Ep as <-; change (dget_none (f :: q) "persistentId") with (identity (f :: q)); by rewrite Hne|done].
    change (dget_none [] "persistentId") with VNone. by destruct (identity d).
Qed.

Lemma elem_of_unsafe records before now id : id ∈ unsafe_ids (difference_of records before now) <-> unsafe_at records before now id.
Proof.
  unfold unsafe_ids, difference_of, unsafe_at, gone. cbn [disconnected replaced]. rewrite elem_of_app, elem_of_sorted_minus, !elem_of_ids_of, elem_of_sort_strings,
    elem_of_filter_bool, elem_of_ids_of, changed_replaced. done.
Qed.

Lemma detach_lines_spec ids line : line ∈ detach_lines ids <-> exists id, id ∈ ids /\ is_token id = true /\ line = "MIDI_DETACH " +:+ id.
Proof.
  unfold detach_lines. rewrite list_elem_of_fmap. setoid_rewrite elem_of_filter_bool. split; [intros (id & -> & H & Ht)|intros (id & H & Ht & ->)]; by exists id.
Qed.

(** C28: a scan of the MIDI endpoints detaches first, and attaches only what is
    pinned. It lists the endpoints, one line for each. Then it asks the engine to
    detach exactly the endpoints that were listed by the scan before and no longer
    are, and those whose readable identity is another than the readable one they had
    in the scan before (or, unlisted then, that is pinned at their identifier), as far
    as their identifier is a token, as every line needs. Only then, on the primary
    alone and when it may rebind, it attaches endpoints that are connected and carry
    the identity pinned to the identifier of a binding, uniquely when that identity is
    strong; an endpoint that two bindings resolve to is attached to neither. An
    endpoint whose identity can no longer be read is not detached. When the scan fails
    it stops there. *)
Theorem midi_scans_are_guarded e primary bindings rebind h :
  let h' := fst (_refresh_midi_devices e primary bindings rebind h) in
  if negb e.(available) then h'.(sent) = h.(sent) /\ h'.(_midi_devices) = []
  else exists n, (n <= 32)%nat /\
    match snd (scan_midi_devices e h) with
    | Raise x => _refresh_midi_devices e primary bindings rebind h = (send (scan_lines "MIDI_SCAN" "MIDI_DEVICE" n) h, Raise x)
    | Ok scanned =>
        let devices := map (described_midi e h.(midi_identities)) scanned in
        length scanned = n /\ listing e "MIDI_DEVICE" midi_entry (S (length h.(sent))) scanned /\
        exists detaches attaches, h'.(sent) = h.(sent) ++ scan_lines "MIDI_SCAN" "MIDI_DEVICE" n ++ detaches ++ attaches /\
          (forall line, line ∈ detaches <->
             exists id, unsafe_at h.(midi_identities) h.(_midi_devices) devices id /\ is_token id = true /\ line = "MIDI_DETACH " +:+ id) /\
          forall line, line ∈ attaches -> rebind = true /\ primary = true /\
            exists wanted player device, line = "MIDI_ATTACH " +:+ device_id device +:+ " " +:+ py_str player /\ (wanted, player) ∈ bindings /\
              midi_stands_for h.(midi_identities) wanted devices device /\ sole_claim h.(midi_identities) devices bindings wanted device
    end.
Proof.
  cbv zeta. unfold _refresh_midi_devices. destruct (available e); cbn [negb]; [|done].
  destruct (scan_midi_sends e h) as (n & Hn & Hf & Hlist). exists n. split; [done|].
  destruct (scan_midi_devices e h) as [h1 [scanned|x]] eqn:Es; cbn [fst snd] in *; subst h1; [|by unfold st_bind at 1; rewrite Es].
  destruct (Hlist scanned eq_refl) as [Hlen Hasked]. split; [done|]. split; [done|].
  unfold st_bind at 1. rewrite Es, st_get_bind. cbv zeta.
  change (midi_identities (send ?l h)) with (midi_identities h). change (_midi_devices (send ?l h)) with (_midi_devices h).
  set (devices := map (described_midi e (midi_identities h)) scanned). set (unsafe := sort_strings _).
  assert (forall line, line ∈ detach_lines unsafe <->
    exists id, unsafe_at h.(midi_identities) h.(_midi_devices) devices id /\ is_token id = true /\ line = "MIDI_DETACH " +:+ id) as Hdetach.
  { intros line. rewrite detach_lines_spec. unfold unsafe. setoid_rewrite elem_of_sort_strings. by setoid_rewrite elem_of_unsafe. }
  unfold st_bind at 1. destruct (detach_all_sends e unsafe (send (scan_lines "MIDI_SCAN" "MIDI_DEVICE" n) h)) as [detached ->].
  exists (detach_lines unsafe). destruct (rebind && primary) eqn:Er.
  - unfold st_bind at 1. match goal with |- context [st_map (attach_one e) ?c ?s] => destruct (attach_all_sends e c s) as [attached ->] end.
    exists (attach_lines (claims_of (midi_identities h) devices bindings)). rewrite publish_midi_sends, !send_send. split; [done|]. split; [done|].
    intros line Hl. apply andb_prop in Er as [-> ->]. split; [done|]. split; [done|]. by apply attach_lines_claimed; [apply described_nonempty|].
  - rewrite st_ret_bind. exists []. rewrite publish_midi_sends, send_send. split; [cbn; by rewrite app_nil_r|]. split; [done|]. by intros line ?%elem_of_nil.
Qed.

(** ** The lines of an audio scan *)

Section audio_lines.
Context (e : engine).

(** The line that asks for one slot, and the one that stops it when it runs on an
    endpoint that left or was replaced; [n]: the lines sent before. *)
Definition direction_lines (status stop : string) (unsafe : list string) (n slot : nat) : list string :=
  (status +:+ " " +:+ dec (Z.of_nat slot)) ::
  match asked e n (status +:+ " " +:+ dec (Z.of_nat slot)) with
  | Ok answered => when (runs_unsafe unsafe answered) (stop +:+ " " +:+ dec (Z.of_nat slot))
  | Raise _ => []
  end.

Definition slot_lines (unsafe : list string) (n slot : nat) : list string :=
  let outputs := direction_lines "AUDIO_STREAM_STATUS" "AUDIO_DEACTIVATE" unsafe n slot in
  outputs ++ direction_lines "AUDIO_INPUT_STATUS" "AUDIO_INPUT_DEACTIVATE" unsafe (n + length outputs) slot.

Fixpoint slots_lines (unsafe : list string) (n : nat) (slots : list nat) : list string :=
  match slots with
  | [] => []
  | slot :: slots => slot_lines unsafe n slot ++ slots_lines unsafe (n + length (slot_lines unsafe n slot)) slots
  end.

Lemma sent_send l h : (send l h).(sent) = h.(sent) ++ l.
Proof. done. Qed.

Lemma slot_request_line command slot h : one_line command = true ->
  slot_request e command slot h = (send [command +:+ " " +:+ dec (Z.of_nat slot)] h, asked e (length h.(sent)) (command +:+ " " +:+ dec (Z.of_nat slot))).
Proof. intros Hc. apply request_line. by rewrite !one_line_app, Hc, dec_one_line. Qed.

Lemma stop_unsafe_lines status stop unsafe slot h : one_line status = true -> one_line stop = true ->
  exists l, stop_unsafe (slot_request e status) (slot_request e stop) unsafe slot h = (send (direction_lines status stop unsafe (length h.(sent)) slot) h, Ok l).
Proof.
  intros Hs Hp. unfold stop_unsafe, or_else, st_catch. unfold st_bind at 1. rewrite slot_request_line by done. unfold direction_lines.
  destruct (asked e _ _) as [answered|x] eqn:Ea; [|rewrite (asked_engine_error _ _ _ _ Ea); by exists []]. destruct (runs_unsafe _ _); cbn [when]; [|by exists []].
  unfold st_bind. rewrite slot_request_line by done. rewrite send_send. destruct (asked e _ (stop +:+ _)) as [r|x] eqn:Ep; [by eexists|].
  rewrite (asked_engine_error _ _ _ _ Ep). by exists [].
Qed.

Lemma stop_slot_lines unsafe slot h : exists r, stop_slot e unsafe slot h = (send (slot_lines unsafe (length h.(sent)) slot) h, Ok r).
Proof.
  unfold stop_slot, audio_stream_status, deactivate_audio, audio_input_status, deactivate_audio_input. unfold st_bind at 1. destruct (stop_unsafe_lines "AUDIO_STREAM_STATUS" "AUDIO_DEACTIVATE" unsafe slot h) as [o Ho]; [done..|]. rewrite Ho.
  match goal with |- context [st_bind _ _ ?s] => set (h1 := s) end.
  destruct (stop_unsafe_lines "AUDIO_INPUT_STATUS" "AUDIO_INPUT_DEACTIVATE" unsafe slot h1) as [i Hi]; [done..|]. unfold st_bind. rewrite Hi.
  exists (o, i). unfold h1 at 2, slot_lines. rewrite send_send. unfold h1. by rewrite sent_send, length_app.
Qed.

Lemma stop_slots_lines unsafe slots h : exists r, st_map (stop_slot e unsafe) slots h = (send (slots_lines unsafe (length h.(sent)) slots) h, Ok r).
Proof.
  revert h. induction slots as [|slot slots IH]; intros h; cbn [st_map slots_lines]; [exists []; by rewrite send_nil|].
  unfold st_bind at 1. destruct (stop_slot_lines unsafe slot h) as [r ->]. unfold st_bind. destruct (IH (send (slot_lines unsafe (length (sent h)) slot) h)) as [rs ->].
  exists (r :: rs). by rewrite send_send, sent_send, length_app.
Qed.

(** The status of a slot: it plays, on a physical endpoint, and the endpoint is unsafe. *)
Definition plays_unsafe (unsafe : string -> Prop) (status : list (string * string)) : Prop :=
  exists id execution, alookup status "selected" = Some id /\ unsafe id /\
    alookup status "execution" = Some execution /\ (lower (strip execution) ∉ [""; "none"; "null"; "null-audio"; "bridge-only"]) /\
    alookup status "state" = Some "2".

(** The lines sent for a list of slots, each with the line that asks for its status
    and the line that stops it, when [n] were sent before: the stop follows the
    question exactly when the answer is that an unsafe endpoint plays. *)
Inductive asked_and_stopped (unsafe : string -> Prop) : nat -> list (string * string) -> list string -> Prop :=
| stops_done n : asked_and_stopped unsafe n [] []
| stops_one n question stop rest lines status :
    asked e n question = Ok status -> plays_unsafe unsafe status ->
    asked_and_stopped unsafe (n + 2) rest lines -> asked_and_stopped unsafe n ((question, stop) :: rest) (question :: stop :: lines)
| stops_none n question stop rest lines :
    (forall status, asked e n question = Ok status -> ~ plays_unsafe unsafe status) ->
    asked_and_stopped unsafe (n + 1) rest lines -> asked_and_stopped unsafe n ((question, stop) :: rest) (question :: lines).

(** The outputs and inputs of the engine, slot by slot. *)
Definition slot_questions (slots : list nat) : list (string * string) :=
  concat (map (fun slot => let s := dec (Z.of_nat slot) in
    [("AUDIO_STREAM_STATUS " +:+ s, "AUDIO_DEACTIVATE " +:+ s); ("AUDIO_INPUT_STATUS " +:+ s, "AUDIO_INPUT_DEACTIVATE " +:+ s)]) slots).

Lemma plays_unsafe_runs unsafe status : runs_unsafe unsafe status = true <-> plays_unsafe (fun id => id ∈ unsafe) status.
Proof.
  unfold runs_unsafe, plays_unsafe, _physical_audio_execution, stated, raw_is. rewrite !andb_true_iff. split.
  - intros [[Hs He] Ht]. destruct (alookup status "selected") as [id|]; [|done]. destruct (alookup status "state") as [state|]; [|done].
    apply String.eqb_eq in Ht as ->. apply existsb_exists in Hs as (x & Hx%list_elem_of_In & ->%String.eqb_eq).
    destruct (alookup status "execution") as [x'|]; [|done]. exists x, x'. split_and!; try done. intros Hin%list_elem_of_In.
    apply negb_true_iff in He. rewrite <- not_true_iff_false in He. apply He, existsb_exists. exists (lower (strip x')). split; [done|].
    by destruct x'; [done|apply str_eqb_refl].
  - intros (id & x & -> & Hin & -> & Hne & ->). split_and!; [|apply negb_true_iff, not_true_iff_false|done].
    + apply existsb_exists. exists id. split; [by apply list_elem_of_In|apply str_eqb_refl].
    + intros (y & Hy & H%String.eqb_eq)%existsb_exists. apply Hne, list_elem_of_In. destruct x; [by left|]. by rewrite <- H in Hy.
Qed.

Lemma direction_stops status stop unsafe (P : string -> Prop) n slot rest lines : (forall id, id ∈ unsafe <-> P id) ->
  let ls := direction_lines status stop unsafe n slot in
  asked_and_stopped P (n + length ls) rest lines ->
  asked_and_stopped P n ((status +:+ " " +:+ dec (Z.of_nat slot), stop +:+ " " +:+ dec (Z.of_nat slot)) :: rest) (ls ++ lines).
Proof.
  intros HP. unfold direction_lines. set (q := status +:+ _). cbv zeta.
  assert (forall st, runs_unsafe unsafe st = true <-> plays_unsafe P st) as Hr.
  { intros st. rewrite plays_unsafe_runs. unfold plays_unsafe. by setoid_rewrite HP. }
  destruct (asked e n q) as [st|x] eqn:Ea; cbn [app length].
  - destruct (runs_unsafe unsafe st) eqn:Er; cbn [when app length]; intros H.
    + eapply stops_one; [done|by apply Hr|done].
    + apply stops_none; [|done]. intros st' Hst'. assert (st' = st) as -> by congruence. rewrite <- Hr, Er. done.
  - intros H. apply stops_none; [|done]. congruence.
Qed.

Lemma slots_stops unsafe (P : string -> Prop) n slots : (forall id, id ∈ unsafe <-> P id) ->
  asked_and_stopped P n (slot_questions slots) (slots_lines unsafe n slots).
Proof.
  intros HP. revert n. induction slots as [|slot slots IH]; intros n; [apply stops_done|]. unfold slot_questions. cbn [map concat slots_lines app].
  unfold slot_lines. rewrite <- app_assoc. apply (direction_stops "AUDIO_STREAM_STATUS" "AUDIO_DEACTIVATE" unsafe P n slot); [done|].
  apply (direction_stops "AUDIO_INPUT_STATUS" "AUDIO_INPUT_DEACTIVATE" unsafe P _ slot); [done|]. rewrite <- Nat.add_assoc, <- length_app. apply IH.
Qed.

(** ** Selection *)

(** A line that selects an endpoint for a slot: the one the configuration stands for. *)
Definition selects (records : store) (devices configs : list pydict) (direction command line : string) : Prop :=
  exists config device slot, config ∈ configs /\ slot_ok slot = true /\ audio_stands_for records (wanted_id config) devices direction device /\
    line = command +:+ " " +:+ dec slot +:+ " " +:+ device_id device.

Lemma select_one_lines records devices configs direction command kind port config h : [] ∉ devices -> one_line command = true -> config ∈ configs ->
  exists lines, fst (select_one records devices direction (select_audio e command kind port) config h) = send lines h /\
    forall line, line ∈ lines -> selects records devices configs direction command line.
Proof.
  intros Hne Hc Hin. unfold select_one. assert (exists lines : list string, h = send lines h /\ forall line, line ∈ lines -> selects records devices configs direction command line) as Hnone.
  { exists []. rewrite send_nil. split; [done|]. by intros line ?%elem_of_nil. }
  destruct (audio_resolve _ _ _ _) as [[|f d]|] eqn:Er; [exact Hnone| |exact Hnone]. unfold or_else, st_catch. unfold st_bind at 1, st_lift.
  destruct (py_int _) as [slot|x]; [|by destruct (engine_error x)]. unfold select_audio. destruct (is_token _) eqn:Et; cbn [negb]; [|exact Hnone].
  destruct (slot_ok slot) eqn:Es; cbn [negb]; [|exact Hnone]. assert (one_line (dec slot) = true) as Hd.
  { unfold slot_ok in Es. rewrite <- (Z2Nat.id slot) by lia. apply dec_one_line. }
  unfold st_bind. rewrite request_line by (by rewrite !one_line_app, Hc, Hd, (token_one_line (device_id (f :: d)))).
  exists [command +:+ " " +:+ dec slot +:+ " " +:+ device_id (f :: d)]. split.
  - destruct (asked _ _ _) as [r|x] eqn:Ea; [done|]. by rewrite (asked_engine_error _ _ _ _ Ea).
  - intros line ->%list_elem_of_singleton. exists config, (f :: d), slot. split; [done|]. split; [done|]. split; [by apply audio_resolve_some|done].
Qed.

Lemma select_all_lines records devices configs direction command kind port l h : [] ∉ devices -> one_line command = true -> (forall c, c ∈ l -> c ∈ configs) ->
  exists lines, fst (st_iter (select_one records devices direction (select_audio e command kind port)) l h) = send lines h /\
    forall line, line ∈ lines -> selects records devices configs direction command line.
Proof.
  intros Hne Hc. revert h. induction l as [|c l IH]; intros h Hl; cbn [st_iter]; [exists []; rewrite send_nil; split; [done|]; by intros line ?%elem_of_nil|].
  destruct (select_one_lines records devices configs direction command kind port c h Hne Hc ltac:(apply Hl; by left)) as (l1 & H1 & Hs1).
  unfold st_bind. destruct (select_one _ _ _ _ c h) as [h1 [u|x]]; cbn [fst] in *; subst h1; [|by exists l1].
  destruct (IH (send l1 h)) as (l2 & H2 & Hs2); [by intros c' Hc'; apply Hl; right|]. exists (l1 ++ l2). rewrite H2, send_send. split; [done|].
  intros line [H|H]%elem_of_app; [by apply Hs1|by apply Hs2].
Qed.

Lemma publish_audio_sends devices changes h : (fst (publish_audio e devices changes h)).(sent) = h.(sent).
Proof.
  assert (keeps (fun x => x.(sent) = h.(sent)) (publish_audio e devices changes)) as Hk; [|by apply Hk].
  unfold publish_audio. apply keeps_bind.
  - apply keeps_modify. intros x Hx. destruct (next_history _ _ _). done.
  - intros _. apply keeps_bind; [|intros; apply keeps_ret]. apply keeps_iter. intros d _. unfold record_audio. apply keeps_bind; [|intros; apply keeps_ret].
    intros x Hx. by rewrite inside_eq.
Qed.

Lemma described_audio_nonempty records scanned : [] ∉ map (described_audio e records) scanned.
Proof. intros (d & H & _)%list_elem_of_fmap. by apply (dset_nonempty _ _ _ (eq_sym H)). Qed.

(** A line that selects, for a slot of the show's configuration. *)
Definition selects_configured (records : store) (audio : pydict) (devices : list pydict) (line : string) : Prop :=
  (exists configs, _audio_output_configs audio = Ok configs /\ selects records devices configs "output" "AUDIO_SELECT" line) \/
  (exists configs, _audio_input_configs audio = Ok configs /\ selects records devices configs "input" "AUDIO_INPUT_SELECT" line).

(** What is left of a scan after the slots are stopped only selects. *)
Lemma reselection_lines records audio devices (reselect : bool) (k : list pydict -> list pydict -> act (list pydict)) h : [] ∉ devices ->
  (forall o i x, (fst (k o i x)).(sent) = x.(sent)) ->
  exists lines, (fst ((let* outputs := st_lift (_audio_output_configs audio) in
    let* inputs := st_lift (_audio_input_configs audio) in
    st_when reselect (st_iter (select_one records devices "output" (select_audio_device e)) outputs ;;;
                      st_iter (select_one records devices "input" (select_audio_input e)) inputs) ;;;
    k outputs inputs) h)).(sent) = h.(sent) ++ lines /\
    forall line, line ∈ lines -> reselect = true /\ selects_configured records audio devices line.
Proof.
  intros Hne Hk. assert (forall x : hub, exists lines, x.(sent) = x.(sent) ++ lines /\ forall line, line ∈ lines -> reselect = true /\ selects_configured records audio devices line) as Hnone.
  { intros x. exists []. rewrite app_nil_r. split; [done|]. by intros line ?%elem_of_nil. }
  unfold st_bind at 1, st_lift. destruct (_audio_output_configs audio) as [outputs|x] eqn:Eo; [|apply Hnone].
  unfold st_bind at 1. destruct (_audio_input_configs audio) as [inputs|x] eqn:Ei; [|apply Hnone].
  unfold st_bind at 1. destruct reselect; cbn [st_when].
  2: { cbn. rewrite Hk. apply Hnone. }
  destruct (select_all_lines records devices outputs "output" "AUDIO_SELECT" "audio device" "audio output" outputs h Hne eq_refl ltac:(done)) as (l1 & H1 & Hs1).
  unfold st_bind at 1. unfold select_audio_device. destruct (st_iter _ outputs h) as [h1 [u|x]]; cbn [fst] in H1; subst h1.
  2: { exists l1. split; [done|]. intros line Hl. split; [done|]. left. exists outputs. split; [done|by apply Hs1]. }
  destruct (select_all_lines records devices inputs "input" "AUDIO_INPUT_SELECT" "audio input device" "audio input" inputs (send l1 h) Hne eq_refl ltac:(done)) as (l2 & H2 & Hs2).
  unfold select_audio_input. destruct (st_iter _ inputs _) as [h2 r]; cbn [fst] in H2; subst h2. rewrite send_send.
  assert (exists lines : list string, (fst (send (l1 ++ l2) h, r)).(sent) = h.(sent) ++ lines /\ forall line, line ∈ lines -> true = true /\ selects_configured records audio devices line) as Hdone.
  { exists (l1 ++ l2). split; [done|]. intros line [Hl|Hl]%elem_of_app; (split; [done|]); [left; exists outputs|right; exists inputs]; (split; [done|]); [by apply Hs1|by apply Hs2]. }
  destruct r as [u'|x]; [|done]. by rewrite Hk.
Qed.

(** C29: a scan of the audio endpoints stops and selects, and starts nothing. It lists
    the endpoints, one line for each. Then it asks for each output and input slot what
    runs there, and stops a slot exactly when the answer is that it plays on a
    physical endpoint that was listed by the scan before and no longer is, or whose
    readable identity is another than the readable one it had there (or, unlisted
    then, that is pinned at its identifier). Then, when it may select, it selects for
    slots of the show's configuration endpoints that are connected and carry the
    identity pinned there, uniquely when that identity is trusted. No other line is
    sent. The documents promise more: an endpoint that is listed still, but whose
    identity can no longer be read, counts as unchanged, and its streams play on. *)
Theorem audio_scans_stop_and_select audio reselect h :
  let h' := fst (_refresh_audio_devices e audio reselect h) in
  if negb e.(available) then h'.(sent) = h.(sent) /\ h'.(_audio_devices) = []
  else exists n, (n <= 64)%nat /\
    match snd (scan_audio_devices e h) with
    | Raise x => _refresh_audio_devices e audio reselect h = (send (scan_lines "AUDIO_SCAN" "AUDIO_DEVICE" n) h, Raise x)
    | Ok scanned =>
        let devices := map (described_audio e h.(audio_identities)) scanned in
        length scanned = n /\ listing e "AUDIO_DEVICE" audio_entry (S (length h.(sent))) scanned /\
        exists stops selected,
          h'.(sent) = h.(sent) ++ scan_lines "AUDIO_SCAN" "AUDIO_DEVICE" n ++ stops ++ selected /\
          asked_and_stopped (unsafe_at h.(audio_identities) h.(_audio_devices) devices) (length h.(sent) + S n) (slot_questions (seq 0 4)) stops /\
          forall line, line ∈ selected -> reselect = true /\ selects_configured h.(audio_identities) audio devices line
    end.
Proof.
  cbv zeta. unfold _refresh_audio_devices. destruct (available e); cbn [negb]; [|done].
  destruct (scan_audio_sends e h) as (n & Hn & Hf & Hlist). exists n. split; [done|].
  destruct (scan_audio_devices e h) as [h1 [scanned|x]] eqn:Es; cbn [fst snd] in *; subst h1; [|by unfold st_bind at 1; rewrite Es].
  destruct (Hlist scanned eq_refl) as [Hlen Hasked]. split; [done|]. split; [done|].
  unfold st_bind at 1. rewrite Es, st_get_bind. cbv zeta.
  change (audio_identities (send ?l h)) with (audio_identities h). change (_audio_devices (send ?l h)) with (_audio_devices h).
  set (devices := map (described_audio e (audio_identities h)) scanned). set (unsafe := unsafe_ids _).
  unfold st_bind at 1. destruct (stop_slots_lines unsafe (seq 0 4) (send (scan_lines "AUDIO_SCAN" "AUDIO_DEVICE" n) h)) as [stopped ->].
  match goal with |- context [fst (?m _)] => set (rest := m) end.
  destruct (reselection_lines (audio_identities h) audio devices reselect
    (fun o i => let* reported := st_lift (map_res (audio_report (audio_identities h) devices o i) devices) in
       publish_audio e reported (audio_changes (difference_of (audio_identities h) (_audio_devices h) devices) (by_id devices) (concat (map fst stopped)) (concat (map snd stopped))))
    (send (slots_lines unsafe (length (sent (send (scan_lines "AUDIO_SCAN" "AUDIO_DEVICE" n) h))) (seq 0 4)) (send (scan_lines "AUDIO_SCAN" "AUDIO_DEVICE" n) h))
    (described_audio_nonempty _ _)) as (lines & Hl & Hs).
  { intros o i x. unfold st_bind, st_lift. destruct (map_res _ _); [apply publish_audio_sends|done]. }
  exists (slots_lines unsafe (length h.(sent) + S n) (seq 0 4)), lines. split; [|split; [|exact Hs]].
  - unfold rest. rewrite Hl, !sent_send, !length_app. cbn [length scan_lines]. rewrite length_map, length_seq. by rewrite <- !app_assoc.
  - apply (slots_stops unsafe). intros id. apply elem_of_unsafe.
Qed.
End audio_lines.

(** * Runs *)

(** The engine of an installation: what each line gives, the serial of the one USB
    device (none: its files cannot be read), and an error for any other line. *)
Definition installation (serial : option string) (lines : list (string * string)) : engine := {|
  available := true;
  answer := fun _ command => Replied (default "ERR code=unknown" (alookup lines command));
  system := {| read_file := fun path =>
                 match serial with
                 | Some s => alookup [("/devices/usb/1-2/idVendor", "1234"); ("/devices/usb/1-2/idProduct", "abcd"); ("/devices/usb/1-2/serial", s)] path
                 | None => None
                 end;
               resolve_path := fun _ => if bool_decide (is_Some serial) then Some "/devices/usb/1-2/sound" else None |};
  observed_ns := fun _ => 0;
  stored := fun _ => true |}.

Definition midi_at (n : string) : list (string * string) :=
  [("MIDI_SCAN", "OK count=1"); ("MIDI_DEVICE 0", "OK id=linux-raw-" +:+ n +:+ "-0 name=Keys path=/dev/snd/midiC" +:+ n +:+ "D0 input=1 connected=1");
   ("MIDI_ATTACH linux-raw-" +:+ n +:+ "-0 keys", "OK"); ("MIDI_DETACH linux-raw-" +:+ n +:+ "-0", "OK")].

Definition no_hub : hub := {| midi_identities := []; audio_identities := []; _midi_devices := []; _midi_hotplug_generation := 0; _midi_hotplug_changes := [];
  _audio_devices := []; _audio_hotplug_generation := 0; _audio_hotplug_changes := []; sent := [] |}.

Definition keys_bound : pydict := [("linux-raw-1-0", VStr "keys")].

(** The lines sent after a scan other than those of the scan. *)
Definition acts_of (h : hub) : list string := List.filter (fun l => negb (starts_with "MIDI_SCAN" l || starts_with "MIDI_DEVICE" l)) h.(sent).

(** The keyboard is plugged in, then moves to another number. *)
Definition plugged : hub := fst (_refresh_midi_devices (installation (Some "s-1") (midi_at "1")) true keys_bound true no_hub).
Definition moved : hub := fst (_refresh_midi_devices (installation (Some "s-1") (midi_at "2")) true keys_bound true plugged).

Example keyboard_follows_its_identity :
  acts_of moved = ["MIDI_ATTACH linux-raw-1-0 keys"; "MIDI_DETACH linux-raw-1-0"; "MIDI_ATTACH linux-raw-2-0 keys"] /\
  map (fun d => (dget_none d "reconnectStatus", dget_none d "playerId")) moved.(_midi_devices) = [(VStr "persistent-match", VStr "keys")] /\
  moved.(_midi_hotplug_generation) = 2.
Proof. vm_compute. done. Qed.

(** Another keyboard with the number of the first is not attached; a standby attaches nothing. *)
Example others_are_not_attached :
  acts_of (fst (_refresh_midi_devices (installation (Some "s-2") (midi_at "1")) true keys_bound true plugged)) =
    ["MIDI_ATTACH linux-raw-1-0 keys"; "MIDI_DETACH linux-raw-1-0"] /\
  acts_of (fst (_refresh_midi_devices (installation (Some "s-1") (midi_at "1")) false keys_bound true no_hub)) = [].
Proof. vm_compute. done. Qed.

(** Removing the binding of a keyboard that moved detaches the number it was bound
    at: the keyboard itself stays attached. *)
Example unbinding_leaves_the_moved_endpoint :
  acts_of (fst (unbind_endpoint (installation (Some "s-1") (("MIDI_DETACH linux-raw-1-0", "OK") :: midi_at "2")) true [] "linux-raw-1-0" moved)) =
    acts_of moved ++ ["MIDI_DETACH linux-raw-1-0"].
Proof. vm_compute. done. Qed.

(** A sound card whose output 0 runs; [state] is how the engine reports the slot. *)
Definition card_playing (state : string) : list (string * string) :=
  [("AUDIO_SCAN", "OK count=1"); ("AUDIO_DEVICE 0", "OK id=alsa-1 name=Card backend=alsa address=hw:1 input=0 output=1 connected=1");
   ("AUDIO_STREAM_STATUS 0", "OK selected=alsa-1 execution=alsa state=" +:+ state); ("AUDIO_DEACTIVATE 0", "OK"); ("AUDIO_SELECT 0 alsa-1", "OK")].

Definition show_audio : pydict := [("outputs", VList [VDict [("slot", VInt 0); ("deviceId", VStr "alsa-1")]])].

Definition card_known : hub := fst (_refresh_audio_devices (installation (Some "s-1") (card_playing "2")) show_audio true no_hub).

Definition stops_of (h : hub) : list string := List.filter (fun l => starts_with "AUDIO_DEACTIVATE" l || starts_with "AUDIO_SELECT" l) h.(sent).

(** A card that was replaced is stopped and not selected; but one whose identity can
    no longer be read counts as unchanged, and plays on. *)
Example lost_identity_plays_on :
  stops_of card_known = ["AUDIO_SELECT 0 alsa-1"] /\
  stops_of (fst (_refresh_audio_devices (installation (Some "s-2") (card_playing "2")) show_audio true card_known)) = ["AUDIO_SELECT 0 alsa-1"; "AUDIO_DEACTIVATE 0"] /\
  let h := fst (_refresh_audio_devices (installation None (card_playing "2")) show_audio true card_known) in
  stops_of h = ["AUDIO_SELECT 0 alsa-1"] /\ map (fun d => dget_none d "persistentId") h.(_audio_devices) = [VNone].
Proof. vm_compute. done. Qed.

(** An acknowledged replacement is refused while the output runs, and goes through
    when the engine cannot report the slot. *)
Definition replacement : pydict :=
  [("acknowledgeIdentityReplacement", VBool true); ("desiredDeviceId", VStr "alsa-1"); ("currentDeviceId", VStr "alsa-1"); ("direction", VStr "output")].

Example unreadable_slots_count_as_stopped :
  snd (replace_audio_identity (installation (Some "s-2") (card_playing "2")) show_audio replacement (fst (_refresh_audio_devices (installation (Some "s-2") (card_playing "3")) show_audio true card_known)))
    = Raise (ValueError "stop all active audio output streams before replacing endpoint identity") /\
  match snd (replace_audio_identity (installation (Some "s-2") (List.filter (fun kv => negb (starts_with "AUDIO_STREAM" (fst kv))) (card_playing "2"))) show_audio replacement card_known) with
  | Ok d => dget_none d "selected" = VBool true
  | Raise _ => False
  end.
Proof. vm_compute. done. Qed.

(** Underscores of an address are read as spaces: a card whose id has one is taken for an alias. *)
Example underscored_cards_are_aliases :
  alsa_address "hw:CARD=USB_Audio,DEV=0" = Some ("USB_Audio", Some "0") /\ alsa_address (spaced "hw:CARD=USB_Audio,DEV=0") = None.
Proof. vm_compute. done. Qed.
