(* ===== verification/MidiMapping.v ===== *)
(** * MIDI learn and mapped actions (backend/midi_mapping.py)

    The controls a musician has mapped, the mapping being learned, the actions a
    MIDI message gives and when they are due. Mappings are documents, since they
    may come from a file; the file is the value it parses to. The power of two
    floats, which Python leaves to the C library, is an argument. *)

From S2P Require Import Prelude PyStr PyFloat PyVal PyFacts StateLogic.
From Stdlib Require Import SpecFloat.

#[local] Open Scope string_scope.
#[local] Open Scope list_scope.
#[local] Open Scope Z_scope.
#[local] Open Scope st_scope.

(** ** Targets and scales *)

Definition target_of (id name kind control : string) (rest : pydict) : pydict :=
  [("targetId", VStr id); ("name", VStr name); ("kind", VStr kind); ("suggestedControl", VStr control)] ++ rest.

Definition bounds_of (minimum maximum : Z) : pydict := [("minimum", VFloat (float_of_Z minimum)); ("maximum", VFloat (float_of_Z maximum))].

Definition TARGETS : list pydict := [
  target_of "sample.trigger" "Trigger selected sample" "trigger" "pad" [("quantize", VStr "1/16"); ("keySync", VBool true)];
  target_of "loop.toggle" "Start / stop selected loop" "toggle" "pad" [("quantize", VStr "1/4"); ("keySync", VBool true)];
  target_of "loop.clear" "Clear selected loop" "trigger" "pad" [("quantize", VStr "1/4"); ("keySync", VBool false)];
  target_of "filter.cutoff" "Filter cutoff" "continuous" "knob" (bounds_of 20 20000 ++ [("curve", VStr "log"); ("parameterId", VInt 1)]);
  target_of "filter.resonance" "Filter resonance" "continuous" "knob" (bounds_of 0 1 ++ [("parameterId", VInt 2)]);
  target_of "oscillator.pitch" "Oscillator pitch" "continuous" "knob" (bounds_of (-24) 24 ++ [("parameterId", VInt 3); ("keySync", VBool true)]);
  target_of "track.volume" "Selected track volume" "continuous" "slider" (bounds_of 0 1 ++ [("parameterId", VInt 4)]);
  target_of "track.pan" "Selected track pan" "continuous" "knob" (bounds_of (-1) 1 ++ [("parameterId", VInt 5)]);
  target_of "transport.play" "Play" "trigger" "pad" [("quantize", VStr "1/4")];
  target_of "transport.stop" "Stop" "trigger" "pad" [("quantize", VStr "1/4")];
  target_of "master.tempo" "Master tempo" "continuous" "slider" (bounds_of 30 300 ++ [("parameterId", VInt 6)]);
  target_of "instrument.note" "Key-synced instrument note" "note" "pad" [("quantize", VStr "1/16"); ("keySync", VBool true)]].

Definition field_text (d : pydict) (k default : string) : string := py_str (dget_or d k (VStr default)).

(** [TARGET_BY_ID.get(target_id)]. *)
Definition TARGET_BY_ID (id : string) : option pydict := List.find (fun t => String.eqb (field_text t "targetId" "") id) TARGETS.

Definition KEY_PITCH : list (string * Z) :=
  [("C", 0); ("Db", 1); ("D", 2); ("Eb", 3); ("E", 4); ("F", 5); ("Gb", 6); ("G", 7); ("Ab", 8); ("A", 9); ("Bb", 10); ("B", 11)].

Definition SCALE_INTERVALS : list (string * list Z) :=
  [("major", [0; 2; 4; 5; 7; 9; 11]); ("minor", [0; 2; 3; 5; 7; 8; 10]); ("chromatic", map Z.of_nat (seq 0 12))].

(** [table.get(key, default)] for a key that may be any value: lists and dicts do not hash. *)
Definition table_get {A} (table : list (string * A)) (key : pyval) (default : A) : res A :=
  match key with
  | VStr k => Ok (match alookup table k with Some a => a | None => default end)
  | VList _ | VDict _ => Raise TypeError
  | _ => Ok default
  end.

(** ** Messages *)

Record message := { kind : string; number : Z; raw_value : Z; channel : Z }.

Definition byte_of (event : pydict) (k : string) : res Z := py_int (dget_or event k (VInt 0)).

Definition _message (event : pydict) : res message :=
  status ← byte_of event "status";
  data1 ← byte_of event "data1";
  data2 ← byte_of event "data2";
  let high := Z.land status 240 in
  let channel := Z.land status 15 in
  if negb ((0 <=? status) && (status <=? 255)) || negb ((0 <=? data1) && (data1 <=? 127)) || negb ((0 <=? data2) && (data2 <=? 127))
  then Raise (ValueError "MIDI bytes out of range")
  else Ok (
    if (high =? 144) && (0 <? data2) then {| kind := "note"; number := data1; raw_value := data2; channel := channel |}
    else if (high =? 128) || ((high =? 144) && (data2 =? 0)) then {| kind := "note-off"; number := data1; raw_value := data2; channel := channel |}
    else if high =? 176 then {| kind := "cc"; number := data1; raw_value := data2; channel := channel |}
    else if high =? 224 then {| kind := "pitch-bend"; number := 0; raw_value := Z.lor data1 (Z.shiftl data2 7); channel := channel |}
    else if high =? 192 then {| kind := "program"; number := data1; raw_value := data1; channel := channel |}
    else {| kind := "other"; number := data1; raw_value := data2; channel := channel |}).

(** ** Time and key *)

Definition fractions : list (string * float) :=
  [("off", float_of_Z 0); ("1/4", float_of_Z 1); ("1/8", float_of_dec false 5 (-1)); ("1/16", float_of_dec false 25 (-2)); ("1/32", float_of_dec false 125 (-3))].

Definition zero : float := float_of_Z 0.

(** [math.ceil(x)]. *)
Definition py_ceil (x : float) : res Z := z ← py_floor (SFopp x); Ok (- z).

Definition _quantized_time (seconds bpm : float) (division : pyval) : res float :=
  beats ← table_get fractions division (float_of_dec false 25 (-2));
  if fle beats zero then Ok (fmax zero seconds)
  else
    let step := fmul (fdiv (float_of_Z 60) (fmax (float_of_Z 30) (fmin (float_of_Z 300) bpm))) beats in
    steps ← py_ceil (fsub (fdiv (fmax zero seconds) step) (float_of_dec false 1 (-12)));
    Ok (fmul (float_of_Z steps) step).

Definition in_scale (root : Z) (allowed : list Z) (candidate : Z) : bool := existsb (Z.eqb ((candidate - root) mod 12)) allowed.

(** [range(max(0, note - 6), min(127, note + 6) + 1)]. *)
Definition around (note : Z) : list Z :=
  let first := Z.max 0 (note - 6) in
  map (fun i => first + Z.of_nat i) (seq 0 (Z.to_nat (Z.min 127 (note + 6) + 1 - first))).

(** [(abs(a - note), a) < (abs(b - note), b)]. *)
Definition nearer (note a b : Z) : bool :=
  (Z.abs (a - note) <? Z.abs (b - note)) || ((Z.abs (a - note) =? Z.abs (b - note)) && (a <? b)).

Definition nearest (note : Z) (candidates : list Z) : Z :=
  match candidates with
  | [] => note
  | c :: l => fold_left (fun best x => if nearer note x best then x else best) l c
  end.

Definition major : list Z := [0; 2; 4; 5; 7; 9; 11].

Definition _key_note (note : Z) (key : string) (scale : pyval) : res Z :=
  let root := match alookup KEY_PITCH key with Some r => r | None => 0 end in
  allowed ← table_get SCALE_INTERVALS scale major;
  Ok (nearest note (List.filter (in_scale root allowed) (around note))).

(** ** The engine *)

Record learn := {
  l_target : pydict;
  l_deviceId : string;
  l_behavior : string;
  l_quantize : string;
  l_keySync : bool;
  l_scale : string;
}.

Definition learn_dict (l : learn) : pydict :=
  [("target", VDict l.(l_target)); ("deviceId", VStr l.(l_deviceId)); ("behavior", VStr l.(l_behavior)); ("quantize", VStr l.(l_quantize));
   ("keySync", VBool l.(l_keySync)); ("scale", VStr l.(l_scale)); ("state", VStr "waiting-for-gesture")].

(** [file]: the document last written. *)
Record mapper := {
  revision : Z;
  mappings : list pydict;
  learning : option learn;
  executions : list pydict;
  pending : list pydict;
  toggles : list (pyval * bool);
  relative : list (pyval * float);
  file : option pyval;
}.

Abbreviation op := (st mapper).

Definition set_mappings (r : Z) (l : list pydict) (g : option learn) (m : mapper) : mapper :=
  {| revision := r; mappings := l; learning := g; executions := m.(executions); pending := m.(pending);
     toggles := m.(toggles); relative := m.(relative); file := m.(file) |}.
Definition set_queues (p x : list pydict) (m : mapper) : mapper :=
  {| revision := m.(revision); mappings := m.(mappings); learning := m.(learning); executions := x; pending := p;
     toggles := m.(toggles); relative := m.(relative); file := m.(file) |}.
Definition set_controls (t : list (pyval * bool)) (r : list (pyval * float)) (m : mapper) : mapper :=
  {| revision := m.(revision); mappings := m.(mappings); learning := m.(learning); executions := m.(executions); pending := m.(pending);
     toggles := t; relative := r; file := m.(file) |}.
Definition set_file (f : option pyval) (m : mapper) : mapper :=
  {| revision := m.(revision); mappings := m.(mappings); learning := m.(learning); executions := m.(executions); pending := m.(pending);
     toggles := m.(toggles); relative := m.(relative); file := f |}.

(** Dicts keyed by any value that hashes. *)
Definition hashable (k : pyval) : res unit := match k with VList _ | VDict _ => Raise TypeError | _ => Ok tt end.

Definition klookup {A} (l : list (pyval * A)) (k : pyval) : option A :=
  match List.find (fun kv => py_eq (fst kv) k) l with Some kv => Some (snd kv) | None => None end.

Definition kput {A} (l : list (pyval * A)) (k : pyval) (a : A) : list (pyval * A) := (k, a) :: List.filter (fun kv => negb (py_eq (fst kv) k)) l.

(** [__init__] and [_load] on what the file parses to. *)
Definition _load (f : option pyval) : res mapper :=
  let start r l := {| revision := r; mappings := l; learning := None; executions := []; pending := []; toggles := []; relative := []; file := f |} in
  match f with
  | None => Ok (start 0 [])
  | Some value =>
      v ← vget value "revision" (VInt 0);
      r ← py_int v;
      items ← vget value "mappings" (VList []);
      l ← py_iter items;
      Ok (start (Z.max 0 r) (firstn 512 (concat (map (fun item => match item with VDict d => [d] | _ => [] end) l))))
  end.

Definition document_of (m : mapper) : pyval :=
  VDict [("documentType", VStr "org.upp.midi-mapping-set"); ("schemaVersion", VInt 1); ("revision", VInt m.(revision)); ("mappings", VList (map VDict m.(mappings)))].

(** [written]: the file could be replaced. *)
Definition _save (written : bool) : op unit :=
  if written then st_modify (fun m => set_file (Some (document_of m)) m) else st_raise (OSError "MIDI mappings unavailable").

(** [l[-n:]]. *)
Definition last_of {A} (n : nat) (l : list A) : list A := skipn (length l - n) l.

Definition targets : pydict :=
  [("targets", VList (map VDict TARGETS));
   ("masterSync", VDict [("clock", VStr "show-time"); ("beatDivisions", VList (map VStr ["off"; "1/4"; "1/8"; "1/16"; "1/32"]));
                         ("scales", VList (map (fun kv => VStr (fst kv)) SCALE_INTERVALS))]);
   ("physicalOutputsArmed", VBool false)].

Definition status_of (m : mapper) : pydict :=
  [("documentType", VStr "org.upp.midi-mapping-status"); ("schemaVersion", VInt 1); ("revision", VInt m.(revision));
   ("learning", match m.(learning) with Some l => VDict (learn_dict l) | None => VNone end); ("mappings", VList (map VDict m.(mappings)));
   ("pendingActions", VList (map VDict (firstn 64 m.(pending)))); ("recentExecutions", VList (map VDict (last_of 32 m.(executions))));
   ("physicalOutputsArmed", VBool false)].

Definition status : op pydict := let* m := st_get in st_ret (status_of m).

Definition begin (request : pydict) : op pydict :=
  match TARGET_BY_ID (strip (field_text request "targetId" "")) with
  | None => st_raise (ValueError "choose a supported mapping target")
  | Some preset =>
      let resource_id := slice 128 (strip (field_text request "resourceId" "")) in
      let target := if String.eqb resource_id "" then preset else dset preset "resourceId" (VStr resource_id) in
      let l := {| l_target := target; l_deviceId := slice 96 (field_text request "deviceId" ""); l_behavior := field_text request "behavior" "auto";
                  l_quantize := py_str (dget_or request "quantize" (dget_or preset "quantize" (VStr "off")));
                  l_keySync := truthy (dget_or request "keySync" (dget_or preset "keySync" (VBool false))); l_scale := field_text request "scale" "major" |} in
      st_modify (fun m => set_mappings m.(revision) m.(mappings) (Some l) m) ;;; status
  end.

Definition cancel : op pydict := st_modify (fun m => set_mappings m.(revision) m.(mappings) None m) ;;; status.

Definition delete (written : bool) (mapping_id : string) : op pydict :=
  let* m := st_get in
  let kept := List.filter (fun item => negb (py_eq (dget_none item "mappingId") (VStr mapping_id))) m.(mappings) in
  if (length kept =? length m.(mappings))%nat then st_raise (KeyError mapping_id)
  else st_modify (fun m => set_mappings (m.(revision) + 1) kept m.(learning) m) ;;; _save written ;;; status.

(** ** Observing a message *)

Section observing.
Context (power : float -> float -> res float) (written : bool).

Definition behavior_of (l : learn) (msg : message) : string :=
  let continuous := py_eq (dget_none l.(l_target) "kind") (VStr "continuous") in
  if negb (String.eqb l.(l_behavior) "auto") then l.(l_behavior)
  else if String.eqb msg.(kind) "cc" && continuous && ((msg.(raw_value) =? 1) || (msg.(raw_value) =? 127)) then "relative"
  else if (String.eqb msg.(kind) "cc" || String.eqb msg.(kind) "pitch-bend") && continuous then "absolute"
  else if py_eq (dget_none l.(l_target) "kind") (VStr "note") then "gate"
  else field_text l.(l_target) "kind" "".

Definition source_dict (device : string) (msg : message) : pydict :=
  [("deviceId", VStr device); ("channel", VInt msg.(channel)); ("message", VStr msg.(kind)); ("number", VInt msg.(number))].

(** Four fields of the source of a mapping, [KeyError] when one is absent, against those of a message. *)
Definition same_source (device : string) (msg : message) (item : pydict) : res bool :=
  source ← dindex item "source";
  d ← vindex source "deviceId"; c ← vindex source "channel"; k ← vindex source "message"; n ← vindex source "number";
  Ok (py_eq d (VStr device) && py_eq c (VInt msg.(channel)) && py_eq k (VStr msg.(kind)) && py_eq n (VInt msg.(number))).

Definition learned_mapping (r : Z) (device : string) (msg : message) (l : learn) : pydict :=
  [("mappingId", VStr ("map-" +:+ dec r)); ("name", dget_none l.(l_target) "name"); ("source", VDict (source_dict device msg));
   ("target", VDict l.(l_target)); ("behavior", VStr (behavior_of l msg)); ("quantize", VStr l.(l_quantize)); ("keySync", VBool l.(l_keySync));
   ("scale", VStr l.(l_scale)); ("enabled", VBool true)].

(** The message completes what is being learned. *)
Definition completes (device : string) (msg : message) (l : learn) : bool :=
  negb (String.eqb msg.(kind) "other") && negb (String.eqb msg.(kind) "note-off") && (String.eqb l.(l_deviceId) "" || String.eqb l.(l_deviceId) device).

(** A mapping of the same source gives way to the one learned. *)
Definition learn_from (device : string) (msg : message) : op (option pydict) :=
  let* m := st_get in
  match m.(learning) with
  | Some l =>
      if completes device msg l then
        st_modify (fun m => set_mappings (m.(revision) + 1) m.(mappings) m.(learning) m) ;;;
        let* kept := st_lift (filter_res (fun item => b ← same_source device msg item; Ok (negb b)) m.(mappings)) in
        let learned := learned_mapping (m.(revision) + 1) device msg l in
        st_modify (fun m => set_mappings m.(revision) (kept ++ [learned]) None m) ;;; _save written ;;; st_ret (Some learned)
      else st_ret None
  | None => st_ret None
  end.

(** [not mapping.get("enabled", True) or source["deviceId"] != device_id or ...], in this order. *)
Definition passes (device : string) (msg : message) (mapping : pydict) : res bool :=
  source ← dindex mapping "source";
  let other k v rest := (x ← vindex source k; if negb (py_eq x v) then Ok false else rest) in
  if negb (truthy (dget_or mapping "enabled" (VBool true))) then Ok false
  else other "deviceId" (VStr device) (other "channel" (VInt msg.(channel)) (other "message" (VStr msg.(kind)) (other "number" (VInt msg.(number)) (Ok true)))).

Definition half : float := float_of_dec false 5 (-1).
Definition one : float := float_of_Z 1.

(** The position of the control, from 0 to 1; that of an endless one moves by the message. *)
Definition position (mapping : pydict) (behavior : pyval) (msg : message) : op float :=
  let normalized := if String.eqb msg.(kind) "pitch-bend" then fdiv (float_of_Z msg.(raw_value)) (float_of_Z 16383)
                    else fdiv (float_of_Z msg.(raw_value)) (float_of_Z 127) in
  if negb (py_eq behavior (VStr "relative")) then st_ret normalized
  else
    let delta := if msg.(raw_value) <=? 63 then msg.(raw_value) else msg.(raw_value) - 128 in
    let* id := st_lift (dindex mapping "mappingId") in
    let* _ := st_lift (hashable id) in
    let* m := st_get in
    let moved := fadd (default half (klookup m.(relative) id)) (fdiv (float_of_Z delta) (float_of_Z 127)) in
    let normalized := fmax zero (fmin one moved) in
    st_modify (fun m => set_controls m.(toggles) (kput m.(relative) id normalized) m) ;;; st_ret normalized.

Definition float_field (v : pyval) (k : string) (default : pyval) : res float := x ← vget v k default; py_float x.

Definition scaled (target : pyval) (normalized : float) : res float :=
  minimum ← float_field target "minimum" (VFloat zero);
  maximum ← float_field target "maximum" (VFloat one);
  curve ← vget target "curve" (VStr "linear");
  if py_eq curve (VStr "log") && flt zero minimum
  then p ← power (fdiv maximum minimum) normalized; Ok (fmul minimum p)
  else Ok (fadd minimum (fmul (fsub maximum minimum) normalized)).

Definition flip (mapping : pydict) : op float :=
  let* id := st_lift (dindex mapping "mappingId") in
  let* _ := st_lift (hashable id) in
  let* m := st_get in
  let on := negb (default false (klookup m.(toggles) id)) in
  st_modify (fun m => set_controls (kput m.(toggles) id on) m.(relative) m) ;;; st_ret (if on then one else zero).

Definition value_of (mapping : pydict) (target behavior : pyval) (msg : message) : op float :=
  let* normalized := position mapping behavior msg in
  let* scaled := st_lift (scaled target normalized) in
  if py_eq behavior (VStr "toggle") then flip mapping
  else
    let* _ := st_lift (hashable behavior) in
    st_ret (if py_eq behavior (VStr "trigger") || py_eq behavior (VStr "gate") then one else scaled).

(** The note in the key, when the mapping follows the key. *)
Definition key_fields (mapping : pydict) (msg : message) (key : string) : res pydict :=
  if truthy (dget_none mapping "keySync") && String.eqb msg.(kind) "note" then
    let scale := dget_or mapping "scale" (VStr "major") in
    output ← _key_note msg.(number) key scale;
    Ok [("inputNote", VInt msg.(number)); ("outputNote", VInt output); ("transposeSemitones", VInt (output - msg.(number))); ("scale", scale)]
  else Ok [].

Definition parameter_fields (target : pyval) : res pydict :=
  has ← vhas target "parameterId";
  parameter ← (if (has : bool) then v ← vindex target "parameterId"; z ← py_int v; Ok [("parameterId", VInt z)] else Ok []);
  resource ← vget target "resourceId" VNone;
  Ok (parameter ++ (if truthy resource then [("resourceId", resource)] else [])).

(** The action a value gives: when it is due, its note in the key, its parameter. *)
Definition action_of (event transport : pydict) (msg : message) (mapping : pydict) (source target : pyval) (value : float) : res pydict :=
  seconds ← py_float (dget_or event "showTimeSeconds" (dget_or transport "seconds" (VFloat zero)));
  bpm ← py_float (dget_or transport "bpm" (VInt 120));
  let division := if truthy (dget_or transport "running" (VBool true)) then dget_or mapping "quantize" (VStr "off") else VStr "off" in
  time ← _quantized_time seconds bpm division;
  id ← dindex mapping "mappingId";
  target_id ← vindex target "targetId";
  let key := field_text transport "key" "C" in
  keyed ← key_fields mapping msg key;
  parameters ← parameter_fields target;
  Ok ([("mappingId", id); ("targetId", target_id); ("value", VFloat (fround 9 value)); ("showTimeSeconds", VFloat (fround 9 time));
       ("quantized", VBool (flt (fadd seconds (float_of_dec false 1 (-9))) time)); ("masterBpm", VFloat bpm); ("masterKey", VStr key);
       ("source", source)] ++ keyed ++ parameters).

(** The action of one mapping for a message, appended to what is pending. *)
Definition act_on (event transport : pydict) (msg : message) (mapping : pydict) : op pydict :=
  let* source := st_lift (dindex mapping "source") in
  let* target := st_lift (dindex mapping "target") in
  let* behavior := st_lift (dindex mapping "behavior") in
  let* value := value_of mapping target behavior msg in
  let* action := st_lift (action_of event transport msg mapping source target value) in
  st_modify (fun m => set_queues (m.(pending) ++ [action]) m.(executions) m) ;;; st_ret action.

(** The actions of the mappings that pass, in order. *)
Fixpoint actions_of (event transport : pydict) (device : string) (msg : message) (l : list pydict) : op (list pydict) :=
  match l with
  | [] => st_ret []
  | mapping :: l =>
      let* b := st_lift (passes device msg mapping) in
      let* action := (if b && negb (String.eqb msg.(kind) "note" && (msg.(raw_value) =? 0)) then let* a := act_on event transport msg mapping in st_ret [a] else st_ret []) in
      let* rest := actions_of event transport device msg l in
      st_ret (action ++ rest)
  end.

Definition observe (event transport : pydict) : op (option pydict * list pydict) :=
  let* msg := st_lift (_message event) in
  let device := slice 96 (field_text event "deviceId" "direct") in
  let* learned := learn_from device msg in
  let* m := st_get in
  let* actions := actions_of event transport device msg m.(mappings) in
  st_modify (fun m => set_queues (last_of 1024 m.(pending)) m.(executions) m) ;;; st_ret (learned, actions).
End observing.

(** ** Executing what is due *)

Definition time_of (item : pydict) : res float := v ← dindex item "showTimeSeconds"; py_float v.

Definition drain_due (show_time_seconds : float) : op (list pydict) :=
  let limit := fadd show_time_seconds (float_of_dec false 1 (-9)) in
  let* m := st_get in
  let* due := st_lift (filter_res (fun item => x ← time_of item; Ok (fle x limit)) m.(pending)) in
  let* rest := st_lift (filter_res (fun item => x ← time_of item; Ok (flt limit x)) m.(pending)) in
  st_modify (fun m => set_queues rest (last_of 256 (m.(executions) ++ due)) m) ;;; st_ret due.

(** * The note in the key *)

Lemma nearer_irrefl note a : nearer note a a = false.
Proof. unfold nearer. lia. Qed.

Lemma nearest_fold note l best : let r := fold_left (fun b x => if nearer note x b then x else b) l best in
  (r = best \/ r ∈ l) /\ nearer note best r = false /\ forall c, c ∈ l -> nearer note c r = false.
Proof.
  revert best. induction l as [|x l IH]; intros best; cbn [fold_left].
  { split; [by left|]. split; [apply nearer_irrefl|]. by intros c ?%elem_of_nil. }
  destruct (IH (if nearer note x best then x else best)) as (Hin & Hb & Hl). split; [|split].
  - destruct Hin as [->|Hin]; [|right; by right]. destruct (nearer note x best); [right; by left|by left].
  - revert Hb. destruct (nearer note x best) eqn:E; [|done]. unfold nearer in *. lia.
  - intros c [->|Hc]%elem_of_cons; [|by apply Hl]. revert Hb. destruct (nearer note x best) eqn:E; [done|]. unfold nearer in *. lia.
Qed.

Lemma nearest_least note l : l <> [] -> nearest note l ∈ l /\ forall c, c ∈ l -> nearer note c (nearest note l) = false.
Proof.
  destruct l as [|c l]; [done|]. intros _. cbn [nearest]. destruct (nearest_fold note l c) as (Hin & Hc & Hl). split.
  - destruct Hin as [->|Hin]; [by left|by right].
  - intros x [->|Hx]%elem_of_cons; [done|by apply Hl].
Qed.

Lemma elem_of_around note c : c ∈ around note <-> 0 <= c <= 127 /\ note - 6 <= c <= note + 6.
Proof.
  unfold around. rewrite list_elem_of_fmap. setoid_rewrite elem_of_seq. split.
  - intros (i & -> & Hi). lia.
  - intros H. exists (Z.to_nat (c - Z.max 0 (note - 6))). lia.
Qed.

(** Every note has a note of every scale within reach, in every key. *)
Lemma some_candidate note root allowed scale : 0 <= note <= 127 -> 0 <= root < 12 -> alookup SCALE_INTERVALS scale = Some allowed ->
  List.filter (in_scale root allowed) (around note) <> [].
Proof.
  intros Hn Hr Hs.
  assert (forallb (fun kv => forallb (fun r => forallb (fun n => negb (null (List.filter (in_scale (Z.of_nat r) (snd kv)) (around (Z.of_nat n))))) (seq 0 128)) (seq 0 12)) SCALE_INTERVALS = true) as H
    by (vm_compute; reflexivity).
  rewrite forallb_forall in H. assert (exists k, In (k, allowed) SCALE_INTERVALS) as [k Hk].
  { revert Hs. unfold SCALE_INTERVALS. cbn [alookup]. repeat (destruct (String.eqb scale _); [intros [= <-]; eexists; cbn; tauto|]). done. }
  specialize (H _ Hk). rewrite forallb_forall in H. specialize (H (Z.to_nat root) ltac:(apply in_seq; lia)). rewrite forallb_forall in H.
  specialize (H (Z.to_nat note) ltac:(apply in_seq; lia)). cbn [snd] in H. rewrite !Z2Nat.id in H by lia. by destruct (List.filter _ _).
Qed.

Definition root_of (key : string) : Z := match alookup KEY_PITCH key with Some r => r | None => 0 end.

Lemma root_range key : 0 <= root_of key < 12.
Proof. unfold root_of, KEY_PITCH. cbn [alookup]. repeat (destruct (String.eqb key _); [lia|]). lia. Qed.

(** C33: a mapped note is moved to the nearest note of the key. For every MIDI note,
    key and scale the result is a MIDI note of the scale, and no MIDI note of the
    scale is nearer; of two at the same distance it is the lower. *)
Theorem key_notes_are_nearest note key scale allowed : 0 <= note <= 127 -> alookup SCALE_INTERVALS scale = Some allowed ->
  exists out, _key_note note key (VStr scale) = Ok out /\ 0 <= out <= 127 /\ in_scale (root_of key) allowed out = true /\
    forall c, 0 <= c <= 127 -> in_scale (root_of key) allowed c = true -> Z.abs (out - note) < Z.abs (c - note) \/ (Z.abs (out - note) = Z.abs (c - note) /\ out <= c).
Proof.
  intros Hn Hs. unfold _key_note. cbn [table_get]. rewrite Hs. cbn [mbind res_bind]. fold (root_of key).
  set (l := List.filter (in_scale (root_of key) allowed) (around note)).
  destruct (nearest_least note l (some_candidate note (root_of key) allowed scale Hn (root_range key) Hs)) as [Hin Hleast].
  exists (nearest note l). apply elem_of_filter_bool in Hin as [Ha Hin]. apply elem_of_around in Ha as [Hr Hd]. split; [done|]. split; [done|]. split; [done|].
  intros c Hc Hsc. destruct (decide (note - 6 <= c <= note + 6)) as [Hnear|]; [|lia].
  assert (c ∈ l) as Hcl by (apply elem_of_filter_bool; split; [by apply elem_of_around|done]). specialize (Hleast c Hcl). unfold nearer in Hleast. lia.
Qed.

(** * What stays true of the engine *)

(** A mapping as the engine builds it, and the source it is for. *)
Definition for_source (d : pydict) (source : string * Z * string * Z) : Prop :=
  exists r device msg l, d = learned_mapping r device msg l /\ source = (device, msg.(channel), msg.(kind), msg.(number)).

Definition source_of (device : string) (msg : message) : string * Z * string * Z := (device, msg.(channel), msg.(kind), msg.(number)).

Lemma same_source_learned r dev msg' l device msg : same_source device msg (learned_mapping r dev msg' l) = Ok (bool_decide (source_of dev msg' = source_of device msg)).
Proof.
  unfold same_source. cbn. f_equal. unfold source_of.
  destruct (String.eqb_spec dev device) as [->|Hd]; [|rewrite bool_decide_eq_false_2; [done|congruence]].
  destruct (Z.eqb_spec (channel msg') (channel msg)) as [->|Hc]; [|rewrite bool_decide_eq_false_2; [done|congruence]].
  destruct (String.eqb_spec (kind msg') (kind msg)) as [->|Hk]; [|rewrite bool_decide_eq_false_2; [done|congruence]].
  destruct (Z.eqb_spec (number msg') (number msg)) as [->|Hm]; [|rewrite bool_decide_eq_false_2; [done|congruence]].
  by rewrite bool_decide_eq_true_2.
Qed.

Lemma passes_learned r dev msg' l device msg : passes device msg (learned_mapping r dev msg' l) = Ok (bool_decide (source_of dev msg' = source_of device msg)).
Proof.
  unfold passes. cbn. unfold source_of.
  destruct (String.eqb_spec dev device) as [->|Hd]; cbn; [|rewrite bool_decide_eq_false_2; [done|congruence]].
  destruct (Z.eqb_spec (channel msg') (channel msg)) as [->|Hc]; cbn; [|rewrite bool_decide_eq_false_2; [done|congruence]].
  destruct (String.eqb_spec (kind msg') (kind msg)) as [->|Hk]; cbn; [|rewrite bool_decide_eq_false_2; [done|congruence]].
  destruct (Z.eqb_spec (number msg') (number msg)) as [->|Hm]; cbn; [|rewrite bool_decide_eq_false_2; [done|congruence]].
  by rewrite bool_decide_eq_true_2.
Qed.

(** What a client asks; [Reload]: the engine is started again on the file. *)
Inductive request :=
| Begin (data : pydict)
| Cancel
| Delete (written : bool) (mapping_id : string)
| Observe (written : bool) (event transport : pydict)
| Drain (show_time_seconds : float)
| Reload.

(** *** What a run of requests has taught *)

Definition device_of (event : pydict) : string := slice 96 (field_text event "deviceId" "direct").

(** What a request to learn asks for: a target of the list, for one device or any. *)
Definition asks (data : pydict) (g : learn) : Prop := exists preset,
  preset ∈ TARGETS /\ field_text preset "targetId" "" = strip (field_text data "targetId" "") /\
  (g.(l_target) = preset \/ exists id, g.(l_target) = dset preset "resourceId" (VStr id)) /\
  g.(l_deviceId) = slice 96 (field_text data "deviceId" "") /\
  g.(l_behavior) = field_text data "behavior" "auto" /\ g.(l_scale) = field_text data "scale" "major" /\
  g.(l_quantize) = py_str (dget_or data "quantize" (dget_or preset "quantize" (VStr "off"))) /\
  g.(l_keySync) = truthy (dget_or data "keySync" (dget_or preset "keySync" (VBool false))).

(** A message that is a gesture, from the device asked for. *)
Definition gesture (g : learn) (device : string) (msg : message) : Prop :=
  msg.(kind) ∈ ["note"; "cc"; "pitch-bend"; "program"] /\ (g.(l_deviceId) = "" \/ g.(l_deviceId) = device).

(** The request leaves what is being learned as it is. *)
Definition waits (g : learn) (q : request) : Prop :=
  match q with
  | Begin data => forall t, t ∈ TARGETS -> field_text t "targetId" "" <> strip (field_text data "targetId" "")
  | Cancel | Reload => False
  | Delete _ _ | Drain _ => True
  | Observe _ event _ => forall msg, _message event = Ok msg -> ~ gesture g (device_of event) msg
  end.

(** Being learned after these requests: asked for, and waiting since. *)
Definition awaited (l : list request) (g : learn) : Prop := exists before data between,
  l = before ++ Begin data :: between /\ asks data g /\ Forall (waits g) between.

(** Taught by these requests: a gesture answered a request to learn that was still
    waiting, and the mapping is the one of that request and that gesture. *)
Definition taught (l : list request) (d : pydict) (source : string * Z * string * Z) : Prop :=
  exists before g written event transport after msg r,
    l = before ++ Observe written event transport :: after /\ awaited before g /\
    _message event = Ok msg /\ gesture g (device_of event) msg /\
    d = learned_mapping r (device_of event) msg g /\ source = (device_of event, msg.(channel), msg.(kind), msg.(number)).

Lemma taught_for_source l d s : taught l d s -> for_source d s.
Proof. intros (b & g & w & e & t & a & msg & r & _ & _ & _ & _ & -> & ->). by exists r, (device_of e), msg, g. Qed.

Lemma taught_snoc l q d s : taught l d s -> taught (l ++ [q]) d s.
Proof.
  intros (b & g & w & e & t & a & msg & r & -> & H). exists b, g, w, e, t, (a ++ [q]), msg, r. split; [|done]. by rewrite <- app_assoc.
Qed.

Lemma awaited_snoc l q g : awaited l g -> waits g q -> awaited (l ++ [q]) g.
Proof.
  intros (b & data & between & -> & Ha & Hw) Hq. exists b, data, (between ++ [q]). split; [by rewrite <- app_assoc|]. split; [done|].
  apply Forall_app. split; [done|]. by constructor.
Qed.

(** Each mapping is for one source, and no two are for the same source. *)
Definition mapped (T : pydict -> string * Z * string * Z -> Prop) (l : list pydict) : Prop := exists sources, Forall2 T l sources /\ NoDup sources.

Definition filed (T : pydict -> string * Z * string * Z -> Prop) (f : option pyval) : Prop :=
  match f with Some v => exists m, v = document_of m /\ mapped T m.(mappings) | None => True end.

(** After these requests every mapping, in memory and in the file, was taught by
    them, no two are for one source, and the queues are within their bounds. *)
Definition well_formed (l : list request) (m : mapper) : Prop :=
  mapped (taught l) m.(mappings) /\ filed (taught l) m.(file) /\ (length m.(pending) <= 1024)%nat /\ (length m.(executions) <= 256)%nat /\
  match m.(learning) with Some g => awaited l g | None => True end.

Lemma mapped_mono (T T' : pydict -> string * Z * string * Z -> Prop) l : (forall d s, T d s -> T' d s) -> mapped T l -> mapped T' l.
Proof. intros H (ss & Hl & Hn). exists ss. split; [|done]. by eapply Forall2_impl. Qed.

Lemma filed_mono (T T' : pydict -> string * Z * string * Z -> Prop) f : (forall d s, T d s -> T' d s) -> filed T f -> filed T' f.
Proof. intros H. destruct f as [v|]; [|done]. intros (m & -> & Hm). exists m. split; [done|]. by eapply mapped_mono. Qed.

Lemma mapped_filter T p l : mapped T l -> mapped T (List.filter p l).
Proof.
  intros (ss & Hl & Hn). assert (exists ss', Forall2 T (List.filter p l) ss' /\ NoDup ss' /\ forall s, s ∈ ss' -> s ∈ ss) as (ss' & H1 & H2 & _); [|by exists ss'].
  induction Hl as [|d s l ss Hd Hl IH]; cbn; [by exists []|]. apply NoDup_cons in Hn as [Hs Hn]. destruct (IH Hn) as (ss' & H1 & H2 & H3). destruct (p d).
  - exists (s :: ss'). split; [by constructor|]. split; [apply NoDup_cons; split; [|done]; intros H; by apply Hs, H3|]. intros x [->|Hx]%elem_of_cons; [by left|right; by apply H3].
  - exists ss'. split; [done|]. split; [done|]. intros x Hx. right. by apply H3.
Qed.

Lemma mapped_firstn T n l : mapped T l -> mapped T (firstn n l).
Proof. intros (ss & Hl & Hn). exists (firstn n ss). split; [by apply Forall2_take|]. eapply sublist_NoDup; [done|]. apply sublist_take. Qed.

(** Learning leaves no other mapping of the source. *)
Lemma kept_mapped (T : pydict -> string * Z * string * Z -> Prop) device msg l : (forall d s, T d s -> for_source d s) -> mapped T l -> exists kept, filter_res (fun item => b ← same_source device msg item; Ok (negb b)) l = Ok kept /\
  forall d, T d (source_of device msg) -> mapped T (kept ++ [d]).
Proof.
  intros HT (ss & Hl & Hn).
  assert (exists kept ss', filter_res (fun item => b ← same_source device msg item; Ok (negb b)) l = Ok kept /\ Forall2 T kept ss' /\ NoDup ss' /\
    (forall s, s ∈ ss' -> s ∈ ss) /\ source_of device msg ∉ ss') as (kept & ss' & H1 & H2 & H3 & _ & H4).
  { induction Hl as [|d s l ss Hd Hl IH]; cbn [filter_res]; [exists [], []; do 4 (split; [done || constructor|]); by intros ?%elem_of_nil|].
    apply NoDup_cons in Hn as [Hs Hn]. destruct (IH Hn) as (kept & ss' & H1 & H2 & H3 & H4 & H5). pose proof (HT _ _ Hd) as (r & dev & msg' & g & -> & ->).
    rewrite same_source_learned. cbn [mbind res_bind]. rewrite H1. cbn [mbind res_bind]. destruct (bool_decide_reflect (source_of dev msg' = source_of device msg)) as [E|E]; cbn [negb].
    - exists kept, ss'. split; [done|]. split; [done|]. split; [done|]. split; [|done]. intros x Hx. right. by apply H4.
    - eexists _, (source_of dev msg' :: ss'). split; [done|]. split; [by constructor|]. split; [apply NoDup_cons; split; [|done]; intros H; by apply Hs, H4|].
      split; [intros x [->|Hx]%elem_of_cons; [by left|right; by apply H4]|]. by intros [?|?]%elem_of_cons. }
  exists kept. split; [done|]. intros d Hd. exists (ss' ++ [source_of device msg]). split; [by apply Forall2_app; [|constructor]|].
  apply NoDup_app. split; [done|]. split; [|apply NoDup_singleton]. intros s Hs ->%list_elem_of_singleton. done.
Qed.

Section steps.
Context (power : float -> float -> res float).

(** The parts an action leaves alone. *)
Definition same_document (m m' : mapper) : Prop :=
  m'.(mappings) = m.(mappings) /\ m'.(file) = m.(file) /\ m'.(executions) = m.(executions) /\ m'.(pending) = m.(pending) /\ m'.(learning) = m.(learning).

Lemma value_of_keeps m0 mapping target behavior msg : keeps (same_document m0) (value_of power mapping target behavior msg).
Proof.
  unfold value_of, position, flip. repeat match goal with
  | |- keeps _ (st_bind st_get _) => apply keeps_get_bind; intros ? ?
  | |- keeps_at _ _ _ => apply at_keeps; [assumption|]
  | |- keeps _ (st_bind (st_modify _) _) => apply keeps_bind; [apply keeps_modify; by intros ? [? ?]|intros ?]
  | |- _ => keeps_step
  end.
Qed.

(** The action of a mapping: it bears the mapping's name and source and its target's. *)
Definition acted (d a : pydict) : Prop :=
  dget a "mappingId" = dget d "mappingId" /\ dget a "source" = dget d "source" /\
  exists target, dget d "target" = Some target /\ Ok (dget_none a "targetId") = vindex target "targetId".

(** One action is appended, or none when it fails. *)
Lemma act_on_pending event transport msg mapping m : let '(m', out) := act_on power event transport msg mapping m in
  m'.(mappings) = m.(mappings) /\ m'.(file) = m.(file) /\ m'.(executions) = m.(executions) /\ m'.(learning) = m.(learning) /\
  m'.(pending) = m.(pending) ++ match out with Ok action => [action] | Raise _ => [] end /\
  match out with Ok action => acted mapping action | Raise _ => True end.
Proof.
  unfold act_on. unfold st_bind at 1, st_lift at 1. destruct (dindex mapping "source") as [source|x] eqn:Es; [|by rewrite app_nil_r].
  unfold st_bind at 1, st_lift at 1. destruct (dindex mapping "target") as [target|x] eqn:Et; [|by rewrite app_nil_r].
  unfold st_bind at 1, st_lift at 1. destruct (dindex mapping "behavior") as [behavior|x]; [|by rewrite app_nil_r].
  unfold st_bind at 1. pose proof (value_of_keeps m mapping target behavior msg m ltac:(done)) as (H1 & H2 & H3 & H4 & H5).
  destruct (value_of power mapping target behavior msg m) as [m1 [v|x]]; cbn [fst] in *; [|by rewrite H1, H2, H3, H4, H5, app_nil_r].
  unfold st_bind at 1, st_lift at 1. destruct (action_of _ _ _ _ _ _ _) as [action|x] eqn:Ea; [|by rewrite H1, H2, H3, H4, H5, app_nil_r].
  rewrite st_modify_bind. cbn. rewrite H1, H2, H3, H4, H5. split_and!; try done.
  unfold action_of in Ea. cbv zeta in Ea. pyinv. subst action. unfold acted. cbn.
  repeat match goal with H : dindex _ _ = Ok _ |- _ => apply dindex_some in H end. split; [congruence|]. split; [congruence|]. exists target. split; [done|]. by symmetry.
Qed.

(** No mapping of another source acts. *)
Lemma none_act event transport device msg l ss m : Forall2 for_source l ss -> source_of device msg ∉ ss -> actions_of power event transport device msg l m = (m, Ok []).
Proof.
  intros Hl. revert m. induction Hl as [|d s l ss Hd Hl IH]; intros m Hs; [done|]. apply not_elem_of_cons in Hs as [Hne Hs]. destruct Hd as (r & dev & msg' & g & -> & ->).
  cbn [actions_of]. rewrite passes_learned, st_lift_Ok, bool_decide_eq_false_2 by (by intros E; apply Hne). cbn [andb]. rewrite st_ret_bind.
  unfold st_bind. by rewrite IH.
Qed.

(** What a source gives: the action of the one mapping that has it, if one has. *)
Definition answers (device : string) (msg : message) (l actions : list pydict) : Prop :=
  (actions = [] /\ forall d, d ∈ l -> dget d "source" <> Some (VDict (source_dict device msg))) \/
  (exists d a, actions = [a] /\ d ∈ l /\ dget d "source" = Some (VDict (source_dict device msg)) /\ acted d a).

Lemma source_is r dev msg' g device msg :
  dget (learned_mapping r dev msg' g) "source" = Some (VDict (source_dict device msg)) <-> source_of dev msg' = source_of device msg.
Proof. cbn. unfold source_of, source_dict. split; intros H; [by injection H as -> -> -> ->|by injection H as -> -> -> ->]. Qed.

Lemma none_for device msg l ss : Forall2 for_source l ss -> source_of device msg ∉ ss -> forall d, d ∈ l -> dget d "source" <> Some (VDict (source_dict device msg)).
Proof.
  intros Hl Hs d Hd E. apply list_elem_of_lookup in Hd as [i Hi]. destruct (Forall2_lookup_l _ _ _ _ _ Hl Hi) as (s & Hs' & r & dev & msg' & g & -> & ->).
  apply source_is in E. apply Hs. rewrite <- E. by eapply list_elem_of_lookup_2.
Qed.

(** A message gives the action of the mapping of its source, and none when that fails. *)
Lemma actions_pending event transport device msg l m : mapped for_source l -> (msg.(kind) = "note" -> 0 < msg.(raw_value)) ->
  let '(m', out) := actions_of power event transport device msg l m in
  m'.(mappings) = m.(mappings) /\ m'.(file) = m.(file) /\ m'.(executions) = m.(executions) /\ m'.(learning) = m.(learning) /\
  m'.(pending) = m.(pending) ++ match out with Ok actions => actions | Raise _ => [] end /\
  match out with Ok actions => answers device msg l actions | Raise _ => True end.
Proof.
  intros (ss & Hl & Hn) Hv. revert m. induction Hl as [|d s l ss Hd Hl IH]; intros m; cbn [actions_of].
  { cbn. rewrite app_nil_r. split_and!; try done. left. split; [done|]. by intros d ?%elem_of_nil. }
  apply NoDup_cons in Hn as [Hs Hn]. destruct Hd as (r & dev & msg' & g & -> & ->). rewrite passes_learned, st_lift_Ok.
  destruct (bool_decide_reflect (source_of dev msg' = source_of device msg)) as [E|E]; cbn [andb].
  2: { rewrite st_ret_bind. specialize (IH Hn m). unfold st_bind. destruct (actions_of _ _ _ _ _ l m) as [m1 [a|x]]; [|done]. cbn.
       destruct IH as (-> & -> & -> & -> & -> & Ha). split_and!; try done. destruct Ha as [[-> Ha]|(d & a1 & -> & Hd & H1 & H2)].
       - left. split; [done|]. intros d [->|Hd]%elem_of_cons; [by intros H%source_is|by apply Ha].
       - right. exists d, a1. split_and!; try done. by right. }
  assert (negb (String.eqb (kind msg) "note" && (raw_value msg =? 0)) = true) as ->.
  { destruct (String.eqb_spec (kind msg) "note") as [Hk|Hk]; [|done]. specialize (Hv Hk). cbn. destruct (Z.eqb_spec (raw_value msg) 0); [lia|done]. }
  rewrite st_bind_assoc. pose proof (act_on_pending event transport msg (learned_mapping r dev msg' g) m) as Ha. unfold st_bind at 1.
  destruct (act_on _ _ _ _ _ m) as [m1 [a|x]]; [|tauto]. rewrite st_ret_bind. unfold st_bind. rewrite (none_act _ _ _ _ _ _ _ Hl) by (by rewrite <- E). cbn.
  destruct Ha as (-> & -> & -> & -> & -> & Ha). split_and!; try done. right. exists (learned_mapping r dev msg' g), a.
  split_and!; try done; [by left|by apply source_is].
Qed.

Definition serve (q : request) (m : mapper) : mapper :=
  match q with
  | Begin data => fst (begin data m)
  | Cancel => fst (cancel m)
  | Delete w id => fst (delete w id m)
  | Observe w event transport => fst (observe power w event transport m)
  | Drain t => fst (drain_due t m)
  | Reload => match _load m.(file) with Ok m' => m' | Raise _ => m end
  end.

Definition serve_all (l : list request) (m : mapper) : mapper := fold_left (fun m q => serve q m) l m.

Definition fresh : mapper :=
  {| revision := 0; mappings := []; learning := None; executions := []; pending := []; toggles := []; relative := []; file := None |}.

Lemma last_of_length {A} n (l : list A) : (length (last_of n l) <= n)%nat.
Proof. unfold last_of. rewrite length_skipn. lia. Qed.

(** The kinds a message has; a note has a velocity. *)
Lemma message_kinds event msg : _message event = Ok msg ->
  msg.(kind) ∈ ["note"; "note-off"; "cc"; "pitch-bend"; "program"; "other"] /\ (msg.(kind) = "note" -> 0 < msg.(raw_value)).
Proof.
  unfold _message. intros H. pyinv. destruct (_ || _ || _); [done|].
  repeat match goal with H : Ok (if ?b then _ else _) = _ |- _ => destruct b eqn:?E end; simplify_eq; cbn [kind raw_value];
    (split; [set_solver|]); intros; try done; lia.
Qed.

Lemma completes_gesture event msg g device : _message event = Ok msg -> completes device msg g = true <-> gesture g device msg.
Proof.
  intros H. apply message_kinds in H as [H _]. unfold completes, gesture. rewrite !andb_true_iff, orb_true_iff, !negb_true_iff, !String.eqb_neq, !String.eqb_eq.
  set_unfold. destruct H as [E|[E|[E|[E|[E|[E|[]]]]]]]; rewrite E; intuition congruence.
Qed.

Lemma learn_well_formed h w e t msg m : well_formed h m -> _message e = Ok msg ->
  well_formed (h ++ [Observe w e t]) (fst (learn_from w (device_of e) msg m)).
Proof.
  intros (Hl & Hf & Hp & Hx & Hg) Hmsg. pose proof (taught_snoc h (Observe w e t)) as Hup. set (h' := h ++ _) in *.
  pose proof (mapped_mono _ _ _ Hup Hl) as Hl'. pose proof (filed_mono _ _ _ Hup Hf) as Hf'.
  unfold learn_from. rewrite st_get_bind. destruct (learning m) as [g|] eqn:El; [|by unfold well_formed; cbn; rewrite El].
  pose proof (completes_gesture e msg g (device_of e) Hmsg) as Hc. destruct (completes (device_of e) msg g).
  2: { unfold well_formed; cbn; rewrite El. split_and!; try done. apply awaited_snoc; [done|]. cbn [waits]. intros msg' Hmsg' Hw. assert (msg' = msg) as -> by congruence.
       by apply Hc in Hw. }
  rewrite st_modify_bind. destruct (kept_mapped (taught h') (device_of e) msg (mappings m) (taught_for_source h') Hl') as (kept & -> & Hk).
  rewrite st_lift_Ok. cbv zeta. rewrite st_modify_bind. assert (mapped (taught h') (kept ++ [learned_mapping (revision m + 1) (device_of e) msg g])) as Hmap.
  { apply Hk. exists h, g, w, e, t, [], msg. eexists. split_and!; [done..|by apply Hc|done|done]. }
  unfold _save. destruct w; [rewrite st_modify_bind|rewrite st_raise_bind]; (split; [exact Hmap|split; [|done]]); [|exact Hf'].
  eexists (set_mappings (revision m + 1) _ None m). split; [reflexivity|exact Hmap].
Qed.

(** A request that leaves the documents and what is being learned. *)
Lemma well_formed_snoc h q m m' : well_formed h m -> m'.(mappings) = m.(mappings) -> m'.(file) = m.(file) ->
  (length m'.(pending) <= 1024)%nat -> (length m'.(executions) <= 256)%nat -> m'.(learning) = m.(learning) ->
  (forall g, m.(learning) = Some g -> waits g q) -> well_formed (h ++ [q]) m'.
Proof.
  intros (Hl & Hf & Hp & Hx & Hg) E1 E2 Hp' Hx' E3 Hw. unfold well_formed. rewrite E1, E2, E3. pose proof (taught_snoc h q) as Hup.
  split_and!; [by eapply mapped_mono|by eapply filed_mono|done|done|]. destruct (learning m) as [g|]; [|done]. apply awaited_snoc; auto.
Qed.

Lemma delete_well_formed h w id m : well_formed h m -> well_formed (h ++ [Delete w id]) (fst (delete w id m)).
Proof.
  intros Hm. pose proof Hm as (Hl & Hf & Hp & Hx & Hg). unfold delete. rewrite st_get_bind. cbv zeta. set (kept := List.filter _ _).
  assert (well_formed (h ++ [Delete w id]) m) as Hm' by (by apply (well_formed_snoc h _ m)).
  destruct (_ =? _)%nat; [exact Hm'|]. rewrite st_modify_bind. destruct Hm' as (Hl' & Hf' & _ & _ & Hg').
  assert (mapped (taught (h ++ [Delete w id])) kept) as Hk by by apply mapped_filter. unfold _save.
  destruct w; [rewrite st_modify_bind|rewrite st_raise_bind]; (split; [exact Hk|split; [|done]]); [|exact Hf'].
  eexists (set_mappings (revision m + 1) kept (learning m) m). split; [reflexivity|exact Hk].
Qed.

(** Learning touches no queue. *)
Lemma learn_queues w device msg m : let m' := fst (learn_from w device msg m) in m'.(pending) = m.(pending) /\ m'.(executions) = m.(executions).
Proof.
  cbv zeta. unfold learn_from. rewrite st_get_bind. destruct (learning m) as [g|]; [|done]. destruct (completes _ _ _); [|done].
  rewrite st_modify_bind. unfold st_bind at 1, st_lift. destruct (filter_res _ _); [|done]. cbv zeta. rewrite st_modify_bind. unfold _save. by destruct w.
Qed.

Lemma observe_well_formed h w e t m : well_formed h m -> well_formed (h ++ [Observe w e t]) (fst (observe power w e t m)).
Proof.
  intros Hm. unfold observe. unfold st_bind at 1, st_lift. destruct (_message e) as [msg|x] eqn:Hmsg.
  2: { apply (well_formed_snoc h _ m); try done; [apply Hm..|]. intros g _. cbn [waits]. congruence. }
  cbv zeta. fold (device_of e). unfold st_bind at 1. pose proof (learn_well_formed h w e t msg m Hm Hmsg) as H1. destruct (learn_from w (device_of e) msg m) as [m1 [o|x]]; [|done].
  cbn [fst] in H1. rewrite st_get_bind. destruct H1 as (Hl & Hf & Hp & Hx & Hg). unfold st_bind at 1.
  pose proof (actions_pending e t (device_of e) msg _ m1 (mapped_mono _ _ _ (taught_for_source _) Hl) (proj2 (message_kinds _ _ Hmsg))) as Ha.
  destruct (actions_of _ _ _ _ _ _ m1) as [m2 [a|x]]; destruct Ha as (E1 & E2 & E3 & E6 & E4 & _).
  - rewrite st_modify_bind. unfold well_formed; cbn. rewrite E1, E2, E3, E6. split_and!; try done. apply last_of_length.
  - unfold well_formed; cbn. by rewrite E1, E2, E3, E4, E6, app_nil_r.
Qed.

Lemma drain_well_formed h t m : well_formed h m -> well_formed (h ++ [Drain t]) (fst (drain_due t m)).
Proof.
  intros Hm. pose proof Hm as (_ & _ & Hp & Hx & _). apply (well_formed_snoc h _ m _ Hm); [..|done];
    unfold drain_due; cbv zeta; rewrite st_get_bind; unfold st_bind at 1, st_lift; (destruct (filter_res _ _) as [due|x]; [|done]);
    unfold st_bind at 1; (destruct (filter_res _ (pending m)) as [rest|x] eqn:Er; [|done]); rewrite st_modify_bind; try done; cbn; [|apply last_of_length].
  apply filter_res_length in Er. lia.
Qed.

Lemma reload_document m : _load (Some (document_of m)) =
  Ok {| revision := Z.max 0 m.(revision); mappings := firstn 512 m.(mappings); learning := None; executions := []; pending := []; toggles := []; relative := [];
        file := Some (document_of m) |}.
Proof.
  unfold _load, document_of. cbn. do 2 f_equal. f_equal. induction (mappings m) as [|d l IH]; [done|]. cbn. by rewrite IH.
Qed.

Lemma mapped_nil T : mapped T [].
Proof. exists []. split; constructor. Qed.

Lemma reload_well_formed h m : well_formed h m -> well_formed (h ++ [Reload]) (serve Reload m).
Proof.
  intros (Hl & Hf & Hp & Hx & Hg). cbn [serve]. pose proof (filed_mono _ _ _ (taught_snoc h Reload) Hf) as Hf'. destruct (file m) as [v|] eqn:Ef.
  - destruct Hf' as (m' & -> & Hm'). rewrite reload_document. split; [by apply mapped_firstn|]. split; [by exists m'|]. cbn. split_and!; [lia|lia|done].
  - cbn. split; [apply mapped_nil|]. cbn. split_and!; [done|lia|lia|done].
Qed.

Lemma begin_well_formed h data m : well_formed h m -> well_formed (h ++ [Begin data]) (fst (begin data m)).
Proof.
  intros Hm. unfold begin, TARGET_BY_ID. destruct (List.find _ TARGETS) as [preset|] eqn:Ef.
  - cbv zeta. rewrite st_modify_bind. destruct Hm as (Hl & Hf & Hp & Hx & _). pose proof (taught_snoc h (Begin data)) as Hup.
    unfold well_formed; cbn. split_and!; [by eapply mapped_mono|by eapply filed_mono|done|done|].
    exists h, data, []. split; [done|]. split; [|constructor]. apply find_some in Ef as [Hin Hid%String.eqb_eq]. exists preset. cbn [l_target l_deviceId].
    split; [by apply list_elem_of_In|]. split; [done|]. split; [destruct (String.eqb _ ""); [by left|right; by eexists]|done].
  - apply (well_formed_snoc h _ m _ Hm); try done; [apply Hm..|]. intros g _ t Ht%list_elem_of_In. apply (find_none _ _ Ef) in Ht. by apply String.eqb_neq in Ht.
Qed.

Lemma serve_well_formed h q m : well_formed h m -> well_formed (h ++ [q]) (serve q m).
Proof.
  intros Hm. destruct q as [data| |w id|w event transport|t|];
    [by apply begin_well_formed| |by apply delete_well_formed|by apply observe_well_formed|by apply drain_well_formed|by apply reload_well_formed].
  destruct Hm as (Hl & Hf & Hp & Hx & _). pose proof (taught_snoc h Cancel) as Hup. unfold well_formed; cbn.
  split_and!; [by eapply mapped_mono|by eapply filed_mono|done|done|done].
Qed.

Lemma run_well_formed l : well_formed l (serve_all l fresh).
Proof.
  induction l as [|q l IH] using rev_ind.
  - unfold well_formed; cbn. split_and!; [apply mapped_nil|done|lia|lia|done].
  - unfold serve_all. rewrite fold_left_app. by apply serve_well_formed.
Qed.

(** A message observed: what it answers is what is queued behind what was pending,
    as far as the queue holds, and it is the answer of the mappings then in memory.
    A message that is refused, or fails, queues nothing. *)
Definition one_action (m : mapper) (w : bool) (event transport : pydict) : Prop :=
  match observe power w event transport m with
  | (m', Ok (_, actions)) => exists msg, _message event = Ok msg /\ answers (device_of event) msg m'.(mappings) actions /\
      m'.(pending) = last_of 1024 (m.(pending) ++ actions)
  | (m', Raise _) => m'.(pending) = m.(pending)
  end.

Lemma well_formed_one_action h m w event transport : well_formed h m -> one_action m w event transport.
Proof.
  intros Hm. unfold one_action, observe. unfold st_bind at 1, st_lift. destruct (_message event) as [msg|x] eqn:Hmsg; [|done].
  cbv zeta. fold (device_of event). unfold st_bind at 1. pose proof (learn_well_formed h w event transport msg m Hm Hmsg) as (Hl & _).
  destruct (learn_queues w (device_of event) msg m) as [Hq _]. destruct (learn_from w (device_of event) msg m) as [m1 [o|x]]; [|done]. cbn [fst] in *.
  rewrite st_get_bind. unfold st_bind at 1.
  pose proof (actions_pending event transport (device_of event) msg _ m1 (mapped_mono _ _ _ (taught_for_source _) Hl) (proj2 (message_kinds _ _ Hmsg))) as Ha.
  destruct (actions_of _ _ _ _ _ _ m1) as [m2 [a|x]]; destruct Ha as (E1 & _ & _ & _ & E4 & E5).
  - rewrite st_modify_bind. cbn. exists msg. split; [done|]. by rewrite E1, E4, Hq.
  - by rewrite E4, app_nil_r.
Qed.

(** C34: one physical control, one mapping, one action. Whatever is learned, played,
    deleted, executed or restarted, failures to write and to compute included: every
    mapping in memory and in the file is one that these requests taught, a gesture
    of the device asked for (no release, no message of another kind) while a request
    to learn was still waiting; no two are for the same control of the same device;
    the queues stay within their bounds; and a message observed next answers and
    queues exactly the action of the mapping of its control, if there is one, and
    otherwise nothing. *)
Theorem mapper_stays_well_formed l : let m := serve_all l fresh in
  well_formed l m /\ forall w event transport, one_action m w event transport.
Proof. cbv zeta. split; [apply run_well_formed|]. intros w e t. by eapply well_formed_one_action, run_well_formed. Qed.
End steps.

(** ** What is due *)

Lemma fle_or_flt x y : is_nan x = false -> is_nan y = false -> flt y x = negb (fle x y).
Proof.
  unfold flt, fle, SFltb, SFleb.
  destruct x as [sx|sx| |sx mx ex], y as [sy|sy| |sy my ey]; try done; intros _ _; cbn; repeat match goal with b : bool |- _ => destruct b end; try done.
  all: rewrite (Z.compare_antisym ex ey); destruct (ex ?= ey)%Z; cbn; try done; fold (Pos.compare my mx) (Pos.compare mx my);
    rewrite (Pos.compare_antisym mx my); by destruct (mx ?= my)%positive.
Qed.

Definition timed (item : pydict) : Prop := exists x, time_of item = Ok x /\ is_nan x = false.

Definition due_at (limit : float) (item : pydict) : bool := match time_of item with Ok x => fle x limit | Raise _ => false end.

Lemma filter_split {A} (q : A -> bool) l : List.filter q l ++ List.filter (fun x => negb (q x)) l ≡ₚ l.
Proof.
  induction l as [|x l IH]; [done|]. cbn. destruct (q x); cbn; [by rewrite IH|]. rewrite <- Permutation_middle. by rewrite IH.
Qed.

(** An action runs once. What is executed at a show time is exactly what is
    pending and due by then, in order; the rest stays pending, and nothing is lost
    between the two. *)
Theorem due_actions_run_once t m : Forall timed m.(pending) -> is_nan (fadd t (float_of_dec false 1 (-9))) = false ->
  exists due rest, drain_due t m = (set_queues rest (last_of 256 (m.(executions) ++ due)) m, Ok due) /\ due ++ rest ≡ₚ m.(pending) /\
    due = List.filter (due_at (fadd t (float_of_dec false 1 (-9)))) m.(pending) /\ rest = List.filter (fun i => negb (due_at (fadd t (float_of_dec false 1 (-9))) i)) m.(pending).
Proof.
  intros Hp Hn. unfold drain_due. cbv zeta. rewrite st_get_bind. set (limit := fadd t _) in *.
  rewrite (filter_res_pure (fun item => x ← time_of item; Ok (fle x limit)) (due_at limit)), st_lift_Ok.
  2: { apply (Forall_impl _ _ _ Hp). intros i (x & Hx & _). unfold due_at. by rewrite Hx. }
  rewrite (filter_res_pure (fun item => x ← time_of item; Ok (flt limit x)) (fun i => negb (due_at limit i))), st_lift_Ok.
  2: { apply (Forall_impl _ _ _ Hp). intros i (x & Hx & Hxn). unfold due_at. rewrite Hx. cbn. by rewrite fle_or_flt. }
  eexists _, _. split; [reflexivity|]. split; [apply filter_split|done].
Qed.

(** ** Runs *)

Definition no_power (_ _ : float) : res float := Ok one.

Definition press (status data1 data2 : Z) : pydict := [("deviceId", VStr "pads"); ("status", VInt status); ("data1", VInt data1); ("data2", VInt data2); ("showTimeSeconds", VFloat (float_of_dec false 26 (-2)))].
Definition at_120 : pydict := [("bpm", VInt 120); ("key", VStr "C")].

Definition learned_note : mapper := serve no_power (Begin [("targetId", VStr "instrument.note"); ("quantize", VStr "1/4")]) fresh.

(** The pad of a note is learned by its first touch, on the next quarter and in the key. *)
Example pad_is_quantized_in_key :
  match snd (observe no_power true (press 153 61 100) at_120 learned_note) with
  | Ok (_, [a]) => dget_none a "showTimeSeconds" = VFloat half /\ dget_none a "outputNote" = VInt 60 /\ dget_none a "transposeSemitones" = VInt (-1)
  | _ => False
  end.
Proof. vm_compute. done. Qed.

Definition play_learned : mapper :=
  serve_all no_power [Begin [("targetId", VStr "transport.play")]; Observe true (press 176 20 127) at_120] fresh.

(** A button that sends control changes plays when it is pressed, and again when it is released. *)
Example release_triggers_again :
  match snd (observe no_power true (press 176 20 0) at_120 play_learned) with
  | Ok (None, [a]) => dget_none a "targetId" = VStr "transport.play" /\ dget_none a "value" = VFloat one
  | _ => False
  end.
Proof. vm_compute. done. Qed.

(** 513 controls learned: all are written, and the last is gone after a restart. *)
Definition many : mapper :=
  set_mappings 513 (map (fun i => learned_mapping (Z.of_nat i) "pads" {| kind := "cc"; number := Z.of_nat i mod 128; raw_value := 1; channel := Z.of_nat i / 128 |}
    {| l_target := []; l_deviceId := ""; l_behavior := "absolute"; l_quantize := "off"; l_keySync := false; l_scale := "major" |}) (seq 1 513)) None fresh.

Example the_latest_mapping_is_lost :
  let saved := fst (_save true many) in
  existsb (fun d => py_eq (dget_none d "mappingId") (VStr "map-513")) saved.(mappings) = true /\
  existsb (fun d => py_eq (dget_none d "mappingId") (VStr "map-513")) (serve no_power Reload saved).(mappings) = false.
Proof. vm_compute. done. Qed.

Lemma key_notes_are_nearest_witness : exists out, _key_note 61 "Eb" (VStr "minor") = Ok out /\ in_scale 3 [0; 2; 3; 5; 7; 8; 10] out = true.
Proof.
  destruct (key_notes_are_nearest 61 "Eb" "minor" [0; 2; 3; 5; 7; 8; 10] ltac:(lia) eq_refl) as (out & H & _ & Hs & _). exists out. split; [exact H|exact Hs].
Defined.

Definition played : mapper := serve no_power (Observe true (press 176 20 127) at_120) play_learned.

Lemma due_actions_run_once_witness : exists due rest, drain_due half played = (set_queues rest (last_of 256 due) played, Ok due) /\ length due = 2%nat.
Proof.
  assert (Forall timed played.(pending)) as Hp.
  { assert (forallb (fun i => match time_of i with Ok x => negb (is_nan x) | Raise _ => false end) played.(pending) = true) as H by (vm_compute; reflexivity).
    rewrite forallb_forall in H. apply Forall_forall. intros i Hi%list_elem_of_In. specialize (H i Hi). unfold timed. destruct (time_of i) as [x|]; [|discriminate H].
    exists x. split; [reflexivity|]. destruct (is_nan x); [discriminate H|reflexivity]. }
  destruct (due_actions_run_once half played Hp ltac:(vm_compute; reflexivity)) as (due & rest & H & _ & Hd & _). exists due, rest. split; [exact H|]. rewrite Hd. vm_compute. reflexivity.
Defined.
