(* ===== verification/RuntimeVenue.v ===== *)
(** * Venue adaptation and reconciliation of a node (backend/runtime.py)

    The show's requirements and the venue's plan at the moment they are asked for;
    proposals, commits, cues and rollbacks of the venue patch layer, with what the
    node does when a layer changes (evidence in the public record, the execution
    evidence and the venue's operator leases dropped, the show told); and the
    reports that compare the layer with what is carried out. *)

From S2P Require Import Prelude PyStr PyFloat PyVal PyFacts StateLogic Runtime RuntimeHandoff.
From S2P Require ShowData ShowState ShowPatch Compatibility Venue Adaptation AdaptationUndo Reconciliation AuthorityLeases RuntimeFacts RuntimeCommands.
From Stdlib Require Import SpecFloat.

#[local] Open Scope string_scope.
#[local] Open Scope list_scope.
#[local] Open Scope Z_scope.
#[local] Open Scope st_scope.

(** ** State *)

(** A node with its registry of execution evidence and the file of its venue profile. *)
Record stage := { node : Runtime.runtime; realization : Reconciliation.registry; venue_file : option string }.

#[export] Instance stage_node : Part stage Runtime.runtime.
Proof. refine {| part := node; with_part n s := {| node := n; realization := s.(realization); venue_file := s.(venue_file) |} |}; [done|by intros []|done]. Defined.
#[export] Instance stage_realization : Part stage Reconciliation.registry.
Proof. refine {| part := realization; with_part r s := {| node := s.(node); realization := r; venue_file := s.(venue_file) |} |}; [done|by intros []|done]. Defined.

Abbreviation act := (st stage).

(** What surrounds a call: the node's world, the world of the adaptation
    transactions and that of the receipts attached afterwards, the devices that
    local discovery finds, the public record, and the readings of the leases and
    of the evidence. *)
Record scene := {
  world_of : Runtime.world;
  drawn : Adaptation.world;
  attached : Adaptation.world;
  found_audio : res (list pyval);
  found_midi : res (list pyval);
  publish : string -> pydict -> res pyval;
  lease_mono : nat -> float;
  lease_stamp : nat -> string;
  checked_at : string;
}.

Section stage.
Context (cfg : Runtime.runtime_config) (e : scene).
#[local] Abbreviation w := (e.(world_of)).

Definition on_node {A} (m : Runtime.op A) : act A := inside (T:=Runtime.runtime) m.
Definition on_manager {A} (m : Adaptation.op A) : act A := on_node (inside (T:=Adaptation.manager) m).

Definition need_authority (text : string) : act unit :=
  let* s := st_get in
  if Runtime._has_authority cfg w s.(node) then st_ret tt else st_raise (RuntimeError text).

(** ** Plans *)

Definition show_snapshot (s : stage) : res pydict := ShowState.snapshot false false w.(Runtime.show_clock).(ShowState.mono_snapshot) s.(node).(Runtime.show).

Definition show_compatibility_requirements (s : stage) : res (list pyval) :=
  show ← show_snapshot s; Compatibility.show_requirements_from_snapshot show.

(** [{**device, "kind": ..., "status": "online", "capabilities": [...]}] of each dict. *)
Definition discovered_as (kind : string) (capabilities : list string) (devices : list pyval) : list pyval :=
  omap (fun v => match v with
                 | VDict d => Some (VDict (dmerge d [("kind", VStr kind); ("status", VStr "online"); ("capabilities", VList (map VStr capabilities))]))
                 | _ => None
                 end) devices.

Definition local_discovery : res pyval :=
  audio ← e.(found_audio); midi ← e.(found_midi);
  Ok (VList (discovered_as "audio" ["audio.output.multi"; "audio.input.capture"] audio ++ discovered_as "midi" ["midi.read"; "midi.write"] midi)).

Definition venue_compatibility (data : pydict) (s : stage) : res pydict :=
  venue ← match dget_none data "venue" with VDict d => Ok d | _ => Venue.store_load s.(venue_file) end;
  discovered ← match dget_none data "discoveredDevices" with
               | VNone => if truthy (dget_or data "useLocalDiscovery" (VBool false)) then local_discovery else Ok VNone
               | v => Ok v
               end;
  requirements ← show_compatibility_requirements s;
  Venue.venue_compatibility_plan (VDict venue) requirements discovered.

Definition _venue_plan_for_adaptation (use_local_discovery : bool) (s : stage) : res (pydict * list pyval) :=
  requirements ← show_compatibility_requirements s;
  plan ← venue_compatibility [("useLocalDiscovery", VBool use_local_discovery)] s;
  Ok (plan, requirements).

Definition venue_plan (use_local_discovery : bool) : act (pydict * list pyval) :=
  let* s := st_get in st_lift (_venue_plan_for_adaptation use_local_discovery s).

(** [(snapshot.get(section) or {}).get(field, default)]. *)
Definition show_field (section field : string) (default : pyval) : act pyval :=
  let* s := st_get in
  st_lift (show ← show_snapshot s; vget (py_or (dget_none show section) (VDict [])) field default).

Definition show_seconds : act float := let* v := show_field "transport" "seconds" (VFloat (float_of_Z 0)) in st_lift (py_float v).
Definition show_bpm : act float := let* v := show_field "transport" "bpm" (VFloat (float_of_Z 120)) in st_lift (py_float v).
Definition show_venue : act string := let* v := show_field "system" "venue" (VStr "") in st_ret (py_str v).

(** ** Reconciliation *)

Definition active_layer : act pyval :=
  let* s := st_get in st_lift (state ← Adaptation.snapshot s.(node).(Runtime.adaptations); Ok (dget_none state "active")).

(** The authorities that the profile's patch states. *)
Definition stated_authority (patch : pydict) : list (string * string) :=
  fold_left (fun m kv => match snd kv with
                         | VDict p => let a := strip (py_str (dget_or p "authority" (VStr ""))) in
                                      if String.eqb a "" then m else aput m (fst kv) (slice 160 a)
                         | _ => m
                         end) patch [].

Definition evidence_snapshot (s : stage) : pydict := Reconciliation.snapshot 2500 w.(Runtime.mono) s.(realization).

Definition venue_reconciliation_report (data : pydict) : act pydict :=
  let* active := active_layer in
  let* s := st_get in
  match active with
  | VDict layer =>
      let use_local := truthy (dget_or data "useLocalDiscovery" (VBool (py_eq (dget_none layer "discoveryMode") (VStr "live")))) in
      let* plan := venue_plan use_local in
      let* patch := st_lift (profile ← Venue.store_load s.(venue_file);
                             match py_or (dget_none profile "patch") (VDict []) with VDict p => Ok p | _ => Raise AttributeError end) in
      let authority := fold_left (fun m kv => aput m (fst kv) (snd kv))
                         (AuthorityLeases.authority_map e.(lease_mono) s.(node).(Runtime.leases)) (stated_authority patch) in
      st_lift (Reconciliation.evaluate_realization active (fst plan) (snd plan) (evidence_snapshot s) authority e.(checked_at))
  | _ => st_lift (Reconciliation.evaluate_realization VNone [] [] (evidence_snapshot s) [] e.(checked_at))
  end.

Definition venue_reconciliation_report_execution (data : pydict) : act pydict :=
  let* active := active_layer in
  match active with
  | VDict layer =>
      let patch_key := strip (py_str (dget_or data "patchKey" (VStr ""))) in
      let* known := st_lift (vhas (py_or (dget_none layer "mappings") (VDict [])) patch_key) in
      if negb known then st_raise (ValueError "patchKey is not part of the active Venue Patch Layer")
      else
        let* report := inside (Reconciliation.report data e.(checked_at) w.(Runtime.mono)) in
        let* reconciliation := venue_reconciliation_report [] in
        st_ret [("accepted", VBool true); ("report", VDict report); ("reconciliation", VDict reconciliation)]
  | _ => st_raise (ValueError "no active Venue Patch Layer")
  end.

(** ** When a layer changes *)

(** The evidence and the leases that the layer before gave rise to. *)
Definition void_venue_context : act unit :=
  inside Reconciliation.clear ;;;
  on_node (inside (AuthorityLeases.clear_context "venue" e.(lease_mono) e.(lease_stamp)) ;;; change (Runtime.set_reconciliation VNone)).

(** The show takes the venue's name, and an event of it, both persisted. *)
Definition tell_show (venue_name text : string) (payload : pydict) : act unit :=
  on_node (inside (ShowPatch.patch_system w.(Runtime.show_clock) [("venue", VStr venue_name)] None None) ;;;
           Runtime._after_mutation w ;;;
           record_event w "adaptation" text payload).

Definition or_venue (v : pyval) : string := py_str (py_or v (VStr "Venue")).

(** The receipt entered in the public record, unless it is there. *)
Definition enter_receipt (transaction : pydict) : act pydict :=
  match dget_none transaction "receipt" with
  | VDict receipt =>
      match dget_none receipt "publicRecord" with
      | VDict _ => st_ret transaction
      | _ =>
          let* evidence := st_lift (e.(publish) "venue-adaptation" receipt) in
          on_manager (Adaptation.attach_receipt_evidence (py_str (dget_or transaction "transactionId" (VStr ""))) evidence e.(attached))
      end
  | _ => st_ret transaction
  end.

Definition _after_venue_adaptation_commit (transaction : pydict) : act pydict :=
  let* transaction := enter_receipt transaction in
  void_venue_context ;;;
  let venue_name := or_venue (py_or (dget_none transaction "venueName") (dget_none transaction "venueId")) in
  tell_show venue_name ("Venue Patch Layer committed for " +:+ venue_name)
    [("transactionId", dget_none transaction "transactionId"); ("venueId", dget_none transaction "venueId");
     ("boundary", dget_none transaction "commitBoundary"); ("receipt", dget_none transaction "receipt");
     ("physicalOutputsAutoArmed", VBool false)] ;;;
  st_ret transaction.

Fixpoint after_each (committed : list pyval) : act (list pyval) :=
  match committed with
  | [] => st_ret []
  | tx :: rest =>
      let* done_ := _after_venue_adaptation_commit (as_dict tx) in
      let* more := after_each rest in
      st_ret (VDict done_ :: more)
  end.

(** ** Transactions *)

Definition expected_of (data : pydict) : pyval := dget_none data "expectedAdaptationRevision".

Definition text_of (data : pydict) (k default : string) : string := py_str (dget_or data k (VStr default)).

(** ["; ".join(...)] of texts. *)
Definition joined (v : pyval) : string := match v with VList l => join "; " (map py_str l) | _ => "" end.

Definition propose_plan (use_local : bool) (plan : pydict * list pyval) (data : pydict) : act pydict :=
  let* venue := show_venue in
  on_manager (Adaptation.propose (fst plan) (snd plan) use_local venue (expected_of data) e.(drawn)).

Definition venue_adaptation_propose (data : pydict) : act pydict :=
  need_authority "venue adaptation proposals require current node authority" ;;;
  let use_local := truthy (dget_or data "useLocalDiscovery" (VBool false)) in
  let* plan := venue_plan use_local in
  propose_plan use_local plan data.

Definition venue_reconciliation_propose_repair (data : pydict) : act pydict :=
  need_authority "venue repair proposal requires current node authority" ;;;
  let use_local := truthy (dget_or data "useLocalDiscovery" (VBool true)) in
  let* report := venue_reconciliation_report [("useLocalDiscovery", VBool use_local)] in
  if negb (existsb (fun s => py_eq (dget_none report "status") (VStr s)) ["drift"; "blocked"])
  then st_raise (ValueError "active Venue Patch Layer does not require a repair proposal")
  else
    let* plan := venue_plan use_local in
    if negb (truthy (dget_none (fst plan) "compatible")) || negb (py_eq (dget_none (fst plan) "readiness") (VStr "ready"))
    then st_raise (ValueError ("current venue state cannot produce a safe repair transaction: " +:+ joined (dget_none (fst plan) "blockers")))
    else propose_plan use_local plan data.

(** The plan for a transaction, as it was discovered. *)
Definition plan_for (transaction_id : string) : act (pydict * list pyval) :=
  let* s := st_get in
  let* tx := st_lift (Adaptation.get transaction_id s.(node).(Runtime.adaptations)) in
  venue_plan (py_eq (dget_none tx "discoveryMode") (VStr "live")).

Definition venue_adaptation_validate (transaction_id : string) (data : pydict) : act pydict :=
  let* plan := plan_for transaction_id in
  on_manager (Adaptation.validate transaction_id (fst plan) (snd plan) (expected_of data) e.(drawn)).

Definition committed_tx (tx : pydict) : bool := py_eq (dget_none tx "status") (VStr "committed").

Definition venue_adaptation_commit (transaction_id : string) (data : pydict) : act pydict :=
  need_authority "venue adaptation commit requires current node authority" ;;;
  let* tx := venue_adaptation_validate transaction_id data in
  let validation := py_or (dget_none tx "validation") (VDict []) in
  let* valid := st_lift (vget validation "valid" VNone) in
  if negb (truthy valid)
  then let* blockers := st_lift (vget validation "blockers" VNone) in
       st_raise (ValueError ("venue adaptation no longer validates: " +:+ joined blockers))
  else
    let* seconds := show_seconds in
    let* bpm := show_bpm in
    let* result := on_manager (Adaptation.schedule_commit transaction_id (VStr (text_of data "mode" "immediate")) seconds bpm
                                 (VStr (text_of data "cueId" "")) (text_of data "requestedBy" "") VNone (Adaptation.later 2 0 1 e.(drawn))) in
    if committed_tx result then _after_venue_adaptation_commit result else st_ret result.

(** The name of the venue after a rollback. *)
Definition restored_name (active : pyval) (result : pydict) (s : stage) : res string :=
  name ← vget (py_or active (VDict [])) "venueName" VNone;
  if truthy name then Ok (py_str name)
  else
    before ← vget (py_or (dget_none result "rollback") (VDict [])) "restoredVenueName" VNone;
    if truthy before then Ok (py_str before)
    else profile ← Venue.store_load s.(venue_file); Ok (or_venue (dget_none profile "name")).

Definition venue_adaptation_rollback (transaction_id : string) (data : pydict) : act pydict :=
  need_authority "venue adaptation rollback requires current node authority" ;;;
  let* seconds := show_seconds in
  let* result := on_manager (Adaptation.rollback transaction_id seconds (text_of data "requestedBy" "") (expected_of data) e.(drawn)) in
  void_venue_context ;;;
  let* active := active_layer in
  let* s := st_get in
  let* name := st_lift (restored_name active result s) in
  tell_show name "Venue Patch Layer rolled back"
    [("transactionId", VStr transaction_id); ("rollback", dget_none result "rollback"); ("active", active);
     ("physicalOutputsAutoArmed", VBool false)] ;;;
  st_ret result.

Definition venue_adaptation_trigger_cue (data : pydict) : act pydict :=
  need_authority "cue-triggered adaptation requires current node authority" ;;;
  let* seconds := show_seconds in
  let cue := text_of data "cueId" "" in
  let* committed := on_manager (Adaptation.trigger_cue cue seconds (expected_of data) e.(drawn)) in
  let* committed := after_each committed in
  let* active := active_layer in
  st_ret [("cueId", VStr cue); ("committed", VList committed); ("active", active)].

(** ** The loops, one round each *)

Definition adaptation_round : act unit :=
  let* s := st_get in
  let* pending := (if Runtime._has_authority cfg w s.(node) then st_lift (Adaptation.has_pending_bar_commit s.(node).(Runtime.adaptations)) else st_ret false) in
  if negb pending then st_ret tt
  else
    let* v := show_field "transport" "seconds" (VFloat (float_of_Z 0)) in
    let* committed := st_catch type_or_value
                        (let* seconds := st_lift (py_float v) in on_manager (Adaptation.tick seconds e.(drawn)))
                        (fun _ => st_ret []) in
    let* _ := after_each committed in
    st_ret tt.

Definition value_or_runtime (x : exn) : bool := is_value_error x || is_runtime_error x.

(** What the loop remembers of a report. *)
Definition state_key (report : pydict) : pyval :=
  let items k := py_or (dget_none report k) (VList []) in
  VList [dget_none report "transactionId"; dget_none report "patchRevision"; dget_none report "status"; items "blockers"; items "warnings"].

Definition reconciliation_round : act unit :=
  let* active := active_layer in
  match active with
  | VDict _ =>
      let* report := st_catch value_or_runtime (let* r := venue_reconciliation_report [] in st_ret (Some r)) (fun _ => st_ret None) in
      match report with
      | None => st_ret tt
      | Some report =>
          let* s := st_get in
          if py_eq (state_key report) s.(node).(Runtime.mine).(Runtime.last_reconciliation) then st_ret tt
          else
            on_node (change (Runtime.set_reconciliation (state_key report)) ;;;
                     record_event w "reconciliation" ("Venue realization is " +:+ py_str (dget_none report "status"))
                       (map (fun k => (k, dget_none report k))
                          ["transactionId"; "patchRevision"; "status"; "safeToContinue"; "suggestedAction"; "blockers"; "warnings"]))
      end
  | _ => on_node (change (Runtime.set_reconciliation VNone))
  end.
End stage.

(** ** Requests *)

Inductive venue_request :=
  | Propose (data : pydict)
  | Validate (transaction_id : string) (data : pydict)
  | CommitLayer (transaction_id : string) (data : pydict)
  | Rollback (transaction_id : string) (data : pydict)
  | TriggerCue (data : pydict)
  | ProposeRepair (data : pydict)
  | Report (data : pydict)
  | ReportExecution (data : pydict)
  | AdaptationRound
  | ReconciliationRound.

Definition serve_venue (cfg : Runtime.runtime_config) (e : scene) (r : venue_request) : act unit :=
  let drop {A} (m : act A) : act unit := let* _ := m in st_ret tt in
  match r with
  | Propose d => drop (venue_adaptation_propose cfg e d)
  | Validate id d => drop (venue_adaptation_validate e id d)
  | CommitLayer id d => drop (venue_adaptation_commit cfg e id d)
  | Rollback id d => drop (venue_adaptation_rollback cfg e id d)
  | TriggerCue d => drop (venue_adaptation_trigger_cue cfg e d)
  | ProposeRepair d => drop (venue_reconciliation_propose_repair cfg e d)
  | Report d => drop (venue_reconciliation_report e d)
  | ReportExecution d => drop (venue_reconciliation_report_execution e d)
  | AdaptationRound => adaptation_round cfg e
  | ReconciliationRound => reconciliation_round e
  end.

Definition serve_venue_all (cfg : Runtime.runtime_config) (l : list (scene * venue_request)) (s : stage) : stage :=
  fold_left (fun s er => fst (serve_venue cfg (fst er) (snd er) s)) l s.

(** ** What a request leaves alone *)

Section keeps.
Context (cfg : Runtime.runtime_config) (e : scene) (I : Runtime.runtime -> Prop).
#[local] Abbreviation w := (e.(world_of)).
Hypothesis Hshow : forall (x : ShowData.ShowState) n, I n -> I (with_part x n).
Hypothesis Hrepository : forall (x : Persistence.repository) n, I n -> I (with_part x n).
Hypothesis Hpersisted : forall f, keeps I (change (fun m => Runtime.set_persisted (f m) m)).
Hypothesis Hsync : keeps I (change (Runtime.add_call Runtime.SyncState)).

#[local] Hint Extern 1 (keeps I (inside (T:=ShowData.ShowState) _)) => (apply keeps_within, Hshow) : keeps.
#[local] Hint Extern 1 (keeps I (inside (T:=Persistence.repository) _)) => (apply keeps_within, Hrepository) : keeps.

Lemma persist_keeps : keeps I (Runtime._persist_new_events w).
Proof using Hpersisted Hrepository.
  unfold Runtime._persist_new_events. apply keeps_get_bind. intros n Hn. apply at_lift_bind; [done|]. intros l _. apply at_keeps; [done|].
  generalize 0%nat. induction l as [|ev l IH]; intros i; cbn; [apply keeps_ret|]. apply keeps_bind; [auto with keeps|intros _]. apply keeps_lift_bind. intros id _.
  apply keeps_bind; [apply (Hpersisted (fun m => Z.max (Runtime.last_persisted m) id))|intros _; apply IH].
Qed.

Lemma drain_keeps l i : keeps I (Runtime.drain_journal w i l).
Proof using Hrepository.
  revert i. induction l as [|raw l IH]; intros i; cbn; [apply keeps_ret|]. case_match; [apply keeps_ret|]. apply keeps_lift_bind. intros ev _.
  apply keeps_bind; [auto with keeps|intros _; apply IH].
Qed.

Lemma after_keeps : keeps I (Runtime._after_mutation w).
Proof using Hpersisted Hrepository Hsync.
  unfold Runtime._after_mutation, Runtime.save_show, Runtime.sync_native, Runtime._persist_core_journal.
  apply keeps_bind; [apply persist_keeps|intros _]. apply keeps_bind.
  - apply keeps_get_bind. intros n Hn. apply at_lift_bind; [done|]. intros x _. apply at_keeps; [done|]. auto with keeps.
  - intros _. apply keeps_catch; [|intros ?; apply keeps_ret]. apply keeps_bind; [|intros _; apply keeps_when, drain_keeps].
    apply keeps_when. unfold Runtime.call. apply keeps_bind; [exact Hsync|intros _]. case_match; [apply keeps_raise|apply keeps_ret].
Qed.

Lemma record_keeps cat txt payload : keeps I (record_event w cat txt payload).
Proof using Hpersisted Hrepository Hshow. unfold record_event. apply keeps_bind; [auto with keeps|intros _; apply persist_keeps]. Qed.

Lemma tell_node_keeps data cat txt payload :
  keeps I (inside (ShowPatch.patch_system w.(Runtime.show_clock) data None None) ;;; Runtime._after_mutation w ;;; record_event w cat txt payload).
Proof using Hpersisted Hrepository Hshow Hsync.
  apply keeps_bind; [auto with keeps|intros _]. apply keeps_bind; [apply after_keeps|intros _; apply record_keeps].
Qed.
End keeps.

Section stage_keeps.
Context (cfg : Runtime.runtime_config) (e : scene) (I : Runtime.runtime -> Prop).
#[local] Abbreviation w := (e.(world_of)).
Hypothesis Hshow : forall (x : ShowData.ShowState) n, I n -> I (with_part x n).
Hypothesis Hrepository : forall (x : Persistence.repository) n, I n -> I (with_part x n).
Hypothesis Hpersisted : forall f, keeps I (change (fun m => Runtime.set_persisted (f m) m)).
Hypothesis Hsync : keeps I (change (Runtime.add_call Runtime.SyncState)).
Hypothesis Hmanager : forall (x : Adaptation.manager) n, I n -> I (with_part x n).
Hypothesis Hleases : keeps I (inside (AuthorityLeases.clear_context "venue" e.(lease_mono) e.(lease_stamp))).
Hypothesis Hreconciliation : forall v, keeps I (change (Runtime.set_reconciliation v)).

#[local] Abbreviation K := (fun s : stage => I s.(node)).

Lemma on_node_keeps {A} (m : Runtime.op A) : keeps I m -> keeps K (on_node m).
Proof using. intros Hm s Hs. unfold on_node. rewrite inside_eq. apply (Hm s.(node)), Hs. Qed.

Lemma on_manager_keeps {A} (m : Adaptation.op A) : keeps K (on_manager m).
Proof using Hmanager. apply on_node_keeps. by apply keeps_within. Qed.

Lemma realization_keeps {A} (m : st Reconciliation.registry A) : keeps K (inside m).
Proof using. by apply keeps_within. Qed.

#[local] Hint Resolve on_manager_keeps realization_keeps : keeps.

Lemma authority_keeps text : keeps K (need_authority cfg e text).
Proof using. unfold need_authority. keeps_tac. Qed.

Lemma plan_keeps b : keeps K (venue_plan e b).
Proof using. unfold venue_plan. by keeps_tac. Qed.

Lemma field_keeps s f d : keeps K (show_field e s f d).
Proof using. unfold show_field. by keeps_tac. Qed.

Lemma readings_keep : keeps K (show_seconds e) /\ keeps K (show_bpm e) /\ keeps K (show_venue e) /\ keeps K active_layer.
Proof using.
  unfold show_seconds, show_bpm, show_venue, active_layer. split_and!; [apply keeps_bind; [apply field_keeps|intros v; keeps_tac]..|]. keeps_tac.
Qed.

Lemma report_keeps d : keeps K (venue_reconciliation_report e d).
Proof using.
  unfold venue_reconciliation_report. apply keeps_bind; [apply readings_keep|intros active]. apply keeps_get_bind. intros s Hs. apply at_keeps; [done|].
  case_match; try apply keeps_lift. apply keeps_bind; [apply plan_keeps|intros plan]. apply keeps_lift_bind. intros patch _. apply keeps_lift.
Qed.

Lemma void_keeps : keeps K (void_venue_context e).
Proof using Hleases Hreconciliation.
  unfold void_venue_context. apply keeps_bind; [apply realization_keeps|intros _]. apply on_node_keeps, keeps_bind; [exact Hleases|intros _; apply Hreconciliation].
Qed.

Lemma tell_keeps name text payload : keeps K (tell_show e name text payload).
Proof using Hpersisted Hrepository Hshow Hsync. apply on_node_keeps. by apply tell_node_keeps. Qed.

Lemma after_commit_keeps tx : keeps K (_after_venue_adaptation_commit e tx).
Proof using Hshow Hrepository Hpersisted Hsync Hmanager Hleases Hreconciliation.
  unfold _after_venue_adaptation_commit, enter_receipt. apply keeps_bind; [repeat case_match; try apply keeps_ret; apply keeps_lift_bind; intros ev _; apply on_manager_keeps|].
  intros tx'. apply keeps_bind; [apply void_keeps|intros _]. cbv zeta. apply keeps_bind; [apply tell_keeps|intros _; apply keeps_ret].
Qed.

Lemma after_each_keeps l : keeps K (after_each e l).
Proof using Hshow Hrepository Hpersisted Hsync Hmanager Hleases Hreconciliation.
  induction l as [|tx l IH]; cbn; [apply keeps_ret|]. apply keeps_bind; [apply after_commit_keeps|intros a]. apply keeps_bind; [exact IH|intros b; apply keeps_ret].
Qed.

Lemma propose_keeps b plan d : keeps K (propose_plan e b plan d).
Proof using Hmanager. unfold propose_plan. apply keeps_bind; [apply readings_keep|intros v; apply on_manager_keeps]. Qed.

Lemma validate_keeps id d : keeps K (venue_adaptation_validate e id d).
Proof using Hmanager.
  unfold venue_adaptation_validate, plan_for. apply keeps_bind; [|intros plan; apply on_manager_keeps].
  apply keeps_get_bind. intros s Hs. apply at_lift_bind; [done|]. intros tx _. apply at_keeps; [done|apply plan_keeps].
Qed.

(** A request keeps what each of its steps keeps. *)
Lemma serve_keeps r : keeps K (serve_venue cfg e r).
Proof using Hshow Hrepository Hpersisted Hsync Hmanager Hleases Hreconciliation.
  destruct readings_keep as (Hsec & Hbpm & Hven & Hact).
  destruct r; cbn [serve_venue]; try (apply keeps_bind; [|intros ?; apply keeps_ret]).
  - unfold venue_adaptation_propose. apply keeps_bind; [apply authority_keeps|intros _]. apply keeps_bind; [apply plan_keeps|intros p; apply propose_keeps].
  - apply validate_keeps.
  - unfold venue_adaptation_commit. apply keeps_bind; [apply authority_keeps|intros _]. apply keeps_bind; [apply validate_keeps|intros tx]. cbv zeta.
    apply keeps_lift_bind. intros v _. destruct (negb _); [apply keeps_lift_bind; intros b _; apply keeps_raise|].
    apply keeps_bind; [exact Hsec|intros x]. apply keeps_bind; [exact Hbpm|intros y]. apply keeps_bind; [apply on_manager_keeps|intros result].
    case_match; [apply after_commit_keeps|apply keeps_ret].
  - unfold venue_adaptation_rollback. apply keeps_bind; [apply authority_keeps|intros _]. apply keeps_bind; [exact Hsec|intros x].
    apply keeps_bind; [apply on_manager_keeps|intros result]. apply keeps_bind; [apply void_keeps|intros _]. apply keeps_bind; [exact Hact|intros active].
    apply keeps_get_bind. intros s Hs. apply at_lift_bind; [done|]. intros name _. apply at_keeps; [done|]. apply keeps_bind; [apply tell_keeps|intros _; apply keeps_ret].
  - unfold venue_adaptation_trigger_cue. apply keeps_bind; [apply authority_keeps|intros _]. apply keeps_bind; [exact Hsec|intros x]. cbv zeta.
    apply keeps_bind; [apply on_manager_keeps|intros l]. apply keeps_bind; [apply after_each_keeps|intros l']. apply keeps_bind; [exact Hact|intros a; apply keeps_ret].
  - unfold venue_reconciliation_propose_repair. apply keeps_bind; [apply authority_keeps|intros _]. cbv zeta. apply keeps_bind; [apply report_keeps|intros rep].
    case_match; [apply keeps_raise|]. apply keeps_bind; [apply plan_keeps|intros p]. case_match; [apply keeps_raise|apply propose_keeps].
  - apply report_keeps.
  - unfold venue_reconciliation_report_execution. apply keeps_bind; [exact Hact|intros active]. case_match; try apply keeps_raise. cbv zeta.
    apply keeps_lift_bind. intros b _. case_match; [apply keeps_raise|]. apply keeps_bind; [apply realization_keeps|intros rep].
    apply keeps_bind; [apply report_keeps|intros rec; apply keeps_ret].
  - unfold adaptation_round. apply keeps_get_bind. intros s Hs. apply at_bind; [apply at_keeps; [done|]; case_match; auto with keeps|]. intros b. case_match; [apply keeps_ret|].
    apply keeps_bind; [apply field_keeps|intros v]. apply keeps_bind; [apply keeps_catch; [apply keeps_lift_bind; intros x _; apply on_manager_keeps|intros ?; apply keeps_ret]|intros l].
    apply keeps_bind; [apply after_each_keeps|intros l'; apply keeps_ret].
  - unfold reconciliation_round. apply keeps_bind; [exact Hact|intros active]. case_match; try (apply on_node_keeps, Hreconciliation).
    apply keeps_bind; [apply keeps_catch; [apply keeps_bind; [apply report_keeps|intros r; apply keeps_ret]|intros ?; apply keeps_ret]|intros [rep|]]; [|apply keeps_ret].
    apply keeps_get_bind. intros s Hs. apply at_keeps; [done|]. case_match; [apply keeps_ret|]. apply on_node_keeps, keeps_bind; [apply Hreconciliation|intros _].
    by apply record_keeps.
Qed.
End stage_keeps.

(** ** No layer arms anything *)

(** What a node is after venue requests, seen from before: its role, its lease, its
    execution evidence and its armed outputs are the same, the engine was only
    asked to follow the show, and every operator lease that is active was there. *)
Record unarmed_since (n0 n : Runtime.runtime) : Prop := {
  us_role : n.(Runtime.replication) = n0.(Runtime.replication);
  us_witness : n.(Runtime.witness) = n0.(Runtime.witness);
  us_execution : n.(Runtime.execution) = n0.(Runtime.execution);
  us_lighting : n.(Runtime.mine).(Runtime.lighting_armed) = n0.(Runtime.mine).(Runtime.lighting_armed);
  us_calls : exists calls, n.(Runtime.mine).(Runtime.native_log) = calls ++ n0.(Runtime.mine).(Runtime.native_log) /\ Forall (fun c => c = Runtime.SyncState) calls;
  us_leases : forall t i x, n.(Runtime.leases) !! i = Some x -> AuthorityLeases._is_active t (snd x) = true -> n0.(Runtime.leases) !! i = Some x;
}.

Lemma unarmed_refl n : unarmed_since n n.
Proof. split; try done. by exists []. Qed.

Lemma serve_unarmed cfg e r n0 : keeps (fun s : stage => unarmed_since n0 s.(node)) (serve_venue cfg e r).
Proof.
  apply (serve_keeps cfg e (unarmed_since n0)); try (intros x n []; by split).
  - intros n [? ? ? ? (calls & Hc & Hall) ?]. split; try done. exists (Runtime.SyncState :: calls). cbn. split; [by rewrite Hc|by constructor].
  - intros n [? ? ? ? ? Hl]. rewrite inside_eq. split; try done. intros t i x Hx Ha. apply (Hl t); [|done]. revert Hx.
    unfold AuthorityLeases.clear_context. cbv zeta. case_match; [done|]. cbn. intros (y & Hy & ->)%AuthorityLeases.revoke_where_lookup.
    destruct (_ && _); [|done]. cbn [snd] in Ha. by rewrite AuthorityLeases.revoked_inactive in Ha.
Qed.

(** C32: changing the venue arms nothing. Whatever venue requests a node serves
    (proposals, commits at once or at a bar or a cue, rollbacks, repairs, reports,
    and the rounds of its loops, failing ones included), its role, its witness
    lease and its execution evidence stay what they were, the lighting output is
    armed exactly if it was, the native engine was asked for nothing but to follow
    the show, and no operator holds a lease that was not held before. *)
Theorem venue_changes_arm_nothing cfg l s : unarmed_since s.(node) (serve_venue_all cfg l s).(node).
Proof.
  generalize (unarmed_refl s.(node)). generalize s.(node) at 1 3. intros n0. revert s. induction l as [|[e r] l IH]; intros s Hs; [done|].
  cbn [serve_venue_all fold_left]. apply IH. by apply serve_unarmed.
Qed.

(** ** The venue's context ends with its layer *)

#[local] Abbreviation manager_of s := (s.(node).(Runtime.adaptations)).

(** Nothing is left of the context of the venue: no execution evidence, no active
    lease of an operator for it, and the next report counts as new. *)
Definition voided (t : float) (s : stage) : Prop :=
  s.(realization) = [] /\ s.(node).(Runtime.mine).(Runtime.last_reconciliation) = VNone /\
  forall i x, s.(node).(Runtime.leases) !! i = Some x -> (snd x).(AuthorityLeases.context) = "venue" -> AuthorityLeases._is_active t (snd x) = false.

Lemma clear_venue mono stamp l : let test := fun x => String.eqb x.(AuthorityLeases.context) "venue" in
  AuthorityLeases.clear_context "venue" mono stamp l =
    (AuthorityLeases.revoke_where test (fun at_ => AuthorityLeases.Revoked at_ (Some (Some "context-change"))) mono stamp l,
     Ok (AuthorityLeases.count_where test mono l)).
Proof. reflexivity. Qed.

(** Attaching evidence, proposing and validating leave the layer. *)
Lemma stored_active (k : string) (tx : pydict) b (x : pydict) a :
  keeps (fun m => m.(Adaptation.active) = a) (let* _ := Adaptation.put_transaction k tx in let* _ := Adaptation.touch_persist b in st_ret x).
Proof.
  unfold Adaptation.put_transaction, Adaptation.touch_persist, Adaptation._touch, Adaptation._persist. apply keeps_bind; [by apply keeps_modify|intros _].
  apply keeps_bind; [|intros _; apply keeps_ret]. apply keeps_bind; [by apply keeps_modify|intros _]. apply keeps_get_bind. intros m Hm. apply at_keeps; [done|].
  destruct b; [apply keeps_raise|]. by apply keeps_modify.
Qed.

Lemma attach_active key evidence w a : keeps (fun m => m.(Adaptation.active) = a) (Adaptation.attach_receipt_evidence key evidence w).
Proof.
  unfold Adaptation.attach_receipt_evidence. apply keeps_get_bind. intros m Hm. apply at_lift_bind; [done|]. intros tx _. apply at_keeps; [done|].
  case_match; [|apply keeps_raise]. case_match; [apply keeps_raise|]. case_match; [apply keeps_ret|]. apply stored_active.
Qed.

Lemma propose_active plan reqs b venue x w a : keeps (fun m => m.(Adaptation.active) = a) (Adaptation.propose plan reqs b venue x w).
Proof.
  unfold Adaptation.propose. apply keeps_lift_bind. intros tx _. cbv zeta. apply keeps_bind.
  - unfold Adaptation._check_revision. case_match; try apply keeps_ret; (apply keeps_lift_bind; intros ? _; apply keeps_get_bind; intros ? ?; apply at_keeps; [done|]; case_match);
      first [apply keeps_ret|apply keeps_raise].
  - intros _. apply keeps_get_bind. intros m Hm. apply at_lift_bind; [done|]. intros changes _. apply at_keeps; [done|]. apply stored_active.
Qed.

Section voids.
Context (cfg : Runtime.runtime_config) (e : scene) (t : float) (clock : forall i, fle (e.(lease_mono) i) t = true).

Lemma void_voids s : voided t (fst (void_venue_context e s)) /\ snd (void_venue_context e s) = Ok tt.
Proof using clock.
  unfold void_venue_context, st_bind. rewrite inside_eq. cbn [Reconciliation.clear st_put fst snd]. unfold on_node. rewrite inside_eq.
  unfold st_bind. rewrite inside_eq, clear_venue. cbn [fst snd change st_modify]. split; [|done]. split; [done|]. split; [done|].
  intros i x Hx Hc. apply AuthorityLeases.revoke_where_lookup in Hx as (y & Hy & ->). destruct (_ && _) eqn:E; [by apply AuthorityLeases.revoked_inactive|].
  apply andb_false_iff in E as [E|E]; [by rewrite Hc, String.eqb_refl in E|].
  by eapply AuthorityLeases.inactive_stays.
Qed.

Lemma tell_voided name text payload : keeps (voided t) (tell_show e name text payload).
Proof using.
  intros s (Hr & Hm & Hl). unfold tell_show, on_node. rewrite inside_eq. cbn [fst]. change (part s) with s.(node).
  set (I := fun n : Runtime.runtime => n.(Runtime.mine).(Runtime.last_reconciliation) = VNone /\
    forall i x, n.(Runtime.leases) !! i = Some x -> (snd x).(AuthorityLeases.context) = "venue" -> AuthorityLeases._is_active t (snd x) = false).
  split; [done|]. assert (I s.(node)) as HI by done. revert HI. generalize s.(node). intros n Hn. cbn [node with_part stage_node].
  apply (tell_node_keeps e I); [by intros x n' []..| |exact Hn]. by intros n' [].
Qed.

Lemma after_commit_voids tx s s' tx' : _after_venue_adaptation_commit e tx s = (s', Ok tx') -> voided t s'.
Proof using clock.
  unfold _after_venue_adaptation_commit. unfold st_bind at 1. destruct (enter_receipt e tx s) as [s1 [tx1|x]]; [|done].
  unfold st_bind at 1. destruct (void_voids s1) as [Hv Ho]. destruct (void_venue_context e s1) as [s2 o]. cbn [fst snd] in *. rewrite Ho. cbv zeta.
  unfold st_bind. match goal with |- context [tell_show e ?a ?b ?c s2] => pose proof (tell_voided a b c s2 Hv) as Ht; destruct (tell_show e a b c s2) as [s3 [[]|x]] end; [|done].
  by intros [= <- _].
Qed.

(** The receipt of the layer that is active is in the public record: the evidence of
    entering that very receipt, of the commit of the layer's transaction to the
    layer's revision, is stored beside it. *)
Definition receipted (s : stage) : Prop := exists layer key tx receipt evidence,
  (manager_of s).(Adaptation.active) = VDict layer /\ dget layer "transactionId" = Some (VStr key) /\
  Adaptation.find_transaction (manager_of s) key = Ok tx /\
  e.(publish) "venue-adaptation" receipt = Ok evidence /\ dget tx "receipt" = Some (VDict (dset receipt "publicRecord" evidence)) /\
  dget receipt "publicRecord" = None /\ dget receipt "transactionId" = Some (VStr key) /\ dget receipt "newPatchRevision" = dget layer "patchRevision".

(** Why a layer can be active whose venue's context was not ended: the request failed
    because the state file could not be written, or because the public record refused
    the receipt of the transaction it had just committed. *)
Definition excused {A} (x : res A) (s : stage) : Prop := exists err, x = Raise err /\
  (AdaptationUndo.write_failed e.(drawn) err \/ AdaptationUndo.write_failed e.(attached) err \/
   exists key tx receipt, AdaptationUndo.fresh_commit (manager_of s) key tx /\ dget tx "receipt" = Some (VDict receipt) /\
     e.(publish) "venue-adaptation" receipt = Raise err).

(** The layer is that of [s], or the context of the venue is ended and what [P] says
    holds, or the request failed for one of those reasons. *)
Definition ended (P : stage -> Prop) {A} (s : stage) (x : res A) (s' : stage) : Prop :=
  (manager_of s').(Adaptation.active) = (manager_of s).(Adaptation.active) \/ (voided t s' /\ P s') \/ excused x s'.

Lemma void_manager P : keeps (fun s : stage => P (manager_of s)) (void_venue_context e).
Proof using.
  apply (void_keeps e (fun n => P n.(Runtime.adaptations))); [|by intros v n].
  intros n Hn. rewrite inside_eq. exact Hn.
Qed.

Lemma tell_manager P name text payload : keeps (fun s : stage => P (manager_of s)) (tell_show e name text payload).
Proof using. apply (tell_keeps e (fun n => P n.(Runtime.adaptations))); [by intros x n|by intros x n|by intros f n|by intros n]. Qed.

Lemma on_manager_wp {A} (m : Adaptation.op A) (Q : res A -> stage -> Prop) s :
  wp m (fun x mg => forall s', manager_of s' = mg -> Q x s') (manager_of s) -> wp (on_manager m) Q s.
Proof using. unfold wp, on_manager, on_node. rewrite !inside_eq. intros H. by apply H. Qed.

Lemma after_commit_active tx a : keeps (fun s : stage => (manager_of s).(Adaptation.active) = a) (_after_venue_adaptation_commit e tx).
Proof using.
  unfold _after_venue_adaptation_commit. apply keeps_bind.
  - unfold enter_receipt. repeat case_match; try apply keeps_ret; apply keeps_lift_bind; intros ev _.
    all: intros s0 Hs0; apply (on_manager_wp _ (fun _ s' => (manager_of s').(Adaptation.active) = a)); unfold wp; intros s' ->; by apply attach_active.
  - intros tx'. apply keeps_bind; [apply (void_manager (fun mg => mg.(Adaptation.active) = a))|intros _]. cbv zeta.
    apply keeps_bind; [apply (tell_manager (fun mg => mg.(Adaptation.active) = a))|intros _; apply keeps_ret].
Qed.

(** After a fresh commit the context is ended and the receipt entered, or the request fails for it. *)
Lemma after_commit_ended key tx s : AdaptationUndo.fresh_commit (manager_of s) key tx ->
  wp (_after_venue_adaptation_commit e tx) (fun x s' => (voided t s' /\ receipted s') \/ excused x s') s.
Proof using clock.
  intros Hc. pose proof Hc as (Hf & Hs & Hid & layer & receipt & Ha & Hl & Hr & Hp & Hrid & Hrev).
  unfold _after_venue_adaptation_commit, enter_receipt, dget_none at 1, dget_or. rewrite Hr. unfold dget_none at 1, dget_or at 1. rewrite Hp. rewrite Hid.
  cbn [py_str]. eapply (wp_step _ _ (fun x s1 => match x with Ok _ => receipted s1 | Raise err => excused (Raise err : res pydict) s1 end)).
  - destruct (publish e "venue-adaptation" receipt) as [evidence|err] eqn:Ep.
    2: { exists err. split; [done|]. right. right. by exists key, tx, receipt. }
    apply wp_lift with (a := evidence); [done|]. apply on_manager_wp. eapply wp_mono; [by eapply AdaptationUndo.attach_result|].
    intros [tx1|err] mg [Ha1 H1] s1 E1; cbn beta in *.
    + destruct H1 as (tx' & receipt' & Hf' & Hr' & Hrec). rewrite Hr in Hr'. injection Hr' as <-. exists layer, key, tx', receipt, evidence.
      rewrite E1, Ha1. by split_and!.
    + exists err. split; [done|]. right. by left.
  - intros tx1 s1 H1. apply wp_bind. unfold wp at 1. destruct (void_voids s1) as [Hv Ho].
    pose proof (void_manager (fun mg => mg = manager_of s1) s1 eq_refl) as Hm. destruct (void_venue_context e s1) as [s2 o]. cbn [fst snd] in *. rewrite Ho. cbv zeta.
    apply wp_bind. unfold wp at 1. match goal with |- context [tell_show e ?a ?b ?c s2] =>
      pose proof (tell_voided a b c s2 Hv) as Ht; pose proof (tell_manager (fun mg => mg = manager_of s1) a b c s2 Hm) as Hm'; destruct (tell_show e a b c s2) as [s3 o'] end.
    cbn [fst snd] in *. assert (receipted s3) as H3 by (destruct H1 as (l & k & x & r & ev & H1); exists l, k, x, r, ev; by rewrite Hm').
    destruct o' as [u|err]; [apply wp_ret|]; by left.
  - intros err s1 H1. by right.
Qed.

Lemma after_each_voids l s s' l' : after_each e l s = (s', Ok l') -> l' <> [] -> voided t s'.
Proof using clock.
  revert s s' l'. induction l as [|tx l IH]; intros s s' l'; cbn; [by intros [= _ <-]|]. unfold st_bind at 1.
  destruct (_after_venue_adaptation_commit _ _ s) as [s1 [a|x]] eqn:Ea; [|done]. unfold st_bind. destruct (after_each e l s1) as [s2 [b|x]] eqn:Eb; [|done]. intros [= <- <-] _.
  apply after_commit_voids in Ea. destruct l as [|tx2 l]; [by injection Eb as <- _|]. apply (IH _ _ _ Eb). revert Eb. cbn. unfold st_bind.
  destruct (_after_venue_adaptation_commit _ _ s1) as [? [?|?]]; [|done]. destruct (after_each e l _) as [? [?|?]]; [|done]. by intros [= _ <-].
Qed.

(** A step that leaves the transactions and the layer: what follows is judged from the same manager. *)
Lemma wp_reading {A B} (m : act A) (k : A -> act B) Q s mg : manager_of s = mg -> keeps (fun s1 : stage => manager_of s1 = mg) m ->
  (forall a s1, manager_of s1 = mg -> wp (k a) Q s1) -> (forall err s1, manager_of s1 = mg -> Q (Raise err) s1) -> wp (st_bind m k) Q s.
Proof using.
  intros Hs Hm Hk Hr. apply wp_bind. eapply wp_mono; [by apply (keeps_wp _ m s Hm)|]. intros [a|err] s1 H1; [by apply Hk|by apply Hr].
Qed.

Lemma reading_keeps mg : let K := fun s1 : stage => manager_of s1 = mg in
  (forall text, keeps K (need_authority cfg e text)) /\ (forall b, keeps K (venue_plan e b)) /\ (forall a b v, keeps K (show_field e a b v)) /\
  keeps K (show_seconds e) /\ keeps K (show_bpm e) /\ keeps K active_layer /\ keeps K (void_venue_context e) /\ (forall n x p, keeps K (tell_show e n x p)).
Proof using.
  intros K. pose proof (readings_keep e (fun n => n.(Runtime.adaptations) = mg)) as (H1 & H2 & _ & H4). split_and!; try done.
  - intros text. apply (authority_keeps cfg e (fun n => n.(Runtime.adaptations) = mg)).
  - intros n x p. exact (tell_manager (fun m => m = mg) n x p).
Qed.

Lemma plan_for_reading mg id : keeps (fun s1 : stage => manager_of s1 = mg) (plan_for e id).
Proof using.
  unfold plan_for. apply keeps_get_bind. intros s Hs. apply at_lift_bind; [done|]. intros tx _. apply at_keeps; [done|].
  by apply (plan_keeps e (fun n => n.(Runtime.adaptations) = mg)).
Qed.

Lemma ended_same P {A} s (x : res A) s' : (manager_of s').(Adaptation.active) = (manager_of s).(Adaptation.active) -> ended P s x s'.
Proof using. by left. Qed.

Lemma ended_drop P {A} (m : act A) s0 s : wp m (ended P s0) s -> wp (let* _ := m in st_ret tt) (ended P s0) s.
Proof using.
  intros H. apply wp_bind. eapply wp_mono; [exact H|]. intros [a|err] s' Hs'; [apply wp_ret|].
  - destruct Hs' as [?|[?|(? & ? & _)]]; [by left|by right; left|done].
  - destruct Hs' as [?|[?|(? & [= <-] & Hx)]]; [by left|by right; left|right; right; by eexists].
Qed.

(** What [commit_each] returned, taken up: none was due, or the context ends with the one that was. *)
Lemma after_each_ended s0 s mg0 x : manager_of s0 = mg0 -> AdaptationUndo.due_returned mg0 e.(drawn) x (manager_of s) ->
  match x with
  | Ok l => wp (after_each e l) (ended receipted s0) s
  | Raise err => ended receipted s0 (Raise err : res unit) s
  end.
Proof using clock.
  intros H0 [[Ha Hl]|H]; destruct x as [l|err].
  - rewrite (Hl l eq_refl). apply wp_ret. left. by rewrite H0.
  - left. by rewrite H0.
  - destruct H as (key & tx & -> & Hc). cbn [after_each as_dict]. apply wp_bind. eapply wp_mono; [by eapply after_commit_ended|].
    intros [tx'|err] s' [Hv|(err' & Hx & He)].
    + apply wp_ret. right. by left.
    + done.
    + right. by left.
    + injection Hx as <-. right. right. by exists err.
  - right. right. exists err. split; [done|by left].
Qed.

Lemma validate_keeps_inv id data s stack : AdaptationUndo.inv (manager_of s) stack ->
  wp (venue_adaptation_validate e id data) (fun x s' => (manager_of s').(Adaptation.active) = (manager_of s).(Adaptation.active) /\
    match x with Ok tx => AdaptationUndo.inv (manager_of s') stack \/ AdaptationUndo.found_invalid tx | Raise _ => True end) s.
Proof using.
  intros H. unfold venue_adaptation_validate. apply wp_reading with (mg := manager_of s); [done|apply plan_for_reading| |by intros err s1 ->].
  intros plan s1 E1. apply on_manager_wp. rewrite E1. eapply wp_mono; [by eapply AdaptationUndo.validate_result|]. by intros x mg Hx s2 ->.
Qed.

Lemma commit_ends id data s stack : AdaptationUndo.inv (manager_of s) stack -> wp (venue_adaptation_commit cfg e id data) (ended receipted s) s.
Proof using clock.
  intros H. destruct (reading_keeps (manager_of s)) as (Hauth & _). unfold venue_adaptation_commit.
  apply wp_reading with (mg := manager_of s); [done|apply Hauth| |by intros err s1 E; left; rewrite E]. intros _ s1 E1. rewrite <- E1 in H.
  eapply wp_step; [by eapply validate_keeps_inv| |]; rewrite ?E1.
  2: { intros err s2 [E2 _]. by left. }
  intros tx s2 [E2 Htx]. cbv zeta. apply wp_lift_any; [|by left]. intros valid Hvalid. destruct (negb (truthy valid)) eqn:Ev; [apply wp_lift_any; by left|].
  destruct Htx as [Hi|(d & Hd & Hv)].
  2: { exfalso. revert Hvalid. unfold dget_none, dget_or. rewrite Hd. unfold py_or. destruct d as [|kv d]; [done|]. cbn [truthy vget]. unfold dget_or. rewrite Hv.
       intros [= <-]. done. }
  destruct (reading_keeps (manager_of s2)) as (_ & _ & _ & Hsec & Hbpm & _).
  apply wp_reading with (mg := manager_of s2); [done|exact Hsec| |by intros err s3 E; left; rewrite E]. intros seconds s3 E3.
  apply wp_reading with (mg := manager_of s2); [done|exact Hbpm| |by intros err s4 E; left; rewrite E]. intros bpm s4 E4.
  eapply wp_step.
  - apply on_manager_wp. rewrite E4. eapply wp_mono; [by eapply AdaptationUndo.schedule_result|]. intros x mg Hx s5 E5. revert Hx. rewrite <- E5. intros Hx. exact Hx.
  - intros result s5 Hr. cbn beta in Hr. destruct Hr as [Ha|Hc].
    + destruct (committed_tx result).
      * eapply wp_mono; [by apply (keeps_wp _ _ _ (after_commit_active result _) Ha)|]. intros x s6 H6. left. by rewrite H6.
      * apply wp_ret. left. by rewrite Ha.
    + pose proof Hc as (_ & Hs & _). unfold AdaptationUndo.commit_returned in Hc. change (committed_tx result) with (Adaptation.status_is result "committed"). rewrite Hs.
      eapply wp_mono; [by eapply after_commit_ended|]. intros x s6 H6. by right.
  - intros err s5 [Ha|Hc]; [left; by rewrite Ha|]. right. right. exists err. split; [done|]. left. by eapply AdaptationUndo.write_failed_later.
Qed.

Lemma rollback_ends id data s stack : AdaptationUndo.inv (manager_of s) stack -> wp (venue_adaptation_rollback cfg e id data) (ended (fun _ => True) s) s.
Proof using clock.
  intros H. destruct (reading_keeps (manager_of s)) as (Hauth & _ & _ & Hsec & _). unfold venue_adaptation_rollback.
  apply wp_reading with (mg := manager_of s); [done|apply Hauth| |by intros err s1 E; left; rewrite E]. intros _ s1 E1.
  apply wp_reading with (mg := manager_of s); [done|exact Hsec| |by intros err s2 E; left; rewrite E]. intros seconds s2 E2.
  eapply wp_step.
  - apply on_manager_wp. rewrite E2. eapply wp_mono; [by eapply AdaptationUndo.rollback_result|]. intros x mg Hx s3 E3. revert Hx. rewrite <- E3. intros Hx. exact Hx.
  - intros result s3 _. apply wp_bind. unfold wp at 1. destruct (void_voids s3) as [Hv Ho]. destruct (void_venue_context e s3) as [s4 o]. cbn [fst snd] in *. rewrite Ho.
    eapply wp_read; [unfold active_layer; rewrite st_get_bind; reflexivity| |intros; right; by left]. intros active _. apply wp_get.
    apply wp_lift_any; [|intros; right; by left]. intros name _. apply wp_bind. eapply wp_mono; [by apply (keeps_wp _ _ _ (tell_voided _ _ _) Hv)|].
    intros [u|err] s5 H5; [apply wp_ret|]; right; by left.
  - intros err s3 [Ha|Hc]; [by left|]. right. right. exists err. split; [done|]. by left.
Qed.

Lemma cue_ends data s stack : AdaptationUndo.inv (manager_of s) stack -> wp (venue_adaptation_trigger_cue cfg e data) (ended receipted s) s.
Proof using clock.
  intros H. destruct (reading_keeps (manager_of s)) as (Hauth & _ & _ & Hsec & _). unfold venue_adaptation_trigger_cue.
  apply wp_reading with (mg := manager_of s); [done|apply Hauth| |by intros err s1 E; left; rewrite E]. intros _ s1 E1.
  apply wp_reading with (mg := manager_of s); [done|exact Hsec| |by intros err s2 E; left; rewrite E]. intros seconds s2 E2. cbv zeta.
  eapply wp_step.
  - apply on_manager_wp. rewrite E2. eapply wp_mono; [by eapply AdaptationUndo.cue_result|]. intros x mg Hx s3 E3. revert Hx. rewrite <- E3. intros Hx. exact Hx.
  - intros l s3 Hl. apply (after_each_ended s) in Hl; [|done]. apply wp_bind. eapply wp_mono; [exact Hl|]. intros [l'|err] s4 H4.
    + eapply wp_read; [unfold active_layer; rewrite st_get_bind; reflexivity| |].
      * intros active _. apply wp_ret. destruct H4 as [?|[?|(? & ? & _)]]; [by left|by right; left|done].
      * intros err. destruct H4 as [?|[?|(? & ? & _)]]; [by left|by right; left|done].
    + destruct H4 as [?|[?|(? & [= <-] & Hx)]]; [by left|by right; left|right; right; by eexists].
  - intros err s3 Hl. apply (after_each_ended s) in Hl; [|done]. destruct Hl as [?|[?|(? & [= <-] & Hx)]]; [by left|by right; left|right; right; by eexists].
Qed.

Lemma round_ends s stack : AdaptationUndo.inv (manager_of s) stack -> wp (adaptation_round cfg e) (ended receipted s) s.
Proof using clock.
  intros H. destruct (reading_keeps (manager_of s)) as (_ & _ & Hfield & _). unfold adaptation_round. apply wp_get.
  eapply (wp_read _ (if Runtime._has_authority cfg e.(world_of) s.(node) then Adaptation.has_pending_bar_commit s.(node).(Runtime.adaptations) else Ok false)); [by case_match| |by left].
  intros pending _. destruct (negb pending); [apply wp_ret; by left|].
  apply wp_reading with (mg := manager_of s); [done|apply Hfield| |by intros err s1 E; left; rewrite E]. intros v s1 E1.
  eapply (wp_step _ _ (fun x s' => AdaptationUndo.due_returned (manager_of s) e.(drawn) x (manager_of s'))).
  - unfold wp, st_catch. match goal with |- context [st_bind ?a ?b s1] => assert (wp (st_bind a b) (fun x s' => AdaptationUndo.due_returned (manager_of s) e.(drawn) x (manager_of s')) s1) as Ht end.
    { apply wp_lift_any; [|by left; rewrite E1]. intros seconds _. apply on_manager_wp. rewrite E1.
      eapply wp_mono; [by eapply AdaptationUndo.tick_result|]. by intros x mg Hx s2 ->. }
    unfold wp in Ht. destruct (st_bind _ _ s1) as [s2 [l|err]]; cbn [fst snd] in *; [done|]. destruct (type_or_value err) eqn:Ec; [|done].
    cbn [st_ret fst snd]. destruct Ht as [[Ha _]|[-> _]]; [|done]. left. split; [done|]. by intros l [= <-].
  - intros l s2 Hl. apply (after_each_ended s) in Hl; [|done]. by apply ended_drop.
  - intros err s2 Hl. by apply (after_each_ended s) in Hl.
Qed.

(** The requests that do not change the layer. *)
Definition other_request (r : venue_request) : bool :=
  match r with CommitLayer _ _ | Rollback _ _ | TriggerCue _ | AdaptationRound => false | _ => true end.

Lemma propose_plan_active b plan d a : keeps (fun s : stage => (manager_of s).(Adaptation.active) = a) (propose_plan e b plan d).
Proof using.
  unfold propose_plan. apply keeps_bind; [apply (readings_keep e (fun n => n.(Runtime.adaptations).(Adaptation.active) = a))|intros v].
  apply (on_node_keeps (fun n => n.(Runtime.adaptations).(Adaptation.active) = a)). intros n Hn. rewrite inside_eq. by apply propose_active.
Qed.

Lemma other_keeps r a : other_request r = true -> (forall id d, r <> Validate id d) ->
  keeps (fun s : stage => (manager_of s).(Adaptation.active) = a) (serve_venue cfg e r).
Proof using.
  intros Hr Hv. set (I := fun n : Runtime.runtime => n.(Runtime.adaptations).(Adaptation.active) = a). set (K := fun s : stage => I s.(node)). change (keeps K (serve_venue cfg e r)).
  pose proof (readings_keep e I) as (_ & _ & _ & Hact). pose proof (report_keeps e I) as Hreport. pose proof (plan_keeps e I) as Hplan. pose proof (authority_keeps cfg e I) as Hauth.
  destruct r as [d|id d|id d|id d|d|d|d|d| |]; try done; cbn [serve_venue]; try (apply keeps_bind; [|intros ?; apply keeps_ret]).
  - unfold venue_adaptation_propose. apply keeps_bind; [apply Hauth|intros _]. apply keeps_bind; [apply Hplan|intros p; apply propose_plan_active].
  - by destruct (Hv id d).
  - unfold venue_reconciliation_propose_repair. apply keeps_bind; [apply Hauth|intros _]. cbv zeta. apply keeps_bind; [apply Hreport|intros rep].
    case_match; [apply keeps_raise|]. apply keeps_bind; [apply Hplan|intros p]. case_match; [apply keeps_raise|apply propose_plan_active].
  - apply Hreport.
  - unfold venue_reconciliation_report_execution. apply keeps_bind; [exact Hact|intros active]. case_match; try apply keeps_raise. cbv zeta.
    apply keeps_lift_bind. intros b _. case_match; [apply keeps_raise|]. apply keeps_bind; [apply (realization_keeps I)|intros rep].
    apply keeps_bind; [apply Hreport|intros rec; apply keeps_ret].
  - unfold reconciliation_round. assert (forall v, keeps I (change (Runtime.set_reconciliation v))) as Hset by by intros v n.
    apply keeps_bind; [exact Hact|intros active]. case_match; try (apply (on_node_keeps I), Hset).
    apply keeps_bind; [apply keeps_catch; [apply keeps_bind; [apply Hreport|intros r; apply keeps_ret]|intros ?; apply keeps_ret]|intros [rep|]]; [|apply keeps_ret].
    apply keeps_get_bind. intros s Hs. apply at_keeps; [done|]. case_match; [apply keeps_ret|]. apply (on_node_keeps I), keeps_bind; [apply Hset|intros _].
    apply (record_keeps e I); [by intros x n|by intros x n|by intros f n].
Qed.

(** What serving the request is to show of it. *)
Lemma served_ends s stack r : AdaptationUndo.inv (manager_of s) stack ->
  let '(s', x) := serve_venue cfg e r s in
     match r with
     | CommitLayer _ _ | TriggerCue _ | AdaptationRound => ended receipted s x s'
     | Rollback _ _ => ended (fun _ => True) s x s'
     | _ => (manager_of s').(Adaptation.active) = (manager_of s).(Adaptation.active)
     end.
Proof using clock.
  intros H. pose proof (fun Hr Hn => other_keeps r _ Hr Hn s eq_refl) as Hother.
  assert (match r with
     | CommitLayer _ _ | TriggerCue _ | AdaptationRound => wp (serve_venue cfg e r) (ended receipted s) s
     | Rollback _ _ => wp (serve_venue cfg e r) (ended (fun _ => True) s) s
     | _ => wp (serve_venue cfg e r) (fun _ s' => (manager_of s').(Adaptation.active) = (manager_of s).(Adaptation.active)) s
     end) as Hw.
  { destruct r; try (by apply Hother); cbn [serve_venue].
    - apply wp_bind. eapply wp_mono; [by eapply validate_keeps_inv|]. by intros [tx|err] s' [Ha _].
    - apply ended_drop. by eapply commit_ends.
    - apply ended_drop. by eapply rollback_ends.
    - apply ended_drop. by eapply cue_ends.
    - by eapply round_ends. }
  destruct r; unfold wp in Hw; destruct (serve_venue _ _ _ s); exact Hw.
Qed.

(** C31: what belonged to a venue ends with its layer. Take a node whose layers form
    the undo stack of C39, and any request. Its proposals, validations, repairs and
    reports leave the active layer as it is. Whatever else it serves, and whether
    the request succeeds or fails, a commit (at once, at a cue or at a bar line) that
    changes the layer leaves no operator lease of the venue active and no execution
    evidence of the layer before, the next report counts as new, and the receipt of
    that very commit is in the public record, with the record's evidence beside it; a
    rollback that changes the layer ends the context in the same way. The one
    exception is a request that fails because the state file could not be written or
    the public record refused the receipt: then the new layer may be active with the
    context of the one before. Commits and rollbacks that return have ended it. *)
Theorem layers_void_the_venue_context s stack : AdaptationUndo.inv (manager_of s) stack ->
  (forall r, let (s', x) := serve_venue cfg e r s in
     match r with
     | CommitLayer _ _ | TriggerCue _ | AdaptationRound => ended receipted s x s'
     | Rollback _ _ => ended (fun _ => True) s x s'
     | _ => (manager_of s').(Adaptation.active) = (manager_of s).(Adaptation.active)
     end) /\
  (forall id data s' tx, venue_adaptation_commit cfg e id data s = (s', Ok tx) -> committed_tx tx = true -> voided t s') /\
  (forall id data s' tx, venue_adaptation_rollback cfg e id data s = (s', Ok tx) -> voided t s') /\
  forall data s' d committed, venue_adaptation_trigger_cue cfg e data s = (s', Ok d) -> dget d "committed" = Some (VList committed) -> committed <> [] -> voided t s'.
Proof using clock.
  intros H. split; [intros r; by eapply served_ends|]. split_and!.
  - intros id data s' tx. unfold venue_adaptation_commit. unfold st_bind at 1. destruct (need_authority _ _ _ s) as [s1 [[]|x]]; [|done].
    unfold st_bind at 1. destruct (venue_adaptation_validate _ _ _ s1) as [s2 [tx2|x]]; [|done]. cbv zeta. unfold st_bind at 1, st_lift. destruct (vget _ "valid" _) as [v|x]; [|done].
    destruct (negb _); [unfold st_bind, st_lift; by destruct (vget _ "blockers" _)|]. unfold st_bind at 1. destruct (show_seconds e s2) as [s3 [sec|x]]; [|done].
    unfold st_bind at 1. destruct (show_bpm e s3) as [s4 [bpm|x]]; [|done]. unfold st_bind. destruct (on_manager _ s4) as [s5 [result|x]]; [|done].
    destruct (committed_tx result) eqn:Ec; [|intros [= _ <-]; by rewrite Ec]. intros Hc _. by eapply after_commit_voids.
  - intros id data s' tx. unfold venue_adaptation_rollback. unfold st_bind at 1. destruct (need_authority _ _ _ s) as [s1 [[]|x]]; [|done].
    unfold st_bind at 1. destruct (show_seconds e s1) as [s2 [sec|x]]; [|done]. unfold st_bind at 1. destruct (on_manager _ s2) as [s3 [result|x]]; [|done].
    unfold st_bind at 1. destruct (void_voids s3) as [Hv Ho]. destruct (void_venue_context e s3) as [s4 o]. cbn [fst snd] in *. rewrite Ho.
    assert (active_layer s4 = (s4, snd (active_layer s4))) as Ha by (unfold active_layer; rewrite st_get_bind; unfold st_lift; done).
    unfold st_bind at 1. rewrite Ha. destruct (snd (active_layer s4)) as [active|x]; [|done]. rewrite st_get_bind. unfold st_bind at 1, st_lift. destruct (restored_name _ _ _) as [name|x]; [|done].
    unfold st_bind. match goal with |- context [tell_show e ?a ?b ?c s4] => pose proof (tell_voided a b c s4 Hv) as Ht; destruct (tell_show e a b c s4) as [s5 [[]|x]] end; [|done].
    by intros [= <- _].
  - intros data s' d l. unfold venue_adaptation_trigger_cue. unfold st_bind at 1. destruct (need_authority _ _ _ s) as [s1 [[]|x]]; [|done].
    unfold st_bind at 1. destruct (show_seconds e s1) as [s2 [sec|x]]; [|done]. cbv zeta. unfold st_bind at 1. destruct (on_manager _ s2) as [s3 [due|x]]; [|done].
    unfold st_bind at 1. destruct (after_each e due s3) as [s4 [l'|x]] eqn:El; [|done]. pose proof (after_each_voids _ _ _ _ El) as Hv.
    assert (active_layer s4 = (s4, snd (active_layer s4))) as Ha by (unfold active_layer; rewrite st_get_bind; unfold st_lift; done).
    unfold st_bind. rewrite Ha. destruct (snd (active_layer s4)) as [active|x]; [|done]. intros [= <- <-]. cbn [dget String.eqb]. intros [= <-]. exact Hv.
Qed.
End voids.

(** ** Runs *)

(** A hall whose desk has two outputs, patched for the front of house. *)
Definition hall : pydict :=
  [("id", VStr "hall"); ("name", VStr "Great Hall"); ("capabilities", VList [VStr "audio.transport"; VStr "authority.fence"]);
   ("devices", VList [VDict [("id", VStr "desk"); ("kind", VStr "audio"); ("status", VStr "online"); ("capabilities", VList [VStr "audio.output.multi"])]]);
   ("patch", VDict [("audio.foh", VDict [("target", VStr "desk:1-2")])])].

Definition five : float := float_of_Z 5.

(** The lead of a venue before holds the front of house. *)
Definition held : AuthorityLeases.lease :=
  {| AuthorityLeases.scopeKind := "patch"; AuthorityLeases.scope := "audio.foh"; AuthorityLeases.context := "venue"; AuthorityLeases.grantee := "guest-engineer";
     AuthorityLeases.grantedBy := None; AuthorityLeases.reason := None; AuthorityLeases.issuedAt := ""; AuthorityLeases.ttlSeconds := float_of_Z 60;
     AuthorityLeases.expiresMono := float_of_Z 65; AuthorityLeases.revocation_of := AuthorityLeases.NotRevoked |}.

Definition hall_stage : stage :=
  {| node := with_part (T:=AuthorityLeases.registry) [("lease-1", held)] RuntimeCommands.solo; realization := []; venue_file := Some (json_dumps (VDict hall)) |}.

Definition sample_drawn : Adaptation.world := {| Adaptation.now := fun _ => "now"; Adaptation.uuid := fun n => dec (Z.of_nat n); Adaptation.persist_fails := fun _ => false |}.

Definition sample_scene (record : string -> pydict -> res pyval) : scene :=
  {| world_of := RuntimeFacts.calm; drawn := sample_drawn; attached := sample_drawn; found_audio := Ok []; found_midi := Ok []; publish := record;
     lease_mono := fun _ => five; lease_stamp := fun _ => "now"; checked_at := "now" |}.

Definition in_record : scene := sample_scene (fun _ _ => Ok (VDict [("recordId", VStr "record-1")])).
Definition record_fails : scene := sample_scene (fun _ _ => Raise (RuntimeError "public record unavailable")).

Definition proposed : stage := fst (serve_venue RuntimeCommands.alone in_record (Propose []) hall_stage).

(** The status of the transaction, the venue of the layer that is active, and whether the lease is. *)
Definition outcome_of (s : stage) : pyval * pyval * bool :=
  (match dget s.(node).(Runtime.adaptations).(Adaptation.transactions) "adapt-0" with Some tx => dget_none (as_dict tx) "status" | None => VNone end,
   dget_none (as_dict s.(node).(Runtime.adaptations).(Adaptation.active)) "venueName",
   existsb (fun x => AuthorityLeases._is_active five (snd x)) s.(node).(Runtime.leases)).

Example committing_ends_the_lease :
  outcome_of proposed = (VStr "proposed", VNone, true) /\
  outcome_of (fst (serve_venue RuntimeCommands.alone in_record (CommitLayer "adapt-0" []) proposed)) = (VStr "committed", VStr "Great Hall", false).
Proof. vm_compute. split; reflexivity. Qed.

(** When the public record cannot take the receipt the commit raises, but the layer
    is active, and the leases and the evidence of the venue before still count;
    the commit cannot be asked for again. *)
Example failed_receipt_keeps_the_old_leases :
  let '(s, out) := serve_venue RuntimeCommands.alone record_fails (CommitLayer "adapt-0" []) proposed in
  out = Raise (RuntimeError "public record unavailable") /\ outcome_of s = (VStr "committed", VStr "Great Hall", true) /\
  exists text, snd (serve_venue RuntimeCommands.alone in_record (CommitLayer "adapt-0" []) s) = Raise (ValueError text).
Proof. vm_compute. split_and!; [reflexivity|reflexivity|by eexists]. Qed.

(** Proposing keeps the stack of layers. *)
Lemma proposing_keeps_inv cfg e d s stack : AdaptationUndo.inv (manager_of s) stack ->
  dget (manager_of s).(Adaptation.transactions) ("adapt-" +:+ slice 16 (e.(drawn).(Adaptation.uuid) 0%nat)) = None ->
  wp (serve_venue cfg e (Propose d)) (fun _ s' => AdaptationUndo.inv (manager_of s') stack) s.
Proof.
  intros H Hf. cbn [serve_venue]. apply wp_bind. destruct (reading_keeps cfg e (manager_of s)) as (Hauth & Hplan & _). unfold venue_adaptation_propose.
  apply wp_reading with (mg := manager_of s); [done|apply Hauth| |by intros err s1 ->]. intros _ s1 E1. cbv zeta.
  apply wp_reading with (mg := manager_of s); [done|apply Hplan| |by intros err s2 ->]. intros plan s2 E2. unfold propose_plan.
  apply wp_reading with (mg := manager_of s); [done|by apply (readings_keep e (fun n => n.(Runtime.adaptations) = manager_of s))| |by intros err s3 ->]. intros venue s3 E3.
  apply on_manager_wp. rewrite E3. eapply wp_mono; [by eapply AdaptationUndo.propose_outcome|]. intros [tx|err] mg [Hi _] s4 E4; [apply wp_ret|]; by rewrite E4.
Qed.

Lemma proposed_inv : AdaptationUndo.inv (manager_of proposed) [].
Proof. apply (proposing_keeps_inv RuntimeCommands.alone in_record [] hall_stage []); [apply AdaptationUndo.initial_inv|reflexivity]. Qed.

Lemma layers_void_the_venue_context_witness :
  let '(s', x) := serve_venue RuntimeCommands.alone in_record (CommitLayer "adapt-0" []) proposed in
  x = Ok tt /\ (manager_of s').(Adaptation.active) <> (manager_of proposed).(Adaptation.active) /\ voided five s' /\ receipted in_record s'.
Proof.
  pose proof (proj1 (layers_void_the_venue_context RuntimeCommands.alone in_record five (fun _ => eq_refl) proposed [] proposed_inv) (CommitLayer "adapt-0" [])) as H.
  assert (let '(s', x) := serve_venue RuntimeCommands.alone in_record (CommitLayer "adapt-0" []) proposed in
    match x with Ok _ => is_dict (manager_of s').(Adaptation.active) | Raise _ => false end = true) as Hnew by (vm_compute; reflexivity).
  assert (is_dict (manager_of proposed).(Adaptation.active) = false) as Hold by (vm_compute; reflexivity).
  destruct (serve_venue RuntimeCommands.alone in_record (CommitLayer "adapt-0" []) proposed) as [s' [[]|x]]; [|discriminate Hnew].
  assert ((manager_of s').(Adaptation.active) <> (manager_of proposed).(Adaptation.active)) as Hne by (intros E; rewrite E, Hold in Hnew; discriminate Hnew).
  split; [reflexivity|]. split; [exact Hne|]. destruct H as [H|[H|(err & H & _)]]; [destruct (Hne H)|exact H|discriminate H].
Defined.
