(* ===== verification/AudioActivation.v ===== *)
(** * Activation of audio streams (backend/runtime.py, backend/audio_preflight.py, backend/audio_conversion.py)

    How a node starts, stops and reports the audio streams of its slots: authority,
    the acknowledgement of the operator, the endpoint that is configured, the query
    of the hardware's constraints, the conversions that must be stated, and the
    command lines that follow. The engine answers as in DeviceHotplug; what the ALSA
    library answers to each stage of the query is an argument. *)

From S2P Require Import Prelude PyStr PyFloat PyVal PyFacts StateLogic JsonText Runtime DeviceIdentity DeviceHotplug.
From S2P Require Adaptation ShowData ShowState ShowCommands WitnessQuorum RuntimeFacts.
From Stdlib Require Import SpecFloat.

#[local] Open Scope string_scope.
#[local] Open Scope list_scope.
#[local] Open Scope Z_scope.
#[local] Open Scope st_scope.

(** ** Constraints of the hardware (audio_preflight.py) *)

Definition PCM_FORMATS : list string := ["FLOAT_LE"; "S32_LE"; "S24_3LE"; "S16_LE"].

Definition one_of (v : pyval) (l : list string) : bool := existsb (fun s => py_eq v (VStr s)) l.

(** One to three digits. *)
Definition few_digits (l : list ascii) : bool := negb (null l) && (length l <=? 3)%nat && forallb is_digit l.

(** [re.fullmatch("hw:[0-9]{1,3},[0-9]{1,3}", address)]. *)
Definition numeric_address (address : string) : bool :=
  match after (chars "hw:") (chars address) with
  | Some l => let '(card, rest) := span is_digit l in
              match rest with c :: device => Ascii.eqb c ","%char && few_digits card && few_digits device | [] => false end
  | None => false
  end.

Definition integer_in (data : pydict) (key : string) (default_ low high : Z) : res pyval :=
  match dget_or data key (VInt default_) with
  | VInt z => if (low <=? z) && (z <=? high) then Ok (VInt z) else Raise (ValueError (key +:+ " must be an integer from " +:+ dec low +:+ " to " +:+ dec high))
  | _ => Raise (ValueError (key +:+ " must be an integer from " +:+ dec low +:+ " to " +:+ dec high))
  end.

Definition validate_request (data : pydict) : res pydict :=
  match dget_none data "address" with
  | VStr address =>
      if negb (numeric_address address) then Raise (ValueError "address must be a numeric hardware PCM, e.g. hw:0,0")
      else
        let direction := dget_or data "direction" (VStr "playback") in
        let fmt := dget_or data "format" (VStr "FLOAT_LE") in
        if negb (one_of direction ["playback"; "capture"]) || negb (one_of fmt PCM_FORMATS) then Raise (ValueError "unsupported direction or sample format")
        else
          rate ← integer_in data "sampleRate" 48000 8000 384000;
          channels ← integer_in data "channels" 2 1 32;
          period ← integer_in data "periodFrames" 256 16 8192;
          Ok [("address", VStr address); ("direction", direction); ("format", fmt); ("sampleRate", rate); ("channels", channels); ("periodFrames", period)]
  | _ => Raise (ValueError "address must be a numeric hardware PCM, e.g. hw:0,0")
  end.

(** The host: not a Linux one; without the ALSA library; or what the library answers
    at each stage of the query, negative when it fails. *)
Inductive probe := NotLinux | NoLibrary | Library (answers : string -> Z).

Definition stages : list string := ["open"; "allocate"; "constraints"; "access"; "format"; "channels"; "sampleRate"; "periodFrames"].

(** [AlsaProbe.check]: the first stage that fails, with its code. *)
Definition check (answers : string -> Z) : string * Z :=
  match List.find (fun stage => answers stage <? 0) stages with Some stage => (stage, answers stage) | None => ("complete", 0) end.

(** The status, whether the request is supported, and the next action for an error code. *)
Definition failure_of (stage : string) (code : Z) : string * pyval * string :=
  if code =? -16 then ("busy", VNone, "Release the PCM from its current owner, then retry.")
  else if (code =? -13) || (code =? -1) then ("permission-denied", VNone, "Check device permissions for the server account.")
  else if (code =? -2) || (code =? -19) then ("disconnected-or-missing", VNone, "Rescan devices and confirm the PCM address.")
  else if (code =? -22) && existsb (String.eqb stage) ["access"; "format"; "channels"; "sampleRate"; "periodFrames"]
  then ("constraints-unsupported", VBool false, "The combined request failed at " +:+ stage +:+ "; revise the request and retry. No fallback was applied.")
  else ("probe-error", VNone, "Inspect the ALSA error and retry; support remains unknown.").

Definition report_of (request : pydict) (status : string) (supported stage code : pyval) (next_action : string) : pydict :=
  [("documentType", VStr "org.upp.audio-preflight"); ("schemaVersion", VInt 1); ("request", VDict request); ("status", VStr status); ("supported", supported);
   ("physicalOutputsArmed", VBool false); ("streamStarted", VBool false); ("qualification", VStr "hardware-tests-required"); ("stage", stage); ("errorCode", code);
   ("nextAction", VStr next_action); ("scope", VStr "Requested interleaved PCM constraints only; stream open and runtime timing remain unverified")].

Definition audio_preflight (query : pydict -> probe) (data : pydict) : res pydict :=
  request ← validate_request data;
  Ok match query request with
     | NotLinux => report_of request "unavailable" VNone VNone VNone "Use a Linux ALSA host for this preflight."
     | NoLibrary => report_of request "unavailable" VNone VNone VNone "Install or repair the OS ALSA runtime; required library or symbols are unavailable."
     | Library answers =>
         let '(stage, code) := check answers in
         if 0 <=? code then report_of request "constraints-supported" (VBool true) (VStr stage) VNone "Explicitly configure the stream and verify its actual format and timing before use."
         else let '(status, supported, next_action) := failure_of stage code in report_of request status supported (VStr stage) (VInt code) next_action
     end.

(** ** Conversions (audio_conversion.py) *)

Definition device_parameters (device : pydict) : res (Z * Z * string) :=
  catch key_type_value
    (r ← dindex device "sampleRate"; rate ← py_int r; c ← dindex device "channels"; channels ← py_int c; f ← dindex device "format"; Ok (rate, channels, py_str f))
    (fun _ => Raise (ValueError "device parameters require sampleRate, channels and format")).

Definition from_to (capture : bool) (kind : string) (device canonical : pyval) (algorithm : string) : pydict :=
  [("kind", VStr kind); ("from", if capture then device else canonical); ("to", if capture then canonical else device); ("algorithm", VStr algorithm)].

(** The name of the channel conversion a device needs. *)
Definition required_channels (capture : bool) (channels : Z) : string :=
  if capture && (channels =? 1) then "mono-to-stereo" else if negb capture && (channels =? 1) then "stereo-to-mono" else "explicit-matrix".

Definition channel_matrix (required : string) : pydict :=
  if String.eqb required "explicit-matrix"
  then [("canonicalLeft", VInt 0); ("canonicalRight", VInt 1); ("additionalDeviceChannels", VStr "silence-on-playback-ignore-on-capture")]
  else if String.eqb required "stereo-to-mono" then [("mono", VStr "0.5*left+0.5*right")]
  else [("left", VStr "mono"); ("right", VStr "mono")].

(** A conversion that the policy must state, and its flag. *)
Definition stated_conversion (needed : bool) (policy : pydict) (key required message : string) (conversion : pydict) (flag : Z) : res (list pyval * Z) :=
  if negb needed then Ok ([], 0)
  else if negb (py_eq (dget_none policy key) (VStr required)) then Raise (ValueError message)
  else Ok ([VDict conversion], flag).

Definition audio_conversion_plan (device : pydict) (policy : pyval) (direction : string) : res pydict :=
  if negb (String.eqb direction "playback" || String.eqb direction "capture") then Raise (ValueError "conversion direction must be playback or capture")
  else
    parameters ← device_parameters device;
    let '(rate, channels, sample_format) := (parameters : Z * Z * string) in
    if negb ((8000 <=? rate) && (rate <=? 384000)) || negb ((1 <=? channels) && (channels <=? 32)) || negb (existsb (String.eqb sample_format) PCM_FORMATS)
    then Raise (ValueError "invalid device audio parameters")
    else
      value ← match policy with VNone => Ok [] | VDict d => Ok d | _ => Raise (ValueError "conversionPolicy must be an object") end;
      let capture := String.eqb direction "capture" in
      let required := required_channels capture channels in
      rates ← stated_conversion (negb (rate =? 192000)) value "sampleRate" "bounded-sinc" "sample-rate conversion requires conversionPolicy.sampleRate=bounded-sinc"
                (from_to capture "sample-rate" (VInt rate) (VInt 192000) "bounded-sinc") 1;
      formats ← stated_conversion (negb (String.eqb sample_format "FLOAT_LE")) value "sampleFormat" "normalize-integer" "integer PCM conversion requires conversionPolicy.sampleFormat=normalize-integer"
                  (from_to capture "sample-format" (VStr sample_format) (VStr "FLOAT_LE") "signed-normalization") 4;
      matrix ← stated_conversion (negb (channels =? 2)) value "channels" required ("channel conversion requires conversionPolicy.channels=" +:+ required)
                 (from_to capture "channels" (VInt channels) (VInt 2) required ++ [("matrix", VDict (channel_matrix required))]) 2;
      let conversions := fst rates ++ fst formats ++ fst matrix in
      Ok [("documentType", VStr "org.upp.audio-conversion-plan"); ("schemaVersion", VInt 1); ("direction", VStr direction);
          ("canonical", VDict [("sampleRate", VInt 192000); ("format", VStr "FLOAT_LE"); ("channels", VInt 2)]);
          ("device", VDict [("sampleRate", VInt rate); ("format", VStr sample_format); ("channels", VInt channels)]);
          ("requiresConversion", VBool (negb (null conversions))); ("conversions", VList conversions);
          ("nativeConversionFlags", VInt (Z.lor (Z.lor (snd rates) (snd formats)) (snd matrix)));
          ("upscalingRestoresMissingBandwidth", VBool false); ("approved", VBool true); ("physicalOutputsArmed", VBool false)].

(** ** Numbers of a command line *)

(** [f"{x:.nf}"]. *)
Definition fixed (n : nat) (x : float) : string :=
  let sign (s : bool) := if s then "-" else "" in
  match x with
  | S754_nan => "nan"
  | S754_infinity s => sign s +:+ "inf"
  | S754_zero s => sign s +:+ "0." +:+ of_chars (zeros (Z.of_nat n))
  | S754_finite s m e =>
      let '(a, b) := ratio_of m e in
      let q := div_even (a * pow10 (Z.of_nat n)) b in
      let digits := dec (q mod pow10 (Z.of_nat n)) in
      sign s +:+ dec (q / pow10 (Z.of_nat n)) +:+ "." +:+ of_chars (zeros (Z.of_nat n - str_len digits)) +:+ digits
  end.

(** ** State *)

(** A node with its devices, and the last query made for each slot and direction. *)
Record station := { node : Runtime.runtime; devices : hub; preflights : list (string * pydict) }.

#[export] Instance station_node : Part station Runtime.runtime.
Proof. refine {| part := node; with_part n s := {| node := n; devices := s.(devices); preflights := s.(preflights) |} |}; [done|by intros []|done]. Defined.
#[export] Instance station_devices : Part station hub.
Proof. refine {| part := devices; with_part h s := {| node := s.(node); devices := h; preflights := s.(preflights) |} |}; [done|by intros []|done]. Defined.

(** [(direction, slot)] as a key. *)
Definition slot_key (direction : string) (slot : Z) : string := direction +:+ ":" +:+ dec slot.

Definition keep_preflight (direction : string) (slot : Z) (report : pydict) : st station unit :=
  st_modify (fun s => {| node := s.(node); devices := s.(devices); preflights := aput s.(preflights) (slot_key direction slot) report |}).

Section activation.
Context (cfg : Runtime.runtime_config) (w : Runtime.world) (e : engine) (query : pydict -> probe).

Definition on_devices {A} (m : st hub A) : st station A := inside (T:=hub) m.
Definition line (command : string) : st station (list (string * string)) := on_devices (request e command).

(** [self.state.snapshot().get("audio") or {}]. *)
Definition audio_section (s : station) : res pydict :=
  show ← ShowState.snapshot false false w.(Runtime.show_clock).(ShowState.mono_snapshot) s.(node).(Runtime.show); Ok (Adaptation.dict_at show "audio").

Definition read_audio : st station pydict := let* s := st_get in st_lift (audio_section s).

(** The slot's configuration, one of four. *)
Definition config_of (configs : pydict -> res (list pydict)) (audio : pydict) (slot : Z) : res pydict :=
  l ← configs audio; Ok (default [] (l !! Z.to_nat slot)).

Definition mapped_device (key : string) (slot : Z) : st station (option string) :=
  let* s := st_get in if slot =? 0 then st_lift (Runtime._mapped_execution_device key s.(node)) else st_ret None.

(** [mapped or configured]. *)
Definition desired_of (mapped : option string) (configured : string) : string :=
  match mapped with Some m => str_or m configured | None => configured end.

Definition find_device (desired direction : string) : st station (option pydict) := on_devices (_find_audio_device desired direction).

(** The device is there, connected, and of the direction. *)
Definition usable (direction : string) (found : option pydict) : bool :=
  match found with Some (f :: d) => audio_candidate direction (f :: d) | _ => false end.

Definition _audio_activation_check (device : pydict) (capture : bool) (rate channels period slot : Z) (sample_format : string) : st station pydict :=
  let direction := if capture then "capture" else "playback" in
  let backend := lower (strip (py_str (py_or (dget_or device "backend" (VStr "")) (VStr "alsa")))) in
  if negb (String.eqb backend "alsa")
  then st_raise (RuntimeError ("audio " +:+ direction +:+ " activation preflight adapter is not implemented for " +:+ str_or backend "unknown"))
  else
    let* report := st_lift (catch is_value_error
      (audio_preflight query [("address", VStr (field_text device "address")); ("direction", VStr direction); ("format", VStr sample_format);
                              ("sampleRate", VInt rate); ("channels", VInt channels); ("periodFrames", VInt period)])
      (fun _ => Raise (RuntimeError "audio activation requires an explicit numeric ALSA hardware endpoint"))) in
    keep_preflight (if capture then "input" else "output") slot report ;;;
    if negb (is_true (dget_none report "supported"))
    then st_raise (RuntimeError ("audio " +:+ direction +:+ " preflight blocked activation: " +:+ py_str (dget_none report "status")))
    else st_ret report.

Definition int_of (d : pydict) (k : string) (default : pyval) : res Z := py_int (dget_or d k default).
Definition float_of (d : pydict) (k : string) (default : pyval) : res float := py_float (dget_or d k default).
Definition raw_int (raw : list (string * string)) (k default : string) : res Z := py_int (VStr (raw_get raw k default)).
Definition raw_float (raw : list (string * string)) (k default : string) : res float := py_float (VStr (raw_get raw k default)).

(** [_physical_audio_execution(raw.get("execution")) and raw.get("running") == "1"]. *)
Definition started (raw : list (string * string)) : bool := _physical_audio_execution (stated raw "execution") && raw_is raw "running" "1".

(** The plan for the parameters the engine reports after activation. *)
Definition actual_plan (raw : list (string * string)) (rate : res float) (channels : Z) (policy : pyval) (direction : string) : res pydict :=
  r ← rate; rounded ← py_round_int r; c ← raw_int raw "actualChannels" (dec channels);
  audio_conversion_plan [("sampleRate", VInt rounded); ("format", VStr (raw_get raw "actualFormat" "FLOAT_LE")); ("channels", VInt c)] policy direction.

(** [raw.get(key, float)] of a rate. *)
Definition actual_rate (raw : list (string * string)) (default : res float) : res float :=
  match alookup raw "actualRate" with Some v => py_float (VStr v) | None => default end.

(** ** The lines of an activation (native_engine.py) *)

Definition bind_player (command kind port player : string) (slot : Z) : st station (list (string * string)) :=
  if negb (is_token player) then st_raise (ValueError "player id must be a non-empty token")
  else if negb (slot_ok slot) then st_raise (ValueError (port +:+ " slot must be 0..3"))
  else line (command +:+ " " +:+ dec slot +:+ " " +:+ player).

Definition bind_audio_output_player : string -> Z -> st station (list (string * string)) := bind_player "AUDIO_OUTPUT_BIND_PLAYER" "player" "audio output".
Definition bind_audio_input_player : string -> Z -> st station (list (string * string)) := bind_player "AUDIO_INPUT_BIND_PLAYER" "player" "audio input".

Definition set_audio_output (output : Z) (master ceiling_db : float) : st station unit :=
  let* _ := line ("AUDIO_OUTPUT " +:+ dec output +:+ " " +:+ fixed 6 master +:+ " " +:+ fixed 3 ceiling_db) in st_ret tt.

Definition configure_audio_drift (slot : Z) (enabled : bool) (max_ppm queue_gain_ppm : float) : st station unit :=
  let* _ := line ("AUDIO_DRIFT_CONFIG " +:+ dec slot +:+ " " +:+ (if enabled then "1" else "0") +:+ " " +:+ fixed 3 max_ppm +:+ " " +:+ fixed 3 queue_gain_ppm) in st_ret tt.

Definition route_audio_input (output : Z) (gain : float) (slot : Z) : st station unit :=
  let* _ := line ("AUDIO_INPUT_ROUTE " +:+ dec slot +:+ " " +:+ dec output +:+ " " +:+ fixed 6 gain) in st_ret tt.

Definition known_format (direction sample_format : string) : st station unit :=
  if existsb (String.eqb sample_format) PCM_FORMATS then st_ret tt else st_raise (ValueError ("unsupported audio " +:+ direction +:+ " sample format")).

Definition output_line (rate period output slot flags channels : Z) (sample_format : string) : string :=
  "AUDIO_ACTIVATE " +:+ dec slot +:+ " " +:+ fixed 3 (float_of_Z rate) +:+ " " +:+ dec period +:+ " " +:+ dec output +:+ " " +:+ dec flags
  +:+ (if negb (String.eqb sample_format "FLOAT_LE") || negb (channels =? 2) then " " +:+ sample_format +:+ " " +:+ dec channels else "").

Definition input_line (rate period channels source slot flags : Z) (sample_format : string) : string :=
  "AUDIO_INPUT_ACTIVATE " +:+ dec slot +:+ " " +:+ fixed 3 (float_of_Z rate) +:+ " " +:+ dec period +:+ " " +:+ dec channels +:+ " " +:+ dec source +:+ " " +:+ dec flags
  +:+ (if negb (String.eqb sample_format "FLOAT_LE") then " " +:+ sample_format else "").

Definition start_output (rate period output slot flags channels : Z) (sample_format : string) : st station (list (string * string)) :=
  known_format "output" sample_format ;;;
  if negb ((1 <=? channels) && (channels <=? 32)) then st_raise (ValueError "audio output channels must be 1..32")
  else line (output_line rate period output slot flags channels sample_format).

Definition start_input (rate period channels source slot flags : Z) (sample_format : string) : st station (list (string * string)) :=
  known_format "input" sample_format ;;;
  line (input_line rate period channels source slot flags sample_format).

(** ** Output streams *)

(** The endpoint a slot asks for: that of the venue's mapping, else that of the show. *)
Definition desired_id (configs : pydict -> res (list pydict)) (key : string) (slot : Z) (s : station) : res string :=
  audio ← audio_section s; config ← config_of configs audio slot;
  mapped ← (if slot =? 0 then Runtime._mapped_execution_device key s.(node) else Ok None);
  Ok (desired_of mapped (field_text config "deviceId")).

Definition need (b : bool) (x : exn) : st station unit := if b then st_ret tt else st_raise x.

(** What an activation is made of once it is allowed. *)
Record ready := {
  r_audio : pydict;
  r_config : pydict;
  r_desired : string;
  r_mapped : bool;
  r_device : option pydict;
  r_rate : Z;
  r_period : Z;
  r_channels : Z;
  r_format : string;
  r_preflight : pydict;
  r_flags : Z;
}.

Definition execution_id (r : ready) : string :=
  match r.(r_device) with Some (f :: d) => py_str (dget_or (f :: d) "id" (VStr r.(r_desired))) | _ => r.(r_desired) end.

Definition virtual_preflight : pydict := [("status", VStr "virtual-device"); ("supported", VBool true); ("streamStarted", VBool false)].

(** Every check of an output activation, up to the conversion plan. *)
Definition output_ready (data : pydict) (slot : Z) : st station ready :=
  let* s := st_get in
  need (Runtime._has_authority cfg w s.(node)) (RuntimeError "node lacks authoritative lease for physical audio output") ;;;
  need e.(available) (RuntimeError "native audio execution unavailable") ;;;
  need (is_true (dget_none data "acknowledgePhysicalOutput")) (ValueError "audio activation requires acknowledgePhysicalOutput=true") ;;;
  need (slot_ok slot) (ValueError "audio output slot must be 0..3") ;;;
  let* audio := read_audio in
  let* config := st_lift (config_of _audio_output_configs audio slot) in
  let* mapped := mapped_device "audio.foh" slot in
  let desired := desired_of mapped (field_text config "deviceId") in
  need (negb (String.eqb desired "")) (RuntimeError ("no desired audio output device is configured for slot " +:+ dec slot)) ;;;
  let* _ := on_devices (_refresh_audio_devices e audio true) in
  let* device := find_device desired "output" in
  need (String.eqb desired "null-audio" || usable "output" device) (RuntimeError "desired audio output is not currently connected") ;;;
  let* rate := st_lift (int_of audio "sampleRate" (VInt 192000)) in
  let* period := st_lift (int_of audio "bufferFrames" (VInt 256)) in
  let format := py_str (dget_or data "format" (VStr "FLOAT_LE")) in
  let* channels := st_lift (int_of data "channels" (VInt 2)) in
  let* preflight := (if String.eqb desired "null-audio" then st_ret virtual_preflight
                     else _audio_activation_check (default [] device) false rate channels period slot format) in
  let* plan := st_lift (audio_conversion_plan [("sampleRate", VInt rate); ("format", VStr format); ("channels", VInt channels)] (dget_none data "conversionPolicy") "playback") in
  let* flags := st_lift (int_of plan "nativeConversionFlags" (VInt 0)) in
  st_ret {| r_audio := audio; r_config := config; r_desired := desired; r_mapped := match mapped with Some m => negb (String.eqb m "") | None => false end; r_device := device;
            r_rate := rate; r_period := period; r_channels := channels; r_format := format; r_preflight := preflight; r_flags := flags |}.

(** The lines that prepare the slot; the output of the graph it plays. *)
Definition output_prepared (r : ready) (slot : Z) : st station Z :=
  let* configured := st_lift (int_of r.(r_config) "graphOutput" (VInt 0)) in
  let player := strip (field_text r.(r_config) "playerId") in
  on_devices (select_audio_device e (execution_id r) slot) ;;;
  let* output := (if String.eqb player "" then st_ret configured
                  else let* binding := bind_audio_output_player player slot in
                       st_lift (match alookup binding "output" with Some v => py_int (VStr v) | None => Ok configured end)) in
  let* master := st_lift (float_of r.(r_config) "master" (VFloat (float_of_Z 1))) in
  let* ceiling := st_lift (float_of r.(r_config) "limiterCeilingDb" (VFloat (float_of_Z (-1)))) in
  set_audio_output output master ceiling ;;;
  let drift := py_or (dget_none r.(r_config) "driftCompensation") (VDict []) in
  let* enabled := st_lift (vget drift "enabled" (VBool true)) in
  let* max_ppm := st_lift (v ← vget drift "maxCorrectionPpm" (VFloat (float_of_Z 2000)); py_float v) in
  let* gain_ppm := st_lift (v ← vget drift "queueGainPpm" (VFloat (float_of_Z 1000)); py_float v) in
  configure_audio_drift slot (truthy enabled) max_ppm gain_ppm ;;;
  st_ret output.

(** What follows a stream that runs: its endpoint must still be there. *)
Definition confirm_output (desired : string) (slot : Z) : st station unit :=
  let* audio := read_audio in
  let* _ := on_devices (_refresh_audio_devices e audio false) in
  let* found := find_device desired "output" in
  if match found with Some (_ :: _) => false | _ => true end
  then let* _ := on_devices (deactivate_audio e (Z.to_nat slot)) in st_raise (RuntimeError "audio output disconnected during activation; stream was stopped")
  else inside (T:=Runtime.runtime) (Runtime._mark_post_promotion_output w "audio").

Definition activate_audio (data : pydict) (slot : Z) : st station pydict :=
  let* r := output_ready data slot in
  let* output := output_prepared r slot in
  let* raw := start_output r.(r_rate) r.(r_period) output slot r.(r_flags) r.(r_channels) r.(r_format) in
  let running := started raw in
  st_when running (confirm_output r.(r_desired) slot) ;;;
  let player := strip (field_text r.(r_config) "playerId") in
  let* played := st_lift (match alookup raw "output" with Some v => py_int (VStr v) | None => Ok output end) in
  let* plan := st_lift (actual_plan raw (actual_rate raw (float_of r.(r_audio) "sampleRate" (VInt 192000))) 2 (dget_none data "conversionPolicy") "playback") in
  st_ret [("slot", VInt slot); ("active", VBool running); ("executionBackend", VStr (raw_get raw "execution" "none"));
          ("deviceId", VStr (raw_get raw "device" r.(r_desired))); ("output", VInt played); ("playerId", if String.eqb player "" then VNone else VStr player);
          ("purpose", dget_or r.(r_config) "purpose" (VStr "aux")); ("desiredDeviceId", VStr r.(r_desired)); ("executionDeviceId", VStr (execution_id r));
          ("automaticIdentityReconnect", VBool (negb (String.eqb (execution_id r) r.(r_desired)))); ("showDesiredDeviceId", VStr (field_text r.(r_config) "deviceId"));
          ("venuePatchApplied", VBool r.(r_mapped)); ("activationPreflight", VDict r.(r_preflight)); ("conversionPlan", VDict plan)].

(** ** Input streams *)

(** The configured rate, else the rate of the section. *)
Definition input_rate (config audio : pydict) : res Z :=
  py_int (match dget config "sampleRate" with Some v => v | None => dget_or audio "sampleRate" (VInt 192000) end).

Definition route_of (config : pydict) : pyval := py_or (dget_none config "route") (VDict []).

(** What the route of a slot says: its gain, then its output. *)
Definition route_gain (config : pydict) : res float := v ← vget (route_of config) "gain" (VFloat (float_of_Z 0)); py_float v.
Definition route_output (config : pydict) : res Z := v ← vget (route_of config) "output" (VInt 0); py_int v.

(** Every check of an input activation, up to the conversion plan; and the gain of its route. *)
Definition input_ready (data : pydict) (slot : Z) : st station (ready * float) :=
  let* s := st_get in
  need (Runtime._has_authority cfg w s.(node)) (RuntimeError "node lacks authoritative lease for physical audio input") ;;;
  need e.(available) (RuntimeError "native audio input unavailable") ;;;
  need (is_true (dget_none data "acknowledgePhysicalInput")) (ValueError "audio input activation requires acknowledgePhysicalInput=true") ;;;
  need (slot_ok slot) (ValueError "audio input slot must be 0..3") ;;;
  let* audio := read_audio in
  let* config := st_lift (config_of _audio_input_configs audio slot) in
  let* mapped := mapped_device "audio.live-input" slot in
  let desired := desired_of mapped (field_text config "deviceId") in
  need (negb (String.eqb desired "")) (RuntimeError ("no desired audio input device is configured for slot " +:+ dec slot)) ;;;
  let* _ := on_devices (_refresh_audio_devices e audio true) in
  let* device := find_device desired "input" in
  need (usable "input" device) (RuntimeError "desired audio input is not currently connected") ;;;
  let* rate := st_lift (input_rate config audio) in
  let* period := st_lift (int_of audio "bufferFrames" (VInt 256)) in
  let* gain := st_lift (route_gain config) in
  need (negb (flt (float_of_Z 0) gain && negb (is_true (dget_none data "acknowledgeSignalRoute"))))
    (ValueError "nonzero persisted input routing requires acknowledgeSignalRoute=true") ;;;
  let* channels := st_lift (int_of data "channels" (VInt 2)) in
  let format := py_str (dget_or data "format" (VStr "FLOAT_LE")) in
  let* preflight := _audio_activation_check (default [] device) true rate channels period slot format in
  let* plan := st_lift (audio_conversion_plan [("sampleRate", VInt rate); ("format", VStr format); ("channels", VInt channels)] (dget_none data "conversionPolicy") "capture") in
  let* flags := st_lift (int_of plan "nativeConversionFlags" (VInt 0)) in
  st_ret ({| r_audio := audio; r_config := config; r_desired := desired; r_mapped := match mapped with Some m => negb (String.eqb m "") | None => false end; r_device := device;
             r_rate := rate; r_period := period; r_channels := channels; r_format := format; r_preflight := preflight; r_flags := flags |}, gain).

(** The lines that prepare the slot; the source of the graph it feeds. *)
Definition input_prepared (r : ready) (slot : Z) : st station Z :=
  let player := strip (field_text r.(r_config) "playerId") in
  on_devices (select_audio_input e (execution_id r) slot) ;;;
  if String.eqb player "" then st_ret (24 + slot)
  else let* binding := bind_audio_input_player player slot in
       st_lift (match alookup binding "source" with Some v => py_int (VStr v) | None => Ok (24 + slot) end).

Definition confirm_input (desired : string) (slot : Z) : st station unit :=
  let* audio := read_audio in
  let* _ := on_devices (_refresh_audio_devices e audio false) in
  let* found := find_device desired "input" in
  if match found with Some (_ :: _) => false | _ => true end
  then let* _ := on_devices (deactivate_audio_input e (Z.to_nat slot)) in st_raise (RuntimeError "audio input disconnected during activation; stream was stopped")
  else st_ret tt.

Definition activate_audio_input (data : pydict) (slot : Z) : st station pydict :=
  let* allowed := input_ready data slot in
  let '(r, gain) := (allowed : ready * float) in
  let* source := input_prepared r slot in
  let* raw := start_input r.(r_rate) r.(r_period) r.(r_channels) source slot r.(r_flags) r.(r_format) in
  let* output := st_lift (route_output r.(r_config)) in
  route_audio_input output gain slot ;;;
  let running := started raw in
  st_when running (confirm_input r.(r_desired) slot) ;;;
  let player := strip (field_text r.(r_config) "playerId") in
  let* fed := st_lift (match alookup raw "source" with Some v => py_int (VStr v) | None => Ok source end) in
  let* plan := st_lift (actual_plan raw (actual_rate raw (py_float (VInt r.(r_rate)))) r.(r_channels) (dget_none data "conversionPolicy") "capture") in
  st_ret [("slot", VInt slot); ("active", VBool running); ("executionBackend", VStr (raw_get raw "execution" "none")); ("deviceId", VStr (raw_get raw "device" (execution_id r)));
          ("desiredDeviceId", VStr r.(r_desired)); ("executionDeviceId", VStr (execution_id r)); ("automaticIdentityReconnect", VBool (negb (String.eqb (execution_id r) r.(r_desired))));
          ("source", VInt fed); ("playerId", if String.eqb player "" then VNone else VStr player); ("route", route_of r.(r_config));
          ("showDesiredDeviceId", VStr (field_text r.(r_config) "deviceId")); ("venuePatchApplied", VBool r.(r_mapped));
          ("activationPreflight", VDict r.(r_preflight)); ("conversionPlan", VDict plan)].

(** ** Reports and stopping *)

(** The fields of a report, in the order they are computed. *)
Definition fields_of (fields : list (string * res pyval)) : res pydict := map_res (fun f => v ← snd f; Ok (fst f, v)) fields.

Definition counter (raw : list (string * string)) (field key : string) : string * res pyval := (field, n ← raw_int raw key "0"; Ok (VInt n)).
Definition measure (raw : list (string * string)) (field key : string) : string * res pyval := (field, x ← raw_float raw key "0"; Ok (VFloat x)).
Definition plain (field : string) (v : pyval) : string * res pyval := (field, Ok v).

(** [round(int(x) / 1_000_000.0, 3)]. *)
Definition to_milliseconds (ns : res Z) : res pyval := n ← ns; x ← py_float (VInt n); Ok (VFloat (fround 3 (fdiv x (float_of_Z 1000000)))).

Definition stream_error (raw : list (string * string)) (said : string) : pyval :=
  if String.eqb (raw_get raw "error" "none") "none" then VNone else VStr said.

Definition close_to (x y : float) : bool := flt (fabs (fsub x y)) (float_of_dec false 1 (-2)).

(** The drift compensation that is asked for, and whether the engine has it. *)
Definition drift_applied (drift : pydict) (enabled : bool) (max_ppm gain_ppm : float) : res bool :=
  if negb (Bool.eqb enabled (truthy (dget_or drift "enabled" (VBool true)))) then Ok false
  else m ← float_of drift "maxCorrectionPpm" (VFloat (float_of_Z 2000));
       if negb (close_to max_ppm m) then Ok false
       else g ← float_of drift "queueGainPpm" (VFloat (float_of_Z 1000)); Ok (close_to gain_ppm g).

Definition output_report (raw : list (string * string)) (config : pydict) (slot : Z) (desired : string) (mapped connected : bool) (preflight : pyval) : res pydict :=
  drift ← Adaptation.py_dict (py_or (dget_none config "driftCompensation") (VDict []));
  let enabled := String.eqb (raw_get raw "driftEnabled" "0") "1" in
  max_ppm ← raw_float raw "maxCorrectionPpm" "2000";
  gain_ppm ← raw_float raw "queueGainPpm" "1000";
  applied ← drift_applied drift enabled max_ppm gain_ppm;
  fields_of
    [plain "available" (VBool true); plain "slot" (VInt slot);
     plain "active" (VBool (_physical_audio_execution (stated raw "execution") && raw_is raw "state" "2"));
     plain "executionBackend" (VStr (raw_get raw "execution" "none")); plain "selectedDeviceId" (VStr (raw_get raw "selected" "none"));
     plain "desiredDeviceId" (VStr desired); plain "showDesiredDeviceId" (VStr (field_text config "deviceId")); plain "venuePatchApplied" (VBool mapped);
     plain "desiredConnected" (VBool connected); plain "purpose" (dget_or config "purpose" (VStr "aux")); plain "playerId" (py_or (dget_none config "playerId") VNone);
     counter raw "state" "state"; counter raw "callbacks" "callbacks"; counter raw "xruns" "xruns";
     ("output", n ← raw_int raw "output" (py_str (dget_or config "graphOutput" (VInt 0))); Ok (VInt n));
     counter raw "queuedFrames" "queued"; counter raw "droppedFrames" "dropped"; counter raw "underrunFrames" "underruns";
     plain "rateMeasured" (VBool (String.eqb (raw_get raw "rateMeasured" "0") "1")); measure raw "ratePpm" "ratePpm";
     plain "driftCompensation" (VDict drift); plain "driftEnabled" (VBool enabled); plain "activeMaxCorrectionPpm" (VFloat max_ppm);
     plain "activeQueueGainPpm" (VFloat gain_ppm); plain "driftPolicyApplied" (VBool applied); measure raw "correctionPpm" "correctionPpm";
     counter raw "sourceFrames" "sourceFrames"; counter raw "compensatedBlocks" "compensatedBlocks"; counter raw "firstWriteNs" "firstWriteNs";
     counter raw "lastWriteNs" "lastWriteNs"; counter raw "maxExcessGapNs" "maxExcessGapNs"; ("maxExcessGapMs", to_milliseconds (raw_int raw "maxExcessGapNs" "0"));
     counter raw "framesWritten" "framesWritten"; measure raw "configuredSampleRate" "configuredRate"; counter raw "configuredPeriodFrames" "periodFrames";
     counter raw "configuredChannels" "channels"; measure raw "requestedSampleRate" "requestedRate"; counter raw "requestedPeriodFrames" "requestedPeriodFrames";
     counter raw "requestedChannels" "requestedChannels"; plain "configuredSampleFormat" (VStr (raw_get raw "sampleFormat" "unknown"));
     counter raw "firstRenderShowNs" "firstRenderShowNs"; counter raw "lastRenderShowNs" "lastRenderShowNs"; counter raw "lastBlockEndShowNs" "lastBlockEndShowNs";
     ("master", x ← float_of config "master" (VFloat (float_of_Z 1)); Ok (VFloat x));
     ("limiterCeilingDb", x ← float_of config "limiterCeilingDb" (VFloat (float_of_Z (-1))); Ok (VFloat x));
     plain "error" (stream_error raw (spaced (raw_get raw "error" ""))); plain "activationPreflight" preflight].

(** What the engine says of a slot; nothing when it cannot be asked. *)
Definition slot_status (m : st hub (list (string * string))) : st station (option (list (string * string))) :=
  st_catch is_runtime_error (let* raw := on_devices m in st_ret (Some raw)) (fun _ => st_ret None).

Definition unknown_stream (slot : Z) (execution desired : string) (connected : bool) : pydict :=
  [("available", VBool false); ("slot", VInt slot); ("executionBackend", VStr execution); ("active", VBool false); ("desiredDeviceId", VStr desired); ("desiredConnected", VBool connected)].

Definition present {A} (o : option A) : bool := match o with Some _ => true | None => false end.

Definition audio_stream_status (slot : Z) : st station pydict :=
  need (slot_ok slot) (ValueError "audio output slot must be 0..3") ;;;
  let* audio := read_audio in
  let* config := st_lift (config_of _audio_output_configs audio slot) in
  let* mapped := mapped_device "audio.foh" slot in
  let desired := desired_of mapped (field_text config "deviceId") in
  let* found := find_device desired "output" in
  let connected := String.eqb desired "null-audio" || present found in
  if negb e.(available) then st_ret (unknown_stream slot "bridge-only" desired connected)
  else
    let* status := slot_status (DeviceHotplug.audio_stream_status e (Z.to_nat slot)) in
    match status with
    | None => st_ret (unknown_stream slot "none" desired connected)
    | Some raw =>
        let* s := st_get in
        st_lift (output_report raw config slot desired (match mapped with Some m => negb (String.eqb m "") | None => false end) connected
                   (match alookup s.(preflights) (slot_key "output" slot) with Some report => VDict report | None => VNone end))
    end.

(** [_physical_audio_execution(..) and int(raw.get("state", "0")) == 2]. *)
Definition input_active (raw : list (string * string)) : res bool :=
  if _physical_audio_execution (stated raw "execution") then n ← raw_int raw "state" "0"; Ok (n =? 2) else Ok false.

Definition input_report (raw : list (string * string)) (config : pydict) (slot : Z) (desired : string) (mapped connected : bool) : res pydict :=
  fields_of
    [plain "available" (VBool true); plain "slot" (VInt slot); ("active", b ← input_active raw; Ok (VBool b));
     plain "executionBackend" (VStr (raw_get raw "execution" "none")); plain "deviceId" (VStr (raw_get raw "selected" "none"));
     plain "desiredDeviceId" (VStr desired); plain "showDesiredDeviceId" (VStr (field_text config "deviceId")); plain "venuePatchApplied" (VBool mapped);
     plain "desiredConnected" (VBool connected); plain "playerId" (py_or (dget_none config "playerId") VNone);
     ("sampleRate", x ← match alookup raw "sampleRate" with Some v => py_float (VStr v) | None => float_of config "sampleRate" (VFloat (float_of_Z 192000)) end; Ok (VFloat x));
     plain "route" (route_of config); ("source", n ← raw_int raw "source" (dec (24 + slot)); Ok (VInt n)); counter raw "callbacks" "callbacks"; counter raw "xruns" "xruns";
     measure raw "configuredSampleRate" "configuredRate"; counter raw "configuredPeriodFrames" "periodFrames"; counter raw "configuredChannels" "channels";
     measure raw "requestedSampleRate" "requestedRate"; counter raw "requestedPeriodFrames" "requestedPeriodFrames"; counter raw "requestedChannels" "requestedChannels";
     plain "configuredSampleFormat" (VStr (raw_get raw "sampleFormat" "unknown")); counter raw "queuedFrames" "queued"; counter raw "droppedFrames" "dropped";
     counter raw "underrunFrames" "underruns"; plain "error" (stream_error raw (raw_get raw "error" "none"))].

Definition no_input (slot : Z) : pydict := [("available", VBool false); ("slot", VInt slot); ("active", VBool false); ("executionBackend", VStr "none")].

Definition audio_input_status (slot : Z) : st station pydict :=
  need (slot_ok slot) (ValueError "audio input slot must be 0..3") ;;;
  if negb e.(available) then st_ret (no_input slot)
  else
    let* status := slot_status (DeviceHotplug.audio_input_status e (Z.to_nat slot)) in
    match status with
    | None => st_ret (no_input slot)
    | Some raw =>
        let* audio := read_audio in
        let* config := st_lift (config_of _audio_input_configs audio slot) in
        let* mapped := mapped_device "audio.live-input" slot in
        let desired := desired_of mapped (field_text config "deviceId") in
        let* found := find_device desired "input" in
        st_lift (input_report raw config slot desired (match mapped with Some m => negb (String.eqb m "") | None => false end) (negb (String.eqb desired "") && present found))
    end.

Definition slots_status (key : string) (status : Z -> st station pydict) : st station pydict :=
  let* reports := st_map status [0; 1; 2; 3] in st_ret [("available", VBool e.(available)); (key, VList (map VDict reports))].
Definition audio_outputs_status : st station pydict := slots_status "outputs" audio_stream_status.
Definition audio_inputs_status : st station pydict := slots_status "inputs" audio_input_status.

Definition deactivate_audio (slot : Z) : st station pydict :=
  need e.(available) (RuntimeError "native audio execution unavailable") ;;;
  need (slot_ok slot) (ValueError "audio output slot must be 0..3") ;;;
  let* _ := on_devices (DeviceHotplug.deactivate_audio e (Z.to_nat slot)) in audio_stream_status slot.

Definition deactivate_audio_input (slot : Z) : st station pydict :=
  need e.(available) (RuntimeError "native audio input unavailable") ;;;
  need (slot_ok slot) (ValueError "audio input slot must be 0..3") ;;;
  let* _ := on_devices (DeviceHotplug.deactivate_audio_input e (Z.to_nat slot)) in audio_input_status slot.

(** A recovery is an activation of a slot that does not run. *)
Definition recover (port : string) (status activate : Z -> st station pydict) (data : pydict) (slot : Z) : st station pydict :=
  need (is_true (dget_none data "acknowledgeRecovery")) (ValueError ("audio " +:+ port +:+ "recovery requires acknowledgeRecovery=true")) ;;;
  let* report := status slot in
  need (negb (truthy (dget_none report "active"))) (ValueError ("audio " +:+ (if String.eqb port "" then "output" else "input") +:+ " is already active")) ;;;
  let* result := activate slot in st_ret (dset result "recoveryAttempted" (VBool true)).

Definition recover_audio (data : pydict) : Z -> st station pydict := recover "" audio_stream_status (activate_audio data) data.
Definition recover_audio_input (data : pydict) : Z -> st station pydict := recover "input " audio_input_status (activate_audio_input data) data.

(** ** After a change of the audio section *)

Definition apply_output (config : pydict) : st station unit :=
  let* configured := st_lift (int_of config "graphOutput" (VInt 0)) in
  let player := strip (field_text config "playerId") in
  let* output := (if String.eqb player "" then st_ret configured
                  else st_catch (fun x => is_runtime_error x || is_value_error x)
                         (let* slot := st_lift (v ← dindex config "slot"; py_int v) in
                          let* binding := bind_audio_output_player player slot in
                          st_lift (match alookup binding "output" with Some v => py_int (VStr v) | None => Ok configured end))
                         (fun _ => st_ret configured)) in
  let* master := st_lift (float_of config "master" (VFloat (float_of_Z 1))) in
  let* ceiling := st_lift (float_of config "limiterCeilingDb" (VFloat (float_of_Z (-1)))) in
  set_audio_output output master ceiling.

(** What [patch_audio] asks of the engine once the show has the section [audio]. *)
Definition apply_audio (audio : pydict) : st station unit :=
  st_when e.(available) (st_catch (fun x => is_runtime_error x || type_or_value x)
    (let* _ := on_devices (_refresh_audio_devices e audio true) in
     let* configs := st_lift (_audio_output_configs audio) in st_iter apply_output configs)
    (fun _ => st_ret tt)).
End activation.

(** * What an activation sends *)

Definition starts (line : string) : bool := starts_with "AUDIO_ACTIVATE " line || starts_with "AUDIO_INPUT_ACTIVATE " line.
Definition quiet (line : string) : Prop := starts line = false.

(** Nothing but quiet lines since [base]. *)
Definition quiet_since (base : list string) (h : hub) : Prop := exists l, h.(sent) = base ++ l /\ Forall quiet l.

Lemma quiet_start h : quiet_since h.(sent) h.
Proof. exists []. by rewrite app_nil_r. Qed.

Lemma quiet_send base h line : quiet_since base h -> quiet line -> quiet_since base (send [line] h).
Proof. intros (l & Hl & Hq) H. exists (l ++ [line]). cbn. rewrite Hl, app_assoc. split; [done|]. apply Forall_app. by repeat constructor. Qed.

Section quiet_lines.
Context (e : engine) (base : list string).
Abbreviation ok := (quiet_since base).

Lemma request_quiet command : quiet command -> keeps ok (request e command).
Proof.
  intros Hq h Hh. unfold request. destruct (existsb _ _); [done|]. cbn. by apply quiet_send.
Qed.

Lemma keeps_st_map {A B} (f : A -> act B) l : (forall a, keeps ok (f a)) -> keeps ok (st_map f l).
Proof. intros Hf. induction l as [|a l IH]; cbn; [apply keeps_ret|]. apply keeps_bind; [done|]. intros b. apply keeps_bind; [done|]. intros bs. apply keeps_ret. Qed.

Lemma or_else_quiet {A} (m : act A) a : keeps ok m -> keeps ok (or_else m a).
Proof. intros Hm. apply keeps_catch; [done|]. intros. apply keeps_ret. Qed.

Lemma scan_quiet start line limit entry : quiet start -> (forall i, quiet (line +:+ " " +:+ dec i)) -> keeps ok (scan e start line limit entry).
Proof.
  intros Hs Hl. unfold scan. apply keeps_bind; [by apply request_quiet|]. intros r. apply keeps_lift_bind. intros n _. apply keeps_st_map. intros i.
  apply keeps_bind; [by apply request_quiet|]. intros. apply keeps_ret.
Qed.

Lemma stop_quiet status stop unsafe slot : (forall i, quiet (status +:+ " " +:+ dec i)) -> (forall i, quiet (stop +:+ " " +:+ dec i)) ->
  keeps ok (stop_unsafe (slot_request e status) (slot_request e stop) unsafe slot).
Proof.
  intros Hs Hp. apply or_else_quiet, keeps_bind; [by apply request_quiet|]. intros r. destruct (runs_unsafe _ _); [|apply keeps_ret].
  apply keeps_bind; [by apply request_quiet|]. intros. apply keeps_ret.
Qed.

Lemma select_quiet command kind port device slot : (forall x, quiet (command +:+ " " +:+ x)) -> keeps ok (select_audio e command kind port device slot).
Proof.
  intros Hc. unfold select_audio. destruct (negb _); [apply keeps_raise|]. destruct (negb _); [apply keeps_raise|].
  apply keeps_bind; [by apply request_quiet|]. intros. apply keeps_ret.
Qed.

Lemma select_one_quiet records devices direction select config : (forall d slot, keeps ok (select d slot)) -> keeps ok (select_one records devices direction select config).
Proof.
  intros Hs. unfold select_one. destruct (audio_resolve _ _ _ _) as [[|f d]|]; try apply keeps_ret. apply or_else_quiet, keeps_lift_bind. intros. apply Hs.
Qed.

Lemma publish_quiet devices changes : keeps ok (publish_audio e devices changes).
Proof. intros h (l & Hl & Hq). exists l. by rewrite publish_audio_sends. Qed.

Lemma refresh_quiet audio reselect : keeps ok (_refresh_audio_devices e audio reselect).
Proof.
  unfold _refresh_audio_devices. destruct (negb _).
  { apply keeps_bind; [|intros; apply keeps_ret]. apply keeps_modify. intros h Hh. exact Hh. }
  apply keeps_bind; [by apply scan_quiet|]. intros scanned. apply keeps_get_bind. intros h Hh. cbv zeta. apply at_keeps; [done|].
  apply keeps_bind; [apply keeps_st_map; intros slot; apply keeps_bind; [by apply stop_quiet|]; intros; apply keeps_bind; [by apply stop_quiet|]; intros; apply keeps_ret|].
  intros stopped. apply keeps_lift_bind. intros outputs _. apply keeps_lift_bind. intros inputs _. apply keeps_bind.
  - apply keeps_when, keeps_bind; [|intros _]; apply keeps_iter; intros c _; apply select_one_quiet; intros; by apply select_quiet.
  - intros _. apply keeps_lift_bind. intros. apply publish_quiet.
Qed.
End quiet_lines.

(** A scan leaves no empty entry. *)
Lemma report_nonempty records devices outputs inputs d x : audio_report records devices outputs inputs d = Ok x -> x <> [].
Proof. intros H. unfold audio_report in H. apply bind_ok in H as (? & _ & H). apply bind_ok in H as (? & _ & H). injection H as <-. apply dset_nonempty. Qed.

Lemma reported_nonempty records devices outputs inputs l reported : map_res (audio_report records devices outputs inputs) l = Ok reported -> [] ∉ reported.
Proof.
  revert reported. induction l as [|d l IH]; intros reported H; cbn in H; [injection H as <-; by intros ?%elem_of_nil|]. pyinv. subst reported.
  intros [Hx|Hx]%elem_of_cons; [|by eapply IH]. symmetry in Hx. revert Hx. by eapply report_nonempty.
Qed.

Section starting.
Context (cfg : Runtime.runtime_config) (w : Runtime.world) (e : engine) (query : pydict -> probe).

(** The node is that of [s], and nothing but quiet lines was sent since. *)
Definition unstarted (s s' : station) : Prop := quiet_since s.(devices).(sent) s'.(devices) /\ s'.(node) = s.(node).

Lemma unstarted_start s : unstarted s s.
Proof. split; [apply quiet_start|done]. Qed.

Lemma on_devices_wp {A} (m : act A) (Q : res A -> station -> Prop) s :
  wp m (fun x h => Q x (with_part h s)) s.(devices) -> wp (on_devices m) Q s.
Proof. unfold wp, on_devices. by rewrite inside_eq. Qed.

Lemma refresh_nonempty audio reselect h : wp (_refresh_audio_devices e audio reselect) (fun x h' => match x with Ok _ => [] ∉ h'.(_audio_devices) | Raise _ => True end) h.
Proof.
  unfold _refresh_audio_devices. destruct (negb _); [apply wp_modify, wp_ret; by intros ?%elem_of_nil|].
  eapply (wp_step _ _ (fun _ _ => True)); [done| |done]. intros scanned h1 _. apply wp_get. cbv zeta.
  eapply (wp_step _ _ (fun _ _ => True)); [done| |done]. intros stopped h2 _. apply wp_lift_any; [|done]. intros outputs _. apply wp_lift_any; [|done]. intros inputs _.
  eapply (wp_step _ _ (fun _ _ => True)); [done| |done]. intros _ h3 _. apply wp_lift_any; [|done]. intros reported Hr.
  apply reported_nonempty in Hr. unfold publish_audio. apply wp_modify.
  eapply (wp_step _ _ (fun _ h' => [] ∉ h'.(_audio_devices))).
  - apply (keeps_iter (fun h' => [] ∉ h'.(_audio_devices))).
    + intros d _. unfold record_audio. apply keeps_bind; [|intros; apply keeps_ret]. intros x Hx. by rewrite inside_eq.
    + by destruct (next_history _ _ _).
  - intros _ h' H. by apply wp_ret.
  - done.
Qed.

(** *** What a scan leaves *)

Definition entry_keys : list string := ["index"; "id"; "connected"; "input"; "output"].

(** What a report keeps of the entry the engine gave. *)
Definition same_endpoint (entry d : pydict) : Prop := forall k, k ∈ entry_keys -> dget d k = dget entry k.

(** After [h] the endpoints were asked for again, and those there are now are what
    the engine answered then. *)
Definition rescanned (h h' : hub) : Prop := exists scanned tail,
  h'.(sent) = h.(sent) ++ scan_lines "AUDIO_SCAN" "AUDIO_DEVICE" (length scanned) ++ tail /\
  listing e "AUDIO_DEVICE" audio_entry (S (length h.(sent))) scanned /\ Forall2 same_endpoint scanned h'.(_audio_devices).

Lemma dmerge_other d x k : Forall (fun kv => fst kv <> k) x -> dget (dmerge d x) k = dget d k.
Proof.
  intros H. revert d. induction H as [|[k' v] x Hk Hx IH]; intros d; [done|]. rewrite dget_dmerge_cons, IH. by rewrite dget_dset_ne.
Qed.

(** The identity adds no field of the entry. *)
Lemma described_fields fs device k : k ∈ entry_keys -> Forall (fun kv => fst kv <> k) (describe_audio_device fs device).
Proof.
  intros Hk. assert (forall p s b t l, Forall (fun kv => fst kv <> k) (l : pydict) -> Forall (fun kv => fst kv <> k) (audio_identity p s b t ++ l)) as Hid.
  { intros p s b t l Hl. unfold entry_keys in Hk. repeat (apply elem_of_cons in Hk as [->|Hk]; [by repeat (constructor; [discriminate|])|]). by apply elem_of_nil in Hk. }
  assert (forall p s b t, Forall (fun kv => fst kv <> k) (audio_identity p s b t)) as Hid0 by (intros; rewrite <- (app_nil_r (audio_identity _ _ _ _)); by apply Hid).
  unfold describe_audio_device, describe_wasapi, describe_coreaudio, describe_alsa_audio, audio_volatile. cbv zeta.
  repeat case_match; try apply Hid0; apply Hid; repeat constructor; cbn [fst]; intros <-;
    unfold entry_keys in Hk; repeat (apply elem_of_cons in Hk as [?|Hk]; [done|]); by apply elem_of_nil in Hk.
Qed.

Lemma set_keys_other l x k : Forall (fun kv => fst kv <> k) l -> dget (fold_left set_key l x) k = dget x k.
Proof. intros H. revert x. induction H as [|[k' v] l Hk Hl IH]; intros x; [done|]. cbn [fold_left]. rewrite IH. unfold set_key. by rewrite dget_dset_ne. Qed.

Lemma reported_same records records' devices outputs inputs entry d :
  audio_report records devices outputs inputs (described_audio e records' entry) = Ok d -> same_endpoint entry d.
Proof.
  intros H k Hk. unfold audio_report in H. apply bind_ok in H as (? & _ & H). apply bind_ok in H as (? & _ & H).
  match type of H with Ok ?y = Ok d => assert (d = y) as -> by congruence end. clear H. pose proof (described_fields e.(system) entry k Hk) as Hd.
  unfold entry_keys in Hk. repeat (apply elem_of_cons in Hk as [->|Hk]; [|]); [..|by apply elem_of_nil in Hk].
  all: rewrite set_keys_other by (by repeat (constructor; [discriminate|])); unfold described_audio; rewrite dget_dset_ne by discriminate; by apply dmerge_other.
Qed.

Lemma Forall2_map_l {A B C} (f : A -> B) (P : B -> C -> Prop) l l' : Forall2 P (map f l) l' <-> Forall2 (fun a => P (f a)) l l'.
Proof. apply Forall2_fmap_l. Qed.

(** What is published is what was reported. *)
Lemma publish_devices devices changes h : (fst (publish_audio e devices changes h)).(_audio_devices) = devices.
Proof.
  unfold publish_audio. rewrite st_modify_bind. set (h1 := let '(g, c) := _ in _). assert (h1.(_audio_devices) = devices) as H1 by (unfold h1; by destruct (next_history _ _ _)).
  assert (keeps (fun x => x.(_audio_devices) = devices) (st_iter (record_audio e) devices ;;; st_ret devices)) as Hk; [|by apply Hk].
  apply keeps_bind; [|intros; apply keeps_ret]. apply keeps_iter. intros d _. unfold record_audio. apply keeps_bind; [|intros; apply keeps_ret].
  intros x Hx. by rewrite inside_eq.
Qed.

Lemma refresh_rescanned audio h : e.(available) = true ->
  wp (_refresh_audio_devices e audio false) (fun x h' => match x with Ok _ => rescanned h h' | Raise _ => True end) h.
Proof.
  intros He. unfold _refresh_audio_devices. rewrite He. cbn [negb]. destruct (scan_audio_sends e h) as (n & _ & Hf & Hok).
  apply wp_bind. unfold wp at 1. destruct (scan_audio_devices e h) as [h1 [scanned|x]]; cbn [fst snd] in *; [|done]. subst h1.
  destruct (Hok scanned eq_refl) as [<- Hl]. apply wp_get. cbv zeta.
  eapply (wp_step _ _ (fun _ h' => exists tail, h'.(sent) = h.(sent) ++ scan_lines "AUDIO_SCAN" "AUDIO_DEVICE" (length scanned) ++ tail)).
  - unfold wp. match goal with |- context [st_map (stop_slot e ?u) _ ?x] => destruct (stop_slots_lines e u (seq 0 4) x) as [stopped ->] end.
    cbn [fst snd]. eexists. cbn. by rewrite <- app_assoc.
  - intros stopped h2 [tail H2]. apply wp_lift_any; [|done]. intros outputs _. apply wp_lift_any; [|done]. intros inputs _. cbn [st_when].
    unfold wp. rewrite st_ret_bind. apply wp_lift_any; [|done]. intros reported Hr. unfold wp. destruct (snd _); [|done].
    exists scanned, tail. split; [by rewrite publish_audio_sends|]. split; [done|]. rewrite publish_devices.
    apply map_res_ok, Forall2_map_l in Hr. eapply Forall2_impl; [exact Hr|]. cbn beta. intros entry d Hd. by eapply reported_same.
  - done.
Qed.

Lemma refresh_unstarted s s1 audio reselect : unstarted s s1 ->
  wp (on_devices (_refresh_audio_devices e audio reselect)) (fun x s' => unstarted s s' /\ match x with Ok _ => [] ∉ s'.(devices).(_audio_devices) | Raise _ => True end) s1.
Proof.
  intros [Hq Hn]. apply on_devices_wp. pose proof (refresh_quiet e _ audio reselect _ Hq) as H1. pose proof (refresh_nonempty audio reselect s1.(devices)) as H2.
  unfold wp in *. split; [|done]. by split.
Qed.

(** *** What the checks establish *)

Lemma check_complete answers : (snd (check answers) <? 0) = false -> forall stage, stage ∈ stages -> 0 <= answers stage.
Proof.
  unfold check. destruct (List.find _ stages) as [stage|] eqn:Ef; cbn [snd]; intros Hc stage' Hs; [apply find_some in Ef as [_ Ef]; congruence|]. pose proof (find_none _ _ Ef stage' ltac:(by apply list_elem_of_In)) as H. cbn beta in H. lia.
Qed.

Lemma preflight_supported data report : audio_preflight query data = Ok report -> is_true (dget_none report "supported") = true ->
  exists request answers, validate_request data = Ok request /\ query request = Library answers /\ forall stage, stage ∈ stages -> 0 <= answers stage.
Proof.
  unfold audio_preflight. intros H Hs. apply bind_ok in H as (request & Hv & H). injection H as <-. exists request.
  destruct (query request) as [| |answers] eqn:Eq; [discriminate Hs..|]. exists answers. split; [done|]. split; [done|]. apply check_complete.
  destruct (check answers) as [stage code]. cbn [snd]. destruct (0 <=? code) eqn:Ec; [lia|]. exfalso. revert Hs. unfold failure_of.
  repeat (match goal with |- context [if ?b then _ else _] => destruct b end; try discriminate).
Qed.

(** The hardware took the constraints of the request made for a device. *)
Definition taken (d : pydict) (capture : bool) (rate channels period : Z) (sample_format : string) : Prop :=
  exists request answers,
    validate_request [("address", VStr (field_text d "address")); ("direction", VStr (if capture then "capture" else "playback")); ("format", VStr sample_format);
                      ("sampleRate", VInt rate); ("channels", VInt channels); ("periodFrames", VInt period)] = Ok request /\
    query request = Library answers /\ forall stage, stage ∈ stages -> 0 <= answers stage.

Lemma check_taken d capture rate channels period slot sample_format s :
  wp (_audio_activation_check query d capture rate channels period slot sample_format)
     (fun x s' => s'.(devices) = s.(devices) /\ s'.(node) = s.(node) /\ match x with Ok _ => taken d capture rate channels period sample_format | Raise _ => True end) s.
Proof.
  unfold _audio_activation_check. cbv zeta. destruct (negb _); [by apply wp_raise|]. apply wp_lift_any; [|done]. intros report Hr.
  apply wp_bind. unfold wp at 1, keep_preflight, st_modify. cbn [fst snd]. destruct (is_true _) eqn:Es; cbn [negb]; [|by apply wp_raise].
  apply wp_ret. split; [done|]. split; [done|]. destruct (audio_preflight _ _) as [report'|x] eqn:Ep; cbn [catch] in Hr; [|by destruct (is_value_error x)].
  injection Hr as ->. by eapply preflight_supported.
Qed.

Lemma wp_demand {B} b x (k : unit -> st station B) Q s : (b = true -> wp (k tt) Q s) -> Q (Raise x) s -> wp (st_bind (need b x) k) Q s.
Proof. intros Hk Hx. destruct b; [by apply Hk|exact Hx]. Qed.

Lemma read_audio_eq s : read_audio w s = (s, audio_section w s).
Proof. done. Qed.

Lemma mapped_device_eq key slot s : mapped_device key slot s = (s, if slot =? 0 then Runtime._mapped_execution_device key s.(node) else Ok None).
Proof. unfold mapped_device. rewrite st_get_bind. by destruct (slot =? 0). Qed.

Lemma find_device_eq desired direction s : find_device desired direction s = (s, Ok (audio_resolve s.(devices).(audio_identities) desired s.(devices).(_audio_devices) direction)).
Proof. unfold find_device, on_devices. rewrite inside_eq. by destruct s. Qed.

Definition directed (capture : bool) : string := if capture then "input" else "output".
Definition played (capture : bool) : string := if capture then "capture" else "playback".

(** The policy states a conversion by its name. *)
Definition states (policy : pyval) (key name : string) : Prop := exists d, policy = VDict d /\ dget d key = Some (VStr name).

(** The conversions between a device and the 192 kHz float stereo of the graph that
    the operator's policy states, and the flags that ask the engine for them: 1 for
    the rate, 2 for the channels, 4 for the format. *)
Record stated_conversions (capture : bool) (policy : pyval) (rate channels : Z) (sample_format : string) (flags : Z) : Prop := {
  sc_range : 8000 <= rate <= 384000 /\ 1 <= channels <= 32 /\ sample_format ∈ ["FLOAT_LE"; "S32_LE"; "S24_3LE"; "S16_LE"];
  sc_rate : rate <> 192000 -> states policy "sampleRate" "bounded-sinc";
  sc_format : sample_format <> "FLOAT_LE" -> states policy "sampleFormat" "normalize-integer";
  sc_channels : channels <> 2 -> states policy "channels"
    (if decide (channels = 1) then (if capture then "mono-to-stereo" else "stereo-to-mono") else "explicit-matrix");
  sc_flags : flags = (if decide (rate = 192000) then 0 else 1) + (if decide (channels = 2) then 0 else 2) + (if decide (sample_format = "FLOAT_LE") then 0 else 4);
}.

Lemma stated_conversion_ok needed policy key required message conversion flag l n :
  stated_conversion needed policy key required message conversion flag = Ok (l, n) ->
  (needed = false /\ l = [] /\ n = 0) \/ (needed = true /\ l = [VDict conversion] /\ n = flag /\ dget policy key = Some (VStr required)).
Proof.
  unfold stated_conversion. destruct needed; cbn [negb]; [|intros [= <- <-]; by left]. destruct (py_eq _ _) eqn:E; cbn [negb]; [|done].
  intros [= <- <-]. right. split_and!; try done. unfold dget_none, dget_or in E. destruct (dget policy key) as [[]|]; try done. by apply String.eqb_eq in E as ->.
Qed.

Lemma plan_stated capture policy rate channels fmt plan flags :
  audio_conversion_plan [("sampleRate", VInt rate); ("format", VStr fmt); ("channels", VInt channels)] policy (played capture) = Ok plan ->
  int_of plan "nativeConversionFlags" (VInt 0) = Ok flags -> stated_conversions capture policy rate channels fmt flags.
Proof.
  unfold audio_conversion_plan. assert (negb (String.eqb (played capture) "playback" || String.eqb (played capture) "capture") = false) as -> by by destruct capture.
  assert (device_parameters [("sampleRate", VInt rate); ("format", VStr fmt); ("channels", VInt channels)] = Ok (rate, channels, fmt)) as -> by done.
  cbn [mbind res_bind]. destruct (_ || _) eqn:Er; [done|]. apply orb_false_iff in Er as [[Er1 Er2]%orb_false_iff Ef%negb_false_iff].
  assert (8000 <= rate <= 384000 /\ 1 <= channels <= 32 /\ fmt ∈ ["FLOAT_LE"; "S32_LE"; "S24_3LE"; "S16_LE"]) as Hrange.
  { split; [lia|]. split; [lia|]. apply existsb_exists in Ef as (x & Hx%list_elem_of_In & ->%String.eqb_eq). exact Hx. }
  assert (required_channels capture channels = if decide (channels = 1) then (if capture then "mono-to-stereo" else "stereo-to-mono") else "explicit-matrix") as Hreq.
  { unfold required_channels. destruct (decide (channels = 1)) as [->|Hc]; [by destruct capture|]. apply Z.eqb_neq in Hc as ->. by rewrite !andb_false_r. }
  intros H Hf. apply bind_ok in H as (value & Hv & H). apply bind_ok in H as ([l1 f1] & H1%stated_conversion_ok & H).
  apply bind_ok in H as ([l2 f2] & H2%stated_conversion_ok & H). apply bind_ok in H as ([l3 f3] & H3%stated_conversion_ok & H). injection H as <-.
  assert (Z.lor (Z.lor f1 f2) f3 = flags) as <- by (by injection Hf).
  assert (String.eqb (played capture) "capture" = capture) as Hc by by destruct capture. rewrite Hc in *.
  assert (forall k n, dget value k = Some (VStr n) -> states policy k n) as Hst.
  { intros k n Hk. destruct policy; try done; injection Hv as <-; [done|]. by eexists. }
  destruct (Z.eqb_spec rate 192000) as [Hr|Hr], (String.eqb_spec fmt "FLOAT_LE") as [Hm|Hm], (Z.eqb_spec channels 2) as [Hn|Hn]; cbn [negb] in H1, H2, H3;
    destruct H1 as [(? & ? & ->)|(? & ? & -> & S1)]; try done; destruct H2 as [(? & ? & ->)|(? & ? & -> & S2)]; try done; destruct H3 as [(? & ? & ->)|(? & ? & -> & S3)]; try done.
  all: constructor; [exact Hrange|intros ?; try done; by apply Hst|intros ?; try done; by apply Hst|intros ?; try done; rewrite <- Hreq; by apply Hst|].
  all: repeat match goal with |- context [decide ?P] => first [rewrite (decide_True (P:=P)) by done | rewrite (decide_False (P:=P)) by done] end; done.
Qed.

(** What a stream needs: authority, an engine, the acknowledgement, one of the four
    slots and an identifier; an endpoint [h] has that stands for it, whose hardware
    took the constraints (the null output needs neither); and conversions that the
    operator stated. *)
Record cleared (capture : bool) (data : pydict) (slot : Z) (s : station) (r : ready) (h : hub) : Prop := {
  c_authority : Runtime._has_authority cfg w s.(node) = true;
  c_engine : e.(available) = true;
  c_acknowledged : is_true (dget_none data (if capture then "acknowledgePhysicalInput" else "acknowledgePhysicalOutput")) = true;
  c_slot : slot_ok slot = true;
  c_desired : desired_id w (if capture then _audio_input_configs else _audio_output_configs) (if capture then "audio.live-input" else "audio.foh") slot s = Ok r.(r_desired);
  c_named : r.(r_desired) <> "";
  c_endpoint : (capture = false /\ r.(r_desired) = "null-audio") \/
    exists d, audio_stands_for h.(audio_identities) r.(r_desired) h.(_audio_devices) (directed capture) d /\ taken d capture r.(r_rate) r.(r_channels) r.(r_period) r.(r_format);
  c_conversions : stated_conversions capture (dget_none data "conversionPolicy") r.(r_rate) r.(r_channels) r.(r_format) r.(r_flags);
}.

Lemma usable_some direction found : usable direction found = true -> exists f d, found = Some (f :: d).
Proof. destruct found as [[|f d]|]; [done| |done]. intros _. by exists f, d. Qed.

Lemma output_ready_cleared data slot s :
  wp (output_ready cfg w e query data slot) (fun x s' => unstarted s s' /\ match x with Ok r => cleared false data slot s r s'.(devices) | Raise _ => True end) s.
Proof.
  pose proof (unstarted_start s) as Hs. unfold output_ready. apply wp_get.
  apply wp_demand; [intros Ha|done]. apply wp_demand; [intros He|done]. apply wp_demand; [intros Hk|done]. apply wp_demand; [intros Hslot|done].
  eapply wp_read; [apply read_audio_eq| |done]. intros audio Haudio. apply wp_lift_any; [|done]. intros config Hconfig.
  eapply wp_read; [apply mapped_device_eq| |done]. intros mapped Hmapped. cbv zeta. set (desired := desired_of _ _).
  assert (desired_id w _audio_output_configs "audio.foh" slot s = Ok desired) as Hd.
  { unfold desired_id. rewrite Haudio. cbn [mbind res_bind]. rewrite Hconfig. cbn [mbind res_bind]. by rewrite Hmapped. }
  clearbody desired. apply wp_demand; [intros Hn|done].
  eapply wp_step; [by apply (refresh_unstarted s s)| |by intros x s' [H _]]. intros ds s1 [H1 Hne].
  eapply wp_read; [apply find_device_eq| |done]. intros device [= <-]. apply wp_demand; [intros Hu|done].
  apply wp_lift_any; [|done]. intros rate _. apply wp_lift_any; [|done]. intros period _. apply wp_lift_any; [|done]. intros channels _.
  set (format := py_str _). clearbody format.
  eapply (wp_step _ _ (fun x s' => s'.(devices) = s1.(devices) /\ s'.(node) = s1.(node) /\
    match x with Ok _ => desired = "null-audio" \/ exists d, audio_stands_for s1.(devices).(audio_identities) desired s1.(devices).(_audio_devices) "output" d /\ taken d false rate channels period format | Raise _ => True end)).
  - destruct (String.eqb_spec desired "null-audio") as [->|Hnull]; [by apply wp_ret; repeat split; left|].
    cbn [orb] in Hu. destruct (usable_some _ _ Hu) as (f & d & Hr). rewrite Hr in *. cbn [default].
    eapply wp_mono; [apply check_taken|]. cbn beta. intros x s' (Hd1 & Hd2 & Ht). split; [done|]. split; [done|]. destruct x as [report|]; [|done].
    right. exists (f :: d). split; [by apply audio_resolve_some|done].
  - intros preflight s2 (Hd2 & Hn2 & He2). assert (unstarted s s2) as H2. { destruct H1. split; [by rewrite Hd2|by rewrite Hn2]. }
    apply wp_lift_any; [|done]. intros plan Hp. apply wp_lift_any; [|done]. intros flags Hf. apply wp_ret. split; [done|].
    constructor; try done; cbn [r_desired r_rate r_channels r_period r_format r_flags].
    + by intros ->.
    + rewrite Hd2. destruct He2 as [?|He2]; [by left|by right].
    + by eapply plan_stated.
  - intros x s' (Hd2 & Hn2 & _). destruct H1. split; [|done]. split; [by rewrite Hd2|by rewrite Hn2].
Qed.

Lemma input_ready_cleared data slot s :
  wp (input_ready cfg w e query data slot) (fun x s' => unstarted s s' /\ match x with Ok (r, _) => cleared true data slot s r s'.(devices) | Raise _ => True end) s.
Proof.
  pose proof (unstarted_start s) as Hs. unfold input_ready. apply wp_get.
  apply wp_demand; [intros Ha|done]. apply wp_demand; [intros He|done]. apply wp_demand; [intros Hk|done]. apply wp_demand; [intros Hslot|done].
  eapply wp_read; [apply read_audio_eq| |done]. intros audio Haudio. apply wp_lift_any; [|done]. intros config Hconfig.
  eapply wp_read; [apply mapped_device_eq| |done]. intros mapped Hmapped. cbv zeta. set (desired := desired_of _ _).
  assert (desired_id w _audio_input_configs "audio.live-input" slot s = Ok desired) as Hd.
  { unfold desired_id. rewrite Haudio. cbn [mbind res_bind]. rewrite Hconfig. cbn [mbind res_bind]. by rewrite Hmapped. }
  clearbody desired. apply wp_demand; [intros Hn|done].
  eapply wp_step; [by apply (refresh_unstarted s s)| |by intros x s' [H _]]. intros ds s1 [H1 Hne].
  eapply wp_read; [apply find_device_eq| |done]. intros device [= <-]. apply wp_demand; [intros Hu|done].
  apply wp_lift_any; [|done]. intros rate _. apply wp_lift_any; [|done]. intros period _. apply wp_lift_any; [|done]. intros gain _.
  apply wp_demand; [intros _|done]. apply wp_lift_any; [|done]. intros channels _. set (format := py_str _). clearbody format.
  destruct (usable_some _ _ Hu) as (f & d & Hr). rewrite Hr in *. cbn [default].
  eapply wp_step; [apply check_taken|..]; cbn beta.
  - intros preflight s2 (Hd2 & Hn2 & Ht). assert (unstarted s s2) as H2. { destruct H1. split; [by rewrite Hd2|by rewrite Hn2]. }
    apply wp_lift_any; [|done]. intros plan Hp. apply wp_lift_any; [|done]. intros flags Hf. apply wp_ret. split; [done|].
    constructor; try done; cbn [r_desired r_rate r_channels r_period r_format r_flags].
    + by intros ->.
    + right. exists (f :: d). rewrite Hd2. split; [by apply audio_resolve_some|done].
    + by eapply plan_stated.
  - intros x s' (Hd2 & Hn2 & _). destruct H1. split; [|done]. split; [by rewrite Hd2|by rewrite Hn2].
Qed.

(** *** The lines that prepare a slot *)

(** Since [h], quiet lines and nothing else. *)
Definition prepared (h : hub) (s : station) : Prop := exists l, s.(devices) = send l h /\ Forall quiet l.

Lemma prepared_start s : prepared s.(devices) s.
Proof. exists []. by rewrite send_nil. Qed.

Lemma line_prepared h command : quiet command -> keeps (prepared h) (line e command).
Proof.
  intros Hq s (l & Hl & Hf). unfold line, on_devices. rewrite inside_eq. unfold request. cbn [part station_devices]. destruct (existsb _ _); [by exists l|].
  exists (l ++ [command]). split; [cbn; rewrite Hl; unfold send, set_sent; cbn; by rewrite app_assoc|]. apply Forall_app. by repeat constructor.
Qed.

Lemma select_prepared h command kind port device slot : (forall x, quiet (command +:+ " " +:+ x)) -> keeps (prepared h) (on_devices (select_audio e command kind port device slot)).
Proof.
  intros Hc s Hs. unfold select_audio. destruct (negb (is_token _)); [by destruct s|]. destruct (negb (slot_ok _)); [by destruct s|].
  pose proof (line_prepared h _ (Hc (dec slot +:+ " " +:+ device)) s Hs) as H. unfold line, on_devices in *. rewrite inside_eq in H. rewrite inside_eq. unfold st_bind.
  by destruct (request _ _ _) as [h' [r|x]].
Qed.

Lemma bind_prepared h command kind port player slot : (forall x, quiet (command +:+ " " +:+ x)) -> keeps (prepared h) (bind_player e command kind port player slot).
Proof. intros Hc. unfold bind_player. destruct (negb _); [apply keeps_raise|]. destruct (negb _); [apply keeps_raise|]. apply line_prepared, Hc. Qed.

Ltac prepared_tac := repeat first [apply keeps_lift_bind; intros ? ? | apply keeps_bind; [|intros ?] | apply keeps_lift | apply keeps_ret | by apply select_prepared | by apply line_prepared | by apply bind_prepared
  | match goal with |- keeps _ (if ?b then _ else _) => destruct b end].

Lemma output_prepared_quiet h r slot : keeps (prepared h) (output_prepared e r slot).
Proof. unfold output_prepared, set_audio_output, configure_audio_drift, bind_audio_output_player. cbv zeta. prepared_tac. Qed.

Lemma input_prepared_quiet h r slot : keeps (prepared h) (input_prepared e r slot).
Proof. unfold input_prepared, bind_audio_input_player. cbv zeta. prepared_tac. Qed.

Lemma route_quiet h output gain slot : keeps (prepared h) (route_audio_input e output gain slot).
Proof. unfold route_audio_input. prepared_tac. Qed.

(** *** The line that starts a stream, and what follows *)

(** The line is sent when the operation succeeds; when it fails it may have been. *)
Definition one_line_sent (command : string) {A} (s : station) (x : res A) (s' : station) : Prop :=
  s'.(devices) = send [command] s.(devices) \/ (s'.(devices) = s.(devices) /\ match x with Ok _ => False | Raise _ => True end).

Lemma line_sent command s : wp (line e command) (one_line_sent command s) s.
Proof.
  unfold wp, line, on_devices, one_line_sent. rewrite inside_eq. unfold request. destruct (existsb _ _); [by right|]. by left.
Qed.

Lemma start_output_sent rate period output slot flags channels fmt s :
  wp (start_output e rate period output slot flags channels fmt) (one_line_sent (output_line rate period output slot flags channels fmt) s) s.
Proof.
  unfold start_output, known_format. destruct (existsb _ _); [|by right]. unfold wp. rewrite st_ret_bind. fold (wp (S:=station) (A:=list (string * string))).
  destruct (negb _); [by right|apply line_sent].
Qed.

Lemma start_input_sent rate period channels source slot flags fmt s :
  wp (start_input e rate period channels source slot flags fmt) (one_line_sent (input_line rate period channels source slot flags fmt) s) s.
Proof. unfold start_input, known_format. destruct (existsb _ _); [|by right]. unfold wp. rewrite st_ret_bind. apply line_sent. Qed.

(** Once the lines [base] were sent, the last of them the one that started the stream,
    the endpoints were asked for again, and among the answers is one that stands for
    the endpoint of the stream, with the identity pinned to it. *)
Definition seen_again (capture : bool) (desired : string) (base : list string) (s : station) : Prop :=
  exists h d, quiet_since base h /\ rescanned h s.(devices) /\
    audio_stands_for s.(devices).(audio_identities) desired s.(devices).(_audio_devices) (directed capture) d.

Definition confirmed (capture : bool) (desired : string) (base : list string) (x : res unit) (s' : station) : Prop :=
  quiet_since base s'.(devices) /\ match x with Ok _ => seen_again capture desired base s' | Raise _ => True end.

Lemma devices_quiet {A} base (m : act A) (Q : res A -> station -> Prop) s : quiet_since base s.(devices) -> keeps (quiet_since base) m ->
  (forall x s', quiet_since base s'.(devices) -> Q x s') -> wp (on_devices m) Q s.
Proof. intros Hs Hm HQ. apply on_devices_wp. unfold wp. apply HQ. by apply Hm. Qed.

Lemma rescan_seen audio base s : e.(available) = true -> quiet_since base s.(devices) ->
  wp (on_devices (_refresh_audio_devices e audio false))
     (fun x s' => quiet_since base s'.(devices) /\
        match x with Ok _ => rescanned s.(devices) s'.(devices) /\ [] ∉ s'.(devices).(_audio_devices) | Raise _ => True end) s.
Proof.
  intros He Hs. apply on_devices_wp. pose proof (refresh_quiet e _ audio false _ Hs) as H1. pose proof (refresh_nonempty audio false s.(devices)) as H2.
  pose proof (refresh_rescanned audio s.(devices) He) as H3. unfold wp in *. split; [exact H1|]. by destruct (snd _).
Qed.

Lemma confirm_output_confirmed desired slot base s : e.(available) = true -> quiet_since base s.(devices) -> wp (confirm_output w e desired slot) (confirmed false desired base) s.
Proof.
  intros He Hs. unfold confirm_output. eapply wp_read; [apply read_audio_eq| |done]. intros audio _.
  eapply wp_step; [by apply (rescan_seen audio base)| |by intros x s' [H _]]. cbn beta. intros ds s1 (H1 & Hr & Hne).
  eapply wp_read; [apply find_device_eq| |done]. intros found [= <-]. destruct (audio_resolve _ _ _ _) as [[|f d]|] eqn:Er.
  2: { unfold wp. rewrite inside_eq. split; [done|]. destruct (snd _); [|done]. exists s.(devices), (f :: d). split; [done|]. split; [done|]. by apply audio_resolve_some. }
  all: apply wp_bind, (devices_quiet base); [done|by apply request_quiet|]; by intros [r|x] s2 H2.
Qed.

Lemma confirm_input_confirmed desired slot base s : e.(available) = true -> quiet_since base s.(devices) -> wp (confirm_input w e desired slot) (confirmed true desired base) s.
Proof.
  intros He Hs. unfold confirm_input. eapply wp_read; [apply read_audio_eq| |done]. intros audio _.
  eapply wp_step; [by apply (rescan_seen audio base)| |by intros x s' [H _]]. cbn beta. intros ds s1 (H1 & Hr & Hne).
  eapply wp_read; [apply find_device_eq| |done]. intros found [= <-]. destruct (audio_resolve _ _ _ _) as [[|f d]|] eqn:Er.
  2: { apply wp_ret. split; [done|]. exists s.(devices), (f :: d). split; [done|]. split; [done|]. by apply audio_resolve_some. }
  all: apply wp_bind, (devices_quiet base); [done|by apply request_quiet|]; by intros [r|x] s2 H2.
Qed.

Lemma when_confirmed capture running desired base (m : st station unit) s : quiet_since base s.(devices) -> (forall s, quiet_since base s.(devices) -> wp m (confirmed capture desired base) s) ->
  wp (st_when running m) (fun x s' => quiet_since base s'.(devices) /\ match x with Ok _ => running = true -> seen_again capture desired base s' | Raise _ => True end) s.
Proof.
  intros Hs Hm. destruct running; cbn [st_when]; [|by apply wp_ret]. eapply wp_mono; [by apply Hm|]. intros [u|x] s' [Hq Ht]; by split.
Qed.

(** What a report says of the stream of a slot: its endpoint is named, and it runs
    only if that endpoint was seen again after the lines [base]. *)
Definition truthful (capture : bool) (desired : string) (base : list string) (x : res pydict) (s' : station) : Prop :=
  match x with
  | Ok result => dget_none result "desiredDeviceId" = VStr desired /\ (is_true (dget_none result "active") = true -> seen_again capture desired base s')
  | Raise _ => True
  end.

(** One activation: quiet lines; then either it fails and nothing was started; or
    everything it needs is there and the line that starts the stream is sent, with
    quiet lines after it and a truthful report. *)
Definition guarded (capture : bool) (data : pydict) (slot : Z) (s : station) (x : res pydict) (s' : station) : Prop :=
  exists before, Forall quiet before /\
    ((s'.(devices).(sent) = s.(devices).(sent) ++ before /\ exists err, x = Raise err) \/
     exists line after r h port, s'.(devices).(sent) = s.(devices).(sent) ++ before ++ line :: after /\ Forall quiet after /\
       cleared capture data slot s r h /\ h.(sent) = s.(devices).(sent) ++ before /\
       line = (if capture then input_line r.(r_rate) r.(r_period) r.(r_channels) port slot r.(r_flags) r.(r_format)
               else output_line r.(r_rate) r.(r_period) port slot r.(r_flags) r.(r_channels) r.(r_format)) /\
       truthful capture r.(r_desired) (s.(devices).(sent) ++ before ++ [line]) x s').

Lemma not_started capture data slot s s' err : quiet_since s.(devices).(sent) s'.(devices) -> guarded capture data slot s (Raise err) s'.
Proof. intros (l & Hl & Hq). exists l. split; [done|]. left. split; [done|]. by exists err. Qed.

Lemma unstarted_prepared s s1 s2 : unstarted s s1 -> prepared s1.(devices) s2 -> quiet_since s.(devices).(sent) s2.(devices).
Proof. intros [(l & Hl & Hq) _] (l' & Hl' & Hq'). exists (l ++ l'). rewrite Hl', sent_send, Hl, app_assoc. split; [done|]. by apply Forall_app. Qed.

Lemma cleared_send capture data slot s r h l : cleared capture data slot s r h -> cleared capture data slot s r (send l h).
Proof. intros []. by constructor. Qed.

(** Once the line is sent, with quiet lines after it. *)
Lemma started_with capture data slot s s1 s2 r port line x s' : unstarted s s1 -> cleared capture data slot s r s1.(devices) -> prepared s1.(devices) s2 ->
  line = (if capture then input_line r.(r_rate) r.(r_period) r.(r_channels) port slot r.(r_flags) r.(r_format)
          else output_line r.(r_rate) r.(r_period) port slot r.(r_flags) r.(r_channels) r.(r_format)) ->
  quiet_since (s2.(devices).(sent) ++ [line]) s'.(devices) -> truthful capture r.(r_desired) (s2.(devices).(sent) ++ [line]) x s' ->
  guarded capture data slot s x s'.
Proof.
  intros Hu Hc Hp Hline (after & Ha & Hqa) Ht. destruct (unstarted_prepared _ _ _ Hu Hp) as (before & Hb & Hqb). exists before. split; [done|]. right.
  exists line, after, r, s2.(devices), port. split; [rewrite Ha, Hb; by rewrite <- !app_assoc|]. split; [done|].
  split; [destruct Hp as (l & Hl & _); rewrite Hl; by apply cleared_send|]. split; [done|]. split; [done|]. by rewrite app_assoc, <- Hb.
Qed.

Lemma output_guarded data slot s : wp (activate_audio cfg w e query data slot) (guarded false data slot s) s.
Proof.
  unfold activate_audio. eapply wp_step; [apply output_ready_cleared| |intros x s' [[H _] _]; by apply not_started]. intros r s1 [Hu Hc].
  eapply wp_step; [apply (keeps_wp (prepared s1.(devices)) _ s1 (output_prepared_quiet _ r slot) (prepared_start s1))| |].
  2: { intros x s' Hp. apply not_started. by eapply unstarted_prepared. }
  intros output s2 Hp. set (base := s2.(devices).(sent) ++ [output_line (r_rate r) (r_period r) output slot (r_flags r) (r_channels r) (r_format r)]).
  assert (forall x s', quiet_since base s'.(devices) -> truthful false r.(r_desired) base x s' -> guarded false data slot s x s') as Hdone.
  { intros x s' Hq Ht. by apply (started_with false data slot s s1 s2 r output _ x s' Hu Hc Hp eq_refl). }
  eapply wp_step; [apply start_output_sent|..]; cbn beta.
  2: { intros x s' [Hs|[Hs _]]; [apply Hdone; [rewrite Hs; apply quiet_start|done]|]. apply not_started. rewrite Hs. by eapply unstarted_prepared. }
  intros raw s3 [Hs|[_ []]]. assert (quiet_since base s3.(devices)) as H3 by (rewrite Hs; apply quiet_start). cbv zeta.
  eapply wp_step; [apply (when_confirmed false (started raw) r.(r_desired) base); [done|]; intros; apply confirm_output_confirmed; [apply Hc|done]| |intros x s' [Hq _]; by apply Hdone].
  intros _ s4 [H4 Ht]. apply wp_lift_any; [|intros; by apply Hdone]. intros played _. apply wp_lift_any; [|intros; by apply Hdone]. intros plan _.
  apply wp_ret, Hdone; [done|]. split; [done|]. cbn. destruct (started raw); [auto|done].
Qed.

Lemma input_guarded data slot s : wp (activate_audio_input cfg w e query data slot) (guarded true data slot s) s.
Proof.
  unfold activate_audio_input. eapply wp_step; [apply input_ready_cleared| |intros x s' [[H _] _]; by apply not_started]. intros [r gain] s1 [Hu Hc].
  eapply wp_step; [apply (keeps_wp (prepared s1.(devices)) _ s1 (input_prepared_quiet _ r slot) (prepared_start s1))| |].
  2: { intros x s' Hp. apply not_started. by eapply unstarted_prepared. }
  intros source s2 Hp. set (base := s2.(devices).(sent) ++ [input_line (r_rate r) (r_period r) (r_channels r) source slot (r_flags r) (r_format r)]).
  assert (forall x s', quiet_since base s'.(devices) -> truthful true r.(r_desired) base x s' -> guarded true data slot s x s') as Hdone.
  { intros x s' Hq Ht. by apply (started_with true data slot s s1 s2 r source _ x s' Hu Hc Hp eq_refl). }
  eapply wp_step; [apply start_input_sent|..]; cbn beta.
  2: { intros x s' [Hs|[Hs _]]; [apply Hdone; [rewrite Hs; apply quiet_start|done]|]. apply not_started. rewrite Hs. by eapply unstarted_prepared. }
  intros raw s3 [Hs|[_ []]]. apply wp_lift_any; [|intros; apply Hdone; [rewrite Hs; apply quiet_start|done]]. intros output _.
  eapply wp_step; [apply (keeps_wp (prepared s3.(devices)) _ s3 (route_quiet _ output gain slot) (prepared_start s3))|..].
  2: { intros x s' (l & Hl & Hq). apply Hdone; [|done]. rewrite Hl, Hs. by exists l. }
  intros _ s4 (l & Hl & Hq). assert (quiet_since base s4.(devices)) as H4 by (rewrite Hl, Hs; by exists l). cbv zeta.
  eapply wp_step; [apply (when_confirmed true (started raw) r.(r_desired) base); [done|]; intros; apply confirm_input_confirmed; [apply Hc|done]| |intros x s' [Hx _]; by apply Hdone].
  intros _ s5 [H5 Ht]. apply wp_lift_any; [|intros; by apply Hdone]. intros fed _. apply wp_lift_any; [|intros; by apply Hdone]. intros plan _.
  apply wp_ret, Hdone; [done|]. split; [done|]. cbn. destruct (started raw); [auto|done].
Qed.

End starting.

(** ** Runs *)

(** A node that leads alone, whose output 0 is a sound card. *)
Definition alone : Runtime.runtime_config :=
  {| Runtime.witness_config := {| WitnessQuorum.urls := []; WitnessQuorum.independent_mode := false; WitnessQuorum.configured_quorum := 0; WitnessQuorum.max_clock_skew_ms := 0;
       WitnessQuorum.endpoint_meta := []; WitnessQuorum.cluster_id := "show"; WitnessQuorum.node_id := "node-a"; WitnessQuorum.secret := "secret"; WitnessQuorum.keyring := None;
       WitnessQuorum.ttl_ms := 3000; WitnessQuorum.has_fence_path := true |};
     Runtime._replication_keyring := Runtime._replication_keyring (RuntimeFacts.node_config "node-a"); Runtime._replication_secret := "replication-secret";
     Runtime._auto_failover := false; Runtime._failover_suspect_ms := 1500; Runtime._failover_promote_ms := 3000 |}.

Definition card_show : ShowData.ShowState :=
  fst (ShowCommands.run ShowCommands.sample_readings (ShowCommands.PatchAudio [("outputs", VList [VDict [("slot", VInt 0); ("deviceId", VStr "alsa-1")]])]) None None ShowCommands.sample_show).

Definition hall (role : string) : station := {| node := with_part card_show (RuntimeFacts.fresh_node "node-a" role); devices := no_hub; preflights := [] |}.

(** An engine whose card runs at the rate it says; [connected] when the lines sent number [n]. *)
Definition hall_engine (connected : nat -> bool) (said : string) : engine := {|
  available := true;
  answer := fun n command => Replied (default "OK" (alookup
    [("AUDIO_SCAN", "OK count=1");
     ("AUDIO_DEVICE 0", "OK id=alsa-1 name=Card backend=alsa address=hw:1,0 input=0 output=1 connected=" +:+ (if connected n then "1" else "0"));
     ("AUDIO_ACTIVATE 0 192000.000 256 0 0", "OK running=1 execution=alsa device=alsa-1 output=0 " +:+ said)] command));
  system := (installation (Some "s-1") []).(system); observed_ns := fun _ => 0; stored := fun _ => true |}.

Definition acknowledged : pydict := [("acknowledgePhysicalOutput", VBool true)].

(** A card that takes every constraint. *)
Definition willing : probe := Library (fun _ => 0).

(** The lines that start or stop a stream, and whether the answer says that it runs. *)
Definition effect (role : string) (connected : nat -> bool) (said : string) (answered : probe) : list string * res pyval :=
  let '(s, x) := activate_audio alone RuntimeFacts.calm (hall_engine connected said) (fun _ => answered) acknowledged 0 (hall role) in
  (List.filter (fun l => starts l || starts_with "AUDIO_DEACTIVATE" l) s.(devices).(sent), match x with Ok r => Ok (dget_none r "active") | Raise x => Raise x end).

(** It starts; it does not when the node does not lead or the hardware refuses; and it
    is stopped again when the card leaves meanwhile. *)
Example the_card_starts :
  effect "primary" (fun _ => true) "" willing = (["AUDIO_ACTIVATE 0 192000.000 256 0 0"], Ok (VBool true)) /\
  effect "standby" (fun _ => true) "" willing = ([], Raise (RuntimeError "node lacks authoritative lease for physical audio output")) /\
  effect "primary" (fun _ => true) "" (Library (fun stage => if String.eqb stage "channels" then -22 else 0)) = ([], Raise (RuntimeError "audio playback preflight blocked activation: constraints-unsupported")) /\
  effect "primary" (fun n => (n <? 10)%nat) "" willing
    = (["AUDIO_ACTIVATE 0 192000.000 256 0 0"; "AUDIO_DEACTIVATE 0"], Raise (RuntimeError "audio output disconnected during activation; stream was stopped")).
Proof. vm_compute. done. Qed.

(** A card that settles on another rate makes the activation fail, and it plays on. *)
Example refused_activation_plays_on :
  effect "primary" (fun _ => true) "actualRate=48000" willing
    = (["AUDIO_ACTIVATE 0 192000.000 256 0 0"], Raise (ValueError "sample-rate conversion requires conversionPolicy.sampleRate=bounded-sinc")).
Proof. vm_compute. done. Qed.
